(* ===== verification/_CoqProject ===== *)
-Q . S2P
Prelude.v
BitUtils.v
Pages.v
Pool.v
Bootstrap.v
Buddy.v
BuddyLemmas.v
BuddyProofs.v
BuddyTrace.v
BuddyInit.v
BuddyCheck.v
Slab.v
SlabProofs.v
SlabSpec.v
MemoryInit.v
List.v
Message.v
MessageQueue.v
UserMem.v
Graphics.v
GraphicsSpec.v
Fd.v
Task.v
TaskProofs.v
TaskSpec.v
TaskLife.v
Net.v
NetProofs.v
NetSpec.v
Fat.v
FatFiles.v
FatDir.v
FatProofs.v
FatSpec.v
FatDisk.v
FatLoad.v
FatWrite.v
FatNames.v
FatCheck.v
Paging.v
PagingProofs.v
PagingTree.v
PagingFork.v
PagingFault.v
PagingMap.v
Elf.v
ElfProofs.v
ElfSpec.v
PagingCheck.v
Timer.v
TimerSpec.v
Syscall.v
SyscallProofs.v
SyscallSpec.v
Exec.v
ExecSpec.v
Fork.v
ForkSpec.v
ElfCheck.v
Virtio.v
VirtioSpec.v
Pci.v
VirtioPci.v
VirtioPciSpec.v
Segment.v
Interrupt.v
VirtioBlk.v
VirtioBlkSpec.v
VirtioNet.v
Drivers.v
DeviceCheck.v
Trb.v
TrbRing.v
UsbDevice.v
Xhci.v
XhciSpec.v
UsbSpec.v
Acpi.v
Console.v
HeapDebug.v
