(* ===== verification/Prelude.v ===== *)
(** * UCHos: a verification library

    UCHos is a small operating system for x86-64 (C++, [src/kernel/]) with a user library
    ([src/libs/]) and a shell ([src/userland/shell/]).  The kernel manages physical memory
    and the kernel heap, builds address spaces, runs tasks that exchange messages, drives
    PCI, virtio and USB devices, and offers files, a network stack, timers and a screen
    through system calls and through services, tasks that answer messages.  This library
    translates these parts to Rocq functions and proves what they promise.

    ** How the code is translated

    A C++ function is a Rocq function on explicit state.  A [w]-bit integer is a [Z] with
    its conversions written out ([u8] to [u64], [i32], [i64] below).  Fallible code is in
    the option monad of stdpp: [None] is a fault, that is a null or wild dereference, an
    index outside an array, undefined arithmetic, or a loop that ran out of its fuel;
    errors that the code reports are values ([error_t] numbers as in [Message]).  So a
    theorem that an operation equals [Some] result says that it returns without undefined
    behaviour; theorems about loops with fuel say how much is enough, and theorems about
    loops that do not end say that no fuel is.  A C++ pointer is an address or the key of
    an object in a store, a C++ container a list, a finite map or a finite set.  What the
    code cannot know is a parameter: hardware registers ([Mmio], [VirtioHw], [ClockHw] and
    the functions of [Pci]), the answers of other processes ([ShellOs]), the outcome of an
    allocation (a supply of addresses, with 0 for a failure), the choice among equal
    elements of a priority queue ([PriorityQueue]), uninitialised memory.

    ** Files and parts

    Foundations.  [Prelude] (this file): machine integers, faults, arrays, counted loops,
    tactics and hints.  [BitUtils]: [bit_utils.cpp], and reading and writing bit fields.

    Memory ([src/kernel/memory/]).  [Pages]: page metadata ([page.cpp]).  [Pool]: the pool
    of list nodes.  [Bootstrap]: the bitmap allocator of start-up.  [Buddy]: the buddy
    allocator, with [BuddyLemmas], [BuddyProofs] (its invariant and operations),
    [BuddyTrace] (sequences of calls), [BuddyInit] (registration of memory) and
    [BuddyCheck].  [Slab], [SlabProofs], [SlabSpec]: the kernel heap.  [HeapDebug]: the
    heap of the debugging builds ([heap_debug.cpp]).  [MemoryInit]: the hand-over from the
    firmware's memory map to these allocators.  [UserMem]: copying to and from user space.
    [Paging]: page tables, fork and page faults ([paging.cpp], [fault.hpp]), with
    [PagingProofs], [PagingTree], [PagingFork], [PagingFault], [PagingMap] and
    [PagingCheck].  [Segment]: descriptor tables, task state, system call registers.

    Tasks ([src/kernel/task/], [src/libs/common/]).  [List]: the intrusive list.
    [Message], [MessageQueue]: messages and the ring of a task.  [Fd]: descriptor tables.
    [Task]: the task table, scheduler and IPC, with [TaskProofs] (the transition system
    and its invariant), [TaskSpec] and [TaskLife].  [Timer], [TimerSpec]: timers.
    [Interrupt]: gates, routes and handlers.  [Acpi]: firmware tables, the wait with the
    power-management timer, and the local APIC.

    System calls and programs ([src/kernel/syscall/], [elf.cpp]).  [Syscall]: the handlers
    on the joined state [Kern] of tasks, page tables, memory and buffers, with
    [SyscallProofs] (who owns a buffer) and [SyscallSpec].  [Elf], [ElfProofs], [ElfSpec]:
    the program loader.  [Exec], [ExecSpec]: [sys_exec] and the start of the shell.
    [Fork], [ForkSpec]: fork on the joined state, and the dispatch of system calls.
    [ElfCheck]: these at concrete states.

    Files ([src/kernel/fs/]).  [Fat]: the FAT32 volume.  [FatFiles]: the file service.
    [FatDir]: working directories.  [FatProofs], [FatSpec] (allocation), [FatDisk] (the
    table on disk), [FatLoad] (reading), [FatWrite] (writing), [FatNames] (names, open
    files), [FatCheck].

    Network ([src/kernel/net/]).  [Net], [NetProofs], [NetSpec].

    Screen ([src/kernel/graphics/]).  [Graphics], [GraphicsSpec].

    Devices ([src/kernel/hardware/]).  [Pci]: configuration space.  [Virtio],
    [VirtioSpec]: virtqueues.  [VirtioPci], [VirtioPciSpec]: the transport.  [VirtioBlk],
    [VirtioBlkSpec], [VirtioNet], [Drivers], [DeviceCheck]: the two drivers and their
    services.  [Trb], [TrbRing]: the blocks and rings of USB.  [UsbDevice]: devices,
    descriptors and the keyboard driver.  [Xhci], [XhciSpec]: the host controller.
    [UsbSpec]: what the USB stack promises.

    Console.  [Console]: keyboard focus ([keyboard.cpp]), services of the kernel task
    ([builtin.cpp]), keymap ([keymap.cpp]), terminal and shell ([userland/shell/]).

    ** What the theorems show

    - Allocators: [allocate] and [free] of the buddy system, [alloc] and [kfree] of the
      heap keep their invariants, never fault, hand out disjoint areas and take back
      exactly what was handed out; start-up gives them the free memory of the machine.
      The debugging heap is silent on correct programs and counts every violation.
    - Tasking: in every state that the tasks and interrupts reach no wakeup is lost and
      no operation faults; a call returns its own reply; messages are queued in order;
      every ready task runs within one round; exits reach the parent.
    - Timers fire at their tick, with periods of 10 ms or more; the wait with the
      power-management timer is never shorter than asked for, and on time away from the
      turn of the counter, and the APIC timer gets its period from it.
    - Address spaces: mapping, fork, copy on write and release, with reference counts; a
      write of a process is not seen by the other after a fork.
    - System calls: every out-of-line buffer has exactly one owner whatever programs ask
      for, short of a destination outside the task table, which faults; fork and exec create and replace processes on the joined state; the loader
      maps an executable byte for byte.
    - Files: allocation is all or nothing, the first two tables on disk are the one in memory, what
      is written is what is loaded.
    - Network: echo and ARP requests get the right answers.
    - Devices: enumeration finds every PCI function; the block service brings its device
      from the configuration space to operation; virtqueues and USB rings are
      exchanges and FIFO queues between driver and device; block reads return the sectors;
      receive buffers circulate; the driver addresses one USB port at a time; descriptors are
      read like a list of records; keyboard reports become exactly the key events that
      play the changes.
    - Console: keys reach the task with the focus and become exactly the command line
      that the shell runs.
    - Flaws found while modelling are theorems about the inputs that show them, for
      example [child_close_closes_parents_file], [crossing_segment_faults],
      [zero_length_descriptor_hangs] and [long_line_overflows].

    Files named Check, and the ends of the other files, apply the theorems at concrete
    states.

    ** Fuel and bounds

    Recursion over fuel is used where the code loops on data it does not control: cluster
    chains ([load_loop], bounded by the length of the chain), the events of a tick ([need]
    rounds), descriptors (one round more than there are descriptors), polls of a timer
    (the number of counts to wait), UTF-8 text (one round per character), the waits for
    the xHC (the iteration limit of the code itself).

    ** Not modelled

    The boot loader ([UchLoaderPkg/]) only calls firmware services.  The assembly
    routines (context switch, interrupt and system call entry, port access, loading of
    registers) are processor instructions; the models have the registers they load as
    fields and assume that a context switch resumes the task it is given.  [main.cpp] and
    [fat.cpp] are straight-line calls of modelled initialisations.  Serial output, the log
    and the panic screen produce text only.  The hooks for newlib and libc++, the wrappers
    of [libs/user/], and the small commands of [userland/commands/] make single system
    calls.  The kernel's own tests, build files and scripts are not part of the running system.  The
    cache and memory-ordering behaviour of the processor is not modelled: devices and
    other tasks act between the operations of the code, as the locks and the disabled
    interrupts of the code make them. *)

From stdpp Require Export base tactics numbers list gmap.
From Stdlib Require Export ZArith Lia.

#[export] Set Default Goal Selector "!".

Declare Scope uchos_scope.
Delimit Scope uchos_scope with uchos.

Global Open Scope Z_scope.

(** ** Machine integers

    A [w]-bit unsigned integer is a [Z] in [[0, 2^w)].  [wrap w] is the
    conversion to such a type; the C++ code converts implicitly whenever a
    [size_t] is passed to an [unsigned int] parameter. *)

Definition wrap (w x : Z) : Z := x mod 2 ^ w.

Abbreviation u8 := (wrap 8).
Abbreviation u16 := (wrap 16).
Abbreviation u32 := (wrap 32).
Abbreviation u64 := (wrap 64).

(** Bitwise complement at a width. *)
Definition wnot (w x : Z) : Z := 2 ^ w - 1 - wrap w x.

(** Reinterpretation of a [w]-bit pattern as a signed two's-complement value
    ([static_cast<int>(uint64_t)] and friends). *)
Definition signed (w x : Z) : Z :=
  let y := wrap w x in if y <? 2 ^ (w - 1) then y else y - 2 ^ w.

Abbreviation i32 := (signed 32).
Abbreviation i64 := (signed 64).

(** ** Faults

    Fallible code is written in stdpp's [option] monad.  [None] is a fault:
    a null dereference, an out-of-range index, or the exhaustion of the fuel
    of a loop.  A theorem that an operation equals [Some _] therefore says
    that it runs to completion without undefined behaviour. *)

Abbreviation fault := (@None _).

(** Indexing a C++ array or vector by a [Z]; out of range is a fault. *)
Definition atz {A} (l : list A) (i : Z) : option A :=
  if (0 <=? i) then l !! Z.to_nat i else None.

Definition setz {A} (l : list A) (i : Z) (x : A) : list A := <[Z.to_nat i := x]> l.

(** Length of a list as a [Z]. *)
Definition lenz {A} (l : list A) : Z := Z.of_nat (length l).

(** ** Counted loops

    [for_n n a body s] runs [body] for the [n] values [a], [a + 1], ... of the
    loop variable: the C++ [for (i = a; i < b; ++i)] is [for_n] with
    [n = Z.to_nat (b - a)]. *)

Fixpoint for_n {S : Type} (n : nat) (i : Z) (body : Z -> S -> option S) (s : S) : option S :=
  match n with
  | O => Some s
  | S n' => s' ← body i s; for_n n' (i + 1) body s'
  end.

(** ** Automation *)

Create HintDb uchos.
Create Rewrite HintDb uchos.

(** Case analysis on the head [if]/[match] of the goal, keeping equations. *)
Ltac case_if :=
  match goal with
  | |- context [if ?b then _ else _] =>
      let E := fresh "E" in destruct b eqn:E
  end.

Ltac case_if_in H :=
  match type of H with
  | context [if ?b then _ else _] =>
      let E := fresh "E" in destruct b eqn:E
  end.

(** Turn boolean comparisons of the context into propositions. *)
Ltac bool_to_prop :=
  repeat match goal with
  | H : (_ && _)%bool = true |- _ => apply andb_true_iff in H; destruct H
  | H : (_ || _)%bool = false |- _ => apply orb_false_iff in H; destruct H
  | H : (_ || _)%bool = true |- _ => apply orb_true_iff in H
  | H : (_ && _)%bool = false |- _ => apply andb_false_iff in H
  | H : negb _ = true |- _ => apply negb_true_iff in H
  | H : negb _ = false |- _ => apply negb_false_iff in H
  | H : (_ <=? _) = true |- _ => apply Z.leb_le in H
  | H : (_ <=? _) = false |- _ => apply Z.leb_gt in H
  | H : (_ <? _) = true |- _ => apply Z.ltb_lt in H
  | H : (_ <? _) = false |- _ => apply Z.ltb_ge in H
  | H : (_ =? _) = true |- _ => apply Z.eqb_eq in H
  | H : (_ =? _) = false |- _ => apply Z.eqb_neq in H
  | H : bool_decide _ = true |- _ => apply bool_decide_eq_true in H
  | H : bool_decide _ = false |- _ => apply bool_decide_eq_false in H
  end.

(** ** Lemmas on machine integers *)

Lemma wrap_small w x : 0 <= x < 2 ^ w -> wrap w x = x.
Proof. apply Z.mod_small. Qed.

Lemma signed_small w x : 0 < w -> - 2 ^ (w - 1) <= x < 2 ^ (w - 1) -> signed w x = x.
Proof.
  intros Hw Hx. unfold signed, wrap. assert (2 ^ w = 2 * 2 ^ (w - 1)) as Ew by (rewrite <- Z.pow_succ_r by lia; f_equal; lia).
  destruct (Z.lt_ge_cases x 0).
  - replace (x mod 2 ^ w) with (x + 2 ^ w) by (apply (Z.mod_unique _ _ (-1)); lia). destruct (Z.ltb_spec (x + 2 ^ w) (2 ^ (w - 1))); lia.
  - rewrite Z.mod_small by lia. destruct (Z.ltb_spec x (2 ^ (w - 1))); lia.
Qed.

Lemma wrap_range w x : 0 <= w -> 0 <= wrap w x < 2 ^ w.
Proof. intros. apply Z.mod_pos_bound. lia. Qed.

Lemma signed_range w x : 0 < w -> - 2 ^ (w - 1) <= signed w x < 2 ^ (w - 1).
Proof.
  intros Hw. unfold signed. cbv zeta. pose proof (wrap_range w x ltac:(lia)). assert (2 ^ w = 2 * 2 ^ (w - 1)) as Ew by (rewrite <- Z.pow_succ_r by lia; f_equal; lia).
  destruct (Z.ltb_spec (wrap w x) (2 ^ (w - 1))); lia.
Qed.

Lemma wrap_wrap w x : wrap w (wrap w x) = wrap w x.
Proof. unfold wrap. apply Zmod_mod. Qed.

#[export] Hint Rewrite wrap_wrap : uchos.

Lemma pow2_pos n : 0 <= n -> 0 < 2 ^ n.
Proof. intros. lia. Qed.

Lemma pow2_S n : 0 <= n -> 2 ^ (n + 1) = 2 * 2 ^ n.
Proof. intros. rewrite Z.pow_add_r by lia. lia. Qed.

Lemma pow2_le_mono m n : m <= n -> 2 ^ m <= 2 ^ n.
Proof. intros. apply Z.pow_le_mono_r; lia. Qed.

(** A multiple of a power of two is a multiple of every smaller one. *)
Lemma mod_pow2_weaken a m n : 0 <= m <= n -> a mod 2 ^ n = 0 -> a mod 2 ^ m = 0.
Proof.
  intros Hmn Ha. apply Z.mod_divide in Ha as [k ->]; [|lia].
  replace n with (m + (n - m)) by lia. rewrite Z.pow_add_r by lia.
  replace (k * (2 ^ m * 2 ^ (n - m))) with ((k * 2 ^ (n - m)) * 2 ^ m) by lia.
  apply Z.mod_mul. lia.
Qed.

(** A [w]-bit value has no bit at or above position [w]. *)
Lemma testbit_above v w n : 0 <= v < 2 ^ w -> 0 <= w <= n -> Z.testbit v n = false.
Proof.
  intros Hv Hn. destruct (Z.eq_dec v 0) as [->|]; [apply Z.bits_0|].
  apply Z.bits_above_log2; [lia|]. assert (Z.log2 v < w); [|lia]. apply Z.log2_lt_pow2; lia.
Qed.

(** Disjoint bit ranges add up. *)
Lemma lor_shift_add a b n : 0 <= n -> 0 <= b < 2 ^ n -> Z.lor (Z.shiftl a n) b = a * 2 ^ n + b.
Proof.
  intros Hn Hb. rewrite <- Z.shiftl_mul_pow2 by done. rewrite <- Z.lxor_lor, <- Z.add_nocarry_lxor; try done; apply Z.bits_inj'; intros k Hk; rewrite Z.land_spec, Z.bits_0.
  all: destruct (Z.ltb_spec k n); [rewrite Z.shiftl_spec_low by done; done|]; rewrite (testbit_above b n k) by lia; apply andb_false_r.
Qed.

(** ** Lemmas on Z-indexed lists *)

Lemma atz_Some {A} (l : list A) i x :
  atz l i = Some x <-> 0 <= i /\ l !! Z.to_nat i = Some x.
Proof.
  unfold atz. destruct (Z.leb_spec 0 i); split; intros; destruct_and?; try done; lia.
Qed.

Lemma atz_lt {A} (l : list A) i : 0 <= i < lenz l -> exists x, atz l i = Some x.
Proof.
  unfold lenz. intros H. destruct (lookup_lt_is_Some_2 l (Z.to_nat i)) as [x Hx]; [lia|].
  exists x. apply atz_Some. split; [lia|done].
Qed.

Lemma atz_Some_lt {A} (l : list A) i x : atz l i = Some x -> 0 <= i < lenz l.
Proof.
  intros [? H]%atz_Some. apply lookup_lt_Some in H. unfold lenz. lia.
Qed.

Lemma lenz_setz {A} (l : list A) i x : lenz (setz l i x) = lenz l.
Proof. unfold lenz, setz. by rewrite length_insert. Qed.

Lemma atz_setz_eq {A} (l : list A) i x : 0 <= i < lenz l -> atz (setz l i x) i = Some x.
Proof.
  unfold lenz. intros. apply atz_Some. split; [lia|]. apply list_lookup_insert_eq. lia.
Qed.

Lemma atz_setz_ne {A} (l : list A) i j x : 0 <= i -> i <> j -> atz (setz l i x) j = atz l j.
Proof.
  intros. unfold atz, setz. destruct (Z.leb_spec 0 j); [|done].
  apply list_lookup_insert_ne. lia.
Qed.

Lemma lenz_app {A} (l k : list A) : lenz (l ++ k) = lenz l + lenz k.
Proof. unfold lenz. rewrite length_app. lia. Qed.

Lemma lenz_cons {A} (x : A) l : lenz (x :: l) = lenz l + 1.
Proof. unfold lenz. simpl. lia. Qed.

Lemma lenz_nonneg {A} (l : list A) : 0 <= lenz l.
Proof. unfold lenz. lia. Qed.

#[export] Instance lenz_Permutation {A} : Proper ((≡ₚ) ==> (=)) (@lenz A).
Proof. intros l k H. unfold lenz. by rewrite (Permutation_length H). Qed.

#[export] Hint Rewrite @lenz_setz @lenz_app @lenz_cons : uchos.

(** ** Counted loops *)

(** Loop-invariant rule for [for_n]. *)
Lemma for_n_inv {S : Type} (P : Z -> S -> Prop) n a body s :
  P a s ->
  (forall i s, a <= i < a + Z.of_nat n -> P i s ->
    exists s', body i s = Some s' /\ P (i + 1) s') ->
  exists s', for_n n a body s = Some s' /\ P (a + Z.of_nat n) s'.
Proof.
  revert a s. induction n as [|n IH]; intros a s Hs Hstep; simpl.
  - exists s. replace (a + Z.of_nat 0) with a by lia. done.
  - destruct (Hstep a s) as (s1 & Hb & H1); [lia|done|]. rewrite Hb. simpl.
    destruct (IH (a + 1) s1) as (s2 & Hf & H2); [done| |].
    + intros i s' Hi. apply Hstep. lia.
    + exists s2. split; [done|]. by replace (a + Z.of_nat (Datatypes.S n)) with (a + 1 + Z.of_nat n) by lia.
Qed.
