(* ===== verification/BitUtils.v ===== *)
(** * Bit manipulation and alignment helpers

    [kernel/bit_utils.cpp]: [bit_width], [bit_width_ceil] and [align_up], all
    over [unsigned int].  Callers pass [size_t] and [uintptr_t] values, which
    the call converts with [u32]; the theorems below say for which arguments
    the 32-bit result is the mathematical one. *)

From S2P Require Import Prelude.

(** ** Definitions *)

(** [__builtin_clz] on a non-zero 32-bit value. *)
Definition builtin_clz (x : Z) : Z := 31 - Z.log2 x.

Definition bit_width (x : Z) : Z :=
  if x =? 0 then 0 else 8 * 4 - builtin_clz x.

Definition bit_width_ceil (x : Z) : Z :=
  if x =? 0 then 0
  else if Z.land x (u32 (x - 1)) =? 0 then u32 (bit_width x - 1)
  else bit_width x.

Definition align_up (value alignment : Z) : Z :=
  Z.land (u32 (value + alignment - 1)) (wnot 32 (u32 (alignment - 1))).

(** ** Bit-level lemmas *)

Lemma bit_width_pos x : 0 < x -> bit_width x = Z.log2 x + 1.
Proof.
  intros. unfold bit_width, builtin_clz. destruct (Z.eqb_spec x 0); lia.
Qed.

Lemma log2_u32 x : 0 < x < 2 ^ 32 -> 0 <= Z.log2 x < 32.
Proof.
  intros. split; [apply Z.log2_nonneg|]. apply Z.log2_lt_pow2; lia.
Qed.

(** [x & (x - 1)] is zero exactly on the powers of two. *)
Lemma land_pred_zero x : 0 < x -> Z.land x (x - 1) = 0 <-> x = 2 ^ Z.log2 x.
Proof.
  intros Hx. pose proof (Z.log2_spec x Hx) as [Hlo Hhi].
  pose proof (Z.log2_nonneg x) as Hn. split.
  - intros Hland. destruct (Z.eq_dec x (2 ^ Z.log2 x)) as [|Hne]; [done|].
    assert (Z.log2 (x - 1) = Z.log2 x) as Hl.
    { apply Z.log2_unique; [done|]. lia. }
    assert (Z.testbit (Z.land x (x - 1)) (Z.log2 x) = true) as Hb.
    { rewrite Z.land_spec, Z.bit_log2 by done. rewrite <- Hl at 1.
      rewrite Z.bit_log2; [done|]. lia. }
    rewrite Hland, Z.bits_0 in Hb. done.
  - intros Heq. rewrite Heq at 1 2.
    replace (2 ^ Z.log2 x - 1) with (Z.ones (Z.log2 x))
      by (rewrite Z.ones_equiv; lia).
    rewrite Z.land_ones by done. apply Z_mod_same_full.
Qed.

(** Clearing the low [k] bits of a [w]-bit value by a complemented mask. *)
Lemma land_wnot_ones w k v :
  0 <= k <= w -> 0 <= v < 2 ^ w ->
  Z.land v (wnot w (2 ^ k - 1)) = v - v mod 2 ^ k.
Proof.
  intros Hk Hv. pose proof (pow2_le_mono k w ltac:(lia)). pose proof (pow2_pos k ltac:(lia)).
  unfold wnot. rewrite wrap_small by lia.
  replace (2 ^ w - 1 - (2 ^ k - 1)) with (Z.shiftl (Z.ones (w - k)) k).
  2:{ rewrite Z.shiftl_mul_pow2, Z.ones_equiv by lia.
      replace (2 ^ w) with (2 ^ (w - k) * 2 ^ k) by (rewrite <- Z.pow_add_r by lia; f_equal; lia).
      lia. }
  replace (v - v mod 2 ^ k) with (Z.shiftl (Z.shiftr v k) k).
  2:{ rewrite Z.shiftl_mul_pow2, Z.shiftr_div_pow2 by lia.
      pose proof (Z.div_mod v (2 ^ k) ltac:(lia)). lia. }
  apply Z.bits_inj'. intros n Hn. rewrite Z.land_spec.
  destruct (Z.lt_ge_cases n k) as [Hlt|Hge].
  - rewrite !Z.shiftl_spec_low by lia. by rewrite andb_false_r.
  - rewrite !Z.shiftl_spec by lia. rewrite Z.shiftr_spec by lia.
    replace (n - k + k) with n by lia.
    destruct (Z.lt_ge_cases n w) as [Hlt|Hge'].
    + rewrite Z.ones_spec_low by lia. by rewrite andb_true_r.
    + rewrite (testbit_above v w n) by lia. done.
Qed.

(** ** Correctness *)

(** [bit_width] of a non-zero 32-bit value is the number of bits of its
    binary representation: the unique [n] with [2^(n-1) <= x < 2^n]. *)
Theorem bit_width_correct x :
  0 < x < 2 ^ 32 ->
  1 <= bit_width x <= 32 /\ 2 ^ (bit_width x - 1) <= x < 2 ^ bit_width x.
Proof.
  intros Hx. rewrite bit_width_pos by lia. pose proof (log2_u32 x Hx).
  pose proof (Z.log2_spec x ltac:(lia)). replace (Z.log2 x + 1 - 1) with (Z.log2 x) by lia.
  replace (Z.log2 x + 1) with (Z.succ (Z.log2 x)) by lia. lia.
Qed.

(** [bit_width_ceil] of a non-zero 32-bit value is the least [n] with
    [x <= 2^n], the ceiling of the binary logarithm. *)
Lemma bit_width_ceil_spec x :
  0 < x < 2 ^ 32 ->
  0 <= bit_width_ceil x <= 32 /\ x <= 2 ^ bit_width_ceil x /\
  (forall n, 0 <= n -> x <= 2 ^ n -> bit_width_ceil x <= n).
Proof.
  intros Hx. pose proof (log2_u32 x Hx) as Hl. pose proof (Z.log2_spec x ltac:(lia)) as Hs.
  unfold bit_width_ceil. destruct (Z.eqb_spec x 0) as [|_]; [lia|].
  rewrite bit_width_pos by lia. rewrite (wrap_small 32 (x - 1)) by lia.
  rewrite (wrap_small 32 (_ + 1 - 1)) by lia.
  destruct (Z.eqb_spec (Z.land x (x - 1)) 0) as [Hz|Hz].
  - apply land_pred_zero in Hz; [|lia]. replace (Z.log2 x + 1 - 1) with (Z.log2 x) by lia.
    split_and!; [lia..|]. intros n Hn Hle. apply (Z.pow_le_mono_r_iff 2); lia.
  - rewrite land_pred_zero in Hz by lia. replace (Z.log2 x + 1) with (Z.succ (Z.log2 x)) by lia.
    split_and!; [lia..|]. intros n Hn Hle.
    assert (2 ^ Z.log2 x < 2 ^ n) as Hlt by lia. apply Z.pow_lt_mono_r_iff in Hlt; lia.
Qed.

(** On zero both functions return zero. *)
Lemma bit_width_0 : bit_width 0 = 0 /\ bit_width_ceil 0 = 0.
Proof. done. Qed.

(** [align_up] to a power of two, as long as the sum stays below [2^32],
    rounds up to the next multiple. *)
Lemma align_up_pow2 value k :
  0 <= k < 32 -> 0 <= value -> value + 2 ^ k <= 2 ^ 32 ->
  align_up value (2 ^ k) = value + (- value) mod 2 ^ k.
Proof.
  intros Hk Hv Hs. pose proof (pow2_pos k ltac:(lia)). unfold align_up.
  pose proof (pow2_le_mono k 32 ltac:(lia)).
  rewrite (wrap_small 32 (2 ^ k - 1)) by lia. rewrite wrap_small by lia.
  rewrite land_wnot_ones by lia.
  destruct (Z.eq_dec (value mod 2 ^ k) 0) as [Hz|Hz].
  - rewrite Z.mod_opp_l_z by lia.
    apply Z.mod_divide in Hz as [q ->]; [|lia].
    replace (q * 2 ^ k + 2 ^ k - 1) with (2 ^ k - 1 + q * 2 ^ k) by lia.
    rewrite Z.mod_add, Z.mod_small by lia. lia.
  - rewrite Z.mod_opp_l_nz by lia. pose proof (Z.mod_pos_bound value (2 ^ k) ltac:(lia)).
    replace (value + 2 ^ k - 1) with ((value mod 2 ^ k - 1) + (value / 2 ^ k + 1) * 2 ^ k) at 2
      by (pose proof (Z.div_mod value (2 ^ k)); lia).
    rewrite Z.mod_add, Z.mod_small by lia. lia.
Qed.

(** * Bit fields

    C++ bit-field members of hardware structures: the [n] bits of a word from bit
    [lo] on, and their assignment.  Shared by the segment and interrupt
    descriptors and by the USB controller's structures. *)

Definition bits (lo n x : Z) : Z := Z.land (Z.shiftr x lo) (Z.ones n).
Definition set_bits (lo n v x : Z) : Z := Z.lor (Z.ldiff x (Z.shiftl (Z.ones n) lo)) (Z.shiftl (Z.land v (Z.ones n)) lo).

Lemma testbit_bits lo n x k : 0 <= lo -> 0 <= n -> 0 <= k -> Z.testbit (bits lo n x) k = (k <? n) && Z.testbit x (k + lo).
Proof. intros. unfold bits. rewrite Z.land_spec, Z.shiftr_spec, Z.testbit_ones_nonneg by done. apply andb_comm. Qed.

Lemma testbit_set_bits lo n v x k : 0 <= lo -> 0 <= n -> 0 <= k ->
  Z.testbit (set_bits lo n v x) k = if (lo <=? k) && (k <? lo + n) then Z.testbit v (k - lo) else Z.testbit x k.
Proof.
  intros. unfold set_bits. rewrite Z.lor_spec, Z.ldiff_spec. destruct (Z.leb_spec lo k); cbn [andb].
  - rewrite !Z.shiftl_spec, Z.land_spec, Z.testbit_ones_nonneg by lia. destruct (Z.ltb_spec (k - lo) n), (Z.ltb_spec k (lo + n)); try lia.
    + by rewrite andb_false_r, orb_false_l, andb_true_r.
    + by rewrite andb_true_r, andb_false_r, orb_false_r.
  - rewrite !Z.shiftl_spec_low by lia. by rewrite andb_true_r, orb_false_r.
Qed.

Lemma bits_range lo n x : 0 <= n -> 0 <= bits lo n x < 2 ^ n.
Proof. intros. unfold bits. rewrite Z.land_ones by done. apply Z.mod_pos_bound. lia. Qed.

(** A field reads back what was assigned, cut to its width. *)
Lemma bits_set_same lo n v x : 0 <= lo -> 0 <= n -> bits lo n (set_bits lo n v x) = v mod 2 ^ n.
Proof.
  intros. apply Z.bits_inj'. intros k Hk. rewrite testbit_bits, testbit_set_bits by lia. destruct (Z.ltb_spec k n); cbn [andb].
  - destruct (Z.leb_spec lo (k + lo)), (Z.ltb_spec (k + lo) (lo + n)); try lia. cbn [andb]. rewrite Z.mod_pow2_bits_low by lia. f_equal. lia.
  - by rewrite Z.mod_pow2_bits_high by lia.
Qed.

Lemma bits_set_small lo n v x : 0 <= lo -> 0 <= v < 2 ^ n -> bits lo n (set_bits lo n v x) = v.
Proof. intros Hlo Hv. assert (0 <= n). { destruct (Z.ltb_spec n 0); [|lia]. rewrite Z.pow_neg_r in Hv; lia. } rewrite bits_set_same by done. by apply Z.mod_small. Qed.

(** Other fields keep their values. *)
Lemma bits_set_other lo n v lo' n' x : 0 <= lo -> 0 <= n -> 0 <= lo' -> 0 <= n' -> lo + n <= lo' \/ lo' + n' <= lo ->
  bits lo' n' (set_bits lo n v x) = bits lo' n' x.
Proof.
  intros ???? Hd. apply Z.bits_inj'. intros k Hk. rewrite !testbit_bits by lia. destruct (Z.ltb_spec k n'); [|done]. cbn [andb].
  rewrite testbit_set_bits by lia. destruct (Z.leb_spec lo (k + lo')), (Z.ltb_spec (k + lo') (lo + n)); try lia; done.
Qed.

Lemma set_bits_range w lo n v x : 0 <= lo -> 0 <= n -> lo + n <= w -> 0 <= x < 2 ^ w -> 0 <= set_bits lo n v x < 2 ^ w.
Proof.
  intros Hlo Hn Hw Hx. assert (set_bits lo n v x = set_bits lo n v x mod 2 ^ w) as ->; [|apply Z.mod_pos_bound; lia].
  apply Z.bits_inj'. intros k Hk. destruct (Z.ltb_spec k w); [by rewrite Z.mod_pow2_bits_low|]. rewrite Z.mod_pow2_bits_high by lia.
  rewrite testbit_set_bits by lia. destruct (Z.leb_spec lo k), (Z.ltb_spec k (lo + n)); try lia; cbn [andb]; by apply (testbit_above x w); lia.
Qed.

Lemma bits_0 lo n : bits lo n 0 = 0.
Proof. unfold bits. by rewrite Z.shiftr_0_l. Qed.

(** Simplify the reading of a field after assignments at constant places. *)
Ltac bits_simpl := repeat first [rewrite bits_set_small by lia | rewrite bits_set_other by lia | rewrite bits_0].
