(* ===== verification/Pages.v ===== *)
(** * Physical page metadata

    [kernel/memory/page.hpp] and [page.cpp]: the [Page] record, the global
    [pages] vector, [get_page] and [get_memory_usage]. *)

From S2P Require Import Prelude.

(** ** Definitions *)

Definition PAGE_SIZE : Z := 4096.
Definition PAGE_SHIFT : Z := 12.

Definition pages_for_bytes (size : Z) : Z :=
  u64 (u64 (size + PAGE_SIZE) - 1) / PAGE_SIZE.

(** [MCache*] and [MSlab*] are identities of caches and slabs; [None] is the
    null pointer.  [ptr_] is the physical address of the page. *)
Record Page := mkPage {
  status_ : Z;
  cache_ : option nat;
  slab_ : option nat;
  ref_count_ : Z;
  ptr_ : Z;
}.

Definition new_page : Page := mkPage 0 None None 0 0.

Definition index (p : Page) : Z := ptr_ p / PAGE_SIZE.
Definition is_free (p : Page) : bool := status_ p =? 0.
Definition is_used (p : Page) : bool := status_ p =? 1.

Definition set_ptr (ptr : Z) (p : Page) : Page :=
  mkPage (status_ p) (cache_ p) (slab_ p) (ref_count_ p) ptr.
Definition set_free (p : Page) : Page :=
  mkPage 0 (cache_ p) (slab_ p) (ref_count_ p) (ptr_ p).
Definition set_used (p : Page) : Page :=
  mkPage 1 (cache_ p) (slab_ p) (ref_count_ p) (ptr_ p).
Definition set_cache (c : option nat) (p : Page) : Page :=
  mkPage (status_ p) c (slab_ p) (ref_count_ p) (ptr_ p).
Definition set_slab (s : option nat) (p : Page) : Page :=
  mkPage (status_ p) (cache_ p) s (ref_count_ p) (ptr_ p).
Definition inc_ref (p : Page) : Page :=
  mkPage (status_ p) (cache_ p) (slab_ p) (u64 (ref_count_ p + 1)) (ptr_ p).
Definition dec_ref (p : Page) : Z * Page :=
  let r := if 0 <? ref_count_ p then ref_count_ p - 1 else ref_count_ p in
  (r, mkPage (status_ p) (cache_ p) (slab_ p) r (ptr_ p)).

(** [Page*]: [Some i] is [&pages[i]], [None] is the null pointer. *)
Abbreviation PagePtr := (option Z).

Definition deref (pages : list Page) (p : PagePtr) : option Page :=
  match p with
  | None => fault
  | Some i => atz pages i
  end.

Definition get_page (pages : list Page) (ptr : Z) : PagePtr :=
  if ptr =? 0 then None
  else
    let idx := ptr / PAGE_SIZE in
    if lenz pages <=? idx then None else Some idx.

(** The loops [for (i = 0; i < n; ++i) pages[s + i].f()]. *)
Definition for_pages (pages : list Page) (s n : Z) (f : Page -> Page) : option (list Page) :=
  for_n (Z.to_nat n) 0
    (fun i ps => p ← atz ps (s + i); Some (setz ps (s + i) (f p))) pages.

Fixpoint count_free (pages : list Page) : Z :=
  match pages with
  | [] => 0
  | p :: ps => (if is_free p then 1 else 0) + count_free ps
  end.

(** Result: ([total_mem], [used_mem]). *)
Definition get_memory_usage (pages : list Page) : Z * Z :=
  (u64 (lenz pages * PAGE_SIZE), u64 ((lenz pages - count_free pages) * PAGE_SIZE)).

#[global] Arguments deref : simpl never.

(** ** Lemmas *)

Lemma pages_for_bytes_small size :
  0 <= size -> size + PAGE_SIZE <= 2 ^ 64 -> pages_for_bytes size = (size + PAGE_SIZE - 1) / PAGE_SIZE.
Proof.
  unfold pages_for_bytes, PAGE_SIZE. intros.
  destruct (Z.eq_dec (size + 4096) (2 ^ 64)) as [->|].
  - vm_compute. done.
  - rewrite (wrap_small 64 (size + 4096)) by lia. rewrite wrap_small by lia. done.
Qed.

(** Pointwise update of the pages [s, s + n). *)
Definition upd_range (pages : list Page) (s n : Z) (f : Page -> Page) : list Page :=
  imap (fun k p => if (s <=? Z.of_nat k) && (Z.of_nat k <? s + n) then f p else p) pages.

Lemma lenz_upd_range pages s n f : lenz (upd_range pages s n f) = lenz pages.
Proof. unfold lenz, upd_range. by rewrite length_imap. Qed.

Lemma atz_upd_range pages s n f i :
  atz (upd_range pages s n f) i =
  (if (s <=? i) && (i <? s + n) then f else id) <$> atz pages i.
Proof.
  unfold atz, upd_range. destruct (Z.leb_spec 0 i); [|done].
  rewrite list_lookup_imap, Z2Nat.id by done.
  destruct (pages !! Z.to_nat i); simpl; [|done]. by case_if.
Qed.

Lemma atz_upd_range_in pages s n f i :
  s <= i < s + n -> atz (upd_range pages s n f) i = f <$> atz pages i.
Proof.
  intros. rewrite atz_upd_range. destruct (Z.leb_spec s i), (Z.ltb_spec i (s + n)); lia || done.
Qed.

Lemma atz_upd_range_out pages s n f i :
  ~ (s <= i < s + n) -> atz (upd_range pages s n f) i = atz pages i.
Proof.
  intros. rewrite atz_upd_range. destruct (Z.leb_spec s i), (Z.ltb_spec i (s + n)); simpl;
    try lia; by destruct (atz pages i).
Qed.

(** Two page vectors with the same length and the same entries are equal. *)
Lemma atz_ext {A} (l k : list A) :
  lenz l = lenz k -> (forall i, 0 <= i < lenz l -> atz l i = atz k i) -> l = k.
Proof.
  unfold lenz. intros Hlen Heq. apply list_eq. intros i.
  destruct (decide (i < length l)%nat) as [Hi|Hi].
  - specialize (Heq (Z.of_nat i) ltac:(lia)). unfold atz in Heq.
    destruct (Z.leb_spec 0 (Z.of_nat i)); [|lia]. by rewrite Nat2Z.id in Heq.
  - rewrite !lookup_ge_None_2 by lia. done.
Qed.

(** The loop over a range inside the vector computes [upd_range]. *)
Lemma for_pages_spec pages s n f :
  0 <= s -> 0 <= n -> s + n <= lenz pages ->
  for_pages pages s n f = Some (upd_range pages s n f).
Proof.
  intros Hs Hn Hlen. unfold for_pages.
  destruct (for_n_inv (fun i ps => ps = upd_range pages s i f) (Z.to_nat n) 0
    (fun i ps => p ← atz ps (s + i); Some (setz ps (s + i) (f p))) pages)
    as (ps & Hf & ->).
  - apply atz_ext; [by rewrite lenz_upd_range|]. intros i Hi.
    rewrite atz_upd_range_out by lia. done.
  - intros i ps Hi ->. destruct (atz_lt pages (s + i)) as [p Hp]; [lia|].
    rewrite atz_upd_range_out, Hp by lia. simpl. eexists; split; [done|].
    apply atz_ext; [by rewrite lenz_setz, !lenz_upd_range|].
    intros j Hj. rewrite lenz_setz, lenz_upd_range in Hj.
    destruct (Z.eq_dec (s + i) j) as [<-|Hne].
    + rewrite atz_setz_eq by (rewrite lenz_upd_range; lia).
      rewrite atz_upd_range_in, Hp by lia. done.
    + rewrite atz_setz_ne by lia.
      destruct (decide (s <= j < s + i)).
      * rewrite !atz_upd_range_in by lia. done.
      * rewrite !atz_upd_range_out by lia. done.
  - rewrite Hf. f_equal. f_equal. lia.
Qed.

Lemma get_page_index pages i :
  0 < i < lenz pages -> get_page pages (i * PAGE_SIZE) = Some i.
Proof.
  intros. unfold get_page, PAGE_SIZE. rewrite Z.div_mul by lia.
  destruct (Z.eqb_spec (i * 4096) 0); [lia|]. destruct (Z.leb_spec (lenz pages) i); [lia|done].
Qed.

Lemma get_page_Some pages a i :
  get_page pages (a * PAGE_SIZE) = Some i -> i = a /\ i < lenz pages /\ a <> 0.
Proof.
  unfold get_page, PAGE_SIZE. rewrite Z.div_mul by lia.
  destruct (Z.eqb_spec (a * 4096) 0); [done|]. destruct (Z.leb_spec (lenz pages) a); [done|].
  intros [= ->]. lia.
Qed.
