(* ===== verification/Pool.v ===== *)
(** * The fixed-size pool allocator

    [PoolAllocator] of [kernel/memory/custom_allocators.hpp]: a block of
    [pool_size] slots whose free slots form a singly linked list threaded
    through the slots themselves.  The buddy allocator's free lists take their
    nodes from such a pool. *)

From S2P Require Import Prelude.

(** ** Definitions *)

(** [T*] into the pool: [Some i] is slot [i], [None] is null.  [pool_] has the
    first word of every slot: a link while the slot is free, and whatever the
    client stores there while it is allocated. *)
Abbreviation SlotPtr := (option nat).

Record PoolAllocator := mkPool {
  pool_ : list SlotPtr;
  next_free_ : SlotPtr;
}.

(** The constructor: slot [i] links to slot [i + 1], then the last link is
    overwritten with null. *)
Definition new_pool (pool_size : nat) : PoolAllocator :=
  let links := (fun i => Some (S i)) <$> seq 0 pool_size in
  mkPool (<[(pool_size - 1)%nat := None]> links) (Some 0%nat).

Definition pool_allocate (n : Z) (a : PoolAllocator) : option (SlotPtr * PoolAllocator) :=
  if negb (n =? 1) then Some (None, a)
  else
    match next_free_ a with
    | None => Some (None, a)
    | Some result =>
        link ← pool_ a !! result;
        Some (Some result, mkPool (pool_ a) link)
    end.

Definition pool_deallocate (ptr : nat) (a : PoolAllocator) : PoolAllocator :=
  mkPool (<[ptr := next_free_ a]> (pool_ a)) (Some ptr).

(** The client stores into a slot it owns. *)
Definition client_write (ptr : nat) (v : SlotPtr) (a : PoolAllocator) : PoolAllocator :=
  mkPool (<[ptr := v]> (pool_ a)) (next_free_ a).

(** ** Abstract view: the stack of free slots *)

(** Following the links from a pointer visits exactly the given slots. *)
Inductive chain (links : list SlotPtr) : SlotPtr -> list nat -> Prop :=
| chain_nil : chain links None []
| chain_cons i next fs :
    links !! i = Some next -> chain links next fs -> chain links (Some i) (i :: fs).

(** The pool represents the stack [fs] of distinct free slots. *)
Record pool_repr (a : PoolAllocator) (fs : list nat) : Prop := {
  pr_chain : chain (pool_ a) (next_free_ a) fs;
  pr_nodup : NoDup fs;
}.

(** ** Lemmas *)

Lemma chain_write links p fs i v : chain links p fs -> i ∉ fs -> chain (<[i := v]> links) p fs.
Proof.
  induction 1 as [|j next fs Hj _ IH]; intros Hi; [constructor|].
  apply not_elem_of_cons in Hi as [Hne Hi]. econstructor; [|by apply IH].
  by rewrite list_lookup_insert_ne.
Qed.

Lemma chain_head links p fs : chain links p fs -> p = head fs.
Proof. by destruct 1. Qed.

Lemma chain_bound links p fs : chain links p fs -> Forall (fun i => i < length links)%nat fs.
Proof.
  induction 1 as [|j next fs Hj _ IH]; constructor; [by eapply lookup_lt_Some|done].
Qed.

Lemma new_pool_chain k n : (k <= n)%nat -> (0 < n)%nat ->
  chain (pool_ (new_pool n)) (if decide (k < n)%nat then Some k else None) (seq k (n - k)).
Proof.
  intros Hk Hn. remember (n - k)%nat as m eqn:Hm. revert k Hk Hm.
  induction m as [|m IH]; intros k Hk Hm; simpl.
  - destruct (decide (k < n)%nat); [lia|constructor].
  - destruct (decide (k < n)%nat); [|lia]. econstructor.
    2: { apply (IH (S k)); lia. }
    unfold new_pool. cbn [pool_]. destruct (decide (S k < n)%nat) as [Hlt|Hge].
    + rewrite list_lookup_insert_ne, list_lookup_fmap, lookup_seq_lt by lia. done.
    + replace (n - 1)%nat with k by lia. apply list_lookup_insert_eq.
      rewrite length_fmap, length_seq. lia.
Qed.

Lemma new_pool_repr n : (0 < n)%nat -> pool_repr (new_pool n) (seq 0 n).
Proof.
  intros Hn. split; [|apply NoDup_seq]. pose proof (new_pool_chain 0 n) as H.
  rewrite decide_True in H by lia. replace (n - 0)%nat with n in H by lia. apply H; lia.
Qed.

(** ** Theorems *)

(** The pool is a stack of free slots: a single-object allocation pops the top
    and returns null exactly when no slot is free; a deallocation of a slot
    outside the stack pushes it; stores of clients into their own slots do not
    disturb it; a request for any other number of objects returns null and
    changes nothing. *)
Theorem pool_refines_stack a fs :
  pool_repr a fs ->
  pool_allocate 1 a = Some (head fs, mkPool (pool_ a) (head (tail fs))) /\
  pool_repr (mkPool (pool_ a) (head (tail fs))) (tail fs) /\
  (forall ptr, (ptr < length (pool_ a))%nat -> ptr ∉ fs -> pool_repr (pool_deallocate ptr a) (ptr :: fs)) /\
  (forall ptr v, ptr ∉ fs -> pool_repr (client_write ptr v a) fs) /\
  (forall n, n <> 1 -> pool_allocate n a = Some (None, a)).
Proof.
  destruct a as [links p]. intros [Hc Hnd]. simpl in *. split_and!.
  - unfold pool_allocate. simpl. destruct Hc as [|i next fs Hi Hc']; [done|].
    rewrite Hi. simpl. by rewrite <- (chain_head _ _ _ Hc').
  - destruct Hc as [|i next fs Hi Hc']; split; simpl.
    + constructor.
    + constructor.
    + by rewrite <- (chain_head _ _ _ Hc').
    + by apply NoDup_cons in Hnd as [_ ?].
  - intros ptr Hlt Hn. split; [|by apply NoDup_cons]. simpl. econstructor.
    + by apply list_lookup_insert_eq.
    + by apply chain_write.
  - intros ptr v Hn. split; [|done]. by apply chain_write.
  - intros n Hn. unfold pool_allocate. destruct (Z.eqb_spec n 1); done.
Qed.

Lemma pool_refines_stack_witness :
  pool_allocate 1 (new_pool 4) = Some (Some 0%nat, mkPool (pool_ (new_pool 4)) (Some 1%nat)).
Proof. apply (pool_refines_stack (new_pool 4) (seq 0 4)). apply new_pool_repr. lia. Defined.

(** Number of allocations a pool serves before it returns null. *)
Fixpoint pool_drain (fuel : nat) (a : PoolAllocator) : option (list nat) :=
  match fuel with
  | O => Some []
  | S fuel' =>
      '(p, a') ← pool_allocate 1 a;
      match p with
      | None => Some []
      | Some i => cons i <$> pool_drain fuel' a'
      end
  end.

Lemma pool_drain_repr a fs fuel :
  pool_repr a fs -> (length fs < fuel)%nat -> pool_drain fuel a = Some fs.
Proof.
  revert a fs. induction fuel as [|fuel IH]; intros [links p] fs [Hc Hnd] Hf; [lia|].
  simpl in *. unfold pool_allocate. simpl. destruct Hc as [|i next fs Hi Hc']; [done|].
  rewrite Hi. simpl. simpl in Hf. rewrite (IH _ fs); [done| |lia].
  split; [done|]. by apply NoDup_cons in Hnd as [_ ?].
Qed.

(** A fresh pool of [n] slots serves exactly [n] allocations, with the
    distinct slots [0 .. n - 1], and then returns null. *)
Theorem pool_capacity n :
  (0 < n)%nat -> pool_drain (S n) (new_pool n) = Some (seq 0 n).
Proof.
  intros Hn. apply pool_drain_repr; [by apply new_pool_repr|]. rewrite length_seq. lia.
Qed.

Lemma pool_capacity_witness : pool_drain 5 (new_pool 4) = Some [0; 1; 2; 3]%nat.
Proof. apply (pool_capacity 4). lia. Defined.
