(* ===== verification/Bootstrap.v ===== *)
(** * The bootstrap allocator

    [kernel/memory/bootstrap_allocator.cpp]: a bitmap of physical pages (bit
    set = not available), first-fit allocation of runs of pages, release of
    ranges, and the pass over the UEFI memory map that builds the bitmap. *)

From S2P Require Import Prelude Pages.

(** ** Definitions *)

Definition MAX_PHYS_MEM_BYTES : Z := 64 * 1024 * 1024 * 1024.
Definition TOTAL_PAGES : Z := MAX_PHYS_MEM_BYTES / PAGE_SIZE.
Definition BITMAP_ENTRY_SIZE : Z := 64.
Definition ULONG_MAX : Z := 2 ^ 64 - 1.

Record BootstrapAllocator := mkBoot {
  bitmap_ : list Z;
  memory_end_ : Z;
}.

Definition new_bootstrap : BootstrapAllocator :=
  mkBoot (replicate (Z.to_nat (TOTAL_PAGES / BITMAP_ENTRY_SIZE)) ULONG_MAX) 0.

Definition is_bit_set (i : Z) (a : BootstrapAllocator) : option bool :=
  w ← atz (bitmap_ a) (i / BITMAP_ENTRY_SIZE);
  Some (negb (Z.land w (u64 (Z.shiftl 1 (i mod BITMAP_ENTRY_SIZE))) =? 0)).

Definition end_index (a : BootstrapAllocator) : Z := memory_end_ a / PAGE_SIZE.

(** [bitmap_[j / 64] |= 1UL << (j % 64)] *)
Definition set_bit (j : Z) (a : BootstrapAllocator) : option BootstrapAllocator :=
  w ← atz (bitmap_ a) (j / BITMAP_ENTRY_SIZE);
  Some (mkBoot (setz (bitmap_ a) (j / BITMAP_ENTRY_SIZE)
    (Z.lor w (u64 (Z.shiftl 1 (j mod BITMAP_ENTRY_SIZE))))) (memory_end_ a)).

(** [bitmap_[i / 64] &= ~(1UL << (i % 64))] *)
Definition clear_bit (i : Z) (a : BootstrapAllocator) : option BootstrapAllocator :=
  w ← atz (bitmap_ a) (i / BITMAP_ENTRY_SIZE);
  Some (mkBoot (setz (bitmap_ a) (i / BITMAP_ENTRY_SIZE)
    (Z.land w (wnot 64 (Z.shiftl 1 (i mod BITMAP_ENTRY_SIZE))))) (memory_end_ a)).

(** The scan of [allocate]: [n] iterations from page [i]; the result is the
    first page of the run found. *)
Fixpoint alloc_scan (n : nat) (i consecutive_start_index num_consecutive_pages num_pages : Z)
    (a : BootstrapAllocator) : option (option Z) :=
  match n with
  | O => Some None
  | S n' =>
      used ← is_bit_set i a;
      if (used : bool) then alloc_scan n' (i + 1) consecutive_start_index 0 num_pages a
      else
        let start := if num_consecutive_pages =? 0 then i else consecutive_start_index in
        let count := num_consecutive_pages + 1 in
        if count =? num_pages then Some (Some start)
        else alloc_scan n' (i + 1) start count num_pages a
  end.

(** Result: the address, [0] for [nullptr]. *)
Definition boot_allocate (size : Z) (a : BootstrapAllocator) : option (Z * BootstrapAllocator) :=
  let num_pages := pages_for_bytes size in
  found ← alloc_scan (Z.to_nat (end_index a)) 0 0 0 num_pages a;
  match found with
  | Some s =>
      a' ← for_n (Z.to_nat num_pages) s set_bit a;
      Some (s * PAGE_SIZE, a')
  | None => Some (0, a)
  end.

Definition boot_free (addr size : Z) (a : BootstrapAllocator) : option BootstrapAllocator :=
  let start := addr / PAGE_SIZE in
  let end_ := u64 (addr + size) / PAGE_SIZE in
  for_n (Z.to_nat (end_ - start)) start clear_bit a.

Definition mark_available (addr size : Z) (a : BootstrapAllocator) : option BootstrapAllocator :=
  let start := addr / PAGE_SIZE in
  let end_ := u64 (addr + size) / PAGE_SIZE in
  a' ← for_n (Z.to_nat (end_ - start)) start clear_bit a;
  Some (mkBoot (bitmap_ a') (Z.max (memory_end_ a') (u64 (end_ * PAGE_SIZE)))).

(** ** The UEFI memory map ([UchLoaderPkg/memory_map.hpp]) *)

Inductive MemoryType :=
| kEfiReservedMemoryType | kEfiLoaderCode | kEfiLoaderData | kEfiBootServicesCode
| kEfiBootServicesData | kEfiRuntimeServicesCode | kEfiRuntimeServicesData
| kEfiConventionalMemory | kEfiUnusableMemory | kEfiACPIReclaimMemory | kEfiACPIMemoryNVS
| kEfiMemoryMappedIO | kEfiMemoryMappedIOPortSpace | kEfiPalCode | kEfiPersistentMemory
| kEfiMaxMemoryType.

Definition MemoryType_code (t : MemoryType) : Z :=
  match t with
  | kEfiReservedMemoryType => 0 | kEfiLoaderCode => 1 | kEfiLoaderData => 2
  | kEfiBootServicesCode => 3 | kEfiBootServicesData => 4 | kEfiRuntimeServicesCode => 5
  | kEfiRuntimeServicesData => 6 | kEfiConventionalMemory => 7 | kEfiUnusableMemory => 8
  | kEfiACPIReclaimMemory => 9 | kEfiACPIMemoryNVS => 10 | kEfiMemoryMappedIO => 11
  | kEfiMemoryMappedIOPortSpace => 12 | kEfiPalCode => 13 | kEfiPersistentMemory => 14
  | kEfiMaxMemoryType => 15
  end.

Record MemoryDescriptor := mkDesc {
  type : Z;
  physical_start : Z;
  virtual_start : Z;
  number_of_pages : Z;
  attribute : Z;
}.

(** The argument is the [uint32_t] of the descriptor, cast to the enum. *)
Definition IsAvailableMemory (memory_type : Z) : bool :=
  (memory_type =? MemoryType_code kEfiBootServicesCode) ||
  (memory_type =? MemoryType_code kEfiBootServicesData) ||
  (memory_type =? MemoryType_code kEfiConventionalMemory).

(** [initialize]: the descriptors of the map, in order, on a fresh bitmap. *)
Fixpoint mark_descriptors (map : list MemoryDescriptor) (a : BootstrapAllocator)
  : option BootstrapAllocator :=
  match map with
  | [] => Some a
  | desc :: map' =>
      if negb (IsAvailableMemory (type desc)) then mark_descriptors map' a
      else if physical_start desc =? 0 then mark_descriptors map' a
      else
        a' ← mark_available (physical_start desc) (u64 (number_of_pages desc * PAGE_SIZE)) a;
        mark_descriptors map' a'
  end.

Definition initialize (map : list MemoryDescriptor) : option BootstrapAllocator :=
  mark_descriptors map new_bootstrap.

(** ** Invariant and abstract view *)

(** Page [i] is unavailable; pages outside the bitmap count as unavailable. *)
Definition bit (a : BootstrapAllocator) (i : Z) : bool :=
  match atz (bitmap_ a) (i / BITMAP_ENTRY_SIZE) with
  | Some w => Z.testbit w (i mod BITMAP_ENTRY_SIZE)
  | None => true
  end.

(** Words are 64-bit and the bitmap covers the memory seen so far. *)
Record boot_ok (a : BootstrapAllocator) : Prop := {
  bo_words : forall k w, atz (bitmap_ a) k = Some w -> 0 <= w < 2 ^ 64;
  bo_end : 0 <= end_index a <= BITMAP_ENTRY_SIZE * lenz (bitmap_ a);
}.

(** All pages of [s .. s + n) are available. *)
Definition available_run (a : BootstrapAllocator) (s n : Z) : Prop :=
  forall j, s <= j < s + n -> bit a j = false.

(** ** Bits *)

Lemma shift_bit k : 0 <= k < 64 -> u64 (Z.shiftl 1 k) = 2 ^ k.
Proof.
  intros Hk. rewrite Z.shiftl_1_l. pose proof (pow2_pos k ltac:(lia)).
  pose proof (pow2_le_mono k 63 ltac:(lia)). apply wrap_small. lia.
Qed.

Lemma land_pow2 w k : 0 <= k -> Z.land w (2 ^ k) = if Z.testbit w k then 2 ^ k else 0.
Proof.
  intros Hk. apply Z.bits_inj'. intros n Hn. rewrite Z.land_spec, Z.pow2_bits_eqb by lia.
  destruct (Z.eqb_spec k n) as [->|Hne].
  - destruct (Z.testbit w n); [by rewrite Z.pow2_bits_true by lia|by rewrite Z.bits_0].
  - rewrite andb_false_r. destruct (Z.testbit w k); [by rewrite Z.pow2_bits_false by lia|by rewrite Z.bits_0].
Qed.

Lemma wnot_bit k j : 0 <= k < 64 -> 0 <= j < 64 -> Z.testbit (wnot 64 (2 ^ k)) j = negb (k =? j).
Proof.
  intros Hk Hj. unfold wnot. pose proof (pow2_pos k ltac:(lia)). pose proof (pow2_le_mono k 63 ltac:(lia)).
  rewrite wrap_small by lia. replace (2 ^ 64 - 1) with (Z.ones 64) by done.
  rewrite Z.sub_nocarry_ldiff.
  - rewrite Z.ldiff_spec, Z.ones_spec_low, Z.pow2_bits_eqb by lia. done.
  - apply Z.bits_inj'. intros n Hn. rewrite Z.ldiff_spec, Z.bits_0, Z.pow2_bits_eqb by lia.
    destruct (Z.eqb_spec k n) as [->|]; [|done]. by rewrite Z.ones_spec_low by lia.
Qed.

Lemma bit_index i j :
  0 <= i -> 0 <= j -> i / 64 = j / 64 -> i mod 64 = j mod 64 -> i = j.
Proof. intros. rewrite (Z.div_mod i 64), (Z.div_mod j 64) by lia. lia. Qed.

Lemma word_range a i : 0 <= i < BITMAP_ENTRY_SIZE * lenz (bitmap_ a) ->
  exists w, atz (bitmap_ a) (i / BITMAP_ENTRY_SIZE) = Some w.
Proof.
  unfold BITMAP_ENTRY_SIZE. intros Hi. apply atz_lt. split; [apply Z.div_pos; lia|].
  apply Z.div_lt_upper_bound; lia.
Qed.

Lemma is_bit_set_spec a i :
  0 <= i < BITMAP_ENTRY_SIZE * lenz (bitmap_ a) -> is_bit_set i a = Some (bit a i).
Proof.
  intros Hi. destruct (word_range a i Hi) as [w Hw]. unfold is_bit_set, bit. rewrite Hw. simpl.
  unfold BITMAP_ENTRY_SIZE. pose proof (Z.mod_pos_bound i 64 ltac:(lia)).
  rewrite shift_bit, land_pow2 by lia. pose proof (pow2_pos (i mod 64) ltac:(lia)).
  destruct (Z.testbit w (i mod 64)); [|done]. f_equal. destruct (Z.eqb_spec (2 ^ (i mod 64)) 0); lia || done.
Qed.

(** Update of one word of the bitmap by a function of the bit at [i]. *)
Lemma update_bit_spec a i v w f :
  boot_ok a -> 0 <= i -> atz (bitmap_ a) (i / BITMAP_ENTRY_SIZE) = Some w ->
  0 <= f w < 2 ^ 64 ->
  (forall j, 0 <= j < 64 -> Z.testbit (f w) j = if i mod 64 =? j then v else Z.testbit w j) ->
  let a' := mkBoot (setz (bitmap_ a) (i / BITMAP_ENTRY_SIZE) (f w)) (memory_end_ a) in
  boot_ok a' /\ lenz (bitmap_ a') = lenz (bitmap_ a) /\
  forall j, 0 <= j -> bit a' j = if j =? i then v else bit a j.
Proof.
  intros [Hw He] Hi Hat Hr Hf a'. pose proof (atz_Some_lt _ _ _ Hat) as Hlt.
  assert (lenz (bitmap_ a') = lenz (bitmap_ a)) as Hlen by apply lenz_setz.
  split_and!; [|done|].
  - split; [|rewrite Hlen; done]. intros k x Hx. simpl in Hx.
    destruct (Z.eq_dec (i / BITMAP_ENTRY_SIZE) k) as [<-|Hne].
    + rewrite atz_setz_eq in Hx by done. by simplify_eq.
    + rewrite atz_setz_ne in Hx by lia. eauto.
  - intros j Hj. unfold bit, a', BITMAP_ENTRY_SIZE in *. simpl.
    destruct (Z.eq_dec (i / 64) (j / 64)) as [Heq|Hne].
    + rewrite <- Heq, atz_setz_eq, Hat by done. pose proof (Z.mod_pos_bound j 64 ltac:(lia)).
      rewrite Hf by lia. destruct (Z.eqb_spec j i) as [->|Hne]; [by rewrite Z.eqb_refl|].
      destruct (Z.eqb_spec (i mod 64) (j mod 64)); [|done]. exfalso. apply Hne. symmetry. by apply bit_index.
    + rewrite atz_setz_ne by lia. destruct (Z.eqb_spec j i) as [->|]; [lia|done].
Qed.

Lemma set_bit_spec a i :
  boot_ok a -> 0 <= i < BITMAP_ENTRY_SIZE * lenz (bitmap_ a) ->
  exists a', set_bit i a = Some a' /\ boot_ok a' /\ memory_end_ a' = memory_end_ a /\
    lenz (bitmap_ a') = lenz (bitmap_ a) /\ forall j, 0 <= j -> bit a' j = if j =? i then true else bit a j.
Proof.
  intros Hok Hi. destruct (word_range a i Hi) as [w Hw]. pose proof (bo_words a Hok _ _ Hw) as Hwr.
  unfold set_bit. rewrite Hw. simpl. pose proof (Z.mod_pos_bound i 64 ltac:(lia)) as Hm.
  destruct (update_bit_spec a i true w (fun w => Z.lor w (u64 (Z.shiftl 1 (i mod 64))))) as (H1 & H2 & H3);
    [done|lia|done| | |].
  - rewrite shift_bit by lia. pose proof (pow2_pos (i mod 64) ltac:(lia)).
    split; [apply Z.lor_nonneg; lia|]. destruct (Z.eq_dec (Z.lor w (2 ^ (i mod 64))) 0) as [->|]; [done|].
    apply Z.log2_lt_pow2; [assert (0 <= Z.lor w (2 ^ (i mod 64))) by (apply Z.lor_nonneg; lia); lia|].
    rewrite Z.log2_lor, Z.log2_pow2 by lia. destruct (Z.eq_dec w 0) as [->|]; [simpl; lia|].
    assert (Z.log2 w < 64) by (apply Z.log2_lt_pow2; lia). lia.
  - intros j Hj. rewrite shift_bit, Z.lor_spec, Z.pow2_bits_eqb by lia.
    destruct (Z.eqb_spec (i mod 64) j); [by rewrite orb_true_r|by rewrite orb_false_r].
  - eauto 10.
Qed.

Lemma clear_bit_spec a i :
  boot_ok a -> 0 <= i < BITMAP_ENTRY_SIZE * lenz (bitmap_ a) ->
  exists a', clear_bit i a = Some a' /\ boot_ok a' /\ memory_end_ a' = memory_end_ a /\
    lenz (bitmap_ a') = lenz (bitmap_ a) /\ forall j, 0 <= j -> bit a' j = if j =? i then false else bit a j.
Proof.
  intros Hok Hi. destruct (word_range a i Hi) as [w Hw]. pose proof (bo_words a Hok _ _ Hw) as Hwr.
  unfold clear_bit. rewrite Hw. simpl. pose proof (Z.mod_pos_bound i 64 ltac:(lia)) as Hm.
  destruct (update_bit_spec a i false w (fun w => Z.land w (wnot 64 (Z.shiftl 1 (i mod 64))))) as (H1 & H2 & H3);
    [done|lia|done| | |].
  - assert (0 <= wnot 64 (Z.shiftl 1 (i mod 64))) as Hn
      by (unfold wnot; pose proof (wrap_range 64 (Z.shiftl 1 (i mod 64)) ltac:(lia)); lia).
    assert (0 <= Z.land w (wnot 64 (Z.shiftl 1 (i mod 64)))) as Hl by (apply Z.land_nonneg; lia).
    split; [done|]. destruct (Z.eq_dec (Z.land w (wnot 64 (Z.shiftl 1 (i mod 64)))) 0) as [->|]; [done|].
    apply Z.log2_lt_pow2; [lia|]. eapply Z.le_lt_trans; [apply Z.log2_land; lia|].
    destruct (Z.eq_dec w 0) as [->|]; [simpl; lia|].
    assert (Z.log2 w < 64) by (apply Z.log2_lt_pow2; lia). lia.
  - intros j Hj. rewrite Z.shiftl_1_l, Z.land_spec, wnot_bit by lia.
    destruct (Z.eqb_spec (i mod 64) j); [by rewrite andb_false_r|by rewrite andb_true_r].
  - eauto 10.
Qed.

(** Both range loops, parameterised by the value they store. *)
Lemma range_spec (op : Z -> BootstrapAllocator -> option BootstrapAllocator) v a s n :
  (forall a i, boot_ok a -> 0 <= i < BITMAP_ENTRY_SIZE * lenz (bitmap_ a) ->
    exists a', op i a = Some a' /\ boot_ok a' /\ memory_end_ a' = memory_end_ a /\
      lenz (bitmap_ a') = lenz (bitmap_ a) /\ forall j, 0 <= j -> bit a' j = if j =? i then v else bit a j) ->
  boot_ok a -> 0 <= s -> 0 <= n -> s + n <= BITMAP_ENTRY_SIZE * lenz (bitmap_ a) ->
  exists a', for_n (Z.to_nat n) s op a = Some a' /\ boot_ok a' /\ memory_end_ a' = memory_end_ a /\
    lenz (bitmap_ a') = lenz (bitmap_ a) /\
    forall j, 0 <= j -> bit a' j = if (s <=? j) && (j <? s + n) then v else bit a j.
Proof.
  intros Hop Hok Hs Hn Hb.
  destruct (for_n_inv (fun i a' => boot_ok a' /\ memory_end_ a' = memory_end_ a /\
    lenz (bitmap_ a') = lenz (bitmap_ a) /\
    forall j, 0 <= j -> bit a' j = if (s <=? j) && (j <? i) then v else bit a j)
    (Z.to_nat n) s op a) as (a' & H1 & H2 & H3 & H4 & H5).
  - split_and!; try done. intros j Hj. destruct (Z.leb_spec s j), (Z.ltb_spec j s); done || lia.
  - intros i a1 Hi (Ho & Hm & Hl & Hbit). destruct (Hop a1 i Ho) as (a2 & E & Ho2 & Hm2 & Hl2 & Hb2); [lia|].
    exists a2. split_and!; [done|done|congruence|congruence|]. intros j Hj. rewrite Hb2, Hbit by done.
    destruct (Z.eqb_spec j i), (Z.leb_spec s j), (Z.ltb_spec j i), (Z.ltb_spec j (i + 1)); done || lia.
  - exists a'. split_and!; try done. intros j Hj. rewrite H5 by done. by rewrite Z2Nat.id by lia.
Qed.

(** ** Allocation *)

(** State of the scan before page [i]: [c] available pages end at [i], the
    page before them is unavailable, and no run of [n] pages was passed. *)
Record scan_inv (a : BootstrapAllocator) (n i start c : Z) : Prop := {
  si_count : 0 <= c <= i;
  si_lt : c < n;
  si_start : c <> 0 -> start = i - c;
  si_run : available_run a (i - c) c;
  si_before : c < i -> bit a (i - c - 1) = true;
  si_none : forall s, 0 <= s -> s + n <= i -> ~ available_run a s n;
}.

Lemma scan_inv_used a n i start c :
  scan_inv a n i start c -> bit a i = true -> scan_inv a n (i + 1) start 0.
Proof.
  intros [] Hb. split; try lia.
  - intros j Hj. lia.
  - intros _. by replace (i + 1 - 0 - 1) with i by lia.
  - intros s Hs Hsn Hrun. destruct (Z.eq_dec (s + n) (i + 1)) as [|Hne]; [|eapply si_none0; eauto; lia].
    specialize (Hrun i ltac:(lia)). congruence.
Qed.

Lemma scan_inv_free a n i start c :
  scan_inv a n i start c -> bit a i = false -> c + 1 <> n ->
  scan_inv a n (i + 1) (if c =? 0 then i else start) (c + 1).
Proof.
  intros [] Hb Hc. split; try lia.
  - intros _. destruct (Z.eqb_spec c 0); [lia|]. rewrite si_start0; lia.
  - intros j Hj. destruct (Z.eq_dec j i) as [->|]; [done|]. apply si_run0. lia.
  - intros Hlt. replace (i + 1 - (c + 1) - 1) with (i - c - 1) by lia. apply si_before0. lia.
  - intros s Hs Hsn Hrun. destruct (Z.eq_dec (s + n) (i + 1)) as [Heq|Hne]; [|eapply si_none0; eauto; lia].
    specialize (si_before0 ltac:(lia)). rewrite Hrun in si_before0; [done|lia].
Qed.

Lemma alloc_scan_spec a n : boot_ok a ->
  forall k i start c, i + Z.of_nat k = end_index a -> scan_inv a n i start c ->
  exists r, alloc_scan k i start c n a = Some r /\
    match r with
    | Some s => 0 <= s /\ s + n <= end_index a /\ available_run a s n /\
        forall s', 0 <= s' < s -> ~ available_run a s' n
    | None => forall s, 0 <= s -> s + n <= end_index a -> ~ available_run a s n
    end.
Proof.
  intros Hok. pose proof (bo_end a Hok) as He.
  induction k as [|k IH]; intros i start c Hk Hinv; cbn [alloc_scan].
  { exists None. split; [done|]. replace (end_index a) with i by lia. by destruct Hinv. }
  pose proof (si_count _ _ _ _ _ Hinv). rewrite is_bit_set_spec by lia. cbn [mbind option_bind].
  destruct (bit a i) eqn:Hb.
  { apply IH; [lia|]. eapply scan_inv_used; eauto. }
  destruct (Z.eqb_spec (c + 1) n) as [Hn|Hn].
  - eexists. split; [done|]. cbv beta iota.
    assert ((if c =? 0 then i else start) = i + 1 - n) as ->
      by (destruct (Z.eqb_spec c 0); [lia|rewrite (si_start _ _ _ _ _ Hinv); lia]).
    split_and!; [lia|lia| |].
    + intros j Hj. destruct (Z.eq_dec j i) as [->|]; [done|]. apply (si_run _ _ _ _ _ Hinv). lia.
    + intros s' Hs'. apply (si_none _ _ _ _ _ Hinv); lia.
  - apply IH; [lia|]. by apply scan_inv_free.
Qed.

(** What [allocate] may answer to a request of [n] pages: the lowest run of
    available pages, now marked, or null on an unchanged bitmap without one. *)
Definition first_fit (a : BootstrapAllocator) (n addr : Z) (a' : BootstrapAllocator) : Prop :=
  (exists s, addr = s * PAGE_SIZE /\ 0 <= s /\ s + n <= end_index a /\ available_run a s n /\
    (forall s', 0 <= s' < s -> ~ available_run a s' n) /\
    (forall j, 0 <= j -> bit a' j = ((s <=? j) && (j <? s + n)) || bit a j)) \/
  (addr = 0 /\ a' = a /\ forall s, 0 <= s -> s + n <= end_index a -> ~ available_run a s n).

Lemma boot_allocate_spec a size :
  boot_ok a -> 0 < pages_for_bytes size ->
  exists addr a', boot_allocate size a = Some (addr, a') /\ boot_ok a' /\
    memory_end_ a' = memory_end_ a /\ first_fit a (pages_for_bytes size) addr a'.
Proof.
  set (n := pages_for_bytes size). intros Hok Hn. pose proof (bo_end a Hok) as He.
  destruct (alloc_scan_spec a n Hok (Z.to_nat (end_index a)) 0 0 0) as (r & E & Hr); [lia| |].
  { split; try lia; try done. intros j Hj; lia. }
  unfold boot_allocate. fold n. rewrite E. cbn [mbind option_bind]. destruct r as [s|].
  - destruct Hr as (H1 & H2 & H3 & H4).
    destruct (range_spec set_bit true a s n set_bit_spec) as (a' & -> & Ho & Hm & _ & Hbit); [done|lia..|].
    exists (s * PAGE_SIZE), a'. split_and!; [done|done|done|]. left. exists s. by split_and!.
  - exists 0, a. split_and!; try done. by right.
Qed.

(** [allocate] never indexes out of the bitmap: it takes the lowest run of
    enough available pages and marks exactly these pages unavailable, or, when
    there is no such run, returns null and changes nothing. *)
Theorem boot_allocate_first_fit a size :
  boot_ok a -> 0 < pages_for_bytes size ->
  exists addr a', boot_allocate size a = Some (addr, a') /\ boot_ok a' /\
    memory_end_ a' = memory_end_ a /\ first_fit a (pages_for_bytes size) addr a'.
Proof. apply boot_allocate_spec. Qed.

(** ** Building the bitmap *)

Definition desc_end (d : MemoryDescriptor) : Z := physical_start d + number_of_pages d * PAGE_SIZE.

(** The descriptor lies below the 64 GiB the bitmap covers. *)
Definition desc_fits (d : MemoryDescriptor) : Prop :=
  0 <= physical_start d /\ 0 <= number_of_pages d /\ desc_end d <= MAX_PHYS_MEM_BYTES.

Definition desc_usable (d : MemoryDescriptor) : bool :=
  IsAvailableMemory (type d) && negb (physical_start d =? 0).

Definition desc_covers (d : MemoryDescriptor) (j : Z) : bool :=
  desc_usable d && (physical_start d / PAGE_SIZE <=? j) && (j <? desc_end d / PAGE_SIZE).

Definition full_size (a : BootstrapAllocator) : Prop :=
  BITMAP_ENTRY_SIZE * lenz (bitmap_ a) = TOTAL_PAGES.

Lemma atz_replicate {A} n (x y : A) i : atz (replicate n x) i = Some y -> y = x.
Proof. intros [_ H]%atz_Some. by apply lookup_replicate in H as [-> _]. Qed.

Lemma blank_bitmap_ok n : boot_ok (mkBoot (replicate n ULONG_MAX) 0) /\
  end_index (mkBoot (replicate n ULONG_MAX) 0) = 0 /\ forall j, bit (mkBoot (replicate n ULONG_MAX) 0) j = true.
Proof.
  split_and!; [|done|].
  - split.
    + intros k w ->%atz_replicate. done.
    + unfold end_index, BITMAP_ENTRY_SIZE. cbn [memory_end_ bitmap_]. pose proof (lenz_nonneg (replicate n ULONG_MAX)).
      rewrite Z.div_0_l by done. lia.
  - intros j. unfold bit. cbn [bitmap_]. destruct (atz _ _) eqn:E; [|done].
    apply atz_replicate in E as ->. unfold ULONG_MAX, BITMAP_ENTRY_SIZE.
    pose proof (Z.mod_pos_bound j 64 ltac:(lia)). replace (2 ^ 64 - 1) with (Z.ones 64) by done.
    by rewrite Z.ones_spec_low by lia.
Qed.

Lemma new_bootstrap_ok : boot_ok new_bootstrap /\ full_size new_bootstrap /\
  (forall j, bit new_bootstrap j = true) /\ end_index new_bootstrap = 0.
Proof.
  unfold new_bootstrap. assert (0 <= TOTAL_PAGES / BITMAP_ENTRY_SIZE) as H0 by done.
  assert (BITMAP_ENTRY_SIZE * (TOTAL_PAGES / BITMAP_ENTRY_SIZE) = TOTAL_PAGES) as H1 by done.
  revert H0 H1. generalize (TOTAL_PAGES / BITMAP_ENTRY_SIZE) as w. intros w H0 H1.
  destruct (blank_bitmap_ok (Z.to_nat w)) as (Hok & Hend & Hbit). split_and!; [exact Hok| |exact Hbit|exact Hend].
  unfold full_size, lenz. cbn [bitmap_]. by rewrite length_replicate, Z2Nat.id.
Qed.

(** The bitmap is too large to be unfolded by conversion. *)
Opaque new_bootstrap.

Lemma mark_available_spec a addr size :
  boot_ok a -> full_size a -> 0 <= addr -> 0 <= size -> addr + size <= MAX_PHYS_MEM_BYTES ->
  exists a', mark_available addr size a = Some a' /\ boot_ok a' /\ full_size a' /\
    end_index a' = Z.max (end_index a) ((addr + size) / PAGE_SIZE) /\
    forall j, 0 <= j -> bit a' j =
      if (addr / PAGE_SIZE <=? j) && (j <? (addr + size) / PAGE_SIZE) then false else bit a j.
Proof.
  intros Hok Hf Ha Hs Hb. unfold mark_available.
  assert (MAX_PHYS_MEM_BYTES < 2 ^ 64) by done. rewrite (wrap_small 64 (addr + size)) by lia.
  assert ((addr + size) / PAGE_SIZE <= TOTAL_PAGES) by (apply Z.div_le_mono; done).
  assert (addr / PAGE_SIZE <= (addr + size) / PAGE_SIZE) by (apply Z.div_le_mono; [done|lia]).
  assert (0 <= addr / PAGE_SIZE) by (apply Z.div_pos; done).
  assert (TOTAL_PAGES * PAGE_SIZE = MAX_PHYS_MEM_BYTES) by done. rewrite <- Hf in *.
  rewrite (wrap_small 64 (_ * _)) by (unfold PAGE_SIZE in *; lia).
  destruct (range_spec clear_bit false a (addr / PAGE_SIZE) ((addr + size) / PAGE_SIZE - addr / PAGE_SIZE)
    clear_bit_spec) as (a1 & -> & [Hw He] & Hm & Hl & Hbit); [done|lia..|].
  cbn [mbind option_bind]. eexists. split; [done|].
  assert (end_index (mkBoot (bitmap_ a1) (Z.max (memory_end_ a1) ((addr + size) / PAGE_SIZE * PAGE_SIZE)))
    = Z.max (end_index a) ((addr + size) / PAGE_SIZE)) as Hend.
  { unfold end_index in *. cbn [memory_end_]. rewrite Hm. unfold PAGE_SIZE in *.
    rewrite <- (Z.div_mul ((addr + size) / 4096) 4096) at 2 by lia. symmetry. apply (Z.max_monotone (fun x => x / 4096)).
    intros x y ?. apply Z.div_le_mono; lia. }
  split_and!.
  - split; [done|]. rewrite Hend. cbn [bitmap_]. pose proof (bo_end a Hok). lia.
  - unfold full_size in *. cbn [bitmap_]. congruence.
  - done.
  - intros j Hj. specialize (Hbit j Hj). by replace (addr / PAGE_SIZE +
      ((addr + size) / PAGE_SIZE - addr / PAGE_SIZE)) with ((addr + size) / PAGE_SIZE) in Hbit by lia.
Qed.

Lemma mark_descriptors_spec map a :
  Forall desc_fits map -> boot_ok a -> full_size a ->
  exists a', mark_descriptors map a = Some a' /\ boot_ok a' /\ full_size a' /\
    end_index a <= end_index a' /\
    (forall j, 0 <= j -> bit a' j = bit a j && negb (existsb (fun d => desc_covers d j) map)) /\
    (forall d j, d ∈ map -> desc_covers d j = true -> j < end_index a') /\
    (forall n, end_index a <= n -> Forall (fun d => desc_end d / PAGE_SIZE <= n) map -> end_index a' <= n).
Proof.
  intros Hall. revert a. induction Hall as [|d map Hd Hall IH]; intros a Hok Hf; cbn [mark_descriptors].
  { exists a. split_and!; try done. - intros. simpl. by rewrite andb_true_r. - by intros ?? ?%elem_of_nil. }
  destruct (desc_usable d) eqn:Hu; unfold desc_usable in Hu.
  - apply andb_true_iff in Hu as [Ht Hp%negb_true_iff]. rewrite Ht, Hp. cbn [negb].
    destruct Hd as (Hs & Hn & He). unfold desc_end in He.
    assert (MAX_PHYS_MEM_BYTES < 2 ^ 64) by done.
    rewrite (wrap_small 64 (_ * _)) by (unfold PAGE_SIZE in *; lia).
    destruct (mark_available_spec a (physical_start d) (number_of_pages d * PAGE_SIZE)) as
      (a1 & -> & Hok1 & Hf1 & Hend & Hbit); [done|done|done|unfold PAGE_SIZE; lia|done|].
    cbn [mbind option_bind].
    destruct (IH a1 Hok1 Hf1) as (a' & -> & Hok' & Hf' & Hend' & Hbit' & Hcov & Hmax). exists a'. split_and!; [done..|lia| | |].
    + intros j Hj. rewrite Hbit', Hbit by done. cbn [existsb].
      assert (desc_covers d j = (physical_start d / PAGE_SIZE <=? j) &&
        (j <? (physical_start d + number_of_pages d * PAGE_SIZE) / PAGE_SIZE)) as ->
        by (unfold desc_covers, desc_usable, desc_end; by rewrite Ht, Hp).
      case_if; simpl; by rewrite ?andb_false_r.
    + intros x j [->|Hx]%elem_of_cons Hc; [|eauto]. unfold desc_covers, desc_end in Hc. bool_to_prop. lia.
    + intros n Hle [Hd Hm]%Forall_cons. apply Hmax; [|done]. unfold desc_end in Hd. lia.
  - assert (forall j, desc_covers d j = false) as Hno by (intros; unfold desc_covers, desc_usable; by rewrite Hu).
    destruct (IH a Hok Hf) as (a' & E & Hok' & Hf' & Hend' & Hbit' & Hcov & Hmax). exists a'. split_and!; try done.
    + apply andb_false_iff in Hu as [Hu|Hu%negb_false_iff]; rewrite Hu; [done|]. by destruct (IsAvailableMemory _).
    + intros j Hj. rewrite Hbit' by done. cbn [existsb]. by rewrite Hno.
    + intros x j [->|Hx]%elem_of_cons Hc; [|eauto]. by rewrite Hno in Hc.
    + intros n Hn [_ Hm]%Forall_cons. by apply Hmax.
Qed.

Lemma initialize_spec map :
  Forall desc_fits map ->
  exists a, initialize map = Some a /\ boot_ok a /\ full_size a /\
    forall j, 0 <= j -> bit a j = negb (existsb (fun d => desc_covers d j) map) /\
      (bit a j = false -> j < end_index a) /\
      (forall n, 0 <= n -> Forall (fun d => desc_end d / PAGE_SIZE <= n) map -> end_index a <= n).
Proof.
  intros Hall. destruct new_bootstrap_ok as (Hok & Hf & Hb & H0).
  destruct (mark_descriptors_spec map new_bootstrap Hall Hok Hf) as (a & E & Hok' & Hf' & _ & Hbit & Hcov & Hmax).
  exists a. split_and!; [exact E|exact Hok'|exact Hf'|]. intros j Hj. rewrite (Hbit j Hj), Hb. cbn [andb].
  split_and!; [reflexivity| |intros n Hn; apply Hmax; lia].
  intros (d & Hd & Hc)%negb_false_iff%existsb_exists. apply (Hcov d); [by apply list_elem_of_In|done].
Qed.

(** On a memory map below 64 GiB, [initialize] completes without indexing out
    of the bitmap, and a page is available exactly when a usable descriptor
    covers it; all available pages are below [end_index]. *)
Theorem initialize_correct map :
  Forall desc_fits map ->
  exists a, initialize map = Some a /\ boot_ok a /\
    forall j, 0 <= j -> bit a j = negb (existsb (fun d => desc_covers d j) map) /\
      (bit a j = false -> j < end_index a).
Proof.
  intros H. destruct (initialize_spec map H) as (a & E & Hok & _ & Hb). exists a. split_and!; [exact E|exact Hok|].
  intros j Hj. destruct (Hb j Hj) as (H1 & H2 & _). split; [exact H1|exact H2].
Qed.

Lemma clear_bit_beyond a i :
  0 <= i -> BITMAP_ENTRY_SIZE * lenz (bitmap_ a) <= i -> clear_bit i a = fault.
Proof.
  intros Hi Hge. unfold clear_bit. destruct (atz _ _) eqn:E; [|done]. apply atz_Some_lt in E.
  unfold BITMAP_ENTRY_SIZE in *. pose proof (Z.mul_div_le i 64 ltac:(lia)).
  pose proof (Z.mod_pos_bound i 64 ltac:(lia)). rewrite (Z.div_mod i 64) in Hge by lia. lia.
Qed.

Lemma clear_range_faults n s a :
  boot_ok a -> 0 <= s -> (0 < n)%nat -> BITMAP_ENTRY_SIZE * lenz (bitmap_ a) < s + Z.of_nat n ->
  for_n n s clear_bit a = fault.
Proof.
  revert s a. induction n as [|n IH]; intros s a Hok Hs Hn Hlt; [lia|]. cbn [for_n].
  destruct (Z.lt_ge_cases s (BITMAP_ENTRY_SIZE * lenz (bitmap_ a))) as [Hin|Hout].
  - destruct (clear_bit_spec a s Hok ltac:(lia)) as (a' & -> & Hok' & _ & Hl & _).
    cbn [mbind option_bind]. apply IH; [done|lia|lia|rewrite Hl; lia].
  - by rewrite clear_bit_beyond.
Qed.

Lemma mark_descriptors_app pre post a :
  mark_descriptors (pre ++ post) a = (a' ← mark_descriptors pre a; mark_descriptors post a').
Proof.
  revert a. induction pre as [|d pre IH]; intros a; [done|]. cbn [app mark_descriptors].
  repeat case_if; [apply IH..|]. destruct (mark_available _ _ _); [apply IH|done].
Qed.

(** The bitmap has no bound check: usable memory that ends above 64 GiB is
    marked through an index beyond the array. *)
Theorem memory_beyond_bitmap_faults pre d post :
  Forall desc_fits pre -> desc_usable d = true -> 0 <= physical_start d -> 0 <= number_of_pages d ->
  desc_end d < 2 ^ 64 -> TOTAL_PAGES < desc_end d / PAGE_SIZE ->
  physical_start d / PAGE_SIZE < desc_end d / PAGE_SIZE ->
  initialize (pre ++ d :: post) = fault.
Proof.
  intros Hpre Hu Hs Hn H64 Hend Hne. unfold initialize. rewrite mark_descriptors_app.
  destruct new_bootstrap_ok as (Hok & Hf & _).
  destruct (mark_descriptors_spec pre new_bootstrap Hpre Hok Hf) as (a & -> & Hok' & Hf' & _).
  cbn [mbind option_bind mark_descriptors]. apply andb_true_iff in Hu as [-> ->%negb_true_iff].
  unfold mark_available, desc_end in *.
  rewrite (wrap_small 64 (number_of_pages d * PAGE_SIZE)) by (unfold PAGE_SIZE in *; lia).
  rewrite (wrap_small 64 (physical_start d + number_of_pages d * PAGE_SIZE)) by (unfold PAGE_SIZE in *; lia).
  cbn [negb]. assert (0 <= physical_start d / PAGE_SIZE) by (apply Z.div_pos; [lia|unfold PAGE_SIZE; lia]).
  unfold full_size in Hf'. rewrite clear_range_faults; [reflexivity|exact Hok'|lia|lia|]. rewrite Hf'. lia.
Qed.

(** ** Witnesses *)

Definition demo_map : list MemoryDescriptor :=
  [mkDesc 7 0 0 2 0; mkDesc 7 4096 0 3 0; mkDesc 2 16384 0 1 0; mkDesc 4 24576 0 4 0].

Definition small_boot : BootstrapAllocator := mkBoot [60; ULONG_MAX] 40960.

Lemma boot_allocate_first_fit_witness :
  exists addr a', boot_allocate 8192 small_boot = Some (addr, a') /\ boot_ok a' /\
    memory_end_ a' = memory_end_ small_boot /\ first_fit small_boot (pages_for_bytes 8192) addr a'.
Proof.
  apply (boot_allocate_first_fit small_boot 8192); [|done]. split; [|done].
  intros k w [Hk Hw]%atz_Some. simpl in Hw.
  destruct (Z.to_nat k) as [|[|]]; simpl in Hw; [injection Hw as <-; done..|done].
Defined.

Lemma demo_map_fits : Forall desc_fits demo_map.
Proof. repeat constructor; unfold desc_fits, desc_end; simpl; done. Qed.

Lemma initialize_correct_witness :
  exists a, initialize demo_map = Some a /\ boot_ok a /\
    forall j, 0 <= j -> bit a j = negb (existsb (fun d => desc_covers d j) demo_map) /\
      (bit a j = false -> j < end_index a).
Proof. apply (initialize_correct demo_map). apply demo_map_fits. Defined.

Lemma memory_beyond_bitmap_faults_witness :
  initialize (demo_map ++ [mkDesc 7 4294967296 0 16777216 0]) = fault.
Proof.
  apply (memory_beyond_bitmap_faults demo_map (mkDesc 7 4294967296 0 16777216 0) []);
    [apply demo_map_fits|done..].
Defined.
