(* ===== verification/Buddy.v ===== *)
(** * The buddy allocator of physical pages

    [kernel/memory/buddy_system.cpp]: the free lists of the 19 block orders,
    [calculate_order], [split_memory_block], [allocate], [free] and
    [register_memory_blocks].  The allocator works on the global [pages]
    vector, so the state has both.  A block of order [o] is named by the
    pointer to its first page. *)

From S2P Require Import Prelude BitUtils Pages.

(** ** Definitions *)

Definition MAX_ORDER : Z := 18.

(** Nodes of one free list come from a [PoolAllocator<Page*, PAGE_SIZE>]:
    [PAGE_SIZE] nodes; its [allocate] returns null beyond them and the list
    then writes through the null node (see [Pool.v]). *)
Definition FREE_LIST_NODES : Z := PAGE_SIZE.

Record BuddySystem := mkBuddy {
  pages : list Page;
  free_lists_ : list (list PagePtr);
}.

Definition set_pages (ps : list Page) (b : BuddySystem) : BuddySystem :=
  mkBuddy ps (free_lists_ b).
Definition set_free_lists (fl : list (list PagePtr)) (b : BuddySystem) : BuddySystem :=
  mkBuddy (pages b) fl.

Definition new_buddy (ps : list Page) : BuddySystem :=
  mkBuddy ps (replicate (Z.to_nat (MAX_ORDER + 1)) []).

(** [free_lists_[order].push_back(page)]. *)
Definition push_back (order : Z) (p : PagePtr) (b : BuddySystem) : option BuddySystem :=
  l ← atz (free_lists_ b) order;
  if lenz l <? FREE_LIST_NODES
  then Some (set_free_lists (setz (free_lists_ b) order (l ++ [p])) b)
  else fault.

(** [front()] followed by [pop_front()]; both are undefined on an empty list. *)
Definition pop_front (order : Z) (b : BuddySystem) : option (PagePtr * BuddySystem) :=
  l ← atz (free_lists_ b) order;
  match l with
  | [] => fault
  | p :: rest => Some (p, set_free_lists (setz (free_lists_ b) order rest) b)
  end.

Definition calculate_order (num_pages : Z) : Z :=
  if num_pages =? 0 then -1
  else
    let order := bit_width_ceil (u32 num_pages) in
    if MAX_ORDER <? order then -1 else order.

Definition split_memory_block (order : Z) (b : BuddySystem) : option BuddySystem :=
  '(block, b) ← pop_front order b;
  let lower_order := order - 1 in
  let block_size := Z.shiftl 1 lower_order * PAGE_SIZE in
  bp ← deref (pages b) block;
  let buddy_addr := Z.lxor (ptr_ bp) block_size in
  let buddy_block := get_page (pages b) buddy_addr in
  b ← push_back lower_order block b;
  push_back lower_order buddy_block b.

(** [for (i = order + 1; i <= MAX_ORDER; ++i) if (!free_lists_[i].empty())
    { next_order = i; break; }] over the [n] values from [i]. *)
Fixpoint find_next_order (n : nat) (i : Z) (b : BuddySystem) : option Z :=
  match n with
  | O => Some (-1)
  | S n' =>
      l ← atz (free_lists_ b) i;
      match l with
      | [] => find_next_order n' (i + 1) b
      | _ :: _ => Some i
      end
  end.

(** [for (i = next_order; i > order; --i) split_memory_block(i)], [n]
    iterations from [i]. *)
Fixpoint split_down (n : nat) (i : Z) (b : BuddySystem) : option BuddySystem :=
  match n with
  | O => Some b
  | S n' => b ← split_memory_block i b; split_down n' (i - 1) b
  end.

(** The tail of [allocate]: hand out the front block of the list of [order].
    The address returned is [0] for [nullptr]. *)
Definition take_block (order : Z) (b : BuddySystem) : option (Z * BuddySystem) :=
  let num_order_pages := Z.shiftl 1 order in
  '(page, popped) ← pop_front order b;
  p ← deref (pages b) page;
  if is_used p then Some (0, b)
  else
    ps ← for_pages (pages popped) (index p) num_order_pages set_used;
    Some (ptr_ p, set_pages ps popped).

Definition allocate (size : Z) (b : BuddySystem) : option (Z * BuddySystem) :=
  let order := calculate_order (pages_for_bytes size) in
  if order =? -1 then Some (0, b)
  else
    l ← atz (free_lists_ b) order;
    match l with
    | _ :: _ => take_block order b
    | [] =>
        next_order ← find_next_order (Z.to_nat (MAX_ORDER - order)) (order + 1) b;
        if next_order =? -1 then Some (0, b)
        else
          b ← split_down (Z.to_nat (next_order - order)) next_order b;
          take_block order b
    end.

(** [std::find] followed by [erase]: the list without its first occurrence of
    the pointer, or [None] when it does not occur. *)
Fixpoint find_erase (p : PagePtr) (l : list PagePtr) : option (list PagePtr) :=
  match l with
  | [] => None
  | q :: l' => if decide (p = q) then Some l' else cons q <$> find_erase p l'
  end.

(** [std::min] on pointers into [pages]. *)
Definition ptr_min (p q : PagePtr) : PagePtr :=
  match p, q with
  | Some i, Some j => Some (Z.min i j)
  | _, _ => None
  end.

(** Hand the block back at its final order. *)
Definition insert_free (order : Z) (start_page : PagePtr) (b : BuddySystem) : option BuddySystem :=
  b ← push_back order start_page b;
  p ← deref (pages b) start_page;
  ps ← for_pages (pages b) (index p) (Z.shiftl 1 order) set_free;
  Some (set_pages ps b).

(** The [while (order <= MAX_ORDER)] loop of [free]; [n] is the number of
    orders left, [MAX_ORDER + 1 - order]. *)
Fixpoint free_loop (n : nat) (order : Z) (start_page : PagePtr) (b : BuddySystem)
  : option BuddySystem :=
  match n with
  | O => Some b
  | S n' =>
      if order =? MAX_ORDER then insert_free order start_page b
      else
        sp ← deref (pages b) start_page;
        let buddy_addr := Z.lxor (ptr_ sp) (Z.shiftl 1 order * PAGE_SIZE) in
        let buddy_block := get_page (pages b) buddy_addr in
        l ← atz (free_lists_ b) order;
        match find_erase buddy_block l with
        | None => insert_free order start_page b
        | Some l' =>
            free_loop n' (order + 1) (ptr_min start_page buddy_block)
              (set_free_lists (setz (free_lists_ b) order l') b)
        end
  end.

Definition free (addr size : Z) (b : BuddySystem) : option BuddySystem :=
  let start_page := Some (addr / PAGE_SIZE) in
  sp ← deref (pages b) start_page;
  if is_free sp then Some b
  else
    let order := calculate_order (pages_for_bytes size) in
    if order =? -1 then Some b
    else free_loop (Z.to_nat (MAX_ORDER + 1 - order)) order start_page b.

(** The lambda [calc_max_order_in_total_pages]; [bit_width] takes an
    [unsigned int]. *)
Definition calc_max_order_in_total_pages (num_total_pages : Z) : Z :=
  if num_total_pages =? 0 then 0
  else
    let order := u64 (u32 (bit_width (u32 num_total_pages) - 1)) in
    if MAX_ORDER <? order then MAX_ORDER else order.

(** [while (num_total_pages > 0)]: register blocks of decreasing order. *)
Fixpoint register_loop (fuel : nat) (num_total_pages order : Z) (start_page : PagePtr)
    (b : BuddySystem) : option BuddySystem :=
  if num_total_pages <=? 0 then Some b
  else
    match fuel with
    | O => fault
    | S fuel' =>
        b ← push_back order start_page b;
        let num_pages := Z.shiftl 1 order in
        sp ← deref (pages b) start_page;
        let rest := u64 (num_total_pages - num_pages) in
        register_loop fuel' rest (calc_max_order_in_total_pages rest)
          (Some (index sp + num_pages)) b
    end.

Fixpoint register_memory_blocks (fuel : nat) (num_total_pages : Z) (start_page : PagePtr)
    (b : BuddySystem) : option BuddySystem :=
  if num_total_pages <=? 0 then Some b
  else
    match fuel with
    | O => fault
    | S fuel' =>
        let order := calc_max_order_in_total_pages num_total_pages in
        let alignment_size := Z.shiftl 1 order * PAGE_SIZE in
        sp ← deref (pages b) start_page;
        let page_addr := ptr_ sp in
        if negb (page_addr mod alignment_size =? 0) then
          let aligned_addr := align_up (u32 page_addr) (u32 alignment_size) in
          let num_rounded_up_pages := u64 (aligned_addr - page_addr) / PAGE_SIZE in
          b ← register_memory_blocks fuel' num_rounded_up_pages start_page b;
          let rest := u64 (num_total_pages - num_rounded_up_pages) in
          register_loop fuel rest (calc_max_order_in_total_pages rest)
            (Some (index sp + num_rounded_up_pages)) b
        else register_loop fuel num_total_pages order start_page b
    end.

(** [initialize_memory_manager]: one pass over [pages] that registers every
    maximal run of free pages.  State: (start index, run length, buddy). *)
Definition init_step (i : Z) (s : Z * Z * BuddySystem) : option (Z * Z * BuddySystem) :=
  let '(start_index, num_total_pages, b) := s in
  p ← atz (pages b) i;
  if is_used p then
    b ← (if 0 <? num_total_pages
         then register_memory_blocks (Z.to_nat num_total_pages) num_total_pages (Some start_index) b
         else Some b);
    Some (start_index, 0, b)
  else
    let start_index := if num_total_pages =? 0 then i else start_index in
    Some (start_index, num_total_pages + 1, b).

Definition initialize_memory_manager (ps : list Page) : option BuddySystem :=
  '(start_index, num_total_pages, b) ←
    for_n (length ps) 0 init_step (0, 0, new_buddy ps);
  if 0 <? num_total_pages
  then register_memory_blocks (Z.to_nat num_total_pages) num_total_pages (Some start_index) b
  else Some b.
