(* ===== verification/BuddyLemmas.v ===== *)
(** * Pages covered by the free lists

    The multiset of pages that the free lists of the buddy allocator describe,
    and how the list operations of [Buddy.v] change it.  All facts are up to
    permutation, so the proofs never depend on the order of a free list. *)

From S2P Require Import Prelude BitUtils Pages Buddy.

(** ** Definitions *)

(** The pages of a block of order [o]. *)
Definition block_pages (o : Z) (p : PagePtr) : list Z :=
  match p with
  | Some i => seqZ i (2 ^ o)
  | None => []
  end.

Fixpoint covered_from (o : Z) (fl : list (list PagePtr)) : list Z :=
  match fl with
  | [] => []
  | l :: fl' => (l ≫= block_pages o) ++ covered_from (o + 1) fl'
  end.

(** The pages described by the free lists. *)
Definition covered (b : BuddySystem) : list Z := covered_from 0 (free_lists_ b).

(** There is one list per order, and every block is aligned to its size. *)
Record lists_ok (b : BuddySystem) : Prop := {
  lo_len : lenz (free_lists_ b) = MAX_ORDER + 1;
  lo_aligned : forall o l q, atz (free_lists_ b) o = Some l -> q ∈ l ->
    exists i, q = Some i /\ i mod 2 ^ o = 0;
}.

(** ** Covered pages under an update of one list *)

Lemma covered_from_update fl o k l :
  atz fl k = Some l ->
  exists rest, forall l',
    covered_from o (setz fl k l') ≡ₚ (l' ≫= block_pages (o + k)) ++ rest.
Proof.
  intros [Hk Hl]%atz_Some. unfold setz. remember (Z.to_nat k) as n eqn:Hn.
  revert o k n Hk Hl Hn. induction fl as [|l0 fl IH]; intros o k n Hk Hl Hn; [done|].
  destruct n as [|n]; simpl in *.
  - exists (covered_from (o + 1) fl). intros l'. by replace (o + k) with o by lia.
  - destruct (IH (o + 1) (k - 1) n) as [rest Hrest]; [lia|done|lia|].
    exists ((l0 ≫= block_pages o) ++ rest). intros l'.
    rewrite (Hrest l'). replace (o + 1 + (k - 1)) with (o + k) by lia.
    rewrite !(assoc_L (++)). by rewrite (Permutation_app_comm (l0 ≫= _)).
Qed.

Lemma setz_id {A} (l : list A) i x : atz l i = Some x -> setz l i x = l.
Proof. intros [_ H]%atz_Some. by apply list_insert_id. Qed.

(** Replacing the list [l] of order [k] by [l']. *)
Lemma covered_update b k l l' :
  atz (free_lists_ b) k = Some l ->
  (l' ≫= block_pages k) ++ covered b ≡ₚ
  (l ≫= block_pages k) ++ covered (set_free_lists (setz (free_lists_ b) k l') b).
Proof.
  intros Hl. destruct (covered_from_update _ 0 k l Hl) as [rest Hrest].
  unfold covered. simpl. rewrite <- (setz_id _ _ _ Hl) at 1.
  rewrite !Hrest. simpl. rewrite !(assoc_L (++)). f_equiv. by rewrite Permutation_app_comm.
Qed.

(** A block of a list is part of the covered pages. *)
Lemma covered_elem b o l i :
  atz (free_lists_ b) o = Some l -> Some i ∈ l -> 0 <= o ->
  forall k, i <= k < i + 2 ^ o -> k ∈ covered b.
Proof.
  intros Hl Hin Ho k Hk. destruct (covered_from_update _ 0 o l Hl) as [rest Hrest].
  unfold covered. rewrite <- (setz_id _ _ _ Hl), Hrest. apply elem_of_app. left.
  apply list_elem_of_bind. exists (Some i). split; [|done]. rewrite Z.add_0_l. simpl. apply elem_of_seqZ. lia.
Qed.

Lemma atz_Some_order b o l : lists_ok b -> atz (free_lists_ b) o = Some l -> 0 <= o <= MAX_ORDER.
Proof. intros [Hlen _] H%atz_Some_lt. lia. Qed.

Lemma atz_order b o : lists_ok b -> 0 <= o <= MAX_ORDER -> exists l, atz (free_lists_ b) o = Some l.
Proof. intros [Hlen _] Ho. apply atz_lt. lia. Qed.

(** The page metadata plays no role. *)
Lemma lists_ok_ext b b' : free_lists_ b' = free_lists_ b -> lists_ok b -> lists_ok b'.
Proof. intros Heq [H1 H2]. split; by rewrite Heq. Qed.

(** Replacing one list by another whose blocks are aligned. *)
Lemma lists_ok_update b o l l' :
  lists_ok b -> atz (free_lists_ b) o = Some l ->
  (forall q, q ∈ l' -> exists i, q = Some i /\ i mod 2 ^ o = 0) ->
  lists_ok (set_free_lists (setz (free_lists_ b) o l') b).
Proof.
  intros [Hlen Hal] Hl Hl'. pose proof (atz_Some_lt _ _ _ Hl). split; simpl.
  - by rewrite lenz_setz.
  - intros o' l0 q Hl0 Hq. destruct (Z.eq_dec o o') as [<-|Hne].
    + rewrite atz_setz_eq in Hl0 by done. simplify_eq. eauto.
    + rewrite atz_setz_ne in Hl0 by (done || lia). eauto.
Qed.

(** ** The list operations *)

Lemma push_back_spec b o l i :
  lists_ok b -> atz (free_lists_ b) o = Some l -> lenz l < FREE_LIST_NODES -> i mod 2 ^ o = 0 ->
  exists b', push_back o (Some i) b = Some b' /\ lists_ok b' /\ pages b' = pages b /\
    free_lists_ b' = setz (free_lists_ b) o (l ++ [Some i]) /\
    covered b' ≡ₚ seqZ i (2 ^ o) ++ covered b.
Proof.
  intros Hok Hl Hroom Hal. unfold push_back. rewrite Hl. simpl.
  destruct (Z.ltb_spec (lenz l) FREE_LIST_NODES); [|lia].
  eexists; split_and!; [done| |done|done|].
  - eapply lists_ok_update; [done..|]. intros q [Hq| ->%list_elem_of_singleton]%elem_of_app; [|eauto].
    destruct Hok as [_ Hal']. eauto.
  - pose proof (covered_update b o l (l ++ [Some i]) Hl) as Hp.
    rewrite bind_app in Hp. simpl in Hp. rewrite app_nil_r in Hp.
    apply (Permutation_app_inv_l (l ≫= block_pages o)). rewrite <- Hp.
    by rewrite !(assoc_L (++)).
Qed.

Lemma pop_front_spec b o q rest :
  lists_ok b -> atz (free_lists_ b) o = Some (q :: rest) ->
  exists i b', pop_front o b = Some (Some i, b') /\ q = Some i /\ i mod 2 ^ o = 0 /\
    lists_ok b' /\ pages b' = pages b /\
    free_lists_ b' = setz (free_lists_ b) o rest /\
    covered b ≡ₚ seqZ i (2 ^ o) ++ covered b'.
Proof.
  intros Hok Hl. destruct (lo_aligned b Hok o _ q Hl) as (i & -> & Hal); [set_solver|].
  unfold pop_front. rewrite Hl. simpl. do 2 eexists. split_and!; try done.
  - eapply lists_ok_update; [done..|]. intros q Hq. eapply (lo_aligned b Hok o); [done|set_solver].
  - pose proof (covered_update b o _ rest Hl) as Hp. simpl in Hp.
    rewrite <- (assoc_L (++)) in Hp.
    apply (Permutation_app_inv_l (rest ≫= block_pages o)). rewrite Hp.
    rewrite !(assoc_L (++)). f_equiv. apply Permutation_app_comm.
Qed.

Lemma find_erase_None p l : find_erase p l = None <-> p ∉ l.
Proof.
  induction l as [|q l IH]; simpl.
  - split; [intros _; apply not_elem_of_nil|done].
  - destruct (decide (p = q)) as [->|Hne]; [split; [done|]; rewrite not_elem_of_cons; naive_solver|].
    rewrite fmap_None, IH, not_elem_of_cons. naive_solver.
Qed.

Lemma find_erase_Some p l l' : find_erase p l = Some l' -> l ≡ₚ p :: l'.
Proof.
  revert l'. induction l as [|q l IH]; intros l'; simpl; [done|].
  destruct (decide (p = q)) as [->|Hne]; [by intros [= ->]|].
  intros (k & Hk & ->)%fmap_Some. rewrite (IH k Hk). constructor.
Qed.

Lemma find_erase_spec b o l l' i :
  lists_ok b -> atz (free_lists_ b) o = Some l -> find_erase (Some i) l = Some l' ->
  let b' := set_free_lists (setz (free_lists_ b) o l') b in
  lists_ok b' /\ i mod 2 ^ o = 0 /\ l ≡ₚ Some i :: l' /\
  covered b ≡ₚ seqZ i (2 ^ o) ++ covered b'.
Proof.
  intros Hok Hl Hf b'. pose proof (find_erase_Some _ _ _ Hf) as Hp.
  assert (forall q, q ∈ l -> exists i, q = Some i /\ i mod 2 ^ o = 0) as Hal.
  { intros q. by apply (lo_aligned b Hok o). }
  split_and!; [| |done|].
  - eapply lists_ok_update; [done..|]. intros q Hq. apply Hal. rewrite Hp. set_solver.
  - destruct (Hal (Some i)) as (? & [= <-] & ?); [|done]. rewrite Hp. set_solver.
  - pose proof (covered_update b o l l' Hl) as Hc.
    assert ((l ≫= block_pages o) ≡ₚ seqZ i (2 ^ o) ++ (l' ≫= block_pages o)) as Hb.
    { by rewrite Hp. }
    apply (Permutation_app_inv_l (l' ≫= block_pages o)). rewrite Hc, Hb.
    rewrite <- (assoc_L (++)). apply Permutation_app_swap_app.
Qed.

(** ** Buddy arithmetic *)

(** The index of the buddy of block [i] of order [o]. *)
Definition buddy_index (o i : Z) : Z := Z.lxor i (2 ^ o).

Lemma lxor_1_even q : Z.even q = true -> Z.lxor q 1 = q + 1.
Proof.
  intros He. apply Z.even_spec in He as [m ->].
  rewrite Z.add_nocarry_lxor; [done|]. apply Z.bits_inj'. intros n Hn.
  rewrite Z.land_spec, Z.bits_0. destruct (Z.eq_dec n 0) as [->|].
  - by rewrite Z.testbit_even_0.
  - replace (Z.testbit 1 n) with false; [by rewrite andb_false_r|].
    symmetry. apply (testbit_above 1 1); lia.
Qed.

Lemma lxor_1_odd q : Z.even q = false -> Z.lxor q 1 = q - 1.
Proof.
  intros He. assert (Z.even (q - 1) = true) as He'.
  { rewrite Z.even_sub, He. done. }
  pose proof (lxor_1_even _ He') as H. replace (q - 1 + 1) with q in H by lia.
  rewrite <- H at 1. rewrite Z.lxor_assoc, Z.lxor_nilpotent, Z.lxor_0_r. done.
Qed.

Lemma buddy_index_cases o i :
  0 <= o -> i mod 2 ^ o = 0 ->
  (i mod 2 ^ (o + 1) = 0 /\ buddy_index o i = i + 2 ^ o) \/
  ((i - 2 ^ o) mod 2 ^ (o + 1) = 0 /\ buddy_index o i = i - 2 ^ o).
Proof.
  intros Ho Hi. unfold buddy_index. pose proof (pow2_pos o Ho) as Hpow.
  apply Z.mod_divide in Hi as [q ->]; [|lia]. rewrite pow2_S by lia.
  assert (Z.lxor (q * 2 ^ o) (2 ^ o) = Z.lxor q 1 * 2 ^ o) as ->.
  { rewrite <- !Z.shiftl_mul_pow2, Z.shiftl_lxor by lia. f_equal.
    rewrite Z.shiftl_mul_pow2 by lia. lia. }
  destruct (Z.even q) eqn:He; [left|right].
  - rewrite lxor_1_even by done. split; [|lia]. apply Z.even_spec in He as [m ->].
    replace (2 * m * 2 ^ o) with (m * (2 * 2 ^ o)) by lia. apply Z.mod_mul. lia.
  - rewrite lxor_1_odd by done. split; [|lia].
    assert (Z.even (q - 1) = true) as [m Hm]%Z.even_spec by (rewrite Z.even_sub, He; done).
    replace (q * 2 ^ o - 2 ^ o) with (m * (2 * 2 ^ o)) by lia. apply Z.mod_mul. lia.
Qed.

(** The address computation of the code is the buddy index. *)
Lemma buddy_addr o i :
  0 <= o -> Z.lxor (i * PAGE_SIZE) (Z.shiftl 1 o * PAGE_SIZE) = buddy_index o i * PAGE_SIZE.
Proof.
  intros. unfold buddy_index. replace PAGE_SIZE with (2 ^ 12) by done.
  rewrite Z.shiftl_1_l. rewrite <- !Z.shiftl_mul_pow2 by lia. by rewrite Z.shiftl_lxor.
Qed.

Lemma buddy_aligned o i : 0 <= o -> i mod 2 ^ o = 0 -> buddy_index o i mod 2 ^ o = 0.
Proof.
  intros Ho Hi. pose proof (pow2_pos o Ho) as Hpow.
  destruct (buddy_index_cases o i Ho Hi) as [[H ->]|[H ->]].
  - rewrite Z.add_mod, Hi, Z_mod_same_full by lia. done.
  - apply (mod_pow2_weaken _ o (o + 1)); [lia|done].
Qed.

Lemma buddy_involutive o i : buddy_index o (buddy_index o i) = i.
Proof. unfold buddy_index. rewrite Z.lxor_assoc, Z.lxor_nilpotent, Z.lxor_0_r. done. Qed.

Lemma buddy_min_aligned o i :
  0 <= o -> i mod 2 ^ o = 0 -> Z.min i (buddy_index o i) mod 2 ^ (o + 1) = 0.
Proof.
  intros Ho Hi. pose proof (pow2_pos o Ho) as Hpow.
  destruct (buddy_index_cases o i Ho Hi) as [[H ->]|[H ->]].
  - by rewrite Z.min_l by lia.
  - by rewrite Z.min_r by lia.
Qed.

(** A block and its buddy make up the block of the next order. *)
Lemma buddy_merge_pages o i :
  0 <= o -> i mod 2 ^ o = 0 ->
  seqZ (Z.min i (buddy_index o i)) (2 ^ (o + 1)) ≡ₚ seqZ i (2 ^ o) ++ seqZ (buddy_index o i) (2 ^ o).
Proof.
  intros Ho Hi. pose proof (pow2_pos o Ho) as Hpow. rewrite pow2_S by lia.
  replace (2 * 2 ^ o) with (2 ^ o + 2 ^ o) by lia. rewrite seqZ_app by lia.
  destruct (buddy_index_cases o i Ho Hi) as [[H1 ->]|[H1 ->]].
  - by rewrite Z.min_l by lia.
  - rewrite Z.min_r by lia. replace (i - 2 ^ o + 2 ^ o) with i by lia. apply Permutation_app_comm.
Qed.
