(* ===== verification/BuddyProofs.v ===== *)
(** * Correctness of the buddy allocator

    The invariant [wf] of the allocator and the theorems about [allocate] and
    [free]: no fault, the invariant is kept, the pages change hands exactly as
    the operation promises.  The abstract view of the allocator is the set
    of free pages; [covered] lists it. *)

From S2P Require Import Prelude BitUtils Pages Buddy BuddyLemmas.

(** ** Invariant *)

(** Page metadata: entry [i] describes the page at address [i * PAGE_SIZE]. *)
Definition page_ptrs (ps : list Page) : Prop :=
  forall i p, atz ps i = Some p -> ptr_ p = i * PAGE_SIZE.

(** The free lists partition the free pages: every page is covered at most
    once, and it is covered exactly when its status is free.  Page 0, whose
    address is the null pointer, is never free. *)
Record wf (b : BuddySystem) : Prop := {
  wf_lists : lists_ok b;
  wf_ptrs : page_ptrs (pages b);
  wf_nodup : NoDup (covered b);
  wf_range : forall k, k ∈ covered b -> 0 < k < lenz (pages b);
  wf_free : forall k p, atz (pages b) k = Some p -> k ∈ covered b -> status_ p = 0;
  wf_used : forall k p, atz (pages b) k = Some p -> k ∉ covered b -> status_ p = 1;
}.

(** Every free list has room for [n] more nodes. *)
Definition room (n : Z) (b : BuddySystem) : Prop :=
  forall o l, atz (free_lists_ b) o = Some l -> lenz l + n <= FREE_LIST_NODES.

(** The order that serves a request of [size] bytes. *)
Definition order_of (size : Z) : Z := calculate_order (pages_for_bytes size).

(** The largest request the allocator accepts: one block of [MAX_ORDER]. *)
Definition MAX_BLOCK_BYTES : Z := 2 ^ MAX_ORDER * PAGE_SIZE.

(** ** Orders *)

Lemma pages_for_bytes_range size :
  0 < size <= MAX_BLOCK_BYTES -> 0 < pages_for_bytes size <= 2 ^ MAX_ORDER.
Proof.
  unfold MAX_BLOCK_BYTES, MAX_ORDER, PAGE_SIZE. intros H.
  rewrite pages_for_bytes_small by (unfold PAGE_SIZE; lia). unfold PAGE_SIZE.
  split; [apply Z.div_str_pos; lia|]. apply Z.lt_succ_r, Z.div_lt_upper_bound; lia.
Qed.

Lemma calculate_order_spec n :
  0 < n <= 2 ^ MAX_ORDER ->
  0 <= calculate_order n <= MAX_ORDER /\ n <= 2 ^ calculate_order n /\
  (forall k, 0 <= k -> n <= 2 ^ k -> calculate_order n <= k).
Proof.
  unfold MAX_ORDER. intros Hn. unfold calculate_order. destruct (Z.eqb_spec n 0); [lia|].
  rewrite (wrap_small 32 n) by lia.
  destruct (bit_width_ceil_spec n ltac:(lia)) as (H1 & H2 & H3).
  pose proof (H3 18 ltac:(lia) ltac:(lia)). unfold MAX_ORDER.
  destruct (Z.ltb_spec 18 (bit_width_ceil n)); [lia|]. eauto with lia.
Qed.

Lemma order_of_range size : 0 < size <= MAX_BLOCK_BYTES -> 0 <= order_of size <= MAX_ORDER.
Proof.
  intros. apply calculate_order_spec. by apply pages_for_bytes_range.
Qed.

(** ** Consequences of the invariant *)

Lemma wf_block b o l i :
  wf b -> atz (free_lists_ b) o = Some l -> Some i ∈ l ->
  0 <= o <= MAX_ORDER /\ i mod 2 ^ o = 0 /\ 0 < i /\ i + 2 ^ o <= lenz (pages b).
Proof.
  intros Hwf Hl Hi. pose proof (atz_Some_order b o l (wf_lists b Hwf) Hl) as Ho.
  destruct (lo_aligned b (wf_lists b Hwf) o l (Some i) Hl Hi) as (? & [= <-] & Hal).
  pose proof (pow2_pos o ltac:(lia)).
  assert (i ∈ covered b) as H1 by (eapply covered_elem; [done..|lia|lia]).
  assert (i + 2 ^ o - 1 ∈ covered b) as H2 by (eapply covered_elem; [done..|lia|lia]).
  apply wf_range in H1, H2; try done. lia.
Qed.

(** Invariants survive a permutation of the covered pages. *)
Lemma wf_perm b b' :
  wf b -> lists_ok b' -> pages b' = pages b -> covered b' ≡ₚ covered b -> wf b'.
Proof.
  intros [H1 H2 H3 H4 H5 H6] Hok Hp Hc. split; rewrite ?Hp; [done..|by rewrite Hc| | |].
  - intros k. rewrite Hc. eauto.
  - intros k p Hk. rewrite Hc. eauto.
  - intros k p Hk. rewrite Hc. eauto.
Qed.

(** Mark the pages of a block, removed from the lists, as used. *)
Lemma wf_take b b' i o :
  wf b -> 0 <= o -> lists_ok b' -> covered b ≡ₚ seqZ i (2 ^ o) ++ covered b' ->
  pages b' = upd_range (pages b) i (2 ^ o) set_used -> wf b'.
Proof.
  intros [H1 H2 H3 H4 H5 H6] Ho Hok Hc Hp. rewrite Hc in H3. apply NoDup_app in H3 as (H3a & H3b & H3c).
  assert (forall k, k ∈ covered b <-> i <= k < i + 2 ^ o \/ k ∈ covered b') as Hin.
  { intros k. rewrite Hc, elem_of_app, elem_of_seqZ. done. }
  assert (forall k, i <= k < i + 2 ^ o -> k ∉ covered b') as Hdis.
  { intros k Hk. apply H3b. apply elem_of_seqZ. lia. }
  split; [done| |done| | |]; rewrite ?Hp.
  - intros k p. destruct (decide (i <= k < i + 2 ^ o)).
    + rewrite atz_upd_range_in by done. intros (q & Hq & ->)%fmap_Some. simpl. eauto.
    + rewrite atz_upd_range_out by done. eauto.
  - intros k Hk. rewrite lenz_upd_range. apply H4, Hin. eauto.
  - intros k p Hk Hcov. rewrite atz_upd_range_out in Hk by (intros ?; by eapply Hdis).
    eapply H5; [done|]. apply Hin. eauto.
  - intros k p. destruct (decide (i <= k < i + 2 ^ o)).
    + rewrite atz_upd_range_in by done. intros (q & Hq & ->)%fmap_Some. done.
    + rewrite atz_upd_range_out by done. intros Hk Hn. eapply H6; [done|]. rewrite Hin. naive_solver.
Qed.

(** Hand the used pages of a block back to the lists. *)
Lemma wf_give b b' i o :
  wf b -> 0 <= o -> lists_ok b' -> NoDup (seqZ i (2 ^ o) ++ covered b) ->
  covered b' ≡ₚ seqZ i (2 ^ o) ++ covered b -> 0 < i -> i + 2 ^ o <= lenz (pages b) ->
  pages b' = upd_range (pages b) i (2 ^ o) set_free -> wf b'.
Proof.
  intros [H1 H2 H3 H4 H5 H6] Ho Hok Hnd Hc Hi Hlen Hp.
  assert (forall k, k ∈ covered b' <-> i <= k < i + 2 ^ o \/ k ∈ covered b) as Hin.
  { intros k. rewrite Hc, elem_of_app, elem_of_seqZ. done. }
  split; [done| |by rewrite Hc| | |]; rewrite ?Hp.
  - intros k p. destruct (decide (i <= k < i + 2 ^ o)).
    + rewrite atz_upd_range_in by done. intros (q & Hq & ->)%fmap_Some. simpl. eauto.
    + rewrite atz_upd_range_out by done. eauto.
  - intros k [?|?]%Hin; rewrite lenz_upd_range; [lia|eauto].
  - intros k p. destruct (decide (i <= k < i + 2 ^ o)).
    + rewrite atz_upd_range_in by done. intros (q & Hq & ->)%fmap_Some. done.
    + rewrite atz_upd_range_out by done. intros Hk [?|?]%Hin; [lia|eauto].
  - intros k p Hk Hn. rewrite Hin in Hn. rewrite atz_upd_range_out in Hk by naive_solver.
    naive_solver.
Qed.

Lemma deref_wf b i : wf b -> 0 <= i < lenz (pages b) ->
  exists p, deref (pages b) (Some i) = Some p /\ ptr_ p = i * PAGE_SIZE /\ index p = i.
Proof.
  intros Hwf Hi. destruct (atz_lt (pages b) i Hi) as [p Hp]. exists p. split; [done|].
  pose proof (wf_ptrs b Hwf i p Hp) as Hptr. split; [done|].
  unfold index. rewrite Hptr. apply Z.div_mul. done.
Qed.

(** ** [split_memory_block] *)

Lemma split_memory_block_spec b o q rest :
  wf b -> 1 <= o -> atz (free_lists_ b) o = Some (q :: rest) ->
  atz (free_lists_ b) (o - 1) = Some [] ->
  exists i b', q = Some i /\ split_memory_block o b = Some b' /\ wf b' /\ pages b' = pages b /\
    covered b' ≡ₚ covered b /\
    free_lists_ b' = setz (setz (free_lists_ b) o rest) (o - 1) [Some i; Some (i + 2 ^ (o - 1))].
Proof.
  intros Hwf Ho Hl Hlow. pose proof (wf_lists b Hwf) as Hok.
  destruct (pop_front_spec b o q rest Hok Hl) as (i & b1 & Hpop & -> & Hal & Hok1 & Hp1 & Hf1 & Hc1).
  destruct (wf_block b o _ i Hwf Hl) as (Ho' & _ & Hi & Hlen); [set_solver|].
  pose proof (pow2_pos (o - 1) ltac:(lia)).
  assert (2 ^ o = 2 * 2 ^ (o - 1)) as Hpow.
  { rewrite <- pow2_S by lia. f_equal. lia. }
  assert (i mod 2 ^ (o - 1) = 0) as Hal1 by (apply (mod_pow2_weaken _ _ o); [lia|done]).
  assert (buddy_index (o - 1) i = i + 2 ^ (o - 1)) as Hbud.
  { destruct (buddy_index_cases (o - 1) i) as [[_ ?]|[Hbad _]]; [lia|done|done|].
    replace (o - 1 + 1) with o in Hbad by lia.
    rewrite Zminus_mod, Hal, Z.sub_0_l, (Z.mod_small (2 ^ (o - 1))), Z.mod_opp_l_nz in Hbad; 
      rewrite ?(Z.mod_small (2 ^ (o - 1))) in *; lia. }
  destruct (deref_wf b i Hwf) as (p & Hd & Hptr & _); [lia|].
  unfold split_memory_block. rewrite Hpop. simpl. rewrite Hp1, Hd. simpl.
  rewrite Hptr, buddy_addr, Hbud, get_page_index by lia.
  assert (atz (free_lists_ b1) (o - 1) = Some []) as Hlow1 by (rewrite Hf1, atz_setz_ne by lia; done).
  destruct (push_back_spec b1 (o - 1) [] i) as (b2 & Hpush & Hok2 & Hp2 & Hf2 & Hc2); [done..|].
  rewrite Hpush. simpl.
  destruct (push_back_spec b2 (o - 1) [Some i] (i + 2 ^ (o - 1))) as (b3 & Hpush' & Hok3 & Hp3 & Hf3 & Hc3).
  - done.
  - rewrite Hf2. apply atz_setz_eq. apply atz_Some_lt in Hlow1. done.
  - done.
  - rewrite Z.add_mod, Hal1, Z_mod_same_full by lia. done.
  - assert (covered b3 ≡ₚ covered b) as Hc.
    { rewrite Hc3, Hc2, Hc1, Hpow. replace (2 * 2 ^ (o - 1)) with (2 ^ (o - 1) + 2 ^ (o - 1)) by lia.
      rewrite seqZ_app, <- !(assoc_L (++)) by lia. apply Permutation_app_swap_app. }
    exists i, b3. split_and!; [done|done| |congruence|done|].
    + apply (wf_perm b); [done..|congruence|done].
    + rewrite Hf3, Hf2, Hf1. unfold setz. by rewrite list_insert_insert_eq.
Qed.

(** ** [allocate] *)

(** The lists after the block [i] was cut out of the front block of the list
    of order [next], whose remaining blocks are [rest]: each order between
    the requested one and [next] keeps the upper half of a split. *)
Definition carved (fl fl' : list (list PagePtr)) (order next i : Z) (rest : list PagePtr) : Prop :=
  forall k, atz fl' k =
    if k =? next then Some rest
    else if (order <=? k) && (k <? next) then Some [Some (i + 2 ^ k)]
    else atz fl k.

Lemma split_down_spec n b order next i rest :
  wf b -> 0 <= order -> Z.of_nat n = next - order ->
  atz (free_lists_ b) next = Some (Some i :: rest) ->
  (forall k, order <= k < next -> atz (free_lists_ b) k = Some []) ->
  exists b' tl, split_down n next b = Some b' /\ wf b' /\ pages b' = pages b /\
    covered b' ≡ₚ covered b /\ atz (free_lists_ b') order = Some (Some i :: tl) /\
    carved (free_lists_ b) (setz (free_lists_ b') order tl) order next i rest.
Proof.
  revert b next rest. induction n as [|n IH]; intros b next rest Hwf Hord Hn Hl Hemp; simpl.
  - assert (next = order) as -> by lia. exists b, rest. split_and!; try done.
    intros k. pose proof (atz_Some_lt _ _ _ Hl). destruct (Z.eqb_spec k order) as [->|].
    + by rewrite atz_setz_eq.
    + rewrite atz_setz_ne by lia. destruct (Z.leb_spec order k), (Z.ltb_spec k order); lia || done.
  - destruct (split_memory_block_spec b next (Some i) rest) as (j & b1 & [= <-] & Hs & Hwf1 & Hp1 & Hc1 & Hf1);
      [done|lia|done|apply Hemp; lia|].
    rewrite Hs. simpl.
    pose proof (atz_Some_lt _ _ _ Hl) as Hlt.
    destruct (IH b1 (next - 1) [Some (i + 2 ^ (next - 1))]) as (b2 & tl & Hsd & Hwf2 & Hp2 & Hc2 & Hl2 & Hcar).
    + done.
    + done.
    + lia.
    + rewrite Hf1, atz_setz_eq by (rewrite lenz_setz; lia). done.
    + intros k Hk. rewrite Hf1, !atz_setz_ne by lia. apply Hemp. lia.
    + exists b2, tl. split_and!; [done|done|congruence|by rewrite Hc2|done|].
      intros k. rewrite Hcar, Hf1.
      destruct (Z.eqb_spec k next) as [E1|E1], (Z.eqb_spec k (next - 1)) as [E2|E2]; try lia; subst.
      * destruct (Z.leb_spec order next), (Z.ltb_spec next (next - 1)); simpl; try lia.
        rewrite atz_setz_ne, atz_setz_eq by lia. done.
      * destruct (Z.leb_spec order (next - 1)), (Z.ltb_spec (next - 1) next); simpl; lia || done.
      * destruct (Z.leb_spec order k), (Z.ltb_spec k (next - 1)), (Z.ltb_spec k next); simpl; try lia; try done.
        all: rewrite !atz_setz_ne by lia; done.
Qed.

Lemma find_next_order_spec n i b :
  lists_ok b -> 0 <= i -> i + Z.of_nat n = MAX_ORDER + 1 ->
  exists r, find_next_order n i b = Some r /\
    ((r = -1 /\ forall k, i <= k <= MAX_ORDER -> atz (free_lists_ b) k = Some []) \/
     (i <= r <= MAX_ORDER /\ (exists q l, atz (free_lists_ b) r = Some (q :: l)) /\
      forall k, i <= k < r -> atz (free_lists_ b) k = Some [])).
Proof.
  intros Hok. revert i. induction n as [|n IH]; intros i Hi Hn; simpl.
  - exists (-1). split; [done|]. left. split; [done|]. lia.
  - destruct (atz_order b i Hok) as [l Hl]; [lia|]. rewrite Hl. simpl.
    destruct l as [|q l].
    + destruct (IH (i + 1)) as (r & -> & Hr); [lia..|]. exists r. split; [done|].
      destruct Hr as [[-> Hall]|(Hr & Hne & Hall)]; [left|right].
      * split; [done|]. intros k Hk. destruct (Z.eq_dec k i) as [->|]; [done|]. apply Hall. lia.
      * split_and!; [lia..|done|]. intros k Hk. destruct (Z.eq_dec k i) as [->|]; [done|]. apply Hall. lia.
    + exists i. split; [done|]. right. split_and!; [lia..|eauto|lia].
Qed.

(** The block [i], carved out of order [next], was handed out. *)
Record handed_out (b b' : BuddySystem) (o next i : Z) (rest : list PagePtr) : Prop := {
  ho_next : o <= next <= MAX_ORDER;
  ho_front : atz (free_lists_ b) next = Some (Some i :: rest);
  ho_lowest : forall k, o <= k < next -> atz (free_lists_ b) k = Some [];
  ho_carved : carved (free_lists_ b) (free_lists_ b') o next i rest;
  ho_lists : lists_ok b';
  ho_covered : covered b ≡ₚ seqZ i (2 ^ o) ++ covered b';
  ho_pages : pages b' = upd_range (pages b) i (2 ^ o) set_used;
}.

Lemma take_block_spec b b1 o next i rest tl :
  wf b1 -> pages b1 = pages b -> covered b1 ≡ₚ covered b ->
  0 <= o <= next -> next <= MAX_ORDER ->
  atz (free_lists_ b1) o = Some (Some i :: tl) ->
  atz (free_lists_ b) next = Some (Some i :: rest) ->
  (forall k, o <= k < next -> atz (free_lists_ b) k = Some []) ->
  carved (free_lists_ b) (setz (free_lists_ b1) o tl) o next i rest ->
  exists b', take_block o b1 = Some (i * PAGE_SIZE, b') /\ handed_out b b' o next i rest.
Proof.
  intros Hwf1 Hp1 Hc1 Ho Hnext Hl1 Hln Hemp Hcar.
  destruct (pop_front_spec b1 o _ tl (wf_lists b1 Hwf1) Hl1)
    as (j & b2 & Hpop & [= <-] & Hal & Hok2 & Hp2 & Hf2 & Hc2).
  destruct (wf_block b1 o _ i Hwf1 Hl1) as (_ & _ & Hi & Hlen); [set_solver|].
  pose proof (pow2_pos o ltac:(lia)).
  destruct (deref_wf b1 i Hwf1) as (p & Hd & Hptr & Hidx); [lia|].
  unfold take_block. rewrite Hpop. simpl. rewrite Hd. simpl. unfold is_used.
  assert (status_ p = 0) as ->.
  { apply (wf_free b1 Hwf1 i); [done|]. apply (covered_elem b1 o (Some i :: tl) i); [done|by left|lia|lia]. }
  simpl. rewrite Hidx, Hp2, Z.shiftl_1_l, for_pages_spec by lia. simpl. rewrite Hptr.
  eexists. split; [done|]. split; simpl; [lia|done|done| |by apply (lists_ok_ext b2)|by rewrite <- Hc1|by rewrite Hp1].
  by rewrite Hf2.
Qed.

(** The outcome of a request of a valid size: either the lowest suitable
    order is carved, or no list of a sufficient order has a block. *)
Lemma allocate_spec b size :
  wf b -> 0 < size <= MAX_BLOCK_BYTES ->
  (exists i next rest b', allocate size b = Some (i * PAGE_SIZE, b') /\
      handed_out b b' (order_of size) next i rest) \/
  (allocate size b = Some (0, b) /\
   forall k, order_of size <= k <= MAX_ORDER -> atz (free_lists_ b) k = Some []).
Proof.
  intros Hwf Hsize. pose proof (order_of_range size Hsize) as Ho.
  pose proof (wf_lists b Hwf) as Hok. unfold allocate. fold (order_of size).
  set (o := order_of size) in *. destruct (Z.eqb_spec o (-1)); [lia|].
  destruct (atz_order b o Hok Ho) as [l Hl]. rewrite Hl. simpl.
  destruct l as [|q l].
  - destruct (find_next_order_spec (Z.to_nat (MAX_ORDER - o)) (o + 1) b) as (r & -> & Hr);
      [done|lia|lia|]. simpl.
    destruct Hr as [[-> Hall]|(Hr & (q & rest & Hlr) & Hall)].
    + right. split; [done|]. intros k Hk. destruct (Z.eq_dec k o) as [->|]; [done|]. apply Hall. lia.
    + left. destruct (Z.eqb_spec r (-1)); [lia|].
      destruct (lo_aligned b Hok r _ q Hlr) as (i & -> & _); [set_solver|].
      assert (forall k, o <= k < r -> atz (free_lists_ b) k = Some []) as Hemp.
      { intros k Hk. destruct (Z.eq_dec k o) as [->|]; [done|]. apply Hall. lia. }
      destruct (split_down_spec (Z.to_nat (r - o)) b o r i rest)
        as (b1 & tl & -> & Hwf1 & Hp1 & Hc1 & Hl1 & Hcar); [done|lia|lia|done|done|].
      simpl. exists i, r, rest. eapply take_block_spec; eauto with lia.
  - left. destruct (lo_aligned b Hok o _ q Hl) as (i & -> & _); [set_solver|].
    exists i, o, l. eapply take_block_spec; eauto with lia.
    intros k. pose proof (atz_Some_lt _ _ _ Hl). destruct (Z.eqb_spec k o) as [->|].
    + by rewrite atz_setz_eq.
    + rewrite atz_setz_ne by lia. destruct (Z.leb_spec o k), (Z.ltb_spec k o); lia || done.
Qed.

(** ** [free] *)

(** No list holds a block together with its buddy: everything that can be
    merged has been merged. *)
Definition coalesced (b : BuddySystem) : Prop :=
  forall o l i, o < MAX_ORDER -> atz (free_lists_ b) o = Some l -> Some i ∈ l ->
    Some (buddy_index o i) ∉ l.

(** The free lists describe pages of the vector other than page 0, and the
    vector describes its own pages; part of [wf] that the merge loop needs
    while the block in hand is on no list. *)
Record loop_ok (b : BuddySystem) (i o : Z) : Prop := {
  lk_lists : lists_ok b;
  lk_ptrs : page_ptrs (pages b);
  lk_range : forall k, k ∈ covered b -> 0 < k < lenz (pages b);
  lk_room : room 1 b;
  lk_order : 0 <= o <= MAX_ORDER;
  lk_aligned : i mod 2 ^ o = 0;
  lk_block : 0 < i /\ i + 2 ^ o <= lenz (pages b);
  lk_nodup : NoDup (seqZ i (2 ^ o) ++ covered b);
}.

(** The merged block [i'] of order [o'] grew out of block [i] of order [o]. *)
Record merged (b b' : BuddySystem) (i o i' o' : Z) : Prop := {
  mg_lists : lists_ok b';
  mg_covered : covered b' ≡ₚ seqZ i (2 ^ o) ++ covered b;
  mg_pages : pages b' = upd_range (pages b) i' (2 ^ o') set_free;
  mg_grows : forall k, i <= k < i + 2 ^ o -> i' <= k < i' + 2 ^ o';
  mg_free : forall k, i' <= k < i' + 2 ^ o' -> i <= k < i + 2 ^ o \/ k ∈ covered b;
  mg_coalesced : coalesced b -> coalesced b';
}.

Lemma deref_ptrs ps i : page_ptrs ps -> 0 <= i < lenz ps ->
  exists p, deref ps (Some i) = Some p /\ ptr_ p = i * PAGE_SIZE /\ index p = i.
Proof.
  intros Hptrs Hi. destruct (atz_lt ps i Hi) as [p Hp]. exists p. split; [done|].
  pose proof (Hptrs i p Hp) as Hptr. split; [done|]. unfold index. rewrite Hptr. by apply Z.div_mul.
Qed.

Lemma coalesced_push b b' o l i :
  coalesced b -> atz (free_lists_ b) o = Some l -> 0 <= o ->
  (o < MAX_ORDER -> Some (buddy_index o i) ∉ l) ->
  free_lists_ b' = setz (free_lists_ b) o (l ++ [Some i]) -> coalesced b'.
Proof.
  intros Hco Hl Ho Hbud Hf o' l' j Ho' Hl' Hj Hbad. rewrite Hf in Hl'.
  destruct (Z.eq_dec o o') as [<-|Hne].
  - rewrite atz_setz_eq in Hl' by (by eapply atz_Some_lt). injection Hl' as <-.
    assert (buddy_index o i <> i) as Hdiff.
    { unfold buddy_index. intros Heq. pose proof (pow2_pos o Ho).
      assert (2 ^ o = 0) as Hz; [|lia]. apply (f_equal (Z.lxor i)) in Heq.
      rewrite <- Z.lxor_assoc, Z.lxor_nilpotent, Z.lxor_0_l in Heq. done. }
    apply elem_of_app in Hj as [Hj|Hj%list_elem_of_singleton],
      Hbad as [Hb|Hb%list_elem_of_singleton].
    + by eapply (Hco o l j).
    + injection Hb as <-. rewrite buddy_involutive in Hbud. naive_solver.
    + injection Hj as ->. naive_solver.
    + injection Hj as ->. congruence.
  - rewrite atz_setz_ne in Hl' by lia. by eapply (Hco o' l' j).
Qed.

Lemma insert_free_spec b i o :
  loop_ok b i o ->
  (o < MAX_ORDER -> forall l, atz (free_lists_ b) o = Some l -> Some (buddy_index o i) ∉ l) ->
  exists b', insert_free o (Some i) b = Some b' /\ merged b b' i o i o.
Proof.
  intros [Hok Hptrs Hrange Hroom Ho Hal [Hi Hlen] Hnd] Hbud. pose proof (pow2_pos o ltac:(lia)).
  destruct (atz_order b o Hok Ho) as [l Hl].
  destruct (push_back_spec b o l i) as (b1 & Hpush & Hok1 & Hp1 & Hf1 & Hc1); [done..| |done|].
  { apply Hroom in Hl. lia. }
  unfold insert_free. rewrite Hpush. simpl. rewrite Hp1.
  destruct (deref_ptrs (pages b) i Hptrs) as (p & -> & _ & Hidx); [lia|]. simpl.
  rewrite Hidx, Z.shiftl_1_l, for_pages_spec by lia. simpl.
  eexists. split; [done|]. split; simpl; [by apply (lists_ok_ext b1)|done|done|done|eauto|].
  intros Hco. eapply (coalesced_push b _ o l i); [done..|lia|eauto|done].
Qed.

(** A buddy that [get_page] does not find is on no list. *)
Lemma get_page_buddy b o l i j :
  loop_ok b i o -> atz (free_lists_ b) o = Some l ->
  get_page (pages b) (buddy_index o i * PAGE_SIZE) = j ->
  (j = None -> Some (buddy_index o i) ∉ l) /\
  (forall k, j = Some k -> k = buddy_index o i).
Proof.
  intros Hlk Hl Hg. split.
  - intros -> Hin. assert (buddy_index o i ∈ covered b) as Hc.
    { eapply (covered_elem b o l); [done..| |]; destruct (lk_order _ _ _ Hlk);
        [lia|]. pose proof (pow2_pos o); lia. }
    apply (lk_range _ _ _ Hlk) in Hc. rewrite get_page_index in Hg by done. done.
  - intros k ->. apply get_page_Some in Hg. naive_solver.
Qed.

(** One merge step keeps the loop invariant. *)
Lemma loop_ok_step b i o l l' :
  loop_ok b i o -> o < MAX_ORDER -> atz (free_lists_ b) o = Some l ->
  find_erase (Some (buddy_index o i)) l = Some l' ->
  let b1 := set_free_lists (setz (free_lists_ b) o l') b in
  let i1 := Z.min i (buddy_index o i) in
  loop_ok b1 i1 (o + 1) /\ seqZ i1 (2 ^ (o + 1)) ++ covered b1 ≡ₚ seqZ i (2 ^ o) ++ covered b /\
  l ≡ₚ Some (buddy_index o i) :: l'.
Proof.
  intros Hlk HoM Hl Hf b1 i1. pose proof Hlk as [Hok Hptrs Hrange Hroom Ho Hal [Hi Hlen] Hnd].
  destruct (find_erase_spec b o l l' _ Hok Hl Hf) as (Hok1 & Halb & Hperm & Hc).
  fold b1 in Hok1, Hc. pose proof (pow2_pos o ltac:(lia)).
  assert (forall k, buddy_index o i <= k < buddy_index o i + 2 ^ o -> 0 < k < lenz (pages b)) as Hbr.
  { intros k Hk. apply Hrange. rewrite Hc. apply elem_of_app. left. by apply elem_of_seqZ. }
  pose proof (Hbr (buddy_index o i) ltac:(lia)). pose proof (Hbr (buddy_index o i + 2 ^ o - 1) ltac:(lia)).
  assert (seqZ i1 (2 ^ (o + 1)) ++ covered b1 ≡ₚ seqZ i (2 ^ o) ++ covered b) as Hcov.
  { unfold i1. rewrite buddy_merge_pages, Hc by (done || lia). by rewrite (assoc_L (++)). }
  split; [|done]. split; [done|done| | |lia| | |by rewrite Hcov].
  - intros k Hk. apply Hrange. rewrite Hc. apply elem_of_app. eauto.
  - intros o' l0 Hl0. simpl in Hl0. destruct (Z.eq_dec o o') as [<-|Hne].
    + rewrite atz_setz_eq in Hl0 by (by eapply atz_Some_lt). simplify_eq.
      apply Hroom in Hl. apply Permutation_length in Hperm. unfold lenz in *. simpl in Hperm. lia.
    + rewrite atz_setz_ne in Hl0 by lia. by apply (Hroom o').
  - apply buddy_min_aligned; [lia|done].
  - simpl. rewrite pow2_S by lia. unfold i1.
    destruct (buddy_index_cases o i) as [[_ Heq]|[_ Heq]]; [lia|done|..]; rewrite Heq in *; lia.
Qed.

Lemma coalesced_erase b o l l' p :
  coalesced b -> atz (free_lists_ b) o = Some l -> l ≡ₚ p :: l' ->
  coalesced (set_free_lists (setz (free_lists_ b) o l') b).
Proof.
  intros Hco Hl Hp o' l0 j Ho' Hl0 Hj Hbad. simpl in Hl0. destruct (Z.eq_dec o o') as [<-|Hne].
  - rewrite atz_setz_eq in Hl0 by (by eapply atz_Some_lt). simplify_eq.
    eapply (Hco o l j); [done|done|rewrite Hp; by right|rewrite Hp; by right].
  - pose proof (atz_Some_lt _ _ _ Hl). rewrite atz_setz_ne in Hl0 by lia. by eapply (Hco o' l0 j).
Qed.

Lemma free_loop_spec n b i o :
  loop_ok b i o -> Z.of_nat n = MAX_ORDER + 1 - o ->
  exists b' i' o', free_loop n o (Some i) b = Some b' /\ merged b b' i o i' o'.
Proof.
  revert b i o. induction n as [|n IH]; intros b i o Hlk Hn.
  { destruct (lk_order _ _ _ Hlk). lia. }
  pose proof Hlk as [Hok Hptrs Hrange Hroom Ho Hal [Hi Hlen] Hnd]. pose proof (pow2_pos o ltac:(lia)).
  simpl. destruct (Z.eqb_spec o MAX_ORDER) as [->|HoM].
  { destruct (insert_free_spec b i MAX_ORDER Hlk) as (b' & ? & ?); [lia|]. eauto. }
  destruct (deref_ptrs (pages b) i Hptrs) as (p & -> & Hptr & _); [lia|]. simpl.
  destruct (atz_order b o Hok Ho) as [l Hl]. rewrite Hptr, buddy_addr, Hl by lia. simpl.
  destruct (get_page _ _) as [j|] eqn:Hg;
    destruct (get_page_buddy b o l i _ Hlk Hl Hg) as [Hnone Hsome]; [rewrite (Hsome j eq_refl)|];
    destruct (find_erase _ l) as [l'|] eqn:Hf.
  - destruct (loop_ok_step b i o l l') as (Hlk1 & Hcov & Hperm); [done|lia|done|done|].
    simpl. destruct (IH _ _ _ Hlk1) as (b' & i' & o' & Hfl & [M1 M2 M3 M4 M5 M6]); [lia|].
    exists b', i', o'. split; [done|].
    assert (forall k, Z.min i (buddy_index o i) <= k < Z.min i (buddy_index o i) + 2 ^ (o + 1) \/
      k ∈ covered (set_free_lists (setz (free_lists_ b) o l') b) <->
      i <= k < i + 2 ^ o \/ k ∈ covered b) as Hiff.
    { intros k. rewrite <- !elem_of_seqZ, <- !elem_of_app, Hcov. done. }
    split; [done|by rewrite M2, Hcov|done| | |].
    + intros k Hk. apply M4. rewrite pow2_S by lia.
      destruct (buddy_index_cases o i) as [[_ Heq]|[_ Heq]]; [lia|done|..]; rewrite Heq; lia.
    + intros k Hk. apply Hiff, M5. done.
    + intros Hco. apply M6. by eapply coalesced_erase.
  - apply find_erase_None in Hf. destruct (insert_free_spec b i o Hlk) as (b' & ? & ?); [|eauto].
    intros _ ? ?. by simplify_eq.
  - apply find_erase_Some in Hf.
    destruct (lo_aligned b Hok o l None Hl) as (? & ? & ?); [rewrite Hf; by left|done].
  - destruct (insert_free_spec b i o Hlk) as (b' & ? & ?); [|eauto].
    intros _ ? ?. simplify_eq. by apply Hnone.
Qed.

(** Pages that are already free do not notice [set_free], so clearing the
    merged block is clearing the block that was freed. *)
Lemma merged_pages b b' i o i' o' :
  wf b -> merged b b' i o i' o' -> pages b' = upd_range (pages b) i (2 ^ o) set_free.
Proof.
  intros Hwf [_ _ -> Hg Hfr _]. apply atz_ext; [by rewrite !lenz_upd_range|].
  intros k Hk. destruct (decide (i <= k < i + 2 ^ o)) as [Hin|Hout].
  - rewrite !atz_upd_range_in by eauto. done.
  - rewrite (atz_upd_range_out _ i) by done. destruct (decide (i' <= k < i' + 2 ^ o')) as [Hin'|Hout'].
    + rewrite atz_upd_range_in by done. destruct (atz (pages b) k) as [p|] eqn:Hp; [|done]. simpl.
      destruct (Hfr k Hin') as [|Hc]; [done|]. pose proof (wf_free b Hwf k p Hp Hc) as Hst.
      destruct p; simpl in *; subst. done.
    + by rewrite atz_upd_range_out by done.
Qed.

(** The block [i] of order [o] is in use: aligned, inside the vector, and
    none of its pages is on a free list. *)
Record in_use (b : BuddySystem) (i o : Z) : Prop := {
  iu_order : 0 <= o <= MAX_ORDER;
  iu_aligned : i mod 2 ^ o = 0;
  iu_block : 0 < i /\ i + 2 ^ o <= lenz (pages b);
  iu_used : forall k, i <= k < i + 2 ^ o -> k ∉ covered b;
}.

Lemma in_use_nodup b i o : wf b -> in_use b i o -> NoDup (seqZ i (2 ^ o) ++ covered b).
Proof.
  intros Hwf [_ _ _ Hu]. apply NoDup_app. split_and!; [apply NoDup_seqZ| |by apply wf_nodup].
  intros k Hk. apply Hu. by apply elem_of_seqZ in Hk.
Qed.

Lemma free_spec b i size :
  wf b -> room 1 b -> 0 < size <= MAX_BLOCK_BYTES -> in_use b i (order_of size) ->
  exists b', free (i * PAGE_SIZE) size b = Some b' /\ wf b' /\
    covered b' ≡ₚ seqZ i (2 ^ order_of size) ++ covered b /\
    pages b' = upd_range (pages b) i (2 ^ order_of size) set_free /\
    (coalesced b -> coalesced b').
Proof.
  intros Hwf Hroom Hsize Hiu. pose proof (in_use_nodup b i _ Hwf Hiu) as Hnd.
  pose proof Hiu as [Ho Hal [Hi Hlen] Hu]. set (o := order_of size) in *. pose proof (pow2_pos o ltac:(lia)).
  unfold free. rewrite Z.div_mul by done.
  destruct (deref_wf b i Hwf) as (p & Hd & _ & _); [lia|]. rewrite Hd. simpl.
  assert (status_ p = 1) as Hst by (apply (wf_used b Hwf i); [done|apply Hu; lia]).
  unfold is_free. rewrite Hst. simpl. fold (order_of size). fold o.
  destruct (Z.eqb_spec o (-1)); [lia|].
  destruct (free_loop_spec (Z.to_nat (MAX_ORDER + 1 - o)) b i o) as (b' & i' & o' & Hf & Hm); [|lia|].
  { destruct Hwf. by split. }
  exists b'. rewrite Hf. pose proof (merged_pages b b' i o i' o' Hwf Hm) as Hp. destruct Hm.
  split_and!; try done. apply (wf_give b b' i o); done || lia.
Qed.

(** ** Theorems *)

(** [calculate_order] is the least order whose blocks hold the requested
    number of pages, for every request up to the largest block. *)
Theorem calculate_order_correct n :
  0 < n <= 2 ^ MAX_ORDER ->
  0 <= calculate_order n <= MAX_ORDER /\ n <= 2 ^ calculate_order n /\
  (0 < calculate_order n -> 2 ^ (calculate_order n - 1) < n).
Proof.
  intros Hn. destruct (calculate_order_spec n Hn) as (H1 & H2 & H3). split_and!; [lia..|].
  intros Hpos. destruct (Z.lt_ge_cases (2 ^ (calculate_order n - 1)) n) as [|Hge]; [done|].
  pose proof (H3 (calculate_order n - 1) ltac:(lia) Hge). lia.
Qed.

(** Splitting a block leaves no two buddies on one list. *)
Lemma handed_out_coalesced b b' o next i rest :
  0 <= o -> handed_out b b' o next i rest -> coalesced b -> coalesced b'.
Proof.
  intros Ho [Hn Hfr _ Hcar _ _ _] Hco k l j Hk Hl Hj Hbad. rewrite Hcar in Hl.
  destruct (Z.eqb_spec k next) as [->|].
  - injection Hl as <-. by eapply (Hco next _ j); [done|done|right..].
  - destruct (Z.leb_spec o k), (Z.ltb_spec k next); simpl in Hl; try (by eapply (Hco k l j)).
    injection Hl as <-. apply list_elem_of_singleton in Hj, Hbad. injection Hj as ->.
    injection Hbad as Hbad. pose proof (pow2_pos k ltac:(lia)).
    unfold buddy_index in Hbad. apply (f_equal (Z.lxor (i + 2 ^ k))) in Hbad.
    rewrite <- Z.lxor_assoc, Z.lxor_nilpotent, Z.lxor_0_l in Hbad. lia.
Qed.

Lemma handed_out_in_use b b' o next i rest :
  wf b -> 0 <= o -> handed_out b b' o next i rest -> 0 < i /\ wf b' /\ in_use b' i o.
Proof.
  intros Hwf Ho [Hn Hfr _ _ Hok Hcov Hp].
  destruct (wf_block b next _ i Hwf Hfr) as (_ & Hal & Hi & Hlen); [by left|].
  assert (wf b') as Hwf' by (by eapply wf_take).
  split_and!; [done|done|]. pose proof (pow2_le_mono o next ltac:(lia)). split.
  - lia.
  - by apply (mod_pow2_weaken _ o next); [lia|].
  - rewrite Hp, lenz_upd_range. lia.
  - pose proof (wf_nodup b Hwf) as Hnd. rewrite Hcov in Hnd. apply NoDup_app in Hnd as (_ & Hd & _).
    intros k Hk. apply Hd. by apply elem_of_seqZ.
Qed.

Lemma allocate_wf b size :
  wf b -> 0 < size <= MAX_BLOCK_BYTES ->
  let o := order_of size in
  (exists i b', allocate size b = Some (i * PAGE_SIZE, b') /\ 0 < i /\ wf b' /\ in_use b' i o /\
     covered b ≡ₚ seqZ i (2 ^ o) ++ covered b' /\
     pages b' = upd_range (pages b) i (2 ^ o) set_used) \/
  (allocate size b = Some (0, b) /\
   forall k, o <= k <= MAX_ORDER -> atz (free_lists_ b) k = Some []).
Proof.
  intros Hwf Hsize o. pose proof (order_of_range size Hsize) as Ho.
  destruct (allocate_spec b size Hwf Hsize) as [(i & next & rest & b' & Ha & Hh)|[Ha Hall]]; [left|by right].
  destruct (handed_out_in_use b b' o next i rest) as (Hi & Hwf' & Hiu); [done|lia|done|].
  destruct Hh. exists i, b'. done.
Qed.

(** C2: [allocate] never faults on a well-formed allocator.  A valid request
    either gets a block that was free, aligned to its own size and with a
    non-null address, and leaves a well-formed allocator that lost exactly
    this block, whose pages are now marked as used; or it gets the null
    pointer, with the allocator unchanged, and then no free list of the
    requested or a larger order has a block. *)
Theorem allocate_correct b size :
  wf b -> 0 < size <= MAX_BLOCK_BYTES ->
  let o := order_of size in
  (exists i b', allocate size b = Some (i * PAGE_SIZE, b') /\ 0 < i /\ wf b' /\ in_use b' i o /\
     covered b ≡ₚ seqZ i (2 ^ o) ++ covered b' /\
     pages b' = upd_range (pages b) i (2 ^ o) set_used) \/
  (allocate size b = Some (0, b) /\
   forall k, o <= k <= MAX_ORDER -> atz (free_lists_ b) k = Some []).
Proof. apply allocate_wf. Qed.

(** A request of zero bytes, and one beyond the largest block, gets the null
    pointer and leaves the allocator unchanged.  The bound [2^44 - 4096] is
    where the page count stops fitting the [unsigned int] of
    [bit_width_ceil]. *)
Theorem allocate_rejects b size :
  size = 0 \/ MAX_BLOCK_BYTES < size <= 2 ^ 44 - PAGE_SIZE -> allocate size b = Some (0, b).
Proof.
  unfold MAX_BLOCK_BYTES, MAX_ORDER, PAGE_SIZE. intros Hsize.
  assert (order_of size = -1) as Ho; [|unfold allocate; fold (order_of size); by rewrite Ho].
  unfold order_of. destruct Hsize as [->|Hsize]; [done|].
  rewrite pages_for_bytes_small by (unfold PAGE_SIZE; lia). unfold PAGE_SIZE.
  assert (2 ^ 18 < (size + 4096 - 1) / 4096 < 2 ^ 32) as Hn.
  { split; [apply Z.lt_le_trans with (2 ^ 18 + 1); [lia|apply Z.div_le_lower_bound; lia]|
      apply Z.div_lt_upper_bound; lia]. }
  set (n := _ / 4096) in *. unfold calculate_order. destruct (Z.eqb_spec n 0); [lia|].
  rewrite wrap_small by lia. destruct (bit_width_ceil_spec n ltac:(lia)) as (H1 & H2 & _).
  unfold MAX_ORDER. destruct (Z.ltb_spec 18 (bit_width_ceil n)) as [|Hle]; [done|].
  pose proof (pow2_le_mono _ _ Hle). lia.
Qed.

(** C3: [free] of a block in use, with room for one more node on the free lists,
    never faults: exactly the pages of the block become free, whatever
    merging took place, and the allocator is well formed again. *)
Theorem free_correct b i size :
  wf b -> room 1 b -> 0 < size <= MAX_BLOCK_BYTES -> in_use b i (order_of size) ->
  exists b', free (i * PAGE_SIZE) size b = Some b' /\ wf b' /\
    covered b' ≡ₚ seqZ i (2 ^ order_of size) ++ covered b /\
    pages b' = upd_range (pages b) i (2 ^ order_of size) set_free.
Proof.
  intros Hwf Hroom Hsize Hiu. destruct (free_spec b i size) as (b' & H1 & H2 & H3 & H4 & _); [done..|].
  eauto 10.
Qed.

(** Freeing an address whose page is free is detected and changes nothing. *)
Theorem double_free_detected b i size :
  wf b -> i ∈ covered b -> free (i * PAGE_SIZE) size b = Some b.
Proof.
  intros Hwf Hi. pose proof (wf_range b Hwf i Hi) as Hr.
  destruct (deref_wf b i Hwf) as (p & Hd & _); [lia|].
  unfold free. rewrite Z.div_mul by done. rewrite Hd. simpl.
  unfold is_free. rewrite (wf_free b Hwf i p Hd Hi). done.
Qed.
