(* ===== verification/BuddyTrace.v ===== *)
(** * Client traces of the buddy allocator

    The allocator and its clients as a state machine: a client obtains blocks
    with [allocate] and gives them back with [free], with the size it asked
    for.  The theorems here speak about every sequence of such calls. *)

From S2P Require Import Prelude BitUtils Pages Buddy BuddyLemmas BuddyProofs.

(** ** Definitions *)

(** A live allocation: first page and requested size in bytes. *)
Abbreviation alloc_rec := (Z * Z)%type.

Definition alloc_pages (a : alloc_rec) : list Z := seqZ a.1 (2 ^ order_of a.2).

(** The pages held by clients. *)
Definition live_pages (live : list alloc_rec) : list Z := live ≫= alloc_pages.

(** One call, with the clients' bookkeeping of live allocations. *)
Inductive client_step : BuddySystem * list alloc_rec -> BuddySystem * list alloc_rec -> Prop :=
| step_allocate b live size i b' :
    0 < size <= MAX_BLOCK_BYTES -> allocate size b = Some (i * PAGE_SIZE, b') -> i <> 0 ->
    client_step (b, live) (b', (i, size) :: live)
| step_allocate_null b live size b' :
    0 < size <= MAX_BLOCK_BYTES -> allocate size b = Some (0, b') ->
    client_step (b, live) (b', live)
| step_free b before i size after b' :
    room 1 b -> free (i * PAGE_SIZE) size b = Some b' ->
    client_step (b, before ++ (i, size) :: after) (b', before ++ after).

(** Invariant of the machine started with the free pages [all]. *)
Record trace_inv (all : list Z) (s : BuddySystem * list alloc_rec) : Prop := {
  ti_wf : wf s.1;
  ti_pages : live_pages s.2 ++ covered s.1 ≡ₚ all;
  ti_live : Forall (fun a => 0 < a.2 <= MAX_BLOCK_BYTES /\ in_use s.1 a.1 (order_of a.2)) s.2;
}.

(** ** Lemmas *)

Lemma live_pages_app l k : live_pages (l ++ k) = live_pages l ++ live_pages k.
Proof. apply bind_app. Qed.

(** A live block stays in use when other pages change hands. *)
Lemma in_use_stable b b' i o :
  in_use b i o -> lenz (pages b') = lenz (pages b) ->
  (forall k, i <= k < i + 2 ^ o -> k ∈ covered b' -> k ∈ covered b) -> in_use b' i o.
Proof.
  intros [H1 H2 H3 H4] Hlen Hsub. split; rewrite ?Hlen; [done..|].
  intros k Hk Hc. by apply (H4 k), Hsub.
Qed.

Lemma trace_inv_allocate all b live size i b' :
  trace_inv all (b, live) -> 0 < size <= MAX_BLOCK_BYTES ->
  allocate size b = Some (i * PAGE_SIZE, b') -> i <> 0 -> trace_inv all (b', (i, size) :: live).
Proof.
  intros [Hwf Hpg Hlive] Hsize Ha Hi. simpl in *.
  destruct (allocate_wf b size Hwf Hsize)
    as [(j & b1 & Ha' & Hj & Hwf' & Hiu & Hcov & Hp)|[Ha' _]]; rewrite Ha' in Ha; injection Ha as Heq ->.
  2: { unfold PAGE_SIZE in *. lia. }
  assert (j = i) as -> by (unfold PAGE_SIZE in *; lia). split; simpl.
  - done.
  - unfold live_pages in *. simpl. unfold alloc_pages at 1. simpl.
    rewrite <- (assoc_L (++)), Permutation_app_swap_app, <- Hcov. done.
  - constructor; [done|]. eapply Forall_impl; [done|]. intros [k sz] [? Hk]. split; [done|].
    eapply in_use_stable; [done|by rewrite Hp, lenz_upd_range|]. intros x _ Hx.
    rewrite Hcov. apply elem_of_app. by right.
Qed.

Lemma trace_inv_free all b before i size after b' :
  NoDup all -> trace_inv all (b, before ++ (i, size) :: after) -> room 1 b ->
  free (i * PAGE_SIZE) size b = Some b' -> trace_inv all (b', before ++ after).
Proof.
  intros Hnd [Hwf Hpg Hlive] Hroom Hf. simpl in *.
  apply Forall_app in Hlive as [Hl1 [[Hsize Hiu] Hl2]%Forall_cons]. simpl in Hsize, Hiu.
  destruct (free_spec b i size Hwf Hroom Hsize Hiu) as (b1 & Hf' & Hwf' & Hcov & Hp & _).
  rewrite Hf' in Hf. injection Hf as ->.
  rewrite live_pages_app in Hpg.
  assert (live_pages ((i, size) :: after) = seqZ i (2 ^ order_of size) ++ live_pages after) as Hc by done.
  rewrite Hc in Hpg.
  assert (live_pages (before ++ after) ++ covered b' ≡ₚ all) as Hpg'.
  { rewrite Hcov, live_pages_app, <- Hpg, <- !(assoc_L (++)). f_equiv.
    apply Permutation_app_swap_app. }
  assert (forall a k, a ∈ before ++ after -> k ∈ alloc_pages a -> k ∉ seqZ i (2 ^ order_of size)) as Hdis.
  { intros a k Ha Hk Hbad. rewrite <- Hpg', Hcov in Hnd. apply NoDup_app in Hnd as (_ & Hd & _).
    apply (Hd k); [|apply elem_of_app; by left]. apply list_elem_of_bind. eauto. }
  split; simpl; [done|done|].
  apply Forall_forall. intros [j sz] Hj.
  assert (0 < sz <= MAX_BLOCK_BYTES /\ in_use b j (order_of sz)) as [Hsz Hiuj].
  { apply elem_of_app in Hj as [Hj|Hj];
      [by apply (proj1 (Forall_forall _ _) Hl1 (j, sz))|by apply (proj1 (Forall_forall _ _) Hl2 (j, sz))]. }
  split; [done|]. eapply in_use_stable; [done|by rewrite Hp, lenz_upd_range|].
  intros k Hk Hin. rewrite Hcov in Hin. apply elem_of_app in Hin as [Hin|]; [|done].
  exfalso. eapply (Hdis (j, sz) k); [done| |done]. by apply elem_of_seqZ.
Qed.

Lemma trace_inv_step all s s' : NoDup all -> trace_inv all s -> client_step s s' -> trace_inv all s'.
Proof.
  intros Hnd Hinv Hstep. inversion Hstep; subst.
  - by eapply trace_inv_allocate.
  - destruct Hinv as [Hwf Hpg Hlive]. simpl in *.
    destruct (allocate_wf b size Hwf) as [(j & b1 & Ha' & Hj & _)|[Ha' _]]; [done|..].
    + rewrite Ha' in H0. injection H0 as Heq _. unfold PAGE_SIZE in *. lia.
    + rewrite Ha' in H0. injection H0 as <-. by split.
  - by eapply trace_inv_free.
Qed.

(** ** Theorems *)

(** Along every sequence of calls that starts with a well-formed allocator
    and no live allocation, the allocator stays well formed, and the pages
    held by clients together with the free pages are exactly the initial
    free pages, each held once: live blocks never overlap each other or a
    free block, and no page is ever lost. *)
Theorem client_trace_safe b0 b live :
  wf b0 -> rtc client_step (b0, []) (b, live) ->
  wf b /\ live_pages live ++ covered b ≡ₚ covered b0 /\ NoDup (live_pages live ++ covered b) /\
  Forall (fun a => in_use b a.1 (order_of a.2)) live.
Proof.
  intros Hwf Hrtc. pose proof (wf_nodup b0 Hwf) as Hnd.
  assert (trace_inv (covered b0) (b, live)) as [H1 H2 H3].
  { eapply (rtc_ind_l (fun s => trace_inv (covered b0) s -> trace_inv (covered b0) (b, live)));
      [done| |done|by split].
    intros x y Hxy _ IH Hx. by eapply IH, trace_inv_step. }
  simpl in *. split_and!; [done|done|by rewrite H2|]. eapply Forall_impl; [done|]. naive_solver.
Qed.

(** Allocating a block and freeing it with the same size restores the page
    metadata exactly and the free pages up to the order of the lists. *)
Theorem allocate_free_roundtrip b size i b' :
  wf b -> room 1 b' -> 0 < size <= MAX_BLOCK_BYTES ->
  allocate size b = Some (i * PAGE_SIZE, b') -> i <> 0 ->
  exists b'', free (i * PAGE_SIZE) size b' = Some b'' /\ wf b'' /\
    pages b'' = pages b /\ covered b'' ≡ₚ covered b.
Proof.
  intros Hwf Hroom Hsize Ha Hi.
  destruct (allocate_wf b size Hwf Hsize)
    as [(j & b1 & Ha' & Hj & Hwf' & Hiu & Hcov & Hp)|[Ha' _]]; rewrite Ha' in Ha; injection Ha as Heq ->.
  2: { unfold PAGE_SIZE in *. lia. }
  assert (j = i) as -> by (unfold PAGE_SIZE in *; lia).
  destruct (free_spec b' i size) as (b'' & Hf & Hwf'' & Hcov' & Hp' & _); [done..|].
  exists b''. split_and!; [done|done| |by rewrite Hcov', Hcov].
  rewrite Hp', Hp. apply atz_ext; [by rewrite !lenz_upd_range|]. intros k Hk.
  destruct (decide (i <= k < i + 2 ^ order_of size)) as [Hin|Hout].
  - rewrite !atz_upd_range_in by done. destruct (atz (pages b) k) as [p|] eqn:Hpk; [|done].
    simpl. assert (status_ p = 0) as Hst.
    { apply (wf_free b Hwf k); [done|]. rewrite Hcov. apply elem_of_app. left. by apply elem_of_seqZ. }
    destruct p; simpl in *; subst. done.
  - by rewrite !atz_upd_range_out by done.
Qed.

(** Both operations keep the free lists fully merged: no list ever holds a
    block together with its buddy. *)
Theorem always_coalesced b0 b live :
  wf b0 -> coalesced b0 -> rtc client_step (b0, []) (b, live) -> coalesced b.
Proof.
  intros Hwf Hco Hrtc. pose proof (wf_nodup b0 Hwf) as Hnd.
  assert (trace_inv (covered b0) (b, live) /\ coalesced b) as [_ ?]; [|done].
  eapply (rtc_ind_l (fun s => trace_inv (covered b0) s /\ coalesced s.1 ->
    trace_inv (covered b0) (b, live) /\ coalesced b)); [exact (fun H => H)| |done|split; [by split|done]].
  intros x y Hxy _ IH [Hx Hcx]. apply IH. split; [by eapply trace_inv_step|].
  destruct Hx as [Hwfx _ Hlx]. inversion Hxy; subst; simpl in *.
  - destruct (allocate_spec b1 size Hwfx) as [(j & nx & rest & b2 & Ha & Hh)|[Ha _]]; [done|..];
      rewrite Ha in H0; simplify_eq; [|done].
    eapply (handed_out_coalesced b1); [|done|done]. by apply order_of_range.
  - destruct (allocate_spec b1 size Hwfx) as [(j & nx & rest & b2 & Ha & Hh)|[Ha _]]; [done|..];
      rewrite Ha in H0; simplify_eq; [|done].
    eapply (handed_out_coalesced b1); [|done|done]. by apply order_of_range.
  - apply Forall_app in Hlx as [_ [[Hsize Hiu] _]%Forall_cons]. simpl in *.
    destruct (free_spec b1 i size) as (b2 & Hf & _ & _ & _ & Hc); [done..|].
    rewrite Hf in H0. injection H0 as ->. eauto.
Qed.
