(* ===== verification/BuddyInit.v ===== *)
(** * Registration of free memory with the buddy allocator

    [register_memory_blocks] and [initialize_memory_manager] of
    [kernel/memory/buddy_system.cpp]: a run of free pages below 4 GiB is cut
    into aligned blocks that cover it exactly, and the number of nodes each
    free list receives is the binary expansion of the lengths registered.
    Above 4 GiB the 32-bit [align_up] makes the recursion diverge. *)

From S2P Require Import Prelude BitUtils Pages Buddy BuddyLemmas BuddyProofs.

(** ** Definitions *)

(** First page index whose address needs more than 32 bits. *)
Definition PAGES_4GIB : Z := 2 ^ 20.

(** Number of blocks of order [k] in the greedy decomposition of [n] pages. *)
Definition gain (n k : Z) : Z :=
  if k =? MAX_ORDER then n / 2 ^ MAX_ORDER else (n / 2 ^ k) mod 2.

(** The lists of [b'] extend those of [b] by [g k] blocks of order [k], which
    cover the pages [s .. s + n). *)
Record registered (b b' : BuddySystem) (s n : Z) (g : Z -> Z) : Prop := {
  rg_lists : lists_ok b';
  rg_pages : pages b' = pages b;
  rg_covered : covered b' ≡ₚ seqZ s n ++ covered b;
  rg_gain : forall k l, atz (free_lists_ b) k = Some l ->
    exists l', atz (free_lists_ b') k = Some l' /\ lenz l' = lenz l + g k;
}.

Definition room_for (g : Z -> Z) (b : BuddySystem) : Prop :=
  forall k l, atz (free_lists_ b) k = Some l -> lenz l + g k <= FREE_LIST_NODES.

(** ** Greedy decomposition *)

Lemma calc_max_order_spec n :
  0 < n < 2 ^ 32 -> calc_max_order_in_total_pages n = Z.min MAX_ORDER (Z.log2 n).
Proof.
  intros Hn. unfold calc_max_order_in_total_pages. destruct (Z.eqb_spec n 0); [lia|].
  rewrite (wrap_small 32 n) by lia. rewrite bit_width_pos by lia.
  pose proof (log2_u32 n Hn). rewrite (wrap_small 32) by lia. rewrite wrap_small by lia.
  unfold MAX_ORDER. destruct (Z.ltb_spec 18 (Z.log2 n + 1 - 1)); lia.
Qed.

Lemma calc_max_order_pow n :
  0 < n < 2 ^ 32 -> let o := calc_max_order_in_total_pages n in
  0 <= o <= MAX_ORDER /\ 2 ^ o <= n /\ (o < MAX_ORDER -> n < 2 ^ (o + 1)).
Proof.
  intros Hn o. unfold o. rewrite calc_max_order_spec by done.
  pose proof (log2_u32 n Hn). pose proof (Z.log2_spec n ltac:(lia)) as [H1 H2].
  unfold MAX_ORDER. split_and!; [lia..| |].
  - pose proof (pow2_le_mono (Z.min 18 (Z.log2 n)) (Z.log2 n) ltac:(lia)). lia.
  - intros Hlt. rewrite Z.min_r by lia. done.
Qed.

Lemma div_sub_pow2 n o k : 0 <= k <= o -> (n - 2 ^ o) / 2 ^ k = n / 2 ^ k - 2 ^ (o - k).
Proof.
  intros Hk. replace (n - 2 ^ o) with (n + (- 2 ^ (o - k)) * 2 ^ k).
  - rewrite Z.div_add by lia. lia.
  - replace (2 ^ o) with (2 ^ (o - k) * 2 ^ k) by (rewrite <- Z.pow_add_r by lia; f_equal; lia). lia.
Qed.

(** Taking the largest block off changes the count of its order only. *)
Lemma gain_step n k :
  0 < n < 2 ^ 32 -> 0 <= k <= MAX_ORDER ->
  let o := calc_max_order_in_total_pages n in
  gain (n - 2 ^ o) k = gain n k - (if k =? o then 1 else 0).
Proof.
  intros Hn Hk o. destruct (calc_max_order_pow n Hn) as (Ho & Hle & Hlt). fold o in Ho, Hle, Hlt.
  unfold gain. pose proof (pow2_pos o ltac:(lia)). pose proof (pow2_pos k ltac:(lia)).
  destruct (Z.eqb_spec k o) as [Heq|Hne], (Z.eqb_spec k MAX_ORDER) as [HkM|HkM].
  - rewrite <- Heq, <- HkM, div_sub_pow2 by lia. rewrite Z.sub_diag. lia.
  - subst k. rewrite div_sub_pow2, Z.sub_diag by lia. specialize (Hlt ltac:(lia)).
    rewrite pow2_S in Hlt by lia. assert (n / 2 ^ o = 1) as ->; [|done].
    symmetry. apply (Z.div_unique _ _ _ (n - 2 ^ o)); lia.
  - specialize (Hlt ltac:(lia)). pose proof (pow2_le_mono (o + 1) MAX_ORDER ltac:(lia)).
    rewrite !Z.div_small by lia. done.
  - rewrite Z.sub_0_r. destruct (Z.lt_ge_cases k o) as [Hko|Hko].
    + rewrite div_sub_pow2 by lia. replace (2 ^ (o - k)) with (2 * 2 ^ (o - k - 1)).
      2:{ rewrite <- pow2_S by lia. f_equal. lia. }
      rewrite Zminus_mod, Z.mul_comm, Z.mod_mul, Z.sub_0_r, Zmod_mod by lia. done.
    + specialize (Hlt ltac:(lia)). pose proof (pow2_le_mono (o + 1) k ltac:(lia)).
      rewrite !(Z.div_small _ (2 ^ k)) by lia. done.
Qed.

Lemma gain_nonneg n k : 0 <= n -> 0 <= k -> 0 <= gain n k.
Proof.
  intros. unfold gain. destruct (Z.eqb_spec k MAX_ORDER).
  - apply Z.div_pos; unfold MAX_ORDER; lia.
  - apply Z.mod_pos_bound. lia.
Qed.

Lemma gain_0 k : 0 <= k -> gain 0 k = 0.
Proof. intros. unfold gain. destruct (Z.eqb_spec k MAX_ORDER); [done|]. by rewrite Z.div_0_l by lia. Qed.

Lemma registered_refl b s g : lists_ok b -> (forall k, 0 <= k -> g k = 0) -> registered b b s 0 g.
Proof.
  intros Hok Hg. split; [done|done|done|]. intros k l Hl. exists l. split; [done|].
  apply atz_Some_lt in Hl. rewrite Hg; lia.
Qed.

Lemma registered_trans b1 b2 b3 s n m g h f :
  registered b1 b2 s n g -> registered b2 b3 (s + n) m h -> 0 <= n -> 0 <= m ->
  (forall k, 0 <= k <= MAX_ORDER -> f k = g k + h k) -> lists_ok b1 ->
  registered b1 b3 s (n + m) f.
Proof.
  intros [A1 A2 A3 A4] [B1 B2 B3 B4] Hn Hm Hf Hok. split; [done|congruence| |].
  - rewrite B3, A3, seqZ_app, <- (assoc_L (++)) by lia. apply Permutation_app_swap_app.
  - intros k l Hl. destruct (A4 k l Hl) as (l1 & Hl1 & E1). destruct (B4 k l1 Hl1) as (l2 & Hl2 & E2).
    exists l2. split; [done|]. rewrite Hf by (by apply (atz_Some_order b1 k l)). lia.
Qed.

(** Pushing one aligned block. *)
Lemma push_registered b s o :
  lists_ok b -> 0 <= o <= MAX_ORDER -> s mod 2 ^ o = 0 ->
  room_for (fun k => if k =? o then 1 else 0) b ->
  exists b', push_back o (Some s) b = Some b' /\
    registered b b' s (2 ^ o) (fun k => if k =? o then 1 else 0).
Proof.
  intros Hok Ho Hal Hroom. destruct (atz_order b o Hok Ho) as [l Hl].
  destruct (push_back_spec b o l s) as (b' & Hp & Hok' & Hpg & Hf & Hc); [done|done| |done|].
  { pose proof (Hroom o l Hl) as Hr. cbv beta in Hr. rewrite Z.eqb_refl in Hr. lia. }
  exists b'. split; [done|]. split; [done..|]. intros k l0 Hl0. rewrite Hf.
  destruct (Z.eqb_spec k o) as [->|Hne].
  - simplify_eq. exists (l ++ [Some s]). rewrite atz_setz_eq by (by eapply atz_Some_lt).
    rewrite lenz_app. done.
  - exists l0. rewrite atz_setz_ne by lia. split; [done|lia].
Qed.

Lemma register_loop_spec fuel b s n :
  lists_ok b -> page_ptrs (pages b) -> 0 <= n < 2 ^ 32 -> n <= Z.of_nat fuel ->
  0 <= s -> s + n <= lenz (pages b) ->
  (0 < n -> s mod 2 ^ calc_max_order_in_total_pages n = 0) -> room_for (gain n) b ->
  exists b', register_loop fuel n (calc_max_order_in_total_pages n) (Some s) b = Some b' /\
    registered b b' s n (gain n).
Proof.
  revert b s n. induction fuel as [|fuel IH]; intros b s n Hok Hptrs Hn Hfuel Hs Hlen Hal Hroom.
  { assert (n = 0) as -> by lia. exists b. split; [done|]. apply registered_refl; [done|apply gain_0]. }
  cbn [register_loop]. destruct (Z.leb_spec n 0) as [Hz|Hpos].
  { assert (n = 0) as -> by lia. exists b. split; [done|]. apply registered_refl; [done|apply gain_0]. }
  destruct (calc_max_order_pow n ltac:(lia)) as (Ho & Hle & Hlt). specialize (Hal Hpos).
  set (o := calc_max_order_in_total_pages n) in *. pose proof (pow2_pos o ltac:(lia)).
  pose proof (fun k => gain_step n k ltac:(lia)) as Hstep. cbv zeta in Hstep. fold o in Hstep.
  destruct (push_registered b s o) as (b1 & Hpush & Hreg); [done|done|done| |].
  { intros k l Hl. pose proof (Hroom k l Hl). pose proof (atz_Some_order b k l Hok Hl) as Hk.
    specialize (Hstep k Hk). pose proof (gain_nonneg (n - 2 ^ o) k ltac:(lia) ltac:(lia)).
    destruct (Z.eqb_spec k o); lia. }
  rewrite Hpush. simpl. pose proof Hreg as [R1 R2 R3 R4]. rewrite R2.
  destruct (deref_ptrs (pages b) s Hptrs) as (p & -> & _ & Hidx); [lia|]. simpl.
  rewrite Hidx, Z.shiftl_1_l, (wrap_small 64) by lia.
  destruct (IH b1 (s + 2 ^ o) (n - 2 ^ o)) as (b2 & -> & Hreg2).
  - done.
  - by rewrite R2.
  - lia.
  - lia.
  - lia.
  - rewrite R2. lia.
  - intros Hpos'. destruct (calc_max_order_pow (n - 2 ^ o) ltac:(lia)) as (Ho' & Hle' & _).
    assert (calc_max_order_in_total_pages (n - 2 ^ o) <= o) as Hdec.
    { rewrite calc_max_order_spec by lia. pose proof (calc_max_order_spec n ltac:(lia)) as Ho1.
      fold o in Ho1. pose proof (Z.log2_le_mono (n - 2 ^ o) n ltac:(lia)). lia. }
    apply (mod_pow2_weaken _ _ o); [lia|]. rewrite Z.add_mod, Hal, Z_mod_same_full by lia. done.
  - intros k l1 Hl1. pose proof (atz_Some_order b1 k l1 R1 Hl1) as Hk.
    destruct (atz_order b k Hok Hk) as [l Hl]. destruct (R4 k l Hl) as (l1' & ? & E). simplify_eq.
    specialize (Hroom k l Hl). specialize (Hstep k Hk). cbv beta in E. lia.
  - exists b2. split; [done|]. replace n with (2 ^ o + (n - 2 ^ o)) at 1 by lia.
    eapply registered_trans; [done|done|lia|lia| |done]. intros k Hk. simpl.
    specialize (Hstep k Hk). lia.
Qed.

(** ** Alignment *)

(** Pages up to the next multiple of [2^o]. *)
Definition round_up (s o : Z) : Z := (- s) mod 2 ^ o.

Lemma round_up_spec s o : 0 <= o -> 0 <= round_up s o < 2 ^ o /\ (s + round_up s o) mod 2 ^ o = 0.
Proof.
  intros Ho. pose proof (pow2_pos o Ho). unfold round_up. split; [apply Z.mod_pos_bound; lia|].
  rewrite Zplus_mod_idemp_r. replace (s + - s) with 0 by lia. done.
Qed.

Lemma page_addr_aligned s o :
  0 <= o -> (s * PAGE_SIZE) mod (Z.shiftl 1 o * PAGE_SIZE) = 0 <-> s mod 2 ^ o = 0.
Proof.
  intros Ho. pose proof (pow2_pos o Ho). rewrite Z.shiftl_1_l. unfold PAGE_SIZE.
  rewrite Z.mul_mod_distr_r by lia. lia.
Qed.

Lemma aligned_pages s o :
  0 <= o <= MAX_ORDER -> 0 <= s -> s + 2 ^ o <= PAGES_4GIB ->
  u64 (align_up (u32 (s * PAGE_SIZE)) (u32 (Z.shiftl 1 o * PAGE_SIZE)) - s * PAGE_SIZE) / PAGE_SIZE
  = round_up s o.
Proof.
  unfold MAX_ORDER, PAGES_4GIB, PAGE_SIZE. intros Ho Hs Hlen. pose proof (pow2_pos o ltac:(lia)).
  pose proof (pow2_le_mono o 18 ltac:(lia)).
  rewrite Z.shiftl_1_l. rewrite !(wrap_small 32) by lia.
  assert (2 ^ o * 4096 = 2 ^ (o + 12)) as -> by (rewrite Z.pow_add_r by lia; done).
  assert (2 ^ (o + 12) = 2 ^ o * 4096) as Hp by (rewrite Z.pow_add_r by lia; done).
  rewrite align_up_pow2 by lia. rewrite Hp.
  replace (- (s * 4096)) with ((- s) * 4096) by lia. rewrite Z.mul_mod_distr_r by lia.
  fold (round_up s o). destruct (round_up_spec s o ltac:(lia)) as [Hr _].
  replace (s * 4096 + round_up s o * 4096 - s * 4096) with (round_up s o * 4096) by lia.
  rewrite wrap_small by lia. by rewrite Z.div_mul by lia.
Qed.

(** ** [register_memory_blocks] *)

(** What the two branches of the function have in common: given the outcome of
    the recursive call on the pages before the alignment boundary. *)
Definition reg_gain (s n k : Z) : Z :=
  let o := calc_max_order_in_total_pages n in
  if s mod 2 ^ o =? 0 then gain n k
  else gain (round_up s o) k + gain (n - round_up s o) k.

Lemma registered_ext b b' s n g h :
  lists_ok b -> (forall k, 0 <= k <= MAX_ORDER -> g k = h k) ->
  registered b b' s n g -> registered b b' s n h.
Proof.
  intros Hok Hgh [G1 G2 G3 G4]. split; [done..|]. intros j l Hl.
  rewrite <- Hgh; [by apply G4|]. by apply (atz_Some_order b j l).
Qed.

Lemma room_for_ext b g h :
  lists_ok b -> (forall k, 0 <= k <= MAX_ORDER -> h k <= g k) -> room_for g b -> room_for h b.
Proof.
  intros Hok Hgh Hroom k l Hl. specialize (Hroom k l Hl).
  specialize (Hgh k (atz_Some_order b k l Hok Hl)). lia.
Qed.

(** The blocks from the alignment boundary on. *)
Lemma register_rest fuel b b1 s n r o :
  lists_ok b -> page_ptrs (pages b) -> o = calc_max_order_in_total_pages n ->
  0 <= r < n -> n < 2 ^ 32 -> n <= Z.of_nat (S fuel) -> 0 <= s -> s + n <= lenz (pages b) ->
  (s + r) mod 2 ^ o = 0 -> room_for (fun k => gain r k + gain (n - r) k) b ->
  registered b b1 s r (gain r) ->
  exists b', register_loop (S fuel) (n - r) (calc_max_order_in_total_pages (n - r)) (Some (s + r)) b1 = Some b' /\
    registered b b' s n (fun k => gain r k + gain (n - r) k).
Proof.
  intros Hok Hptrs Ho Hr Hn Hfuel Hs Hlen Hal Hroom Hreg1. pose proof Hreg1 as [R1 R2 R3 R4].
  destruct (register_loop_spec (S fuel) b1 (s + r) (n - r)) as (b2 & Hb2 & Hreg2); try lia.
  - done.
  - by rewrite R2.
  - rewrite R2. lia.
  - intros Hpos'. apply (mod_pow2_weaken _ _ o); [|done].
    destruct (calc_max_order_pow (n - r) ltac:(lia)) as (Ho' & _ & _). subst o.
    rewrite !calc_max_order_spec in * by lia. pose proof (Z.log2_le_mono (n - r) n ltac:(lia)). lia.
  - intros k l1 Hl1. pose proof (atz_Some_order b1 k l1 R1 Hl1) as Hk.
    destruct (atz_order b k Hok Hk) as [l Hl]. destruct (R4 k l Hl) as (l1' & ? & E). simplify_eq.
    specialize (Hroom k l Hl). cbv beta in Hroom. lia.
  - exists b2. split; [done|]. replace n with (r + (n - r)) at 1 by lia.
    eapply registered_trans; [done|done|lia|lia|done|done].
Qed.

Lemma register_step fuel b s n :
  lists_ok b -> page_ptrs (pages b) -> 0 < n -> n <= Z.of_nat (S fuel) ->
  0 <= s -> s + n <= lenz (pages b) -> s + n <= PAGES_4GIB ->
  room_for (reg_gain s n) b ->
  (let r := round_up s (calc_max_order_in_total_pages n) in
   room_for (gain r) b -> exists b1, register_memory_blocks fuel r (Some s) b = Some b1 /\ registered b b1 s r (gain r)) ->
  exists b', register_memory_blocks (S fuel) n (Some s) b = Some b' /\ registered b b' s n (reg_gain s n).
Proof.
  unfold PAGES_4GIB. intros Hok Hptrs Hpos Hfuel Hs Hlen H4 Hroom Hrec.
  destruct (calc_max_order_pow n ltac:(lia)) as (Ho & Hle & Hlt).
  cbn [register_memory_blocks]. destruct (Z.leb_spec n 0); [lia|].
  destruct (deref_ptrs (pages b) s Hptrs) as (p & -> & Hptr & Hidx); [lia|]. cbn -[register_memory_blocks register_loop].
  rewrite Hptr, Hidx. pose proof (fun k => eq_refl (reg_gain s n k)) as Hg. unfold reg_gain at 2 in Hg.
  set (o := calc_max_order_in_total_pages n) in *. pose proof (page_addr_aligned s o ltac:(lia)) as Hiff.
  destruct (Z.eqb_spec (s mod 2 ^ o) 0) as [Hal|Hal] in Hg.
  - apply Hiff in Hal as Hal'. rewrite Hal'. simpl negb. cbv iota.
    destruct (register_loop_spec (S fuel) b s n) as (b' & ? & ?); try done; try lia.
    + eapply room_for_ext; [done| |done]. intros k _. rewrite Hg. done.
    + exists b'. split; [done|]. eapply registered_ext; [done| |done]. intros k _. by rewrite Hg.
  - destruct (Z.eqb_spec ((s * PAGE_SIZE) mod (Z.shiftl 1 o * PAGE_SIZE)) 0) as [Hz|_]; [tauto|].
    simpl negb. cbv iota. rewrite aligned_pages by (unfold PAGES_4GIB; lia).
    destruct (round_up_spec s o ltac:(lia)) as [Hr Hral]. set (r := round_up s o) in *.
    destruct Hrec as (b1 & Hb1 & Hreg1).
    { eapply room_for_ext; [done| |done]. intros k Hk. rewrite Hg.
      pose proof (gain_nonneg (n - r) k ltac:(lia) ltac:(lia)). lia. }
    rewrite Hb1. cbn -[register_loop]. rewrite (wrap_small 64) by lia.
    destruct (register_rest fuel b b1 s n r o) as (b2 & Hb2 & Hreg2); try done; try lia.
    { eapply room_for_ext; [done| |done]. intros k _. by rewrite Hg. }
    exists b2. split; [done|]. eapply registered_ext; [done| |done]. intros k _. by rewrite Hg.
Qed.

Lemma gain_pow2 o j : 0 <= o <= MAX_ORDER -> 0 <= j <= MAX_ORDER ->
  gain (2 ^ o) j = if j =? o then 1 else 0.
Proof.
  intros Ho Hj. pose proof (pow2_pos o ltac:(lia)). pose proof (pow2_le_mono o MAX_ORDER ltac:(lia)) as HM.
  unfold MAX_ORDER in HM. pose proof (gain_step (2 ^ o) j ltac:(lia) Hj) as H1. cbv zeta in H1.
  rewrite calc_max_order_spec in H1 by lia. rewrite Z.log2_pow2, Z.min_r in H1 by lia.
  rewrite Z.sub_diag, gain_0 in H1 by lia. lia.
Qed.

(** A run that ends at a boundary of a larger order is cut in the binary
    expansion of its length, whether or not its start is aligned. *)
Lemma reg_gain_ascending s n k j :
  0 < n < 2 ^ k -> 0 <= k <= MAX_ORDER -> (s + n) mod 2 ^ k = 0 -> 0 <= j <= MAX_ORDER ->
  reg_gain s n j = gain n j.
Proof.
  intros Hn Hk Hend Hj. pose proof (pow2_le_mono k MAX_ORDER ltac:(lia)) as HkM. unfold MAX_ORDER in HkM.
  destruct (calc_max_order_pow n ltac:(lia)) as (Ho & Hle & Hlt).
  unfold reg_gain. pose proof (gain_step n j ltac:(lia) Hj) as Hstep. cbv zeta in Hstep.
  set (o := calc_max_order_in_total_pages n) in *.
  destruct (Z.eqb_spec (s mod 2 ^ o) 0) as [|Hal]; [done|].
  assert (o < k) as Hok'. { apply (Z.pow_lt_mono_r_iff 2); lia. }
  specialize (Hlt ltac:(unfold MAX_ORDER in *; lia)). rewrite pow2_S in Hlt by lia.
  destruct (round_up_spec s o ltac:(lia)) as [Hr Hral]. set (r := round_up s o) in *.
  assert (n - r = 2 ^ o) as Heq.
  { assert ((n - r) mod 2 ^ o = 0) as Hm.
    { replace (n - r) with ((s + n) - (s + r)) by lia. rewrite Zminus_mod, Hral.
      rewrite (mod_pow2_weaken (s + n) o k) by (done || lia). done. }
    apply Z.mod_divide in Hm as [q Hq]; [|lia]. assert (q = 1) by nia. lia. }
  rewrite Heq, gain_pow2 by done. replace r with (n - 2 ^ o) by lia. lia.
Qed.

Lemma register_ascending fuel b s n k :
  lists_ok b -> page_ptrs (pages b) -> 0 <= n < 2 ^ k -> 0 <= k <= MAX_ORDER -> n <= Z.of_nat fuel ->
  0 <= s -> s + n <= lenz (pages b) -> s + n <= PAGES_4GIB -> (s + n) mod 2 ^ k = 0 ->
  room_for (gain n) b ->
  exists b', register_memory_blocks fuel n (Some s) b = Some b' /\ registered b b' s n (gain n).
Proof.
  revert b s n k. induction fuel as [|fuel IH]; intros b s n k Hok Hptrs Hn Hk Hfuel Hs Hlen H4 Hend Hroom.
  { assert (n = 0) as -> by lia. exists b. split; [done|]. apply registered_refl; [done|apply gain_0]. }
  destruct (Z.eq_dec n 0) as [->|Hnz].
  { exists b. split; [done|]. apply registered_refl; [done|apply gain_0]. }
  pose proof (pow2_le_mono k MAX_ORDER ltac:(lia)) as HkM. unfold MAX_ORDER in HkM.
  destruct (calc_max_order_pow n ltac:(lia)) as (Ho & Hle & _).
  pose proof (fun j => reg_gain_ascending s n k j ltac:(lia) Hk Hend) as Hgain.
  destruct (register_step fuel b s n) as (b' & Hb & Hreg); try done; try lia.
  - eapply room_for_ext; [done| |done]. intros j Hj. by rewrite Hgain.
  - intros r Hr. set (o := calc_max_order_in_total_pages n) in *.
    destruct (round_up_spec s o ltac:(lia)) as [Hrr Hral]. fold r in Hrr, Hral.
    apply (IH b s r o); try done; try lia.
  - exists b'. split; [done|]. by eapply registered_ext.
Qed.

Lemma register_memory_blocks_spec fuel b s n :
  lists_ok b -> page_ptrs (pages b) -> 0 <= n <= Z.of_nat fuel ->
  0 <= s -> s + n <= lenz (pages b) -> s + n <= PAGES_4GIB -> room_for (reg_gain s n) b ->
  exists b', register_memory_blocks fuel n (Some s) b = Some b' /\
    registered b b' s n (if n =? 0 then fun _ => 0 else reg_gain s n).
Proof.
  intros Hok Hptrs Hn Hs Hlen H4 Hroom. destruct (Z.eqb_spec n 0) as [->|Hnz].
  { exists b. split; [by destruct fuel|]. by apply registered_refl. }
  destruct fuel as [|fuel]; [lia|]. unfold PAGES_4GIB in *.
  destruct (calc_max_order_pow n ltac:(lia)) as (Ho & Hle & Hlt).
  apply register_step; try done; try lia.
  intros r Hr. set (o := calc_max_order_in_total_pages n) in *.
  destruct (round_up_spec s o ltac:(lia)) as [Hrr Hral]. fold r in Hrr, Hral.
  apply (register_ascending fuel b s r o); try done; unfold PAGES_4GIB; lia.
Qed.

(** A run contributes at most two blocks to each list below [MAX_ORDER]. *)
Lemma reg_gain_le s n k :
  0 < n < 2 ^ 32 -> 0 <= k <= MAX_ORDER ->
  0 <= reg_gain s n k /\ (if k =? MAX_ORDER then reg_gain s n k * 2 ^ MAX_ORDER <= n else reg_gain s n k <= 2).
Proof.
  intros Hn Hk. unfold reg_gain. destruct (calc_max_order_pow n Hn) as (Ho & Hle & _).
  set (o := calc_max_order_in_total_pages n) in *.
  destruct (round_up_spec s o ltac:(lia)) as [Hr _]. set (r := round_up s o) in *.
  pose proof (pow2_le_mono o MAX_ORDER ltac:(lia)).
  pose proof (gain_nonneg n k ltac:(lia) ltac:(lia)). pose proof (gain_nonneg r k ltac:(lia) ltac:(lia)).
  pose proof (gain_nonneg (n - r) k ltac:(lia) ltac:(lia)).
  split; [destruct (s mod 2 ^ o =? 0); lia|].
  unfold gain in *. destruct (Z.eqb_spec k MAX_ORDER) as [->|].
  - pose proof (Z.mul_div_le n (2 ^ MAX_ORDER) ltac:(done)).
    pose proof (Z.mul_div_le (n - r) (2 ^ MAX_ORDER) ltac:(done)).
    rewrite (Z.div_small r) by lia. destruct (s mod 2 ^ o =? 0); lia.
  - pose proof (Z.mod_pos_bound (n / 2 ^ k) 2). pose proof (Z.mod_pos_bound (r / 2 ^ k) 2).
    pose proof (Z.mod_pos_bound ((n - r) / 2 ^ k) 2). destruct (s mod 2 ^ o =? 0); lia.
Qed.

(** Blocks of one list are part of the covered pages. *)
Lemma list_pages_le b o l :
  lists_ok b -> atz (free_lists_ b) o = Some l -> lenz l * 2 ^ o <= lenz (covered b).
Proof.
  intros Hok Hl. pose proof (atz_Some_order b o l Hok Hl). pose proof (pow2_pos o ltac:(lia)).
  pose proof (covered_update b o l [] Hl) as Hc. simpl in Hc. rewrite Hc, lenz_app.
  assert (lenz (l ≫= block_pages o) = lenz l * 2 ^ o) as ->; [|pose proof (lenz_nonneg (covered (set_free_lists (setz (free_lists_ b) o []) b))); lia].
  assert (Forall (fun q => exists i, q = Some i) l) as Hall.
  { apply Forall_forall. intros q Hq. destruct (lo_aligned b Hok o l q Hl Hq) as (i & -> & _). eauto. }
  clear -Hall H0. induction Hall as [|q l [i ->] _ IH]; [done|].
  rewrite bind_cons, lenz_app, lenz_cons, IH. cbn [block_pages]. unfold lenz at 1. rewrite length_seqZ. lia.
Qed.

(** ** [initialize_memory_manager] *)

Definition page_is_free (ps : list Page) (k : Z) : bool :=
  match atz ps k with
  | Some p => negb (is_used p)
  | None => false
  end.

(** The free pages below [n]. *)
Definition free_below (ps : list Page) (n : Z) : list Z :=
  filter (fun k => page_is_free ps k = true) (seqZ 0 n).

(** Number of maximal runs of free pages; [prev] says whether the page before
    the list is free. *)
Fixpoint free_runs (prev : bool) (ps : list Page) : Z :=
  match ps with
  | [] => 0
  | p :: ps' =>
      (if is_used p then 0 else if prev then 0 else 1) + free_runs (negb (is_used p)) ps'
  end.

(** What the scan knows before it looks at page [i]: the run in progress
    together with the registered pages are the free pages below [i]. *)
Record scan_ok (ps : list Page) (i st cnt : Z) (b : BuddySystem) : Prop := {
  so_lists : lists_ok b;
  so_pages : pages b = ps;
  so_cnt : 0 <= cnt;
  so_run : 0 < cnt -> 0 <= st /\ st + cnt = i;
  so_covered : seqZ st cnt ++ covered b ≡ₚ free_below ps i;
}.

(** Every list below [MAX_ORDER] has room for [m] more nodes. *)
Definition budget (m : Z) (b : BuddySystem) : Prop :=
  forall k l, k < MAX_ORDER -> atz (free_lists_ b) k = Some l -> lenz l + m <= FREE_LIST_NODES.

Lemma free_runs_nonneg prev ps : 0 <= free_runs prev ps.
Proof.
  revert prev. induction ps as [|p ps IH]; intros prev; simpl; [lia|].
  specialize (IH (negb (is_used p))). destruct (is_used p), prev; lia.
Qed.

Lemma free_below_S ps i :
  0 <= i -> free_below ps (i + 1) = free_below ps i ++ (if page_is_free ps i then [i] else []).
Proof.
  intros Hi. unfold free_below. rewrite seqZ_app, filter_app by lia. f_equal.
  replace (seqZ (0 + i) 1) with [i] by (rewrite seqZ_cons by lia; simpl; f_equal; lia).
  destruct (page_is_free ps i) eqn:E; [by rewrite filter_cons_True|].
  rewrite filter_cons_False by congruence. done.
Qed.

Lemma lenz_free_below ps n : 0 <= n -> lenz (free_below ps n) <= n.
Proof.
  intros Hn. unfold lenz, free_below. pose proof (length_filter (fun k => page_is_free ps k = true) (seqZ 0 n)) as H.
  rewrite length_seqZ in H. lia.
Qed.

(** Registering the run in progress. *)
Lemma scan_register ps i st cnt b m :
  scan_ok ps i st cnt b -> page_ptrs ps -> i <= lenz ps -> lenz ps <= PAGES_4GIB -> 0 < cnt ->
  0 <= m -> budget (2 + m) b ->
  exists b', register_memory_blocks (Z.to_nat cnt) cnt (Some st) b = Some b' /\
    lists_ok b' /\ pages b' = ps /\ covered b' ≡ₚ free_below ps i /\ budget m b'.
Proof.
  intros [Hok Hpg _ Hrun Hcov] Hptrs Hi H4 Hcnt Hm Hbud. destruct (Hrun Hcnt) as [Hst Hend].
  assert (0 < cnt < 2 ^ 32) as Hc32 by (unfold PAGES_4GIB in *; lia).
  destruct (register_memory_blocks_spec (Z.to_nat cnt) b st cnt) as (b' & Hb & [R1 R2 R3 R4]);
    rewrite ?Hpg; try done; try lia.
  - intros k l Hl. pose proof (atz_Some_order b k l Hok Hl) as Hk.
    destruct (reg_gain_le st cnt k Hc32 Hk) as [_ Hg]. destruct (Z.eqb_spec k MAX_ORDER) as [->|].
    + pose proof (list_pages_le b MAX_ORDER l Hok Hl).
      assert (cnt + lenz (covered b) = lenz (free_below ps i)) as Hsum.
      { rewrite <- Hcov, lenz_app. unfold lenz at 2. rewrite length_seqZ. lia. }
      pose proof (lenz_free_below ps i ltac:(lia)). unfold PAGES_4GIB, FREE_LIST_NODES, PAGE_SIZE, MAX_ORDER in *. lia.
    + specialize (Hbud k l ltac:(lia) Hl). lia.
  - exists b'. split_and!; [done|done|congruence|by rewrite R3|].
    intros k l' Hk Hl'. pose proof (atz_Some_order b' k l' R1 Hl') as Hk'.
    destruct (atz_order b k Hok Hk') as [l Hl]. destruct (R4 k l Hl) as (l1 & ? & E). simplify_eq.
    destruct (reg_gain_le st cnt k Hc32 Hk') as [_ Hg].
    destruct (Z.eqb_spec k MAX_ORDER); [lia|]. destruct (Z.eqb_spec cnt 0); [lia|].
    specialize (Hbud k l Hk Hl). lia.
Qed.

Lemma scan_ok_free ps i st cnt b :
  scan_ok ps i st cnt b -> 0 <= i -> page_is_free ps i = true ->
  scan_ok ps (i + 1) (if cnt =? 0 then i else st) (cnt + 1) b.
Proof.
  intros [H1 H2 H3 H4 H5] Hi Hf. split; [done|done|lia| |].
  - intros _. destruct (Z.eqb_spec cnt 0); [lia|]. destruct (H4 ltac:(lia)). lia.
  - rewrite free_below_S, Hf, <- H5 by lia. destruct (Z.eqb_spec cnt 0) as [->|].
    + simpl. rewrite Permutation_app_comm. done.
    + destruct (H4 ltac:(lia)) as [_ <-]. rewrite seqZ_app by lia. simpl.
      rewrite <- !(assoc_L (++)). f_equiv. apply Permutation_app_comm.
Qed.

Lemma scan_ok_used ps i st b :
  lists_ok b -> pages b = ps -> covered b ≡ₚ free_below ps i -> 0 <= i -> page_is_free ps i = false ->
  scan_ok ps (i + 1) st 0 b.
Proof.
  intros H1 H2 H3 Hi Hf. split; [done|done|lia|lia|].
  rewrite free_below_S, Hf, app_nil_r by lia. done.
Qed.

Lemma init_step_free i st cnt b p :
  atz (pages b) i = Some p -> is_used p = false ->
  init_step i (st, cnt, b) = Some (if cnt =? 0 then i else st, cnt + 1, b).
Proof. intros Hp Hu. unfold init_step. rewrite Hp. simpl. by rewrite Hu. Qed.

Lemma init_step_used i st cnt b p :
  atz (pages b) i = Some p -> is_used p = true ->
  init_step i (st, cnt, b) =
    (b' ← (if 0 <? cnt then register_memory_blocks (Z.to_nat cnt) cnt (Some st) b else Some b);
     Some (st, 0, b')).
Proof. intros Hp Hu. unfold init_step. rewrite Hp. simpl. by rewrite Hu. Qed.

(** The scan from page [i] to the end of the vector. *)
Lemma scan_spec ps sfx i st cnt b :
  page_ptrs ps -> lenz ps <= PAGES_4GIB -> 0 <= i -> i + lenz sfx = lenz ps ->
  (forall j, 0 <= j -> atz sfx j = atz ps (i + j)) ->
  scan_ok ps i st cnt b ->
  budget ((if 0 <? cnt then 2 else 0) + 2 * free_runs (0 <? cnt) sfx) b ->
  exists b', ('(start_index, num_total_pages, b) ← for_n (length sfx) i init_step (st, cnt, b);
      if 0 <? num_total_pages
      then register_memory_blocks (Z.to_nat num_total_pages) num_total_pages (Some start_index) b
      else Some b) = Some b' /\
    lists_ok b' /\ pages b' = ps /\ covered b' ≡ₚ free_below ps (lenz ps).
Proof.
  intros Hptrs H4. revert i st cnt b. induction sfx as [|p sfx IH]; intros i st cnt b Hi Hlen Hsfx Hscan Hbud.
  - simpl in *. assert (i = lenz ps) as -> by (unfold lenz in *; simpl in *; lia).
    destruct (Z.ltb_spec 0 cnt) as [Hc|Hc].
    + destruct (scan_register ps (lenz ps) st cnt b 0) as (b' & ? & ? & ? & ? & _); try done; try lia. eauto.
    + destruct Hscan as [H1 H2 H3 _ H5]. assert (cnt = 0) as -> by lia. eauto.
  - rewrite lenz_cons in Hlen. pose proof (Hsfx 0 ltac:(lia)) as Hp. rewrite Z.add_0_r in Hp. simpl in Hp.
    assert (forall j, 0 <= j -> atz sfx j = atz ps (i + 1 + j)) as Hsfx'.
    { intros j Hj. replace (i + 1 + j) with (i + (j + 1)) by lia. rewrite <- Hsfx by lia.
      unfold atz. destruct (Z.leb_spec 0 j), (Z.leb_spec 0 (j + 1)); try lia.
      replace (Z.to_nat (j + 1)) with (S (Z.to_nat j)) by lia. done. }
    cbn [length for_n]. assert (atz (pages b) i = Some p) as Hpb.
    { by rewrite (so_pages _ _ _ _ _ Hscan). }
    pose proof (free_runs_nonneg (negb (is_used p)) sfx) as Hnn.
    assert (page_is_free ps i = negb (is_used p)) as Hfree by (unfold page_is_free; by rewrite <- Hp).
    cbn [free_runs] in Hbud. pose proof (lenz_nonneg sfx). destruct (is_used p) eqn:Hu; simpl in Hfree, Hbud, Hnn.
    + rewrite (init_step_used i st cnt b p Hpb Hu). destruct (Z.ltb_spec 0 cnt) as [Hc|Hc].
      * destruct (scan_register ps i st cnt b (2 * free_runs false sfx)) as (b1 & Hb1 & Hok1 & Hp1 & Hc1 & Hbud1);
          try done; try lia.
        rewrite Hb1. cbn [mbind option_bind]. apply IH; try done; try lia. by apply scan_ok_used.
      * destruct Hscan as [H1 H2 H3 _ H5]. assert (cnt = 0) as -> by lia. cbn [mbind option_bind].
        apply IH; try done; try lia. apply scan_ok_used; try done.
    + rewrite (init_step_free i st cnt b p Hpb Hu). cbn [mbind option_bind]. apply IH; try done; try lia.
      * by apply scan_ok_free.
      * pose proof (so_cnt _ _ _ _ _ Hscan). destruct (Z.ltb_spec 0 (cnt + 1)); [|lia].
        intros k l Hk Hl. specialize (Hbud k l Hk Hl). destruct (Z.ltb_spec 0 cnt); lia.
Qed.

(** ** Theorems *)

Lemma initialize_memory_manager_spec ps :
  page_ptrs ps -> lenz ps <= PAGES_4GIB ->
  (forall p, p ∈ ps -> status_ p = 0 \/ status_ p = 1) ->
  page_is_free ps 0 = false -> free_runs false ps <= 2048 ->
  exists b, initialize_memory_manager ps = Some b /\ wf b /\ pages b = ps /\
    covered b ≡ₚ free_below ps (lenz ps).
Proof.
  intros Hptrs H4 Hstatus Hzero Hruns.
  destruct (scan_spec ps ps 0 0 0 (new_buddy ps)) as (b & Hb & Hok & Hpg & Hcov); try done; try lia.
  - split; try done.
    split; [done|]. intros o l q Hl Hq. apply atz_Some in Hl as [_ Hl].
    apply lookup_replicate in Hl as [-> _]. by apply not_elem_of_nil in Hq.
  - intros k l Hk Hl. apply atz_Some in Hl as [_ Hl]. apply lookup_replicate in Hl as [-> _].
    change (0 <? 0) with false. cbv iota. change (lenz []) with 0.
    unfold FREE_LIST_NODES, PAGE_SIZE. lia.
  - exists b. split_and!; [done| |done|done].
    assert (forall k, k ∈ covered b <-> 0 <= k < lenz ps /\ page_is_free ps k = true) as Hin.
    { intros k. rewrite Hcov. unfold free_below. rewrite list_elem_of_filter, elem_of_seqZ. naive_solver lia. }
    split; rewrite ?Hpg; try done.
    + rewrite Hcov. apply NoDup_filter, NoDup_seqZ.
    + intros k [Hr Hf]%Hin. destruct (Z.eq_dec k 0) as [->|]; [congruence|lia].
    + intros k p Hp [Hr Hf]%Hin. unfold page_is_free in Hf. rewrite Hp in Hf.
      destruct (Hstatus p) as [|Hs]; [|done|]. { apply atz_Some in Hp as [_ Hp]. by eapply list_elem_of_lookup_2. }
      unfold is_used in Hf. by rewrite Hs in Hf.
    + intros k p Hp Hn. rewrite Hin in Hn. unfold page_is_free in Hn. rewrite Hp in Hn.
      destruct (Hstatus p) as [Hs|]; [| |done]. { apply atz_Some in Hp as [_ Hp]. by eapply list_elem_of_lookup_2. }
      exfalso. apply Hn. split; [by eapply atz_Some_lt|]. unfold is_used. by rewrite Hs.
Qed.

(** C38: [initialize_memory_manager] on a memory of at most 4 GiB with at most 2048
    runs of free pages never faults, and builds a well-formed allocator whose
    free lists cover exactly the free pages. *)
Theorem initialize_memory_manager_correct ps :
  page_ptrs ps -> lenz ps <= PAGES_4GIB ->
  (forall p, p ∈ ps -> status_ p = 0 \/ status_ p = 1) ->
  page_is_free ps 0 = false -> free_runs false ps <= 2048 ->
  exists b, initialize_memory_manager ps = Some b /\ wf b /\ pages b = ps /\
    covered b ≡ₚ free_below ps (lenz ps).
Proof. apply initialize_memory_manager_spec. Qed.
