(* ===== verification/BuddyCheck.v ===== *)
(** * Executable checks and concrete memories for the buddy allocator

    A boolean version of the invariant with its soundness lemma, a small
    concrete machine, the witnesses of the theorems of the allocator, and the
    theorems about inputs on which the allocator misbehaves: a full node pool,
    a region above 4 GiB, and a request whose page count exceeds 32 bits. *)

From S2P Require Import Prelude BitUtils Pages Buddy BuddyLemmas BuddyProofs BuddyTrace BuddyInit.

(** ** A decision procedure for the invariant *)

Definition block_ok (o : Z) (q : PagePtr) : bool :=
  match q with
  | Some i => i mod 2 ^ o =? 0
  | None => false
  end.

Definition wfb (b : BuddySystem) : bool :=
  let cov := covered b in
  let cs : gset Z := list_to_set cov in
  (lenz (free_lists_ b) =? MAX_ORDER + 1) &&
  forallb (fun x : bool => x) (imap (fun o l => forallb (block_ok (Z.of_nat o)) l) (free_lists_ b)) &&
  forallb (fun x : bool => x) (imap (fun i p => ptr_ p =? Z.of_nat i * PAGE_SIZE) (pages b)) &&
  (Nat.eqb (size cs) (length cov)) &&
  forallb (fun k => (0 <? k) && (k <? lenz (pages b))) cov &&
  forallb (fun x : bool => x)
    (imap (fun i p => status_ p =? (if bool_decide (Z.of_nat i ∈ cs) then 0 else 1)) (pages b)).

Lemma forallb_imap {A} (f : nat -> A -> bool) (l : list A) :
  forallb (fun x : bool => x) (imap f l) = true ->
  forall i x, atz l i = Some x -> f (Z.to_nat i) x = true.
Proof.
  intros H i x [_ Hx]%atz_Some. rewrite forallb_forall in H. apply H.
  apply list_elem_of_In, list_elem_of_lookup. exists (Z.to_nat i). by rewrite list_lookup_imap, Hx.
Qed.

Lemma NoDup_size_list (l : list Z) : size (list_to_set l : gset Z) = length l -> NoDup l.
Proof.
  induction l as [|x l IH]; [constructor|]. cbn [list_to_set length]. intros H.
  assert (size (list_to_set l : gset Z) <= length l)%nat as Hle.
  { clear. induction l as [|y l IH]; [done|]. cbn [list_to_set length].
    pose proof (size_union_alt ({[y]} : gset Z) (list_to_set l)) as Hu.
    rewrite size_singleton in Hu.
    assert (size (list_to_set l ∖ {[y]} : gset Z) <= size (list_to_set l : gset Z))%nat.
    { apply subseteq_size. set_solver. }
    lia. }
  destruct (decide (x ∈ (list_to_set l : gset Z))) as [Hin|Hout].
  - replace ({[x]} ∪ list_to_set l : gset Z) with (list_to_set l : gset Z) in H by set_solver. lia.
  - rewrite size_union, size_singleton in H by set_solver. constructor; [set_solver|]. apply IH. lia.
Qed.

Lemma wfb_sound b : wfb b = true -> wf b.
Proof.
  unfold wfb. intros H. repeat (apply andb_true_iff in H as [H ?]). apply Z.eqb_eq in H.
  rename H0 into Hst, H1 into Hrange, H2 into Hsize, H3 into Hptr, H4 into Hblk.
  assert (forall k p, atz (pages b) k = Some p ->
    status_ p = if bool_decide (k ∈ covered b) then 0 else 1) as Hstatus.
  { intros k p Hp. pose proof (forallb_imap _ _ Hst k p Hp) as Hs. simpl in Hs. apply Z.eqb_eq in Hs.
    pose proof (atz_Some_lt _ _ _ Hp). rewrite Z2Nat.id in Hs by lia. rewrite Hs.
    by erewrite bool_decide_ext by apply elem_of_list_to_set. }
  split.
  - split; [done|]. intros o l q Hl Hq. pose proof (forallb_imap _ _ Hblk o l Hl) as Hb. simpl in Hb.
    rewrite forallb_forall in Hb. specialize (Hb q). rewrite <- list_elem_of_In in Hb. specialize (Hb Hq).
    pose proof (atz_Some_lt _ _ _ Hl). destruct q as [i|]; [|done]. simpl in Hb.
    rewrite Z2Nat.id in Hb by lia. apply Z.eqb_eq in Hb. eauto.
  - intros i p Hp. pose proof (forallb_imap _ _ Hptr i p Hp) as Hb. simpl in Hb. apply Z.eqb_eq in Hb.
    pose proof (atz_Some_lt _ _ _ Hp). by rewrite Z2Nat.id in Hb by lia.
  - apply Nat.eqb_eq in Hsize. by apply NoDup_size_list.
  - intros k Hk. rewrite forallb_forall in Hrange. specialize (Hrange k). rewrite <- list_elem_of_In in Hrange.
    specialize (Hrange Hk). apply andb_true_iff in Hrange as [? ?]. lia.
  - intros k p Hp Hk. rewrite (Hstatus k p Hp). by rewrite bool_decide_eq_true_2.
  - intros k p Hp Hk. rewrite (Hstatus k p Hp). by rewrite bool_decide_eq_false_2.
Qed.

Definition roomb (n : Z) (b : BuddySystem) : bool :=
  forallb (fun l => lenz l + n <=? FREE_LIST_NODES) (free_lists_ b).

Lemma roomb_sound n b : roomb n b = true -> room n b.
Proof.
  unfold roomb. rewrite forallb_forall. intros H o l [_ Hl]%atz_Some.
  specialize (H l). rewrite <- list_elem_of_In in H. apply Z.leb_le, H. by eapply list_elem_of_lookup_2.
Qed.

Definition in_useb (b : BuddySystem) (i o : Z) : bool :=
  let cs : gset Z := list_to_set (covered b) in
  (0 <=? o) && (o <=? MAX_ORDER) && (i mod 2 ^ o =? 0) && (0 <? i) && (i + 2 ^ o <=? lenz (pages b)) &&
  forallb (fun k => bool_decide (k ∉ cs)) (seqZ i (2 ^ o)).

Lemma in_useb_sound b i o : in_useb b i o = true -> in_use b i o.
Proof.
  unfold in_useb. intros H. repeat (apply andb_true_iff in H as [H ?]). bool_to_prop.
  split; [lia|lia|lia|]. intros k Hk. rewrite forallb_forall in H0. specialize (H0 k).
  rewrite <- list_elem_of_In, elem_of_seqZ in H0. specialize (H0 Hk). apply bool_decide_eq_true in H0.
  by rewrite elem_of_list_to_set in H0.
Qed.

(** ** Concrete memories *)

(** [n] pages, of which those selected by [used] are in use. *)
Definition mk_pages (n : nat) (used : Z -> bool) : list Page :=
  (fun i => mkPage (if used i then 1 else 0) None None 0 (i * PAGE_SIZE)) <$> seqZ 0 (Z.of_nat n).

(** A machine of 32 pages, with pages 0, 1, 2 and 9 in use. *)
Definition demo_pages : list Page :=
  mk_pages 32 (fun i => (i <=? 2) || (i =? 9)).

Definition demo : BuddySystem :=
  mkBuddy demo_pages
    ([[Some 3; Some 8]; [Some 10]; [Some 4; Some 12]; []; [Some 16]] ++ replicate 14 []).

Example demo_init : initialize_memory_manager demo_pages = Some demo.
Proof. vm_compute. done. Qed.

Lemma demo_wf : wf demo.
Proof. apply wfb_sound. vm_compute. done. Qed.

(** ** Witnesses *)

Lemma calculate_order_correct_witness :
  0 < 5 <= 2 ^ MAX_ORDER /\ calculate_order 5 = 3 /\ 2 ^ (calculate_order 5 - 1) < 5.
Proof.
  split; [done|]. split; [vm_compute; done|].
  apply (calculate_order_correct 5); vm_compute; done.
Defined.

(** 30000 bytes are served from the order-4 block at page 16. *)
Lemma allocate_correct_witness :
  exists b', allocate 30000 demo = Some (16 * PAGE_SIZE, b') /\ in_use b' 16 3.
Proof.
  destruct (allocate_correct demo 30000 demo_wf ltac:(vm_compute; done))
    as [(i & b' & Ha & _ & _ & Hiu & _)|[Ha _]].
  - exists b'. change (order_of 30000) with 3 in Hiu.
    assert (i = 16) as ->; [|done].
    assert (fst <$> allocate 30000 demo = Some (16 * PAGE_SIZE)) as Heq by (vm_compute; done).
    rewrite Ha in Heq. simpl in Heq. injection Heq as Heq. unfold PAGE_SIZE in *. lia.
  - assert (fst <$> allocate 30000 demo = Some (16 * PAGE_SIZE)) as Heq by (vm_compute; done).
    rewrite Ha in Heq. done.
Defined.

Lemma allocate_rejects_witness : allocate (2 ^ 31) demo = Some (0, demo).
Proof. apply (allocate_rejects demo (2 ^ 31)). right. vm_compute. done. Defined.

(** Page 9 goes back and merges with 8, then 10 and 12. *)
Lemma free_correct_witness :
  exists b', free (9 * PAGE_SIZE) 100 demo = Some b' /\ covered b' ≡ₚ seqZ 9 1 ++ covered demo.
Proof.
  destruct (free_correct demo 9 100) as (b' & Hf & _ & Hc & _).
  - apply demo_wf.
  - apply roomb_sound. vm_compute. done.
  - vm_compute. done.
  - apply in_useb_sound. vm_compute. done.
  - exists b'. split; [exact Hf|exact Hc].
Defined.

Lemma double_free_detected_witness : free (10 * PAGE_SIZE) 8192 demo = Some demo.
Proof.
  apply (double_free_detected demo 10 8192); [apply demo_wf|].
  apply (bool_decide_eq_true_1 _). vm_compute. done.
Defined.

Definition demo_after : BuddySystem :=
  mkBuddy (upd_range demo_pages 16 8 set_used)
    ([[Some 3; Some 8]; [Some 10]; [Some 4; Some 12]; [Some 24]; []] ++ replicate 14 []).

Lemma client_trace_safe_witness :
  exists live, live <> [] /\ NoDup (live_pages live ++ covered demo_after).
Proof.
  exists [(16, 30000)]. split; [done|].
  apply (client_trace_safe demo demo_after [(16, 30000)] demo_wf).
  apply rtc_once. apply step_allocate; vm_compute; done.
Defined.

Lemma allocate_free_roundtrip_witness :
  exists b'', free (16 * PAGE_SIZE) 30000 demo_after = Some b'' /\ pages b'' = pages demo.
Proof.
  destruct (allocate_free_roundtrip demo 30000 16 demo_after) as (b'' & Hf & _ & Hp & _).
  - apply demo_wf.
  - apply roomb_sound. vm_compute. done.
  - vm_compute. done.
  - vm_compute. done.
  - done.
  - exists b''. split; [exact Hf|exact Hp].
Defined.

Lemma demo_coalesced : coalesced demo.
Proof.
  intros o l i Ho Hl Hi Hbad. apply atz_Some in Hl as [Hpos Hl].
  assert (forallb (fun x : bool => x) (imap (fun o l => forallb (fun q =>
    match q with Some i => negb (bool_decide (Some (buddy_index (Z.of_nat o) i) ∈ l)) | None => false end) l)
    (free_lists_ demo)) = true) as Hall by (vm_compute; done).
  assert (atz (free_lists_ demo) o = Some l) as Hat by (by apply atz_Some).
  pose proof (forallb_imap _ _ Hall o l Hat) as H. simpl in H. rewrite forallb_forall in H.
  specialize (H (Some i)). rewrite <- list_elem_of_In in H. specialize (H Hi).
  rewrite Z2Nat.id in H by lia. by rewrite bool_decide_eq_true_2 in H.
Qed.

Lemma always_coalesced_witness : coalesced demo_after.
Proof.
  apply (always_coalesced demo demo_after [(16, 30000)] demo_wf demo_coalesced).
  apply rtc_once. apply step_allocate; vm_compute; done.
Defined.

Lemma page_ptrs_mk n used : page_ptrs (mk_pages n used).
Proof.
  intros i p [Hi Hp]%atz_Some. unfold mk_pages in Hp. apply list_lookup_fmap_Some in Hp as (k & -> & Hk).
  apply lookup_seqZ in Hk as [-> _]. simpl. f_equal. lia.
Qed.

Lemma initialize_memory_manager_correct_witness :
  exists b, initialize_memory_manager demo_pages = Some b /\ wf b.
Proof.
  destruct (initialize_memory_manager_correct demo_pages) as (b & Hb & Hwf & _).
  - apply page_ptrs_mk.
  - vm_compute. done.
  - intros p Hp. unfold demo_pages, mk_pages in Hp. apply list_elem_of_fmap in Hp as (k & -> & _).
    simpl. destruct ((k <=? 2) || (k =? 9)); [right|left]; done.
  - vm_compute. done.
  - vm_compute. done.
  - exists b. split; [exact Hb|exact Hwf].
Defined.

(** * Limits of the buddy allocator

    Inputs on which [kernel/memory/buddy_system.cpp] leaves its contract: a
    free list whose node pool is exhausted, a free region above 4 GiB whose
    start is not aligned, and a request of [2^44] bytes. *)

(** ** Lemmas *)

Lemma register_unfold fuel n s b p r o :
  0 < n -> deref (pages b) (Some s) = Some p ->
  calc_max_order_in_total_pages n = o ->
  (ptr_ p) mod (Z.shiftl 1 o * PAGE_SIZE) <> 0 ->
  u64 (align_up (u32 (ptr_ p)) (u32 (Z.shiftl 1 o * PAGE_SIZE)) - ptr_ p) / PAGE_SIZE = r ->
  register_memory_blocks fuel r (Some s) b = None ->
  register_memory_blocks (S fuel) n (Some s) b = None.
Proof.
  intros Hn Hd Ho Hmod Hr Hrec. cbn [register_memory_blocks]. destruct (Z.leb_spec n 0); [lia|].
  rewrite Hd. cbn -[register_memory_blocks register_loop]. rewrite Ho, Hr.
  destruct (Z.eqb_spec (ptr_ p mod (Z.shiftl 1 o * PAGE_SIZE)) 0); [done|]. cbn -[register_memory_blocks register_loop].
  by rewrite Hrec.
Qed.

(** The page after the one at 4 GiB. *)
Definition high_page : Z := PAGES_4GIB + 1.

(** The number of pages of the recursive call, which calls itself with it. *)
Definition runaway_pages : Z := 2 ^ 52 + 2 ^ 18 - 2 ^ 20 - 1.

Lemma runaway fuel b p :
  deref (pages b) (Some high_page) = Some p -> ptr_ p = high_page * PAGE_SIZE ->
  register_memory_blocks fuel runaway_pages (Some high_page) b = None.
Proof.
  intros Hd Hp. induction fuel as [|fuel IH]; [done|].
  eapply (register_unfold _ _ _ _ p runaway_pages 18); rewrite ?Hp; [done|done|vm_compute; done..|done].
Qed.

(** ** Theorems *)

(** Two free pages from [4 GiB + 4 KiB] on: [align_up] truncates the address
    to 32 bits, the number of pages up to the alignment boundary wraps
    around, and the recursion never ends, whatever the fuel. *)
Theorem register_above_4gib_diverges fuel b p :
  deref (pages b) (Some high_page) = Some p -> ptr_ p = high_page * PAGE_SIZE ->
  register_memory_blocks fuel 2 (Some high_page) b = None.
Proof.
  intros Hd Hp. destruct fuel as [|fuel]; [done|].
  eapply (register_unfold _ _ _ _ p (2 ^ 52 - 2 ^ 20 + 1) 1); rewrite ?Hp; [vm_compute; done|done|vm_compute; done..|].
  destruct fuel as [|fuel]; [done|].
  eapply (register_unfold _ _ _ _ p runaway_pages 18); rewrite ?Hp; [vm_compute; done|done|vm_compute; done..|].
  by eapply runaway.
Qed.

Lemma register_above_4gib_diverges_witness :
  exists b, lenz (pages b) = high_page + 2 /\
    forall fuel, register_memory_blocks fuel 2 (Some high_page) b = None.
Proof.
  set (n := Z.to_nat high_page).
  exists (new_buddy (replicate n new_page ++
    [mkPage 0 None None 0 (high_page * PAGE_SIZE); mkPage 0 None None 0 ((high_page + 1) * PAGE_SIZE)])).
  split.
  - unfold new_buddy, lenz. cbn [pages]. rewrite length_app, length_replicate. simpl length.
    unfold n, high_page, PAGES_4GIB. lia.
  - intros fuel. eapply register_above_4gib_diverges.
    + unfold deref, new_buddy. cbn [pages]. apply atz_Some. split; [done|]. fold n.
      rewrite lookup_app_r by (by rewrite length_replicate). rewrite length_replicate, Nat.sub_diag. reflexivity.
    + reflexivity.
Defined.

(** A request of [2^44] bytes (16 TiB) is served like a request of one byte:
    its page count [2^32] is truncated to 0 on the way to [bit_width_ceil]. *)
Theorem huge_request_truncated b : allocate (2 ^ 44) b = allocate 1 b.
Proof. done. Qed.

(** Freeing a block whose free list already uses all [PAGE_SIZE] nodes of its
    pool, when the buddy is not there to merge with, runs into the null node
    of the exhausted pool. *)
Theorem free_list_overflow_faults b i size l :
  wf b -> 0 < size <= MAX_BLOCK_BYTES -> in_use b i (order_of size) ->
  atz (free_lists_ b) (order_of size) = Some l -> FREE_LIST_NODES <= lenz l ->
  Some (buddy_index (order_of size) i) ∉ l ->
  free (i * PAGE_SIZE) size b = None.
Proof.
  intros Hwf Hsize [Ho Hal [Hi Hlen] Hu] Hl Hfull Hbud. set (o := order_of size) in *.
  pose proof (pow2_pos o ltac:(lia)). destruct (deref_wf b i Hwf) as (p & Hd & Hptr & _); [lia|].
  assert (status_ p = 1) as Hst by (apply (wf_used b Hwf i); [done|apply Hu; lia]).
  assert (insert_free o (Some i) b = None) as Hins.
  { unfold insert_free, push_back. rewrite Hl. simpl. destruct (Z.ltb_spec (lenz l) FREE_LIST_NODES); [lia|done]. }
  unfold free. rewrite Z.div_mul by done. rewrite Hd. simpl. unfold is_free. rewrite Hst. simpl.
  fold (order_of size). fold o. destruct (Z.eqb_spec o (-1)); [lia|].
  destruct (Z.to_nat (MAX_ORDER + 1 - o)) as [|n'] eqn:En; [lia|]. cbn [free_loop].
  destruct (Z.eqb_spec o MAX_ORDER); [done|]. rewrite Hd. simpl.
  rewrite Hptr, buddy_addr, Hl by lia. simpl.
  assert (find_erase (get_page (pages b) (buddy_index o i * PAGE_SIZE)) l = None) as ->; [|done].
  apply find_erase_None. destruct (get_page _ _) as [j|] eqn:Hg.
  - apply get_page_Some in Hg as (-> & _ & _). done.
  - intros Hin. destruct (lo_aligned b (wf_lists b Hwf) o l None Hl Hin) as (? & ? & _). done.
Qed.

(** 8200 pages of which the even ones from 2 to 8192 are free, one block each. *)
Definition crowded_list : list PagePtr := (fun i => Some (2 * i + 2)) <$> seqZ 0 4096.

Definition crowded : BuddySystem :=
  mkBuddy (mk_pages (Z.to_nat 8200) (fun i => negb (Z.even i && (2 <=? i) && (i <=? 8192))))
    (crowded_list :: replicate 18 []).

Lemma lenz_crowded : lenz (pages crowded) = 8200.
Proof. unfold crowded, mk_pages, lenz. cbn [pages]. rewrite length_fmap, length_seqZ. lia. Qed.

Lemma covered_crowded : covered crowded = (fun i => 2 * i + 2) <$> seqZ 0 4096.
Proof.
  unfold covered, crowded. cbn [free_lists_]. cbn [covered_from].
  assert (forall n o, covered_from o (replicate n []) = []) as Hnil.
  { induction n as [|n IH]; intros o; [done|]. simpl. apply IH. }
  rewrite Hnil, app_nil_r. unfold crowded_list.
  induction (seqZ 0 4096) as [|x l IH]; [done|]. rewrite !fmap_cons, bind_cons, IH. done.
Qed.

Lemma elem_of_crowded k : k ∈ covered crowded <-> Z.even k && (2 <=? k) && (k <=? 8192) = true.
Proof.
  rewrite covered_crowded, list_elem_of_fmap. rewrite !andb_true_iff, Z.leb_le, Z.leb_le, Z.even_spec. split.
  - intros (j & -> & Hj%elem_of_seqZ). split; [|lia]. split; [|lia]. exists (j + 1). lia.
  - intros [[[j ->] ?] ?]. exists (j - 1). split; [lia|]. apply elem_of_seqZ. lia.
Qed.

Lemma crowded_wf : wf crowded.
Proof.
  assert (forall k p, atz (pages crowded) k = Some p ->
    status_ p = if negb (Z.even k && (2 <=? k) && (k <=? 8192)) then 1 else 0) as Hst.
  { intros k p [Hk Hp]%atz_Some. unfold crowded, mk_pages in Hp. cbn [pages] in Hp.
    apply list_lookup_fmap_Some in Hp as (j & -> & Hj). apply lookup_seqZ in Hj as [-> _].
    cbn [status_]. rewrite Z2Nat.id by lia. done. }
  split.
  - split; [done|]. intros o l q [Ho Hl]%atz_Some Hq. unfold crowded in Hl. cbn [free_lists_] in Hl.
    destruct (Z.to_nat o) as [|n] eqn:En; cbn [lookup list_lookup] in Hl.
    + injection Hl as <-. apply list_elem_of_fmap in Hq as (j & -> & _). exists (2 * j + 2).
      assert (o = 0) as -> by lia. split; [done|]. apply Z.mod_1_r.
    + apply lookup_replicate in Hl as [-> _]. by apply not_elem_of_nil in Hq.
  - apply page_ptrs_mk.
  - rewrite covered_crowded. apply NoDup_fmap_2_strong; [lia|apply NoDup_seqZ].
  - intros k Hk. rewrite lenz_crowded. apply elem_of_crowded in Hk. bool_to_prop. lia.
  - intros k p Hp Hk. rewrite (Hst k p Hp). apply elem_of_crowded in Hk. by rewrite Hk.
  - intros k p Hp Hk. rewrite (Hst k p Hp). rewrite elem_of_crowded in Hk. apply not_true_is_false in Hk. by rewrite Hk.
Qed.

Lemma free_list_overflow_faults_witness : free (8197 * PAGE_SIZE) PAGE_SIZE crowded = None.
Proof.
  apply (free_list_overflow_faults crowded 8197 PAGE_SIZE crowded_list).
  - apply crowded_wf.
  - done.
  - change (order_of PAGE_SIZE) with 0. split; [done|apply Z.mod_1_r|rewrite lenz_crowded; done|].
    intros k Hk Hin. assert (k = 8197) as -> by lia. by apply elem_of_crowded in Hin.
  - reflexivity.
  - unfold crowded_list, lenz. rewrite length_fmap, length_seqZ. done.
  - change (order_of PAGE_SIZE) with 0. change (buddy_index 0 8197) with 8196.
    intros (k & Heq & Hk)%list_elem_of_fmap. apply elem_of_seqZ in Hk. injection Heq as Heq. lia.
Defined.
