(* ===== verification/Slab.v ===== *)
(** * The slab allocator

    [kernel/memory/slab.cpp] and [slab.hpp]: object caches on top of the buddy
    allocator.  A slab is named by its index in a store of slabs, a cache by
    its position in [cache_chain]; [MSlab*] and [MCache*] of the page metadata
    are these numbers.  [std::list<std::unique_ptr<MSlab>>] is a list of slab
    numbers, and the iterator [position_in_list_] of a slab is the position of
    its number in the list of its status. *)

From stdpp Require Import strings pretty.
From S2P Require Import Prelude BitUtils Pages Buddy.

Open Scope Z_scope.

(** ** Definitions *)

Definition ALLOC_UNINITIALIZED : Z := 0.
Definition ALLOC_ZEROED : Z := Z.shiftl 1 0.

Inductive SlabStatus := FULL | PARTIAL | FREE.

#[export] Instance SlabStatus_eq_dec : EqDecision SlabStatus.
Proof. solve_decision. Defined.

Record MObject := mkObject {
  usage_count_ : Z;
  in_use_ : bool;
}.

Definition new_object : MObject := mkObject 0 false.
Definition increase_usage_count (o : MObject) : MObject :=
  mkObject (u32 (usage_count_ o + 1)) (in_use_ o).
Definition set_in_use (b : bool) (o : MObject) : MObject := mkObject (usage_count_ o) b.

Record MSlab := mkSlab {
  objects_ : list MObject;
  base_addr_ : Z;
  num_in_use_ : Z;
  free_objects_index_ : list Z;
  slab_status_ : SlabStatus;
}.

Definition is_full (s : MSlab) : bool := num_in_use_ s =? lenz (objects_ s).
Definition is_empty (s : MSlab) : bool := num_in_use_ s =? 0.
Definition set_status (st : SlabStatus) (s : MSlab) : MSlab :=
  mkSlab (objects_ s) (base_addr_ s) (num_in_use_ s) (free_objects_index_ s) st.

(** The constructor leaves [status_] uninitialised; [grow] sets it. *)
Definition new_slab (base_addr num_objs : Z) (st : SlabStatus) : MSlab :=
  mkSlab (replicate (Z.to_nat num_objs) new_object) base_addr 0 (seqZ 0 num_objs) st.

Record MCache := mkCache {
  name_ : string;
  object_size_ : Z;
  num_pages_per_slab_ : Z;
  slabs_full_ : list nat;
  slabs_partial_ : list nat;
  slabs_free_ : list nat;
}.

(** [name_] has room for 19 characters and the terminator. *)
Definition new_cache (name : string) (object_size : Z) : MCache :=
  mkCache (String.substring 0 19 name) object_size
    (if object_size <=? PAGE_SIZE then 1 else object_size / PAGE_SIZE) [] [] [].

(** The state of the allocator: the page allocator under it, [cache_chain],
    the slabs, and the table of aligned addresses. *)
Record Heap := mkHeap {
  memory_manager : BuddySystem;
  cache_chain : list MCache;
  slabs : list MSlab;
  aligned_to_raw_addr_map : gmap Z Z;
}.

Definition set_mm (b : BuddySystem) (h : Heap) : Heap :=
  mkHeap b (cache_chain h) (slabs h) (aligned_to_raw_addr_map h).
Definition set_cache_at (c : nat) (x : MCache) (h : Heap) : Heap :=
  mkHeap (memory_manager h) (<[c := x]> (cache_chain h)) (slabs h) (aligned_to_raw_addr_map h).
Definition set_slab_at (s : nat) (x : MSlab) (h : Heap) : Heap :=
  mkHeap (memory_manager h) (cache_chain h) (<[s := x]> (slabs h)) (aligned_to_raw_addr_map h).
Definition set_aligned (m : gmap Z Z) (h : Heap) : Heap :=
  mkHeap (memory_manager h) (cache_chain h) (slabs h) m.

(** *** Caches *)

Fixpoint find_cache (name : string) (i : nat) (l : list MCache) : option nat :=
  match l with
  | [] => None
  | c :: l' => if decide (name_ c = name) then Some i else find_cache name (S i) l'
  end.

Definition get_cache_in_chain (name : string) (h : Heap) : option nat :=
  find_cache name 0 (cache_chain h).

(** [sprintf(name, "cache-%d", static_cast<int>(size))] *)
Definition cache_name (size : Z) : string := String.append "cache-" (pretty (i32 size)).

Definition m_cache_create (name : option string) (obj_size : Z) (h : Heap) : nat * Heap :=
  let obj_size := Z.shiftl 1 (bit_width_ceil (u32 obj_size)) in
  let name := match name with Some n => n | None => cache_name obj_size end in
  (length (cache_chain h),
   mkHeap (memory_manager h) (cache_chain h ++ [new_cache name obj_size]) (slabs h)
     (aligned_to_raw_addr_map h)).

Definition slab_list_for (cache : MCache) (st : SlabStatus) : list nat :=
  match st with
  | FREE => slabs_free_ cache
  | PARTIAL => slabs_partial_ cache
  | FULL => slabs_full_ cache
  end.

Definition set_slab_list (cache : MCache) (st : SlabStatus) (l : list nat) : MCache :=
  match st with
  | FREE => mkCache (name_ cache) (object_size_ cache) (num_pages_per_slab_ cache)
              (slabs_full_ cache) (slabs_partial_ cache) l
  | PARTIAL => mkCache (name_ cache) (object_size_ cache) (num_pages_per_slab_ cache)
              (slabs_full_ cache) l (slabs_free_ cache)
  | FULL => mkCache (name_ cache) (object_size_ cache) (num_pages_per_slab_ cache)
              l (slabs_partial_ cache) (slabs_free_ cache)
  end.

(** [erase(position_in_list_)]: undefined when the slab is not in the list. *)
Fixpoint erase (s : nat) (l : list nat) : option (list nat) :=
  match l with
  | [] => fault
  | x :: l' => if decide (x = s) then Some l' else cons x <$> erase s l'
  end.

Definition move_list (c s : nat) (to : SlabStatus) (h : Heap) : option Heap :=
  slab ← slabs h !! s;
  if decide (slab_status_ slab = to) then Some h
  else
    cache ← cache_chain h !! c;
    from_list ← erase s (slab_list_for cache (slab_status_ slab));
    let cache := set_slab_list cache (slab_status_ slab) from_list in
    let cache := set_slab_list cache to (slab_list_for cache to ++ [s]) in
    Some (set_slab_at s (set_status to slab) (set_cache_at c cache h)).

(** *** Slabs *)

(** The address of the object taken, [0] for [nullptr]. *)
Definition alloc_object (obj_size : Z) (s : MSlab) : option (Z * MSlab) :=
  match free_objects_index_ s with
  | [] => Some (0, s)
  | obj_index :: rest =>
      o ← atz (objects_ s) obj_index;
      Some (u64 (base_addr_ s + u64 (obj_index * obj_size)),
        mkSlab (setz (objects_ s) obj_index (set_in_use true (increase_usage_count o)))
          (base_addr_ s) (u64 (num_in_use_ s + 1)) rest (slab_status_ s))
  end.

Definition free_object (addr obj_size : Z) (s : MSlab) : option (bool * MSlab) :=
  let offset := u64 (addr - base_addr_ s) in
  if obj_size =? 0 then fault
  else if negb (offset mod obj_size =? 0) then Some (false, s)
  else
    let objs_index := offset / obj_size in
    if lenz (objects_ s) <=? objs_index then Some (false, s)
    else
      o ← atz (objects_ s) objs_index;
      if negb (in_use_ o) then Some (false, s)
      else Some (true, mkSlab (setz (objects_ s) objs_index (set_in_use false o)) (base_addr_ s)
             (u64 (num_in_use_ s - 1)) (free_objects_index_ s ++ [objs_index]) (slab_status_ s)).

Definition is_object_in_use (addr obj_size : Z) (s : MSlab) : option bool :=
  let offset := u64 (addr - base_addr_ s) in
  if obj_size =? 0 then fault
  else if negb (offset mod obj_size =? 0) then Some false
  else
    let objs_index := offset / obj_size in
    if lenz (objects_ s) <=? objs_index then Some false
    else o ← atz (objects_ s) objs_index; Some (in_use_ o).

(** *** Growing a cache *)

(** The loop that marks the pages of a new slab, from page [i] on; [false]
    when a page is not found. *)
Fixpoint mark_slab_pages (n : nat) (i addr : Z) (c s : nat) (ps : list Page)
  : option (bool * list Page) :=
  match n with
  | O => Some (true, ps)
  | S n' =>
      match get_page ps (u64 (addr + u64 (i * PAGE_SIZE))) with
      | None => Some (false, ps)
      | Some k =>
          p ← atz ps k;
          mark_slab_pages n' (i + 1) addr c s
            (setz ps k (set_slab (Some s) (set_cache (Some c) p)))
      end
  end.

Definition grow (c : nat) (h : Heap) : option (bool * Heap) :=
  cache ← cache_chain h !! c;
  let bytes_per_slab := u64 (num_pages_per_slab_ cache * PAGE_SIZE) in
  '(addr, mm) ← allocate bytes_per_slab (memory_manager h);
  if addr =? 0 then Some (false, set_mm mm h)
  else if object_size_ cache =? 0 then fault
  else
    let num_objs := bytes_per_slab / object_size_ cache in
    let s := length (slabs h) in
    '(ok, ps) ← mark_slab_pages (Z.to_nat (num_pages_per_slab_ cache)) 0 addr c s (pages mm);
    let mm := set_pages ps mm in
    if negb ok then mm ← free addr bytes_per_slab mm; Some (false, set_mm mm h)
    else
      Some (true, mkHeap mm
        (<[c := set_slab_list cache FREE (slabs_free_ cache ++ [s])]> (cache_chain h))
        (slabs h ++ [new_slab addr num_objs FREE]) (aligned_to_raw_addr_map h)).

(** [MCache::alloc], first part: a partial slab is at the front of its list.
    [false] when the cache could not grow. *)
Definition ensure_partial (c : nat) (h : Heap) : option (bool * Heap) :=
  cache ← cache_chain h !! c;
  match slabs_partial_ cache with
  | _ :: _ => Some (true, h)
  | [] =>
      '(ok, h) ← (match slabs_free_ cache with
                  | [] => grow c h
                  | _ :: _ => Some (true, h)
                  end);
      if negb ok then Some (false, h)
      else
        cache ← cache_chain h !! c;
        free_slab ← head (slabs_free_ cache);
        h ← move_list c free_slab PARTIAL h;
        Some (true, h)
  end.

Definition cache_alloc (c : nat) (h : Heap) : option (Z * Heap) :=
  '(ok, h) ← ensure_partial c h;
  if negb ok then Some (0, h)
  else
    cache ← cache_chain h !! c;
    current_slab ← head (slabs_partial_ cache);
    slab ← slabs h !! current_slab;
    '(addr, slab) ← alloc_object (object_size_ cache) slab;
    let h := set_slab_at current_slab slab h in
    if addr =? 0 then Some (0, h)
    else if is_full slab then
      h ← move_list c current_slab FULL h;
      Some (addr, h)
    else Some (addr, h).

(** *** The public interface, without heap debugging *)

Definition MAX_ALLOC_SIZE : Z := Z.shiftl 1 MAX_ORDER * PAGE_SIZE.

(** The arguments [alloc] refuses. *)
Definition alloc_refuses (size align : Z) : bool :=
  (size =? 0) ||
  (negb (align =? 1) && negb (Z.land align (align - 1) =? 0)) ||
  (u64 (MAX_ALLOC_SIZE - u64 (u64 align - 1)) <? size).

(** The size class of a request. *)
Definition size_class (size align : Z) : Z :=
  u64 (Z.shiftl 1 (bit_width_ceil (u32 (u64 (size + align - 1))))).

(** The cache of a size class, created on first use. *)
Definition cache_for (size : Z) (h : Heap) : nat * Heap :=
  match get_cache_in_chain (cache_name size) h with
  | Some c => (c, h)
  | None => m_cache_create (Some (cache_name size)) size h
  end.

(** The result has the address and the length of the range [memset] clears at
    this address ([0] when it clears none). *)
Definition alloc (size flags align : Z) (h : Heap) : option (Z * Z * Heap) :=
  if alloc_refuses size align then Some (0, 0, h)
  else
    let size := size_class size align in
    let (c, h) := cache_for size h in
    '(addr, h) ← cache_alloc c h;
    if addr =? 0 then Some (0, 0, h)
    else
      let aligned_addr := if align =? 1 then addr else align_up (u32 addr) (u32 align) in
      let h := if aligned_addr =? addr then h
               else set_aligned (<[aligned_addr := addr]> (aligned_to_raw_addr_map h)) h in
      let zeroed := if negb (Z.land flags ALLOC_ZEROED =? 0) then size else 0 in
      Some (aligned_addr, zeroed, h).

(** The page's owner, cache and slab, of an address. *)
Definition owner_of (addr : Z) (h : Heap) : option (option (nat * nat)) :=
  match get_page (pages (memory_manager h)) addr with
  | None => Some None
  | Some k =>
      p ← atz (pages (memory_manager h)) k;
      match cache_ p, slab_ p with
      | Some c, Some s => Some (Some (c, s))
      | _, _ => Some None
      end
  end.

(** Return the raw object at [addr] to its slab. *)
Definition free_raw (addr : Z) (h : Heap) : option Heap :=
  owner ← owner_of addr h;
  match owner with
  | None => Some h
  | Some (c, s) =>
      cache ← cache_chain h !! c;
      slab ← slabs h !! s;
      '(ok, slab) ← free_object addr (object_size_ cache) slab;
      if negb ok then Some h
      else
        let h := set_slab_at s slab h in
        h ← (if decide (slab_status_ slab = FULL) then move_list c s PARTIAL h else Some h);
        if is_empty slab then move_list c s FREE h else Some h
  end.

(** Undo the alignment of an address. *)
Definition raw_of_aligned (addr : Z) (h : Heap) : Z :=
  match aligned_to_raw_addr_map h !! addr with
  | Some raw => raw
  | None => addr
  end.

Definition kfree (addr : Z) (h : Heap) : option Heap :=
  if addr =? 0 then Some h
  else
    let raw := raw_of_aligned addr h in
    free_raw raw (set_aligned (delete addr (aligned_to_raw_addr_map h)) h).

Definition is_slab_object_in_use (addr : Z) (h : Heap) : option bool :=
  if addr =? 0 then Some false
  else
    let addr := raw_of_aligned addr h in
    owner ← owner_of addr h;
    match owner with
    | None => Some false
    | Some (c, s) =>
        cache ← cache_chain h !! c;
        slab ← slabs h !! s;
        is_object_in_use addr (object_size_ cache) slab
    end.

Definition initialize_slab_allocator (mm : BuddySystem) : Heap := mkHeap mm [] [] ∅.
