(* ===== verification/SlabProofs.v ===== *)
(** * Correctness of the slab allocator

    The invariant of the slab heap and the theorems about [alloc] and [free]:
    they do not fault, an allocation is a fresh, aligned, large enough object,
    live objects are disjoint, and freeing ends the life of exactly one
    object.  The abstract view of the heap is its set of live objects
    ([live]). *)

From stdpp Require Import strings pretty.
From S2P Require Import Prelude BitUtils Pages Buddy BuddyLemmas BuddyProofs Slab.

Open Scope Z_scope.

(** ** Invariant *)

(** A cache of alloc(): objects of a power-of-two size, in slabs of one page
    or of one object. *)
Definition cache_ok (cache : MCache) : Prop :=
  exists k, 0 <= k <= 30 /\ cache = mkCache (name_ cache) (2 ^ k) (2 ^ Z.max 0 (k - 12))
      (slabs_full_ cache) (slabs_partial_ cache) (slabs_free_ cache) /\
    name_ cache = cache_name (2 ^ k).

(** Bytes of a slab of the cache. *)
Definition slab_bytes (cache : MCache) : Z := num_pages_per_slab_ cache * PAGE_SIZE.

(** A slab of the cache on a machine with [n] pages: it is naturally aligned,
    its free list has exactly the indices of the objects not in use. *)
Record slab_ok (n : Z) (cache : MCache) (slab : MSlab) : Prop := {
  sk_aligned : base_addr_ slab mod slab_bytes cache = 0;
  sk_pos : 0 < base_addr_ slab;
  sk_end : base_addr_ slab + slab_bytes cache <= n * PAGE_SIZE;
  sk_objects : lenz (objects_ slab) * object_size_ cache = slab_bytes cache;
  sk_nodup : NoDup (free_objects_index_ slab);
  sk_range : forall i, i ∈ free_objects_index_ slab -> 0 <= i < lenz (objects_ slab);
  sk_free : forall i o, atz (objects_ slab) i = Some o ->
    i ∈ free_objects_index_ slab <-> in_use_ o = false;
  sk_count : num_in_use_ slab = lenz (objects_ slab) - lenz (free_objects_index_ slab);
}.

(** The list a slab is in tells how full it is. *)
Definition status_ok (slab : MSlab) : Prop :=
  match slab_status_ slab with
  | FREE => num_in_use_ slab = 0
  | PARTIAL => 0 < num_in_use_ slab < lenz (objects_ slab)
  | FULL => num_in_use_ slab = lenz (objects_ slab)
  end.

(** Page [k] lies in the slab. *)
Definition slab_page (cache : MCache) (slab : MSlab) (k : Z) : Prop :=
  base_addr_ slab <= k * PAGE_SIZE < base_addr_ slab + slab_bytes cache.

(** The heap invariant.  [own] names the cache of every slab; the slab [ex] is
    exempt from [status_ok], while an operation moves it. *)
Record heap_ok (own : list nat) (ex : option nat) (h : Heap) : Prop := {
  ho_mm : wf (memory_manager h);
  ho_size : lenz (pages (memory_manager h)) <= 2 ^ 52;
  ho_cache : forall c cache, cache_chain h !! c = Some cache -> cache_ok cache;
  ho_own : length own = length (slabs h);
  ho_slab : forall s slab, slabs h !! s = Some slab ->
    exists c cache, own !! s = Some c /\ cache_chain h !! c = Some cache /\
      slab_ok (lenz (pages (memory_manager h))) cache slab /\ (ex <> Some s -> status_ok slab);
  ho_lists : forall c cache st s, cache_chain h !! c = Some cache ->
    s ∈ slab_list_for cache st <->
    exists slab, slabs h !! s = Some slab /\ own !! s = Some c /\ slab_status_ slab = st;
  ho_nodup : forall c cache st, cache_chain h !! c = Some cache -> NoDup (slab_list_for cache st);
  ho_page : forall k p s, atz (pages (memory_manager h)) k = Some p ->
    slab_ p = Some s <->
    exists slab c cache, slabs h !! s = Some slab /\ own !! s = Some c /\
      cache_chain h !! c = Some cache /\ slab_page cache slab k;
  ho_marked : forall k p s, atz (pages (memory_manager h)) k = Some p -> slab_ p = Some s ->
    cache_ p = own !! s /\ status_ p = 1;
  ho_chain : NoDup (name_ <$> cache_chain h);
}.

(** ** Geometry of caches *)

Lemma cache_geometry cache : cache_ok cache ->
  exists k, 0 <= k <= 30 /\ object_size_ cache = 2 ^ k /\
    num_pages_per_slab_ cache = 2 ^ Z.max 0 (k - 12) /\
    slab_bytes cache = 2 ^ Z.max 12 k /\ slab_bytes cache = 2 ^ (Z.max 12 k - k) * 2 ^ k.
Proof.
  intros (k & Hk & -> & _). exists k. unfold slab_bytes. simpl. split_and!; try done; try lia.
  - replace PAGE_SIZE with (2 ^ 12) by done. rewrite <- Z.pow_add_r by lia. f_equal. lia.
  - replace PAGE_SIZE with (2 ^ 12) by done. rewrite <- !Z.pow_add_r by lia. f_equal. lia.
Qed.

Lemma object_size_pos cache : cache_ok cache -> 0 < object_size_ cache.
Proof. intros (k & ? & -> & ?)%cache_geometry. lia. Qed.

Lemma slab_bytes_pos cache : cache_ok cache -> 0 < slab_bytes cache <= 2 ^ 30.
Proof.
  intros (k & ? & _ & _ & -> & _)%cache_geometry. pose proof (pow2_le_mono (Z.max 12 k) 30 ltac:(lia)). lia.
Qed.

(** Objects start at multiples of the object size. *)
Lemma object_aligned n cache slab i :
  cache_ok cache -> slab_ok n cache slab ->
  (base_addr_ slab + i * object_size_ cache) mod object_size_ cache = 0.
Proof.
  intros (k & Hk & Hos & _ & _ & Hb)%cache_geometry Hs. pose proof (sk_aligned _ _ _ Hs) as Ha.
  rewrite Z.mod_add by (rewrite Hos; lia). rewrite Hos in *.
  apply Z.mod_divide in Ha; [|rewrite Hb; lia]. apply Z.mod_divide; [lia|].
  etrans; [|done]. rewrite Hb. apply Z.divide_factor_r.
Qed.

(** ** Objects of a slab *)

Lemma slab_free_length n cache slab :
  slab_ok n cache slab -> 0 <= lenz (free_objects_index_ slab) <= lenz (objects_ slab).
Proof.
  intros Hs. split; [apply lenz_nonneg|].
  assert (free_objects_index_ slab ⊆+ seqZ 0 (lenz (objects_ slab))) as Hsub.
  { apply NoDup_submseteq; [apply (sk_nodup _ _ _ Hs)|]. intros x Hx. apply elem_of_seqZ.
    pose proof (sk_range _ _ _ Hs x Hx). lia. }
  apply submseteq_length in Hsub. rewrite length_seqZ in Hsub. unfold lenz in *. lia.
Qed.

Lemma slab_ok_addr n cache slab i :
  cache_ok cache -> slab_ok n cache slab -> 0 <= i < lenz (objects_ slab) ->
  base_addr_ slab <= base_addr_ slab + i * object_size_ cache /\
  base_addr_ slab + i * object_size_ cache + object_size_ cache <= base_addr_ slab + slab_bytes cache.
Proof. intros Hc%object_size_pos [] Hi. nia. Qed.

(** The slab after taking or returning object [i]. *)
Definition slab_upd (slab : MSlab) (i : Z) (o : MObject) (num : Z) (free : list Z) : MSlab :=
  mkSlab (setz (objects_ slab) i o) (base_addr_ slab) num free (slab_status_ slab).

Lemma alloc_object_spec n cache slab :
  cache_ok cache -> n <= 2 ^ 52 -> slab_ok n cache slab -> free_objects_index_ slab <> [] ->
  exists i o rest, free_objects_index_ slab = i :: rest /\ 0 <= i < lenz (objects_ slab) /\
    atz (objects_ slab) i = Some o /\ in_use_ o = false /\
    let slab' := slab_upd slab i (set_in_use true (increase_usage_count o)) (num_in_use_ slab + 1) rest in
    alloc_object (object_size_ cache) slab =
      Some (base_addr_ slab + i * object_size_ cache, slab') /\ slab_ok n cache slab'.
Proof.
  intros Hc Hn Hs Hne. destruct (free_objects_index_ slab) as [|i rest] eqn:Ef; [done|].
  assert (0 <= i < lenz (objects_ slab)) as Hi by (apply (sk_range _ _ _ Hs); rewrite Ef; by left).
  destruct (atz_lt _ _ Hi) as [o Ho]. exists i, o, rest. split_and!; try done; try lia.
  { apply (sk_free _ _ _ Hs i o Ho). rewrite Ef. by left. }
  pose proof (slab_ok_addr n cache slab i Hc Hs Hi) as [Ha1 Ha2].
  pose proof (slab_free_length _ _ _ Hs). pose proof (object_size_pos _ Hc). pose proof (slab_bytes_pos _ Hc).
  destruct Hs. rewrite Ef in *. rewrite lenz_cons in *. unfold PAGE_SIZE in *.
  assert (lenz (objects_ slab) <= 2 ^ 30) by nia.
  cbv zeta. unfold alloc_object. rewrite Ef, Ho. cbn [mbind option_bind].
  rewrite (wrap_small 64 (i * _)), !wrap_small by lia. split; [done|].
  apply NoDup_cons in sk_nodup0 as [Hni Hnd]. split; simpl; try done.
  - by rewrite lenz_setz.
  - intros j Hj. rewrite lenz_setz. apply sk_range0. by right.
  - intros j q. destruct (Z.eq_dec i j) as [->|Hij].
    + rewrite atz_setz_eq by done. intros [= <-]. simpl. split; done.
    + rewrite atz_setz_ne by lia. intros Hq. rewrite <- (sk_free0 j q Hq), elem_of_cons. naive_solver.
  - rewrite lenz_setz. lia.
Qed.

(** A live object of the slab starts at [addr]. *)
Definition obj_live (cache : MCache) (slab : MSlab) (addr : Z) : Prop :=
  exists i o, addr = base_addr_ slab + i * object_size_ cache /\
    atz (objects_ slab) i = Some o /\ in_use_ o = true.

Definition in_slab (cache : MCache) (slab : MSlab) (addr : Z) : Prop :=
  base_addr_ slab <= addr < base_addr_ slab + slab_bytes cache.

Lemma offset_in_slab n cache slab addr :
  cache_ok cache -> n <= 2 ^ 52 -> slab_ok n cache slab -> in_slab cache slab addr ->
  u64 (addr - base_addr_ slab) = addr - base_addr_ slab /\
  0 <= (addr - base_addr_ slab) / object_size_ cache < lenz (objects_ slab).
Proof.
  intros Hc Hn [] [H1 H2]. pose proof (object_size_pos _ Hc). pose proof (slab_bytes_pos _ Hc). split.
  - apply wrap_small. lia.
  - split; [apply Z.div_pos; lia|]. apply Z.div_lt_upper_bound; lia.
Qed.

Lemma object_offset cache slab addr i :
  cache_ok cache -> addr = base_addr_ slab + i * object_size_ cache ->
  (addr - base_addr_ slab) mod object_size_ cache = 0 /\
  (addr - base_addr_ slab) / object_size_ cache = i.
Proof.
  intros Hc%object_size_pos ->. replace (_ + _ - _) with (i * object_size_ cache) by lia.
  rewrite Z.mod_mul, Z.div_mul by lia. done.
Qed.

Lemma is_object_in_use_spec n cache slab addr :
  cache_ok cache -> n <= 2 ^ 52 -> slab_ok n cache slab -> in_slab cache slab addr ->
  exists b, is_object_in_use addr (object_size_ cache) slab = Some b /\
    (b = true <-> obj_live cache slab addr).
Proof.
  intros Hc Hn Hs Hin. destruct (offset_in_slab n cache slab addr Hc Hn Hs Hin) as [Hoff Hi].
  unfold is_object_in_use. rewrite Hoff. pose proof (object_size_pos _ Hc).
  destruct (Z.eqb_spec (object_size_ cache) 0); [lia|].
  destruct (Z.eqb_spec ((addr - base_addr_ slab) mod object_size_ cache) 0) as [Hm|Hm]; cbn [negb].
  - destruct (Z.leb_spec (lenz (objects_ slab)) ((addr - base_addr_ slab) / object_size_ cache)); [lia|].
    destruct (atz_lt _ _ Hi) as [o Ho]. rewrite Ho. exists (in_use_ o). split; [done|]. split.
    + intros Hu. eexists _, o. split_and!; [|done|done]. apply Z.mod_divide in Hm as [q Hq]; [|lia].
      rewrite Hq, Z.div_mul by lia. lia.
    + intros (i & o' & Ha & Ho' & Hu). destruct (object_offset cache slab addr i Hc Ha) as [_ Hd].
      rewrite Hd in Ho. by simplify_eq.
  - exists false. split; [done|]. split; [done|]. intros (i & o & Ha & _).
    destruct (object_offset cache slab addr i Hc Ha). congruence.
Qed.

Lemma free_object_live n cache slab i o :
  cache_ok cache -> n <= 2 ^ 52 -> slab_ok n cache slab ->
  atz (objects_ slab) i = Some o -> in_use_ o = true ->
  let slab' := slab_upd slab i (set_in_use false o) (num_in_use_ slab - 1) (free_objects_index_ slab ++ [i]) in
  free_object (base_addr_ slab + i * object_size_ cache) (object_size_ cache) slab = Some (true, slab') /\
  slab_ok n cache slab' /\ 0 < num_in_use_ slab.
Proof.
  intros Hc Hn Hs Ho Hu slab'. pose proof (atz_Some_lt _ _ _ Ho) as Hi.
  pose proof (slab_ok_addr n cache slab i Hc Hs Hi) as [Ha1 Ha2].
  pose proof (slab_free_length _ _ _ Hs) as Hlen. pose proof (object_size_pos _ Hc). pose proof (slab_bytes_pos _ Hc).
  assert (i ∉ free_objects_index_ slab) as Hni.
  { intros Hi'. apply (sk_free _ _ _ Hs i o Ho) in Hi'. congruence. }
  assert (NoDup (free_objects_index_ slab ++ [i])) as Hnd.
  { apply NoDup_app. split_and!; [apply (sk_nodup _ _ _ Hs)| |apply NoDup_singleton].
    intros x Hx ->%list_elem_of_singleton. done. }
  assert (slab_ok n cache slab') as Hok'.
  { destruct Hs. split; simpl; try done.
    - by rewrite lenz_setz.
    - intros j. rewrite lenz_setz, elem_of_app, list_elem_of_singleton. intros [Hj| ->]; [eauto|lia].
    - intros j q. rewrite elem_of_app, list_elem_of_singleton. destruct (Z.eq_dec i j) as [->|Hij].
      + rewrite atz_setz_eq by done. intros [= <-]. simpl. naive_solver.
      + rewrite atz_setz_ne by lia. intros Hq. rewrite <- (sk_free0 j q Hq). naive_solver.
    - rewrite lenz_setz, lenz_app. change (lenz [i]) with 1. lia. }
  assert (0 < num_in_use_ slab) as Hnum.
  { pose proof (slab_free_length _ _ _ Hok') as Hl. simpl in Hl. rewrite lenz_app, lenz_setz in Hl.
    change (lenz [i]) with 1 in Hl. rewrite (sk_count _ _ _ Hs). lia. }
  split_and!; [|done|done].
  destruct (offset_in_slab n cache slab (base_addr_ slab + i * object_size_ cache) Hc Hn Hs) as [Hoff Hr];
    [unfold in_slab; lia|].
  destruct (object_offset cache slab _ i Hc eq_refl) as [Hm Hd]. rewrite Hd in Hr.
  unfold free_object. rewrite Hoff, Hm, Hd. destruct (Z.eqb_spec (object_size_ cache) 0); [lia|]. simpl.
  destruct (Z.leb_spec (lenz (objects_ slab)) i); [lia|]. rewrite Ho. simpl. rewrite Hu. simpl.
  rewrite wrap_small; [done|]. destruct Hs. unfold PAGE_SIZE in *.
  assert (lenz (objects_ slab) <= 2 ^ 30) by nia. lia.
Qed.

Lemma free_object_dead n cache slab addr :
  cache_ok cache -> n <= 2 ^ 52 -> slab_ok n cache slab -> in_slab cache slab addr ->
  ~ obj_live cache slab addr -> free_object addr (object_size_ cache) slab = Some (false, slab).
Proof.
  intros Hc Hn Hs Hin Hdead. destruct (is_object_in_use_spec n cache slab addr Hc Hn Hs Hin) as (b & E & Hb).
  destruct b; [by exfalso; apply Hdead, Hb|]. revert E. unfold is_object_in_use, free_object.
  destruct (_ =? 0); [done|]. destruct (negb _); [done|]. destruct (_ <=? _); [done|].
  destruct (atz _ _); [|done]. cbn. intros E. injection E as E. by rewrite E.
Qed.

(** ** Caches up to their lists *)

(** What does not change when slabs move between lists. *)
Definition geo (cache : MCache) : string * Z * Z :=
  (name_ cache, object_size_ cache, num_pages_per_slab_ cache).

Lemma geo_slab_list cache st l : geo (set_slab_list cache st l) = geo cache.
Proof. by destruct st. Qed.

Lemma slab_list_set_eq cache st l : slab_list_for (set_slab_list cache st l) st = l.
Proof. by destruct st. Qed.

Lemma slab_list_set_ne cache st st' l :
  st <> st' -> slab_list_for (set_slab_list cache st l) st' = slab_list_for cache st'.
Proof. by destruct st, st'. Qed.

Lemma cache_ok_geo cache cache' : geo cache' = geo cache -> cache_ok cache -> cache_ok cache'.
Proof.
  intros [= Hn Ho Hp] (k & Hk & Heq & Hname). exists k. rewrite Heq in Ho, Hp. simpl in Ho, Hp.
  split_and!; [lia|lia| |congruence]. destruct cache'; simpl in *. congruence.
Qed.

Lemma geo_eq cache cache' : geo cache' = geo cache ->
  object_size_ cache' = object_size_ cache /\ slab_bytes cache' = slab_bytes cache.
Proof. intros [= Hn Ho Hp]. unfold slab_bytes. by rewrite Ho, Hp. Qed.

Lemma slab_ok_geo n cache cache' slab : geo cache' = geo cache -> slab_ok n cache slab -> slab_ok n cache' slab.
Proof. intros [Ho Hb]%geo_eq []. split; rewrite ?Ho, ?Hb; done. Qed.

Lemma slab_ok_status n cache st slab : slab_ok n cache slab -> slab_ok n cache (set_status st slab).
Proof. by intros []. Qed.

(** ** Owners and live objects *)

(** A live object of [size] bytes starts at [addr]. *)
Definition live (h : Heap) (addr size : Z) : Prop :=
  exists c s cache slab, owner_of addr h = Some (Some (c, s)) /\ cache_chain h !! c = Some cache /\
    slabs h !! s = Some slab /\ size = object_size_ cache /\ obj_live cache slab addr.

(** Slab [s] of cache [c], as the invariant knows it. *)
Definition has_slab (own : list nat) (h : Heap) (s c : nat) (slab : MSlab) (cache : MCache) : Prop :=
  slabs h !! s = Some slab /\ own !! s = Some c /\ cache_chain h !! c = Some cache.

Lemma has_slab_ok own ex h s c slab cache :
  heap_ok own ex h -> has_slab own h s c slab cache ->
  cache_ok cache /\ slab_ok (lenz (pages (memory_manager h))) cache slab /\ (ex <> Some s -> status_ok slab).
Proof.
  intros Hh (Hs & Ho & Hc). destruct (ho_slab _ _ _ Hh s slab Hs) as (c' & cache' & Ho' & Hc' & Hok & Hst).
  simplify_eq. split_and!; try done. by eapply ho_cache.
Qed.

(** The page of an address inside a slab. *)
Lemma slab_page_of n cache slab addr :
  cache_ok cache -> slab_ok n cache slab -> in_slab cache slab addr -> slab_page cache slab (addr / PAGE_SIZE).
Proof.
  intros Hc Hs [H1 H2]. destruct (cache_geometry _ Hc) as (k & Hk & _ & _ & Hb & _).
  pose proof (sk_aligned _ _ _ Hs) as Ha. unfold slab_page in *. rewrite Hb in *.
  assert (base_addr_ slab mod PAGE_SIZE = 0) as Hp.
  { replace PAGE_SIZE with (2 ^ 12) by done. eapply mod_pow2_weaken; [|exact Ha]. lia. }
  apply Z.mod_divide in Hp as [q Hq]; [|done]. rewrite Hq in *. unfold PAGE_SIZE in *.
  assert (q <= addr / 4096) by (apply Z.div_le_lower_bound; lia).
  pose proof (Z.mul_div_le addr 4096 ltac:(lia)). lia.
Qed.

Lemma owner_of_slab own ex h s c slab cache addr :
  heap_ok own ex h -> has_slab own h s c slab cache -> in_slab cache slab addr ->
  owner_of addr h = Some (Some (c, s)).
Proof.
  intros Hh Hhas Hin. destruct (has_slab_ok _ _ _ _ _ _ _ Hh Hhas) as (Hc & Hs & _).
  pose proof (slab_page_of _ _ _ _ Hc Hs Hin) as Hpg. destruct Hhas as (Hsl & Ho & Hch).
  assert (0 < addr /\ addr < lenz (pages (memory_manager h)) * PAGE_SIZE) as [H0 Hlt]
    by (destruct Hs, Hin; lia).
  assert (0 <= addr / PAGE_SIZE < lenz (pages (memory_manager h))) as Hidx.
  { split; [apply Z.div_pos; [lia|done]|]. apply Z.div_lt_upper_bound; [done|]. lia. }
  destruct (atz_lt _ _ Hidx) as [p Hp]. unfold owner_of, get_page.
  destruct (Z.eqb_spec addr 0); [lia|].
  destruct (Z.leb_spec (lenz (pages (memory_manager h))) (addr / PAGE_SIZE)); [lia|].
  rewrite Hp. cbn [mbind option_bind].
  assert (slab_ p = Some s) as Hsp by (apply (ho_page _ _ _ Hh _ _ s Hp); by eexists _, _, _).
  destruct (ho_marked _ _ _ Hh _ _ _ Hp Hsp) as [-> _]. by rewrite Hsp, Ho.
Qed.

(** Every address has an owner that is a slab around it, or none. *)
Lemma owner_of_total own ex h addr :
  heap_ok own ex h -> 0 <= addr ->
  owner_of addr h = Some None \/
  exists c s slab cache, owner_of addr h = Some (Some (c, s)) /\ has_slab own h s c slab cache /\
    in_slab cache slab addr.
Proof.
  intros Hh H0. unfold owner_of, get_page. destruct (Z.eqb_spec addr 0) as [|Hne]; [by left|].
  destruct (Z.leb_spec (lenz (pages (memory_manager h))) (addr / PAGE_SIZE)) as [|Hlt]; [by left|].
  destruct (atz_lt (pages (memory_manager h)) (addr / PAGE_SIZE)) as [p Hp].
  { split; [apply Z.div_pos; [lia|done]|lia]. }
  rewrite Hp. cbn [mbind option_bind]. destruct (slab_ p) as [s|] eqn:Esl; [|by destruct (cache_ p); left].
  destruct (ho_marked _ _ _ Hh _ _ _ Hp Esl) as [Hcp _].
  destruct (proj1 (ho_page _ _ _ Hh _ _ s Hp) Esl) as (slab & c & cache & Hsl & Ho & Hch & Hpg).
  rewrite Hcp, Ho. right. exists c, s, slab, cache. split_and!; [done..|].
  destruct (has_slab_ok own ex h s c slab cache Hh) as (Hc & Hs & _); [done|].
  destruct (cache_geometry _ Hc) as (k & Hk & _ & _ & Hb & _). pose proof (sk_aligned _ _ _ Hs) as Ha.
  assert (base_addr_ slab mod 2 ^ 12 = 0) as Hq by (eapply mod_pow2_weaken; [|rewrite <- Hb; exact Ha]; lia).
  assert (slab_bytes cache mod 2 ^ 12 = 0) as Hr
    by (rewrite Hb; replace (Z.max 12 k) with (Z.max 12 k - 12 + 12) by lia; rewrite Z.pow_add_r by lia; by apply Z.mod_mul).
  apply Z.mod_divide in Hq as [q Hq]; [|done]. apply Z.mod_divide in Hr as [r Hr]; [|done].
  unfold slab_page, in_slab in *. rewrite Hq, Hr in *. unfold PAGE_SIZE in *.
  pose proof (Z.div_mod addr 4096 ltac:(lia)). pose proof (Z.mod_pos_bound addr 4096 ltac:(lia)). lia.
Qed.

Lemma obj_live_in_slab n cache slab addr :
  cache_ok cache -> slab_ok n cache slab -> obj_live cache slab addr ->
  in_slab cache slab addr /\ addr + object_size_ cache <= base_addr_ slab + slab_bytes cache.
Proof.
  intros Hc Hs (i & o & -> & Ho & _). pose proof (slab_ok_addr n cache slab i Hc Hs (atz_Some_lt _ _ _ Ho)).
  pose proof (object_size_pos _ Hc). unfold in_slab. lia.
Qed.

Lemma live_iff own ex h addr size :
  heap_ok own ex h ->
  live h addr size <-> exists s c slab cache, has_slab own h s c slab cache /\
    size = object_size_ cache /\ obj_live cache slab addr.
Proof.
  intros Hh. split.
  - intros (c & s & cache & slab & Hown & Hc & Hs & -> & Hl). exists s, c, slab, cache. split_and!; try done.
    assert (0 <= addr) as H0.
    { destruct (ho_slab _ _ _ Hh s slab Hs) as (c' & cache' & _ & Hc' & Hok & _).
      destruct Hl as (i & o & -> & Ho & _). apply atz_Some_lt in Ho.
      pose proof (object_size_pos _ (ho_cache _ _ _ Hh _ _ Hc)). destruct Hok. nia. }
    destruct (owner_of_total own ex h addr Hh H0) as [E|(c' & s' & slab' & cache' & E & Hhas & _)];
      rewrite E in Hown; [done|]. injection Hown as -> ->. destruct Hhas as (? & ? & ?). by simplify_eq.
  - intros (s & c & slab & cache & Hhas & -> & Hl).
    destruct (has_slab_ok own ex h s c slab cache Hh Hhas) as (Hc & Hs & _).
    destruct (obj_live_in_slab _ _ _ _ Hc Hs Hl) as [Hin _].
    pose proof (owner_of_slab _ _ _ _ _ _ _ _ Hh Hhas Hin). destruct Hhas as (? & ? & ?).
    by exists c, s, cache, slab.
Qed.

(** ** Updates of the heap that keep the invariant *)

Lemma geo_chain_lookup (l l' : list MCache) c cache' :
  geo <$> l' = geo <$> l -> l' !! c = Some cache' ->
  exists cache, l !! c = Some cache /\ geo cache' = geo cache.
Proof.
  intros Heq Hl. assert ((geo <$> l) !! c = Some (geo cache')) as H
    by (rewrite <- Heq, list_lookup_fmap, Hl; done).
  rewrite list_lookup_fmap in H. apply fmap_Some in H as (cache & ? & ?). eauto.
Qed.

Lemma geo_chain_names (l l' : list MCache) : geo <$> l' = geo <$> l -> name_ <$> l' = name_ <$> l.
Proof.
  intros Heq. assert (forall k, name_ <$> k = (fun g => g.1.1) <$> (geo <$> k)) as H
    by (intros k; rewrite <- list_fmap_compose; done).
  by rewrite !H, Heq.
Qed.

(** Replace slab [s] by [slab'] and rearrange the lists. *)
Lemma heap_ok_upd own ex ex' h h' s c slab slab' cache :
  heap_ok own ex h -> has_slab own h s c slab cache -> (ex = None \/ ex = Some s) ->
  memory_manager h' = memory_manager h -> slabs h' = <[s := slab']> (slabs h) ->
  base_addr_ slab' = base_addr_ slab -> slab_ok (lenz (pages (memory_manager h))) cache slab' ->
  (ex' <> Some s -> status_ok slab') -> geo <$> cache_chain h' = geo <$> cache_chain h ->
  (forall c' cache' st x, cache_chain h' !! c' = Some cache' ->
    (x ∈ slab_list_for cache' st <->
      exists slab, slabs h' !! x = Some slab /\ own !! x = Some c' /\ slab_status_ slab = st) /\
    NoDup (slab_list_for cache' st)) ->
  heap_ok own ex' h'.
Proof.
  intros Hh (Hsl & Ho & Hch) Hex Hmm Hs' Hbase Hok' Hst Hgeo Hlists. pose proof Hh as Hh0. destruct Hh0.
  assert (forall c cache, cache_chain h !! c = Some cache ->
    exists cache', cache_chain h' !! c = Some cache' /\ geo cache' = geo cache) as Hto.
  { intros d x Hx. destruct (geo_chain_lookup (cache_chain h') (cache_chain h) d x) as (y & ? & ?); eauto. }
  split; rewrite ?Hmm, ?Hs'; try done.
  - intros d x (y & Hy & Hg)%(geo_chain_lookup _ _ _ _ Hgeo). eapply cache_ok_geo; eauto.
  - by rewrite length_insert.
  - intros x sx. destruct (decide (x = s)) as [->|Hne].
    + rewrite list_lookup_insert_eq by (by eapply lookup_lt_Some). intros [= <-].
      destruct (Hto c cache Hch) as (cache' & Hc' & Hg). exists c, cache'. split_and!; try done.
      by eapply slab_ok_geo.
    + rewrite list_lookup_insert_ne by done. intros Hx.
      destruct (ho_slab0 x sx Hx) as (d & y & Hd & Hy & Hoky & Hsty).
      destruct (Hto d y Hy) as (y' & Hy' & Hg). exists d, y'. split_and!; try done; [by eapply slab_ok_geo|].
      intros _. apply Hsty. destruct Hex as [->| ->]; congruence.
  - intros d x st y Hx. rewrite <- Hs'. by eapply Hlists.
  - intros d x st Hx. by eapply (Hlists d x st s).
  - intros k p x Hp. rewrite (ho_page0 k p x Hp). split; intros (sx & d & y & Hx & Hd & Hy & Hpg).
    + destruct (Hto d y Hy) as (y' & Hy' & Hg%geo_eq). destruct (decide (x = s)) as [->|Hne].
      * exists slab', d, y'. rewrite list_lookup_insert_eq by (by eapply lookup_lt_Some).
        simplify_eq. unfold slab_page in *. destruct Hg as [_ ->]. by rewrite Hbase.
      * exists sx, d, y'. rewrite list_lookup_insert_ne by done. unfold slab_page in *. by destruct Hg as [_ ->].
    + destruct (geo_chain_lookup _ _ _ _ Hgeo Hy) as (y' & Hy' & Hg%geo_eq).
      destruct (decide (x = s)) as [->|Hne].
      * rewrite list_lookup_insert_eq in Hx by (by eapply lookup_lt_Some).
        exists slab, d, y'. simplify_eq. unfold slab_page in *. destruct Hg as [_ <-]. by rewrite <- Hbase.
      * rewrite list_lookup_insert_ne in Hx by done. exists sx, d, y'. unfold slab_page in *. by destruct Hg as [_ <-].
  - by rewrite (geo_chain_names _ _ Hgeo).
Qed.

Lemma erase_spec s l : s ∈ l -> exists l', erase s l = Some l' /\ l ≡ₚ s :: l'.
Proof.
  induction l as [|x l IH]; intros Hs; [by apply elem_of_nil in Hs|]. simpl.
  destruct (decide (x = s)) as [->|Hne]; [eauto|].
  apply elem_of_cons in Hs as [->|Hs]; [done|]. destruct (IH Hs) as (l' & -> & Hp).
  exists (x :: l'). split; [done|]. rewrite Hp. apply Permutation_swap.
Qed.

(** The slab's content changed, its status did not. *)
Lemma heap_ok_set_slab own ex ex' h s c slab slab' cache :
  heap_ok own ex h -> has_slab own h s c slab cache -> (ex = None \/ ex = Some s) ->
  base_addr_ slab' = base_addr_ slab -> slab_status_ slab' = slab_status_ slab ->
  slab_ok (lenz (pages (memory_manager h))) cache slab' -> (ex' <> Some s -> status_ok slab') ->
  heap_ok own ex' (set_slab_at s slab' h).
Proof.
  intros Hh Hhas Hex Hb Hst Hok Hex'. eapply heap_ok_upd; try done.
  intros d x st y Hx. split; [|by eapply (ho_nodup _ _ _ Hh)]. simpl in *.
  rewrite (ho_lists _ _ _ Hh d x st y Hx). destruct Hhas as (Hs & _ & _).
  destruct (decide (y = s)) as [->|Hne].
  - rewrite list_lookup_insert_eq by (by eapply lookup_lt_Some). rewrite Hs. naive_solver congruence.
  - by rewrite list_lookup_insert_ne.
Qed.

Lemma has_slab_set own h s c slab slab' cache :
  has_slab own h s c slab cache -> has_slab own (set_slab_at s slab' h) s c slab' cache.
Proof.
  intros (Hs & Ho & Hc). split_and!; try done. simpl. apply list_lookup_insert_eq. by eapply lookup_lt_Some.
Qed.

(** The lists of the cache after slab [s] moved. *)
Lemma moved_lists cache from to s l :
  from <> to -> slab_list_for cache from ≡ₚ s :: l -> (forall st, NoDup (slab_list_for cache st)) ->
  (forall st, s ∈ slab_list_for cache st -> st = from) ->
  let cache1 := set_slab_list cache from l in
  let cache2 := set_slab_list cache1 to (slab_list_for cache1 to ++ [s]) in
  forall st, NoDup (slab_list_for cache2 st) /\
    forall x, x ∈ slab_list_for cache2 st <-> (x = s /\ st = to) \/ (x <> s /\ x ∈ slab_list_for cache st).
Proof.
  intros Hft Hl Hnd Hfrom cache1 cache2 st.
  pose proof (Hnd from) as Hndf. rewrite Hl in Hndf. apply NoDup_cons in Hndf as [Hsl Hndl].
  assert (slab_list_for cache1 to = slab_list_for cache to) as H1 by (by apply slab_list_set_ne).
  assert (s ∉ slab_list_for cache to) as Hsto by (intros Hin; by apply Hfrom in Hin).
  unfold cache2. destruct (decide (st = to)) as [->|Hto].
  - rewrite slab_list_set_eq, H1. split.
    + apply NoDup_app. split_and!; [done| |apply NoDup_singleton]. intros x Hx ->%list_elem_of_singleton. done.
    + intros x. rewrite elem_of_app, list_elem_of_singleton. split; [|naive_solver].
      intros [Hx|Hx]; [right|by left]. split; [|done]. by intros ->.
  - rewrite slab_list_set_ne by done. unfold cache1. destruct (decide (st = from)) as [->|Hfr].
    + rewrite slab_list_set_eq. split; [done|]. intros x. rewrite Hl, elem_of_cons. split; [|naive_solver].
      intros Hx. right. split; [by intros ->|by right].
    + rewrite slab_list_set_ne by done. split; [done|]. intros x. split; [|naive_solver].
      intros Hx. right. split; [|done]. intros ->. by apply Hfrom in Hx.
Qed.

Lemma move_list_spec own ex ex' h s c slab cache to :
  heap_ok own ex h -> has_slab own h s c slab cache -> (ex = None \/ ex = Some s) ->
  (ex' <> Some s -> status_ok (set_status to slab)) ->
  exists h' cache', move_list c s to h = Some h' /\ heap_ok own ex' h' /\
    has_slab own h' s c (set_status to slab) cache' /\ geo cache' = geo cache /\
    memory_manager h' = memory_manager h /\ slabs h' = <[s := set_status to slab]> (slabs h) /\
    geo <$> cache_chain h' = geo <$> cache_chain h /\
    aligned_to_raw_addr_map h' = aligned_to_raw_addr_map h /\
    (slab_status_ slab <> to -> slab_list_for cache' to = slab_list_for cache to ++ [s]).
Proof.
  intros Hh Hhas Hex Hex'. pose proof Hhas as (Hs & Ho & Hc). unfold move_list. rewrite Hs. cbn [mbind option_bind].
  pose proof (has_slab_ok _ _ _ _ _ _ _ Hh Hhas) as (Hcok & Hsok & _).
  destruct (decide (slab_status_ slab = to)) as [Heq|Hne].
  { assert (set_status to slab = slab) as Hid by (destruct slab; simpl in *; by subst).
    rewrite Hid in *. exists h, cache. rewrite list_insert_id by done. split_and!; try done.
    assert (h = set_slab_at s slab h) as ->; [|by eapply heap_ok_set_slab].
    unfold set_slab_at. rewrite list_insert_id by done. by destruct h. }
  rewrite Hc. cbn [mbind option_bind].
  assert (s ∈ slab_list_for cache (slab_status_ slab)) as Hin
    by (apply (ho_lists _ _ _ Hh c cache _ s Hc); eauto).
  destruct (erase_spec _ _ Hin) as (l & -> & Hl). cbn [mbind option_bind].
  pose proof (moved_lists cache (slab_status_ slab) to s l Hne Hl) as Hmv. cbv zeta in Hmv.
  set (cache1 := set_slab_list cache (slab_status_ slab) l) in *.
  set (cache2 := set_slab_list cache1 to (slab_list_for cache1 to ++ [s])) in *.
  assert (geo cache2 = geo cache) as Hg by (unfold cache2, cache1; by rewrite !geo_slab_list).
  assert (slab_list_for cache1 to = slab_list_for cache to) as H1 by (by apply slab_list_set_ne).
  assert (geo <$> <[c := cache2]> (cache_chain h) = geo <$> cache_chain h) as Hgeo.
  { rewrite list_fmap_insert, Hg. apply list_insert_id. by rewrite list_lookup_fmap, Hc. }
  eexists _, cache2. split; [done|].
  split.
  - eapply heap_ok_upd; try done; [by apply slab_ok_status|].
    intros d x st y Hx. simpl in *. destruct (decide (d = c)) as [->|Hdc].
    + rewrite list_lookup_insert_eq in Hx by (by eapply lookup_lt_Some). injection Hx as <-.
      destruct (Hmv (fun st => ho_nodup _ _ _ Hh c cache st Hc)) with (st := st) as [Hnd Hel].
      { intros st' Hst'. apply (ho_lists _ _ _ Hh c cache st' s Hc) in Hst'. naive_solver congruence. }
      split; [|done]. rewrite Hel, (ho_lists _ _ _ Hh c cache st y Hc). destruct (decide (y = s)) as [->|Hys].
      * rewrite list_lookup_insert_eq by (by eapply lookup_lt_Some). naive_solver.
      * rewrite list_lookup_insert_ne by done. naive_solver.
    + rewrite list_lookup_insert_ne in Hx by done. split; [|by eapply (ho_nodup _ _ _ Hh)].
      rewrite (ho_lists _ _ _ Hh d x st y Hx). destruct (decide (y = s)) as [->|Hys].
      * rewrite list_lookup_insert_eq by (by eapply lookup_lt_Some). naive_solver congruence.
      * by rewrite list_lookup_insert_ne.
  - split_and!; try done.
    + split_and!; [|done|]; simpl.
      * by apply list_lookup_insert_eq, (lookup_lt_Some _ _ _ Hs).
      * by apply list_lookup_insert_eq, (lookup_lt_Some _ _ _ Hc).
    + intros _. unfold cache2. by rewrite slab_list_set_eq, H1.
Qed.

(** ** Growing a cache *)

Lemma order_of_pow2 m : 0 <= m <= MAX_ORDER -> order_of (2 ^ m * PAGE_SIZE) = m.
Proof.
  intros Hm. unfold MAX_ORDER in Hm. pose proof (pow2_pos m ltac:(lia)). pose proof (pow2_le_mono m 18 ltac:(lia)).
  unfold order_of. rewrite pages_for_bytes_small by (unfold PAGE_SIZE; lia).
  replace ((2 ^ m * PAGE_SIZE + PAGE_SIZE - 1) / PAGE_SIZE) with (2 ^ m).
  2:{ unfold PAGE_SIZE. apply Z.div_unique with 4095; lia. }
  destruct (calculate_order_spec (2 ^ m)) as (H1 & H2 & H3); [unfold MAX_ORDER; lia|].
  pose proof (H3 m ltac:(lia) ltac:(lia)). destruct (Z.eq_dec (calculate_order (2 ^ m)) m) as [|Hne]; [done|].
  pose proof (Z.pow_lt_mono_r 2 (calculate_order (2 ^ m)) m ltac:(lia) ltac:(lia) ltac:(lia)). lia.
Qed.

Lemma mark_slab_pages_spec n i j c s ps :
  0 < i -> 0 <= j -> i + j + Z.of_nat n <= lenz ps -> lenz ps <= 2 ^ 52 ->
  mark_slab_pages n j (i * PAGE_SIZE) c s ps =
  Some (true, upd_range ps (i + j) (Z.of_nat n) (fun p => set_slab (Some s) (set_cache (Some c) p))).
Proof.
  revert j ps. induction n as [|n IH]; intros j ps Hi Hj Hlen H52.
  { simpl. do 2 f_equal. apply atz_ext; [by rewrite lenz_upd_range|]. intros k Hk.
    by rewrite atz_upd_range_out by lia. }
  cbn [mark_slab_pages]. unfold PAGE_SIZE at 1 2.
  rewrite (wrap_small 64 (j * 4096)), (wrap_small 64 (i * _ + _)) by lia.
  replace (i * 4096 + j * 4096) with ((i + j) * PAGE_SIZE) by (unfold PAGE_SIZE; lia).
  rewrite get_page_index by lia. destruct (atz_lt ps (i + j)) as [p Hp]; [lia|]. rewrite Hp.
  cbn [mbind option_bind]. rewrite IH; rewrite ?lenz_setz; try lia. do 2 f_equal.
  apply atz_ext; [by rewrite !lenz_upd_range, lenz_setz|]. intros k Hk.
  destruct (Z.eq_dec (i + j) k) as [<-|Hne].
  - rewrite atz_upd_range_out, atz_upd_range_in, Hp, atz_setz_eq by lia. done.
  - destruct (decide (i + j <= k < i + j + Z.of_nat (S n))).
    + rewrite !atz_upd_range_in, atz_setz_ne by lia. done.
    + rewrite !atz_upd_range_out, atz_setz_ne by lia. done.
Qed.

(** Marking pages with an owner does not concern the buddy allocator. *)
Lemma wf_meta b f s n :
  wf b -> (forall p, ptr_ (f p) = ptr_ p /\ status_ (f p) = status_ p) ->
  wf (set_pages (upd_range (pages b) s n f) b).
Proof.
  intros [H1 H2 H3 H4 H5 H6] Hf.
  assert (forall k p, atz (upd_range (pages b) s n f) k = Some p ->
    exists q, atz (pages b) k = Some q /\ ptr_ p = ptr_ q /\ status_ p = status_ q) as Hk.
  { intros k p. rewrite atz_upd_range. intros (q & Hq & ->)%fmap_Some. exists q. split; [done|].
    case_if; [apply Hf|done]. }
  split; try done; simpl.
  - by destruct H1.
  - intros i p (q & Hq & -> & _)%Hk. eauto.
  - intros k Hc. rewrite lenz_upd_range. eauto.
  - intros k p (q & Hq & _ & ->)%Hk Hc. eauto.
  - intros k p (q & Hq & _ & ->)%Hk Hc. eauto.
Qed.

Lemma new_slab_ok n cache i :
  cache_ok cache -> 0 < i -> i mod num_pages_per_slab_ cache = 0 ->
  i + num_pages_per_slab_ cache <= n ->
  let slab := new_slab (i * PAGE_SIZE) (slab_bytes cache / object_size_ cache) FREE in
  slab_ok n cache slab /\ status_ok slab /\ (forall addr, ~ obj_live cache slab addr) /\
  0 < lenz (objects_ slab).
Proof.
  intros Hc Hi Hal Hlen slab. destruct (cache_geometry _ Hc) as (k & Hk & Hos & Hnp & Hb1 & Hb).
  assert (slab_bytes cache / object_size_ cache = 2 ^ (Z.max 12 k - k)) as Hn.
  { rewrite Hb, Hos. apply Z.div_mul. lia. }
  assert (lenz (objects_ slab) = 2 ^ (Z.max 12 k - k)) as Hl.
  { unfold slab, new_slab, lenz. cbn [objects_]. rewrite length_replicate, Hn. lia. }
  assert (forall j o, atz (objects_ slab) j = Some o -> o = new_object) as Hnew.
  { intros j o [_ Ho]%atz_Some. by apply lookup_replicate in Ho as [-> _]. }
  assert (lenz (seqZ 0 (2 ^ (Z.max 12 k - k))) = 2 ^ (Z.max 12 k - k)) as Hsz
    by (unfold lenz; rewrite length_seqZ; lia).
  split_and!.
  - split; rewrite ?Hl; unfold slab, new_slab; cbn [base_addr_ free_objects_index_ num_in_use_]; rewrite ?Hn.
    + apply Z.mod_divide in Hal as [q ->]; [|rewrite Hnp; lia].
      replace (q * num_pages_per_slab_ cache * PAGE_SIZE) with (q * slab_bytes cache) by (unfold slab_bytes; lia).
      apply Z.mod_mul. rewrite Hb1. lia.
    + unfold PAGE_SIZE. lia.
    + unfold slab_bytes, PAGE_SIZE. lia.
    + by rewrite Hb, Hos.
    + apply NoDup_seqZ.
    + intros j Hj%elem_of_seqZ. lia.
    + intros j o Ho. rewrite <- Hn in Ho. change (atz (objects_ slab) j = Some o) in Ho.
      pose proof (atz_Some_lt _ _ _ Ho) as Hj. rewrite Hl in Hj. apply Hnew in Ho as ->.
      rewrite elem_of_seqZ. simpl. split; [done|lia].
    + lia.
  - done.
  - intros addr (j & o & _ & ->%Hnew & Hu). done.
  - rewrite Hl. lia.
Qed.

Definition mark (c s : nat) (p : Page) : Page := set_slab (Some s) (set_cache (Some c) p).

(** The heap after slab [s], on the block of pages at [i], joined cache [c]. *)
Definition grown (h : Heap) (c : nat) (cache : MCache) (i : Z) (b' : BuddySystem) : Heap :=
  let s := length (slabs h) in
  mkHeap (set_pages (upd_range (pages b') i (num_pages_per_slab_ cache) (mark c s)) b')
    (<[c := set_slab_list cache FREE (slabs_free_ cache ++ [s])]> (cache_chain h))
    (slabs h ++ [new_slab (i * PAGE_SIZE) (slab_bytes cache / object_size_ cache) FREE])
    (aligned_to_raw_addr_map h).

(** The block that the buddy allocator handed out. *)
Record fresh_block (h : Heap) (cache : MCache) (i : Z) (b' : BuddySystem) : Prop := {
  fb_wf : wf b';
  fb_pos : 0 < i;
  fb_aligned : i mod num_pages_per_slab_ cache = 0;
  fb_end : i + num_pages_per_slab_ cache <= lenz (pages (memory_manager h));
  fb_free : forall k, i <= k < i + num_pages_per_slab_ cache -> k ∈ covered (memory_manager h);
  fb_pages : pages b' = upd_range (pages (memory_manager h)) i (num_pages_per_slab_ cache) set_used;
}.

Section Grown.
  Context (own : list nat) (h : Heap) (c : nat) (cache : MCache) (i : Z) (b' : BuddySystem).
  Context (Hh : heap_ok own None h) (Hc : cache_chain h !! c = Some cache).
  Context (Hb : fresh_block h cache i b').

Lemma grown_geo : geo <$> cache_chain (grown h c cache i b') = geo <$> cache_chain h.
Proof using Hc.
  unfold grown. cbn [cache_chain]. rewrite list_fmap_insert, (geo_slab_list cache FREE). apply list_insert_id.
  by rewrite list_lookup_fmap, Hc.
Qed.

Lemma grown_npages : lenz (pages (memory_manager (grown h c cache i b'))) = lenz (pages (memory_manager h)).
Proof using Hb. simpl. by rewrite lenz_upd_range, (fb_pages _ _ _ _ Hb), lenz_upd_range. Qed.

(** Pages of the new heap. *)
Lemma grown_page k p : atz (pages (memory_manager (grown h c cache i b'))) k = Some p ->
  exists q, atz (pages (memory_manager h)) k = Some q /\
    ((i <= k < i + num_pages_per_slab_ cache /\ p = mark c (length (slabs h)) (set_used q) /\ slab_ q = None) \/
     (~ (i <= k < i + num_pages_per_slab_ cache) /\ p = q)).
Proof using Hh Hb.
  simpl. rewrite (fb_pages _ _ _ _ Hb). destruct (decide (i <= k < i + num_pages_per_slab_ cache)) as [Hin|Hout].
  - rewrite !atz_upd_range_in by done. intros (q' & (q & Hq & ->)%fmap_Some & ->)%fmap_Some.
    exists q. split; [done|]. left. split_and!; [lia|lia|done|].
    destruct (slab_ q) as [s|] eqn:Es; [|done]. exfalso.
    destruct (ho_marked _ _ _ Hh k q s Hq Es) as [_ Hst].
    pose proof (wf_free _ (ho_mm _ _ _ Hh) k q Hq (fb_free _ _ _ _ Hb k Hin)). lia.
  - rewrite !atz_upd_range_out by done. intros Hq. exists p. split; [done|]. by right.
Qed.

Lemma grown_lists d x st y :
  cache_chain (grown h c cache i b') !! d = Some x ->
  (y ∈ slab_list_for x st <-> exists slab, slabs (grown h c cache i b') !! y = Some slab /\
      (own ++ [c]) !! y = Some d /\ slab_status_ slab = st) /\ NoDup (slab_list_for x st).
Proof using Hh Hc.
  assert (forall x st, cache_chain h !! d = Some x ->
    (y ∈ slab_list_for x st <-> exists slab, slabs h !! y = Some slab /\ own !! y = Some d /\ slab_status_ slab = st)) as Hold
    by (intros; by eapply ho_lists).
  assert (length own = length (slabs h)) as Hlen by apply (ho_own _ _ _ Hh).
  assert (y <> length (slabs h) -> (exists slab, slabs (grown h c cache i b') !! y = Some slab /\
      (own ++ [c]) !! y = Some d /\ slab_status_ slab = st) <->
      (exists slab, slabs h !! y = Some slab /\ own !! y = Some d /\ slab_status_ slab = st)) as Hne.
  { intros Hy. simpl. destruct (decide (y < length (slabs h))%nat).
    - by rewrite !lookup_app_l by lia.
    - rewrite (lookup_ge_None_2 (slabs h) y), (lookup_ge_None_2 (slabs h ++ _)) by (rewrite ?length_app; simpl; lia).
      naive_solver. }
  intros Hx. unfold grown in Hx. cbn [cache_chain] in Hx. destruct (decide (d = c)) as [->|Hdc].
  - rewrite list_lookup_insert_eq in Hx by (by eapply lookup_lt_Some). apply (inj Some) in Hx as <-.
    assert (length (slabs h) ∉ slab_list_for cache st) as Hnew.
    { intros (slab & Hs & _)%(ho_lists _ _ _ Hh c cache st _ Hc). apply lookup_lt_Some in Hs. lia. }
    pose proof (ho_nodup _ _ _ Hh c cache st Hc) as Hnd.
    destruct (decide (st = FREE)) as [->|Hst].
    + rewrite slab_list_set_eq. split.
      2:{ apply NoDup_app. split_and!; [done| |apply NoDup_singleton]. by intros z Hz ->%list_elem_of_singleton. }
      rewrite elem_of_app, list_elem_of_singleton. destruct (decide (y = length (slabs h))) as [->|Hy].
      * split; [|by right]. intros _. eexists. simpl. rewrite <- Hlen at 2.
        by rewrite !list_lookup_middle by done.
      * rewrite Hne by done. rewrite <- (Hold cache FREE Hc). naive_solver.
    + rewrite slab_list_set_ne by congruence. split; [|done]. destruct (decide (y = length (slabs h))) as [->|Hy].
      * split; [by intros|]. intros (slab & Hs & _ & Hsst). simpl in Hs.
        rewrite list_lookup_middle in Hs by done. injection Hs as <-. done.
      * by rewrite Hne, <- (Hold cache st Hc).
  - rewrite list_lookup_insert_ne in Hx by done. split; [|by eapply (ho_nodup _ _ _ Hh)].
    destruct (decide (y = length (slabs h))) as [->|Hy]; [|by rewrite Hne, <- (Hold x st Hx)].
    rewrite (Hold x st Hx). split.
    + intros (slab & Hs & _). apply lookup_lt_Some in Hs. lia.
    + intros (slab & _ & Ho & _). rewrite <- Hlen, list_lookup_middle in Ho by done. congruence.
Qed.

Lemma grown_slab_page k :
  slab_page cache (new_slab (i * PAGE_SIZE) (slab_bytes cache / object_size_ cache) FREE) k <->
  i <= k < i + num_pages_per_slab_ cache.
Proof using Type. unfold slab_page, slab_bytes, PAGE_SIZE. simpl. lia. Qed.

Lemma grown_pages k p s : atz (pages (memory_manager (grown h c cache i b'))) k = Some p ->
  slab_ p = Some s <->
  exists slab d x, slabs (grown h c cache i b') !! s = Some slab /\ (own ++ [c]) !! s = Some d /\
    cache_chain (grown h c cache i b') !! d = Some x /\ slab_page x slab k.
Proof using Hh Hc Hb.
  intros Hp. destruct (grown_page k p Hp) as (q & Hq & Hcase).
  assert (length own = length (slabs h)) as Hlen by apply (ho_own _ _ _ Hh).
  pose proof (ho_page _ _ _ Hh k q s Hq) as Hold.
  assert (s <> length (slabs h) -> (exists slab d x, slabs (grown h c cache i b') !! s = Some slab /\
      (own ++ [c]) !! s = Some d /\ cache_chain (grown h c cache i b') !! d = Some x /\ slab_page x slab k) <->
      slab_ q = Some s) as Hne.
  { intros Hs. rewrite Hold. unfold grown. cbn [slabs]. destruct (decide (s < length (slabs h))%nat) as [Hlt|Hge].
    - rewrite !lookup_app_l by lia. split; intros (slab & d & x & Hsl & Hd & Hx & Hpg).
      + destruct (geo_chain_lookup _ _ _ _ grown_geo Hx) as (x' & Hx' & [_ Hg]%geo_eq).
        exists slab, d, x'. unfold slab_page in *. by rewrite <- Hg.
      + destruct (geo_chain_lookup _ _ _ _ (eq_sym grown_geo) Hx) as (x' & Hx' & [_ Hg]%geo_eq).
        exists slab, d, x'. unfold slab_page in *. by rewrite <- Hg.
    - rewrite (lookup_ge_None_2 (slabs h) s), (lookup_ge_None_2 (slabs h ++ _)) by (rewrite ?length_app; simpl; lia).
      naive_solver. }
  assert (s = length (slabs h) -> (exists slab d x, slabs (grown h c cache i b') !! s = Some slab /\
      (own ++ [c]) !! s = Some d /\ cache_chain (grown h c cache i b') !! d = Some x /\ slab_page x slab k) <->
      i <= k < i + num_pages_per_slab_ cache) as Heq.
  { intros ->. rewrite <- grown_slab_page. unfold grown. cbn [slabs cache_chain]. rewrite list_lookup_middle by done.
    rewrite <- Hlen, list_lookup_middle by done. split.
    - intros (slab & d & x & Hsl & Hd & Hx & Hpg). injection Hsl as <-. injection Hd as <-.
      rewrite list_lookup_insert_eq in Hx by (by eapply lookup_lt_Some). by injection Hx as <-.
    - intros Hpg. eexists _, c, (set_slab_list cache FREE (slabs_free_ cache ++ [length own])).
      rewrite Hlen. split_and!; [done|done| |exact Hpg].
      by rewrite list_lookup_insert_eq by (by eapply lookup_lt_Some). }
  destruct (decide (s = length (slabs h))) as [Hs|Hs].
  - rewrite (Heq Hs). destruct Hcase as [(Hin & -> & _)|(Hout & ->)]; [simpl; by rewrite Hs|].
    split; [|done]. intros Hsq. apply Hold in Hsq as (slab & _ & _ & Hsl & _). apply lookup_lt_Some in Hsl. lia.
  - rewrite (Hne Hs). destruct Hcase as [(Hin & -> & Hno)|(Hout & ->)]; [|done].
    rewrite Hno. simpl. split; [congruence|done].
Qed.

Lemma grown_ok : heap_ok (own ++ [c]) None (grown h c cache i b').
Proof using Hh Hc Hb.
  pose proof (ho_cache _ _ _ Hh c cache Hc) as Hcok. pose proof grown_npages as Hn.
  assert (length own = length (slabs h)) as Hlen by apply (ho_own _ _ _ Hh).
  split; rewrite ?Hn; try by apply Hh.
  - apply wf_meta; [apply Hb|done].
  - intros d x (y & Hy & Hg)%(geo_chain_lookup _ _ _ _ grown_geo). eapply cache_ok_geo; [done|]. by eapply (ho_cache _ _ _ Hh).
  - simpl. rewrite !length_app. simpl. lia.
  - intros s slab. destruct (decide (s < length (slabs h))%nat) as [Hlt|Hge].
    + unfold grown at 1. cbn [slabs]. rewrite !lookup_app_l by lia. intros Hs.
      destruct (ho_slab _ _ _ Hh s slab Hs) as (d & x & Hd & Hx & Hok & Hst).
      destruct (geo_chain_lookup _ _ _ _ (eq_sym grown_geo) Hx) as (x' & Hx' & Hg).
      exists d, x'. split_and!; try done. by eapply slab_ok_geo.
    + intros Hs. assert (s = length (slabs h)) as ->
        by (apply lookup_lt_Some in Hs; unfold grown in Hs; cbn [slabs] in Hs; rewrite length_app in Hs; simpl in Hs; lia).
      unfold grown in Hs. cbn [slabs] in Hs. rewrite list_lookup_middle in Hs by done. injection Hs as <-.
      destruct (geo_chain_lookup _ _ _ _ (eq_sym grown_geo) Hc) as (x' & Hx' & Hg).
      exists c, x'. destruct (new_slab_ok (lenz (pages (memory_manager h))) cache i Hcok) as (Hok & Hst & _); [apply (fb_pos _ _ _ _ Hb)|apply (fb_aligned _ _ _ _ Hb)|apply (fb_end _ _ _ _ Hb)|].
      split_and!; try done; [by rewrite <- Hlen, list_lookup_middle|by eapply slab_ok_geo].
  - intros d x st y Hx. by apply grown_lists.
  - intros d x st Hx. by apply (grown_lists d x st 0%nat).
  - apply grown_pages.
  - intros k p s Hp Hs. destruct (grown_page k p Hp) as (q & Hq & [(Hin & -> & _)|(Hout & ->)]).
    + simpl in Hs. injection Hs as <-. by rewrite <- Hlen, list_lookup_middle.
    + destruct (ho_marked _ _ _ Hh k q s Hq Hs) as [Hcq Hst]. split; [|done].
      apply (ho_page _ _ _ Hh k q s Hq) in Hs as (slab & _ & _ & Hs & _). apply lookup_lt_Some in Hs.
      by rewrite lookup_app_l by lia.
  - rewrite (geo_chain_names _ _ grown_geo). apply Hh.
Qed.
End Grown.

Lemma grow_spec own h c cache :
  heap_ok own None h -> cache_chain h !! c = Some cache ->
  (exists i b', fresh_block h cache i b' /\ grow c h = Some (true, grown h c cache i b')) \/
  (grow c h = Some (false, h) /\
   forall k, order_of (slab_bytes cache) <= k <= MAX_ORDER -> atz (free_lists_ (memory_manager h)) k = Some []).
Proof.
  intros Hh Hc. pose proof (ho_cache _ _ _ Hh c cache Hc) as Hcok.
  destruct (cache_geometry _ Hcok) as (k & Hk & Hos & Hnp & Hb1 & _).
  pose proof (slab_bytes_pos _ Hcok) as Hbytes.
  assert (order_of (slab_bytes cache) = Z.max 0 (k - 12)) as Hord.
  { unfold slab_bytes. rewrite Hnp. apply order_of_pow2. unfold MAX_ORDER. lia. }
  unfold grow. rewrite Hc. cbn [mbind option_bind]. fold (slab_bytes cache).
  rewrite (wrap_small 64 (slab_bytes cache)) by lia.
  pose proof (allocate_wf (memory_manager h) (slab_bytes cache) (ho_mm _ _ _ Hh)) as Ha. cbv zeta in Ha.
  destruct Ha as [(i & b' & -> & Hi & Hwf' & Hin & Hcov & Hpg)|(-> & Hempty)].
  { unfold MAX_BLOCK_BYTES, MAX_ORDER, PAGE_SIZE. lia. }
  - left. rewrite Hord, <- Hnp in *. exists i, b'.
    assert (lenz (pages b') = lenz (pages (memory_manager h))) as Hl by (by rewrite Hpg, lenz_upd_range).
    pose proof (iu_aligned _ _ _ Hin) as Hal. pose proof (iu_block _ _ _ Hin) as [_ Hend]. rewrite <- Hnp in *.
    assert (fresh_block h cache i b') as Hfb.
    { split; try done; [by rewrite <- Hl|]. intros j Hj. rewrite Hcov. apply elem_of_app. left. apply elem_of_seqZ. lia. }
    split; [done|]. cbn [mbind option_bind]. destruct (Z.eqb_spec (i * PAGE_SIZE) 0) as [|_]; [unfold PAGE_SIZE in *; lia|].
    destruct (Z.eqb_spec (object_size_ cache) 0) as [|_]; [lia|].
    pose proof (ho_size _ _ _ Hh). assert (0 < num_pages_per_slab_ cache) by (rewrite Hnp; lia).
    rewrite mark_slab_pages_spec by (rewrite ?Z2Nat.id; lia). cbn [mbind option_bind negb].
    rewrite Z.add_0_r, Z2Nat.id by lia. done.
  - right. split; [|done]. cbn [mbind option_bind]. by destruct h.
Qed.

(** ** Live objects under updates *)

Lemma obj_live_geo cache cache' slab addr :
  geo cache' = geo cache -> obj_live cache' slab addr <-> obj_live cache slab addr.
Proof. intros [Ho _]%geo_eq. unfold obj_live. by rewrite Ho. Qed.

(** Live objects outside slab [s]. *)
Definition live_elsewhere (own : list nat) (h : Heap) (s : nat) (addr size : Z) : Prop :=
  exists s' c slab cache, s' <> s /\ has_slab own h s' c slab cache /\
    size = object_size_ cache /\ obj_live cache slab addr.

Lemma live_split own ex h s c slab cache addr size :
  heap_ok own ex h -> has_slab own h s c slab cache ->
  live h addr size <-> live_elsewhere own h s addr size \/
    (size = object_size_ cache /\ obj_live cache slab addr).
Proof.
  intros Hh Hhas. rewrite (live_iff own ex h) by done. split.
  - intros (s' & c' & slab' & cache' & Hhas' & -> & Hl). destruct (decide (s' = s)) as [->|Hne].
    + right. destruct Hhas as (? & ? & ?), Hhas' as (? & ? & ?). by simplify_eq.
    + left. by exists s', c', slab', cache'.
  - intros [(s' & c' & slab' & cache' & _ & H)|H]; [by eexists _, _, _, _|by exists s, c, slab, cache].
Qed.

Lemma live_elsewhere_upd own h h' s slab' addr size :
  slabs h' = <[s := slab']> (slabs h) -> geo <$> cache_chain h' = geo <$> cache_chain h ->
  live_elsewhere own h' s addr size <-> live_elsewhere own h s addr size.
Proof.
  intros Hs Hgeo. unfold live_elsewhere, has_slab. rewrite Hs.
  split; intros (s' & c & slab & cache & Hne & (Hs' & Ho & Hc) & Hsz & Hl).
  - rewrite list_lookup_insert_ne in Hs' by done. destruct (geo_chain_lookup _ _ _ _ Hgeo Hc) as (x & Hx & Hg). exists s', c, slab, x.
    rewrite <- (obj_live_geo x cache slab addr), <- (proj1 (geo_eq _ _ Hg)) by done. done.
  - destruct (geo_chain_lookup _ _ _ _ (eq_sym Hgeo) Hc) as (x & Hx & Hg). exists s', c, slab, x.
    rewrite list_lookup_insert_ne by done. rewrite (obj_live_geo cache x slab addr), <- (proj1 (geo_eq _ _ Hg)) by done. done.
Qed.

(** The live objects after slab [s] was replaced by [slab']. *)
Lemma live_upd own ex ex' h h' s c slab slab' cache addr size :
  heap_ok own ex h -> heap_ok own ex' h' -> has_slab own h s c slab cache ->
  slabs h' = <[s := slab']> (slabs h) -> geo <$> cache_chain h' = geo <$> cache_chain h ->
  live h' addr size <-> live_elsewhere own h s addr size \/
    (size = object_size_ cache /\ obj_live cache slab' addr).
Proof.
  intros Hh Hh' (Hs & Ho & Hc) Hs' Hgeo.
  destruct (geo_chain_lookup _ _ _ _ (eq_sym Hgeo) Hc) as (x & Hx & Hg).
  assert (has_slab own h' s c slab' x) as Hhas'.
  { split_and!; try done. rewrite Hs'. apply list_lookup_insert_eq. by eapply lookup_lt_Some. }
  rewrite (live_split own ex' h' s c slab' x) by done. rewrite (live_elsewhere_upd own h h' s slab') by done.
  by rewrite (obj_live_geo x cache slab' addr), (proj1 (geo_eq _ _ Hg)) by done.
Qed.

Lemma live_upd_same own ex ex' h h' s c slab slab' cache addr size :
  heap_ok own ex h -> heap_ok own ex' h' -> has_slab own h s c slab cache ->
  slabs h' = <[s := slab']> (slabs h) -> geo <$> cache_chain h' = geo <$> cache_chain h ->
  (obj_live cache slab' addr <-> obj_live cache slab addr) ->
  live h' addr size <-> live h addr size.
Proof.
  intros Hh Hh' Hhas Hs' Hgeo Hl. rewrite (live_upd own ex ex' h h' s c slab slab' cache) by done.
  by rewrite Hl, <- live_split.
Qed.

Lemma live_grown own h c cache i b' addr size :
  heap_ok own None h -> cache_chain h !! c = Some cache -> fresh_block h cache i b' ->
  live (grown h c cache i b') addr size <-> live h addr size.
Proof.
  intros Hh Hc Hb. pose proof (grown_ok own h c cache i b' Hh Hc Hb) as Hh'.
  pose proof (grown_geo h c cache i b' Hc) as Hgeo. pose proof (ho_own _ _ _ Hh) as Hlen.
  destruct (new_slab_ok (lenz (pages (memory_manager h))) cache i) as (_ & _ & Hnone & _);
    [by apply (ho_cache _ _ _ Hh c)|apply (fb_pos _ _ _ _ Hb)|apply (fb_aligned _ _ _ _ Hb)|apply (fb_end _ _ _ _ Hb)|].
  rewrite (live_iff _ _ _ _ _ Hh), (live_iff _ _ _ _ _ Hh'). split.
  - intros (s & d & slab & x & (Hs & Hd & Hx) & -> & Hl).
    destruct (geo_chain_lookup _ _ _ _ Hgeo Hx) as (x' & Hx' & Hg).
    destruct (decide (s < length (slabs h))%nat) as [Hlt|Hge].
    + unfold grown in Hs. cbn [slabs] in Hs. rewrite lookup_app_l in Hs by lia. rewrite lookup_app_l in Hd by lia. exists s, d, slab, x'.
      rewrite <- (obj_live_geo x' x slab addr), <- (proj1 (geo_eq _ _ Hg)) by done. done.
    + exfalso. apply (Hnone addr). unfold grown in Hs. cbn [slabs] in Hs.
      assert (s = length (slabs h)) as ->
        by (apply lookup_lt_Some in Hs; rewrite length_app in Hs; simpl in Hs; lia).
      rewrite list_lookup_middle in Hs by done. injection Hs as <-.
      rewrite <- Hlen, list_lookup_middle in Hd by done. injection Hd as <-. assert (x' = cache) as -> by congruence.
      by rewrite <- (obj_live_geo cache x).
  - intros (s & d & slab & x & (Hs & Hd & Hx) & -> & Hl).
    destruct (geo_chain_lookup _ _ _ _ (eq_sym Hgeo) Hx) as (x' & Hx' & Hg). exists s, d, slab, x'.
    rewrite (obj_live_geo x x' slab addr), <- (proj1 (geo_eq _ _ Hg)) by done. split_and!; try done.
    split_and!; [|by apply lookup_app_l_Some|done]. by apply lookup_app_l_Some.
Qed.

(** ** Taking an object from a cache *)

Lemma heap_ok_weaken own h s : heap_ok own None h -> heap_ok own (Some s) h.
Proof.
  intros []. split; try done. intros x slab Hx. destruct (ho_slab0 x slab Hx) as (c & y & ? & ? & ? & Hst).
  exists c, y. split_and!; try done. intros _. by apply Hst.
Qed.

(** No free block can back another slab of the cache. *)
Definition exhausted (h : Heap) (cache : MCache) : Prop :=
  forall k, order_of (slab_bytes cache) <= k <= MAX_ORDER -> atz (free_lists_ (memory_manager h)) k = Some [].

(** What stays as it was in every step of an allocation. *)
Record same_world (h h' : Heap) : Prop := {
  sw_live : forall addr size, live h' addr size <-> live h addr size;
  sw_npages : lenz (pages (memory_manager h')) = lenz (pages (memory_manager h));
  sw_geo : geo <$> cache_chain h' = geo <$> cache_chain h;
  sw_aligned : aligned_to_raw_addr_map h' = aligned_to_raw_addr_map h;
}.

Lemma same_world_trans h1 h2 h3 : same_world h1 h2 -> same_world h2 h3 -> same_world h1 h3.
Proof. intros [H1 ? ? ?] [H2 ? ? ?]. split; try congruence. intros. by rewrite H2. Qed.

(** The slab at the front of the partial list has a free object. *)
Record partial_ready (own : list nat) (h : Heap) (c s : nat) (slab : MSlab) (cache : MCache) : Prop := {
  pr_ok : heap_ok own (Some s) h;
  pr_slab : has_slab own h s c slab cache;
  pr_front : head (slabs_partial_ cache) = Some s;
  pr_status : slab_status_ slab = PARTIAL;
  pr_free : free_objects_index_ slab <> [];
}.

Lemma free_nonempty n cache slab :
  slab_ok n cache slab -> num_in_use_ slab < lenz (objects_ slab) -> free_objects_index_ slab <> [].
Proof. intros [] Hlt Hnil. rewrite Hnil in *. change (lenz (@nil Z)) with 0 in *. lia. Qed.

Lemma slab_nonempty n cache slab : cache_ok cache -> slab_ok n cache slab -> 0 < lenz (objects_ slab).
Proof.
  intros Hc []. pose proof (slab_bytes_pos _ Hc). pose proof (object_size_pos _ Hc). nia.
Qed.

(** A free slab moves to the (empty) partial list. *)
Lemma move_to_partial own h c cache s rest :
  heap_ok own None h -> cache_chain h !! c = Some cache -> slabs_partial_ cache = [] ->
  slabs_free_ cache = s :: rest ->
  exists h' slab cache', move_list c s PARTIAL h = Some h' /\ partial_ready own h' c s slab cache' /\
    geo cache' = geo cache /\ same_world h h'.
Proof.
  intros Hh Hc Hpart Hfree.
  destruct (proj1 (ho_lists _ _ _ Hh c cache FREE s Hc)) as (slab & Hs & Ho & Hst).
  { simpl. rewrite Hfree. by left. }
  assert (has_slab own h s c slab cache) as Hhas by done.
  destruct (has_slab_ok _ _ _ _ _ _ _ Hh Hhas) as (Hcok & Hsok & Hstat).
  specialize (Hstat ltac:(done)). unfold status_ok in Hstat. rewrite Hst in Hstat.
  destruct (move_list_spec own None (Some s) h s c slab cache PARTIAL Hh Hhas) as
    (h' & cache' & E & Hh' & Hhas' & Hg & Hmm & Hsl & Hgeo & Hal & Hlist); [by left|done|].
  exists h', (set_status PARTIAL slab), cache'. split_and!; try done.
  - split; try done.
    + simpl in Hlist. by rewrite Hlist, Hpart by congruence.
    + eapply (free_nonempty _ cache); [by apply slab_ok_status|]. simpl. rewrite Hstat.
      by eapply slab_nonempty.
  - split; try done; [|by rewrite Hmm]. intros addr size.
    by apply (live_upd_same own None (Some s) h h' s c slab (set_status PARTIAL slab) cache).
Qed.

Lemma ensure_partial_spec own h c cache :
  heap_ok own None h -> cache_chain h !! c = Some cache ->
  (exists own' h' s slab cache', ensure_partial c h = Some (true, h') /\
     partial_ready own' h' c s slab cache' /\ geo cache' = geo cache /\ same_world h h') \/
  (ensure_partial c h = Some (false, h) /\ exhausted h cache).
Proof.
  intros Hh Hc. unfold ensure_partial. rewrite Hc. cbn [mbind option_bind].
  destruct (slabs_partial_ cache) as [|s rest] eqn:Hpart.
  2:{ left. destruct (proj1 (ho_lists _ _ _ Hh c cache PARTIAL s Hc)) as (slab & Hs & Ho & Hst).
      { simpl. rewrite Hpart. by left. }
      assert (has_slab own h s c slab cache) as Hhas by done.
      destruct (has_slab_ok _ _ _ _ _ _ _ Hh Hhas) as (Hcok & Hsok & Hstat).
      specialize (Hstat ltac:(done)). unfold status_ok in Hstat. rewrite Hst in Hstat.
      exists own, h, s, slab, cache. split_and!; try done. split; try done.
      - by apply heap_ok_weaken.
      - by rewrite Hpart.
      - eapply free_nonempty; [done|lia]. }
  destruct (slabs_free_ cache) as [|s rest] eqn:Hfree.
  - destruct (grow_spec own h c cache Hh Hc) as [(i & b' & Hb & ->)|[-> Hex]]; [|by right].
    left. cbn [mbind option_bind negb].
    pose proof (grown_ok own h c cache i b' Hh Hc Hb) as Hh'.
    set (cache1 := set_slab_list cache FREE (slabs_free_ cache ++ [length (slabs h)])).
    assert (cache_chain (grown h c cache i b') !! c = Some cache1) as Hc1.
    { unfold grown. cbn [cache_chain]. by apply list_lookup_insert_eq, (lookup_lt_Some _ _ _ Hc). }
    rewrite Hc1. cbn [mbind option_bind].
    destruct (move_to_partial (own ++ [c]) (grown h c cache i b') c cache1 (length (slabs h)) []) as
      (h' & slab & cache' & E & Hready & Hg & Hsame); [done|done|done|by simpl; rewrite Hfree|].
    assert (head (slabs_free_ cache1) = Some (length (slabs h))) as -> by (simpl; by rewrite Hfree).
    cbn [mbind option_bind]. rewrite E. cbn [mbind option_bind].
    exists (own ++ [c]), h', (length (slabs h)), slab, cache'. split_and!; try done.
    eapply same_world_trans; [|done]. split; [|by apply grown_npages|by apply grown_geo|done].
    intros. by eapply live_grown.
  - left. cbn [mbind option_bind negb]. rewrite Hc. cbn [mbind option_bind]. rewrite Hfree. cbn [head mbind option_bind].
    destruct (move_to_partial own h c cache s rest Hh Hc Hpart Hfree) as (h' & slab & cache' & -> & Hready & Hg & Hsame).
    cbn [mbind option_bind]. by exists own, h', s, slab, cache'.
Qed.

(** Taking an object makes it live. *)
Lemma obj_live_take n cache slab i o num rest addr :
  cache_ok cache -> slab_ok n cache slab -> atz (objects_ slab) i = Some o -> in_use_ o = false ->
  obj_live cache (slab_upd slab i (set_in_use true (increase_usage_count o)) num rest) addr <->
  addr = base_addr_ slab + i * object_size_ cache \/ obj_live cache slab addr.
Proof.
  intros Hc Hs Ho Hu. pose proof (atz_Some_lt _ _ _ Ho) as Hi. unfold obj_live, slab_upd. simpl. split.
  - intros (j & q & -> & Hq & Hqu). destruct (Z.eq_dec i j) as [->|Hne]; [by left|].
    rewrite atz_setz_ne in Hq by lia. right. eauto.
  - intros [->|(j & q & -> & Hq & Hqu)].
    + exists i. rewrite atz_setz_eq by done. by eexists.
    + exists j, q. split_and!; try done. rewrite atz_setz_ne; [done|lia|]. intros ->. congruence.
Qed.

Lemma obj_not_live cache slab i o :
  cache_ok cache -> atz (objects_ slab) i = Some o -> in_use_ o = false ->
  ~ obj_live cache slab (base_addr_ slab + i * object_size_ cache).
Proof.
  intros Hc%object_size_pos Ho Hu (j & q & Heq & Hq & Hqu). assert (i = j) as -> by nia. congruence.
Qed.

(** An address belongs to at most one slab. *)
Lemma not_elsewhere own ex h s c slab cache addr size :
  heap_ok own ex h -> has_slab own h s c slab cache -> in_slab cache slab addr ->
  ~ live_elsewhere own h s addr size.
Proof.
  intros Hh Hhas Hin (s' & c' & slab' & cache' & Hne & Hhas' & _ & Hl).
  destruct (has_slab_ok _ _ _ _ _ _ _ Hh Hhas') as (Hc' & Hs' & _).
  destruct (obj_live_in_slab _ _ _ _ Hc' Hs' Hl) as [Hin' _].
  pose proof (owner_of_slab _ _ _ _ _ _ _ _ Hh Hhas Hin).
  pose proof (owner_of_slab _ _ _ _ _ _ _ _ Hh Hhas' Hin'). congruence.
Qed.

(** [addr] is a new live object of [size] bytes. *)
Record allocated (h h' : Heap) (addr size : Z) : Prop := {
  al_pos : 0 < addr;
  al_aligned : addr mod size = 0;
  al_end : addr + size <= lenz (pages (memory_manager h)) * PAGE_SIZE;
  al_new : forall n, ~ live h addr n;
  al_live : forall a n, live h' a n <-> (a = addr /\ n = size) \/ live h a n;
  al_npages : lenz (pages (memory_manager h')) = lenz (pages (memory_manager h));
  al_geo : geo <$> cache_chain h' = geo <$> cache_chain h;
  al_table : aligned_to_raw_addr_map h' = aligned_to_raw_addr_map h;
}.

(** After the slab gave out an object, it stays in the partial list or moves
    to the full one. *)
Lemma settle_slab own h c s slab slab' cache :
  partial_ready own h c s slab cache -> slab_ok (lenz (pages (memory_manager h))) cache slab' ->
  base_addr_ slab' = base_addr_ slab -> slab_status_ slab' = PARTIAL -> 0 < num_in_use_ slab' ->
  exists h' slab'', (if is_full slab' then move_list c s FULL (set_slab_at s slab' h)
      else Some (set_slab_at s slab' h)) = Some h' /\
    heap_ok own None h' /\ slabs h' = <[s := slab'']> (slabs h) /\
    objects_ slab'' = objects_ slab' /\ base_addr_ slab'' = base_addr_ slab' /\
    memory_manager h' = memory_manager h /\ geo <$> cache_chain h' = geo <$> cache_chain h /\
    aligned_to_raw_addr_map h' = aligned_to_raw_addr_map h.
Proof.
  intros [Hh Hhas _ Hst _] Hok Hbase Hst' Hnum.
  pose proof (slab_free_length _ _ _ Hok) as Hfl. pose proof (sk_count _ _ _ Hok) as Hcnt.
  unfold is_full. destruct (Z.eqb_spec (num_in_use_ slab') (lenz (objects_ slab'))) as [Hfull|Hfull].
  - assert (heap_ok own (Some s) (set_slab_at s slab' h)) as Hh'.
    { apply (heap_ok_set_slab own (Some s) (Some s) h s c slab slab' cache Hh Hhas); try done; [by right|congruence]. }
    pose proof (has_slab_set own h s c slab slab' cache Hhas) as Hhas'.
    destruct (move_list_spec own (Some s) None (set_slab_at s slab' h) s c slab' cache FULL Hh' Hhas') as
      (h' & cache' & E & Hh'' & _ & _ & Hmm & Hsl & Hgeo & Hal & _); [by right|done|].
    exists h', (set_status FULL slab'). split_and!; try done. rewrite Hsl. simpl. apply list_insert_insert_eq.
  - exists (set_slab_at s slab' h), slab'. split_and!; try done.
    apply (heap_ok_set_slab own (Some s) None h s c slab slab' cache Hh Hhas); try done; [by right|congruence|].
    intros _. unfold status_ok. rewrite Hst'. lia.
Qed.

Lemma cache_alloc_spec own h c cache :
  heap_ok own None h -> cache_chain h !! c = Some cache ->
  (exists own' h' addr, cache_alloc c h = Some (addr, h') /\ heap_ok own' None h' /\
     allocated h h' addr (object_size_ cache)) \/
  (cache_alloc c h = Some (0, h) /\ exhausted h cache).
Proof.
  intros Hh Hc. unfold cache_alloc.
  destruct (ensure_partial_spec own h c cache Hh Hc) as
    [(own' & h1 & s & slab & cache1 & -> & Hready & Hg & Hsame)|[-> Hex]]; [|by right].
  left. cbn [mbind option_bind negb]. pose proof Hready as [Hh1 Hhas Hfront Hst Hfree].
  pose proof Hhas as (Hs & Ho & Hc1). rewrite Hc1. cbn [mbind option_bind]. rewrite Hfront. cbn [mbind option_bind].
  rewrite Hs. cbn [mbind option_bind]. destruct (has_slab_ok _ _ _ _ _ _ _ Hh1 Hhas) as (Hcok & Hsok & _).
  destruct (alloc_object_spec _ cache1 slab Hcok (ho_size _ _ _ Hh1) Hsok Hfree) as
    (i & o & rest & _ & Hi & Hobj & Hu & -> & Hok'). cbn [mbind option_bind].
  set (addr := base_addr_ slab + i * object_size_ cache1) in *.
  set (slab' := slab_upd _ _ _ _ _) in *.
  pose proof (slab_ok_addr _ _ _ i Hcok Hsok Hi) as [Ha1 Ha2]. fold addr in Ha1, Ha2.
  pose proof (object_size_pos _ Hcok). pose proof (sk_pos _ _ _ Hsok). pose proof (sk_end _ _ _ Hsok) as Hend.
  destruct (Z.eqb_spec addr 0) as [|_]; [lia|].
  pose proof (slab_free_length _ _ _ Hsok). pose proof (sk_count _ _ _ Hsok).
  destruct (settle_slab own' h1 c s slab slab' cache1 Hready Hok' eq_refl) as
    (h' & slab'' & Hsettle & Hh' & Hsl & Hobjs & Hbase & Hmm & Hgeo & Hal);
    [done|unfold slab', slab_upd; cbn [num_in_use_]; lia|].
  exists own', h', addr. destruct (geo_eq _ _ Hg) as [Hos _]. destruct Hsame as [Hlive Hnp Hgeo1 Hal1].
  assert (in_slab cache1 slab addr) as Hin by (unfold in_slab; lia).
  split_and!; [destruct (is_full slab'); [by rewrite Hsettle|by injection Hsettle as ->]|done|].
  split; rewrite <- ?Hos, <- ?Hnp; try congruence; try lia.
  - by eapply object_aligned.
  - intros n. rewrite <- Hlive, (live_split own' (Some s) h1 s c slab cache1) by done. intros [He|[_ Hl]].
    + exact (not_elsewhere _ _ _ _ _ _ _ _ _ Hh1 Hhas Hin He).
    + exact (obj_not_live cache1 slab i o Hcok Hobj Hu Hl).
  - intros a n. rewrite <- Hlive, (live_split own' (Some s) h1 s c slab cache1) by done.
    rewrite (live_upd own' (Some s) None h1 h' s c slab slab'' cache1) by done.
    assert (obj_live cache1 slab'' a <-> obj_live cache1 slab' a) as ->.
    { unfold obj_live. by rewrite Hobjs, Hbase. }
    unfold slab'. rewrite (obj_live_take _ cache1 slab i o) by done. fold addr. naive_solver.
Qed.
