(* ===== verification/SlabSpec.v ===== *)
(** * The kernel heap: [alloc] and [free]

    The public interface of the slab allocator against its abstract view, a
    finite map from the addresses of live objects to their sizes: [alloc] adds
    a fresh aligned object disjoint from all others, [free] removes exactly the
    object at its address and ignores every other address. *)

From stdpp Require Import strings pretty.
From S2P Require Import Prelude BitUtils Pages Buddy BuddyLemmas BuddyProofs Slab SlabProofs BuddyCheck.

Open Scope Z_scope.

(** ** Size classes and their caches *)

Lemma cache_name_inj k k' : 0 <= k <= 30 -> 0 <= k' <= 30 ->
  cache_name (2 ^ k) = cache_name (2 ^ k') -> k = k'.
Proof.
  intros Hk Hk' Heq. assert (forall j, 0 <= j <= 30 -> i32 (2 ^ j) = 2 ^ j) as Hs.
  { intros j Hj. pose proof (pow2_pos j ltac:(lia)). pose proof (pow2_le_mono j 30 ltac:(lia)).
    unfold signed. rewrite wrap_small by lia. destruct (Z.ltb_spec (2 ^ j) (2 ^ (32 - 1))); lia. }
  unfold cache_name in Heq. rewrite !Hs in Heq by done. simplify_eq.
  apply Z.pow_inj_r in Heq; lia.
Qed.

Lemma cache_name_fits k : 0 <= k <= 30 -> String.substring 0 19 (cache_name (2 ^ k)) = cache_name (2 ^ k).
Proof.
  intros Hk. replace k with (Z.of_nat (Z.to_nat k)) by lia. assert (Z.to_nat k < 31)%nat as Hn by lia.
  revert Hn. generalize (Z.to_nat k) as n. clear. intros n Hn.
  do 31 (destruct n as [|n]; [reflexivity|]). lia.
Qed.

Lemma bit_width_ceil_pow2 k : 0 <= k <= 30 -> bit_width_ceil (2 ^ k) = k.
Proof.
  intros Hk. pose proof (pow2_pos k ltac:(lia)). pose proof (pow2_le_mono k 30 ltac:(lia)).
  destruct (bit_width_ceil_spec (2 ^ k)) as (H1 & H2 & H3); [lia|].
  pose proof (H3 k ltac:(lia) ltac:(lia)). destruct (Z.eq_dec (bit_width_ceil (2 ^ k)) k); [done|].
  pose proof (Z.pow_lt_mono_r 2 (bit_width_ceil (2 ^ k)) k ltac:(lia) ltac:(lia) ltac:(lia)). lia.
Qed.

Lemma new_cache_ok k : 0 <= k <= 30 ->
  cache_ok (new_cache (cache_name (2 ^ k)) (2 ^ k)) /\
  name_ (new_cache (cache_name (2 ^ k)) (2 ^ k)) = cache_name (2 ^ k).
Proof.
  intros Hk. unfold new_cache. rewrite cache_name_fits by done. split; [|done].
  exists k. split_and!; try lia; try done. cbn [name_ slabs_full_ slabs_partial_ slabs_free_]. f_equal.
  replace PAGE_SIZE with (2 ^ 12) by done. destruct (Z.leb_spec (2 ^ k) (2 ^ 12)) as [Hle|Hgt].
  - apply Z.pow_le_mono_r_iff in Hle; [|lia|lia]. by replace (Z.max 0 (k - 12)) with 0 by lia.
  - apply Z.pow_lt_mono_r_iff in Hgt; [|lia|lia]. rewrite <- Z.pow_sub_r by lia. f_equal. lia.
Qed.

Lemma find_cache_spec name l i :
  match find_cache name i l with
  | Some j => exists n x, (j = i + n)%nat /\ l !! n = Some x /\ name_ x = name
  | None => name ∉ name_ <$> l
  end.
Proof.
  revert i. induction l as [|x l IH]; intros i; simpl; [apply not_elem_of_nil|].
  destruct (decide (name_ x = name)) as [Heq|Hne].
  - exists 0%nat, x. split_and!; [lia|done|done].
  - specialize (IH (S i)). destruct (find_cache name (S i) l) as [j|].
    + destruct IH as (n & y & -> & Hn & Hy). exists (S n), y. split_and!; [lia|done|done].
    + rewrite not_elem_of_cons. split; [congruence|done].
Qed.

(** A heap with one more, empty, cache. *)
Lemma heap_ok_new_cache own h cache :
  heap_ok own None h -> cache_ok cache -> name_ cache ∉ name_ <$> cache_chain h ->
  (forall st, slab_list_for cache st = []) ->
  heap_ok own None (mkHeap (memory_manager h) (cache_chain h ++ [cache]) (slabs h) (aligned_to_raw_addr_map h)).
Proof.
  intros Hh Hok Hname Hlists. destruct Hh as [ho_mm0 ho_size0 ho_cache0 ho_own0 ho_slab0 ho_lists0 ho_nodup0 ho_page0 ho_marked0 ho_chain0].
  assert (forall d x, (cache_chain h ++ [cache]) !! d = Some x ->
    cache_chain h !! d = Some x \/ (d = length (cache_chain h) /\ x = cache)) as Hlook.
  { intros d x. destruct (decide (d < length (cache_chain h))%nat).
    - rewrite lookup_app_l by lia. by left.
    - intros Hx. pose proof (lookup_lt_Some _ _ _ Hx) as Hd. rewrite length_app in Hd. simpl in Hd.
      assert (d = length (cache_chain h)) as -> by lia. rewrite list_lookup_middle in Hx by done. naive_solver. }
  assert (forall s, own !! s <> Some (length (cache_chain h))) as Hnoown.
  { intros s Hs. pose proof (lookup_lt_Some _ _ _ Hs) as Hlt. rewrite ho_own0 in Hlt.
    apply lookup_lt_is_Some_2 in Hlt as [slab Hsl]. destruct (ho_slab0 s slab Hsl) as (c & x & Hc & Hx & _).
    apply lookup_lt_Some in Hx. simplify_eq. lia. }
  split; simpl; try done.
  - intros d x [Hx|[_ ->]]%Hlook; eauto.
  - intros s slab Hs. destruct (ho_slab0 s slab Hs) as (c & x & Hc & Hx & Hok1 & Hst1). exists c, x. split_and!; try done.
    by apply lookup_app_l_Some.
  - intros d x st s [Hx|[-> ->]]%Hlook; [by apply ho_lists0|]. rewrite Hlists. split; [by intros ?%elem_of_nil|].
    intros (slab & _ & Ho & _). by apply Hnoown in Ho.
  - intros d x st [Hx|[_ ->]]%Hlook; [by eapply ho_nodup0|]. rewrite Hlists. apply NoDup_nil_2.
  - intros k p s Hp. rewrite (ho_page0 k p s Hp). split; intros (slab & c & x & Hs & Ho & Hx & Hpg); exists slab, c, x.
    + split_and!; try done. by apply lookup_app_l_Some.
    + apply Hlook in Hx as [Hx|[-> _]]; [done|]. by apply Hnoown in Ho.
  - rewrite fmap_app. apply NoDup_app. split_and!; [done| |apply NoDup_singleton].
    intros n Hn ->%list_elem_of_singleton. done.
Qed.

Lemma live_new_cache own h cache addr size :
  heap_ok own None h -> 
  live (mkHeap (memory_manager h) (cache_chain h ++ [cache]) (slabs h) (aligned_to_raw_addr_map h)) addr size
  <-> live h addr size.
Proof.
  intros Hh. unfold live. split; intros (c & s & x & slab & Ho & Hx & Hs & Hsz & Hl).
  - exists c, s, x, slab. split_and!; try done. change (owner_of addr h = Some (Some (c, s))) in Ho. simpl in Hx.
    destruct (decide (c < length (cache_chain h))%nat); [by rewrite lookup_app_l in Hx by lia|]. exfalso.
    destruct (Z.lt_ge_cases addr 0) as [Hneg|Hpos].
    + unfold owner_of, get_page in Ho. destruct (_ =? 0); [done|]. destruct (_ <=? _); [done|].
      assert (addr / PAGE_SIZE < 0) by (apply Z.div_lt_upper_bound; [done|unfold PAGE_SIZE; lia]).
      unfold atz in Ho. destruct (Z.leb_spec 0 (addr / PAGE_SIZE)); [lia|done].
    + destruct (owner_of_total own None h addr Hh Hpos) as [E|(c' & s' & slab' & y & E & (_ & _ & Hy) & _)];
        rewrite E in Ho; [done|]. injection Ho as -> ->. apply lookup_lt_Some in Hy. lia.
  - exists c, s, x, slab. split_and!; try done. by apply lookup_app_l_Some.
Qed.

Lemma cache_for_spec own h k :
  heap_ok own None h -> 0 <= k <= 30 ->
  exists c h1 cache, cache_for (2 ^ k) h = (c, h1) /\ heap_ok own None h1 /\
    cache_chain h1 !! c = Some cache /\ object_size_ cache = 2 ^ k /\
    memory_manager h1 = memory_manager h /\ aligned_to_raw_addr_map h1 = aligned_to_raw_addr_map h /\
    forall addr size, live h1 addr size <-> live h addr size.
Proof.
  intros Hh Hk. unfold cache_for, get_cache_in_chain.
  pose proof (find_cache_spec (cache_name (2 ^ k)) (cache_chain h) 0) as Hf.
  destruct (find_cache _ _ _) as [c|].
  - destruct Hf as (n & x & -> & Hx & Hname). exists n, h, x. split_and!; try done.
    destruct (ho_cache _ _ _ Hh n x Hx) as (k' & Hk' & Heq & Hname'). rewrite Hname in Hname'.
    apply cache_name_inj in Hname' as <-; [|done|done]. by rewrite Heq.
  - unfold m_cache_create. pose proof (pow2_pos k ltac:(lia)). pose proof (pow2_le_mono k 30 ltac:(lia)).
    rewrite (wrap_small 32 (2 ^ k)), bit_width_ceil_pow2, Z.shiftl_1_l by lia.
    destruct (new_cache_ok k Hk) as [Hok Hname].
    eexists _, _, (new_cache (cache_name (2 ^ k)) (2 ^ k)). split; [done|]. split_and!; try done.
    + apply heap_ok_new_cache; try done; [by rewrite Hname|]. by intros [].
    + simpl. by rewrite list_lookup_middle.
    + intros addr size. by eapply live_new_cache.
Qed.

(** The requests that [alloc] takes: a non-zero size, a power-of-two alignment,
    and together no more than the largest block. *)
Definition valid_request (size a : Z) : Prop :=
  0 < size /\ 0 <= a <= 30 /\ size + 2 ^ a - 1 <= MAX_ALLOC_SIZE.

Lemma valid_not_refused size a : valid_request size a -> alloc_refuses size (2 ^ a) = false.
Proof.
  unfold valid_request, MAX_ALLOC_SIZE, MAX_ORDER, PAGE_SIZE. change (Z.shiftl 1 18 * 4096) with (2 ^ 30).
  intros (Hs & Ha & Hm). pose proof (pow2_pos a ltac:(lia)). pose proof (pow2_le_mono a 30 ltac:(lia)).
  unfold alloc_refuses. change (Z.shiftl 1 MAX_ORDER * PAGE_SIZE) with (2 ^ 30).
  assert (Z.land (2 ^ a) (2 ^ a - 1) = 0) as ->.
  { apply land_pred_zero; [lia|]. by rewrite Z.log2_pow2 by lia. }
  unfold MAX_ALLOC_SIZE, MAX_ORDER, PAGE_SIZE. change (Z.shiftl 1 18 * 4096) with (2 ^ 30).
  rewrite (wrap_small 64 (2 ^ a)), (wrap_small 64 (2 ^ a - 1)), (wrap_small 64 (2 ^ 30 - _)) by lia.
  destruct (Z.eqb_spec size 0), (Z.ltb_spec (2 ^ 30 - (2 ^ a - 1)) size); try lia.
Qed.

(** Requests with a power-of-two alignment that are not valid are refused. *)
Lemma invalid_refused size a :
  0 <= size < 2 ^ 64 -> 0 <= a <= 30 -> ~ valid_request size a -> alloc_refuses size (2 ^ a) = true.
Proof.
  unfold valid_request, alloc_refuses, MAX_ALLOC_SIZE, MAX_ORDER, PAGE_SIZE. change (Z.shiftl 1 18 * 4096) with (2 ^ 30).
  intros Hs Ha Hv. pose proof (pow2_pos a ltac:(lia)). pose proof (pow2_le_mono a 30 ltac:(lia)).
  rewrite (wrap_small 64 (2 ^ a)), (wrap_small 64 (2 ^ a - 1)), (wrap_small 64 (2 ^ 30 - _)) by lia.
  destruct (Z.eqb_spec size 0); [done|]. destruct (Z.ltb_spec (2 ^ 30 - (2 ^ a - 1)) size); [by rewrite orb_true_r|].
  exfalso. apply Hv. lia.
Qed.

(** The same for the alignment itself. *)
Definition takes (size align : Z) : Prop := exists a, align = 2 ^ a /\ valid_request size a.

Lemma odd_alignment_refused size align : align <> 0 -> align <> 2 ^ Z.log2 align -> alloc_refuses size align = true.
Proof.
  intros H0 Hp. unfold alloc_refuses. destruct (Z.eqb_spec align 1) as [->|_]; [done|].
  destruct (Z.eqb_spec (Z.land align (align - 1)) 0) as [E|]; [|by rewrite orb_true_r]. exfalso.
  destruct (Z.lt_ge_cases align 0) as [Hn|Hn]; [|by apply land_pred_zero in E; [|lia]].
  assert (Z.land align (align - 1) < 0) by (apply Z.land_neg; lia). lia.
Qed.

Lemma takes_or_refused size align : 0 <= size < 2 ^ 64 -> - 2 ^ 31 < align < 2 ^ 31 -> align <> 0 ->
  takes size align \/ (~ takes size align /\ alloc_refuses size align = true).
Proof.
  intros Hs Hal H0. destruct (Z.eq_dec align (2 ^ Z.log2 align)) as [E|E].
  - pose proof (Z.log2_nonneg align) as Hl. assert (Z.log2 align <= 30) as Hl'.
    { destruct (Z.le_gt_cases align 0); [rewrite Z.log2_nonpos by lia; lia|]. assert (Z.log2 align < 31) by (apply Z.log2_lt_pow2; lia). lia. }
    assert (valid_request size (Z.log2 align) \/ ~ valid_request size (Z.log2 align)) as [Hv|Hv] by (unfold valid_request; lia); [left; by exists (Z.log2 align)|right].
    split; [|rewrite E; by apply invalid_refused]. intros (a & -> & Hv'). apply Hv. rewrite Z.log2_pow2 by (destruct Hv'; lia). done.
  - right. split; [|by apply odd_alignment_refused]. intros (a & -> & Hv'). apply E. rewrite Z.log2_pow2 by (destruct Hv'; lia). done.
Qed.

Lemma size_class_spec size a : valid_request size a ->
  exists k, a <= k <= 30 /\ size_class size (2 ^ a) = 2 ^ k /\ size + 2 ^ a - 1 <= 2 ^ k.
Proof.
  unfold valid_request, MAX_ALLOC_SIZE, MAX_ORDER, PAGE_SIZE. change (Z.shiftl 1 18 * 4096) with (2 ^ 30).
  intros (Hs & Ha & Hm). pose proof (pow2_pos a ltac:(lia)).
  destruct (bit_width_ceil_spec (size + 2 ^ a - 1) ltac:(lia)) as (H1 & H2 & H3).
  pose proof (H3 30 ltac:(lia) ltac:(lia)). exists (bit_width_ceil (size + 2 ^ a - 1)).
  pose proof (pow2_le_mono (bit_width_ceil (size + 2 ^ a - 1)) 30 ltac:(lia)).
  split_and!; [|lia| |done].
  - apply (Z.pow_le_mono_r_iff 2); lia.
  - unfold size_class. rewrite (wrap_small 64 (size + _ - 1)), (wrap_small 32) by lia.
    rewrite Z.shiftl_1_l. apply wrap_small. lia.
Qed.

Lemma order_of_class k : 0 <= k <= 30 -> order_of (2 ^ k) = Z.max 0 (k - 12).
Proof.
  intros Hk. pose proof (pow2_pos k ltac:(lia)). destruct (Z.le_gt_cases 12 k) as [H12|H12].
  - replace (2 ^ k) with (2 ^ (k - 12) * PAGE_SIZE).
    + rewrite order_of_pow2 by (unfold MAX_ORDER; lia). lia.
    + replace PAGE_SIZE with (2 ^ 12) by done. rewrite <- Z.pow_add_r by lia. f_equal. lia.
  - pose proof (pow2_le_mono k 12 ltac:(lia)). unfold order_of.
    rewrite pages_for_bytes_small by (unfold PAGE_SIZE; lia). unfold PAGE_SIZE.
    replace ((2 ^ k + 4096 - 1) / 4096) with 1 by (apply Z.div_unique with (2 ^ k - 1); lia).
    replace (Z.max 0 (k - 12)) with 0 by lia. done.
Qed.

(** ** The heap of the kernel *)

(** The heap invariant as clients see it.  [align_up] is a 32-bit function, so
    the table of moved addresses stays empty only below 4 GiB. *)
Record slab_inv (h : Heap) : Prop := {
  inv_heap : exists own, heap_ok own None h;
  inv_table : aligned_to_raw_addr_map h = ∅;
  inv_4gib : lenz (pages (memory_manager h)) * PAGE_SIZE <= 2 ^ 32;
}.

Lemma align_up_id addr a k :
  0 <= a <= k -> k <= 30 -> 0 < addr -> addr mod 2 ^ k = 0 -> addr + 2 ^ k <= 2 ^ 32 ->
  align_up (u32 addr) (u32 (2 ^ a)) = addr.
Proof.
  intros Ha Hk H0 Hmod Hend. pose proof (pow2_pos a ltac:(lia)). pose proof (pow2_le_mono a k ltac:(lia)).
  pose proof (pow2_pos k ltac:(lia)). rewrite !wrap_small by lia.
  rewrite align_up_pow2 by lia. apply (mod_pow2_weaken addr a k) in Hmod; [|lia].
  rewrite Z.mod_opp_l_z by lia. lia.
Qed.

Lemma alloc_spec h size flags a :
  slab_inv h -> valid_request size a ->
  exists addr zeroed h', alloc size flags (2 ^ a) h = Some (addr, zeroed, h') /\ slab_inv h' /\
    lenz (pages (memory_manager h')) = lenz (pages (memory_manager h)) /\
    ((exists n, 0 < addr /\ addr mod 2 ^ a = 0 /\ size <= n /\
       addr + n <= lenz (pages (memory_manager h)) * PAGE_SIZE /\
       zeroed = (if negb (Z.land flags ALLOC_ZEROED =? 0) then n else 0) /\
       (forall m, ~ live h addr m) /\
       forall x m, live h' x m <-> (x = addr /\ m = n) \/ live h x m) \/
     (addr = 0 /\ zeroed = 0 /\ (forall x m, live h' x m <-> live h x m) /\
      forall o, order_of (size_class size (2 ^ a)) <= o <= MAX_ORDER ->
        atz (free_lists_ (memory_manager h)) o = Some [])).
Proof.
  intros [[own Hh] Htab H4] Hv. pose proof Hv as (Hs & Ha & _).
  destruct (size_class_spec size a Hv) as (k & Hk & Hcls & Hle). pose proof (pow2_pos a ltac:(lia)).
  unfold alloc. rewrite (valid_not_refused size a Hv), Hcls.
  destruct (cache_for_spec own h k Hh ltac:(lia)) as (c & h1 & cache & -> & Hh1 & Hc & Hos & Hmm & Htab1 & Hlive).
  destruct (cache_alloc_spec own h1 c cache Hh1 Hc) as [(own' & h' & addr & -> & Hh' & Hal)|[-> Hex]];
    cbn [mbind option_bind].
  - rewrite Hos in Hal. pose proof Hal as [Hpos Hmod Hend Hnew Hliv Hnp _ Htab2]. rewrite Hmm in *.
    destruct (Z.eqb_spec addr 0) as [|_]; [lia|].
    assert ((if 2 ^ a =? 1 then addr else align_up (u32 addr) (u32 (2 ^ a))) = addr) as ->.
    { destruct (2 ^ a =? 1); [done|]. apply (align_up_id addr a k); lia. }
    rewrite Z.eqb_refl. eexists addr, _, h'. split; [done|]. split.
    { split; [by exists own'|by rewrite Htab2, Htab1|by rewrite Hnp]. }
    split; [done|]. left. exists (2 ^ k). split_and!; try done; try lia.
    + eapply mod_pow2_weaken; [|done]. lia.
    + intros m. rewrite <- Hlive. apply Hnew.
    + intros x m. by rewrite Hliv, Hlive.
  - exists 0, 0, h1. split; [done|]. rewrite Hmm. split; [split; [by exists own|by rewrite Htab1|by rewrite Hmm]|].
    split; [done|]. right. split_and!; try done. intros o Ho. rewrite <- Hmm. apply Hex.
    pose proof (ho_cache _ _ _ Hh1 c cache Hc) as Hcok.
    destruct (cache_geometry cache Hcok) as (k' & Hk' & Hos' & Hnp & _ & _).
    assert (k' = k) as -> by (apply (Z.pow_inj_r 2); lia). unfold slab_bytes. rewrite Hnp.
    rewrite order_of_pow2 by (unfold MAX_ORDER; lia). by rewrite order_of_class in Ho by lia.
Qed.

(** ** Returning an object *)

Lemma heap_ok_strengthen own h s c slab cache :
  heap_ok own (Some s) h -> has_slab own h s c slab cache -> status_ok slab -> heap_ok own None h.
Proof.
  intros Hh (Hs & _) Hst. destruct Hh as [? ? ? ? Hslab ? ? ? ? ?]. split; try done.
  intros x sx Hx. destruct (Hslab x sx Hx) as (d & y & ? & ? & ? & Hsx). exists d, y. split_and!; try done.
  intros _. destruct (decide (x = s)) as [->|Hne]; [congruence|]. apply Hsx. congruence.
Qed.

Lemma obj_live_put n cache slab i o num fr addr :
  cache_ok cache -> slab_ok n cache slab -> atz (objects_ slab) i = Some o ->
  obj_live cache (slab_upd slab i (set_in_use false o) num fr) addr <->
  addr <> base_addr_ slab + i * object_size_ cache /\ obj_live cache slab addr.
Proof.
  intros Hc%object_size_pos Hs Ho. pose proof (atz_Some_lt _ _ _ Ho) as Hi. unfold obj_live, slab_upd. simpl. split.
  - intros (j & q & -> & Hq & Hqu). destruct (Z.eq_dec i j) as [->|Hne].
    + rewrite atz_setz_eq in Hq by done. by injection Hq as <-.
    + rewrite atz_setz_ne in Hq by lia. split; [nia|eauto].
  - intros (Hne & j & q & -> & Hq & Hqu). exists j, q. split_and!; try done.
    rewrite atz_setz_ne; [done|lia|]. intros ->. done.
Qed.

(** The lists after an object came back: a full slab becomes partial, an empty
    one free. *)
Lemma settle_freed own h c s slab cache :
  heap_ok own (Some s) h -> has_slab own h s c slab cache -> slab_status_ slab <> FREE ->
  num_in_use_ slab < lenz (objects_ slab) ->
  exists h' slab', (h1 ← (if decide (slab_status_ slab = FULL) then move_list c s PARTIAL h else Some h);
      if is_empty slab then move_list c s FREE h1 else Some h1) = Some h' /\
    heap_ok own None h' /\ slabs h' = <[s := slab']> (slabs h) /\ objects_ slab' = objects_ slab /\
    base_addr_ slab' = base_addr_ slab /\ memory_manager h' = memory_manager h /\
    geo <$> cache_chain h' = geo <$> cache_chain h /\ aligned_to_raw_addr_map h' = aligned_to_raw_addr_map h.
Proof.
  intros Hh Hhas Hnf Hlt. destruct (has_slab_ok _ _ _ _ _ _ _ Hh Hhas) as (Hc & Hsok & _).
  pose proof (slab_free_length _ _ _ Hsok) as Hfl. pose proof (sk_count _ _ _ Hsok) as Hcnt.
  destruct (move_list_spec own (Some s) (Some s) h s c slab cache PARTIAL Hh Hhas) as
    (h1 & cache1 & E1 & Hh1 & Hhas1 & _ & Hmm1 & Hsl1 & Hgeo1 & Hal1 & _); [by right|done|].
  assert ((if decide (slab_status_ slab = FULL) then move_list c s PARTIAL h else Some h) = Some h1) as ->.
  { destruct (decide (slab_status_ slab = FULL)); [done|]. rewrite <- E1. unfold move_list.
    destruct Hhas as (-> & _). cbn. destruct (slab_status_ slab); [done..|done]. }
  cbn [mbind option_bind]. unfold is_empty. destruct (Z.eqb_spec (num_in_use_ slab) 0) as [He|He].
  - destruct (move_list_spec own (Some s) None h1 s c (set_status PARTIAL slab) cache1 FREE Hh1 Hhas1) as
      (h2 & cache2 & E2 & Hh2 & _ & _ & Hmm2 & Hsl2 & Hgeo2 & Hal2 & _); [by right|done|].
    exists h2, (set_status FREE slab). split_and!; try done; try congruence.
    rewrite Hsl2, Hsl1. apply list_insert_insert_eq.
  - exists h1, (set_status PARTIAL slab). split_and!; try done.
    eapply heap_ok_strengthen; [done|done|]. unfold status_ok. simpl. lia.
Qed.

Lemma free_raw_live own h addr size :
  heap_ok own None h -> live h addr size ->
  exists h', free_raw addr h = Some h' /\ heap_ok own None h' /\
    memory_manager h' = memory_manager h /\ aligned_to_raw_addr_map h' = aligned_to_raw_addr_map h /\
    forall x m, live h' x m <-> x <> addr /\ live h x m.
Proof.
  intros Hh Hl. apply (live_iff own None h) in Hl as (s & c & slab & cache & Hhas & -> & Hl); [|done].
  destruct (has_slab_ok _ _ _ _ _ _ _ Hh Hhas) as (Hc & Hsok & Hst). specialize (Hst ltac:(done)).
  destruct (obj_live_in_slab _ _ _ _ Hc Hsok Hl) as [Hin _]. pose proof Hl as (i & o & -> & Hobj & Hu).
  unfold free_raw. rewrite (owner_of_slab own None h s c slab cache) by done. cbn [mbind option_bind].
  pose proof Hhas as (Hs & Ho & Hch). rewrite Hch. cbn [mbind option_bind]. rewrite Hs. cbn [mbind option_bind].
  destruct (free_object_live _ cache slab i o Hc (ho_size _ _ _ Hh) Hsok Hobj Hu) as (-> & Hok' & Hpos).
  cbn [mbind option_bind negb]. set (slab' := slab_upd _ _ _ _ _) in *.
  assert (heap_ok own (Some s) (set_slab_at s slab' h)) as Hh1
    by (apply (heap_ok_set_slab own None (Some s) h s c slab slab' cache); try done; by left).
  pose proof (slab_free_length _ _ _ Hsok). pose proof (sk_count _ _ _ Hsok).
  destruct (settle_freed own (set_slab_at s slab' h) c s slab' cache Hh1) as
    (h' & slab'' & -> & Hh' & Hsl & Hobjs & Hbase & Hmm & Hgeo & Hal).
  - by eapply has_slab_set.
  - change (slab_status_ slab <> FREE). intros Hf. unfold status_ok in Hst. rewrite Hf in Hst. lia.
  - unfold slab', slab_upd. cbn [num_in_use_ objects_]. rewrite lenz_setz. lia.
  - exists h'. split_and!; try done. intros x m.
    assert (slabs h' = <[s := slab'']> (slabs h)) as Hsl' by (rewrite Hsl; apply list_insert_insert_eq).
    rewrite (live_upd own None None h h' s c slab slab'' cache) by done.
    assert (obj_live cache slab'' x <-> obj_live cache slab' x) as -> by (unfold obj_live; by rewrite Hobjs, Hbase).
    rewrite (live_split own None h s c slab cache) by done. unfold slab'.
    rewrite (obj_live_put _ cache slab i o) by done. split; [|naive_solver].
    intros [He|(-> & Hne & Hx)]; [|naive_solver]. split; [|by left].
    intros ->. by apply (not_elsewhere own None h s c slab cache _ m Hh Hhas Hin).
Qed.

Lemma free_raw_dead own h addr :
  heap_ok own None h -> 0 <= addr -> (forall n, ~ live h addr n) -> free_raw addr h = Some h.
Proof.
  intros Hh H0 Hdead. unfold free_raw.
  destruct (owner_of_total own None h addr Hh H0) as [->|(c & s & slab & cache & E & Hhas & Hin)]; [done|].
  rewrite E. cbn [mbind option_bind]. pose proof Hhas as (Hs & Ho & Hch). rewrite Hch. cbn [mbind option_bind].
  rewrite Hs. cbn [mbind option_bind]. destruct (has_slab_ok _ _ _ _ _ _ _ Hh Hhas) as (Hc & Hsok & _).
  rewrite (free_object_dead _ cache slab addr Hc (ho_size _ _ _ Hh) Hsok Hin); [done|].
  intros Hl. apply (Hdead (object_size_ cache)). apply (live_iff own None h); [done|]. by exists s, c, slab, cache.
Qed.

(** ** Live objects do not overlap *)

Definition apart (a n b k : Z) : Prop := a + n <= b \/ b + k <= a.

Lemma slabs_apart own h s c slab cache s' c' slab' cache' :
  heap_ok own None h -> has_slab own h s c slab cache -> has_slab own h s' c' slab' cache' -> s <> s' ->
  base_addr_ slab <= base_addr_ slab' -> base_addr_ slab + slab_bytes cache <= base_addr_ slab'.
Proof.
  intros Hh H1 H2 Hne Hle. destruct (has_slab_ok _ _ _ _ _ _ _ Hh H2) as (Hc2 & Hs2 & _).
  pose proof (slab_bytes_pos _ Hc2). destruct (Z.le_gt_cases (base_addr_ slab + slab_bytes cache) (base_addr_ slab')); [done|].
  assert (owner_of (base_addr_ slab') h = Some (Some (c, s))) by (eapply owner_of_slab; [done|done|unfold in_slab; lia]).
  assert (owner_of (base_addr_ slab') h = Some (Some (c', s'))) by (eapply owner_of_slab; [done|done|unfold in_slab; lia]).
  congruence.
Qed.

Lemma live_apart own h a n b k :
  heap_ok own None h -> live h a n -> live h b k -> a <> b -> apart a n b k.
Proof.
  intros Hh Ha Hb Hne. apply (live_iff own None h) in Ha as (s & c & slab & cache & H1 & -> & Hl1); [|done].
  apply (live_iff own None h) in Hb as (s' & c' & slab' & cache' & H2 & -> & Hl2); [|done].
  destruct (has_slab_ok _ _ _ _ _ _ _ Hh H1) as (Hc1 & Hs1 & _), (has_slab_ok _ _ _ _ _ _ _ Hh H2) as (Hc2 & Hs2 & _).
  destruct (obj_live_in_slab _ _ _ _ Hc1 Hs1 Hl1) as [[? ?] ?], (obj_live_in_slab _ _ _ _ Hc2 Hs2 Hl2) as [[? ?] ?].
  unfold apart. destruct (decide (s = s')) as [->|Hss].
  - destruct H1 as (? & ? & ?), H2 as (? & ? & ?). simplify_eq. pose proof (object_size_pos _ Hc1).
    destruct Hl1 as (i & _ & -> & _), Hl2 as (j & _ & -> & _).
    destruct (Z.lt_trichotomy i j) as [|[->|]]; [left; nia|done|right; nia].
  - destruct (Z.le_ge_cases (base_addr_ slab) (base_addr_ slab')).
    + pose proof (slabs_apart _ _ _ _ _ _ _ _ _ _ Hh H1 H2 Hss ltac:(lia)). lia.
    + pose proof (slabs_apart _ _ _ _ _ _ _ _ _ _ Hh H2 H1 (not_eq_sym Hss) ltac:(lia)). lia.
Qed.

Lemma kfree_spec h addr :
  slab_inv h -> 0 <= addr ->
  exists h', kfree addr h = Some h' /\ slab_inv h' /\
    lenz (pages (memory_manager h')) = lenz (pages (memory_manager h)) /\
    ((forall n, ~ live h addr n) -> h' = h) /\ forall x m, live h' x m <-> x <> addr /\ live h x m.
Proof.
  intros [[own Hh] Htab H4] H0.
  assert (set_aligned (delete addr (aligned_to_raw_addr_map h)) h = h) as Hid
    by (rewrite Htab, delete_empty; destruct h; simpl in *; by subst).
  unfold kfree, raw_of_aligned. rewrite Hid, Htab, lookup_empty.
  assert ((forall n, ~ live h addr n) \/ exists n, live h addr n) as [Hdead|[n Hl]].
  { destruct (owner_of_total own None h addr Hh H0) as [E|(c & s & slab & cache & E & Hhas & Hin)].
    - left. intros n (? & ? & ? & ? & E' & _). congruence.
    - destruct (has_slab_ok _ _ _ _ _ _ _ Hh Hhas) as (Hc & Hsok & _).
      destruct (is_object_in_use_spec _ _ _ _ Hc (ho_size _ _ _ Hh) Hsok Hin) as ([] & _ & Hb).
      + right. exists (object_size_ cache). apply (live_iff own None h); [done|]. exists s, c, slab, cache. naive_solver.
      + left. intros n (c' & s' & cache' & slab' & E' & Hc' & Hs' & _ & Hl). destruct Hhas as (? & ? & ?).
        rewrite E in E'. simplify_eq. naive_solver. }
  - destruct (addr =? 0); rewrite ?(free_raw_dead own h addr) by done; exists h;
      (split_and!; [done|split; [by exists own|done|done]|done|done|]); intros x m;
      (split; [|by intros [_ ?]]); intros Hx; (split; [|done]); intros ->; by eapply Hdead.
  - destruct (Z.eqb_spec addr 0) as [->|_].
    { exfalso. destruct Hl as (? & ? & ? & ? & E & _). done. }
    destruct (free_raw_live own h addr n Hh Hl) as (h' & -> & Hh' & Hmm & Htab' & Hlive).
    exists h'. split_and!; try done; [|by rewrite Hmm|].
    + split; [by exists own|by rewrite Htab'|by rewrite Hmm].
    + intros Hdead. by apply Hdead in Hl.
Qed.

Lemma in_use_spec h addr :
  slab_inv h -> 0 <= addr ->
  exists b, is_slab_object_in_use addr h = Some b /\ (b = true <-> exists n, live h addr n).
Proof.
  intros [[own Hh] Htab H4] H0. unfold is_slab_object_in_use, raw_of_aligned. rewrite Htab, lookup_empty.
  destruct (Z.eqb_spec addr 0) as [->|_].
  { exists false. split; [done|]. split; [done|]. intros (n & ? & ? & ? & ? & E & _). done. }
  destruct (owner_of_total own None h addr Hh H0) as [E|(c & s & slab & cache & E & Hhas & Hin)]; rewrite E.
  - exists false. split; [done|]. split; [done|]. intros (n & ? & ? & ? & ? & E' & _). congruence.
  - destruct (has_slab_ok _ _ _ _ _ _ _ Hh Hhas) as (Hc & Hsok & _).
    destruct (is_object_in_use_spec _ _ _ _ Hc (ho_size _ _ _ Hh) Hsok Hin) as (b & Eb & Hb).
    pose proof Hhas as (Hs & Ho & Hch). cbn [mbind option_bind]. rewrite Hch. cbn [mbind option_bind].
    rewrite Hs. cbn [mbind option_bind]. exists b. split; [done|]. rewrite Hb. split.
    + intros Hl. exists (object_size_ cache). apply (live_iff own None h); [done|]. by exists s, c, slab, cache.
    + intros (n & c' & s' & cache' & slab' & E' & Hc' & Hs' & _ & Hl). rewrite E in E'. by simplify_eq.
Qed.

(** ** Clients of the heap *)

(** A step of a client: [m] has the blocks it holds, by address, with the sizes
    it asked for.  It may free any address. *)
Inductive heap_step : Heap * gmap Z Z -> Heap * gmap Z Z -> Prop :=
| step_alloc h m size flags a addr zeroed h' :
    0 <= size < 2 ^ 64 -> 0 <= a <= 30 ->
    alloc size flags (2 ^ a) h = Some (addr, zeroed, h') ->
    heap_step (h, m) (h', if addr =? 0 then m else <[addr := size]> m)
| step_free h m addr h' :
    0 <= addr -> kfree addr h = Some h' -> heap_step (h, m) (h', delete addr m).

(** The blocks the client holds are the live objects. *)
Record client_ok (h : Heap) (m : gmap Z Z) : Prop := {
  ck_inv : slab_inv h;
  ck_held : forall a k, m !! a = Some k -> exists n, live h a n /\ k <= n;
  ck_live : forall a n, live h a n -> is_Some (m !! a);
}.

Lemma alloc_total h size flags a :
  slab_inv h -> 0 <= size < 2 ^ 64 -> 0 <= a <= 30 ->
  valid_request size a \/ alloc size flags (2 ^ a) h = Some (0, 0, h).
Proof.
  intros Hinv Hs Ha. assert (valid_request size a \/ ~ valid_request size a) as [Hv|Hv]
    by (unfold valid_request; lia); [by left|right].
  unfold alloc. by rewrite invalid_refused.
Qed.

Lemma client_step_ok h m h' m' : client_ok h m -> heap_step (h, m) (h', m') -> client_ok h' m'.
Proof.
  intros [Hinv Hheld Hlive] Hstep. inversion Hstep as [? ? size flags a addr z ? Hs Ha E|? ? addr ? H0 E]; subst.
  - destruct (alloc_total h size flags a Hinv Hs Ha) as [Hv|E'].
    + destruct (alloc_spec h size flags a Hinv Hv) as (addr' & z' & h1 & E' & Hinv' & _ & Hcase).
      rewrite E in E'. injection E' as <- <- <-. destruct Hcase as [(n & Hpos & _ & Hn & _ & _ & Hnew & Hl)|(-> & _ & Hl & _)].
      * destruct (Z.eqb_spec addr 0); [lia|]. split; [done| |].
        -- intros x k. destruct (decide (x = addr)) as [->|Hne].
           ++ rewrite lookup_insert_eq. intros [= <-]. exists n. split; [|done]. apply Hl. by left.
           ++ rewrite lookup_insert_ne by done. intros (n' & ? & ?)%Hheld. exists n'. split; [|done]. apply Hl. by right.
        -- intros x k [[-> _]|Hx]%Hl; [rewrite lookup_insert_eq; eauto|].
           destruct (decide (x = addr)) as [->|]; [rewrite lookup_insert_eq; eauto|]. rewrite lookup_insert_ne by done. eauto.
      * simpl. split; [done| |].
        -- intros x k (n & ? & ?)%Hheld. exists n. by rewrite Hl.
        -- intros x k. rewrite Hl. apply Hlive.
    + rewrite E in E'. by injection E' as -> -> ->.
  - destruct (kfree_spec h addr Hinv H0) as (h1 & E' & Hinv' & _ & _ & Hl). rewrite E in E'. injection E' as <-.
    split; [done| |].
    + intros x k. destruct (decide (x = addr)) as [->|Hne]; [by rewrite lookup_delete_eq|].
      rewrite lookup_delete_ne by done. intros (n & ? & ?)%Hheld. exists n. by rewrite Hl.
    + intros x k [Hne Hx]%Hl. rewrite lookup_delete_ne by done. eauto.
Qed.

(** Pages that no slab owns yet. *)
Definition unowned (ps : list Page) : Prop := forall k p, atz ps k = Some p -> slab_ p = None.

Lemma initial_client_ok mm :
  wf mm -> unowned (pages mm) -> lenz (pages mm) * PAGE_SIZE <= 2 ^ 32 ->
  client_ok (initialize_slab_allocator mm) ∅.
Proof.
  intros Hwf Hun H4. assert (heap_ok [] None (initialize_slab_allocator mm)) as Hh.
  { split; simpl; try done.
    - unfold PAGE_SIZE in *. lia.
    - intros k p s Hp. split; [by rewrite (Hun k p Hp)|by intros (? & ? & ? & ? & _)].
    - intros k p s Hp. by rewrite (Hun k p Hp).
    - apply NoDup_nil_2. }
  split; [split; [by exists []|done|done]|by intros ? ? ?%lookup_empty_Some|].
  intros a n (s & c & slab & cache & (Hs & _) & _)%(live_iff [] None); done.
Qed.

Lemma client_trace_ok h m h' m' : client_ok h m -> rtc heap_step (h, m) (h', m') -> client_ok h' m'.
Proof.
  intros Hok Hrtc. remember (h, m) as x eqn:Ex. remember (h', m') as y eqn:Ey. revert h m Ex Hok.
  induction Hrtc as [x|x [h1 m1] y Hstep Hrtc IH]; intros h m -> Hok.
  - by injection Ey as -> ->.
  - eapply IH; [done|done|]. by eapply client_step_ok.
Qed.

(** C10: [alloc] on a machine of at most 4 GiB, for every size and every alignment
    that an [int] holds but 0 and the least one: it never faults and keeps the heap
    invariant.  It returns null and changes no object when the size is 0, the
    alignment no power of two or the two together exceed the largest block, or when
    no block of the buddy allocator can back a slab; otherwise the result is a new
    live object, aligned as requested, of at least the requested size, inside
    physical memory and apart from every other live object, of which [ALLOC_ZEROED]
    clears exactly the whole object. *)
Theorem alloc_correct h size flags align :
  slab_inv h -> 0 <= size < 2 ^ 64 -> - 2 ^ 31 < align < 2 ^ 31 -> align <> 0 ->
  exists addr zeroed h', alloc size flags align h = Some (addr, zeroed, h') /\ slab_inv h' /\
    ((exists n, takes size align /\ 0 < addr /\ addr mod align = 0 /\ size <= n /\
       addr + n <= lenz (pages (memory_manager h)) * PAGE_SIZE /\
       zeroed = (if negb (Z.land flags ALLOC_ZEROED =? 0) then n else 0) /\
       (forall x m, live h x m -> apart addr n x m) /\
       forall x m, live h' x m <-> (x = addr /\ m = n) \/ live h x m) \/
     (addr = 0 /\ zeroed = 0 /\ (forall x m, live h' x m <-> live h x m) /\
      (~ takes size align \/
       forall o, order_of (size_class size align) <= o <= MAX_ORDER ->
         atz (free_lists_ (memory_manager h)) o = Some []))).
Proof.
  intros Hinv Hs Hal H0. destruct (takes_or_refused size align Hs Hal H0) as [(a & -> & Hv)|[Hno Href]].
  - destruct (alloc_spec h size flags a Hinv Hv) as (addr & z & h' & E & Hinv' & Hnp & Hcase).
    exists addr, z, h'. split_and!; try done.
    destruct Hcase as [(n & Hpos & Hmod & Hn & Hend & Hz & Hnew & Hl)|(-> & -> & Hl & Hex)]; [left|right; eauto 10].
    exists n. split_and!; try done; [by exists a|]. intros x m Hx. destruct (inv_heap _ Hinv') as [own Hh'].
    apply (live_apart own h'); [done|apply Hl; by left|apply Hl; by right|]. intros <-. by eapply Hnew.
  - exists 0, 0, h. unfold alloc. rewrite Href. split_and!; try done. right. eauto 10.
Qed.

(** C22: [free] on every address: it never faults and keeps the heap invariant; a
    live object at the address, and nothing else, stops being live; for any
    other address (a double free, a pointer into an object, memory that is not
    the heap's) the heap does not change at all. *)
Theorem kfree_correct h addr :
  slab_inv h -> 0 <= addr ->
  exists h', kfree addr h = Some h' /\ slab_inv h' /\
    ((forall n, ~ live h addr n) -> h' = h) /\ forall x m, live h' x m <-> x <> addr /\ live h x m.
Proof.
  intros Hinv H0. destruct (kfree_spec h addr Hinv H0) as (h' & ? & ? & _ & ? & ?). eauto.
Qed.

(** Over every sequence of [alloc] and [free] calls, from the freshly
    initialised allocator, the blocks the client holds are pairwise disjoint
    and [is_slab_object_in_use] answers exactly whether the client holds the
    block. *)
Theorem heap_trace_safe mm h m :
  wf mm -> unowned (pages mm) -> lenz (pages mm) * PAGE_SIZE <= 2 ^ 32 ->
  rtc heap_step (initialize_slab_allocator mm, ∅) (h, m) ->
  (forall a n b k, m !! a = Some n -> m !! b = Some k -> a <> b -> apart a n b k) /\
  (forall a, 0 <= a -> is_slab_object_in_use a h = Some (bool_decide (is_Some (m !! a)))).
Proof.
  intros Hwf Hun H4 Hrtc. pose proof (client_trace_ok _ _ _ _ (initial_client_ok mm Hwf Hun H4) Hrtc) as [Hinv Hheld Hlive].
  split.
  - intros a n b k Ha Hb Hne. destruct (Hheld a n Ha) as (n' & Hla & Hn), (Hheld b k Hb) as (k' & Hlb & Hk).
    destruct (inv_heap _ Hinv) as [own Hh]. pose proof (live_apart own h a n' b k' Hh Hla Hlb Hne). unfold apart in *. lia.
  - intros a H0. destruct (in_use_spec h a Hinv H0) as (b & -> & Hb). f_equal.
    case_bool_decide as Hd.
    + apply Hb. destruct Hd as [k Hk]. destruct (Hheld a k Hk) as (n & Hn & _). eauto.
    + destruct b; [|done]. exfalso. apply Hd. destruct (proj1 Hb eq_refl) as [n Hn]. eauto.
Qed.

(** Above 4 GiB the alignment step loses the object: [align_up] is computed on
    32 bits, and the address returned is below 4 GiB whenever the object is
    not. *)
Theorem alloc_truncates_above_4gib h size flags align c h1 addr h2 :
  alloc_refuses size align = false -> align <> 1 ->
  cache_for (size_class size align) h = (c, h1) -> cache_alloc c h1 = Some (addr, h2) ->
  2 ^ 32 <= addr ->
  exists addr' zeroed h', alloc size flags align h = Some (addr', zeroed, h') /\ addr' < 2 ^ 32 /\ addr' <> addr.
Proof.
  intros Hr Ha Hc Hal H32. unfold alloc. rewrite Hr, Hc, Hal. cbn [mbind option_bind].
  destruct (Z.eqb_spec addr 0) as [|_]; [lia|]. destruct (Z.eqb_spec align 1) as [|_]; [done|].
  assert (align_up (u32 addr) (u32 align) < 2 ^ 32) as Hlt.
  { unfold align_up. set (v := u32 (u32 addr + u32 align - 1)).
    pose proof (wrap_range 32 (u32 addr + u32 align - 1) ltac:(lia)) as Hv. fold v in Hv.
    set (w := wnot 32 _). assert (0 <= w) as Hw
      by (unfold w, wnot; pose proof (wrap_range 32 (u32 (u32 align - 1)) ltac:(lia)); lia).
    destruct (Z.eq_dec v 0) as [->|]; [by rewrite Z.land_0_l|]. pose proof (Z.log2_nonneg w).
    destruct (Z.le_gt_cases (Z.land v w) 0); [lia|]. apply Z.log2_lt_pow2; [done|].
    eapply Z.le_lt_trans; [apply Z.log2_land; lia|]. assert (Z.log2 v < 32) by (apply Z.log2_lt_pow2; lia). lia. }
  eexists _, _, _. split; [done|]. lia.
Qed.

(** An alignment of 0 passes the tests: the object is taken, null is returned, and
    [ALLOC_ZEROED] clears memory from address 0 on. *)
Theorem zero_alignment_loses_object h size flags c h1 addr h2 : 0 < size <= MAX_ALLOC_SIZE ->
  cache_for (size_class size 0) h = (c, h1) -> cache_alloc c h1 = Some (addr, h2) -> addr <> 0 ->
  alloc size flags 0 h = Some (0, if negb (Z.land flags ALLOC_ZEROED =? 0) then size_class size 0 else 0,
    set_aligned (<[0 := addr]> (aligned_to_raw_addr_map h2)) h2).
Proof.
  intros Hs Hc Hal H0. unfold alloc. assert (alloc_refuses size 0 = false) as ->.
  { unfold alloc_refuses. unfold MAX_ALLOC_SIZE in *. change (u64 (Z.shiftl 1 MAX_ORDER * PAGE_SIZE - u64 (u64 0 - 1))) with (2 ^ 30 + 1).
    change (Z.shiftl 1 MAX_ORDER * PAGE_SIZE) with (2 ^ 30) in Hs.
    destruct (Z.eqb_spec size 0), (Z.ltb_spec (2 ^ 30 + 1) size); try lia. done. }
  rewrite Hc, Hal. cbn [mbind option_bind]. destruct (Z.eqb_spec addr 0); [done|]. change (0 =? 1) with false. cbv iota.
  assert (align_up (u32 addr) (u32 0) = 0) as ->; [unfold align_up; apply Z.land_0_r|]. by destruct (Z.eqb_spec 0 addr).
Qed.

(** * The slab heap on a concrete machine

    Instances of the heap theorems on the 32-page machine of [BuddyCheck]. *)

Definition heap0 : Heap := initialize_slab_allocator demo.

Lemma demo_unowned : unowned (pages demo).
Proof.
  assert (forallb (fun p => bool_decide (slab_ p = None)) (pages demo) = true) as H by (vm_compute; done).
  intros k p Hp. rewrite forallb_forall in H. apply (bool_decide_eq_true_1 _). apply H.
  apply list_elem_of_In. apply atz_Some in Hp as [_ Hp]. by eapply list_elem_of_lookup_2.
Qed.

Lemma heap0_inv : slab_inv heap0.
Proof.
  apply (ck_inv heap0 ∅). apply initial_client_ok; [apply demo_wf|apply demo_unowned|]. vm_compute. done.
Qed.

(** 100 bytes aligned to 16 come from the 128-byte cache, cleared whole. *)
Lemma alloc_correct_witness :
  exists h', alloc 100 ALLOC_ZEROED (2 ^ 4) heap0 = Some (3 * PAGE_SIZE, 128, h') /\ slab_inv h'.
Proof.
  destruct (alloc_correct heap0 100 ALLOC_ZEROED (2 ^ 4) heap0_inv) as (addr & z & h' & E & Hinv & _); [lia|lia|lia|].
  exists h'. split; [|done].
  assert (fst <$> alloc 100 ALLOC_ZEROED (2 ^ 4) heap0 = Some (3 * PAGE_SIZE, 128)) as Hc by (vm_compute; done).
  rewrite E in Hc. cbn [fmap option_fmap option_map fst] in Hc. injection Hc as <- <-. exact E.
Defined.

Definition heap1 : Heap := Eval vm_compute in
  match alloc 100 ALLOC_ZEROED (2 ^ 4) heap0 with Some (_, h) => h | None => heap0 end.

Lemma heap1_step : alloc 100 ALLOC_ZEROED (2 ^ 4) heap0 = Some (3 * PAGE_SIZE, 128, heap1).
Proof. vm_compute. reflexivity. Qed.

Lemma heap1_trace : rtc heap_step (initialize_slab_allocator demo, ∅) (heap1, {[3 * PAGE_SIZE := 100]}).
Proof.
  eapply rtc_once. by apply (step_alloc heap0 ∅ 100 ALLOC_ZEROED 4 (3 * PAGE_SIZE) 128 heap1 ltac:(lia) ltac:(lia) heap1_step).
Qed.

Lemma heap1_inv : slab_inv heap1.
Proof.
  apply (ck_inv heap1 {[3 * PAGE_SIZE := 100]}). eapply client_trace_ok; [|apply heap1_trace].
  apply initial_client_ok; [apply demo_wf|apply demo_unowned|]. vm_compute. done.
Qed.

(** Freeing inside the object changes nothing. *)
Lemma kfree_correct_witness : exists h', kfree (3 * PAGE_SIZE + 8) heap1 = Some h' /\ slab_inv h'.
Proof.
  destruct (kfree_correct heap1 (3 * PAGE_SIZE + 8) heap1_inv) as (h' & E & Hinv & _); [unfold PAGE_SIZE; lia|].
  by exists h'.
Defined.

Lemma heap_trace_safe_witness :
  is_slab_object_in_use (3 * PAGE_SIZE) heap1 = Some true.
Proof.
  destruct (heap_trace_safe demo heap1 {[3 * PAGE_SIZE := 100]} demo_wf demo_unowned) as [_ H].
  - vm_compute. done.
  - apply heap1_trace.
  - rewrite H by (vm_compute; done). by rewrite lookup_singleton_eq.
Defined.

(** A heap whose only slab starts at 4 GiB. *)
Definition high_heap : Heap :=
  mkHeap demo [mkCache "cache-64" 64 1 [] [0%nat] []] [set_status PARTIAL (new_slab (2 ^ 32) 64 FREE)] ∅.

Lemma alloc_truncates_above_4gib_witness :
  exists addr' zeroed h', alloc 40 0 16 high_heap = Some (addr', zeroed, h') /\ addr' < 2 ^ 32 /\ addr' <> 2 ^ 32.
Proof.
  destruct (cache_alloc 0 high_heap) as [[addr h2]|] eqn:E; [|by vm_compute in E].
  assert (addr = 2 ^ 32) as ->.
  { assert (fst <$> cache_alloc 0 high_heap = Some (2 ^ 32)) as Hc by (vm_compute; done). rewrite E in Hc.
    by injection Hc as ->. }
  apply (alloc_truncates_above_4gib high_heap 40 0 16 0%nat high_heap (2 ^ 32) h2); [done|done|done|done|done].
Defined.
