(* ===== verification/MemoryInit.v ===== *)
(** * Bringing up the allocators

    [initialize_heap], [initialize_pages] and [initialize_allocators] of
    [kernel/memory/bootstrap_allocator.cpp] and [page.cpp]: the hand-over of
    physical memory from the UEFI map through the bootstrap bitmap and the page
    metadata to the buddy allocator and the slab heap. *)

From S2P Require Import Prelude BitUtils Pages Bootstrap Buddy BuddyLemmas BuddyProofs BuddyInit.
From S2P Require Import Slab SlabProofs SlabSpec.

Open Scope Z_scope.

(** ** Definitions *)

Definition HEAP_PAGES : Z := 64 * 512.

(** [program_break] and [program_break_end], when the heap could be reserved. *)
Definition initialize_heap (a : BootstrapAllocator) : option (option (Z * Z) * BootstrapAllocator) :=
  let heap_size := HEAP_PAGES * PAGE_SIZE in
  '(heap, a) ← boot_allocate heap_size a;
  if heap =? 0 then Some (None, a) else Some (Some (heap, heap + heap_size), a).

Definition init_page (a : BootstrapAllocator) (i : Z) (ps : list Page) : option (list Page) :=
  p ← atz ps i;
  let p := set_ptr (i * PAGE_SIZE) p in
  used ← is_bit_set i a;
  Some (setz ps i (if (used : bool) then set_used p else set_free p)).

Definition initialize_pages (a : BootstrapAllocator) : option (list Page) :=
  let memory_end_index := end_index a in
  for_n (Z.to_nat memory_end_index) 0 (init_page a) (replicate (Z.to_nat memory_end_index) new_page).

(** [release_bootstrap] only drops the pointer to the bootstrap allocator. *)
Definition initialize_allocators (a : BootstrapAllocator) : option (option (Z * Z) * Heap) :=
  '(brk, a) ← initialize_heap a;
  ps ← initialize_pages a;
  mm ← initialize_memory_manager ps;
  Some (brk, initialize_slab_allocator mm).

(** ** Page metadata *)

Definition page_of (a : BootstrapAllocator) (i : Z) : Page :=
  mkPage (if bit a i then 1 else 0) None None 0 (i * PAGE_SIZE).

Lemma initialize_pages_spec a : boot_ok a ->
  exists ps, initialize_pages a = Some ps /\ lenz ps = end_index a /\
    forall k p, atz ps k = Some p -> p = page_of a k.
Proof.
  intros Hok. pose proof (bo_end a Hok) as He. unfold initialize_pages.
  destruct (for_n_inv (fun i ps => lenz ps = end_index a /\
    forall k p, atz ps k = Some p -> p = if k <? i then page_of a k else new_page)
    (Z.to_nat (end_index a)) 0 (init_page a) (replicate (Z.to_nat (end_index a)) new_page)) as (ps & E & Hl & Hp).
  - split; [unfold lenz; rewrite length_replicate; lia|]. intros k p Hk. pose proof (atz_Some_lt _ _ _ Hk).
    apply atz_replicate in Hk as ->. destruct (Z.ltb_spec k 0); [lia|done].
  - intros i ps Hi [Hl Hp]. destruct (atz_lt ps i) as [p Hip]; [lia|]. unfold init_page. rewrite Hip.
    cbn [mbind option_bind]. rewrite is_bit_set_spec by lia. cbn [mbind option_bind]. eexists. split; [done|].
    split; [by rewrite lenz_setz|]. intros k q. destruct (Z.eq_dec i k) as [->|Hne].
    + rewrite atz_setz_eq by lia. intros [= <-]. apply Hp in Hip. destruct (Z.ltb_spec k k) as [|_]; [lia|].
      destruct (Z.ltb_spec k (k + 1)) as [_|]; [|lia]. subst p. unfold page_of. by destruct (bit a k).
    + rewrite atz_setz_ne by lia. intros ->%Hp. destruct (Z.ltb_spec k i), (Z.ltb_spec k (i + 1)); done || lia.
  - exists ps. split_and!; try done. intros k p Hk. pose proof (atz_Some_lt _ _ _ Hk). rewrite (Hp k p Hk).
    destruct (Z.ltb_spec k (0 + Z.of_nat (Z.to_nat (end_index a)))); [done|lia].
Qed.

(** ** Counting runs of free pages *)

Fixpoint run_starts (i : Z) (prev : bool) (ps : list Page) : list Z :=
  match ps with
  | [] => []
  | p :: ps' => (if is_used p then [] else if prev then [] else [i]) ++ run_starts (i + 1) (negb (is_used p)) ps'
  end.

Lemma run_starts_length i prev ps : lenz (run_starts i prev ps) = free_runs prev ps.
Proof.
  revert i prev. induction ps as [|p ps IH]; intros i prev; [done|]. cbn [run_starts free_runs].
  rewrite lenz_app, IH. by destruct (is_used p), prev.
Qed.

Lemma run_starts_spec ps : forall i prev k, k ∈ run_starts i prev ps ->
  i <= k /\ page_is_free ps (k - i) = true /\ (if k =? i then prev else page_is_free ps (k - i - 1)) = false.
Proof.
  induction ps as [|p ps IH]; intros i prev k; cbn [run_starts]; [by intros ?%elem_of_nil|].
  assert (forall j, 0 <= j -> page_is_free (p :: ps) (j + 1) = page_is_free ps j) as Htl.
  { intros j Hj. unfold page_is_free, atz. destruct (Z.leb_spec 0 (j + 1)), (Z.leb_spec 0 j); try lia.
    by replace (Z.to_nat (j + 1)) with (S (Z.to_nat j)) by lia. }
  assert (page_is_free (p :: ps) 0 = negb (is_used p)) as Hhd by done.
  rewrite elem_of_app. intros [Hk|(H1 & H2 & H3)%IH].
  - destruct (is_used p) eqn:Eu; [by apply elem_of_nil in Hk|]. destruct prev; [by apply elem_of_nil in Hk|].
    apply list_elem_of_singleton in Hk as ->. by rewrite Z.sub_diag, Z.eqb_refl, Hhd.
  - split; [lia|]. destruct (Z.eqb_spec k i) as [|_]; [lia|].
    replace (k - i) with (k - (i + 1) + 1) at 1 by lia. rewrite Htl by lia. split; [done|].
    destruct (Z.eqb_spec k (i + 1)) as [->|Hne].
    + replace (i + 1 - i - 1) with 0 by lia. by rewrite Hhd.
    + replace (k - i - 1) with (k - (i + 1) - 1 + 1) by lia. by rewrite Htl by lia.
Qed.

Lemma run_starts_nodup ps : forall i prev, NoDup (run_starts i prev ps).
Proof.
  induction ps as [|p ps IH]; intros i prev; cbn [run_starts]; [apply NoDup_nil_2|].
  apply NoDup_app. split_and!; [|intros k Hk (H1 & _)%run_starts_spec|apply IH].
  - destruct (is_used p); [apply NoDup_nil_2|]. destruct prev; [apply NoDup_nil_2|apply NoDup_singleton].
  - destruct (is_used p), prev; try by apply elem_of_nil in Hk. apply list_elem_of_singleton in Hk. lia.
Qed.

(** At most as many runs as there are candidates for their first page. *)
Lemma free_runs_bound ps (starts : list Z) :
  (forall k, page_is_free ps k = true -> page_is_free ps (k - 1) = false -> k ∈ starts) ->
  free_runs false ps <= lenz starts.
Proof.
  intros Hc. rewrite <- (run_starts_length 0). assert (run_starts 0 false ps ⊆+ starts) as Hsub.
  { apply NoDup_submseteq; [apply run_starts_nodup|]. intros k (H0 & H1 & H2)%run_starts_spec.
    rewrite Z.sub_0_r in *. apply Hc; [done|]. destruct (Z.eqb_spec k 0) as [->|]; [done|].
    done. }
  apply submseteq_length in Hsub. unfold lenz. lia.
Qed.

(** ** The whole hand-over *)

(** A descriptor as UEFI gives it: page-aligned and below 4 GiB. *)
Definition desc_ok (d : MemoryDescriptor) : Prop :=
  0 <= physical_start d /\ physical_start d mod PAGE_SIZE = 0 /\ 0 <= number_of_pages d /\
  desc_end d <= 2 ^ 32.

Lemma desc_ok_fits d : desc_ok d -> desc_fits d.
Proof.
  unfold desc_ok, desc_fits. intros (? & _ & ? & ?). split_and!; try done. etrans; [done|]. done.
Qed.

(** A page the memory map offers. *)
Definition offered (map : list MemoryDescriptor) (k : Z) : bool := existsb (fun d => desc_covers d k) map.

(** The page range of the reserved heap. *)
Definition in_heap (brk : option (Z * Z)) (k : Z) : bool :=
  match brk with
  | Some (lo, hi) => (lo / PAGE_SIZE <=? k) && (k <? hi / PAGE_SIZE)
  | None => false
  end.

Lemma offered_not_first map : Forall desc_ok map -> offered map 0 = false.
Proof.
  intros Hall. unfold offered. apply not_true_iff_false. intros (d & Hd & Hc)%existsb_exists.
  rewrite Forall_forall in Hall. apply list_elem_of_In, Hall in Hd as (H0 & Hm & _).
  unfold desc_covers, desc_usable in Hc. bool_to_prop. unfold PAGE_SIZE in *.
  apply Z.mod_divide in Hm as [q Hq]; [|lia]. rewrite Hq in *. rewrite Z.div_mul in * by lia. lia.
Qed.

(** A run of offered pages starts with a descriptor. *)
Lemma offered_start map k :
  offered map k = true -> offered map (k - 1) = false -> k ∈ (fun d => physical_start d / PAGE_SIZE) <$> map.
Proof.
  intros (d & Hd & Hc)%existsb_exists Hno. apply list_elem_of_fmap. exists d. split; [|by apply list_elem_of_In].
  assert (desc_covers d (k - 1) = false) as Hd1.
  { apply not_true_iff_false. intros Hcov. apply (not_true_iff_false (offered map (k - 1))) in Hno. apply Hno.
    apply existsb_exists. eauto. }
  unfold desc_covers in *. destruct (desc_usable d); [|done]. bool_to_prop. destruct Hd1; bool_to_prop; lia.
Qed.

Lemma initialize_heap_spec a : boot_ok a -> bit a 0 = true ->
  exists brk a', initialize_heap a = Some (brk, a') /\ boot_ok a' /\ end_index a' = end_index a /\
    (forall j, 0 <= j -> bit a' j = in_heap brk j || bit a j) /\
    match brk with
    | Some (lo, hi) => hi = lo + HEAP_PAGES * PAGE_SIZE /\ 0 < lo /\ lo mod PAGE_SIZE = 0
    | None => forall s, 0 <= s -> s + HEAP_PAGES <= end_index a -> ~ available_run a s HEAP_PAGES
    end.
Proof.
  intros Hok H0. unfold initialize_heap.
  assert (pages_for_bytes (HEAP_PAGES * PAGE_SIZE) = HEAP_PAGES) as Hp by done.
  destruct (boot_allocate_spec a (HEAP_PAGES * PAGE_SIZE) Hok) as (addr & a' & -> & Hok' & Hend & Hff); [by rewrite Hp|].
  rewrite Hp in Hff. cbn [mbind option_bind].
  assert (end_index a' = end_index a) as He by (unfold end_index; by rewrite Hend).
  destruct Hff as [(s & -> & Hs & Hle & Hrun & _ & Hbit)|(-> & -> & Hnone)].
  - assert (s <> 0) as Hs0. { intros ->. rewrite (Hrun 0) in H0; [done|]. unfold HEAP_PAGES. lia. }
    destruct (Z.eqb_spec (s * PAGE_SIZE) 0) as [Hz|_]; [unfold PAGE_SIZE in *; lia|].
    eexists _, a'. split; [done|]. split_and!; try done.
    + intros j Hj. rewrite Hbit by done. unfold in_heap.
      replace (s * PAGE_SIZE + HEAP_PAGES * PAGE_SIZE) with ((s + HEAP_PAGES) * PAGE_SIZE) by lia.
      by rewrite !Z.div_mul by done.
    + unfold PAGE_SIZE. lia.
    + by apply Z.mod_mul.
  - exists None, a. by split_and!.
Qed.

Lemma page_of_free a ps k : lenz ps = end_index a -> (forall i p, atz ps i = Some p -> p = page_of a i) ->
  page_is_free ps k = (0 <=? k) && (k <? end_index a) && negb (bit a k).
Proof.
  intros Hl Hp. unfold page_is_free. destruct (atz ps k) as [p|] eqn:E.
  - pose proof (atz_Some_lt _ _ _ E). apply Hp in E as ->. unfold page_of, is_used. simpl.
    destruct (Z.leb_spec 0 k), (Z.ltb_spec k (end_index a)); try lia. by destruct (bit a k).
  - destruct (Z.leb_spec 0 k), (Z.ltb_spec k (end_index a)); try done.
    destruct (atz_lt ps k) as [p Hk]; [lia|]. congruence.
Qed.

(** The runs of free pages: one per descriptor, and one after the heap. *)
Lemma handover_runs ps map brk :
  offered map 0 = false ->
  (forall k, page_is_free ps k = (0 <=? k) && offered map k && negb (in_heap brk k)) ->
  free_runs false ps <=
  lenz (match brk with Some (_, hi) => hi / PAGE_SIZE | None => 0 end ::
        ((fun d => physical_start d / PAGE_SIZE) <$> map)).
Proof.
  intros Ho0 Hfree. apply free_runs_bound. intros k Hk Hk1. rewrite Hfree in Hk, Hk1.
  destruct (Z.leb_spec 0 k) as [H0|]; [|done]. destruct (offered map k) eqn:Eo; [|done]. simpl in Hk.
  apply negb_true_iff in Hk. assert (k <> 0) as Hk0 by congruence.
  destruct (Z.leb_spec 0 (k - 1)) as [_|]; [|lia]. simpl in Hk1. apply elem_of_cons.
  destruct (offered map (k - 1)) eqn:Eo1; [left|right; by apply offered_start].
  simpl in Hk1. apply negb_false_iff in Hk1. unfold in_heap in *. destruct brk as [[lo hi]|]; [|done].
  destruct (Z.leb_spec (lo / PAGE_SIZE) k), (Z.ltb_spec k (hi / PAGE_SIZE)); try done; bool_to_prop; lia.
Qed.

(** From the UEFI memory map (at most 2047 page-aligned descriptors below
    4 GiB) the bring-up completes without a fault.  The page allocator that
    results is well formed and its free pages are exactly the pages that usable
    descriptors offer, less the 128 MiB reserved for the C library heap; the
    slab heap over it is empty and ready for clients. *)
Theorem boot_handover map :
  Forall desc_ok map -> (length map <= 2047)%nat ->
  exists a brk h, initialize map = Some a /\ initialize_allocators a = Some (brk, h) /\
    wf (memory_manager h) /\ client_ok h ∅ /\
    (forall k, k ∈ covered (memory_manager h) <-> 0 <= k /\ offered map k = true /\ in_heap brk k = false) /\
    match brk with
    | Some (lo, hi) => hi = lo + HEAP_PAGES * PAGE_SIZE /\ 0 < lo /\ lo mod PAGE_SIZE = 0
    | None => forall s, 0 <= s -> s + HEAP_PAGES <= end_index a -> ~ available_run a s HEAP_PAGES
    end.
Proof.
  intros Hall Hlen. 
  destruct (initialize_spec map) as (a & Ea & Hok & _ & Hbit).
  { eapply Forall_impl; [exact Hall|]. apply desc_ok_fits. }
  assert (bit a 0 = true) as H0.
  { rewrite (proj1 (Hbit 0 ltac:(lia))). fold (offered map 0). by rewrite offered_not_first. }
  assert (end_index a <= 2 ^ 20) as H20.
  { apply (Hbit 0 ltac:(lia)); [lia|]. eapply Forall_impl; [exact Hall|]. intros d (_ & _ & _ & Hd).
    change (2 ^ 20) with (2 ^ 32 / PAGE_SIZE). by apply Z.div_le_mono. }
  destruct (initialize_heap_spec a Hok H0) as (brk & a' & Eh & Hok' & Hend & Hbit' & Hbrk).
  destruct (initialize_pages_spec a' Hok') as (ps & Ep & Hl & Hpg).
  assert (forall k, page_is_free ps k = (0 <=? k) && offered map k && negb (in_heap brk k)) as Hfree.
  { intros k. rewrite (page_of_free a' ps k Hl Hpg), Hend. destruct (Z.leb_spec 0 k) as [Hk|]; [|done]. simpl.
    rewrite (Hbit' k Hk). destruct (Hbit k Hk) as (Hb & Hlt & _). fold (offered map k) in Hb. rewrite Hb in *.
    destruct (offered map k), (in_heap brk k), (Z.ltb_spec k (end_index a)); simpl in *; try done.
    specialize (Hlt eq_refl). lia. }
  destruct (initialize_memory_manager_spec ps) as (mm & Em & Hwf & Hpm & Hcov).
  { intros i p Hi. by rewrite (Hpg i p Hi). }
  { rewrite Hl, Hend. exact H20. }
  { intros p (i & Hi)%list_elem_of_lookup. rewrite (Hpg (Z.of_nat i) p).
    - simpl. destruct (bit a' (Z.of_nat i)); auto.
    - apply atz_Some. split; [lia|]. by rewrite Nat2Z.id. }
  { rewrite Hfree, offered_not_first by done. done. }
  { etrans; [apply handover_runs; [by apply offered_not_first|exact Hfree]|]. unfold lenz. simpl. rewrite length_fmap. lia. }
  exists a, brk, (initialize_slab_allocator mm). split; [exact Ea|].
  unfold initialize_allocators. rewrite Eh. cbn [mbind option_bind]. rewrite Ep. cbn [mbind option_bind].
  rewrite Em. cbn [mbind option_bind]. split_and!; try done.
  - apply initial_client_ok; [done| |].
    + rewrite Hpm. intros k p Hp. by rewrite (Hpg k p Hp).
    + rewrite Hpm, Hl, Hend. unfold PAGE_SIZE. lia.
  - intros k. cbn [memory_manager initialize_slab_allocator]. rewrite Hcov. unfold free_below.
    rewrite list_elem_of_filter, elem_of_seqZ, Hfree. split.
    + intros [Hk _]. bool_to_prop. split_and!; done || lia.
    + intros (H1 & H2 & H3). rewrite H2, H3. destruct (Z.leb_spec 0 k); [|lia]. split; [done|].
      split; [lia|]. rewrite Hl, Hend. destruct (Hbit k H1) as (Hb & Hlt & _). fold (offered map k) in Hb.
      rewrite Hb, H2 in Hlt. simpl in *. specialize (Hlt eq_refl). lia.
Qed.

Lemma boot_handover_witness :
  exists a brk h, initialize demo_map = Some a /\ initialize_allocators a = Some (brk, h) /\
    wf (memory_manager h) /\ client_ok h ∅.
Proof.
  destruct (boot_handover demo_map) as (a & brk & h & Ea & Ei & Hwf & Hc & _).
  - unfold demo_map. repeat constructor; unfold desc_ok, desc_end; simpl; done.
  - vm_compute. repeat constructor.
  - exists a, brk, h. exact (conj Ea (conj Ei (conj Hwf Hc))).
Defined.
