(* ===== verification/List.v ===== *)
(** * The intrusive doubly linked list

    [kernel/list.cpp] and [list.hpp]: circular lists through [prev]/[next]
    pointers embedded in other structures.  The nodes live in a store; a
    pointer is the key of a node or null.  The operations are proved against
    sequences: [dll st l xs] says that the list head [l] links exactly the
    elements [xs], in both directions. *)

From S2P Require Import Prelude.

(** ** Definitions *)

Abbreviation ListPtr := (option nat).

Record List := mkList {
  prev : ListPtr;
  next : ListPtr;
}.

Abbreviation Store := (gmap nat List).

(** Reading and writing a field through a pointer; a null or dangling pointer
    is a fault. *)
Definition get_next (p : ListPtr) (st : Store) : option ListPtr :=
  a ← p; n ← st !! a; Some (next n).
Definition get_prev (p : ListPtr) (st : Store) : option ListPtr :=
  a ← p; n ← st !! a; Some (prev n).
Definition set_next (p v : ListPtr) (st : Store) : option Store :=
  a ← p; n ← st !! a; Some (<[a := mkList (prev n) v]> st).
Definition set_prev (p v : ListPtr) (st : Store) : option Store :=
  a ← p; n ← st !! a; Some (<[a := mkList v (next n)]> st).

Definition list_init (l : ListPtr) (st : Store) : option Store :=
  st ← set_prev l l st;
  set_next l l st.

Definition list_elem_init (elem : ListPtr) (st : Store) : option Store :=
  st ← set_prev elem None st;
  set_next elem None st.

Definition list_push_back (l elem : ListPtr) (st : Store) : option Store :=
  end_ ← get_prev l st;
  st ← set_next end_ elem st;
  st ← set_prev elem end_ st;
  st ← set_next elem l st;
  set_prev l elem st.

Definition list_pop_front (l : ListPtr) (st : Store) : option (ListPtr * Store) :=
  front ← get_next l st;
  if decide (front = l) then Some (None, st)
  else
    nxt ← get_next front st;
    st ← set_next l nxt st;
    st ← set_prev nxt l st;
    Some (front, st).

(** The [while (node != list)] walks, on [fuel] steps. *)
Fixpoint contains_loop (fuel : nat) (node l elem : ListPtr) (st : Store) : option bool :=
  match fuel with
  | O => fault
  | S fuel =>
      if decide (node = l) then Some false
      else if decide (node = elem) then Some true
      else node ← get_next node st; contains_loop fuel node l elem st
  end.

Definition list_contains (fuel : nat) (l elem : ListPtr) (st : Store) : option bool :=
  node ← get_next l st;
  contains_loop fuel node l elem st.

Definition list_is_empty (l : ListPtr) (st : Store) : option bool :=
  node ← get_next l st;
  Some (bool_decide (node = l)).

Fixpoint size_loop (fuel : nat) (size : Z) (node l : ListPtr) (st : Store) : option Z :=
  match fuel with
  | O => fault
  | S fuel =>
      if decide (node = l) then Some size
      else node ← get_next node st; size_loop fuel (size + 1) node l st
  end.

Definition list_size (fuel : nat) (l : ListPtr) (st : Store) : option Z :=
  node ← get_next l st;
  size_loop fuel 0 node l st.

(** ** Lists as sequences *)

Definition nxt (st : Store) (a : nat) : option nat := n ← st !! a; next n.
Definition prv (st : Store) (a : nat) : option nat := n ← st !! a; prev n.

(** Following [next] from [p] visits [xs] and arrives at [q]. *)
Fixpoint nexts (st : Store) (p : nat) (xs : list nat) (q : nat) : Prop :=
  match xs with
  | [] => nxt st p = Some q
  | x :: xs' => nxt st p = Some x /\ nexts st x xs' q
  end.

(** Following [prev] from [q] visits [xs] backwards and arrives at [p]. *)
Fixpoint prevs (st : Store) (p : nat) (xs : list nat) (q : nat) : Prop :=
  match xs with
  | [] => prv st q = Some p
  | x :: xs' => prv st x = Some p /\ prevs st x xs' q
  end.

Record dll (st : Store) (l : nat) (xs : list nat) : Prop := {
  dl_nodup : NoDup (l :: xs);
  dl_next : nexts st l xs l;
  dl_prev : prevs st l xs l;
}.

(** The last node of a non-empty sequence. *)
Definition last_of (p : nat) (xs : list nat) : nat := default p (last xs).

(** ** Field accesses *)

Lemma get_next_Some st a b : nxt st a = Some b -> get_next (Some a) st = Some (Some b).
Proof. unfold nxt, get_next. simpl. destruct (st !! a); simpl; congruence. Qed.

Lemma get_prev_Some st a b : prv st a = Some b -> get_prev (Some a) st = Some (Some b).
Proof. unfold prv, get_prev. simpl. destruct (st !! a); simpl; congruence. Qed.

Lemma set_next_spec st a v : is_Some (st !! a) ->
  exists st', set_next (Some a) v st = Some st' /\
    (forall b, nxt st' b = if decide (b = a) then v else nxt st b) /\
    (forall b, prv st' b = prv st b) /\ (forall b, b <> a -> st' !! b = st !! b) /\
    (forall b, is_Some (st' !! b) <-> is_Some (st !! b)).
Proof.
  intros [n Hn]. unfold set_next. simpl. rewrite Hn. simpl. eexists. split; [done|].
  unfold nxt, prv. split_and!; intros b.
  - destruct (decide (b = a)) as [->|]; [by rewrite lookup_insert_eq|by rewrite lookup_insert_ne].
  - destruct (decide (b = a)) as [->|]; [by rewrite lookup_insert_eq, Hn|by rewrite lookup_insert_ne].
  - intros. by rewrite lookup_insert_ne.
  - destruct (decide (b = a)) as [->|]; [rewrite lookup_insert_eq, Hn; split; eauto|by rewrite lookup_insert_ne].
Qed.

Lemma set_prev_spec st a v : is_Some (st !! a) ->
  exists st', set_prev (Some a) v st = Some st' /\
    (forall b, prv st' b = if decide (b = a) then v else prv st b) /\
    (forall b, nxt st' b = nxt st b) /\ (forall b, b <> a -> st' !! b = st !! b) /\
    (forall b, is_Some (st' !! b) <-> is_Some (st !! b)).
Proof.
  intros [n Hn]. unfold set_prev. simpl. rewrite Hn. simpl. eexists. split; [done|].
  unfold nxt, prv. split_and!; intros b.
  - destruct (decide (b = a)) as [->|]; [by rewrite lookup_insert_eq|by rewrite lookup_insert_ne].
  - destruct (decide (b = a)) as [->|]; [by rewrite lookup_insert_eq, Hn|by rewrite lookup_insert_ne].
  - intros. by rewrite lookup_insert_ne.
  - destruct (decide (b = a)) as [->|]; [rewrite lookup_insert_eq, Hn; split; eauto|by rewrite lookup_insert_ne].
Qed.

Lemma nxt_is_Some st a b : nxt st a = Some b -> is_Some (st !! a).
Proof. unfold nxt. destruct (st !! a); simpl; [eauto|done]. Qed.

(** ** Sequences of links *)

Lemma last_of_cons p x xs : last_of p (x :: xs) = last_of x xs.
Proof. unfold last_of. destruct xs; [done|]. rewrite last_cons_cons. destruct (last (n :: xs)) eqn:E; [done|]. by apply last_None in E. Qed.

Lemma last_of_in p xs : last_of p xs ∈ p :: xs.
Proof.
  revert p. induction xs as [|x xs IH]; intros p; [by left|]. rewrite last_of_cons. right. apply IH.
Qed.

Lemma nexts_snoc st st' p xs q e q' :
  nexts st p xs q -> NoDup (p :: xs) -> nxt st' (last_of p xs) = Some e -> nxt st' e = Some q' ->
  (forall x, x ∈ p :: xs -> x <> last_of p xs -> nxt st' x = nxt st x) ->
  nexts st' p (xs ++ [e]) q'.
Proof.
  revert p. induction xs as [|x xs IH]; intros p Hn Hnd Hlast He Hsame; simpl in *; [done|].
  destruct Hn as [Hp Hn]. apply NoDup_cons in Hnd as [Hpn Hnd]. rewrite last_of_cons in *. split.
  - rewrite Hsame; [done|by left|]. intros ->. apply Hpn, last_of_in.
  - apply IH; try done. intros y Hy Hne. apply Hsame; [by right|done].
Qed.

Lemma prevs_snoc st st' p xs q e q' :
  prevs st p xs q -> (forall x, x ∈ xs -> prv st' x = prv st x) ->
  prv st' e = Some (last_of p xs) -> prv st' q' = Some e -> prevs st' p (xs ++ [e]) q'.
Proof.
  revert p. induction xs as [|x xs IH]; intros p Hp Hsame He Hq; simpl in *; [done|].
  destruct Hp as [Hx Hp]. rewrite last_of_cons in He. split; [rewrite Hsame; [done|by left]|].
  apply IH; try done. intros y Hy. apply Hsame. by right.
Qed.

Lemma prevs_last st p xs q : prevs st p xs q -> prv st q = Some (last_of p xs).
Proof.
  revert p. induction xs as [|x xs IH]; intros p; simpl; [done|]. intros [_ H]. rewrite last_of_cons. by apply IH.
Qed.

Lemma nexts_alloc st p xs q x : nexts st p xs q -> x ∈ p :: xs -> is_Some (st !! x).
Proof.
  revert p. induction xs as [|y xs IH]; intros p; simpl.
  - intros Hp ->%list_elem_of_singleton. by eapply nxt_is_Some.
  - intros [Hp Hn] [->|Hx]%elem_of_cons; [by eapply nxt_is_Some|by eapply IH].
Qed.

Lemma nexts_frame st st' p xs q : nexts st p xs q ->
  (forall x, x ∈ p :: xs -> nxt st' x = nxt st x) -> nexts st' p xs q.
Proof.
  revert p. induction xs as [|x xs IH]; intros p; simpl; [intros Hn Hs; rewrite Hs; [done|by left]|].
  intros [Hp Hn] Hs. split; [rewrite Hs; [done|by left]|]. apply IH; [done|]. intros y Hy. apply Hs. by right.
Qed.

Lemma prevs_frame st st' p xs q : prevs st p xs q ->
  (forall x, x ∈ xs ++ [q] -> prv st' x = prv st x) -> prevs st' p xs q.
Proof.
  revert p. induction xs as [|x xs IH]; intros p; simpl; [intros Hn Hs; rewrite Hs; [done|by left]|].
  intros [Hp Hn] Hs. split; [rewrite Hs; [done|by left]|]. apply IH; [done|]. intros y Hy. apply Hs. by right.
Qed.

(** ** The operations on sequences *)

Lemma list_init_spec st l : is_Some (st !! l) ->
  exists st', list_init (Some l) st = Some st' /\ dll st' l [] /\ forall b, b <> l -> st' !! b = st !! b.
Proof.
  intros Hl. unfold list_init. destruct (set_prev_spec st l (Some l) Hl) as (st1 & -> & P1 & N1 & F1 & A1).
  cbn [mbind option_bind]. destruct (set_next_spec st1 l (Some l)) as (st2 & -> & N2 & P2 & F2 & A2); [by apply A1|].
  exists st2. split_and!; [done| |by intros b Hb; rewrite F2, F1].
  split; [apply NoDup_singleton|simpl; rewrite N2; by rewrite decide_True|].
  simpl. rewrite P2, P1. by rewrite decide_True.
Qed.

Lemma list_push_back_spec st l xs e :
  dll st l xs -> e ∉ l :: xs -> is_Some (st !! e) ->
  exists st', list_push_back (Some l) (Some e) st = Some st' /\ dll st' l (xs ++ [e]) /\
    forall b, b ∉ l :: xs ++ [e] -> st' !! b = st !! b.
Proof.
  intros [Hnd Hn Hp] He Hal. unfold list_push_back.
  pose proof (prevs_last _ _ _ _ Hp) as Hlast. pose proof (last_of_in l xs) as Hlin.
  rewrite (get_prev_Some _ _ _ Hlast). cbn [mbind option_bind].
  destruct (set_next_spec st (last_of l xs) (Some e)) as (st1 & -> & N1 & P1 & F1 & A1); [by eapply nexts_alloc|].
  cbn [mbind option_bind].
  destruct (set_prev_spec st1 e (Some (last_of l xs))) as (st2 & -> & P2 & N2 & F2 & A2); [by apply A1|].
  cbn [mbind option_bind].
  destruct (set_next_spec st2 e (Some l)) as (st3 & -> & N3 & P3 & F3 & A3); [by apply A2, A1|].
  cbn [mbind option_bind].
  destruct (set_prev_spec st3 l (Some e)) as (st4 & -> & P4 & N4 & F4 & A4).
  { apply A3, A2, A1. eapply nexts_alloc; [done|by left]. }
  assert (last_of l xs <> e) as Hle by (intros <-; done).
  apply not_elem_of_cons in He as [Hel Hexs].
  exists st4. split_and!; [done| |].
  - split.
    + apply NoDup_cons in Hnd as [Hl Hnd]. apply NoDup_cons. split.
      * rewrite elem_of_app, list_elem_of_singleton. intros [?|?]; congruence.
      * apply NoDup_app. split_and!; [done| |apply NoDup_singleton]. by intros x Hx ->%list_elem_of_singleton.
    + eapply nexts_snoc; [done|done| | |].
      * rewrite N4, N3, decide_False, N2, N1, decide_True by done. done.
      * rewrite N4, N3, decide_True by done. done.
      * intros x Hx Hne. assert (x <> e) by (intros ->; apply elem_of_cons in Hx as [?|?]; congruence).
        rewrite N4, N3, decide_False, N2, N1, decide_False by done. done.
    + eapply prevs_snoc; [done| | |].
      * intros x Hx. assert (x <> e) by (intros ->; done).
        assert (x <> l) by (intros ->; by apply NoDup_cons in Hnd as [? _]).
        rewrite P4, decide_False, P3, P2, decide_False, P1 by done. done.
      * rewrite P4, decide_False, P3, P2, decide_True by done. done.
      * rewrite P4, decide_True by done. done.
  - intros b Hb. rewrite not_elem_of_cons, not_elem_of_app, list_elem_of_singleton in Hb.
    destruct Hb as (Hbl & Hbx & Hbe).
    assert (b <> last_of l xs) by (intros ->; apply elem_of_cons in Hlin as [?|?]; congruence).
    by rewrite F4, F3, F2, F1.
Qed.

Lemma list_pop_front_nil st l : dll st l [] -> list_pop_front (Some l) st = Some (None, st).
Proof.
  intros [_ Hn _]. simpl in Hn. unfold list_pop_front. rewrite (get_next_Some _ _ _ Hn). cbn [mbind option_bind].
  by rewrite decide_True.
Qed.

Lemma list_pop_front_cons st l x xs :
  dll st l (x :: xs) ->
  exists st', list_pop_front (Some l) st = Some (Some x, st') /\ dll st' l xs /\
    is_Some (st' !! x) /\ forall b, b ∉ l :: xs -> st' !! b = st !! b.
Proof.
  intros [Hnd [Hl Hn] [Hx Hp]]. unfold list_pop_front. rewrite (get_next_Some _ _ _ Hl). cbn [mbind option_bind].
  apply NoDup_cons in Hnd as [Hlx Hnd]. apply not_elem_of_cons in Hlx as [Hne Hlxs].
  rewrite decide_False by congruence. apply NoDup_cons in Hnd as [Hxs Hnd].
  assert (exists y ys, nxt st x = Some y /\ (xs = [] /\ y = l \/ xs = y :: ys)) as (y & ys & Hy & Hcase).
  { destruct xs as [|y ys]; simpl in Hn; [exists l, []; eauto|]. exists y, ys. naive_solver. }
  rewrite (get_next_Some _ _ _ Hy). cbn [mbind option_bind].
  destruct (set_next_spec st l (Some y)) as (st1 & -> & N1 & P1 & F1 & A1); [by eapply nxt_is_Some|].
  cbn [mbind option_bind].
  assert (is_Some (st !! y)) as Hyal.
  { destruct Hcase as [[-> ->]| ->]; [by eapply nxt_is_Some|]. eapply nexts_alloc; [done|]. right. by left. }
  destruct (set_prev_spec st1 y (Some l)) as (st2 & -> & P2 & N2 & F2 & A2); [by apply A1|].
  cbn [mbind option_bind]. exists st2. split_and!; [done| |by apply A2, A1; eapply nxt_is_Some|].
  - split; [by apply NoDup_cons| |].
    + destruct Hcase as [[-> ->]| ->]; simpl; [by rewrite N2, N1, decide_True|].
      split; [by rewrite N2, N1, decide_True|]. destruct Hn as [_ Hn]. eapply nexts_frame; [done|].
      intros z Hz. rewrite N2, N1, decide_False; [done|]. intros ->. done.
    + destruct Hcase as [[-> ->]| ->]; simpl; [by rewrite P2, decide_True|].
      split; [by rewrite P2, decide_True|]. destruct Hp as [_ Hp]. eapply prevs_frame; [done|].
      intros z Hz. rewrite P2, decide_False, P1; [done|]. intros ->.
      apply elem_of_app in Hz as [Hz|Hz%list_elem_of_singleton].
      * by apply NoDup_cons in Hnd as [? _].
      * subst. apply Hlxs. by left.
  - intros b [Hbl Hb]%not_elem_of_cons. assert (b <> y) by (destruct Hcase as [[-> ->]| ->]; [done|]; by apply not_elem_of_cons in Hb as [? _]).
    by rewrite F2, F1.
Qed.

Lemma contains_loop_spec st l e xs : forall p fuel,
  nexts st p xs l -> l ∉ xs -> (length xs < fuel)%nat ->
  (node ← get_next (Some p) st; contains_loop fuel node (Some l) (Some e) st) = Some (bool_decide (e ∈ xs)).
Proof.
  induction xs as [|x xs IH]; intros p fuel Hn Hl Hf; (destruct fuel as [|fuel]; [simpl in Hf; lia|]); simpl in Hn.
  - rewrite (get_next_Some _ _ _ Hn). cbn [mbind option_bind contains_loop]. by rewrite decide_True.
  - destruct Hn as [Hp Hn]. apply not_elem_of_cons in Hl as [Hlx Hl].
    rewrite (get_next_Some _ _ _ Hp). cbn [mbind option_bind contains_loop]. rewrite decide_False by congruence.
    destruct (decide (Some x = Some e)) as [[= ->]|Hne].
    + rewrite bool_decide_true; [done|by left].
    + assert (e <> x) by congruence. simpl in Hf. cbn [mbind option_bind] in IH.
      rewrite IH; [|done|done|lia]. f_equal. apply bool_decide_ext. rewrite elem_of_cons. naive_solver.
Qed.

Lemma size_loop_spec st l xs : forall p fuel n,
  nexts st p xs l -> l ∉ xs -> (length xs < fuel)%nat ->
  (node ← get_next (Some p) st; size_loop fuel n node (Some l) st) = Some (n + lenz xs).
Proof.
  induction xs as [|x xs IH]; intros p fuel n Hn Hl Hf; (destruct fuel as [|fuel]; [simpl in Hf; lia|]); simpl in Hn.
  - rewrite (get_next_Some _ _ _ Hn). cbn [mbind option_bind size_loop]. rewrite decide_True by done. f_equal. unfold lenz. simpl. lia.
  - destruct Hn as [Hp Hn]. apply not_elem_of_cons in Hl as [Hlx Hl].
    rewrite (get_next_Some _ _ _ Hp). cbn [mbind option_bind size_loop]. rewrite decide_False by congruence.
    cbn [mbind option_bind] in IH. simpl in Hf. rewrite IH; [|done|done|lia]. f_equal. rewrite lenz_cons. lia.
Qed.

(** The intrusive list implements sequences.  Initialising a head gives the
    empty sequence; pushing a node that is not linked yet appends it and
    touches no node outside the list; popping removes and returns the first
    element, or returns null on the empty sequence; the walks of [contains] and
    [size] end after one step per element and answer membership and length. *)
Theorem list_refines_sequence st l xs :
  dll st l xs ->
  (forall e, e ∉ l :: xs -> is_Some (st !! e) ->
    exists st', list_push_back (Some l) (Some e) st = Some st' /\ dll st' l (xs ++ [e]) /\
      forall b, b ∉ l :: xs ++ [e] -> st' !! b = st !! b) /\
  (exists st', list_pop_front (Some l) st = Some (head xs, st') /\ dll st' l (tail xs) /\
    forall b, b ∉ l :: xs -> st' !! b = st !! b) /\
  (forall e fuel, (length xs < fuel)%nat ->
    list_contains fuel (Some l) (Some e) st = Some (bool_decide (e ∈ xs))) /\
  (forall fuel, (length xs < fuel)%nat -> list_size fuel (Some l) st = Some (lenz xs)) /\
  list_is_empty (Some l) st = Some (bool_decide (xs = [])).
Proof.
  intros Hd. pose proof Hd as [Hnd Hn Hp]. apply NoDup_cons in Hnd as [Hl Hnd]. split_and!.
  - intros e He Hal. by apply list_push_back_spec.
  - destruct xs as [|x xs].
    + exists st. split_and!; [by apply list_pop_front_nil|done|done].
    + destruct (list_pop_front_cons st l x xs Hd) as (st' & E & Hd' & _ & Hf). exists st'. split_and!; [done|done|].
      intros b Hb. apply Hf. set_solver.
  - intros e fuel Hf. unfold list_contains. by apply (contains_loop_spec st l e xs).
  - intros fuel Hf. unfold list_size. by rewrite (size_loop_spec st l xs).
  - unfold list_is_empty. destruct xs as [|x xs]; simpl in Hn.
    + rewrite (get_next_Some _ _ _ Hn). cbn [mbind option_bind]. by rewrite !bool_decide_true.
    + destruct Hn as [Hx _]. rewrite (get_next_Some _ _ _ Hx). cbn [mbind option_bind].
      rewrite !bool_decide_false; [done|done|]. intros [= ->]. apply Hl. by left.
Qed.

(** Three nodes in a store, one of them pushed. *)
Definition demo_store : Store :=
  {[ 0%nat := mkList (Some 1%nat) (Some 1%nat); 1%nat := mkList (Some 0%nat) (Some 0%nat);
     2%nat := mkList None None ]}.

Lemma list_refines_sequence_witness :
  exists st', list_push_back (Some 0%nat) (Some 2%nat) demo_store = Some st' /\ dll st' 0 [1%nat; 2%nat].
Proof.
  destruct (list_refines_sequence demo_store 0 [1%nat]) as (Hpush & _).
  - split; [|done|done]. repeat (apply NoDup_cons; split; [set_solver|]). apply NoDup_nil_2.
  - destruct (Hpush 2%nat) as (st' & E & Hd & _); [set_solver|by eexists|]. by exists st'.
Defined.
