(* ===== verification/Message.v ===== *)
(** * Messages and process identifiers

    [libs/common/message.hpp], [process_id.hpp] and [types.hpp]: the data that
    IPC, the file system and the system calls exchange. *)

From stdpp Require Import strings.
From S2P Require Import Prelude.

Open Scope Z_scope.

(** ** Error codes *)

Inductive ErrorCode :=
| OK | ERR_FORK_FAILED | ERR_NO_MEMORY | ERR_INVALID_ARG | ERR_INVALID_TASK | ERR_INVALID_FD
| ERR_PAGE_NOT_PRESENT | ERR_NO_TASK | ERR_NO_FILE | ERR_NO_DEVICE | ERR_FAILED_INIT_DEVICE
| ERR_FAILED_WRITE_TO_DEVICE | ERR_QUEUE_FULL | ERR_FAILED_READ_FROM_DEVICE | ERR_NO_SPACE
| ERR_OOL_LIMIT | ERR_TIMEOUT.

#[export] Instance ErrorCode_eq_dec : EqDecision ErrorCode.
Proof. solve_decision. Defined.

(** The [error_t] value of a code. *)
Definition err (e : ErrorCode) : Z :=
  match e with
  | OK => 0 | ERR_FORK_FAILED => -1 | ERR_NO_MEMORY => -2 | ERR_INVALID_ARG => -3
  | ERR_INVALID_TASK => -4 | ERR_INVALID_FD => -5 | ERR_PAGE_NOT_PRESENT => -6 | ERR_NO_TASK => -7
  | ERR_NO_FILE => -8 | ERR_NO_DEVICE => -9 | ERR_FAILED_INIT_DEVICE => -10
  | ERR_FAILED_WRITE_TO_DEVICE => -11 | ERR_QUEUE_FULL => -12 | ERR_FAILED_READ_FROM_DEVICE => -13
  | ERR_NO_SPACE => -14 | ERR_OOL_LIMIT => -15 | ERR_TIMEOUT => -16
  end.

Definition IS_ERR (e : Z) : bool := e <? 0.

(** [error_to_string]; an [error_t] outside the enumeration is unknown. *)
Definition error_to_string (e : Z) : string :=
  if e =? err OK then "OK"
  else if e =? err ERR_FORK_FAILED then "Fork failed"
  else if e =? err ERR_NO_MEMORY then "No memory"
  else if e =? err ERR_INVALID_ARG then "Invalid argument"
  else if e =? err ERR_INVALID_TASK then "Invalid task"
  else if e =? err ERR_INVALID_FD then "Invalid file descriptor"
  else if e =? err ERR_PAGE_NOT_PRESENT then "Page not present"
  else if e =? err ERR_NO_TASK then "No task"
  else if e =? err ERR_NO_FILE then "No file"
  else if e =? err ERR_NO_DEVICE then "No device"
  else if e =? err ERR_FAILED_INIT_DEVICE then "Failed to initialize device"
  else if e =? err ERR_FAILED_WRITE_TO_DEVICE then "Failed to write to device"
  else if e =? err ERR_QUEUE_FULL then "Message queue full"
  else if e =? err ERR_FAILED_READ_FROM_DEVICE then "Failed to read from device"
  else if e =? err ERR_NO_SPACE then "No space"
  else if e =? err ERR_OOL_LIMIT then "OOL limit exceeded"
  else if e =? err ERR_TIMEOUT then "Timed out"
  else "Unknown error".

(** ** Process identifiers: a [ProcessId] is its raw [pid_t] *)

Module process_ids.
Definition INVALID : Z := -1.
Definition KERNEL : Z := 0.
Definition IDLE : Z := 1.
Definition XHCI : Z := 2.
Definition VIRTIO_BLK : Z := 3.
Definition FS_FAT32 : Z := 4.
Definition SHELL : Z := 5.
Definition VIRTIO_NET : Z := 6.
Definition NET : Z := 7.
Definition INTERRUPT : Z := 100.
End process_ids.

(** ** Message constants *)

Definition IPC_RECV : Z := 0.
Definition IPC_SEND : Z := 1.
Definition IPC_CALL : Z := 2.
Definition IPC_REPLY : Z := 3.
Definition IPC_OOL_RELEASE : Z := 4.
Definition MSG_FLAG_REPLY : Z := Z.shiftl 1 0.
Definition SECTOR_SIZE : Z := 512.
Definition MSG_INLINE_MAX : Z := 128.
Definition OOL_MAX_SIZE : Z := 16 * 1024 * 1024.

Inductive MsgType :=
| NOTIFY_XHCI | NOTIFY_VIRTIO_BLK | NOTIFY_VIRTIO_NET_RX | NOTIFY_VIRTIO_NET_TX
| NOTIFY_TIMER_TIMEOUT | NOTIFY_KEY_INPUT | NOTIFY_WRITE | SHELL_COMMAND_DONE
| KERNEL_TASK_READY | KERNEL_MEMORY_USAGE | KERNEL_PCI_LIST | INPUT_SET_FOCUS
| BLK_READ | BLK_WRITE | NET_RX | NET_TX | NET_SEND
| FS_STAT | FS_LOAD | FS_LIST_DIR | FS_OPEN | FS_CLOSE | FS_READ | FS_WRITE | FS_MKFILE
| FS_REGISTER_PATH | FS_PWD | FS_CHANGE_DIR | FS_DUP2 | SMOKE_REPORT | MAX_MESSAGE_TYPE.

(** The [int32_t] of a message type.  A message from user space can carry any
    [int32_t], so the [type] field below is the number. *)
Definition msg (t : MsgType) : Z :=
  match t with
  | NOTIFY_XHCI => 0 | NOTIFY_VIRTIO_BLK => 1 | NOTIFY_VIRTIO_NET_RX => 2 | NOTIFY_VIRTIO_NET_TX => 3
  | NOTIFY_TIMER_TIMEOUT => 4 | NOTIFY_KEY_INPUT => 5 | NOTIFY_WRITE => 6 | SHELL_COMMAND_DONE => 7
  | KERNEL_TASK_READY => 8 | KERNEL_MEMORY_USAGE => 9 | KERNEL_PCI_LIST => 10 | INPUT_SET_FOCUS => 11
  | BLK_READ => 12 | BLK_WRITE => 13 | NET_RX => 14 | NET_TX => 15 | NET_SEND => 16
  | FS_STAT => 17 | FS_LOAD => 18 | FS_LIST_DIR => 19 | FS_OPEN => 20 | FS_CLOSE => 21 | FS_READ => 22
  | FS_WRITE => 23 | FS_MKFILE => 24 | FS_REGISTER_PATH => 25 | FS_PWD => 26 | FS_CHANGE_DIR => 27
  | FS_DUP2 => 28 | SMOKE_REPORT => 29 | MAX_MESSAGE_TYPE => 30
  end.

Definition TOTAL_MESSAGE_TYPES : Z := msg MAX_MESSAGE_TYPE.

(** ** Messages *)

Record OolDesc := mkOol {
  addr : Z;
  size : Z;
  reserved : Z;
}.

Definition no_ool : OolDesc := mkOol 0 0 0.

(** The inline payload: one alternative per member of the union. *)
Inductive Data :=
| DInit (task_id : Z)
| DKeyInput (key_code modifier press : Z)
| DWrite (buf : list Z)
| DMemoryUsage (total used : Z)
| DBlk (sector len : Z)
| DFs (fd operation len offset : Z) (name : string)
| DSmoke (status : Z).

Record Message := mkMessage {
  type : Z;
  sender : Z;
  correlation : Z;
  flags : Z;
  result : Z;
  ool : OolDesc;
  data : Data;
}.

#[export] Instance OolDesc_eq_dec : EqDecision OolDesc.
Proof. solve_decision. Defined.
#[export] Instance Data_eq_dec : EqDecision Data.
Proof. solve_decision. Defined.
#[export] Instance Message_eq_dec : EqDecision Message.
Proof. solve_decision. Defined.

(** [Message{ .type = t, .sender = s }]: the other fields are zero. *)
Definition new_message (t : MsgType) (s : Z) : Message :=
  mkMessage (msg t) s 0 0 0 no_ool (DInit 0).

Definition set_sender (s : Z) (m : Message) : Message :=
  mkMessage (type m) s (correlation m) (flags m) (result m) (ool m) (data m).
Definition set_correlation (c : Z) (m : Message) : Message :=
  mkMessage (type m) (sender m) c (flags m) (result m) (ool m) (data m).
Definition set_flags (f : Z) (m : Message) : Message :=
  mkMessage (type m) (sender m) (correlation m) f (result m) (ool m) (data m).
Definition set_result (r : Z) (m : Message) : Message :=
  mkMessage (type m) (sender m) (correlation m) (flags m) r (ool m) (data m).
Definition set_ool (o : OolDesc) (m : Message) : Message :=
  mkMessage (type m) (sender m) (correlation m) (flags m) (result m) o (data m).
Definition set_data (d : Data) (m : Message) : Message :=
  mkMessage (type m) (sender m) (correlation m) (flags m) (result m) (ool m) d.

(** [(m.flags & MSG_FLAG_REPLY) != 0] *)
Definition is_reply (m : Message) : bool := negb (Z.land (flags m) MSG_FLAG_REPLY =? 0).

Lemma msg_inj t t' : msg t = msg t' -> t = t'.
Proof. by destruct t, t'. Qed.

Lemma is_reply_set m : is_reply (set_flags (Z.lor (flags m) MSG_FLAG_REPLY) m) = true.
Proof.
  unfold is_reply, MSG_FLAG_REPLY. simpl. apply negb_true_iff, Z.eqb_neq. change (Z.shiftl 1 0) with 1. intros H.
  assert (Z.testbit (Z.land (Z.lor (flags m) 1) 1) 0 = false) as Hb by (rewrite H; apply Z.bits_0).
  rewrite Z.land_spec, Z.lor_spec in Hb. simpl in Hb. by rewrite orb_true_r in Hb.
Qed.

Lemma is_reply_clear m : is_reply (set_flags (Z.land (flags m) (wnot 32 MSG_FLAG_REPLY)) m) = false.
Proof.
  unfold is_reply, MSG_FLAG_REPLY. simpl. apply negb_false_iff, Z.eqb_eq.
  rewrite <- Z.land_assoc. by rewrite Z.land_0_r.
Qed.
