(* ===== verification/MessageQueue.v ===== *)
(** * The message ring of a task

    [kernel/task/message_queue.cpp] and [message_queue.hpp]: a ring of 64
    slots with a head index and a count, proved to be a bounded FIFO queue. *)

From S2P Require Import Prelude Message.

Open Scope Z_scope.

(** ** Definitions *)

Definition CAPACITY : Z := 64.

(** [ring_] is null when the storage could not be allocated. *)
Record MessageQueue := mkQueue {
  ring_ : option (list Message);
  head_ : Z;
  count_ : Z;
}.

Definition zero_message : Message := mkMessage 0 0 0 0 0 no_ool (DInit 0).

(** The constructor; [storage] says whether the allocation of the (zeroed) ring
    succeeded. *)
Definition new_queue (storage : bool) : MessageQueue :=
  mkQueue (if storage then Some (replicate (Z.to_nat CAPACITY) zero_message) else None) 0 0.

Definition queue_empty (q : MessageQueue) : bool := count_ q =? 0.

Definition push (m : Message) (q : MessageQueue) : bool * MessageQueue :=
  match ring_ q with
  | None => (false, q)
  | Some ring =>
      if CAPACITY <=? count_ q then (false, q)
      else (true, mkQueue (Some (setz ring ((head_ q + count_ q) mod CAPACITY) m)) (head_ q) (count_ q + 1))
  end.

(** [pop]: the message, or [None] for [false].  Reading the ring without
    storage or out of range is a fault. *)
Definition pop (q : MessageQueue) : option (option Message * MessageQueue) :=
  if count_ q =? 0 then Some (None, q)
  else
    ring ← ring_ q;
    m ← atz ring (head_ q);
    Some (Some m, mkQueue (Some ring) ((head_ q + 1) mod CAPACITY) (count_ q - 1)).

(** ** The queue as a sequence *)

Record queue_ok (q : MessageQueue) : Prop := {
  qo_head : 0 <= head_ q < CAPACITY;
  qo_count : 0 <= count_ q <= CAPACITY;
  qo_ring : match ring_ q with Some r => lenz r = CAPACITY | None => count_ q = 0 end;
}.

(** The queue has storage and holds exactly [ms], oldest first. *)
Definition holds (q : MessageQueue) (ms : list Message) : Prop :=
  lenz ms = count_ q /\
  forall ring, ring_ q = Some ring -> forall i m, atz ms i = Some m -> atz ring ((head_ q + i) mod CAPACITY) = Some m.

Lemma holds_nil storage : queue_ok (new_queue storage) /\ holds (new_queue storage) [].
Proof.
  split; [split; unfold CAPACITY; simpl; [lia|lia|by destruct storage]|].
  split; [done|]. intros ring _ i m Hm. by apply atz_Some_lt in Hm; unfold lenz in Hm; simpl in Hm; lia.
Qed.

Lemma atz_snoc {A} (l : list A) x i y : atz (l ++ [x]) i = Some y ->
  (i < lenz l /\ atz l i = Some y) \/ (i = lenz l /\ x = y).
Proof.
  intros [Hi Hy]%atz_Some. unfold lenz. apply lookup_app_Some in Hy as [Hy|[Hge Hy]].
  - left. split; [apply lookup_lt_Some in Hy; lia|]. apply atz_Some. done.
  - right. apply list_lookup_singleton_Some in Hy as [Hz ->]. split; [lia|done].
Qed.

Lemma push_spec q ms m : queue_ok q -> holds q ms ->
  (is_Some (ring_ q) /\ lenz ms < CAPACITY /\
   exists q', push m q = (true, q') /\ queue_ok q' /\ holds q' (ms ++ [m]) /\ is_Some (ring_ q')) \/
  ((ring_ q = None \/ lenz ms = CAPACITY) /\ push m q = (false, q)).
Proof.
  intros [Hh Hc Hr] [Hlen Hat]. unfold push. destruct (ring_ q) as [ring|] eqn:Er; [|by right; split; [left|]].
  destruct (Z.leb_spec CAPACITY (count_ q)) as [Hfull|Hroom]; [right; split; [right; lia|done]|].
  left. split_and!; [by eexists|lia|]. eexists. split; [done|]. unfold CAPACITY in *.
  pose proof (Z.mod_pos_bound (head_ q + count_ q) 64 ltac:(lia)) as Hm.
  split_and!; [| |by eexists].
  - split; simpl; unfold CAPACITY; [lia|lia|]. by rewrite lenz_setz.
  - split; simpl; [rewrite lenz_app; change (lenz [m]) with 1; lia|]. intros r [= <-] i x Hx.
    pose proof (atz_Some_lt _ _ _ Hx) as Hi. unfold CAPACITY. apply atz_snoc in Hx as [[Hlt Hx]|[-> ->]].
    + rewrite atz_setz_ne; [by apply Hat|lia|]. intros Heq.
      rewrite (Z.mod_eq (head_ q + count_ q)), (Z.mod_eq (head_ q + i)) in Heq by lia. lia.
    + rewrite Hlen. apply atz_setz_eq. lia.
Qed.

Lemma pop_nil q : queue_ok q -> holds q [] -> pop q = Some (None, q).
Proof. intros _ [Hlen _]. unfold pop. by rewrite <- Hlen. Qed.

Lemma pop_cons q m ms : queue_ok q -> holds q (m :: ms) ->
  exists q', pop q = Some (Some m, q') /\ queue_ok q' /\ holds q' ms /\ is_Some (ring_ q').
Proof.
  intros [Hh Hc Hr] [Hlen Hat]. unfold pop. rewrite lenz_cons in Hlen. pose proof (lenz_nonneg ms).
  destruct (Z.eqb_spec (count_ q) 0); [lia|]. destruct (ring_ q) as [ring|] eqn:Er; [|lia].
  cbn [mbind option_bind]. pose proof (Hat ring eq_refl 0 m eq_refl) as H0. unfold CAPACITY in *.
  rewrite Z.add_0_r, Z.mod_small in H0 by lia. rewrite H0. cbn [mbind option_bind].
  eexists. split; [done|]. pose proof (Z.mod_pos_bound (head_ q + 1) 64 ltac:(lia)).
  split_and!; [split; simpl; unfold CAPACITY; [lia|lia|done]| |by eexists].
  split; simpl; [lia|]. intros r [= <-] i x Hx. unfold CAPACITY. rewrite Z.add_mod_idemp_l by lia.
  replace (head_ q + 1 + i) with (head_ q + (i + 1)) by lia. apply (Hat ring eq_refl). apply atz_Some in Hx as [Hi Hx].
  apply atz_Some. split; [lia|]. by replace (Z.to_nat (i + 1)) with (S (Z.to_nat i)) by lia.
Qed.

(** The ring is a FIFO queue of at most 64 messages: [push] appends unless the
    queue is full or has no storage, and then leaves it as it was; [pop]
    removes the oldest message, and answers nothing on the empty queue. *)
Theorem ring_refines_fifo q ms :
  queue_ok q -> holds q ms ->
  (forall m, exists b q', push m q = (b, q') /\ queue_ok q' /\
     (b = true <-> is_Some (ring_ q) /\ lenz ms < CAPACITY) /\
     (if b then holds q' (ms ++ [m]) else q' = q)) /\
  (exists q', pop q = Some (head ms, q') /\ queue_ok q' /\ holds q' (tail ms)).
Proof.
  intros Hok Hh. split.
  - intros m. destruct (push_spec q ms m Hok Hh) as [(Hs & Hl & q' & E & Hok' & Hh' & _)|[Hno E]].
    + exists true, q'. by split_and!.
    + exists false, q. split_and!; try done. split; [done|]. intros [[r Hr] Hl]. destruct Hno; [congruence|lia].
  - destruct ms as [|m ms].
    + exists q. by rewrite pop_nil.
    + destruct (pop_cons q m ms Hok Hh) as (q' & E & Hok' & Hh' & _). by exists q'.
Qed.

Lemma ring_refines_fifo_witness :
  exists q', pop (new_queue true) = Some (None, q') /\ queue_ok q' /\ holds q' [].
Proof. apply (ring_refines_fifo (new_queue true) []); apply holds_nil. Defined.
