(* ===== verification/UserMem.v ===== *)
(** * Copying between kernel and user space

    [kernel/memory/user.cpp]: the address check and the three copy routines.
    Memory is a function from addresses to bytes; pointers are 64-bit numbers
    and pointer arithmetic wraps. *)

From S2P Require Import Prelude.

Open Scope Z_scope.

(** ** Definitions *)

Abbreviation Mem := (Z -> Z).

Definition load (m : Mem) (a : Z) : Z := m (u64 a).
Definition store (a v : Z) (m : Mem) : Mem := fun x => if x =? u64 a then v else m x.

Definition user_start : Z := 0xffff800000000000.
Definition user_end : Z := 0xffffffffffffffff.

Definition is_user_address (addr n : Z) : bool :=
  (user_start <=? addr) && (addr <? user_end) && (u64 (addr + n) <? user_end).

(** [for (i = 0; i < n; ++i) to[i] = from[i];] *)
Definition copy_bytes (to from n : Z) (m : Mem) : option Mem :=
  for_n (Z.to_nat n) 0 (fun i m => Some (store (to + i) (load m (from + i)) m)) m.

Definition copy_to_user (to from n : Z) (m : Mem) : option (Z * Mem) :=
  if (to =? 0) || (from =? 0) then Some (0, m)
  else if negb (is_user_address to n) then Some (0, m)
  else m ← copy_bytes to from n m; Some (n, m).

Definition copy_from_user (to from n : Z) (m : Mem) : option (Z * Mem) :=
  if (to =? 0) || (from =? 0) then Some (0, m)
  else if negb (is_user_address from n) then Some (0, m)
  else m ← copy_bytes to from n m; Some (n, m).

(** The loop of [copy_string_from_user], [n] iterations from [i]; [Some r] is
    an early return of [r]. *)
Fixpoint copy_string_loop (n : nat) (i to from : Z) (m : Mem) : option Z * Mem :=
  match n with
  | O => (None, m)
  | S n' =>
      if negb (is_user_address (u64 (from + i)) 1) then (Some (-1), store to 0 m)
      else
        let c := load m (from + i) in
        let m := store (to + i) c m in
        if c =? 0 then (Some i, m) else copy_string_loop n' (i + 1) to from m
  end.

Definition copy_string_from_user (to from max_len : Z) (m : Mem) : Z * Mem :=
  if (to =? 0) || (from =? 0) || (max_len =? 0) then (-1, m)
  else
    match copy_string_loop (Z.to_nat max_len) 0 to from m with
    | (Some r, m) => (r, m)
    | (None, m) => (-1, store (to + max_len - 1) 0 m)
    end.

(** ** Memory *)

(** Address [a] lies in the [n] bytes at [base]; ranges may wrap. *)
Definition in_range (base n a : Z) : bool := u64 (a - base) <? n.

(** A range that does not wrap. *)
Definition plain (base n : Z) : Prop := 0 <= base /\ 0 <= n /\ base + n <= 2 ^ 64.

Lemma plain_in base n a : plain base n -> 0 <= a < 2 ^ 64 -> in_range base n a = true <-> base <= a < base + n.
Proof.
  intros (H1 & H2 & H3) Ha. unfold in_range. rewrite Z.ltb_lt.
  destruct (Z.le_gt_cases base a).
  - rewrite wrap_small by lia. lia.
  - assert (u64 (a - base) = a - base + 2 ^ 64) as ->; [|lia].
    unfold wrap. symmetry. apply Z.mod_unique with (-1); lia.
Qed.

Lemma store_same m a v x : 0 <= a < 2 ^ 64 -> x <> a -> store a v m x = m x.
Proof. intros Ha Hx. unfold store. rewrite wrap_small by lia. destruct (Z.eqb_spec x a); done. Qed.

Lemma store_eq m a v : 0 <= a < 2 ^ 64 -> store a v m a = v.
Proof. intros Ha. unfold store. rewrite wrap_small by lia. by rewrite Z.eqb_refl. Qed.

(** What [copy_bytes] leaves in memory, for ranges that do not overlap. *)
Lemma copy_bytes_spec to from n m :
  plain to n -> plain from n -> (to + n <= from \/ from + n <= to) ->
  exists m', copy_bytes to from n m = Some m' /\
    forall x, m' x = if (to <=? x) && (x <? to + n) then m (from + (x - to)) else m x.
Proof.
  intros (Ht0 & Hn0 & Ht) (Hf0 & _ & Hf) Hdis. unfold copy_bytes.
  destruct (for_n_inv (fun i m' => forall x, m' x = if (to <=? x) && (x <? to + i) then m (from + (x - to)) else m x)
    (Z.to_nat n) 0 (fun i m => Some (store (to + i) (load m (from + i)) m)) m) as (m' & E & Hm).
  - intros x. destruct (Z.leb_spec to x), (Z.ltb_spec x (to + 0)); done || lia.
  - intros i m1 Hi Hm1. eexists. split; [done|]. intros x. unfold store, load.
    rewrite !wrap_small by lia. destruct (Z.eqb_spec x (to + i)) as [->|Hne].
    + rewrite Hm1. destruct (Z.leb_spec to (from + i)), (Z.ltb_spec (from + i) (to + i)); simpl; try lia;
        destruct (Z.leb_spec to (to + i)), (Z.ltb_spec (to + i) (to + (i + 1))); try lia; simpl; f_equal; lia.
    + rewrite Hm1. destruct (Z.leb_spec to x), (Z.ltb_spec x (to + i)), (Z.ltb_spec x (to + (i + 1))); simpl; done || lia.
  - exists m'. split; [done|]. intros x. rewrite Hm. by replace (0 + Z.of_nat (Z.to_nat n)) with n by lia.
Qed.

(** ** The address check *)

(** A range that does not wrap passes the check exactly when it lies in the
    upper half, below the last byte of the address space. *)
Lemma is_user_address_plain addr n :
  0 <= addr < 2 ^ 64 -> 0 <= n -> addr + n < 2 ^ 64 ->
  is_user_address addr n = true <-> user_start <= addr /\ addr < user_end /\ addr + n < user_end.
Proof.
  intros Ha Hn Hw. unfold is_user_address. rewrite wrap_small by lia.
  rewrite !andb_true_iff, Z.leb_le, !Z.ltb_lt. tauto.
Qed.

(** A copy to user space of a range that does not wrap: a range in user space
    receives exactly the source bytes, any other range is refused without a
    change; nothing outside the destination changes.  In particular no byte of
    the kernel half is ever written. *)
Theorem copy_to_user_correct to from n m :
  plain to n -> plain from n -> (to + n <= from \/ from + n <= to) -> from <> 0 -> to + n < 2 ^ 64 ->
  exists r m', copy_to_user to from n m = Some (r, m') /\
    r = (if (user_start <=? to) && (to + n <? user_end) && (to <? user_end) then n else 0) /\
    (forall x, x < user_start -> m' x = m x) /\
    (forall x, m' x = if (user_start <=? to) && (to + n <? user_end) && (to <? user_end) && (to <=? x) && (x <? to + n)
               then m (from + (x - to)) else m x).
Proof.
  intros Hpt Hpf Hdis Hf0 Hw. pose proof Hpt as (Ht0 & Hn0 & _).
  assert (is_user_address to n = (user_start <=? to) && (to + n <? user_end) && (to <? user_end)) as Hchk.
  { unfold is_user_address. rewrite wrap_small by lia. rewrite <- !andb_assoc. f_equal. apply andb_comm. }
  unfold copy_to_user. destruct (Z.eqb_spec to 0) as [->|_].
  { simpl. exists 0, m. split_and!; done. }
  destruct (Z.eqb_spec from 0); [done|]. simpl. rewrite Hchk.
  destruct ((user_start <=? to) && (to + n <? user_end) && (to <? user_end)) eqn:Eu; simpl.
  - destruct (copy_bytes_spec to from n m Hpt Hpf Hdis) as (m' & -> & Hm). simpl. exists n, m'. split_and!; try done.
    intros x Hx. rewrite Hm. apply andb_true_iff in Eu as [Eu _]. apply andb_true_iff in Eu as [Eu%Z.leb_le _].
    destruct (Z.leb_spec to x); [lia|done].
  - exists 0, m. split_and!; done.
Qed.

(** The check adds with wrap-around: a range that runs over the top of the
    address space is accepted although it covers kernel memory.  Even a range
    of at most 16 MiB, the limit of the system calls, reaches address 0. *)
Theorem is_user_address_accepts_wrapped k n :
  0 < k <= 2 ^ 47 -> k < n -> n < 2 ^ 63 -> 1 < k ->
  is_user_address (2 ^ 64 - k) n = true /\ in_range (2 ^ 64 - k) n 0 = true /\ ~ user_start <= 0.
Proof.
  intros Hk Hn Hn63 Hk1. split_and!.
  - unfold is_user_address, user_start, user_end. rewrite !andb_true_iff, Z.leb_le, !Z.ltb_lt.
    assert (u64 (2 ^ 64 - k + n) = n - k) as ->.
    { unfold wrap. symmetry. apply Z.mod_unique with 1; lia. }
    split_and!; lia.
  - unfold in_range. rewrite Z.ltb_lt. assert (u64 (0 - (2 ^ 64 - k)) = k) as ->; [|lia].
    unfold wrap. symmetry. apply Z.mod_unique with (-1); lia.
  - unfold user_start. lia.
Qed.

(** ** Strings *)

(** The bytes [i .. k) of the string at [from] are readable and not NUL. *)
Definition text (m : Mem) (from i k : Z) : Prop :=
  forall j, i <= j < k -> is_user_address (u64 (from + j)) 1 = true /\ load m (from + j) <> 0.

(** The destination has the bytes [i .. k) of the source, the rest of memory
    is as before. *)
Definition copied (m m' : Mem) (to from i k : Z) : Prop :=
  forall x, m' x = if (to + i <=? x) && (x <? to + k) then load m (from + (x - to)) else m x.

Lemma user_address_high a : is_user_address a 1 = true -> user_start <= a.
Proof. unfold is_user_address. rewrite !andb_true_iff, Z.leb_le. tauto. Qed.

Lemma copied_load m m' to from i k j :
  copied m m' to from i k -> 0 <= to + i -> to + k <= user_start ->
  is_user_address (u64 (from + j)) 1 = true -> load m' (from + j) = load m (from + j).
Proof.
  intros Hc H0 Hk Hu%user_address_high. unfold load at 1. rewrite Hc.
  destruct (Z.ltb_spec (u64 (from + j)) (to + k)); [lia|]. by rewrite andb_false_r.
Qed.

Lemma copied_step m0 m to from i :
  0 <= to -> 0 <= i -> to + i < user_start -> copied m0 m to from 0 i ->
  is_user_address (u64 (from + i)) 1 = true ->
  copied m0 (store (to + i) (load m (from + i)) m) to from 0 (i + 1).
Proof.
  intros Ht Hi Hlt Hc Hu x. unfold user_start in Hlt. unfold store. rewrite (wrap_small 64 (to + i)) by lia.
  rewrite (copied_load m0 m to from 0 i i Hc) by (done || (unfold user_start; lia)).
  destruct (Z.eqb_spec x (to + i)) as [->|Hne].
  - destruct (Z.leb_spec (to + 0) (to + i)), (Z.ltb_spec (to + i) (to + (i + 1))); try lia. simpl. f_equal. lia.
  - rewrite (Hc x). destruct (Z.leb_spec (to + 0) x), (Z.ltb_spec x (to + i)), (Z.ltb_spec x (to + (i + 1))); done || lia.
Qed.

Lemma copy_string_loop_spec m0 to from n : forall i m,
  0 <= to -> 0 <= i -> to + i + Z.of_nat n <= user_start -> copied m0 m to from 0 i -> text m0 from 0 i ->
  match copy_string_loop n i to from m with
  | (Some r, m') =>
      (r = -1 /\ (exists k, i <= k < i + Z.of_nat n /\ text m0 from 0 k /\ is_user_address (u64 (from + k)) 1 = false) /\
         m' to = 0 /\ forall x, x < to \/ to + i + Z.of_nat n <= x -> m' x = m0 x) \/
      (i <= r < i + Z.of_nat n /\ text m0 from 0 r /\ load m0 (from + r) = 0 /\
         is_user_address (u64 (from + r)) 1 = true /\ copied m0 m' to from 0 (r + 1))
  | (None, m') => text m0 from 0 (i + Z.of_nat n) /\ copied m0 m' to from 0 (i + Z.of_nat n)
  end.
Proof.
  induction n as [|n IH]; intros i m Ht Hi Hend Hc Htx; cbn [copy_string_loop].
  { by rewrite Z.add_0_r. }
  unfold user_start in Hend. destruct (is_user_address (u64 (from + i)) 1) eqn:Eu; cbn [negb].
  2:{ left. split_and!; [done|exists i; split_and!; [lia|lia|done|done]|apply store_eq; lia|].
      intros x Hx. rewrite store_same by lia. rewrite (Hc x).
      destruct (Z.leb_spec (to + 0) x), (Z.ltb_spec x (to + i)); done || lia. }
  pose proof (copied_step m0 m to from i Ht Hi ltac:(unfold user_start; lia) Hc Eu) as Hc'.
  rewrite (copied_load m0 m to from 0 i i Hc) in * by (done || (unfold user_start; lia)).
  destruct (Z.eqb_spec (load m0 (from + i)) 0) as [Hz|Hnz].
  { right. split_and!; done || lia. }
  assert (text m0 from 0 (i + 1)) as Htx'.
  { intros j Hj. destruct (Z.eq_dec j i) as [->|]; [done|]. apply Htx. lia. }
  specialize (IH (i + 1) _ Ht ltac:(lia) ltac:(unfold user_start; lia) Hc' Htx').
  replace (i + 1 + Z.of_nat n) with (i + Z.of_nat (S n)) in IH by lia.
  replace (to + (i + 1) + Z.of_nat n) with (to + i + Z.of_nat (S n)) in IH by lia.
  destruct (copy_string_loop n (i + 1) to from _) as [[r|] m']; [|done].
  destruct IH as [(-> & (k & Hk & Hrest) & H1 & H2)|(Hr & Hrest)]; [left|right].
  - split_and!; try done. exists k. split; [lia|done].
  - split; [lia|done].
Qed.

(** Copying a string into a kernel buffer of [max_len] bytes: the buffer always
    ends up NUL-terminated and nothing outside it changes.  The result is the
    length exactly when a NUL comes within [max_len] readable user bytes, and
    then the buffer has the string; otherwise it is -1. *)
Theorem copy_string_from_user_correct to from max_len m :
  0 < to -> 0 < from -> 0 < max_len -> to + max_len <= user_start ->
  exists r m', copy_string_from_user to from max_len m = (r, m') /\
    (forall x, x < to \/ to + max_len <= x -> m' x = m x) /\
    (exists j, 0 <= j < max_len /\ m' (to + j) = 0) /\
    ((0 <= r < max_len /\ text m from 0 r /\ load m (from + r) = 0 /\ is_user_address (u64 (from + r)) 1 = true /\
      forall j, 0 <= j <= r -> m' (to + j) = load m (from + j)) \/
     (r = -1 /\ (text m from 0 max_len \/
        exists k, 0 <= k < max_len /\ text m from 0 k /\ is_user_address (u64 (from + k)) 1 = false))).
Proof.
  intros Ht Hf Hm Hend. unfold copy_string_from_user.
  destruct (Z.eqb_spec to 0), (Z.eqb_spec from 0), (Z.eqb_spec max_len 0); try lia. simpl.
  assert (copied m m to from 0 0) as Hc0.
  { intros x. destruct (Z.leb_spec (to + 0) x), (Z.ltb_spec x (to + 0)); done || lia. }
  pose proof (copy_string_loop_spec m to from (Z.to_nat max_len) 0 m ltac:(lia) ltac:(lia) ltac:(lia) Hc0
    ltac:(intros j Hj; lia)) as H.
  rewrite Z2Nat.id in H by lia. unfold user_start in Hend.
  destruct (copy_string_loop (Z.to_nat max_len) 0 to from m) as [[r|] m'].
  - exists r, m'. split; [done|]. destruct H as [(-> & Hk & H0 & Hframe)|(Hr & Htx & Hz & Hu & Hc)].
    + split_and!; [intros x Hx; apply Hframe; lia|exists 0; split; [lia|by rewrite Z.add_0_r]|].
      right. split; [done|]. right. done.
    + assert (forall j, 0 <= j <= r -> m' (to + j) = load m (from + j)) as Hj.
      { intros j Hj. rewrite (Hc (to + j)). destruct (Z.leb_spec (to + 0) (to + j)), (Z.ltb_spec (to + j) (to + (r + 1))); try lia.
        simpl. f_equal. lia. }
      split_and!.
      * intros x Hx. rewrite (Hc x). destruct (Z.leb_spec (to + 0) x), (Z.ltb_spec x (to + (r + 1))); done || lia.
      * exists r. split; [lia|]. rewrite Hj by lia. done.
      * left. done.
  - destruct H as [Htx Hc]. eexists _, _. split; [done|]. split_and!.
    + intros x Hx. rewrite store_same by lia. rewrite (Hc x).
      destruct (Z.leb_spec (to + 0) x), (Z.ltb_spec x (to + (0 + max_len))); done || lia.
    + exists (max_len - 1). split; [lia|]. replace (to + (max_len - 1)) with (to + max_len - 1) by lia.
      apply store_eq. lia.
    + right. split; [done|]. by left.
Qed.

(** ** Witnesses *)

(** A memory with the string hi at a user address. *)
Definition demo_mem : Mem := fun x =>
  if x =? user_start then 104 else if x =? user_start + 1 then 105 else 0.

Lemma copy_to_user_correct_witness :
  exists m', copy_to_user user_start 4096 2 (store 4096 7 demo_mem) = Some (2, m') /\ m' user_start = 7.
Proof.
  destruct (copy_to_user_correct user_start 4096 2 (store 4096 7 demo_mem)) as (r & m' & E & Hr & _ & Hm);
    [unfold plain, user_start; lia|unfold plain; lia|unfold user_start; lia|lia|unfold user_start; lia|].
  exists m'. rewrite E, Hr, Hm. split; reflexivity.
Defined.

Lemma is_user_address_accepts_wrapped_witness :
  is_user_address (2 ^ 64 - 4096) (16 * 1024 * 1024) = true /\ in_range (2 ^ 64 - 4096) (16 * 1024 * 1024) 0 = true /\
  ~ user_start <= 0.
Proof. apply (is_user_address_accepts_wrapped 4096 (16 * 1024 * 1024)); lia. Defined.

Lemma copy_string_from_user_correct_witness :
  exists m', copy_string_from_user 4096 user_start 16 demo_mem = (2, m') /\ m' 4097 = 105.
Proof.
  destruct (copy_string_from_user_correct 4096 user_start 16 demo_mem) as (r & m' & E & _ & _ & Hcase);
    [lia|unfold user_start; lia|lia|unfold user_start; lia|].
  assert (fst (copy_string_from_user 4096 user_start 16 demo_mem) = 2) as H2 by reflexivity.
  rewrite E in H2. simpl in H2. subst r. exists m'. split; [done|].
  destruct Hcase as [(_ & _ & _ & _ & Hj)|[? _]]; [|done]. exact (Hj 1 ltac:(lia)).
Defined.
