(* ===== verification/Graphics.v ===== *)
(** * The screen

    [kernel/point2d.hpp], [kernel/graphics/screen.cpp], [color.cpp], [font.cpp] and
    [log_sink.cpp], with [sys_draw_text] and [sys_fill_rect] of the system calls.

    The frame buffer is the list of its pixels; a pixel outside it is a fault.
    The glyphs are those of [hankaku.bin], a parameter. *)

From S2P Require Import Prelude Message UserMem.

Open Scope Z_scope.

(** ** Points and colours *)

Record Point2D := mkPoint { x_ : Z; y_ : Z }.

(** The sums are [int]s. *)
Definition point_add (p q : Point2D) : Point2D := mkPoint (i32 (x_ p + x_ q)) (i32 (y_ p + y_ q)).

Record Color := mkColor { r_ : Z; g_ : Z; b_ : Z }.
Definition code (c : Color) : Z := u32 (u32 (u32 (u32 (r_ c) * 2 ^ 8 + g_ c) * 2 ^ 8) + b_ c).

(** ** The screen *)

Record Screen := mkScreen {
  pixels_per_scan_line_ : Z;
  horizontal_resolution_ : Z;
  vertical_resolution_ : Z;
  bg_color_ : Color;
  frame_buffer_ : list Z;
}.

Definition set_frame_buffer (l : list Z) (s : Screen) : Screen :=
  mkScreen (pixels_per_scan_line_ s) (horizontal_resolution_ s) (vertical_resolution_ s) (bg_color_ s) l.

Definition width (s : Screen) : Z := i32 (horizontal_resolution_ s).
Definition height (s : Screen) : Z := i32 (vertical_resolution_ s).

(** A store through the frame buffer pointer. *)
Definition store_pixel (i v : Z) (s : Screen) : option Screen :=
  if (0 <=? i) && (i <? lenz (frame_buffer_ s)) then Some (set_frame_buffer (setz (frame_buffer_ s) i v) s) else fault.

Definition put_pixel (point : Point2D) (color_code : Z) (s : Screen) : option Screen :=
  let x := x_ point in
  let y := y_ point in
  if (x <? 0) || (y <? 0) || (i32 (horizontal_resolution_ s) <=? x) || (i32 (vertical_resolution_ s) <=? y) then Some s
  else store_pixel (u64 (pixels_per_scan_line_ s * y + x)) color_code s.

Definition fill_rectangle (position size : Point2D) (color_code : Z) (s : Screen) : option Screen :=
  for_n (Z.to_nat (y_ size)) 0 (fun dy s =>
    for_n (Z.to_nat (x_ size)) 0 (fun dx s => put_pixel (point_add position (mkPoint dx dy)) color_code s) s) s.

(** The configuration of the boot loader: the pixels it hands over. *)
Record FrameBufferConf := mkConf {
  frame_buffer : list Z;
  pixels_per_scan_line : Z;
  horizontal_resolution : Z;
  vertical_resolution : Z;
}.

Definition initialize (conf : FrameBufferConf) (bg_color : Color) : option Screen :=
  let kscreen := mkScreen (pixels_per_scan_line conf) (horizontal_resolution conf) (vertical_resolution conf) bg_color (frame_buffer conf) in
  fill_rectangle (mkPoint 0 0) (mkPoint (width kscreen) (height kscreen)) (code bg_color) kscreen.

(** ** Text *)

Definition is_ascii_code (c : Z) : bool := c <=? 0x7E.

Definition utf8_size (c : Z) : Z :=
  if c <? 0x80 then 1
  else if (0xc0 <=? c) && (c <? 0xe0) then 2
  else if (0xe0 <=? c) && (c <? 0xf0) then 3
  else if (0xf0 <=? c) && (c <? 0xf8) then 4
  else 0.

(** [utf8] is an address; the shifts stay below 21 bits. *)
Definition utf8_to_unicode (m : Mem) (utf8 : Z) : Z :=
  let b k := load m (utf8 + k) in
  match utf8_size (b 0) with
  | 1 => b 0
  | 2 => Z.lor (Z.shiftl (Z.land (b 0) 0x1f) 6) (Z.shiftl (Z.land (b 1) 0x3f) 0)
  | 3 => Z.lor (Z.lor (Z.shiftl (Z.land (b 0) 0x0f) 12) (Z.shiftl (Z.land (b 1) 0x3f) 6)) (Z.shiftl (Z.land (b 2) 0x3f) 0)
  | 4 => Z.lor (Z.lor (Z.lor (Z.shiftl (Z.land (b 0) 0x07) 18) (Z.shiftl (Z.land (b 1) 0x3f) 12)) (Z.shiftl (Z.land (b 2) 0x3f) 6)) (Z.shiftl (Z.land (b 3) 0x3f) 0)
  | _ => 0
  end.

(** [BitmapFont{ 8, 16 }] *)
Definition FONT_WIDTH : Z := 8.
Definition FONT_HEIGHT : Z := 16.

Section font.
Context (font_data : list Z).

(** The index of the glyph, [None] for [nullptr]; [c] is a [char]. *)
Definition get_font (c : Z) : option Z :=
  let index := u32 (FONT_HEIGHT * u32 c) in
  if lenz font_data <=? index then None else Some index.

(** [(font[dy] << dx & 0x80) != 0] *)
Definition glyph_bit (row dx : Z) : bool := negb (Z.land (Z.shiftl row dx) 0x80 =? 0).

Definition write_ascii (position : Point2D) (c color_code : Z) (s : Screen) : option Screen :=
  match get_font c with
  | None => Some s
  | Some font =>
      for_n (Z.to_nat FONT_HEIGHT) 0 (fun dy s =>
        for_n (Z.to_nat FONT_WIDTH) 0 (fun dx s =>
          row ← atz font_data (font + dy);
          if glyph_bit row dx then put_pixel (point_add position (mkPoint dx dy)) color_code s else Some s) s) s
  end.

Definition write_unicode (position : Point2D) (c color_code : Z) (s : Screen) : option Screen :=
  if is_ascii_code c then write_ascii position c color_code s
  else
    s ← write_ascii position 63 color_code s;
    write_ascii (point_add position (mkPoint FONT_WIDTH 0)) 63 color_code s.

(** The loop over the string; [None] inside when it still runs after [fuel] rounds. *)
Fixpoint write_string_from (fuel : nat) (m : Mem) (position : Point2D) (font_position s color_code : Z) (scr : Screen) : option (option Screen) :=
  if load m s =? 0 then Some (Some scr)
  else
    match fuel with
    | O => Some None
    | S fuel =>
        let size := utf8_size (load m s) in
        let c := utf8_to_unicode m s in
        scr ← write_unicode (point_add position (mkPoint (i32 (font_position * FONT_WIDTH)) 0)) c color_code scr;
        write_string_from fuel m position (i32 (font_position + (if is_ascii_code c then 1 else 2))) (s + size) color_code scr
    end.
Definition write_string (fuel : nat) (m : Mem) (position : Point2D) (s color_code : Z) (scr : Screen) : option (option Screen) :=
  write_string_from fuel m position 0 s color_code scr.

(** ** The log *)

Record Sink := mkSink { kernel_cursor_x : Z; kernel_cursor_y : Z; kscreen : Screen }.
Definition GLYPH_WIDTH : Z := 8.
Definition GLYPH_HEIGHT : Z := 16.
Definition sink_init (s : Screen) : Sink := mkSink 0 5 s.

Definition advance_line (k : Sink) : option Sink :=
  let y := i32 (kernel_cursor_y k + 1) in
  let rows := Z.quot (height (kscreen k)) GLYPH_HEIGHT in
  let y := if rows <=? y then 0 else y in
  s ← fill_rectangle (mkPoint 0 (i32 (y * GLYPH_HEIGHT))) (mkPoint (width (kscreen k)) GLYPH_HEIGHT) (code (bg_color_ (kscreen k))) (kscreen k);
  Some (mkSink 0 y s).

(** The characters are [char]s, from -128 to 127. *)
Fixpoint sink_line (line : list Z) (k : Sink) : option Sink :=
  match line with
  | [] => Some k
  | c :: line =>
      let p := mkPoint (i32 (kernel_cursor_x k * GLYPH_WIDTH)) (i32 (kernel_cursor_y k * GLYPH_HEIGHT)) in
      s ← write_ascii p c 0xffff00 (kscreen k);
      let k := mkSink (i32 (kernel_cursor_x k + 1)) (kernel_cursor_y k) s in
      k ← (if c =? 10 then advance_line k else if 98 <=? kernel_cursor_x k then advance_line k else Some k);
      sink_line line k
  end.

(** [line] without its terminator. *)
Definition screen_log_sink (line : list Z) (k : Sink) : option Sink :=
  k ← sink_line line k;
  advance_line k.

(** ** System calls *)

(** The buffer of 256 bytes is at [buf]; [None] inside when the call does not return
    within [fuel] rounds. *)
Definition sys_draw_text (fuel : nat) (buf arg1 arg2 arg3 arg4 : Z) (m : Mem) (s : Screen) : option (option (Z * Mem * Screen)) :=
  let x := i32 arg2 in
  let y := i32 arg3 in
  let color := u32 arg4 in
  let (len, m) := copy_string_from_user buf arg1 256 m in
  if len <? 0 then Some (Some (0, m, s))
  else
    r ← write_string fuel m (mkPoint x y) buf color s;
    Some (match r with Some s => Some (len, m, s) | None => None end).
End font.

Definition sys_fill_rect (arg1 arg2 arg3 arg4 arg5 : Z) (s : Screen) : option (Z * Screen) :=
  s ← fill_rectangle (mkPoint (i32 arg1) (i32 arg2)) (mkPoint (i32 arg3) (i32 arg4)) (u32 arg5) s;
  Some (err OK, s).
