(* ===== verification/GraphicsSpec.v ===== *)
(** * What drawing promises

    Nothing is written outside the visible part of the frame buffer; rectangles and
    text come out as asked; and text that is not UTF-8 keeps the kernel busy for
    ever. *)

From S2P Require Import Prelude Message UserMem Graphics.

Open Scope Z_scope.

(** ** Painting *)

Record screen_ok (s : Screen) : Prop := mkScreenOk {
  so_width : 0 <= horizontal_resolution_ s < 2 ^ 31;
  so_height : 0 <= vertical_resolution_ s < 2 ^ 31;
  so_line : horizontal_resolution_ s <= pixels_per_scan_line_ s < 2 ^ 32;
  so_pixels : lenz (frame_buffer_ s) = pixels_per_scan_line_ s * vertical_resolution_ s;
}.

Definition on_screen (s : Screen) (x y : Z) : bool := (0 <=? x) && (x <? horizontal_resolution_ s) && (0 <=? y) && (y <? vertical_resolution_ s).

(** The points of [P] on the screen have colour [v], all other pixels, those behind
    the visible part of a line included, are as before. *)
Record painted (P : Z -> Z -> bool) (v : Z) (s s' : Screen) : Prop := mkPainted {
  pa_line : pixels_per_scan_line_ s' = pixels_per_scan_line_ s;
  pa_width : horizontal_resolution_ s' = horizontal_resolution_ s;
  pa_height : vertical_resolution_ s' = vertical_resolution_ s;
  pa_bg : bg_color_ s' = bg_color_ s;
  pa_len : lenz (frame_buffer_ s') = lenz (frame_buffer_ s);
  pa_pixels : forall i, 0 <= i < lenz (frame_buffer_ s) -> let x := i mod pixels_per_scan_line_ s in let y := i / pixels_per_scan_line_ s in
    atz (frame_buffer_ s') i = if on_screen s x y && P x y then Some v else atz (frame_buffer_ s) i;
}.

Lemma painted_refl v s : painted (fun _ _ => false) v s s.
Proof. split; try done. intros i Hi. cbv zeta. by rewrite andb_false_r. Qed.

Lemma painted_ok P v s s' : screen_ok s -> painted P v s s' -> screen_ok s'.
Proof. intros [H1 H2 H3 H4] [E1 E2 E3 _ E5 _]. split; rewrite ?E1, ?E2, ?E3, ?E5; done. Qed.

Lemma painted_trans P Q v s1 s2 s3 : painted P v s1 s2 -> painted Q v s2 s3 -> painted (fun x y => P x y || Q x y) v s1 s3.
Proof.
  intros [A1 A2 A3 A4 A5 A6] [B1 B2 B3 B4 B5 B6]. split; [congruence|congruence|congruence|congruence|congruence|]. intros i Hi. cbv zeta. rewrite B6 by (by rewrite A5). cbv zeta. rewrite A1, A6 by done. cbv zeta.
  assert (forall x y, on_screen s2 x y = on_screen s1 x y) as -> by (intros; unfold on_screen; by rewrite A2, A3). destruct (on_screen _ _ _); [|done]. cbn [andb]. by destruct (P _ _), (Q _ _).
Qed.

Lemma painted_ext P Q v s s' : (forall x y, on_screen s x y = true -> P x y = Q x y) -> painted P v s s' -> painted Q v s s'.
Proof.
  intros H [E1 E2 E3 E4 E5 E6]. split; try done. intros i Hi. cbv zeta. rewrite E6 by done. cbv zeta. destruct (on_screen _ _ _) eqn:E; [|done]. by rewrite (H _ _ E).
Qed.

Lemma painted_none P v s : (forall x y, on_screen s x y = true -> P x y = false) -> painted P v s s.
Proof. intros H. apply (painted_ext (fun _ _ => false)); [|apply painted_refl]. intros x y Hxy. by rewrite H. Qed.

(** ** Points *)

Definition is_int (n : Z) : Prop := - 2 ^ 31 <= n < 2 ^ 31.

Lemma put_pixel_ok p v s : screen_ok s -> exists s', put_pixel p v s = Some s' /\ painted (fun x y => (x =? x_ p) && (y =? y_ p)) v s s'.
Proof.
  intros [H1 H2 H3 H4]. unfold put_pixel. cbv zeta. rewrite !signed_small by lia. destruct (_ || _ || _ || _) eqn:E.
  - exists s. split; [done|]. apply painted_none. unfold on_screen. intros x y Hxy. destruct (Z.eqb_spec x (x_ p)), (Z.eqb_spec y (y_ p)); subst; lia.
  - assert (0 <= x_ p < horizontal_resolution_ s /\ 0 <= y_ p < vertical_resolution_ s) as [Hx Hy] by lia. set (x := x_ p) in *. set (y := y_ p) in *. set (w := pixels_per_scan_line_ s) in *.
    assert (0 <= w * y + x < w * vertical_resolution_ s) as Hi by nia. assert (w * vertical_resolution_ s < 2 ^ 64) by nia. rewrite wrap_small by lia. unfold store_pixel. rewrite H4. fold w.
    destruct (Z.leb_spec 0 (w * y + x)), (Z.ltb_spec (w * y + x) (w * vertical_resolution_ s)); try lia. cbn [andb]. eexists. split; [done|].
    split; try done; cbn [frame_buffer_ set_frame_buffer]; [apply lenz_setz|]. fold w. intros i Hir. cbv zeta. destruct (Z.eq_dec i (w * y + x)) as [->|Hne].
    + rewrite atz_setz_eq by (rewrite H4; fold w; lia). assert ((w * y + x) / w = y) as -> by (symmetry; apply (Z.div_unique _ _ _ x); lia). assert ((w * y + x) mod w = x) as -> by (symmetry; apply (Z.mod_unique _ _ y); lia).
      rewrite !Z.eqb_refl. cbn [andb]. unfold on_screen. destruct (_ && _ && _ && _) eqn:Eo; [done|lia].
    + rewrite atz_setz_ne by lia. destruct (Z.eqb_spec (i mod w) x) as [Em|]; [|by rewrite andb_false_r]. destruct (Z.eqb_spec (i / w) y) as [Ed|]; [|by rewrite !andb_false_r].
      exfalso. apply Hne. rewrite (Z.div_mod i w) by lia. by rewrite Em, Ed.
Qed.

(** ** Loops *)

Definition any_of (n : nat) (P : Z -> bool) : bool := existsb P (seqZ 0 (Z.of_nat n)).

Lemma any_of_true n P : any_of n P = true <-> exists i, 0 <= i < Z.of_nat n /\ P i = true.
Proof.
  unfold any_of. rewrite existsb_exists. split.
  - intros (i & Hi & HP). exists i. split; [|done]. apply list_elem_of_In, elem_of_seqZ in Hi. lia.
  - intros (i & Hi & HP). exists i. split; [|done]. apply list_elem_of_In, elem_of_seqZ. lia.
Qed.

Lemma any_of_spec n P (b : bool) : (b = true <-> exists i, 0 <= i < Z.of_nat n /\ P i = true) -> any_of n P = b.
Proof. intros H. apply eq_true_iff_eq. by rewrite any_of_true, H. Qed.

(** A loop whose rounds paint. *)
Lemma paint_loop n body (P : Z -> Z -> Z -> bool) v s : screen_ok s ->
  (forall i t, 0 <= i < Z.of_nat n -> screen_ok t -> exists t', body i t = Some t' /\ painted (P i) v t t') ->
  exists s', for_n n 0 body s = Some s' /\ painted (fun x y => any_of n (fun i => P i x y)) v s s'.
Proof.
  intros Hs Hb. destruct (for_n_inv (fun k t => painted (fun x y => any_of (Z.to_nat k) (fun i => P i x y)) v s t) n 0 body s) as (s' & E & H).
  - apply painted_none. done.
  - intros i t Hi Hp. destruct (Hb i t ltac:(lia) (painted_ok _ _ _ _ Hs Hp)) as (t' & E & Hp'). exists t'. split; [done|].
    eapply painted_ext; [|eapply painted_trans; [exact Hp|exact Hp']]. intros x y _. cbv beta. symmetry. apply any_of_spec. rewrite orb_true_iff, any_of_true. split.
    + intros [(j & Hj & HP)|HP]; [exists j|exists i]; (split; [lia|done]).
    + intros (j & Hj & HP). destruct (Z.eq_dec j i) as [->|]; [by right|left; exists j; split; [lia|done]].
  - exists s'. split; [done|]. by rewrite Z.add_0_l, Nat2Z.id in H.
Qed.

Lemma fill_rectangle_ok p sz v s : screen_ok s ->
  exists s', fill_rectangle p sz v s = Some s' /\
    painted (fun x y => any_of (Z.to_nat (y_ sz)) (fun dy => any_of (Z.to_nat (x_ sz)) (fun dx => (x =? i32 (x_ p + dx)) && (y =? i32 (y_ p + dy))))) v s s'.
Proof.
  intros Hs. apply (paint_loop _ _ (fun dy x y => any_of (Z.to_nat (x_ sz)) (fun dx => (x =? i32 (x_ p + dx)) && (y =? i32 (y_ p + dy))))); [done|]. intros dy t _ Ht.
  apply (paint_loop _ _ (fun dx x y => (x =? i32 (x_ p + dx)) && (y =? i32 (y_ p + dy)))); [done|]. intros dx u _ Hu. by apply put_pixel_ok.
Qed.

(** The points of a rectangle. *)
Definition in_rect (x0 y0 w h x y : Z) : bool := (x0 <=? x) && (x <? x0 + w) && (y0 <=? y) && (y <? y0 + h).

Lemma fill_rectangle_rect x0 y0 w h v s : screen_ok s -> - 2 ^ 31 <= x0 -> - 2 ^ 31 <= y0 -> x0 + w <= 2 ^ 31 -> y0 + h <= 2 ^ 31 ->
  exists s', fill_rectangle (mkPoint x0 y0) (mkPoint w h) v s = Some s' /\ painted (in_rect x0 y0 w h) v s s'.
Proof.
  intros Hs Hx Hy Hw Hh. destruct (fill_rectangle_ok (mkPoint x0 y0) (mkPoint w h) v s Hs) as (s' & E & Hp). exists s'. split; [done|]. eapply painted_ext; [|exact Hp]. cbn [x_ y_].
  intros x y _. apply any_of_spec. unfold in_rect. split.
  - intros Hr. exists (y - y0). split; [lia|]. apply any_of_true. exists (x - x0). split; [lia|]. replace (x0 + (x - x0)) with x by lia. replace (y0 + (y - y0)) with y by lia. rewrite !signed_small by lia. by rewrite !Z.eqb_refl.
  - intros (dy & Hdy & (dx & Hdx & H)%any_of_true). rewrite !signed_small in H by lia. lia.
Qed.

(** ** Glyphs *)

Section font.
Context (font_data : list Z) (Hfont : lenz font_data = 4096).

(** The points of the glyph of [c], relative to its corner. *)
Definition glyph_ink (c dx dy : Z) : bool :=
  match get_font font_data c with
  | None => false
  | Some f => (0 <=? dx) && (dx <? FONT_WIDTH) && (0 <=? dy) && (dy <? FONT_HEIGHT) &&
      match atz font_data (f + dy) with Some row => glyph_bit row dx | None => false end
  end.

Lemma get_font_row c f dy : get_font font_data c = Some f -> 0 <= dy < FONT_HEIGHT -> exists row, atz font_data (f + dy) = Some row.
Proof.
  unfold get_font. cbv zeta. set (idx := u32 (FONT_HEIGHT * u32 c)). rewrite Hfont. destruct (Z.leb_spec 4096 idx); [done|]. intros [= <-] Hdy. unfold FONT_HEIGHT in *.
  assert (0 <= idx /\ idx mod 16 = 0) as [H0 Hm].
  { unfold idx, wrap. split; [apply Z.mod_pos_bound; lia|]. change (2 ^ 32) with (16 * 2 ^ 28). rewrite Z.mul_mod_distr_l by lia. rewrite Z.mul_comm. by apply Z.mod_mul. }
  pose proof (Z.div_mod idx 16 ltac:(lia)). apply atz_lt. lia.
Qed.

Lemma write_ascii_ok p c v s : screen_ok s ->
  exists s', write_ascii font_data p c v s = Some s' /\
    painted (fun x y => any_of 16 (fun dy => any_of 8 (fun dx => glyph_ink c dx dy && (x =? i32 (x_ p + dx)) && (y =? i32 (y_ p + dy))))) v s s'.
Proof.
  intros Hs. unfold write_ascii, glyph_ink. destruct (get_font font_data c) as [f|] eqn:Ef.
  - apply (paint_loop _ _ (fun dy x y => any_of 8 (fun dx => _ && (x =? i32 (x_ p + dx)) && (y =? i32 (y_ p + dy))))); [done|]. intros dy t Hdy Ht.
    apply (paint_loop _ _ (fun dx x y => _ && (x =? i32 (x_ p + dx)) && (y =? i32 (y_ p + dy)))); [done|]. intros dx u Hdx Hu.
    destruct (get_font_row c f dy Ef) as [row Hrow]; [exact Hdy|]. rewrite Hrow. cbn [mbind option_bind]. change (Z.of_nat (Z.to_nat FONT_WIDTH)) with FONT_WIDTH in Hdx. change (Z.of_nat (Z.to_nat FONT_HEIGHT)) with FONT_HEIGHT in Hdy.
    assert (((0 <=? dx) && (dx <? FONT_WIDTH) && (0 <=? dy) && (dy <? FONT_HEIGHT)) = true) as -> by lia. cbn [andb]. destruct (glyph_bit row dx).
    + by apply put_pixel_ok.
    + exists u. split; [done|]. by apply painted_none.
  - exists s. split; [done|]. apply painted_none. intros x y _. apply any_of_spec. split; [done|]. intros (i & _ & (j & _ & H)%any_of_true). done.
Qed.

(** In place of a position that does not leave the range of [int]. *)
Lemma write_ascii_at px py c v s : screen_ok s -> - 2 ^ 31 <= px -> px + 8 <= 2 ^ 31 -> - 2 ^ 31 <= py -> py + 16 <= 2 ^ 31 ->
  exists s', write_ascii font_data (mkPoint px py) c v s = Some s' /\ painted (fun x y => glyph_ink c (x - px) (y - py)) v s s'.
Proof.
  intros Hs H1 H2 H3 H4. destruct (write_ascii_ok (mkPoint px py) c v s Hs) as (s' & E & Hp). exists s'. split; [done|]. eapply painted_ext; [|exact Hp]. intros x y _. cbn [x_ y_].
  apply any_of_spec. split.
  - intros Hi. assert (0 <= x - px < 8 /\ 0 <= y - py < 16) as [Hx Hy]. { unfold glyph_ink in Hi. destruct (get_font _ _); [|done]. unfold FONT_WIDTH, FONT_HEIGHT in Hi. lia. }
    exists (y - py). split; [lia|]. apply any_of_true. exists (x - px). split; [lia|]. rewrite Hi. replace (px + (x - px)) with x by lia. replace (py + (y - py)) with y by lia. rewrite !signed_small by lia. by rewrite !Z.eqb_refl.
  - intros (dy & Hdy & (dx & Hdx & H)%any_of_true). rewrite !signed_small in H by lia. apply andb_true_iff in H as [[H Hx%Z.eqb_eq]%andb_true_iff Hy%Z.eqb_eq]. subst x y. by replace (px + dx - px) with dx by lia; replace (py + dy - py) with dy by lia.
Qed.

(** Characters outside ASCII take two cells of question marks. *)
Definition cells (c : Z) : Z := if is_ascii_code c then 1 else 2.
Definition unicode_ink (c dx dy : Z) : bool := if is_ascii_code c then glyph_ink c dx dy else glyph_ink 63 dx dy || glyph_ink 63 (dx - 8) dy.

Lemma write_unicode_total p c v s : screen_ok s -> exists s', write_unicode font_data p c v s = Some s' /\ screen_ok s'.
Proof.
  intros Hs. unfold write_unicode. destruct (is_ascii_code c).
  - destruct (write_ascii_ok p c v s Hs) as (s' & E & Hp). exists s'. split; [done|]. by eapply painted_ok.
  - destruct (write_ascii_ok p 63 v s Hs) as (s1 & -> & Hp). cbn [mbind option_bind]. apply (painted_ok _ _ _ _ Hs) in Hp as Hs1.
    destruct (write_ascii_ok (point_add p (mkPoint FONT_WIDTH 0)) 63 v s1 Hs1) as (s2 & E & Hp2). exists s2. split; [done|]. by eapply painted_ok.
Qed.

Lemma write_unicode_at px py c v s : screen_ok s -> - 2 ^ 31 <= px -> px + 16 <= 2 ^ 31 -> - 2 ^ 31 <= py -> py + 16 <= 2 ^ 31 ->
  exists s', write_unicode font_data (mkPoint px py) c v s = Some s' /\ painted (fun x y => unicode_ink c (x - px) (y - py)) v s s'.
Proof.
  intros Hs H1 H2 H3 H4. unfold write_unicode, unicode_ink. destruct (is_ascii_code c); [by apply write_ascii_at; try lia|].
  destruct (write_ascii_at px py 63 v s) as (s1 & -> & Hp1); [done|lia|lia|lia|lia|]. cbn [mbind option_bind]. apply (painted_ok _ _ _ _ Hs) in Hp1 as Hs1.
  unfold point_add. cbn [x_ y_]. unfold FONT_WIDTH. rewrite !signed_small by lia. destruct (write_ascii_at (px + 8) (py + 0) 63 v s1) as (s2 & -> & Hp2); [done|lia|lia|lia|lia|].
  exists s2. split; [done|]. eapply painted_ext; [|eapply painted_trans; [exact Hp1|exact Hp2]]. intros x y _. cbv beta. f_equal. f_equal; lia.
Qed.
End font.

(** ** UTF-8 *)

(** The code points and their encodings. *)
Definition scalar (c : Z) : Prop := 0 < c < 0x110000.
Definition utf8 (c : Z) : list Z :=
  if c <? 0x80 then [c]
  else if c <? 0x800 then [0xc0 + c / 2 ^ 6; 0x80 + c mod 2 ^ 6]
  else if c <? 0x10000 then [0xe0 + c / 2 ^ 12; 0x80 + c / 2 ^ 6 mod 2 ^ 6; 0x80 + c mod 2 ^ 6]
  else [0xf0 + c / 2 ^ 18; 0x80 + c / 2 ^ 12 mod 2 ^ 6; 0x80 + c / 2 ^ 6 mod 2 ^ 6; 0x80 + c mod 2 ^ 6].

(** The bytes [l] are at address [a]. *)
Definition bytes_at (m : Mem) (a : Z) (l : list Z) : Prop := forall k b, l !! k = Some b -> load m (a + Z.of_nat k) = b.

Lemma bytes_at_app m a l l' : bytes_at m a (l ++ l') <-> bytes_at m a l /\ bytes_at m (a + lenz l) l'.
Proof.
  split.
  - intros H. split; intros k b Hk; [apply H; by apply lookup_app_l_Some|]. rewrite <- Z.add_assoc. unfold lenz. rewrite <- Nat2Z.inj_add. apply H. rewrite lookup_app_r by lia. by replace (length l + k - length l)%nat with k by lia.
  - intros [H1 H2] k b Hk. apply lookup_app_Some in Hk as [Hk|[Hl Hk]]; [by apply H1|]. replace (a + Z.of_nat k) with (a + lenz l + Z.of_nat (k - length l)) by (unfold lenz; lia). by apply H2.
Qed.

Lemma low_bits b a n k : 0 <= n -> 0 <= a < 2 ^ n -> b = k * 2 ^ n + a -> Z.land b (Z.ones n) = a.
Proof. intros Hn Ha ->. rewrite Z.land_ones by done. rewrite Z.add_comm, Z.mod_add by lia. by apply Z.mod_small. Qed.

(** The size of a sequence from its first byte. *)
Ltac size_of := unfold utf8_size; repeat match goal with |- context [if ?b then _ else _] => destruct b eqn:? end; lia.

(** Decoding inverts encoding. *)
Lemma utf8_decode m a c : scalar c -> bytes_at m a (utf8 c) -> utf8_size (load m a) = lenz (utf8 c) /\ utf8_to_unicode m a = c /\ load m a <> 0.
Proof.
  intros Hc Hb. assert (forall k b, utf8 c !! k = Some b -> load m (a + Z.of_nat k) = b) as H by exact Hb. clear Hb. unfold scalar in Hc. unfold utf8_to_unicode, utf8 in *.
  pose proof (Z.div_mod c (2 ^ 6) ltac:(done)) as D1. pose proof (Z.mod_pos_bound c (2 ^ 6) ltac:(done)) as M1. pose proof (Z.div_mod (c / 2 ^ 6) (2 ^ 6) ltac:(done)) as D2. pose proof (Z.mod_pos_bound (c / 2 ^ 6) (2 ^ 6) ltac:(done)) as M2.
  rewrite Z.div_div in D2 by done. pose proof (Z.div_mod (c / 2 ^ 12) (2 ^ 6) ltac:(done)) as D3. pose proof (Z.mod_pos_bound (c / 2 ^ 12) (2 ^ 6) ltac:(done)) as M3. rewrite Z.div_div in D3 by done.
  change (2 ^ 6 * 2 ^ 6) with (2 ^ 12) in *. change (2 ^ 12 * 2 ^ 6) with (2 ^ 18) in *.
  destruct (Z.ltb_spec c 0x80); [|destruct (Z.ltb_spec c 0x800); [|destruct (Z.ltb_spec c 0x10000)]];
    pose proof (H 0%nat _ eq_refl) as B0; cbn [Z.of_nat] in B0; rewrite Z.add_0_r in *; rewrite B0.
  - unfold utf8_size. destruct (Z.ltb_spec c 0x80); [|lia]. split_and!; [done|done|lia].
  - pose proof (H 1%nat _ eq_refl) as B1. change (Z.of_nat 1) with 1 in B1. rewrite B1. set (h := c / 2 ^ 6) in *. set (l := c mod 2 ^ 6) in *. assert (utf8_size (0xc0 + h) = 2) as -> by size_of.
    split_and!; [done| |lia]. change 0x1f with (Z.ones 5). change 0x3f with (Z.ones 6). rewrite (low_bits (0xc0 + h) h 5 6), (low_bits (0x80 + l) l 6 2) by lia. rewrite Z.shiftl_0_r, lor_shift_add by lia. lia.
  - pose proof (H 1%nat _ eq_refl) as B1. pose proof (H 2%nat _ eq_refl) as B2. change (Z.of_nat 1) with 1 in B1. change (Z.of_nat 2) with 2 in B2. rewrite B1, B2. set (h := c / 2 ^ 12) in *. set (i := c / 2 ^ 6 mod 2 ^ 6) in *. set (l := c mod 2 ^ 6) in *.
    assert (utf8_size (0xe0 + h) = 3) as -> by size_of. split_and!; [done| |lia]. change 0x0f with (Z.ones 4). change 0x3f with (Z.ones 6).
    rewrite (low_bits (0xe0 + h) h 4 14), (low_bits (0x80 + i) i 6 2), (low_bits (0x80 + l) l 6 2) by lia. rewrite Z.shiftl_0_r. rewrite (Z.shiftl_mul_pow2 i) by lia. rewrite (lor_shift_add h (i * 2 ^ 6) 12) by lia.
    replace (h * 2 ^ 12 + i * 2 ^ 6) with (Z.shiftl (h * 2 ^ 6 + i) 6) by (rewrite Z.shiftl_mul_pow2; lia). rewrite lor_shift_add by lia. lia.
  - pose proof (H 1%nat _ eq_refl) as B1. pose proof (H 2%nat _ eq_refl) as B2. pose proof (H 3%nat _ eq_refl) as B3. change (Z.of_nat 1) with 1 in B1. change (Z.of_nat 2) with 2 in B2. change (Z.of_nat 3) with 3 in B3. rewrite B1, B2, B3.
    set (h := c / 2 ^ 18) in *. set (j := c / 2 ^ 12 mod 2 ^ 6) in *. set (i := c / 2 ^ 6 mod 2 ^ 6) in *. set (l := c mod 2 ^ 6) in *.
    assert (utf8_size (0xf0 + h) = 4) as -> by size_of. split_and!; [done| |lia]. change 0x07 with (Z.ones 3). change 0x3f with (Z.ones 6).
    rewrite (low_bits (0xf0 + h) h 3 30), (low_bits (0x80 + j) j 6 2), (low_bits (0x80 + i) i 6 2), (low_bits (0x80 + l) l 6 2) by lia. rewrite Z.shiftl_0_r. rewrite (Z.shiftl_mul_pow2 j), (Z.shiftl_mul_pow2 i) by lia. rewrite (lor_shift_add h (j * 2 ^ 12) 18) by lia.
    replace (h * 2 ^ 18 + j * 2 ^ 12) with (Z.shiftl (h * 2 ^ 6 + j) 12) by (rewrite Z.shiftl_mul_pow2; lia). rewrite lor_shift_add by lia.
    replace ((h * 2 ^ 6 + j) * 2 ^ 12 + i * 2 ^ 6) with (Z.shiftl ((h * 2 ^ 6 + j) * 2 ^ 6 + i) 6) by (rewrite Z.shiftl_mul_pow2; lia). rewrite lor_shift_add by lia. lia.
Qed.

Definition encoded (cs : list Z) : list Z := mjoin (utf8 <$> cs).

Lemma encoded_cons c cs : encoded (c :: cs) = utf8 c ++ encoded cs.
Proof. done. Qed.

(** The points of a text, relative to its corner; [fp] cells are before it. *)
Fixpoint text_ink (font_data : list Z) (cs : list Z) (fp dx dy : Z) : bool :=
  match cs with
  | [] => false
  | c :: cs => unicode_ink font_data c (dx - 8 * fp) dy || text_ink font_data cs (fp + cells c) dx dy
  end.

(** A byte that starts no sequence. *)
Definition bad_byte (b : Z) : Prop := 0x80 <= b < 0xc0 \/ 0xf8 <= b < 256.

Section string.
Context (font_data : list Z) (Hfont : lenz font_data = 4096).

Lemma write_string_text m px py v cs : forall fuel fp s scr, screen_ok scr -> Forall scalar cs -> bytes_at m s (encoded cs ++ [0]) -> (length cs <= fuel)%nat ->
  0 <= fp -> fp + 2 * lenz cs <= 2 ^ 20 -> - 2 ^ 31 <= px -> px + 8 * (fp + 2 * lenz cs) <= 2 ^ 31 -> - 2 ^ 31 <= py -> py + 16 <= 2 ^ 31 ->
  exists scr', write_string_from font_data fuel m (mkPoint px py) fp s v scr = Some (Some scr') /\ painted (fun x y => text_ink font_data cs fp (x - px) (y - py)) v scr scr'.
Proof.
  induction cs as [|c cs IH]; intros fuel fp s scr Hs Hc Hb Hf Hfp Hlim H1 H2 H3 H4.
  - pose proof (Hb 0%nat 0 eq_refl) as H0. rewrite Z.add_0_r in H0. exists scr. destruct fuel; cbn [write_string_from]; rewrite H0; (split; [done|apply painted_refl]).
  - apply Forall_cons in Hc as [Hc Hcs]. rewrite lenz_cons in *. pose proof (lenz_nonneg cs). rewrite encoded_cons, <- app_assoc in Hb. apply bytes_at_app in Hb as [Hb Hbs].
    destruct (utf8_decode m s c Hc Hb) as (Esz & Ec & E0). destruct fuel as [|fuel]; [simpl in Hf; lia|]. cbn [write_string_from]. destruct (Z.eqb_spec (load m s) 0); [done|]. rewrite Esz, Ec.
    unfold point_add. cbn [x_ y_]. unfold FONT_WIDTH. rewrite (signed_small 32 (fp * 8)), (signed_small 32 (px + fp * 8)), (signed_small 32 (py + 0)) by lia.
    destruct (write_unicode_at font_data Hfont (px + fp * 8) (py + 0) c v scr) as (s1 & -> & Hp1); [done|lia|lia|lia|lia|]. cbn [mbind option_bind]. apply (painted_ok _ _ _ _ Hs) in Hp1 as Hs1.
    fold (cells c). assert (1 <= cells c <= 2) as Hcell by (unfold cells; destruct (is_ascii_code c); lia). rewrite signed_small by lia.
    destruct (IH fuel (fp + cells c) (s + lenz (utf8 c)) s1) as (s2 & -> & Hp2); [done|done|done|simpl in Hf; lia|lia|lia|lia|lia|lia|lia|].
    exists s2. split; [done|]. eapply painted_ext; [|eapply painted_trans; [exact Hp1|exact Hp2]]. intros x y _. cbn [text_ink]. f_equal. f_equal; lia.
Qed.

(** At a bad byte the loop makes no progress. *)
Lemma write_string_stuck m s p v fuel : forall fp scr, screen_ok scr -> bad_byte (load m s) -> write_string_from font_data fuel m p fp s v scr = Some None.
Proof.
  induction fuel as [|fuel IH]; intros fp scr Hs Hb; cbn [write_string_from]; (destruct (Z.eqb_spec (load m s) 0) as [E|_]; [unfold bad_byte in Hb; lia|]); [done|].
  assert (utf8_size (load m s) = 0) as -> by (unfold bad_byte in Hb; size_of). destruct (write_unicode_total font_data Hfont (point_add p (mkPoint (i32 (fp * FONT_WIDTH)) 0)) (utf8_to_unicode m s) v scr Hs) as (s1 & -> & Hs1).
  cbn [mbind option_bind]. rewrite Z.add_0_r. by apply IH.
Qed.

Lemma write_string_hangs m p v b cs : forall fuel fp s scr, screen_ok scr -> Forall scalar cs -> bad_byte b -> bytes_at m s (encoded cs ++ [b]) ->
  write_string_from font_data fuel m p fp s v scr = Some None.
Proof.
  induction cs as [|c cs IH]; intros fuel fp s scr Hs Hc Hbad Hb.
  - apply write_string_stuck; [done|]. pose proof (Hb 0%nat b eq_refl) as H0. rewrite Z.add_0_r in H0. by rewrite H0.
  - apply Forall_cons in Hc as [Hc Hcs]. rewrite encoded_cons, <- app_assoc in Hb. apply bytes_at_app in Hb as [Hb Hbs].
    destruct (utf8_decode m s c Hc Hb) as (Esz & _ & E0). destruct fuel as [|fuel]; cbn [write_string_from]; (destruct (Z.eqb_spec (load m s) 0); [done|]); [done|]. rewrite Esz.
    destruct (write_unicode_total font_data Hfont (point_add p (mkPoint (i32 (fp * FONT_WIDTH)) 0)) (utf8_to_unicode m s) v scr Hs) as (s1 & -> & Hs1). cbn [mbind option_bind]. by apply IH.
Qed.
End string.

(** ** Text from user programs *)

(** A string of a user program, with its terminator. *)
Record user_string (m : Mem) (a : Z) (l : list Z) : Prop := mkUserString {
  us_bytes : bytes_at m a (l ++ [0]);
  us_nonzero : Forall (fun b => b <> 0) l;
  us_place : user_start <= a /\ a + lenz l + 1 < user_end;
}.

Lemma user_string_copied m buf a l n : user_string m a l -> lenz l < n -> 0 < buf -> buf + n <= user_start ->
  exists m', copy_string_from_user buf a n m = (lenz l, m') /\ bytes_at m' buf (l ++ [0]) /\ forall x, x < buf \/ buf + n <= x -> m' x = m x.
Proof.
  intros [Hb Hnz [Ha He]] Hl Hbuf Hend. unfold user_start, user_end in *. pose proof (lenz_nonneg l).
  assert (forall j, 0 <= j <= lenz l -> is_user_address (u64 (a + j)) 1 = true /\ (load m (a + j) = 0 <-> j = lenz l)) as Hj.
  { intros j Hj. split; [rewrite wrap_small by lia; unfold is_user_address, user_start, user_end; rewrite wrap_small by lia; lia|].
    destruct (Z.eq_dec j (lenz l)) as [->|Hne]; [split; [done|]; intros _; apply (Hb (length l) 0); by rewrite lookup_app_r, Nat.sub_diag by lia|]. split; [|done]. intros E. exfalso.
    destruct (lookup_lt_is_Some_2 l (Z.to_nat j)) as [b Hlk]; [unfold lenz in *; lia|]. rewrite Forall_lookup in Hnz. apply (Hnz _ _ Hlk).
    rewrite <- E. rewrite <- (Hb (Z.to_nat j) b); [f_equal; lia|by apply lookup_app_l_Some]. }
  destruct (copy_string_from_user_correct buf a n m) as (r & m' & E & Hfr & _ & Hcase); [done|lia|lia|done|]. exists m'.
  destruct Hcase as [(Hr & Ht & H0 & _ & Hc)|[_ [Ht|(k & Hk & Ht & Hu)]]].
  - assert (r = lenz l) as -> by (destruct (Z.lt_trichotomy r (lenz l)) as [?|[?|?]]; [apply Hj in H0; lia|done|destruct (Ht (lenz l)) as [_ Hno]; [lia|]; destruct Hno; by apply Hj]).
    split; [done|]. split; [|done]. intros k b Hk. apply lookup_lt_Some in Hk as Hlt. rewrite length_app in Hlt. cbn [length] in Hlt. unfold load. rewrite wrap_small by (unfold lenz in *; lia). rewrite Hc by (unfold lenz; lia). by apply Hb.
  - destruct (Ht (lenz l)) as [_ Hno]; [lia|]. destruct Hno. by apply Hj.
  - destruct (Z.le_gt_cases k (lenz l)) as [Hle|Hgt]; [destruct (Hj k) as [Hu' _]; [lia|congruence]|]. destruct (Ht (lenz l)) as [_ Hno]; [lia|]. destruct Hno. by apply Hj.
Qed.

Section calls.
Context (font_data : list Z) (Hfont : lenz font_data = 4096).


(** (text that is not UTF-8) A text in which a byte that starts no sequence follows correct characters
    makes the call run for ever: no number of rounds is enough. *)
Theorem draw_text_hangs fuel buf a x y color m s cs b l : screen_ok s -> user_string m a (encoded cs ++ b :: l) -> Forall scalar cs -> bad_byte b -> lenz (encoded cs ++ b :: l) < 256 ->
  0 < buf -> buf + 256 <= user_start -> sys_draw_text font_data fuel buf a x y color m s = Some None.
Proof.
  intros Hs Hu Hc Hbad Hl Hb Hbe. destruct (user_string_copied m buf a _ 256 Hu Hl Hb Hbe) as (m' & E & Hby & _). unfold sys_draw_text. rewrite E. pose proof (lenz_nonneg (encoded cs ++ b :: l)).
  destruct (Z.ltb_spec (lenz (encoded cs ++ b :: l)) 0); [lia|]. unfold write_string. rewrite (write_string_hangs font_data Hfont m' _ _ b cs); [done|done|done|done|].
  replace ((encoded cs ++ b :: l) ++ [0]) with ((encoded cs ++ [b]) ++ l ++ [0]) in Hby by (by rewrite <- !app_assoc). by apply bytes_at_app in Hby as [? _].
Qed.
End calls.

(** (rectangles) For all arguments the call returns and stays inside the visible part of the frame
    buffer; when the rectangle is within the range of [int], exactly its part on the
    screen gets the colour. *)
Theorem fill_rect_correct a1 a2 a3 a4 a5 s : screen_ok s -> exists s', sys_fill_rect a1 a2 a3 a4 a5 s = Some (err OK, s') /\ screen_ok s' /\
  (forall i, 0 <= i < lenz (frame_buffer_ s) -> on_screen s (i mod pixels_per_scan_line_ s) (i / pixels_per_scan_line_ s) = false -> atz (frame_buffer_ s') i = atz (frame_buffer_ s) i) /\
  (i32 a1 + i32 a3 <= 2 ^ 31 -> i32 a2 + i32 a4 <= 2 ^ 31 -> painted (in_rect (i32 a1) (i32 a2) (i32 a3) (i32 a4)) (u32 a5) s s').
Proof.
  intros Hs. unfold sys_fill_rect. destruct (fill_rectangle_ok (mkPoint (i32 a1) (i32 a2)) (mkPoint (i32 a3) (i32 a4)) (u32 a5) s Hs) as (s' & E & Hp). rewrite E. cbn [mbind option_bind].
  exists s'. split; [done|]. split; [by eapply painted_ok|]. split.
  - intros i Hi Hoff. rewrite (pa_pixels _ _ _ _ Hp i Hi). by rewrite Hoff.
  - intros Hx Hy. destruct (fill_rectangle_rect (i32 a1) (i32 a2) (i32 a3) (i32 a4) (u32 a5) s Hs) as (s2 & E2 & Hp2); [apply (signed_range 32); lia|apply (signed_range 32); lia|done|done|]. by assert (s2 = s') as <- by congruence.
Qed.

(** ** The log *)

(** Only visible pixels change. *)
Record visible_only (s s' : Screen) : Prop := mkVisible {
  vi_ok : screen_ok s';
  vi_dims : horizontal_resolution_ s' = horizontal_resolution_ s /\ vertical_resolution_ s' = vertical_resolution_ s /\ pixels_per_scan_line_ s' = pixels_per_scan_line_ s;
  vi_hidden : forall i, 0 <= i < lenz (frame_buffer_ s) -> on_screen s (i mod pixels_per_scan_line_ s) (i / pixels_per_scan_line_ s) = false -> atz (frame_buffer_ s') i = atz (frame_buffer_ s) i;
}.

Lemma painted_visible P v s s' : screen_ok s -> painted P v s s' -> visible_only s s'.
Proof. intros Hs Hp. split; [by eapply painted_ok|by destruct Hp|]. intros i Hi Hoff. rewrite (pa_pixels _ _ _ _ Hp i Hi). by rewrite Hoff. Qed.

Lemma visible_refl s : screen_ok s -> visible_only s s.
Proof. intros Hs. by split. Qed.

Lemma visible_trans s1 s2 s3 : screen_ok s1 -> visible_only s1 s2 -> visible_only s2 s3 -> visible_only s1 s3.
Proof.
  intros [_ _ _ L1] [O2 (W2 & H2 & P2) V2] [O3 (W3 & H3 & P3) V3]. pose proof O2 as [_ _ _ L2]. assert (lenz (frame_buffer_ s2) = lenz (frame_buffer_ s1)) as Hl by congruence.
  split; [done|split_and!; congruence|]. intros i Hi Hoff. rewrite V3, V2; [done|done|done|lia|]. unfold on_screen in *. by rewrite W2, H2, P2.
Qed.

(** The cursor is in range. *)
Record sink_ok (k : Sink) : Prop := mkSinkOk {
  sk_screen : screen_ok (kscreen k);
  sk_x : 0 <= kernel_cursor_x k < 98;
  sk_y : 0 <= kernel_cursor_y k < 2 ^ 27;
}.

Definition rows (s : Screen) : Z := vertical_resolution_ s / 16.

Section log.
Context (font_data : list Z) (Hfont : lenz font_data = 4096).

Lemma advance_line_ok k : screen_ok (kscreen k) -> 0 <= kernel_cursor_y k < 2 ^ 27 -> exists k', advance_line k = Some k' /\ sink_ok k' /\ visible_only (kscreen k) (kscreen k') /\
  kernel_cursor_x k' = 0 /\ kernel_cursor_y k' < Z.max 1 (rows (kscreen k)).
Proof.
  intros Hs Hy. pose proof Hs as [H1 H2 _ _]. unfold advance_line, width, height, GLYPH_HEIGHT. cbv zeta. rewrite (signed_small 32 (kernel_cursor_y k + 1)), (signed_small 32 (vertical_resolution_ (kscreen k))) by lia.
  rewrite Z.quot_div_nonneg by lia. fold (rows (kscreen k)). assert (rows (kscreen k) < 2 ^ 27) by (apply Z.div_lt_upper_bound; lia). set (y := if _ <=? _ then 0 else _).
  assert (0 <= y < 2 ^ 27 /\ y < Z.max 1 (rows (kscreen k))) as [Hy' Hy2] by (unfold y; destruct (Z.leb_spec (rows (kscreen k)) (kernel_cursor_y k + 1)); lia).
  destruct (fill_rectangle_ok (mkPoint 0 (i32 (y * 16))) (mkPoint (i32 (horizontal_resolution_ (kscreen k))) 16) (code (bg_color_ (kscreen k))) (kscreen k) Hs) as (s' & -> & Hp). cbn [mbind option_bind].
  eexists. split; [done|]. cbn [kscreen kernel_cursor_x kernel_cursor_y]. split; [split; cbn [kscreen kernel_cursor_x kernel_cursor_y]; [by eapply painted_ok|lia|lia]|]. split; [by eapply painted_visible|done].
Qed.

Lemma sink_line_ok line : forall k, sink_ok k -> exists k', sink_line font_data line k = Some k' /\ sink_ok k' /\ visible_only (kscreen k) (kscreen k').
Proof.
  induction line as [|c line IH]; intros k Hk.
  - exists k. split; [done|]. split; [done|]. apply visible_refl, Hk.
  - pose proof Hk as [Hs Hx Hy]. cbn [sink_line]. destruct (write_ascii_ok font_data Hfont (mkPoint (i32 (kernel_cursor_x k * GLYPH_WIDTH)) (i32 (kernel_cursor_y k * GLYPH_HEIGHT))) c 0xffff00 (kscreen k) Hs) as (s1 & -> & Hp).
    cbn [mbind option_bind]. pose proof (painted_ok _ _ _ _ Hs Hp) as Hs1. apply (painted_visible _ _ _ _ Hs) in Hp. rewrite signed_small by lia. cbn [kernel_cursor_x]. set (k1 := mkSink (kernel_cursor_x k + 1) (kernel_cursor_y k) s1).
    assert (exists k2, (if c =? 10 then advance_line k1 else if 98 <=? kernel_cursor_x k + 1 then advance_line k1 else Some k1) = Some k2 /\ sink_ok k2 /\ visible_only s1 (kscreen k2)) as (k2 & -> & Hk2 & Hv2).
    { destruct (advance_line_ok k1 Hs1 Hy) as (k2 & E & Hk2 & Hv2 & _). destruct (c =? 10); [by exists k2|]. destruct (Z.leb_spec 98 (kernel_cursor_x k + 1)); [by exists k2|].
      exists k1. split; [done|]. split; [split; cbn [k1 kscreen kernel_cursor_x kernel_cursor_y]; [done|lia|lia]|]. by apply visible_refl. }
    cbn [mbind option_bind]. destruct (IH k2 Hk2) as (k3 & E & Hk3 & Hv3). exists k3. split; [done|]. split; [done|]. apply (visible_trans _ s1); [done|done|]. by apply (visible_trans _ (kscreen k2)).
Qed.

(** (log) Whatever is logged, drawing a line of the log returns, leaves the cursor at the start of
    a line that is on the screen, and changes visible pixels only. *)
Theorem log_sink_stays_on_screen line k : sink_ok k -> exists k', screen_log_sink font_data line k = Some k' /\ sink_ok k' /\ visible_only (kscreen k) (kscreen k') /\
  kernel_cursor_x k' = 0 /\ kernel_cursor_y k' < Z.max 1 (rows (kscreen k)).
Proof.
  intros Hk. unfold screen_log_sink. destruct (sink_line_ok line k Hk) as (k1 & -> & Hk1 & Hv1). cbn [mbind option_bind]. destruct (advance_line_ok k1) as (k2 & E & Hk2 & Hv2 & Hx & Hy); [apply Hk1|apply Hk1|].
  exists k2. split; [done|]. split; [done|]. split; [by eapply visible_trans; [apply Hk|..]|]. split; [done|]. destruct Hv1 as [_ (_ & Hh & _) _]. unfold rows in *. by rewrite <- Hh.
Qed.
End log.

(** ** Concrete screens *)

Definition small_screen : Screen := mkScreen 20 16 16 (mkColor 0 0 0) (replicate 320 0).
Definition blank_font : list Z := replicate 4096 0x80.

Lemma small_screen_ok : screen_ok small_screen.
Proof. split; cbn; try lia. reflexivity. Qed.

Lemma fill_rect_correct_witness : exists s', sys_fill_rect 14 2 5 3 7 small_screen = Some (err OK, s') /\ painted (in_rect 14 2 5 3) 7 small_screen s'.
Proof. destruct (fill_rect_correct 14 2 5 3 7 small_screen small_screen_ok) as (s' & E & _ & _ & Hp). exists s'. split; [exact E|]. apply Hp; vm_compute; intros H; discriminate H. Defined.

Lemma log_sink_stays_on_screen_witness : exists k', screen_log_sink blank_font [104; 105] (sink_init small_screen) = Some k' /\ kernel_cursor_y k' < 1.
Proof.
  destruct (log_sink_stays_on_screen blank_font eq_refl [104; 105] (sink_init small_screen)) as (k' & E & _ & _ & _ & Hy); [split; [apply small_screen_ok|cbn; lia|cbn; lia]|]. exists k'. split; [exact E|exact Hy].
Defined.

(** A program's string at [user_start]: a pound sign and a letter, or a stray byte. *)
Definition string_mem (l : list Z) : Mem := fun x => default 0 (atz l (x - user_start)).

Lemma string_mem_ok l : Forall (fun b => b <> 0) l -> lenz l < 256 -> user_string (string_mem l) user_start l.
Proof.
  intros Hl Hn. split; [|done|unfold user_start, user_end; lia]. intros k b Hk. apply lookup_lt_Some in Hk as Hlt. rewrite length_app in Hlt. cbn [length] in Hlt. unfold load, string_mem, user_start. rewrite wrap_small by (unfold lenz in *; lia).
  replace (0xffff800000000000 + Z.of_nat k - 0xffff800000000000) with (Z.of_nat k) by lia. unfold atz. destruct (Z.leb_spec 0 (Z.of_nat k)); [|lia]. rewrite Nat2Z.id.
  apply lookup_app_Some in Hk as [Hk|[Hge Hk]]; [by rewrite Hk|]. rewrite lookup_ge_None_2 by done. destruct (k - length l)%nat as [|j]; [by injection Hk|by destruct j].
Qed.


Lemma draw_text_hangs_witness : sys_draw_text blank_font 9 4096 user_start 0 0 7 (string_mem [65; 0x80]) small_screen = Some None.
Proof.
  apply (draw_text_hangs blank_font eq_refl 9 4096 user_start 0 0 7 (string_mem [65; 0x80]) small_screen [65] 0x80 []).
  - apply small_screen_ok.
  - apply string_mem_ok; [repeat constructor; discriminate|reflexivity].
  - repeat constructor.
  - left. lia.
  - reflexivity.
  - lia.
  - unfold user_start. lia.
Defined.
