(* ===== verification/Fd.v ===== *)
(** * File descriptor tables

    [libs/common/file_descriptor.hpp] and [kernel/fs/file_descriptor.cpp]: the
    per-process table of routing records.  The table of a task is an array
    member of it, so the pointer to it is never null and [table_size] is its
    length. *)

From stdpp Require Import strings.
From S2P Require Import Prelude Message.

Open Scope Z_scope.

(** ** Definitions *)

Definition NO_FD : Z := -1.
Definition STDIN_FILENO : Z := 0.
Definition STDOUT_FILENO : Z := 1.
Definition STDERR_FILENO : Z := 2.
Definition MAX_FDS_PER_PROCESS : Z := 32.

Inductive FdRoute := ROUTE_NONE | ROUTE_CONSOLE | ROUTE_FS.

(** [name] is the NUL-terminated content of the 13-byte array. *)
Record FileDescriptor := mkFd {
  fd_name : string;
  route : FdRoute;
  dest : Z;
  handle : Z;
}.

Definition is_unused (f : FileDescriptor) : bool := bool_decide (fd_name f = EmptyString).
Definition is_used (f : FileDescriptor) : bool := negb (is_unused f).
Definition clear (f : FileDescriptor) : FileDescriptor :=
  mkFd EmptyString ROUTE_NONE process_ids.INVALID 0.
Definition has_name (target : string) (f : FileDescriptor) : bool := bool_decide (fd_name f = target).

(** [strncpy(dst, src, 12)] into a 13-byte array that ends in NUL. *)
Definition label (name : string) : string := String.substring 0 12 name.

Definition std_fd (name : string) : FileDescriptor :=
  mkFd (label name) ROUTE_CONSOLE process_ids.SHELL 0.

(** Overwrite entry [fd] when it is inside the table. *)
Definition set_std (fd : Z) (name : string) (t : list FileDescriptor) : list FileDescriptor :=
  if fd <? lenz t then setz t fd (std_fd name) else t.

Definition init_process_fd_table (t : list FileDescriptor) : list FileDescriptor :=
  set_std STDERR_FILENO "stderr" (set_std STDOUT_FILENO "stdout" (set_std STDIN_FILENO "stdin" (clear <$> t))).

(** Index of the first unused entry at or after [i]. *)
Fixpoint first_unused (i : Z) (t : list FileDescriptor) : option Z :=
  match t with
  | [] => None
  | f :: t' => if is_unused f then Some i else first_unused (i + 1) t'
  end.

Definition allocate_process_fd (name : string) (h : Z) (t : list FileDescriptor) : Z * list FileDescriptor :=
  match first_unused 0 t with
  | Some i => (i, setz t i (mkFd (label name) ROUTE_FS process_ids.FS_FAT32 h))
  | None => (NO_FD, t)
  end.

Definition get_process_fd (fd : Z) (t : list FileDescriptor) : option FileDescriptor :=
  if (fd <? 0) || (lenz t <=? fd) then None
  else
    match atz t fd with
    | Some f => if is_unused f then None else Some f
    | None => None
    end.

Definition release_process_fd (fd : Z) (t : list FileDescriptor) : Z * list FileDescriptor :=
  if (fd <? 0) || (lenz t <=? fd) then (err ERR_INVALID_ARG, t)
  else if (fd =? STDIN_FILENO) || (fd =? STDOUT_FILENO) || (fd =? STDERR_FILENO) then (err ERR_INVALID_FD, t)
  else
    match atz t fd with
    | Some f => if is_unused f then (err ERR_INVALID_FD, t) else (err OK, setz t fd (clear f))
    | None => (err ERR_INVALID_FD, t)
    end.

Definition dup_process_fd (oldfd newfd : Z) (t : list FileDescriptor) : Z * list FileDescriptor :=
  match get_process_fd oldfd t with
  | None => (err ERR_INVALID_FD, t)
  | Some f => if (newfd <? 0) || (lenz t <=? newfd) then (err ERR_INVALID_FD, t) else (err OK, setz t newfd f)
  end.

(** The child's table after copying the parent's. *)
Definition copy_fd_table (src : list FileDescriptor) : list FileDescriptor :=
  (fun f => if is_used f then f else clear f) <$> src.

(** [release_process_fd] for the used entries [i], [i + 1], ... *)
Fixpoint release_fds_from (n : nat) (i : Z) (t : list FileDescriptor) : list FileDescriptor :=
  match n with
  | O => t
  | S n' =>
      let std := (i =? STDIN_FILENO) || (i =? STDOUT_FILENO) || (i =? STDERR_FILENO) in
      let used := match atz t i with Some f => is_used f | None => false end in
      release_fds_from n' (i + 1) (if negb std && used then snd (release_process_fd i t) else t)
  end.

Definition release_all_process_fds (t : list FileDescriptor) : list FileDescriptor :=
  release_fds_from (length t) 0 t.

(** ** Properties *)

Lemma first_unused_spec t : forall i,
  match first_unused i t with
  | Some k => i <= k < i + lenz t /\ (exists f, atz t (k - i) = Some f /\ is_unused f = true) /\
      forall j f, i <= j < k -> atz t (j - i) = Some f -> is_unused f = false
  | None => forall j f, atz t j = Some f -> is_unused f = false
  end.
Proof.
  induction t as [|f t IH]; intros i; simpl.
  { intros j f [_ Hf]%atz_Some. done. }
  pose proof (lenz_nonneg t). destruct (is_unused f) eqn:Eu.
  - rewrite lenz_cons. split_and!; [lia|lia| |intros; lia]. exists f. by rewrite Z.sub_diag.
  - assert (forall j g, 0 < j -> atz (f :: t) j = Some g -> atz t (j - 1) = Some g) as Htl.
    { intros j g Hj [_ Hg]%atz_Some. apply atz_Some. split; [lia|].
      replace (Z.to_nat j) with (S (Z.to_nat (j - 1))) in Hg by lia. done. }
    specialize (IH (i + 1)). destruct (first_unused (i + 1) t) as [k|].
    + destruct IH as (Hk & (g & Hg & Hgu) & Hlow). rewrite lenz_cons. split_and!; [lia|lia| |].
      * exists g. split; [|done]. apply atz_Some in Hg as [_ Hg]. apply atz_Some. split; [lia|].
        replace (Z.to_nat (k - i)) with (S (Z.to_nat (k - (i + 1)))) by lia. done.
      * intros j g' Hj Hg'. destruct (Z.eq_dec j i) as [->|Hne].
        -- rewrite Z.sub_diag in Hg'. injection Hg' as <-. done.
        -- apply (Hlow j); [lia|]. apply Htl in Hg'; [|lia]. by replace (j - (i + 1)) with (j - i - 1) by lia.
    + intros j g Hg. pose proof (atz_Some_lt _ _ _ Hg). destruct (Z.eq_dec j 0) as [->|Hne].
      * by injection Hg as <-.
      * apply (IH (j - 1)). apply Htl; [lia|done].
Qed.

Lemma get_process_fd_spec fd t :
  get_process_fd fd t = (f ← atz t fd; if is_unused f then None else Some f).
Proof.
  unfold get_process_fd. destruct (atz t fd) as [f|] eqn:E; [|by destruct (_ || _)].
  pose proof (atz_Some_lt _ _ _ E). destruct (Z.ltb_spec fd 0), (Z.leb_spec (lenz t) fd); try lia. done.
Qed.

Lemma get_setz fd fd' f t : 0 <= fd < lenz t ->
  get_process_fd fd' (setz t fd f) =
  if fd' =? fd then (if is_unused f then None else Some f) else get_process_fd fd' t.
Proof.
  intros Hfd. rewrite !get_process_fd_spec. destruct (Z.eqb_spec fd' fd) as [->|Hne].
  - by rewrite atz_setz_eq.
  - by rewrite atz_setz_ne by lia.
Qed.

Lemma label_nonempty name : name <> EmptyString -> label name <> EmptyString.
Proof. by destruct name. Qed.

Lemma get_process_fd_copy t fd : get_process_fd fd (copy_fd_table t) = get_process_fd fd t.
Proof.
  rewrite !get_process_fd_spec. unfold copy_fd_table, atz. destruct (0 <=? fd); [|done].
  rewrite list_lookup_fmap. destruct (t !! Z.to_nat fd) as [f|]; [|done]. simpl. unfold is_used.
  destruct (is_unused f) eqn:Eu; simpl; [done|by rewrite Eu].
Qed.

(** The descriptor table: [allocate_process_fd] fills the lowest unused entry
    and touches no other, or fails on a full table; a non-standard descriptor
    is found until it is released and not after; [dup_process_fd] makes the new
    descriptor equal to the old; a forked child sees exactly the parent's
    descriptors. *)
Theorem fd_table_correct t name h :
  name <> EmptyString ->
  (exists fd t', allocate_process_fd name h t = (fd, t') /\ lenz t' = lenz t /\
     ((0 <= fd < lenz t /\ get_process_fd fd t = None /\
       (forall j, 0 <= j < fd -> get_process_fd j t <> None) /\
       get_process_fd fd t' = Some (mkFd (label name) ROUTE_FS process_ids.FS_FAT32 h) /\
       (forall j, j <> fd -> get_process_fd j t' = get_process_fd j t)) \/
      (fd = NO_FD /\ t' = t /\ forall j, 0 <= j < lenz t -> get_process_fd j t <> None))) /\
  (forall fd f, 2 < fd -> get_process_fd fd t = Some f ->
     exists t', release_process_fd fd t = (err OK, t') /\ get_process_fd fd t' = None /\
       forall j, j <> fd -> get_process_fd j t' = get_process_fd j t) /\
  (forall oldfd newfd f, get_process_fd oldfd t = Some f -> 0 <= newfd < lenz t ->
     exists t', dup_process_fd oldfd newfd t = (err OK, t') /\ get_process_fd newfd t' = Some f /\
       forall j, j <> newfd -> get_process_fd j t' = get_process_fd j t) /\
  (forall fd, get_process_fd fd (copy_fd_table t) = get_process_fd fd t).
Proof.
  intros Hname. split_and!.
  - unfold allocate_process_fd. pose proof (first_unused_spec t 0) as Hf. destruct (first_unused 0 t) as [k|].
    + destruct Hf as (Hk & (f & Hf & Hu) & Hlow). rewrite Z.sub_0_r in Hf. eexists _, _. split; [done|].
      rewrite lenz_setz. split; [done|]. left. split_and!; [lia|lia| | | |].
      * rewrite get_process_fd_spec, Hf. simpl. by rewrite Hu.
      * intros j Hj. rewrite get_process_fd_spec. destruct (atz_lt t j) as [g Hg]; [lia|]. rewrite Hg. simpl.
        rewrite (Hlow j g); [done|lia|by rewrite Z.sub_0_r].
      * rewrite get_setz, Z.eqb_refl by lia. unfold is_unused. cbn [fd_name].
        rewrite bool_decide_false by (by apply label_nonempty). done.
      * intros j Hj. rewrite get_setz by lia. destruct (Z.eqb_spec j k); done.
    + eexists _, _. split; [done|]. split; [done|]. right. split_and!; try done. intros j Hj.
      rewrite get_process_fd_spec. destruct (atz_lt t j) as [g Hg]; [lia|]. rewrite Hg. simpl. by rewrite (Hf j g Hg).
  - intros fd f Hfd Hget. rewrite get_process_fd_spec in Hget. destruct (atz t fd) as [g|] eqn:E; [|done].
    simpl in Hget. pose proof (atz_Some_lt _ _ _ E) as Hr. unfold release_process_fd, STDIN_FILENO, STDOUT_FILENO, STDERR_FILENO.
    destruct (Z.ltb_spec fd 0), (Z.leb_spec (lenz t) fd); try lia. simpl.
    destruct (Z.eqb_spec fd 0), (Z.eqb_spec fd 1), (Z.eqb_spec fd 2); try lia. simpl. rewrite E.
    destruct (is_unused g); [done|]. eexists. split; [done|]. split.
    + by rewrite get_setz, Z.eqb_refl by lia.
    + intros j Hj. rewrite get_setz by lia. destruct (Z.eqb_spec j fd); done.
  - intros oldfd newfd f Hget Hnew. unfold dup_process_fd. rewrite Hget.
    destruct (Z.ltb_spec newfd 0), (Z.leb_spec (lenz t) newfd); try lia. simpl. eexists. split; [done|].
    assert (is_unused f = false) as Hu.
    { rewrite get_process_fd_spec in Hget. destruct (atz t oldfd) as [g|]; [|done]. simpl in Hget.
      destruct (is_unused g) eqn:Eg; [done|]. by injection Hget as <-. }
    split.
    + rewrite get_setz, Z.eqb_refl by lia. by rewrite Hu.
    + intros j Hj. rewrite get_setz by lia. destruct (Z.eqb_spec j newfd); done.
  - intros fd. apply get_process_fd_copy.
Qed.

Lemma fd_table_correct_witness :
  exists t', allocate_process_fd "FILE.TXT" 7 (init_process_fd_table (replicate 32 (clear (std_fd EmptyString)))) = (3, t').
Proof.
  destruct (fd_table_correct (init_process_fd_table (replicate 32 (clear (std_fd EmptyString)))) "FILE.TXT" 7) as
    ((fd & t' & E & _) & _); [done|].
  assert (fst (allocate_process_fd "FILE.TXT" 7 (init_process_fd_table (replicate 32 (clear (std_fd EmptyString))))) = 3) as H3
    by reflexivity.
  exists t'. rewrite E in H3. simpl in H3. by rewrite E, H3.
Defined.
