(* ===== verification/Task.v ===== *)
(** * Tasks, the scheduler and IPC

    [kernel/task/task.cpp], [ipc.cpp] and their headers: the task table, the
    run queue, message delivery, notifications, remote calls, out-of-line
    buffers and child exits.

    A [Task*] is the number of its slot in [tasks].  The run queue is the
    sequence that [List.v] shows the intrusive list to implement.  Each
    definition below is one region that runs with interrupts disabled, or a
    function that consists of one; the blocking loops are split at the point
    where they give up the processor.  Register contexts, stacks and page tables
    are not part of the state. *)

From stdpp Require Import strings.
From S2P Require Import Prelude Pages Message MessageQueue UserMem Fd.

Open Scope Z_scope.

(** ** Definitions *)

Inductive TaskState := TASK_RUNNING | TASK_READY | TASK_WAITING | TASK_EXITED.

Inductive WaitReason := WAIT_NONE | WAIT_RECEIVE | WAIT_NOTIFY | WAIT_REPLY | WAIT_CHILD.

#[export] Instance TaskState_eq_dec : EqDecision TaskState.
Proof. solve_decision. Defined.
#[export] Instance WaitReason_eq_dec : EqDecision WaitReason.
Proof. solve_decision. Defined.

Record ChildExitRecord := mkExit {
  pid : Z;
  status : Z;
}.

Record OolRegion := mkRegion {
  kaddr : Z;
  uaddr : Z;
  region_pages : Z;
}.

Definition no_region : OolRegion := mkRegion 0 0 0.

Definition MAX_TASKS : Z := 100.
Definition MAX_CHILD_EXIT_RECORDS : Z := 8.
Definition MAX_OOL_REGIONS : Z := 16.

(** [exit_records] is the occupied prefix of the array. *)
Record Task := mkTask {
  id : Z;
  parent_id : Z;
  name : string;
  is_initialized : bool;
  just_forked : bool;
  state : TaskState;
  messages : MessageQueue;
  pending_notifications : Z;
  wait_reason : WaitReason;
  wait_notify_mask : Z;
  next_correlation : Z;
  call_correlation : Z;
  reply_pending : bool;
  reply_slot : Message;
  exit_records : list ChildExitRecord;
  ool_regions : list OolRegion;
  fd_table : list FileDescriptor;
}.

(** The constructor; [storage] says whether the message ring was allocated. *)
Definition new_task (raw_id : Z) (task_name : string) (st : TaskState) (is_init storage : bool) : Task :=
  mkTask raw_id (-1) (String.substring 0 31 task_name) is_init false st (new_queue storage) 0 WAIT_NONE 0 0 0
    false zero_message [] (replicate (Z.to_nat MAX_OOL_REGIONS) no_region)
    (init_process_fd_table (replicate (Z.to_nat MAX_FDS_PER_PROCESS) (clear (std_fd EmptyString)))).

Definition set_state (st : TaskState) (t : Task) : Task :=
  mkTask (id t) (parent_id t) (name t) (is_initialized t) (just_forked t) st (messages t)
    (pending_notifications t) (wait_reason t) (wait_notify_mask t) (next_correlation t)
    (call_correlation t) (reply_pending t) (reply_slot t) (exit_records t) (ool_regions t) (fd_table t).
Definition set_wait_reason (r : WaitReason) (t : Task) : Task :=
  mkTask (id t) (parent_id t) (name t) (is_initialized t) (just_forked t) (state t) (messages t)
    (pending_notifications t) r (wait_notify_mask t) (next_correlation t)
    (call_correlation t) (reply_pending t) (reply_slot t) (exit_records t) (ool_regions t) (fd_table t).
Definition set_wait_notify_mask (m : Z) (t : Task) : Task :=
  mkTask (id t) (parent_id t) (name t) (is_initialized t) (just_forked t) (state t) (messages t)
    (pending_notifications t) (wait_reason t) m (next_correlation t)
    (call_correlation t) (reply_pending t) (reply_slot t) (exit_records t) (ool_regions t) (fd_table t).
Definition set_messages (q : MessageQueue) (t : Task) : Task :=
  mkTask (id t) (parent_id t) (name t) (is_initialized t) (just_forked t) (state t) q
    (pending_notifications t) (wait_reason t) (wait_notify_mask t) (next_correlation t)
    (call_correlation t) (reply_pending t) (reply_slot t) (exit_records t) (ool_regions t) (fd_table t).
Definition set_pending (p : Z) (t : Task) : Task :=
  mkTask (id t) (parent_id t) (name t) (is_initialized t) (just_forked t) (state t) (messages t)
    p (wait_reason t) (wait_notify_mask t) (next_correlation t)
    (call_correlation t) (reply_pending t) (reply_slot t) (exit_records t) (ool_regions t) (fd_table t).
Definition set_next_correlation (c : Z) (t : Task) : Task :=
  mkTask (id t) (parent_id t) (name t) (is_initialized t) (just_forked t) (state t) (messages t)
    (pending_notifications t) (wait_reason t) (wait_notify_mask t) c
    (call_correlation t) (reply_pending t) (reply_slot t) (exit_records t) (ool_regions t) (fd_table t).
Definition set_call (c : Z) (p : bool) (t : Task) : Task :=
  mkTask (id t) (parent_id t) (name t) (is_initialized t) (just_forked t) (state t) (messages t)
    (pending_notifications t) (wait_reason t) (wait_notify_mask t) (next_correlation t)
    c p (reply_slot t) (exit_records t) (ool_regions t) (fd_table t).
Definition set_reply (m : Message) (p : bool) (t : Task) : Task :=
  mkTask (id t) (parent_id t) (name t) (is_initialized t) (just_forked t) (state t) (messages t)
    (pending_notifications t) (wait_reason t) (wait_notify_mask t) (next_correlation t)
    (call_correlation t) p m (exit_records t) (ool_regions t) (fd_table t).
Definition set_exit_records (r : list ChildExitRecord) (t : Task) : Task :=
  mkTask (id t) (parent_id t) (name t) (is_initialized t) (just_forked t) (state t) (messages t)
    (pending_notifications t) (wait_reason t) (wait_notify_mask t) (next_correlation t)
    (call_correlation t) (reply_pending t) (reply_slot t) r (ool_regions t) (fd_table t).
Definition set_regions (r : list OolRegion) (t : Task) : Task :=
  mkTask (id t) (parent_id t) (name t) (is_initialized t) (just_forked t) (state t) (messages t)
    (pending_notifications t) (wait_reason t) (wait_notify_mask t) (next_correlation t)
    (call_correlation t) (reply_pending t) (reply_slot t) (exit_records t) r (fd_table t).
Definition set_fd_table (f : list FileDescriptor) (t : Task) : Task :=
  mkTask (id t) (parent_id t) (name t) (is_initialized t) (just_forked t) (state t) (messages t)
    (pending_notifications t) (wait_reason t) (wait_notify_mask t) (next_correlation t)
    (call_correlation t) (reply_pending t) (reply_slot t) (exit_records t) (ool_regions t) f.
Definition set_forked (p : Z) (j : bool) (t : Task) : Task :=
  mkTask (id t) p (name t) (is_initialized t) j (state t) (messages t)
    (pending_notifications t) (wait_reason t) (wait_notify_mask t) (next_correlation t)
    (call_correlation t) (reply_pending t) (reply_slot t) (exit_records t) (ool_regions t) (fd_table t).

(** The global state of [task.cpp]. *)
Record Sys := mkSys {
  tasks : list (option Task);
  run_queue : list Z;
  CURRENT_TASK : Z;
  IDLE_TASK : Z;
  task_pending_reap : option Task;
}.

Definition set_tasks (ts : list (option Task)) (s : Sys) : Sys :=
  mkSys ts (run_queue s) (CURRENT_TASK s) (IDLE_TASK s) (task_pending_reap s).
Definition set_run_queue (q : list Z) (s : Sys) : Sys :=
  mkSys (tasks s) q (CURRENT_TASK s) (IDLE_TASK s) (task_pending_reap s).
Definition set_current (c : Z) (s : Sys) : Sys :=
  mkSys (tasks s) (run_queue s) c (IDLE_TASK s) (task_pending_reap s).
Definition set_reap (t : option Task) (s : Sys) : Sys :=
  mkSys (tasks s) (run_queue s) (CURRENT_TASK s) (IDLE_TASK s) t.

(** [tasks[i]] through an index that may be out of range: a fault then. *)
Definition task_at (i : Z) (s : Sys) : option (option Task) := atz (tasks s) i.

(** Dereference of the [Task*] of slot [i]; null is a fault. *)
Definition the_task (i : Z) (s : Sys) : option Task := o ← task_at i s; o.

Definition put_task (i : Z) (t : Task) (s : Sys) : Sys := set_tasks (setz (tasks s) i (Some t)) s.

(** *** The task table *)

Fixpoint find_free_slot (i : Z) (ts : list (option Task)) : Z :=
  match ts with
  | [] => -1
  | None :: _ => i
  | Some _ :: ts' => find_free_slot (i + 1) ts'
  end.

Definition get_available_task_id (s : Sys) : Z := find_free_slot 0 (tasks s).

Fixpoint find_by_name (n : string) (ts : list (option Task)) : Z :=
  match ts with
  | [] => -1
  | None :: ts' => find_by_name n ts'
  | Some t :: ts' => if decide (name t = n) then id t else find_by_name n ts'
  end.

Definition get_task_id_by_name (n : string) (s : Sys) : Z := find_by_name n (tasks s).

(** The slot of the task, [None] for [nullptr]. *)
Definition get_task (i : Z) (s : Sys) : option (option Z) :=
  if (i <? 0) || (MAX_TASKS <=? i) then Some None
  else o ← task_at i s; Some (match o with Some _ => Some i | None => None end).

Definition create_task (n : string) (is_init storage : bool) (s : Sys) : option Z * Sys :=
  let task_id := get_available_task_id s in
  if task_id =? -1 then (None, s)
  else (Some task_id, put_task task_id (new_task task_id n TASK_WAITING is_init storage) s).

(** *** The scheduler *)

Definition schedule_task (i : Z) (s : Sys) : option Sys :=
  if (i <? 0) || (lenz (tasks s) <=? i) then Some s
  else
    o ← task_at i s;
    match o with
    | None => Some s
    | Some t =>
        let s := put_task i (set_state TASK_READY t) s in
        if decide (i ∈ run_queue s) then Some s
        else Some (set_run_queue (run_queue s ++ [i]) s)
    end.

(** A queue entry whose task is gone is a dangling pointer, a fault. *)
Definition pick_next_task (s : Sys) : option Sys :=
  match run_queue s with
  | [] => Some (set_current (IDLE_TASK s) s)
  | i :: q =>
      t ← the_task i s;
      Some (set_current i (put_task i (set_state TASK_RUNNING t) (set_run_queue q s)))
  end.

(** [switch_task] up to the restored context, which is that of the new
    [CURRENT_TASK]. *)
Definition switch_task (s : Sys) : option Sys :=
  let s := set_reap None s in
  t ← the_task (CURRENT_TASK s) s;
  s ← (if decide (state t = TASK_EXITED) then
         Some (set_tasks (setz (tasks s) (CURRENT_TASK s) None) (set_reap (Some t) s))
       else if decide (state t = TASK_WAITING) then Some s
       else schedule_task (CURRENT_TASK s) s);
  pick_next_task s.

(** What [switch_next_task(true)] does before the software interrupt. *)
Definition sleep_current (s : Sys) : option Sys :=
  t ← the_task (CURRENT_TASK s) s;
  Some (put_task (CURRENT_TASK s) (set_state TASK_WAITING (set_wait_reason WAIT_NONE t)) s).

(** *** Notifications *)

Inductive NotifyType := N_XHCI | N_VIRTIO_BLK | N_VIRTIO_NET_RX | N_VIRTIO_NET_TX | N_TIMER.

Definition notify_index (n : NotifyType) : Z :=
  match n with
  | N_XHCI => 0 | N_VIRTIO_BLK => 1 | N_VIRTIO_NET_RX => 2 | N_VIRTIO_NET_TX => 3 | N_TIMER => 4
  end.

Definition notify_bit (n : NotifyType) : Z := Z.shiftl 1 (notify_index n).

Definition NOTIFY_MESSAGE_TYPES : list MsgType :=
  [NOTIFY_XHCI; NOTIFY_VIRTIO_BLK; NOTIFY_VIRTIO_NET_RX; NOTIFY_VIRTIO_NET_TX; NOTIFY_TIMER_TIMEOUT].

Definition notify (i : Z) (n : NotifyType) (s : Sys) : option Sys :=
  if (i <? 0) || (MAX_TASKS <=? i) then Some s
  else
    o ← task_at i s;
    match o with
    | None => Some s
    | Some t =>
        let t := set_pending (Z.lor (pending_notifications t) (notify_bit n)) t in
        let s := put_task i t s in
        if negb (bool_decide (state t = TASK_WAITING)) then Some s
        else if bool_decide (wait_reason t = WAIT_NOTIFY) && (Z.land (wait_notify_mask t) (notify_bit n) =? 0)
        then Some s
        else schedule_task i s
    end.

(** [__builtin_ctz]: the lowest set bit, by search over 32 bits. *)
Fixpoint ctz_from (n : nat) (i x : Z) : Z :=
  match n with
  | O => i
  | S n' => if Z.testbit x i then i else ctz_from n' (i + 1) x
  end.

Definition builtin_ctz (x : Z) : Z := ctz_from 32 0 x.

(** The message drained from the lowest pending bit, and the task without it.
    A bit beyond the table is a fault. *)
Definition pop_notification (t : Task) : option (option Message * Task) :=
  if pending_notifications t =? 0 then Some (None, t)
  else
    let bit := builtin_ctz (pending_notifications t) in
    ty ← atz NOTIFY_MESSAGE_TYPES bit;
    Some (Some (new_message ty process_ids.INTERRUPT),
      set_pending (Z.land (pending_notifications t) (u32 (pending_notifications t - 1))) t).

(** *** Sending and receiving *)

(** The delivery of a reply to its slot. *)
Definition deliver_reply (dst : Z) (m : Message) (t : Task) (s : Sys) : option (Z * Sys) :=
  if (call_correlation t =? 0) || negb (call_correlation t =? correlation m) || reply_pending t
  then Some (err ERR_INVALID_ARG, s)
  else
    let s := put_task dst (set_reply m true t) s in
    if decide (state t = TASK_WAITING /\ wait_reason t = WAIT_REPLY)
    then s ← schedule_task dst s; Some (err OK, s)
    else Some (err OK, s).

(** The delivery of a message to the ring. *)
Definition deliver_message (dst : Z) (m : Message) (t : Task) (s : Sys) : option (Z * Sys) :=
  match push m (messages t) with
  | (false, _) => Some (err ERR_QUEUE_FULL, s)
  | (true, q) =>
      let s := put_task dst (set_messages q t) s in
      if decide (state t = TASK_WAITING /\ (wait_reason t = WAIT_RECEIVE \/ wait_reason t = WAIT_NONE))
      then s ← schedule_task dst s; Some (err OK, s)
      else Some (err OK, s)
  end.

(** One atomic step.  The code reads [tasks[dst]] before it masks the interrupts, and
    delivers after: a destination that goes away in between is not modelled. *)
Definition send_message (dst : Z) (m : Message) (s : Sys) : option (Z * Sys) :=
  if dst =? -1 then Some (err ERR_INVALID_ARG, s)
  else
    o ← task_at dst s;
    match o with
    | None => Some (err ERR_INVALID_TASK, s)
    | Some t => if is_reply m then deliver_reply dst m t s else deliver_message dst m t s
    end.

(** [pop_notification(t, out) || t->messages.pop(out)] *)
Definition try_receive_task (t : Task) : option (option Message * Task) :=
  '(n, t) ← pop_notification t;
  match n with
  | Some m => Some (Some m, t)
  | None => '(r, q) ← pop (messages t); Some (r, set_messages q t)
  end.

Definition try_receive (i : Z) (s : Sys) : option (option Message * Sys) :=
  t ← the_task i s;
  '(r, t) ← try_receive_task t;
  Some (r, put_task i t s).

(** One round of [receive_blocking]: a message, or the task is parked and must
    give up the processor. *)
Definition receive_poll (s : Sys) : option (option Message * Sys) :=
  let c := CURRENT_TASK s in
  t ← the_task c s;
  '(r, t) ← try_receive_task t;
  match r with
  | Some m => Some (Some m, put_task c (set_wait_reason WAIT_NONE (set_state TASK_RUNNING t)) s)
  | None => Some (None, put_task c (set_state TASK_WAITING (set_wait_reason WAIT_RECEIVE t)) s)
  end.

(** One round of [wait_notification]; [true] when it returns. *)
Definition wait_notification_poll (mask : Z) (s : Sys) : option (bool * Sys) :=
  let c := CURRENT_TASK s in
  t ← the_task c s;
  if negb (Z.land (pending_notifications t) mask =? 0)
  then Some (true, put_task c (set_wait_reason WAIT_NONE
                (set_pending (Z.land (pending_notifications t) (wnot 32 mask)) t)) s)
  else Some (false, put_task c (set_state TASK_WAITING (set_wait_notify_mask mask
                (set_wait_reason WAIT_NOTIFY t))) s).

(** *** Remote calls *)

(** The next correlation number: the counter, skipping zero. *)
Definition next_corr (t : Task) : Z * Task :=
  let c := u32 (next_correlation t + 1) in
  if c =? 0 then let c' := u32 (c + 1) in (c', set_next_correlation c' t)
  else (c, set_next_correlation c t).

(** [call] up to its wait loop: an error, or [None] when the request is sent
    and the caller has to wait. *)
Definition call_send (dst : Z) (m : Message) (s : Sys) : option (option Z * Sys) :=
  let c := CURRENT_TASK s in
  t ← the_task c s;
  if dst =? id t then Some (Some (err ERR_INVALID_ARG), s)
  else
    let (corr, t) := next_corr t in
    let m := set_result (err OK) (set_flags (Z.land (flags m) (wnot 32 MSG_FLAG_REPLY))
               (set_correlation corr (set_sender (id t) m))) in
    let s := put_task c (set_call corr false t) s in
    '(e, s) ← send_message dst m s;
    if IS_ERR e then
      t ← the_task c s;
      Some (Some e, put_task c (set_call 0 (reply_pending t) t) s)
    else Some (None, s).

(** One round of the wait loop of [call]: the reply, or the caller is parked. *)
Definition call_poll (s : Sys) : option (option Message * Sys) :=
  let c := CURRENT_TASK s in
  t ← the_task c s;
  if reply_pending t
  then Some (Some (reply_slot t),
         put_task c (set_wait_reason WAIT_NONE (set_state TASK_RUNNING (set_call 0 false t))) s)
  else Some (None, put_task c (set_state TASK_WAITING (set_wait_reason WAIT_REPLY t)) s).

Definition reply (req resp : Message) (s : Sys) : option (Z * Sys) :=
  if correlation req =? 0 then Some (err OK, s)
  else
    t ← the_task (CURRENT_TASK s) s;
    let resp := set_flags (Z.lor (flags resp) MSG_FLAG_REPLY)
                  (set_correlation (correlation req) (set_sender (id t) resp)) in
    send_message (sender req) resp s.

(** *** Child exits *)

Definition record_child_exit (parent child st : Z) (s : Sys) : option Sys :=
  t ← the_task parent s;
  if MAX_CHILD_EXIT_RECORDS <=? lenz (exit_records t) then Some s
  else
    let s := put_task parent (set_exit_records (exit_records t ++ [mkExit child st]) t) s in
    if decide (state t = TASK_WAITING /\ wait_reason t = WAIT_CHILD) then schedule_task (id t) s else Some s.

(** One round of [sys_wait]: the oldest record, or the parent is parked. *)
Definition wait_child_poll (s : Sys) : option (option ChildExitRecord * Sys) :=
  let c := CURRENT_TASK s in
  t ← the_task c s;
  match exit_records t with
  | r :: rs => Some (Some r, put_task c (set_wait_reason WAIT_NONE (set_state TASK_RUNNING (set_exit_records rs t))) s)
  | [] => Some (None, put_task c (set_state TASK_WAITING (set_wait_reason WAIT_CHILD t)) s)
  end.

(** *** Out-of-line buffers a task owns *)

(** The address handed to [free], if any, and the message afterwards. *)
Definition free_message_ool (m : Message) : option Z * Message :=
  if (size (ool m) =? 0) || (addr (ool m) =? 0) then (None, m)
  else if is_user_address (addr (ool m)) (size (ool m)) then (None, m)
  else (Some (addr (ool m)), set_ool no_ool m).

(** The addresses freed, in order, and the task with an empty region table. *)
Definition release_ool_regions (t : Task) : list Z * Task :=
  (kaddr <$> filter (fun r => kaddr r <> 0) (ool_regions t),
   set_regions ((fun r => if kaddr r =? 0 then r else no_region) <$> ool_regions t) t).

(** [while (try_receive(t, &m)) free_message_ool(m);] on [fuel] rounds. *)
Fixpoint drain (fuel : nat) (t : Task) : option (list Z * Task) :=
  match fuel with
  | O => fault
  | S fuel =>
      '(r, t) ← try_receive_task t;
      match r with
      | None => Some ([], t)
      | Some m =>
          '(freed, t) ← drain fuel t;
          Some (option_list (fst (free_message_ool m)) ++ freed, t)
      end
  end.

(** A drain ends within one round per notification bit and ring slot, and one
    more that finds nothing. *)
Definition DRAIN_FUEL : nat := 70.

Definition release_all_ool (t : Task) : option (list Z * Task) :=
  let (regions, t) := release_ool_regions t in
  '(queued, t) ← drain DRAIN_FUEL t;
  if reply_pending t then
    let (freed, m) := free_message_ool (reply_slot t) in
    Some (regions ++ queued ++ option_list freed, set_reply m false t)
  else Some (regions ++ queued, t).

(** *** The life of a task *)

Definition has_parent (t : Task) : bool := negb (parent_id t =? -1).

(** [exit_task]; the first component has the addresses handed to [free]. *)
Definition exit_task (st : Z) (s : Sys) : option (list Z * Sys) :=
  let c := CURRENT_TASK s in
  t ← the_task c s;
  let t := set_fd_table (release_all_process_fds (fd_table t)) t in
  '(freed, t) ← release_all_ool t;
  let s := put_task c t s in
  s ← (if has_parent t then
         p ← get_task (parent_id t) s;
         match p with Some parent => record_child_exit parent (id t) st s | None => Some s end
       else Some s);
  t ← the_task c s;
  let s := put_task c (set_state TASK_EXITED t) s in
  s ← switch_task s;
  Some (freed, s).

(** [copy_task]: [storage], [stack_ok] and [table_ok] say whether the
    allocations of the message ring, of the stack and of the page tables
    succeed.  The failure paths return without undoing [create_task]. *)
Definition copy_task (parent : Z) (storage stack_ok table_ok : bool) (s : Sys) : option (option Z * Sys) :=
  p ← the_task parent s;
  match create_task (name p) true storage s with
  | (None, s) => Some (None, s)
  | (Some child, s) =>
      c ← the_task child s;
      let s := put_task child (set_fd_table (copy_fd_table (fd_table p)) (set_forked (id p) true c)) s in
      if negb stack_ok then Some (None, s)
      else if negb table_ok then Some (None, s)
      else Some (Some child, s)
  end.

(** [sys_fork]: the process identifier returned to the caller. *)
Definition sys_fork (storage stack_ok table_ok : bool) (s : Sys) : option (Z * Sys) :=
  let c := CURRENT_TASK s in
  t ← the_task c s;
  if just_forked t then Some (0, put_task c (set_forked (parent_id t) false t) s)
  else if negb (parent_id t =? -1) then Some (err ERR_FORK_FAILED, s)
  else
    '(child, s) ← copy_task c storage stack_ok table_ok s;
    match child with
    | None => Some (err ERR_FORK_FAILED, s)
    | Some i => s ← schedule_task i s; Some (i, s)
    end.

(** *** Start-up *)

Record InitialTaskInfo := mkInfo {
  info_id : Z;
  info_name : string;
  info_initialized : bool;
}.

Definition SCHEDULER_TASKS : list InitialTaskInfo :=
  [mkInfo process_ids.KERNEL "main" true; mkInfo process_ids.IDLE "idle" true].

(** A task that lands in another slot than its manifest entry says is only
    logged. *)
Definition spawn_initial_task (info : InitialTaskInfo) (s : Sys) : option Sys :=
  match create_task (info_name info) (info_initialized info) true s with
  | (None, s) => Some s
  | (Some i, s) => schedule_task i s
  end.

Fixpoint spawn_all (infos : list InitialTaskInfo) (s : Sys) : option Sys :=
  match infos with
  | [] => Some s
  | info :: infos' => s ← spawn_initial_task info s; spawn_all infos' s
  end.

Definition initialize_tasks (services : list InitialTaskInfo) : option Sys :=
  let s := mkSys (replicate (Z.to_nat MAX_TASKS) None) [] process_ids.KERNEL process_ids.IDLE None in
  s ← spawn_all SCHEDULER_TASKS s;
  s ← spawn_all services s;
  t ← the_task process_ids.KERNEL s;
  Some (put_task process_ids.KERNEL (set_state TASK_RUNNING t) s).

(** The boot services of [kernel/services.cpp]. *)
Definition SERVICE_MANIFEST : list InitialTaskInfo :=
  [mkInfo process_ids.XHCI "usb_handler" true; mkInfo process_ids.VIRTIO_BLK "virtio_blk" false;
   mkInfo process_ids.FS_FAT32 "fat32" true; mkInfo process_ids.SHELL "shell" false;
   mkInfo process_ids.VIRTIO_NET "virtio_net" false; mkInfo process_ids.NET "net" false].

(** [manifest_matches_slots] *)
Fixpoint manifest_matches_from (i : Z) (infos : list InitialTaskInfo) : bool :=
  match infos with
  | [] => true
  | info :: infos' => (info_id info =? process_ids.XHCI + i) && manifest_matches_from (i + 1) infos'
  end.

Definition manifest_matches_slots : bool := manifest_matches_from 0 SERVICE_MANIFEST.
