(* ===== verification/TaskProofs.v ===== *)
(** * Correctness of the scheduler and of IPC

    The kernel as a transition system: the running task executes its
    operations, interrupts raise notifications and preempt it at any point
    between them.  The invariant [Inv] holds in every reachable state; its
    consequences are that no wakeup is lost, that the run queue has no
    dangling entry, and that the idle fallback is never taken. *)

From stdpp Require Import strings.
From S2P Require Import Prelude Pages Message MessageQueue UserMem Fd Task.

Open Scope Z_scope.

(** ** The transition system *)

(** What a blocking operation waits for. *)
Inductive Blocked := InReceive | InNotify (mask : Z) | InCall | InWait.

(** Where a task is: outside the blocking loops; in a loop, parked and about to
    give up the processor; or in a loop, about to look again. *)
Inductive Pc := Run | Park (b : Blocked) | Poll (b : Blocked).

Definition reason_of (b : Blocked) : WaitReason :=
  match b with
  | InReceive => WAIT_RECEIVE | InNotify _ => WAIT_NOTIFY | InCall => WAIT_REPLY | InWait => WAIT_CHILD
  end.

Abbreviation Config := (Sys * (Z -> Pc))%type.

Definition upd (pc : Z -> Pc) (i : Z) (p : Pc) : Z -> Pc := fun j => if j =? i then p else pc j.

(** The running task is outside the blocking loops, and is not the idle task,
    whose loop only halts. *)
Definition runs (s : Sys) (pc : Z -> Pc) : Prop :=
  pc (CURRENT_TASK s) = Run /\ CURRENT_TASK s <> IDLE_TASK s.

(** A new task starts outside the blocking loops. *)
Definition fresh (s : Sys) (pc : Z -> Pc) : Z -> Pc :=
  fun j => match the_task j s with Some _ => pc j | None => Run end.

(** Destinations inside the task table, or -1. *)
Definition dst_ok (dst : Z) : Prop := -1 <= dst < MAX_TASKS.

(** One step; the label tells whether it hands the processor over. *)
Inductive step : bool -> Config -> Config -> Prop :=
| st_irq s pc i n s' :
    notify i n s = Some s' -> step false (s, pc) (s', pc)
| st_preempt s pc s' :
    switch_task s = Some s' -> step true (s, pc) (s', pc)
| st_yield s pc b s' :
    pc (CURRENT_TASK s) = Park b -> switch_task s = Some s' ->
    step true (s, pc) (s', upd pc (CURRENT_TASK s) (Poll b))
| st_send s pc dst m e s' :
    runs s pc -> dst_ok dst -> send_message dst m s = Some (e, s') -> step false (s, pc) (s', pc)
| st_reply s pc req resp e s' :
    runs s pc -> dst_ok (sender req) -> reply req resp s = Some (e, s') -> step false (s, pc) (s', pc)
| st_call_error s pc dst m e s' :
    runs s pc -> dst_ok dst -> call_send dst m s = Some (Some e, s') -> step false (s, pc) (s', pc)
| st_call s pc dst m s' :
    runs s pc -> dst_ok dst -> call_send dst m s = Some (None, s') ->
    step false (s, pc) (s', upd pc (CURRENT_TASK s) (Poll InCall))
| st_begin s pc b :
    runs s pc -> b <> InCall -> step false (s, pc) (s, upd pc (CURRENT_TASK s) (Poll b))
| st_receive s pc r s' :
    pc (CURRENT_TASK s) = Poll InReceive -> receive_poll s = Some (r, s') ->
    step false (s, pc) (s', upd pc (CURRENT_TASK s) (match r with Some _ => Run | None => Park InReceive end))
| st_wait_notify s pc mask r s' :
    pc (CURRENT_TASK s) = Poll (InNotify mask) -> wait_notification_poll mask s = Some (r, s') ->
    step false (s, pc) (s', upd pc (CURRENT_TASK s) (if (r : bool) then Run else Park (InNotify mask)))
| st_call_wait s pc r s' :
    pc (CURRENT_TASK s) = Poll InCall -> call_poll s = Some (r, s') ->
    step false (s, pc) (s', upd pc (CURRENT_TASK s) (match r with Some _ => Run | None => Park InCall end))
| st_wait_child s pc r s' :
    pc (CURRENT_TASK s) = Poll InWait -> wait_child_poll s = Some (r, s') ->
    step false (s, pc) (s', upd pc (CURRENT_TASK s) (match r with Some _ => Run | None => Park InWait end))
| st_try_receive s pc r s' :
    runs s pc -> try_receive (CURRENT_TASK s) s = Some (r, s') -> step false (s, pc) (s', pc)
| st_fork s pc storage r s' :
    runs s pc -> sys_fork storage true true s = Some (r, s') -> step false (s, pc) (s', fresh s pc)
| st_exit s pc st freed s' :
    runs s pc -> CURRENT_TASK s <> process_ids.KERNEL -> exit_task st s = Some (freed, s') ->
    step true (s, pc) (s', pc).

(** ** The invariant *)

(** The task has what it waits for. *)
Definition wake_ready (r : WaitReason) (t : Task) : bool :=
  match r with
  | WAIT_NONE => false
  | WAIT_RECEIVE => negb (pending_notifications t =? 0) || negb (count_ (messages t) =? 0)
  | WAIT_NOTIFY => negb (Z.land (pending_notifications t) (wait_notify_mask t) =? 0)
  | WAIT_REPLY => reply_pending t
  | WAIT_CHILD => match exit_records t with [] => false | _ :: _ => true end
  end.

Definition in_call (p : Pc) : bool :=
  match p with Park InCall | Poll InCall => true | _ => false end.

(** A blocked task waits for what its loop looks for. *)
Definition waits_for (p : Pc) (t : Task) : Prop :=
  match p with
  | Run => False
  | Park b | Poll b =>
      wait_reason t = reason_of b /\ match b with InNotify m => wait_notify_mask t = m | _ => True end
  end.

Record task_ok (i : Z) (p : Pc) (t : Task) : Prop := {
  to_id : id t = i;
  to_queue : queue_ok (messages t);
  to_pending : 0 <= pending_notifications t < 32;
  to_exits : lenz (exit_records t) <= MAX_CHILD_EXIT_RECORDS;
  to_alive : state t <> TASK_EXITED;
  to_wait : state t = TASK_WAITING -> wake_ready (wait_reason t) t = false;
  to_pc : state t = TASK_WAITING -> waits_for p t;
  to_call : call_correlation t <> 0 <-> in_call p = true;
  to_reply : reply_pending t = true ->
    is_reply (reply_slot t) = true /\ correlation (reply_slot t) = call_correlation t /\ call_correlation t <> 0;
}.

(** Everything but the running task. *)
Record Base (s : Sys) (pc : Z -> Pc) : Prop := {
  bs_len : lenz (tasks s) = MAX_TASKS;
  bs_idle : IDLE_TASK s = process_ids.IDLE;
  bs_tasks : forall i t, the_task i s = Some t -> task_ok i (pc i) t;
  bs_nodup : NoDup (run_queue s);
  bs_alive : forall i, i ∈ run_queue s -> is_Some (the_task i s);
  bs_ready : forall i t, the_task i s = Some t -> state t = TASK_READY -> i ∈ run_queue s;
  bs_inq : forall i t, the_task i s = Some t -> i ∈ run_queue s ->
    state t = TASK_READY \/ i = process_ids.KERNEL;
  bs_idle_task : is_Some (the_task process_ids.IDLE s) /\ pc process_ids.IDLE = Run;
}.

Record Inv (s : Sys) (pc : Z -> Pc) : Prop := {
  iv_base : Base s pc;
  iv_cur : is_Some (the_task (CURRENT_TASK s) s);
  iv_run : forall i t, the_task i s = Some t -> state t = TASK_RUNNING -> i = CURRENT_TASK s;
  iv_curst : forall t, the_task (CURRENT_TASK s) s = Some t ->
    (forall b, pc (CURRENT_TASK s) <> Park b) -> state t = TASK_RUNNING;
}.

(** ** The task table *)

Lemma the_task_range i s t : the_task i s = Some t -> 0 <= i < lenz (tasks s).
Proof.
  unfold the_task, task_at. destruct (atz (tasks s) i) eqn:E; [|done]. intros _. by eapply atz_Some_lt.
Qed.

Lemma the_task_put i j t s : 0 <= j < lenz (tasks s) ->
  the_task i (put_task j t s) = if i =? j then Some t else the_task i s.
Proof.
  intros Hj. unfold the_task, task_at, put_task. simpl. destruct (Z.eqb_spec i j) as [->|Hne].
  - by rewrite atz_setz_eq.
  - by rewrite atz_setz_ne by lia.
Qed.

Lemma the_task_put_eq j t s : 0 <= j < lenz (tasks s) -> the_task j (put_task j t s) = Some t.
Proof. intros. rewrite the_task_put by done. by rewrite Z.eqb_refl. Qed.

Lemma task_at_the_task i s t : the_task i s = Some t -> task_at i s = Some (Some t).
Proof. unfold the_task. destruct (task_at i s); simpl; congruence. Qed.

Lemma lenz_put i t s : lenz (tasks (put_task i t s)) = lenz (tasks s).
Proof. apply lenz_setz. Qed.

Lemma put_same i t s : the_task i s = Some t -> put_task i t s = s.
Proof.
  intros Ht%task_at_the_task. unfold task_at in Ht. apply atz_Some in Ht as [_ Ht]. unfold put_task, set_tasks, setz.
  rewrite list_insert_id by done. by destruct s.
Qed.

Lemma put_put i t t' s : put_task i t' (put_task i t s) = put_task i t' s.
Proof. unfold put_task, set_tasks, setz. cbn. by rewrite list_insert_insert_eq. Qed.

(** The same task runs, and the run queue at most grew at its end. *)
Definition extends (s s' : Sys) : Prop :=
  CURRENT_TASK s' = CURRENT_TASK s /\ exists x, run_queue s' = run_queue s ++ x.

#[export] Instance extends_preorder : PreOrder extends.
Proof.
  split.
  - intros s. split; [done|]. exists []. by rewrite app_nil_r.
  - intros s1 s2 s3 [H1 [x Hx]] [H2 [y Hy]]. split; [congruence|]. exists (x ++ y). by rewrite Hy, Hx, app_assoc.
Qed.

Lemma extends_put i t s s' : extends s s' -> extends s (put_task i t s').
Proof. done. Qed.

Lemma extends_schedule i s s1 s' : extends s s1 -> schedule_task i s1 = Some s' -> extends s s'.
Proof.
  intros Hs. unfold schedule_task. destruct (_ || _); [by intros [= <-]|].
  destruct (task_at i s1) as [[t|]|]; cbn [mbind option_bind]; [|by intros [= <-]|done].
  destruct (decide _); intros [= <-]; [done|]. destruct Hs as [Hc [x Hx]]. split; [done|].
  exists (x ++ [i]). cbn. by rewrite Hx, app_assoc.
Qed.

Create HintDb sched discriminated.
#[export] Hint Resolve extends_put extends_schedule : sched.
#[export] Hint Extern 0 (extends _ _) => reflexivity : sched.

Lemma extends_notify i n s s' : notify i n s = Some s' -> extends s s'.
Proof.
  unfold notify. destruct (_ || _); [intros [= <-]; auto with sched|].
  destruct (task_at i s) as [[t|]|]; cbn [mbind option_bind]; [|intros [= <-]; auto with sched|done].
  destruct (negb _); [intros [= <-]; auto with sched|]. destruct (_ && _); [intros [= <-]; auto with sched|].
  eauto with sched.
Qed.

Lemma extends_send dst m s s1 e s' : extends s s1 -> send_message dst m s1 = Some (e, s') -> extends s s'.
Proof.
  intros Hs. unfold send_message, deliver_reply, deliver_message. destruct (dst =? -1); [by intros [= <- <-]|].
  destruct (task_at dst s1) as [[t|]|]; cbn [mbind option_bind]; [|by intros [= <- <-]|done].
  destruct (is_reply m).
  - destruct (_ || _ || _); [by intros [= <- <-]|]. destruct (decide _); [|by intros [= <- <-]].
    destruct (schedule_task _ _) eqn:E; [|done]. intros [= <- <-]. eauto with sched.
  - destruct (push m (messages t)) as [[] q]; [|by intros [= <- <-]]. destruct (decide _); [|by intros [= <- <-]].
    destruct (schedule_task _ _) eqn:E; [|done]. intros [= <- <-]. eauto with sched.
Qed.

Lemma extends_call dst m s r s' : call_send dst m s = Some (r, s') -> extends s s'.
Proof.
  unfold call_send. destruct (the_task _ s) as [t|]; [|done]. cbn [mbind option_bind].
  destruct (dst =? id t); [intros [= <- <-]; reflexivity|]. destruct (next_corr t) as [c t1].
  destruct (send_message _ _ _) as [[e s1]|] eqn:E; [|done]. cbn [mbind option_bind].
  apply (extends_send _ _ s) in E; [|auto with sched].
  destruct (IS_ERR e); [|by intros [= <- <-]]. destruct (the_task _ s1); [|done]. intros [= <- <-]. auto with sched.
Qed.

Lemma extends_record p child st s s' : record_child_exit p child st s = Some s' -> extends s s'.
Proof.
  unfold record_child_exit. destruct (the_task p s) as [t|]; [|done]. cbn [mbind option_bind].
  destruct (_ <=? _); [intros [= <-]; auto with sched|].
  destruct (decide _); [|intros [= <-]; auto with sched]. eauto with sched.
Qed.

(** [schedule_task] on an existing task. *)
Lemma schedule_task_eq i s t : the_task i s = Some t ->
  schedule_task i s = Some (set_run_queue (if decide (i ∈ run_queue s) then run_queue s else run_queue s ++ [i])
    (put_task i (set_state TASK_READY t) s)).
Proof.
  intros Ht. pose proof (the_task_range _ _ _ Ht). unfold schedule_task.
  destruct (Z.ltb_spec i 0), (Z.leb_spec (lenz (tasks s)) i); try lia. simpl.
  rewrite (task_at_the_task _ _ _ Ht). cbn [mbind option_bind]. cbn [run_queue put_task set_tasks].
  destruct (decide (i ∈ run_queue s)); [|done]. by destruct s.
Qed.

(** Changing a task without its state. *)
Lemma base_update s pc pc' j t t' :
  Base s pc -> the_task j s = Some t -> state t' = state t -> task_ok j (pc' j) t' ->
  (forall i, i <> j -> pc' i = pc i) -> (j = process_ids.IDLE -> pc' j = Run) ->
  Base (put_task j t' s) pc'.
Proof.
  intros [] Ht Hst Hok Hpc Hidle. pose proof (the_task_range _ _ _ Ht) as Hr.
  split; rewrite ?lenz_put; try done.
  - intros i x. rewrite the_task_put by done. destruct (Z.eqb_spec i j) as [->|Hne]; [by intros [= <-]|].
    intros Hx. rewrite Hpc by done. eauto.
  - intros i Hi. rewrite the_task_put by done. destruct (i =? j); [by eexists|by apply bs_alive0].
  - intros i x. rewrite the_task_put by done. destruct (Z.eqb_spec i j) as [->|Hne]; [|apply bs_ready0].
    intros [= <-]. rewrite Hst. by apply bs_ready0.
  - intros i x. rewrite the_task_put by done. destruct (Z.eqb_spec i j) as [->|Hne]; [|apply bs_inq0].
    intros [= <-]. rewrite Hst. by apply bs_inq0.
  - rewrite the_task_put by done. destruct (Z.eqb_spec process_ids.IDLE j) as [<-|Hne].
    + split; [by eexists|]. by apply Hidle.
    + rewrite Hpc by done. done.
Qed.

(** Making a task ready. *)
Lemma base_ready s pc j t' :
  Base s pc -> 0 <= j < lenz (tasks s) -> task_ok j (pc j) (set_state TASK_READY t') ->
  exists s', schedule_task j (put_task j t' s) = Some s' /\ Base s' pc /\
    (forall i, the_task i s' = if i =? j then Some (set_state TASK_READY t') else the_task i s) /\
    CURRENT_TASK s' = CURRENT_TASK s /\ run_queue s' = (if decide (j ∈ run_queue s) then run_queue s else run_queue s ++ [j]).
Proof.
  intros [] Hr Hok.
  rewrite (schedule_task_eq j (put_task j t' s) t') by (by apply the_task_put_eq). eexists. split; [done|].
  assert (forall i, the_task i (set_run_queue (if decide (j ∈ run_queue (put_task j t' s)) then run_queue (put_task j t' s)
      else run_queue (put_task j t' s) ++ [j]) (put_task j (set_state TASK_READY t') (put_task j t' s))) =
    if i =? j then Some (set_state TASK_READY t') else the_task i s) as Hlook.
  { intros i. change (the_task i (put_task j (set_state TASK_READY t') (put_task j t' s)) =
      if i =? j then Some (set_state TASK_READY t') else the_task i s).
    rewrite !the_task_put by (rewrite ?lenz_put; done). by destruct (i =? j). }
  change (run_queue (put_task j t' s)) with (run_queue s) in *.
  set (q := if decide (j ∈ run_queue s) then run_queue s else run_queue s ++ [j]) in *.
  assert (forall i, i ∈ q <-> i ∈ run_queue s \/ i = j) as Hq.
  { intros i. unfold q. destruct (decide (j ∈ run_queue s)); [|rewrite elem_of_app, list_elem_of_singleton; done].
    naive_solver. }
  split_and!; [|done|done|done]. split; cbn [run_queue set_run_queue IDLE_TASK put_task set_tasks].
  - change (lenz (tasks (put_task j (set_state TASK_READY t') (put_task j t' s))) = MAX_TASKS). by rewrite !lenz_put.
  - done.
  - intros i x. rewrite Hlook. destruct (Z.eqb_spec i j) as [->|Hne]; [by intros [= <-]|apply bs_tasks0].
  - unfold q. destruct (decide (j ∈ run_queue s)) as [|Hn]; [done|]. apply NoDup_app. split_and!; [done| |apply NoDup_singleton].
    by intros x Hx ->%list_elem_of_singleton.
  - intros i Hi. rewrite Hlook. destruct (Z.eqb_spec i j) as [->|Hne]; [by eexists|]. apply Hq in Hi as [Hi|]; [|done].
    by apply bs_alive0.
  - intros i x. rewrite Hlook, Hq. destruct (Z.eqb_spec i j) as [->|Hne]; [by right|]. left. by eapply bs_ready0.
  - intros i x. rewrite Hlook, Hq. destruct (Z.eqb_spec i j) as [->|Hne]; [intros [= <-]; by left|].
    intros Hx [Hi|]; [|done]. by eapply bs_inq0.
  - rewrite Hlook. split; [|apply bs_idle_task0]. destruct (_ =? j); [by eexists|apply bs_idle_task0].
Qed.

(** ** Steps that keep the running task *)

Lemma upd_eq pc i p : upd pc i p i = p.
Proof. unfold upd. by rewrite Z.eqb_refl. Qed.

Lemma upd_ne pc i j p : j <> i -> upd pc i p j = pc j.
Proof. unfold upd. intros. destruct (Z.eqb_spec j i); done. Qed.

(** Changing a task without its state. *)
Lemma inv_update s pc j t t' :
  Inv s pc -> the_task j s = Some t -> state t' = state t -> task_ok j (pc j) t' -> Inv (put_task j t' s) pc.
Proof.
  intros [Hb Hc Hrun Hst] Ht Hs Hok. pose proof (the_task_range _ _ _ Ht) as Hr.
  split; [eapply base_update; try done| | |].
  - intros ->. apply (bs_idle_task _ _ Hb).
  - change (CURRENT_TASK (put_task j t' s)) with (CURRENT_TASK s). rewrite the_task_put by done.
    destruct (_ =? j); [by eexists|done].
  - intros i x. rewrite the_task_put by done. destruct (Z.eqb_spec i j) as [->|Hne]; [|apply Hrun].
    intros [= <-]. rewrite Hs. by apply Hrun.
  - intros x. change (CURRENT_TASK (put_task j t' s)) with (CURRENT_TASK s). rewrite the_task_put by done.
    destruct (Z.eqb_spec (CURRENT_TASK s) j) as [Heq|Hne]; [|apply Hst].
    intros [= <-] Hp. rewrite Hs. apply Hst; [by rewrite Heq|done].
Qed.

(** Making a task ready that is waiting, or new. *)
Lemma inv_ready s pc j t' :
  Inv s pc -> 0 <= j < lenz (tasks s) -> (forall t, the_task j s = Some t -> state t = TASK_WAITING) ->
  task_ok j (pc j) (set_state TASK_READY t') ->
  exists s', schedule_task j (put_task j t' s) = Some s' /\ Inv s' pc /\ CURRENT_TASK s' = CURRENT_TASK s.
Proof.
  intros [Hb Hc Hrun Hst] Hr Hw Hok.
  destruct (base_ready s pc j t' Hb Hr Hok) as (s' & E & Hb' & Hlook & Hcur & _).
  exists s'. split_and!; [done| |done]. split; [done| | |].
  - rewrite Hcur, Hlook. destruct (_ =? j); [by eexists|done].
  - intros i x. rewrite Hlook, Hcur. destruct (Z.eqb_spec i j) as [->|Hne]; [by intros [= <-]|apply Hrun].
  - intros x. rewrite Hcur, Hlook. destruct (Z.eqb_spec (CURRENT_TASK s) j) as [Heq|Hne]; [|apply Hst].
    intros [= <-] Hp. exfalso. rewrite Heq in *. destruct Hc as [t Ht]. specialize (Hst t Ht Hp).
    specialize (Hw t Ht). congruence.
Qed.

(** Waking a waiting task. *)
Lemma inv_wake s pc j t t' :
  Inv s pc -> the_task j s = Some t -> state t = TASK_WAITING -> task_ok j (pc j) (set_state TASK_READY t') ->
  exists s', schedule_task j (put_task j t' s) = Some s' /\ Inv s' pc /\ CURRENT_TASK s' = CURRENT_TASK s.
Proof.
  intros Hinv Ht Hw Hok. apply inv_ready; [done|by eapply the_task_range| |done]. intros x Hx. congruence.
Qed.

(** The running task changes, keeps running or parks. *)
Lemma inv_current s pc t t' p :
  Inv s pc -> the_task (CURRENT_TASK s) s = Some t -> state t = TASK_RUNNING -> CURRENT_TASK s <> IDLE_TASK s ->
  task_ok (CURRENT_TASK s) p t' ->
  (state t' = TASK_RUNNING \/ (state t' = TASK_WAITING /\ exists b, p = Park b)) ->
  Inv (put_task (CURRENT_TASK s) t' s) (upd pc (CURRENT_TASK s) p).
Proof.
  intros [Hb Hc Hrun Hst] Ht Hr Hni Hok Hst'. pose proof (the_task_range _ _ _ Ht) as Hrange.
  rewrite (bs_idle _ _ Hb) in Hni. set (c := CURRENT_TASK s) in *.
  assert (state t' <> TASK_READY) as Hnr by (destruct Hst' as [->|[-> _]]; done).
  pose proof Hb as Hb0. destruct Hb0.
  split.
  - split; rewrite ?lenz_put; try done.
    + intros i x. rewrite the_task_put by done. destruct (Z.eqb_spec i c) as [->|Hne].
      * intros [= <-]. by rewrite upd_eq.
      * rewrite upd_ne by done. apply bs_tasks0.
    + intros i Hi. rewrite the_task_put by done. destruct (i =? c); [by eexists|by apply bs_alive0].
    + intros i x. rewrite the_task_put by done. destruct (Z.eqb_spec i c) as [->|Hne]; [|apply bs_ready0].
      intros [= <-]. done.
    + intros i x. rewrite the_task_put by done. destruct (Z.eqb_spec i c) as [->|Hne]; [|apply bs_inq0].
      intros [= <-] Hi. right. destruct (bs_inq0 c t Ht Hi) as [|]; [congruence|done].
    + rewrite the_task_put by done. rewrite upd_ne by done. destruct (Z.eqb_spec process_ids.IDLE c); [by destruct Hni|done].
  - change (CURRENT_TASK (put_task c t' s)) with c. rewrite the_task_put_eq by done. by eexists.
  - intros i x. change (CURRENT_TASK (put_task c t' s)) with c. rewrite the_task_put by done.
    destruct (Z.eqb_spec i c); [done|apply Hrun].
  - intros x. change (CURRENT_TASK (put_task c t' s)) with c. rewrite the_task_put_eq, upd_eq by done.
    intros [= <-] Hp. destruct Hst' as [|[_ [b ->]]]; [done|]. by destruct (Hp b).
Qed.

(** ** Switching *)

Lemma task_ok_state i p t st :
  task_ok i p t -> st <> TASK_WAITING -> st <> TASK_EXITED -> task_ok i p (set_state st t).
Proof. intros [] H1 H2. split; done. Qed.

(** The pick: nobody runs, and the idle task is ready. *)
Lemma pick_spec s pc :
  Base s pc -> (forall i t, the_task i s = Some t -> state t <> TASK_RUNNING) ->
  exists i q, run_queue s = i :: q /\ exists s', pick_next_task s = Some s' /\ Inv s' pc /\
    CURRENT_TASK s' = i /\ run_queue s' = q /\ forall j, j <> i -> the_task j s' = the_task j s.
Proof.
  intros Hb Hnr. pose proof Hb as Hb0. destruct Hb0.
  assert (process_ids.IDLE ∈ run_queue s) as Hidle.
  { destruct bs_idle_task0 as [[t Ht] Hp]. apply (bs_ready0 _ t Ht). pose proof (bs_tasks0 _ t Ht) as [].
    rewrite Hp in *. destruct (state t) eqn:E; [by apply Hnr in Ht|done|by destruct (to_pc0 eq_refl)|done]. }
  destruct (run_queue s) as [|i q] eqn:Eq; [by apply elem_of_nil in Hidle|]. exists i, q. split; [done|].
  destruct (bs_alive0 i ltac:(by left)) as [t Ht]. pose proof (the_task_range _ _ _ Ht) as Hr.
  unfold pick_next_task. rewrite Eq, Ht. cbn [mbind option_bind]. eexists. split; [done|].
  assert (forall j, the_task j (set_current i (put_task i (set_state TASK_RUNNING t) (set_run_queue q s))) =
    if j =? i then Some (set_state TASK_RUNNING t) else the_task j s) as Hlook.
  { intros j. exact (the_task_put j i (set_state TASK_RUNNING t) (set_run_queue q s) Hr). }
  apply NoDup_cons in bs_nodup0 as [Hiq Hnd].
  split_and!; [|done|done|by intros j Hj; rewrite Hlook; destruct (Z.eqb_spec j i)].
  split; [split| | |]; cbn [run_queue CURRENT_TASK IDLE_TASK set_current put_task set_tasks set_run_queue]; try done.
  - change (lenz (tasks (put_task i (set_state TASK_RUNNING t) (set_run_queue q s))) = MAX_TASKS). by rewrite lenz_put.
  - intros j x. rewrite Hlook. destruct (Z.eqb_spec j i) as [->|Hne]; [|apply bs_tasks0].
    intros [= <-]. apply task_ok_state; [by apply bs_tasks0|done|done].
  - intros j Hj. rewrite Hlook. destruct (j =? i); [by eexists|]. apply bs_alive0. by right.
  - intros j x. rewrite Hlook. destruct (Z.eqb_spec j i) as [->|Hne]; [by intros [= <-]|]. intros Hx Hst.
    specialize (bs_ready0 j x Hx Hst). by apply elem_of_cons in bs_ready0 as [|].
  - intros j x. rewrite Hlook. destruct (Z.eqb_spec j i) as [->|Hne]; [by intros _ ?|]. intros Hx Hj.
    apply (bs_inq0 j x Hx). by right.
  - rewrite Hlook. split; [|apply bs_idle_task0]. destruct (_ =? i); [by eexists|apply bs_idle_task0].
  - rewrite Hlook, Z.eqb_refl. by eexists.
  - intros j x. rewrite Hlook. destruct (Z.eqb_spec j i) as [->|Hne]; [done|]. intros Hx Hst. by apply Hnr in Hx.
  - intros x. rewrite Hlook, Z.eqb_refl. by intros [= <-].
Qed.

(** The base invariant without the running task's state: the first half of
    [switch_task]. *)
Lemma base_pc s pc pc' :
  Base s pc -> (forall i t, the_task i s = Some t -> task_ok i (pc' i) t) -> pc' process_ids.IDLE = Run -> Base s pc'.
Proof. intros [] Hok Hi. split; try done. split; [apply bs_idle_task0|done]. Qed.

Lemma switch_spec s pc pc' :
  Inv s pc -> (forall i t, the_task i s = Some t -> task_ok i (pc' i) t) -> pc' process_ids.IDLE = Run ->
  exists s', switch_task s = Some s' /\ Inv s' pc' /\
    exists x, run_queue s ++ x = CURRENT_TASK s' :: run_queue s'.
Proof.
  intros [Hb [t Ht] Hrun Hst] Hok Hi. pose proof (bs_tasks _ _ Hb _ _ Ht) as Htok.
  set (s0 := set_reap None s).
  assert (Base s0 pc') as Hb0 by (destruct (base_pc s pc pc' Hb Hok Hi); split; done).
  unfold switch_task. fold s0. change (CURRENT_TASK s0) with (CURRENT_TASK s).
  change (the_task (CURRENT_TASK s) s0) with (the_task (CURRENT_TASK s) s). rewrite Ht. cbn [mbind option_bind].
  destruct (decide (state t = TASK_EXITED)) as [He|_]; [by destruct (to_alive _ _ _ Htok)|].
  destruct (decide (state t = TASK_WAITING)) as [Hw|Hnw]; cbn [mbind option_bind].
  - destruct (pick_spec s0 pc' Hb0) as (i & q & Hq & s' & E & Hinv & Hc & Hrq & _).
    + intros j x Hx Hr. assert (j = CURRENT_TASK s) as -> by (by apply (Hrun j x)).
      assert (x = t) as -> by (change (the_task (CURRENT_TASK s) s = Some x) in Hx; congruence). congruence.
    + exists s'. split_and!; [done|done|]. exists []. rewrite app_nil_r, Hc, Hrq. exact Hq.
  - assert (task_ok (CURRENT_TASK s) (pc' (CURRENT_TASK s)) (set_state TASK_READY t)) as Hok'
      by (apply task_ok_state; [by apply Hok|done|done]).
    destruct (base_ready s0 pc' (CURRENT_TASK s) t Hb0 (the_task_range _ _ _ Ht) Hok') as (s1 & E1 & Hb1 & Hlook & _ & Hrq1).
    assert (schedule_task (CURRENT_TASK s) s0 = Some s1) as ->.
    { rewrite <- E1. rewrite (schedule_task_eq _ s0 t Ht), (schedule_task_eq _ (put_task (CURRENT_TASK s) t s0) t).
      - f_equal. unfold put_task, set_tasks. cbn. f_equal. unfold setz. by rewrite list_insert_insert_eq.
      - apply the_task_put_eq. exact (the_task_range _ _ _ Ht). }
    cbn [mbind option_bind].
    destruct (pick_spec s1 pc' Hb1) as (i & q & Hq & s' & E & Hinv & Hc & Hrq & _).
    + intros j x. rewrite Hlook. destruct (Z.eqb_spec j (CURRENT_TASK s)) as [->|Hne]; [by intros [= <-]|].
      intros Hx Hr. by apply Hne, (Hrun j x).
    + exists s'. split_and!; [done|done|]. rewrite Hc, Hrq, <- Hq, Hrq1.
      destruct (decide (CURRENT_TASK s ∈ run_queue s0)); [exists []; by rewrite app_nil_r|by exists [CURRENT_TASK s]].
Qed.

Lemma preempt_spec s pc : Inv s pc ->
  exists s', switch_task s = Some s' /\ Inv s' pc /\ exists x, run_queue s ++ x = CURRENT_TASK s' :: run_queue s'.
Proof.
  intros Hinv. apply (switch_spec s pc pc); [done|apply (bs_tasks _ _ (iv_base _ _ Hinv))|].
  apply (bs_idle_task _ _ (iv_base _ _ Hinv)).
Qed.

Lemma task_ok_park i b t : task_ok i (Park b) t -> task_ok i (Poll b) t.
Proof. by intros []. Qed.

Lemma yield_spec s pc b : Inv s pc -> pc (CURRENT_TASK s) = Park b ->
  exists s', switch_task s = Some s' /\ Inv s' (upd pc (CURRENT_TASK s) (Poll b)) /\
    exists x, run_queue s ++ x = CURRENT_TASK s' :: run_queue s'.
Proof.
  intros Hinv Hp. pose proof (iv_base _ _ Hinv) as Hb. apply (switch_spec s pc); [done| |].
  - intros i t Ht. destruct (Z.eq_dec i (CURRENT_TASK s)) as [->|Hne].
    + rewrite upd_eq. apply task_ok_park. rewrite <- Hp. by apply (bs_tasks _ _ Hb).
    + rewrite upd_ne by done. by apply (bs_tasks _ _ Hb).
  - destruct (bs_idle_task _ _ Hb) as [_ Hi]. rewrite upd_ne; [done|]. intros Heq. congruence.
Qed.

(** ** Notifications and messages *)

Lemma lor_pending p n : 0 <= p < 32 -> 0 <= Z.lor p (notify_bit n) < 32.
Proof.
  intros Hp. assert (0 <= notify_bit n < 32) as Hn by (destruct n; vm_compute; done).
  assert (0 <= Z.lor p (notify_bit n)) by (apply Z.lor_nonneg; lia). split; [done|].
  destruct (Z.eq_dec (Z.lor p (notify_bit n)) 0); [lia|]. apply (Z.log2_lt_pow2 _ 5); [lia|].
  rewrite Z.log2_lor by lia. assert (Z.log2 p < 5); [|assert (Z.log2 (notify_bit n) < 5); [|lia]].
  - destruct (Z.eq_dec p 0) as [->|]; [done|]. apply Z.log2_lt_pow2; lia.
  - destruct n; vm_compute; done.
Qed.

Lemma notify_spec s pc i n : Inv s pc -> exists s', notify i n s = Some s' /\ Inv s' pc.
Proof.
  intros Hinv. pose proof (iv_base _ _ Hinv) as Hb. unfold notify.
  destruct (Z.ltb_spec i 0), (Z.leb_spec MAX_TASKS i); simpl; eauto.
  destruct (atz_lt (tasks s) i) as [o Ho]; [rewrite (bs_len _ _ Hb); lia|]. unfold task_at. rewrite Ho.
  cbn [mbind option_bind]. destruct o as [t|]; [|eauto].
  assert (the_task i s = Some t) as Ht by (unfold the_task, task_at; by rewrite Ho).
  pose proof (bs_tasks _ _ Hb i t Ht) as Hok. set (t' := set_pending _ t).
  assert (0 <= pending_notifications t' < 32) as Hp' by (apply lor_pending, (to_pending _ _ _ Hok)).
  change (state t') with (state t). change (wait_reason t') with (wait_reason t).
  change (wait_notify_mask t') with (wait_notify_mask t).
  case_bool_decide as Hw; cbn [negb].
  - destruct (bool_decide (wait_reason t = WAIT_NOTIFY) && (Z.land (wait_notify_mask t) (notify_bit n) =? 0)) eqn:Ec.
    + eexists. split; [done|]. apply (inv_update s pc i t t'); try done.
      bool_to_prop. destruct Hok as [K1 K2 K3 K4 K5 K6 K7 K8 K9]. split; try done. intros Hw'. specialize (K6 Hw).
      change (wait_reason t') with (wait_reason t). destruct (wait_reason t); try done. simpl in *.
      rewrite Z.land_lor_distr_l, (Z.land_comm (notify_bit n)).
      match goal with H : Z.land (wait_notify_mask t) _ = 0 |- _ => rewrite H end. by rewrite Z.lor_0_r.
    + destruct (inv_wake s pc i t t') as (s' & E & Hinv' & _); [done|done|done| |by eauto]. destruct Hok. by split.
  - eexists. split; [done|]. apply (inv_update s pc i t t'); try done.
    destruct Hok as [K1 K2 K3 K4 K5 K6 K7 K8 K9]. split; try done; by intros ?.
Qed.

Lemma send_spec s pc dst m : Inv s pc -> dst_ok dst -> exists e s', send_message dst m s = Some (e, s') /\ Inv s' pc.
Proof.
  intros Hinv Hdst. pose proof (iv_base _ _ Hinv) as Hb. unfold dst_ok in Hdst. unfold send_message.
  destruct (Z.eqb_spec dst (-1)) as [|Hn1]; [eauto|].
  destruct (atz_lt (tasks s) dst) as [o Ho]; [rewrite (bs_len _ _ Hb); lia|]. unfold task_at. rewrite Ho.
  cbn [mbind option_bind]. destruct o as [t|]; [|eauto].
  assert (the_task dst s = Some t) as Ht by (unfold the_task, task_at; by rewrite Ho).
  pose proof (bs_tasks _ _ Hb dst t Ht) as Hok. destruct (is_reply m) eqn:Er.
  - unfold deliver_reply. destruct (_ || _ || _) eqn:Ec; [eauto|].
    apply orb_false_iff in Ec as [Ec Erp]. apply orb_false_iff in Ec as [Ec1 Ec2].
    apply Z.eqb_neq in Ec1. apply negb_false_iff, Z.eqb_eq in Ec2. pose proof Hok as [K1 K2 K3 K4 K5 K6 K7 K8 K9].
    destruct (decide (state t = TASK_WAITING /\ wait_reason t = WAIT_REPLY)) as [[Hw Hr]|Hno].
    + destruct (inv_wake s pc dst t (set_reply m true t)) as (s' & -> & Hinv' & _); [done|done|done|by split|].
      cbn [mbind option_bind]. eauto.
    + eexists _, _. split; [done|]. apply (inv_update s pc dst t); try done. split; try done.
      intros Hw. specialize (K6 Hw). change (wait_reason (set_reply m true t)) with (wait_reason t).
      destruct (wait_reason t) eqn:Ewr; try done. destruct Hno. done.
  - unfold deliver_message. destruct (push m (messages t)) as [ok q] eqn:Ep. destruct ok; [|eauto].
    assert (queue_ok q) as Hq.
    { pose proof (to_queue _ _ _ Hok) as []. unfold push in Ep. destruct (ring_ (messages t)) as [r|] eqn:Er'; [|done].
      destruct (Z.leb_spec CAPACITY (count_ (messages t))); [done|]. injection Ep as <-. split; simpl; [done|lia|].
      by rewrite lenz_setz. }
    pose proof Hok as [K1 K2 K3 K4 K5 K6 K7 K8 K9].
    destruct (decide (state t = TASK_WAITING /\ (wait_reason t = WAIT_RECEIVE \/ wait_reason t = WAIT_NONE))) as [[Hw Hr]|Hno].
    + destruct (inv_wake s pc dst t (set_messages q t)) as (s' & -> & Hinv' & _); [done|done|done|by split|].
      cbn [mbind option_bind]. eauto.
    + eexists _, _. split; [done|]. apply (inv_update s pc dst t); try done. split; try done.
      intros Hw. specialize (K6 Hw). change (wait_reason (set_messages q t)) with (wait_reason t).
      destruct (wait_reason t) eqn:Ewr; try done. destruct Hno. eauto.
Qed.

(** ** Receiving *)

Lemma land_below p m : 0 <= p < 32 -> 0 <= m -> 0 <= Z.land p m < 32.
Proof.
  intros Hp Hm. assert (0 <= Z.land p m) by (apply Z.land_nonneg; lia). split; [done|].
  destruct (Z.eq_dec (Z.land p m) 0); [lia|]. apply (Z.log2_lt_pow2 _ 5); [lia|].
  pose proof (Z.log2_land p m ltac:(lia) Hm). assert (Z.log2 p < 5); [|lia].
  destruct (Z.eq_dec p 0) as [->|]; [done|]. apply Z.log2_lt_pow2; lia.
Qed.

(** Every mask of the five notification bits, by enumeration. *)
Lemma pending_cases (P : Z -> bool) p : forallb P (seqZ 0 32) = true -> 0 <= p < 32 -> P p = true.
Proof. intros HP Hp. rewrite forallb_forall in HP. apply HP. apply list_elem_of_In, elem_of_seqZ. lia. Qed.

Definition bits (p : Z) : Z := fold_right (fun i n => Z.b2z (Z.testbit p i) + n) 0 [0; 1; 2; 3; 4].

Lemma lowest_bit p : 0 < p < 32 ->
  is_Some (atz NOTIFY_MESSAGE_TYPES (builtin_ctz p)) /\
  0 <= Z.land p (u32 (p - 1)) < 32 /\ bits (Z.land p (u32 (p - 1))) = bits p - 1 /\ 0 <= bits p <= 5.
Proof.
  intros Hp.
  pose proof (pending_cases (fun p => (p =? 0) ||
    (bool_decide (is_Some (atz NOTIFY_MESSAGE_TYPES (builtin_ctz p))) &&
     ((0 <=? Z.land p (u32 (p - 1))) && (Z.land p (u32 (p - 1)) <? 32)) &&
     (bits (Z.land p (u32 (p - 1))) =? bits p - 1) && ((0 <=? bits p) && (bits p <=? 5)))) p) as H.
  specialize (H ltac:(vm_compute; reflexivity) ltac:(lia)). cbv beta in H. bool_to_prop.
  destruct H as [H|H]; bool_to_prop; [lia|].
  split_and!; try lia; done.
Qed.

Lemma pop_notification_spec t : 0 <= pending_notifications t < 32 ->
  (pending_notifications t = 0 /\ pop_notification t = Some (None, t)) \/
  exists m p, pop_notification t = Some (Some m, set_pending p t) /\ 0 <= p < 32 /\
    bits p = bits (pending_notifications t) - 1 /\ ool m = no_ool.
Proof.
  intros Hp. unfold pop_notification. destruct (Z.eqb_spec (pending_notifications t) 0) as [|Hn]; [by left|]. right.
  destruct (lowest_bit (pending_notifications t)) as ([ty ->] & Hr & Hb & _); [lia|].
  cbn [mbind option_bind]. eexists _, _. split_and!; [done|lia|lia|done|done].
Qed.

Lemma pop_total q : queue_ok q ->
  (count_ q = 0 /\ pop q = Some (None, q)) \/
  exists m q', pop q = Some (Some m, q') /\ queue_ok q' /\ count_ q' = count_ q - 1.
Proof.
  intros [Hh Hc Hr]. unfold pop. destruct (Z.eqb_spec (count_ q) 0) as [|Hn]; [by left|]. right.
  destruct (ring_ q) as [r|]; [|done]. cbn [mbind option_bind].
  destruct (atz_lt r (head_ q)) as [m ->]; [lia|]. cbn [mbind option_bind]. eexists _, _. split_and!; [done| |done].
  split; simpl; [apply Z.mod_pos_bound; done|lia|done].
Qed.

(** What is left to receive. *)
Definition backlog (t : Task) : Z := bits (pending_notifications t) + count_ (messages t).

Lemma bits_nonneg p : 0 <= bits p.
Proof.
  unfold bits. induction [0; 1; 2; 3; 4] as [|i l IH]; cbn [fold_right]; [lia|].
  destruct (Z.testbit p i); cbn [Z.b2z]; lia.
Qed.

Lemma try_receive_spec t : queue_ok (messages t) -> 0 <= pending_notifications t < 32 ->
  (pending_notifications t = 0 /\ count_ (messages t) = 0 /\ try_receive_task t = Some (None, set_messages (messages t) t)) \/
  exists m p q, try_receive_task t = Some (Some m, set_messages q (set_pending p t)) /\
    0 <= p < 32 /\ queue_ok q /\ bits p + count_ q = backlog t - 1.
Proof.
  intros Hq Hp. unfold try_receive_task, backlog.
  destruct (pop_notification_spec t Hp) as [[H0 ->]|(m & p & -> & Hp' & Hb & _)]; cbn [mbind option_bind].
  - destruct (pop_total _ Hq) as [[Hc ->]|(m & q & -> & Hq' & Hc)]; cbn [mbind option_bind]; [by left|].
    right. exists m, (pending_notifications t), q. split_and!; [by destruct t|lia|lia|done|lia].
  - right. exists m, p, (messages t). split_and!; [by destruct t|lia|lia|done|lia].
Qed.

Lemma drain_total n t : queue_ok (messages t) -> 0 <= pending_notifications t < 32 -> backlog t < Z.of_nat n ->
  exists freed p q, drain n t = Some (freed, set_messages q (set_pending p t)) /\
    p = 0 /\ queue_ok q /\ count_ q = 0.
Proof.
  revert t. induction n as [|n IH]; intros t Hq Hp Hn.
  - pose proof (bits_nonneg (pending_notifications t)). pose proof (qo_count _ Hq). unfold backlog in Hn. lia.
  - cbn [drain]. destruct (try_receive_spec t Hq Hp) as [(H0 & Hc & ->)|(m & p & q & -> & Hp' & Hq' & Hb)];
      cbn [mbind option_bind].
    + exists [], 0, (messages t). split_and!; [|done|done|done]. destruct t; simpl in *. by subst.
    + destruct (IH (set_messages q (set_pending p t))) as (freed & p' & q' & -> & Hd); [done|done| |].
      * unfold backlog at 1. simpl. lia.
      * cbn [mbind option_bind]. eauto.
Qed.

(** ** The polls of the blocking loops *)

(** A task in a loop is not the idle task. *)
Lemma blocked_not_idle s pc b : Inv s pc -> pc (CURRENT_TASK s) = Poll b -> CURRENT_TASK s <> IDLE_TASK s.
Proof.
  intros [Hb _ _ _] Hp Heq. rewrite (bs_idle _ _ Hb) in Heq. rewrite Heq, (proj2 (bs_idle_task _ _ Hb)) in Hp. done.
Qed.

(** The running task outside [Park] runs. *)
Lemma current_running s pc : Inv s pc -> (forall b, pc (CURRENT_TASK s) <> Park b) ->
  exists t, the_task (CURRENT_TASK s) s = Some t /\ state t = TASK_RUNNING /\
    task_ok (CURRENT_TASK s) (pc (CURRENT_TASK s)) t.
Proof.
  intros [Hb [t Ht] _ Hst] Hp. exists t. split_and!; [done|by apply Hst|by apply (bs_tasks _ _ Hb)].
Qed.

Lemma receive_poll_spec s pc : Inv s pc -> pc (CURRENT_TASK s) = Poll InReceive ->
  exists r s', receive_poll s = Some (r, s') /\
    Inv s' (upd pc (CURRENT_TASK s) (match r with Some _ => Run | None => Park InReceive end)).
Proof.
  intros Hinv Hp. destruct (current_running s pc Hinv) as (t & Ht & Hr & Hok); [by rewrite Hp|].
  pose proof (blocked_not_idle _ _ _ Hinv Hp) as Hni. rewrite Hp in Hok.
  unfold receive_poll. rewrite Ht. cbn [mbind option_bind].
  pose proof Hok as [K1 K2 K3 K4 K5 K6 K7 K8 K9].
  destruct (try_receive_spec t K2 K3) as [(H0 & Hc & ->)|(m & p & q & -> & Hp' & Hq & _)]; cbn [mbind option_bind].
  - eexists None, _. split; [done|]. apply (inv_current s pc t); try done; try (right; eauto).
    split; try done; simpl. intros _. by rewrite H0, Hc.
  - eexists (Some m), _. split; [done|]. apply (inv_current s pc t); try done; solve [by left|by split].
Qed.

Lemma wait_notification_poll_spec s pc mask : Inv s pc -> pc (CURRENT_TASK s) = Poll (InNotify mask) ->
  exists r s', wait_notification_poll mask s = Some (r, s') /\
    Inv s' (upd pc (CURRENT_TASK s) (if r : bool then Run else Park (InNotify mask))).
Proof.
  intros Hinv Hp. destruct (current_running s pc Hinv) as (t & Ht & Hr & Hok); [by rewrite Hp|].
  pose proof (blocked_not_idle _ _ _ Hinv Hp) as Hni. rewrite Hp in Hok.
  unfold wait_notification_poll. rewrite Ht. cbn [mbind option_bind].
  pose proof Hok as [K1 K2 K3 K4 K5 K6 K7 K8 K9].
  destruct (Z.eqb_spec (Z.land (pending_notifications t) mask) 0) as [H0|Hn]; cbn [negb].
  - eexists false, _. split; [done|]. apply (inv_current s pc t); try done; try (right; eauto).
    split; try done; simpl. intros _. by rewrite H0.
  - eexists true, _. split; [done|]. apply (inv_current s pc t); try done; try by left. split; try done.
    + simpl. apply land_below; [done|]. unfold wnot, wrap. pose proof (wrap_range 32 mask). unfold wrap in *. lia.
    + simpl. by rewrite Hr.
Qed.

Lemma call_poll_spec s pc : Inv s pc -> pc (CURRENT_TASK s) = Poll InCall ->
  exists r s', call_poll s = Some (r, s') /\
    Inv s' (upd pc (CURRENT_TASK s) (match r with Some _ => Run | None => Park InCall end)).
Proof.
  intros Hinv Hp. destruct (current_running s pc Hinv) as (t & Ht & Hr & Hok); [by rewrite Hp|].
  pose proof (blocked_not_idle _ _ _ Hinv Hp) as Hni. rewrite Hp in Hok.
  unfold call_poll. rewrite Ht. cbn [mbind option_bind].
  pose proof Hok as [K1 K2 K3 K4 K5 K6 K7 K8 K9].
  destruct (reply_pending t) eqn:Erp.
  - eexists (Some _), _. split; [done|]. apply (inv_current s pc t); try done; solve [by left|by split].
  - eexists None, _. split; [done|]. apply (inv_current s pc t); try done; try (right; eauto).
    split; try done; simpl; by rewrite ?Erp.
Qed.

Lemma wait_child_poll_spec s pc : Inv s pc -> pc (CURRENT_TASK s) = Poll InWait ->
  exists r s', wait_child_poll s = Some (r, s') /\
    Inv s' (upd pc (CURRENT_TASK s) (match r with Some _ => Run | None => Park InWait end)).
Proof.
  intros Hinv Hp. destruct (current_running s pc Hinv) as (t & Ht & Hr & Hok); [by rewrite Hp|].
  pose proof (blocked_not_idle _ _ _ Hinv Hp) as Hni. rewrite Hp in Hok.
  unfold wait_child_poll. rewrite Ht. cbn [mbind option_bind].
  pose proof Hok as [K1 K2 K3 K4 K5 K6 K7 K8 K9].
  destruct (exit_records t) as [|r rs] eqn:Er.
  - eexists None, _. split; [done|]. apply (inv_current s pc t); try done; try (right; eauto).
    split; try done; simpl; by rewrite ?Er.
  - eexists (Some r), _. split; [done|]. apply (inv_current s pc t); try done; try by left.
    split; try done. simpl. unfold lenz in *. simpl in K4. lia.
Qed.

Lemma try_receive_inv s pc : Inv s pc -> runs s pc ->
  exists r s', try_receive (CURRENT_TASK s) s = Some (r, s') /\ Inv s' pc.
Proof.
  intros Hinv [Hp _]. destruct (current_running s pc Hinv) as (t & Ht & Hr & Hok); [by rewrite Hp|].
  unfold try_receive. rewrite Ht. cbn [mbind option_bind].
  pose proof Hok as [K1 K2 K3 K4 K5 K6 K7 K8 K9].
  destruct (try_receive_spec t K2 K3) as [(H0 & Hc & ->)|(m & p & q & -> & Hp' & Hq & _)]; cbn [mbind option_bind].
  - eexists None, _. split; [done|]. apply (inv_update s pc _ t); try done; by split.
  - eexists (Some m), _. split; [done|]. apply (inv_update s pc _ t); try done. split; try done; simpl; by rewrite Hr.
Qed.

(** Entering a loop. *)
Lemma begin_inv s pc b : Inv s pc -> runs s pc -> b <> InCall -> Inv s (upd pc (CURRENT_TASK s) (Poll b)).
Proof.
  intros Hinv [Hp Hni] Hb. destruct (current_running s pc Hinv) as (t & Ht & Hr & Hok); [by rewrite Hp|].
  pose proof (the_task_range _ _ _ Ht).
  replace s with (put_task (CURRENT_TASK s) t s) at 1.
  - apply (inv_current s pc t); try done; try by left. rewrite Hp in Hok. destruct Hok. split; try done; rewrite ?Hr; try done.
    rewrite to_call0. by destruct b.
  - by apply put_same.
Qed.

(** ** Calls and replies *)

(** A failed send changes nothing. *)
Lemma send_error dst m s e s' : send_message dst m s = Some (e, s') -> IS_ERR e = true -> s' = s.
Proof.
  unfold send_message, deliver_reply, deliver_message. destruct (dst =? -1); [by intros [= <- <-]|].
  destruct (task_at dst s) as [[t|]|]; cbn [mbind option_bind]; [|by intros [= <- <-]|done].
  destruct (is_reply m).
  - destruct (_ || _ || _); [by intros [= <- <-]|]. destruct (decide _); [|by intros [= <- <-]].
    destruct (schedule_task _ _); [|done]. by intros [= <- <-].
  - destruct (push m (messages t)) as [[] q]; [|by intros [= <- <-]]. destruct (decide _); [|by intros [= <- <-]].
    destruct (schedule_task _ _); [|done]. by intros [= <- <-].
Qed.

Lemma next_corr_spec t : exists c, next_corr t = (c, set_next_correlation c t) /\ c <> 0.
Proof.
  unfold next_corr. destruct (Z.eqb_spec (u32 (next_correlation t + 1)) 0) as [->|Hn]; [by exists 1|eauto].
Qed.

Lemma call_send_spec s pc dst m : Inv s pc -> runs s pc -> dst_ok dst ->
  exists r s', call_send dst m s = Some (r, s') /\
    match r with Some _ => Inv s' pc | None => Inv s' (upd pc (CURRENT_TASK s) (Poll InCall)) end.
Proof.
  intros Hinv [Hp Hni] Hdst. destruct (current_running s pc Hinv) as (t & Ht & Hr & Hok); [by rewrite Hp|].
  pose proof (the_task_range _ _ _ Ht) as Hrange. rewrite Hp in Hok. pose proof Hok as [K1 K2 K3 K4 K5 K6 K7 K8 K9].
  unfold call_send. rewrite Ht. cbn [mbind option_bind]. destruct (dst =? id t); [by eauto|].
  destruct (next_corr_spec t) as (c & -> & Hc).
  set (t1 := set_call c false (set_next_correlation c t)). set (s1 := put_task (CURRENT_TASK s) t1 s).
  assert (Inv s1 (upd pc (CURRENT_TASK s) (Poll InCall))) as Hinv1.
  { apply (inv_current s pc t); try done; try by left. split; try done; simpl; by rewrite Hr. }
  match goal with |- context [send_message dst ?x s1] => destruct (send_spec s1 _ dst x Hinv1 Hdst) as (e & s2 & E & Hinv2) end.
  rewrite E. cbn [mbind option_bind]. destruct (IS_ERR e) eqn:Ee; [|by eauto].
  apply send_error in E as ->; [|done]. unfold s1. rewrite the_task_put_eq by done. cbn [mbind option_bind].
  eexists _, _. split; [done|]. cbn [fst]. rewrite put_put. apply (inv_update s pc _ t); try done. rewrite Hp.
  split; try done; simpl; by rewrite Hr.
Qed.

Lemma reply_spec s pc req resp : Inv s pc -> dst_ok (sender req) ->
  exists e s', reply req resp s = Some (e, s') /\ Inv s' pc.
Proof.
  intros Hinv Hdst. unfold reply. destruct (correlation req =? 0); [by eauto|].
  destruct (iv_cur _ _ Hinv) as [t ->]. cbn [mbind option_bind]. by apply send_spec.
Qed.

(** ** The life of a task *)

Lemma record_child_exit_spec s pc p child st : Inv s pc -> is_Some (the_task p s) ->
  exists s', record_child_exit p child st s = Some s' /\ Inv s' pc /\ CURRENT_TASK s' = CURRENT_TASK s.
Proof.
  intros Hinv [t Ht]. pose proof (bs_tasks _ _ (iv_base _ _ Hinv) p t Ht) as Hok.
  pose proof Hok as [K1 K2 K3 K4 K5 K6 K7 K8 K9]. unfold record_child_exit. rewrite Ht. cbn [mbind option_bind].
  destruct (Z.leb_spec MAX_CHILD_EXIT_RECORDS (lenz (exit_records t))); [by eauto|]. rewrite K1.
  assert (lenz (exit_records t ++ [mkExit child st]) <= MAX_CHILD_EXIT_RECORDS) as Hl
    by (rewrite lenz_app; unfold lenz at 2; simpl; lia).
  destruct (decide (state t = TASK_WAITING /\ wait_reason t = WAIT_CHILD)) as [[Hw Hr]|Hno].
  - apply (inv_wake s pc p t); [done|done|done|by split].
  - eexists. split_and!; [done| |done]. apply (inv_update s pc p t); try done. split; try done. intros Hw. specialize (K6 Hw).
    cbn [wait_reason set_exit_records]. destruct (wait_reason t) eqn:Ewr; try done. by destruct Hno.
Qed.

(** [release_all_ool] does not fault and leaves nothing behind. *)
Lemma release_all_ool_ok i t : task_ok i Run t -> state t = TASK_RUNNING ->
  exists freed t', release_all_ool t = Some (freed, t') /\ task_ok i Run t' /\ state t' = TASK_RUNNING /\
    parent_id t' = parent_id t /\ backlog t' = 0 /\ reply_pending t' = false.
Proof.
  intros [K1 K2 K3 K4 K5 K6 K7 K8 K9] Hr. unfold release_all_ool, release_ool_regions.
  destruct (drain_total DRAIN_FUEL (set_regions ((fun r => if kaddr r =? 0 then r else no_region) <$> ool_regions t) t))
    as (freed & p & q & -> & -> & Hq & Hc); [done|done| |].
  - unfold backlog. cbn [pending_notifications messages set_regions]. pose proof (qo_count _ K2).
    assert (bits (pending_notifications t) <= 5); [|unfold DRAIN_FUEL, CAPACITY in *; lia].
    destruct (Z.eq_dec (pending_notifications t) 0) as [->|]; [done|]. apply lowest_bit. lia.
  - cbn [mbind option_bind]. set (t2 := set_messages q _).
    change (reply_pending t2) with (reply_pending t). change (reply_slot t2) with (reply_slot t).
    assert (backlog t2 = 0) as Hbl by (unfold backlog, t2; cbn; lia).
    destruct (reply_pending t) eqn:Erp.
    + exfalso. destruct (K9 eq_refl) as (_ & _ & Hn). by apply K8 in Hn.
    + eexists _, _. split_and!; [done| |done|done|done|done]. split; try done; simpl; by rewrite ?Hr, ?Erp.
Qed.

(** The running task leaves the table; it is in no queue. *)
Lemma base_remove s pc t :
  Inv s pc -> the_task (CURRENT_TASK s) s = Some t -> state t = TASK_RUNNING ->
  CURRENT_TASK s <> IDLE_TASK s -> CURRENT_TASK s <> process_ids.KERNEL ->
  Base (set_tasks (setz (tasks s) (CURRENT_TASK s) None) s) pc /\
  (forall j, the_task j (set_tasks (setz (tasks s) (CURRENT_TASK s) None) s) =
     if j =? CURRENT_TASK s then None else the_task j s).
Proof.
  intros [[] Hc Hrun Hst] Ht Hr Hni Hnk. pose proof (the_task_range _ _ _ Ht) as Hrange.
  assert (forall j, the_task j (set_tasks (setz (tasks s) (CURRENT_TASK s) None) s) =
     if j =? CURRENT_TASK s then None else the_task j s) as Hlook.
  { intros j. unfold the_task, task_at. simpl. destruct (Z.eqb_spec j (CURRENT_TASK s)) as [->|Hne].
    - by rewrite atz_setz_eq.
    - by rewrite atz_setz_ne by lia. }
  assert (CURRENT_TASK s ∉ run_queue s) as Hnq.
  { intros Hi. destruct (bs_inq0 _ t Ht Hi) as [|]; [congruence|done]. }
  split; [|done]. split; cbn [run_queue set_tasks IDLE_TASK]; try done.
  - cbn. by rewrite lenz_setz.
  - intros i x. rewrite Hlook. destruct (i =? _); [done|apply bs_tasks0].
  - intros i Hi. rewrite Hlook. destruct (Z.eqb_spec i (CURRENT_TASK s)) as [->|]; [done|by apply bs_alive0].
  - intros i x. rewrite Hlook. destruct (i =? _); [done|apply bs_ready0].
  - intros i x. rewrite Hlook. destruct (i =? _); [done|apply bs_inq0].
  - rewrite Hlook. split; [|apply bs_idle_task0]. destruct (Z.eqb_spec process_ids.IDLE (CURRENT_TASK s)); [congruence|].
    apply bs_idle_task0.
Qed.

(** Switching away from a task that has exited. *)
Lemma switch_exited s pc t :
  Inv s pc -> the_task (CURRENT_TASK s) s = Some t -> state t = TASK_RUNNING ->
  CURRENT_TASK s <> IDLE_TASK s -> CURRENT_TASK s <> process_ids.KERNEL ->
  exists s', switch_task (put_task (CURRENT_TASK s) (set_state TASK_EXITED t) s) = Some s' /\ Inv s' pc /\
    the_task (CURRENT_TASK s) s' = None /\ run_queue s = CURRENT_TASK s' :: run_queue s'.
Proof.
  intros Hinv Ht Hr Hni Hnk. pose proof (the_task_range _ _ _ Ht) as Hrange.
  destruct (base_remove s pc t) as [Hb Hlook]; try done.
  unfold switch_task. set (s1 := set_reap None _). change (CURRENT_TASK s1) with (CURRENT_TASK s).
  change (the_task (CURRENT_TASK s) s1) with (the_task (CURRENT_TASK s) (put_task (CURRENT_TASK s) (set_state TASK_EXITED t) s)).
  rewrite the_task_put_eq by done. cbn [mbind option_bind].
  destruct (decide (state (set_state TASK_EXITED t) = TASK_EXITED)) as [_|[]]; [|done]. cbn [mbind option_bind].
  set (s2 := set_tasks _ (set_reap _ s1)).
  assert (tasks s2 = setz (tasks s) (CURRENT_TASK s) None) as Hts.
  { unfold s2, s1. cbn. unfold setz. by rewrite list_insert_insert_eq. }
  assert (forall j, the_task j s2 = if j =? CURRENT_TASK s then None else the_task j s) as Hlook2.
  { intros j. rewrite <- Hlook. unfold the_task, task_at. by rewrite Hts. }
  assert (Base s2 pc) as Hb2.
  { destruct Hb. split; try done; try (intros i x; rewrite Hlook2, <- Hlook; eauto).
    - by rewrite Hts.
    - rewrite Hlook2, <- Hlook. done. }
  destruct (pick_spec s2 pc Hb2) as (i & q & Hq & s' & E & Hinv' & Hc & Hrq & Hother).
  - intros j x. rewrite Hlook2. destruct (Z.eqb_spec j (CURRENT_TASK s)); [done|].
    intros Hx Hrx. by apply (iv_run _ _ Hinv) in Hx.
  - exists s'. split_and!; [done|done| |by rewrite Hc, Hrq]. destruct (Z.eq_dec (CURRENT_TASK s) i) as [Heq|Hne].
    + exfalso. pose proof (bs_alive _ _ Hb2 i ltac:(rewrite Hq; by left)) as [x Hx].
      by rewrite <- Heq, Hlook2, Z.eqb_refl in Hx.
    + by rewrite Hother, Hlook2, Z.eqb_refl.
Qed.

Lemma exit_spec s pc st : Inv s pc -> runs s pc -> CURRENT_TASK s <> process_ids.KERNEL ->
  exists freed s', exit_task st s = Some (freed, s') /\ Inv s' pc /\ the_task (CURRENT_TASK s) s' = None /\
    exists x, run_queue s ++ x = CURRENT_TASK s' :: run_queue s'.
Proof.
  intros Hinv [Hp Hni] Hnk. destruct (current_running s pc Hinv) as (t & Ht & Hr & Hok); [by rewrite Hp|].
  rewrite Hp in Hok. unfold exit_task. rewrite Ht. cbn [mbind option_bind]. set (t1 := set_fd_table _ t).
  destruct (release_all_ool_ok (CURRENT_TASK s) t1) as (freed & t2 & -> & Hok2 & Hr2 & Hpar & _);
    [destruct Hok; by split|done|]. cbn [mbind option_bind].
  set (s1 := put_task (CURRENT_TASK s) t2 s).
  assert (Inv s1 pc) as Hinv1 by (apply (inv_update s pc _ t); rewrite ?Hp; congruence || done).
  assert (exists s2, (if has_parent t2 then p ← get_task (parent_id t2) s1;
      match p with Some parent => record_child_exit parent (id t2) st s1 | None => Some s1 end else Some s1) = Some s2 /\
      Inv s2 pc /\ extends s s2) as (s2 & -> & Hinv2 & Hc2 & x & Hx).
  { destruct (has_parent t2); [|exists s1; by eauto with sched]. unfold get_task.
    destruct (Z.ltb_spec (parent_id t2) 0), (Z.leb_spec MAX_TASKS (parent_id t2));
      try (exists s1; by eauto with sched).
    simpl. destruct (atz_lt (tasks s1) (parent_id t2)) as [o Ho]; [rewrite (bs_len _ _ (iv_base _ _ Hinv1)); lia|].
    unfold task_at. rewrite Ho. cbn [mbind option_bind]. destruct o as [x|]; [|exists s1; by eauto with sched].
    destruct (record_child_exit_spec s1 pc (parent_id t2) (id t2) st) as (s2 & E & Hinv2 & _); [done| |].
    - unfold the_task, task_at. rewrite Ho. by eexists.
    - exists s2. split_and!; [done|done|]. transitivity s1; [apply extends_put; reflexivity|by eapply extends_record]. }
  cbn [mbind option_bind]. destruct (iv_cur _ _ Hinv2) as [t3 Ht3]. pose proof Ht3 as Ht3'. rewrite Hc2 in Ht3'.
  rewrite Ht3'. cbn [mbind option_bind].
  assert (state t3 = TASK_RUNNING) as Hr3 by (apply (iv_curst _ _ Hinv2); [done|rewrite Hc2, Hp; done]).
  rewrite <- Hc2. destruct (switch_exited s2 pc t3) as (s' & -> & Hinv' & Hnone & Hq); try done; rewrite ?Hc2; try done.
  - by rewrite (bs_idle _ _ (iv_base _ _ Hinv2)), <- (bs_idle _ _ (iv_base _ _ Hinv)).
  - cbn [mbind option_bind]. rewrite <- Hc2. eexists _, _. split_and!; [done|done|done|]. exists x. by rewrite <- Hx.
Qed.
