(* ===== verification/TaskSpec.v ===== *)
(** * What the scheduler and IPC guarantee

    Fork and start-up keep the invariant of [TaskProofs.v], so it holds in every
    reachable state; the guarantees of the kernel's tasking follow. *)

From stdpp Require Import strings.
From S2P Require Import Prelude Pages Message MessageQueue UserMem Fd Task TaskProofs.

Open Scope Z_scope.

(** ** Fork *)

Lemma find_free_slot_spec ts b : let i := find_free_slot b ts in
  (i = -1 /\ Forall (fun o => o <> None) ts) \/
  (b <= i /\ atz ts (i - b) = Some None).
Proof.
  revert b. induction ts as [|[t|] ts IH]; intros b; simpl; [by left| |].
  - destruct (IH (b + 1)) as [[H1 H2]|[H1 H2]]; [left; by split; [|constructor]|].
    right. set (i := find_free_slot (b + 1) ts) in *. split; [lia|]. apply atz_Some in H2 as [H2 H3]. apply atz_Some.
    split; [lia|]. replace (Z.to_nat (i - b)) with (S (Z.to_nat (i - (b + 1)))) by lia. done.
  - right. split; [lia|]. by rewrite Z.sub_diag.
Qed.

Lemma available_id s : 0 <= lenz (tasks s) -> let i := get_available_task_id s in
  i = -1 \/ (0 <= i < lenz (tasks s) /\ the_task i s = None).
Proof.
  intros _. unfold get_available_task_id. destruct (find_free_slot_spec (tasks s) 0) as [[H _]|[_ H]]; [by left|right].
  rewrite Z.sub_0_r in H. split; [by eapply atz_Some_lt|]. unfold the_task, task_at. by rewrite H.
Qed.

(** Only the places of existing tasks matter. *)
Lemma inv_fresh s pc : Inv s pc -> Inv s (fresh s pc).
Proof.
  intros [Hb Hc Hr Hst].
  assert (forall i t, the_task i s = Some t -> fresh s pc i = pc i) as Hf by (intros i t E; unfold fresh; by rewrite E).
  split; [|done|done|].
  - destruct Hb as [B1 B2 B3 B4 B5 B6 B7 B8]. split; try done.
    + intros i t E. rewrite (Hf i t E). by apply B3.
    + destruct B8 as [[t E] Hp]. split; [by eexists|]. by rewrite (Hf _ t E).
  - intros t E Hp. apply Hst; [done|]. intros b Hpb. apply (Hp b). by rewrite (Hf _ t E).
Qed.

Lemma new_task_ok i n st is_init storage : st <> TASK_WAITING -> st <> TASK_EXITED ->
  task_ok i Run (new_task i n st is_init storage).
Proof.
  intros H1 H2. split; try done. apply holds_nil.
Qed.

Lemma sys_fork_spec s pc storage : Inv s pc ->
  exists r s', sys_fork storage true true s = Some (r, s') /\ Inv s' (fresh s pc) /\ extends s s'.
Proof.
  intros Hinv. pose proof (inv_fresh s pc Hinv) as Hinv'. destruct (iv_cur _ _ Hinv) as [t Ht].
  pose proof (bs_tasks _ _ (iv_base _ _ Hinv') _ t Ht) as Hok.
  unfold sys_fork. rewrite Ht. cbn [mbind option_bind]. destruct (just_forked t).
  { eexists _, _. split_and!; [done| |auto with sched]. apply (inv_update s _ _ t); try done. destruct Hok. by split. }
  destruct (negb _); [eexists _, _; split_and!; [done|done|auto with sched]|].
  unfold copy_task, create_task. rewrite Ht. cbn [mbind option_bind].
  destruct (available_id s (lenz_nonneg _)) as [->|[Hrange Hnone]]; [eexists _, _; split_and!; [done|done|auto with sched]|].
  set (i := get_available_task_id s) in *. destruct (Z.eqb_spec i (-1)); [lia|].
  rewrite the_task_put_eq by done. cbn [mbind option_bind negb]. rewrite put_put. cbn [mbind option_bind].
  match goal with |- context [schedule_task i (put_task i ?x s)] =>
    destruct (inv_ready s (fresh s pc) i x Hinv' Hrange) as (s' & E & Hs' & _) end.
  - intros x Hx. congruence.
  - unfold fresh. rewrite Hnone. destruct (new_task_ok i (name t) TASK_READY true storage); [done|done|]. by split.
  - rewrite E. cbn [mbind option_bind]. eexists _, _. split_and!; [done|done|]. eapply extends_schedule; [|done]. auto with sched.
Qed.

(** ** Start-up *)

(** The tasks of the boot manifest, each in the slot of its process number. *)
Definition boot_infos : list InitialTaskInfo := SCHEDULER_TASKS ++ SERVICE_MANIFEST.

Definition boot_task (info : InitialTaskInfo) : Task :=
  set_state (if info_id info =? process_ids.KERNEL then TASK_RUNNING else TASK_READY)
    (new_task (info_id info) (info_name info) TASK_WAITING (info_initialized info) true).

Definition boot_state : Sys :=
  mkSys ((Some <$> (boot_task <$> boot_infos)) ++ replicate 92 None) (info_id <$> boot_infos)
    process_ids.KERNEL process_ids.IDLE None.

Lemma initialize_boot_state : initialize_tasks SERVICE_MANIFEST = Some boot_state.
Proof. vm_compute. reflexivity. Qed.

Lemma boot_task_at i t : the_task i boot_state = Some t ->
  exists info, info ∈ boot_infos /\ info_id info = i /\ t = boot_task info.
Proof.
  assert (forallb (fun '(k, info) => info_id info =? k) (zip (seqZ 0 8) boot_infos) = true) as Hids by done.
  intros Ht%task_at_the_task. unfold task_at in Ht. apply atz_Some in Ht as [Hi Ht]. cbn [tasks boot_state] in Ht.
  apply lookup_app_Some in Ht as [Ht|[_ Ht]].
  - rewrite list_lookup_fmap in Ht. destruct ((boot_task <$> boot_infos) !! Z.to_nat i) as [x|] eqn:E; [|done].
    simpl in Ht. assert (x = t) as -> by congruence. rewrite list_lookup_fmap in E.
    destruct (boot_infos !! Z.to_nat i) as [info|] eqn:Ei; [|done]. exists info.
    split_and!; [by eapply list_elem_of_lookup_2| |by simpl in E; congruence].
    rewrite forallb_forall in Hids. assert ((i, info) ∈ zip (seqZ 0 8) boot_infos) as Hin.
    { apply list_elem_of_lookup. exists (Z.to_nat i). apply lookup_zip_with_Some. eexists i, info. split_and!; [done| |done].
      apply lookup_seqZ. apply lookup_lt_Some in Ei. change (length boot_infos) with 8%nat in Ei. lia. }
    apply list_elem_of_In, Hids in Hin. lia.
  - apply lookup_replicate in Ht as [? _]. done.
Qed.

Lemma inv_boot : Inv boot_state (fun _ => Run).
Proof.
  assert (forall info, task_ok (info_id info) Run (boot_task info)) as Hok.
  { intros info. apply (task_ok_state _ Run (new_task (info_id info) (info_name info) TASK_READY (info_initialized info) true)
      (if info_id info =? process_ids.KERNEL then TASK_RUNNING else TASK_READY)); [by apply new_task_ok|by destruct (_ =? _)..]. }
  split; [split|..].
  - done.
  - done.
  - intros i t (info & _ & <- & ->)%boot_task_at. apply Hok.
  - apply (bool_decide_unpack _). vm_compute. done.
  - intros i Hi. change (i ∈ [0; 1; 2; 3; 4; 5; 6; 7]) in Hi. repeat (apply elem_of_cons in Hi as [->|Hi]; [by eexists; vm_compute|]).
    by apply elem_of_nil in Hi.
  - intros i t (info & Hin & <- & ->)%boot_task_at _. cbn [run_queue boot_state]. apply list_elem_of_fmap. eauto.
  - intros i t (info & Hin & <- & ->)%boot_task_at _. destruct (Z.eq_dec (info_id info) process_ids.KERNEL); [by right|left].
    unfold boot_task. destruct (Z.eqb_spec (info_id info) process_ids.KERNEL); done.
  - split; [by eexists; vm_compute|done].
  - by eexists; vm_compute.
  - intros i t (info & Hin & <- & ->)%boot_task_at Hs. unfold boot_task in Hs.
    destruct (Z.eqb_spec (info_id info) process_ids.KERNEL); done.
  - intros t (info & Hin & Hi & ->)%boot_task_at _. cbn [CURRENT_TASK boot_state] in Hi. unfold boot_task. by rewrite Hi.
Qed.

(** ** Every reachable state *)

Definition any_step (c c' : Config) : Prop := exists b, step b c c'.

Definition reachable (c : Config) : Prop :=
  exists s0, initialize_tasks SERVICE_MANIFEST = Some s0 /\ rtc any_step (s0, fun _ => Run) c.

(** How a step moves the run queue. *)
Definition queue_moves (b : bool) (s s' : Sys) : Prop :=
  if b then exists x, run_queue s ++ x = CURRENT_TASK s' :: run_queue s' else extends s s'.

(** Two equations for one result. *)
Ltac same_result E :=
  match type of E with ?x = Some _ =>
    match goal with H : x = Some _ |- _ =>
      tryif unify H E then fail else (rewrite E in H; injection H as ?; subst)
    end
  end.

Lemma step_inv b c c' : step b c c' -> Inv (fst c) (snd c) -> Inv (fst c') (snd c') /\ queue_moves b (fst c) (fst c').
Proof.
  intros Hs Hinv.
  destruct Hs; cbn [fst snd] in *.
  - destruct (notify_spec s pc i n Hinv) as (s1 & E & J1). same_result E. split; [done|by eapply extends_notify].
  - destruct (preempt_spec s pc Hinv) as (s1 & E & J1 & Hq). same_result E. done.
  - destruct (yield_spec s pc b Hinv) as (s1 & E & J1 & Hq); [done|]. same_result E. done.
  - destruct (send_spec s pc dst m Hinv) as (e1 & s1 & E & J1); [done|]. same_result E. split; [done|].
    by eapply extends_send; [reflexivity|].
  - destruct (reply_spec s pc req resp Hinv) as (e1 & s1 & E & J1); [done|]. same_result E. split; [done|].
    unfold reply in E. destruct (_ =? 0); [simplify_eq; reflexivity|].
    destruct (the_task _ s); [|done]. by eapply extends_send; [reflexivity|].
  - destruct (call_send_spec s pc dst m Hinv) as (r & s1 & E & J1); [done|done|]. same_result E. split; [done|].
    by eapply extends_call.
  - destruct (call_send_spec s pc dst m Hinv) as (r & s1 & E & J1); [done|done|]. same_result E. split; [done|].
    by eapply extends_call.
  - split; [by apply begin_inv|reflexivity].
  - destruct (receive_poll_spec s pc Hinv) as (r1 & s1 & E & J1); [done|]. same_result E. split; [done|].
    unfold receive_poll in E. destruct (the_task _ s); [|done]. cbn [mbind option_bind] in E.
    destruct (try_receive_task _) as [[[|] ]|]; simplify_eq/=; auto with sched.
  - destruct (wait_notification_poll_spec s pc mask0 Hinv) as (r1 & s1 & E & J1); [done|]. same_result E. split; [done|].
    unfold wait_notification_poll in E. destruct (the_task _ s); [|done]. cbn [mbind option_bind] in E.
    destruct (negb _); simplify_eq/=; auto with sched.
  - destruct (call_poll_spec s pc Hinv) as (r1 & s1 & E & J1); [done|]. same_result E. split; [done|].
    unfold call_poll in E. destruct (the_task _ s); [|done]. cbn [mbind option_bind] in E.
    destruct (reply_pending _); simplify_eq/=; auto with sched.
  - destruct (wait_child_poll_spec s pc Hinv) as (r1 & s1 & E & J1); [done|]. same_result E. split; [done|].
    unfold wait_child_poll in E. destruct (the_task _ s); [|done]. cbn [mbind option_bind] in E.
    destruct (exit_records _); simplify_eq/=; auto with sched.
  - destruct (try_receive_inv s pc Hinv) as (r1 & s1 & E & J1); [done|]. same_result E. split; [done|].
    unfold try_receive in E. destruct (the_task _ s); [|done]. cbn [mbind option_bind] in E.
    destruct (try_receive_task _) as [[]|]; simplify_eq/=; auto with sched.
  - destruct (sys_fork_spec s pc storage Hinv) as (r1 & s1 & E & J1 & J2). same_result E. done.
  - destruct (exit_spec s pc st Hinv) as (r1 & s1 & E & J1 & _ & J2); [done|done|]. same_result E. done.
Qed.

Lemma reachable_inv c : reachable c -> Inv (fst c) (snd c).
Proof.
  intros (s0 & E & Hr). rewrite initialize_boot_state in E. simplify_eq.
  assert (forall c1 c2, rtc any_step c1 c2 -> Inv (fst c1) (snd c1) -> Inv (fst c2) (snd c2)) as Hind.
  { induction 1 as [|c1 c2 c3 [b Hs] _ IH]; [done|]. intros Hi. apply IH. by eapply step_inv. }
  apply (Hind _ _ Hr). apply inv_boot.
Qed.

(** ** The guarantees *)

(** What a task in a blocking loop waits for is there. *)
Definition available (b : Blocked) (t : Task) : bool :=
  match b with
  | InReceive => negb (pending_notifications t =? 0) || negb (count_ (messages t) =? 0)
  | InNotify mask => negb (Z.land (pending_notifications t) mask =? 0)
  | InCall => reply_pending t
  | InWait => match exit_records t with [] => false | _ :: _ => true end
  end.

(** The same under the invariant of the tasks. *)
Lemma available_runs s pc i t b : Inv s pc -> the_task i s = Some t -> pc i = Park b \/ pc i = Poll b -> available b t = true ->
  (state t = TASK_RUNNING /\ i = CURRENT_TASK s) \/ (state t = TASK_READY /\ i ∈ run_queue s).
Proof.
  intros Hinv Ht Hp Ha. pose proof (bs_tasks _ _ (iv_base _ _ Hinv) i t Ht) as [].
  destruct (state t) eqn:Es; [left|right| |done].
  - split; [done|]. by apply (iv_run _ _ Hinv i t).
  - split; [done|]. by apply (bs_ready _ _ (iv_base _ _ Hinv) i t).
  - exfalso. specialize (to_wait eq_refl). specialize (to_pc eq_refl).
    assert (wait_reason t = reason_of b /\ match b with InNotify m => wait_notify_mask t = m | _ => True end) as [Hr Hm]
      by (destruct Hp as [Hp|Hp]; rewrite Hp in to_pc; done).
    rewrite Hr in to_wait. destruct b; simpl in *; try congruence.
Qed.

(** C1: No wakeup is lost: in every reachable state, a task inside a blocking loop
    (receive, wait for notifications, call, wait for a child) whose event has
    already arrived is running or in the run queue.  This covers the window
    between the check and the sleep, where interrupts and other tasks may
    deliver. *)
Theorem no_lost_wakeup s pc i t b :
  reachable (s, pc) -> the_task i s = Some t -> pc i = Park b \/ pc i = Poll b -> available b t = true ->
  (state t = TASK_RUNNING /\ i = CURRENT_TASK s) \/ (state t = TASK_READY /\ i ∈ run_queue s).
Proof. intros Hinv%reachable_inv. by apply available_runs. Qed.

(** [c'] is reached from [c] by the step that is the [n]th hand-over of the
    processor. *)
Inductive after_switches : nat -> Config -> Config -> Prop :=
| as_last c c' : step true c c' -> after_switches 1 c c'
| as_switch n c c1 c' : step true c c1 -> after_switches n c1 c' -> after_switches (S n) c c'
| as_other n c c1 c' : step false c c1 -> after_switches n c1 c' -> after_switches n c c'.

Lemma after_switches_pos n c c' : after_switches n c c' -> (0 < n)%nat.
Proof. induction 1; lia. Qed.

(** C36: Scheduling is fair, with an exact bound: the task at position [k] of the run
    queue runs after exactly [k + 1] hand-overs of the processor, whatever the
    tasks and interrupts do in between. *)
Theorem round_robin_latency c c' k i :
  reachable c -> run_queue (fst c) !! k = Some i -> after_switches (S k) c c' -> CURRENT_TASK (fst c') = i.
Proof.
  intros Hinv%reachable_inv Hk Ha. remember (S k) as n eqn:En. revert k En Hk Hinv.
  induction Ha as [c c' Hs|n c c1 c' Hs Ha IH|n c c1 c' Hs Ha IH]; intros k En Hk Hinv;
    destruct (step_inv _ _ _ Hs Hinv) as [Hinv1 Hq]; simpl in Hq.
  - assert (k = O) as -> by lia. destruct Hq as [x Hq]. apply (lookup_app_l_Some _ x) in Hk. rewrite Hq in Hk.
    simpl in Hk. congruence.
  - destruct k as [|k]; [apply after_switches_pos in Ha; lia|]. apply (IH k); [lia| |done]. destruct Hq as [x Hq].
    apply (lookup_app_l_Some _ x) in Hk. rewrite Hq in Hk. done.
  - apply (IH k); [done| |done]. destruct Hq as [_ [x ->]]. by apply lookup_app_l_Some.
Qed.

(** The kernel's tasking never faults: in every reachable state the processor
    can be handed over, always to a queued task (the idle fallback is never
    taken); every notification, send within the table and reply completes; and
    the running task can always call, fork, poll what it waits for, and exit. *)
Theorem tasking_never_faults s pc :
  reachable (s, pc) ->
  (exists s' x, switch_task s = Some s' /\ is_Some (the_task (CURRENT_TASK s') s') /\
     run_queue s ++ x = CURRENT_TASK s' :: run_queue s') /\
  (forall i n, is_Some (notify i n s)) /\
  (forall dst m, dst_ok dst -> is_Some (send_message dst m s)) /\
  (forall req resp, dst_ok (sender req) -> is_Some (reply req resp s)) /\
  (runs s pc -> (forall dst m, dst_ok dst -> is_Some (call_send dst m s)) /\
     is_Some (sys_fork true true true s) /\ is_Some (try_receive (CURRENT_TASK s) s) /\
     (CURRENT_TASK s <> process_ids.KERNEL -> forall st, is_Some (exit_task st s))) /\
  (forall b, pc (CURRENT_TASK s) = Poll b ->
     match b with
     | InReceive => is_Some (receive_poll s) | InNotify mask => is_Some (wait_notification_poll mask s)
     | InCall => is_Some (call_poll s) | InWait => is_Some (wait_child_poll s)
     end).
Proof.
  intros Hinv%reachable_inv. simpl in Hinv. pose proof (iv_base _ _ Hinv) as Hb. split_and!.
  - destruct (preempt_spec s pc Hinv) as (s' & E & Hinv' & x & Hq). exists s', x. split_and!; [done| |done].
    apply (iv_cur _ _ Hinv').
  - intros i n. destruct (notify_spec s pc i n Hinv) as (? & -> & _). done.
  - intros dst m Hd. destruct (send_spec s pc dst m Hinv Hd) as (? & ? & -> & _). done.
  - intros req resp Hd. destruct (reply_spec s pc req resp Hinv Hd) as (? & ? & -> & _). done.
  - intros Hr. split_and!.
    + intros dst m Hd. destruct (call_send_spec s pc dst m Hinv Hr Hd) as (? & ? & -> & _). done.
    + destruct (sys_fork_spec s pc true Hinv) as (? & ? & -> & _). done.
    + destruct (try_receive_inv s pc Hinv Hr) as (? & ? & -> & _). done.
    + intros Hk st. destruct (exit_spec s pc st Hinv Hr Hk) as (? & ? & -> & _). done.
  - intros [] Hp.
    + destruct (receive_poll_spec s pc Hinv Hp) as (? & ? & -> & _). done.
    + destruct (wait_notification_poll_spec s pc _ Hinv Hp) as (? & ? & -> & _). done.
    + destruct (call_poll_spec s pc Hinv Hp) as (? & ? & -> & _). done.
    + destruct (wait_child_poll_spec s pc Hinv Hp) as (? & ? & -> & _). done.
Qed.

(** C13: A call returns only its own answer: in every reachable state, what the wait
    loop of [call] hands back is a reply whose correlation number is the one of
    the call in progress, and the call is over afterwards. *)
Theorem call_returns_own_reply s pc t m s' :
  reachable (s, pc) -> pc (CURRENT_TASK s) = Poll InCall -> the_task (CURRENT_TASK s) s = Some t ->
  call_poll s = Some (Some m, s') ->
  is_reply m = true /\ correlation m = call_correlation t /\ call_correlation t <> 0 /\
  exists t', the_task (CURRENT_TASK s) s' = Some t' /\ call_correlation t' = 0 /\ reply_pending t' = false /\
    state t' = TASK_RUNNING.
Proof.
  intros Hinv%reachable_inv Hp Ht E. simpl in Hinv. pose proof (bs_tasks _ _ (iv_base _ _ Hinv) _ t Ht) as Hok.
  pose proof (the_task_range _ _ _ Ht). unfold call_poll in E. rewrite Ht in E. cbn [mbind option_bind] in E.
  destruct (reply_pending t) eqn:Er; [|done]. destruct (to_reply _ _ _ Hok Er) as (H1 & H2 & H3).
  simplify_eq. split_and!; [done|done|done|]. eexists. split; [by apply the_task_put_eq|done].
Qed.

(** Changing one task, possibly making it ready. *)
Lemma put_schedule_frame dst t1 s s' : 0 <= dst < lenz (tasks s) -> schedule_task dst (put_task dst t1 s) = Some s' ->
  the_task dst s' = Some (set_state TASK_READY t1) /\ forall j, j <> dst -> the_task j s' = the_task j s.
Proof.
  intros Hr. rewrite (schedule_task_eq dst _ t1) by (by apply the_task_put_eq). intros [= <-].
  split.
  - exact (the_task_put_eq dst (set_state TASK_READY t1) (put_task dst t1 s) ltac:(rewrite lenz_put; done)).
  - intros j Hj. transitivity (the_task j (put_task dst (set_state TASK_READY t1) (put_task dst t1 s))); [done|].
    rewrite !the_task_put by (rewrite ?lenz_put; done). by destruct (Z.eqb_spec j dst).
Qed.

(** Messages to a task arrive in order, reach only that task, and a refusal
    changes nothing: sending a message that is not a reply to an existing task
    either appends it to the receiver's queue (and the receiver is then not
    left waiting to receive), or reports a full queue and leaves the whole
    state as it was. *)
Theorem send_message_correct s pc dst m t ms :
  reachable (s, pc) -> is_reply m = false -> the_task dst s = Some t -> holds (messages t) ms ->
  exists e s', send_message dst m s = Some (e, s') /\
    ((e = err OK /\ exists t', the_task dst s' = Some t' /\ holds (messages t') (ms ++ [m]) /\
        (state t' = TASK_WAITING -> wait_reason t' <> WAIT_RECEIVE)) \/
     (e = err ERR_QUEUE_FULL /\ s' = s /\ (ring_ (messages t) = None \/ lenz ms = CAPACITY))) /\
    forall j, j <> dst -> the_task j s' = the_task j s.
Proof.
  intros Hinv%reachable_inv Hrep Ht Hms. simpl in Hinv. pose proof (bs_tasks _ _ (iv_base _ _ Hinv) _ t Ht) as Hok.
  pose proof (the_task_range _ _ _ Ht) as Hr. unfold send_message. destruct (Z.eqb_spec dst (-1)); [lia|].
  rewrite (task_at_the_task _ _ _ Ht). cbn [mbind option_bind]. rewrite Hrep. unfold deliver_message.
  destruct (push_spec (messages t) ms m (to_queue _ _ _ Hok) Hms) as [(_ & _ & q & -> & _ & Hq & _)|[Hfull ->]].
  2:{ eexists _, _. split; [done|]. split; [by right|done]. }
  destruct (decide (state t = TASK_WAITING /\ (wait_reason t = WAIT_RECEIVE \/ wait_reason t = WAIT_NONE))) as [Hw|Hw].
  - destruct (schedule_task dst (put_task dst (set_messages q t) s)) as [s'|] eqn:E.
    + cbn [mbind option_bind]. destruct (put_schedule_frame _ _ _ _ Hr E) as [Hd Ho].
      eexists _, _. split; [done|]. split; [|done]. left. split; [done|]. eexists. split_and!; done.
    + exfalso. rewrite (schedule_task_eq dst _ (set_messages q t)) in E; [done|by apply the_task_put_eq].
  - eexists _, _. split; [done|]. split.
    + left. split; [done|]. eexists. split_and!; [by apply the_task_put_eq|done|]. intros H1 H2. apply Hw. eauto.
    + intros j Hj. rewrite the_task_put by done. by destruct (Z.eqb_spec j dst).
Qed.
