(* ===== verification/TaskLife.v ===== *)
(** * The life of a task

    What start-up, fork and exit do to the task table, the buffers a task owns
    and its parent, and two ways in which the table can be damaged. *)

From stdpp Require Import strings.
From S2P Require Import Prelude Pages Message MessageQueue UserMem Fd Task TaskProofs TaskSpec.

Open Scope Z_scope.

(** ** Releasing what a task owns *)

(** The kernel buffer of a message, if it has one. *)
Definition owned_buffer (m : Message) : option Z := fst (free_message_ool m).

Lemma owned_none m : ool m = no_ool -> owned_buffer m = None.
Proof. intros E. unfold owned_buffer, free_message_ool. by rewrite E. Qed.

Lemma drain_exact n t ms :
  queue_ok (messages t) -> 0 <= pending_notifications t < 32 -> holds (messages t) ms -> backlog t < Z.of_nat n ->
  exists q, drain n t = Some (omap owned_buffer ms, set_messages q (set_pending 0 t)) /\ queue_ok q /\ holds q [].
Proof.
  revert t ms. induction n as [|n IH]; intros t ms Hq Hp Hms Hn.
  - pose proof (bits_nonneg (pending_notifications t)). pose proof (qo_count _ Hq). unfold backlog in Hn. lia.
  - cbn [drain]. unfold try_receive_task.
    destruct (pop_notification_spec t Hp) as [[H0 ->]|(m & p & -> & Hp' & Hb & Hool)]; cbn [mbind option_bind].
    + destruct ms as [|m ms].
      * rewrite (pop_nil _ Hq Hms). cbn [mbind option_bind]. exists (messages t). split_and!; [|done|done].
        destruct t; simpl in *; by subst.
      * destruct (pop_cons _ m ms Hq Hms) as (q' & -> & Hq' & Hms' & _). cbn [mbind option_bind].
        destruct (IH (set_messages q' t) ms Hq' Hp Hms') as (q & -> & Hd & He).
        { unfold backlog in *. cbn [pending_notifications messages set_messages]. destruct Hms as [Hl _], Hms' as [Hl' _]. rewrite lenz_cons in Hl. lia. }
        cbn [mbind option_bind]. exists q. split_and!; [|done|done]. cbn [omap list_omap]. fold (owned_buffer m).
        by destruct (owned_buffer m).
    + destruct (IH (set_pending p t) ms Hq Hp' Hms) as (q & -> & Hd & He); [unfold backlog in *; cbn [pending_notifications messages set_pending]; lia|].
      cbn [mbind option_bind]. fold (owned_buffer m). rewrite (owned_none m Hool). exists q. split_and!; [done|done|done].
Qed.

(** A dying task gives back every kernel buffer it owns, each once: those of its
    mapped regions, of every queued message in order, and of an unread reply;
    afterwards it owns none, and the fixed number of rounds is always enough. *)
Theorem release_all_ool_complete t ms :
  queue_ok (messages t) -> 0 <= pending_notifications t < 32 -> holds (messages t) ms ->
  exists t', release_all_ool t =
      Some ((kaddr <$> filter (fun r => kaddr r <> 0) (ool_regions t)) ++ omap owned_buffer ms ++
            (if reply_pending t then option_list (owned_buffer (reply_slot t)) else []), t') /\
    holds (messages t') [] /\ pending_notifications t' = 0 /\ reply_pending t' = false /\
    Forall (fun r => kaddr r = 0) (ool_regions t').
Proof.
  intros Hq Hp Hms. unfold release_all_ool, release_ool_regions.
  destruct (drain_exact DRAIN_FUEL (set_regions ((fun r => if kaddr r =? 0 then r else no_region) <$> ool_regions t) t) ms)
    as (q & -> & Hq' & He); [done|done|done| |].
  - unfold backlog. cbn [pending_notifications messages set_regions]. pose proof (qo_count _ Hq).
    assert (bits (pending_notifications t) <= 5); [|unfold DRAIN_FUEL, CAPACITY in *; lia].
    destruct (Z.eq_dec (pending_notifications t) 0) as [->|]; [done|]. apply lowest_bit. lia.
  - cbn [mbind option_bind]. set (t2 := set_messages q _). change (reply_pending t2) with (reply_pending t).
    change (reply_slot t2) with (reply_slot t).
    assert (Forall (fun r => kaddr r = 0) (ool_regions t2)) as Hz.
    { apply Forall_fmap, Forall_true. intros r. simpl. by destruct (Z.eqb_spec (kaddr r) 0). }
    destruct (reply_pending t) eqn:Er.
    + change (owned_buffer (reply_slot t)) with (fst (free_message_ool (reply_slot t))).
      destruct (free_message_ool (reply_slot t)) as [freed m]. eexists. split_and!; done.
    + exists t2. rewrite app_nil_r. split_and!; done.
Qed.

Lemma release_all_ool_complete_witness :
  let m := set_ool (mkOol 0x100000 64 0) zero_message in
  let t := set_messages (snd (push m (new_queue true))) (new_task 3 "fat32" TASK_RUNNING true true) in
  exists t', release_all_ool t = Some ([0x100000], t') /\
    holds (messages t') [] /\ pending_notifications t' = 0 /\ reply_pending t' = false /\
    Forall (fun r => kaddr r = 0) (ool_regions t').
Proof.
  cbv zeta. set (m := set_ool _ _). destruct (holds_nil true) as [Hq Hh].
  destruct (push_spec _ [] m Hq Hh) as [(_ & _ & q & E & Hq' & Hm & _)|[[|H] _]]; [|done|done].
  apply (release_all_ool_complete (set_messages (snd (push m (new_queue true))) (new_task 3 "fat32" TASK_RUNNING true true)) [m]);
    rewrite ?E; done.
Defined.

(** ** Exit *)

Lemma set_state_id t : set_state (state t) t = t.
Proof. by destruct t. Qed.

(** A hand-over changes at most the state of a task, and makes none wait. *)
Lemma pick_frame s s' j t : pick_next_task s = Some s' -> the_task j s = Some t ->
  exists st, the_task j s' = Some (set_state st t) /\ (st = TASK_WAITING -> state t = TASK_WAITING).
Proof.
  intros E Ht. unfold pick_next_task in E. destruct (run_queue s) as [|i q].
  - simplify_eq. exists (state t). by rewrite set_state_id.
  - destruct (the_task i s) as [x|] eqn:Ex; [|done]. simplify_eq/=. pose proof (the_task_range _ _ _ Ex).
    pose proof (the_task_put j i (set_state TASK_RUNNING x) (set_run_queue q s) ltac:(done)) as Hp.
    destruct (Z.eqb_spec j i) as [->|Hne].
    + exists TASK_RUNNING. assert (x = t) as -> by congruence. split; [exact Hp|done].
    + exists (state t). rewrite set_state_id. split; [|done]. etrans; [exact Hp|]. exact Ht.
Qed.

Lemma switch_exited_frame s c t s' j x :
  CURRENT_TASK s = c -> 0 <= c < lenz (tasks s) -> j <> c ->
  switch_task (put_task c (set_state TASK_EXITED t) s) = Some s' -> the_task j s = Some x ->
  exists st, the_task j s' = Some (set_state st x) /\ (st = TASK_WAITING -> state x = TASK_WAITING).
Proof.
  intros Hc Hr Hj E Hx. unfold switch_task in E. set (s1 := set_reap None _) in E.
  change (CURRENT_TASK s1) with (CURRENT_TASK s) in E. rewrite Hc in E.
  replace (the_task c s1) with (Some (set_state TASK_EXITED t)) in E by (symmetry; exact (the_task_put_eq c _ s Hr)).
  cbn [mbind option_bind] in E. destruct (decide _) as [_|[]]; [|done]. cbn [mbind option_bind] in E.
  eapply pick_frame; [exact E|]. rewrite <- Hx. unfold the_task, task_at. cbn [tasks set_tasks set_reap s1].
  rewrite atz_setz_ne by lia. cbn [tasks set_tasks put_task]. by rewrite atz_setz_ne by lia.
Qed.

Lemma the_task_put_ne2 j i t t' s : 0 <= i < lenz (tasks s) -> j <> i ->
  the_task j (put_task i t' (put_task i t s)) = the_task j s.
Proof. intros Hr Hj. rewrite put_put, the_task_put by done. by destruct (Z.eqb_spec j i). Qed.

(** The report to the parent. *)
Lemma record_exact p child st s tp : the_task p s = Some tp -> id tp = p ->
  exists s' tp', record_child_exit p child st s = Some s' /\ the_task p s' = Some tp' /\
    (forall j, j <> p -> the_task j s' = the_task j s) /\ CURRENT_TASK s' = CURRENT_TASK s /\
    lenz (tasks s') = lenz (tasks s) /\
    (lenz (exit_records tp) < MAX_CHILD_EXIT_RECORDS ->
       exit_records tp' = exit_records tp ++ [mkExit child st] /\
       (state tp' = TASK_WAITING -> wait_reason tp' <> WAIT_CHILD)) /\
    (MAX_CHILD_EXIT_RECORDS <= lenz (exit_records tp) -> tp' = tp).
Proof.
  intros Ht Hid. pose proof (the_task_range _ _ _ Ht) as Hr. unfold record_child_exit. rewrite Ht. cbn [mbind option_bind].
  destruct (Z.leb_spec MAX_CHILD_EXIT_RECORDS (lenz (exit_records tp))) as [Hfull|Hroom].
  { exists s, tp. split_and!; try done. lia. }
  rewrite Hid. destruct (decide _) as [Hw|Hw].
  - rewrite (schedule_task_eq p _ (set_exit_records (exit_records tp ++ [mkExit child st]) tp)) by (by apply the_task_put_eq).
    eexists _, _. split; [done|]. split_and!.
    + exact (the_task_put_eq p _ (put_task p _ s) ltac:(rewrite lenz_put; done)).
    + intros j Hj. etrans; [exact (the_task_put_ne2 j p _ _ s Hr Hj)|done].
    + done.
    + exact (eq_trans (lenz_put p _ (put_task p _ s)) (lenz_put p _ s)).
    + done.
    + lia.
  - eexists _, _. split; [done|]. split_and!; [by apply the_task_put_eq| |done|apply lenz_put| |lia].
    + intros j Hj. rewrite the_task_put by done. by destruct (Z.eqb_spec j p).
    + intros _. split; [done|]. intros H1 H2. by apply Hw.
Qed.

(** C39: Exit frees the slot and reports to the parent: the task is gone from the
    table, the parent's records end with the child's number and status as long
    as there is room for them (and a parent that waits for a child is then not
    left waiting); with eight unread records the report is dropped. *)
Theorem exit_reports_to_parent s pc st t p tp :
  reachable (s, pc) -> runs s pc -> CURRENT_TASK s <> process_ids.KERNEL ->
  the_task (CURRENT_TASK s) s = Some t -> parent_id t = p -> p <> CURRENT_TASK s -> the_task p s = Some tp ->
  exists freed s' tp', exit_task st s = Some (freed, s') /\ the_task (CURRENT_TASK s) s' = None /\
    the_task p s' = Some tp' /\
    (lenz (exit_records tp) < MAX_CHILD_EXIT_RECORDS ->
       exit_records tp' = exit_records tp ++ [mkExit (CURRENT_TASK s) st] /\
       (state tp' = TASK_WAITING -> wait_reason tp' <> WAIT_CHILD)) /\
    (MAX_CHILD_EXIT_RECORDS <= lenz (exit_records tp) -> exit_records tp' = exit_records tp).
Proof.
  intros Hinv%reachable_inv Hrun Hnk Ht Hp Hne Htp. simpl in Hinv. pose proof (the_task_range _ _ _ Ht) as Hrange.
  pose proof (the_task_range _ _ _ Htp) as Hrp. pose proof (bs_tasks _ _ (iv_base _ _ Hinv) _ _ Htp) as Hokp.
  pose proof (bs_len _ _ (iv_base _ _ Hinv)) as Hlen.
  destruct (exit_spec s pc st Hinv Hrun Hnk) as (freed & s' & E & _ & Hgone & _).
  assert (task_ok (CURRENT_TASK s) Run t) as Hok.
  { destruct Hrun as [<- _]. by apply (bs_tasks _ _ (iv_base _ _ Hinv)). }
  assert (state t = TASK_RUNNING) as Hst by (apply (iv_curst _ _ Hinv); [done|by destruct Hrun as [-> _]]).
  pose proof E as E0. unfold exit_task in E. rewrite Ht in E. cbn [mbind option_bind] in E.
  destruct (release_all_ool_ok (CURRENT_TASK s) (set_fd_table (release_all_process_fds (fd_table t)) t))
    as (fr & t2 & E2 & Hok2 & _ & Hpar & _); [destruct Hok; by split|done|]. rewrite E2 in E. cbn [mbind option_bind] in E.
  set (s1 := put_task (CURRENT_TASK s) t2 s) in E. cbn [parent_id set_fd_table] in Hpar.
  assert (the_task p s1 = Some tp) as Htp1
    by (unfold s1; rewrite the_task_put by done; by destruct (Z.eqb_spec p (CURRENT_TASK s))).
  unfold has_parent in E. rewrite Hpar, Hp in E. destruct (Z.eqb_spec p (-1)); [lia|]. cbn [negb] in E.
  unfold get_task in E. destruct (Z.ltb_spec p 0), (Z.leb_spec MAX_TASKS p); try lia. simpl in E.
  rewrite (task_at_the_task _ _ _ Htp1) in E. cbn [mbind option_bind] in E. rewrite (to_id _ _ _ Hok2) in E.
  destruct (record_exact p (CURRENT_TASK s) st s1 tp Htp1 (to_id _ _ _ Hokp)) as
    (s2 & tp2 & E3 & Htp2 & Hfr & Hc2 & Hl2 & Hroom & Hfull). rewrite E3 in E. cbn [mbind option_bind] in E.
  rewrite Hfr in E by done. unfold s1 in E at 1. rewrite the_task_put_eq in E by done. cbn [mbind option_bind] in E.
  destruct (switch_task _) as [s3|] eqn:E4; [|done]. cbn [mbind option_bind] in E. simplify_eq.
  destruct (switch_exited_frame s2 (CURRENT_TASK s) t2 s' (parent_id t) tp2) as (sx & Hx & Hsx); try done.
  { rewrite Hl2. unfold s1. by rewrite lenz_put. }
  eexists _, _, _. split_and!; [done|done|exact Hx| |].
  - intros Hr. destruct (Hroom Hr) as [H1 H2]. split; [done|]. intros H3. apply H2. by apply Hsx.
  - intros Hf. by rewrite (Hfull Hf).
Qed.

(** A run for the witnesses: the kernel task forks and the processor goes round
    the run queue until the child runs. *)
Lemma reach_boot : reachable (boot_state, fun _ => Run).
Proof. exists boot_state. split; [apply initialize_boot_state|reflexivity]. Qed.

Lemma reach_step b c c' : reachable c -> step b c c' -> reachable c'.
Proof. intros (s0 & E & Hr) Hs. exists s0. split; [done|]. eapply rtc_r; [done|by exists b]. Qed.

Fixpoint switches (n : nat) (s : Sys) : option Sys :=
  match n with O => Some s | S n => s ← switch_task s; switches n s end.

Lemma reach_switches n s pc s' : reachable (s, pc) -> switches n s = Some s' -> reachable (s', pc).
Proof.
  revert s. induction n as [|n IH]; intros s Hr E; simpl in E; [by simplify_eq|].
  destruct (switch_task s) as [s1|] eqn:E1; [|done]. apply (IH s1); [|done]. by eapply reach_step, st_preempt.
Qed.

Definition forked : option Sys := '(_, s) ← sys_fork true true true boot_state; switches 9 s.

Lemma forked_reachable s : forked = Some s -> reachable (s, fresh boot_state (fun _ => Run)).
Proof.
  unfold forked. destruct (sys_fork true true true boot_state) as [[r s1]|] eqn:E; [|done]. cbn [mbind option_bind].
  apply reach_switches. eapply reach_step; [apply reach_boot|]. eapply st_fork; [|exact E]. done.
Qed.

Lemma fresh_run s j : fresh s (fun _ => Run) j = Run.
Proof. unfold fresh. by destruct (the_task j s). Qed.

Lemma exit_reports_to_parent_witness :
  match forked with
  | Some s => CURRENT_TASK s = 8 /\ exists freed s' tp', exit_task 7 s = Some (freed, s') /\ the_task 8 s' = None /\
      the_task process_ids.KERNEL s' = Some tp' /\ exit_records tp' = [mkExit 8 7]
  | None => False
  end.
Proof.
  assert ((s ← forked; t ← the_task (CURRENT_TASK s) s; tp ← the_task process_ids.KERNEL s;
    Some (CURRENT_TASK s, IDLE_TASK s, parent_id t, exit_records tp)) = Some (8, 1, 0, [])) as H by (vm_compute; reflexivity).
  destruct forked as [s|] eqn:Ef; [|done]. cbn [mbind option_bind] in H.
  destruct (the_task (CURRENT_TASK s) s) as [t|] eqn:Et; [|done]. cbn [mbind option_bind] in H.
  destruct (the_task process_ids.KERNEL s) as [tp|] eqn:Ep; [|done]. cbn [mbind option_bind] in H.
  injection H as Hc Hi Hp Hx. split; [done|].
  destruct (exit_reports_to_parent s _ 7 t process_ids.KERNEL tp (forked_reachable s Ef))
    as (freed & s' & tp' & H1 & H2 & H3 & H4 & _).
  - split; [apply fresh_run|]. by rewrite Hc, Hi.
  - by rewrite Hc.
  - done.
  - done.
  - by rewrite Hc.
  - done.
  - exists freed, s', tp'. rewrite Hc in *. split_and!; [done|done|done|]. destruct H4 as [-> _]; rewrite Hx; done.
Defined.

(** ** Start-up *)

Lemma find_free_slot_app ts n b : find_free_slot b ((Some <$> ts) ++ replicate (S n) None) = b + lenz ts.
Proof.
  revert b. induction ts as [|t ts IH]; intros b; [unfold lenz; simpl; lia|].
  rewrite lenz_cons, fmap_cons. cbn [app find_free_slot]. rewrite IH. lia.
Qed.

Lemma spawn_fills info s ts n : tasks s = (Some <$> ts) ++ replicate (S n) None -> info_id info = lenz ts ->
  exists s', spawn_initial_task info s = Some s' /\
    tasks s' = (Some <$> (ts ++ [set_state TASK_READY
      (new_task (info_id info) (info_name info) TASK_WAITING (info_initialized info) true)])) ++ replicate n None /\
    (forall i, i ∈ run_queue s -> i ∈ run_queue s') /\ info_id info ∈ run_queue s'.
Proof.
  intros Hts Hid. pose proof (lenz_nonneg ts). unfold spawn_initial_task, create_task, get_available_task_id.
  rewrite Hts, find_free_slot_app, Z.add_0_l, <- Hid. destruct (Z.eqb_spec (info_id info) (-1)); [lia|].
  assert (0 <= info_id info < lenz (tasks s)) as Hr.
  { rewrite Hts, lenz_app. unfold lenz in *. rewrite length_fmap, length_replicate. lia. }
  rewrite (schedule_task_eq _ _ (new_task (info_id info) (info_name info) TASK_WAITING (info_initialized info) true))
    by (by apply the_task_put_eq).
  eexists. split; [done|]. cbn [tasks set_run_queue set_tasks put_task run_queue]. split_and!.
  - unfold setz. rewrite list_insert_insert_eq, Hts, Hid. unfold lenz. rewrite Nat2Z.id.
    rewrite insert_app_r_alt by (rewrite length_fmap; lia). rewrite length_fmap, Nat.sub_diag. simpl.
    rewrite fmap_app, <- app_assoc. done.
  - intros i Hi. destruct (decide _); [done|]. apply elem_of_app. by left.
  - destruct (decide _); [done|]. apply elem_of_app. right. by left.
Qed.

Lemma spawn_all_fills infos s ts n : tasks s = (Some <$> ts) ++ replicate (length infos + n) None ->
  (forall k info, infos !! k = Some info -> info_id info = lenz ts + Z.of_nat k) ->
  exists s', spawn_all infos s = Some s' /\
    tasks s' = (Some <$> (ts ++ ((fun info => set_state TASK_READY (new_task (info_id info) (info_name info) TASK_WAITING
      (info_initialized info) true)) <$> infos))) ++ replicate n None /\
    (forall i, i ∈ run_queue s \/ i ∈ info_id <$> infos -> i ∈ run_queue s').
Proof.
  revert s ts. induction infos as [|info infos IH]; intros s ts Hts Hids.
  - exists s. simpl in *. rewrite app_nil_r. split_and!; [done|done|]. intros i [|Hi]; [done|by apply elem_of_nil in Hi].
  - simpl in Hts. destruct (spawn_fills info s ts (length infos + n)) as (s1 & E & Hts1 & Hq & Hi); [done| |].
    { rewrite (Hids O info eq_refl). lia. }
    simpl. rewrite E. cbn [mbind option_bind]. destruct (IH s1 _ Hts1) as (s' & E' & Hts' & Hq').
    + intros k x Hx. rewrite (Hids (S k) x Hx), lenz_app. unfold lenz. simpl. lia.
    + exists s'. split_and!; [done|by rewrite Hts', <- app_assoc|].
      intros i [H|H]; [apply Hq'; eauto|]. apply elem_of_cons in H as [->|H]; apply Hq'; eauto.
Qed.

Lemma manifest_ids i infos k info : manifest_matches_from i infos = true -> infos !! k = Some info ->
  info_id info = process_ids.XHCI + i + Z.of_nat k.
Proof.
  revert i k. induction infos as [|x infos IH]; intros i k Hm Hk; [done|]. simpl in Hm. bool_to_prop.
  destruct k as [|k]; simpl in Hk; [simplify_eq; lia|]. rewrite (IH (i + 1) k); [lia|done|done].
Qed.

(** The boot manifest is safe to change: whenever the compile-time check accepts
    a list of services that fits the table, start-up puts every service in the
    slot of its declared process number, under its name, ready to run. *)
Theorem manifest_lands_in_slots services :
  manifest_matches_from 0 services = true -> lenz services <= MAX_TASKS - 2 ->
  exists s, initialize_tasks services = Some s /\
    forall info, info ∈ services -> exists t, the_task (info_id info) s = Some t /\ id t = info_id info /\
      name t = String.substring 0 31 (info_name info) /\ state t = TASK_READY /\ info_id info ∈ run_queue s.
Proof.
  intros Hm Hlen. unfold initialize_tasks.
  set (s0 := mkSys (replicate (Z.to_nat MAX_TASKS) None) [] process_ids.KERNEL process_ids.IDLE None).
  destruct (spawn_all_fills SCHEDULER_TASKS s0 [] 98) as (s1 & -> & Hts1 & Hq1); [done| |].
  { intros k info Hk. destruct k as [|[|k]]; simpl in Hk; simplify_eq; done. }
  cbn [mbind option_bind]. match type of Hts1 with _ = (Some <$> ?l) ++ _ => set (ts := l) in * end.
  unfold lenz, MAX_TASKS in Hlen.
  destruct (spawn_all_fills services s1 ts (98 - length services)) as (s2 & -> & Hts2 & Hq2).
  { rewrite Hts1. do 2 f_equal. lia. }
  { intros k info Hk. rewrite (manifest_ids 0 services k info Hm Hk). done. }
  cbn [mbind option_bind].
  assert (the_task process_ids.KERNEL s2 = Some (set_state TASK_READY (new_task 0 "main" TASK_WAITING true true))) as Hk
    by (unfold the_task, task_at, atz; by rewrite Hts2).
  rewrite Hk. cbn [mbind option_bind]. eexists. split; [done|]. intros info Hin.
  apply list_elem_of_lookup in Hin as [k Hin]. pose proof (manifest_ids 0 services k info Hm Hin) as Hid.
  exists (set_state TASK_READY (new_task (info_id info) (info_name info) TASK_WAITING (info_initialized info) true)).
  split_and!; [|done|done|done|].
  - rewrite the_task_put by (by apply the_task_range in Hk). unfold process_ids.XHCI, process_ids.KERNEL in *.
    destruct (Z.eqb_spec (info_id info) 0); [lia|]. unfold the_task, task_at. rewrite Hts2.
    erewrite (proj2 (atz_Some _ _ _)); [done|]. split; [lia|]. apply lookup_app_l_Some. rewrite list_lookup_fmap.
    rewrite lookup_app_r by (subst ts; simpl; lia). replace (Z.to_nat (info_id info) - length ts)%nat with k by (subst ts; simpl; lia).
    rewrite list_lookup_fmap, Hin. done.
  - apply Hq2. right. apply list_elem_of_fmap. exists info. split; [done|]. by eapply list_elem_of_lookup_2.
Qed.

Lemma manifest_lands_in_slots_witness :
  exists s, initialize_tasks SERVICE_MANIFEST = Some s /\
    forall info, info ∈ SERVICE_MANIFEST -> exists t, the_task (info_id info) s = Some t /\ id t = info_id info /\
      name t = String.substring 0 31 (info_name info) /\ state t = TASK_READY /\ info_id info ∈ run_queue s.
Proof. apply (manifest_lands_in_slots SERVICE_MANIFEST); [reflexivity|vm_compute; done]. Defined.

(** ** Damage *)

(** A fork that fails half-way leaves a broken task behind: when the stack or
    the page tables of the child cannot be allocated, the caller is told that
    the fork failed, but the child stays in the table, and the first
    notification to its number puts it in the run queue although it has no
    stack to run on. *)
Theorem failed_fork_leaves_runnable_task s pc t stack_ok n :
  reachable (s, pc) -> the_task (CURRENT_TASK s) s = Some t -> just_forked t = false -> parent_id t = -1 ->
  get_available_task_id s <> -1 ->
  let i := get_available_task_id s in
  exists s', sys_fork true stack_ok false s = Some (err ERR_FORK_FAILED, s') /\
    (exists c, the_task i s' = Some c /\ state c = TASK_WAITING /\ parent_id c = id t) /\
    exists s'', notify i n s' = Some s'' /\ i ∈ run_queue s''.
Proof.
  intros Hinv%reachable_inv Ht Hj Hp Hfree i. simpl in Hinv. pose proof (bs_len _ _ (iv_base _ _ Hinv)) as Hlen.
  destruct (available_id s (lenz_nonneg _)) as [|[Hr Hnone]]; [done|]. fold i in Hr, Hnone, Hfree.
  unfold sys_fork. rewrite Ht. cbn [mbind option_bind]. rewrite Hj, Hp. cbn [negb Z.eqb].
  unfold copy_task, create_task. rewrite Ht. cbn [mbind option_bind]. fold i. destruct (Z.eqb_spec i (-1)); [done|].
  rewrite the_task_put_eq by done. cbn [mbind option_bind]. rewrite put_put. set (c := set_fd_table _ _).
  exists (put_task i c s). split_and!.
  - by destruct stack_ok.
  - exists c. split_and!; [by apply the_task_put_eq|done|done].
  - unfold notify. destruct (Z.ltb_spec i 0), (Z.leb_spec MAX_TASKS i); try lia. simpl.
    rewrite (task_at_the_task _ _ c) by (by apply the_task_put_eq). cbn [mbind option_bind].
    change (state (set_pending _ c)) with TASK_WAITING. change (wait_reason (set_pending _ c)) with WAIT_NONE.
    rewrite !bool_decide_eq_true_2, bool_decide_eq_false_2 by done. cbn [negb andb].
    rewrite (schedule_task_eq i _ (set_pending (Z.lor (pending_notifications c) (notify_bit n)) c)).
    + eexists. split; [done|]. cbn [run_queue set_run_queue]. destruct (decide _); [done|]. apply elem_of_app. right. by left.
    + rewrite put_put. by apply the_task_put_eq.
Qed.

Lemma failed_fork_leaves_runnable_task_witness :
  exists s', sys_fork true true false boot_state = Some (err ERR_FORK_FAILED, s') /\
    exists s'', notify 8 N_TIMER s' = Some s'' /\ 8 ∈ run_queue s''.
Proof.
  destruct (failed_fork_leaves_runnable_task boot_state (fun _ => Run) (boot_task (mkInfo process_ids.KERNEL "main" true)) true N_TIMER
    reach_boot ltac:(reflexivity) ltac:(reflexivity) ltac:(reflexivity) ltac:(vm_compute; done)) as (s' & H1 & _ & H3).
  exists s'. split; [exact H1|exact H3].
Defined.

(** A destination outside the table is not rejected: [send_message] and with it
    [reply] and [call] only compare it with -1 before indexing the table. *)
Theorem wild_destination_faults s pc dst m :
  reachable (s, pc) -> dst < -1 \/ MAX_TASKS <= dst -> send_message dst m s = fault.
Proof.
  intros Hinv%reachable_inv Hd. simpl in Hinv. pose proof (bs_len _ _ (iv_base _ _ Hinv)) as Hlen.
  unfold send_message. destruct (Z.eqb_spec dst (-1)); [unfold MAX_TASKS in *; lia|]. unfold task_at.
  destruct (atz (tasks s) dst) eqn:E; [|done]. apply atz_Some_lt in E. lia.
Qed.

Lemma wild_destination_faults_witness : send_message 100 zero_message boot_state = fault.
Proof. apply (wild_destination_faults boot_state (fun _ => Run) 100 zero_message reach_boot). right. done. Defined.

(** * Concrete runs of the scheduler and of IPC

    Runs of the boot state for the guarantees of [TaskSpec.v]: an interrupt at a
    parked task, a round of the run queue, a remote call and a message. *)

(** The kernel task parks in [receive_blocking], then an interrupt notifies it. *)
Definition parked : option Sys := '(_, s) ← receive_poll boot_state; notify process_ids.KERNEL N_XHCI s.

Definition parked_pc : Z -> Pc :=
  upd (upd (fun _ => Run) process_ids.KERNEL (Poll InReceive)) process_ids.KERNEL (Park InReceive).

Lemma parked_reachable s : parked = Some s -> reachable (s, parked_pc).
Proof.
  unfold parked. destruct (receive_poll boot_state) as [[r s1]|] eqn:E; [|done]. cbn [mbind option_bind]. intros E2.
  assert (r = None) as -> by (vm_compute in E; congruence).
  eapply reach_step; [|exact (st_irq s1 _ _ _ s E2)].
  eapply reach_step; [|exact (st_receive boot_state (upd (fun _ => Run) process_ids.KERNEL (Poll InReceive)) None s1 eq_refl E)].
  eapply reach_step; [apply reach_boot|]. by apply (st_begin boot_state (fun _ => Run) InReceive).
Qed.

Lemma no_lost_wakeup_witness :
  match parked with
  | Some s => process_ids.KERNEL ∈ run_queue s
  | None => False
  end.
Proof.
  assert ((s ← parked; t ← the_task process_ids.KERNEL s; Some (state t, pending_notifications t)) = Some (TASK_READY, 1))
    as H by (vm_compute; reflexivity).
  destruct parked as [s|] eqn:Ef; [|done]. cbn [mbind option_bind] in H.
  destruct (the_task process_ids.KERNEL s) as [t|] eqn:Et; [|done]. cbn [mbind option_bind] in H. injection H as Hs Hp.
  destruct (no_lost_wakeup s parked_pc process_ids.KERNEL t InReceive (parked_reachable s Ef) Et) as [[Hr _]|[_ Hq]].
  - by left.
  - unfold available. by rewrite Hp.
  - congruence.
  - exact Hq.
Defined.

(** The third task of the queue runs after three hand-overs. *)
Lemma round_robin_latency_witness :
  match switches 3 boot_state with
  | Some s => CURRENT_TASK s = process_ids.XHCI
  | None => False
  end.
Proof.
  destruct (switches 3 boot_state) as [s|] eqn:E; [|by vm_compute in E].
  apply (round_robin_latency (boot_state, fun _ => Run) (s, fun _ => Run) 2 process_ids.XHCI reach_boot eq_refl).
  cbn [switches] in E.
  destruct (switch_task boot_state) as [s1|] eqn:E1; [|done]. cbn [mbind option_bind] in E.
  destruct (switch_task s1) as [s2|] eqn:E2; [|done]. cbn [mbind option_bind] in E.
  destruct (switch_task s2) as [s3|] eqn:E3; [|done]. cbn [mbind option_bind] in E. injection E as <-.
  eapply as_switch; [by apply st_preempt|]. eapply as_switch; [by apply st_preempt|]. apply as_last. by apply st_preempt.
Defined.

Lemma tasking_never_faults_witness : is_Some (notify process_ids.SHELL N_TIMER boot_state).
Proof. apply (tasking_never_faults boot_state (fun _ => Run) reach_boot). Defined.

(** The kernel task calls the USB service, which answers. *)
Definition request : Message := set_sender process_ids.KERNEL (set_correlation 1 zero_message).

Definition called : option Sys :=
  '(_, s) ← call_send process_ids.XHCI zero_message boot_state;
  s ← switches 3 s;
  '(_, s) ← reply request zero_message s;
  switches 6 s.

Lemma called_reachable s : called = Some s -> reachable (s, upd (fun _ => Run) process_ids.KERNEL (Poll InCall)).
Proof.
  unfold called. destruct (call_send _ _ _) as [[r s1]|] eqn:E1; [|done]. cbn [mbind option_bind].
  assert (r = None) as -> by (vm_compute in E1; congruence).
  assert (reachable (s1, upd (fun _ => Run) process_ids.KERNEL (Poll InCall))) as H1.
  { eapply reach_step; [apply reach_boot|]. by apply (st_call boot_state (fun _ => Run) process_ids.XHCI zero_message s1). }
  destruct (switches 3 s1) as [s2|] eqn:E2; [|done]. cbn [mbind option_bind].
  apply (reach_switches 3 s1 _ s2 H1) in E2 as H2.
  destruct (reply request zero_message s2) as [[e s3]|] eqn:E3; [|done]. cbn [mbind option_bind].
  apply reach_switches. eapply reach_step; [exact H2|]. apply (st_reply s2 _ request zero_message e s3); [|done|done].
  assert ((x ← call_send process_ids.XHCI zero_message boot_state; s ← switches 3 (snd x); Some (CURRENT_TASK s, IDLE_TASK s))
    = Some (2, 1)) as Hc by (vm_compute; reflexivity).
  rewrite E1 in Hc. cbn [mbind option_bind snd] in Hc. rewrite E2 in Hc. cbn [mbind option_bind] in Hc. injection Hc as Hc Hi.
  split; [by rewrite Hc|by rewrite Hc, Hi].
Qed.

Lemma call_returns_own_reply_witness :
  match called with
  | Some s => exists m s', call_poll s = Some (Some m, s') /\ is_reply m = true /\ correlation m = 1 /\
      sender m = process_ids.XHCI
  | None => False
  end.
Proof.
  assert ((s ← called; t ← the_task (CURRENT_TASK s) s; '(m, _) ← call_poll s; m ← m;
    Some (CURRENT_TASK s, call_correlation t, sender m)) = Some (0, 1, 2)) as H by (vm_compute; reflexivity).
  destruct called as [s|] eqn:Ef; [|done]. cbn [mbind option_bind] in H.
  destruct (the_task (CURRENT_TASK s) s) as [t|] eqn:Et; [|done]. cbn [mbind option_bind] in H.
  destruct (call_poll s) as [[[m|] s']|] eqn:Ep; cbn [mbind option_bind] in H; [|done|done]. injection H as Hc Hk Hm.
  exists m, s'. destruct (call_returns_own_reply s _ t m s' (called_reachable s Ef)) as (H1 & H2 & _).
  - by rewrite Hc.
  - done.
  - done.
  - rewrite H2, Hk. split_and!; done.
Defined.

Lemma send_message_correct_witness :
  exists e s', send_message process_ids.FS_FAT32 zero_message boot_state = Some (e, s') /\
    forall j, j <> process_ids.FS_FAT32 -> the_task j s' = the_task j boot_state.
Proof.
  destruct (send_message_correct boot_state (fun _ => Run) process_ids.FS_FAT32 zero_message
    (boot_task (mkInfo process_ids.FS_FAT32 "fat32" true)) [] reach_boot ltac:(reflexivity) ltac:(reflexivity)
    (proj2 (holds_nil true))) as (e & s' & H1 & _ & H3).
  exists e, s'. split; [exact H1|exact H3].
Defined.
