(* ===== verification/Net.v ===== *)
(** * The network stack

    [kernel/net/]: byte order, the Internet checksum, the ARP table, and the
    handling of received Ethernet, ARP, IPv4 and ICMP packets up to the frame
    handed to the network card's task.

    A received frame is read from kernel memory at the address the message
    carries; frames to send are lists of bytes. *)

From S2P Require Import Prelude Message UserMem.

Open Scope Z_scope.

(** ** Byte order ([libs/common/endian.hpp]) *)

Definition ntohs (value : Z) : Z :=
  u16 (Z.lor (Z.shiftl (Z.land value 0xFF) 8) (Z.land (Z.shiftr value 8) 0xFF)).
Definition htons (value : Z) : Z := ntohs value.

Definition ntohl (value : Z) : Z :=
  Z.lor (Z.lor (Z.lor (u32 (Z.shiftl (Z.land value 0xFF) 24)) (u32 (Z.shiftl (Z.land value 0xFF00) 8)))
    (Z.land (Z.shiftr value 8) 0xFF00)) (Z.land (Z.shiftr value 24) 0xFF).
Definition htonl (value : Z) : Z := ntohl value.

Definition ntohll (value : Z) : Z :=
  fold_left Z.lor
    [Z.shiftl (Z.land value 0xFF) 56; Z.shiftl (Z.land value 0xFF00) 40;
     Z.shiftl (Z.land value 0xFF0000) 24; Z.shiftl (Z.land value 0xFF000000) 8;
     Z.land (Z.shiftr value 8) 0xFF000000; Z.land (Z.shiftr value 24) 0xFF0000;
     Z.land (Z.shiftr value 40) 0xFF00; Z.land (Z.shiftr value 56) 0xFF] 0.
Definition htonll (value : Z) : Z := ntohll value.

(** The machine's own (little-endian) layout of 16 and 32 bits. *)
Definition bytes16 (v : Z) : list Z := [v mod 256; (v / 256) mod 256].
Definition bytes32 (v : Z) : list Z := [v mod 256; (v / 256) mod 256; (v / 65536) mod 256; (v / 16777216) mod 256].
Definition load8 (m : Mem) (a : Z) : Z := load m a.
Definition load16 (m : Mem) (a : Z) : Z := load m a + 256 * load m (a + 1).
Definition load32 (m : Mem) (a : Z) : Z := load16 m a + 65536 * load16 m (a + 2).
Definition load_bytes (m : Mem) (a n : Z) : list Z := (fun i => load m (a + i)) <$> seqZ 0 n.

(** ** The checksum *)

(** The sum over the 16-bit words, and the odd byte shifted left. *)
Fixpoint sum_words (sum : Z) (data : list Z) : Z :=
  match data with
  | [] => sum
  | [b] => u32 (sum + Z.shiftl b 8)
  | b0 :: b1 :: data' => sum_words (u32 (sum + (b0 + 256 * b1))) data'
  end.

Fixpoint fold_carry (fuel : nat) (sum : Z) : option Z :=
  match fuel with
  | O => fault
  | S fuel =>
      if Z.shiftr sum 16 =? 0 then Some sum
      else fold_carry fuel (u32 (Z.land sum 0xFFFF + Z.shiftr sum 16))
  end.

(** A 32-bit sum is folded within two rounds; the third only tests. *)
Definition CARRY_FUEL : nat := 3.

Definition calculate_checksum (data : list Z) : option Z :=
  sum ← fold_carry CARRY_FUEL (sum_words 0 data);
  Some (u16 (wnot 32 sum)).

(** ** The host *)

Definition HOST_IP : Z := 0xC0A864C8.
Definition MAC_ADDR_SIZE : Z := 6.
Definition IPV4_ADDR_SIZE : Z := 4.
Definition ETHERNET_MTU : Z := 1500.
Definition MAX_ENTRIES : nat := 32.

Record ARPEntry := mkArp {
  ip_addr : Z;
  mac_addr : list Z;
  valid : bool;
}.

(** The ARP table, the registered address, and the frames delivered to the
    network card's task, oldest first. *)
Record Host := mkHost {
  entries_ : list ARPEntry;
  registered_mac : list Z;
  sent : list (list Z);
}.

Definition set_entries (es : list ARPEntry) (h : Host) : Host := mkHost es (registered_mac h) (sent h).

Definition host_mac (h : Host) : list Z := registered_mac h.
Definition set_host_mac (mac : list Z) (h : Host) : Host := mkHost (entries_ h) mac (sent h).

(** *** The ARP table *)

Fixpoint find_empty_from (i : Z) (es : list ARPEntry) : Z :=
  match es with
  | [] => -1
  | e :: es' => if negb (valid e) then i else find_empty_from (i + 1) es'
  end.
Definition find_empty_slot (es : list ARPEntry) : Z := find_empty_from 0 es.

Definition entry_for (ip : Z) (e : ARPEntry) : bool := valid e && (ip_addr e =? ip).

Fixpoint resolve (ip : Z) (es : list ARPEntry) : option (list Z) :=
  match es with
  | [] => None
  | e :: es' => if entry_for ip e then Some (mac_addr e) else resolve ip es'
  end.

(** The loop that updates an existing entry; [None] when there is none. *)
Fixpoint update_entry (ip : Z) (mac : list Z) (es : list ARPEntry) : option (list ARPEntry) :=
  match es with
  | [] => None
  | e :: es' =>
      if entry_for ip e then Some (mkArp (ip_addr e) mac (valid e) :: es')
      else es'' ← update_entry ip mac es'; Some (e :: es'')
  end.

Definition arp_add (ip : Z) (mac : list Z) (es : list ARPEntry) : list ARPEntry :=
  match update_entry ip mac es with
  | Some es' => es'
  | None =>
      let slot := find_empty_slot es in
      if slot =? -1 then es else setz es slot (mkArp ip mac true)
  end.

Fixpoint arp_remove (ip : Z) (es : list ARPEntry) : list ARPEntry :=
  match es with
  | [] => []
  | e :: es' => if entry_for ip e then mkArp (ip_addr e) (mac_addr e) false :: es' else e :: arp_remove ip es'
  end.

Definition arp_clear : list ARPEntry := replicate MAX_ENTRIES (mkArp 0 (replicate 6 0) false).

(** ** Sending *)

Inductive EthernetFrameType := IPV4 | ARP | IPV6.
Definition frame_type (t : EthernetFrameType) : Z := match t with IPV4 => 0x0800 | ARP => 0x0806 | IPV6 => 0x86DD end.

(** What the code does not determine: whether the buffer for the frame can be
    allocated, what [send_message] returns, and the two fields of the IPv4
    header that are never written and keep what the stack held. *)
Record Env := mkEnv {
  alloc_ok : bool;
  send_result : Z;
  stack_id : Z;
  stack_fragment : Z;
}.

Definition sizeof_EthernetFrame : Z := 14.
Definition sizeof_IPv4Header : Z := 20.
Definition sizeof_ICMPEchoHeader : Z := 8.

Definition transmit_ethernet_frame (env : Env) (dst_mac : list Z) (type : EthernetFrameType) (payload : list Z) (h : Host)
  : Z * Host :=
  if ETHERNET_MTU <? lenz payload then (err ERR_INVALID_ARG, h)
  else if negb (alloc_ok env) then (err ERR_NO_MEMORY, h)
  else
    let frame := dst_mac ++ host_mac h ++ bytes16 (htons (frame_type type)) ++ payload in
    if IS_ERR (send_result env) then (send_result env, h)
    else (err OK, mkHost (entries_ h) (registered_mac h) (sent h ++ [frame])).

Inductive IPv4Protocol := ICMP | TCP | UDP.
Definition protocol_number (p : IPv4Protocol) : Z := match p with ICMP => 0x01 | TCP => 0x06 | UDP => 0x11 end.
Definition DEFAULT_TTL : Z := 32.
Definition IPV4_VERSION_IHL : Z := 0x45.
Definition ihl_bytes (version_ihl : Z) : Z := Z.land version_ihl 0x0F * 4.

(** The 20 bytes of the header with the given checksum field. *)
Definition ipv4_header (env : Env) (total_len protocol dst_ip checksum : Z) : list Z :=
  [IPV4_VERSION_IHL; 0] ++ bytes16 (htons (u16 total_len)) ++ bytes16 (stack_id env) ++ bytes16 (stack_fragment env) ++
  [DEFAULT_TTL; protocol] ++ bytes16 checksum ++ bytes32 (htonl HOST_IP) ++ bytes32 (htonl dst_ip).

Definition transmit_ipv4_packet (env : Env) (dst_ip : Z) (protocol : IPv4Protocol) (payload : list Z) (h : Host) : option Host :=
  let total_len := sizeof_IPv4Header + lenz payload in
  checksum ← calculate_checksum (ipv4_header env total_len (protocol_number protocol) dst_ip 0);
  let header := ipv4_header env total_len (protocol_number protocol) dst_ip checksum in
  if ETHERNET_MTU - sizeof_IPv4Header <? lenz payload then Some h
  else
    match resolve dst_ip (entries_ h) with
    | None => Some h
    | Some dst_mac => Some (snd (transmit_ethernet_frame env dst_mac IPV4 (header ++ payload) h))
    end.

(** ** Receiving *)

Inductive ARPOpcode := REQUEST | REPLY.
Definition opcode_number (o : ARPOpcode) : Z := match o with REQUEST => 1 | REPLY => 2 end.
Definition ARP_HW_ETHERNET : Z := 1.

(** An ARP packet, its fields as they are in memory (network byte order). *)
Record ARPPacket := mkArpPacket {
  hw_type : Z;
  protocol_type : Z;
  hw_size : Z;
  protocol_size : Z;
  opcode : Z;
  sender_mac : list Z;
  sender_ip : Z;
  target_mac : list Z;
  target_ip : Z;
}.

(** The packed layout: reading and writing. *)
Definition load_arp (m : Mem) (a : Z) : ARPPacket :=
  mkArpPacket (load16 m a) (load16 m (a + 2)) (load8 m (a + 4)) (load8 m (a + 5)) (load16 m (a + 6))
    (load_bytes m (a + 8) 6) (load32 m (a + 14)) (load_bytes m (a + 18) 6) (load32 m (a + 24)).

Definition arp_bytes (p : ARPPacket) : list Z :=
  bytes16 (hw_type p) ++ bytes16 (protocol_type p) ++ [hw_size p; protocol_size p] ++ bytes16 (opcode p) ++
  sender_mac p ++ bytes32 (sender_ip p) ++ target_mac p ++ bytes32 (target_ip p).

(** The answer to a request. *)
Definition arp_reply (h : Host) (p : ARPPacket) : ARPPacket :=
  mkArpPacket (htons ARP_HW_ETHERNET) (htons (frame_type IPV4)) MAC_ADDR_SIZE IPV4_ADDR_SIZE (htons (opcode_number REPLY))
    (host_mac h) (target_ip p) (sender_mac p) (sender_ip p).

Definition handle_arp_request (env : Env) (p : ARPPacket) (h : Host) : Host :=
  if negb (target_ip p =? htonl HOST_IP) then h
  else
    let h := set_entries (arp_add (ntohl (sender_ip p)) (sender_mac p) (entries_ h)) h in
    snd (transmit_ethernet_frame env (sender_mac p) ARP (arp_bytes (arp_reply h p)) h).

(** Replies are only logged. *)
Definition process_arp (env : Env) (p : ARPPacket) (h : Host) : Host :=
  if ntohs (opcode p) =? opcode_number REQUEST then handle_arp_request env p h else h.

Inductive ICMPType := ECHO_REPLY | DEST_UNREACHABLE | REDIRECT | ECHO_REQUEST | TIME_EXCEEDED | PARAMETER_PROBLEM.
Definition icmp_type (t : ICMPType) : Z :=
  match t with
  | ECHO_REPLY => 0x00 | DEST_UNREACHABLE => 0x03 | REDIRECT => 0x05 | ECHO_REQUEST => 0x08
  | TIME_EXCEEDED => 0x0B | PARAMETER_PROBLEM => 0x0C
  end.

(** The reply: the request's bytes from the identifier on, behind a new
    header. *)
Definition echo_reply (checksum : Z) (request : list Z) : list Z :=
  [icmp_type ECHO_REPLY; 0] ++ bytes16 checksum ++ drop 4 request.

Definition handle_icmp_echo_request (env : Env) (m : Mem) (echo_header src_ip icmp_len : Z) (h : Host) : option Host :=
  if icmp_len <? sizeof_ICMPEchoHeader then Some h
  else
    let payload_len := u64 (icmp_len - sizeof_ICMPEchoHeader) in
    if ETHERNET_MTU <? u64 (sizeof_ICMPEchoHeader + payload_len) then Some h
    else
      let request := load_bytes m echo_header icmp_len in
      checksum ← calculate_checksum (echo_reply 0 request);
      transmit_ipv4_packet env src_ip ICMP (echo_reply checksum request) h.

Definition process_icmp (env : Env) (m : Mem) (icmp_header src_ip icmp_len : Z) (h : Host) : option Host :=
  if load8 m icmp_header =? icmp_type ECHO_REQUEST then handle_icmp_echo_request env m icmp_header src_ip icmp_len h
  else Some h.

(** TCP, UDP and the rest are only logged. *)
Definition process_ipv4 (env : Env) (m : Mem) (ip_header : Z) (h : Host) : option Host :=
  let header_len := ihl_bytes (load8 m ip_header) in
  let total_len := ntohs (load16 m (ip_header + 2)) in
  let payload_len := u64 (total_len - header_len) in
  if load8 m (ip_header + 9) =? protocol_number ICMP
  then process_icmp env m (ip_header + header_len) (ntohl (load32 m (ip_header + 12))) payload_len h
  else Some h.

(** [addr] and [size] are the out-of-line buffer of the NET_RX message. *)
Definition handle_recv_packet (env : Env) (m : Mem) (addr size : Z) (h : Host) : option Host :=
  if (addr =? 0) || (size <? sizeof_EthernetFrame) then Some h
  else
    let ethertype := ntohs (load16 m (addr + 12)) in
    let payload := addr + sizeof_EthernetFrame in
    if ethertype =? frame_type ARP then Some (process_arp env (load_arp m payload) h)
    else if ethertype =? frame_type IPV4 then process_ipv4 env m payload h
    else Some h.

(** [packet_handler_service] up to its message loop. *)
Definition packet_handler_init (h : Host) : Host := set_entries arp_clear h.
