(* ===== verification/NetProofs.v ===== *)
(** * Correctness of the network stack

    The checksum is the Internet checksum on packets of even length, byte order
    conversion reverses bytes, the ARP table is a map, and ARP and echo requests
    get the right answers; two flaws: odd lengths, and an answer that carries
    memory behind the received frame. *)

From S2P Require Import Prelude Message UserMem Net.

Open Scope Z_scope.

(** ** Bytes *)

Definition byte (b : Z) : Prop := 0 <= b < 256.

Lemma land_field v k : 0 <= k -> Z.land v (Z.shiftl 255 k) = (v / 2 ^ k mod 256) * 2 ^ k.
Proof.
  intros Hk. rewrite <- Z.shiftl_mul_pow2, <- Z.shiftr_div_pow2 by done.
  change 256 with (2 ^ 8). rewrite <- Z.land_ones by lia. change (Z.ones 8) with 255.
  apply Z.bits_inj'. intros n Hn. rewrite Z.land_spec, !Z.shiftl_spec by done.
  destruct (Z.lt_ge_cases n k) as [Hlt|Hge].
  - rewrite (Z.testbit_neg_r 255), (Z.testbit_neg_r (Z.land _ _)) by lia. apply andb_false_r.
  - rewrite Z.land_spec, Z.shiftr_spec by lia. by replace (n - k + k) with n by lia.
Qed.

Lemma lor_add a b k : 0 <= k -> 0 <= a < 2 ^ k -> b mod 2 ^ k = 0 -> Z.lor b a = b + a.
Proof.
  intros Hk Ha Hb. rewrite <- Z.add_lor_land. replace (Z.land b a) with 0; [lia|]. symmetry.
  assert (b = Z.shiftl (b / 2 ^ k) k) as ->.
  { rewrite Z.shiftl_mul_pow2 by done. pose proof (Z.div_mod b (2 ^ k) ltac:(pose proof (pow2_pos k Hk); lia)). lia. }
  apply Z.bits_inj'. intros n Hn. rewrite Z.land_spec, Z.shiftl_spec, Z.bits_0 by done.
  destruct (Z.lt_ge_cases n k) as [Hlt|Hge].
  - by rewrite Z.testbit_neg_r by lia.
  - rewrite (testbit_above a k n) by lia. apply andb_false_r.
Qed.

Lemma land_ff v : Z.land v 0xFF = v mod 256.
Proof. exact (Z.land_ones v 8 ltac:(lia)). Qed.

Lemma land_ffff v : Z.land v 0xFFFF = v mod 65536.
Proof. exact (Z.land_ones v 16 ltac:(lia)). Qed.

Lemma land_ff00 v : Z.land v 0xFF00 = (v / 256 mod 256) * 256.
Proof. exact (land_field v 8 ltac:(lia)). Qed.

(** Conversion reverses the bytes. *)
Lemma ntohs_bytes b0 b1 : byte b0 -> byte b1 -> ntohs (b0 + 256 * b1) = b1 + 256 * b0.
Proof.
  unfold byte. intros H0 H1. unfold ntohs. rewrite !land_ff, Z.shiftr_div_pow2, Z.shiftl_mul_pow2 by lia. change (2 ^ 8) with 256.
  replace ((b0 + 256 * b1) mod 256) with b0 by (Z.div_mod_to_equations; lia).
  replace ((b0 + 256 * b1) / 256 mod 256) with b1 by (Z.div_mod_to_equations; lia).
  rewrite (lor_add _ _ 8) by (change (2 ^ 8) with 256; Z.div_mod_to_equations; lia).
  rewrite wrap_small; change (2 ^ 16) with 65536; lia.
Qed.

Lemma ntohl_bytes b0 b1 b2 b3 : byte b0 -> byte b1 -> byte b2 -> byte b3 ->
  ntohl (b0 + 256 * b1 + 65536 * (b2 + 256 * b3)) = b3 + 256 * b2 + 65536 * (b1 + 256 * b0).
Proof.
  unfold byte. intros H0 H1 H2 H3. set (v := b0 + 256 * b1 + 65536 * (b2 + 256 * b3)). unfold ntohl.
  rewrite !land_ff, !land_ff00, !Z.shiftr_div_pow2, !Z.shiftl_mul_pow2 by lia.
  change (2 ^ 8) with 256. change (2 ^ 24) with 16777216.
  replace (v mod 256) with b0 by (subst v; Z.div_mod_to_equations; lia).
  replace (v / 256 mod 256) with b1 by (subst v; Z.div_mod_to_equations; lia).
  replace (v / 256 / 256 mod 256) with b2 by (subst v; Z.div_mod_to_equations; lia).
  replace (v / 16777216 mod 256) with b3 by (subst v; Z.div_mod_to_equations; lia).
  rewrite !wrap_small by (change (2 ^ 32) with 4294967296; lia).
  rewrite (lor_add (b1 * 256 * 256) _ 24) by (change (2 ^ 24) with 16777216; Z.div_mod_to_equations; lia).
  rewrite (lor_add (b2 * 256) _ 16) by (change (2 ^ 16) with 65536; Z.div_mod_to_equations; lia).
  rewrite (lor_add b3 _ 8) by (change (2 ^ 8) with 256; Z.div_mod_to_equations; lia). lia.
Qed.

Lemma bytes16_of b0 b1 : byte b0 -> byte b1 -> bytes16 (b0 + 256 * b1) = [b0; b1].
Proof. unfold byte, bytes16. intros. f_equal; [|f_equal]; Z.div_mod_to_equations; lia. Qed.

Lemma bytes32_of b0 b1 b2 b3 : byte b0 -> byte b1 -> byte b2 -> byte b3 ->
  bytes32 (b0 + 256 * b1 + 65536 * (b2 + 256 * b3)) = [b0; b1; b2; b3].
Proof. unfold byte, bytes32. intros. repeat f_equal; Z.div_mod_to_equations; lia. Qed.

(** ** The checksum *)

(** The plain sum of the 16-bit words, an odd byte padded with zero (RFC
    1071), and the sum the code computes, which shifts the odd byte. *)
Fixpoint word_sum (data : list Z) : Z :=
  match data with
  | [] => 0
  | [b] => b
  | b0 :: b1 :: data' => (b0 + 256 * b1) + word_sum data'
  end.

Lemma pair_ind {A} (P : list A -> Prop) : P [] -> (forall a, P [a]) -> (forall a b l, P l -> P (a :: b :: l)) -> forall l, P l.
Proof.
  intros H0 H1 H2. fix IH 1. intros [|a [|b l]]; [exact H0|exact (H1 a)|exact (H2 a b l (IH l))].
Qed.

Lemma even_pair {A} (a b : A) l : Z.even (lenz (a :: b :: l)) = Z.even (lenz l).
Proof. rewrite !lenz_cons, <- Z.add_assoc, Z.even_add. by destruct (Z.even (lenz l)). Qed.

Lemma word_sum_bound data : Forall byte data -> 0 <= word_sum data <= 65535 * lenz data.
Proof.
  induction data as [|b|b0 b1 data IH] using pair_ind; intros Hb; simpl.
  - unfold lenz. simpl. lia.
  - apply Forall_cons in Hb as [Hb _]. unfold byte, lenz in *. simpl. lia.
  - apply Forall_cons in Hb as [H0 Hb]. apply Forall_cons in Hb as [H1 Hb]. specialize (IH Hb).
    rewrite !lenz_cons. unfold byte in *. lia.
Qed.

Lemma sum_words_even data s : Forall byte data -> Z.even (lenz data) = true -> 0 <= s -> s + word_sum data < 2 ^ 32 ->
  sum_words s data = s + word_sum data.
Proof.
  revert s. induction data as [|b|b0 b1 data IH] using pair_ind; intros s Hb He Hs Hlt; [simpl; lia|done|].
  rewrite even_pair in He. cbn [sum_words word_sum] in *.
  apply Forall_cons in Hb as [H0 Hb]. apply Forall_cons in Hb as [H1 Hb]. pose proof (word_sum_bound data Hb).
  unfold byte in *. rewrite wrap_small by lia. rewrite IH; [lia|done|done|lia|lia].
Qed.

Lemma word_sum_app l k : Z.even (lenz l) = true -> word_sum (l ++ k) = word_sum l + word_sum k.
Proof.
  induction l as [|b|b0 b1 l IH] using pair_ind; intros He; [done|done|]. rewrite even_pair in He.
  cbn [app word_sum]. rewrite IH by done. lia.
Qed.

Lemma fold_carry_step n s : 0 <= s < 2 ^ 32 ->
  fold_carry (S n) s = if s / 65536 =? 0 then Some s else fold_carry n (s mod 65536 + s / 65536).
Proof.
  intros Hs. cbn [fold_carry]. rewrite land_ffff, Z.shiftr_div_pow2 by lia. change (2 ^ 16) with 65536.
  rewrite wrap_small; [done|]. Z.div_mod_to_equations. lia.
Qed.

(** Folding keeps the residue modulo [2^16 - 1], and ends. *)
Lemma fold_carry_spec s : 0 <= s < 2 ^ 32 ->
  exists r, fold_carry CARRY_FUEL s = Some r /\ 0 <= r <= 65535 /\ (r - s) mod 65535 = 0 /\ (r = 0 <-> s = 0).
Proof.
  intros Hs. unfold CARRY_FUEL. rewrite fold_carry_step by done. change (2 ^ 32) with 4294967296 in Hs.
  destruct (Z.eqb_spec (s / 65536) 0) as [H0|Hn1].
  { exists s. rewrite Z.sub_diag. split_and!; try done; Z.div_mod_to_equations; lia. }
  set (s1 := s mod 65536 + s / 65536).
  assert (0 < s1 <= 131070) as Hs1 by (subst s1; Z.div_mod_to_equations; lia).
  assert ((s1 - s) mod 65535 = 0) as Hr1.
  { replace (s1 - s) with ((- (s / 65536)) * 65535) by (subst s1; Z.div_mod_to_equations; lia). apply Z.mod_mul. lia. }
  rewrite fold_carry_step by lia. destruct (Z.eqb_spec (s1 / 65536) 0) as [H1|Hn2].
  { exists s1. split_and!; try done; try (Z.div_mod_to_equations; lia). }
  set (s2 := s1 mod 65536 + s1 / 65536).
  assert (0 < s2 <= 65535) as Hs2 by (subst s2; Z.div_mod_to_equations; lia).
  rewrite fold_carry_step by lia. assert (s2 / 65536 = 0) as -> by (Z.div_mod_to_equations; lia).
  exists s2. assert (s2 - s1 = - 65535) by (subst s2; Z.div_mod_to_equations; lia).
  split_and!; [done|lia|lia| |].
  - replace (s2 - s) with ((s1 - s) + (-1) * 65535) by lia. by rewrite Z.mod_add.
  - split; [lia|]. intros ->. by destruct Hn1.
Qed.

Lemma checksum_spec data : Forall byte data -> Z.even (lenz data) = true -> lenz data < 2 ^ 16 ->
  exists r, fold_carry CARRY_FUEL (sum_words 0 data) = Some r /\ calculate_checksum data = Some (65535 - r) /\
    0 <= r <= 65535 /\ (r - word_sum data) mod 65535 = 0 /\ (r = 0 <-> word_sum data = 0).
Proof.
  intros Hb He Hl. pose proof (word_sum_bound data Hb) as Hw. change (2 ^ 16) with 65536 in Hl.
  rewrite sum_words_even by (change (2 ^ 32) with 4294967296; done || lia). rewrite Z.add_0_l.
  destruct (fold_carry_spec (word_sum data)) as (r & E & Hr & Hm & Hz); [change (2 ^ 32) with 4294967296; lia|].
  exists r. split_and!; try done; try lia. unfold calculate_checksum.
  rewrite sum_words_even by (change (2 ^ 32) with 4294967296; done || lia). rewrite Z.add_0_l, E. cbn [mbind option_bind].
  f_equal. unfold wnot. rewrite (wrap_small 32) by (change (2 ^ 32) with 4294967296; lia). unfold wrap.
  change (2 ^ 32) with 4294967296. change (2 ^ 16) with 65536. Z.div_mod_to_equations. lia.
Qed.

Lemma bytes16_byte v : Forall byte (bytes16 v).
Proof. repeat constructor; unfold byte; apply Z.mod_pos_bound; lia. Qed.

Lemma bytes32_byte v : Forall byte (bytes32 v).
Proof. repeat constructor; unfold byte; apply Z.mod_pos_bound; lia. Qed.

Lemma word_sum_bytes16 v : 0 <= v < 65536 -> word_sum (bytes16 v) = v.
Proof. intros Hv. cbn [word_sum bytes16]. Z.div_mod_to_equations. lia. Qed.

Lemma verify_step pre post c :
  Forall byte (pre ++ post) -> Z.even (lenz pre) = true -> Z.even (lenz post) = true -> lenz (pre ++ post) < 2 ^ 16 - 2 ->
  calculate_checksum (pre ++ bytes16 0 ++ post) = Some c ->
  0 <= c < 2 ^ 16 /\ calculate_checksum (pre ++ bytes16 c ++ post) = Some 0.
Proof.
  intros Hb H1 H2 Hl E. rewrite lenz_app in Hl. apply Forall_app in Hb as [Hb1 Hb2].
  assert (forall v, Forall byte (pre ++ bytes16 v ++ post)) as Hb
    by (intros v; apply Forall_app; split; [done|]; apply Forall_app; split; [apply bytes16_byte|done]).
  assert (forall v, lenz (pre ++ bytes16 v ++ post) = lenz pre + lenz post + 2) as Hlen
    by (intros v; rewrite !lenz_app; unfold lenz; simpl; lia).
  assert (forall v, Z.even (lenz (pre ++ bytes16 v ++ post)) = true) as He
    by (intros v; by rewrite Hlen, !Z.even_add, H1, H2).
  assert (forall v, 0 <= v < 65536 -> word_sum (pre ++ bytes16 v ++ post) = word_sum pre + word_sum post + v) as Hw.
  { intros v Hv. rewrite word_sum_app by done. rewrite word_sum_app by done. rewrite word_sum_bytes16 by done. lia. }
  destruct (checksum_spec _ (Hb 0) (He 0)) as (r & _ & E0 & Hr & Hm & Hz); [rewrite Hlen; lia|].
  rewrite E0 in E. assert (c = 65535 - r) as -> by congruence. change (2 ^ 16) with 65536 in *. split; [lia|].
  destruct (checksum_spec _ (Hb (65535 - r)) (He (65535 - r))) as (r' & _ & E1 & Hr' & Hm' & Hz'); [rewrite Hlen; lia|].
  rewrite E1. f_equal. rewrite Hw in * by lia. pose proof (word_sum_bound pre Hb1). pose proof (word_sum_bound post Hb2).
  set (w := word_sum pre + word_sum post) in *. rewrite Z.add_0_r in *.
  assert (r' <> 0) by lia. assert (r' mod 65535 = 0) as Hr0; [|Z.div_mod_to_equations; lia].
  replace r' with ((r' - (w + (65535 - r))) + (65535 - (r - w))) by lia.
  rewrite Z.add_mod, Hm', Z.add_0_l, Zmod_mod, Zminus_mod, Hm by lia. done.
Qed.

(** The checksum makes a packet verify: on a packet of even length, with the
    checksum of the packet with a zero field stored at an even offset, the
    same computation over the whole packet gives zero, which is how a receiver
    checks it (RFC 1071). *)
Theorem checksum_verifies pre post c :
  Forall byte (pre ++ post) -> Z.even (lenz pre) = true -> Z.even (lenz post) = true -> lenz (pre ++ post) < 2 ^ 16 - 2 ->
  calculate_checksum (pre ++ bytes16 0 ++ post) = Some c ->
  0 <= c < 2 ^ 16 /\ calculate_checksum (pre ++ bytes16 c ++ post) = Some 0.
Proof. apply verify_step. Qed.


Lemma checksum_verifies_witness :
  0 <= 0xFFF7 < 2 ^ 16 /\ calculate_checksum ([8; 0] ++ bytes16 0xFFF7 ++ [0; 0; 0; 0]) = Some 0.
Proof.
  apply (checksum_verifies [8; 0] [0; 0; 0; 0] 0xFFF7); [|reflexivity|reflexivity|done|vm_compute; reflexivity].
  apply Forall_forall. intros x Hx. repeat (apply elem_of_cons in Hx as [->|Hx]; [unfold byte; lia|]). by apply elem_of_nil in Hx.
Defined.

Lemma sum_words_odd pre b s : Z.even (lenz pre) = true -> sum_words s (pre ++ [b]) = sum_words s (pre ++ [0; b]).
Proof.
  revert s. induction pre as [|a|a0 a1 pre IH] using pair_ind; intros s He; [|done|].
  - cbn [app sum_words]. rewrite Z.shiftl_mul_pow2 by lia. do 2 f_equal. lia.
  - rewrite even_pair in He. cbn [app sum_words]. by rewrite IH.
Qed.

(** On a packet of odd length the checksum is wrong: the last byte is added as
    the high byte of its word, where RFC 1071 pads the packet with a zero byte
    behind it, and the two differ whenever the last byte is not zero. *)
Theorem odd_length_checksum_wrong pre b :
  Forall byte pre -> Z.even (lenz pre) = true -> 0 < b < 256 -> lenz pre < 2 ^ 16 - 2 ->
  exists c c', calculate_checksum (pre ++ [b]) = Some c /\ calculate_checksum (pre ++ [b; 0]) = Some c' /\ c <> c'.
Proof.
  intros Hb He Hlast Hl. change (2 ^ 16) with 65536 in Hl.
  assert (forall x y, lenz (pre ++ [x; y]) = lenz pre + 2) as Hlen by (intros; rewrite lenz_app; done).
  assert (forall x y, Z.even (lenz (pre ++ [x; y])) = true) as Hev by (intros; by rewrite Hlen, Z.even_add, He).
  assert (forall x y, byte x -> byte y -> Forall byte (pre ++ [x; y])) as Hby
    by (intros; apply Forall_app; split; [done|eauto using Forall_cons_2, Forall_nil_2]).
  destruct (checksum_spec (pre ++ [0; b])) as (r & _ & E & Hr & Hm & _);
    [apply Hby; unfold byte; lia|done|rewrite Hlen; change (2 ^ 16) with 65536; lia|].
  destruct (checksum_spec (pre ++ [b; 0])) as (r' & _ & E' & Hr' & Hm' & _);
    [apply Hby; unfold byte; lia|done|rewrite Hlen; change (2 ^ 16) with 65536; lia|].
  rewrite word_sum_app in Hm, Hm' by done. cbn [word_sum] in Hm, Hm'.
  exists (65535 - r), (65535 - r'). split_and!; [|done|].
  - rewrite <- E. unfold calculate_checksum. by rewrite sum_words_odd.
  - intros Heq. assert (r = r') as -> by lia. clear E E' Hby Hev Hlen. Z.div_mod_to_equations. lia.
Qed.

Lemma odd_length_checksum_wrong_witness :
  exists c c', calculate_checksum ([0; 0] ++ [1]) = Some c /\ calculate_checksum ([0; 0] ++ [1; 0]) = Some c' /\ c <> c'.
Proof.
  apply (odd_length_checksum_wrong [0; 0] 1); [|reflexivity|lia|done]. repeat constructor; unfold byte; lia.
Defined.

(** ** The ARP table *)

(** At most one valid entry per address. *)
Definition unique (es : list ARPEntry) : Prop :=
  forall ip, (length (filter (fun e => entry_for ip e = true) es) <= 1)%nat.

Lemma resolve_none ip es : resolve ip es = None <-> filter (fun e => entry_for ip e = true) es = [].
Proof.
  induction es as [|e es IH]; [done|]. cbn [resolve]. rewrite filter_cons.
  destruct (entry_for ip e) eqn:E; [by rewrite decide_True|]. by rewrite decide_False.
Qed.

Lemma update_entry_spec ip mac es :
  match update_entry ip mac es with
  | Some es' => resolve ip es' = Some mac /\ (forall ip', ip' <> ip -> resolve ip' es' = resolve ip' es) /\
      forall ip', length (filter (fun e => entry_for ip' e = true) es') = length (filter (fun e => entry_for ip' e = true) es)
  | None => resolve ip es = None
  end.
Proof.
  induction es as [|e es IH]; [done|]. cbn [update_entry]. destruct (entry_for ip e) eqn:E.
  - assert (forall ip', entry_for ip' (mkArp (ip_addr e) mac (valid e)) = entry_for ip' e) as Hs by done.
    split_and!.
    + cbn [resolve]. by rewrite Hs, E.
    + intros ip' Hne. cbn [resolve]. rewrite Hs. destruct (entry_for ip' e) eqn:E'; [|done].
      unfold entry_for in E, E'. bool_to_prop. congruence.
    + intros ip'. rewrite !filter_cons, Hs. by destruct (decide (entry_for ip' e = true)).
  - destruct (update_entry ip mac es) as [es'|]; cbn [mbind option_bind].
    + destruct IH as (H1 & H2 & H3). split_and!.
      * cbn [resolve]. by rewrite E.
      * intros ip' Hne. cbn [resolve]. by rewrite H2.
      * intros ip'. rewrite !filter_cons. destruct (decide (entry_for ip' e = true)); simpl; by rewrite H3.
    + cbn [resolve]. by rewrite E.
Qed.

Lemma find_empty_spec es b : let i := find_empty_from b es in
  (i = -1 /\ Forall (fun e => valid e = true) es) \/
  (b <= i /\ exists e, es !! Z.to_nat (i - b) = Some e /\ valid e = false).
Proof.
  revert b. induction es as [|e es IH]; intros b; simpl; [by left|]. destruct (valid e) eqn:E; simpl.
  - destruct (IH (b + 1)) as [[H1 H2]|(H1 & e' & H2 & H3)]; [left; by split; [|constructor]|].
    right. set (i := find_empty_from (b + 1) es) in *. split; [lia|]. exists e'.
    replace (Z.to_nat (i - b)) with (S (Z.to_nat (i - (b + 1)))) by lia. done.
  - right. split; [lia|]. exists e. by rewrite Z.sub_diag.
Qed.

Lemma filter_insert_invalid ip es k e e' : es !! k = Some e -> valid e = false ->
  length (filter (fun e => entry_for ip e = true) (<[k := e']> es)) =
    ((if entry_for ip e' then 1 else 0) + length (filter (fun e => entry_for ip e = true) es))%nat.
Proof.
  revert k. induction es as [|x es IH]; intros k Hk Hv; [done|]. destruct k as [|k]; simpl in Hk.
  - simplify_eq. cbn [insert list_insert]. rewrite !filter_cons.
    rewrite (decide_False (P := entry_for ip e = true)) by (unfold entry_for; by rewrite Hv).
    destruct (entry_for ip e') eqn:E; [by rewrite decide_True|by rewrite decide_False].
  - change (<[S k := e']> (x :: es)) with (x :: <[k := e']> es). rewrite !filter_cons.
    destruct (decide (entry_for ip x = true)); simpl; rewrite IH by done; lia.
Qed.

Lemma resolve_insert_invalid ip es k e e' : es !! k = Some e -> valid e = false ->
  (entry_for ip e' = false -> resolve ip (<[k := e']> es) = resolve ip es) /\
  (entry_for ip e' = true -> resolve ip es = None -> resolve ip (<[k := e']> es) = Some (mac_addr e')).
Proof.
  revert k. induction es as [|x es IH]; intros k Hk Hv; [done|]. destruct k as [|k]; simpl in Hk.
  - simplify_eq. cbn [insert list_insert resolve]. assert (entry_for ip e = false) as -> by (unfold entry_for; by rewrite Hv).
    by split; intros ->.
  - change (<[S k := e']> (x :: es)) with (x :: <[k := e']> es). cbn [resolve].
    destruct (IH k Hk Hv) as [H1 H2]. destruct (entry_for ip x); [done|]. by split.
Qed.

Lemma arp_add_spec ip mac es : unique es ->
  unique (arp_add ip mac es) /\ (forall ip', ip' <> ip -> resolve ip' (arp_add ip mac es) = resolve ip' es) /\
  (resolve ip (arp_add ip mac es) = Some mac \/
   (arp_add ip mac es = es /\ resolve ip es = None /\ Forall (fun e => valid e = true) es)).
Proof.
  intros Hu. unfold arp_add. pose proof (update_entry_spec ip mac es) as Hs.
  destruct (update_entry ip mac es) as [es'|].
  { destruct Hs as (H1 & H2 & H3). split_and!; [|done|by left]. intros ip'. rewrite H3. apply Hu. }
  unfold find_empty_slot. destruct (find_empty_spec es 0) as [[-> Hfull]|(Hi & e & He & Hv)].
  { split_and!; [done|done|]. right. done. }
  set (i := find_empty_from 0 es) in *. destruct (Z.eqb_spec i (-1)); [lia|]. rewrite Z.sub_0_r in He. unfold setz.
  assert (entry_for ip (mkArp ip mac true) = true) as Hip by (unfold entry_for; simpl; lia).
  assert (forall ip', ip' <> ip -> entry_for ip' (mkArp ip mac true) = false) as Hne by (intros; unfold entry_for; simpl; lia).
  split_and!.
  - intros ip'. rewrite (filter_insert_invalid ip' es _ e) by done. destruct (Z.eq_dec ip' ip) as [->|Hd].
    + rewrite Hip. apply resolve_none in Hs. rewrite Hs. simpl. lia.
    + rewrite Hne by done. apply Hu.
  - intros ip' Hd. apply (resolve_insert_invalid ip' es _ e); [done|done|by apply Hne].
  - left. by apply (resolve_insert_invalid ip es _ e).
Qed.

Lemma arp_remove_spec ip es : unique es ->
  unique (arp_remove ip es) /\ resolve ip (arp_remove ip es) = None /\
  forall ip', ip' <> ip -> resolve ip' (arp_remove ip es) = resolve ip' es.
Proof.
  assert (forall ip' e, entry_for ip' (mkArp (ip_addr e) (mac_addr e) false) = false) as Hf by done.
  intros Hu. split_and!.
  - intros ip'. specialize (Hu ip'). etrans; [|exact Hu]. clear Hu. induction es as [|e es IH]; [done|]. cbn [arp_remove].
    destruct (entry_for ip e); rewrite !filter_cons.
    + rewrite (decide_False (P := entry_for ip' _ = true)) by (by rewrite Hf). destruct (decide _); simpl; lia.
    + destruct (decide _); simpl; lia.
  - specialize (Hu ip). induction es as [|e es IH]; [done|]. cbn [arp_remove]. rewrite filter_cons in Hu.
    destruct (entry_for ip e) eqn:E.
    + cbn [resolve]. rewrite Hf. apply resolve_none. rewrite decide_True in Hu by done. simpl in Hu. by destruct (filter _ es); [|simpl in *; lia].
    + rewrite decide_False in Hu by done. cbn [resolve]. rewrite E. auto.
  - intros ip' Hne. clear Hu. induction es as [|e es IH]; [done|]. cbn [arp_remove]. destruct (entry_for ip e) eqn:E.
    + cbn [resolve]. rewrite Hf. destruct (entry_for ip' e) eqn:E'; [|done]. unfold entry_for in E, E'. bool_to_prop. congruence.
    + cbn [resolve]. by rewrite IH.
Qed.

(** The ARP table is a finite map from addresses to hardware addresses: [add]
    binds the address and leaves every other binding, or changes nothing when
    all 32 entries are in use for other addresses; [remove] unbinds exactly the
    address; no address ever has two entries. *)
Theorem arp_table_is_map ip mac es :
  unique es ->
  unique (arp_add ip mac es) /\ unique (arp_remove ip es) /\
  (resolve ip (arp_add ip mac es) = Some mac \/
   (arp_add ip mac es = es /\ resolve ip es = None /\ Forall (fun e => valid e = true) es)) /\
  resolve ip (arp_remove ip es) = None /\
  forall ip', ip' <> ip -> resolve ip' (arp_add ip mac es) = resolve ip' es /\ resolve ip' (arp_remove ip es) = resolve ip' es.
Proof.
  intros Hu. destruct (arp_add_spec ip mac es Hu) as (H1 & H2 & H3). destruct (arp_remove_spec ip es Hu) as (H4 & H5 & H6).
  split_and!; try done. eauto.
Qed.

Lemma unique_clear : unique arp_clear.
Proof. intros ip. vm_compute. lia. Qed.

Lemma arp_table_is_map_witness :
  resolve 1 (arp_add 1 [2] arp_clear) = Some [2] /\ resolve 1 (arp_remove 1 arp_clear) = None.
Proof.
  destruct (arp_table_is_map 1 [2] arp_clear unique_clear) as (_ & _ & [H|(_ & _ & H)] & H5 & _); [done|].
  exfalso. by apply Forall_cons in H as [H _].
Defined.
