(* ===== verification/NetSpec.v ===== *)
(** * Requests from the network and their answers

    What [handle_recv_packet] sends for an ARP request and for an echo request,
    and what an echo request with a false length obtains. *)

From S2P Require Import Prelude Message UserMem Net NetProofs.

Open Scope Z_scope.

(** ** Reading memory *)

Definition bytes_mem (m : Mem) : Prop := forall a, byte (m a).

Lemma load_byte m a : bytes_mem m -> byte (load m a).
Proof. intros H. apply H. Qed.

Lemma bytes32_load m a : bytes_mem m -> bytes32 (load32 m a) = load_bytes m a 4.
Proof.
  intros Hm. unfold load32, load16. rewrite bytes32_of by (by apply load_byte). unfold load_bytes.
  change (seqZ 0 4) with [0; 1; 2; 3]. cbn [fmap list_fmap]. rewrite Z.add_0_r.
  replace (a + 2 + 1) with (a + 3) by lia. done.
Qed.

Lemma lenz_load_bytes m a n : 0 <= n -> lenz (load_bytes m a n) = n.
Proof. intros Hn. unfold load_bytes, lenz. rewrite length_fmap, length_seqZ. lia. Qed.

Lemma load_bytes_byte m a n : bytes_mem m -> Forall byte (load_bytes m a n).
Proof. intros Hm. apply Forall_fmap, Forall_true. intros i. by apply load_byte. Qed.

Lemma load_bytes_app m a n k : 0 <= n -> 0 <= k -> load_bytes m a (n + k) = load_bytes m a n ++ load_bytes m (a + n) k.
Proof.
  intros Hn Hk. unfold load_bytes. rewrite seqZ_app by lia. rewrite fmap_app. f_equal. rewrite Z.add_0_l.
  replace (seqZ n k) with (Z.add n <$> seqZ 0 k) by (rewrite fmap_add_seqZ; f_equal; lia).
  rewrite <- list_fmap_compose. apply list_fmap_ext. intros i x _. simpl. f_equal. lia.
Qed.

Lemma drop_load_bytes m a n k : 0 <= k <= n -> drop (Z.to_nat k) (load_bytes m a n) = load_bytes m (a + k) (n - k).
Proof.
  intros H. replace n with (k + (n - k)) at 1 by lia. rewrite load_bytes_app by lia.
  apply drop_app_length'. pose proof (lenz_load_bytes m a k ltac:(lia)). unfold lenz in *. lia.
Qed.

Definition delivers (env : Env) : Prop := alloc_ok env = true /\ send_result env = err OK.

Lemma transmit_ok env mac type payload h : delivers env -> lenz payload <= ETHERNET_MTU ->
  transmit_ethernet_frame env mac type payload h =
    (err OK, mkHost (entries_ h) (registered_mac h)
      (sent h ++ [mac ++ registered_mac h ++ bytes16 (htons (frame_type type)) ++ payload])).
Proof.
  intros [Ha Hs] Hl. unfold transmit_ethernet_frame. destruct (Z.ltb_spec ETHERNET_MTU (lenz payload)); [lia|].
  by rewrite Ha, Hs.
Qed.

(** ** ARP *)

(** An ARP request for this host is answered: exactly one frame goes out, to the
    requester, and it is the Ethernet/IPv4 reply with this host's addresses as
    sender and the requester's, as they were in the request, as target; the
    requester's address is resolved from then on unless the table is full. *)
Theorem arp_request_answered env m addr size h :
  bytes_mem m -> delivers env -> unique (entries_ h) -> lenz (registered_mac h) = 6 -> addr <> 0 -> sizeof_EthernetFrame <= size ->
  ntohs (load16 m (addr + 12)) = frame_type ARP ->
  let p := load_arp m (addr + 14) in
  ntohs (opcode p) = opcode_number REQUEST -> target_ip p = htonl HOST_IP ->
  exists h', handle_recv_packet env m addr size h = Some h' /\
    sent h' = sent h ++ [sender_mac p ++ registered_mac h ++ [0x08; 0x06] ++
      [0; 1; 8; 0; 6; 4; 0; 2] ++ registered_mac h ++ [192; 168; 100; 200] ++ sender_mac p ++ load_bytes m (addr + 28) 4] /\
    (resolve (ntohl (sender_ip p)) (entries_ h') = Some (sender_mac p) \/ Forall (fun e => valid e = true) (entries_ h)).
Proof.
  intros Hm Henv Hu Hmac Ha Hs Het p Hop Htarget. unfold handle_recv_packet.
  destruct (Z.eqb_spec addr 0), (Z.ltb_spec size sizeof_EthernetFrame); try lia. cbn [orb]. rewrite Het, Z.eqb_refl.
  change (addr + sizeof_EthernetFrame) with (addr + 14). fold p. unfold process_arp. rewrite Hop, Z.eqb_refl.
  unfold handle_arp_request. rewrite Htarget, Z.eqb_refl. cbn [negb].
  set (h1 := set_entries _ h). eexists. split; [done|].
  assert (lenz (sender_mac p) = 6) as Hsm by (by apply lenz_load_bytes).
  assert (arp_bytes (arp_reply h1 p) = [0; 1; 8; 0; 6; 4; 0; 2] ++ registered_mac h ++ [192; 168; 100; 200] ++
    sender_mac p ++ load_bytes m (addr + 28) 4) as Hbytes.
  { unfold arp_bytes, arp_reply. cbn [hw_type protocol_type hw_size protocol_size opcode Net.sender_mac Net.sender_ip
      Net.target_mac Net.target_ip]. rewrite Htarget.
    replace (bytes32 (sender_ip p)) with (load_bytes m (addr + 28) 4).
    - reflexivity.
    - symmetry. change (sender_ip p) with (load32 m (addr + 14 + 14)). rewrite bytes32_load by done. f_equal. lia. }
  rewrite (transmit_ok env _ _ _ _ Henv).
  - cbn [snd]. cbn [sent entries_]. rewrite Hbytes. split; [done|].
    destruct (arp_add_spec (ntohl (sender_ip p)) (sender_mac p) (entries_ h) Hu) as (_ & _ & [Hr|(_ & _ & Hr)]); [by left|by right].
  - rewrite Hbytes, !lenz_app, Hsm, Hmac, lenz_load_bytes by lia. vm_compute. done.
Qed.

(** ** Echo *)

(** The received packet, as far as the code looks at it: an IPv4 packet from [src]
    with a header of [hl] bytes, that carries an echo request and claims [n] bytes of
    ICMP. *)
Record echo_packet (m : Mem) (addr hl n src : Z) : Prop := {
  ep_type : ntohs (load16 m (addr + 12)) = frame_type IPV4;
  ep_ihl : ihl_bytes (load m (addr + 14)) = hl;
  ep_len : ntohs (load16 m (addr + 16)) = hl + n;
  ep_proto : load m (addr + 23) = protocol_number ICMP;
  ep_src : ntohl (load32 m (addr + 26)) = src;
  ep_icmp : load m (addr + 14 + hl) = icmp_type ECHO_REQUEST;
}.

Lemma header_lenz env t p d c : lenz (ipv4_header env t p d c) = 20.
Proof. done. Qed.

Lemma header_byte env t p d c : byte p -> Forall byte (ipv4_header env t p d c).
Proof.
  intros Hp. unfold ipv4_header.
  repeat (apply Forall_app; split); try apply bytes16_byte; try apply bytes32_byte;
    repeat (apply Forall_cons_2); try apply Forall_nil_2; try done; unfold byte; vm_compute; done.
Qed.

Lemma header_split env t p d c : ipv4_header env t p d c =
  ([IPV4_VERSION_IHL; 0] ++ bytes16 (htons (u16 t)) ++ bytes16 (stack_id env) ++ bytes16 (stack_fragment env) ++
   [DEFAULT_TTL; p]) ++ bytes16 c ++ bytes32 (htonl HOST_IP) ++ bytes32 (htonl d).
Proof. reflexivity. Qed.

(** The packet that leaves, with a header that verifies. *)
Lemma transmit_ipv4_ok env dst mac payload h :
  delivers env -> lenz payload <= 1480 -> resolve dst (entries_ h) = Some mac ->
  exists h' hc, transmit_ipv4_packet env dst ICMP payload h = Some h' /\
    let header := ipv4_header env (20 + lenz payload) (protocol_number ICMP) dst hc in
    sent h' = sent h ++ [mac ++ registered_mac h ++ [0x08; 0x00] ++ header ++ payload] /\ calculate_checksum header = Some 0.
Proof.
  intros Henv Hl Hres. unfold transmit_ipv4_packet. set (t := sizeof_IPv4Header + lenz payload).
  pose proof (header_byte env t (protocol_number ICMP) dst 0 ltac:(unfold byte; done)) as Hb.
  destruct (checksum_spec (ipv4_header env t (protocol_number ICMP) dst 0)) as (r & _ & E & _); [done|done|done|].
  rewrite E. cbn [mbind option_bind]. set (hc := 65535 - r) in *.
  destruct (Z.ltb_spec (ETHERNET_MTU - sizeof_IPv4Header) (lenz payload)); [unfold ETHERNET_MTU, sizeof_IPv4Header in *; lia|].
  rewrite Hres, (transmit_ok env) by (done || (rewrite lenz_app, header_lenz; unfold ETHERNET_MTU; lia)).
  eexists _, hc. split; [done|]. cbn [snd sent]. split; [done|]. fold t. rewrite header_split.
  rewrite header_split in E, Hb. apply Forall_app in Hb as [Hb1 Hb2]. apply Forall_app in Hb2 as [_ Hb2].
  eapply verify_step; [|done|done|done|exact E]. apply Forall_app. done.
Qed.

(** The packet that does not leave. *)
Lemma transmit_ipv4_dropped env dst payload h :
  1480 < lenz payload \/ resolve dst (entries_ h) = None -> transmit_ipv4_packet env dst ICMP payload h = Some h.
Proof.
  intros Hd. unfold transmit_ipv4_packet. set (t := sizeof_IPv4Header + lenz payload).
  pose proof (header_byte env t (protocol_number ICMP) dst 0 ltac:(unfold byte; done)) as Hb.
  destruct (checksum_spec (ipv4_header env t (protocol_number ICMP) dst 0)) as (r & _ & E & _); [done|done|done|].
  rewrite E. cbn [mbind option_bind]. destruct (Z.ltb_spec (ETHERNET_MTU - sizeof_IPv4Header) (lenz payload)) as [|Hl]; [done|].
  destruct Hd as [Hd| ->]; [unfold ETHERNET_MTU, sizeof_IPv4Header in Hl; lia|done].
Qed.

(** The ICMP part of the answer to the [n] bytes at [a]. *)
Definition reply_icmp (m : Mem) (a n c : Z) : list Z := [icmp_type ECHO_REPLY; 0] ++ bytes16 c ++ load_bytes m (a + 4) (n - 4).

Lemma reply_built m a n : bytes_mem m -> 8 <= n <= 1500 -> Z.even n = true ->
  exists c, calculate_checksum (echo_reply 0 (load_bytes m a n)) = Some c /\ echo_reply c (load_bytes m a n) = reply_icmp m a n c /\
    calculate_checksum (reply_icmp m a n c) = Some 0 /\ lenz (reply_icmp m a n c) = n.
Proof.
  intros Hm Hn He. unfold echo_reply, reply_icmp. rewrite (drop_load_bytes m a n 4 ltac:(lia) : drop 4 _ = _).
  set (data := load_bytes m (a + 4) (n - 4)).
  assert (lenz data = n - 4) as Hdl by (apply lenz_load_bytes; lia).
  assert (Z.even (lenz data) = true) as Hde by (rewrite Hdl, Z.even_sub, He; done).
  assert (Forall byte data) as Hdb by (by apply load_bytes_byte).
  assert (exists c, calculate_checksum ([icmp_type ECHO_REPLY; 0] ++ bytes16 0 ++ data) = Some c) as [c Ec].
  { destruct (checksum_spec ([icmp_type ECHO_REPLY; 0] ++ bytes16 0 ++ data)) as (r & _ & E & _); [| | |by eauto].
    - apply Forall_app. split; [by repeat constructor|]. apply Forall_app. split; [apply bytes16_byte|done].
    - by rewrite !lenz_app, !Z.even_add, Hde.
    - rewrite !lenz_app, Hdl. unfold lenz. change (2 ^ 16) with 65536. simpl. lia. }
  destruct (verify_step [icmp_type ECHO_REPLY; 0] data c) as [Hc Hcv]; [|done|done| |exact Ec|].
  { apply Forall_app. split; [by repeat constructor|done]. }
  { rewrite lenz_app, Hdl. unfold lenz. change (2 ^ 16) with 65536. simpl. lia. }
  exists c. split_and!; [exact Ec|done|done|]. rewrite !lenz_app, Hdl. unfold lenz. simpl. lia.
Qed.

(** Up to the ICMP part of the packet nothing is dropped. *)
Lemma echo_received env m addr hl n src h size :
  addr <> 0 -> echo_packet m addr hl n src -> 8 <= n <= 65535 -> 14 <= size ->
  handle_recv_packet env m addr size h = handle_icmp_echo_request env m (addr + 14 + hl) src n h.
Proof.
  intros Ha [H1 H2 H3 H4 H5 H6] Hn Hs. unfold handle_recv_packet.
  destruct (Z.eqb_spec addr 0), (Z.ltb_spec size sizeof_EthernetFrame); try (unfold sizeof_EthernetFrame in *; lia). cbn [orb]. rewrite H1.
  change (frame_type IPV4 =? frame_type ARP) with false. rewrite Z.eqb_refl.
  change (addr + sizeof_EthernetFrame) with (addr + 14). unfold process_ipv4, load8.
  replace (addr + 14 + 9) with (addr + 23) by lia. replace (addr + 14 + 2) with (addr + 16) by lia.
  replace (addr + 14 + 12) with (addr + 26) by lia. rewrite H2, H3, H4, H5, Z.eqb_refl.
  replace (u64 (hl + n - hl)) with n by (rewrite wrap_small; change (2 ^ 64) with 18446744073709551616; lia).
  unfold process_icmp, load8. by rewrite H6, Z.eqb_refl.
Qed.

(** What happens to a request: it is answered with the reply, or dropped. *)
Lemma echo_handled env m a n src h : bytes_mem m -> 8 <= n <= 65535 -> Z.even n = true ->
  (1500 < n /\ handle_icmp_echo_request env m a src n h = Some h) \/
  exists c, handle_icmp_echo_request env m a src n h = transmit_ipv4_packet env src ICMP (reply_icmp m a n c) h /\
    calculate_checksum (reply_icmp m a n c) = Some 0 /\ lenz (reply_icmp m a n c) = n.
Proof.
  intros Hm Hn He. unfold handle_icmp_echo_request, sizeof_ICMPEchoHeader. destruct (Z.ltb_spec n 8); [lia|].
  rewrite (wrap_small 64 (n - 8)) by (change (2 ^ 64) with 18446744073709551616; lia).
  replace (8 + (n - 8)) with n by lia. rewrite (wrap_small 64 n) by (change (2 ^ 64) with 18446744073709551616; lia).
  unfold ETHERNET_MTU in *. destruct (Z.ltb_spec 1500 n); [by left|right].
  destruct (reply_built m a n Hm ltac:(lia) He) as (c & -> & Er & Hv & Hl). cbn [mbind option_bind]. rewrite Er. by exists c.
Qed.

(** What the answer looks like on the wire. *)
Lemma echo_sent env m addr hl n src h mac size :
  bytes_mem m -> delivers env -> addr <> 0 -> echo_packet m addr hl n src -> 8 <= n <= 1480 -> Z.even n = true ->
  resolve src (entries_ h) = Some mac -> 14 <= size ->
  exists h' c hc, handle_recv_packet env m addr size h = Some h' /\
    let header := ipv4_header env (20 + n) (protocol_number ICMP) src hc in
    let icmp := reply_icmp m (addr + 14 + hl) n c in
    sent h' = sent h ++ [mac ++ registered_mac h ++ [0x08; 0x00] ++ header ++ icmp] /\
    calculate_checksum header = Some 0 /\ calculate_checksum icmp = Some 0 /\ lenz icmp = n.
Proof.
  intros Hm Henv Ha Hp Hn He Hres Hs. rewrite (echo_received _ _ _ hl n src) by (done || lia).
  destruct (echo_handled env m (addr + 14 + hl) n src h Hm ltac:(lia) He) as [[? _]|(c & -> & Hv & Hl)]; [lia|].
  destruct (transmit_ipv4_ok env src mac (reply_icmp m (addr + 14 + hl) n c) h Henv) as (h' & hc & E & Hsent & Hvh); [lia|done|].
  rewrite E. exists h', c, hc. rewrite Hl in Hsent, Hvh. done.
Qed.

Lemma ntohs_load m a : bytes_mem m -> ntohs (load16 m a) <= 65535.
Proof.
  intros Hm. unfold load16. pose proof (load_byte m a Hm) as H0. pose proof (load_byte m (a + 1) Hm) as H1. rewrite ntohs_bytes by done. unfold byte in *. lia.
Qed.

Lemma htonl_ntohl_load m a : bytes_mem m -> bytes32 (htonl (ntohl (load32 m a))) = load_bytes m a 4.
Proof.
  intros Hm. rewrite <- (bytes32_load m a Hm). unfold htonl, load32, load16.
  rewrite !ntohl_bytes by (by apply load_byte). done.
Qed.

(** C15: What becomes of an echo request of even length that lies inside its frame, with
    or without IP options, when there is memory for the answer and the card takes frames.  If the sender's address is in the ARP table and there are at
    most 1480 bytes of ICMP, exactly one frame goes out, to the hardware address known
    for the sender; its IPv4 header carries this host's address and the sender's, its
    ICMP part has the type of a reply and the identifier, sequence number and data of
    the request, and both checksums verify.  Otherwise the request is dropped and
    nothing changes. *)
Theorem echo_request_answered env m addr size hl n src h :
  bytes_mem m -> delivers env -> addr <> 0 -> echo_packet m addr hl n src -> 8 <= n -> Z.even n = true -> 14 + hl + n <= size -> 20 <= hl ->
  match resolve src (entries_ h) with
  | Some mac =>
      if n <=? 1480 then
        exists h' header c, handle_recv_packet env m addr size h = Some h' /\
          let icmp := [icmp_type ECHO_REPLY; 0] ++ bytes16 c ++ load_bytes m (addr + 14 + hl + 4) (n - 4) in
          sent h' = sent h ++ [mac ++ registered_mac h ++ [0x08; 0x00] ++ header ++ icmp] /\
          lenz header = 20 /\ calculate_checksum header = Some 0 /\
          drop 12 header = [192; 168; 100; 200] ++ load_bytes m (addr + 26) 4 /\
          lenz icmp = n /\ calculate_checksum icmp = Some 0
      else handle_recv_packet env m addr size h = Some h
  | None => handle_recv_packet env m addr size h = Some h
  end.
Proof.
  intros Hm Henv Ha Hp Hn He Hs Hhl.
  assert (n <= 65535) as Hn' by (pose proof (ep_len _ _ _ _ _ Hp) as Hl; pose proof (ntohs_load m (addr + 16) Hm); lia).
  assert (1480 < n \/ resolve src (entries_ h) = None -> handle_recv_packet env m addr size h = Some h) as Hdrop.
  { intros Hd. rewrite (echo_received _ _ _ hl n src) by (done || lia).
    destruct (echo_handled env m (addr + 14 + hl) n src h Hm ltac:(lia) He) as [[_ ?]|(c & -> & _ & Hl)]; [done|]. apply transmit_ipv4_dropped. by rewrite Hl. }
  destruct (resolve src (entries_ h)) as [mac|] eqn:Hres; [|by apply Hdrop; right]. destruct (Z.leb_spec n 1480); [|apply Hdrop; left; lia].
  destruct (echo_sent env m addr hl n src h mac size Hm Henv Ha Hp ltac:(lia) He Hres ltac:(lia)) as (h' & c & hc & E & Hsent & Hh & Hi & Hl).
  exists h', (ipv4_header env (20 + n) (protocol_number ICMP) src hc), c. split; [done|]. cbv zeta. split_and!; [done|done|done| |done|done].
  change (drop 12 (ipv4_header env (20 + n) (protocol_number ICMP) src hc)) with ([192; 168; 100; 200] ++ bytes32 (htonl src)).
  destruct Hp as [_ _ _ _ <- _]. by rewrite htonl_ntohl_load.
Qed.

(** An echo request with a false length obtains kernel memory: the length comes
    from the packet and is not compared with the size of the received frame, so
    a frame of 42 bytes that claims [n] bytes of ICMP is answered with the
    [n - 8] bytes of memory that follow the frame. *)
Theorem echo_reply_discloses_memory env m addr n src h mac :
  bytes_mem m -> delivers env -> addr <> 0 -> echo_packet m addr 20 n src -> 8 <= n <= 1480 -> Z.even n = true ->
  resolve src (entries_ h) = Some mac ->
  exists h' head, handle_recv_packet env m addr 42 h = Some h' /\
    sent h' = sent h ++ [head ++ load_bytes m (addr + 42) (n - 8)].
Proof.
  intros Hm Henv Ha Hp Hn He Hres.
  destruct (echo_sent env m addr 20 n src h mac 42 Hm Henv Ha Hp Hn He Hres ltac:(lia)) as (h' & c & hc & E & Hsent & _ & _ & _).
  unfold reply_icmp in Hsent. replace (n - 4) with (4 + (n - 8)) in Hsent by lia. rewrite load_bytes_app in Hsent by lia.
  replace (addr + 14 + 20 + 4 + 4) with (addr + 42) in Hsent by lia.
  exists h', (mac ++ registered_mac h ++ [0x08; 0x00] ++ ipv4_header env (20 + n) (protocol_number ICMP) src hc ++
    [icmp_type ECHO_REPLY; 0] ++ bytes16 c ++ load_bytes m (addr + 14 + 20 + 4) 4).
  split; [done|]. rewrite Hsent. by rewrite <- !app_assoc.
Qed.

(** ** Concrete packets *)

(** Memory that holds [frame] at 4096 and the byte 0x5A behind it. *)
Definition frame_mem (frame : list Z) : Mem := fun a =>
  if (4096 <=? a) && (a <? 4096 + lenz frame) then default 0 (frame !! Z.to_nat (a - 4096)) else 0x5A.

Lemma frame_mem_bytes frame : Forall byte frame -> bytes_mem (frame_mem frame).
Proof.
  intros Hf a. unfold frame_mem. destruct (_ && _); [|unfold byte; lia]. destruct (frame !! Z.to_nat (a - 4096)) as [x|] eqn:E.
  - by eapply Forall_lookup_1 in E.
  - unfold byte. simpl. lia.
Qed.

Definition demo_env : Env := mkEnv true 0 0 0.
Definition demo_mac : list Z := [2; 0; 0; 0; 0; 1].
Definition demo_host : Host := mkHost (arp_add 0xC0A86401 demo_mac arp_clear) [2; 0; 0; 0; 0; 2] [].

(** An echo request with [n] bytes claimed and two bytes of data. *)
Definition echo_frame (n : Z) : list Z :=
  [2; 0; 0; 0; 0; 2] ++ demo_mac ++ [8; 0] ++
  [0x45; 0; 0; 20 + n; 0; 0; 0; 0; 64; 1; 0; 0; 192; 168; 100; 1; 192; 168; 100; 200] ++ [8; 0; 0; 0; 0; 1; 0; 1].

Lemma echo_frame_bytes n : 0 <= n < 200 -> Forall byte (echo_frame n).
Proof. intros Hn. unfold echo_frame, byte, demo_mac. repeat (apply Forall_cons_2; [lia|]). apply Forall_nil_2. Qed.

Lemma echo_request_answered_witness :
  exists h', handle_recv_packet demo_env (frame_mem (echo_frame 8)) 4096 42 demo_host = Some h' /\ length (sent h') = 1%nat.
Proof.
  pose proof (echo_request_answered demo_env (frame_mem (echo_frame 8)) 4096 42 20 8 0xC0A86401 demo_host) as H.
  change (resolve 0xC0A86401 (entries_ demo_host)) with (Some demo_mac) in H. change (8 <=? 1480) with true in H.
  destruct H as (h' & header & c & E & Hs & _); [apply frame_mem_bytes, echo_frame_bytes; lia|by split|done|split; reflexivity|lia|done|lia|lia|].
  exists h'. split; [exact E|]. by rewrite Hs.
Defined.

Lemma echo_reply_discloses_memory_witness :
  exists h' head, handle_recv_packet demo_env (frame_mem (echo_frame 108)) 4096 42 demo_host = Some h' /\
    sent h' = sent demo_host ++ [head ++ replicate 100 0x5A].
Proof.
  destruct (echo_reply_discloses_memory demo_env (frame_mem (echo_frame 108)) 4096 108 0xC0A86401 demo_host demo_mac)
    as (h' & head & E & Hs); [apply frame_mem_bytes, echo_frame_bytes; lia|by split|done|split; reflexivity|lia|done|done|].
  exists h', head. split; [exact E|]. exact Hs.
Defined.

Definition arp_frame : list Z :=
  [255; 255; 255; 255; 255; 255] ++ demo_mac ++ [8; 6] ++ [0; 1; 8; 0; 6; 4; 0; 1] ++ demo_mac ++ [192; 168; 100; 7] ++
  [0; 0; 0; 0; 0; 0] ++ [192; 168; 100; 200].

Lemma arp_request_answered_witness :
  exists h', handle_recv_packet demo_env (frame_mem arp_frame) 4096 42 demo_host = Some h' /\
    resolve 0xC0A86407 (entries_ h') = Some demo_mac.
Proof.
  destruct (arp_request_answered demo_env (frame_mem arp_frame) 4096 42 demo_host) as (h' & E & _ & [H|H]).
  - apply frame_mem_bytes. unfold arp_frame, byte, demo_mac. repeat (apply Forall_cons_2; [lia|]). apply Forall_nil_2.
  - by split.
  - apply (arp_add_spec 0xC0A86401 demo_mac arp_clear unique_clear).
  - reflexivity.
  - done.
  - done.
  - reflexivity.
  - reflexivity.
  - reflexivity.
  - exists h'. split; [exact E|exact H].
  - exfalso. apply Forall_cons in H as [_ H]. by apply Forall_cons in H as [H _].
Defined.
