(* ===== verification/Fat.v ===== *)
(** * The FAT32 volume

    [kernel/fs/fat/fat.hpp], [utils.cpp] and [init.cpp]: directory entries and
    their names, the allocation table, and access to the block device.

    Characters are bytes; a C string is the list of the bytes before its
    terminator.  A pointer to an entry of a directory cluster is the index of
    the entry.  The block device is a function from byte addresses to bytes. *)

From S2P Require Import Prelude Message UserMem.

Open Scope Z_scope.

(** ** Directory entries *)

Record DirectoryEntry := mkEntry {
  de_name : list Z;
  attribute : Z;
  ntres : Z;
  create_time_tenth : Z;
  create_time : Z;
  create_date : Z;
  last_access_date : Z;
  first_cluster_high : Z;
  write_time : Z;
  write_date : Z;
  first_cluster_low : Z;
  file_size : Z;
}.

Module entry_attribute.
Definition READ_ONLY : Z := 0x01.
Definition HIDDEN : Z := 0x02.
Definition SYSTEM : Z := 0x04.
Definition VOLUME_ID : Z := 0x08.
Definition DIRECTORY : Z := 0x10.
Definition ARCHIVE : Z := 0x20.
Definition LONG_NAME : Z := 0x0F.
End entry_attribute.

Definition DIR_ENTRY_END : Z := 0x00.
Definition DIR_ENTRY_DELETED : Z := 0xE5.
Definition SFN_PAD : Z := 0x20.
Definition CLUSTER_LOW_MASK : Z := 0xFFFF.
Definition CLUSTER_HIGH_SHIFT : Z := 16.
Definition END_OF_CLUSTER_CHAIN : Z := 0x0FFFFFFF.
Definition FAT32_EOC_MIN : Z := 0x0FFFFFF8.
Definition BOOT_SECTOR : Z := 0.
Definition sizeof_DirectoryEntry : Z := 32.

Definition first_cluster (e : DirectoryEntry) : Z := Z.lor (first_cluster_low e) (Z.shiftl (first_cluster_high e) 16).

Definition set_clusters (hi lo : Z) (e : DirectoryEntry) : DirectoryEntry :=
  mkEntry (de_name e) (attribute e) (ntres e) (create_time_tenth e) (create_time e) (create_date e) (last_access_date e)
    hi (write_time e) (write_date e) lo (file_size e).

Definition set_first_cluster (cluster : Z) (e : DirectoryEntry) : DirectoryEntry :=
  set_clusters (Z.land (Z.shiftr cluster CLUSTER_HIGH_SHIFT) CLUSTER_LOW_MASK) (Z.land cluster CLUSTER_LOW_MASK) e.

Definition set_file_size (n : Z) (e : DirectoryEntry) : DirectoryEntry :=
  mkEntry (de_name e) (attribute e) (ntres e) (create_time_tenth e) (create_time e) (create_date e) (last_access_date e)
    (first_cluster_high e) (write_time e) (write_date e) (first_cluster_low e) n.

Definition set_name_attribute (name : list Z) (a : Z) (e : DirectoryEntry) : DirectoryEntry :=
  mkEntry name a (ntres e) (create_time_tenth e) (create_time e) (create_date e) (last_access_date e)
    (first_cluster_high e) (write_time e) (write_date e) (first_cluster_low e) (file_size e).

(** The packed little-endian layout of 32 bytes. *)
Definition le16 (v : Z) : list Z := [v mod 256; v / 256 mod 256].
Definition le32 (v : Z) : list Z := le16 v ++ le16 (v / 65536).
Definition of16 (l : list Z) (i : nat) : Z := l !!! i + 256 * l !!! S i.
Definition of32 (l : list Z) (i : nat) : Z := of16 l i + 65536 * of16 l (i + 2).

Definition encode_entry (e : DirectoryEntry) : list Z :=
  de_name e ++ [attribute e; ntres e; create_time_tenth e] ++ le16 (create_time e) ++ le16 (create_date e) ++
  le16 (last_access_date e) ++ le16 (first_cluster_high e) ++ le16 (write_time e) ++ le16 (write_date e) ++
  le16 (first_cluster_low e) ++ le32 (file_size e).

Definition decode_entry (l : list Z) : DirectoryEntry :=
  mkEntry (take 11 l) (l !!! 11%nat) (l !!! 12%nat) (l !!! 13%nat) (of16 l 14) (of16 l 16) (of16 l 18) (of16 l 20)
    (of16 l 22) (of16 l 24) (of16 l 26) (of32 l 28).

(** ** Names *)

(** The string a buffer holds. *)
Fixpoint cstr (l : list Z) : list Z :=
  match l with
  | [] => []
  | c :: l' => if c =? 0 then [] else c :: cstr l'
  end.

(** The loop that overwrites trailing padding with terminators. *)
Fixpoint rtrim (l : list Z) : list Z :=
  match l with
  | [] => []
  | c :: l' => match rtrim l' with [] => if c =? SFN_PAD then [] else [c] | l'' => c :: l'' end
  end.

Definition DOT : Z := 46.

Definition read_dir_entry_name_raw (e : DirectoryEntry) : list Z :=
  let dest := cstr (rtrim (take 8 (de_name e))) in
  let extension := cstr (rtrim (take 3 (drop 8 (de_name e)))) in
  match extension with
  | [] => dest
  | _ => if lenz dest + (1 + lenz extension) <? 13 then dest ++ [DOT] ++ extension else dest
  end.

Definition to_lower_char (c : Z) : Z := if (65 <=? c) && (c <=? 90) then c + 32 else c.
Definition read_dir_entry_name (e : DirectoryEntry) : list Z := to_lower_char <$> read_dir_entry_name_raw e.

(** [std::toupper] in the C locale, and [to_upper]. *)
Definition to_upper_char (c : Z) : Z := if (97 <=? c) && (c <=? 122) then c - 32 else c.
Definition to_upper (s : list Z) : list Z := to_upper_char <$> s.

Definition entry_name_is_equal (e : DirectoryEntry) (name : list Z) : bool :=
  bool_decide (read_dir_entry_name_raw e = name).

(** ** Directory clusters *)

(** [scan_valid_entries]: the index of the first live entry that [fn] accepts. *)
Fixpoint scan_from (i : Z) (fn : DirectoryEntry -> bool) (dir : list DirectoryEntry) : option Z :=
  match dir with
  | [] => None
  | e :: dir' =>
      if (de_name e !!! 0%nat) =? DIR_ENTRY_END then None
      else if ((de_name e !!! 0%nat) =? DIR_ENTRY_DELETED) || (attribute e =? entry_attribute.LONG_NAME)
      then scan_from (i + 1) fn dir'
      else if fn e then Some i else scan_from (i + 1) fn dir'
  end.
Definition scan_valid_entries (fn : DirectoryEntry -> bool) (dir : list DirectoryEntry) : option Z := scan_from 0 fn dir.

Definition find_dir_entry (dir : list DirectoryEntry) (name : list Z) : option Z :=
  scan_valid_entries (fun e => entry_name_is_equal e name) dir.

Fixpoint find_empty_from (i : Z) (dir : list DirectoryEntry) : option Z :=
  match dir with
  | [] => None
  | e :: dir' => if (de_name e !!! 0%nat) =? DIR_ENTRY_END then Some i else find_empty_from (i + 1) dir'
  end.
Definition find_empty_dir_entry (root : list DirectoryEntry) : option Z := find_empty_from 0 root.

(** ** The volume *)

Record BiosParameterBlock := mkBpb {
  bytes_per_sector : Z;
  sectors_per_cluster : Z;
  reserved_sector_count : Z;
  num_fats : Z;
  total_sectors_32 : Z;
  fat_size_32 : Z;
  root_cluster : Z;
}.

Definition bytes_per_cluster (b : BiosParameterBlock) : Z := bytes_per_sector b * sectors_per_cluster b.

Definition calc_start_sector (b : BiosParameterBlock) (cluster_id : Z) : Z :=
  u32 (u64 (u32 (reserved_sector_count b + num_fats b * fat_size_32 b) + u64 ((cluster_id - 2) * sectors_per_cluster b))).

Definition next_cluster (fat : list Z) (cluster_id : Z) : option Z :=
  next ← atz fat cluster_id;
  Some (if FAT32_EOC_MIN <=? next then END_OF_CLUSTER_CHAIN else next).

Definition total_fat_clusters (b : BiosParameterBlock) : Z :=
  if sectors_per_cluster b =? 0 then 0
  else
    let total_clusters := total_sectors_32 b / sectors_per_cluster b in
    if total_clusters <? FAT32_EOC_MIN then total_clusters else FAT32_EOC_MIN.

(** Writing an entry of the table; out of range is a fault. *)
Definition fat_set (fat : list Z) (i v : Z) : option (list Z) :=
  if (0 <=? i) && (i <? lenz fat) then Some (setz fat i v) else fault.

(** The loop of [extend_cluster_chain] over the clusters from [i], [n] of them
    left before [total_clusters]: the last cluster and how many were added. *)
Fixpoint extend_loop (n : nat) (i current num_allocated num_clusters : Z) (fat : list Z) : option (Z * Z * list Z) :=
  match n with
  | O => Some (current, num_allocated, fat)
  | S n =>
      if num_clusters <=? num_allocated then Some (current, num_allocated, fat)
      else
        v ← atz fat i;
        if negb (v =? 0) then extend_loop n (i + 1) current num_allocated num_clusters fat
        else
          fat ← fat_set fat current i;
          extend_loop n (i + 1) i (num_allocated + 1) num_clusters fat
  end.

(** The count is an [int]; both callers pass a [size_t]. *)
Definition extend_cluster_chain (fat : list Z) (total_clusters last_cluster num_clusters : Z) : option (Z * list Z) :=
  let num_clusters := i32 num_clusters in
  '(current, num_allocated, fat) ← extend_loop (Z.to_nat (total_clusters - 2)) 2 last_cluster 0 num_clusters fat;
  fat ← fat_set fat current END_OF_CLUSTER_CHAIN;
  Some (if num_allocated <? num_clusters then 0 else current, fat).

(** [free_cluster_chain]; the fuel bounds the length of the chain. *)
Fixpoint free_loop (fuel : nat) (current : Z) (fat : list Z) : option (list Z) :=
  if FAT32_EOC_MIN <=? current then Some fat
  else
    match fuel with
    | O => fault
    | S fuel =>
        next ← atz fat current;
        fat ← fat_set fat current 0;
        free_loop fuel next fat
    end.

Definition free_cluster_chain (fat : list Z) (start_cluster : Z) : option (list Z) :=
  if (start_cluster =? 0) || (FAT32_EOC_MIN <=? start_cluster) then Some fat
  else free_loop (length fat) start_cluster fat.

(** The search for the first free cluster, [n] clusters from [i]. *)
Fixpoint first_free (n : nat) (i : Z) (fat : list Z) : option (option Z) :=
  match n with
  | O => Some None
  | S n => v ← atz fat i; if v =? 0 then Some (Some i) else first_free n (i + 1) fat
  end.

Definition allocate_cluster_chain (fat : list Z) (total_clusters num_clusters : Z) : option (Z * list Z) :=
  f ← first_free (Z.to_nat (total_clusters - 2)) 2 fat;
  match f with
  | None => Some (0, fat)
  | Some first_cluster =>
      fat ← fat_set fat first_cluster END_OF_CLUSTER_CHAIN;
      if 1 <? num_clusters then
        '(last, fat) ← extend_cluster_chain fat total_clusters first_cluster (num_clusters - 1);
        if last =? 0 then fat ← free_cluster_chain fat first_cluster; Some (0, fat)
        else Some (first_cluster, fat)
      else Some (first_cluster, fat)
  end.

Fixpoint count_free_from (n : nat) (i : Z) (fat : list Z) : option Z :=
  match n with
  | O => Some 0
  | S n => v ← atz fat i; c ← count_free_from n (i + 1) fat; Some (if v =? 0 then c + 1 else c)
  end.
Definition count_free_clusters (fat : list Z) (total_clusters : Z) : option Z :=
  count_free_from (Z.to_nat (total_clusters - 2)) 2 fat.
