(* ===== verification/FatFiles.v ===== *)
(** * The file service

    [kernel/fs/fat/file.cpp], [open_files.cpp], [utils.cpp], [init.cpp] and
    [kernel/fs/file_info.cpp]: the ledger of open files, the cache of file
    contents, reading and writing files through the block device, and the
    handlers of the file requests.

    A handler takes the request and returns the answer, or [None] when the code
    does not answer.  The descriptor tables and the existence of tasks are those
    of [Task.v]. *)

From stdpp Require Import strings.
From S2P Require Import Prelude Message UserMem Fd Task Fat.

Open Scope Z_scope.

(** ** The block device *)

(** What the code does not determine: the outcome of device requests by sector,
    and of the allocations a request makes. *)
Record FsEnv := mkFsEnv {
  read_ok : Z -> bool;
  write_result : Z -> Z;
  ool_ok : bool;
  cluster_buf_ok : bool;
  persist_buf_ok : bool;
  chunk_ok : Z -> bool;
  sector_ok : Z -> bool;
}.

Definition Disk := Z -> Z.

Definition disk_bytes (d : Disk) (sector len : Z) : list Z := (fun i => d (sector * SECTOR_SIZE + i)) <$> seqZ 0 len.
Definition disk_put (sector : Z) (bytes : list Z) (d : Disk) : Disk := fun a =>
  let i := a - sector * SECTOR_SIZE in
  if (0 <=? i) && (i <? lenz bytes) then bytes !!! Z.to_nat i else d a.

(** [None] for an empty buffer. *)
Definition read_from_blk (env : FsEnv) (d : Disk) (sector len : Z) : option (list Z) :=
  if read_ok env sector && negb (len =? 0) then Some (disk_bytes d sector len) else None.

Definition write_to_blk (env : FsEnv) (bytes : list Z) (sector : Z) (d : Disk) : Z * Disk :=
  let r := write_result env sector in
  (r, if IS_ERR r then d else disk_put sector bytes d).

(** ** State *)

Record FileCache := mkCache {
  cache_id : Z;
  requester : Z;
  buffer : list Z;
  total_size : Z;
  read_size : Z;
  last_used : Z;
  cache_path : list Z;
}.

(** A free slot has handle 0; [of_entry] is an index of the root directory. *)
Record OpenFileRecord := mkOpen {
  of_handle : Z;
  owner : Z;
  of_entry : Z;
  offset : Z;
  refcount : Z;
  of_name : list Z;
}.

Definition no_record : OpenFileRecord := mkOpen 0 (-1) 0 0 0 [].

Definition MAX_OPEN_FILES : nat := 64.
Definition MAX_FILE_CACHES : Z := 50.
Definition FAT_WRITE_CHUNK_SIZE : Z := 65536.

Record Fs := mkFs {
  bpb : BiosParameterBlock;
  fat : list Z;
  root : list DirectoryEntry;
  caches : list FileCache;
  next_fs_id : Z;
  lru_tick : Z;
  open_files : list OpenFileRecord;
  next_handle : Z;
  disk : Disk;
}.

Definition set_fat (f : list Z) (s : Fs) : Fs :=
  mkFs (bpb s) f (root s) (caches s) (next_fs_id s) (lru_tick s) (open_files s) (next_handle s) (disk s).
Definition set_root (r : list DirectoryEntry) (s : Fs) : Fs :=
  mkFs (bpb s) (fat s) r (caches s) (next_fs_id s) (lru_tick s) (open_files s) (next_handle s) (disk s).
Definition set_caches (c : list FileCache) (i t : Z) (s : Fs) : Fs :=
  mkFs (bpb s) (fat s) (root s) c i t (open_files s) (next_handle s) (disk s).
Definition set_open (o : list OpenFileRecord) (h : Z) (s : Fs) : Fs :=
  mkFs (bpb s) (fat s) (root s) (caches s) (next_fs_id s) (lru_tick s) o h (disk s).
Definition set_disk (d : Disk) (s : Fs) : Fs :=
  mkFs (bpb s) (fat s) (root s) (caches s) (next_fs_id s) (lru_tick s) (open_files s) (next_handle s) d.

Definition BYTES_PER_CLUSTER (s : Fs) : Z := bytes_per_cluster (bpb s).
Definition FAT_TABLE_SECTOR (s : Fs) : Z := reserved_sector_count (bpb s).

(** The entry an index of the root directory points to. *)
Definition entry_at (i : Z) (s : Fs) : option DirectoryEntry := atz (root s) i.
Definition put_entry (i : Z) (e : DirectoryEntry) (s : Fs) : Fs := set_root (setz (root s) i e) s.

(** ** Start-up *)

Definition load_bpb (l : list Z) : BiosParameterBlock :=
  mkBpb (of16 l 11) (l !!! 13%nat) (of16 l 14) (l !!! 16%nat) (of32 l 32) (of32 l 36) (of32 l 44).

(** A buffer as 32-bit words, and as directory entries. *)
Definition words_of (l : list Z) (n : Z) : list Z := (fun i => of32 l (Z.to_nat (4 * i))) <$> seqZ 0 n.
Definition entries_of (l : list Z) (n : Z) : list DirectoryEntry :=
  (fun i => decode_entry (take 32 (drop (Z.to_nat (32 * i)) l))) <$> seqZ 0 n.

Definition initialize_fat32 (env : FsEnv) (d : Disk) : Z + Fs :=
  match read_from_blk env d BOOT_SECTOR SECTOR_SIZE with
  | None => inl (err ERR_FAILED_READ_FROM_DEVICE)
  | Some bpb_buf =>
      let b := load_bpb bpb_buf in
      let table_size := fat_size_32 b * SECTOR_SIZE in
      match read_from_blk env d (reserved_sector_count b) table_size with
      | None => inl (err ERR_FAILED_READ_FROM_DEVICE)
      | Some fat_buf =>
          match read_from_blk env d (calc_start_sector b (root_cluster b)) (bytes_per_cluster b) with
          | None => inl (err ERR_FAILED_READ_FROM_DEVICE)
          | Some root_buf =>
              inr (mkFs b (words_of fat_buf (table_size / 4))
                     (entries_of root_buf (bytes_per_cluster b / sizeof_DirectoryEntry))
                     [] 0 0 (replicate MAX_OPEN_FILES no_record) 1 d)
          end
      end
  end.

(** ** Writing the allocation table back *)

Definition fat_bytes (s : Fs) : list Z := concat (le32 <$> fat s).
Definition slice (l : list Z) (from n : Z) : list Z := take (Z.to_nat n) (drop (Z.to_nat from) l).

(** The fallback of a chunk: [n] sectors from [i] on, one by one. *)
Fixpoint write_fat_sectors_one_by_one (env : FsEnv) (n : nat) (base_sector i : Z) (s : Fs) : Fs :=
  match n with
  | O => s
  | S n =>
      let bps := bytes_per_sector (bpb s) in
      let s := if negb (sector_ok env i) then s
               else set_disk (snd (write_to_blk env (slice (fat_bytes s) (i * bps) bps) (u32 (base_sector + i)) (disk s))) s in
      write_fat_sectors_one_by_one env n base_sector (i + 1) s
  end.

Fixpoint write_fat_sectors_chunked (fuel : nat) (env : FsEnv) (base_sector sectors_per_fat sector_offset : Z) (s : Fs) : option Fs :=
  if sectors_per_fat <=? sector_offset then Some s
  else
    match fuel with
    | O => fault
    | S fuel =>
        let bps := bytes_per_sector (bpb s) in
        let sectors_per_chunk := FAT_WRITE_CHUNK_SIZE / bps in
        let current := Z.min (sectors_per_fat - sector_offset) sectors_per_chunk in
        let s := if chunk_ok env sector_offset then
                   set_disk (snd (write_to_blk env (slice (fat_bytes s) (sector_offset * bps) (current * bps))
                     (u32 (base_sector + sector_offset)) (disk s))) s
                 else write_fat_sectors_one_by_one env (Z.to_nat current) base_sector sector_offset s in
        write_fat_sectors_chunked fuel env base_sector sectors_per_fat (sector_offset + current) s
    end.

Definition write_fat_table_to_disk (env : FsEnv) (s : Fs) : option Fs :=
  let n := fat_size_32 (bpb s) in
  s ← write_fat_sectors_chunked (Z.to_nat n) env (FAT_TABLE_SECTOR s) n 0 s;
  if 1 <? num_fats (bpb s) then write_fat_sectors_chunked (Z.to_nat n) env (FAT_TABLE_SECTOR s + n) n 0 s
  else Some s.

(** ** The cache of file contents *)

(** The map is the list of its elements; no path occurs twice. *)
Fixpoint touch_cache (path : list Z) (tick : Z) (cs : list FileCache) : option FileCache * list FileCache :=
  match cs with
  | [] => (None, [])
  | c :: cs' =>
      if bool_decide (cache_path c = path) then
        let c := mkCache (cache_id c) (requester c) (buffer c) (total_size c) (read_size c) tick (cache_path c) in
        (Some c, c :: cs')
      else let (r, cs'') := touch_cache path tick cs' in (r, c :: cs'')
  end.

Definition find_file_cache_by_path (path : list Z) (s : Fs) : option FileCache * Fs :=
  match touch_cache path (u64 (lru_tick s + 1)) (caches s) with
  | (Some c, cs) => (Some c, set_caches cs (next_fs_id s) (u64 (lru_tick s + 1)) s)
  | (None, _) => (None, s)
  end.

(** The least recently used element, the first of equals. *)
Fixpoint oldest_from (oldest : FileCache) (cs : list FileCache) : FileCache :=
  match cs with
  | [] => oldest
  | c :: cs' => oldest_from (if last_used c <? last_used oldest then c else oldest) cs'
  end.

Definition evict (cs : list FileCache) : list FileCache :=
  match cs with
  | [] => []
  | c :: _ => filter (fun x => cache_id x <> cache_id (oldest_from c cs)) cs
  end.

Definition generate_fs_id (s : Fs) : Z :=
  let i := u64 (next_fs_id s + 1) in if i =? 0 then u64 (i + 1) else i.

Definition create_file_cache (path : list Z) (total : Z) (req : Z) (s : Fs) : FileCache * Fs :=
  let cs := if MAX_FILE_CACHES <=? lenz (caches s) then evict (caches s) else caches s in
  let id := generate_fs_id s in
  let tick := u64 (lru_tick s + 1) in
  let c := mkCache id req (replicate (Z.to_nat total) 0) total 0 tick (take 12 path) in
  (c, set_caches (cs ++ [c]) id tick s).

Fixpoint remove_path (path : list Z) (cs : list FileCache) : list FileCache :=
  match cs with
  | [] => []
  | c :: cs' => if bool_decide (cache_path c = path) then cs' else c :: remove_path path cs'
  end.
Definition remove_file_cache_by_path (path : list Z) (s : Fs) : Fs :=
  set_caches (remove_path path (caches s)) (next_fs_id s) (lru_tick s) s.

(** Storing a filled cache back under its id. *)
Definition put_cache (c : FileCache) (s : Fs) : Fs :=
  set_caches ((fun x => if cache_id x =? cache_id c then c else x) <$> caches s) (next_fs_id s) (lru_tick s) s.

(** ** The ledger of open files *)

Definition task_exists (sys : Sys) (i : Z) : bool :=
  match get_task i sys with Some (Some _) => true | _ => false end.

Definition sweep_dead_owners (sys : Sys) (fs : list OpenFileRecord) : list OpenFileRecord :=
  (fun r => if negb (of_handle r =? 0) && negb (task_exists sys (owner r)) then no_record else r) <$> fs.

Fixpoint free_record (i : Z) (fs : list OpenFileRecord) : option Z :=
  match fs with
  | [] => None
  | r :: fs' => if of_handle r =? 0 then Some i else free_record (i + 1) fs'
  end.

(** The handle counter after one was taken, never 0. *)
Definition bump_handle (h : Z) : Z := let h' := u32 (h + 1) in if h' =? 0 then 1 else h'.

(** Taking a free record of [fs], if there is one. *)
Definition take_record (entry : Z) (name : list Z) (own h : Z) (fs : list OpenFileRecord) : option (list OpenFileRecord) :=
  i ← free_record 0 fs;
  Some (setz fs i (mkOpen h own entry 0 1 (take 12 name))).

(** The new handle, or 0. *)
Definition open_file_create (sys : Sys) (entry : Z) (name : list Z) (own : Z) (s : Fs) : Z * Fs :=
  let h := next_handle s in
  match take_record entry name own h (open_files s) with
  | Some fs => (h, set_open fs (bump_handle h) s)
  | None =>
      let swept := sweep_dead_owners sys (open_files s) in
      match take_record entry name own h swept with
      | Some fs => (h, set_open fs (bump_handle h) s)
      | None => (0, set_open (sweep_dead_owners sys swept) h s)
      end
  end.

Fixpoint record_from (i handle : Z) (fs : list OpenFileRecord) : option Z :=
  match fs with
  | [] => None
  | r :: fs' => if of_handle r =? handle then Some i else record_from (i + 1) handle fs'
  end.

(** The slot of the record. *)
Definition open_file_get (handle : Z) (s : Fs) : option Z :=
  if handle =? 0 then None else record_from 0 handle (open_files s).

Definition set_record (i : Z) (r : OpenFileRecord) (s : Fs) : Fs := set_open (setz (open_files s) i r) (next_handle s) s.

Definition set_refcount (n : Z) (r : OpenFileRecord) : OpenFileRecord :=
  mkOpen (of_handle r) (owner r) (of_entry r) (offset r) n (of_name r).
Definition set_offset (o : Z) (r : OpenFileRecord) : OpenFileRecord :=
  mkOpen (of_handle r) (owner r) (of_entry r) o (refcount r) (of_name r).

Definition open_file_addref (handle : Z) (s : Fs) : option Fs :=
  match open_file_get handle s with
  | None => Some s
  | Some i => r ← atz (open_files s) i; Some (set_record i (set_refcount (refcount r + 1) r) s)
  end.

Definition open_file_release (handle : Z) (s : Fs) : option Fs :=
  match open_file_get handle s with
  | None => Some s
  | Some i =>
      r ← atz (open_files s) i;
      let r := set_refcount (refcount r - 1) r in
      Some (set_record i (if refcount r <=? 0 then no_record else r) s)
  end.

(** ** Reading *)

Definition entry_cache_key (e : DirectoryEntry) : list Z := cstr (take 11 (de_name e)).

Definition copy_at (buf : list Z) (off : Z) (data : list Z) : list Z :=
  take (Z.to_nat off) buf ++ data ++ drop (Z.to_nat off + length data) buf.

(** The loop of [load_file]: the filled buffer, or [Some None] when a device
    read fails.  Each round copies at least one byte of [size]. *)
Fixpoint load_loop (fuel : nat) (env : FsEnv) (s : Fs) (cluster off size : Z) (buf : list Z) : option (option (list Z)) :=
  if (cluster =? END_OF_CLUSTER_CHAIN) || (size <=? off) then Some (Some buf)
  else
    match fuel with
    | O => fault
    | S fuel =>
        match read_from_blk env (disk s) (calc_start_sector (bpb s) cluster) (BYTES_PER_CLUSTER s) with
        | None => Some None
        | Some data =>
            let copy_len := Z.min (BYTES_PER_CLUSTER s) (size - off) in
            let buf := copy_at buf off (take (Z.to_nat copy_len) data) in
            next ← next_cluster (fat s) cluster;
            load_loop fuel env s next (off + copy_len) size buf
        end
    end.

Definition load_file (env : FsEnv) (e : DirectoryEntry) (req : Z) (s : Fs) : option (option FileCache * Fs) :=
  let key := entry_cache_key e in
  match find_file_cache_by_path key s with
  | (Some c, s) => Some (Some c, s)
  | (None, s) =>
      let (c, s) := create_file_cache key (file_size e) req s in
      r ← load_loop (Z.to_nat (file_size e)) env s (first_cluster e) 0 (file_size e) (buffer c);
      match r with
      | None => Some (None, remove_file_cache_by_path key s)
      | Some buf =>
          let c := mkCache (cache_id c) (requester c) buf (total_size c) (file_size e) (last_used c) (cache_path c) in
          Some (Some c, put_cache c s)
      end
  end.

(** ** Answers *)

Record Response := mkResp {
  rs_result : Z;
  rs_len : Z;
  rs_fd : Z;
  rs_name : list Z;
  rs_data : list Z;
}.

Definition reply_error (r : Z) : Response := mkResp r 0 0 [] [].

Definition reply_file_data (env : FsEnv) (data : list Z) : Response :=
  if lenz data =? 0 then mkResp (err OK) 0 0 [] []
  else if negb (ool_ok env) then mkResp (err ERR_NO_MEMORY) 0 0 [] []
  else mkResp (err OK) (lenz data) 0 [] data.

(** [n] bytes of a buffer from [from] on; outside the buffer is a fault. *)
Definition read_slice (l : list Z) (from n : Z) : option (list Z) :=
  if (0 <=? from) && (from + n <=? lenz l) then Some (slice l from n) else fault.

Definition reply_read_result (env : FsEnv) (req : Z) (e : DirectoryEntry) (s : Fs) : option (Response * Fs) :=
  if (file_size e =? 0) || (first_cluster e =? 0) then Some (reply_file_data env [], s)
  else
    '(c, s) ← load_file env e req s;
    match c with
    | None => Some (reply_error (err ERR_FAILED_READ_FROM_DEVICE), s)
    | Some c => data ← read_slice (buffer c) 0 (total_size c); Some (reply_file_data env data, s)
    end.

(** [i] is the slot of the record, [count] the length asked for. *)
Definition reply_read_window (env : FsEnv) (req count i : Z) (s : Fs) : option (Response * Fs) :=
  r ← atz (open_files s) i;
  e ← entry_at (of_entry r) s;
  if (file_size e =? 0) || (first_cluster e =? 0) || (file_size e <=? offset r) then Some (reply_file_data env [], s)
  else
    '(c, s) ← load_file env e req s;
    match c with
    | None => Some (reply_error (err ERR_FAILED_READ_FROM_DEVICE), s)
    | Some c =>
        let n := Z.min count (file_size e - offset r) in
        data ← read_slice (buffer c) (offset r) n;
        Some (reply_file_data env data, set_record i (set_offset (offset r + n) r) s)
    end.

(** ** Writing *)

(** The walk to the last cluster of a chain. *)
Fixpoint last_cluster_from (fuel : nat) (f : list Z) (c : Z) : option Z :=
  match fuel with
  | O => fault
  | S fuel => next ← next_cluster f c; if next =? END_OF_CLUSTER_CHAIN then Some c else last_cluster_from fuel f next
  end.

Definition clusters_for (s : Fs) (n : Z) : Z := (n + BYTES_PER_CLUSTER s - 1) / BYTES_PER_CLUSTER s.

Definition free_clusters (s : Fs) : option Z := count_free_clusters (fat s) (total_fat_clusters (bpb s)).

Definition grow_file_if_needed (env : FsEnv) (entry new_size : Z) (s : Fs) : option (Z * Fs) :=
  e ← entry_at entry s;
  r ← (if first_cluster e =? 0 then
         '(c, f) ← allocate_cluster_chain (fat s) (total_fat_clusters (bpb s)) 1;
         if c =? 0 then Some (None : option Fs)
         else s ← write_fat_table_to_disk env (put_entry entry (set_first_cluster c e) (set_fat f s)); Some (Some s)
       else Some (Some s));
  match r with
  | None => Some (err ERR_NO_MEMORY, s)
  | Some s =>
      e ← entry_at entry s;
      let current_clusters := clusters_for s (file_size e) in
      let needed_clusters := clusters_for s new_size in
      if needed_clusters <=? current_clusters then Some (err OK, s)
      else
        let clusters_to_add := needed_clusters - current_clusters in
        free ← free_clusters s;
        if free <? clusters_to_add then Some (err ERR_NO_MEMORY, s)
        else
          last ← last_cluster_from (length (fat s)) (fat s) (first_cluster e);
          '(c, f) ← extend_cluster_chain (fat s) (total_fat_clusters (bpb s)) last clusters_to_add;
          if c =? 0 then Some (err ERR_NO_MEMORY, set_fat f s)
          else s ← write_fat_table_to_disk env (set_fat f s); Some (err OK, s)
  end.

(** [n] steps along a chain, stopping at its end. *)
Fixpoint walk_chain (n : nat) (f : list Z) (c : Z) : option Z :=
  match n with
  | O => Some c
  | S n => if c =? END_OF_CLUSTER_CHAIN then Some c else next ← next_cluster f c; walk_chain n f next
  end.

(** The error, the bytes written, and the state. *)
Definition write_file_cluster (env : FsEnv) (entry off : Z) (data : list Z) (count : Z) (s : Fs) : option (Z * Z * Fs) :=
  e ← entry_at entry s;
  let bpc := BYTES_PER_CLUSTER s in
  let offset_in_cluster := off mod bpc in
  let write_len := Z.min count (bpc - offset_in_cluster) in
  target ← walk_chain (Z.to_nat (off / bpc)) (fat s) (first_cluster e);
  if target =? END_OF_CLUSTER_CHAIN then Some (err ERR_INVALID_ARG, write_len, s)
  else if negb (cluster_buf_ok env) then Some (err ERR_NO_MEMORY, write_len, s)
  else
    let partial := negb (offset_in_cluster =? 0) || (write_len <? bpc) in
    if partial && negb ((file_size e =? 0) || (off =? 0)) then Some (err ERR_INVALID_ARG, write_len, s)
    else
      let content := copy_at (replicate (Z.to_nat bpc) 0) offset_in_cluster (take (Z.to_nat write_len) data) in
      let s := remove_file_cache_by_path (entry_cache_key e) s in
      let (r, d) := write_to_blk env content (calc_start_sector (bpb s) target) (disk s) in
      Some (r, write_len, set_disk d s).

Definition truncate_file (env : FsEnv) (entry new_size : Z) (s : Fs) : option Fs :=
  e ← entry_at entry s;
  let current_clusters := clusters_for s (file_size e) in
  let new_clusters := clusters_for s new_size in
  if current_clusters <=? new_clusters then Some s
  else
    s ← (if new_clusters =? 0 then
           f ← free_cluster_chain (fat s) (first_cluster e);
           Some (put_entry entry (set_first_cluster 0 e) (set_fat f s))
         else
           current ← walk_chain (Z.to_nat (new_clusters - 1)) (fat s) (first_cluster e);
           if current =? END_OF_CLUSTER_CHAIN then Some s
           else
             next ← next_cluster (fat s) current;
             if next =? END_OF_CLUSTER_CHAIN then Some s
             else
               f ← free_cluster_chain (fat s) next;
               f ← fat_set f current END_OF_CLUSTER_CHAIN;
               Some (set_fat f s));
    write_fat_table_to_disk env s.

Definition persist_directory_entry (env : FsEnv) (entry : Z) (name : list Z) (s : Fs) : option Fs :=
  e ← entry_at entry s;
  match find_dir_entry (root s) name with
  | None => Some s
  | Some i =>
      let s := put_entry i e s in
      if negb (persist_buf_ok env) then Some s
      else Some (set_disk (snd (write_to_blk env (concat (encode_entry <$> root s))
             (calc_start_sector (bpb s) (root_cluster (bpb s))) (disk s))) s)
  end.

(** ** The handlers *)

(** The label of a descriptor is a string. *)
Definition str (l : list Z) : string := String.string_of_list_ascii ((fun c => Ascii.ascii_of_nat (Z.to_nat c)) <$> l).

Definition handle_fs_stat (name : list Z) (s : Fs) : option Response :=
  match find_dir_entry (root s) (to_upper name) with
  | None => Some (mkResp (err ERR_NO_FILE) 0 0 [] [])
  | Some i => e ← entry_at i s; Some (mkResp (err OK) (file_size e) 0 [] [])
  end.

Definition handle_fs_load (env : FsEnv) (sender : Z) (name : list Z) (s : Fs) : option (Response * Fs) :=
  match find_dir_entry (root s) (to_upper name) with
  | None => Some (reply_error (err ERR_NO_FILE), s)
  | Some i => e ← entry_at i s; reply_read_result env sender e s
  end.

(** Giving the requester a descriptor for a new ledger record: the tail that
    [handle_fs_open] and [handle_fs_mkfile] share. *)
Definition install_fd (sys : Sys) (sender entry : Z) (name : list Z) (s : Fs) : option (Response * Fs * Sys) :=
  t ← the_task sender sys;
  match open_file_create sys entry name sender s with
  | (handle, s) =>
      if handle =? 0 then Some (mkResp (err ERR_NO_MEMORY) 0 (-1) [] [], s, sys)
      else
        let (fd, table) := allocate_process_fd (str name) handle (fd_table t) in
        s ← (if fd <? 0 then open_file_release handle s else Some s);
        Some (mkResp (if fd <? 0 then err ERR_INVALID_FD else err OK) 0 fd [] [], s, put_task sender (set_fd_table table t) sys)
  end.

Definition handle_fs_open (sys : Sys) (sender : Z) (name : list Z) (s : Fs) : option (Response * Fs * Sys) :=
  let name := to_upper name in
  match find_dir_entry (root s) name with
  | None => Some (mkResp (err ERR_NO_FILE) 0 (-1) [] [], s, sys)
  | Some entry =>
      if negb (task_exists sys sender) then Some (mkResp (err ERR_INVALID_TASK) 0 (-1) [] [], s, sys)
      else install_fd sys sender entry name s
  end.

Definition handle_fs_read (env : FsEnv) (sender handle len : Z) (s : Fs) : option (Response * Fs) :=
  match open_file_get (u32 handle) s with
  | None => Some (reply_error (err ERR_INVALID_FD), s)
  | Some i => reply_read_window env sender len i s
  end.

(** Not answered. *)
Definition handle_fs_close (sys : Sys) (sender fd : Z) (s : Fs) : option (Fs * Sys) :=
  if negb (task_exists sys sender) then Some (s, sys)
  else
    t ← the_task sender sys;
    s ← (match get_process_fd fd (fd_table t) with Some f => open_file_release (handle f) s | None => Some s end);
    let (_, table) := release_process_fd fd (fd_table t) in
    Some (s, put_task sender (set_fd_table table t) sys).

(** [payload] is the out-of-line buffer of the request, [] when there is none. *)
Definition handle_fs_write (env : FsEnv) (handle len : Z) (payload : list Z) (s : Fs) : option (Response * Fs) :=
  if lenz payload =? 0 then Some (reply_error (err ERR_INVALID_ARG), s)
  else
    let count := Z.min len (lenz payload) in
    match open_file_get (u32 handle) s with
    | None => Some (reply_error (err ERR_INVALID_FD), s)
    | Some i =>
        r ← atz (open_files s) i;
        let new_size := offset r + count in
        '(grow_err, s) ← grow_file_if_needed env (of_entry r) new_size s;
        if IS_ERR grow_err then Some (reply_error grow_err, s)
        else
          '(write_err, write_len, s) ← write_file_cluster env (of_entry r) (offset r) payload count s;
          if IS_ERR write_err then Some (reply_error write_err, s)
          else
            let s := set_record i (set_offset (offset r + write_len) r) s in
            e ← entry_at (of_entry r) s;
            s ← (if new_size =? file_size e then Some s
                 else
                   s ← (if new_size <? file_size e then truncate_file env (of_entry r) new_size s else Some s);
                   e ← entry_at (of_entry r) s;
                   persist_directory_entry env (of_entry r) (of_name r) (put_entry (of_entry r) (set_file_size (u32 new_size) e) s));
            Some (mkResp (err OK) write_len 0 [] [], s)
    end.

(** The name field after [memcpy] of the first bytes of a name. *)
Definition overwrite_name (name old : list Z) : list Z := take 11 name ++ drop (length (take 11 name)) old.

Definition handle_fs_mkfile (sys : Sys) (sender : Z) (name : list Z) (s : Fs) : option (option Response * Fs * Sys) :=
  let name := to_upper name in
  if negb (task_exists sys sender) then Some (None, s, sys)
  else
    match find_dir_entry (root s) name with
    | Some _ => Some (Some (mkResp (err ERR_INVALID_ARG) 0 NO_FD [] []), s, sys)
    | None =>
        match find_empty_dir_entry (root s) with
        | None => Some (Some (mkResp (err ERR_NO_MEMORY) 0 NO_FD [] []), s, sys)
        | Some i =>
            e ← entry_at i s;
            let s := put_entry i (set_file_size 0 (set_name_attribute (overwrite_name name (de_name e)) entry_attribute.ARCHIVE e)) s in
            '(r, s, sys) ← install_fd sys sender i name s;
            Some (Some r, s, sys)
        end
    end.

Definition handle_fs_dup2 (sys : Sys) (sender oldfd newfd : Z) (s : Fs) : option (Response * Fs * Sys) :=
  if negb (task_exists sys sender) then Some (reply_error (err ERR_INVALID_TASK), s, sys)
  else if negb (newfd =? STDOUT_FILENO) && negb (newfd =? STDERR_FILENO) then Some (reply_error (err ERR_INVALID_FD), s, sys)
  else
    t ← the_task sender sys;
    match get_process_fd oldfd (fd_table t) with
    | None => Some (reply_error (err ERR_INVALID_FD), s, sys)
    | Some old_entry =>
        new ← atz (fd_table t) newfd;
        let replaced_handle := if is_used new then handle new else 0 in
        let (e, table) := dup_process_fd oldfd newfd (fd_table t) in
        if IS_ERR e then Some (reply_error e, s, sys)
        else
          old ← atz table oldfd;
          s ← open_file_addref (handle old) s;
          s ← open_file_release replaced_handle s;
          Some (mkResp (err OK) 0 newfd [] [], s, put_task sender (set_fd_table table t) sys)
    end.

(** Reading back what was written. *)
Lemma disk_bytes_put sector bytes d : disk_bytes (disk_put sector bytes d) sector (lenz bytes) = bytes.
Proof.
  unfold disk_bytes, lenz. apply list_eq. intros i. rewrite list_lookup_fmap. destruct (decide (i < length bytes)%nat) as [Hi|Hi].
  - rewrite lookup_seqZ_lt by lia. cbn [fmap option_fmap option_map]. unfold disk_put, lenz.
    replace (sector * SECTOR_SIZE + (0 + Z.of_nat i) - sector * SECTOR_SIZE) with (Z.of_nat i) by lia.
    destruct (Z.leb_spec 0 (Z.of_nat i)), (Z.ltb_spec (Z.of_nat i) (Z.of_nat (length bytes))); try lia. cbn [andb].
    rewrite Nat2Z.id. symmetry. by apply list_lookup_lookup_total_lt.
  - rewrite lookup_seqZ_ge by lia. by rewrite lookup_ge_None_2 by lia.
Qed.
