(* ===== verification/FatDir.v ===== *)
(** * Working directories

    [kernel/fs/fat/directory.cpp]: the table of working directories that the
    file service keeps for its clients, and the handlers that change, list and
    name them.

    The directory of a client is the shared root cluster or a cluster buffer of
    its own. *)

From stdpp Require Import strings.
From S2P Require Import Prelude Message UserMem Fd Task Fat FatFiles.

Open Scope Z_scope.

(** ** State *)

Inductive CwdDir := NoDir | RootDir | OwnDir (entries : list DirectoryEntry).

Record ClientCwd := mkCwd {
  in_use : bool;
  cwd_owner : Z;
  dir : CwdDir;
  dir_name : list Z;
  full_path : list Z;
}.

Definition MAX_CWD_CLIENTS : nat := 16.
Definition SLASH : Z := 47.

(** The table is zero-initialised. *)
Definition cwd_table0 : list ClientCwd := replicate MAX_CWD_CLIENTS (mkCwd false 0 NoDir [] []).

Definition dir_entries (s : Fs) (d : CwdDir) : option (list DirectoryEntry) :=
  match d with NoDir => None | RootDir => Some (root s) | OwnDir es => Some es end.

(** ** The record of a client *)

Definition sweep_dead_cwd_owners (sys : Sys) (tbl : list ClientCwd) : list ClientCwd :=
  (fun c => if in_use c && negb (task_exists sys (cwd_owner c)) then mkCwd false (cwd_owner c) NoDir (dir_name c) (full_path c)
            else c) <$> tbl.

(** Position of the last slash. *)
Fixpoint rfind_slash (l : list Z) : option nat :=
  match l with
  | [] => None
  | c :: l' => match rfind_slash l' with Some i => Some (S i) | None => if c =? SLASH then Some O else None end
  end.

Definition set_cwd_to_parent (parent_path : list Z) (c : ClientCwd) : ClientCwd :=
  let fp := take 255 parent_path in
  if bool_decide (parent_path = [SLASH]) then mkCwd (in_use c) (cwd_owner c) (dir c) [SLASH] fp
  else
    match rfind_slash parent_path with
    | Some i => mkCwd (in_use c) (cwd_owner c) (dir c) (take 12 (drop (S i) parent_path)) fp
    | None => mkCwd (in_use c) (cwd_owner c) (dir c) (dir_name c) fp
    end.

Definition set_cwd_to_child (name : list Z) (c : ClientCwd) : ClientCwd :=
  let fp := if bool_decide (full_path c = [SLASH]) then take 255 (SLASH :: name) else take 255 (full_path c ++ SLASH :: name) in
  mkCwd (in_use c) (cwd_owner c) (dir c) (take 12 name) fp.

Definition set_cwd_to_root (c : ClientCwd) : ClientCwd := mkCwd (in_use c) (cwd_owner c) RootDir [SLASH] [SLASH].

Definition set_cwd_dir (d : list DirectoryEntry) (c : ClientCwd) : ClientCwd :=
  mkCwd (in_use c) (cwd_owner c) (OwnDir d) (dir_name c) (full_path c).

(** The slot of the client's record. *)
Fixpoint lookup_from (i owner : Z) (tbl : list ClientCwd) : option Z :=
  match tbl with
  | [] => None
  | c :: tbl' => if in_use c && (cwd_owner c =? owner) then Some i else lookup_from (i + 1) owner tbl'
  end.
Definition cwd_lookup (owner : Z) (tbl : list ClientCwd) : option Z := lookup_from 0 owner tbl.

Fixpoint free_cwd_slot (i : Z) (tbl : list ClientCwd) : option Z :=
  match tbl with
  | [] => None
  | c :: tbl' => if in_use c then free_cwd_slot (i + 1) tbl' else Some i
  end.

Definition take_cwd (owner : Z) (tbl : list ClientCwd) : option (list ClientCwd) :=
  i ← free_cwd_slot 0 tbl;
  c ← atz tbl i;
  Some (setz tbl i (set_cwd_to_root (mkCwd true owner NoDir (dir_name c) (full_path c)))).

Definition cwd_register (sys : Sys) (owner : Z) (tbl : list ClientCwd) : option (Z * list ClientCwd) :=
  match cwd_lookup owner tbl with
  | Some i => c ← atz tbl i; Some (err OK, setz tbl i (set_cwd_to_root c))
  | None =>
      match take_cwd owner tbl with
      | Some tbl => Some (err OK, tbl)
      | None =>
          let tbl := sweep_dead_cwd_owners sys tbl in
          match take_cwd owner tbl with
          | Some tbl => Some (err OK, tbl)
          | None => Some (err ERR_NO_MEMORY, sweep_dead_cwd_owners sys tbl)
          end
      end
  end.

(** ** The handlers *)

(** A forked child acts on its parent's directory while the parent lives. *)
Definition effective_cwd_owner (sys : Sys) (sender : Z) : option Z :=
  if negb (task_exists sys sender) then Some sender
  else
    t ← the_task sender sys;
    if parent_id t =? process_ids.INVALID then Some sender
    else Some (if task_exists sys (parent_id t) then parent_id t else sender).

Definition handle_fs_register_path (sys : Sys) (sender : Z) (tbl : list ClientCwd) : option (option Z * list ClientCwd) :=
  if negb (task_exists sys sender) then Some (None, tbl)
  else
    t ← the_task sender sys;
    if parent_id t =? process_ids.INVALID then '(r, tbl) ← cwd_register sys sender tbl; Some (Some r, tbl)
    else Some (Some (err OK), tbl).

Definition reply_change_dir (name : list Z) : Response := mkResp (err OK) 0 0 (take 63 name) [].
Definition send_error_response (msg : list Z) : Response := mkResp (err ERR_NO_FILE) 0 0 (take 63 msg) [].

(** A directory cluster from the device. *)
Definition load_dir (env : FsEnv) (s : Fs) (cluster : Z) : option (list DirectoryEntry) :=
  b ← read_from_blk env (disk s) (calc_start_sector (bpb s) cluster) (BYTES_PER_CLUSTER s);
  Some (entries_of b (BYTES_PER_CLUSTER s / sizeof_DirectoryEntry)).

Definition DOTDOT : list Z := [DOT; DOT].

Definition parent_path_of (path : list Z) : list Z :=
  match rfind_slash path with Some O => [SLASH] | Some i => take i path | None => path end.

Definition handle_parent_directory_change (env : FsEnv) (s : Fs) (c : ClientCwd) : option (Response * ClientCwd) :=
  match dir c with
  | RootDir => Some (reply_change_dir [SLASH], set_cwd_to_root c)
  | NoDir => fault
  | OwnDir es =>
      match find_dir_entry es DOTDOT with
      | None => Some (send_error_response [], c)
      | Some i =>
          e ← atz es i;
          if first_cluster e =? 0 then Some (reply_change_dir [SLASH], set_cwd_to_root c)
          else
            let parent_path := parent_path_of (full_path c) in
            match load_dir env s (first_cluster e) with
            | None => Some (send_error_response [], c)
            | Some d => Some (reply_change_dir parent_path, set_cwd_to_parent parent_path (set_cwd_dir d c))
            end
      end
  end.

Definition handle_normal_directory_change (env : FsEnv) (s : Fs) (path_name : list Z) (c : ClientCwd) : option (Response * ClientCwd) :=
  let upper_name := to_upper (take 255 path_name) in
  es ← dir_entries s (dir c);
  match find_dir_entry es upper_name with
  | None => Some (send_error_response [], c)
  | Some i =>
      e ← atz es i;
      if negb (attribute e =? entry_attribute.DIRECTORY) then Some (send_error_response [], c)
      else
        match load_dir env s (first_cluster e) with
        | None => Some (send_error_response [], c)
        | Some d => Some (reply_change_dir upper_name, set_cwd_to_child upper_name (set_cwd_dir d c))
        end
  end.

Definition NO_CWD_MESSAGE : list Z :=
  (fun c => Z.of_nat (Ascii.nat_of_ascii c)) <$> String.list_ascii_of_string "no working directory registered".

Definition handle_fs_change_dir (env : FsEnv) (sys : Sys) (sender : Z) (path_name : list Z) (s : Fs) (tbl : list ClientCwd)
  : option (Response * list ClientCwd) :=
  own ← effective_cwd_owner sys sender;
  match cwd_lookup own tbl with
  | None => Some (send_error_response NO_CWD_MESSAGE, tbl)
  | Some i =>
      c ← atz tbl i;
      '(r, c) ← (if bool_decide (path_name = [SLASH]) then Some (reply_change_dir [SLASH], set_cwd_to_root c)
                 else if bool_decide (path_name = DOTDOT) then handle_parent_directory_change env s c
                 else handle_normal_directory_change env s path_name c);
      Some (r, setz tbl i c)
  end.

(** One element of a listing. *)
Record Stat := mkStat {
  st_name : list Z;
  st_size : Z;
  st_is_dir : bool;
}.

(** The live entries of a cluster, in order. *)
Fixpoint live_entries (es : list DirectoryEntry) : list DirectoryEntry :=
  match es with
  | [] => []
  | e :: es' =>
      if (de_name e !!! 0%nat) =? DIR_ENTRY_END then []
      else if ((de_name e !!! 0%nat) =? DIR_ENTRY_DELETED) || (attribute e =? entry_attribute.LONG_NAME)
      then live_entries es' else e :: live_entries es'
  end.

Definition stat_of (e : DirectoryEntry) : Stat :=
  mkStat (read_dir_entry_name e) (file_size e) (attribute e =? entry_attribute.DIRECTORY).

(** The error, or the listing. *)
Definition handle_fs_list_dir (env : FsEnv) (sys : Sys) (sender : Z) (s : Fs) (tbl : list ClientCwd) : option (Z + list Stat) :=
  own ← effective_cwd_owner sys sender;
  match cwd_lookup own tbl with
  | None => Some (inl (err ERR_NO_FILE))
  | Some i =>
      c ← atz tbl i;
      match dir_entries s (dir c) with
      | None => Some (inl (err ERR_NO_FILE))
      | Some es => if negb (ool_ok env) then Some (inl (err ERR_NO_MEMORY)) else Some (inr (stat_of <$> live_entries es))
      end
  end.

Definition handle_fs_pwd (sys : Sys) (sender : Z) (s : Fs) (tbl : list ClientCwd) : option Response :=
  own ← effective_cwd_owner sys sender;
  match cwd_lookup own tbl with
  | None => Some (reply_error (err ERR_NO_FILE))
  | Some i =>
      c ← atz tbl i;
      match dir c with
      | NoDir => Some (reply_error (err ERR_NO_FILE))
      | _ => Some (mkResp (err OK) 0 0 (take 63 (dir_name c)) [])
      end
  end.
