(* ===== verification/FatProofs.v ===== *)
(** * Correctness of the allocation table

    Cluster chains: allocation takes the first free clusters, links them and
    nothing else, or gives everything back; freeing a chain releases exactly its
    clusters. *)

From S2P Require Import Prelude Message UserMem Fat.

Open Scope Z_scope.

(** ** Chains *)

(** [cs] are linked in this order and the last one ends the chain. *)
Fixpoint linked (fat : list Z) (cs : list Z) : Prop :=
  match cs with
  | [] => True
  | a :: cs' =>
      match cs' with
      | [] => exists v, atz fat a = Some v /\ FAT32_EOC_MIN <= v
      | b :: _ => atz fat a = Some b /\ linked fat cs'
      end
  end.

(** The free clusters among [n] from [i] on. *)
Definition is_free (fat : list Z) (j : Z) : Prop := atz fat j = Some 0.
#[export] Instance is_free_dec fat j : Decision (is_free fat j).
Proof. unfold is_free. apply _. Defined.

Definition frees (fat : list Z) (i : Z) (n : nat) : list Z := filter (is_free fat) (seqZ i (Z.of_nat n)).

(** Writing the links [c -> ws1 -> ws2 -> ...], the last one left as it is. *)
Fixpoint link (fat : list Z) (c : Z) (ws : list Z) : list Z :=
  match ws with
  | [] => fat
  | w :: ws' => link (setz fat c w) w ws'
  end.

Definition last_of (c : Z) (ws : list Z) : Z := default c (last ws).

Lemma last_cluster_cons c w ws : last_of c (w :: ws) = last_of w ws.
Proof. unfold last_of. rewrite last_cons. by destruct (last ws). Qed.

Lemma frees_S fat i n : frees fat i (S n) = if decide (is_free fat i) then i :: frees fat (i + 1) n else frees fat (i + 1) n.
Proof.
  unfold frees. rewrite seqZ_cons by lia. rewrite filter_cons.
  replace (Z.succ i) with (i + 1) by lia. replace (Z.pred (Z.of_nat (S n))) with (Z.of_nat n) by lia. done.
Qed.

Lemma frees_ext fat fat' i n : (forall j, i <= j < i + Z.of_nat n -> is_free fat j <-> is_free fat' j) -> frees fat i n = frees fat' i n.
Proof.
  revert i. induction n as [|n IH]; intros i H; [done|]. rewrite !frees_S.
  rewrite (IH (i + 1)) by (intros j Hj; apply H; lia).
  destruct (decide (is_free fat i)), (decide (is_free fat' i)); try done; exfalso; specialize (H i ltac:(lia)); tauto.
Qed.

Lemma elem_frees fat i n j : j ∈ frees fat i n <-> is_free fat j /\ i <= j < i + Z.of_nat n.
Proof. unfold frees. rewrite list_elem_of_filter, elem_of_seqZ. done. Qed.

Lemma frees_nodup fat i n : NoDup (frees fat i n).
Proof. apply NoDup_filter, NoDup_seqZ. Qed.

Lemma fat_set_ok fat i v : 0 <= i < lenz fat -> fat_set fat i v = Some (setz fat i v).
Proof. intros H. unfold fat_set. destruct (Z.leb_spec 0 i), (Z.ltb_spec i (lenz fat)); try lia. done. Qed.

(** The loop adds the first free clusters, as many as are wanted. *)
Lemma extend_loop_spec n i c a k fat :
  2 <= i -> i + Z.of_nat n <= lenz fat -> 0 <= c < lenz fat -> ~ is_free fat c \/ c < i -> 0 <= a ->
  let ws := take (Z.to_nat (k - a)) (frees fat i n) in
  extend_loop n i c a k fat = Some (last_of c ws, a + lenz ws, link fat c ws).
Proof.
  revert i c a fat. induction n as [|n IH]; intros i c a fat Hi Hlen Hc Hfree Ha.
  - cbn [extend_loop]. change (frees fat i 0) with (@nil Z). rewrite take_nil. unfold last_of, lenz. simpl. do 3 f_equal. lia.
  - cbn [extend_loop]. destruct (Z.leb_spec k a) as [Hk|Hk].
    { replace (Z.to_nat (k - a)) with O by lia. unfold last_of, lenz. simpl. do 3 f_equal. lia. }
    destruct (atz_lt fat i) as [v Hv]; [lia|]. rewrite Hv. cbn [mbind option_bind]. rewrite frees_S.
    destruct (Z.eqb_spec v 0) as [->|Hn]; cbn [negb].
    + rewrite decide_True by done. replace (Z.to_nat (k - a)) with (S (Z.to_nat (k - (a + 1)))) by lia. cbn [take].
      rewrite fat_set_ok by done. cbn [mbind option_bind].
      assert (frees fat (i + 1) n = frees (setz fat c i) (i + 1) n) as Hfr.
      { apply frees_ext. intros j Hj. unfold is_free. destruct (Z.eq_dec j c) as [->|Hne].
        - rewrite atz_setz_eq by done. split; [|intros [= ->]; lia]. intros H. destruct Hfree as [Hf|]; [done|lia].
        - by rewrite atz_setz_ne by lia. }
      rewrite Hfr. rewrite IH; rewrite ?lenz_setz; try lia.
      set (ws := take _ _). cbn [link]. rewrite lenz_cons, last_cluster_cons.
      replace (a + 1 + lenz ws) with (a + (lenz ws + 1)) by lia. done.
    + rewrite decide_False by (unfold is_free; congruence). rewrite IH; try lia; [done|]. destruct Hfree; [by left|right; lia].
Qed.

(** ** What linking does *)

Lemma lenz_link fat c ws : lenz (link fat c ws) = lenz fat.
Proof. revert fat c. induction ws as [|w ws IH]; intros fat c; [done|]. simpl. rewrite IH. apply lenz_setz. Qed.

Lemma link_other fat c ws j : 0 <= c -> Forall (fun w => 0 <= w) ws -> j <> c -> j ∉ ws -> atz (link fat c ws) j = atz fat j.
Proof.
  revert fat c. induction ws as [|w ws IH]; intros fat c Hc Hw Hj Hn; [done|]. cbn [link].
  apply Forall_cons in Hw as [Hw0 Hw]. apply not_elem_of_cons in Hn as [Hn1 Hn2].
  rewrite IH by done. by rewrite atz_setz_ne by lia.
Qed.

(** After linking and terminating, the clusters form a chain. *)
Lemma link_linked fat c ws : 0 <= c < lenz fat -> Forall (fun w => 0 <= w < lenz fat) ws -> NoDup (c :: ws) ->
  linked (setz (link fat c ws) (last_of c ws) END_OF_CLUSTER_CHAIN) (c :: ws).
Proof.
  revert fat c. induction ws as [|w ws IH]; intros fat c Hc Hw Hnd.
  - cbn [link linked]. unfold last_of. simpl. exists END_OF_CLUSTER_CHAIN. split; [by apply atz_setz_eq|done].
  - apply Forall_cons in Hw as [Hw0 Hw]. apply NoDup_cons in Hnd as [Hcn Hnd]. cbn [link].
    rewrite last_cluster_cons. cbn [linked]. split.
    + assert (last_of w ws ∈ w :: ws) as Hl.
      { unfold last_of. destruct (last ws) as [x|] eqn:E; simpl; [right; by eapply last_Some_elem_of|by left]. }
      rewrite atz_setz_ne; [| |intros Heq; rewrite Heq in Hl; done].
      * rewrite link_other; [by apply atz_setz_eq|lia| | |]; [|by intros ->; apply Hcn; left|intros H; apply Hcn; by right].
        eapply Forall_impl; [exact Hw|]. simpl. lia.
      * apply elem_of_cons in Hl as [->|Hl]; [lia|]. rewrite Forall_forall in Hw. specialize (Hw _ Hl). lia.
    + apply IH; rewrite ?lenz_setz; done.
Qed.

(** ** Freeing *)

Fixpoint cleared (fat : list Z) (cs : list Z) : list Z :=
  match cs with
  | [] => fat
  | c :: cs' => cleared (setz fat c 0) cs'
  end.

Lemma lenz_cleared fat cs : lenz (cleared fat cs) = lenz fat.
Proof. revert fat. induction cs as [|c cs IH]; intros fat; [done|]. simpl. rewrite IH. apply lenz_setz. Qed.

Lemma cleared_atz fat cs j : Forall (fun c => 0 <= c < lenz fat) cs ->
  atz (cleared fat cs) j = if decide (j ∈ cs) then Some 0 else atz fat j.
Proof.
  revert fat. induction cs as [|c cs IH]; intros fat Hr; [by rewrite decide_False by apply not_elem_of_nil|].
  apply Forall_cons in Hr as [Hc Hr]. cbn [cleared]. rewrite IH by (by rewrite lenz_setz).
  destruct (decide (j ∈ cs)) as [H|H]; [by rewrite decide_True by (by right)|].
  destruct (Z.eq_dec j c) as [->|Hne].
  - rewrite decide_True by (by left). by apply atz_setz_eq.
  - rewrite decide_False by (by apply not_elem_of_cons). by rewrite atz_setz_ne by lia.
Qed.

(** Links do not depend on entries outside the chain. *)
Lemma linked_ext fat fat' cs : (forall j, j ∈ cs -> atz fat' j = atz fat j) -> linked fat cs -> linked fat' cs.
Proof.
  induction cs as [|a cs IH]; intros He Hl; [done|]. cbn [linked] in *. destruct cs as [|b cs].
  - by rewrite (He a) by (by left).
  - destruct Hl as [H1 H2]. rewrite (He a) by (by left). split; [done|]. apply IH; [|done]. intros j Hj. apply He. by right.
Qed.

Lemma free_chain_loop fuel fat c cs :
  linked fat (c :: cs) -> NoDup (c :: cs) -> Forall (fun c => 0 <= c < lenz fat /\ c < FAT32_EOC_MIN) (c :: cs) ->
  (length cs < fuel)%nat -> free_loop fuel c fat = Some (cleared fat (c :: cs)).
Proof.
  revert fat c cs. induction fuel as [|fuel IH]; intros fat c cs Hl Hnd Hr Hf; [lia|].
  apply Forall_cons in Hr as [[Hc Hc'] Hr]. apply NoDup_cons in Hnd as [Hcn Hnd]. cbn [free_loop].
  destruct (Z.leb_spec FAT32_EOC_MIN c); [lia|]. cbn [linked] in Hl. cbn [cleared]. destruct cs as [|b cs].
  - destruct Hl as (v & Hv & Hge). rewrite Hv. cbn [mbind option_bind]. rewrite fat_set_ok by done. cbn [mbind option_bind].
    destruct fuel; cbn [free_loop]; destruct (Z.leb_spec FAT32_EOC_MIN v); done || lia.
  - destruct Hl as [Hv Hl]. rewrite Hv. cbn [mbind option_bind]. rewrite fat_set_ok by done. cbn [mbind option_bind].
    apply IH; [|done|by rewrite lenz_setz|simpl in Hf; lia]. apply (linked_ext fat); [|done].
    intros j Hj. apply atz_setz_ne; [lia|]. by intros ->.
Qed.

(** A chain is not longer than the table. *)
Lemma chain_length (n : Z) cs : NoDup cs -> Forall (fun c => 0 <= c < n) cs -> (length cs <= Z.to_nat n)%nat.
Proof.
  intros Hnd Hr. replace (Z.to_nat n) with (length (seqZ 0 n)) by (by rewrite length_seqZ).
  apply submseteq_length, NoDup_submseteq; [done|]. intros c Hc. rewrite Forall_forall in Hr. apply elem_of_seqZ.
  specialize (Hr c Hc). lia.
Qed.

Lemma free_chain_spec fat c cs :
  linked fat (c :: cs) -> NoDup (c :: cs) -> Forall (fun c => 0 < c < lenz fat /\ c < FAT32_EOC_MIN) (c :: cs) ->
  free_cluster_chain fat c = Some (cleared fat (c :: cs)).
Proof.
  intros Hl Hnd Hr. unfold free_cluster_chain. pose proof Hr as Hr'. apply Forall_cons in Hr' as [[H1 H2] _].
  destruct (Z.eqb_spec c 0), (Z.leb_spec FAT32_EOC_MIN c); try lia. cbn [orb].
  apply free_chain_loop; [done|done| |].
  - eapply Forall_impl; [exact Hr|]. simpl. lia.
  - pose proof (chain_length (lenz fat) (c :: cs) Hnd) as Hlen.
    assert (Forall (fun c => 0 <= c < lenz fat) (c :: cs)) as Hr2 by (eapply Forall_impl; [exact Hr|]; simpl; lia).
    specialize (Hlen Hr2). unfold lenz in Hlen. simpl in Hlen. lia.
Qed.

(** ** Allocating *)

Lemma first_free_spec n i fat : 0 <= i -> i + Z.of_nat n <= lenz fat -> first_free n i fat = Some (head (frees fat i n)).
Proof.
  revert i. induction n as [|n IH]; intros i Hi Hl; [done|]. cbn [first_free]. rewrite frees_S.
  destruct (atz_lt fat i) as [v Hv]; [lia|]. rewrite Hv. cbn [mbind option_bind].
  destruct (Z.eqb_spec v 0) as [->|Hn]; [by rewrite decide_True|].
  rewrite decide_False by (unfold is_free; congruence). apply IH; lia.
Qed.

Lemma count_free_spec n i fat : 0 <= i -> i + Z.of_nat n <= lenz fat -> count_free_from n i fat = Some (lenz (frees fat i n)).
Proof.
  revert i. induction n as [|n IH]; intros i Hi Hl; [done|]. cbn [count_free_from]. rewrite frees_S.
  destruct (atz_lt fat i) as [v Hv]; [lia|]. rewrite Hv. cbn [mbind option_bind]. rewrite IH by lia. cbn [mbind option_bind].
  destruct (Z.eqb_spec v 0) as [->|Hn]; [rewrite decide_True by done; by rewrite lenz_cons|].
  by rewrite decide_False by (unfold is_free; congruence).
Qed.

(** The free clusters of a table. *)
Definition free_list (fat : list Z) (total : Z) : list Z := frees fat 2 (Z.to_nat (total - 2)).

Lemma elem_free_list fat total j : j ∈ free_list fat total <-> is_free fat j /\ 2 <= j < total.
Proof. unfold free_list. rewrite elem_frees. split; intros [H1 H2]; (split; [done|lia]). Qed.

(** Extending a chain whose last cluster is [c]. *)
Lemma extend_spec fat total c k :
  total <= lenz fat -> 2 <= c < total -> ~ is_free fat c -> 0 <= k < 2 ^ 31 ->
  let ws := take (Z.to_nat k) (free_list fat total) in
  extend_cluster_chain fat total c k =
    Some (if lenz ws <? k then 0 else last_of c ws, setz (link fat c ws) (last_of c ws) END_OF_CLUSTER_CHAIN) /\
  0 <= last_of c ws < lenz fat.
Proof.
  intros Hl Hc Hf Hk ws. unfold extend_cluster_chain. rewrite signed_small by lia. cbv zeta.
  rewrite extend_loop_spec by (lia || (by left)). rewrite Z.sub_0_r. fold (free_list fat total). fold ws.
  cbn [mbind option_bind].
  assert (0 <= last_of c ws < lenz fat) as Hlast.
  { unfold last_of. destruct (last ws) as [x|] eqn:E; simpl; [|lia]. apply last_Some_elem_of in E.
    apply (subseteq_take (Z.to_nat k)) in E. apply elem_free_list in E. lia. }
  rewrite fat_set_ok by (by rewrite lenz_link). cbn [mbind option_bind]. rewrite Z.add_0_l. done.
Qed.

Lemma table_ext {A} (l k : list A) : lenz l = lenz k -> (forall j, 0 <= j < lenz l -> atz l j = atz k j) -> l = k.
Proof.
  intros Hl He. apply list_eq. intros i. destruct (decide (i < length l)%nat) as [Hi|Hi].
  - specialize (He (Z.of_nat i) ltac:(unfold lenz; lia)). unfold atz in He.
    destruct (Z.leb_spec 0 (Z.of_nat i)); [|lia]. by rewrite Nat2Z.id in He.
  - unfold lenz in Hl. rewrite !lookup_ge_None_2 by lia. done.
Qed.

(** Taking the first free cluster leaves the others free. *)
Lemma frees_take_first fat i n c rest v :
  0 <= i -> i + Z.of_nat n <= lenz fat -> v <> 0 -> frees fat i n = c :: rest -> frees (setz fat c v) i n = rest.
Proof.
  revert i. induction n as [|n IH]; intros i Hi Hl Hv Hf; [done|]. rewrite frees_S in *.
  destruct (decide (is_free fat i)) as [Hfi|Hfi].
  - simplify_eq. rewrite decide_False by (unfold is_free; rewrite atz_setz_eq by lia; congruence).
    apply frees_ext. intros j Hj. unfold is_free. by rewrite atz_setz_ne by lia.
  - assert (c ∈ frees fat (i + 1) n) as Hc by (rewrite Hf; by left). apply elem_frees in Hc as [_ Hc].
    rewrite decide_False by (unfold is_free; by rewrite atz_setz_ne by lia). apply IH; [lia|lia|done|done].
Qed.

(** The table after the chain [c :: ws] was made out of free clusters. *)
Definition chained (fat : list Z) (c : Z) (ws : list Z) : list Z :=
  setz (link (setz fat c END_OF_CLUSTER_CHAIN) c ws) (last_of c ws) END_OF_CLUSTER_CHAIN.

Lemma last_of_elem c ws : last_of c ws ∈ c :: ws.
Proof. unfold last_of. destruct (last ws) as [x|] eqn:E; simpl; [right; by eapply last_Some_elem_of|by left]. Qed.

Lemma chained_other fat c ws j : Forall (fun w => 0 <= w) (c :: ws) -> j ∉ c :: ws -> atz (chained fat c ws) j = atz fat j.
Proof.
  intros Hr Hj. pose proof (last_of_elem c ws) as Hl. unfold chained.
  assert (0 <= last_of c ws) by (rewrite Forall_forall in Hr; by apply Hr).
  apply Forall_cons in Hr as [Hc Hr].
  rewrite atz_setz_ne; [|done|intros Heq; apply Hj; by rewrite <- Heq]. apply not_elem_of_cons in Hj as [Hj1 Hj2].
  rewrite link_other by done. by rewrite atz_setz_ne by lia.
Qed.

Lemma chained_linked fat c ws : Forall (fun w => 0 <= w < lenz fat) (c :: ws) -> NoDup (c :: ws) -> linked (chained fat c ws) (c :: ws).
Proof. intros Hr Hnd. apply Forall_cons in Hr as [Hc Hr]. apply link_linked; rewrite ?lenz_setz; done. Qed.

Lemma lenz_chained fat c ws : lenz (chained fat c ws) = lenz fat.
Proof. unfold chained. by rewrite lenz_setz, lenz_link, lenz_setz. Qed.

(** Clearing the new chain gives the old table back. *)
Lemma cleared_chained fat c ws :
  Forall (fun w => 0 <= w < lenz fat) (c :: ws) -> Forall (is_free fat) (c :: ws) -> cleared (chained fat c ws) (c :: ws) = fat.
Proof.
  intros Hr Hf. apply table_ext; [by rewrite lenz_cleared, lenz_chained|]. intros j _.
  rewrite cleared_atz by (by rewrite lenz_chained). destruct (decide (j ∈ c :: ws)) as [Hj|Hj].
  - rewrite Forall_forall in Hf. symmetry. by apply Hf.
  - apply chained_other; [|done]. eapply Forall_impl; [exact Hr|]. simpl. lia.
Qed.

Section allocate.
Context (fat : list Z) (total : Z) (Htotal : total <= lenz fat) (Hmax : total <= FAT32_EOC_MIN).

Lemma free_list_range c ws k : c :: ws = take k (free_list fat total) ->
  Forall (fun w => 2 <= w < total) (c :: ws) /\ Forall (is_free fat) (c :: ws) /\ NoDup (c :: ws).
Proof.
  intros Hw. assert (forall j, j ∈ c :: ws -> is_free fat j /\ 2 <= j < total) as H.
  { intros j Hj. rewrite Hw in Hj. apply (subseteq_take k) in Hj. by apply elem_free_list. }
  split_and!; [apply Forall_forall; intros j Hj; by apply H|apply Forall_forall; intros j Hj; by apply H|].
  rewrite Hw. eapply sublist_NoDup; [apply frees_nodup|apply sublist_take].
Qed.

Lemma allocate_chain_spec n : n <= 2 ^ 31 ->
  let cs := take (Z.to_nat (Z.max 1 n)) (free_list fat total) in
  allocate_cluster_chain fat total n =
    Some (match cs with
          | [] => (0, fat)
          | c :: ws => if lenz cs <? n then (0, fat) else (c, chained fat c ws)
          end).
Proof.
  intros Hmax_n cs. unfold allocate_cluster_chain.
  destruct (Z.le_gt_cases total 2) as [Hs|Hs].
  { unfold cs, free_list. replace (Z.to_nat (total - 2)) with O by lia.
    change (frees fat 2 0) with (@nil Z). by rewrite take_nil. }
  rewrite first_free_spec by lia. fold (free_list fat total). cbn [mbind option_bind].
  destruct (free_list fat total) as [|c rest] eqn:Hfl; [unfold cs; by rewrite take_nil|].
  assert (cs = c :: take (Z.to_nat (n - 1)) rest) as Hcs.
  { unfold cs. destruct (Z.le_gt_cases n 1).
    - replace (Z.to_nat (Z.max 1 n)) with 1%nat by lia. by replace (Z.to_nat (n - 1)) with O by lia.
    - by replace (Z.to_nat (Z.max 1 n)) with (S (Z.to_nat (n - 1))) by lia. }
  rewrite Hcs. cbn [head]. set (ws := take (Z.to_nat (n - 1)) rest).
  destruct (free_list_range c ws (Z.to_nat (Z.max 1 n))) as (Hr & Hfree & Hnd);
    [rewrite Hfl; fold cs; by rewrite Hcs|].
  assert (2 <= c < total) as Hc by (by apply Forall_cons in Hr as [? _]).
  rewrite fat_set_ok by lia. cbn [mbind option_bind]. set (fat1 := setz fat c END_OF_CLUSTER_CHAIN).
  destruct (Z.ltb_spec 1 n) as [Hn|Hn].
  2:{ assert (ws = []) as Hws by (unfold ws; by replace (Z.to_nat (n - 1)) with O by lia). rewrite Hws.
      destruct (Z.ltb_spec (lenz [c]) n) as [Hx|Hx]; [rewrite lenz_cons in Hx; unfold lenz in Hx; simpl in Hx; lia|].
      unfold chained. cbn [link]. unfold last_of. simpl. unfold setz. by rewrite list_insert_insert_eq. }
  destruct (extend_spec fat1 total c (n - 1)) as [He Hlast]; unfold fat1; rewrite ?lenz_setz; [lia|lia| |lia|].
  { unfold is_free. rewrite atz_setz_eq by lia. by intros [= ]. }
  assert (free_list (setz fat c END_OF_CLUSTER_CHAIN) total = rest) as Hrest
    by (unfold free_list; apply frees_take_first; [lia|lia|done|done]).
  unfold fat1 in He. rewrite Hrest in He. fold ws in He. rewrite He. cbn [mbind option_bind]. fold (chained fat c ws). rewrite lenz_cons.
  assert (2 <= last_of c ws) as Hl2 by (pose proof (last_of_elem c ws) as Hle; rewrite Forall_forall in Hr; apply Hr in Hle; lia).
  destruct (Z.ltb_spec (lenz ws) (n - 1)), (Z.ltb_spec (lenz ws + 1) n); try lia.
  2:{ destruct (Z.eqb_spec (last_of c ws) 0); [lia|done]. }
  cbn [Z.eqb]. rewrite (free_chain_spec _ c ws).
  - cbn [mbind option_bind]. rewrite cleared_chained; [done| |done]. eapply Forall_impl; [exact Hr|]. simpl. lia.
  - apply chained_linked; [|done]. eapply Forall_impl; [exact Hr|]. simpl. lia.
  - done.
  - rewrite lenz_chained. eapply Forall_impl; [exact Hr|]. simpl. lia.
Qed.
End allocate.
