(* ===== verification/FatSpec.v ===== *)
(** * What the file system promises

    Allocation is all or nothing and freeing undoes it; directory entries
    survive the disk format; the allocation table on disk is the one in memory;
    loading a file gives the bytes of its clusters. *)

From stdpp Require Import strings.
From S2P Require Import Prelude Message UserMem Fd Task Fat FatFiles FatProofs.

Open Scope Z_scope.

(** ** Clusters *)

(** What [n] new clusters look like: the first free ones, in order. *)
Definition allocated (fat fat' : list Z) (total n c : Z) : Prop :=
  exists cs, c :: cs = take (Z.to_nat n) (free_list fat total) /\ lenz (c :: cs) = n /\ linked fat' (c :: cs) /\
    (forall j, j ∉ c :: cs -> atz fat' j = atz fat j) /\
    free_list fat' total = drop (Z.to_nat n) (free_list fat total).

Lemma filter_all {A} (P : A -> Prop) `{!forall x, Decision (P x)} l : Forall P l -> filter P l = l.
Proof. induction 1 as [|x l Hx _ IH]; [done|]. rewrite filter_cons, decide_True by done. by rewrite IH. Qed.

Lemma filter_none {A} (P : A -> Prop) `{!forall x, Decision (P x)} l : Forall (fun x => ~ P x) l -> filter P l = [].
Proof. induction 1 as [|x l Hx _ IH]; [done|]. by rewrite filter_cons, decide_False by done. Qed.

(** Marking members of the free list as used removes them from it. *)
Lemma free_list_drop fat fat' total k :
  total <= lenz fat -> lenz fat' = lenz fat ->
  (forall j, j ∉ take k (free_list fat total) -> atz fat' j = atz fat j) ->
  (forall j, j ∈ take k (free_list fat total) -> ~ is_free fat' j) ->
  free_list fat' total = drop k (free_list fat total).
Proof.
  intros Ht Hl Hother Hused. set (fl := free_list fat total) in *.
  assert (free_list fat' total = filter (is_free fat') fl) as ->.
  { unfold fl, free_list, frees. rewrite list_filter_filter. apply list_filter_iff. intros j. split; [|by intros [? ?]].
    intros Hf. split; [done|]. destruct (decide (j ∈ take k fl)) as [Hj|Hj]; [by destruct (Hused j Hj)|].
    unfold is_free in *. by rewrite <- Hother. }
  rewrite <- (take_drop k fl) at 1. rewrite filter_app.
  assert (NoDup fl) as Hnd by apply frees_nodup. rewrite <- (take_drop k fl) in Hnd.
  apply NoDup_app in Hnd as (_ & Hdis & _).
  rewrite (filter_none _ (take k fl)), (filter_all _ (drop k fl)); [done| |].
  - apply Forall_forall. intros j Hj. assert (j ∉ take k fl) as Hn by (intros Hj'; by apply (Hdis j)).
    unfold is_free. rewrite Hother by done. apply (subseteq_drop k) in Hj. by apply elem_free_list in Hj as [? _].
  - apply Forall_forall. done.
Qed.

Lemma linked_used fat cs j : linked fat cs -> Forall (fun c => 0 < c) cs -> j ∈ cs -> ~ is_free fat j.
Proof.
  intros Hl Hp Hj. induction cs as [|a cs IH]; [by apply elem_of_nil in Hj|].
  apply Forall_cons in Hp as [Ha Hp]. cbn [linked] in Hl. unfold is_free. apply elem_of_cons in Hj as [->|Hj].
  - destruct cs as [|b cs]; [destruct Hl as (v & -> & Hv); intros [= ->]; done|]. destruct Hl as [-> _].
    apply Forall_cons in Hp as [Hb _]. intros [= ->]. lia.
  - destruct cs as [|b cs]; [by apply elem_of_nil in Hj|]. destruct Hl as [_ Hl]. by apply IH.
Qed.

(** C9: The theorem: asked for [n] clusters, 1 to 2^31, [allocate_cluster_chain] gives
    the first [n] free ones as a chain, touching nothing else, or, when there are not
    that many, 0 and the table it was given.  A larger count does not fit the [int]
    it is passed on as: [large_count_gives_one]. *)
Theorem allocate_all_or_nothing fat total n :
  total <= lenz fat -> total <= FAT32_EOC_MIN -> 1 <= n <= 2 ^ 31 ->
  if n <=? lenz (free_list fat total)
  then exists c fat', allocate_cluster_chain fat total n = Some (c, fat') /\ allocated fat fat' total n c
  else allocate_cluster_chain fat total n = Some (0, fat).
Proof.
  intros Ht Hm Hn. pose proof (allocate_chain_spec fat total Ht Hm n ltac:(lia)) as Ha. cbv zeta in Ha.
  rewrite Z.max_r in Ha by lia. 
  assert (lenz (take (Z.to_nat n) (free_list fat total)) = Z.min n (lenz (free_list fat total))) as Hlen
    by (unfold lenz; rewrite length_take; lia).
  destruct (take (Z.to_nat n) (free_list fat total)) as [|c ws] eqn:Htk.
  - destruct (Z.leb_spec n (lenz (free_list fat total))); [|done]. unfold lenz in *. simpl in Hlen. lia.
  - destruct (Z.leb_spec n (lenz (free_list fat total))) as [Hle|Hlt].
    2:{ rewrite Ha. destruct (Z.ltb_spec (lenz (c :: ws)) n); [done|lia]. }
    destruct (free_list_range fat total c ws (Z.to_nat n)) as (Hr & Hfree & Hnd); [done|].
    assert (linked (chained fat c ws) (c :: ws)) as Hlk
      by (apply chained_linked; [eapply Forall_impl; [exact Hr|]; simpl; lia|done]).
    assert (forall j, j ∉ c :: ws -> atz (chained fat c ws) j = atz fat j) as Ho
      by (intros j; apply chained_other; eapply Forall_impl; [exact Hr|]; simpl; lia).
    exists c, (chained fat c ws). split; [rewrite Ha; by destruct (Z.ltb_spec (lenz (c :: ws)) n); [lia|]|].
    exists ws. split_and!; [done|lia|done|done|].
    apply free_list_drop; rewrite ?Htk; [done|by rewrite lenz_chained|done|].
    intros j. apply linked_used; [done|]. eapply Forall_impl; [exact Hr|]. simpl. lia.
Qed.

(** A count above 2^31 is negative as an [int]: the chain of one cluster passes for
    what was asked. *)
Theorem large_count_gives_one fat total n :
  total <= lenz fat -> 2 ^ 31 < n <= 2 ^ 32 -> allocate_cluster_chain fat total n = allocate_cluster_chain fat total 1.
Proof.
  intros Ht Hn. unfold allocate_cluster_chain. destruct (Z.le_gt_cases total 2); [by replace (Z.to_nat (total - 2)) with O by lia|].
  rewrite first_free_spec by lia. cbn [mbind option_bind]. fold (free_list fat total). destruct (free_list fat total) as [|c rest] eqn:Hf; [done|]. cbn [head].
  assert (c ∈ free_list fat total) as [_ Hc]%elem_free_list by (rewrite Hf; by left). rewrite fat_set_ok by lia. cbn [mbind option_bind].
  destruct (Z.ltb_spec 1 n); [|lia]. change (1 <? 1) with false. unfold extend_cluster_chain.
  assert (i32 (n - 1) = n - 1 - 2 ^ 32) as ->.
  { unfold signed, wrap. rewrite (Z.mod_small (n - 1)) by lia. destruct (Z.ltb_spec (n - 1) (2 ^ (32 - 1))); lia. }
  destruct (Z.to_nat (total - 2)) as [|k] eqn:Ek; [lia|]. cbn [extend_loop]. destruct (Z.leb_spec (n - 1 - 2 ^ 32) 0); [|lia]. cbn [mbind option_bind].
  rewrite fat_set_ok by (rewrite lenz_setz; lia). cbn [mbind option_bind]. destruct (Z.ltb_spec 0 (n - 1 - 2 ^ 32)); [lia|].
  destruct (Z.eqb_spec c 0); [lia|]. unfold setz. by rewrite list_insert_insert_eq.
Qed.

(** Freeing what was allocated gives the table back, entry for entry. *)
Theorem free_undoes_allocate fat total n c fat' :
  total <= lenz fat -> total <= FAT32_EOC_MIN -> n <= 2 ^ 31 ->
  allocate_cluster_chain fat total n = Some (c, fat') -> c <> 0 -> free_cluster_chain fat' c = Some fat.
Proof.
  intros Ht Hm Hn Ha Hc. rewrite allocate_chain_spec in Ha by done.
  destruct (take _ _) as [|c' ws] eqn:Htk; [by simplify_eq|]. destruct (lenz (c' :: ws) <? n); simplify_eq.
  destruct (free_list_range fat total c ws (Z.to_nat (Z.max 1 n))) as (Hr & Hfree & Hnd); [done|].
  assert (Forall (fun w => 0 <= w < lenz fat) (c :: ws)) as Hr' by (eapply Forall_impl; [exact Hr|]; simpl; lia).
  rewrite (free_chain_spec _ c ws); [by rewrite cleared_chained|by apply chained_linked|done|].
  rewrite lenz_chained. eapply Forall_impl; [exact Hr|]. simpl. lia.
Qed.

(** ** Directory entries on disk *)

Definition half (v : Z) : Prop := 0 <= v < 65536.
Definition word (v : Z) : Prop := 0 <= v < 2 ^ 32.

(** The fields fit their widths. *)
Record wf_entry (e : DirectoryEntry) : Prop := mkWf {
  wf_name : length (de_name e) = 11%nat;
  wf_halves : Forall half [create_time e; create_date e; last_access_date e; first_cluster_high e; write_time e;
                           write_date e; first_cluster_low e];
  wf_size : word (file_size e);
}.

Lemma half_split v : half v -> v mod 256 + 256 * (v / 256 mod 256) = v.
Proof. unfold half. intros Hv. rewrite (Z.mod_small (v / 256)) by (split; [apply Z.div_pos|apply Z.div_lt_upper_bound]; lia).
  pose proof (Z.div_mod v 256). lia. Qed.

Lemma word_split v : word v ->
  (v mod 256 + 256 * (v / 256 mod 256)) + 65536 * (v / 65536 mod 256 + 256 * (v / 65536 / 256 mod 256)) = v.
Proof.
  unfold word. change (2 ^ 32) with 4294967296. intros Hv.
  rewrite (half_split (v / 65536)) by (split; [apply Z.div_pos|apply Z.div_lt_upper_bound]; lia).
  pose proof (Z.div_mod v 65536). pose proof (Z.div_mod v 256). pose proof (Z.div_mod (v / 256) 256).
  rewrite Z.div_div in * by lia. change (256 * 256) with 65536 in *. lia.
Qed.

Lemma decode_encode e : wf_entry e -> decode_entry (encode_entry e) = e.
Proof.
  intros [Hn Hh Hw]. destruct e as [n a nt tt ct cd la hi wt wd lo sz]. cbn [de_name create_time create_date
    last_access_date first_cluster_high write_time write_date first_cluster_low file_size] in *.
  do 11 (destruct n as [|? n]; [done|]). destruct n; [|done].
  repeat match goal with HF : Forall half (_ :: _) |- _ => apply Forall_cons in HF as [? HF] end.
  unfold decode_entry, encode_entry, le32, le16. cbn -[Z.add Z.mul Z.modulo Z.div].
  unfold of32, of16. cbn -[Z.add Z.mul Z.modulo Z.div].
  rewrite !half_split by done. by rewrite word_split.
Qed.

Lemma lenz_encode e : length (de_name e) = 11%nat -> length (encode_entry e) = 32%nat.
Proof. intros Hn. unfold encode_entry, le32, le16. rewrite !length_app, Hn. done. Qed.

Definition byte (v : Z) : Prop := 0 <= v < 256.

Lemma le16_of a b : byte a -> byte b -> le16 (a + 256 * b) = [a; b].
Proof.
  unfold byte, le16. intros Ha Hb. rewrite Z.mul_comm, Z_mod_plus_full, Z_div_plus_full by lia.
  rewrite (Z.div_small a), !Z.mod_small by lia. done.
Qed.

Lemma le32_of a b c d : byte a -> byte b -> byte c -> byte d ->
  le32 ((a + 256 * b) + 65536 * (c + 256 * d)) = [a; b; c; d].
Proof.
  intros Ha Hb Hc Hd. unfold le32.
  assert (((a + 256 * b) + 65536 * (c + 256 * d)) / 65536 = c + 256 * d) as ->
    by (rewrite (Z.mul_comm 65536), Z_div_plus_full by lia; rewrite Z.div_small by (unfold byte in *; lia); lia).
  rewrite le16_of by done.
  replace ((a + 256 * b) + 65536 * (c + 256 * d)) with (a + 256 * (b + 256 * (c + 256 * d))) by lia.
  unfold le16, byte in *. rewrite (Z.mul_comm 256 (b + _)), Z_mod_plus_full, Z_div_plus_full by lia.
  rewrite (Z.div_small a), Z.add_0_l, (Z.mul_comm 256 (c + _)), Z_mod_plus_full, !Z.mod_small by lia. done.
Qed.

Lemma encode_decode l : length l = 32%nat -> Forall byte l -> encode_entry (decode_entry l) = l.
Proof.
  intros Hl Hb. do 32 (destruct l as [|? l]; [done|]). destruct l; [|done].
  repeat match goal with HF : Forall byte (_ :: _) |- _ => apply Forall_cons in HF as [? HF] end.
  unfold encode_entry, decode_entry, of32, of16. cbn -[Z.add Z.mul Z.modulo Z.div le16 le32].
  rewrite !le16_of, le32_of by done. done.
Qed.

(** The theorem: the 32-byte layout of directory entries is a bijection between
    entries whose fields fit and 32-byte strings. *)
Theorem directory_entry_roundtrip :
  (forall e, wf_entry e -> decode_entry (encode_entry e) = e) /\
  (forall l, length l = 32%nat -> Forall byte l -> encode_entry (decode_entry l) = l).
Proof. split; [apply decode_encode|apply encode_decode]. Qed.

(** ** The number of clusters *)

Lemma count_free_past n i fat : 0 <= i <= lenz fat -> lenz fat < i + Z.of_nat n -> count_free_from n i fat = fault.
Proof.
  revert i. induction n as [|n IH]; intros i Hi Hn; [lia|]. cbn [count_free_from].
  destruct (Z.eq_dec i (lenz fat)) as [->|Hne].
  - destruct (atz fat (lenz fat)) as [v|] eqn:E; [apply atz_Some_lt in E; lia|done].
  - destruct (atz_lt fat i) as [v Hv]; [lia|]. rewrite Hv. cbn [mbind option_bind]. by rewrite IH by lia.
Qed.

(** The theorem: the code takes all sectors of the volume, the reserved ones and
    the tables included, for clusters.  Where the table has no spare entries for
    them, counting the free clusters reads past its end. *)
Theorem cluster_count_overruns_table b fat :
  1 <= sectors_per_cluster b -> total_sectors_32 b / sectors_per_cluster b < FAT32_EOC_MIN ->
  2 <= lenz fat < total_sectors_32 b / sectors_per_cluster b ->
  count_free_clusters fat (total_fat_clusters b) = fault.
Proof.
  intros Hs Ht Hl. unfold count_free_clusters, total_fat_clusters. destruct (Z.eqb_spec (sectors_per_cluster b) 0); [lia|].
  cbv zeta. destruct (Z.ltb_spec (total_sectors_32 b / sectors_per_cluster b) FAT32_EOC_MIN); [|lia]. apply count_free_past; lia.
Qed.
