(* ===== verification/FatDisk.v ===== *)
(** * The allocation table on disk

    Writing the table back, in chunks or sector by sector, makes every copy on
    the device equal to the table in memory and touches nothing else. *)

From stdpp Require Import strings.
From S2P Require Import Prelude Message UserMem Fd Task Fat FatFiles FatProofs FatSpec.

Open Scope Z_scope.

(** ** Writing a stretch of sectors *)

(** [d'] is [d] with the sectors [lo] to [hi] after [base] taken from [B]. *)
Definition stamped (base : Z) (B : list Z) (lo hi : Z) (d d' : Disk) : Prop :=
  forall a, d' a = if (base * 512 + lo * 512 <=? a) && (a <? base * 512 + hi * 512) then B !!! Z.to_nat (a - base * 512) else d a.

Lemma stamped_nil base B lo d : stamped base B lo lo d d.
Proof. intros a. destruct (Z.leb_spec (base * 512 + lo * 512) a), (Z.ltb_spec a (base * 512 + lo * 512)); done || lia. Qed.

Lemma stamped_other base B lo hi d d' a : stamped base B lo hi d d' -> ~ (base * 512 + lo * 512 <= a < base * 512 + hi * 512) -> d' a = d a.
Proof. intros Hs Ha. rewrite Hs. destruct (Z.leb_spec (base * 512 + lo * 512) a), (Z.ltb_spec a (base * 512 + hi * 512)); done || lia. Qed.

Lemma stamped_app base B lo mid hi d d1 d2 : lo <= mid <= hi ->
  stamped base B lo mid d d1 -> stamped base B mid hi d1 d2 -> stamped base B lo hi d d2.
Proof.
  intros Hm K1 K2 a. rewrite K2, K1.
  destruct (Z.leb_spec (base * 512 + lo * 512) a), (Z.leb_spec (base * 512 + mid * 512) a),
    (Z.ltb_spec a (base * 512 + mid * 512)), (Z.ltb_spec a (base * 512 + hi * 512)); done || lia.
Qed.

Lemma lookup_total_slice l from n i : 0 <= from -> 0 <= i < n -> from + n <= lenz l ->
  slice l from n !!! Z.to_nat i = l !!! Z.to_nat (from + i).
Proof.
  intros Hf Hi Hl. unfold slice. rewrite lookup_total_take, decide_True, lookup_total_drop by lia. by replace (Z.to_nat (from + i)) with (Z.to_nat from + Z.to_nat i)%nat by lia.
Qed.

Lemma lenz_slice l from n : 0 <= from -> 0 <= n -> from + n <= lenz l -> lenz (slice l from n) = n.
Proof. intros Hf Hn Hl. unfold lenz in *. unfold slice. rewrite length_take, length_drop. lia. Qed.

Lemma put_stamped base B off cur d : 0 <= base -> 0 <= off -> 0 <= cur -> (off + cur) * 512 <= lenz B -> base + off < 2 ^ 32 ->
  stamped base B off (off + cur) d (disk_put (u32 (base + off)) (slice B (off * 512) (cur * 512)) d).
Proof.
  intros Hb Ho Hc Hl Hw a. unfold disk_put. rewrite wrap_small by lia. rewrite lenz_slice by lia. unfold SECTOR_SIZE.
  destruct (Z.leb_spec 0 (a - (base + off) * 512)), (Z.leb_spec (base * 512 + off * 512) a),
    (Z.ltb_spec (a - (base + off) * 512) (cur * 512)), (Z.ltb_spec a (base * 512 + (off + cur) * 512)); try lia; try done.
  cbn [andb]. rewrite lookup_total_slice by lia. f_equal. lia.
Qed.

(** ** The loops *)

Section persist.
Context (env : FsEnv) (Hdev : forall x, IS_ERR (write_result env x) = false) (Hsec : forall i, sector_ok env i = true).

Lemma write_ok bytes sector d : snd (write_to_blk env bytes sector d) = disk_put sector bytes d.
Proof. unfold write_to_blk. cbn [snd]. by rewrite Hdev. Qed.

(** A volume whose table fits: 512-byte sectors, and sectors numbered in 32 bits. *)
Context (s0 : Fs) (Hbps : bytes_per_sector (bpb s0) = 512).
Let B := fat_bytes s0.

Lemma one_by_one_stamped base n : forall i d, 0 <= base -> 0 <= i -> (i + Z.of_nat n) * 512 <= lenz B -> base + i + Z.of_nat n <= 2 ^ 32 ->
  exists d', write_fat_sectors_one_by_one env n base i (set_disk d s0) = set_disk d' s0 /\ stamped base B i (i + Z.of_nat n) d d'.
Proof.
  induction n as [|n IH]; intros i d Hb Hi Hl Hw.
  - exists d. split; [done|]. replace (i + Z.of_nat 0) with i by lia. apply stamped_nil.
  - cbn [write_fat_sectors_one_by_one]. cbv zeta. rewrite Hsec. cbn [negb]. rewrite write_ok.
    change (bpb (set_disk d s0)) with (bpb s0). rewrite Hbps. change (fat_bytes (set_disk d s0)) with B.
    change (disk (set_disk d s0)) with d.
    edestruct (IH (i + 1)) as (d' & Hd' & Hs'); [lia|lia|lia|lia|]. exists d'. split; [exact Hd'|].
    apply (stamped_app _ _ i (i + 1) _ d (disk_put (u32 (base + i)) (slice B (i * 512) (1 * 512)) d)); [lia| |].
    + apply put_stamped; lia.
    + replace (i + Z.of_nat (S n)) with (i + 1 + Z.of_nat n) by lia. done.
Qed.

Lemma chunked_stamped base n : forall fuel off d, 0 <= base -> 0 <= off <= n -> n * 512 <= lenz B -> base + n <= 2 ^ 32 ->
  n - off <= Z.of_nat fuel ->
  exists d', write_fat_sectors_chunked fuel env base n off (set_disk d s0) = Some (set_disk d' s0) /\ stamped base B off n d d'.
Proof.
  induction fuel as [|fuel IH]; intros off d Hb Ho Hl Hw Hf; cbn [write_fat_sectors_chunked]; cbv zeta;
    (destruct (Z.leb_spec n off) as [Hn|Hn];
      [exists d; split; [done|]; replace off with n by lia; apply stamped_nil|]); [lia|].
  change (bpb (set_disk d s0)) with (bpb s0). rewrite Hbps. change (FAT_WRITE_CHUNK_SIZE / 512) with 128.
  set (cur := Z.min (n - off) 128). assert (1 <= cur <= n - off) as Hcur by lia.
  assert (exists d1, stamped base B off (off + cur) d d1 /\
    (if chunk_ok env off then set_disk (snd (write_to_blk env (slice (fat_bytes (set_disk d s0)) (off * 512) (cur * 512))
         (u32 (base + off)) (disk (set_disk d s0)))) (set_disk d s0)
     else write_fat_sectors_one_by_one env (Z.to_nat cur) base off (set_disk d s0)) = set_disk d1 s0) as (d1 & Hs1 & ->).
  { destruct (chunk_ok env off).
    - rewrite write_ok. eexists. split; [|reflexivity]. apply (put_stamped base B off cur d); lia.
    - destruct (one_by_one_stamped base (Z.to_nat cur) off d) as (d1 & E & Hs); [lia|lia|lia|lia|].
      rewrite Z2Nat.id in Hs by lia. by exists d1. }
  destruct (IH (off + cur) d1) as (d2 & E2 & Hs2); [lia|lia|lia|lia|lia|]. exists d2. split; [exact E2|].
  eapply stamped_app; [|exact Hs1|exact Hs2]. lia.
Qed.
End persist.

(** ** Reading the table back *)

Lemma length_fat_bytes f : length (concat (le32 <$> f)) = (4 * length f)%nat.
Proof. induction f as [|v f IH]; [done|]. rewrite fmap_cons. cbn [concat]. rewrite length_app, IH. simpl. lia. Qed.

Lemma of32_fat_bytes f i : Forall word f -> (i < length f)%nat -> of32 (concat (le32 <$> f)) (4 * i) = f !!! i.
Proof.
  revert i. induction f as [|v f IH]; intros i Hw Hi; [simpl in Hi; lia|].
  apply Forall_cons in Hw as [Hv Hw]. rewrite fmap_cons. cbn [concat]. destruct i as [|i].
  - unfold of32, of16, le32, le16. cbn -[Z.add Z.mul Z.modulo Z.div]. by apply word_split.
  - change ((v :: f) !!! S i) with (f !!! i). rewrite <- (IH i) by (done || (simpl in Hi; lia)). unfold of32, of16.
    rewrite !(lookup_total_app_r (le32 v)) by (simpl; lia). change (length (le32 v)) with 4%nat.
    repeat f_equal; lia.
Qed.

Lemma words_of_fat_bytes f : Forall word f -> words_of (concat (le32 <$> f)) (lenz f) = f.
Proof.
  intros Hw. apply list_eq. intros i. unfold words_of, lenz. rewrite list_lookup_fmap.
  destruct (decide (i < length f)%nat) as [Hi|Hi].
  - rewrite lookup_seqZ_lt by lia. cbn [fmap option_fmap option_map].
    replace (Z.to_nat (4 * (0 + Z.of_nat i))) with (4 * i)%nat by lia. rewrite of32_fat_bytes by done.
    symmetry. by apply list_lookup_lookup_total_lt.
  - rewrite lookup_seqZ_ge by lia. by rewrite lookup_ge_None_2 by lia.
Qed.

Lemma disk_bytes_stamped base B n d d' : 0 <= base -> lenz B = n * 512 -> stamped base B 0 n d d' -> disk_bytes d' base (n * 512) = B.
Proof.
  intros Hb Hl Hs. unfold disk_bytes, SECTOR_SIZE. apply list_eq. intros i. rewrite list_lookup_fmap.
  unfold lenz in Hl. destruct (decide (i < length B)%nat) as [Hi|Hi].
  - rewrite lookup_seqZ_lt by lia. cbn [fmap option_fmap option_map]. rewrite Hs.
    destruct (Z.leb_spec (base * 512 + 0 * 512) (base * 512 + (0 + Z.of_nat i))); [|lia].
    destruct (Z.ltb_spec (base * 512 + (0 + Z.of_nat i)) (base * 512 + n * 512)); [|lia]. cbn [andb].
    replace (Z.to_nat (base * 512 + (0 + Z.of_nat i) - base * 512)) with i by lia.
    symmetry. by apply list_lookup_lookup_total_lt.
  - rewrite lookup_seqZ_ge by lia. by rewrite lookup_ge_None_2 by lia.
Qed.

(** A mounted volume: 512-byte sectors, a table of its size, 32-bit entries and
    sector numbers. *)
Record volume_ok (s : Fs) : Prop := mkVolume {
  v_bps : bytes_per_sector (bpb s) = 512;
  v_table : lenz (fat s) * 4 = fat_size_32 (bpb s) * 512;
  v_words : Forall word (fat s);
  v_base : 0 <= reserved_sector_count (bpb s);
  v_sectors : reserved_sector_count (bpb s) + 2 * fat_size_32 (bpb s) <= 2 ^ 32;
}.

(** The sectors of the copies of the table that the code writes: the first, and the
    second when the volume has more than one. *)
Definition written_area (s : Fs) (a : Z) : Prop :=
  let copies := if 1 <? num_fats (bpb s) then 2 else 1 in
  FAT_TABLE_SECTOR s * 512 <= a < (FAT_TABLE_SECTOR s + copies * fat_size_32 (bpb s)) * 512.

(** The table a copy holds. *)
Definition table_at (s : Fs) (d : Disk) (sector : Z) : list Z :=
  words_of (disk_bytes d sector (fat_size_32 (bpb s) * 512)) (fat_size_32 (bpb s) * 512 / 4).

Lemma disk_bytes_ext (d d' : Disk) sector len : (forall a, sector * 512 <= a < sector * 512 + len -> d a = d' a) -> disk_bytes d sector len = disk_bytes d' sector len.
Proof. intros H. unfold disk_bytes, SECTOR_SIZE. apply list_fmap_ext. intros k x Hx. apply lookup_seqZ in Hx. apply H. lia. Qed.

(** C37: (table on the device) Writing the table back terminates, and when the device accepts the writes,
    the first copy, and the second when the volume has more than one, is the table in
    memory when it is read back the way the volume is mounted; the copies after the
    second still hold what they held, and no byte outside the first two changes.  The
    buffers of whole chunks need not be available. *)
Theorem fat_table_persisted env s :
  volume_ok s -> (forall x, IS_ERR (write_result env x) = false) -> (forall i, sector_ok env i = true) ->
  exists d, write_fat_table_to_disk env s = Some (set_disk d s) /\
    table_at s d (FAT_TABLE_SECTOR s) = fat s /\
    (1 < num_fats (bpb s) -> table_at s d (FAT_TABLE_SECTOR s + fat_size_32 (bpb s)) = fat s) /\
    (forall i, 2 <= i -> table_at s d (FAT_TABLE_SECTOR s + i * fat_size_32 (bpb s)) = table_at s (disk s) (FAT_TABLE_SECTOR s + i * fat_size_32 (bpb s))) /\
    (forall a, ~ written_area s a -> d a = disk s a).
Proof.
  intros [Hbps Htab Hw Hb Hsec] Hdev Hsok. set (n := fat_size_32 (bpb s)) in *.
  assert (lenz (fat_bytes s) = n * 512) as HB by (unfold fat_bytes, lenz in *; rewrite length_fat_bytes; lia).
  assert (0 <= n) as Hn by (pose proof (lenz_nonneg (fat s)); lia).
  assert (n * 512 / 4 = lenz (fat s)) as Hq by (rewrite <- Htab; apply Z.div_mul; lia).
  destruct s as [b f r c i t o h d]. cbn [FatFiles.fat bpb disk] in *.
  destruct (chunked_stamped env Hdev Hsok (mkFs b f r c i t o h d) Hbps (reserved_sector_count b) n (Z.to_nat n) 0 d) as (d1 & E1 & S1);
    [lia|lia|lia|lia|lia|].
  unfold write_fat_table_to_disk, written_area, table_at, FAT_TABLE_SECTOR. cbn [bpb]. fold n. rewrite Hq.
  change (set_disk d (mkFs b f r c i t o h d)) with (mkFs b f r c i t o h d) in E1. rewrite E1. cbn [mbind option_bind].
  change (bpb (set_disk d1 (mkFs b f r c i t o h d))) with b. cbn [FatFiles.fat].
  destruct (Z.ltb_spec 1 (num_fats b)) as [Hf|Hf].
  - destruct (chunked_stamped env Hdev Hsok (mkFs b f r c i t o h d) Hbps (reserved_sector_count b + n) n (Z.to_nat n) 0 d1) as (d2 & E2 & S2);
      [lia|lia|lia|lia|lia|]. exists d2. split; [exact E2|].
    assert (disk_bytes d2 (reserved_sector_count b) (n * 512) = fat_bytes (mkFs b f r c i t o h d)) as HB1.
    { rewrite <- (disk_bytes_stamped _ _ _ _ _ Hb HB S1). unfold disk_bytes, SECTOR_SIZE. apply list_fmap_ext.
      intros k x Hx. apply lookup_seqZ in Hx. rewrite S2.
      destruct (Z.leb_spec ((reserved_sector_count b + n) * 512 + 0 * 512) (reserved_sector_count b * 512 + x)); [lia|done]. }
    rewrite HB1, (disk_bytes_stamped (reserved_sector_count b + n) _ _ _ _ ltac:(lia) HB S2).
    split_and!; [by apply words_of_fat_bytes|intros _; by apply words_of_fat_bytes| |].
    { intros j Hj. f_equal. apply disk_bytes_ext. intros a Ha. rewrite (stamped_other _ _ _ _ _ _ a S2), (stamped_other _ _ _ _ _ _ a S1) by nia. done. }
    intros a Ha. cbv zeta in Ha. rewrite (stamped_other _ _ _ _ _ _ a S2), (stamped_other _ _ _ _ _ _ a S1) by lia. done.
  - exists d1. split; [done|]. rewrite (disk_bytes_stamped _ _ _ _ _ Hb HB S1).
    split_and!; [by apply words_of_fat_bytes|lia| |].
    { intros j Hj. f_equal. apply disk_bytes_ext. intros a Ha. rewrite (stamped_other _ _ _ _ _ _ a S1) by nia. done. }
    intros a Ha. cbv zeta in Ha. rewrite (stamped_other _ _ _ _ _ _ a S1) by lia. done.
Qed.
