(* ===== verification/FatLoad.v ===== *)
(** * Reading files

    Loading a file gives the bytes of its clusters, cut at its size, from the
    device the first time and from the cache afterwards. *)

From stdpp Require Import strings.
From S2P Require Import Prelude Message UserMem Fd Task Fat FatFiles FatProofs FatSpec.

Open Scope Z_scope.

(** ** The loop *)

Definition cluster_data (s : Fs) (c : Z) : list Z := disk_bytes (disk s) (calc_start_sector (bpb s) c) (BYTES_PER_CLUSTER s).
Definition content (s : Fs) (cs : list Z) : list Z := concat (cluster_data s <$> cs).

Lemma length_cluster_data s c : length (cluster_data s c) = Z.to_nat (BYTES_PER_CLUSTER s).
Proof. unfold cluster_data, disk_bytes. by rewrite length_fmap, length_seqZ. Qed.

Lemma length_content s cs : length (content s cs) = (length cs * Z.to_nat (BYTES_PER_CLUSTER s))%nat.
Proof.
  unfold content. induction cs as [|c cs IH]; [done|]. rewrite fmap_cons. cbn [concat].
  rewrite length_app, IH, length_cluster_data. simpl. lia.
Qed.

Lemma lenz_copy_at buf off data : 0 <= off -> off + lenz data <= lenz buf -> lenz (copy_at buf off data) = lenz buf.
Proof. intros Ho Hl. unfold copy_at, lenz in *. rewrite !length_app, length_take, length_drop. lia. Qed.

Lemma take_copy_at buf off data n : 0 <= off -> off + lenz data <= lenz buf -> n = off + lenz data ->
  take (Z.to_nat n) (copy_at buf off data) = take (Z.to_nat off) buf ++ data.
Proof.
  intros Ho Hl ->. unfold copy_at, lenz in *. rewrite app_assoc. apply take_app_length'. rewrite length_app, length_take. lia.
Qed.

Section load.
Context (env : FsEnv) (s : Fs) (Hread : forall x, read_ok env x = true) (Hbpc : 0 < BYTES_PER_CLUSTER s).

(** One round: [k] bytes of a cluster and the rest of the chain. *)
Lemma content_split (buf : list Z) off size c cs :
  0 <= off < size -> lenz buf = size ->
  let k := Z.min (BYTES_PER_CLUSTER s) (size - off) in
  let buf' := copy_at buf off (take (Z.to_nat k) (cluster_data s c)) in
  lenz buf' = size /\
  take (Z.to_nat (off + k)) buf' ++ take (Z.to_nat (size - (off + k))) (content s cs) =
  take (Z.to_nat off) buf ++ take (Z.to_nat (size - off)) (content s (c :: cs)).
Proof.
  intros Ho Hl k buf'. assert (lenz (take (Z.to_nat k) (cluster_data s c)) = k) as Hk
    by (unfold lenz; rewrite length_take, length_cluster_data; lia).
  split; [unfold buf'; rewrite lenz_copy_at; lia|]. unfold buf'. rewrite take_copy_at by lia.
  change (content s (c :: cs)) with (cluster_data s c ++ content s cs). rewrite take_app, length_cluster_data.
  rewrite <- app_assoc. f_equal. f_equal.
  - destruct (Z.le_gt_cases (BYTES_PER_CLUSTER s) (size - off)).
    + rewrite !take_ge; [done| |]; rewrite length_cluster_data; lia.
    + by replace k with (size - off) by lia.
  - f_equal. lia.
Qed.

Lemma load_loop_spec : forall cs c fuel off size buf,
  linked (fat s) (c :: cs) -> Forall (fun c => c < FAT32_EOC_MIN) (c :: cs) ->
  0 <= off <= size -> lenz buf = size -> size - off <= lenz (content s (c :: cs)) -> size - off <= Z.of_nat fuel ->
  load_loop fuel env s c off size buf =
    Some (Some (take (Z.to_nat off) buf ++ take (Z.to_nat (size - off)) (content s (c :: cs)))).
Proof.
  induction cs as [|b cs IH]; intros c fuel off size buf Hlk Hlt Ho Hl Hc Hf; apply Forall_cons in Hlt as [Hcl Hlt];
    (destruct (Z.eq_dec size off) as [->|Hne];
      [destruct fuel; cbn [load_loop]; rewrite Z.leb_refl, orb_true_r, Z.sub_diag, app_nil_r, take_ge by (unfold lenz in Hl; lia); done|]);
    (destruct fuel as [|fuel]; [lia|]); cbn [load_loop];
    (destruct (Z.eqb_spec c END_OF_CLUSTER_CHAIN) as [->|_]; [unfold END_OF_CLUSTER_CHAIN, FAT32_EOC_MIN in Hcl; lia|]);
    (destruct (Z.leb_spec size off) as [|_]; [lia|]); cbn [orb]; unfold read_from_blk; rewrite Hread;
    (destruct (Z.eqb_spec (BYTES_PER_CLUSTER s) 0) as [|_]; [lia|]); cbn [negb andb]; cbv zeta;
    fold (cluster_data s c); unfold next_cluster; cbn [linked] in Hlk.
  - destruct Hlk as (v & -> & Hv). cbn [mbind option_bind]. destruct (Z.leb_spec FAT32_EOC_MIN v); [|lia].
    destruct (content_split buf off size c []) as [Hlen Heq]; [lia|done|]. rewrite <- Heq.
    assert (lenz (content s [c]) = BYTES_PER_CLUSTER s) as Hcs by (unfold lenz; rewrite length_content; simpl; lia).
    rewrite Hcs in Hc. change (content s []) with (@nil Z). rewrite take_nil, app_nil_r, (take_ge (copy_at _ _ _)) by (unfold lenz in Hlen; lia).
    by destruct fuel; cbn [load_loop]; rewrite Z.eqb_refl.
  - destruct Hlk as [-> Hlk]. cbn [mbind option_bind]. pose proof Hlt as Hlt'. apply Forall_cons in Hlt' as [Hb _].
    destruct (Z.leb_spec FAT32_EOC_MIN b); [lia|].
    destruct (content_split buf off size c (b :: cs)) as [Hlen Heq]; [lia|done|]. rewrite <- Heq.
    apply IH; [done|done|lia|done| |lia].
    unfold lenz in *. rewrite length_content in *. cbn [length] in *. lia.
Qed.
End load.

(** ** The cache *)

Lemma touch_cache_none path t cs : Forall (fun c => cache_path c <> path) cs -> fst (touch_cache path t cs) = None.
Proof.
  induction 1 as [|c cs Hc _ IH]; [done|]. cbn [touch_cache]. rewrite bool_decide_eq_false_2 by done.
  by destruct (touch_cache path t cs).
Qed.

(** The first element with the path, its tick renewed. *)
Lemma touch_cache_some path t cs (P : FileCache -> Prop) :
  Exists (fun c => cache_path c = path) cs -> Forall (fun c => cache_path c = path -> P c) cs ->
  exists c, P c /\ cache_path c = path /\
    fst (touch_cache path t cs) = Some (mkCache (cache_id c) (requester c) (buffer c) (total_size c) (read_size c) t (cache_path c)).
Proof.
  induction cs as [|c cs IH]; intros He HP; [by apply Exists_nil in He|]. apply Forall_cons in HP as [Hc HP]. cbn [touch_cache].
  destruct (bool_decide_reflect (cache_path c = path)) as [Hp|Hp]; [exists c; split_and!; auto|].
  apply Exists_cons in He as [?|He]; [done|]. destruct (IH He HP) as (c' & H1 & H2 & H3). exists c'. split_and!; [done|done|].
  by destruct (touch_cache path t cs).
Qed.

Lemma find_miss path s : Forall (fun c => cache_path c <> path) (caches s) -> find_file_cache_by_path path s = (None, s).
Proof.
  intros Hn. unfold find_file_cache_by_path. pose proof (touch_cache_none path (u64 (lru_tick s + 1)) (caches s) Hn) as Ht.
  destruct (touch_cache _ _ _) as [[c|] cs]; [done|done].
Qed.

Lemma evict_incl cs (P : FileCache -> Prop) : Forall P cs -> Forall P (evict cs).
Proof.
  intros HP. unfold evict. destruct cs as [|c cs]; [done|]. apply Forall_forall. intros x Hx.
  apply list_elem_of_filter in Hx as [_ Hx]. rewrite Forall_forall in HP. by apply HP.
Qed.

Lemma cstr_length l : (length (cstr l) <= length l)%nat.
Proof. induction l as [|c l IH]; [done|]. cbn [cstr length]. destruct (c =? 0); simpl; lia. Qed.

Lemma key_fits e : take 12 (entry_cache_key e) = entry_cache_key e.
Proof.
  apply take_ge. unfold entry_cache_key. pose proof (cstr_length (take 11 (de_name e))). rewrite length_take in *. lia.
Qed.

(** ** Loading *)

(** The clusters of a file: a chain that holds all of it. *)
Record file_on (s : Fs) (e : DirectoryEntry) (cs : list Z) : Prop := mkFileOn {
  fo_first : head cs = Some (first_cluster e);
  fo_used : first_cluster e <> 0;
  fo_chain : linked (fat s) cs;
  fo_valid : Forall (fun c => c < FAT32_EOC_MIN) cs;
  fo_size : 0 < file_size e <= lenz cs * BYTES_PER_CLUSTER s;
}.

Definition bytes_of_file (s : Fs) (e : DirectoryEntry) (cs : list Z) : list Z := take (Z.to_nat (file_size e)) (content s cs).

(** [c] holds [data]. *)
Definition cache_of (data : list Z) (c : FileCache) : Prop := buffer c = data /\ total_size c = lenz data.

(** What loading changes: the cache alone. *)
Definition only_caches (s s' : Fs) : Prop := exists c i t, s' = set_caches c i t s.

Section load_file.
Context (env : FsEnv) (s : Fs) (e : DirectoryEntry) (cs : list Z).
Context (Hread : forall x, read_ok env x = true) (Hbpc : 0 < BYTES_PER_CLUSTER s) (Hfile : file_on s e cs).
Context (Hmiss : Forall (fun c => cache_path c <> entry_cache_key e) (caches s)).

Lemma lenz_bytes_of_file : lenz (bytes_of_file s e cs) = file_size e.
Proof. destruct Hfile. unfold bytes_of_file, lenz in *. rewrite length_take, length_content. nia. Qed.

Lemma load_file_spec req : exists c s',
  load_file env e req s = Some (Some c, s') /\ cache_of (bytes_of_file s e cs) c /\ only_caches s s' /\
  Exists (fun x => cache_path x = entry_cache_key e) (caches s') /\
  Forall (fun x => cache_path x = entry_cache_key e -> cache_of (bytes_of_file s e cs) x) (caches s').
Proof.
  pose proof lenz_bytes_of_file as Hlen. unfold load_file. rewrite find_miss by done. unfold create_file_cache.
  set (old := if MAX_FILE_CACHES <=? lenz (caches s) then evict (caches s) else caches s).
  set (c0 := mkCache _ _ _ _ _ _ _). cbn [buffer].
  destruct Hfile as [Hhd Hnz Hlk Hv Hsz]. destruct cs as [|c1 cs']; [done|]. injection Hhd as Hc1.
  set (s1 := set_caches _ _ _ s).
  rewrite <- Hc1, (load_loop_spec env s1 Hread Hbpc cs'); [|done|done|lia| | |].
  2:{ unfold c0, lenz. cbn [buffer]. rewrite length_replicate. lia. }
  2:{ unfold lenz in *. rewrite length_content. change (BYTES_PER_CLUSTER s1) with (BYTES_PER_CLUSTER s). nia. }
  2:{ lia. }
  cbn [mbind option_bind]. rewrite take_0, app_nil_l, Z.sub_0_r.
  change (content s1 (c1 :: cs')) with (content s (c1 :: cs')). fold (bytes_of_file s e (c1 :: cs')).
  eexists _, _. split; [reflexivity|].
  assert (Forall (fun x => cache_path x <> entry_cache_key e) old) as Hold
    by (unfold old; destruct (_ <=? _); [by apply evict_incl|done]).
  split_and!; [by split|by eexists _, _, _| |].
  - unfold put_cache, s1. cbn [caches set_caches]. rewrite fmap_app. apply Exists_app. right. constructor.
    cbn [cache_id]. unfold c0. cbn [cache_id]. rewrite Z.eqb_refl. cbn [cache_path]. apply key_fits.
  - unfold put_cache, s1. cbn [caches set_caches]. apply Forall_fmap, Forall_forall. intros x Hx. cbn [compose cache_id].
    destruct (Z.eqb_spec (cache_id x) (cache_id c0)) as [Hid|Hid]; [intros _; by split|].
    intros Hp. apply elem_of_app in Hx as [Hx|Hx]; [rewrite Forall_forall in Hold; by destruct (Hold x Hx)|].
    apply list_elem_of_singleton in Hx as ->. done.
Qed.

(** Later loads find it in the cache. *)
Lemma load_file_hit env' req s' :
  Exists (fun x => cache_path x = entry_cache_key e) (caches s') ->
  Forall (fun x => cache_path x = entry_cache_key e -> cache_of (bytes_of_file s e cs) x) (caches s') ->
  exists c s'', load_file env' e req s' = Some (Some c, s'') /\ cache_of (bytes_of_file s e cs) c.
Proof.
  intros He HF. unfold load_file, find_file_cache_by_path.
  destruct (touch_cache_some _ (u64 (lru_tick s' + 1)) _ _ He HF) as (c & [Hb Ht] & Hp & Hf).
  destruct (touch_cache _ _ _) as [r cs'']. cbn [fst] in Hf. subst r. eexists _, _. split; [done|]. by split.
Qed.
End load_file.

Definition answer_data (data : list Z) : Response := mkResp (err OK) (lenz data) 0 [] data.

Lemma reply_file_data_ok env data : ool_ok env = true -> 0 < lenz data -> reply_file_data env data = answer_data data.
Proof. intros Ho Hd. unfold reply_file_data. destruct (Z.eqb_spec (lenz data) 0); [lia|]. by rewrite Ho. Qed.

Lemma read_slice_all l : read_slice l 0 (lenz l) = Some l.
Proof.
  unfold read_slice, slice. rewrite Z.add_0_l, !Z.leb_refl. cbn [andb]. unfold lenz.
  change (Z.to_nat 0) with O. by rewrite drop_0, Nat2Z.id, take_ge.
Qed.

(** Answering from a filled cache. *)
Lemma reply_read_result_ok env req e s data c s' :
  0 < file_size e -> first_cluster e <> 0 -> ool_ok env = true -> 0 < lenz data ->
  load_file env e req s = Some (Some c, s') -> cache_of data c ->
  reply_read_result env req e s = Some (answer_data data, s').
Proof.
  intros Hs Hc Ho Hd Hl [Hb Ht]. unfold reply_read_result.
  destruct (Z.eqb_spec (file_size e) 0), (Z.eqb_spec (first_cluster e) 0); try lia. cbn [orb].
  rewrite Hl. cbn [mbind option_bind]. rewrite Hb, Ht, read_slice_all. cbn [mbind option_bind]. by rewrite reply_file_data_ok.
Qed.

Lemma load_answers env sender name s i e cs :
  find_dir_entry (root s) (to_upper name) = Some i -> entry_at i s = Some e -> file_on s e cs ->
  0 < BYTES_PER_CLUSTER s -> Forall (fun c => cache_path c <> entry_cache_key e) (caches s) ->
  (forall x, read_ok env x = true) -> ool_ok env = true ->
  exists s', handle_fs_load env sender name s = Some (answer_data (bytes_of_file s e cs), s') /\ only_caches s s' /\
    forall env' sender', ool_ok env' = true ->
      exists s'', handle_fs_load env' sender' name s' = Some (answer_data (bytes_of_file s e cs), s'').
Proof.
  intros Hfind He Hfile Hbpc Hmiss Hread Hool.
  destruct (load_file_spec env s e cs Hread Hbpc Hfile Hmiss sender) as (c & s' & Hl & Hc & Honly & Hex & Hall).
  pose proof (lenz_bytes_of_file s e cs Hbpc Hfile) as Hlen. destruct (fo_size _ _ _ Hfile) as [Hs _].
  pose proof (fo_used _ _ _ Hfile) as Hu. assert (root s' = root s) as Hr by (by destruct Honly as (? & ? & ? & ->)).
  exists s'. unfold handle_fs_load. rewrite Hfind, He. cbn [mbind option_bind].
  rewrite (reply_read_result_ok env sender e s (bytes_of_file s e cs) c s') by (done || lia).
  split_and!; [done|done|]. intros env' sender' Ho'. unfold entry_at in *. rewrite Hr, Hfind, He. cbn [mbind option_bind].
  destruct (load_file_hit s e cs env' sender' s' Hex Hall) as (c' & s'' & Hl' & Hc').
  exists s''. by rewrite (reply_read_result_ok env' sender' e s' (bytes_of_file s e cs) c' s'') by (done || lia).
Qed.

(** C14: The theorem: a load request for a file of the root directory is answered
    with the bytes of the file's clusters, cut at its size.  Nothing but the cache
    changes, and from then on the same answer comes from the cache, whoever asks
    and whether or not the device works. *)
Theorem load_returns_file env sender name s i e cs :
  find_dir_entry (root s) (to_upper name) = Some i -> entry_at i s = Some e -> file_on s e cs ->
  0 < BYTES_PER_CLUSTER s -> Forall (fun c => cache_path c <> entry_cache_key e) (caches s) ->
  (forall x, read_ok env x = true) -> ool_ok env = true ->
  exists s', handle_fs_load env sender name s = Some (answer_data (bytes_of_file s e cs), s') /\ only_caches s s' /\
    forall env' sender', ool_ok env' = true ->
      exists s'', handle_fs_load env' sender' name s' = Some (answer_data (bytes_of_file s e cs), s'').
Proof. apply load_answers. Qed.
