(* ===== verification/FatWrite.v ===== *)
(** * Writing files

    The first write to an empty file, followed by a load, gives the bytes that
    were written; what it costs in clusters. *)

From stdpp Require Import strings.
From S2P Require Import Prelude Message UserMem Fd Task Fat FatFiles FatProofs FatSpec FatLoad.

Open Scope Z_scope.

(** ** Writing the table back always ends *)

Lemma one_by_one_total env n : forall base i s, exists d, write_fat_sectors_one_by_one env n base i s = set_disk d s.
Proof.
  induction n as [|n IH]; intros base i s; [exists (disk s); by destruct s|]. cbn [write_fat_sectors_one_by_one]. cbv zeta.
  destruct (sector_ok env i); cbn [negb]; [|apply IH].
  destruct (IH base (i + 1) (set_disk (snd (write_to_blk env (slice (fat_bytes s) (i * bytes_per_sector (bpb s))
    (bytes_per_sector (bpb s))) (u32 (base + i)) (disk s))) s)) as [d Hd]. exists d. exact Hd.
Qed.

Lemma chunked_total env base n : forall fuel off s, bytes_per_sector (bpb s) = 512 -> n - off <= Z.of_nat fuel ->
  exists d, write_fat_sectors_chunked fuel env base n off s = Some (set_disk d s).
Proof.
  induction fuel as [|fuel IH]; intros off s Hb Hf; cbn [write_fat_sectors_chunked]; cbv zeta;
    (destruct (Z.leb_spec n off); [exists (disk s); by destruct s|]); [lia|].
  rewrite Hb. change (FAT_WRITE_CHUNK_SIZE / 512) with 128. set (s1 := if chunk_ok env off then _ else _).
  assert (exists d, s1 = set_disk d s) as [d1 ->]
    by (unfold s1; destruct (chunk_ok env off); [by eexists|apply one_by_one_total]).
  destruct (IH (off + Z.min (n - off) 128) (set_disk d1 s) Hb) as [d Hd]; [lia|]. exists d. exact Hd.
Qed.

Lemma write_fat_total env s : bytes_per_sector (bpb s) = 512 -> exists d, write_fat_table_to_disk env s = Some (set_disk d s).
Proof.
  intros Hb. unfold write_fat_table_to_disk.
  destruct (chunked_total env (FAT_TABLE_SECTOR s) (fat_size_32 (bpb s)) (Z.to_nat (fat_size_32 (bpb s))) 0 s Hb) as [d ->]; [lia|].
  cbn [mbind option_bind]. change (bpb (set_disk d s)) with (bpb s). destruct (1 <? num_fats (bpb s)); [|by exists d].
  destruct (chunked_total env (FAT_TABLE_SECTOR (set_disk d s) + fat_size_32 (bpb s)) (fat_size_32 (bpb s))
    (Z.to_nat (fat_size_32 (bpb s))) 0 (set_disk d s) Hb) as [d2 ->]; [lia|]. by exists d2.
Qed.

(** ** Entries *)

Lemma first_cluster_set c e : word c -> first_cluster (set_first_cluster c e) = c.
Proof.
  intros Hc. unfold first_cluster, set_first_cluster, set_clusters, CLUSTER_HIGH_SHIFT, CLUSTER_LOW_MASK.
  cbn [first_cluster_low first_cluster_high]. change 65535 with (Z.ones 16). apply Z.bits_inj'. intros n Hn.
  rewrite Z.lor_spec, Z.land_spec, Z.testbit_ones_nonneg by lia. destruct (Z.ltb_spec n 16).
  - rewrite Z.shiftl_spec_low by lia. by rewrite andb_true_r, orb_false_r.
  - rewrite Z.shiftl_spec, Z.land_spec, Z.shiftr_spec, Z.testbit_ones_nonneg by lia.
    replace (n - 16 + 16) with n by lia. rewrite andb_false_r. cbn [orb].
    destruct (Z.ltb_spec (n - 16) 16); [by rewrite andb_true_r|]. rewrite andb_false_r.
    symmetry. apply (testbit_above c 32); [exact Hc|lia].
Qed.

(** Entries a scan cannot tell apart. *)
Definition same_name (e e' : DirectoryEntry) : Prop := de_name e' = de_name e /\ attribute e' = attribute e.

Lemma scan_same fn dir dir' i :
  Forall2 same_name dir dir' -> (forall e e', same_name e e' -> fn e = fn e') -> scan_from i fn dir = scan_from i fn dir'.
Proof.
  intros HF Hfn. revert i. induction HF as [|e e' dir dir' He _ IH]; intros i; [done|]. cbn [scan_from].
  rewrite (Hfn e e' He), (IH (i + 1)). by destruct He as [-> ->].
Qed.

Lemma find_dir_entry_put dir name i e e' : atz dir i = Some e -> same_name e e' ->
  find_dir_entry (setz dir i e') name = find_dir_entry dir name.
Proof.
  intros He Hs. apply atz_Some in He as [Hi He]. symmetry. apply scan_same.
  - unfold setz. rewrite <- (list_insert_id dir (Z.to_nat i) e He) at 1. apply Forall2_insert; [|done].
    apply Forall_Forall2_diag, Forall_true. by split.
  - intros a b [Hn _]. unfold entry_name_is_equal, read_dir_entry_name_raw. by rewrite Hn.
Qed.

(** ** The geometry of a volume *)

Definition data_start (b : BiosParameterBlock) : Z := reserved_sector_count b + num_fats b * fat_size_32 b.

Record mounted (s : Fs) : Prop := mkMounted {
  m_bps : bytes_per_sector (bpb s) = 512;
  m_spc : 1 <= sectors_per_cluster (bpb s) < 256;
  m_fat : total_fat_clusters (bpb s) <= lenz (fat s);
  m_root : 2 <= root_cluster (bpb s) < total_fat_clusters (bpb s);
  m_root_used : ~ is_free (fat s) (root_cluster (bpb s));
  m_dir : 32 * lenz (root s) <= BYTES_PER_CLUSTER s;
  m_names : Forall (fun e => length (de_name e) = 11%nat) (root s);
  m_sectors : 0 <= data_start (bpb s) /\ data_start (bpb s) + total_sectors_32 (bpb s) <= 2 ^ 32;
}.

Lemma total_below_eoc b : total_fat_clusters b <= FAT32_EOC_MIN.
Proof.
  unfold total_fat_clusters. destruct (_ =? 0); [done|]. cbv zeta.
  destruct (Z.ltb_spec (total_sectors_32 b / sectors_per_cluster b) FAT32_EOC_MIN); lia.
Qed.

Lemma bpc_spc s : mounted s -> BYTES_PER_CLUSTER s = 512 * sectors_per_cluster (bpb s).
Proof. intros Hm. unfold BYTES_PER_CLUSTER, bytes_per_cluster. by rewrite (m_bps s Hm). Qed.

Lemma cluster_sectors b c : 1 <= sectors_per_cluster b -> 2 <= c < total_fat_clusters b ->
  0 <= (c - 2) * sectors_per_cluster b /\ (c - 2) * sectors_per_cluster b + sectors_per_cluster b <= total_sectors_32 b.
Proof.
  unfold total_fat_clusters. intros Hs Hc. destruct (Z.eqb_spec (sectors_per_cluster b) 0); [lia|]. cbv zeta in Hc.
  set (q := total_sectors_32 b / sectors_per_cluster b) in *.
  assert (c < q) as Hq by (destruct (Z.ltb_spec q FAT32_EOC_MIN); lia).
  assert (sectors_per_cluster b * q <= total_sectors_32 b) as Hd by (apply Z.mul_div_le; lia). nia.
Qed.

Lemma calc_start_sector_exact s c : mounted s -> 2 <= c < total_fat_clusters (bpb s) ->
  calc_start_sector (bpb s) c = data_start (bpb s) + (c - 2) * sectors_per_cluster (bpb s).
Proof.
  intros Hm Hc. destruct (m_sectors s Hm) as [H1 H2]. pose proof (m_spc s Hm) as Hspc.
  destruct (cluster_sectors (bpb s) c ltac:(lia) Hc) as [H3 H4]. unfold calc_start_sector. fold (data_start (bpb s)).
  assert (2 ^ 32 <= 2 ^ 64) by (apply pow2_le_mono; lia).
  rewrite (wrap_small 32 (data_start _)), (wrap_small 64 ((c - 2) * _)) by lia. rewrite (wrap_small 64), (wrap_small 32) by lia. done.
Qed.

(** Writing one cluster leaves the bytes of another. *)
Lemma other_cluster s c c' bytes d d' : mounted s -> 2 <= c < total_fat_clusters (bpb s) -> 2 <= c' < total_fat_clusters (bpb s) -> c <> c' ->
  lenz bytes <= BYTES_PER_CLUSTER s -> d' = disk_put (calc_start_sector (bpb s) c') bytes d ->
  disk_bytes d' (calc_start_sector (bpb s) c) (BYTES_PER_CLUSTER s) = disk_bytes d (calc_start_sector (bpb s) c) (BYTES_PER_CLUSTER s).
Proof.
  intros Hm Hc Hc' Hne Hl ->. unfold disk_bytes. apply list_fmap_ext. intros k x Hx. apply lookup_seqZ in Hx as [-> Hk].
  rewrite !calc_start_sector_exact by done. rewrite bpc_spc in * by done. pose proof (m_spc s Hm).
  unfold disk_put, SECTOR_SIZE. set (i := _ - _). destruct (Z.leb_spec 0 i), (Z.ltb_spec i (lenz bytes)); try done.
  exfalso. subst i. nia.
Qed.

(** ** Growing an empty file *)

Section grow.
Context (env : FsEnv) (s : Fs) (entry n : Z) (e : DirectoryEntry).
Context (Hm : mounted s) (He : entry_at entry s = Some e) (Hsize : file_size e = 0) (Hn : 1 <= n <= BYTES_PER_CLUSTER s).
Let total := total_fat_clusters (bpb s).

Lemma clusters_for_0 : clusters_for s 0 = 0.
Proof. unfold clusters_for. apply Z.div_small. lia. Qed.

Lemma clusters_for_1 : clusters_for s n = 1.
Proof.
  unfold clusters_for. symmetry. apply (Z.div_unique _ _ _ (n - 1)); lia.
Qed.

(** The state once the file has its first cluster, [c]. *)
Definition with_first (c : Z) (f : list Z) (d : Disk) : Fs := set_disk d (put_entry entry (set_first_cluster c e) (set_fat f s)).

(** One cluster too many is asked for: the file has one, and none counts. *)
Lemma grow_with_first c f d : first_cluster (set_first_cluster c e) = c -> c <> 0 -> atz f c = Some END_OF_CLUSTER_CHAIN ->
  lenz f = lenz (fat s) -> 2 <= total ->
  forall s1, s1 = with_first c f d ->
  grow_file_if_needed env entry n s1 =
    (if lenz (free_list f total) <? 1 then Some (err ERR_NO_MEMORY, s1)
     else '(l, f') ← extend_cluster_chain f total c 1;
          if l =? 0 then Some (err ERR_NO_MEMORY, set_fat f' s1)
          else s2 ← write_fat_table_to_disk env (set_fat f' s1); Some (err OK, s2)).
Proof.
  intros Hfc Hc0 Hend Hlen Ht s1 ->. unfold grow_file_if_needed. pose proof (m_fat s Hm) as Hmf. fold total in Hmf.
  assert (entry_at entry (with_first c f d) = Some (set_first_cluster c e)) as He1.
  { unfold entry_at, with_first in *. cbn [root set_disk put_entry set_root set_fat]. apply atz_setz_eq. by eapply atz_Some_lt. }
  rewrite He1. cbn [mbind option_bind]. rewrite Hfc. destruct (Z.eqb_spec c 0); [done|]. cbn [mbind option_bind].
  rewrite He1. cbn [mbind option_bind]. change (file_size (set_first_cluster c e)) with (file_size e). rewrite Hsize.
  change (clusters_for (with_first c f d)) with (clusters_for s). rewrite clusters_for_0, clusters_for_1.
  change (1 <=? 0) with false. change (1 - 0) with 1. unfold free_clusters, count_free_clusters.
  change (fat (with_first c f d)) with f. change (bpb (with_first c f d)) with (bpb s). fold total.
  rewrite count_free_spec by lia. cbn [mbind option_bind]. fold (free_list f total). rewrite Hfc.
  destruct (lenz (free_list f total) <? 1); [done|].
  apply atz_Some_lt in Hend as Hlt. unfold lenz in Hlt. destruct (length f) as [|k]; [lia|]. cbn [last_cluster_from]. unfold next_cluster. rewrite Hend. cbn [mbind option_bind].
  change (FAT32_EOC_MIN <=? END_OF_CLUSTER_CHAIN) with true. cbn [mbind option_bind]. rewrite Z.eqb_refl. done.
Qed.

Lemma first_free_facts c rest : free_list (fat s) total = c :: rest ->
  2 <= c < total /\ word c /\ c <> root_cluster (bpb s) /\
  atz (chained (fat s) c []) c = Some END_OF_CLUSTER_CHAIN /\ lenz (chained (fat s) c []) = lenz (fat s) /\
  free_list (chained (fat s) c []) total = rest.
Proof.
  intros Hf. assert (c ∈ free_list (fat s) total) as Hc by (rewrite Hf; by left).
  apply elem_free_list in Hc as [Hfree Hc]. pose proof (m_fat s Hm) as Hmf. fold total in Hmf.
  pose proof (total_below_eoc (bpb s)) as Ht. fold total in Ht. unfold FAT32_EOC_MIN in Ht.
  split_and!; [lia|lia|unfold word; change (2 ^ 32) with 4294967296; lia| | |by rewrite lenz_chained|].
  - intros ->. by destruct (m_root_used s Hm).
  - unfold chained. cbn [link]. unfold last_of. apply atz_setz_eq. rewrite lenz_setz. simpl. lia.
  - unfold chained. cbn [link]. change (last_of c []) with c. unfold setz. rewrite list_insert_insert_eq.
    apply frees_take_first; [lia|lia|done|done].
Qed.

Hypothesis (Hempty : first_cluster e = 0).

Lemma grow_empty c rest : free_list (fat s) total = c :: rest -> exists d,
  grow_file_if_needed env entry n s = grow_file_if_needed env entry n (with_first c (chained (fat s) c []) d).
Proof.
  intros Hf. destruct (first_free_facts c rest Hf) as (Hc & Hw & _).
  destruct (write_fat_total env (put_entry entry (set_first_cluster c e) (set_fat (chained (fat s) c []) s)) (m_bps s Hm)) as [d Hd].
  exists d. unfold grow_file_if_needed at 1. rewrite He. cbn [mbind option_bind]. rewrite Hempty, Z.eqb_refl.
  fold total. rewrite allocate_chain_spec by (apply (m_fat s Hm) || apply total_below_eoc || done). rewrite Hf. change (Z.to_nat (Z.max 1 1)) with 1%nat.
  cbn [take]. rewrite take_0. change (lenz [c] <? 1) with false. cbn [mbind option_bind]. destruct (Z.eqb_spec c 0); [lia|].
  rewrite Hd. cbn [mbind option_bind]. fold (with_first c (chained (fat s) c []) d). unfold grow_file_if_needed at 1.
  assert (entry_at entry (with_first c (chained (fat s) c []) d) = Some (set_first_cluster c e)) as He1
    by (unfold entry_at, with_first in *; cbn [root set_disk put_entry set_root set_fat]; apply atz_setz_eq; by eapply atz_Some_lt).
  rewrite He1. cbn [mbind option_bind]. rewrite first_cluster_set by done. destruct (Z.eqb_spec c 0); [lia|].
  cbn [mbind option_bind]. rewrite He1. cbn [mbind option_bind]. by rewrite first_cluster_set by done.
Qed.

Lemma grow_fails c : free_list (fat s) total = [c] -> exists d,
  grow_file_if_needed env entry n s = Some (err ERR_NO_MEMORY, with_first c (chained (fat s) c []) d).
Proof.
  intros Hf. destruct (grow_empty c [] Hf) as [d Hg]. destruct (first_free_facts c [] Hf) as (Hc & Hw & _ & Hend & Hlen & Hfree).
  exists d. rewrite Hg. rewrite (grow_with_first c (chained (fat s) c []) d); [by rewrite Hfree|by apply first_cluster_set|lia|done|done|lia|done].
Qed.

Lemma grow_ok c c2 rest : free_list (fat s) total = c :: c2 :: rest -> exists d f,
  grow_file_if_needed env entry n s = Some (err OK, with_first c f d) /\ linked f [c; c2] /\ lenz f = lenz (fat s).
Proof.
  intros Hf. destruct (grow_empty c (c2 :: rest) Hf) as [d Hg].
  destruct (first_free_facts c (c2 :: rest) Hf) as (Hc & Hw & _ & Hend & Hlen & Hfree). pose proof (m_fat s Hm) as Hmf. fold total in Hmf.
  set (f1 := chained (fat s) c []) in *. destruct (extend_spec f1 total c 1) as [Hx _]; [lia|lia|unfold is_free; rewrite Hend; by intros [=]|lia|].
  rewrite Hfree in Hx. change (Z.to_nat 1) with 1%nat in Hx. cbn [take] in Hx. rewrite take_0 in Hx. change (lenz [c2] <? 1) with false in Hx.
  change (last_of c [c2]) with c2 in Hx. set (f2 := setz (link f1 c [c2]) c2 END_OF_CLUSTER_CHAIN) in Hx.
  destruct (free_list_range (fat s) total c [c2] 2) as (Hr & _ & Hnd); [by rewrite Hf|].
  destruct (write_fat_total env (set_fat f2 (with_first c f1 d)) (m_bps s Hm)) as [d2 Hd2].
  exists d2, f2. rewrite Hg, (grow_with_first c f1 d) by (done || lia || by apply first_cluster_set). rewrite Hfree.
  apply Forall_cons in Hr as [_ Hr]. apply Forall_cons in Hr as [Hc2 _].
  destruct (Z.ltb_spec (lenz (c2 :: rest)) 1) as [Hbad|_]; [rewrite lenz_cons in Hbad; pose proof (lenz_nonneg rest); lia|].
  rewrite Hx. cbn [mbind option_bind]. destruct (Z.eqb_spec c2 0); [lia|]. rewrite Hd2. cbn [mbind option_bind].
  split_and!; [done| |unfold f2; by rewrite lenz_setz, lenz_link].
  apply (link_linked f1 c [c2]); [lia|by repeat constructor; lia|done].
Qed.
End grow.

(** ** The first write *)

Lemma entry_at_with_first s entry e c f d : entry_at entry s = Some e ->
  entry_at entry (with_first s entry e c f d) = Some (set_first_cluster c e).
Proof.
  intros He. unfold entry_at, with_first in *. cbn [root set_disk put_entry set_root set_fat]. apply atz_setz_eq. by eapply atz_Some_lt.
Qed.

(** What one cluster holds after [data] was written at its start. *)
Definition padded (s : Fs) (data : list Z) : list Z := copy_at (replicate (Z.to_nat (BYTES_PER_CLUSTER s)) 0) 0 data.

Lemma lenz_padded s data : 0 <= BYTES_PER_CLUSTER s -> lenz data <= BYTES_PER_CLUSTER s -> lenz (padded s data) = BYTES_PER_CLUSTER s.
Proof. intros Hb Hd. unfold padded. rewrite lenz_copy_at; unfold lenz in *; rewrite ?length_replicate; lia. Qed.

Lemma take_padded s data : lenz data <= BYTES_PER_CLUSTER s -> take (length data) (padded s data) = data.
Proof. intros Hd. unfold padded, copy_at. change (Z.to_nat 0) with O. rewrite take_0, app_nil_l. by rewrite take_app_length. Qed.

Lemma write_at_start env s entry e c data count :
  entry_at entry s = Some e -> first_cluster e = c -> c <> END_OF_CLUSTER_CHAIN -> 0 <= count <= BYTES_PER_CLUSTER s ->
  0 < BYTES_PER_CLUSTER s -> cluster_buf_ok env = true -> (forall x, write_result env x = err OK) ->
  write_file_cluster env entry 0 data count s =
    Some (err OK, count, set_disk (disk_put (calc_start_sector (bpb s) c) (padded s (take (Z.to_nat count) data)) (disk s))
                           (remove_file_cache_by_path (entry_cache_key e) s)).
Proof.
  intros He Hc Hne Hn Hb Hbuf Hw. unfold write_file_cluster. rewrite He. cbn [mbind option_bind].
  rewrite Z.mod_0_l, Z.div_0_l by lia. change (Z.to_nat 0) with O. cbn [walk_chain mbind option_bind]. rewrite Hc.
  destruct (Z.eqb_spec c END_OF_CLUSTER_CHAIN); [done|]. rewrite Hbuf. cbn [negb].
  rewrite Z.sub_0_r, Z.min_l by lia. rewrite Z.eqb_refl. rewrite orb_true_r, andb_false_r. unfold write_to_blk. rewrite Hw. done.
Qed.

(** Looking a handle up does not depend on the rest of the state. *)
Lemma remove_path_miss path cs : Forall (fun c => cache_path c <> path) cs -> remove_path path cs = cs.
Proof. induction 1 as [|c cs Hc _ IH]; [done|]. cbn [remove_path]. rewrite bool_decide_eq_false_2 by done. by rewrite IH. Qed.

(** The directory written back with the entry at its place. *)
Lemma persist_same env s entry e name : entry_at entry s = Some e -> find_dir_entry (root s) name = Some entry ->
  persist_directory_entry env entry name s =
    Some (if persist_buf_ok env then
            set_disk (snd (write_to_blk env (concat (encode_entry <$> root s)) (calc_start_sector (bpb s) (root_cluster (bpb s))) (disk s))) s
          else s).
Proof.
  intros He Hf. unfold persist_directory_entry. rewrite He. cbn [mbind option_bind]. rewrite Hf.
  assert (put_entry entry e s = s) as ->.
  { unfold entry_at in He. apply atz_Some in He as [_ He]. unfold put_entry, setz. rewrite list_insert_id by done. by destruct s. }
  by destruct (persist_buf_ok env).
Qed.

Lemma length_directory dir : Forall (fun e => length (de_name e) = 11%nat) dir -> lenz (concat (encode_entry <$> dir)) = 32 * lenz dir.
Proof.
  unfold lenz. induction 1 as [|e dir He _ IH]; [done|]. rewrite fmap_cons. cbn [concat length]. rewrite length_app, lenz_encode by done. lia.
Qed.

(** Changing an entry leaves a directory that fits its cluster. *)
Lemma directory_fits s i e e' : mounted s -> entry_at i s = Some e -> de_name e' = de_name e ->
  lenz (concat (encode_entry <$> setz (root s) i e')) <= BYTES_PER_CLUSTER s.
Proof.
  intros Hm He Hn. pose proof (m_names s Hm) as Hnames. rewrite length_directory.
  - unfold lenz, setz. rewrite length_insert. apply (m_dir s Hm).
  - apply Forall_insert; [done|]. rewrite Hn. rewrite Forall_forall in Hnames. apply Hnames.
    apply atz_Some in He as [_ He]. by eapply list_elem_of_lookup_2.
Qed.

(** An open, still empty file: its ledger record, in slot [j], and its entry. *)
Record empty_file (s : Fs) (handle j : Z) (r : OpenFileRecord) (e : DirectoryEntry) : Prop := mkEmptyFile {
  ef_get : open_file_get (u32 handle) s = Some j;
  ef_record : atz (open_files s) j = Some r;
  ef_offset : offset r = 0;
  ef_found : find_dir_entry (root s) (of_name r) = Some (of_entry r);
  ef_entry : entry_at (of_entry r) s = Some e;
  ef_size : file_size e = 0;
  ef_cluster : first_cluster e = 0;
  ef_uncached : Forall (fun c => cache_path c <> entry_cache_key e) (caches s);
}.

Section write.
Context (env : FsEnv) (s : Fs) (handle j len : Z) (payload : list Z) (r : OpenFileRecord) (e : DirectoryEntry).
Context (Hm : mounted s) (Hf : empty_file s handle j r e).
Let count := Z.min len (lenz payload).
Let data := take (Z.to_nat count) payload.
Context (Hcount : 1 <= count <= BYTES_PER_CLUSTER s).
Context (Hbuf : cluster_buf_ok env = true) (Hw : forall x, write_result env x = err OK).

Lemma lenz_data : lenz data = count.
Proof. unfold data, lenz in *. rewrite length_take. unfold count, lenz. lia. Qed.

(** The entry after the write. *)
Definition written (c : Z) : DirectoryEntry := set_file_size count (set_first_cluster c e).

Lemma write_empty c c2 rest : free_list (fat s) (total_fat_clusters (bpb s)) = c :: c2 :: rest ->
  exists s', handle_fs_write env handle len payload s = Some (mkResp (err OK) count 0 [] [], s') /\
    root s' = setz (root s) (of_entry r) (written c) /\ bpb s' = bpb s /\ linked (fat s') [c; c2] /\
    caches s' = caches s /\ cluster_data s' c = padded s data.
Proof.
  intros Hfree. destruct Hf as [Hget Hrec Hoff Hfind Hent Hsize Hclu Hmiss].
  pose proof (first_free_facts s Hm c (c2 :: rest) Hfree) as (Hc & Hwc & Hroot & _).
  destruct (grow_ok env s (of_entry r) count e Hm Hent Hsize Hcount Hclu c c2 rest Hfree) as (d & f & Hg & Hlk & Hlf).
  pose proof (entry_at_with_first s (of_entry r) e c f d Hent) as He1. set (s1 := with_first s (of_entry r) e c f d) in *.
  pose proof (total_below_eoc (bpb s)) as Heoc. assert (BYTES_PER_CLUSTER s1 = BYTES_PER_CLUSTER s) as Hb1 by done.
  assert (word count) as Hwd.
  { pose proof (bpc_spc s Hm). pose proof (m_spc s Hm). unfold word. change (2 ^ 32) with 4294967296. lia. }
  unfold handle_fs_write. fold count. destruct (Z.eqb_spec (lenz payload) 0); [unfold count in Hcount; lia|].
  rewrite Hget, Hrec. cbn [mbind option_bind]. rewrite Hoff, Z.add_0_l, Hg. cbn [mbind option_bind].
  change (IS_ERR (err OK)) with false.
  rewrite (write_at_start env s1 (of_entry r) _ c payload count He1) by
    (done || lia || (apply first_cluster_set; done) || (unfold END_OF_CLUSTER_CHAIN, FAT32_EOC_MIN in *; lia)).
  cbn [mbind option_bind]. change (IS_ERR (err OK)) with false. fold data.
  set (d1 := disk_put _ _ (disk s1)). set (s2 := set_record _ _ _).
  assert (entry_at (of_entry r) s2 = Some (set_first_cluster c e)) as He2 by exact He1.
  rewrite He2. cbn [mbind option_bind]. change (file_size (set_first_cluster c e)) with (file_size e). rewrite Hsize.
  destruct (Z.eqb_spec count 0); [lia|]. destruct (Z.ltb_spec count 0); [lia|]. cbn [mbind option_bind]. rewrite He2.
  cbn [mbind option_bind]. rewrite (wrap_small 32 count) by exact Hwd. fold (written c).
  set (s3 := put_entry (of_entry r) (written c) s2).
  assert (root s3 = setz (root s) (of_entry r) (written c)) as Hr3.
  { unfold s3, s2, s1, with_first, put_entry, setz. cbn. by rewrite list_insert_insert_eq. }
  assert (0 <= of_entry r < lenz (root s)) as Hin by (by eapply atz_Some_lt).
  rewrite (persist_same env s3 (of_entry r) (written c)).
  2:{ unfold entry_at. rewrite Hr3. by apply atz_setz_eq. }
  2:{ rewrite Hr3, (find_dir_entry_put _ _ _ e) by done. done. }
  cbn [mbind option_bind]. eexists. split; [reflexivity|]. unfold write_to_blk. rewrite Hw. change (IS_ERR (err OK)) with false. cbn [snd].
  assert (caches s3 = caches s) as Hc3
    by (unfold s3, s2, s1, with_first; cbn; apply remove_path_miss; exact Hmiss).
  assert (disk s3 = disk_put (calc_start_sector (bpb s) c) (padded s data) (disk s1)) as Hd3 by reflexivity.
  assert (disk_bytes (disk s3) (calc_start_sector (bpb s) c) (BYTES_PER_CLUSTER s) = padded s data) as Hdata.
  { rewrite Hd3. rewrite <- (lenz_padded s data) at 1 by (rewrite ?lenz_data; lia). apply disk_bytes_put. }
  destruct (persist_buf_ok env); split_and!; try done.
  unfold cluster_data. cbn [bpb disk set_disk]. change (BYTES_PER_CLUSTER (set_disk _ s3)) with (BYTES_PER_CLUSTER s).
  change (bpb s3) with (bpb s). rewrite (other_cluster s c (root_cluster (bpb s)) (concat (encode_entry <$> root s3)) (disk s3)); try done.
  - apply (m_root s Hm).
  - rewrite Hr3. by apply (directory_fits s (of_entry r) e).
Qed.
End write.

(** C4: The theorem: after the first write to an empty file, of at most one
    cluster, the answer gives the number of bytes and a load request for the file
    is answered with exactly these bytes.  The device must accept the requests and
    two clusters must be free. *)
Theorem write_then_load env s handle j len payload r e sender name :
  mounted s -> empty_file s handle j r e -> to_upper name = of_name r ->
  1 <= Z.min len (lenz payload) <= BYTES_PER_CLUSTER s -> 2 <= lenz (free_list (fat s) (total_fat_clusters (bpb s))) ->
  cluster_buf_ok env = true -> ool_ok env = true -> (forall x, write_result env x = err OK) -> (forall x, read_ok env x = true) ->
  let count := Z.min len (lenz payload) in
  exists s' s'', handle_fs_write env handle len payload s = Some (mkResp (err OK) count 0 [] [], s') /\
    handle_fs_load env sender name s' = Some (answer_data (take (Z.to_nat count) payload), s'').
Proof.
  intros Hm Hf Hname Hcount Hfree Hbuf Hool Hw Hread count.
  destruct (free_list (fat s) (total_fat_clusters (bpb s))) as [|c [|c2 rest]] eqn:Hfl; [done|done|].
  destruct (write_empty env s handle j len payload r e Hm Hf Hcount Hbuf Hw c c2 rest Hfl) as (s' & Hwr & Hroot & Hbpb & Hlk & Hca & Hdata).
  pose proof (first_free_facts s Hm c (c2 :: rest) Hfl) as (Hc & Hwc & _).
  destruct (free_list_range (fat s) (total_fat_clusters (bpb s)) c [c2] 2) as (Hr & _ & _); [by rewrite Hfl|].
  pose proof (total_below_eoc (bpb s)) as Heoc. destruct Hf as [_ _ _ Hfind Hent Hsize Hclu Hmiss].
  assert (BYTES_PER_CLUSTER s' = BYTES_PER_CLUSTER s) as Hbp by (unfold BYTES_PER_CLUSTER; by rewrite Hbpb).
  assert (first_cluster (written len payload e c) = c) as Hfc by (by apply first_cluster_set).
  assert (file_on s' (written len payload e c) [c; c2]) as Hon.
  { split; [by rewrite Hfc|lia|done| |rewrite Hbp; cbn [written set_file_size file_size]; change (lenz [c; c2]) with 2; lia].
    eapply Forall_impl; [exact Hr|]. simpl. lia. }
  destruct (load_answers env sender name s' (of_entry r) (written len payload e c) [c; c2]) as (s'' & Hl & _); try done.
  - rewrite Hname, Hroot. by rewrite (find_dir_entry_put _ _ _ e).
  - unfold entry_at. rewrite Hroot. apply atz_setz_eq. by eapply atz_Some_lt.
  - lia.
  - by rewrite Hca.
  - exists s', s''. split; [done|]. rewrite Hl. do 3 f_equal. unfold bytes_of_file, content. cbn [fmap list_fmap concat]. rewrite Hdata.
    cbn [written set_file_size file_size]. fold count.
    assert (length (take (Z.to_nat count) payload) = Z.to_nat count) as Hlen by (rewrite length_take; unfold count, lenz; lia).
    rewrite take_app_le by (pose proof (lenz_padded s (take (Z.to_nat count) payload)) as Hp; unfold lenz in Hp; lia).
    rewrite <- Hlen at 1. apply take_padded. unfold lenz. lia.
Qed.

(** Not so with a single free cluster: the write takes it, asks for another one
    and fails, and so does every later write to the file, although it would fit. *)
Theorem last_cluster_unusable env s handle j len payload r e c :
  mounted s -> empty_file s handle j r e -> 1 <= Z.min len (lenz payload) <= BYTES_PER_CLUSTER s ->
  free_list (fat s) (total_fat_clusters (bpb s)) = [c] ->
  exists s', handle_fs_write env handle len payload s = Some (reply_error (err ERR_NO_MEMORY), s') /\
    forall env', handle_fs_write env' handle len payload s' = Some (reply_error (err ERR_NO_MEMORY), s').
Proof.
  intros Hm [Hget Hrec Hoff Hfind Hent Hsize Hclu Hmiss] Hcount Hfl.
  destruct (grow_fails env s (of_entry r) (Z.min len (lenz payload)) e Hm Hent Hsize Hcount Hclu c Hfl) as [d Hg].
  destruct (first_free_facts s Hm c [] Hfl) as (Hc & Hwc & _ & Hend & Hlen & Hfree).
  assert ((lenz payload =? 0) = false) as Hp by (apply Z.eqb_neq; lia).
  eexists. unfold handle_fs_write at 1. rewrite Hp, Hget, Hrec. cbn [mbind option_bind]. rewrite Hoff, Z.add_0_l, Hg.
  cbn [mbind option_bind]. change (IS_ERR (err ERR_NO_MEMORY)) with true. split; [reflexivity|].
  intros env'. set (s1 := with_first _ _ _ _ _ _). unfold handle_fs_write. rewrite Hp.
  change (open_file_get (u32 handle) s1) with (open_file_get (u32 handle) s). rewrite Hget.
  change (open_files s1) with (open_files s). rewrite Hrec. cbn [mbind option_bind]. rewrite Hoff, Z.add_0_l.
  rewrite (grow_with_first env' s (of_entry r) (Z.min len (lenz payload)) e Hm Hent Hsize Hcount c (chained (fat s) c []) d);
    [by rewrite Hfree|by apply first_cluster_set|lia|done|done|lia|done].
Qed.
