(* ===== verification/FatNames.v ===== *)
(** * Names of new files, and the ledger of open files

    Under which names a file created by a request can be found again, and how the
    ledger of open files and a fork act on each other. *)

From stdpp Require Import strings.
From S2P Require Import Prelude Message UserMem Fd Task Fat FatFiles MessageQueue TaskProofs TaskSpec.

Open Scope Z_scope.

(** ** The name field *)

Lemma rtrim_id l : Forall (fun c => c <> SFN_PAD) l -> rtrim l = l.
Proof.
  induction 1 as [|c l Hc _ IH]; [done|]. cbn [rtrim]. rewrite IH. destruct l; [|done]. by destruct (Z.eqb_spec c SFN_PAD).
Qed.

Lemma cstr_app_zeros l n : Forall (fun c => c <> 0) l -> cstr (l ++ replicate n 0) = l.
Proof.
  induction 1 as [|c l Hc _ IH]; [by destruct n|]. cbn [app cstr]. destruct (Z.eqb_spec c 0); [done|]. by rewrite IH.
Qed.

(** Characters a name may have. *)
Definition plain_name (name : list Z) : Prop := Forall (fun c => c <> 0 /\ c <> SFN_PAD) name.

Lemma plain_field name n : plain_name name -> cstr (rtrim (name ++ replicate n 0)) = name.
Proof.
  intros Hp. rewrite rtrim_id.
  - apply cstr_app_zeros. eapply Forall_impl; [exact Hp|]. by intros ? [? _].
  - apply Forall_app. split; [eapply Forall_impl; [exact Hp|]; by intros ? [_ ?]|by apply Forall_replicate].
Qed.

(** A name written over an empty field. *)
Definition field_of (name : list Z) : list Z := overwrite_name name (replicate 11 0).

Lemma field_eq name : (length name <= 11)%nat -> field_of name = name ++ replicate (11 - length name) 0.
Proof. intros Hl. unfold field_of, overwrite_name. rewrite take_ge by lia. by rewrite drop_replicate. Qed.

Lemma read_short e name : de_name e = field_of name -> plain_name name -> (length name <= 8)%nat -> read_dir_entry_name_raw e = name.
Proof.
  intros He Hp Hl. unfold read_dir_entry_name_raw. rewrite He, field_eq by lia.
  rewrite take_app_ge, take_replicate by lia. rewrite drop_app_ge, drop_replicate, take_replicate by lia.
  rewrite plain_field by done.
  assert (forall n, cstr (rtrim (replicate n 0)) = []) as Hz by (intros n; apply (plain_field [] n), Forall_nil_2). by rewrite Hz.
Qed.

Lemma read_long e name : de_name e = field_of name -> plain_name name -> (8 < length name <= 11)%nat ->
  read_dir_entry_name_raw e = take 8 name ++ DOT :: drop 8 name.
Proof.
  intros He Hp Hl. unfold read_dir_entry_name_raw. rewrite He, field_eq by lia.
  rewrite take_app_le by lia. rewrite drop_app_le by lia. rewrite take_app_ge by (rewrite length_drop; lia).
  rewrite take_replicate, plain_field by (by apply Forall_drop).
  assert (cstr (rtrim (take 8 name)) = take 8 name) as ->.
  { pose proof (plain_field (take 8 name) 0 (Forall_take _ _ _ Hp)) as H8. cbn [replicate] in H8. by rewrite app_nil_r in H8. }
  destruct (drop 8 name) as [|c ext] eqn:Hd.
  - apply (f_equal length) in Hd. rewrite length_drop in Hd. simpl in Hd. lia.
  - rewrite <- Hd.
    unfold lenz. rewrite length_take, length_drop. destruct (Z.ltb_spec (Z.of_nat (8 `min` length name) + (1 + Z.of_nat (length name - 8))) 13); [done|lia].
Qed.

(** ** Scanning *)

Definition is_end (e : DirectoryEntry) : Prop := de_name e !!! 0%nat = DIR_ENTRY_END.

Lemma find_empty_split k dir i : find_empty_from k dir = Some i ->
  exists l1 e l2, dir = l1 ++ e :: l2 /\ i = k + lenz l1 /\ Forall (fun e => ~ is_end e) l1 /\ is_end e.
Proof.
  revert k. induction dir as [|e dir IH]; intros k Hf; [done|]. cbn [find_empty_from] in Hf.
  destruct (Z.eqb_spec (de_name e !!! 0%nat) DIR_ENTRY_END) as [He|He].
  - simplify_eq. exists [], e, dir. split_and!; [done|unfold lenz; simpl; lia|done|done].
  - destruct (IH _ Hf) as (l1 & e' & l2 & -> & -> & Hl & He'). exists (e :: l1), e', l2.
    split_and!; [done|rewrite lenz_cons; lia|by constructor|done].
Qed.

Lemma scan_app k fn l1 l2 : Forall (fun e => ~ is_end e) l1 ->
  scan_from k fn (l1 ++ l2) = match scan_from k fn l1 with Some i => Some i | None => scan_from (k + lenz l1) fn l2 end.
Proof.
  intros Hl. revert k. induction Hl as [|e l1 He _ IH]; intros k; [unfold lenz; simpl; by rewrite Z.add_0_r|].
  cbn [app scan_from]. destruct (Z.eqb_spec (de_name e !!! 0%nat) DIR_ENTRY_END); [done|].
  rewrite lenz_cons. replace (k + (lenz l1 + 1)) with (k + 1 + lenz l1) by lia.
  destruct (_ || _); [apply IH|]. destruct (fn e); [done|apply IH].
Qed.

(** Unused entries stop a scan. *)
Lemma scan_unused k fn l : Forall is_end l -> scan_from k fn l = None.
Proof. intros Hl. destruct Hl as [|e l He Hl]; [done|]. cbn [scan_from]. rewrite He. done. Qed.

(** ** Creating a file *)

Lemma record_from_lt k h fs i : record_from k h fs = Some i -> k <= i < k + lenz fs.
Proof.
  revert k. induction fs as [|r fs IH]; intros k Hf; [done|]. cbn [record_from] in Hf. rewrite lenz_cons. pose proof (lenz_nonneg fs).
  destruct (of_handle r =? h); [simplify_eq; lia|]. specialize (IH _ Hf). lia.
Qed.

Lemma open_file_get_lt h s i : open_file_get h s = Some i -> 0 <= i < lenz (open_files s).
Proof. unfold open_file_get. destruct (h =? 0); [done|]. intros Hf. apply record_from_lt in Hf. lia. Qed.

Lemma release_total h s : exists s', open_file_release h s = Some s' /\ root s' = root s.
Proof.
  unfold open_file_release. destruct (open_file_get h s) as [i|] eqn:Hg; [|by exists s].
  destruct (atz_lt (open_files s) i) as [r Hr]; [by eapply open_file_get_lt|]. rewrite Hr. cbn [mbind option_bind]. by eexists.
Qed.

Lemma task_exists_the_task sys i : task_exists sys i = true -> exists t, the_task i sys = Some t.
Proof.
  unfold task_exists, get_task, the_task. destruct (_ || _); [done|]. destruct (task_at i sys) as [[t|]|]; [|done|done].
  intros _. by exists t.
Qed.

(** Installing a descriptor succeeds or fails with an answer; the directory stays. *)
Lemma install_fd_total sys sender i name s : task_exists sys sender = true ->
  exists r s' sys', install_fd sys sender i name s = Some (r, s', sys') /\ root s' = root s.
Proof.
  intros Ht. apply task_exists_the_task in Ht as [t Ht]. unfold install_fd. rewrite Ht.
  cbn [mbind option_bind]. unfold open_file_create.
  assert (forall h s1, root s1 = root s -> exists r s' sys',
    (if h =? 0 then Some (mkResp (err ERR_NO_MEMORY) 0 (-1) [] [], s1, sys)
     else let (fd, table) := allocate_process_fd (str name) h (fd_table t) in
          s ← (if fd <? 0 then open_file_release h s1 else Some s1);
          Some (mkResp (if fd <? 0 then err ERR_INVALID_FD else err OK) 0 fd [] [], s, put_task sender (set_fd_table table t) sys))
    = Some (r, s', sys') /\ root s' = root s) as Hall.
  { intros h s1 Hr. destruct (h =? 0); [by eexists _, _, _|]. destruct (allocate_process_fd _ _ _) as [fd table].
    destruct (fd <? 0); [|by eexists _, _, _]. destruct (release_total h s1) as (s' & -> & Hr').
    cbn [mbind option_bind]. eexists _, _, _. split; [done|congruence]. }
  destruct (take_record i name sender (next_handle s) (open_files s)); [by apply Hall|].
  destruct (take_record i name sender (next_handle s) (sweep_dead_owners sys (open_files s))); by apply Hall.
Qed.

(** The theorem: a new file gets an entry that a later request finds under the
    same name if the name has at most eight characters; the bytes of a longer one
    run into the extension field, and no request finds the file under its name. *)
Theorem created_file_found sys sender name s i e :
  let upper := to_upper name in
  task_exists sys sender = true -> find_dir_entry (root s) upper = None ->
  find_empty_dir_entry (root s) = Some i -> Forall is_end (drop (Z.to_nat i) (root s)) ->
  entry_at i s = Some e -> de_name e = replicate 11 0 ->
  plain_name upper -> (1 <= length upper <= 11)%nat -> upper !!! 0%nat <> DIR_ENTRY_DELETED ->
  exists r s' sys', handle_fs_mkfile sys sender name s = Some (Some r, s', sys') /\
    find_dir_entry (root s') upper = (if lenz upper <=? 8 then Some i else None).
Proof.
  intros upper Ht Hnone Hempty Hend He Hname Hp Hlen Hdel.
  unfold handle_fs_mkfile. fold upper. rewrite Ht, Hnone, Hempty, He. cbn [negb mbind option_bind].
  set (e' := set_file_size 0 _). set (s1 := put_entry i e' s).
  destruct (install_fd_total sys sender i upper s1 Ht) as (r & s' & sys' & Hi & Hroot).
  exists r, s', sys'. rewrite Hi. cbn [mbind option_bind]. split; [done|]. rewrite Hroot.
  destruct (find_empty_split 0 (root s) i Hempty) as (l1 & e0 & l2 & Hr & Hi0 & Hl1 & He0).
  assert (root s1 = l1 ++ e' :: l2) as ->.
  { unfold s1, put_entry. cbn [root set_root]. unfold setz. rewrite Hr, Hi0. unfold lenz.
    replace (Z.to_nat (0 + Z.of_nat (length l1))) with (length l1 + 0)%nat by lia. by rewrite insert_app_r. }
  rewrite Hr, Hi0 in Hend. unfold lenz in Hend. replace (Z.to_nat (0 + Z.of_nat (length l1))) with (length l1) in Hend by lia.
  rewrite drop_app_length in Hend. apply Forall_cons in Hend as [_ Hend].
  unfold find_dir_entry, scan_valid_entries in *. rewrite Hr, scan_app in Hnone by done. rewrite scan_app by done.
  destruct (scan_from 0 _ l1); [done|]. clear Hnone. rewrite <- Hi0. cbn [scan_from].
  assert (de_name e' = field_of upper) as Hf by (unfold e'; cbn; by rewrite Hname).
  assert (de_name e' !!! 0%nat = upper !!! 0%nat) as H0
    by (rewrite Hf, field_eq by lia; by rewrite lookup_total_app_l by lia).
  assert (upper !!! 0%nat <> 0) as Hn0.
  { destruct upper as [|c u]; [simpl in Hlen; lia|]. apply Forall_cons in Hp as [[? _] _]. done. }
  rewrite H0. destruct (Z.eqb_spec (upper !!! 0%nat) DIR_ENTRY_END); [done|].
  destruct (Z.eqb_spec (upper !!! 0%nat) DIR_ENTRY_DELETED); [done|].
  change (attribute e' =? entry_attribute.LONG_NAME) with false. cbn [orb]. rewrite (scan_unused _ _ l2) by done.
  unfold entry_name_is_equal. unfold lenz. destruct (Z.leb_spec (Z.of_nat (length upper)) 8).
  - rewrite (read_short e' upper Hf Hp) by lia. by rewrite bool_decide_eq_true_2.
  - rewrite (read_long e' upper Hf Hp) by lia. rewrite bool_decide_eq_false_2; [done|]. intros Heq.
    apply (f_equal length) in Heq. rewrite length_app, length_take in Heq. cbn [length] in Heq. rewrite length_drop in Heq. lia.
Qed.

(** * Open files and processes

    The ledger counts the descriptors of a file: it counts those made by
    [open] and [dup2], not those a fork copies. *)

(** ** The ledger *)

(** Handles of records in use are different. *)
Definition unique_handle (h j : Z) (fs : list OpenFileRecord) : Prop :=
  forall k r, atz fs k = Some r -> of_handle r = h -> k = j.

Lemma record_from_none h fs k : Forall (fun r => of_handle r <> h) fs -> record_from k h fs = None.
Proof.
  intros Hf. revert k. induction Hf as [|r fs Hr _ IH]; intros k; [done|]. cbn [record_from].
  destruct (Z.eqb_spec (of_handle r) h); [done|apply IH].
Qed.

(** The last release of a record frees its handle. *)
Lemma release_last h s j r : h <> 0 -> open_file_get h s = Some j -> atz (open_files s) j = Some r -> refcount r = 1 ->
  unique_handle h j (open_files s) ->
  exists s', open_file_release h s = Some s' /\ open_file_get h s' = None.
Proof.
  intros Hh Hg Hr Hc Hu. pose proof (open_file_get_lt _ _ _ Hg) as Hj. unfold open_file_release. rewrite Hg, Hr. cbn [mbind option_bind].
  change (refcount (set_refcount (refcount r - 1) r)) with (refcount r - 1). rewrite Hc. eexists. split; [done|].
  unfold open_file_get. destruct (Z.eqb_spec h 0); [done|]. apply record_from_none. cbn [open_files set_record set_open].
  apply Forall_forall. intros x Hx. apply list_elem_of_lookup_1 in Hx as [k Hk].
  assert (atz (setz (open_files s) j no_record) (Z.of_nat k) = Some x) as Hz by (apply atz_Some; split; [lia|by rewrite Nat2Z.id]).
  destruct (Z.eq_dec (Z.of_nat k) j) as [Heq|Hne].
  - rewrite Heq, atz_setz_eq in Hz by done. simplify_eq. simpl. lia.
  - rewrite atz_setz_ne in Hz by lia. intros Hxh. by destruct Hne; eapply Hu.
Qed.

(** ** Forking *)

Lemma fork_child sys t : lenz (tasks sys) = MAX_TASKS -> the_task (CURRENT_TASK sys) sys = Some t -> just_forked t = false ->
  parent_id t = -1 -> get_available_task_id sys <> -1 ->
  let child := get_available_task_id sys in
  exists sys' c, sys_fork true true true sys = Some (child, sys') /\ the_task child sys' = Some c /\
    fd_table c = copy_fd_table (fd_table t) /\ the_task (CURRENT_TASK sys) sys' = Some t /\
    child <> CURRENT_TASK sys /\ 0 <= child < MAX_TASKS /\ lenz (tasks sys') = MAX_TASKS.
Proof.
  intros Hlen Ht Hj Hp Hfree i.
  destruct (available_id sys (lenz_nonneg _)) as [|[Hr Hnone]]; [done|]. fold i in Hr, Hnone, Hfree.
  assert (i <> CURRENT_TASK sys) as Hne by (intros Heq; rewrite Heq, Ht in Hnone; done).
  unfold sys_fork. rewrite Ht. cbn [mbind option_bind]. rewrite Hj, Hp. cbn [negb Z.eqb Pos.eqb].
  unfold copy_task, create_task. rewrite Ht. cbn [mbind option_bind]. fold i. destruct (Z.eqb_spec i (-1)); [done|].
  rewrite the_task_put_eq by done. cbn [mbind option_bind negb]. rewrite put_put. set (c := set_fd_table _ _).
  rewrite (schedule_task_eq i (put_task i c sys) c) by (by apply the_task_put_eq). cbn [mbind option_bind].
  rewrite put_put. eexists _, (set_state TASK_READY c). split; [done|]. split_and!; try done; try lia.
  - exact (the_task_put_eq i (set_state TASK_READY c) sys Hr).
  - etrans; [exact (the_task_put (CURRENT_TASK sys) i (set_state TASK_READY c) sys Hr)|].
    by destruct (Z.eqb_spec (CURRENT_TASK sys) i) as [Heq|_]; [symmetry in Heq|].
  - cbn [tasks set_run_queue put_task set_tasks]. by rewrite lenz_setz.
Qed.

Lemma task_exists_spec sys i t : the_task i sys = Some t -> 0 <= i < MAX_TASKS -> task_exists sys i = true.
Proof.
  intros Ht Hi. unfold task_exists, get_task. destruct (Z.ltb_spec i 0), (Z.leb_spec MAX_TASKS i); try lia. cbn [orb].
  rewrite (task_at_the_task _ _ _ Ht). done.
Qed.

(** The theorem: a fork copies the descriptor of an open file without counting
    it, so that the child's close releases the file: the parent still has the
    descriptor, and its next read fails. *)
Theorem child_close_closes_parents_file sys t fd f s j r :
  lenz (tasks sys) = MAX_TASKS -> the_task (CURRENT_TASK sys) sys = Some t -> just_forked t = false -> parent_id t = -1 ->
  get_available_task_id sys <> -1 ->
  get_process_fd fd (fd_table t) = Some f -> 0 < handle f < 2 ^ 32 ->
  open_file_get (handle f) s = Some j -> atz (open_files s) j = Some r -> refcount r = 1 -> unique_handle (handle f) j (open_files s) ->
  let child := get_available_task_id sys in
  exists sys1 s1 sys2 t2,
    sys_fork true true true sys = Some (child, sys1) /\ handle_fs_close sys1 child fd s = Some (s1, sys2) /\
    the_task (CURRENT_TASK sys) sys2 = Some t2 /\ get_process_fd fd (fd_table t2) = Some f /\
    forall env len, handle_fs_read env (CURRENT_TASK sys) (handle f) len s1 = Some (reply_error (err ERR_INVALID_FD), s1).
Proof.
  intros Hre Ht Hj Hp Hfree Hfd Hh Hg Hr Hc Hu child.
  destruct (fork_child sys t Hre Ht Hj Hp Hfree) as (sys1 & c & Hfork & Hchild & Htab & Hpar & Hne & Hrange & Hlen1). fold child in Hfork, Hchild, Hne, Hrange.
  destruct (release_last (handle f) s j r) as (s1 & Hrel & Hgone); [lia|done|done|done|done|].
  exists sys1, s1. unfold handle_fs_close. rewrite (task_exists_spec _ _ _ Hchild Hrange), Hchild. cbn [negb mbind option_bind].
  rewrite Htab, get_process_fd_copy, Hfd, Hrel. cbn [mbind option_bind].
  destruct (release_process_fd fd (copy_fd_table (fd_table t))) as [x table].
  eexists _, t. split; [done|]. split; [done|]. split_and!.
  - rewrite the_task_put by lia. by destruct (Z.eqb_spec (CURRENT_TASK sys) child).
  - done.
  - intros env len. unfold handle_fs_read. rewrite (wrap_small 32) by lia. by rewrite Hgone.
Qed.
