(* ===== verification/FatCheck.v ===== *)
(** * The file system on examples

    A small volume on which the hypotheses of the theorems hold. *)

From stdpp Require Import strings.
From S2P Require Import Prelude Message MessageQueue UserMem Fd Task TaskProofs TaskSpec Fat FatFiles FatProofs FatSpec FatDisk FatLoad FatWrite FatNames.

Open Scope Z_scope.

(** ** Clusters and entries *)

Definition demo_fat : list Z := [0x0FFFFFF8; 0x0FFFFFFF; 0x0FFFFFFF; 0; 9; 0; 0; 0x0FFFFFFF].

Lemma allocate_all_or_nothing_witness :
  (exists c fat', allocate_cluster_chain demo_fat 8 2 = Some (c, fat') /\ allocated demo_fat fat' 8 2 c) /\
  allocate_cluster_chain demo_fat 8 4 = Some (0, demo_fat).
Proof.
  split; [exact (allocate_all_or_nothing demo_fat 8 2 ltac:(done) ltac:(done) ltac:(done))|
          exact (allocate_all_or_nothing demo_fat 8 4 ltac:(done) ltac:(done) ltac:(done))].
Defined.

Lemma free_undoes_allocate_witness :
  free_cluster_chain [0x0FFFFFF8; 0x0FFFFFFF; 0x0FFFFFFF; 5; 9; 0x0FFFFFFF; 0; 0x0FFFFFFF] 3 = Some demo_fat.
Proof. apply (free_undoes_allocate demo_fat 8 2 3); [done|done|done|reflexivity|done]. Defined.

(** A volume of 550 sectors with two tables of 4 sectors: 510 clusters of data. *)
Lemma cluster_count_overruns_table_witness :
  count_free_clusters (replicate 512 0) (total_fat_clusters (mkBpb 512 1 32 2 550 4 2)) = fault.
Proof. apply cluster_count_overruns_table; [done|done|]. unfold lenz. rewrite length_replicate. done. Defined.

(** ** A volume *)

Definition env_ok : FsEnv := mkFsEnv (fun _ => true) (fun _ => err OK) true true true (fun _ => false) (fun _ => true).
Definition demo_bpb (total : Z) : BiosParameterBlock := mkBpb 512 1 1 2 total 1 2.
Definition demo_table (tail : list Z) : list Z := [0x0FFFFFF8; 0x0FFFFFFF; 0x0FFFFFFF] ++ tail ++ replicate (125 - length tail) 0.
Definition file_a (cluster size : Z) : DirectoryEntry := set_file_size size (set_first_cluster cluster
  (mkEntry [65; 32; 32; 32; 32; 32; 32; 32; 32; 32; 32] entry_attribute.ARCHIVE 0 0 0 0 0 0 0 0 0 0)).
Definition free_entry : DirectoryEntry := mkEntry (replicate 11 0) 0 0 0 0 0 0 0 0 0 0 0.
Definition demo_fs (total : Z) (tail : list Z) (dir : list DirectoryEntry) (open : list OpenFileRecord) : Fs :=
  mkFs (demo_bpb total) (demo_table tail) dir [] 0 0 open 2 (fun a => a mod 256).

Lemma fat_table_persisted_witness : exists d,
  write_fat_table_to_disk env_ok (demo_fs 9 [4; 0x0FFFFFFF] [] []) = Some (set_disk d (demo_fs 9 [4; 0x0FFFFFFF] [] [])) /\
  table_at (demo_fs 9 [4; 0x0FFFFFFF] [] []) d 1 = demo_table [4; 0x0FFFFFFF].
Proof.
  destruct (fat_table_persisted env_ok (demo_fs 9 [4; 0x0FFFFFFF] [] [])) as (d & H1 & H2 & _); [|done|done|by exists d].
  split; [done|done| |done|done]. unfold demo_fs, demo_table. cbn [FatFiles.fat].
  apply Forall_app. split; [|apply Forall_app; split].
  - by repeat (apply Forall_cons; split; [done|]).
  - by repeat (apply Forall_cons; split; [done|]).
  - by apply Forall_replicate.
Defined.

Lemma load_returns_file_witness : exists s',
  handle_fs_load env_ok 9 [97] (demo_fs 9 [4; 0x0FFFFFFF] [file_a 3 700] []) =
    Some (answer_data (bytes_of_file (demo_fs 9 [4; 0x0FFFFFFF] [file_a 3 700] []) (file_a 3 700) [3; 4]), s').
Proof.
  destruct (load_returns_file env_ok 9 [97] (demo_fs 9 [4; 0x0FFFFFFF] [file_a 3 700] []) 0 (file_a 3 700) [3; 4]) as (s' & H1 & _);
    [reflexivity|reflexivity| |done|done|done|done|by exists s'].
  split; [done|done| |by repeat (apply Forall_cons; split; [done|])|done].
  cbn [linked]. split; [reflexivity|]. by exists 0x0FFFFFFF.
Defined.

(** ** Writing *)

Definition open_a : OpenFileRecord := mkOpen 1 9 0 0 1 [65].

Lemma demo_mounted total tail e open : 3 < total <= 128 -> length tail = 2%nat -> length (de_name e) = 11%nat -> mounted (demo_fs total tail [e] open).
Proof.
  intros Ht Hl He. assert (total_fat_clusters (demo_bpb total) = total) as Htot.
  { unfold total_fat_clusters. cbn [sectors_per_cluster total_sectors_32 demo_bpb]. change (1 =? 0) with false. rewrite Z.div_1_r. cbv zeta.
    destruct (Z.ltb_spec total FAT32_EOC_MIN); [done|]. unfold FAT32_EOC_MIN in *. lia. }
  split; try done.
  - change (bpb (demo_fs total tail [e] open)) with (demo_bpb total). rewrite Htot. unfold demo_fs, demo_table, lenz.
    cbn [FatFiles.fat]. rewrite !length_app, length_replicate, Hl. simpl. lia.
  - change (bpb (demo_fs total tail [e] open)) with (demo_bpb total). rewrite Htot. cbn [root_cluster demo_bpb]. lia.
  - by apply Forall_cons.
  - cbn. change (2 ^ 32) with 4294967296. unfold data_start. cbn. lia.
Qed.

Lemma demo_empty total tail : empty_file (demo_fs total tail [file_a 0 0] [open_a]) 1 0 open_a (file_a 0 0).
Proof. split; done. Qed.

Lemma write_then_load_witness : exists s' s'',
  handle_fs_write env_ok 1 3 [104; 105; 33] (demo_fs 9 [9; 9] [file_a 0 0] [open_a]) = Some (mkResp (err OK) 3 0 [] [], s') /\
  handle_fs_load env_ok 9 [97] s' = Some (answer_data [104; 105; 33], s'').
Proof.
  exact (write_then_load env_ok (demo_fs 9 [9; 9] [file_a 0 0] [open_a]) 1 0 3 [104; 105; 33] open_a (file_a 0 0) 9 [97]
    (demo_mounted 9 [9; 9] (file_a 0 0) [open_a] ltac:(lia) eq_refl eq_refl) (demo_empty 9 [9; 9]) eq_refl ltac:(done) ltac:(done)
    eq_refl eq_refl (fun _ => eq_refl) (fun _ => eq_refl)).
Defined.

Lemma last_cluster_unusable_witness : exists s',
  handle_fs_write env_ok 1 3 [104; 105; 33] (demo_fs 6 [9; 9] [file_a 0 0] [open_a]) = Some (reply_error (err ERR_NO_MEMORY), s') /\
  forall env', handle_fs_write env' 1 3 [104; 105; 33] s' = Some (reply_error (err ERR_NO_MEMORY), s').
Proof.
  exact (last_cluster_unusable env_ok (demo_fs 6 [9; 9] [file_a 0 0] [open_a]) 1 0 3 [104; 105; 33] open_a (file_a 0 0) 5
    (demo_mounted 6 [9; 9] (file_a 0 0) [open_a] ltac:(lia) eq_refl eq_refl) (demo_empty 6 [9; 9]) ltac:(done) eq_refl).
Defined.

(** ** Names and descriptors *)

Lemma created_file_found_witness :
  exists r s' sys', handle_fs_mkfile boot_state 0 [97; 98] (demo_fs 9 [9; 9] [file_a 0 0; free_entry] []) = Some (Some r, s', sys') /\
    find_dir_entry (root s') [65; 66] = Some 1.
Proof.
  apply (created_file_found boot_state 0 [97; 98] (demo_fs 9 [9; 9] [file_a 0 0; free_entry] []) 1 free_entry);
    [reflexivity|reflexivity|reflexivity|by repeat (apply Forall_cons; split; [done|])|reflexivity|reflexivity
    |by repeat (apply Forall_cons; split; [done|])|simpl; lia|done].
Defined.

(** The first task of the boot state with one open file. *)
Definition open_fd : FileDescriptor := mkFd "A" ROUTE_FS process_ids.FS_FAT32 1.
Definition open_task : Task :=
  let t := boot_task (mkInfo process_ids.KERNEL "main" true) in set_fd_table (setz (fd_table t) 3 open_fd) t.
Definition open_sys : Sys := put_task 0 open_task boot_state.

Lemma child_close_closes_parents_file_witness : exists sys1 s1 sys2,
  sys_fork true true true open_sys = Some (8, sys1) /\
  handle_fs_close sys1 8 3 (demo_fs 9 [9; 9] [file_a 3 5] [open_a]) = Some (s1, sys2) /\
  handle_fs_read env_ok 0 1 5 s1 = Some (reply_error (err ERR_INVALID_FD), s1).
Proof.
  destruct (child_close_closes_parents_file open_sys open_task 3 open_fd (demo_fs 9 [9; 9] [file_a 3 5] [open_a]) 0 open_a)
    as (sys1 & s1 & sys2 & t2 & H1 & H2 & _ & _ & H3); try done.
  - intros k r Hk _. apply atz_Some_lt in Hk. change (lenz (open_files (demo_fs 9 [9; 9] [file_a 3 5] [open_a]))) with 1 in Hk. lia.
  - exists sys1, s1, sys2. split_and!; [exact H1|exact H2|apply H3].
Defined.
