(* ===== verification/Paging.v ===== *)
(** * Page tables

    [kernel/memory/paging.hpp] and [paging.cpp], the address space part of
    [task.cpp] ([copy_parent_page_table]) and the page-fault branch of
    [interrupt/fault.hpp].

    Physical memory is a map from frame numbers to frames of 512 words; a frame
    that is not in the map is zero.  The kernel is identity-mapped, so a table is
    named by its physical address and entry [i] of a table is the word at
    [table + 8 * i].  The heap is seen through [alloc] and [free] of whole pages:
    [avail] are the pages it will hand out, in order, and [freed] those it got
    back. *)

From S2P Require Import Prelude Message Pages.

Open Scope Z_scope.

(** ** Virtual addresses and entries *)

Definition USER_SPACE_START_INDEX : Z := 256.
Definition PT_ENTRIES : Z := 512.
Definition PT_INDEX_MASK : Z := 511.

(** First bit and width of a part of an address. *)
Definition part_shift (level : Z) : Z := if level =? 0 then 0 else 12 + 9 * (level - 1).
Definition part_width (level : Z) : Z := if level =? 0 then 12 else 9.

(** Bits [lo .. lo + n - 1] of a word, read and written. *)
Definition field (lo n v : Z) : Z := Z.land (Z.shiftr v lo) (Z.ones n).
Definition set_field (lo n x v : Z) : Z :=
  Z.lor (Z.ldiff v (Z.shiftl (Z.ones n) lo)) (Z.shiftl (Z.land x (Z.ones n)) lo).

Definition part (level addr : Z) : Z := field (part_shift level) (part_width level) addr.
Definition set_part (level value addr : Z) : Z := set_field (part_shift level) (part_width level) value addr.

Definition present (e : Z) : bool := Z.testbit e 0.
Definition writable (e : Z) : bool := Z.testbit e 1.
Definition user_accessible (e : Z) : bool := Z.testbit e 2.
Definition huge_page (e : Z) : bool := Z.testbit e 7.
Definition owned (e : Z) : bool := Z.testbit e 9.
Definition set_flag (k : Z) (b : bool) (e : Z) : Z := if b then Z.setbit e k else Z.clearbit e k.
Definition set_present := set_flag 0.
Definition set_writable := set_flag 1.
Definition set_user_accessible := set_flag 2.
Definition set_owned := set_flag 9.

Definition address (e : Z) : Z := field 12 40 e.
Definition set_address (a e : Z) : Z := set_field 12 40 a e.
Definition get_next_level_table (e : Z) : Z := Z.shiftl (address e) 12.
Definition set_next_level_table (table e : Z) : Z := set_address (Z.shiftr table 12) e.

Definition PTE_PRESENT : Z := Z.shiftl 1 0.
Definition PTE_WRITABLE : Z := Z.shiftl 1 1.
Definition PTE_HUGE : Z := Z.shiftl 1 7.
Definition PTE_KERNEL_FLAGS : Z := Z.lor PTE_PRESENT PTE_WRITABLE.
Definition PTE_KERNEL_HUGE_FLAGS : Z := Z.lor PTE_KERNEL_FLAGS PTE_HUGE.

(** ** Memory *)

Abbreviation Frames := (gmap Z (list Z)).
Definition zero_frame : list Z := replicate 512 0.
Definition frame (m : Frames) (pfn : Z) : list Z := default zero_frame (m !! pfn).

(** The word at an address that is a multiple of 8. *)
Definition ld (m : Frames) (a : Z) : Z := frame m (a / PAGE_SIZE) !!! Z.to_nat (a mod PAGE_SIZE / 8).
Definition st (a v : Z) (m : Frames) : Frames :=
  <[a / PAGE_SIZE := <[Z.to_nat (a mod PAGE_SIZE / 8) := v]> (frame m (a / PAGE_SIZE))]> m.

Record Vm := mkVm {
  ram : Frames;
  cr3 : Z;
  vm_pages : list Page;
  avail : list Z;
  freed : list Z;
}.

Definition set_ram (m : Frames) (s : Vm) : Vm := mkVm m (cr3 s) (vm_pages s) (avail s) (freed s).
Definition set_vm_pages (ps : list Page) (s : Vm) : Vm := mkVm (ram s) (cr3 s) ps (avail s) (freed s).
Definition set_cr3 (v : Z) (s : Vm) : Vm := mkVm (ram s) v (vm_pages s) (avail s) (freed s).

(** Entry [i] of a table. *)
Definition entry (s : Vm) (table i : Z) : Z := ld (ram s) (table + 8 * i).
Definition put_entry (table i v : Z) (s : Vm) : Vm := set_ram (st (table + 8 * i) v (ram s)) s.

Definition free (a : Z) (s : Vm) : Vm := mkVm (ram s) (cr3 s) (vm_pages s) (avail s) (a :: freed s).

(** [alloc(PAGE_SIZE, ALLOC_ZEROED)]; 0 is the null pointer. *)
Definition new_page_table (s : Vm) : Z * Vm :=
  match avail s with
  | [] => (0, s)
  | a :: rest => (a, mkVm (<[a / PAGE_SIZE := zero_frame]> (ram s)) (cr3 s) (vm_pages s) rest (freed s))
  end.

(** [get_page(p)->inc_ref()] unless the page is untracked; the faults cannot
    happen, [get_page] stays inside the table. *)
Definition inc_page (a : Z) (s : Vm) : Vm :=
  match get_page (vm_pages s) a with
  | None => s
  | Some i => match atz (vm_pages s) i with Some p => set_vm_pages (setz (vm_pages s) i (inc_ref p)) s | None => s end
  end.

(** [page == nullptr || page->dec_ref() == 0], then [free]. *)
Definition drop_page (a : Z) (s : Vm) : Vm :=
  match get_page (vm_pages s) a with
  | None => free a s
  | Some i =>
      match atz (vm_pages s) i with
      | Some p =>
          let (r, p) := dec_ref p in
          let s := set_vm_pages (setz (vm_pages s) i p) s in
          if r =? 0 then free a s else s
      | None => s
      end
  end.

(** ** The identity mapping *)

Definition PAGE_2MIB : Z := 512 * PAGE_SIZE.
Definition PAGE_1GIB : Z := 512 * PAGE_2MIB.
Definition PAGE_DIRECTORY_COUNT : Z := 64.

(** The tables at [pml4], [pdp] and [pd], [pd + PAGE_SIZE], ... *)
Definition identity_entry (i_pdpt i_pd : Z) : Z := Z.lor (i_pdpt * PAGE_1GIB + i_pd * PAGE_2MIB) PTE_KERNEL_HUGE_FLAGS.
Definition setup_identity_mapping (pml4 pdp pd : Z) (s : Vm) : option Vm :=
  let s := put_entry pml4 0 (Z.lor pdp PTE_KERNEL_FLAGS) s in
  for_n (Z.to_nat PAGE_DIRECTORY_COUNT) 0 (fun i_pdpt s =>
    let directory := pd + i_pdpt * PAGE_SIZE in
    let s := put_entry pdp i_pdpt (Z.lor directory PTE_KERNEL_FLAGS) s in
    for_n 512 0 (fun i_pd s => Some (put_entry directory i_pd (identity_entry i_pdpt i_pd) s)) s) s.

Definition initialize_paging (pml4 pdp pd : Z) (s : Vm) : option Vm :=
  s ← setup_identity_mapping pml4 pdp pd s;
  Some (set_cr3 pml4 s).

(** ** Walking *)

(** [n] levels down from level [level]: the table reached. *)
Fixpoint walk (n : nat) (m : Frames) (table level addr : Z) : option Z :=
  match n with
  | O => Some table
  | S n =>
      let e := ld m (table + 8 * part level addr) in
      if negb (present e) then None else walk n m (get_next_level_table e) (level - 1) addr
  end.

(** The address of the entry, [None] for [nullptr]. *)
Definition get_pte (s : Vm) (table addr level : Z) : option Z :=
  match walk (Z.to_nat (4 - level)) (ram s) table 4 addr with
  | Some t => Some (t + 8 * part level addr)
  | None => None
  end.

Definition get_paddr (s : Vm) (table addr : Z) : Z :=
  match get_pte s table addr 1 with
  | None => 0
  | Some pte => Z.shiftl (address (ld (ram s) pte)) PAGE_SHIFT
  end.

(** ** Building *)

(** The table of the entry, 0 for [nullptr]. *)
Definition set_new_page_table (table i : Z) (s : Vm) : Z * Vm :=
  let e := entry s table i in
  if present e then (get_next_level_table e, s)
  else
    let (child, s) := new_page_table s in
    if child =? 0 then (0, s)
    else
      let e := entry s table i in
      (child, put_entry table i (set_user_accessible true (set_present true (set_next_level_table child e))) s).

(** [addr.set_part(level, 0)] for the levels [level .. 1]. *)
Fixpoint zero_parts (level : nat) (addr : Z) : Z :=
  match level with
  | O => addr
  | S l => zero_parts l (set_part (Z.of_nat level) 0 addr)
  end.

(** The pages left as an [int], or -1; [num_pages] is a [size_t].  A round of the
    loop handles one entry of the table, so 512 rounds are enough. *)
Definition TABLE_ROUNDS : nat := 512.
Fixpoint setup_page_table (level : nat) (w : bool) (table addr num_pages : Z) (s : Vm) : option (Z * Vm) :=
  match level with
  | O => fault
  | S below =>
      (fix loop (fuel : nat) (addr num_pages : Z) (s : Vm) : option (Z * Vm) :=
         if num_pages =? 0 then Some (i32 num_pages, s)
         else
           match fuel with
           | O => fault
           | S fuel =>
               let i := part (Z.of_nat level) addr in
               let was_present := present (entry s table i) in
               let (child, s) := set_new_page_table table i s in
               if child =? 0 then Some (-1, s)
               else
                 '(remaining, s) ← (match below with
                   | O =>
                       let s := put_entry table i (set_writable w (entry s table i)) s in
                       let s := if was_present then s
                                else inc_page child (put_entry table i (set_owned true (entry s table i)) s) in
                       Some (num_pages - 1, s)
                   | S _ =>
                       let s := put_entry table i (set_writable true (entry s table i)) s in
                       setup_page_table below w child addr num_pages s
                   end);
                 if remaining =? -1 then Some (-1, s)
                 else if i =? 511 then Some (i32 (u64 remaining), s)
                 else loop fuel (zero_parts below (set_part (Z.of_nat level) (i + 1) addr)) (u64 remaining) s
           end) TABLE_ROUNDS addr num_pages s
  end.

Definition setup_page_tables (addr num_pages : Z) (w : bool) (s : Vm) : option (Z * Vm) :=
  '(remaining, s) ← setup_page_table 4 w (cr3 s) addr num_pages s;
  Some (if remaining =? -1 then err ERR_NO_MEMORY else err OK, s).

(** ** Copying *)

(** [memcpy] of the first 256 entries of the active table. *)
Definition copy_kernel_space (dst : Z) (s : Vm) : option Vm :=
  for_n (Z.to_nat USER_SPACE_START_INDEX) 0 (fun i s => Some (put_entry dst i (entry s (cr3 s) i) s)) s.

(** The new table, 0 for [nullptr]. *)
Definition config_new_page_table (s : Vm) : option (Z * Vm) :=
  let (table, s) := new_page_table s in
  if table =? 0 then Some (0, s)
  else
    s ← copy_kernel_space table s;
    Some (table, set_cr3 table s).

(** A null table for a failed allocation is used as it is, as in the code. *)
Fixpoint copy_page_tables (level : nat) (dst src : Z) (w : bool) (start_index : Z) (s : Vm) : option Vm :=
  match level with
  | O => fault
  | S below =>
      for_n (Z.to_nat (PT_ENTRIES - start_index)) start_index (fun i s =>
        let e := entry s src i in
        if negb (present e) then Some s
        else
          match below with
          | O =>
              let s := put_entry dst i (set_writable w e) s in
              Some (if owned e then inc_page (get_next_level_table e) s else s)
          | S _ =>
              let (new_table, s) := new_page_table s in
              let s := put_entry dst i (set_next_level_table new_table e) s in
              copy_page_tables below new_table (get_next_level_table e) w 0 s
          end) s
  end.

Definition clone_page_table (src : Z) (w : bool) (s : Vm) : option (Z * Vm) :=
  let (table, s) := new_page_table s in
  if table =? 0 then Some (0, s)
  else
    s ← copy_kernel_space table s;
    s ← copy_page_tables 4 table src w USER_SPACE_START_INDEX s;
    Some (table, s).

(** ** Releasing *)

Fixpoint clean_page_table (level : nat) (table : Z) (s : Vm) : option Vm :=
  match level with
  | O => fault
  | S below =>
      for_n (Z.to_nat PT_ENTRIES) 0 (fun i s =>
        let e := entry s table i in
        if negb (present e) then Some s
        else
          match below with
          | S _ =>
              s ← clean_page_table below (get_next_level_table e) s;
              Some (put_entry table i 0 (free (get_next_level_table e) s))
          | O =>
              if negb (owned e) then Some (put_entry table i 0 s)
              else Some (put_entry table i 0 (drop_page (get_next_level_table e) s))
          end) s
  end.

Definition clean_page_tables (table : Z) (s : Vm) : option Vm :=
  s ← for_n (Z.to_nat (PT_ENTRIES - USER_SPACE_START_INDEX)) USER_SPACE_START_INDEX (fun i s =>
        let e := entry s table i in
        if negb (present e) then Some s
        else
          s ← clean_page_table 3 (get_next_level_table e) s;
          Some (put_entry table i 0 (free (get_next_level_table e) s))) s;
  Some (free table s).

(** [Task::copy_parent_page_table] on the snapshot the parent runs on: the
    parent's new table and the child's. *)
Definition copy_parent_page_table (snapshot : Z) (s : Vm) : option (Z * Z * Z * Vm) :=
  '(parent_table, s) ← clone_page_table snapshot false s;
  if parent_table =? 0 then Some (err ERR_NO_MEMORY, snapshot, 0, s)
  else
    let s := set_cr3 parent_table s in
    '(child_table, s) ← clone_page_table snapshot false s;
    if child_table =? 0 then Some (err ERR_NO_MEMORY, parent_table, 0, s)
    else
      s ← clean_page_tables snapshot s;
      Some (err OK, parent_table, child_table, s).

(** ** Faults *)

Definition set_page_table_entry (table addr page : Z) (s : Vm) : Vm :=
  let pdpt := get_next_level_table (entry s table (part 4 addr)) in
  let pd := get_next_level_table (entry s pdpt (part 3 addr)) in
  let pt := get_next_level_table (entry s pd (part 2 addr)) in
  let i := part 1 addr in
  put_entry pt i (set_present true (set_owned true (set_writable true (set_next_level_table page (entry s pt i))))) s.

(** [memcpy] of a page: the source is read through the active table; the model
    takes the frame it is mapped to as an argument. *)
Definition copy_frame (dst src : Z) (s : Vm) : Vm :=
  set_ram (<[dst / PAGE_SIZE := frame (ram s) (src / PAGE_SIZE)]> (ram s)) s.

(** The processor's translation: the frame address [addr] is mapped to, through
    large pages as well. *)
Fixpoint translate_from (n : nat) (m : Frames) (table level addr : Z) : option Z :=
  match n with
  | O => None
  | S n =>
      let e := ld m (table + 8 * part level addr) in
      if negb (present e) then None
      else if level =? 1 then Some (get_next_level_table e)
      else if (level =? 2) && huge_page e then Some (get_next_level_table e + part 1 addr * PAGE_SIZE)
      else translate_from n m (get_next_level_table e) (level - 1) addr
  end.
Definition translate (s : Vm) (addr : Z) : option Z := translate_from 4 (ram s) (cr3 s) 4 addr.

Definition copy_target_page (addr : Z) (s : Vm) : option (Z * Vm) :=
  let (page, s) := new_page_table s in
  if page =? 0 then Some (err ERR_NO_MEMORY, s)
  else
    src ← translate s addr;
    let s := copy_frame page src s in
    let shared_page :=
      match get_pte s (cr3 s) addr 1 with
      | Some pte => let e := ld (ram s) pte in if present e && owned e then get_next_level_table e else 0
      | None => 0
      end in
    let s := inc_page page s in
    let s := set_page_table_entry (cr3 s) addr page s in
    Some (err OK, if shared_page =? 0 then s else drop_page shared_page s).

Definition handle_page_fault (error_code fault_addr : Z) (s : Vm) : option (Z * Vm) :=
  let exist := Z.land error_code 1 in
  let rw := Z.land (Z.shiftr error_code 1) 1 in
  let user := Z.land (Z.shiftr error_code 2) 1 in
  if negb (user =? 0) && negb (rw =? 0) && negb (exist =? 0) then
    '(e, s) ← copy_target_page fault_addr s;
    Some (e, s)
  else Some (err ERR_PAGE_NOT_PRESENT, s).

(** ** Mapping frames *)

Definition create_vaddr_from_index (pml4_i pdpt_i pd_i pt_i : Z) : Z :=
  let addr := set_part 4 (Z.land pml4_i PT_INDEX_MASK) 0 in
  let addr := set_part 3 (Z.land pdpt_i PT_INDEX_MASK) addr in
  let addr := set_part 2 (Z.land pd_i PT_INDEX_MASK) addr in
  let addr := set_part 1 (Z.land pt_i PT_INDEX_MASK) addr in
  set_field 48 16 (if negb (Z.land (part 4 addr) 0x100 =? 0) then 0xFFFF else 0) addr.

(** The first present entry from [i] on, the search at the levels above 1. *)
Fixpoint first_present (n : nat) (s : Vm) (table i : Z) : option Z :=
  match n with
  | O => None
  | S n => if present (entry s table i) then Some i else first_present n s table (i + 1)
  end.

(** No entry among [n] from [i] on is present. *)
Fixpoint all_absent (n : nat) (s : Vm) (table i : Z) : bool :=
  match n with
  | O => true
  | S n => negb (present (entry s table i)) && all_absent n s table (i + 1)
  end.

(** The first of [n] entries from [i] on that starts [num_pages] absent ones. *)
Fixpoint free_run (n : nat) (s : Vm) (table i num_pages : Z) : option Z :=
  match n with
  | O => None
  | S n => if all_absent (Z.to_nat num_pages) s table i then Some i else free_run n s table (i + 1) num_pages
  end.

Definition map_entry (paddr e : Z) : Z :=
  set_address (Z.shiftr paddr PAGE_SHIFT) (set_user_accessible true (set_writable false (set_present true e))).

Definition map_run (table i fr num_pages : Z) (s : Vm) : option Vm :=
  for_n (Z.to_nat num_pages) 0 (fun j s => Some (put_entry table (i + j) (map_entry (fr + j * PAGE_SIZE) (entry s table (i + j))) s)) s.

(** A level without a present entry leaves the table and index as they are. *)
Definition descend (s : Vm) (start table : Z) : Z * Z :=
  match first_present (Z.to_nat (PT_ENTRIES - start)) s table start with
  | Some i => (i, get_next_level_table (entry s table i))
  | None => (0, table)
  end.

(** The error and the new value of [*start_addr]. *)
Definition map_frame_to_vaddr (table fr num_pages start_addr : Z) (s : Vm) : option (Z * Z * Vm) :=
  let (i4, t3) := descend s USER_SPACE_START_INDEX table in
  let (i3, t2) := descend s 0 t3 in
  let (i2, t1) := descend s 0 t2 in
  match free_run (Z.to_nat PT_ENTRIES) s t1 0 num_pages with
  | None => Some (err ERR_NO_MEMORY, start_addr, s)
  | Some i => s ← map_run t1 i fr num_pages s; Some (err OK, if num_pages =? 0 then start_addr else create_vaddr_from_index i4 i3 i2 i, s)
  end.

Fixpoint unmap_from (n : nat) (table addr : Z) (s : Vm) : Z * Vm :=
  match n with
  | O => (err OK, s)
  | S n =>
      match get_pte s table addr 1 with
      | None => (err ERR_INVALID_ARG, s)
      | Some pte => unmap_from n table (u64 (addr + PAGE_SIZE)) (set_ram (st pte 0 (ram s)) s)
      end
  end.
Definition unmap_frame (table addr num_pages : Z) (s : Vm) : Z * Vm := unmap_from (Z.to_nat num_pages) table addr s.

Definition calc_required_pages (start size : Z) : Z :=
  let e := u64 (start + size) in
  let start_page := u64 (start - part 0 start) in
  let end_page := u64 (e - part 0 e + PAGE_SIZE) in
  u64 (end_page - start_page) / PAGE_SIZE.
