(* ===== verification/PagingProofs.v ===== *)
(** * Page tables: entries, memory and walks

    The fields and flags of an entry, reading back what was written, the identity
    mapping of start-up, and the half of every address space that the kernel shares. *)

From S2P Require Import Prelude Message Pages Paging.

Open Scope Z_scope.

(** ** Fields *)

Lemma testbit_field lo n v i : 0 <= lo -> 0 <= n -> 0 <= i -> Z.testbit (field lo n v) i = (i <? n) && Z.testbit v (lo + i).
Proof.
  intros Hl Hn Hi. unfold field. rewrite Z.land_spec, Z.shiftr_spec, Z.testbit_ones_nonneg by lia.
  rewrite andb_comm. by rewrite Z.add_comm.
Qed.

Lemma testbit_set_field lo n x v i : 0 <= lo -> 0 <= n -> 0 <= i ->
  Z.testbit (set_field lo n x v) i = if (lo <=? i) && (i <? lo + n) then Z.testbit x (i - lo) else Z.testbit v i.
Proof.
  intros Hl Hn Hi. unfold set_field. rewrite Z.lor_spec, Z.ldiff_spec, !Z.shiftl_spec by lia.
  destruct (Z.leb_spec lo i) as [K1|K1]; cbn [andb].
  - rewrite Z.land_spec, Z.testbit_ones_nonneg by lia. destruct (Z.ltb_spec (i - lo) n), (Z.ltb_spec i (lo + n)); try lia.
    + by rewrite andb_false_r, andb_true_r.
    + by rewrite andb_false_r, andb_true_r, orb_false_r.
  - rewrite !(Z.testbit_neg_r _ (i - lo)) by lia. by rewrite andb_true_r, orb_false_r.
Qed.

Lemma field_mod lo n v : 0 <= lo -> 0 <= n -> field lo n v = v / 2 ^ lo mod 2 ^ n.
Proof. intros Hl Hn. unfold field. by rewrite Z.land_ones, Z.shiftr_div_pow2 by lia. Qed.

Lemma field_range lo n v : 0 <= n -> 0 <= field lo n v < 2 ^ n.
Proof. intros Hn. unfold field. rewrite Z.land_ones by lia. apply Z.mod_pos_bound. by apply pow2_pos. Qed.

Lemma field_set_same lo n x v : 0 <= lo -> 0 <= n -> field lo n (set_field lo n x v) = x mod 2 ^ n.
Proof.
  intros Hl Hn. apply Z.bits_inj'. intros i Hi. rewrite testbit_field, testbit_set_field by lia.
  destruct (Z.ltb_spec i n).
  - rewrite Z.mod_pow2_bits_low by lia. destruct (Z.leb_spec lo (lo + i)), (Z.ltb_spec (lo + i) (lo + n)); try lia. cbn [andb]. f_equal. lia.
  - rewrite Z.mod_pow2_bits_high by lia. done.
Qed.

Lemma field_set_other lo n lo' n' x v : 0 <= lo -> 0 <= n -> 0 <= lo' -> 0 <= n' -> lo' + n' <= lo \/ lo + n <= lo' ->
  field lo' n' (set_field lo n x v) = field lo' n' v.
Proof.
  intros Hl Hn Hl' Hn' Hd. apply Z.bits_inj'. intros i Hi. rewrite !testbit_field by lia.
  destruct (Z.ltb_spec i n'); [|done]. cbn [andb]. rewrite testbit_set_field by lia.
  destruct (Z.leb_spec lo (lo' + i)), (Z.ltb_spec (lo' + i) (lo + n)); try lia; done.
Qed.

(** Words that a field leaves alone. *)
Lemma set_field_range lo n x v w : 0 <= lo -> 0 <= n -> lo + n <= w -> 0 <= v < 2 ^ w -> 0 <= set_field lo n x v < 2 ^ w.
Proof.
  intros Hl Hn Hw Hv. assert (0 <= set_field lo n x v) as H0.
  { unfold set_field. apply Z.lor_nonneg. split; [apply Z.ldiff_nonneg; lia|apply Z.shiftl_nonneg, Z.land_nonneg; right; rewrite Z.ones_equiv; pose proof (pow2_pos n Hn); lia]. }
  split; [done|]. destruct (Z.eq_dec (set_field lo n x v) 0) as [->|Hne]; [apply pow2_pos; lia|].
  apply Z.log2_lt_pow2; [lia|]. apply Z.nle_gt. intros Hlog.
  assert (Z.testbit (set_field lo n x v) (Z.log2 (set_field lo n x v)) = true) as Ht by (apply Z.bit_log2; lia).
  rewrite testbit_set_field in Ht by (try lia; apply Z.log2_nonneg).
  destruct (Z.ltb_spec (Z.log2 (set_field lo n x v)) (lo + n)) as [K|K]; [lia|]. rewrite andb_false_r in Ht.
  rewrite (testbit_above v w) in Ht by (lia || done). done.
Qed.

(** ** Flags *)

Lemma testbit_set_flag k b e j : 0 <= k -> 0 <= j -> Z.testbit (set_flag k b e) j = if j =? k then b else Z.testbit e j.
Proof.
  intros Hk Hj. unfold set_flag. destruct (Z.eqb_spec j k) as [->|Hne]; destruct b.
  - by apply Z.setbit_eq.
  - by apply Z.clearbit_eq.
  - by rewrite Z.setbit_neq by lia.
  - by rewrite Z.clearbit_neq by lia.
Qed.

Lemma address_set_flag k b e : 0 <= k < 12 -> address (set_flag k b e) = address e.
Proof.
  intros Hk. apply Z.bits_inj'. intros i Hi. unfold address. rewrite !testbit_field, testbit_set_flag by lia.
  destruct (Z.eqb_spec (12 + i) k); [lia|done].
Qed.

Lemma testbit_set_address a e j : 0 <= j < 12 -> Z.testbit (set_address a e) j = Z.testbit e j.
Proof. intros Hj. unfold set_address. rewrite testbit_set_field by lia. by destruct (Z.leb_spec 12 j); [lia|]. Qed.

(** A page-aligned physical address below 2 ^ 52. *)
Definition page_addr (a : Z) : Prop := 0 < a < 2 ^ 52 /\ a mod PAGE_SIZE = 0.

Lemma next_set_next t e : page_addr t -> get_next_level_table (set_next_level_table t e) = t.
Proof.
  intros [Hr Hm]. unfold get_next_level_table, set_next_level_table, address, set_address.
  rewrite field_set_same by lia. rewrite Z.shiftr_div_pow2, Z.shiftl_mul_pow2 by lia. change (2 ^ 12) with 4096. unfold PAGE_SIZE in Hm.
  rewrite Z.mod_small.
  - pose proof (Z.div_mod t 4096). lia.
  - change (2 ^ 40) with 1099511627776. change (2 ^ 52) with 4503599627370496 in Hr. split; [apply Z.div_pos; lia|apply Z.div_lt_upper_bound; lia].
Qed.

Lemma next_aligned e : get_next_level_table e mod PAGE_SIZE = 0.
Proof. unfold get_next_level_table. rewrite Z.shiftl_mul_pow2 by lia. apply Z.mod_mul. done. Qed.

Lemma next_set_flag k b e : 0 <= k < 12 -> get_next_level_table (set_flag k b e) = get_next_level_table e.
Proof. intros Hk. unfold get_next_level_table. by rewrite address_set_flag. Qed.

(** ** Memory *)

Definition ram_ok (m : Frames) : Prop := forall pfn f, m !! pfn = Some f -> length f = 512%nat.
Definition aligned (t : Z) : Prop := t mod PAGE_SIZE = 0.
Definition index_ok (i : Z) : Prop := 0 <= i < 512.

Lemma length_frame m pfn : ram_ok m -> length (frame m pfn) = 512%nat.
Proof. intros Hm. unfold frame. destruct (m !! pfn) as [f|] eqn:E; [by apply (Hm pfn)|done]. Qed.

Lemma entry_addr t i : aligned t -> index_ok i -> (t + 8 * i) / PAGE_SIZE = t / PAGE_SIZE /\ (t + 8 * i) mod PAGE_SIZE / 8 = i.
Proof.
  unfold aligned, index_ok, PAGE_SIZE. intros Ht Hi. pose proof (Z.div_mod t 4096).
  assert ((t + 8 * i) / 4096 = t / 4096) as Hd by (symmetry; apply (Z.div_unique _ _ _ (8 * i)); lia).
  assert ((t + 8 * i) mod 4096 = 8 * i) as Hm by (symmetry; apply (Z.mod_unique _ _ (t / 4096)); lia).
  split; [done|]. rewrite Hm. replace (8 * i) with (i * 8) by lia. apply Z.div_mul. lia.
Qed.

Lemma ld_entry m t i : aligned t -> index_ok i -> ld m (t + 8 * i) = frame m (t / PAGE_SIZE) !!! Z.to_nat i.
Proof. intros Ht Hi. unfold ld. by destruct (entry_addr t i Ht Hi) as [-> ->]. Qed.

Lemma frame_insert m p q f : frame (<[p := f]> m) q = if q =? p then f else frame m q.
Proof. unfold frame. destruct (Z.eqb_spec q p) as [->|Hne]; [by rewrite lookup_insert_eq|by rewrite lookup_insert_ne]. Qed.

Lemma st_entry t i v m : aligned t -> index_ok i ->
  st (t + 8 * i) v m = <[t / PAGE_SIZE := <[Z.to_nat i := v]> (frame m (t / PAGE_SIZE))]> m.
Proof. intros Ht Hi. unfold st. by destruct (entry_addr t i Ht Hi) as [-> ->]. Qed.

Lemma ram_ok_insert m p f : ram_ok m -> length f = 512%nat -> ram_ok (<[p := f]> m).
Proof. intros Hm Hf q g Hg. apply lookup_insert_Some in Hg as [[_ <-]|[_ Hg]]; [done|by eapply Hm]. Qed.

Lemma ram_ok_st m t i v : ram_ok m -> aligned t -> index_ok i -> ram_ok (st (t + 8 * i) v m).
Proof. intros Hm Ht Hi. rewrite st_entry by done. apply ram_ok_insert; [done|]. rewrite length_insert. by apply length_frame. Qed.

Lemma aligned_eq t u : aligned t -> aligned u -> t / PAGE_SIZE = u / PAGE_SIZE -> t = u.
Proof. unfold aligned, PAGE_SIZE. intros Ht Hu He. pose proof (Z.div_mod t 4096). pose proof (Z.div_mod u 4096). lia. Qed.

Lemma ld_st t i v m u j : ram_ok m -> aligned t -> index_ok i -> aligned u -> index_ok j ->
  ld (st (t + 8 * i) v m) (u + 8 * j) = if (t =? u) && (i =? j) then v else ld m (u + 8 * j).
Proof.
  intros Hm Ht Hi Hu Hj. rewrite st_entry, !ld_entry, frame_insert by done.
  destruct (Z.eqb_spec (u / PAGE_SIZE) (t / PAGE_SIZE)) as [He|Hne].
  - assert (t = u) as -> by (by apply aligned_eq). rewrite Z.eqb_refl. cbn [andb]. unfold index_ok in *.
    destruct (Z.eqb_spec i j) as [->|Hij].
    + apply list_lookup_total_insert_eq. rewrite length_frame by done. lia.
    + apply list_lookup_total_insert_ne. lia.
  - destruct (Z.eqb_spec t u) as [->|]; [done|done].
Qed.

(** The same for states. *)
Definition vm_ok (s : Vm) : Prop := ram_ok (ram s).

Lemma entry_put t i v s u j : vm_ok s -> aligned t -> index_ok i -> aligned u -> index_ok j ->
  entry (put_entry t i v s) u j = if (t =? u) && (i =? j) then v else entry s u j.
Proof. intros. unfold entry. by apply ld_st. Qed.

Lemma vm_ok_put t i v s : vm_ok s -> aligned t -> index_ok i -> vm_ok (put_entry t i v s).
Proof. intros. by apply ram_ok_st. Qed.

Lemma part_index level a : 1 <= level -> index_ok (part level a).
Proof.
  intros Hl. unfold part, part_width, index_ok. destruct (Z.eqb_spec level 0); [lia|]. by apply (field_range _ 9).
Qed.

(** ** Entries made of an address and flags *)

Lemma aligned_bit x k : aligned x -> 0 <= k < 12 -> Z.testbit x k = false.
Proof.
  unfold aligned, PAGE_SIZE. intros Hx Hk. rewrite <- (Z.mod_pow2_bits_low x 12 k) by lia. change (2 ^ 12) with 4096. rewrite Hx. apply Z.bits_0.
Qed.

Lemma testbit_lor_flags x f k : aligned x -> 0 <= k < 12 -> Z.testbit (Z.lor x f) k = Z.testbit f k.
Proof. intros Hx Hk. rewrite Z.lor_spec. by rewrite aligned_bit. Qed.

Lemma next_lor_flags x f : 0 <= x < 2 ^ 52 -> aligned x -> 0 <= f < 4096 -> get_next_level_table (Z.lor x f) = x.
Proof.
  intros Hx Ha Hf. apply Z.bits_inj'. intros i Hi. unfold get_next_level_table, address. rewrite Z.shiftl_spec by lia.
  destruct (Z.ltb_spec i 12) as [K|K].
  - rewrite Z.testbit_neg_r by lia. symmetry. apply aligned_bit; [done|lia].
  - rewrite testbit_field by lia. replace (12 + (i - 12)) with i by lia. rewrite Z.lor_spec, (testbit_above f 12), orb_false_r by lia.
    destruct (Z.ltb_spec (i - 12) 40); [done|]. symmetry. by apply (testbit_above x 52); [|lia].
Qed.

(** ** Start-up *)

Section identity.
Context (pml4 pdp pd : Z).
Context (Hp4 : aligned pml4) (Hp3 : aligned pdp) (Hp2 : aligned pd).
Context (R4 : 0 <= pml4 < 2 ^ 52) (R3 : 0 <= pdp < 2 ^ 52) (R2 : 0 <= pd /\ pd + 64 * PAGE_SIZE <= 2 ^ 52).
Context (D43 : pml4 <> pdp) (D4 : forall i, 0 <= i < 64 -> pml4 <> pd + i * PAGE_SIZE) (D3 : forall i, 0 <= i < 64 -> pdp <> pd + i * PAGE_SIZE).

Lemma directory_aligned i : aligned (pd + i * PAGE_SIZE).
Proof. unfold aligned. by rewrite Z_mod_plus_full. Qed.

(** What the tables hold once the first [n] directories are written. *)
Record directories (n : Z) (s : Vm) : Prop := mkDirs {
  ds_ok : vm_ok s;
  ds_top : entry s pml4 0 = Z.lor pdp PTE_KERNEL_FLAGS;
  ds_pdp : forall i, 0 <= i < n -> entry s pdp i = Z.lor (pd + i * PAGE_SIZE) PTE_KERNEL_FLAGS;
  ds_pd : forall i k, 0 <= i < n -> index_ok k -> entry s (pd + i * PAGE_SIZE) k = identity_entry i k;
}.

Lemma fill_directory i s : 0 <= i < 64 -> directories i s ->
  exists s', for_n 512 0 (fun i_pd s => Some (put_entry (pd + i * PAGE_SIZE) i_pd (identity_entry i i_pd) s))
    (put_entry pdp i (Z.lor (pd + i * PAGE_SIZE) PTE_KERNEL_FLAGS) s) = Some s' /\ directories (i + 1) s'.
Proof.
  intros Hi Hd. pose proof (directory_aligned i) as Hdi.
  assert (forall j, 0 <= j < i -> pd + j * PAGE_SIZE <> pd + i * PAGE_SIZE) as Hne by (unfold PAGE_SIZE; lia).
  edestruct (for_n_inv (fun k t => vm_ok t /\ entry t pml4 0 = Z.lor pdp PTE_KERNEL_FLAGS /\
      (forall j, 0 <= j < i + 1 -> entry t pdp j = Z.lor (pd + j * PAGE_SIZE) PTE_KERNEL_FLAGS) /\
      (forall j l, 0 <= j < i -> index_ok l -> entry t (pd + j * PAGE_SIZE) l = identity_entry j l) /\
      (forall l, 0 <= l < k -> entry t (pd + i * PAGE_SIZE) l = identity_entry i l)) 512 0
      (fun i_pd s => Some (put_entry (pd + i * PAGE_SIZE) i_pd (identity_entry i i_pd) s))
      (put_entry pdp i (Z.lor (pd + i * PAGE_SIZE) PTE_KERNEL_FLAGS) s)) as (s' & E & Hok & Ht & Hpdp & Hpd & Hlast).
  - destruct Hd as [Hok Ht Hpdp Hpd]. assert (index_ok i) as Hii by (unfold index_ok; lia). split_and!.
    + by apply vm_ok_put.
    + rewrite entry_put by done. by destruct (Z.eqb_spec pdp pml4).
    + intros j Hj. rewrite entry_put by (done || unfold index_ok; lia). rewrite Z.eqb_refl. cbn [andb].
      destruct (Z.eqb_spec i j) as [->|]; [done|]. apply Hpdp. lia.
    + intros j l Hj Hl. rewrite entry_put by (done || apply directory_aligned). 
      destruct (Z.eqb_spec pdp (pd + j * PAGE_SIZE)) as [Hbad|]; [by destruct (D3 j ltac:(lia))|]. by apply Hpd.
    + lia.
  - intros k t Hk (Hok & Ht & Hpdp & Hpd & Hlast). eexists. split; [done|].
    assert (index_ok k) as Hki by (unfold index_ok; lia). split_and!.
    + by apply vm_ok_put.
    + rewrite entry_put by done. by destruct (Z.eqb_spec (pd + i * PAGE_SIZE) pml4) as [Hbad|]; [destruct (D4 i Hi)|].
    + intros j Hj. rewrite entry_put by (done || unfold index_ok; lia).
      destruct (Z.eqb_spec (pd + i * PAGE_SIZE) pdp) as [Hbad|]; [by destruct (D3 i Hi)|]. by apply Hpdp.
    + intros j l Hj Hl. rewrite entry_put by (done || apply directory_aligned).
      destruct (Z.eqb_spec (pd + i * PAGE_SIZE) (pd + j * PAGE_SIZE)) as [Hbad|]; [by destruct (Hne j Hj)|]. by apply Hpd.
    + intros l Hl. rewrite entry_put by (done || unfold index_ok; lia). rewrite Z.eqb_refl. cbn [andb].
      destruct (Z.eqb_spec k l) as [->|]; [done|]. apply Hlast. lia.
  - exists s'. split; [done|]. split; [done|done|done|]. intros j l Hj Hl.
    destruct (Z.eq_dec j i) as [->|]; [apply Hlast; exact Hl|apply Hpd; [lia|done]].
Qed.

Lemma setup_identity_spec s : vm_ok s -> exists s', setup_identity_mapping pml4 pdp pd s = Some s' /\ directories 64 s'.
Proof.
  intros Hok. unfold setup_identity_mapping. apply (for_n_inv directories).
  - split; [by apply vm_ok_put|rewrite entry_put by done; by rewrite !Z.eqb_refl|lia|lia].
  - intros i t Hi Hd. apply fill_directory; [|done]. change (Z.of_nat (Z.to_nat PAGE_DIRECTORY_COUNT)) with 64 in Hi. lia.
Qed.
End identity.

(** ** The kernel's half *)

Lemma part_div level a : 1 <= level -> part level a = a / 2 ^ (12 + 9 * (level - 1)) mod 512.
Proof.
  intros Hl. unfold part, part_shift, part_width. destruct (Z.eqb_spec level 0); [lia|]. by rewrite field_mod by lia.
Qed.

(** The identity mapping as the active table sees it. *)
Record kernel_half (s : Vm) (pdp pd : Z) : Prop := mkKernelHalf {
  kh_aligned : aligned (cr3 s) /\ aligned pdp /\ aligned pd;
  kh_range : 0 <= pdp < 2 ^ 52 /\ 0 <= pd /\ pd + 64 * PAGE_SIZE <= 2 ^ 52;
  kh_top : entry s (cr3 s) 0 = Z.lor pdp PTE_KERNEL_FLAGS;
  kh_pdp : forall i, 0 <= i < 64 -> entry s pdp i = Z.lor (pd + i * PAGE_SIZE) PTE_KERNEL_FLAGS;
  kh_pd : forall i k, 0 <= i < 64 -> index_ok k -> entry s (pd + i * PAGE_SIZE) k = identity_entry i k;
}.

Lemma identity_entry_next i k : 0 <= i < 64 -> index_ok k -> get_next_level_table (identity_entry i k) = i * PAGE_1GIB + k * PAGE_2MIB.
Proof.
  unfold index_ok. intros Hi Hk. unfold identity_entry. apply next_lor_flags; [| |done].
  - unfold PAGE_1GIB, PAGE_2MIB, PAGE_SIZE. change (2 ^ 52) with 4503599627370496. lia.
  - unfold aligned, PAGE_1GIB, PAGE_2MIB.
    replace (i * (512 * (512 * PAGE_SIZE)) + k * (512 * PAGE_SIZE)) with ((i * 262144 + k * 512) * PAGE_SIZE) by lia. apply Z.mod_mul. done.
Qed.

Lemma identity_entry_bit i k b : 0 <= b < 12 -> Z.testbit (identity_entry i k) b = Z.testbit PTE_KERNEL_HUGE_FLAGS b.
Proof.
  intros Hb. unfold identity_entry. apply testbit_lor_flags; [|done]. unfold aligned, PAGE_1GIB, PAGE_2MIB.
  replace (i * (512 * (512 * PAGE_SIZE)) + k * (512 * PAGE_SIZE)) with ((i * 262144 + k * 512) * PAGE_SIZE) by lia. apply Z.mod_mul. done.
Qed.

(** The parts of a kernel address. *)
Lemma kernel_parts a : 0 <= a < 64 * PAGE_1GIB ->
  part 4 a = 0 /\ part 3 a = a / 2 ^ 30 /\ 0 <= a / 2 ^ 30 < 64 /\
  a / 2 ^ 30 * PAGE_1GIB + part 2 a * PAGE_2MIB + part 1 a * PAGE_SIZE = a / PAGE_SIZE * PAGE_SIZE.
Proof.
  unfold PAGE_1GIB, PAGE_2MIB, PAGE_SIZE. intros Ha. rewrite !part_div by lia.
  change (2 ^ (12 + 9 * (4 - 1))) with 549755813888. change (2 ^ (12 + 9 * (3 - 1))) with 1073741824.
  change (2 ^ (12 + 9 * (2 - 1))) with 2097152. change (2 ^ (12 + 9 * (1 - 1))) with 4096. change (2 ^ 30) with 1073741824.
  assert (a / 549755813888 = 0) as H4 by (apply Z.div_small; lia).
  assert (0 <= a / 1073741824 < 64) as H3 by (split; [apply Z.div_pos; lia|apply Z.div_lt_upper_bound; lia]).
  assert (a / 2097152 = a / 4096 / 512) as H2 by (rewrite Z.div_div by lia; done).
  assert (a / 1073741824 = a / 4096 / 512 / 512) as H1 by (rewrite !Z.div_div by lia; done).
  rewrite H4. split_and!; try lia; [done|apply Z.mod_small; lia|]. rewrite H2, H1.
  pose proof (Z.div_mod (a / 4096) 512). pose proof (Z.div_mod (a / 4096 / 512) 512). lia.
Qed.

Lemma directory_at pd i : aligned pd -> aligned (pd + i * PAGE_SIZE).
Proof. intros Hp. unfold aligned. by rewrite Z_mod_plus_full. Qed.

(** Going down the kernel's half: the directory entry of an address. *)
Lemma kernel_walk s pdp pd a : kernel_half s pdp pd -> 0 <= a < 64 * PAGE_1GIB ->
  get_next_level_table (entry s (cr3 s) (part 4 a)) = pdp /\ present (entry s (cr3 s) (part 4 a)) = true /\
  get_next_level_table (entry s pdp (part 3 a)) = pd + a / 2 ^ 30 * PAGE_SIZE /\ present (entry s pdp (part 3 a)) = true /\
  entry s (pd + a / 2 ^ 30 * PAGE_SIZE) (part 2 a) = identity_entry (a / 2 ^ 30) (part 2 a).
Proof.
  intros [(A4 & A3 & A2) (R3 & R2 & R2') Ht Hp Hd] Ha. destruct (kernel_parts a Ha) as (H4 & H3 & H30 & _).
  rewrite H4, H3, Ht, Hp, Hd by (done || by apply part_index). unfold present.
  rewrite !next_lor_flags, !testbit_lor_flags; try done; try (by apply directory_at). unfold PAGE_SIZE in *. lia.
Qed.

Lemma translate_kernel s pdp pd a : kernel_half s pdp pd -> 0 <= a < 64 * PAGE_1GIB -> translate s a = Some (a / PAGE_SIZE * PAGE_SIZE).
Proof.
  intros Hk Ha. destruct (kernel_walk s pdp pd a Hk Ha) as (N4 & P4 & N3 & P3 & E2).
  destruct (kernel_parts a Ha) as (H4 & H3 & H30 & Hsum).
  unfold translate. cbn [translate_from]. fold (entry s (cr3 s) (part 4 a)). rewrite P4, N4. cbn [negb].
  change (4 =? 1) with false. change (4 =? 2) with false. change (4 - 1) with 3. cbn [andb].
  fold (entry s pdp (part 3 a)). rewrite P3, N3. cbn [negb].
  change (3 =? 1) with false. change (3 =? 2) with false. change (3 - 1) with 2. cbn [andb].
  fold (entry s (pd + a / 2 ^ 30 * PAGE_SIZE) (part 2 a)). rewrite E2. unfold present, huge_page. rewrite !identity_entry_bit by lia.
  change (Z.testbit PTE_KERNEL_HUGE_FLAGS 0) with true. change (Z.testbit PTE_KERNEL_HUGE_FLAGS 7) with true.
  change (2 =? 1) with false. change (2 =? 2) with true. cbn [negb andb].
  rewrite identity_entry_next by (done || by apply part_index). f_equal. lia.
Qed.

(** ** Replacing a frame *)

Definition put_frame (a : Z) (f : list Z) (s : Vm) : Vm := set_ram (<[a / PAGE_SIZE := f]> (ram s)) s.

Lemma entry_put_frame a f s t i : aligned a -> aligned t -> index_ok i ->
  entry (put_frame a f s) t i = if t =? a then f !!! Z.to_nat i else entry s t i.
Proof.
  intros Ha Ht Hi. unfold entry, put_frame. cbn [ram set_ram]. rewrite !ld_entry, frame_insert by done.
  destruct (Z.eqb_spec t a) as [->|Hne]; [by rewrite Z.eqb_refl|].
  destruct (Z.eqb_spec (t / PAGE_SIZE) (a / PAGE_SIZE)) as [He|]; [|done]. by destruct Hne; apply aligned_eq.
Qed.

Lemma vm_ok_put_frame a f s : vm_ok s -> length f = 512%nat -> vm_ok (put_frame a f s).
Proof. intros. by apply ram_ok_insert. Qed.

Lemma drop_page_ram a s : ram (drop_page a s) = ram s /\ cr3 (drop_page a s) = cr3 s /\ avail (drop_page a s) = avail s.
Proof.
  unfold drop_page. destruct (get_page _ _); [|done]. destruct (atz _ _) as [p|]; [|done]. destruct (dec_ref p) as [r p']. by destruct (r =? 0).
Qed.

Lemma inc_page_ram a s : ram (inc_page a s) = ram s /\ cr3 (inc_page a s) = cr3 s /\ avail (inc_page a s) = avail s.
Proof. unfold inc_page. destruct (get_page _ _); [|done]. by destruct (atz _ _). Qed.

(** A state that agrees on the tables of the kernel's half. *)
Lemma kernel_half_frame s pdp pd a f : kernel_half s pdp pd -> aligned a ->
  a <> cr3 s -> a <> pdp -> (forall i, 0 <= i < 64 -> a <> pd + i * PAGE_SIZE) -> kernel_half (put_frame a f s) pdp pd.
Proof.
  intros [(A4 & A3 & A2) R Ht Hp Hd] Ha N4 N3 N2. split; [done|done| | |]; cbn [cr3 put_frame set_ram].
  - rewrite entry_put_frame by done. by destruct (Z.eqb_spec (cr3 s) a).
  - intros i Hi. rewrite entry_put_frame by (done || unfold index_ok; lia). destruct (Z.eqb_spec pdp a); [done|by apply Hp].
  - intros i k Hi Hk. rewrite entry_put_frame by (done || by apply directory_at).
    destruct (Z.eqb_spec (pd + i * PAGE_SIZE) a) as [He|]; [by destruct (N2 i Hi)|by apply Hd].
Qed.

(** * What paging promises

    The identity mapping of the kernel, and what a page fault does to it. *)

(** The theorem: after [initialize_paging] every address of the first 64 GiB is
    translated to itself. *)
Theorem identity_mapping_correct pml4 pdp pd s :
  vm_ok s -> aligned pml4 -> aligned pdp -> aligned pd ->
  0 <= pml4 < 2 ^ 52 -> 0 <= pdp < 2 ^ 52 -> 0 <= pd -> pd + 64 * PAGE_SIZE <= 2 ^ 52 ->
  pml4 <> pdp -> (forall i, 0 <= i < 64 -> pml4 <> pd + i * PAGE_SIZE) -> (forall i, 0 <= i < 64 -> pdp <> pd + i * PAGE_SIZE) ->
  exists s', initialize_paging pml4 pdp pd s = Some s' /\ cr3 s' = pml4 /\
    forall a, 0 <= a < 64 * PAGE_1GIB -> translate s' a = Some (a / PAGE_SIZE * PAGE_SIZE).
Proof.
  intros Hok A4 A3 A2 R4 R3 R2 R2' D43 D4 D3.
  destruct (setup_identity_spec pml4 pdp pd A4 A3 A2 D43 D4 D3 s Hok) as (s1 & E & [Hok1 Ht Hp Hd]).
  exists (set_cr3 pml4 s1). unfold initialize_paging. rewrite E. cbn [mbind option_bind]. split_and!; [done|done|].
  intros a Ha. apply (translate_kernel _ pdp pd); [|exact Ha].
  split; [exact (conj A4 (conj A3 A2))|exact (conj R3 (conj R2 R2'))|exact Ht|exact Hp|exact Hd].
Qed.

(** The word a page fault at a kernel address overwrites. *)
Definition corrupted (a : Z) : Z := a / PAGE_2MIB * PAGE_2MIB.

(** The theorem: the fault handler takes a write of a user program to kernel
    memory for a write to a shared page.  It follows the 2 MiB entry of the address
    as if it were a page table, and stores an entry of the attacker's page into the
    memory of the kernel: word [part 1 a] of the 2 MiB frame of [a]. *)
Theorem user_write_corrupts_kernel s pdp pd page rest a :
  vm_ok s -> kernel_half s pdp pd -> avail s = page :: rest -> page_addr page ->
  page <> cr3 s -> page <> pdp -> (forall i, 0 <= i < 64 -> page <> pd + i * PAGE_SIZE) ->
  0 <= a < 64 * PAGE_1GIB -> page <> corrupted a ->
  exists s', handle_page_fault 7 a s = Some (err OK, s') /\ avail s' = rest /\
    get_next_level_table (entry s' (corrupted a) (part 1 a)) = page /\
    present (entry s' (corrupted a) (part 1 a)) = true /\ owned (entry s' (corrupted a) (part 1 a)) = true.
Proof.
  intros Hok Hk Hav Hpage N4 N3 N2 Ha Nc. pose proof (proj2 Hpage) as Hal.
  unfold handle_page_fault. change (_ && _ && _) with true. cbv iota. unfold copy_target_page, new_page_table. rewrite Hav.
  destruct (Z.eqb_spec page 0) as [->|_]; [by destruct Hpage as [[? _] _]|].
  set (s1 := mkVm _ _ _ _ _).
  assert (kernel_half s1 pdp pd) as Hk1.
  { destruct (kernel_half_frame s pdp pd page zero_frame Hk Hal N4 N3 N2) as [K1 K2 K3 K4 K5].
    split; [exact K1|exact K2|exact K3|exact K4|exact K5]. }
  assert (vm_ok s1) as Hok1 by (by apply ram_ok_insert).
  rewrite (translate_kernel s1 pdp pd a Hk1 Ha). cbn [mbind option_bind].
  set (s2 := copy_frame page _ s1).
  assert (kernel_half s2 pdp pd) as Hk2 by exact (kernel_half_frame s1 pdp pd page _ Hk1 Hal N4 N3 N2).
  assert (vm_ok s2) as Hok2 by (apply ram_ok_insert; [done|by apply length_frame]).
  set (shared := match get_pte s2 (cr3 s2) a 1 with Some _ => _ | None => _ end).
  destruct (inc_page_ram page s2) as (Er & Ec & Ea). set (s3 := inc_page page s2) in *.
  assert (forall t i, entry s3 t i = entry s2 t i) as He by (intros t i; unfold entry; by rewrite Er).
  assert (kernel_half s3 pdp pd) as Hk3.
  { destruct Hk2 as [K1 K2 K3 K4 K5]. split; rewrite ?Ec, ?He; [exact K1|exact K2|exact K3| |].
    - intros i Hi. rewrite He. by apply K4.
    - intros i k Hi Hi'. rewrite He. by apply K5. }
  destruct (kernel_walk s3 pdp pd a Hk3 Ha) as (W4 & _ & W3 & _ & W2).
  destruct (kernel_parts a Ha) as (_ & _ & H30 & _).
  unfold set_page_table_entry. rewrite W4, W3, W2, identity_entry_next by (done || by apply part_index).
  assert (a / 2 ^ 30 * PAGE_1GIB + part 2 a * PAGE_2MIB = corrupted a) as ->.
  { unfold corrupted, PAGE_1GIB, PAGE_2MIB, PAGE_SIZE. rewrite part_div by lia. change (2 ^ (12 + 9 * (2 - 1))) with 2097152.
    change (2 ^ 30) with (2097152 * 512). rewrite <- Z.div_div by lia. change (512 * 4096) with 2097152. pose proof (Z.div_mod (a / 2097152) 512). lia. }
  set (s4 := put_entry _ _ _ s3). eexists. split; [reflexivity|].
  assert (aligned (corrupted a)) as Hc.
  { unfold aligned, corrupted, PAGE_2MIB. replace (a / (512 * PAGE_SIZE) * (512 * PAGE_SIZE)) with (a / (512 * PAGE_SIZE) * 512 * PAGE_SIZE) by lia. by apply Z.mod_mul. }
  assert (forall v, entry (if shared =? 0 then s4 else drop_page shared s4) (corrupted a) (part 1 a) = v <-> entry s4 (corrupted a) (part 1 a) = v) as Hsame.
  { intros v. destruct (shared =? 0); [done|]. unfold entry. by destruct (drop_page_ram shared s4) as (-> & _). }
  assert (vm_ok s3) as Hok3 by (unfold vm_ok; by rewrite Er).
  assert (entry (if shared =? 0 then s4 else drop_page shared s4) (corrupted a) (part 1 a) =
    set_present true (set_owned true (set_writable true (set_next_level_table page (entry s3 (corrupted a) (part 1 a)))))) as ->.
  { apply Hsame. unfold s4. rewrite entry_put by (done || by apply part_index). by rewrite !Z.eqb_refl. }
  unfold set_present, set_owned, set_writable, present, owned. rewrite !next_set_flag, next_set_next, !testbit_set_flag by (done || lia).
  split_and!; try done. destruct (shared =? 0); [|destruct (drop_page_ram shared s4) as (_ & _ & ->)]; cbn; by rewrite Ea.
Qed.
