(* ===== verification/PagingTree.v ===== *)
(** * Address spaces as trees of tables

    The tree of tables below a root, the mapping it gives, reference counts, and the
    lemmas for copying a tree. *)

From S2P Require Import Prelude Message Pages Paging PagingProofs.

Open Scope Z_scope.

(** ** The tables of an address space and the mapping they give *)

Definition indices (start : Z) : list Z := seqZ start (512 - start).

(** All tables reachable from the entries [start ..] of a table, it included. *)
Fixpoint tables (level : nat) (m : Frames) (t start : Z) : list Z :=
  match level with
  | O => []
  | S below =>
      t :: (match below with
            | O => []
            | S _ => mjoin ((fun i => let e := ld m (t + 8 * i) in
                       if present e then tables below m (get_next_level_table e) 0 else []) <$> indices start)
            end)
  end.

(** The entry that maps an address. *)
Fixpoint leaf (level : nat) (m : Frames) (t a : Z) : option Z :=
  match level with
  | O => None
  | S below =>
      let e := ld m (t + 8 * part (Z.of_nat level) a) in
      if negb (present e) then None
      else match below with O => Some e | S _ => leaf below m (get_next_level_table e) a end
  end.

(** The data pages the entries [start ..] own, in the order of the walk. *)
Fixpoint leaves (level : nat) (m : Frames) (t start : Z) : list Z :=
  match level with
  | O => []
  | S below =>
      mjoin ((fun i => let e := ld m (t + 8 * i) in
        if negb (present e) then []
        else match below with
             | O => if owned e then [get_next_level_table e] else []
             | S _ => leaves below m (get_next_level_table e) 0
             end) <$> indices start)
  end.

Lemma elem_indices i start : 0 <= start -> i ∈ indices start <-> start <= i < 512.
Proof. intros. unfold indices. rewrite elem_of_seqZ. lia. Qed.

(** Two memories with the same tables. *)
Definition same_on (ts : list Z) (m m' : Frames) : Prop := forall t, t ∈ ts -> frame m' (t / PAGE_SIZE) = frame m (t / PAGE_SIZE).

Lemma same_on_ld ts m m' t i : same_on ts m m' -> t ∈ ts -> aligned t -> index_ok i -> ld m' (t + 8 * i) = ld m (t + 8 * i).
Proof. intros Hs Ht Ha Hi. rewrite !ld_entry by done. by rewrite Hs. Qed.

Lemma same_on_sub ts ts' m m' : same_on ts m m' -> ts' ⊆ ts -> same_on ts' m m'.
Proof. intros Hs Hsub t Ht. apply Hs. by apply Hsub. Qed.

(** The tables below one entry are among the tables. *)
Lemma tables_below level m t start i : 0 <= start -> start <= i < 512 -> present (ld m (t + 8 * i)) = true ->
  tables (S level) m (get_next_level_table (ld m (t + 8 * i))) 0 ⊆ tables (S (S level)) m t start.
Proof.
  intros H0 Hi Hp x Hx. cbn [tables]. right. apply list_elem_of_join. exists (tables (S level) m (get_next_level_table (ld m (t + 8 * i))) 0).
  split; [exact Hx|]. apply list_elem_of_fmap. exists i. rewrite Hp. split; [done|]. by apply elem_indices.
Qed.

Lemma tables_self level m t start : t ∈ tables (S level) m t start.
Proof. by left. Qed.

(** Tables, leaves and mappings depend on the frames of the tables alone. *)
Lemma tables_ext level : forall m m' t start, 0 <= start -> aligned t -> same_on (tables level m t start) m m' ->
  tables level m' t start = tables level m t start /\ leaves level m' t start = leaves level m t start.
Proof.
  induction level as [|below IH]; intros m m' t start H0 Ha Hs; [done|].
  assert (forall i, i ∈ indices start -> ld m' (t + 8 * i) = ld m (t + 8 * i)) as He.
  { intros i Hi. apply elem_indices in Hi; [|done]. eapply same_on_ld; [exact Hs|apply tables_self|done|]. unfold index_ok. lia. }
  assert (forall i, i ∈ indices start -> present (ld m (t + 8 * i)) = true -> below <> O ->
    tables below m' (get_next_level_table (ld m (t + 8 * i))) 0 = tables below m (get_next_level_table (ld m (t + 8 * i))) 0 /\
    leaves below m' (get_next_level_table (ld m (t + 8 * i))) 0 = leaves below m (get_next_level_table (ld m (t + 8 * i))) 0) as Hb.
  { intros i Hi Hp Hne. destruct below as [|below]; [done|]. apply IH; [lia|apply next_aligned|].
    eapply same_on_sub; [exact Hs|]. apply elem_indices in Hi; [|done]. by apply tables_below. }
  cbn [tables leaves]. split.
  - f_equal. destruct below as [|below]; [done|]. f_equal. apply list_fmap_ext. intros k i Hi. apply list_elem_of_lookup_2 in Hi.
    rewrite He by done. destruct (present _) eqn:Hp; [|done]. by apply Hb.
  - f_equal. apply list_fmap_ext. intros k i Hi. apply list_elem_of_lookup_2 in Hi.
    rewrite He by done. destruct (present _) eqn:Hp; [|done]. destruct below as [|below]; [done|]. by apply Hb.
Qed.

Lemma leaf_ext level : forall m m' t start a, 0 <= start -> aligned t -> start <= part (Z.of_nat level) a ->
  same_on (tables level m t start) m m' -> leaf level m' t a = leaf level m t a.
Proof.
  induction level as [|below IH]; intros m m' t start a H0 Ha Hp Hs; [done|]. cbn [leaf].
  pose proof (part_index (Z.of_nat (S below)) a ltac:(lia)) as Hi.
  rewrite (same_on_ld _ m m' t _ Hs) by (done || apply tables_self). destruct (present _) eqn:Hpr; [|done]. cbn [negb].
  destruct below as [|below]; [done|]. apply (IH m m' _ 0); [lia|apply next_aligned|apply part_index; lia|].
  eapply same_on_sub; [exact Hs|]. apply tables_below; [done|unfold index_ok in Hi; lia|done].
Qed.

(** ** Reference counts *)

(** [inc_ref] and [dec_ref] on the page of an address, by number. *)
Definition inc_at (ps : list Page) (a : Z) : list Page :=
  match get_page ps a with
  | None => ps
  | Some i => match atz ps i with Some p => setz ps i (inc_ref p) | None => ps end
  end.

Lemma inc_page_eq a s : inc_page a s = set_vm_pages (inc_at (vm_pages s) a) s.
Proof.
  unfold inc_page, inc_at. destruct (get_page _ _); [|by destruct s]. destruct (atz _ _); [done|by destruct s].
Qed.

(** ** Copying *)

(** The tables and leaves below entry [i]. *)
Definition subtables (below : nat) (m : Frames) (t i : Z) : list Z :=
  let e := ld m (t + 8 * i) in if present e then tables below m (get_next_level_table e) 0 else [].
Definition subleaves (below : nat) (m : Frames) (t i : Z) : list Z :=
  let e := ld m (t + 8 * i) in if negb (present e) then [] else leaves below m (get_next_level_table e) 0.

Lemma tables_eq below m t start : tables (S (S below)) m t start = t :: mjoin (subtables (S below) m t <$> indices start).
Proof. done. Qed.

Lemma leaves_eq below m t start : leaves (S (S below)) m t start = mjoin (subleaves (S below) m t <$> indices start).
Proof. done. Qed.

(** The entries below [i]. *)
Definition upto (start i : Z) : list Z := seqZ start (i - start).

Lemma upto_S start i : start <= i -> upto start (i + 1) = upto start i ++ [i].
Proof.
  intros Hi. unfold upto. replace (i + 1 - start) with ((i - start) + 1) by lia. rewrite seqZ_app by lia. f_equal.
  unfold seqZ. simpl. f_equal. lia.
Qed.

Lemma elem_upto j start i : j ∈ upto start i <-> start <= j < i.
Proof. unfold upto. rewrite elem_of_seqZ. lia. Qed.

Lemma mjoin_snoc {A} (f : Z -> list A) start i : start <= i -> mjoin (f <$> upto start (i + 1)) = mjoin (f <$> upto start i) ++ f i.
Proof. intros Hi. rewrite upto_S, fmap_app, join_app by done. cbn. by rewrite app_nil_r. Qed.

Lemma mjoin_ext {A} (f g : Z -> list A) start i : (forall j, start <= j < i -> f j = g j) -> mjoin (f <$> upto start i) = mjoin (g <$> upto start i).
Proof.
  intros H. f_equal. apply list_fmap_ext. intros k j Hj. apply list_elem_of_lookup_2 in Hj. apply elem_upto in Hj. by apply H.
Qed.

Lemma mjoin_sub {A} (f : Z -> list A) start i j : start <= j < i -> f j ⊆ mjoin (f <$> upto start i).
Proof.
  intros Hj x Hx. apply list_elem_of_join. exists (f j). split; [done|]. apply list_elem_of_fmap. exists j. split; [done|]. by apply elem_upto.
Qed.

(** Structures below an entry are kept when their frames and the entry are. *)
Lemma sub_ext below m m' t j : aligned t -> ld m' (t + 8 * j) = ld m (t + 8 * j) -> same_on (subtables below m t j) m m' ->
  subtables below m' t j = subtables below m t j /\ subleaves below m' t j = subleaves below m t j.
Proof.
  intros Ha He Hs. unfold subtables, subleaves in *. rewrite He. destruct (present _); [|done]. cbn [negb].
  by apply tables_ext; [lia|apply next_aligned|].
Qed.

(** Frames outside [ts] are untouched. *)
Definition only_frames (ts : list Z) (m m' : Frames) : Prop :=
  forall x, aligned x -> x ∉ ts -> frame m' (x / PAGE_SIZE) = frame m (x / PAGE_SIZE).

Lemma only_frames_put ts t i v s : aligned t -> index_ok i -> t ∈ ts -> only_frames ts (ram s) (ram (put_entry t i v s)).
Proof.
  intros Ha Hi Ht x Hx Hn. cbn [ram put_entry set_ram]. rewrite st_entry, frame_insert by done.
  destruct (Z.eqb_spec (x / PAGE_SIZE) (t / PAGE_SIZE)) as [He|]; [|done]. apply aligned_eq in He as ->; done.
Qed.

Lemma only_frames_trans ts m1 m2 m3 : only_frames ts m1 m2 -> only_frames ts m2 m3 -> only_frames ts m1 m3.
Proof. intros H1 H2 x Hx Hn. by rewrite H2, H1. Qed.

Lemma only_frames_weaken ts ts' m m' : only_frames ts m m' -> ts ⊆ ts' -> only_frames ts' m m'.
Proof. intros H Hs x Hx Hn. apply H; [done|]. intros Hin. by apply Hn, Hs. Qed.

Lemma only_frames_same ts us m m' : only_frames ts m m' -> Forall aligned us -> (forall x, x ∈ us -> x ∉ ts) -> same_on us m m'.
Proof. intros H Ha Hd x Hx. rewrite Forall_forall in Ha. apply H; [by apply Ha|by apply Hd]. Qed.

Lemma only_frames_entry ts s s' t i : only_frames ts (ram s) (ram s') -> aligned t -> index_ok i -> t ∉ ts -> entry s' t i = entry s t i.
Proof. intros H Ha Hi Ht. unfold entry. rewrite !ld_entry by done. by rewrite H. Qed.

Lemma tables_aligned level : forall m t start, aligned t -> Forall aligned (tables level m t start).
Proof.
  induction level as [|below IH]; intros m t start Ha; [done|]. cbn [tables]. apply Forall_cons. split; [done|].
  destruct below as [|below]; [done|]. apply Forall_join, Forall_fmap, Forall_forall. intros i _. cbn [compose].
  destruct (present _); [|done]. apply IH. apply next_aligned.
Qed.

Lemma subtables_aligned below m t i : Forall aligned (subtables below m t i).
Proof. unfold subtables. cbv zeta. destruct (present (ld m (t + 8 * i))); [apply tables_aligned, next_aligned|done]. Qed.

(** [dst] maps what [src] mapped, with the write flag [w]; its other tables are [chunk]. *)
Record cloned (level : nat) (w : bool) (m : Frames) (src : Z) (m' : Frames) (dst start : Z) (chunk : list Z) : Prop := mkCloned {
  cl_tables : tables level m' dst start = dst :: chunk;
  cl_leaves : leaves level m' dst start = leaves level m src start;
  cl_leaf : forall a, start <= part (Z.of_nat level) a -> leaf level m' dst a = set_writable w <$> leaf level m src a;
}.

Lemma present_set_writable w e : present (set_writable w e) = present e.
Proof. unfold present, set_writable. by rewrite testbit_set_flag by lia. Qed.

Lemma owned_set_writable w e : owned (set_writable w e) = owned e.
Proof. unfold owned, set_writable. by rewrite testbit_set_flag by lia. Qed.

(** What is kept besides memory. *)
Definition same_regs (s s' : Vm) : Prop := cr3 s' = cr3 s /\ freed s' = freed s.

(** The last level. *)
Lemma copy_level1 w dst src start s :
  vm_ok s -> aligned dst -> aligned src -> 0 <= start <= 512 -> dst <> src ->
  (forall i, start <= i < 512 -> present (entry s dst i) = false) ->
  exists s', copy_page_tables 1 dst src w start s = Some s' /\ vm_ok s' /\ same_regs s s' /\ avail s' = avail s /\
    only_frames [dst] (ram s) (ram s') /\ (forall i, index_ok i -> i < start -> entry s' dst i = entry s dst i) /\
    cloned 1 w (ram s) src (ram s') dst start [] /\
    vm_pages s' = foldl inc_at (vm_pages s) (leaves 1 (ram s) src start).
Proof.
  intros Hok Hd Hsrc Hst Hne Habs.
  set (L := fun i => let e := entry s src i in if negb (present e) then [] else if owned e then [get_next_level_table e] else []).
  edestruct (for_n_inv (fun i t => vm_ok t /\ same_regs s t /\ avail t = avail s /\ only_frames [dst] (ram s) (ram t) /\
      (forall j, index_ok j -> entry t dst j = if (start <=? j) && (j <? i) && present (entry s src j)
         then set_writable w (entry s src j) else entry s dst j) /\
      vm_pages t = foldl inc_at (vm_pages s) (mjoin (L <$> upto start i)))
    (Z.to_nat (PT_ENTRIES - start)) start) as (s' & E & Hok' & Hregs & Hav & Hfr & Hent & Hpg); cycle 2.
  - replace (start + Z.of_nat (Z.to_nat (PT_ENTRIES - start))) with 512 in * by (unfold PT_ENTRIES; lia).
    exists s'. cbn [copy_page_tables]. split; [exact E|]. split_and!; try done.
    + intros i Hi Hlt. rewrite Hent by done. by destruct (Z.leb_spec start i); [lia|].
    + assert (forall i, start <= i < 512 -> ld (ram s') (dst + 8 * i) =
        if present (entry s src i) then set_writable w (entry s src i) else entry s dst i) as Hl.
      { intros i Hi. change (ld (ram s') (dst + 8 * i)) with (entry s' dst i). rewrite Hent by (unfold index_ok; lia).
        by destruct (Z.leb_spec start i), (Z.ltb_spec i 512); try lia. }
      split; [done| |].
      * cbn [leaves]. apply (mjoin_ext _ _ start 512). intros i Hi. rewrite Hl by done. fold (entry s src i).
        destruct (present (entry s src i)) eqn:Hp; [|by rewrite Habs].
        rewrite present_set_writable, Hp, owned_set_writable. cbn [negb]. unfold set_writable. by rewrite next_set_flag by lia.
      * intros a Ha. pose proof (part_index 1 a ltac:(lia)) as Hi. cbn [leaf]. change (Z.of_nat 1) with 1 in *.
        rewrite Hl by (unfold index_ok in Hi; lia). fold (entry s src (part 1 a)).
        destruct (present (entry s src (part 1 a))) eqn:Hp; [by rewrite present_set_writable, Hp|].
        by rewrite Habs by (unfold index_ok in Hi; lia).
  - split_and!; try done.
    + intros j Hj. destruct (Z.leb_spec start j), (Z.ltb_spec j start); try lia; done.
    + unfold upto. by rewrite Z.sub_diag.
  - intros i t Hi (Hok' & Hregs & Hav & Hfr & Hent & Hpg). cbv beta zeta.
    assert (index_ok i) as Hii by (unfold index_ok, PT_ENTRIES in *; lia).
    rewrite (only_frames_entry _ s t src i Hfr) by (done || by apply not_elem_of_cons; split; [|apply not_elem_of_nil]).
    destruct (present (entry s src i)) eqn:Hp; cbn [negb].
    + eexists. split; [reflexivity|].
      assert (vm_pages (if owned (entry s src i) then inc_page (get_next_level_table (entry s src i)) (put_entry dst i (set_writable w (entry s src i)) t)
        else put_entry dst i (set_writable w (entry s src i)) t) = foldl inc_at (vm_pages s) (mjoin (L <$> upto start (i + 1)))) as Hpg'.
      { rewrite mjoin_snoc, foldl_app, <- Hpg by lia. unfold L at 1. cbv zeta. rewrite Hp. cbn [negb]. destruct (owned _); [by rewrite inc_page_eq|done]. }
      assert (forall P : Vm -> Prop, (forall x ps, P x <-> P (set_vm_pages ps x)) -> P (put_entry dst i (set_writable w (entry s src i)) t) ->
        P (if owned (entry s src i) then inc_page (get_next_level_table (entry s src i)) (put_entry dst i (set_writable w (entry s src i)) t)
        else put_entry dst i (set_writable w (entry s src i)) t)) as Hlift.
      { intros P HP H. destruct (owned _); [rewrite inc_page_eq; by apply HP|done]. }
      split_and!; [| | | | |exact Hpg'].
      * apply Hlift; [done|]. by apply vm_ok_put.
      * apply (Hlift (same_regs s)); [done|]. done.
      * apply (Hlift (fun x => avail x = avail s)); [done|]. done.
      * apply (Hlift (fun x => only_frames [dst] (ram s) (ram x))); [done|].
        eapply only_frames_trans; [exact Hfr|]. apply only_frames_put; [done|done|by left].
      * intros j Hj. apply (Hlift (fun x => entry x dst j = _)); [done|]. rewrite entry_put by done. rewrite Z.eqb_refl. cbn [andb].
        destruct (Z.eqb_spec i j) as [->|Hij].
        -- destruct (Z.leb_spec start j), (Z.ltb_spec j (j + 1)); try lia. by rewrite Hp.
        -- rewrite Hent by done. destruct (Z.leb_spec start j), (Z.ltb_spec j i), (Z.ltb_spec j (i + 1)); try lia; done.
    + exists t. split_and!; try done.
      * intros j Hj. rewrite Hent by done. destruct (Z.eq_dec i j) as [->|Hij]; [by rewrite Hp, !andb_false_r|].
        destruct (Z.leb_spec start j), (Z.ltb_spec j i), (Z.ltb_spec j (i + 1)); try lia; done.
      * rewrite Hpg, mjoin_snoc by lia. unfold L at 3. cbv zeta. rewrite Hp. cbn [negb]. by rewrite app_nil_r.
Qed.

(** ** Copying a whole tree *)

(** The pages that will back the new tables are fresh. *)
Record fresh_for (dst : Z) (A used : list Z) : Prop := mkFresh {
  ff_nodup : NoDup (dst :: A);
  ff_pages : Forall page_addr A;
  ff_apart : forall x, x ∈ used -> x ∉ dst :: A;
}.

Lemma page_addr_al a : page_addr a -> aligned a.
Proof. by intros [_ H]. Qed.

(** [new_page_table] when a page is left: a zero frame. *)
Lemma new_page_ok s a rest : avail s = a :: rest -> page_addr a -> vm_ok s ->
  exists s1, new_page_table s = (a, s1) /\ vm_ok s1 /\ same_regs s s1 /\ avail s1 = rest /\ vm_pages s1 = vm_pages s /\
    only_frames [a] (ram s) (ram s1) /\ forall i, index_ok i -> entry s1 a i = 0.
Proof.
  intros Hav Ha Hok. unfold new_page_table. rewrite Hav. eexists. split; [done|]. split_and!; try done.
  - by apply ram_ok_insert.
  - intros x Hx Hn. cbn [ram]. rewrite frame_insert. destruct (Z.eqb_spec (x / PAGE_SIZE) (a / PAGE_SIZE)) as [He|]; [|done].
    apply aligned_eq in He as ->; [|done|by apply page_addr_al]. by destruct Hn; left.
  - intros i Hi. unfold entry. cbn [ram]. rewrite ld_entry, frame_insert, Z.eqb_refl by (done || by apply page_addr_al).
    unfold zero_frame, index_ok in *. apply lookup_total_replicate_2. lia.
Qed.

(** What one call leaves behind. *)
Record copied (level : nat) (w : bool) (dst src start : Z) (s s' : Vm) (A : list Z) : Prop := mkCopied {
  cp_ok : vm_ok s';
  cp_regs : same_regs s s';
  cp_avail : avail s' = drop (length (tables level (ram s) src start) - 1) A;
  cp_frames : only_frames (dst :: take (length (tables level (ram s) src start) - 1) A) (ram s) (ram s');
  cp_low : forall i, index_ok i -> i < start -> entry s' dst i = entry s dst i;
  cp_cloned : cloned level w (ram s) src (ram s') dst start (take (length (tables level (ram s) src start) - 1) A);
  cp_pages : vm_pages s' = foldl inc_at (vm_pages s) (leaves level (ram s) src start);
}.

(** The loop of a level above the last, after the entries below [i]. *)
Record copying (below : nat) (w : bool) (dst src start : Z) (s : Vm) (A : list Z) (i : Z) (t : Vm) : Prop := mkCopying {
  cy_ok : vm_ok t;
  cy_regs : same_regs s t;
  cy_avail : avail t = drop (length (mjoin (subtables (S below) (ram s) src <$> upto start i))) A;
  cy_frames : only_frames (dst :: take (length (mjoin (subtables (S below) (ram s) src <$> upto start i))) A) (ram s) (ram t);
  cy_other : forall j, index_ok j -> ~ (start <= j < i) -> entry t dst j = entry s dst j;
  cy_tables : mjoin (subtables (S below) (ram t) dst <$> upto start i) =
              take (length (mjoin (subtables (S below) (ram s) src <$> upto start i))) A;
  cy_leaves : mjoin (subleaves (S below) (ram t) dst <$> upto start i) = mjoin (subleaves (S below) (ram s) src <$> upto start i);
  cy_present : forall j, start <= j < i -> present (entry t dst j) = present (entry s src j);
  cy_leaf : forall j, start <= j < i -> present (entry s src j) = true -> forall a,
    leaf (S below) (ram t) (get_next_level_table (entry t dst j)) a =
    set_writable w <$> leaf (S below) (ram s) (get_next_level_table (entry s src j)) a;
  cy_pages : vm_pages t = foldl inc_at (vm_pages s) (mjoin (subleaves (S below) (ram s) src <$> upto start i));
}.

(** Splitting the supply at the page taken next. *)
Lemma supply_split dst A used k a rest n : fresh_for dst A used -> drop k A = a :: rest -> (n <= length rest)%nat ->
  a ∈ A /\ page_addr a /\ a <> dst /\ take (k + S n) A = take k A ++ a :: take n rest /\ drop (k + S n) A = drop n rest /\
  (forall x : Z, x ∈ take k A -> (x <> dst /\ x ∉ (a :: rest))) /\ (dst ∉ a :: rest) /\ NoDup (a :: rest) /\ Forall page_addr rest /\
  (forall x, x ∈ used -> x ∉ a :: rest).
Proof.
  intros [Hnd Hpg Hap] Hd Hn. assert (A = take k A ++ a :: rest) as HA by (rewrite <- Hd; symmetry; apply take_drop).
  apply NoDup_cons in Hnd as [Hdn Hnd]. rewrite HA in Hnd, Hdn, Hpg. apply NoDup_app in Hnd as (Hnd1 & Hdis & Hnd2).
  apply Forall_app in Hpg as [Hpg1 Hpg2]. apply Forall_cons in Hpg2 as [Hpa Hpr].
  assert (length (take k A) = k) as Hk.
  { apply length_take_le. assert (length (drop k A) = S (length rest)) as Hl by (by rewrite Hd). rewrite length_drop in Hl. lia. }
  split_and!; try done.
  - rewrite HA. apply elem_of_app. right. by left.
  - intros ->. apply Hdn, elem_of_app. right. by left.
  - rewrite HA at 1. rewrite take_app_ge by lia. rewrite Hk. replace (k + S n - k)%nat with (S n) by lia. done.
  - rewrite HA at 1. rewrite drop_app_ge by lia. rewrite Hk. by replace (k + S n - k)%nat with (S n) by lia.
  - intros x Hx. split; [intros ->; apply Hdn, elem_of_app; by left|by apply Hdis].
  - intros Hin. apply Hdn, elem_of_app. by right.
  - intros x Hx Hin. apply (Hap x Hx). right. rewrite HA. apply elem_of_app. by right.
Qed.

(** Memberships used below. *)
Lemma sub_second (d a : Z) l : [a] ⊆ d :: a :: l.
Proof. set_solver. Qed.
Lemma sub_tail (d a : Z) l : a :: l ⊆ d :: a :: l.
Proof. set_solver. Qed.
Lemma sub_left (d : Z) l k : d :: l ⊆ d :: l ++ k.
Proof. set_solver. Qed.
Lemma sub_right (d : Z) l k : d :: k ⊆ d :: l ++ k.
Proof. set_solver. Qed.
Lemma notin_take (d a : Z) n l : d ∉ a :: l -> d ∉ a :: take n l.
Proof. pose proof (subseteq_take n l). set_solver. Qed.
Lemma notin_cons (x d : Z) l : x <> d -> x ∉ l -> x ∉ d :: l.
Proof. set_solver. Qed.

Lemma present_set_next t e : present (set_next_level_table t e) = present e.
Proof. unfold present, set_next_level_table. by rewrite testbit_set_address by lia. Qed.

Section copy_step.
Context (below : nat) (w : bool).
Context (IH : forall dst src start s, vm_ok s -> aligned dst -> aligned src -> 0 <= start <= 512 ->
  (forall i, start <= i < 512 -> present (entry s dst i) = false) ->
  fresh_for dst (avail s) (tables (S below) (ram s) src start) ->
  (length (tables (S below) (ram s) src start) - 1 <= length (avail s))%nat ->
  exists s', copy_page_tables (S below) dst src w start s = Some s' /\ copied (S below) w dst src start s s' (avail s)).
Context (dst src start : Z) (s : Vm).
Context (Hok : vm_ok s) (Hd : aligned dst) (Hsrc : aligned src) (Hst : 0 <= start <= 512).
Context (Habs : forall i, start <= i < 512 -> present (entry s dst i) = false).
Context (Hfresh : fresh_for dst (avail s) (tables (S (S below)) (ram s) src start)).
Context (Hroom : (length (mjoin (subtables (S below) (ram s) src <$> upto start 512)) <= length (avail s))%nat).

(** The source is not touched while copying. *)
Lemma source_kept i ts t : (forall x, x ∈ ts -> x ∈ dst :: avail s) -> only_frames ts (ram s) (ram t) -> start <= i < 512 ->
  entry t src i = entry s src i /\
  (present (entry s src i) = true -> same_on (tables (S below) (ram s) (get_next_level_table (entry s src i)) 0) (ram s) (ram t)).
Proof.
  intros Hts Hfr Hi. destruct Hfresh as [_ _ Hap]. split.
  - apply (only_frames_entry ts); [done|done|unfold index_ok; lia|]. intros Hin. apply (Hap src); [apply tables_self|by apply Hts].
  - intros Hp. apply (only_frames_same ts); [done|apply tables_aligned, next_aligned|]. intros x Hx Hin.
    apply (Hap x); [|by apply Hts]. by apply (tables_below below (ram s) src start i); [lia|lia|exact Hp|].
Qed.

Lemma room_at i : start <= i < 512 ->
  (length (mjoin (subtables (S below) (ram s) src <$> upto start i)) + length (subtables (S below) (ram s) src i) <= length (avail s))%nat.
Proof.
  intros Hi. etrans; [|exact Hroom]. rewrite <- length_app, <- mjoin_snoc by lia.
  replace (upto start 512) with (upto start (i + 1) ++ seqZ (i + 1) (512 - (i + 1))).
  - rewrite fmap_app, join_app, length_app. lia.
  - unfold upto. replace (seqZ (i + 1) (512 - (i + 1))) with (seqZ (start + (i + 1 - start)) (512 - (i + 1))) by (f_equal; lia).
    rewrite <- seqZ_app by lia. f_equal. lia.
Qed.

Lemma copy_absent i t : copying below w dst src start s (avail s) i t -> start <= i < 512 -> present (entry s src i) = false ->
  copying below w dst src start s (avail s) (i + 1) t.
Proof.
  intros [Cok Creg Cav Cfr Coth Ctab Clv Cpr Clf Cpg] Hi Hp.
  assert (subtables (S below) (ram s) src i = []) as Hs1 by (unfold subtables; fold (entry s src i); by rewrite Hp).
  assert (subleaves (S below) (ram s) src i = []) as Hs2 by (unfold subleaves; fold (entry s src i); by rewrite Hp).
  assert (entry t dst i = entry s dst i) as Hei by (apply Coth; unfold index_ok; lia).
  assert (subtables (S below) (ram t) dst i = []) as Hs3 by (unfold subtables; fold (entry t dst i); by rewrite Hei, Habs).
  assert (subleaves (S below) (ram t) dst i = []) as Hs4 by (unfold subleaves; fold (entry t dst i); by rewrite Hei, Habs).
  split; rewrite ?mjoin_snoc, ?Hs1, ?Hs2, ?Hs3, ?Hs4, ?app_nil_r by lia; try done.
  - intros j Hj Hn. apply Coth; [done|lia].
  - intros j Hj. destruct (Z.eq_dec j i) as [->|]; [by rewrite Hei, Hp, Habs|apply Cpr; lia].
  - intros j Hj Hpj. destruct (Z.eq_dec j i) as [->|]; [congruence|apply Clf; [lia|done]].
Qed.
(** The state after a present entry was copied into the table [a]. *)
Lemma copy_present i t a rest s1 s3 :
  copying below w dst src start s (avail s) i t -> start <= i < 512 -> present (entry s src i) = true ->
  let k := length (mjoin (subtables (S below) (ram s) src <$> upto start i)) in
  let next := get_next_level_table (entry s src i) in
  let n := (length (tables (S below) (ram s) next 0) - 1)%nat in
  drop k (avail s) = a :: rest -> (n <= length rest)%nat ->
  vm_ok s1 -> same_regs t s1 -> vm_pages s1 = vm_pages t -> only_frames [a] (ram t) (ram s1) ->
  let s2 := put_entry dst i (set_next_level_table a (entry s src i)) s1 in
  same_on (tables (S below) (ram s) next 0) (ram s) (ram s2) ->
  copied (S below) w a next 0 s2 s3 rest ->
  copying below w dst src start s (avail s) (i + 1) s3.
Proof.
  intros [Cok Creg Cav Cfr Coth Ctab Clv Cpr Clf Cpg] Hi Hp k next n Hdrop Hn Hok1 Hreg1 Hpg1 Hfr1 s2 Hsrc2 [Dok Dreg Dav Dfr Dlow [Dtab Dlv Dlf] Dpg].
  destruct (supply_split dst (avail s) _ k a rest n Hfresh Hdrop Hn) as (HaA & Hpa & Had & Htk & Hdr & Hold & Hdn & _).
  assert (index_ok i) as Hii by (unfold index_ok; lia). assert (aligned a) as Haa by (by apply page_addr_al).
  destruct (tables_ext (S below) (ram s) (ram s2) next 0 ltac:(lia) (next_aligned _) Hsrc2) as [Tsrc Lsrc].
  rewrite Tsrc in Dav, Dfr, Dtab. fold n in Dav, Dfr, Dtab. rewrite Lsrc in Dlv, Dpg.
  assert (only_frames (dst :: a :: take n rest) (ram t) (ram s3)) as Hfr3.
  { eapply only_frames_trans; [eapply only_frames_weaken; [exact Hfr1|apply sub_second]|].
    eapply only_frames_trans; [apply (only_frames_put _ dst i (set_next_level_table a (entry s src i)) s1); [done|done|by left]|].
    eapply only_frames_weaken; [exact Dfr|apply sub_tail]. }
  assert (forall j, index_ok j -> entry s3 dst j = if i =? j then set_next_level_table a (entry s src i) else entry t dst j) as He3.
  { intros j Hj. rewrite (only_frames_entry _ s2 s3 dst j Dfr) by (done || by apply notin_take). unfold s2. rewrite entry_put by done. rewrite Z.eqb_refl. cbn [andb].
    destruct (i =? j); [done|]. apply (only_frames_entry [a]); [done|done|done|by apply not_elem_of_cons; split; [by intros ->|apply not_elem_of_nil]]. }
  assert (forall j, start <= j < i -> same_on (subtables (S below) (ram t) dst j) (ram t) (ram s3)) as Hkeep.
  { intros j Hj. apply (only_frames_same _ _ _ _ Hfr3).
    - apply subtables_aligned.
    - intros x Hx. apply (mjoin_sub _ start i j Hj) in Hx. rewrite Ctab in Hx. destruct (Hold x Hx) as [H1 H2]. apply notin_cons; [done|by apply notin_take]. }
  assert (forall j, start <= j < i -> subtables (S below) (ram s3) dst j = subtables (S below) (ram t) dst j /\
      subleaves (S below) (ram s3) dst j = subleaves (S below) (ram t) dst j) as Hsub_ext.
  { intros j Hj. apply sub_ext; [done| |by apply Hkeep]. change (entry s3 dst j = entry t dst j).
    rewrite He3 by (unfold index_ok; lia). by destruct (Z.eqb_spec i j); [lia|]. }
  assert (entry s3 dst i = set_next_level_table a (entry s src i)) as Hei by (rewrite He3 by done; by rewrite Z.eqb_refl).
  assert (subtables (S below) (ram s) src i = tables (S below) (ram s) next 0) as Hst_i by (unfold subtables; fold (entry s src i); by rewrite Hp).
  assert (subleaves (S below) (ram s) src i = leaves (S below) (ram s) next 0) as Hsl_i by (unfold subleaves; fold (entry s src i); by rewrite Hp).
  assert (length (subtables (S below) (ram s) src i) = S n) as Hlen by (rewrite Hst_i; unfold n; cbn [tables length]; lia).
  assert (k + S n = length (mjoin (subtables (S below) (ram s) src <$> upto start (i + 1))))%nat as Hk1 by (rewrite mjoin_snoc, length_app, Hlen by lia; done).
  split; rewrite <- ?Hk1.
  - exact Dok.
  - unfold same_regs in *. destruct Creg, Hreg1, Dreg. split; etrans; eauto; etrans; eauto.
  - by rewrite Hdr.
  - rewrite Htk. eapply only_frames_trans; [eapply only_frames_weaken; [exact Cfr|apply sub_left]|eapply only_frames_weaken; [exact Hfr3|apply sub_right]].
  - intros j Hj Hnj. rewrite He3 by done. destruct (Z.eqb_spec i j); [lia|]. apply Coth; [done|lia].
  - rewrite mjoin_snoc, Htk by lia. rewrite (mjoin_ext _ (subtables (S below) (ram t) dst)) by (intros j Hj; by apply Hsub_ext).
    rewrite Ctab. f_equal. unfold subtables. fold (entry s3 dst i). rewrite Hei, present_set_next, Hp, next_set_next by done. exact Dtab.
  - rewrite !mjoin_snoc by lia. rewrite (mjoin_ext _ (subleaves (S below) (ram t) dst)) by (intros j Hj; by apply Hsub_ext).
    rewrite Clv, Hsl_i. f_equal. unfold subleaves. fold (entry s3 dst i). rewrite Hei, present_set_next, Hp, next_set_next by done. exact Dlv.
  - intros j Hj. rewrite He3 by (unfold index_ok; lia). destruct (Z.eqb_spec i j) as [->|]; [by rewrite present_set_next|apply Cpr; lia].
  - intros j Hj Hpj b. rewrite He3 by (unfold index_ok; lia). destruct (Z.eqb_spec i j) as [<-|Hij].
    + rewrite next_set_next by done. rewrite Dlf by (apply part_index; lia). f_equal.
      apply (leaf_ext (S below) _ _ _ 0); [lia|apply next_aligned|apply part_index; lia|done].
    + rewrite <- Clf by (done || lia). apply (leaf_ext (S below) _ _ _ 0); [lia|apply next_aligned|apply part_index; lia|].
      assert (present (entry t dst j) = true) as Hpt by (rewrite Cpr by lia; done).
      pose proof (Hkeep j ltac:(lia)) as Hkj. unfold subtables in Hkj. fold (entry t dst j) in Hkj. by rewrite Hpt in Hkj.
  - rewrite mjoin_snoc, foldl_app, <- Cpg, Hsl_i by lia. rewrite Dpg. by rewrite <- Hpg1.
Qed.
Lemma take_supply k x : x ∈ dst :: take k (avail s) -> x ∈ dst :: avail s.
Proof. intros Hx. apply elem_of_cons in Hx as [->|Hx]; [by left|right]. by apply (subseteq_take k (avail s)). Qed.

(** One round of the loop. *)
Lemma copy_round i t : copying below w dst src start s (avail s) i t -> start <= i < 512 ->
  exists t', (let e := entry t src i in
    if negb (present e) then Some t
    else let (new_table, t) := new_page_table t in
         let t := put_entry dst i (set_next_level_table new_table e) t in
         copy_page_tables (S below) new_table (get_next_level_table e) w 0 t) = Some t' /\
    copying below w dst src start s (avail s) (i + 1) t'.
Proof.
  intros HC Hi. destruct (source_kept i _ t (take_supply _) (cy_frames _ _ _ _ _ _ _ _ _ HC) Hi) as [Hes _]. cbv zeta. rewrite Hes.
  destruct (present (entry s src i)) eqn:Hp; cbn [negb]; [|exists t; split; [done|by apply copy_absent]].
  set (k := length (mjoin (subtables (S below) (ram s) src <$> upto start i))).
  set (next := get_next_level_table (entry s src i)). set (n := (length (tables (S below) (ram s) next 0) - 1)%nat).
  assert (length (subtables (S below) (ram s) src i) = S n) as Hlen.
  { unfold subtables. fold (entry s src i). rewrite Hp. fold next. unfold n. cbn [tables length]. lia. }
  pose proof (room_at i Hi) as Hra. fold k in Hra. rewrite Hlen in Hra.
  destruct (drop k (avail s)) as [|a rest] eqn:Hdrop; [apply (f_equal length) in Hdrop; rewrite length_drop in Hdrop; simpl in Hdrop; lia|].
  assert (n <= length rest)%nat as Hn by (apply (f_equal length) in Hdrop; rewrite length_drop in Hdrop; simpl in Hdrop; lia).
  destruct (supply_split dst (avail s) _ k a rest n Hfresh Hdrop Hn) as (HaA & Hpa & Had & Htk & Hdr & Hold & Hdn & Hnd & Hpr & Hap).
  destruct (new_page_ok t a rest) as (s1 & -> & Hok1 & Hreg1 & Hav1 & Hpg1 & Hfr1 & Hz1);
    [by rewrite (cy_avail _ _ _ _ _ _ _ _ _ HC)|done|by apply (cy_ok _ _ _ _ _ _ _ _ _ HC)|].
  set (s2 := put_entry dst i (set_next_level_table a (entry s src i)) s1). assert (index_ok i) as Hii by (unfold index_ok; lia).
  assert (only_frames (dst :: take (k + S n) (avail s)) (ram s) (ram s2)) as Hfr2.
  { rewrite Htk. eapply only_frames_trans; [eapply only_frames_weaken; [exact (cy_frames _ _ _ _ _ _ _ _ _ HC)|apply sub_left]|].
    eapply only_frames_weaken; [|apply sub_right]. eapply only_frames_trans; [eapply only_frames_weaken; [exact Hfr1|apply sub_second]|].
    apply only_frames_put; [done|done|by left]. }
  destruct (source_kept i _ s2 (take_supply _) Hfr2 Hi) as [_ Hsrc2]. specialize (Hsrc2 Hp). fold next in Hsrc2.
  destruct (tables_ext (S below) (ram s) (ram s2) next 0 ltac:(lia) (next_aligned _) Hsrc2) as [Tsrc _].
  assert (avail s2 = rest) as Hav2 by exact Hav1.
  destruct (IH a next 0 s2) as (s3 & E3 & C3); rewrite ?Tsrc, ?Hav2.
  - by apply vm_ok_put.
  - by apply page_addr_al.
  - apply next_aligned.
  - lia.
  - intros j Hj. unfold s2. rewrite entry_put by (done || (by apply page_addr_al) || (unfold index_ok; lia)).
    destruct (Z.eqb_spec dst a); [by destruct Had|]. cbn [andb]. by rewrite Hz1 by (unfold index_ok; lia).
  - split; [done|done|]. intros x Hx. apply Hap. by apply (tables_below below (ram s) src start i); [lia|lia|exact Hp|].
  - exact Hn.
  - exists s3. split; [exact E3|]. rewrite Hav2 in C3. by apply (copy_present i t a rest s1 s3).
Qed.
End copy_step.

Lemma copy_spec w level : forall dst src start s, vm_ok s -> aligned dst -> aligned src -> 0 <= start <= 512 ->
  (forall i, start <= i < 512 -> present (entry s dst i) = false) ->
  fresh_for dst (avail s) (tables (S level) (ram s) src start) ->
  (length (tables (S level) (ram s) src start) - 1 <= length (avail s))%nat ->
  exists s', copy_page_tables (S level) dst src w start s = Some s' /\ copied (S level) w dst src start s s' (avail s).
Proof.
  induction level as [|below IH]; intros dst src start s Hok Hd Hsrc Hst Habs Hfresh Hroom.
  - destruct (copy_level1 w dst src start s) as (s' & E & H1 & H2 & H3 & H4 & H5 & H6 & H7); try done.
    { intros ->. by destruct Hfresh as [_ _ Hap]; destruct (Hap src); [apply tables_self|left]. }
    exists s'. split; [done|]. by split.
  - assert ((length (mjoin (subtables (S below) (ram s) src <$> upto start 512)) <= length (avail s))%nat) as Hroom'.
    { rewrite tables_eq in Hroom. cbn [length] in Hroom. unfold indices in Hroom. unfold upto. lia. }
    edestruct (for_n_inv (copying below w dst src start s (avail s)) (Z.to_nat (PT_ENTRIES - start)) start) as (s' & E & HC); cycle 2.
    + replace (start + Z.of_nat (Z.to_nat (PT_ENTRIES - start))) with 512 in HC by (unfold PT_ENTRIES; lia).
      exists s'. cbn [copy_page_tables]. split; [exact E|]. destruct HC as [Cok Creg Cav Cfr Coth Ctab Clv Cpr Clf Cpg].
      assert ((length (tables (S (S below)) (ram s) src start) - 1)%nat = length (mjoin (subtables (S below) (ram s) src <$> upto start 512))) as Hlen
        by (rewrite tables_eq; cbn [length]; unfold indices, upto; lia).
      split; rewrite ?Hlen; try done; [intros i Hi Hlt; apply Coth; [done|lia]|]. split; [by rewrite tables_eq, <- Ctab|by rewrite !leaves_eq|].
      intros a Ha. pose proof (part_index (Z.of_nat (S (S below))) a ltac:(lia)) as Hi. unfold index_ok in Hi.
      change (leaf (S (S below)) (ram s') dst a) with
        (let e := entry s' dst (part (Z.of_nat (S (S below))) a) in if negb (present e) then None else leaf (S below) (ram s') (get_next_level_table e) a).
      change (leaf (S (S below)) (ram s) src a) with
        (let e := entry s src (part (Z.of_nat (S (S below))) a) in if negb (present e) then None else leaf (S below) (ram s) (get_next_level_table e) a).
      cbv zeta. rewrite Cpr by lia. destruct (present (entry s src _)) eqn:Hp; [|done]. cbn [negb]. apply Clf; [lia|done].
    + assert (upto start start = []) as Hu by (unfold upto; by rewrite Z.sub_diag).
      split; rewrite ?Hu; try done; lia.
    + intros i t Hi HC. apply (copy_round below w IH dst src start s); try done. unfold PT_ENTRIES in Hi. lia.
Qed.
