(* ===== verification/PagingFork.v ===== *)
(** * Cloning and releasing address spaces

    Copying a tree shares the frames and counts them; releasing one gives back exactly
    what it owns; together, what a fork does to the memory. *)

From S2P Require Import Prelude Message Pages Paging PagingProofs PagingTree.

Open Scope Z_scope.

(** ** Cloning *)

Lemma copy_kernel_spec dst s : vm_ok s -> aligned dst -> aligned (cr3 s) -> dst <> cr3 s ->
  exists s', copy_kernel_space dst s = Some s' /\ vm_ok s' /\ same_regs s s' /\ avail s' = avail s /\ vm_pages s' = vm_pages s /\
    only_frames [dst] (ram s) (ram s') /\
    forall i, index_ok i -> entry s' dst i = if i <? 256 then entry s (cr3 s) i else entry s dst i.
Proof.
  intros Hok Hd Hc Hne. unfold copy_kernel_space.
  edestruct (for_n_inv (fun k t => vm_ok t /\ same_regs s t /\ avail t = avail s /\ vm_pages t = vm_pages s /\ only_frames [dst] (ram s) (ram t) /\
      forall i, index_ok i -> entry t dst i = if i <? k then entry s (cr3 s) i else entry s dst i)
    (Z.to_nat USER_SPACE_START_INDEX) 0) as (s' & E & H); cycle 2.
  - exists s'. split; [exact E|]. exact H.
  - split_and!; try done. intros i Hi. unfold index_ok in Hi. by destruct (Z.ltb_spec i 0); [lia|].
  - intros k t Hk (Hok' & Hregs & Hav & Hpg & Hfr & Hent). eexists. split; [done|].
    assert (index_ok k) as Hki by (unfold index_ok; change (Z.of_nat (Z.to_nat USER_SPACE_START_INDEX)) with 256 in Hk; lia).
    assert (entry t (cr3 t) k = entry s (cr3 s) k) as Hek.
    { destruct Hregs as [-> _]. apply (only_frames_entry [dst]); [done|done|done|]. apply not_elem_of_cons. split; [done|apply not_elem_of_nil]. }
    split_and!; try done.
    + by apply vm_ok_put.
    + eapply only_frames_trans; [exact Hfr|]. apply only_frames_put; [done|done|by left].
    + intros i Hi. rewrite entry_put by done. rewrite Z.eqb_refl, Hek. cbn [andb]. rewrite Hent by done.
      destruct (Z.eqb_spec k i) as [->|]; [by destruct (Z.ltb_spec i (i + 1)); [|lia]|].
      destruct (Z.ltb_spec i k), (Z.ltb_spec i (k + 1)); try lia; done.
Qed.

(** What a clone is. *)
Record clone_of (w : bool) (src : Z) (s s' : Vm) (r : Z) (A : list Z) : Prop := mkCloneOf {
  co_ok : vm_ok s';
  co_regs : same_regs s s';
  co_avail : avail s' = drop (length (tables 4 (ram s) src 256) - 1) A;
  co_frames : only_frames (r :: take (length (tables 4 (ram s) src 256) - 1) A) (ram s) (ram s');
  co_kernel : forall i, 0 <= i < 256 -> entry s' r i = entry s (cr3 s) i;
  co_cloned : cloned 4 w (ram s) src (ram s') r 256 (take (length (tables 4 (ram s) src 256) - 1) A);
  co_pages : vm_pages s' = foldl inc_at (vm_pages s) (leaves 4 (ram s) src 256);
}.

Lemma clone_spec src w s r A : vm_ok s -> aligned src -> aligned (cr3 s) -> avail s = r :: A -> page_addr r -> cr3 s <> r ->
  fresh_for r A (tables 4 (ram s) src 256) -> (length (tables 4 (ram s) src 256) - 1 <= length A)%nat ->
  exists s', clone_page_table src w s = Some (r, s') /\ clone_of w src s s' r A.
Proof.
  intros Hok Hsrc Hcr Hav Hr Hrc Hfresh Hroom. unfold clone_page_table.
  destruct (new_page_ok s r A Hav Hr Hok) as (s1 & -> & Hok1 & Hreg1 & Hav1 & Hpg1 & Hfr1 & Hz1).
  destruct (Z.eqb_spec r 0) as [->|_]; [by destruct Hr as [[? _] _]|]. pose proof (page_addr_al r Hr) as Hra.
  destruct (copy_kernel_spec r s1) as (s2 & -> & Hok2 & Hreg2 & Hav2 & Hpg2 & Hfr2 & He2); [done|done|by rewrite (proj1 Hreg1)|rewrite (proj1 Hreg1); congruence|].
  cbn [mbind option_bind].
  assert (only_frames [r] (ram s) (ram s2)) as Hfr by (by eapply only_frames_trans).
  assert (same_on (tables 4 (ram s) src 256) (ram s) (ram s2)) as Hsame.
  { apply (only_frames_same [r]); [done|by apply tables_aligned|]. intros x Hx Hin. apply list_elem_of_singleton in Hin as ->.
    by destruct Hfresh as [_ _ Hap]; destruct (Hap r Hx); left. }
  destruct (tables_ext 4 (ram s) (ram s2) src 256 ltac:(lia) Hsrc Hsame) as [HT HL].
  destruct (copy_spec w 3 r src 256 s2) as (s3 & E3 & [Dok Dreg Dav Dfr Dlow [Dt Dl Dlf] Dpg]); rewrite ?HT, ?Hav2, ?Hav1; try done.
  { intros i Hi. rewrite He2 by (unfold index_ok; lia). destruct (Z.ltb_spec i 256); [lia|]. by rewrite Hz1 by (unfold index_ok; lia). }
  exists s3. unfold USER_SPACE_START_INDEX. rewrite E3. cbn [mbind option_bind]. split; [done|].
  rewrite HT, Hav2, Hav1 in *. rewrite HL in *.
  split; try done.
  - unfold same_regs in *. destruct Hreg1, Hreg2, Dreg. split; congruence.
  - eapply only_frames_trans; [eapply only_frames_weaken; [exact Hfr|]|exact Dfr]. intros x Hx. apply list_elem_of_singleton in Hx as ->. by left.
  - intros i Hi. rewrite Dlow by (unfold index_ok; lia). rewrite He2 by (unfold index_ok; lia). destruct (Z.ltb_spec i 256); [|lia].
    rewrite (proj1 Hreg1). apply (only_frames_entry [r]); [done|done|unfold index_ok; lia|]. apply not_elem_of_cons. split; [done|apply not_elem_of_nil].
  - split; [done|done|]. intros a Ha. rewrite Dlf by done. f_equal. by apply (leaf_ext 4 _ _ _ 256); [lia| | |].
  - by rewrite Dpg, Hpg2, Hpg1.
Qed.

(** ** Releasing *)

Definition drop_at (ps : list Page) (a : Z) : list Page :=
  match get_page ps a with
  | None => ps
  | Some i => match atz ps i with Some p => setz ps i (snd (dec_ref p)) | None => ps end
  end.

(** The page is free after the drop. *)
Definition dies (ps : list Page) (a : Z) : bool :=
  match get_page ps a with
  | None => true
  | Some i => match atz ps i with Some p => fst (dec_ref p) =? 0 | None => false end
  end.

(** The pages freed while dropping a list of references. *)
Fixpoint released (ps : list Page) (l : list Z) : list Z :=
  match l with
  | [] => []
  | a :: l' => (if dies ps a then [a] else []) ++ released (drop_at ps a) l'
  end.

Lemma released_app ps l1 l2 : released ps (l1 ++ l2) = released ps l1 ++ released (foldl drop_at ps l1) l2.
Proof. revert ps. induction l1 as [|a l1 IH]; intros ps; [done|]. cbn [app released foldl]. by rewrite IH, app_assoc. Qed.

Lemma drop_page_eq a s : ram (drop_page a s) = ram s /\ cr3 (drop_page a s) = cr3 s /\ avail (drop_page a s) = avail s /\
  vm_pages (drop_page a s) = drop_at (vm_pages s) a /\ freed (drop_page a s) = (if dies (vm_pages s) a then [a] else []) ++ freed s.
Proof.
  unfold drop_page, drop_at, dies. destruct (get_page _ _); [|done]. destruct (atz _ _) as [p|]; [|done].
  destruct (dec_ref p) as [r p']. cbn [fst snd]. by destruct (r =? 0).
Qed.

(** What releasing the tables [ts] and the references [ls] leaves behind. *)
Record cleaned (ts ls : list Z) (touched : list Z) (s s' : Vm) : Prop := mkCleaned {
  cn_ok : vm_ok s';
  cn_regs : cr3 s' = cr3 s /\ avail s' = avail s;
  cn_frames : only_frames touched (ram s) (ram s');
  cn_pages : vm_pages s' = foldl drop_at (vm_pages s) ls;
  cn_freed : freed s' ≡ₚ released (vm_pages s) ls ++ ts ++ freed s;
}.

Lemma clean_level1 t s : vm_ok s -> aligned t ->
  exists s', clean_page_table 1 t s = Some s' /\ cleaned [] (leaves 1 (ram s) t 0) [t] s s'.
Proof.
  intros Hok Ha.
  set (L := fun i => let e := entry s t i in if negb (present e) then [] else if owned e then [get_next_level_table e] else []).
  edestruct (for_n_inv (fun i x => cleaned [] (mjoin (L <$> upto 0 i)) [t] s x /\ forall j, i <= j < 512 -> entry x t j = entry s t j)
    (Z.to_nat PT_ENTRIES) 0) as (s' & E & HC & _); cycle 2.
  - exists s'. cbn [clean_page_table]. split; [exact E|]. exact HC.
  - split; [split; try done; by eexists|done].
  - intros i x Hi [[Cok Creg Cfr Cpg Cfd] Hent]. cbv beta zeta. change (Z.of_nat (Z.to_nat PT_ENTRIES)) with 512 in Hi.
    assert (index_ok i) as Hii by (unfold index_ok; lia). rewrite Hent by lia.
    assert (forall (y : Vm) a, ram y = ram x -> vm_ok y -> forall j, i + 1 <= j < 512 -> entry (put_entry t i a y) t j = entry s t j) as Hlater.
    { intros y a Hy Hoky j Hj. rewrite entry_put by (done || unfold index_ok; lia). rewrite Z.eqb_refl. destruct (Z.eqb_spec i j); [lia|]. cbn [andb].
      unfold entry. rewrite Hy. apply Hent. lia. }
    assert (forall y a, ram y = ram x -> only_frames [t] (ram s) (ram (put_entry t i a y))) as Hframes.
    { intros y a Hy. eapply only_frames_trans; [exact Cfr|]. rewrite <- Hy. apply only_frames_put; [done|done|by left]. }
    destruct (present (entry s t i)) eqn:Hp; cbn [negb].
    + destruct (owned (entry s t i)) eqn:Ho; cbn [negb].
      * destruct (drop_page_eq (get_next_level_table (entry s t i)) x) as (D1 & D2 & D3 & D4 & D5).
        set (y := drop_page _ x) in *. assert (vm_ok y) as Hoky by (unfold vm_ok; by rewrite D1).
        eexists. split; [done|]. split; [|by apply Hlater].
        assert (mjoin (L <$> upto 0 (i + 1)) = mjoin (L <$> upto 0 i) ++ [get_next_level_table (entry s t i)]) as HL.
        { rewrite mjoin_snoc by lia. unfold L at 2. cbv zeta. by rewrite Hp, Ho. }
        split; [by apply vm_ok_put|destruct Creg; split; etrans; eauto|by apply Hframes| |].
        -- cbn [vm_pages put_entry set_ram]. rewrite D4, HL, foldl_app, Cpg. done.
        -- cbn [freed put_entry set_ram]. rewrite D5, HL, released_app, <- Cpg. cbn [released]. rewrite app_nil_r.
           rewrite Cfd. rewrite !app_nil_l. rewrite app_assoc, (Permutation_app_comm (if dies _ _ then _ else _)), <- !app_assoc. done.
      * eexists. split; [done|]. split; [|by apply Hlater].
        assert (mjoin (L <$> upto 0 (i + 1)) = mjoin (L <$> upto 0 i)) as HL.
        { rewrite mjoin_snoc by lia. unfold L at 2. cbv zeta. rewrite Hp, Ho. cbn [negb]. by rewrite app_nil_r. }
        split; [by apply vm_ok_put|done|by apply Hframes|by rewrite HL|by rewrite HL].
    + exists x. split; [done|]. split; [|intros j Hj; apply Hent; lia].
      assert (mjoin (L <$> upto 0 (i + 1)) = mjoin (L <$> upto 0 i)) as HL.
      { rewrite mjoin_snoc by lia. unfold L at 2. cbv zeta. rewrite Hp. cbn [negb]. by rewrite app_nil_r. }
      split; [done|done|done|by rewrite HL|by rewrite HL].
Qed.

Lemma perm_shuffle (a : Z) r tl r0 t0 f : a :: r ++ tl ++ r0 ++ t0 ++ f ≡ₚ r0 ++ r ++ t0 ++ a :: tl ++ f.
Proof.
  rewrite <- (Permutation_middle t0), <- (Permutation_middle r), <- (Permutation_middle r0). constructor.
  rewrite (Permutation_app_swap_app tl r0), (Permutation_app_swap_app r r0), (Permutation_app_swap_app tl t0). done.
Qed.

(** The loop above the last level: the entries [start ..] of [t]. *)
Section clean_step.
Context (below : nat).
Context (IH : forall t s, vm_ok s -> aligned t -> NoDup (tables (S below) (ram s) t 0) ->
  exists s', clean_page_table (S below) t s = Some s' /\
    cleaned (tail (tables (S below) (ram s) t 0)) (leaves (S below) (ram s) t 0) (tables (S below) (ram s) t 0) s s').
Context (t start : Z) (s : Vm).
Context (Hok : vm_ok s) (Ha : aligned t) (Hst : 0 <= start <= 512) (Hnd : NoDup (tables (S (S below)) (ram s) t start)).

Definition clean_body (i : Z) (s : Vm) : option Vm :=
  let e := entry s t i in
  if negb (present e) then Some s
  else
    s ← clean_page_table (S below) (get_next_level_table e) s;
    Some (put_entry t i 0 (free (get_next_level_table e) s)).

(** After the entries below [i]. *)
Record cleaning (i : Z) (x : Vm) : Prop := mkCleaning {
  cg_cleaned : cleaned (mjoin (subtables (S below) (ram s) t <$> upto start i)) (mjoin (subleaves (S below) (ram s) t <$> upto start i))
                 (t :: mjoin (subtables (S below) (ram s) t <$> upto start i)) s x;
  cg_entries : forall j, index_ok j -> i <= j -> entry x t j = entry s t j;
}.

(** The tables below entry [i] are apart from [t] and from those of earlier entries. *)
Lemma subtables_apart i : start <= i < 512 -> NoDup (subtables (S below) (ram s) t i) /\
  forall x, x ∈ subtables (S below) (ram s) t i -> x ∉ t :: mjoin (subtables (S below) (ram s) t <$> upto start i).
Proof.
  intros Hi. rewrite tables_eq in Hnd. change (indices start) with (upto start 512) in Hnd.
  assert (upto start 512 = upto start (i + 1) ++ seqZ (i + 1) (512 - (i + 1))) as Hs.
  { unfold upto. replace (seqZ (i + 1) (512 - (i + 1))) with (seqZ (start + (i + 1 - start)) (512 - (i + 1))) by (f_equal; lia).
    rewrite <- seqZ_app by lia. f_equal. lia. }
  rewrite Hs, fmap_app, join_app, mjoin_snoc in Hnd by lia. apply NoDup_cons in Hnd as [Hn Hnd'].
  apply NoDup_app in Hnd' as (Hnd' & _ & _). apply NoDup_app in Hnd' as (_ & Hdis & Hni). split; [done|].
  intros x Hx Hin. apply elem_of_cons in Hin as [->|Hin]; [|by apply (Hdis x)].
  apply Hn, elem_of_app. left. apply elem_of_app. by right.
Qed.

Lemma clean_absent i x : cleaning i x -> start <= i < 512 -> present (entry s t i) = false -> cleaning (i + 1) x.
Proof.
  intros [HC He] Hi Hp.
  assert (subtables (S below) (ram s) t i = []) as Hs1 by (unfold subtables; fold (entry s t i); by rewrite Hp).
  assert (subleaves (S below) (ram s) t i = []) as Hs2 by (unfold subleaves; fold (entry s t i); by rewrite Hp).
  split; [by rewrite !mjoin_snoc, Hs1, Hs2, !app_nil_r by lia|]. intros j Hj Hij. apply He; [done|lia].
Qed.

Lemma clean_round i x : cleaning i x -> start <= i < 512 -> exists x', clean_body i x = Some x' /\ cleaning (i + 1) x'.
Proof.
  intros HC Hi. pose proof HC as [[Cok Creg Cfr Cpg Cfd] Hent]. assert (index_ok i) as Hii by (unfold index_ok; lia).
  unfold clean_body. rewrite Hent by (done || lia). cbv zeta.
  destruct (present (entry s t i)) eqn:Hp; cbn [negb]; [|exists x; split; [done|by apply clean_absent]].
  destruct (subtables_apart i Hi) as [Hndi Hap]. set (next := get_next_level_table (entry s t i)).
  assert (subtables (S below) (ram s) t i = tables (S below) (ram s) next 0) as Hs1 by (unfold subtables; fold (entry s t i); by rewrite Hp).
  assert (subleaves (S below) (ram s) t i = leaves (S below) (ram s) next 0) as Hs2 by (unfold subleaves; fold (entry s t i); by rewrite Hp).
  rewrite Hs1 in Hndi, Hap.
  assert (same_on (tables (S below) (ram s) next 0) (ram s) (ram x)) as Hsame
    by (apply (only_frames_same _ _ _ _ Cfr); [apply tables_aligned, next_aligned|exact Hap]).
  destruct (tables_ext (S below) (ram s) (ram x) next 0 ltac:(lia) (next_aligned _) Hsame) as [HT HL].
  destruct (IH next x Cok (next_aligned _)) as (y & -> & [Dok Dreg Dfr Dpg Dfd]); [by rewrite HT|]. rewrite HT, HL in *.
  cbn [mbind option_bind]. eexists. split; [done|].
  assert (mjoin (subtables (S below) (ram s) t <$> upto start (i + 1)) = mjoin (subtables (S below) (ram s) t <$> upto start i) ++ tables (S below) (ram s) next 0) as HTs
    by (by rewrite mjoin_snoc, Hs1 by lia).
  assert (mjoin (subleaves (S below) (ram s) t <$> upto start (i + 1)) = mjoin (subleaves (S below) (ram s) t <$> upto start i) ++ leaves (S below) (ram s) next 0) as HLs
    by (by rewrite mjoin_snoc, Hs2 by lia).
  split; [split|].
  - by apply vm_ok_put.
  - destruct Creg, Dreg. split; cbn; congruence.
  - rewrite HTs. eapply only_frames_trans; [eapply only_frames_weaken; [exact Cfr|apply sub_left]|].
    eapply only_frames_weaken; [|apply sub_right].
    eapply only_frames_trans; [eapply only_frames_weaken; [exact Dfr|intros z Hz; by right]|].
    apply (only_frames_put _ t i 0 (free next y)); [done|done|by left].
  - rewrite HLs, foldl_app, <- Cpg. exact Dpg.
  - rewrite HLs, HTs, released_app, <- Cpg. cbn [freed put_entry set_ram free]. rewrite Dfd, Cfd.
    cbn [tables tail]. rewrite <- !app_assoc. cbn [app]. apply perm_shuffle.
  - intros j Hj Hij. rewrite entry_put by done. rewrite Z.eqb_refl. destruct (Z.eqb_spec i j); [lia|]. cbn [andb].
    rewrite <- Hent by (done || lia). apply (only_frames_entry _ x y t j Dfr); [done|done|]. intros Hin. apply (Hap t Hin). by left.
Qed.

Lemma clean_loop : exists s', for_n (Z.to_nat (512 - start)) start clean_body s = Some s' /\
  cleaned (tail (tables (S (S below)) (ram s) t start)) (leaves (S (S below)) (ram s) t start) (tables (S (S below)) (ram s) t start) s s'.
Proof.
  destruct (for_n_inv cleaning (Z.to_nat (512 - start)) start clean_body s) as (s' & E & [HC _]).
  - assert (upto start start = []) as Hu by (unfold upto; by rewrite Z.sub_diag). split; rewrite ?Hu; [|done]. by split.
  - intros i x Hi HC. apply clean_round; [done|lia].
  - replace (start + Z.of_nat (Z.to_nat (512 - start))) with 512 in HC by lia. exists s'. split; [exact E|]. exact HC.
Qed.
End clean_step.

Lemma clean_spec level : forall t s, vm_ok s -> aligned t -> NoDup (tables (S level) (ram s) t 0) ->
  exists s', clean_page_table (S level) t s = Some s' /\
    cleaned (tail (tables (S level) (ram s) t 0)) (leaves (S level) (ram s) t 0) (tables (S level) (ram s) t 0) s s'.
Proof.
  induction level as [|below IH]; intros t s Hok Ha Hnd; [by apply clean_level1|].
  destruct (clean_loop below IH t 0 s Hok Ha ltac:(lia) Hnd) as (s' & E & HC). exists s'. split; [exact E|exact HC].
Qed.

Lemma clean_tables_spec t s : vm_ok s -> aligned t -> NoDup (tables 4 (ram s) t 256) ->
  exists s', clean_page_tables t s = Some s' /\ cleaned (tables 4 (ram s) t 256) (leaves 4 (ram s) t 256) (tables 4 (ram s) t 256) s s'.
Proof.
  intros Hok Ha Hnd. destruct (clean_loop 2 (clean_spec 2) t 256 s Hok Ha ltac:(lia) Hnd) as (s' & E & [Cok Creg Cfr Cpg Cfd]).
  exists (free t s'). unfold clean_page_tables. change (for_n _ _ _ s) with (for_n (Z.to_nat (512 - 256)) 256 (clean_body 2 t) s). rewrite E.
  cbn [mbind option_bind]. split; [done|]. split; [done|done|done|done|].
  cbn [freed free]. rewrite Cfd. rewrite tables_eq. apply Permutation_middle.
Qed.

(** ** Counting references *)

Definition refs (ps : list Page) (i : Z) : Z := match atz ps i with Some p => ref_count_ p | None => 0 end.
Definition mappings (ps : list Page) (l : list Z) (i : Z) : Z := lenz (filter (fun a => get_page ps a = Some i) l).
Definition tracked (ps : list Page) (l : list Z) : Prop := Forall (fun a => is_Some (get_page ps a) /\ 0 <= a) l.

Lemma mappings_cons ps a l i : mappings ps (a :: l) i = (if decide (get_page ps a = Some i) then 1 else 0) + mappings ps l i.
Proof. unfold mappings. rewrite filter_cons. destruct (decide _); [rewrite lenz_cons; lia|done]. Qed.

Lemma get_page_length ps ps' a : lenz ps' = lenz ps -> get_page ps' a = get_page ps a.
Proof. intros H. unfold get_page. by rewrite H. Qed.

Lemma mappings_length ps ps' l i : lenz ps' = lenz ps -> mappings ps' l i = mappings ps l i.
Proof.
  intros H. unfold mappings. f_equal. apply list_filter_iff. intros a. by rewrite (get_page_length ps ps') by done.
Qed.

Lemma tracked_length ps ps' l : lenz ps' = lenz ps -> tracked ps l -> tracked ps' l.
Proof. intros H Ht. eapply Forall_impl; [exact Ht|]. intros a. cbv beta. by rewrite (get_page_length ps ps'). Qed.

Lemma tracked_at ps a i : get_page ps a = Some i -> 0 <= a -> exists p, atz ps i = Some p /\ 0 <= i < lenz ps.
Proof.
  unfold get_page. destruct (a =? 0); [done|]. cbv zeta. destruct (Z.leb_spec (lenz ps) (a / PAGE_SIZE)); [done|]. intros [= <-] Ha.
  assert (0 <= a / PAGE_SIZE < lenz ps) as Hr by (split; [apply Z.div_pos; [done|done]|lia]). destruct (atz_lt ps _ Hr) as [p Hp]. by exists p.
Qed.

Lemma lenz_inc_at ps a : lenz (inc_at ps a) = lenz ps.
Proof. unfold inc_at. destruct (get_page ps a); [|done]. destruct (atz ps _); [apply lenz_setz|done]. Qed.

Lemma lenz_drop_at ps a : lenz (drop_at ps a) = lenz ps.
Proof. unfold drop_at. destruct (get_page ps a); [|done]. destruct (atz ps _); [apply lenz_setz|done]. Qed.

Lemma refs_setz ps i p j : 0 <= i < lenz ps -> refs (setz ps i p) j = if j =? i then ref_count_ p else refs ps j.
Proof.
  intros Hi. unfold refs. destruct (Z.eqb_spec j i) as [->|Hne]; [by rewrite atz_setz_eq|by rewrite atz_setz_ne by lia].
Qed.

Lemma foldl_inc_refs l : forall ps, tracked ps l -> (forall i, 0 <= refs ps i /\ refs ps i + lenz l < 2 ^ 64) ->
  lenz (foldl inc_at ps l) = lenz ps /\ forall i, refs (foldl inc_at ps l) i = refs ps i + mappings ps l i.
Proof.
  induction l as [|a l IH]; intros ps Ht Hb; [split; [done|]; intros i; unfold mappings, lenz; simpl; lia|].
  apply Forall_cons in Ht as [[[k Hk] Ha] Ht]. destruct (tracked_at ps a k Hk Ha) as (p & Hp & Hkr). cbn [foldl].
  assert (forall i, refs (inc_at ps a) i = refs ps i + if decide (get_page ps a = Some i) then 1 else 0) as Hstep.
  { intros i. unfold inc_at. rewrite Hk, Hp, refs_setz by done. destruct (Z.eqb_spec i k) as [->|Hne].
    - rewrite decide_True by done. unfold refs. rewrite Hp. cbn [inc_ref ref_count_]. specialize (Hb k). unfold refs in Hb. rewrite Hp, lenz_cons in Hb.
      pose proof (lenz_nonneg l). rewrite wrap_small by lia. done.
    - rewrite decide_False by congruence. lia. }
  destruct (IH (inc_at ps a)) as [Hl Hr].
  - eapply tracked_length; [apply lenz_inc_at|done].
  - intros i. rewrite Hstep. specialize (Hb i). rewrite lenz_cons in Hb. pose proof (lenz_nonneg l). destruct (decide _); lia.
  - split; [by rewrite Hl, lenz_inc_at|]. intros i. rewrite Hr, Hstep, mappings_cons, (mappings_length ps _ l i (lenz_inc_at ps a)). lia.
Qed.

(** As long as every page keeps a reference, dropping frees nothing. *)
Lemma foldl_drop_refs l : forall ps, tracked ps l -> (forall i, 0 < mappings ps l i -> mappings ps l i < refs ps i) ->
  released ps l = [] /\ lenz (foldl drop_at ps l) = lenz ps /\ forall i, refs (foldl drop_at ps l) i = refs ps i - mappings ps l i.
Proof.
  induction l as [|a l IH]; intros ps Ht Hb; [split_and!; [done|done|]; intros i; unfold mappings, lenz; simpl; lia|].
  apply Forall_cons in Ht as [[[k Hk] Ha] Ht]. destruct (tracked_at ps a k Hk Ha) as (p & Hp & Hkr). cbn [foldl released].
  assert (0 <= mappings ps l k) as Hmk by apply lenz_nonneg.
  assert (1 < refs ps k) as Hrk by (specialize (Hb k); rewrite mappings_cons, decide_True in Hb by done; lia).
  assert (dec_ref p = (ref_count_ p - 1, mkPage (status_ p) (cache_ p) (slab_ p) (ref_count_ p - 1) (ptr_ p))) as Hdec.
  { unfold refs in Hrk. rewrite Hp in Hrk. unfold dec_ref. by destruct (Z.ltb_spec 0 (ref_count_ p)); [|lia]. }
  assert (forall i, refs (drop_at ps a) i = refs ps i - if decide (get_page ps a = Some i) then 1 else 0) as Hstep.
  { intros i. unfold drop_at. rewrite Hk, Hp, Hdec, refs_setz by done. destruct (Z.eqb_spec i k) as [->|Hne].
    - rewrite decide_True by done. unfold refs. by rewrite Hp.
    - rewrite decide_False by congruence. lia. }
  destruct (IH (drop_at ps a)) as (Hrel & Hl & Hr).
  - eapply tracked_length; [apply lenz_drop_at|done].
  - intros i Hi. rewrite (mappings_length ps _ l i (lenz_drop_at ps a)) in *. rewrite Hstep. specialize (Hb i). rewrite mappings_cons in Hb.
    destruct (decide _); lia.
  - split_and!; [|by rewrite Hl, lenz_drop_at|].
    + rewrite Hrel, app_nil_r. unfold dies. rewrite Hk, Hp, Hdec. cbn [fst]. unfold refs in Hrk. rewrite Hp in Hrk.
      by destruct (Z.eqb_spec (ref_count_ p - 1) 0); [lia|].
    + intros i. rewrite Hr, Hstep, mappings_cons, (mappings_length ps _ l i (lenz_drop_at ps a)). lia.
Qed.

(** ** Forking *)

(** The state after a fork of the address space [snapshot]. *)
Record forked (s s' : Vm) (snapshot p c : Z) : Prop := mkForked {
  fk_parent : forall a, 256 <= part 4 a -> leaf 4 (ram s') p a = set_writable false <$> leaf 4 (ram s) snapshot a;
  fk_child : forall a, 256 <= part 4 a -> leaf 4 (ram s') c a = set_writable false <$> leaf 4 (ram s) snapshot a;
  fk_apart : forall x, x ∈ tables 4 (ram s') p 256 -> x ∉ tables 4 (ram s') c 256;
  fk_kernel : forall i, 0 <= i < 256 -> entry s' p i = entry s snapshot i /\ entry s' c i = entry s snapshot i;
  fk_frames : only_frames (avail s ++ tables 4 (ram s) snapshot 256) (ram s) (ram s');
  fk_refs : forall i, refs (vm_pages s') i = refs (vm_pages s) i + mappings (vm_pages s) (leaves 4 (ram s) snapshot 256) i;
  fk_freed : freed s' ≡ₚ tables 4 (ram s) snapshot 256 ++ freed s;
  fk_cr3 : cr3 s' = p;
  fk_ok : vm_ok s' /\ aligned p /\ aligned c /\ NoDup (tables 4 (ram s') p 256) /\ NoDup (tables 4 (ram s') c 256);
}.

(** The supply for two clones of [n] tables. *)
Lemma supply_two (A used : list Z) (n : nat) : NoDup A -> Forall page_addr A -> (forall x, x ∈ used -> x ∉ A) -> (1 <= n)%nat -> (2 * n <= length A)%nat ->
  exists p A1 c A2, A = p :: A1 /\ drop (n - 1) A1 = c :: A2 /\ (n - 1 <= length A1)%nat /\ (n - 1 <= length A2)%nat /\
    fresh_for p A1 used /\ fresh_for c A2 used /\ page_addr p /\ page_addr c /\ c ∈ A /\
    (forall x, x ∈ p :: take (n - 1) A1 -> x ∈ A /\ (x ∉ c :: A2)) /\ (forall x, x ∈ c :: take (n - 1) A2 -> x ∈ A).
Proof.
  intros Hnd Hpg Hap Hn Hlen. destruct A as [|p A1]; [simpl in Hlen; lia|].
  destruct (drop (n - 1) A1) as [|c A2] eqn:Hd; [apply (f_equal length) in Hd; rewrite length_drop in Hd; simpl in *; lia|].
  assert (A1 = take (n - 1) A1 ++ c :: A2) as HA by (rewrite <- Hd; symmetry; apply take_drop).
  assert (length (drop (n - 1) A1) = S (length A2)) as Hl2 by (by rewrite Hd). rewrite length_drop in Hl2. simpl in Hlen.
  pose proof Hnd as Hnd'. apply NoDup_cons in Hnd' as [Hpn Hnd1]. rewrite HA in Hnd1. apply NoDup_app in Hnd1 as (_ & Hdis & Hnd2).
  pose proof Hpg as Hpg'. apply Forall_cons in Hpg' as [Hpp Hpg1]. rewrite HA in Hpg1. apply Forall_app in Hpg1 as [_ Hpg2].
  pose proof Hpg2 as Hpg3. apply Forall_cons in Hpg3 as [Hpc Hpg3].
  assert (forall x, x ∈ c :: A2 -> x ∈ p :: A1) as Hin by (intros x Hx; right; rewrite HA; apply elem_of_app; by right).
  exists p, A1, c, A2. split_and!; try done; try lia.
  - split; [done|by apply Forall_cons in Hpg as [_ ?]|done].
  - split; [done|done|]. intros x Hx Hin'. apply (Hap x Hx). by apply Hin.
  - apply Hin. by left.
  - intros x Hx. apply elem_of_cons in Hx as [->|Hx].
    + split; [by left|]. intros Hc. apply Hpn. rewrite HA. apply elem_of_app. by right.
    + split; [right; by apply (subseteq_take (n - 1) A1)|by apply Hdis].
  - intros x Hx. apply Hin. apply elem_of_cons in Hx as [->|Hx]; [by left|right; by apply (subseteq_take (n - 1) A2)].
Qed.

(** A cloned tree survives changes elsewhere. *)
Lemma cloned_kept level w m src m1 dst start chunk m2 : 0 <= start -> aligned dst -> cloned level w m src m1 dst start chunk ->
  same_on (dst :: chunk) m1 m2 -> cloned level w m src m2 dst start chunk.
Proof.
  intros H0 Ha [Ct Cl Cf] Hs. rewrite <- Ct in Hs. destruct (tables_ext level m1 m2 dst start H0 Ha Hs) as [HT HL].
  split; [by rewrite HT|by rewrite HL|]. intros a Hp. rewrite (leaf_ext level m1 m2 dst start) by done. by apply Cf.
Qed.

(** What forking needs: a tree of tables, a supply of fresh pages, and reference
    counts that do not overflow. *)
Record forkable (s : Vm) : Prop := mkForkable {
  fa_ok : vm_ok s;
  fa_root : aligned (cr3 s);
  fa_tree : NoDup (tables 4 (ram s) (cr3 s) 256);
  fa_supply : NoDup (avail s) /\ Forall page_addr (avail s);
  fa_apart : forall x, x ∈ tables 4 (ram s) (cr3 s) 256 -> x ∉ avail s;
  fa_room : (2 * length (tables 4 (ram s) (cr3 s) 256) <= length (avail s))%nat;
  fa_tracked : tracked (vm_pages s) (leaves 4 (ram s) (cr3 s) 256);
  fa_refs : forall i, 0 <= refs (vm_pages s) i /\ refs (vm_pages s) i + 2 * lenz (leaves 4 (ram s) (cr3 s) 256) < 2 ^ 64;
}.

(** Two clones and a release: one reference more for every mapping. *)
Lemma fork_refs ps L : tracked ps L -> (forall i, 0 <= refs ps i /\ refs ps i + 2 * lenz L < 2 ^ 64) ->
  let ps2 := foldl inc_at (foldl inc_at ps L) L in
  released ps2 L = [] /\ forall i, refs (foldl drop_at ps2 L) i = refs ps i + mappings ps L i.
Proof.
  intros Htr Hrf ps2. pose proof (lenz_nonneg L) as HL0.
  assert (forall i, 0 <= mappings ps L i <= lenz L) as Hmb.
  { intros i. unfold mappings, lenz. pose proof (length_filter (fun a => get_page ps a = Some i) L). lia. }
  destruct (foldl_inc_refs L ps Htr) as [Q1 Q2]; [intros i; specialize (Hrf i); lia|].
  destruct (foldl_inc_refs L (foldl inc_at ps L)) as [Q3 Q4]; [by eapply tracked_length|intros i; rewrite Q2; specialize (Hrf i); specialize (Hmb i); lia|].
  fold ps2 in Q3, Q4.
  assert (forall i, refs ps2 i = refs ps i + 2 * mappings ps L i) as Q5 by (intros i; rewrite Q4, Q2, (mappings_length ps (foldl inc_at ps L)) by done; lia).
  assert (lenz ps2 = lenz ps) as Q6 by (by rewrite Q3, Q1).
  destruct (foldl_drop_refs L ps2) as (R1 & _ & R3); [by eapply tracked_length| |].
  - intros i. rewrite Q5, (mappings_length ps ps2) by done. specialize (Hrf i). lia.
  - split; [done|]. intros i. rewrite R3, Q5, (mappings_length ps ps2) by done. lia.
Qed.

Lemma fork_spec s : forkable s -> exists p c s', copy_parent_page_table (cr3 s) s = Some (err OK, p, c, s') /\ forked s s' (cr3 s) p c.
Proof.
  intros [Hok Hroot Hnd [Hsn Hsp] Hap Hroom Htr Hrf]. set (snap := cr3 s) in *. set (T := tables 4 (ram s) snap 256) in *. set (L := leaves 4 (ram s) snap 256) in *.
  assert (1 <= length T)%nat as H1 by (unfold T; rewrite tables_eq; simpl; lia). assert (snap ∈ T) as HsT by apply tables_self.
  destruct (supply_two (avail s) T (length T) Hsn Hsp Hap H1 Hroom) as (p & A1 & c & A2 & HA & HA1 & Hl1 & Hl2 & Hf1 & Hf2 & Hpp & Hpc & Hcin & Hpin & Hcs).
  assert (forall x, x ∈ T -> x <> p /\ x <> c) as HTne by (intros x Hx; split; intros ->; [apply (Hap p Hx); rewrite HA; by left|by apply (Hap c Hx)]).
  destruct (clone_spec snap false s p A1 Hok Hroot Hroot HA Hpp) as (s1 & E1 & [B1 B2 B3 B4 B5 B6 B7]); [by apply HTne|done|done|]. fold T L in B3, B4, B6, B7.
  unfold copy_parent_page_table. rewrite E1. cbn [mbind option_bind]. destruct (Z.eqb_spec p 0) as [->|_]; [by destruct Hpp as [[? _] _]|].
  set (s1' := set_cr3 p s1). rewrite HA1 in B3.
  assert (same_on T (ram s) (ram s1')) as Hs1 by (apply (only_frames_same _ _ _ _ B4); [by apply tables_aligned|]; intros x Hx Hin; apply (Hap x Hx); by apply Hpin).
  destruct (tables_ext 4 (ram s) (ram s1') snap 256 ltac:(lia) Hroot Hs1) as [HT1 HL1]. fold T L in HT1, HL1.
  destruct (clone_spec snap false s1' c A2) as (s2 & E2 & [D1 D2 D3 D4 D5 D6 D7]); rewrite ?HT1; try done.
  { by apply page_addr_al. } { intros He. cbn in He. destruct (Hpin p) as [_ Hno]; [by left|]. apply Hno. rewrite He. by left. }
  rewrite HT1, HL1 in *. rewrite E2. cbn [mbind option_bind]. destruct (Z.eqb_spec c 0) as [->|_]; [by destruct Hpc as [[? _] _]|].
  assert (same_on T (ram s1') (ram s2)) as Hs2 by (apply (only_frames_same _ _ _ _ D4); [by apply tables_aligned|]; intros x Hx Hin; apply (Hap x Hx); by apply Hcs).
  rewrite <- HT1 in Hs2. destruct (tables_ext 4 (ram s1') (ram s2) snap 256 ltac:(lia) Hroot Hs2) as [HT2 HL2]. rewrite HT1 in HT2. rewrite HL1 in HL2.
  destruct (clean_tables_spec snap s2) as (s3 & E3 & [F1 F2 F3 F4 F5]); [done|done|by rewrite HT2|]. rewrite HT2, HL2 in *. rewrite E3. cbn [mbind option_bind].
  assert (same_on (p :: take (length T - 1) A1) (ram s1) (ram s3)) as Kp.
  { intros x Hx. destruct (Hpin x Hx) as [HxA HxC]. assert (aligned x) as Hxa by (rewrite Forall_forall in Hsp; by apply page_addr_al, Hsp).
    rewrite F3, D4; [done|done| |done|intros HxT; by apply (Hap x HxT)].
    intros Hin. apply HxC. apply elem_of_cons in Hin as [->|Hin]; [by left|right; by apply (subseteq_take (length T - 1) A2)]. }
  assert (same_on (c :: take (length T - 1) A2) (ram s2) (ram s3)) as Kc.
  { intros x Hx. pose proof (Hcs x Hx) as HxA. assert (aligned x) as Hxa by (rewrite Forall_forall in Hsp; by apply page_addr_al, Hsp).
    rewrite F3; [done|done|intros HxT; by apply (Hap x HxT)]. }
  destruct (cloned_kept 4 false (ram s) snap (ram s1) p 256 _ (ram s3) ltac:(lia) (page_addr_al p Hpp) B6 Kp) as [Tp _ Lp].
  destruct (cloned_kept 4 false (ram s1') snap (ram s2) c 256 _ (ram s3) ltac:(lia) (page_addr_al c Hpc) D6 Kc) as [Tc _ Lc].
  exists p, c, s3. split; [done|].
  change (vm_pages s1') with (vm_pages s1) in D7. rewrite B7 in D7.
  destruct (fork_refs (vm_pages s) L Htr Hrf) as [R1 R2]. rewrite <- D7 in R1, R2.
  split.
  - exact Lp.
  - intros a Ha. rewrite Lc by done. f_equal. by apply (leaf_ext 4 _ _ _ 256); [lia| | |].
  - intros x Hx Hy. rewrite Tp in Hx. rewrite Tc in Hy. destruct (Hpin x Hx) as [_ Hno]. apply Hno.
    apply elem_of_cons in Hy as [->|Hy]; [by left|right; by apply (subseteq_take (length T - 1) A2)].
  - intros i Hi. assert (index_ok i) as Hii by (unfold index_ok; lia). split.
    + rewrite <- B5 by done. unfold entry. apply (same_on_ld _ _ _ _ _ Kp); [by left|by apply page_addr_al|done].
    + rewrite <- B5 by done. change (entry s1 p i) with (entry s1' (cr3 s1') i). rewrite <- D5 by done.
      unfold entry. apply (same_on_ld _ _ _ _ _ Kc); [by left|by apply page_addr_al|done].
  - intros x Hxa Hx. apply not_elem_of_app in Hx as [Hx1 Hx2].
    rewrite F3, D4 by (done || (intros Hin; apply Hx1; by apply Hcs)). apply B4; [done|]. intros Hin. apply Hx1. by apply Hpin.
  - intros i. by rewrite F4, R2.
  - rewrite F5, R1. destruct B2 as [_ B2], D2 as [_ D2]. rewrite D2. cbn [freed s1' set_cr3]. by rewrite B2.
  - destruct F2 as [F2 _], D2 as [D2 _]. by rewrite F2, D2.
  - assert (forall (x : Z) (A : list Z), NoDup (x :: A) -> NoDup (x :: take (length T - 1) A)) as Hnt.
    { intros x A [Hx HA']%NoDup_cons. apply NoDup_cons. split; [intros Hin; by apply Hx, (subseteq_take (length T - 1) A)|]. by eapply sublist_NoDup, sublist_take. }
    rewrite Tp, Tc. split_and!; [exact F1|by apply page_addr_al|by apply page_addr_al|apply Hnt, Hf1|apply Hnt, Hf2].
Qed.
