(* ===== verification/PagingFault.v ===== *)
(** * Page faults on shared pages

    The table that holds the entry of a page, changing one entry, and the promises of
    fork and of the fault handler that copies a page on the first write. *)

From S2P Require Import Prelude Message Pages Paging PagingProofs PagingTree PagingFork.

Open Scope Z_scope.

(** ** The last table on the way to an address *)

(** The level-1 table of an address. *)
Fixpoint last_table (level : nat) (m : Frames) (t a : Z) : Z :=
  match level with
  | S (S _ as below) => last_table below m (get_next_level_table (ld m (t + 8 * part (Z.of_nat level) a))) a
  | _ => t
  end.

Lemma last_table_leaf level : forall m t a e start, aligned t -> 0 <= start -> start <= part (Z.of_nat (S level)) a -> leaf (S level) m t a = Some e ->
  last_table (S level) m t a ∈ tables (S level) m t start /\ aligned (last_table (S level) m t a) /\
  ld m (last_table (S level) m t a + 8 * part 1 a) = e /\ present e = true.
Proof.
  induction level as [|below IH]; intros m t a e start Ha H0 Hs Hl.
  - cbn [leaf] in Hl. change (Z.of_nat 1) with 1 in Hl. destruct (present (ld m (t + 8 * part 1 a))) eqn:Hp; [|done]. cbn [negb] in Hl. simplify_eq.
    change (last_table 1 m t a) with t. split_and!; [by left|done|done|done].
  - change (leaf (S (S below)) m t a) with
      (let e := ld m (t + 8 * part (Z.of_nat (S (S below))) a) in if negb (present e) then None else leaf (S below) m (get_next_level_table e) a) in Hl.
    cbv zeta in Hl. destruct (present _) eqn:Hp; [|done]. cbn [negb] in Hl.
    destruct (IH m _ a e 0 (next_aligned _) ltac:(lia) ltac:(apply part_index; lia) Hl) as (H1 & H2 & H3 & H4).
    split_and!; [|done|done|done].
    pose proof (part_index (Z.of_nat (S (S below))) a ltac:(lia)) as Hi. unfold index_ok in Hi.
    apply (tables_below below m t start (part (Z.of_nat (S (S below))) a)); [done|lia|done|exact H1].
Qed.

(** [a] and [b] lie in the same page. *)
Fixpoint same_page (level : nat) (a b : Z) : bool :=
  match level with
  | O => true
  | S l => (part (Z.of_nat level) a =? part (Z.of_nat level) b) && same_page l a b
  end.

(** The tables below different entries are apart, and apart from the table. *)
Lemma subtables_disjoint below m t start i j : 0 <= start -> NoDup (tables (S (S below)) m t start) ->
  start <= i < 512 -> start <= j < 512 -> i <> j ->
  forall x, x ∈ subtables (S below) m t i -> x ∉ subtables (S below) m t j.
Proof.
  intros H0 Hnd Hi Hj Hne x Hx Hy. set (s := mkVm m 0 [] [] []).
  assert (forall k l, start <= k < l -> l < 512 -> x ∈ subtables (S below) m t k -> x ∉ subtables (S below) m t l) as H.
  { intros k l Hk Hl Hxk Hxl. destruct (subtables_apart below t start s Hnd l ltac:(lia)) as [_ Hap].
    apply (Hap x Hxl). right. by apply (mjoin_sub (subtables (S below) m t) start l k). }
  destruct (Z.lt_total i j) as [Hlt|[?|Hlt]]; [apply (H i j); [lia|lia|done|done]|done|apply (H j i); [lia|lia|done|done]].
Qed.

Lemma subtables_tree below m t start i : 0 <= start <= 512 -> NoDup (tables (S (S below)) m t start) -> start <= i < 512 ->
  NoDup (subtables (S below) m t i) /\ (t ∉ subtables (S below) m t i).
Proof.
  intros H0 Hnd Hi. destruct (subtables_apart below t start (mkVm m 0 [] [] []) Hnd i Hi) as [H1 H2].
  split; [exact H1|]. intros Hin. apply (H2 t Hin). by left.
Qed.

(** ** Changing the entry of one page *)

Lemma put_leaf_any level : forall m t a e v start, ram_ok m -> aligned t -> 0 <= start <= 512 -> start <= part (Z.of_nat (S level)) a ->
  NoDup (tables (S level) m t start) -> leaf (S level) m t a = Some e ->
  let m' := st (last_table (S level) m t a + 8 * part 1 a) v m in
  leaf (S level) m' t a = (if present v then Some v else None) /\
  forall b, start <= part (Z.of_nat (S level)) b -> same_page (S level) a b = false -> leaf (S level) m' t b = leaf (S level) m t b.
Proof.
  induction level as [|below IH]; intros m t a e v start Hm Ha H0 Hs Hnd Hl m'.
  - pose proof (part_index 1 a ltac:(lia)) as Hi. unfold m'. change (last_table 1 m t a) with t. cbn [leaf same_page]. change (Z.of_nat 1) with 1. split.
    + rewrite ld_st by done. rewrite !Z.eqb_refl. cbn [andb]. by destruct (present v).
    + intros b Hb Hne. pose proof (part_index 1 b ltac:(lia)) as Hj. rewrite ld_st by done. rewrite Z.eqb_refl. cbn [andb].
      rewrite andb_true_r in Hne. by rewrite Hne.
  - pose proof (part_index (Z.of_nat (S (S below))) a ltac:(lia)) as Hi. pose proof Hi as Hi'. unfold index_ok in Hi'.
    set (i := part (Z.of_nat (S (S below))) a) in *.
    assert (forall m b, leaf (S (S below)) m t b =
      let e := ld m (t + 8 * part (Z.of_nat (S (S below))) b) in if negb (present e) then None else leaf (S below) m (get_next_level_table e) b) as Hleaf by done.
    rewrite Hleaf in Hl. cbv zeta in Hl. fold i in Hl. destruct (present (ld m (t + 8 * i))) eqn:Hp; [|done]. cbn [negb] in Hl.
    set (next := get_next_level_table (ld m (t + 8 * i))) in *.
    assert (subtables (S below) m t i = tables (S below) m next 0) as Hsub by (unfold subtables; by rewrite Hp).
    destruct (subtables_tree below m t start i H0 Hnd ltac:(lia)) as [Hndi Htn]. rewrite Hsub in Hndi, Htn.
    destruct (last_table_leaf below m next a e 0 (next_aligned _) ltac:(lia) ltac:(apply part_index; lia) Hl) as (Hin & Hal & _).
    destruct (IH m next a e v 0 Hm (next_aligned _) ltac:(lia) ltac:(apply part_index; lia) Hndi Hl) as [IH1 IH2].
    change (last_table (S (S below)) m t a) with (last_table (S below) m next a) in m'. fold m' in IH1, IH2.
    assert (forall j, index_ok j -> ld m' (t + 8 * j) = ld m (t + 8 * j)) as Ht.
    { intros j Hj. unfold m'. rewrite ld_st by (done || apply part_index; lia). destruct (Z.eqb_spec (last_table (S below) m next a) t) as [He|]; [|done].
      by destruct Htn; rewrite <- He. }
    split.
    + rewrite Hleaf. cbv zeta. fold i. rewrite Ht, Hp by done. exact IH1.
    + intros b Hb Hne. pose proof (part_index (Z.of_nat (S (S below))) b ltac:(lia)) as Hj. unfold index_ok in Hj. rewrite !Hleaf. cbv zeta.
      rewrite Ht by done. set (j := part (Z.of_nat (S (S below))) b) in *. destruct (present (ld m (t + 8 * j))) eqn:Hpj; [|done]. cbn [negb].
      change (same_page (S (S below)) a b) with ((i =? j) && same_page (S below) a b) in Hne.
      destruct (Z.eqb_spec i j) as [Hij|Hij].
      * rewrite <- Hij. apply IH2; [apply part_index; lia|done].
      * apply (leaf_ext (S below) _ _ _ 0); [lia|apply next_aligned|apply part_index; lia|].
        intros x Hx. assert (subtables (S below) m t j = tables (S below) m (get_next_level_table (ld m (t + 8 * j))) 0) as Hsj by (unfold subtables; by rewrite Hpj).
        rewrite <- Hsj in Hx. pose proof (subtables_disjoint below m t start i j ltac:(lia) Hnd ltac:(lia) ltac:(lia) Hij) as Hdis.
        unfold m'. rewrite st_entry, frame_insert by (done || apply part_index; lia).
        destruct (Z.eqb_spec (x / PAGE_SIZE) (last_table (S below) m next a / PAGE_SIZE)) as [He|]; [|done]. exfalso.
        apply aligned_eq in He; [|pose proof (subtables_aligned (S below) m t j) as HF; rewrite Forall_forall in HF; by apply HF|done].
        apply (Hdis x); [|done]. rewrite Hsub, He. exact Hin.
Qed.

Lemma put_leaf level m t a e v start : ram_ok m -> aligned t -> 0 <= start <= 512 -> start <= part (Z.of_nat (S level)) a ->
  NoDup (tables (S level) m t start) -> leaf (S level) m t a = Some e -> present v = true ->
  let m' := st (last_table (S level) m t a + 8 * part 1 a) v m in
  leaf (S level) m' t a = Some v /\
  forall b, start <= part (Z.of_nat (S level)) b -> same_page (S level) a b = false -> leaf (S level) m' t b = leaf (S level) m t b.
Proof. intros Hm Ha H0 Hs Hnd Hl Hv m'. pose proof (put_leaf_any level m t a e v start Hm Ha H0 Hs Hnd Hl) as H. by rewrite Hv in H. Qed.

(** ** Walks on tables that agree *)

Lemma translate_ext n : forall m m' t start a, 0 <= start -> aligned t -> start <= part (Z.of_nat n) a ->
  same_on (tables n m t start) m m' -> translate_from n m' t (Z.of_nat n) a = translate_from n m t (Z.of_nat n) a.
Proof.
  induction n as [|n IH]; intros m m' t start a H0 Ha Hp Hs; [done|]. cbn [translate_from].
  pose proof (part_index (Z.of_nat (S n)) a ltac:(lia)) as Hi.
  rewrite (same_on_ld _ m m' t _ Hs) by (done || apply tables_self). destruct (present _) eqn:Hpr; [|done]. cbn [negb].
  destruct (Z.eqb_spec (Z.of_nat (S n)) 1) as [|Hn1]; [done|]. destruct ((Z.of_nat (S n) =? 2) && _); [done|].
  replace (Z.of_nat (S n) - 1) with (Z.of_nat n) by lia. destruct n as [|n]; [done|].
  apply (IH m m' _ 0); [lia|apply next_aligned|apply part_index; lia|].
  eapply same_on_sub; [exact Hs|]. apply tables_below; [done|unfold index_ok in Hi; lia|done].
Qed.

Lemma walk_last_table level : forall m t a e, leaf (S level) m t a = Some e -> walk level m t (Z.of_nat (S level)) a = Some (last_table (S level) m t a).
Proof.
  induction level as [|below IH]; intros m t a e Hl; [done|].
  change (leaf (S (S below)) m t a) with
    (let e := ld m (t + 8 * part (Z.of_nat (S (S below))) a) in if negb (present e) then None else leaf (S below) m (get_next_level_table e) a) in Hl.
  cbv zeta in Hl. cbn [walk]. destruct (present _) eqn:Hp; [|done]. cbn [negb] in *.
  replace (Z.of_nat (S (S below)) - 1) with (Z.of_nat (S below)) by lia. by apply (IH m _ a e).
Qed.

(** ** Copy on write *)

(** The entry of the private copy. *)
Definition private (page e : Z) : Z := set_present true (set_owned true (set_writable true (set_next_level_table page e))).

Lemma private_ok page e : page_addr page ->
  get_next_level_table (private page e) = page /\ present (private page e) = true /\ writable (private page e) = true /\
  owned (private page e) = true /\ user_accessible (private page e) = user_accessible e.
Proof.
  intros Hp. unfold private, set_present, set_owned, set_writable, present, writable, owned, user_accessible.
  rewrite !next_set_flag, next_set_next, !testbit_set_flag by (done || lia). cbn [Z.eqb Pos.eqb]. split_and!; try done.
  unfold set_next_level_table. by rewrite testbit_set_address by lia.
Qed.

(** A write fault at [a], a page mapped by the entry [e] of an owned page; [page]
    is the next page of the heap. *)
Record cow_fault (s : Vm) (a e page : Z) : Prop := mkCowFault {
  cf_ok : vm_ok s;
  cf_root : aligned (cr3 s);
  cf_user : 256 <= part 4 a;
  cf_tree : NoDup (tables 4 (ram s) (cr3 s) 256);
  cf_leaf : leaf 4 (ram s) (cr3 s) a = Some e;
  cf_owned : owned e = true;
  cf_small : translate s a = Some (get_next_level_table e);
  cf_data : get_next_level_table e <> 0 /\ (get_next_level_table e ∉ tables 4 (ram s) (cr3 s) 256);
  cf_next : head (avail s) = Some page;
  cf_page : page_addr page;
  cf_fresh : page <> get_next_level_table e /\ (page ∉ tables 4 (ram s) (cr3 s) 256);
}.

(** The page of [a] is private now, with the old contents; nothing else changed. *)
Record cow_done (s s' : Vm) (a e page : Z) : Prop := mkCowDone {
  cd_leaf : leaf 4 (ram s') (cr3 s') a = Some (private page e);
  cd_contents : frame (ram s') (page / PAGE_SIZE) = frame (ram s) (get_next_level_table e / PAGE_SIZE);
  cd_others : forall b, 256 <= part 4 b -> same_page 4 a b = false -> leaf 4 (ram s') (cr3 s') b = leaf 4 (ram s) (cr3 s) b;
  cd_spaces : forall root b, aligned root -> 256 <= part 4 b -> (forall x, x ∈ tables 4 (ram s) root 256 -> x <> page /\ (x ∉ tables 4 (ram s) (cr3 s) 256)) ->
    leaf 4 (ram s') root b = leaf 4 (ram s) root b;
  cd_frames : only_frames (page :: tables 4 (ram s) (cr3 s) 256) (ram s) (ram s');
  cd_regs : cr3 s' = cr3 s /\ avail s' = tail (avail s);
  cd_refs : vm_pages s' = drop_at (inc_at (vm_pages s) page) (get_next_level_table e);
  cd_freed : freed s' = released (inc_at (vm_pages s) page) [get_next_level_table e] ++ freed s;
}.

(** The memory with the copy in place. *)
Lemma copied_memory m page d ts : ram_ok m -> aligned page -> aligned d -> page <> d -> Forall aligned ts -> page ∉ ts ->
  let m1 := <[page / PAGE_SIZE := zero_frame]> m in
  let m2 := <[page / PAGE_SIZE := frame m1 (d / PAGE_SIZE)]> m1 in
  ram_ok m1 /\ ram_ok m2 /\ same_on ts m m1 /\ same_on ts m m2 /\ frame m2 (page / PAGE_SIZE) = frame m (d / PAGE_SIZE) /\ only_frames [page] m m2.
Proof.
  intros Hm Hp Hd Hne Hts Hnt m1 m2. assert (ram_ok m1) as H1 by (by apply ram_ok_insert).
  assert (forall x f m, aligned x -> x <> page -> frame (<[page / PAGE_SIZE := f]> m) (x / PAGE_SIZE) = frame m (x / PAGE_SIZE)) as Hf.
  { intros x f m' Hx Hxp. rewrite frame_insert. destruct (Z.eqb_spec (x / PAGE_SIZE) (page / PAGE_SIZE)) as [He|]; [|done].
    by destruct Hxp; apply aligned_eq. }
  rewrite Forall_forall in Hts.
  assert (forall x, x ∈ ts -> x <> page) as Hx by (intros x Hx ->; done).
  split_and!; [done|apply ram_ok_insert; [done|by apply length_frame]| | | |].
  - intros x Hxt. by apply Hf; [apply Hts|apply Hx].
  - intros x Hxt. unfold m2. rewrite Hf by (by apply Hts || by apply Hx). by apply Hf; [apply Hts|apply Hx].
  - unfold m2. rewrite frame_insert, Z.eqb_refl. by apply Hf.
  - intros x Hxa Hxn. assert (x <> page) as Hxp by (intros ->; apply Hxn; by left). unfold m2. rewrite (Hf x) by done. by apply Hf.
Qed.

(** The handler up to the release of the shared page. *)
Lemma cow_run s a e page : cow_fault s a e page ->
  let d := get_next_level_table e in
  let m1 := <[page / PAGE_SIZE := zero_frame]> (ram s) in
  let m2 := <[page / PAGE_SIZE := frame m1 (d / PAGE_SIZE)]> m1 in
  handle_page_fault 7 a s = Some (err OK, drop_page d (mkVm (st (last_table 4 m2 (cr3 s) a + 8 * part 1 a) (private page e) m2)
    (cr3 s) (inc_at (vm_pages s) page) (tail (avail s)) (freed s))).
Proof.
  intros [Hok Hroot Hu Hnd Hl Ho Htr [Hd0 Hdt] Hav Hpage [Hne Hpt]] d m1 m2. pose proof (page_addr_al page Hpage) as Hpa.
  destruct (copied_memory (ram s) page d _ Hok Hpa (next_aligned e) Hne (tables_aligned 4 (ram s) (cr3 s) 256 Hroot) Hpt) as (_ & _ & S1 & S2 & _).
  fold m1 in S1. fold m1 m2 in S2.
  unfold handle_page_fault. change (_ && _ && _) with true. cbv iota. unfold copy_target_page, new_page_table.
  destruct (avail s) as [|n rest] eqn:HA; [done|]. cbn in Hav. injection Hav as ->. cbn [tail].
  destruct (Z.eqb_spec page 0) as [->|_]; [by destruct Hpage as [[? _] _]|]. fold m1.
  assert (translate (mkVm m1 (cr3 s) (vm_pages s) rest (freed s)) a = Some d) as ->.
  { etransitivity; [|exact Htr]. apply (translate_ext 4 (ram s) m1 (cr3 s) 256); [lia|done|done|done]. }
  cbn [mbind option_bind]. unfold copy_frame. cbn [ram set_ram cr3 vm_pages avail freed]. fold m2.
  assert (leaf 4 m2 (cr3 s) a = Some e) as Hl2 by (rewrite <- Hl; by apply (leaf_ext 4 _ _ _ 256); [lia| | |]).
  destruct (last_table_leaf 3 m2 (cr3 s) a e 256 Hroot ltac:(lia) Hu Hl2) as (_ & _ & Hld & Hpr).
  unfold get_pte. change (Z.to_nat (4 - 1)) with 3%nat. cbn [ram cr3 set_ram].
  pose proof (walk_last_table 3 m2 (cr3 s) a e Hl2) as Hw. change (Z.of_nat 4) with 4 in Hw. rewrite Hw, Hld, Hpr, Ho. cbn [andb]. fold d.
  rewrite inc_page_eq. cbn [vm_pages set_vm_pages ram cr3 avail freed]. destruct (Z.eqb_spec d 0); [done|]. do 2 f_equal. f_equal.
  unfold set_page_table_entry, put_entry, entry. cbn [ram set_ram set_vm_pages cr3 vm_pages avail freed].
  change (get_next_level_table (ld m2 (get_next_level_table (ld m2 (get_next_level_table (ld m2 (cr3 s + 8 * part 4 a)) + 8 * part 3 a)) + 8 * part 2 a)))
    with (last_table 4 m2 (cr3 s) a). by rewrite Hld.
Qed.

Lemma cow_spec s a e page : cow_fault s a e page -> exists s', handle_page_fault 7 a s = Some (err OK, s') /\ cow_done s s' a e page.
Proof.
  intros Hc. eexists. split; [exact (cow_run s a e page Hc)|].
  destruct Hc as [Hok Hroot Hu Hnd Hl Ho Htr [Hd0 Hdt] Hav Hpage [Hne Hpt]]. pose proof (page_addr_al page Hpage) as Hpa.
  set (d := get_next_level_table e) in *. set (m1 := <[page / PAGE_SIZE := zero_frame]> (ram s)). set (m2 := <[page / PAGE_SIZE := frame m1 (d / PAGE_SIZE)]> m1).
  destruct (copied_memory (ram s) page d _ Hok Hpa (next_aligned e) Hne (tables_aligned 4 (ram s) (cr3 s) 256 Hroot) Hpt) as (_ & Hok2 & _ & S2 & Hcp & Hof).
  fold m1 m2 in Hok2, S2, Hcp, Hof.
  destruct (drop_page_eq d (mkVm (st (last_table 4 m2 (cr3 s) a + 8 * part 1 a) (private page e) m2)
    (cr3 s) (inc_at (vm_pages s) page) (tail (avail s)) (freed s))) as (Er & Ec & Ea & Ep & Ef). cbn [ram cr3 avail vm_pages freed] in *.
  destruct (tables_ext 4 (ram s) m2 (cr3 s) 256 ltac:(lia) Hroot S2) as [HT _].
  assert (leaf 4 m2 (cr3 s) a = Some e) as Hl2 by (rewrite <- Hl; by apply (leaf_ext 4 _ _ _ 256); [lia| | |]).
  destruct (last_table_leaf 3 m2 (cr3 s) a e 256 Hroot ltac:(lia) Hu Hl2) as (Hlt & Hla & _). rewrite HT in Hlt.
  destruct (private_ok page e Hpage) as (_ & Hpr & _). pose proof (part_index 1 a ltac:(lia)) as Hi.
  destruct (put_leaf 3 m2 (cr3 s) a e (private page e) 256 Hok2 Hroot ltac:(lia) Hu ltac:(by rewrite HT) Hl2 Hpr) as [P1 P2].
  set (T := last_table 4 m2 (cr3 s) a) in *.
  assert (only_frames (page :: tables 4 (ram s) (cr3 s) 256) (ram s) (st (T + 8 * part 1 a) (private page e) m2)) as Hall.
  { intros x Hx Hn. rewrite st_entry, frame_insert by done. destruct (Z.eqb_spec (x / PAGE_SIZE) (T / PAGE_SIZE)) as [He|].
    - apply aligned_eq in He; [|done|done]. destruct Hn. right. by rewrite He.
    - apply Hof; [done|]. intros Hin. apply Hn. apply list_elem_of_singleton in Hin as ->. by left. }
  split; rewrite ?Er, ?Ec, ?Ea, ?Ep, ?Ef.
  - exact P1.
  - rewrite st_entry, frame_insert by done. destruct (Z.eqb_spec (page / PAGE_SIZE) (T / PAGE_SIZE)) as [He|]; [|done].
    apply aligned_eq in He; [|done|done]. destruct Hpt. by rewrite He.
  - intros b Hb Hsp. rewrite P2 by done. by apply (leaf_ext 4 _ _ _ 256); [lia| | |].
  - intros root b Hra Hb Hdis. apply (leaf_ext 4 _ _ _ 256); [lia|done|done|]. apply (only_frames_same _ _ _ _ Hall); [by apply tables_aligned|].
    intros x Hx Hin. destruct (Hdis x Hx) as [H1 H2]. apply elem_of_cons in Hin as [Hin|Hin]; [exact (H1 Hin)|exact (H2 Hin)].
  - exact Hall.
  - exact (conj eq_refl eq_refl).
  - reflexivity.
  - cbn [released]. rewrite app_nil_r. reflexivity.
Qed.

(** ** The promises of fork and of the fault handler *)

(** The theorem: a fork that has the pages it needs succeeds; parent and child
    see what the snapshot mapped, with all pages read-only, in tables of their
    own; the snapshot's tables are given back and every mapping is one more
    reference. *)
Theorem fork_shares_address_space s : forkable s ->
  exists p c s', copy_parent_page_table (cr3 s) s = Some (err OK, p, c, s') /\ forked s s' (cr3 s) p c.
Proof. apply fork_spec. Qed.

(** C18: The theorem: a write of a user program to a shared page gives it a private
    copy with the same contents.  The mappings of its other pages, the address
    spaces that share no table with it, and the shared page itself stay as they
    are; the shared page loses one reference. *)
Theorem write_fault_copies_page s a e page : cow_fault s a e page ->
  exists s', handle_page_fault 7 a s = Some (err OK, s') /\ cow_done s s' a e page.
Proof. apply cow_spec. Qed.

(** C8: The theorem: after a fork a write of the parent is not seen by the child: the
    child's mappings stay the read-only ones of the fork, and the page they share
    keeps its contents, while the parent's page is a writable copy. *)
Theorem fork_isolates_writes s a e p c s1 page : forkable s ->
  copy_parent_page_table (cr3 s) s = Some (err OK, p, c, s1) ->
  leaf 4 (ram s) (cr3 s) a = Some e -> cow_fault s1 a (set_writable false e) page ->
  (page ∉ tables 4 (ram s1) c 256) ->
  exists s2, handle_page_fault 7 a s1 = Some (err OK, s2) /\
    (forall b, 256 <= part 4 b -> leaf 4 (ram s2) c b = set_writable false <$> leaf 4 (ram s) (cr3 s) b) /\
    frame (ram s2) (get_next_level_table e / PAGE_SIZE) = frame (ram s1) (get_next_level_table e / PAGE_SIZE) /\
    leaf 4 (ram s2) p a = Some (private page (set_writable false e)) /\
    frame (ram s2) (page / PAGE_SIZE) = frame (ram s1) (get_next_level_table e / PAGE_SIZE).
Proof.
  intros Hf Hrun Hl Hc Hpc. destruct (fork_spec s Hf) as (p' & c' & s1' & Hrun' & [_ Fc Fa _ _ _ _ Fr (_ & _ & Hca & _)]). rewrite Hrun in Hrun'. simplify_eq.
  destruct (cow_spec s1' a _ page Hc) as (s2 & Hh & [D1 D2 _ D4 D5 [D6 _] _ _]). exists s2. split; [exact Hh|].
  assert (get_next_level_table (set_writable false e) = get_next_level_table e) as Hd by (apply next_set_flag; lia). rewrite Hd in D2.
  destruct Hc as [_ _ _ _ _ _ _ [_ Hdt] _ _ [Hne _]]. rewrite Hd in Hdt, Hne. split_and!.
  - intros b Hb. rewrite D4; [by apply Fc|exact Hca|exact Hb|].
    intros x Hx. split; [intros ->; exact (Hpc Hx)|intros Hy; exact (Fa x Hy Hx)].
  - apply D5; [apply next_aligned|]. intros Hin. apply elem_of_cons in Hin as [Hin|Hin]; [exact (Hne (eq_sym Hin))|exact (Hdt Hin)].
  - rewrite <- D6. exact D1.
  - exact D2.
Qed.
