(* ===== verification/PagingMap.v ===== *)
(** * Building address spaces

    [setup_page_tables] maps a range of pages: the tables on the way are made when
    they are missing, pages that were not mapped get a fresh frame of zeros, and
    nothing outside the range changes. *)

From S2P Require Import Prelude Message Pages Paging PagingProofs PagingTree PagingFork PagingFault.

Open Scope Z_scope.

(** ** Page numbers *)

(** The number of a page in the range a table of the level covers. *)
Fixpoint vpn (level : nat) (a : Z) : Z :=
  match level with
  | O => 0
  | S l => part (Z.of_nat level) a * 512 ^ Z.of_nat l + vpn l a
  end.

Lemma pow512_pos l : 0 < 512 ^ Z.of_nat l.
Proof. apply Z.pow_pos_nonneg; lia. Qed.

Lemma pow512_S l : 512 ^ Z.of_nat (S l) = 512 * 512 ^ Z.of_nat l.
Proof. rewrite Nat2Z.inj_succ. apply Z.pow_succ_r. lia. Qed.

Lemma vpn_range level a : 0 <= vpn level a < 512 ^ Z.of_nat level.
Proof.
  induction level as [|l IH]; [done|]. cbn [vpn]. rewrite pow512_S. pose proof (part_index (Z.of_nat (S l)) a ltac:(lia)) as Hi.
  unfold index_ok in Hi. pose proof (pow512_pos l). nia.
Qed.

(** The number of a page is the address without its offset. *)
Lemma part_mod l a : part (Z.of_nat (S l)) a = a / PAGE_SIZE / 512 ^ Z.of_nat l mod 512.
Proof.
  unfold part, part_shift, part_width. destruct (Z.eqb_spec (Z.of_nat (S l)) 0); [lia|]. rewrite field_mod by lia. change (2 ^ 9) with 512. f_equal.
  rewrite Z.div_div by (done || apply pow512_pos). f_equal. unfold PAGE_SIZE. change 512 with (2 ^ 9). rewrite <- Z.pow_mul_r by lia.
  change 4096 with (2 ^ 12). rewrite <- Z.pow_add_r by lia. f_equal. lia.
Qed.

Lemma vpn_mod level a : vpn level a = a / PAGE_SIZE mod 512 ^ Z.of_nat level.
Proof.
  induction level as [|l IH]; [by rewrite Z.mod_1_r|]. cbn [vpn]. rewrite IH, part_mod, pow512_S, (Z.mul_comm 512). pose proof (pow512_pos l).
  rewrite Z.rem_mul_r by lia. lia.
Qed.

Lemma digit_unique k x y u v : 0 < k -> 0 <= u < k -> 0 <= v < k -> x * k + u = y * k + v -> x = y /\ u = v.
Proof. intros Hk Hu Hv H. assert (x = y) as ->; [|lia]. destruct (Z.lt_total x y) as [|[|]]; nia. Qed.

(** Page numbers determine the parts. *)
Lemma vpn_parts level a b : vpn (S level) a = vpn (S level) b -> part (Z.of_nat (S level)) a = part (Z.of_nat (S level)) b /\ vpn level a = vpn level b.
Proof.
  cbn [vpn]. apply digit_unique; [apply pow512_pos|apply vpn_range|apply vpn_range].
Qed.

(** In the range of one entry. *)
Lemma vpn_entry level a i lo hi : 0 <= lo -> hi <= 512 ^ Z.of_nat level ->
  i * 512 ^ Z.of_nat level + lo <= vpn (S level) a < i * 512 ^ Z.of_nat level + hi <-> part (Z.of_nat (S level)) a = i /\ lo <= vpn level a < hi.
Proof.
  intros Hlo Hhi. cbn [vpn]. pose proof (vpn_range level a) as Hv. pose proof (pow512_pos level) as Hp. split; [|intros [-> ?]; lia]. intros H.
  destruct (digit_unique (512 ^ Z.of_nat level) (part (Z.of_nat (S level)) a) i (vpn level a)
    (part (Z.of_nat (S level)) a * 512 ^ Z.of_nat level + vpn level a - i * 512 ^ Z.of_nat level)); lia.
Qed.

Lemma leaf_S below m t a : leaf (S (S below)) m t a =
  let e := ld m (t + 8 * part (Z.of_nat (S (S below))) a) in if negb (present e) then None else leaf (S below) m (get_next_level_table e) a.
Proof. done. Qed.

Lemma leaf_vpn level : forall m t a b, vpn level a = vpn level b -> leaf level m t a = leaf level m t b.
Proof.
  induction level as [|l IH]; intros m t a b H; [done|]. apply vpn_parts in H as [Hp Hv]. destruct l as [|l]; [cbn [leaf]; by rewrite Hp|].
  rewrite !leaf_S, Hp. cbv zeta. destruct (present _); [|done]. by apply IH.
Qed.

(** The address of the next entry. *)
Lemma part_set_same l v a : 0 <= v < 512 -> part (Z.of_nat (S l)) (set_part (Z.of_nat (S l)) v a) = v.
Proof.
  intros Hv. unfold part, set_part, part_shift, part_width. destruct (Z.eqb_spec (Z.of_nat (S l)) 0); [lia|]. rewrite field_set_same by lia. by apply Z.mod_small.
Qed.

Lemma part_set_other k l v a : k <> l -> part (Z.of_nat (S k)) (set_part (Z.of_nat (S l)) v a) = part (Z.of_nat (S k)) a.
Proof.
  intros Hne. unfold part, set_part, part_shift, part_width. destruct (Z.eqb_spec (Z.of_nat (S k)) 0), (Z.eqb_spec (Z.of_nat (S l)) 0); try lia.
  apply field_set_other; lia.
Qed.

Lemma zero_parts_above l : forall k a, (l <= k)%nat -> part (Z.of_nat (S k)) (zero_parts l a) = part (Z.of_nat (S k)) a.
Proof. induction l as [|l IH]; intros k a Hk; [done|]. cbn [zero_parts]. rewrite IH by lia. apply part_set_other. lia. Qed.

Lemma zero_parts_vpn l : forall a, vpn l (zero_parts l a) = 0.
Proof.
  induction l as [|l IH]; intros a; [done|]. cbn [vpn zero_parts]. rewrite IH. rewrite zero_parts_above, part_set_same by lia. lia.
Qed.

(** ** Trees without large pages *)

Fixpoint plain (level : nat) (m : Frames) (t start : Z) : Prop :=
  match level with
  | O => True
  | S below => forall i, start <= i < 512 -> let e := ld m (t + 8 * i) in
      (below = 1%nat -> huge_page e = false) /\ (present e = true -> plain below m (get_next_level_table e) 0)
  end.

Lemma plain_ext level : forall m m' t start, 0 <= start -> aligned t -> same_on (tables level m t start) m m' -> plain level m t start -> plain level m' t start.
Proof.
  induction level as [|below IH]; intros m m' t start H0 Ha Hs Hp; [done|]. intros i Hi. assert (ld m' (t + 8 * i) = ld m (t + 8 * i)) as Hld.
  { eapply same_on_ld; [exact Hs|apply tables_self|done|unfold index_ok; lia]. }
  cbv zeta. rewrite Hld. destruct (Hp i Hi) as [Hh Hb]. split; [done|]. intros Hpr. destruct below as [|below]; [done|].
  apply (IH m); [lia|apply next_aligned| |exact (Hb Hpr)]. eapply same_on_sub; [exact Hs|]. by apply tables_below.
Qed.

(** In such a tree the processor finds what the entry of the page says. *)
Lemma translate_leaf level : forall m t start a e, 0 <= start <= part (Z.of_nat level) a -> plain level m t start -> leaf level m t a = Some e ->
  translate_from level m t (Z.of_nat level) a = Some (get_next_level_table e).
Proof.
  induction level as [|below IH]; intros m t start a e Hs Hp Hl; [done|]. pose proof (part_index (Z.of_nat (S below)) a ltac:(lia)) as Hi. unfold index_ok in Hi.
  destruct (Hp (part (Z.of_nat (S below)) a) ltac:(lia)) as [Hh Hb]. cbn [translate_from]. destruct below as [|below].
  - cbn [leaf] in Hl. destruct (present _); [|done]. cbn [negb] in *. change (Z.of_nat 1 =? 1) with true. cbv iota. by simplify_eq.
  - rewrite leaf_S in Hl. cbv zeta in Hl. destruct (present _) eqn:Hpr; [|done]. cbn [negb] in *.
    destruct (Z.eqb_spec (Z.of_nat (S (S below))) 1); [lia|]. destruct (Z.eqb_spec (Z.of_nat (S (S below))) 2).
    + assert (below = O) as -> by lia. rewrite Hh by done. cbn [andb]. change (Z.of_nat 2 - 1) with (Z.of_nat 1).
      apply (IH m _ 0 a e); [split; [lia|apply part_index; lia]|exact (Hb eq_refl)|done].
    + cbn [andb]. replace (Z.of_nat (S (S below)) - 1) with (Z.of_nat (S below)) by lia.
      apply (IH m _ 0 a e); [split; [lia|apply part_index; lia]|exact (Hb eq_refl)|done].
Qed.

(** ** Growing a tree *)

(** An entry made for a new page. *)
Definition new_entry (w : bool) (e : Z) : Prop := present e = true /\ user_accessible e = true /\ owned e = true /\ writable e = w.

(** The pages [lo <= vpn < hi] of the tree at [t] are mapped; [A] was taken from the
    supply, [L] of it for data. *)
Record grown (level : nat) (w : bool) (t start lo hi : Z) (s s' : Vm) (A L : list Z) : Prop := mkGrown {
  gw_ok : vm_ok s';
  gw_regs : same_regs s s';
  gw_avail : avail s = A ++ avail s';
  gw_data : L ⊆ A;
  gw_frames : only_frames (tables level (ram s) t start ++ A) (ram s) (ram s');
  gw_tree : NoDup (tables level (ram s') t start);
  gw_tables : forall x, x ∈ tables level (ram s') t start -> x ∈ tables level (ram s) t start \/ (x ∈ A /\ (x ∉ L));
  gw_zero : forall x, x ∈ L -> frame (ram s') (x / PAGE_SIZE) = zero_frame;
  gw_new : forall a, start <= part (Z.of_nat level) a -> lo <= vpn level a < hi -> leaf level (ram s) t a = None ->
    exists e, leaf level (ram s') t a = Some e /\ new_entry w e /\ get_next_level_table e ∈ L;
  gw_old : forall a e, start <= part (Z.of_nat level) a -> lo <= vpn level a < hi -> leaf level (ram s) t a = Some e ->
    leaf level (ram s') t a = Some (set_writable w e);
  gw_out : forall a, start <= part (Z.of_nat level) a -> ~ (lo <= vpn level a < hi) -> leaf level (ram s') t a = leaf level (ram s) t a;
  gw_inj : forall a b ea eb, start <= part (Z.of_nat level) a -> start <= part (Z.of_nat level) b -> lo <= vpn level a < hi -> lo <= vpn level b < hi ->
    leaf level (ram s) t a = None -> leaf level (ram s) t b = None -> leaf level (ram s') t a = Some ea -> leaf level (ram s') t b = Some eb ->
    get_next_level_table ea = get_next_level_table eb -> vpn level a = vpn level b;
  gw_plain : plain level (ram s) t start -> plain level (ram s') t start;
  gw_low : forall i, index_ok i -> i < start -> entry s' t i = entry s t i;
  gw_pages : vm_pages s' = foldl inc_at (vm_pages s) L;
}.

Arguments gw_ok {_ _ _ _ _ _ _ _ _ _}.
Arguments gw_regs {_ _ _ _ _ _ _ _ _ _}.
Arguments gw_avail {_ _ _ _ _ _ _ _ _ _}.
Arguments gw_data {_ _ _ _ _ _ _ _ _ _}.
Arguments gw_frames {_ _ _ _ _ _ _ _ _ _}.
Arguments gw_tree {_ _ _ _ _ _ _ _ _ _}.
Arguments gw_tables {_ _ _ _ _ _ _ _ _ _}.
Arguments gw_zero {_ _ _ _ _ _ _ _ _ _}.
Arguments gw_new {_ _ _ _ _ _ _ _ _ _}.
Arguments gw_old {_ _ _ _ _ _ _ _ _ _}.
Arguments gw_out {_ _ _ _ _ _ _ _ _ _}.
Arguments gw_inj {_ _ _ _ _ _ _ _ _ _}.
Arguments gw_plain {_ _ _ _ _ _ _ _ _ _}.
Arguments gw_low {_ _ _ _ _ _ _ _ _ _}.
Arguments gw_pages {_ _ _ _ _ _ _ _ _ _}.

(** What growing needs: a tree and a supply of fresh pages. *)
Record growable (level : nat) (t start : Z) (s : Vm) : Prop := mkGrowable {
  ga_ok : vm_ok s;
  ga_root : aligned t;
  ga_start : 0 <= start <= 512;
  ga_tree : NoDup (tables level (ram s) t start);
  ga_supply : NoDup (avail s) /\ Forall page_addr (avail s);
  ga_apart : forall x, x ∈ tables level (ram s) t start -> x ∉ avail s;
  ga_nonzero : (0 ∉ tables level (ram s) t start) /\ forall a e, start <= part (Z.of_nat level) a -> leaf level (ram s) t a = Some e -> get_next_level_table e <> 0;
}.

Lemma growable_next level w t start lo hi s s' A L : growable level t start s -> grown level w t start lo hi s s' A L -> growable level t start s'.
Proof.
  intros [Hok Hr Hs Ht [Hn Hp] Ha [Hz Hlz]] G. pose proof (gw_avail G) as HA. rewrite HA in Hn, Hp, Ha. apply NoDup_app in Hn as (_ & Hd & Hn). apply Forall_app in Hp as [HpA Hp].
  assert (forall x, x ∈ A -> x <> 0) as HA0. { intros x Hx ->. rewrite Forall_forall in HpA. destruct (HpA 0 Hx) as [[? _] _]. done. }
  split; [apply G|done|done|apply G|done| |split].
  - intros x Hx Hin. destruct (gw_tables G x Hx) as [Hx'|[Hx' _]]; [|by apply (Hd x Hx')]. apply (Ha x Hx'). apply elem_of_app. by right.
  - intros Hx. destruct (gw_tables G 0 Hx) as [?|[? _]]; [done|]. by apply (HA0 0).
  - intros a e Hpa He. destruct (decide (lo <= vpn level a < hi)) as [Hra|Hra]; [|rewrite (gw_out G) in He by done; by apply (Hlz a)].
    destruct (leaf level (ram s) t a) as [e0|] eqn:E0.
    + rewrite (gw_old G a e0) in He by done. injection He as <-. unfold set_writable. rewrite next_set_flag by lia. by apply (Hlz a).
    + destruct (gw_new G a Hpa Hra E0) as (e' & He' & _ & Hin). assert (e' = e) as -> by congruence. by apply HA0, (gw_data G).
Qed.

(** Nothing is mapped yet. *)
Lemma grown_none level w t start lo s : growable level t start s -> grown level w t start lo lo s s [] [].
Proof. intros [Hok Hr Hs Ht _ _ _]. split; try done; try (intros; lia); intros x Hx; [by left|by apply not_elem_of_nil in Hx]. Qed.

(** One range after the other. *)
Lemma grown_trans level w t start lo mid hi s s1 s2 A1 L1 A2 L2 : growable level t start s -> lo <= mid <= hi ->
  grown level w t start lo mid s s1 A1 L1 -> grown level w t start mid hi s1 s2 A2 L2 -> grown level w t start lo hi s s2 (A1 ++ A2) (L1 ++ L2).
Proof.
  intros Hg Hm G1 G2. pose proof (growable_next _ _ _ _ _ _ _ _ _ _ Hg G1) as Hg1. destruct Hg as [Hok Hr Hs Ht [Hn Hp] Ha _].
  pose proof (gw_avail G1) as HA1. pose proof (gw_avail G2) as HA2.
  rewrite HA1, HA2, app_assoc in Hn, Ha, Hp. apply NoDup_app in Hn as (Hn & _ & _). apply NoDup_app in Hn as (_ & Hd & _).
  assert (forall x, x ∈ L1 -> x ∉ tables level (ram s1) t start ++ A2) as HL1.
  { intros x Hx Hin. pose proof (gw_data G1 x Hx) as HxA. apply elem_of_app in Hin as [Hin|Hin]; [|by apply (Hd x)].
    destruct (gw_tables G1 x Hin) as [Hx'|[_ Hx']]; [|done]. apply (Ha x Hx'). rewrite !elem_of_app. by left; left. }
  assert (forall x, x ∈ L1 -> x ∉ L2) as HL12. { intros x Hx Hy. apply (Hd x); [by apply (gw_data G1)|by apply (gw_data G2)]. }
  assert (forall a, start <= part (Z.of_nat level) a -> lo <= vpn level a < mid -> leaf level (ram s2) t a = leaf level (ram s1) t a) as K1.
  { intros a Hpa Hr1. apply (gw_out G2); [done|lia]. }
  assert (forall a, start <= part (Z.of_nat level) a -> mid <= vpn level a < hi -> leaf level (ram s1) t a = leaf level (ram s) t a) as K2.
  { intros a Hpa Hr1. apply (gw_out G1); [done|lia]. }
  split.
  - apply G2.
  - destruct (gw_regs G1), (gw_regs G2). split; congruence.
  - by rewrite HA1, HA2, app_assoc.
  - intros x [Hx|Hx]%elem_of_app; apply elem_of_app; [left; by apply (gw_data G1)|right; by apply (gw_data G2)].
  - eapply only_frames_trans; [eapply only_frames_weaken; [apply G1|set_solver]|]. eapply only_frames_weaken; [apply G2|].
    intros x [Hx|Hx]%elem_of_app; [|set_solver]. destruct (gw_tables G1 x Hx) as [?|[? _]]; set_solver.
  - apply G2.
  - intros x Hx. destruct (gw_tables G2 x Hx) as [Hx1|[Hx1 Hx2]].
    + destruct (gw_tables G1 x Hx1) as [?|[Hx2 Hx3]]; [by left|]. right. split; [set_solver|]. intros [?|Hin]%elem_of_app; [done|].
      apply (Hd x Hx2). by apply (gw_data G2).
    + right. split; [set_solver|]. intros [Hin|?]%elem_of_app; [|done]. apply (Hd x); [by apply (gw_data G1)|done].
  - intros x [Hx|Hx]%elem_of_app; [|by apply G2]. rewrite (gw_frames G2 x); [by apply G1| |by apply HL1].
    assert (x ∈ A1) as HxA by (by apply (gw_data G1)). rewrite Forall_forall in Hp. apply page_addr_al, Hp. set_solver.
  - intros a Hpa Hra Hl. destruct (Z.lt_ge_cases (vpn level a) mid).
    + rewrite K1 by (done || lia). destruct (gw_new G1 a Hpa) as (e & He & Hne & Hin); [lia|done|]. exists e. set_solver.
    + destruct (gw_new G2 a Hpa) as (e & He & Hne & Hin); [lia|rewrite K2; [done|done|lia]|]. exists e. set_solver.
  - intros a e Hpa Hra Hl. destruct (Z.lt_ge_cases (vpn level a) mid).
    + rewrite K1 by (done || lia). apply G1; [done|lia|done].
    + apply G2; [done|lia|]. rewrite K2; [done|done|lia].
  - intros a Hpa Hra. rewrite (gw_out G2) by (done || lia). apply G1; [done|lia].
  - intros a b ea eb Hpa Hpb Hra Hrb Ha0 Hb0 Ha1 Hb1 He. destruct (Z.lt_ge_cases (vpn level a) mid), (Z.lt_ge_cases (vpn level b) mid).
    + rewrite K1 in Ha1, Hb1 by (done || lia). eapply G1; eauto; lia.
    + exfalso. rewrite K1 in Ha1 by (done || lia). destruct (gw_new G1 a Hpa) as (e1 & He1 & _ & Hin1); [lia|done|].
      destruct (gw_new G2 b Hpb) as (e2 & He2 & _ & Hin2); [lia|rewrite K2; [done|done|lia]|]. apply (HL12 _ Hin1). by replace e1 with ea by congruence; rewrite He; replace eb with e2 by congruence.
    + exfalso. rewrite K1 in Hb1 by (done || lia). destruct (gw_new G1 b Hpb) as (e1 & He1 & _ & Hin1); [lia|done|].
      destruct (gw_new G2 a Hpa) as (e2 & He2 & _ & Hin2); [lia|rewrite K2; [done|done|lia]|]. apply (HL12 _ Hin1). by replace e1 with eb by congruence; rewrite <- He; replace ea with e2 by congruence.
    + rewrite <- K2 in Ha0, Hb0 by (done || lia). eapply (gw_inj G2); eauto; lia.
  - intros Hpl. by apply G2, G1.
  - intros i Hi Hlt. rewrite (gw_low G2), (gw_low G1) by done. done.
  - by rewrite (gw_pages G2), (gw_pages G1), foldl_app.
Qed.

(** ** Rounds of the loop *)

(** One entry of the table: the pages that remain, or -1. *)
Definition visit (below : nat) (w : bool) (t a n : Z) (s : Vm) : option (Z * Vm) :=
  let i := part (Z.of_nat (S below)) a in
  let was_present := present (entry s t i) in
  let (child, s) := set_new_page_table t i s in
  if child =? 0 then Some (-1, s)
  else
    match below with
    | O =>
        let s := put_entry t i (set_writable w (entry s t i)) s in
        let s := if was_present then s else inc_page child (put_entry t i (set_owned true (entry s t i)) s) in
        Some (n - 1, s)
    | S _ =>
        let s := put_entry t i (set_writable true (entry s t i)) s in
        setup_page_table below w child a n s
    end.

Fixpoint rounds (below : nat) (w : bool) (t : Z) (fuel : nat) (a n : Z) (s : Vm) : option (Z * Vm) :=
  if n =? 0 then Some (i32 n, s)
  else
    match fuel with
    | O => fault
    | S fuel =>
        '(remaining, s) ← visit below w t a n s;
        if remaining =? -1 then Some (-1, s)
        else if part (Z.of_nat (S below)) a =? 511 then Some (i32 (u64 remaining), s)
        else rounds below w t fuel (zero_parts below (set_part (Z.of_nat (S below)) (part (Z.of_nat (S below)) a + 1) a)) (u64 remaining) s
    end.

Lemma setup_rounds below w t a n s : setup_page_table (S below) w t a n s = rounds below w t TABLE_ROUNDS a n s.
Proof.
  cbn [setup_page_table]. revert a n s. generalize TABLE_ROUNDS as fuel. induction fuel as [|fuel IH]; intros a n s; [done|].
  cbn [rounds]. destruct (n =? 0); [done|]. unfold visit. cbv zeta.
  destruct (set_new_page_table t (part (Z.of_nat (S below)) a) s) as [child s1]. destruct (child =? 0); [done|].
  match goal with |- mbind _ _ = mbind _ ?y => destruct y as [[r s2]|]; [|done] end.
  cbn [mbind option_bind]. destruct (r =? -1); [done|]. destruct (part (Z.of_nat (S below)) a =? 511); [done|]. apply IH.
Qed.

(** ** The last level *)

Lemma leaf_1 m t a : leaf 1 m t a = let e := ld m (t + 8 * part 1 a) in if negb (present e) then None else Some e.
Proof. done. Qed.

Lemma vpn_1 a : vpn 1 a = part 1 a.
Proof. cbn [vpn]. change (512 ^ Z.of_nat 0) with 1. change (Z.of_nat 1) with 1. lia. Qed.

(** One entry of a last-level table was written. *)
Lemma grown_leaf w t start i v s s' A L : growable 1 t start s -> start <= i < 512 -> vm_ok s' -> same_regs s s' -> avail s = A ++ avail s' -> L ⊆ A ->
  only_frames (t :: A) (ram s) (ram s') -> (forall j, index_ok j -> entry s' t j = if j =? i then v else entry s t j) ->
  (forall x, x ∈ L -> frame (ram s') (x / PAGE_SIZE) = zero_frame) ->
  (present (entry s t i) = true -> v = set_writable w (entry s t i)) ->
  (present (entry s t i) = false -> new_entry w v /\ get_next_level_table v ∈ L) -> vm_pages s' = foldl inc_at (vm_pages s) L ->
  grown 1 w t start i (i + 1) s s' A L.
Proof.
  intros [Hok Hr Hs Ht Hsup Ha _] Hi Hok' Hregs HA HL Hf He Hz Hold Hnew Hpg.
  assert (forall a, leaf 1 (ram s') t a = let e := if part 1 a =? i then v else entry s t (part 1 a) in if negb (present e) then None else Some e) as Hl.
  { intros a. rewrite leaf_1. cbv zeta. change (ld (ram s') (t + 8 * part 1 a)) with (entry s' t (part 1 a)). by rewrite He by (apply part_index; lia). }
  assert (forall a, leaf 1 (ram s) t a = let e := entry s t (part 1 a) in if negb (present e) then None else Some e) as Hl0 by done.
  split; [done|done|done|done| | | |done| | | | | | |done].
  - done.
  - apply NoDup_singleton.
  - intros x Hx. by left.
  - intros a _ Hra Hn. rewrite vpn_1 in Hra. rewrite Hl. assert (part 1 a = i) as Ea by lia. rewrite Ea, Z.eqb_refl. cbv zeta. rewrite Hl0 in Hn. cbv zeta in Hn. rewrite Ea in Hn. destruct (present (entry s t i)); [done|]. destruct (Hnew eq_refl) as [(Hp & Hne) Hin]. exists v. rewrite Hp. by repeat split; try apply Hne.
  - intros a e _ Hra Hn. rewrite vpn_1 in Hra. rewrite Hl. assert (part 1 a = i) as Ea by lia. rewrite Ea, Z.eqb_refl. cbv zeta. rewrite Hl0 in Hn. cbv zeta in Hn. rewrite Ea in Hn.
    destruct (present (entry s t i)) eqn:Hp; [|done]. cbn [negb] in Hn. rewrite (Hold eq_refl), present_set_writable, Hp. cbn [negb]. congruence.
  - intros a _ Hra. rewrite vpn_1 in Hra. rewrite Hl, Hl0. destruct (Z.eqb_spec (part 1 a) i); [lia|done].
  - intros a b ea eb _ _ Hra Hrb _ _ _ _ _. rewrite !vpn_1 in *. lia.
  - intros _ j Hj. split; [done|]. done.
  - intros j Hj Hlt. rewrite He by done. destruct (Z.eqb_spec j i); [lia|done].
Qed.

Lemma entry_present_leaf t start a s : growable 1 t start s -> start <= part 1 a -> present (entry s t (part 1 a)) = true -> get_next_level_table (entry s t (part 1 a)) <> 0.
Proof. intros Hg Hp Hpr. apply (proj2 (ga_nonzero _ _ _ _ Hg) a); [done|]. rewrite leaf_1. unfold entry in Hpr. cbv zeta. by rewrite Hpr. Qed.

(** The entry of a new page or table. *)
Lemma linked_entry c e : page_addr c ->
  let v := set_user_accessible true (set_present true (set_next_level_table c e)) in
  get_next_level_table v = c /\ present v = true /\ user_accessible v = true /\ huge_page v = huge_page e.
Proof.
  intros Hc v. unfold v, set_user_accessible, set_present, present, user_accessible, huge_page. rewrite !next_set_flag, next_set_next, !testbit_set_flag by (done || lia).
  cbn [Z.eqb Pos.eqb]. split_and!; [done|done|done|]. unfold set_next_level_table. by rewrite testbit_set_address by lia.
Qed.

(** One page at the last level. *)
Lemma visit_leaf w t start a n s : growable 1 t start s -> start <= part 1 a ->
  (exists s' A L, visit 0 w t a n s = Some (n - 1, s') /\ grown 1 w t start (vpn 1 a) (vpn 1 a + 1) s s' A L /\ lenz A <= 1) \/
  (visit 0 w t a n s = Some (-1, s) /\ avail s = []).
Proof.
  intros Hg Hs. pose proof Hg as [Hok Hr _ _ [Hnd Hpg] Hap _]. pose proof (part_index 1 a ltac:(lia)) as Hi. rewrite vpn_1. unfold visit, set_new_page_table. change (Z.of_nat 1) with 1.
  set (i := part 1 a) in *. destruct (present (entry s t i)) eqn:Hpr.
  - destruct (Z.eqb_spec (get_next_level_table (entry s t i)) 0) as [E|_]; [by destruct (entry_present_leaf t start a s Hg Hs Hpr)|]. left. eexists _, [], []. split; [done|].
    split; [|done]. apply (grown_leaf w t start i (set_writable w (entry s t i))); [done|unfold index_ok in Hi; lia|by apply vm_ok_put|done|done|done|by apply only_frames_put; [| |left]| | | |by rewrite Hpr|done].
    + intros j Hj. rewrite entry_put by done. rewrite Z.eqb_refl. cbn [andb]. by rewrite (Z.eqb_sym i j).
    + intros x Hx. by apply not_elem_of_nil in Hx.
    + done.
  - destruct (avail s) as [|c rest] eqn:Hav; [right; unfold new_page_table; by rewrite Hav|]. left.
    apply Forall_cons in Hpg as [Hc _]. pose proof (page_addr_al c Hc) as Hca. destruct (new_page_ok s c rest Hav Hc Hok) as (s1 & E & Hok1 & Hregs & Hav1 & Hpg1 & Hf1 & Hz1). rewrite E.
    destruct (Z.eqb_spec c 0) as [->|_]; [by destruct Hc as [[? _] _]|]. assert (c <> t) as Hct. { intros ->. apply (Hap t); [apply tables_self|by left]. }
    assert (forall j, index_ok j -> entry s1 t j = entry s t j) as Ht1. { intros j Hj. apply (only_frames_entry [c]); [done|done|done|]. by intros [?|?%not_elem_of_nil]%elem_of_cons. }
    destruct (Z.eqb_spec c 0) as [->|_]; [by destruct Hc as [[? _] _]|].
    assert (frame (ram s1) (c / PAGE_SIZE) = zero_frame) as Hzero. { unfold new_page_table in E. rewrite Hav in E. injection E as <-. cbn [ram]. by rewrite frame_insert, Z.eqb_refl. }
    rewrite inc_page_eq. eexists _, [c], [c]. split; [done|]. split; [|done]. rewrite !entry_put by (done || by repeat apply vm_ok_put). rewrite !Z.eqb_refl. cbn [andb]. rewrite Ht1 by done.
    destruct (linked_entry c (entry s t i) Hc) as (Hnext & Hpres & Huser & _). set (v1 := set_user_accessible true _) in *. set (v := set_owned true (set_writable w v1)).
    apply (grown_leaf w t start i v); [done|unfold index_ok in Hi; lia|by repeat apply vm_ok_put|by destruct Hregs|by rewrite Hav; cbn [avail set_vm_pages put_entry set_ram app]; rewrite Hav1|done| | | |by rewrite Hpr| |].
    + cbn [ram set_vm_pages]. repeat (eapply only_frames_trans; [|apply only_frames_put; [done|done|by left]]). eapply only_frames_weaken; [exact Hf1|]. intros x ->%list_elem_of_singleton. by right; left.
    + intros j Hj. change (entry (set_vm_pages ?ps ?x) t j) with (entry x t j). rewrite !entry_put by (done || by repeat apply vm_ok_put). rewrite Z.eqb_refl. cbn [andb]. rewrite (Z.eqb_sym i j).
      destruct (Z.eqb_spec j i); [done|by apply Ht1].
    + intros x ->%list_elem_of_singleton. cbn [ram set_vm_pages].
      assert (forall y, vm_ok y -> frame (ram y) (c / PAGE_SIZE) = zero_frame -> forall v', frame (ram (put_entry t i v' y)) (c / PAGE_SIZE) = zero_frame) as Hput.
      { intros y Hy Hf v'. rewrite (only_frames_put [t] t i v' y); [done|done|done|by left|done|]. by intros ?%list_elem_of_singleton. }
      by repeat (apply Hput; [by repeat apply vm_ok_put|]).
    + intros _. split; [|unfold v, set_owned, set_writable; rewrite !next_set_flag by lia; rewrite Hnext; by left]. unfold new_entry, v, set_owned, set_writable, present, user_accessible, owned, writable in *.
      rewrite !testbit_set_flag by lia. done.
    + cbn [vm_pages set_vm_pages foldl]. by rewrite <- Hpg1.
Qed.

(** ** Levels above *)

(** What entry [i] of [t] maps. *)
Definition subleaf (below : nat) (m : Frames) (t i a : Z) : option Z :=
  let e := ld m (t + 8 * i) in if negb (present e) then None else leaf below m (get_next_level_table e) a.

Lemma leaf_sub below m t a : leaf (S (S below)) m t a = subleaf (S below) m t (part (Z.of_nat (S (S below))) a) a.
Proof. done. Qed.

(** Entry [i] leads to the table [c]; [A] was taken from the supply for it. *)
Record opened (below : nat) (t start i c : Z) (s s1 : Vm) (A : list Z) : Prop := mkOpened {
  op_ok : vm_ok s1;
  op_regs : same_regs s s1 /\ vm_pages s1 = vm_pages s;
  op_avail : avail s = A ++ avail s1 /\ lenz A <= 1;
  op_frames : only_frames (t :: A) (ram s) (ram s1);
  op_entries : forall j, index_ok j -> j <> i -> entry s1 t j = entry s t j;
  op_entry : present (entry s1 t i) = true /\ get_next_level_table (entry s1 t i) = c /\ huge_page (entry s1 t i) = huge_page (entry s t i);
  op_tables : forall x, x ∈ tables (S below) (ram s1) c 0 -> x ∈ subtables (S below) (ram s) t i \/ x ∈ A;
  op_leaf : forall a, leaf (S below) (ram s1) c a = subleaf (S below) (ram s) t i a;
  op_plain : (present (entry s t i) = true -> plain (S below) (ram s) (get_next_level_table (entry s t i)) 0) -> plain (S below) (ram s1) c 0;
  op_growable : growable (S below) c 0 s1;
}.
Arguments op_ok {_ _ _ _ _ _ _ _}.
Arguments op_regs {_ _ _ _ _ _ _ _}.
Arguments op_avail {_ _ _ _ _ _ _ _}.
Arguments op_frames {_ _ _ _ _ _ _ _}.
Arguments op_entries {_ _ _ _ _ _ _ _}.
Arguments op_entry {_ _ _ _ _ _ _ _}.
Arguments op_tables {_ _ _ _ _ _ _ _}.
Arguments op_leaf {_ _ _ _ _ _ _ _}.
Arguments op_plain {_ _ _ _ _ _ _ _}.
Arguments op_growable {_ _ _ _ _ _ _ _}.

Lemma vpn_set_above level v a : vpn level (set_part (Z.of_nat (S level)) v a) = vpn level a.
Proof.
  assert (forall k, (k <= level)%nat -> vpn k (set_part (Z.of_nat (S level)) v a) = vpn k a) as H; [|by apply H].
  induction k as [|k IH]; intros Hk; [done|]. cbn [vpn]. rewrite IH by lia. rewrite part_set_other by lia. done.
Qed.

(** A table that exists. *)
Lemma subtree_growable below t start i s : growable (S (S below)) t start s -> start <= i < 512 -> present (entry s t i) = true ->
  growable (S below) (get_next_level_table (entry s t i)) 0 s.
Proof.
  intros [Hok Hr Hs Ht Hsup Ha [Hz Hl]] Hi Hp. assert (tables (S below) (ram s) (get_next_level_table (entry s t i)) 0 = subtables (S below) (ram s) t i) as Hsub.
  { unfold subtables. unfold entry in Hp |- *. by rewrite Hp. }
  assert (tables (S below) (ram s) (get_next_level_table (entry s t i)) 0 ⊆ tables (S (S below)) (ram s) t start) as Hincl by (by apply tables_below; [lia| |]).
  split; [done|apply next_aligned|lia| |done| |split].
  - rewrite Hsub. by apply (subtables_tree below (ram s) t start).
  - intros x Hx. by apply Ha, Hincl.
  - intros H0. by apply Hz, Hincl.
  - intros a e _ He. apply (Hl (set_part (Z.of_nat (S (S below))) i a)); [rewrite part_set_same by lia; lia|]. rewrite leaf_sub, part_set_same by lia.
    unfold subleaf. unfold entry in Hp, He. rewrite Hp. cbv zeta. cbn [negb]. rewrite <- He. apply leaf_vpn. apply (vpn_set_above (S below)).
Qed.

Lemma mjoin_nil {A} (f : Z -> list A) l : (forall i, i ∈ l -> f i = []) -> mjoin (f <$> l) = [].
Proof. induction l as [|i l IH]; intros H; [done|]. cbn. rewrite H by (by left). apply IH. intros j Hj. apply H. by right. Qed.

(** A table of zeros. *)
Lemma zero_table below m c : (forall i, index_ok i -> ld m (c + 8 * i) = 0) ->
  tables (S below) m c 0 = [c] /\ (forall a, leaf (S below) m c a = None) /\ plain (S below) m c 0.
Proof.
  intros Hz. assert (forall i, 0 <= i < 512 -> ld m (c + 8 * i) = 0) as Hz' by (intros i Hi; by apply Hz). split_and!.
  - destruct below as [|below]; [done|]. rewrite tables_eq. f_equal. apply mjoin_nil. intros i Hi. apply elem_indices in Hi; [|lia]. unfold subtables. by rewrite Hz' by lia.
  - intros a. pose proof (part_index (Z.of_nat (S below)) a ltac:(lia)) as Hi. cbn [leaf]. by rewrite Hz.
  - intros i Hi. cbv zeta. by rewrite Hz' by lia.
Qed.

Definition opening (t i : Z) (s : Vm) : Z * Vm :=
  let (c, s0) := set_new_page_table t i s in (c, put_entry t i (set_writable true (entry s0 t i)) s0).

Lemma writable_entry e : present (set_writable true e) = present e /\ get_next_level_table (set_writable true e) = get_next_level_table e /\
  huge_page (set_writable true e) = huge_page e.
Proof. unfold set_writable, present, huge_page. rewrite next_set_flag, !testbit_set_flag by lia. done. Qed.

(** The subtree below an entry is not touched by writes to the table. *)
Lemma subtree_kept below c s s1 ts : growable (S below) c 0 s -> only_frames ts (ram s) (ram s1) -> (forall x, x ∈ tables (S below) (ram s) c 0 -> x ∉ ts) ->
  vm_ok s1 -> avail s1 ⊆ avail s -> NoDup (avail s1) /\ Forall page_addr (avail s1) ->
  tables (S below) (ram s1) c 0 = tables (S below) (ram s) c 0 /\ (forall a, leaf (S below) (ram s1) c a = leaf (S below) (ram s) c a) /\
  (plain (S below) (ram s) c 0 -> plain (S below) (ram s1) c 0) /\ growable (S below) c 0 s1.
Proof.
  intros [Hok Hr Hs Ht Hsup Ha [Hz Hl]] Hf Hd Hok1 Hsub Hsup1.
  assert (same_on (tables (S below) (ram s) c 0) (ram s) (ram s1)) as Hsame by (apply (only_frames_same ts); [done|by apply tables_aligned|done]).
  destruct (tables_ext (S below) (ram s) (ram s1) c 0 ltac:(lia) Hr Hsame) as [HT _].
  assert (forall a, leaf (S below) (ram s1) c a = leaf (S below) (ram s) c a) as HL.
  { intros a. apply (leaf_ext (S below) _ _ _ 0); [lia|done|apply part_index; lia|done]. }
  split_and!; [done|done|by apply plain_ext; [lia| |]|]. split; [done|done|done|by rewrite HT|done| |split].
  - intros x Hx Hin. rewrite HT in Hx. by apply (Ha x Hx), Hsub.
  - by rewrite HT.
  - intros a e Hp He. rewrite HL in He. by apply (Hl a).
Qed.

Lemma open_spec below t start i s : growable (S (S below)) t start s -> start <= i < 512 ->
  (exists c s1 A, opening t i s = (c, s1) /\ c <> 0 /\ fst (set_new_page_table t i s) = c /\ opened below t start i c s s1 A) \/
  (set_new_page_table t i s = (0, s) /\ avail s = []).
Proof.
  intros Hg Hi. pose proof Hg as [Hok Hr Hs Ht [Hnd Hpg] Hap [Hz0 _]]. assert (index_ok i) as Hii by (unfold index_ok; lia). unfold opening, set_new_page_table.
  destruct (present (entry s t i)) eqn:Hpr.
  - left. set (c := get_next_level_table (entry s t i)). pose proof (subtree_growable below t start i s Hg Hi Hpr) as Hgc. fold c in Hgc. eexists c, _, []. split; [done|].
    assert (tables (S below) (ram s) c 0 = subtables (S below) (ram s) t i) as Hsub. { unfold subtables. unfold entry in Hpr. by rewrite Hpr. }
    assert (c <> 0) as Hc0. { intros E. apply Hz0. rewrite <- E. apply (tables_below below (ram s) t start i); [lia|done|done|apply tables_self]. }
    split; [done|]. split; [done|]. destruct (writable_entry (entry s t i)) as (W1 & W2 & W3).
    assert (t ∉ tables (S below) (ram s) c 0) as Htc by (rewrite Hsub; by apply (subtables_tree below (ram s) t start i)).
    destruct (subtree_kept below c s (put_entry t i (set_writable true (entry s t i)) s) [t] Hgc) as (HT & HL & HP & HG);
      [by apply only_frames_put; [| |left]|by intros x Hx ->%list_elem_of_singleton|by apply vm_ok_put|done|done|].
    split; [by apply vm_ok_put|done|done|by apply only_frames_put; [| |left]| | | | | |done].
    + intros j Hj Hne. rewrite entry_put by done. rewrite Z.eqb_refl. cbn [andb]. by destruct (Z.eqb_spec i j).
    + rewrite entry_put by done. rewrite !Z.eqb_refl. cbn [andb]. by rewrite W1, W2, W3.
    + intros x Hx. rewrite HT, Hsub in Hx. by left.
    + intros a. rewrite HL. unfold subleaf. unfold entry in Hpr. by rewrite Hpr.
    + intros Hp. apply HP. by apply Hp.
  - destruct (avail s) as [|c rest] eqn:Hav; [right; unfold new_page_table; by rewrite Hav|]. left. pose proof Hpg as Hpg'. apply Forall_cons in Hpg as [Hc Hpr']. pose proof Hnd as Hnd'. apply NoDup_cons in Hnd as [Hcn Hndr].
    pose proof (page_addr_al c Hc) as Hca. destruct (new_page_ok s c rest Hav Hc Hok) as (s1 & E & Hok1 & Hregs & Hav1 & Hpg1 & Hf1 & Hz1). rewrite E.
    assert (c <> 0) as Hc0 by (intros ->; by destruct Hc as [[? _] _]). destruct (Z.eqb_spec c 0); [done|]. assert (c <> t) as Hct. { intros ->. apply (Hap t); [apply tables_self|by left]. }
    assert (forall j, index_ok j -> entry s1 t j = entry s t j) as Ht1. { intros j Hj. apply (only_frames_entry [c]); [done|done|done|]. by intros [?|?%not_elem_of_nil]%elem_of_cons. }
    eexists c, _, [c]. split; [done|]. split; [done|]. split; [done|]. rewrite entry_put, !Z.eqb_refl by done. cbn [andb]. rewrite Ht1 by done.
    destruct (linked_entry c (entry s t i) Hc) as (Hnext & Hpres & _ & Hhuge). set (v1 := set_user_accessible true _) in *. destruct (writable_entry v1) as (W1 & W2 & W3). set (v := set_writable true v1) in *.
    set (s2 := put_entry t i v (put_entry t i v1 s1)). assert (vm_ok s2) as Hok2 by (by repeat apply vm_ok_put).
    assert (forall j, index_ok j -> ld (ram s2) (c + 8 * j) = 0) as Hz2.
    { intros j Hj. change (entry s2 c j = 0). unfold s2. rewrite !entry_put by (done || by apply vm_ok_put). destruct (Z.eqb_spec t c); [by destruct Hct|]. by apply Hz1. }
    destruct (zero_table below (ram s2) c Hz2) as (ZT & ZL & ZP).
    assert (forall j, index_ok j -> entry s2 t j = if j =? i then v else entry s t j) as He2.
    { intros j Hj. unfold s2. rewrite !entry_put by (done || by apply vm_ok_put). rewrite Z.eqb_refl, (Z.eqb_sym i j). cbn [andb]. destruct (Z.eqb_spec j i); [done|by apply Ht1]. }
    split; [done|done|by rewrite Hav; cbn [avail s2 put_entry set_ram app]; rewrite Hav1| | | | | |done|].
    + unfold s2. do 2 (eapply only_frames_trans; [|apply only_frames_put; [done|done|by left]]). eapply only_frames_weaken; [exact Hf1|]. intros x ->%list_elem_of_singleton. by right; left.
    + intros j Hj Hne. rewrite He2 by done. by destruct (Z.eqb_spec j i).
    + rewrite He2, Z.eqb_refl by done. by rewrite W1, W2, W3, Hnext, Hpres, Hhuge.
    + intros x Hx. rewrite ZT in Hx. by right.
    + intros a. rewrite ZL. unfold subleaf. unfold entry in Hpr. by rewrite Hpr.
    + split; [done|done|lia|rewrite ZT; apply NoDup_singleton|by change (avail s2) with (avail s1); rewrite Hav1| |split].
      * intros x Hx. rewrite ZT in Hx. apply list_elem_of_singleton in Hx as ->. change (avail s2) with (avail s1). by rewrite Hav1.
      * rewrite ZT. by intros ?%list_elem_of_singleton.
      * intros a e _ He. by rewrite ZL in He.
Qed.

Lemma NoDup_mjoin {A} (f : Z -> list A) l : NoDup l -> (forall i, i ∈ l -> NoDup (f i)) -> (forall i j x, i ∈ l -> j ∈ l -> x ∈ f i -> x ∈ f j -> i = j) -> NoDup (mjoin (f <$> l)).
Proof.
  induction l as [|i l IH]; intros Hl Hf Hd; [constructor|]. apply NoDup_cons in Hl as [Hi Hl]. cbn. apply NoDup_app. split_and!.
  - apply Hf. by left.
  - intros x Hx Hin. apply list_elem_of_join in Hin as (y & Hxy & Hy). apply list_elem_of_fmap in Hy as (j & -> & Hj). apply Hi.
    rewrite (Hd i j x); [done|by left|by right|done|done].
  - apply IH; [done|intros j Hj; apply Hf; by right|intros j k x Hj Hk; apply Hd; by right].
Qed.

Lemma in_subtables below m t start x : 0 <= start -> x ∈ tables (S (S below)) m t start <-> x = t \/ exists j, start <= j < 512 /\ x ∈ subtables (S below) m t j.
Proof.
  intros H0. rewrite tables_eq, elem_of_cons, list_elem_of_join. split.
  - intros [?|(y & Hx & Hy)]; [by left|]. apply list_elem_of_fmap in Hy as (j & -> & Hj). apply elem_indices in Hj; [|done]. right. by exists j.
  - intros [?|(j & Hj & Hx)]; [by left|]. right. exists (subtables (S below) m t j). split; [done|]. apply list_elem_of_fmap. exists j. split; [done|]. by apply elem_indices.
Qed.

Section lift.
Context (below : nat) (w : bool) (t start i c lo hi : Z) (s s1 s2 : Vm) (A0 A L : list Z).
Context (Hg : growable (S (S below)) t start s) (Hi : start <= i < 512).
Context (Hop : opened below t start i c s s1 A0) (G : grown (S below) w c 0 lo hi s1 s2 A L).

Local Abbreviation T := (tables (S (S below)) (ram s) t start).

Lemma lift_sub_i x : x ∈ subtables (S below) (ram s) t i -> x ∈ T.
Proof. intros Hx. apply in_subtables; [apply Hg|]. right. by exists i. Qed.

Lemma lift_avail : avail s = (A0 ++ A) ++ avail s2.
Proof. destruct (op_avail Hop) as [-> _]. by rewrite (gw_avail G), app_assoc. Qed.

Lemma lift_apart x : x ∈ T -> x ∉ A0 ++ A.
Proof. intros Hx Hin. apply (ga_apart _ _ _ _ Hg x Hx). rewrite lift_avail. apply elem_of_app. by left. Qed.

(** Frames that the two steps write. *)
Lemma lift_frames : only_frames (T ++ A0 ++ A) (ram s) (ram s2).
Proof.
  eapply only_frames_trans; [eapply only_frames_weaken; [apply (op_frames Hop)|]|eapply only_frames_weaken; [apply (gw_frames G)|]].
  - intros x [->|Hx]%elem_of_cons; rewrite !elem_of_app; [left; apply tables_self|by right; left].
  - intros x [Hx|Hx]%elem_of_app; rewrite !elem_of_app; [|by right; right]. destruct (op_tables Hop x Hx) as [Hx'|Hx']; [left; by apply lift_sub_i|by right; left].
Qed.

(** The table itself is written by the first step alone. *)
Lemma lift_root : t ∉ tables (S below) (ram s1) c 0 ++ A.
Proof.
  pose proof Hg as [_ _ Hs Ht _ _ _]. intros [Hin|Hin]%elem_of_app.
  - destruct (op_tables Hop t Hin) as [Hx|Hx]; [by apply (subtables_tree below (ram s) t start i Hs Ht Hi)|]. apply (lift_apart t); [apply tables_self|apply elem_of_app; by left].
  - apply (lift_apart t); [apply tables_self|apply elem_of_app; by right].
Qed.

Lemma lift_entry j : index_ok j -> entry s2 t j = entry s1 t j.
Proof. intros Hj. apply (only_frames_entry _ s1 s2 t j (gw_frames G)); [apply Hg|done|exact lift_root]. Qed.

(** What the other entries lead to stays. *)
Lemma lift_other j : start <= j < 512 -> j <> i -> subtables (S below) (ram s2) t j = subtables (S below) (ram s) t j /\
  (forall a, subleaf (S below) (ram s2) t j a = subleaf (S below) (ram s) t j a) /\
  (present (entry s t j) = true -> plain (S below) (ram s) (get_next_level_table (entry s t j)) 0 -> plain (S below) (ram s2) (get_next_level_table (entry s t j)) 0) /\
  entry s2 t j = entry s t j.
Proof.
  intros Hj Hne. pose proof Hg as [_ Hr Hs Ht _ _ _]. assert (index_ok j) as Hjj by (unfold index_ok; lia).
  assert (entry s2 t j = entry s t j) as He by (rewrite lift_entry by done; by apply (op_entries Hop)).
  assert (same_on (subtables (S below) (ram s) t j) (ram s) (ram s2)) as Hsame.
  { intros x Hx. assert (x ∈ T) as HxT by (apply in_subtables; [lia|right; by exists j]). pose proof (subtables_aligned (S below) (ram s) t j) as HF. rewrite Forall_forall in HF. pose proof (HF x Hx) as Hxa.
    assert (x ∉ A0 ++ A) as HxA by (by apply lift_apart). rewrite (gw_frames G x Hxa).
    - apply (op_frames Hop x Hxa). intros [->|?]%elem_of_cons; [|apply HxA, elem_of_app; by left]. by apply (subtables_tree below (ram s) t start j Hs Ht Hj).
    - intros [Hin|?]%elem_of_app; [|apply HxA, elem_of_app; by right]. destruct (op_tables Hop x Hin) as [Hxi|?]; [|apply HxA, elem_of_app; by left].
      by apply (subtables_disjoint below (ram s) t start i j (proj1 Hs) Ht Hi Hj (not_eq_sym Hne) x). }
  destruct (sub_ext (S below) (ram s) (ram s2) t j Hr He Hsame) as [HT _]. unfold subtables in Hsame. change (ld (ram s) (t + 8 * j)) with (entry s t j) in Hsame.
  split_and!; [done| | |done].
  - intros a. unfold subleaf. change (ld (ram s2) (t + 8 * j)) with (entry s2 t j). change (ld (ram s) (t + 8 * j)) with (entry s t j). rewrite He.
    destruct (present (entry s t j)); [|done]. cbv zeta. cbn [negb]. apply (leaf_ext (S below) _ _ _ 0); [lia|apply next_aligned|apply part_index; lia|done].
  - intros Hp Hpl. rewrite Hp in Hsame. apply (plain_ext (S below) (ram s)); [lia|apply next_aligned|done|done].
Qed.

Lemma lift_here : subtables (S below) (ram s2) t i = tables (S below) (ram s2) c 0 /\ (forall a, subleaf (S below) (ram s2) t i a = leaf (S below) (ram s2) c a) /\
  huge_page (entry s2 t i) = huge_page (entry s t i).
Proof.
  destruct (op_entry Hop) as (Hp & Hn & Hh). assert (index_ok i) as Hii by (pose proof (ga_start _ _ _ _ Hg); unfold index_ok; lia).
  unfold subtables, subleaf. change (ld (ram s2) (t + 8 * i)) with (entry s2 t i). rewrite lift_entry by done. cbv zeta. by rewrite Hp, Hn.
Qed.

(** The tables of the new tree. *)
Lemma lift_in x : x ∈ tables (S (S below)) (ram s2) t start -> x = t \/ (exists j, start <= j < 512 /\ j <> i /\ x ∈ subtables (S below) (ram s) t j) \/ x ∈ tables (S below) (ram s2) c 0.
Proof.
  intros Hx. apply in_subtables in Hx; [|apply Hg]. destruct Hx as [?|(j & Hj & Hx)]; [by left|]. right. destruct (decide (j = i)) as [->|Hne].
  - right. by rewrite (proj1 lift_here) in Hx.
  - left. exists j. rewrite (proj1 (lift_other j Hj Hne)) in Hx. done.
Qed.

(** The new subtree lies in the old one and the pages taken. *)
Lemma lift_sub x : x ∈ tables (S below) (ram s2) c 0 -> x ∈ subtables (S below) (ram s) t i \/ (x ∈ A0 ++ A /\ (x ∉ L)).
Proof.
  pose proof (proj1 (ga_supply _ _ _ _ Hg)) as Hnd. rewrite lift_avail in Hnd. apply NoDup_app in Hnd as (Hnd & _ & _). apply NoDup_app in Hnd as (_ & Hd & _).
  intros Hx. destruct (gw_tables G x Hx) as [Hx1|[Hx1 Hx2]]; [|right; split; [apply elem_of_app; by right|done]]. destruct (op_tables Hop x Hx1) as [?|Hx2]; [by left|].
  right. split; [apply elem_of_app; by left|]. intros Hin. apply (Hd x Hx2). by apply (gw_data G).
Qed.

Lemma lift_tree : NoDup (tables (S (S below)) (ram s2) t start).
Proof.
  pose proof Hg as [_ _ Hs Ht _ _ _]. rewrite tables_eq. apply NoDup_cons. split.
  - intros Hin. apply list_elem_of_join in Hin as (y & Hxy & Hy). apply list_elem_of_fmap in Hy as (j & -> & Hj). apply elem_indices in Hj; [|lia].
    destruct (decide (j = i)) as [->|Hne].
    + rewrite (proj1 lift_here) in Hxy. destruct (lift_sub t Hxy) as [?|[? _]]; [by apply (subtables_tree below (ram s) t start i Hs Ht Hi)|]. apply (lift_apart t); [apply tables_self|done].
    + rewrite (proj1 (lift_other j Hj Hne)) in Hxy. by apply (subtables_tree below (ram s) t start j Hs Ht Hj).
  - apply NoDup_mjoin; [apply NoDup_seqZ| |].
    + intros j Hj. apply elem_indices in Hj; [|lia]. destruct (decide (j = i)) as [->|Hne]; [rewrite (proj1 lift_here); apply G|].
      rewrite (proj1 (lift_other j Hj Hne)). by apply (subtables_tree below (ram s) t start j Hs Ht Hj).
    + assert (forall j x, start <= j < 512 -> j <> i -> x ∈ subtables (S below) (ram s) t j -> x ∉ tables (S below) (ram s2) c 0) as Hdis.
      { intros j x Hj Hne Hx Hin. destruct (lift_sub x Hin) as [Hx'|[Hx' _]].
        - by apply (subtables_disjoint below (ram s) t start j i (proj1 Hs) Ht Hj Hi Hne x).
        - apply (lift_apart x); [apply in_subtables; [lia|right; by exists j]|done]. }
      intros j k x Hj Hk Hxj Hxk. apply elem_indices in Hj, Hk; [|lia..]. destruct (decide (j = i)) as [->|Hne], (decide (k = i)) as [->|Hne']; [done| | |].
      * rewrite (proj1 lift_here) in Hxj. rewrite (proj1 (lift_other k Hk Hne')) in Hxk. by destruct (Hdis k x Hk Hne' Hxk).
      * rewrite (proj1 lift_here) in Hxk. rewrite (proj1 (lift_other j Hj Hne)) in Hxj. by destruct (Hdis j x Hj Hne Hxj).
      * rewrite (proj1 (lift_other j Hj Hne)) in Hxj. rewrite (proj1 (lift_other k Hk Hne')) in Hxk. destruct (decide (j = k)) as [|Hjk]; [done|].
        by destruct (subtables_disjoint below (ram s) t start j k (proj1 Hs) Ht Hj Hk Hjk x).
Qed.

(** Growing the subtree grows the tree. *)
Lemma grown_lift : 0 <= lo -> hi <= 512 ^ Z.of_nat (S below) ->
  grown (S (S below)) w t start (i * 512 ^ Z.of_nat (S below) + lo) (i * 512 ^ Z.of_nat (S below) + hi) s s2 (A0 ++ A) L.
Proof.
  intros Hlo Hhi. pose proof Hg as [_ _ Hs _ _ _ _]. destruct lift_here as (_ & Hlf & Hhg).
  assert (forall a, part (Z.of_nat (S (S below))) a = i -> leaf (S (S below)) (ram s2) t a = leaf (S below) (ram s2) c a /\ leaf (S (S below)) (ram s) t a = leaf (S below) (ram s1) c a) as Hin.
  { intros a Ha. rewrite !leaf_sub, Ha, Hlf, (op_leaf Hop). done. }
  assert (forall a, 0 <= part (Z.of_nat (S below)) a) as Hp0 by (intros a; apply part_index; lia).
  split.
  - apply G.
  - destruct (proj1 (op_regs Hop)), (gw_regs G). split; congruence.
  - exact lift_avail.
  - intros x Hx. apply elem_of_app. right. by apply (gw_data G).
  - exact lift_frames.
  - exact lift_tree.
  - intros x Hx. destruct (lift_in x Hx) as [->|[(j & Hj & Hne & Hx')|Hx']]; [left; apply tables_self|left; apply in_subtables; [lia|right; by exists j]|].
    destruct (lift_sub x Hx') as [?|?]; [left; by apply lift_sub_i|by right].
  - apply G.
  - intros a Hpa Hra Hn. apply vpn_entry in Hra as [Hi' Hra]; [|done|done]. destruct (Hin a Hi') as [-> E]. rewrite E in Hn. by apply (gw_new G).
  - intros a e Hpa Hra Hn. apply vpn_entry in Hra as [Hi' Hra]; [|done|done]. destruct (Hin a Hi') as [-> E]. rewrite E in Hn. by apply (gw_old G).
  - intros a Hpa Hra. rewrite vpn_entry in Hra by done. pose proof (part_index (Z.of_nat (S (S below))) a ltac:(lia)) as Hpi. unfold index_ok in Hpi.
    destruct (decide (part (Z.of_nat (S (S below))) a = i)) as [Hi'|Hne].
    + destruct (Hin a Hi') as [-> ->]. apply (gw_out G); [done|naive_solver].
    + rewrite !leaf_sub. by destruct (lift_other (part (Z.of_nat (S (S below))) a) ltac:(lia) Hne) as (_ & -> & _).
  - intros a b ea eb Hpa Hpb Hra Hrb Ha0 Hb0 Ha1 Hb1 He. apply vpn_entry in Hra as [Hia Hra]; [|done|done]. apply vpn_entry in Hrb as [Hib Hrb]; [|done|done].
    destruct (Hin a Hia) as [Ea Ea']. destruct (Hin b Hib) as [Eb Eb']. rewrite Ea in Ha1. rewrite Ea' in Ha0. rewrite Eb in Hb1. rewrite Eb' in Hb0.
    pose proof (gw_inj G a b ea eb (Hp0 a) (Hp0 b) Hra Hrb Ha0 Hb0 Ha1 Hb1 He) as Hv. cbn [vpn] in Hv |- *. rewrite Hia, Hib. lia.
  - intros Hpl j Hj. destruct (decide (j = i)) as [->|Hne].
    + destruct (op_entry Hop) as (Hp & Hnx & _). assert (index_ok i) as Hii by (unfold index_ok; lia). change (ld (ram s2) (t + 8 * i)) with (entry s2 t i). cbv zeta. rewrite Hhg.
      destruct (Hpl i Hi) as [Hh Hb]. split; [done|]. rewrite lift_entry by done. intros _. rewrite Hnx. apply (gw_plain G), (op_plain Hop). exact Hb.
    + destruct (lift_other j Hj Hne) as (_ & _ & Hpj & He). change (ld (ram s2) (t + 8 * j)) with (entry s2 t j). cbv zeta. rewrite He. destruct (Hpl j Hj) as [Hh Hb].
      split; [done|]. intros Hp. apply (Hpj Hp). exact (Hb Hp).
  - intros j Hj Hlt. rewrite lift_entry by done. apply (op_entries Hop); [done|lia].
  - rewrite (gw_pages G). by rewrite (proj2 (op_regs Hop)).
Qed.
End lift.

(** ** The whole routine *)

(** [j] pages of [n] were mapped from page [lo] on, [room] is where the table ends; on
    failure the supply is used up. *)
Definition mapped (level : nat) (w : bool) (t start lo room n : Z) (s : Vm) (r : Z) (s' : Vm) : Prop :=
  exists j A L, 0 <= j /\ grown level w t start lo (lo + j) s s' A L /\
    ((r = n - j /\ j = Z.min n room /\ lenz A <= Z.of_nat level * j) \/ (r = -1 /\ avail s' = [] /\ j < n /\ j <= room /\ lenz (avail s) < Z.of_nat level * n)).

Lemma next_entry below a : part (Z.of_nat (S below)) a < 511 ->
  let a' := zero_parts below (set_part (Z.of_nat (S below)) (part (Z.of_nat (S below)) a + 1) a) in
  part (Z.of_nat (S below)) a' = part (Z.of_nat (S below)) a + 1 /\ vpn (S below) a' = (part (Z.of_nat (S below)) a + 1) * 512 ^ Z.of_nat below.
Proof.
  intros Hlt a'. pose proof (part_index (Z.of_nat (S below)) a ltac:(lia)) as Hi. unfold index_ok in Hi.
  assert (part (Z.of_nat (S below)) a' = part (Z.of_nat (S below)) a + 1) as Hp by (unfold a'; rewrite zero_parts_above, part_set_same by lia; done).
  split; [done|]. cbn [vpn]. rewrite Hp. unfold a' at 1. rewrite zero_parts_vpn. lia.
Qed.

(** The loop, when each round does its entry. *)
Lemma rounds_spec below w t start : (forall a n s, growable (S below) t start s -> start <= part (Z.of_nat (S below)) a -> 0 < n < 2 ^ 31 ->
    exists r s', visit below w t a n s = Some (r, s') /\ mapped (S below) w t start (vpn (S below) a) (512 ^ Z.of_nat below - vpn below a) n s r s') ->
  forall fuel a n s, growable (S below) t start s -> start <= part (Z.of_nat (S below)) a -> 0 <= n < 2 ^ 31 -> 512 - part (Z.of_nat (S below)) a <= Z.of_nat fuel ->
  exists r s', rounds below w t fuel a n s = Some (r, s') /\ mapped (S below) w t start (vpn (S below) a) (512 ^ Z.of_nat (S below) - vpn (S below) a) n s r s'.
Proof.
  intros V. induction fuel as [|fuel IH]; intros a n s Hg Hs Hn Hf; pose proof (part_index (Z.of_nat (S below)) a ltac:(lia)) as Hi; unfold index_ok in Hi; [lia|].
  pose proof (pow512_pos below) as HK. pose proof (vpn_range below a) as Hv. cbn [rounds]. destruct (Z.eqb_spec n 0) as [->|Hn0].
  { exists (i32 0), s. split; [done|]. exists 0, [], []. pose proof (vpn_range (S below) a). split; [done|]. rewrite Z.add_0_r. split; [by apply grown_none|]. left. change (i32 0) with 0. change (lenz (@nil Z)) with 0. lia. }
  destruct (V a n s Hg Hs ltac:(lia)) as (r1 & s1 & -> & j1 & A1 & L1 & Hj1 & G1 & Hr1). cbn [mbind option_bind].
  assert (vpn (S below) a = part (Z.of_nat (S below)) a * 512 ^ Z.of_nat below + vpn below a) as Hva by done. rewrite pow512_S.
  destruct Hr1 as [(-> & Hmin & HA)|(-> & Hav & Hlt & Hle & HA)].
  2:{ change (-1 =? -1) with true. cbv iota. exists (-1), s1. split; [done|]. exists j1, A1, L1. split; [done|]. split; [done|]. right. split_and!; [done|done|done|nia|done]. }
  destruct (Z.eqb_spec (n - j1) (-1)); [lia|]. assert (u64 (n - j1) = n - j1) as -> by (apply wrap_small; lia).
  assert (i32 (n - j1) = n - j1) as Hi32. { unfold signed. rewrite wrap_small by lia. change (2 ^ (32 - 1)) with (2 ^ 31). destruct (Z.ltb_spec (n - j1) (2 ^ 31)); lia. }
  destruct (Z.eqb_spec (part (Z.of_nat (S below)) a) 511) as [Hlast|Hlast].
  { rewrite Hi32. exists (n - j1), s1. split; [done|]. exists j1, A1, L1. split; [done|]. split; [done|]. left. rewrite Hva, Hlast. lia. }
  destruct (Z.eq_dec n j1) as [->|Hne].
  { exists 0, s1. rewrite Z.sub_diag. split; [by destruct fuel|]. exists j1, A1, L1. split; [done|]. split; [done|]. left. split_and!; [lia|nia|done]. }
  destruct (next_entry below a ltac:(lia)) as [Hp' Hv']. set (a' := zero_parts _ _) in *. pose proof (growable_next _ _ _ _ _ _ _ _ _ _ Hg G1) as Hg1.
  destruct (IH a' (n - j1) s1 Hg1 ltac:(lia) ltac:(lia) ltac:(lia)) as (r2 & s2 & -> & j2 & A2 & L2 & Hj2 & G2 & Hr2). exists r2, s2. split; [done|].
  assert (vpn (S below) a' = vpn (S below) a + j1) as Hmid by lia. rewrite Hmid in G2, Hr2. rewrite pow512_S in Hr2.
  exists (j1 + j2), (A1 ++ A2), (L1 ++ L2). split; [lia|]. rewrite Z.add_assoc. split; [apply (grown_trans _ _ _ _ _ (vpn (S below) a + j1) _ _ s1); [done|lia|done|done]|].
  rewrite lenz_app. destruct Hr2 as [(-> & Hm2 & HA2)|(-> & Hav2 & Hlt2 & Hle2 & HA2)].
  - left. split_and!; [lia|lia|nia].
  - right. split_and!; [done|done|lia|lia|]. rewrite (gw_avail G1), lenz_app. nia.
Qed.

(** A round above the last level, when the level below does its part. *)
Lemma visit_upper below w t start a n s : (forall c s, growable (S below) c 0 s -> exists r s', setup_page_table (S below) w c a n s = Some (r, s') /\
    mapped (S below) w c 0 (vpn (S below) a) (512 ^ Z.of_nat (S below) - vpn (S below) a) n s r s') ->
  growable (S (S below)) t start s -> start <= part (Z.of_nat (S (S below))) a -> 0 < n ->
  exists r s', visit (S below) w t a n s = Some (r, s') /\ mapped (S (S below)) w t start (vpn (S (S below)) a) (512 ^ Z.of_nat (S below) - vpn (S below) a) n s r s'.
Proof.
  intros IH Hg Hs Hn. pose proof (part_index (Z.of_nat (S (S below))) a ltac:(lia)) as Hi. unfold index_ok in Hi. pose proof (vpn_range (S below) a) as Hv.
  assert (vpn (S (S below)) a = part (Z.of_nat (S (S below))) a * 512 ^ Z.of_nat (S below) + vpn (S below) a) as Hva by done. set (i := part (Z.of_nat (S (S below))) a) in *. unfold visit. fold i.
  destruct (open_spec below t start i s Hg ltac:(lia)) as [(c & s1 & A0 & E & Hc & Ec & Hop)|[E Hav]].
  - unfold opening in E. destruct (set_new_page_table t i s) as [c' s0]. cbn [fst] in Ec. subst c'. apply (f_equal snd) in E. cbn [snd] in E. rewrite E. destruct (Z.eqb_spec c 0); [done|].
    destruct (IH c s1 (op_growable Hop)) as (r & s2 & -> & j & A & L & Hj & G & Hr). exists r, s2. split; [done|].
    exists j, (A0 ++ A), L. split; [done|]. rewrite Hva, <- Z.add_assoc. destruct (op_avail Hop) as [Hav HA0]. split.
    + eapply grown_lift; [done|lia|done|done|lia|]. destruct Hr as [(_ & -> & _)|(_ & _ & _ & ? & _)]; lia.
    + rewrite lenz_app. destruct Hr as [(-> & Hm & HA)|(-> & Hav2 & Hlt & Hle & HA)]; [left|right].
      * split_and!; [done|done|]. assert (1 <= j) by lia. nia.
      * split_and!; [done|done|done|done|]. rewrite Hav, lenz_app. nia.
  - rewrite E. change (0 =? 0) with true. cbv iota. exists (-1), s. split; [done|]. exists 0, [], []. split; [done|]. rewrite Z.add_0_r. split; [by apply grown_none|]. right.
    rewrite Hav. change (lenz (@nil Z)) with 0. split_and!; [done|done|lia|lia|nia].
Qed.

Lemma setup_spec level : forall w t start a n s, growable (S level) t start s -> start <= part (Z.of_nat (S level)) a -> 0 <= n < 2 ^ 31 ->
  exists r s', setup_page_table (S level) w t a n s = Some (r, s') /\ mapped (S level) w t start (vpn (S level) a) (512 ^ Z.of_nat (S level) - vpn (S level) a) n s r s'.
Proof.
  induction level as [|below IH]; intros w t start a n s Hg Hs Hn; rewrite setup_rounds.
  - apply rounds_spec; [|done|done|done|change (Z.of_nat TABLE_ROUNDS) with 512; pose proof (part_index (Z.of_nat 1) a ltac:(lia)) as Hi; unfold index_ok in Hi; lia].
    clear a n s Hg Hs Hn. intros a n s Hg Hs Hn. change (512 ^ Z.of_nat 0 - vpn 0 a) with 1. destruct (visit_leaf w t start a n s Hg Hs) as [(s' & A & L & E & G & HA)|[E Hav]].
    + exists (n - 1), s'. split; [done|]. exists 1, A, L. split; [done|]. split; [done|]. left. split_and!; lia.
    + exists (-1), s. split; [done|]. exists 0, [], []. split; [done|]. rewrite Z.add_0_r. split; [by apply grown_none|]. right. rewrite Hav. change (lenz (@nil Z)) with 0. split_and!; [done|done|lia|lia|lia].
  - apply rounds_spec; [|done|done|done|change (Z.of_nat TABLE_ROUNDS) with 512; pose proof (part_index (Z.of_nat (S (S below))) a ltac:(lia)) as Hi; unfold index_ok in Hi; lia].
    clear a n s Hg Hs Hn. intros a n s Hg Hs Hn. apply visit_upper; [|done|done|lia]. intros c s' Hc. apply IH; [done|apply part_index; lia|lia].
Qed.
