(* ===== verification/Elf.v ===== *)
(** * Loading programs

    [kernel/elf.hpp] and [elf.cpp]: the checks on an executable file, its segments
    copied into the active address space, the arguments, and the entry to user
    mode.  The file is a buffer of the kernel, whose addresses are physical
    addresses; the segments are written through the page tables, and a write to
    an address that is not mapped is a fault. *)

From S2P Require Import Prelude Message Pages Paging.

Open Scope Z_scope.

(** ** Bytes *)

(** A byte of physical memory. *)
Definition ldb (m : Frames) (p : Z) : Z := ld m (p - p mod 8) / 2 ^ (8 * (p mod 8)) mod 256.
Definition put_byte (k b word : Z) : Z := set_field (8 * k) 8 b word.
Definition stb (p b : Z) (m : Frames) : Frames := st (p - p mod 8) (put_byte (p mod 8) b (ld m (p - p mod 8))) m.

(** Little-endian numbers of [n] bytes. *)
Fixpoint ld_le (n : nat) (m : Frames) (p : Z) : Z :=
  match n with
  | O => 0
  | S n => ldb m p + 256 * ld_le n m (p + 1)
  end.

(** A byte at a virtual address of the active address space. *)
Definition paddr (s : Vm) (a : Z) : option Z := p ← translate s (u64 a); Some (p + u64 a mod PAGE_SIZE).
Definition vload (s : Vm) (a : Z) : option Z := p ← paddr s a; Some (ldb (ram s) p).
Definition vstore (a b : Z) (s : Vm) : option Vm := p ← paddr s a; Some (set_ram (stb p b (ram s)) s).

(** [memcpy] from the kernel, [memset] to zero, and a 64-bit store. *)
Definition copy_out (dest src n : Z) (s : Vm) : option Vm :=
  for_n (Z.to_nat n) 0 (fun i s => vstore (dest + i) (ldb (ram s) (u64 (src + i))) s) s.
Definition zero_out (dest n : Z) (s : Vm) : option Vm := for_n (Z.to_nat n) 0 (fun i s => vstore (dest + i) 0 s) s.
Fixpoint write_bytes (dest : Z) (l : list Z) (s : Vm) : option Vm :=
  match l with
  | [] => Some s
  | b :: l => s ← vstore dest b s; write_bytes (dest + 1) l s
  end.
Definition store_pointer (dest v : Z) (s : Vm) : option Vm := write_bytes dest ((fun k => v / 2 ^ (8 * k) mod 256) <$> seqZ 0 8) s.

(** ** Headers *)

Definition ET_EXEC : Z := 2.
Definition PT_LOAD : Z := 1.

Record elf64_ehdr_t := mkEhdr {
  e_ident : list Z;
  e_type : Z;
  e_entry : Z;
  e_phoff : Z;
  e_phnum : Z;
}.
Definition read_ehdr (m : Frames) (a : Z) : elf64_ehdr_t :=
  mkEhdr ((fun i => ldb m (a + i)) <$> seqZ 0 16) (ld_le 2 m (a + 16)) (ld_le 8 m (a + 24)) (ld_le 8 m (a + 32)) (ld_le 2 m (a + 56)).

Record elf64_phdr_t := mkPhdr {
  p_type : Z;
  p_offset : Z;
  p_vaddr : Z;
  p_filesz : Z;
  p_memsz : Z;
}.
Definition sizeof_phdr : Z := 56.
Definition read_phdr (m : Frames) (a : Z) : elf64_phdr_t :=
  mkPhdr (ld_le 4 m a) (ld_le 8 m (a + 8)) (ld_le 8 m (a + 16)) (ld_le 8 m (a + 32)) (ld_le 8 m (a + 40)).

(** [get_program_header(elf_header)[i]] *)
Definition get_program_header (m : Frames) (elf_header i : Z) : elf64_phdr_t :=
  read_phdr m (u64 (elf_header + e_phoff (read_ehdr m elf_header) + i * sizeof_phdr)).

(** ** Loading *)

Fixpoint first_load (n : nat) (i : Z) (m : Frames) (elf_header : Z) : Z :=
  match n with
  | O => 0
  | S n =>
      let ph := get_program_header m elf_header i in
      if p_type ph =? PT_LOAD then p_vaddr ph else first_load n (i + 1) m elf_header
  end.
Definition get_first_load_addr (m : Frames) (elf_header : Z) : Z := first_load (Z.to_nat (e_phnum (read_ehdr m elf_header))) 0 m elf_header.

Definition is_elf (m : Frames) (elf_header : Z) : bool := bool_decide (take 4 (e_ident (read_ehdr m elf_header)) = [0x7f; 0x45; 0x4c; 0x46]).

(** One segment: its pages, its bytes from the file and zeros behind them. *)
Definition load_segment (elf_header : Z) (ph : elf64_phdr_t) (s : Vm) : option (Z * Vm) :=
  let num_pages := u64 (p_memsz ph + PAGE_SIZE - 1) / PAGE_SIZE in
  '(e, s) ← setup_page_tables (p_vaddr ph) num_pages true s;
  if IS_ERR e then Some (e, s)
  else
    s ← copy_out (p_vaddr ph) (elf_header + p_offset ph) (p_filesz ph) s;
    s ← zero_out (p_vaddr ph + p_filesz ph) (u64 (p_memsz ph - p_filesz ph)) s;
    Some (err OK, s).

(** The loop; the headers are read again in every round, and there are less than
    65536 of them. *)
Fixpoint copy_segments (fuel : nat) (i elf_header : Z) (s : Vm) : option (Z * Vm) :=
  if e_phnum (read_ehdr (ram s) elf_header) <=? i then Some (err OK, s)
  else
    match fuel with
    | O => fault
    | S fuel =>
        let ph := get_program_header (ram s) elf_header i in
        if negb (p_type ph =? PT_LOAD) then copy_segments fuel (i + 1) elf_header s
        else '(e, s) ← load_segment elf_header ph s; if IS_ERR e then Some (e, s) else copy_segments fuel (i + 1) elf_header s
    end.
Definition MAX_PHNUM : nat := Z.to_nat 65535.
Definition copy_load_segment (elf_header : Z) (s : Vm) : option (Z * Vm) := copy_segments MAX_PHNUM 0 elf_header s.

Definition load_elf (elf_header : Z) (s : Vm) : option (Z * Vm) :=
  if negb (e_type (read_ehdr (ram s) elf_header) =? ET_EXEC) then Some (err ERR_INVALID_ARG, s)
  else if get_first_load_addr (ram s) elf_header <? 0xffff800000000000 then Some (err ERR_INVALID_ARG, s)
  else copy_load_segment elf_header s.

(** ** Arguments *)

(** The state of [make_args]: [argc] and [arg_buf_index]. *)
Record Args := mkArgs { argc : Z; arg_buf_index : Z }.

(** [strncpy(dest, s, n)]: at most [n] bytes, padded with zeros to [n]. *)
Definition strncpy (dest : Z) (str : list Z) (n : Z) (s : Vm) : option Vm :=
  write_bytes dest (take (Z.to_nat n) (str ++ replicate (Z.to_nat n) 0)) s.

Section args.
Context (argv argv_len arg_buf arg_buf_len : Z).

Definition push_to_argv (str : list Z) (a : Args) (s : Vm) : option (Args * Vm) :=
  if (argv_len <=? argc a) || (arg_buf_len <=? arg_buf_index a) then Some (a, s)
  else
    s ← store_pointer (argv + 8 * argc a) (arg_buf + arg_buf_index a) s;
    s ← strncpy (arg_buf + arg_buf_index a) str (arg_buf_len - arg_buf_index a) s;
    Some (mkArgs (argc a + 1) (arg_buf_index a + lenz str + 1), s).

Fixpoint skip_spaces (p : list Z) : list Z := match p with c :: p' => if c =? 32 then skip_spaces p' else p | [] => [] end.
Fixpoint split_word (p : list Z) : list Z * list Z :=
  match p with
  | [] => ([], [])
  | c :: p' => if c =? 32 then ([], p) else let (arg, rest) := split_word p' in (c :: arg, rest)
  end.

(** The outer loop over the bytes of the string; each round consumes a byte. *)
Fixpoint scan_args (fuel : nat) (p : list Z) (a : Args) (s : Vm) : option (Args * Vm) :=
  match fuel with
  | O => fault
  | S fuel =>
      let p := skip_spaces p in
      match p with
      | [] => Some (a, s)
      | _ =>
          let (arg, rest) := split_word p in
          '(a, s) ← push_to_argv arg a s;
          match rest with
          | [] => Some (a, s)
          | _ :: rest => scan_args fuel rest a s
          end
      end
  end.

(** [args] without its terminator, or [None] for a null pointer. *)
Definition make_args (command : list Z) (args : option (list Z)) (s : Vm) : option (Z * Vm) :=
  '(a, s) ← push_to_argv command (mkArgs 0 0) s;
  match args with
  | None => Some (argc a, s)
  | Some p => '(a, s) ← scan_args (S (length p)) p a s; Some (argc a, s)
  end.
End args.

(** ** Execution *)

Definition ARGV_ADDR : Z := 0xfffffffffffff000.
Definition ARG_V_LEN : Z := 32.
Definition STACK_SIZE : Z := PAGE_SIZE * 8.
Definition STACK_ADDR : Z := 0xfffffffffffff000 - STACK_SIZE.
Definition USER_HEAP_BASE : Z := 0xffffa00000000000.
Definition USER_HEAP_SIZE : Z := 1024 * 1024.

(** The arguments of [enter_user_mode], which does not return. *)
Record UserEntry := mkEnter { ue_argc : Z; ue_argv : Z; ue_rip : Z; ue_rsp : Z }.

(** [None] inside when the function returns to its caller; the file buffer is free
    in all cases. *)
Definition exec_elf (buffer : Z) (name : list Z) (args : option (list Z)) (s : Vm) : option (option UserEntry * Vm) :=
  if negb (is_elf (ram s) buffer) then Some (None, s)
  else
    '(e, s) ← load_elf buffer s;
    if IS_ERR e then Some (None, s)
    else
      let elf_entry := e_entry (read_ehdr (ram s) buffer) in
      '(e, s) ← setup_page_tables ARGV_ADDR 1 true s;
      if IS_ERR e then Some (None, s)
      else
        let arg_buf := ARGV_ADDR + ARG_V_LEN * 8 in
        '(n, s) ← make_args ARGV_ADDR ARG_V_LEN arg_buf (PAGE_SIZE - ARG_V_LEN * 8) name args s;
        '(e, s) ← setup_page_tables STACK_ADDR (STACK_SIZE / PAGE_SIZE) true s;
        if IS_ERR e then Some (None, s)
        else
          '(e, s) ← setup_page_tables USER_HEAP_BASE (USER_HEAP_SIZE / PAGE_SIZE) true s;
          if IS_ERR e then Some (None, s)
          else Some (Some (mkEnter n ARGV_ADDR elf_entry (STACK_ADDR + STACK_SIZE - 8)), s).
