(* ===== verification/ElfProofs.v ===== *)
(** * Loading programs: bytes, address spaces and segments

    Bytes of physical memory against frames, writing data through the page tables, and
    one segment of an executable in the active address space. *)

From S2P Require Import Prelude Message Pages Paging PagingProofs PagingTree PagingFork PagingFault PagingMap Elf.

Open Scope Z_scope.

(** ** Bytes of physical memory *)

Definition page_of (p : Z) : Z := p / PAGE_SIZE * PAGE_SIZE.

Lemma page_of_aligned p : aligned (page_of p).
Proof. unfold aligned, page_of. by apply Z.mod_mul. Qed.

Lemma byte_place p : p - p mod 8 = page_of p + 8 * (p mod PAGE_SIZE / 8) /\ index_ok (p mod PAGE_SIZE / 8) /\ 0 <= p mod 8 < 8.
Proof.
  unfold page_of, index_ok, PAGE_SIZE. pose proof (Z.div_mod p 4096 ltac:(lia)). pose proof (Z.mod_pos_bound p 4096 ltac:(lia)). pose proof (Z.mod_pos_bound p 8 ltac:(lia)).
  assert (p mod 8 = p mod 4096 mod 8) as E by (change 4096 with (8 * 512); rewrite Z.rem_mul_r by lia; rewrite Z.mul_comm, Z.mod_add by lia; by rewrite Z.mod_mod by lia).
  pose proof (Z.div_mod (p mod 4096) 8 ltac:(lia)). split_and!; lia.
Qed.

(** Two bytes with the same word and place are the same. *)
Lemma byte_unique p q : page_of p = page_of q -> p mod PAGE_SIZE / 8 = q mod PAGE_SIZE / 8 -> p mod 8 = q mod 8 -> p = q.
Proof. intros H1 H2 H3. destruct (byte_place p) as (Ep & _). destruct (byte_place q) as (Eq & _). lia. Qed.

Lemma ldb_entry m p : ldb m p = field (8 * (p mod 8)) 8 (ld m (page_of p + 8 * (p mod PAGE_SIZE / 8))).
Proof. destruct (byte_place p) as (E & _ & Hk). unfold ldb. rewrite E, field_mod by lia. done. Qed.

Lemma ldb_stb p b m q : ram_ok m -> 0 <= b < 256 -> ldb (stb p b m) q = if q =? p then b else ldb m q.
Proof.
  intros Hm Hb. destruct (byte_place p) as (Ep & Hip & Hkp). destruct (byte_place q) as (Eq & Hiq & Hkq). rewrite !ldb_entry. unfold stb. rewrite Ep.
  rewrite ld_st by (done || apply page_of_aligned). destruct (Z.eqb_spec q p) as [->|Hne].
  - rewrite !Z.eqb_refl. cbn [andb]. unfold put_byte. rewrite field_set_same by lia. by apply Z.mod_small.
  - destruct (Z.eqb_spec (page_of p) (page_of q)) as [E1|]; [|done]. destruct (Z.eqb_spec (p mod PAGE_SIZE / 8) (q mod PAGE_SIZE / 8)) as [E2|]; [|done]. cbn [andb].
    unfold put_byte. rewrite field_set_other; [by rewrite E1, E2|lia|lia|lia|lia|]. destruct (Z.eq_dec (p mod 8) (q mod 8)) as [E3|]; [|lia]. by destruct Hne; apply byte_unique.
Qed.

Lemma ram_ok_stb p b m : ram_ok m -> ram_ok (stb p b m).
Proof. intros Hm. destruct (byte_place p) as (E & Hi & _). unfold stb. rewrite E. apply ram_ok_st; [done|apply page_of_aligned|done]. Qed.

Lemma only_frames_stb p b m : only_frames [page_of p] m (stb p b m).
Proof.
  destruct (byte_place p) as (E & Hi & _). unfold stb. rewrite E. intros x Hx Hn. rewrite st_entry, frame_insert by (done || apply page_of_aligned).
  destruct (Z.eqb_spec (x / PAGE_SIZE) (page_of p / PAGE_SIZE)) as [He|]; [|done]. apply aligned_eq in He as ->; [|done|apply page_of_aligned]. by destruct Hn; left.
Qed.

(** A byte depends on its frame alone. *)
Lemma ldb_frame m m' p : frame m' (page_of p / PAGE_SIZE) = frame m (page_of p / PAGE_SIZE) -> ldb m' p = ldb m p.
Proof. intros H. destruct (byte_place p) as (_ & Hi & _). rewrite !ldb_entry, !ld_entry by (done || apply page_of_aligned). by rewrite H. Qed.

Lemma ldb_range m p : 0 <= ldb m p < 256.
Proof. unfold ldb. apply Z.mod_pos_bound. lia. Qed.

Lemma page_of_offset p o : aligned p -> 0 <= o < PAGE_SIZE -> page_of (p + o) = p /\ (p + o) mod PAGE_SIZE = o.
Proof.
  unfold aligned, page_of, PAGE_SIZE. intros Hp Ho. pose proof (Z.div_mod p 4096 ltac:(lia)). assert ((p + o) / 4096 = p / 4096) as -> by (symmetry; apply (Z.div_unique _ _ _ o); lia).
  split; [lia|]. symmetry. apply (Z.mod_unique _ _ (p / 4096)); lia.
Qed.

Lemma ldb_zero m p : frame m (page_of p / PAGE_SIZE) = zero_frame -> ldb m p = 0.
Proof.
  intros H. destruct (byte_place p) as (_ & Hi & Hk). rewrite ldb_entry, ld_entry by (done || apply page_of_aligned). rewrite H. unfold zero_frame, index_ok in *.
  rewrite lookup_total_replicate_2 by lia. rewrite field_mod by lia. rewrite Z.div_0_l by (apply Z.pow_nonzero; lia). done.
Qed.

(** ** User addresses *)

Definition USER_BASE : Z := 0xffff800000000000.
Definition user (a : Z) : Prop := USER_BASE <= a < 2 ^ 64.

Lemma user_part a : user a -> 256 <= part 4 a.
Proof.
  unfold user, USER_BASE. intros Ha. change 4 with (Z.of_nat 4). rewrite part_mod. unfold PAGE_SIZE. change (512 ^ Z.of_nat 3) with 134217728. rewrite Z.div_div by lia. change (4096 * 134217728) with 549755813888.
  assert (33554176 <= a / 549755813888 < 33554432) as H by (split; [apply Z.div_le_lower_bound; lia|apply Z.div_lt_upper_bound; lia]).
  rewrite (Z.mod_eq (a / 549755813888) 512) by lia. assert (a / 549755813888 / 512 = 65535) as -> by (symmetry; apply (Z.div_unique _ _ _ (a / 549755813888 - 65535 * 512)); lia). lia.
Qed.

(** The page number of a user address. *)
Definition upage (a : Z) : Z := a / PAGE_SIZE - (2 ^ 52 - 2 ^ 36).

Lemma user_vpn a : user a -> vpn 4 a = upage a /\ 2 ^ 35 <= upage a < 2 ^ 36.
Proof.
  unfold user, USER_BASE, upage. intros Ha. rewrite vpn_mod. unfold PAGE_SIZE. change (512 ^ Z.of_nat 4) with 68719476736.
  assert (4503565267632128 <= a / 4096 < 4503599627370496) as H by (split; [apply Z.div_le_lower_bound; lia|apply Z.div_lt_upper_bound; lia]).
  split; [|lia]. symmetry. apply (Z.mod_unique _ _ 65535); lia.
Qed.

(** ** Address spaces *)

(** A program's address space: a tree of tables and fresh pages to extend it, and
    every mapped page has a frame of its own the program may read and write. *)
Record space (s : Vm) : Prop := mkSpace {
  sp_tree : growable 4 (cr3 s) 256 s;
  sp_plain : plain 4 (ram s) (cr3 s) 256;
  sp_data : forall a e, 256 <= part 4 a -> leaf 4 (ram s) (cr3 s) a = Some e ->
    page_addr (get_next_level_table e) /\ (get_next_level_table e ∉ tables 4 (ram s) (cr3 s) 256) /\ (get_next_level_table e ∉ avail s) /\
    user_accessible e = true /\ writable e = true;
  sp_inj : forall a b ea eb, 256 <= part 4 a -> 256 <= part 4 b -> leaf 4 (ram s) (cr3 s) a = Some ea -> leaf 4 (ram s) (cr3 s) b = Some eb ->
    get_next_level_table ea = get_next_level_table eb -> vpn 4 a = vpn 4 b;
}.

(** A frame outside the address space and its supply. *)
Definition foreign (s : Vm) (x : Z) : Prop := aligned x /\ (x ∉ tables 4 (ram s) (cr3 s) 256) /\ (x ∉ avail s) /\
  forall a e, 256 <= part 4 a -> leaf 4 (ram s) (cr3 s) a = Some e -> get_next_level_table e <> x.

(** Foreign frames, the root and the kernel's half stay as the space develops. *)
Record evolves (s s' : Vm) : Prop := mkEvolves {
  ev_space : space s';
  ev_root : cr3 s' = cr3 s;
  ev_foreign : forall x, foreign s x -> foreign s' x /\ frame (ram s') (x / PAGE_SIZE) = frame (ram s) (x / PAGE_SIZE);
  ev_kernel : freed s' = freed s /\ forall i, 0 <= i < 256 -> entry s' (cr3 s) i = entry s (cr3 s) i;
}.

Lemma evolves_refl s : space s -> evolves s s.
Proof. intros H. by split. Qed.

Lemma evolves_trans s1 s2 s3 : evolves s1 s2 -> evolves s2 s3 -> evolves s1 s3.
Proof.
  intros [H1 H2 H3 [H4 H5]] [K1 K2 K3 [K4 K5]]. split; [done|congruence| |].
  - intros x Hx. destruct (H3 x Hx) as [Hx2 E2]. destruct (K3 x Hx2) as [Hx3 E3]. split; [done|congruence].
  - split; [congruence|]. intros i Hi. rewrite <- H5 by done. rewrite <- H2. by apply K5.
Qed.

Section grow.
Context (lo hi : Z) (s s' : Vm) (A L : list Z) (Hs : space s) (G : grown 4 true (cr3 s) 256 lo hi s s' A L).

Lemma grow_root : cr3 s' = cr3 s.
Proof. apply (gw_regs G). Qed.

(** Every page of the new space is a page of the old one or fresh. *)
Lemma grow_leaf a e : 256 <= part 4 a -> leaf 4 (ram s') (cr3 s) a = Some e ->
  (exists e0, leaf 4 (ram s) (cr3 s) a = Some e0 /\ get_next_level_table e = get_next_level_table e0 /\ user_accessible e = user_accessible e0 /\ (writable e = true \/ e = e0)) \/
  (leaf 4 (ram s) (cr3 s) a = None /\ lo <= vpn 4 a < hi /\ new_entry true e /\ get_next_level_table e ∈ L).
Proof.
  intros Ha He. destruct (decide (lo <= vpn 4 a < hi)) as [Hr|Hr].
  - destruct (leaf 4 (ram s) (cr3 s) a) as [e0|] eqn:E0.
    + left. exists e0. rewrite (gw_old G a e0) in He by done. assert (e = set_writable true e0) as -> by congruence. unfold set_writable, user_accessible, writable. rewrite next_set_flag, !testbit_set_flag by lia. split_and!; [done|done|done|by left].
    + right. destruct (gw_new G a Ha Hr E0) as (e' & He' & Hn & Hin). assert (e' = e) as -> by congruence. done.
  - rewrite (gw_out G a Ha Hr) in He. left. exists e. split_and!; [done|done|done|by right].
Qed.

Lemma fresh_in_supply x : x ∈ L -> x ∈ avail s /\ page_addr x /\ (x ∉ tables 4 (ram s') (cr3 s) 256) /\ (x ∉ avail s').
Proof.
  intros Hx. pose proof (gw_data G x Hx) as HxA. pose proof (sp_tree _ Hs) as [_ _ _ _ [Hnd Hpg] Hap _]. assert (x ∈ avail s) as Hin by (rewrite (gw_avail G); apply elem_of_app; by left).
  split_and!; [done|rewrite Forall_forall in Hpg; by apply Hpg| |].
  - intros Ht. destruct (gw_tables G x Ht) as [Ht'|[_ ?]]; [by apply (Hap x)|done].
  - intros Hin'. rewrite (gw_avail G) in Hnd. apply NoDup_app in Hnd as (_ & Hd & _). by apply (Hd x).
Qed.

Lemma supply_shrinks x : x ∈ avail s' -> x ∈ avail s.
Proof. intros Hx. rewrite (gw_avail G). apply elem_of_app. by right. Qed.

Lemma tables_grow x : x ∈ tables 4 (ram s') (cr3 s) 256 -> x ∈ tables 4 (ram s) (cr3 s) 256 \/ x ∈ avail s.
Proof. intros Hx. destruct (gw_tables G x Hx) as [?|[? _]]; [by left|]. right. rewrite (gw_avail G). apply elem_of_app. by left. Qed.

Lemma space_grown : evolves s s'.
Proof.
  pose proof Hs as [Hg Hp Hd Hi]. split; [|exact grow_root| |].
  - split; rewrite grow_root.
    + by apply (growable_next _ _ _ _ _ _ _ _ _ _ Hg G).
    + by apply (gw_plain G).
    + intros a e Ha He. destruct (grow_leaf a e Ha He) as [(e0 & E0 & -> & -> & Hw)|(_ & _ & (_ & Hu & _ & Hw) & Hin)].
      * destruct (Hd a e0 Ha E0) as (H1 & H2 & H3 & H4 & H5). split_and!; [done| |intros Hin; by apply H3, supply_shrinks|done|by destruct Hw as [?| ->]].
        intros Hin. destruct (tables_grow _ Hin); [by apply H2|by apply H3].
      * destruct (fresh_in_supply _ Hin) as (_ & H1 & H2 & H3). done.
    + intros a b ea eb Ha Hb Ea Eb E. destruct (grow_leaf a ea Ha Ea) as [(e0 & E0 & N0 & _)|(N0 & R0 & _ & L0)], (grow_leaf b eb Hb Eb) as [(e1 & E1 & N1 & _)|(N1 & R1 & _ & L1)].
      * apply (Hi a b e0 e1); [done|done|done|done|congruence].
      * exfalso. destruct (Hd a e0 Ha E0) as (_ & _ & Hn & _). destruct (fresh_in_supply _ L1) as (Hin & _). apply Hn. by rewrite <- N0, E.
      * exfalso. destruct (Hd b e1 Hb E1) as (_ & _ & Hn & _). destruct (fresh_in_supply _ L0) as (Hin & _). apply Hn. by rewrite <- N1, <- E.
      * by apply (gw_inj G a b ea eb).
  - intros x (Hxa & Ht & Hav & Hl). split.
    + unfold foreign. rewrite grow_root. split_and!; [done|intros Hin; by destruct (tables_grow x Hin)|intros Hin; by apply Hav, supply_shrinks|].
      intros a e Ha He. destruct (grow_leaf a e Ha He) as [(e0 & E0 & -> & _)|(_ & _ & _ & Hin)]; [by apply (Hl a)|]. intros <-. apply Hav. by apply fresh_in_supply.
    + apply (gw_frames G x Hxa). intros [?|Hin]%elem_of_app; [done|]. apply Hav. rewrite (gw_avail G). apply elem_of_app. by left.
  - split; [apply (gw_regs G)|]. intros i Hix. apply (gw_low G); [unfold index_ok; lia|lia].
Qed.
End grow.

(** ** Writing data *)

(** The physical address of a mapped user address. *)
Definition at_entry (e a : Z) : Z := get_next_level_table e + a mod PAGE_SIZE.

Lemma paddr_leaf s a e : space s -> user a -> leaf 4 (ram s) (cr3 s) a = Some e -> paddr s a = Some (at_entry e a).
Proof.
  intros Hs Ha He. unfold paddr. rewrite wrap_small by (unfold user, USER_BASE in Ha; lia). unfold translate.
  change (translate_from 4 (ram s) (cr3 s) 4 a) with (translate_from 4 (ram s) (cr3 s) (Z.of_nat 4) a).
  rewrite (translate_leaf 4 (ram s) (cr3 s) 256 a e); [done|split; [lia|by apply user_part]|apply Hs|done].
Qed.

Lemma at_entry_page e a : page_of (at_entry e a) = get_next_level_table e /\ at_entry e a mod PAGE_SIZE = a mod PAGE_SIZE.
Proof. unfold at_entry. apply page_of_offset; [apply next_aligned|]. apply Z.mod_pos_bound. done. Qed.

(** Different user addresses have different bytes. *)
Lemma at_entry_inj s a b ea eb : space s -> user a -> user b -> leaf 4 (ram s) (cr3 s) a = Some ea -> leaf 4 (ram s) (cr3 s) b = Some eb ->
  at_entry ea a = at_entry eb b -> a = b.
Proof.
  intros Hs Ha Hb Ea Eb E. destruct (at_entry_page ea a) as [Pa Oa]. destruct (at_entry_page eb b) as [Pb Ob]. rewrite E, Pb in Pa. rewrite E, Ob in Oa.
  assert (vpn 4 a = vpn 4 b) as Hv by (apply (sp_inj _ Hs a b ea eb); [by apply user_part|by apply user_part|done|done|done]).
  destruct (user_vpn a Ha) as [Va _]. destruct (user_vpn b Hb) as [Vb _]. unfold upage in *. pose proof (Z.div_mod a PAGE_SIZE ltac:(done)). pose proof (Z.div_mod b PAGE_SIZE ltac:(done)). lia.
Qed.

(** Only bytes of mapped pages changed. *)
Record rewritten (s s' : Vm) : Prop := mkRewritten {
  rw_evolves : evolves s s';
  rw_avail : avail s' = avail s;
  rw_leaf : forall a, 256 <= part 4 a -> leaf 4 (ram s') (cr3 s) a = leaf 4 (ram s) (cr3 s) a;
}.

Lemma rewritten_refl s : space s -> rewritten s s.
Proof. intros H. split; [by apply evolves_refl|done|done]. Qed.

Lemma rewritten_trans s1 s2 s3 : rewritten s1 s2 -> rewritten s2 s3 -> rewritten s1 s3.
Proof.
  intros [H1 H2 H3] [K1 K2 K3]. split; [by eapply evolves_trans|congruence|]. intros a Ha. rewrite <- H3 by done. rewrite <- (ev_root _ _ H1). by apply K3.
Qed.

Lemma vload_leaf s a e : space s -> user a -> leaf 4 (ram s) (cr3 s) a = Some e -> vload s a = Some (ldb (ram s) (at_entry e a)).
Proof. intros Hs Ha He. unfold vload. by rewrite (paddr_leaf s a e). Qed.

(** Unmapped addresses cannot be read. *)
Lemma vload_mapped s a v : space s -> user a -> vload s a = Some v -> exists e, leaf 4 (ram s) (cr3 s) a = Some e.
Proof.
  intros Hs Ha Hv. unfold vload, paddr in Hv. rewrite wrap_small in Hv by (unfold user, USER_BASE in Ha; lia). unfold translate in Hv.
  destruct (translate_from 4 (ram s) (cr3 s) 4 a) as [p|] eqn:E; [|done]. pose proof (sp_plain _ Hs) as Hp. pose proof (user_part a Ha) as Hpa. clear Hv.
  assert (forall level m t start p, (0 < level)%nat -> start <= part (Z.of_nat level) a -> plain level m t start -> translate_from level m t (Z.of_nat level) a = Some p -> exists e, leaf level m t a = Some e) as H;
    [|by apply (H 4%nat (ram s) (cr3 s) 256 p); [lia|..]]. clear.
  induction level as [|below IH]; intros m t start p Hl Hs Hp E; [lia|]. pose proof (part_index (Z.of_nat (S below)) a ltac:(lia)) as Hi. unfold index_ok in Hi. cbn [translate_from] in E.
  destruct (Hp (part (Z.of_nat (S below)) a) ltac:(lia)) as [Hh Hb]. destruct below as [|below].
  - cbn [leaf]. destruct (present _); [|done]. by eexists.
  - rewrite leaf_S. cbv zeta. destruct (present _) eqn:Hpr; [|done]. cbn [negb] in *. destruct (Z.eqb_spec (Z.of_nat (S (S below))) 1); [lia|].
    replace (Z.of_nat (S (S below)) - 1) with (Z.of_nat (S below)) in E by lia.
    assert (((Z.of_nat (S (S below)) =? 2) && huge_page (ld m (t + 8 * part (Z.of_nat (S (S below))) a))) = false) as Hno.
    { destruct (Z.eqb_spec (Z.of_nat (S (S below))) 2); [|done]. rewrite Hh by lia. done. }
    rewrite Hno in E. apply (IH m _ 0 p); [lia|apply part_index; lia|exact (Hb eq_refl)|done].
Qed.

(** One byte. *)
Lemma vstore_ok s a b e : space s -> user a -> 0 <= b < 256 -> leaf 4 (ram s) (cr3 s) a = Some e ->
  exists s', vstore a b s = Some s' /\ rewritten s s' /\ forall x, user x -> vload s' x = if x =? a then Some b else vload s x.
Proof.
  intros Hs Ha Hb He. pose proof Hs as [Hg Hp Hd Hi]. pose proof Hg as [Hok Hr _ _ _ _ _]. pose proof (user_part a Ha) as Hpa. destruct (Hd a e Hpa He) as (Hpg & Hnt & Hna & _).
  destruct (at_entry_page e a) as [Pa _]. unfold vstore. rewrite (paddr_leaf s a e) by done. cbn [mbind option_bind]. set (m' := stb (at_entry e a) b (ram s)). exists (set_ram m' s). split; [done|].
  pose proof (only_frames_stb (at_entry e a) b (ram s)) as Hf. rewrite Pa in Hf. fold m' in Hf.
  assert (same_on (tables 4 (ram s) (cr3 s) 256) (ram s) m') as Hsame. { apply (only_frames_same _ _ _ _ Hf); [by apply tables_aligned|]. by intros x Hx ->%list_elem_of_singleton. }
  destruct (tables_ext 4 (ram s) m' (cr3 s) 256 ltac:(lia) Hr Hsame) as [HT _].
  assert (forall x, 256 <= part 4 x -> leaf 4 m' (cr3 s) x = leaf 4 (ram s) (cr3 s) x) as HL by (intros x Hx; by apply (leaf_ext 4 _ _ _ 256); [lia| | |]).
  assert (space (set_ram m' s)) as Hs'.
  { destruct Hg as [_ _ Hst Hnd Hsup Hap [Hz Hlz]]. split; cbn [ram cr3 avail set_ram].
    - split; cbn [ram avail set_ram]; [by apply ram_ok_stb|done|done|by rewrite HT|done|by rewrite HT|]. rewrite HT. split; [done|]. intros x y Hx Hy. rewrite HL in Hy by done. by apply (Hlz x).
    - apply (plain_ext 4 (ram s)); [lia|done|done|done].
    - intros x y Hx Hy. rewrite HL in Hy by done. rewrite HT. by apply (Hd x).
    - intros x y ex ey Hx Hy Ex Ey. rewrite HL in Ex, Ey by done. by apply (Hi x y). }
  split.
  - split; [split; [done|done| |]|done|exact HL]; cycle 1.
    { split; [done|]. intros i Hix. apply (only_frames_entry _ s (set_ram m' s) _ i Hf); [done|unfold index_ok; lia|]. intros Hin. apply list_elem_of_singleton in Hin. apply Hnt. rewrite <- Hin. apply tables_self. }
    intros x (Hxa & Hxt & Hxs & Hxl). assert (x ∉ [get_next_level_table e]) as Hne by (intros ->%list_elem_of_singleton; by apply (Hxl a e)).
    split; [|by apply Hf]. unfold foreign. cbn [ram cr3 avail set_ram]. split_and!; [done|by rewrite HT|done|]. intros y ey Hy Ey. cbn [ram cr3 set_ram] in Ey. rewrite HL in Ey by done. by apply (Hxl y).
  - intros x Hx. pose proof (user_part x Hx) as Hpx. destruct (leaf 4 (ram s) (cr3 s) x) as [ex|] eqn:Ex.
    + rewrite (vload_leaf _ x ex Hs' Hx) by (cbn [ram cr3 set_ram]; by rewrite HL). rewrite (vload_leaf s x ex) by done. cbn [ram set_ram]. unfold m'. rewrite ldb_stb by done.
      destruct (Z.eqb_spec (at_entry ex x) (at_entry e a)) as [E|E]; destruct (Z.eqb_spec x a) as [->|Hne]; try done; [by destruct Hne; apply (at_entry_inj s x a ex e)|]. by assert (ex = e) as -> by congruence.
    + destruct (Z.eqb_spec x a) as [->|_]; [congruence|]. destruct (vload s x) as [v|] eqn:Ev; [destruct (vload_mapped s x v Hs Hx Ev); congruence|].
      destruct (vload (set_ram m' s) x) as [v|] eqn:Ev'; [|done]. destruct (vload_mapped _ x v Hs' Hx Ev') as [y Ey]. cbn [ram cr3 set_ram] in Ey. rewrite HL in Ey by done. congruence.
Qed.

(** ** Loops *)

(** The bytes [dest .. dest + n - 1] are mapped. *)
Definition mapped_range (s : Vm) (dest n : Z) : Prop := forall a, dest <= a < dest + n -> user a /\ is_Some (leaf 4 (ram s) (cr3 s) a).

Lemma mapped_rewritten s s' dest n : rewritten s s' -> mapped_range s dest n -> mapped_range s' dest n.
Proof.
  intros [[_ Hroot _] _ HL] H a Ha. destruct (H a Ha) as [Hu Hm]. split; [done|]. rewrite Hroot, HL; [done|by apply user_part].
Qed.

Lemma store_loop s dest n (f : Z -> Vm -> Z) (g : Z -> Z) : space s -> mapped_range s dest n ->
  (forall i t, 0 <= i < n -> rewritten s t -> f i t = g i /\ 0 <= g i < 256) ->
  exists s', for_n (Z.to_nat n) 0 (fun i s => vstore (dest + i) (f i s) s) s = Some s' /\ rewritten s s' /\
    forall x, user x -> vload s' x = if (dest <=? x) && (x <? dest + n) then Some (g (x - dest)) else vload s x.
Proof.
  intros Hs Hm Hf. destruct (Z.lt_ge_cases n 0) as [Hn|Hn].
  { exists s. replace (Z.to_nat n) with O by lia. split; [done|]. split; [by apply rewritten_refl|]. intros x Hx. destruct (Z.leb_spec dest x), (Z.ltb_spec x (dest + n)); try lia; done. }
  edestruct (for_n_inv (fun i t => rewritten s t /\ forall x, user x -> vload t x = if (dest <=? x) && (x <? dest + i) then Some (g (x - dest)) else vload s x)
    (Z.to_nat n) 0 (fun i s => vstore (dest + i) (f i s) s)) as (s' & E & Hw & Hl); cycle 2.
  - exists s'. split; [exact E|]. split; [done|]. intros x Hx. rewrite Hl by done. by replace (0 + Z.of_nat (Z.to_nat n)) with n by lia.
  - split; [by apply rewritten_refl|]. intros x Hx. destruct (Z.leb_spec dest x), (Z.ltb_spec x (dest + 0)); try lia; done.
  - intros i t Hi (Hw & Hl). destruct (Hm (dest + i) ltac:(lia)) as [Hu [e He]]. destruct (Hf i t ltac:(lia) Hw) as [Ef Hg].
    pose proof Hw as [[Ht Hroot _] _ HL]. rewrite Ef. destruct (vstore_ok t (dest + i) (g i) e) as (t' & E & Hw' & Hl'); [done|done|done|rewrite Hroot, HL; [done|by apply user_part]|].
    exists t'. split; [done|]. split; [by eapply rewritten_trans|]. intros x Hx. rewrite Hl', Hl by done.
    destruct (Z.eqb_spec x (dest + i)) as [Ex|Ex].
    + assert (x - dest = i) as -> by lia. destruct (Z.leb_spec dest x), (Z.ltb_spec x (dest + (i + 1))); try lia; done.
    + destruct (Z.leb_spec dest x), (Z.ltb_spec x (dest + i)), (Z.ltb_spec x (dest + (i + 1))); try lia; done.
Qed.

(** ** Mapping a range *)

(** [x] lies in one of [n] pages from the page of [a] on. *)
Definition in_pages (a n x : Z) : Prop := user x /\ upage a <= upage x < upage a + n.

Record mapped_pages (s : Vm) (a n : Z) (s' : Vm) : Prop := mkMappedPages {
  mp_evolves : evolves s s';
  mp_mapped : forall x, in_pages a n x -> is_Some (leaf 4 (ram s') (cr3 s') x);
  mp_keeps : forall x v, user x -> vload s x = Some v -> vload s' x = Some v;
  mp_zero : forall x, in_pages a n x -> leaf 4 (ram s) (cr3 s) x = None -> vload s' x = Some 0;
  mp_supply : lenz (avail s) <= lenz (avail s') + 4 * n;
  mp_out : forall x, user x -> ~ in_pages a n x -> leaf 4 (ram s') (cr3 s') x = leaf 4 (ram s) (cr3 s) x;
}.

Lemma setup_space s a n : space s -> user a -> 0 <= n < 2 ^ 31 -> upage a + n <= 2 ^ 36 -> 4 * n <= lenz (avail s) ->
  exists s', setup_page_tables a n true s = Some (err OK, s') /\ mapped_pages s a n s'.
Proof.
  intros Hs Ha Hn Hend Hroom. destruct (user_vpn a Ha) as [Va Ra]. unfold setup_page_tables.
  destruct (setup_spec 3 true (cr3 s) 256 a n s (sp_tree _ Hs) (user_part a Ha) Hn) as (r & s' & -> & j & A & L & Hj & G & Hr). cbn [mbind option_bind].
  rewrite Va in *. change (512 ^ Z.of_nat 4) with (2 ^ 36) in Hr. destruct Hr as [(-> & Hm & HA)|(_ & _ & _ & _ & ?)]; [|change (Z.of_nat 4) with 4 in *; lia].
  assert (j = n) as -> by lia. rewrite Z.sub_diag. change (0 =? -1) with false. cbv iota. exists s'. split; [done|].
  pose proof (space_grown _ _ s s' A L Hs G) as Hev. pose proof Hev as [Hs' Hroot _].
  split; [done| | | | |].
  - intros x [Hx Hr]. destruct (user_vpn x Hx) as [Vx _]. rewrite Hroot. destruct (leaf 4 (ram s) (cr3 s) x) as [e|] eqn:E.
    + rewrite (gw_old G x e); [done|by apply user_part|lia|done].
    + destruct (gw_new G x (user_part x Hx)) as (e & -> & _); [lia|done|done].
  - intros x v Hx Hv. pose proof (user_part x Hx) as Hp. destruct (vload_mapped s x v Hs Hx Hv) as [e He]. rewrite (vload_leaf s x e) in Hv by done. injection Hv as <-.
    assert (exists e', leaf 4 (ram s') (cr3 s') x = Some e' /\ get_next_level_table e' = get_next_level_table e) as (e' & He' & Hn').
    { rewrite Hroot. destruct (decide (upage a <= vpn 4 x < upage a + n)) as [Hr|Hr].
      - exists (set_writable true e). rewrite (gw_old G x e) by done. split; [done|]. unfold set_writable. by rewrite next_set_flag by lia.
      - exists e. by rewrite (gw_out G x). }
    rewrite (vload_leaf s' x e') by done. f_equal. unfold at_entry. rewrite Hn'. apply ldb_frame. destruct (at_entry_page e x) as [Px _]. unfold at_entry in Px. rewrite Px.
    destruct (sp_data _ Hs x e Hp He) as (Hpg & Hnt & Hna & _). apply (gw_frames G); [by apply page_addr_al|]. intros [?|Hin]%elem_of_app; [done|]. apply Hna. rewrite (gw_avail G). apply elem_of_app. by left.
  - intros x [Hx Hr] Hnone. destruct (user_vpn x Hx) as [Vx _]. destruct (gw_new G x (user_part x Hx)) as (e & He & _ & Hin); [lia|done|].
    rewrite (vload_leaf s' x e) by (done || by rewrite Hroot). f_equal. apply ldb_zero. destruct (at_entry_page e x) as [-> _]. by apply (gw_zero G).
  - rewrite (gw_avail G), lenz_app. change (Z.of_nat 4) with 4 in HA. lia.
  - intros x Hx Hno. rewrite Hroot. destruct (user_vpn x Hx) as [Vx _]. apply (gw_out G); [by apply user_part|]. rewrite Vx. intros Hr. by apply Hno.
Qed.

(** ** Segments *)

Definition pages_of (memsz : Z) : Z := u64 (memsz + PAGE_SIZE - 1) / PAGE_SIZE.

(** A segment that can be loaded: it lies in user space, the file part is not longer
    than the whole, and the pages counted from its size cover it. *)
Record loadable (ph : elf64_phdr_t) : Prop := mkLoadable {
  lo_user : user (p_vaddr ph);
  lo_sizes : 0 <= p_filesz ph <= p_memsz ph;
  lo_end : p_vaddr ph + p_memsz ph <= 2 ^ 64;
  lo_size : p_memsz ph < 2 ^ 42;
  lo_covered : p_vaddr ph mod PAGE_SIZE + p_memsz ph <= pages_of (p_memsz ph) * PAGE_SIZE;
}.

Definition in_segment (ph : elf64_phdr_t) (x : Z) : Prop := p_vaddr ph <= x < p_vaddr ph + p_memsz ph.

(** The bytes [src ..] of a buffer of the kernel. *)
Definition kernel_bytes (s : Vm) (src n : Z) : Prop := forall i, 0 <= i < n -> 0 <= src + i < 2 ^ 64 /\ foreign s (page_of (src + i)).

(** What the program finds in the segment. *)
Definition segment_loaded (m : Frames) (elf_header : Z) (ph : elf64_phdr_t) (s : Vm) : Prop :=
  (forall j, 0 <= j < p_filesz ph -> vload s (p_vaddr ph + j) = Some (ldb m (elf_header + p_offset ph + j))) /\
  (forall j, p_filesz ph <= j < p_memsz ph -> vload s (p_vaddr ph + j) = Some 0).

Lemma pages_small memsz : 0 <= memsz < 2 ^ 42 -> 0 <= pages_of memsz <= 2 ^ 30 /\ memsz <= pages_of memsz * PAGE_SIZE.
Proof.
  intros H. unfold pages_of, PAGE_SIZE. rewrite wrap_small by lia. pose proof (Z.div_mod (memsz + 4096 - 1) 4096 ltac:(lia)). pose proof (Z.mod_pos_bound (memsz + 4096 - 1) 4096 ltac:(lia)). lia.
Qed.

Lemma segment_pages ph x : loadable ph -> in_segment ph x -> in_pages (p_vaddr ph) (pages_of (p_memsz ph)) x.
Proof.
  intros [Hu Hsz Hend Hsmall Hcov] Hx. unfold in_segment, user, USER_BASE in *. split; [unfold user, USER_BASE; lia|]. unfold upage. set (v := p_vaddr ph) in *.
  pose proof (Z.div_mod v PAGE_SIZE ltac:(done)). assert (v / PAGE_SIZE <= x / PAGE_SIZE) by (apply Z.div_le_mono; [done|lia]).
  assert (x / PAGE_SIZE < v / PAGE_SIZE + pages_of (p_memsz ph)); [|lia]. apply Z.div_lt_upper_bound; [done|]. lia.
Qed.

Lemma load_segment_spec s elf_header ph : space s -> loadable ph -> kernel_bytes s (elf_header + p_offset ph) (p_filesz ph) ->
  4 * pages_of (p_memsz ph) <= lenz (avail s) -> upage (p_vaddr ph) + pages_of (p_memsz ph) <= 2 ^ 36 ->
  exists s', load_segment elf_header ph s = Some (err OK, s') /\ evolves s s' /\ segment_loaded (ram s) elf_header ph s' /\
    (forall x v, user x -> ~ in_segment ph x -> vload s x = Some v -> vload s' x = Some v) /\ lenz (avail s) <= lenz (avail s') + 4 * pages_of (p_memsz ph).
Proof.
  intros Hs Hl Hk Hroom Hend. pose proof Hl as [Hu Hsz Hle Hsmall Hcov]. destruct (pages_small (p_memsz ph) ltac:(lia)) as [Hp _]. unfold load_segment. fold (pages_of (p_memsz ph)).
  destruct (setup_space s (p_vaddr ph) (pages_of (p_memsz ph)) Hs Hu ltac:(lia) Hend Hroom) as (s1 & -> & [Hev Hmp Hkeep _ Hsup _]). cbn [mbind option_bind]. change (IS_ERR (err OK)) with false. cbv iota.
  pose proof Hev as [Hs1 Hroot Hfor].
  assert (mapped_range s1 (p_vaddr ph) (p_memsz ph)) as Hr1. { intros a Ha. pose proof (segment_pages ph a Hl Ha) as Hin. split; [apply Hin|by apply Hmp]. }
  destruct (store_loop s1 (p_vaddr ph) (p_filesz ph) (fun i s => ldb (ram s) (u64 (elf_header + p_offset ph + i))) (fun i => ldb (ram s) (elf_header + p_offset ph + i)) Hs1) as (s2 & E2 & Hw2 & Hv2).
  { intros a Ha. apply Hr1. lia. }
  { intros i t Hi [[_ _ Hft] _ _]. destruct (Hk i Hi) as [Hb Hf]. split; [|apply ldb_range]. rewrite wrap_small by lia. destruct (Hfor _ Hf) as [Hf1 E1]. destruct (Hft _ Hf1) as [_ E2].
    apply ldb_frame. by rewrite E2, E1. }
  unfold copy_out. rewrite E2. cbn [mbind option_bind]. pose proof Hw2 as [Hev2 Hav2 _]. pose proof Hev2 as [Hs2 _ _].
  rewrite (wrap_small 64 (p_memsz ph - p_filesz ph)) by lia.
  destruct (store_loop s2 (p_vaddr ph + p_filesz ph) (p_memsz ph - p_filesz ph) (fun _ _ => 0) (fun _ => 0) Hs2) as (s3 & E3 & Hw3 & Hv3).
  { intros a Ha. apply (mapped_rewritten s1 s2 _ _ Hw2 Hr1). lia. } { intros. lia. }
  unfold zero_out. rewrite E3. cbn [mbind option_bind]. exists s3. pose proof Hw3 as [Hev3 Hav3 _]. unfold in_segment.
  split; [done|]. split; [by eapply evolves_trans; [|eapply evolves_trans]|]. split; [split|split].
  - intros j Hj. unfold user, USER_BASE in *. rewrite Hv3, Hv2 by (unfold user, USER_BASE; lia).
    destruct (Z.leb_spec (p_vaddr ph + p_filesz ph) (p_vaddr ph + j)); [lia|]. destruct (Z.leb_spec (p_vaddr ph) (p_vaddr ph + j)), (Z.ltb_spec (p_vaddr ph + j) (p_vaddr ph + p_filesz ph)); try lia.
    cbn [andb]. do 2 f_equal. lia.
  - intros j Hj. unfold user, USER_BASE in *. rewrite Hv3 by (unfold user, USER_BASE; lia).
    destruct (Z.leb_spec (p_vaddr ph + p_filesz ph) (p_vaddr ph + j)), (Z.ltb_spec (p_vaddr ph + j) (p_vaddr ph + p_filesz ph + (p_memsz ph - p_filesz ph))); try lia. done.
  - intros x v Hx Hno Hv. rewrite Hv3, Hv2 by done.
    destruct (Z.leb_spec (p_vaddr ph + p_filesz ph) x), (Z.ltb_spec x (p_vaddr ph + p_filesz ph + (p_memsz ph - p_filesz ph))); try lia; cbn [andb];
      destruct (Z.leb_spec (p_vaddr ph) x), (Z.ltb_spec x (p_vaddr ph + p_filesz ph)); try lia; cbn [andb]; by apply Hkeep.
  - rewrite Hav3, Hav2. done.
Qed.

(** ** Files *)

(** Two memories with the same bytes of the file. *)
Definition same_file (m m' : Frames) (buf len : Z) : Prop := forall i, 0 <= i < len -> ldb m' (buf + i) = ldb m (buf + i).

Lemma same_file_evolves s s' buf len : kernel_bytes s buf len -> evolves s s' -> same_file (ram s) (ram s') buf len /\ kernel_bytes s' buf len.
Proof.
  intros Hk [_ _ Hf]. split; intros i Hi; destruct (Hk i Hi) as [Hb Hfor]; destruct (Hf _ Hfor) as [Hfor' E]; [by apply ldb_frame|done].
Qed.

Lemma same_file_trans m1 m2 m3 buf len : same_file m1 m2 buf len -> same_file m2 m3 buf len -> same_file m1 m3 buf len.
Proof. intros H K i Hi. by rewrite K, H. Qed.

Lemma ld_le_same n : forall m m' buf len o, same_file m m' buf len -> 0 <= o -> o + Z.of_nat n <= len -> ld_le n m' (buf + o) = ld_le n m (buf + o).
Proof.
  induction n as [|n IH]; intros m m' buf len o H Ho Hl; [done|]. cbn [ld_le]. rewrite H by lia. replace (buf + o + 1) with (buf + (o + 1)) by lia. by rewrite (IH m m' buf len) by (done || lia).
Qed.

Lemma ehdr_same m m' buf len : same_file m m' buf len -> 64 <= len -> read_ehdr m' buf = read_ehdr m buf.
Proof.
  intros H Hl. unfold read_ehdr. rewrite !(fun n o => ld_le_same n m m' buf len o H) by lia. f_equal.
  apply list_fmap_ext. intros k i Hi. apply lookup_seqZ in Hi as [-> Hk]. apply H. lia.
Qed.

(** A file the loader accepts: the headers and the segments lie in the file, the
    segments can be loaded and do not overlap, and there is memory for them. *)
Definition is_load (m : Frames) (buf i : Z) : Prop := p_type (get_program_header m buf i) = PT_LOAD.
Fixpoint pages_from (k : nat) (i : Z) (m : Frames) (buf : Z) : Z :=
  match k with
  | O => 0
  | S k => (if p_type (get_program_header m buf i) =? PT_LOAD then pages_of (p_memsz (get_program_header m buf i)) else 0) + pages_from k (i + 1) m buf
  end.

Record executable (s : Vm) (buf len : Z) : Prop := mkExecutable {
  ex_file : kernel_bytes s buf len;
  ex_space : 0 <= buf /\ buf + len <= 2 ^ 64;
  ex_headers : 64 <= len /\ 0 <= e_phoff (read_ehdr (ram s) buf) /\ e_phoff (read_ehdr (ram s) buf) + sizeof_phdr * e_phnum (read_ehdr (ram s) buf) <= len;
  ex_type : e_type (read_ehdr (ram s) buf) = ET_EXEC;
  ex_some : exists i, 0 <= i < e_phnum (read_ehdr (ram s) buf) /\ is_load (ram s) buf i;
  ex_segments : forall i, 0 <= i < e_phnum (read_ehdr (ram s) buf) -> is_load (ram s) buf i -> let ph := get_program_header (ram s) buf i in
    loadable ph /\ 0 <= p_offset ph /\ p_offset ph + p_filesz ph <= len /\ upage (p_vaddr ph) + pages_of (p_memsz ph) <= 2 ^ 36;
  ex_disjoint : forall i j x, 0 <= i < e_phnum (read_ehdr (ram s) buf) -> 0 <= j < e_phnum (read_ehdr (ram s) buf) -> i <> j -> is_load (ram s) buf i -> is_load (ram s) buf j ->
    in_segment (get_program_header (ram s) buf i) x -> ~ in_segment (get_program_header (ram s) buf j) x;
  ex_room : 4 * pages_from (Z.to_nat (e_phnum (read_ehdr (ram s) buf))) 0 (ram s) buf <= lenz (avail s);
}.

Section file.
Context (s0 : Vm) (buf len : Z) (Hx : executable s0 buf len).

Local Abbreviation m0 := (ram s0).
Local Abbreviation phnum := (e_phnum (read_ehdr m0 buf)).
Local Abbreviation ph i := (get_program_header m0 buf i).

Lemma phnum_range : 0 <= phnum < 65536.
Proof. cbn [e_phnum read_ehdr ld_le]. pose proof (ldb_range m0 (buf + 56)). pose proof (ldb_range m0 (buf + 56 + 1)). lia. Qed.

Lemma phdr_same m' i : same_file m0 m' buf len -> 0 <= i < phnum -> get_program_header m' buf i = ph i.
Proof.
  intros H Hi. destruct (ex_headers _ _ _ Hx) as (Hl & Ho & Ht). destruct (ex_space _ _ _ Hx) as [Hb He]. unfold sizeof_phdr in *. unfold get_program_header. rewrite (ehdr_same m0 m' buf len) by done.
  unfold sizeof_phdr. set (o := e_phoff (read_ehdr m0 buf)) in *. rewrite wrap_small by lia. replace (buf + o + i * 56) with (buf + (o + i * 56)) by lia. unfold read_phdr.
  rewrite <- !Z.add_assoc. by rewrite !(fun n o => ld_le_same n m0 m' buf len o H) by lia.
Qed.

Lemma pages_from_nonneg n : forall j, 0 <= j -> j + Z.of_nat n <= phnum -> 0 <= pages_from n j m0 buf.
Proof.
  induction n as [|n IH]; intros j Hj Hjn; [done|]. cbn [pages_from]. specialize (IH (j + 1) ltac:(lia) ltac:(lia)). destruct (Z.eqb_spec (p_type (ph j)) PT_LOAD) as [Hlj|]; [|lia].
  destruct (ex_segments _ _ _ Hx j ltac:(lia) Hlj) as ([_ [? ?] _ ? _] & _). destruct (pages_small (p_memsz (ph j))) as [? _]; lia.
Qed.

(** The loader's loop from header [i] on. *)
Lemma copy_segments_spec k : forall i fuel s, i + Z.of_nat k = phnum -> 0 <= i -> (k <= fuel)%nat -> space s -> same_file m0 (ram s) buf len -> kernel_bytes s buf len ->
  4 * pages_from k i m0 buf <= lenz (avail s) ->
  exists s', copy_segments fuel i buf s = Some (err OK, s') /\ evolves s s' /\
    (forall j, i <= j < phnum -> is_load m0 buf j -> segment_loaded m0 buf (ph j) s') /\
    (forall x v, user x -> (forall j, i <= j < phnum -> is_load m0 buf j -> ~ in_segment (ph j) x) -> vload s x = Some v -> vload s' x = Some v) /\
    lenz (avail s) <= lenz (avail s') + 4 * pages_from k i m0 buf.
Proof.
  induction k as [|k IH]; intros i fuel s Hk Hi Hf Hs Hsame Hkb Hroom.
  - exists s. assert ((e_phnum (read_ehdr (ram s) buf) <=? i) = true) as E by (rewrite (ehdr_same m0 (ram s) buf len) by (done || apply Hx); apply Z.leb_le; lia).
    split; [by destruct fuel; cbn [copy_segments]; rewrite E|]. split; [by apply evolves_refl|]. cbn [pages_from]. split; [intros; lia|]. split; [done|lia].
  - destruct fuel as [|fuel]; [lia|]. cbn [copy_segments]. rewrite (ehdr_same m0 (ram s) buf len) by (done || apply Hx). destruct (Z.leb_spec phnum i); [lia|].
    rewrite phdr_same by (done || lia). cbn [pages_from] in Hroom |- *. destruct (Z.eqb_spec (p_type (ph i)) PT_LOAD) as [Hload|Hno]; cbn [negb].
    + destruct (ex_segments _ _ _ Hx i ltac:(lia) Hload) as (Hl & Ho & Hoe & Hend). destruct (pages_small (p_memsz (ph i))) as [Hp _]; [destruct Hl as [_ [? ?] _ ? _]; lia|].
      pose proof (pages_from_nonneg k (i + 1) ltac:(lia) ltac:(lia)) as Hpf.
      destruct (load_segment_spec s buf (ph i) Hs Hl) as (s1 & -> & Hev & Hload1 & Hkeep & Hsup); [intros j Hj; rewrite <- Z.add_assoc; apply Hkb; lia|lia|done|].
      cbn [mbind option_bind]. change (IS_ERR (err OK)) with false. cbv iota. destruct (same_file_evolves s s1 buf len Hkb Hev) as [Hsf Hkb1].
      destruct (IH (i + 1) fuel s1) as (s2 & -> & Hev2 & Hload2 & Hkeep2 & Hsup2); [lia|lia|lia|apply Hev|by eapply same_file_trans|done|lia|].
      exists s2. split; [done|]. split; [by eapply evolves_trans|]. split; [|split; [|lia]].
      * intros j Hj Hlj. destruct (decide (j = i)) as [->|Hne]; [|apply Hload2; [lia|done]]. destruct Hl as [Hu [Hz1 Hz2] Hle _ _]. unfold user, USER_BASE in Hu.
        assert (forall o v, 0 <= o < p_memsz (ph i) -> vload s1 (p_vaddr (ph i) + o) = Some v -> vload s2 (p_vaddr (ph i) + o) = Some v) as Hk2.
        { intros o v Hoo Hv. apply Hkeep2; [unfold user, USER_BASE; lia| |done]. intros k' Hk' Hlk. apply (ex_disjoint _ _ _ Hx i k'); [lia|lia|lia|done|done|unfold in_segment; lia]. }
        destruct Hload1 as [L1 L2]. split; intros o Hoo; apply Hk2; [lia| |lia|by apply L2]. rewrite L1 by done. f_equal. rewrite <- !Z.add_assoc. apply Hsame. lia.
      * intros x v Hu Hno Hv. apply Hkeep2; [done|intros j Hj; apply Hno; lia|]. apply Hkeep; [done|by apply Hno; [lia|]|done].
    + destruct (IH (i + 1) fuel s) as (s2 & E & Hev2 & Hload2 & Hkeep2 & Hsup2); [lia|lia|lia|done|done|done|lia|]. exists s2. split; [done|]. split; [done|]. split; [|split; [|lia]].
      * intros j Hj Hlj. destruct (decide (j = i)) as [->|Hne]; [done|]. apply Hload2; [lia|done].
      * intros x v Hu Hn Hv. apply Hkeep2; [done|intros j Hj; apply Hn; lia|done].
Qed.

(** The address that is checked is that of a segment. *)
Lemma first_load_user n : forall i, 0 <= i -> i + Z.of_nat n <= phnum -> (exists j, i <= j < i + Z.of_nat n /\ is_load m0 buf j) -> USER_BASE <= first_load n i m0 buf.
Proof.
  induction n as [|n IH]; intros i Hi Hn (j & Hj & Hl); [lia|]. cbn [first_load]. destruct (Z.eqb_spec (p_type (ph i)) PT_LOAD) as [Hli|Hli].
  - destruct (ex_segments _ _ _ Hx i ltac:(lia) Hli) as ([[? _] _ _ _ _] & _). done.
  - apply IH; [lia|lia|]. exists j. split; [|done]. destruct (Z.eq_dec i j) as [->|]; [done|lia].
Qed.

Lemma load_elf_spec : space s0 ->
  exists s', load_elf buf s0 = Some (err OK, s') /\ evolves s0 s' /\
    (forall j, 0 <= j < phnum -> is_load m0 buf j -> segment_loaded m0 buf (ph j) s') /\
    (forall x v, user x -> (forall j, 0 <= j < phnum -> is_load m0 buf j -> ~ in_segment (ph j) x) -> vload s0 x = Some v -> vload s' x = Some v) /\
    lenz (avail s0) <= lenz (avail s') + 4 * pages_from (Z.to_nat phnum) 0 m0 buf.
Proof.
  intros Hs. pose proof phnum_range as Hr. unfold load_elf. rewrite (ex_type _ _ _ Hx), Z.eqb_refl. cbn [negb].
  assert (USER_BASE <= get_first_load_addr m0 buf) as Hfirst. { destruct (ex_some _ _ _ Hx) as (j & Hj & Hl). apply first_load_user; [lia|lia|]. exists j. split; [lia|done]. }
  unfold USER_BASE in Hfirst. destruct (Z.ltb_spec (get_first_load_addr m0 buf) 0xffff800000000000); [lia|]. unfold copy_load_segment.
  apply copy_segments_spec; [lia|lia|unfold MAX_PHNUM; lia|done|done|apply Hx|apply Hx].
Qed.
End file.
