(* ===== verification/ElfSpec.v ===== *)
(** * What the program loader promises

    A well-formed executable is mapped byte for byte; its arguments arrive as
    strings; it starts with its stack and heap mapped. *)

From S2P Require Import Prelude Message Pages Paging PagingProofs PagingTree PagingFork PagingFault PagingMap Elf ElfProofs.

Open Scope Z_scope.

(** ** Mapping *)

(** C17: (mapping) [setup_page_tables] always returns.  With four pages in reserve for each page of
    the range it succeeds: pages that were not mapped get frames of zeros from the
    reserve, each its own, owned by the program and accessible to it; pages that were
    mapped keep their frames; the rest of the address space, the kernel's half and all
    other memory stay as they are.  When the reserve runs out it says so, with the
    pages before the failure mapped. *)
Theorem setup_page_tables_maps s a n w : growable 4 (cr3 s) 256 s -> user a -> 0 <= n < 2 ^ 31 -> upage a + n <= 2 ^ 36 ->
  exists e s' j A L, setup_page_tables a n w s = Some (e, s') /\ grown 4 w (cr3 s) 256 (upage a) (upage a + j) s s' A L /\
    ((e = err OK /\ j = n) \/ (e = err ERR_NO_MEMORY /\ 0 <= j < n /\ avail s' = [])) /\ (4 * n <= lenz (avail s) -> e = err OK).
Proof.
  intros Hg Ha Hn Hend. destruct (user_vpn a Ha) as [Va Ra]. unfold setup_page_tables.
  destruct (setup_spec 3 w (cr3 s) 256 a n s Hg (user_part a Ha) Hn) as (r & s' & -> & j & A & L & Hj & G & Hr). cbn [mbind option_bind]. rewrite Va in *. change (512 ^ Z.of_nat 4) with (2 ^ 36) in Hr.
  change (Z.of_nat 4) with 4 in *. eexists _, s', j, A, L. split; [done|]. split; [done|]. destruct Hr as [(-> & Hm & _)|(-> & Hav & Hlt & _ & Hlow)].
  - assert (j = n) as -> by lia. rewrite Z.sub_diag. split; [by left|done].
  - split; [right; split_and!; [done|done|done|done]|lia].
Qed.

(** C16: (loader) A well-formed executable is loaded: every byte of every segment is mapped for the
    program and holds the byte of the file, or zero behind the part in the file; bytes
    that were mapped before and lie outside the segments keep their values, and frames
    outside the address space are not touched. *)
Theorem load_elf_correct s buf len : space s -> executable s buf len ->
  let m := ram s in let phnum := e_phnum (read_ehdr m buf) in let ph := get_program_header m buf in
  exists s', load_elf buf s = Some (err OK, s') /\ evolves s s' /\
    (forall j, 0 <= j < phnum -> is_load m buf j -> segment_loaded m buf (ph j) s') /\
    (forall x v, user x -> (forall j, 0 <= j < phnum -> is_load m buf j -> ~ in_segment (ph j) x) -> vload s x = Some v -> vload s' x = Some v).
Proof. intros Hs Hx m phnum ph. destruct (load_elf_spec s buf len Hx Hs) as (s' & E & Hev & Hl & Hk & _). by exists s'. Qed.

(** ** Arguments *)

(** Writing a string of bytes. *)
Lemma write_bytes_spec l : forall s dest, space s -> mapped_range s dest (lenz l) -> Forall (fun b => 0 <= b < 256) l ->
  exists s', write_bytes dest l s = Some s' /\ rewritten s s' /\
    (forall k b, l !! k = Some b -> vload s' (dest + Z.of_nat k) = Some b) /\ (forall x, user x -> ~ (dest <= x < dest + lenz l) -> vload s' x = vload s x).
Proof.
  induction l as [|b l IH]; intros s dest Hs Hm Hb; [exists s; by split; [|split; [apply rewritten_refl|split]]|]. apply Forall_cons in Hb as [Hb Hl]. rewrite lenz_cons in *. pose proof (lenz_nonneg l).
  destruct (Hm dest ltac:(lia)) as [Hu [e He]]. cbn [write_bytes]. destruct (vstore_ok s dest b e Hs Hu Hb He) as (s1 & -> & Hw1 & Hv1). cbn [mbind option_bind].
  destruct (IH s1 (dest + 1)) as (s2 & -> & Hw2 & Hv2 & Hk2); [apply Hw1| |done|]. { intros a Ha. apply (mapped_rewritten s s1 _ _ Hw1 Hm). lia. }
  exists s2. split; [done|]. split; [by eapply rewritten_trans|]. split.
  - intros [|k] c Hc; cbn in Hc.
    + injection Hc as <-. rewrite Z.add_0_r, Hk2 by (done || lia). rewrite Hv1 by done. by rewrite Z.eqb_refl.
    + replace (dest + Z.of_nat (S k)) with (dest + 1 + Z.of_nat k) by lia. by apply Hv2.
  - intros x Hx Hn. rewrite Hk2, Hv1 by (done || lia). destruct (Z.eqb_spec x dest); [lia|done].
Qed.

(** A string with its terminator, and a 64-bit pointer. *)
Definition string_at (s : Vm) (a : Z) (str : list Z) : Prop := forall k b, (str ++ [0]) !! k = Some b -> vload s (a + Z.of_nat k) = Some b.
Definition pointer_at (s : Vm) (a v : Z) : Prop := forall k, (k < 8)%nat -> vload s (a + Z.of_nat k) = Some (v / 2 ^ (8 * Z.of_nat k) mod 256).

Lemma store_pointer_spec s dest v : space s -> mapped_range s dest 8 ->
  exists s', store_pointer dest v s = Some s' /\ rewritten s s' /\ pointer_at s' dest v /\ (forall x, user x -> ~ (dest <= x < dest + 8) -> vload s' x = vload s x).
Proof.
  intros Hs Hm. unfold store_pointer. set (l := (fun k => v / 2 ^ (8 * k) mod 256) <$> seqZ 0 8). assert (lenz l = 8) as Hl by done.
  destruct (write_bytes_spec l s dest Hs) as (s' & E & Hw & Hv & Hk); [by rewrite Hl|unfold l; apply Forall_fmap, Forall_forall; intros k _; by apply Z.mod_pos_bound|].
  exists s'. split; [done|]. split; [done|]. split; [|by rewrite Hl in Hk]. intros k Hk8. apply Hv. unfold l. rewrite list_lookup_fmap, lookup_seqZ_lt by lia. done.
Qed.

Lemma strncpy_spec s dest str n : space s -> 0 <= n -> mapped_range s dest n -> Forall (fun b => 0 <= b < 256) str -> lenz str < n ->
  exists s', strncpy dest str n s = Some s' /\ rewritten s s' /\ string_at s' dest str /\ (forall x, user x -> ~ (dest <= x < dest + n) -> vload s' x = vload s x).
Proof.
  intros Hs Hn Hm Hb Hlt. unfold strncpy. set (l := take (Z.to_nat n) (str ++ replicate (Z.to_nat n) 0)). unfold lenz in Hlt.
  assert (lenz l = n) as Hl by (unfold l, lenz; rewrite length_take, length_app, length_replicate; lia).
  destruct (write_bytes_spec l s dest Hs) as (s' & E & Hw & Hv & Hk); [by rewrite Hl| |].
  { unfold l. apply Forall_take, Forall_app. split; [done|]. apply Forall_replicate. lia. }
  exists s'. split; [done|]. split; [done|]. split; [|by rewrite Hl in Hk]. intros k b Hkb. apply Hv. unfold l. pose proof (lookup_lt_Some _ _ _ Hkb) as Hlk. rewrite length_app in Hlk. simpl in Hlk.
  rewrite lookup_take_lt by lia. destruct (decide (k < length str)%nat) as [Hks|Hks]; [by rewrite lookup_app_l in Hkb |- * by lia|].
  rewrite lookup_app_r in Hkb |- * by lia. replace (k - length str)%nat with O in Hkb |- * by lia. cbn in Hkb. injection Hkb as <-. apply lookup_replicate_2. lia.
Qed.

(** The words of a string. *)
Fixpoint words_from (cur p : list Z) : list (list Z) :=
  match p with
  | [] => if decide (cur = []) then [] else [cur]
  | c :: p => if c =? 32 then (if decide (cur = []) then [] else [cur]) ++ words_from [] p else words_from (cur ++ [c]) p
  end.
Definition words (p : list Z) : list (list Z) := words_from [] p.

Lemma words_skip p : words (skip_spaces p) = words p.
Proof. induction p as [|c p IH]; [done|]. cbn [skip_spaces]. unfold words in *. destruct (Z.eqb_spec c 32) as [->|]; [by rewrite IH|done]. Qed.

Lemma words_split p : forall cur, let (arg, rest) := split_word p in
  words_from cur p = (if decide (cur ++ arg = []) then [] else [cur ++ arg]) ++ words (tail rest) /\ match rest with [] => True | c :: _ => c = 32 end /\ (length arg + length rest = length p)%nat.
Proof.
  induction p as [|c p IH]; intros cur; [cbn; by rewrite !app_nil_r|]. cbn [split_word words_from]. destruct (Z.eqb_spec c 32) as [->|Hc]; [cbn [tail]; by rewrite app_nil_r|].
  specialize (IH (cur ++ [c])). destruct (split_word p) as [arg rest]. destruct IH as (E & Hr & Hl). rewrite <- app_assoc in E. split_and!; [done|done|cbn; lia].
Qed.

Lemma skip_spaces_head p c q : skip_spaces p = c :: q -> c <> 32 /\ (length (c :: q) <= length p)%nat.
Proof. induction p as [|d p IH]; [done|]. cbn [skip_spaces]. destruct (Z.eqb_spec d 32) as [->|Hd]; [intros [H1 H2]%IH; split; [done|simpl in *; lia]|]. by intros [= -> ->]. Qed.

(** The bytes that strings take, with their terminators. *)
Fixpoint total (ws : list (list Z)) : Z := match ws with [] => 0 | w :: ws => lenz w + 1 + total ws end.

Lemma total_app ws vs : total (ws ++ vs) = total ws + total vs.
Proof. induction ws as [|w ws IH]; [done|]. cbn [app total]. lia. Qed.

Lemma total_nonneg ws : 0 <= total ws.
Proof. induction ws as [|w ws IH]; [done|]. cbn [total]. pose proof (lenz_nonneg w). lia. Qed.

Lemma total_take ws i w : ws !! i = Some w -> total (take i ws) + lenz w + 1 <= total ws.
Proof. intros H. rewrite <- (take_drop_middle ws i w H) at 2. rewrite total_app. cbn [total]. pose proof (total_nonneg (drop (S i) ws)). lia. Qed.

Section args.
Context (argv argv_len arg_buf arg_buf_len : Z) (Happart : argv + 8 * argv_len <= arg_buf).

(** The strings [ws] are in place. *)
Record placed (ws : list (list Z)) (s : Vm) : Prop := mkPlaced {
  pl_pointers : forall i w, ws !! i = Some w -> pointer_at s (argv + 8 * Z.of_nat i) (arg_buf + total (take i ws));
  pl_strings : forall i w, ws !! i = Some w -> string_at s (arg_buf + total (take i ws)) w;
}.

Definition areas (s : Vm) : Prop := mapped_range s argv (8 * argv_len) /\ mapped_range s arg_buf arg_buf_len.
Definition fits (ws : list (list Z)) : Prop := lenz ws <= argv_len /\ total ws <= arg_buf_len /\ Forall (Forall (fun b => 0 <= b < 256)) ws.

(** Writing behind the strings keeps them. *)
Lemma placed_kept ws s s' : fits ws -> areas s -> placed ws s ->
  (forall x, user x -> argv <= x < argv + 8 * lenz ws \/ arg_buf <= x < arg_buf + total ws -> vload s' x = vload s x) -> placed ws s'.
Proof.
  intros (Hn & Ht & _) [Ha Hb] [Hp Hst] Hk. split.
  - intros i w Hi k Hk8. pose proof (lookup_lt_Some _ _ _ Hi). unfold lenz in *. rewrite Hk; [by apply (Hp i w Hi)|apply Ha; lia|left; lia].
  - intros i w Hi k b Hkb. pose proof (total_take ws i w Hi). pose proof (total_nonneg (take i ws)). pose proof (lookup_lt_Some _ _ _ Hkb) as Hl. rewrite length_app in Hl. simpl in Hl. unfold lenz in *.
    rewrite Hk; [by apply (Hst i w Hi)|apply Hb; lia|right; lia].
Qed.

(** Bytes outside the two areas are kept. *)
Definition args_only (s s' : Vm) : Prop := rewritten s s' /\ forall x, user x -> ~ (argv <= x < arg_buf + arg_buf_len) -> vload s' x = vload s x.

Lemma args_only_trans s1 s2 s3 : args_only s1 s2 -> args_only s2 s3 -> args_only s1 s3.
Proof. intros [H1 H2] [K1 K2]. split; [by eapply rewritten_trans|]. intros x Hx Hn. by rewrite K2, H2. Qed.

Lemma areas_rewritten s s' : rewritten s s' -> areas s -> areas s'.
Proof. intros Hw [Ha Hb]. split; by apply (mapped_rewritten s). Qed.

Lemma argv_push_spec ws w s : space s -> areas s -> fits (ws ++ [w]) -> placed ws s ->
  exists s', push_to_argv argv argv_len arg_buf arg_buf_len w (mkArgs (lenz ws) (total ws)) s = Some (mkArgs (lenz (ws ++ [w])) (total (ws ++ [w])), s') /\ args_only s s' /\ placed (ws ++ [w]) s'.
Proof.
  intros Hs Ha Hfit Hpl. pose proof Hfit as (Hn & Ht & Hb). rewrite lenz_app, total_app in *. change (lenz [w]) with 1 in *. cbn [total] in *. apply Forall_app in Hb as [Hbs Hbw]. apply Forall_cons in Hbw as [Hbw _].
  pose proof (total_nonneg ws). pose proof (lenz_nonneg w). pose proof (lenz_nonneg ws). unfold push_to_argv. cbn [argc arg_buf_index].
  destruct (Z.leb_spec argv_len (lenz ws)); [lia|]. destruct (Z.leb_spec arg_buf_len (total ws)); [lia|]. cbn [orb]. pose proof Ha as [Hav Hbuf].
  destruct (store_pointer_spec s (argv + 8 * lenz ws) (arg_buf + total ws) Hs) as (s1 & -> & Hw1 & Hp1 & Hk1); [intros x Hx; apply Hav; lia|]. cbn [mbind option_bind].
  pose proof (areas_rewritten s s1 Hw1 Ha) as [Hav1 Hbuf1].
  destruct (strncpy_spec s1 (arg_buf + total ws) w (arg_buf_len - total ws)) as (s2 & -> & Hw2 & Hp2 & Hk2); [apply Hw1|lia|intros x Hx; apply Hbuf1; lia|exact Hbw|lia|]. cbn [mbind option_bind].
  exists s2. split; [do 2 f_equal; f_equal; lia|]. split; [split; [by eapply rewritten_trans|intros x Hx Hnx; rewrite Hk2, Hk1 by (done || lia); done]|].
  assert (placed ws s2) as [Hp Hst]. { apply (placed_kept ws s); [split_and!; [lia|lia|done]|done|done|]. intros x Hx Hr. rewrite Hk2, Hk1 by (done || lia). done. }
  split; intros i v Hi.
  - destruct (decide (i < length ws)%nat) as [Hlt|Hge].
    + rewrite lookup_app_l in Hi by done. rewrite take_app_le by lia. by apply (Hp i v).
    + rewrite lookup_app_r in Hi by lia. destruct (i - length ws)%nat as [|?] eqn:E; [|done]. assert (i = length ws) as -> by lia. rewrite take_app_length. unfold lenz in *.
      intros k Hk. rewrite Hk2; [by apply Hp1|apply Hav; lia|lia].
  - destruct (decide (i < length ws)%nat) as [Hlt|Hge].
    + rewrite lookup_app_l in Hi by done. rewrite take_app_le by lia. by apply (Hst i v).
    + rewrite lookup_app_r in Hi by lia. destruct (i - length ws)%nat as [|?] eqn:E; [|done]. assert (i = length ws) as -> by lia. rewrite take_app_length. by injection Hi as <-.
Qed.

Lemma fits_app ws vs us : fits (ws ++ vs ++ us) -> fits (ws ++ vs).
Proof.
  intros (Hn & Ht & Hb). rewrite app_assoc in Hn, Ht, Hb. rewrite lenz_app in Hn. rewrite total_app in Ht. apply Forall_app in Hb as [Hb _]. pose proof (lenz_nonneg us). pose proof (total_nonneg us).
  split_and!; [lia|lia|done].
Qed.

Lemma argv_scan_spec fuel : forall p ws s, (length p < fuel)%nat -> space s -> areas s -> fits (ws ++ words p) -> placed ws s ->
  exists s', scan_args argv argv_len arg_buf arg_buf_len fuel p (mkArgs (lenz ws) (total ws)) s = Some (mkArgs (lenz (ws ++ words p)) (total (ws ++ words p)), s') /\ args_only s s' /\ placed (ws ++ words p) s'.
Proof.
  induction fuel as [|fuel IH]; intros p ws s Hf Hs Ha Hfit Hpl; [lia|]. cbn [scan_args]. rewrite <- (words_skip p) in *. destruct (skip_spaces p) as [|c q] eqn:Hq.
  { change (words []) with (@nil (list Z)) in *. rewrite app_nil_r. exists s. split; [done|]. split; [split; [by apply rewritten_refl|done]|done]. }
  destruct (skip_spaces_head p c q Hq) as [Hc Hlen]. pose proof (words_split (c :: q) []) as Hw. cbn [split_word] in Hw |- *. destruct (Z.eqb_spec c 32); [done|]. destruct (split_word q) as [arg rest]. cbn [app] in Hw.
  destruct Hw as (E & Hr & Hl). destruct (decide (c :: arg = [])) as [|_]; [done|]. unfold words in Hfit |- *. rewrite E in Hfit |- *.
  destruct (argv_push_spec ws (c :: arg) s Hs Ha (fits_app _ _ _ Hfit) Hpl) as (s1 & -> & Hw1 & Hpl1). cbn [mbind option_bind]. destruct rest as [|d rest].
  - change (words (tail [])) with (@nil (list Z)). exists s1. split; [done|]. split; done.
  - cbn [tail] in *. rewrite app_assoc in Hfit |- *. destruct (IH rest (ws ++ [c :: arg]) s1) as (s2 & -> & Hw2 & Hpl2); [simpl in *; lia|apply Hw1|by apply (areas_rewritten s); [apply Hw1|]|done|done|].
    exists s2. split; [done|]. split; [by eapply args_only_trans|done].
Qed.

(** The command and the words of its arguments. *)
Definition arg_words (command : list Z) (args : option (list Z)) : list (list Z) := command :: match args with Some p => words p | None => [] end.

Lemma make_args_spec command args s : space s -> areas s -> fits (arg_words command args) ->
  exists s', make_args argv argv_len arg_buf arg_buf_len command args s = Some (lenz (arg_words command args), s') /\ args_only s s' /\ placed (arg_words command args) s'.
Proof.
  intros Hs Ha Hfit. unfold make_args. assert (placed [] s) as H0 by (split; intros i w Hi; by rewrite lookup_nil in Hi).
  assert (arg_words command args = ([] ++ [command]) ++ match args with Some p => words p | None => [] end) as Ew by done. rewrite Ew in Hfit |- *.
  destruct (argv_push_spec [] command s Hs Ha) as (s1 & E & Hw1 & Hpl1); [by rewrite <- app_assoc in Hfit; apply fits_app in Hfit|done|].
  change (mkArgs 0 0) with (mkArgs (lenz (@nil (list Z))) (total [])). rewrite E. cbn [mbind option_bind]. destruct args as [p|]; [|rewrite app_nil_r; by exists s1].
  destruct (argv_scan_spec (S (length p)) p ([] ++ [command]) s1) as (s2 & -> & Hw2 & Hpl2); [lia|apply Hw1|by apply (areas_rewritten s); [apply Hw1|]|done|done|]. cbn [mbind option_bind argc].
  exists s2. split; [done|]. split; [by eapply args_only_trans|done].
Qed.
End args.

(** ** Execution *)

Local Abbreviation ARG_BUF := (ARGV_ADDR + ARG_V_LEN * 8).
Local Abbreviation ARG_BUF_LEN := (PAGE_SIZE - ARG_V_LEN * 8).

Lemma segment_kept m buf ph s s' : loadable ph -> (forall x v, user x -> in_segment ph x -> vload s x = Some v -> vload s' x = Some v) ->
  segment_loaded m buf ph s -> segment_loaded m buf ph s'.
Proof.
  intros [Hu [H1 H2] He _ _] Hk [L1 L2]. unfold user, USER_BASE, in_segment in *. split; intros j Hj; (apply Hk; [lia|lia|]); [by apply L1|by apply L2].
Qed.

Lemma pages_range s a n k : mapped_pages s a n k -> a mod PAGE_SIZE = 0 -> user a -> a + n * PAGE_SIZE <= 2 ^ 64 -> mapped_range k a (n * PAGE_SIZE).
Proof.
  intros [_ Hm _ _ _ _] Ha Hu He x Hx. unfold user, USER_BASE, PAGE_SIZE in *. assert (in_pages a n x) as Hin; [|split; [apply Hin|by apply Hm]].
  split; [unfold user, USER_BASE; lia|]. unfold upage, PAGE_SIZE. pose proof (Z.div_mod a 4096 ltac:(lia)). assert (a / 4096 <= x / 4096) by (apply Z.div_le_mono; lia).
  assert (x / 4096 < a / 4096 + n); [|lia]. apply Z.div_lt_upper_bound; lia.
Qed.

Lemma mapped_evolves s s' dest n a k : mapped_range s dest n -> mapped_pages s a k s' -> space s -> mapped_range s' dest n.
Proof.
  intros Hm [[Hs' Hroot _] _ Hk _ _ _] Hs x Hx. destruct (Hm x Hx) as [Hu [e He]]. split; [done|]. destruct (vload_mapped s' x (ldb (ram s) (at_entry e x)) Hs' Hu) as [e' He']; [|by exists e'].
  apply Hk; [done|]. by apply vload_leaf.
Qed.

Lemma IS_ERR_OK : IS_ERR (err OK) = false.
Proof. done. Qed.

(** The pages an execution needs besides the segments: arguments, stack and heap. *)
Definition EXTRA_PAGES : Z := 1 + STACK_SIZE / PAGE_SIZE + USER_HEAP_SIZE / PAGE_SIZE.

(** Everything a program finds when it starts. *)
Record started (m : Frames) (buf : Z) (argv : list (list Z)) (s : Vm) : Prop := mkStarted {
  st_space : space s;
  st_segments : forall j, 0 <= j < e_phnum (read_ehdr m buf) -> is_load m buf j -> segment_loaded m buf (get_program_header m buf j) s;
  st_argv : placed ARGV_ADDR ARG_BUF argv s;
  st_stack : mapped_range s STACK_ADDR STACK_SIZE;
  st_heap : mapped_range s USER_HEAP_BASE USER_HEAP_SIZE;
}.

(** A mapped area keeps its bytes when more is mapped. *)
Lemma mapped_kept s s' dest n a k : space s -> mapped_range s dest n -> mapped_pages s a k s' -> forall x, dest <= x < dest + n -> vload s' x = vload s x.
Proof.
  intros Hs Hm [_ _ Hk _ _ _] x Hx. destruct (Hm x Hx) as [Hu [e He]]. pose proof (vload_leaf s x e Hs Hu He) as Hv. rewrite Hv. by apply Hk.
Qed.

Local Abbreviation arg_areas := (areas ARGV_ADDR ARG_V_LEN ARG_BUF ARG_BUF_LEN).

Lemma areas_pages s s' a n : space s -> arg_areas s -> mapped_pages s a n s' -> arg_areas s'.
Proof. intros Hs [H1 H2] Hm. split; by apply (mapped_evolves s s' _ _ a n). Qed.

Lemma placed_pages ws s s' a n : fits ARG_V_LEN ARG_BUF_LEN ws -> arg_areas s -> space s -> placed ARGV_ADDR ARG_BUF ws s -> mapped_pages s a n s' -> placed ARGV_ADDR ARG_BUF ws s'.
Proof.
  intros Hf Ha Hs Hpl Hm. apply (placed_kept ARGV_ADDR ARG_V_LEN ARG_BUF ARG_BUF_LEN ws s); [done|done|done|]. destruct Ha as [H1 H2], Hf as (F1 & F2 & _).
  intros x Hx [Hr|Hr]; [apply (mapped_kept s s' ARGV_ADDR (8 * ARG_V_LEN) a n); [done|done|done|lia]|apply (mapped_kept s s' ARG_BUF ARG_BUF_LEN a n); [done|done|done|lia]].
Qed.

Lemma fixed_addresses : user ARGV_ADDR /\ user STACK_ADDR /\ user USER_HEAP_BASE /\ upage ARGV_ADDR + 1 <= 2 ^ 36 /\ upage STACK_ADDR + 8 <= 2 ^ 36 /\ upage USER_HEAP_BASE + 256 <= 2 ^ 36.
Proof. unfold user, USER_BASE, upage, ARGV_ADDR, STACK_ADDR, STACK_SIZE, USER_HEAP_BASE, PAGE_SIZE. split_and!; vm_compute; solve [reflexivity|intros ?; discriminate]. Qed.

(** (execution) With memory for its segments, arguments, stack and heap a well-formed executable
    is started at its entry point: the segments hold the file, [argc] and [argv] are
    the words of the command line, and the stack and the heap are mapped. *)
Theorem exec_elf_starts s buf len name args : space s -> executable s buf len -> is_elf (ram s) buf = true ->
  (forall j x, 0 <= j < e_phnum (read_ehdr (ram s) buf) -> is_load (ram s) buf j -> in_segment (get_program_header (ram s) buf j) x -> x < ARGV_ADDR) ->
  4 * (pages_from (Z.to_nat (e_phnum (read_ehdr (ram s) buf))) 0 (ram s) buf + EXTRA_PAGES) <= lenz (avail s) ->
  fits ARG_V_LEN ARG_BUF_LEN (arg_words name args) ->
  exists s', exec_elf buf name args s =
      Some (Some (mkEnter (lenz (arg_words name args)) ARGV_ADDR (e_entry (read_ehdr (ram s) buf)) (STACK_ADDR + STACK_SIZE - 8)), s') /\
    evolves s s' /\ started (ram s) buf (arg_words name args) s'.
Proof.
  intros Hs Hx Helf Hbelow Hroom Hfit. pose proof fixed_addresses as (UA & US & UH & PA & PS & PH). assert (EXTRA_PAGES = 265) as Hextra by reflexivity. rewrite Hextra in Hroom. unfold exec_elf. rewrite Helf. cbn [negb].
  destruct (load_elf_spec s buf len Hx Hs) as (s1 & -> & Hev1 & Hl1 & _ & Hsup1). cbv [mbind option_bind]. rewrite IS_ERR_OK.
  destruct (same_file_evolves s s1 buf len (ex_file _ _ _ Hx) Hev1) as [Hsf _]. rewrite (ehdr_same (ram s) (ram s1) buf len) by (done || apply Hx).
  destruct (setup_space s1 ARGV_ADDR 1) as (s2 & -> & Hm2); [apply Hev1|done|lia|done|lia|]. cbv [mbind option_bind]. rewrite IS_ERR_OK. pose proof Hm2 as [Hev2 _ Hk2 _ Hsup2 _].
  pose proof (pages_range s1 ARGV_ADDR 1 s2 Hm2 eq_refl UA ltac:(vm_compute; intros ?; discriminate)) as Hr2.
  assert (arg_areas s2) as Ha2. { split; intros x Hr; apply Hr2; unfold ARG_V_LEN, ARGV_ADDR, PAGE_SIZE in *; lia. }
  destruct (make_args_spec ARGV_ADDR ARG_V_LEN ARG_BUF ARG_BUF_LEN) with (command := name) (args := args) (s := s2) as (s3 & -> & [Hw3 Ho3] & Hpl3); [vm_compute; intros ?; discriminate|apply Hev2|done|done|].
  cbv [mbind option_bind]. pose proof (areas_rewritten _ _ _ _ s2 s3 Hw3 Ha2) as Ha3. pose proof Hw3 as [Hev3 Hav3 _].
  assert (STACK_SIZE / PAGE_SIZE = 8) as -> by reflexivity. destruct (setup_space s3 STACK_ADDR 8) as (s4 & -> & Hm4); [apply Hev3|done|lia|done|rewrite Hav3; lia|]. cbv [mbind option_bind]. rewrite IS_ERR_OK.
  pose proof Hm4 as [Hev4 _ Hk4 _ Hsup4 _]. assert (USER_HEAP_SIZE / PAGE_SIZE = 256) as -> by reflexivity. rewrite Hav3 in Hsup4.
  destruct (setup_space s4 USER_HEAP_BASE 256) as (s5 & -> & Hm5); [apply Hev4|done|lia|done|lia|]. cbv [mbind option_bind]. rewrite IS_ERR_OK. pose proof Hm5 as [Hev5 _ Hk5 _ _ _].
  exists s5. split; [done|]. split; [exact (evolves_trans _ _ _ Hev1 (evolves_trans _ _ _ Hev2 (evolves_trans _ _ _ Hev3 (evolves_trans _ _ _ Hev4 Hev5))))|]. split; [apply Hev5| | | |].
  - intros j Hj Hlj. destruct (ex_segments _ _ _ Hx j Hj Hlj) as (Hl & _). apply (segment_kept (ram s) buf _ s1); [done| |by apply Hl1].
    intros x v Hu Hin Hv. apply Hk5, Hk4; [done|done|]. rewrite Ho3; [by apply Hk2|done|]. pose proof (Hbelow j x Hj Hlj Hin). lia.
  - apply (placed_pages _ s4 s5 USER_HEAP_BASE 256); [done|by apply (areas_pages s3 s4 STACK_ADDR 8); [apply Hev3| |]|apply Hev4| |done]. apply (placed_pages _ s3 s4 STACK_ADDR 8); [done|done|apply Hev3|done|done].
  - apply (mapped_evolves s4 s5 _ _ USER_HEAP_BASE 256); [|done|apply Hev4]. apply (pages_range s3 STACK_ADDR 8 s4 Hm4 eq_refl US). vm_compute. intros ?. discriminate.
  - apply (pages_range s4 USER_HEAP_BASE 256 s5 Hm5 eq_refl UH). vm_compute. intros ?. discriminate.
Qed.

(** ** Segments that cross a page *)

Lemma for_n_split {S : Type} (f : Z -> S -> option S) n k : forall a s, for_n (n + k) a f s = (t ← for_n n a f s; for_n k (a + Z.of_nat n) f t).
Proof.
  induction n as [|n IH]; intros a s; [simpl; by rewrite Z.add_0_r|]. cbn [Nat.add for_n]. destruct (f a s) as [t|]; [|done]. cbn [mbind option_bind]. rewrite IH.
  by replace (a + 1 + Z.of_nat n) with (a + Z.of_nat (Datatypes.S n)) by lia.
Qed.

Lemma vstore_unmapped s a b : space s -> user a -> leaf 4 (ram s) (cr3 s) a = None -> vstore a b s = None.
Proof.
  intros Hs Hu Hn. unfold vstore. destruct (paddr s a) as [p|] eqn:E; [|done]. exfalso. destruct (vload_mapped s a (ldb (ram s) p) Hs Hu) as [e He]; [|congruence]. unfold vload. by rewrite E.
Qed.

(** (loader, crossing segments) The number of pages is computed from the size alone: when a
    segment starts inside a page and its file part reaches past the pages counted, the
    copy runs into a page that is not mapped, and the kernel faults. *)
Theorem crossing_segment_faults s buf ph : space s -> user (p_vaddr ph) -> 0 < p_filesz ph <= p_memsz ph -> p_memsz ph < 2 ^ 42 -> p_vaddr ph + p_memsz ph <= 2 ^ 64 ->
  kernel_bytes s (buf + p_offset ph) (p_filesz ph) -> 4 * pages_of (p_memsz ph) <= lenz (avail s) ->
  pages_of (p_memsz ph) * PAGE_SIZE < p_vaddr ph mod PAGE_SIZE + p_filesz ph ->
  (forall x, user x -> upage (p_vaddr ph) + pages_of (p_memsz ph) <= upage x -> leaf 4 (ram s) (cr3 s) x = None) ->
  load_segment buf ph s = fault.
Proof.
  intros Hs Hu Hsz Hsmall Hend Hk Hroom Hcross Hfree. destruct (pages_small (p_memsz ph) ltac:(lia)) as [Hp Hp1]. set (n := pages_of (p_memsz ph)) in *. set (v := p_vaddr ph) in *.
  pose proof Hu as Hu'. unfold user, USER_BASE, PAGE_SIZE in Hu', Hcross, Hp1. pose proof (Z.div_mod v 4096 ltac:(lia)) as Hdm. pose proof (Z.mod_pos_bound v 4096 ltac:(lia)) as Hmod.
  set (b := (v / 4096 + n) * 4096). assert (v <= b < v + p_filesz ph) as Hb by (unfold b; lia). assert (user b) as Hub by (unfold user, USER_BASE; lia).
  assert (upage b = upage v + n) as Hpb by (unfold upage, b, PAGE_SIZE; rewrite Z.div_mul by lia; lia).
  destruct (user_vpn b Hub) as [_ Hrb]. unfold load_segment. fold v n. fold (pages_of (p_memsz ph)). fold n.
  destruct (setup_space s v n Hs Hu ltac:(lia) ltac:(lia) Hroom) as (s1 & -> & [[Hs1 Hroot Hfor] Hmp _ _ _ Hout]). cbn [mbind option_bind]. change (IS_ERR (err OK)) with false. cbv iota.
  assert (leaf 4 (ram s1) (cr3 s1) b = None) as Hnb by (rewrite Hout; [apply Hfree; [done|lia]|done|unfold in_pages; lia]).
  destruct (store_loop s1 v (b - v) (fun i s => ldb (ram s) (u64 (buf + p_offset ph + i))) (fun i => ldb (ram s) (buf + p_offset ph + i)) Hs1) as (s2 & E2 & [[Hs2 Hroot2 _] _ HL2] & _).
  { intros a Ha. assert (in_pages v n a) as Hin; [|split; [apply Hin|by apply Hmp]]. split; [unfold user, USER_BASE; lia|]. unfold upage, PAGE_SIZE. assert (v / 4096 <= a / 4096) by (apply Z.div_le_mono; lia).
    assert (a / 4096 < v / 4096 + n); [|lia]. apply Z.div_lt_upper_bound; [lia|]. unfold b in Ha. lia. }
  { intros i t Hi [[_ _ Hft] _ _]. destruct (Hk i ltac:(lia)) as [Hbb Hf]. split; [|apply ldb_range]. rewrite wrap_small by lia. destruct (Hfor _ Hf) as [Hf1 E1]. destruct (Hft _ Hf1) as [_ E2]. apply ldb_frame. by rewrite E2, E1. }
  unfold copy_out. replace (Z.to_nat (p_filesz ph)) with (Z.to_nat (b - v) + S (Z.to_nat (v + p_filesz ph - b - 1)))%nat by lia. rewrite for_n_split, E2. cbn [mbind option_bind for_n].
  replace (v + (0 + Z.of_nat (Z.to_nat (b - v)))) with b by lia. rewrite vstore_unmapped; [done|done|done|]. rewrite Hroot2, HL2; [done|by apply user_part].
Qed.
