(* ===== verification/PagingCheck.v ===== *)
(** * Paging at concrete states

    The hypotheses of the paging theorems hold at small machines, and the
    theorems give what the code does there. *)

From S2P Require Import Prelude Message Pages Paging PagingProofs PagingTree PagingFork PagingFault.

Open Scope Z_scope.

Lemma ram_ok_empty : ram_ok ∅.
Proof. intros pfn f Hf. by rewrite lookup_empty in Hf. Qed.

Lemma identity_mapping_correct_witness : exists s', initialize_paging 0x1000 0x2000 0x3000 (mkVm ∅ 0 [] [] []) = Some s' /\ translate s' 0xB8000 = Some 0xB8000.
Proof.
  destruct (identity_mapping_correct 0x1000 0x2000 0x3000 (mkVm ∅ 0 [] [] [])) as (s' & E & _ & H);
    [apply ram_ok_empty|done|done|done|done|done|done|done|done|unfold PAGE_SIZE; lia|unfold PAGE_SIZE; lia|].
  exists s'. split; [exact E|]. rewrite H by (unfold PAGE_1GIB, PAGE_2MIB, PAGE_SIZE; lia). reflexivity.
Defined.

(** The kernel's half as start-up leaves it, in a state with one free page. *)
Lemma kernel_half_example : exists m, ram_ok m /\ kernel_half (mkVm m 0x1000 [] [0x100000] []) 0x2000 0x3000.
Proof.
  destruct (setup_identity_spec 0x1000 0x2000 0x3000) with (s := mkVm ∅ 0 [] [] []) as (s & _ & [Hok Ht Hp Hd]);
    [done|done|done|done|unfold PAGE_SIZE; lia|unfold PAGE_SIZE; lia|apply ram_ok_empty|].
  exists (ram s). split; [exact Hok|]. split; [done|done|exact Ht|exact Hp|exact Hd].
Qed.

Lemma user_write_corrupts_kernel_witness : exists s s', handle_page_fault 7 0x7FE123 s = Some (err OK, s') /\
  get_next_level_table (entry s' 0x600000 0x1FE) = 0x100000.
Proof.
  destruct kernel_half_example as (m & Hok & Hk). exists (mkVm m 0x1000 [] [0x100000] []).
  destruct (user_write_corrupts_kernel (mkVm m 0x1000 [] [0x100000] []) 0x2000 0x3000 0x100000 [] 0x7FE123) as (s' & E & _ & H & _);
    [exact Hok|exact Hk|done|done|done|done|unfold PAGE_SIZE; lia|done|done|]. exists s'. exact (conj E H).
Defined.

(** A process with one writable page: four tables and a data page at 0x5000. *)
Definition table_with (i v : Z) : list Z := <[Z.to_nat i := v]> zero_frame.
Definition one_page : Frames :=
  list_to_map [(1, table_with 256 0x2007); (2, table_with 0 0x3007); (3, table_with 0 0x4007); (4, table_with 0 0x5207); (5, table_with 3 77)].
Definition tracked_pages : list Page := (fun i => mkPage 1 None None 1 (i * PAGE_SIZE)) <$> seqZ 0 16.
Definition process : Vm := mkVm one_page 0x1000 tracked_pages [0x6000; 0x7000; 0x8000; 0x9000; 0xA000; 0xB000; 0xC000; 0xD000; 0xE000] [].

Lemma process_ok : ram_ok one_page.
Proof.
  intros pfn f Hf. apply elem_of_list_to_map_2 in Hf.
  repeat (apply elem_of_cons in Hf as [Hf|Hf]; [injection Hf as -> ->; reflexivity|]). by apply not_elem_of_nil in Hf.
Qed.

Lemma process_tables : tables 4 one_page 0x1000 256 = [0x1000; 0x2000; 0x3000; 0x4000].
Proof. vm_compute. reflexivity. Qed.
Lemma process_leaves : leaves 4 one_page 0x1000 256 = [0x5000].
Proof. vm_compute. reflexivity. Qed.

Lemma process_forkable : forkable process.
Proof.
  split; unfold process; cbn [ram cr3 vm_pages avail]; rewrite ?process_tables, ?process_leaves.
  - exact process_ok.
  - reflexivity.
  - by apply (bool_decide_unpack _).
  - split; [by apply (bool_decide_unpack _)|]. repeat (apply Forall_cons; split; [split; [lia|reflexivity]|]). by apply Forall_nil.
  - intros x Hx. repeat (apply elem_of_cons in Hx as [->|Hx]; [by apply (bool_decide_unpack _)|]). by apply not_elem_of_nil in Hx.
  - simpl. lia.
  - repeat constructor; [|lia]. eexists. reflexivity.
  - intros i. unfold refs. destruct (atz tracked_pages i) as [p|] eqn:E; [|done]. apply atz_Some in E as [_ E]. apply list_elem_of_lookup_2 in E.
    apply list_elem_of_fmap in E as (j & -> & _). done.
Qed.

Lemma fork_shares_address_space_witness : exists p c s', copy_parent_page_table 0x1000 process = Some (err OK, p, c, s') /\
  leaf 4 (ram s') p 0x800000000000 = Some 0x5205 /\ leaf 4 (ram s') c 0x800000000000 = Some 0x5205.
Proof.
  destruct (fork_shares_address_space process process_forkable) as (p & c & s' & E & [Hp Hc _ _ _ _ _ _ _]). exists p, c, s'.
  assert (leaf 4 (ram process) (cr3 process) 0x800000000000 = Some 0x5207) as Hl by (vm_compute; reflexivity).
  split; [exact E|]. rewrite Hp, Hc, Hl by (vm_compute; discriminate). split; reflexivity.
Defined.

(** The process after a fork of the page: the entry is read-only, two references. *)
Definition sharer : Vm := mkVm (<[4 := table_with 0 0x5205]> one_page) 0x1000 tracked_pages [0x6000] [].

Lemma sharer_facts : tables 4 (ram sharer) 0x1000 256 = [0x1000; 0x2000; 0x3000; 0x4000] /\ leaf 4 (ram sharer) 0x1000 0x800000000000 = Some 0x5205 /\
  translate sharer 0x800000000000 = Some 0x5000.
Proof. vm_compute. split_and!; reflexivity. Qed.

Lemma sharer_fault : cow_fault sharer 0x800000000000 0x5205 0x6000.
Proof.
  destruct sharer_facts as (HT & HL & HR). assert (get_next_level_table 0x5205 = 0x5000) as Hd by reflexivity.
  split; change (cr3 sharer) with 0x1000; rewrite ?HT, ?Hd; [|reflexivity| | |exact HL|reflexivity|exact HR| |reflexivity|split; [lia|reflexivity]|].
  - apply ram_ok_insert; [exact process_ok|reflexivity].
  - vm_compute. discriminate.
  - by apply (bool_decide_unpack _).
  - split; [lia|by apply (bool_decide_unpack _)].
  - split; [lia|by apply (bool_decide_unpack _)].
Qed.

Lemma write_fault_copies_page_witness : exists s', handle_page_fault 7 0x800000000000 sharer = Some (err OK, s') /\
  leaf 4 (ram s') (cr3 s') 0x800000000000 = Some 0x6207 /\ frame (ram s') 6 = table_with 3 77.
Proof.
  destruct (write_fault_copies_page sharer 0x800000000000 0x5205 0x6000 sharer_fault) as (s' & E & [D1 D2 _ _ _ _ _ _]).
  exists s'. split; [exact E|]. split; [rewrite D1; reflexivity|exact D2].
Defined.

Lemma some4_inj {A B C D} (a a' : A) (b b' : B) (c c' : C) (d d' : D) : Some (a, b, c, d) = Some (a', b', c', d') -> a = a' /\ b = b' /\ c = c' /\ d = d'.
Proof. by intros [= -> -> -> ->]. Qed.
Lemma tuple6_inj {A B C D E F} (a a' : A) (b b' : B) (c c' : C) (d d' : D) (e e' : E) (f f' : F) : (a, b, c, d, e, f) = (a', b', c', d', e', f') ->
  a = a' /\ b = b' /\ c = c' /\ d = d' /\ e = e' /\ f = f'.
Proof. by intros [= -> -> -> -> -> ->]. Qed.

(** The machine after the fork of [process]. *)
Lemma process_forks : exists s1, copy_parent_page_table 0x1000 process = Some (err OK, 0x6000, 0xA000, s1) /\
  (cr3 s1, tables 4 (ram s1) 0x6000 256, tables 4 (ram s1) 0xA000 256, leaf 4 (ram s1) 0x6000 0x800000000000, translate s1 0x800000000000, avail s1) =
  (0x6000, [0x6000; 0x7000; 0x8000; 0x9000], [0xA000; 0xB000; 0xC000; 0xD000], Some 0x5205, Some 0x5000, [0xE000]).
Proof.
  assert (match copy_parent_page_table 0x1000 process with
    | Some (r, p, c, s) =>
        Some (r, p, c, (cr3 s, tables 4 (ram s) 0x6000 256, tables 4 (ram s) 0xA000 256, leaf 4 (ram s) 0x6000 0x800000000000, translate s 0x800000000000, avail s))
    | None => None
    end = Some (err OK, 0x6000, 0xA000, (0x6000, [0x6000; 0x7000; 0x8000; 0x9000], [0xA000; 0xB000; 0xC000; 0xD000], Some 0x5205, Some 0x5000, [0xE000]))) as H
    by (vm_compute; reflexivity).
  destruct (copy_parent_page_table 0x1000 process) as [[[[r p] c] s1]|]; [|discriminate H]. apply some4_inj in H as (-> & -> & -> & H).
  exists s1. exact (conj eq_refl H).
Qed.

Lemma forked_fault s1 : vm_ok s1 -> cr3 s1 = 0x6000 -> tables 4 (ram s1) 0x6000 256 = [0x6000; 0x7000; 0x8000; 0x9000] ->
  leaf 4 (ram s1) 0x6000 0x800000000000 = Some 0x5205 -> translate s1 0x800000000000 = Some 0x5000 -> avail s1 = [0xE000] ->
  cow_fault s1 0x800000000000 (set_writable false 0x5207) 0xE000.
Proof.
  intros Hok Hc HT HL HR HA. assert (get_next_level_table (set_writable false 0x5207) = 0x5000) as Hd by reflexivity.
  split; rewrite ?Hc, ?HT, ?Hd, ?HA; [exact Hok|reflexivity| | |exact HL|reflexivity|exact HR| |reflexivity|split; [lia|reflexivity]|].
  - vm_compute. discriminate.
  - by apply (bool_decide_unpack _).
  - split; [lia|by apply (bool_decide_unpack _)].
  - split; [lia|by apply (bool_decide_unpack _)].
Qed.

Lemma fork_isolates_writes_witness : exists s1 s2, copy_parent_page_table 0x1000 process = Some (err OK, 0x6000, 0xA000, s1) /\
  handle_page_fault 7 0x800000000000 s1 = Some (err OK, s2) /\ leaf 4 (ram s2) 0xA000 0x800000000000 = Some 0x5205 /\
  leaf 4 (ram s2) 0x6000 0x800000000000 = Some 0xE207.
Proof.
  destruct process_forks as (s1 & E & F). apply tuple6_inj in F as (F1 & F2 & F3 & F4 & F5 & F6). exists s1.
  assert (leaf 4 (ram process) (cr3 process) 0x800000000000 = Some 0x5207) as Hl by (vm_compute; reflexivity).
  assert (vm_ok s1) as Hok.
  { destruct (fork_spec process process_forkable) as (p & c & s' & E' & [_ _ _ _ _ _ _ _ (Hok & _)]).
    change (cr3 process) with 0x1000 in E'. rewrite E in E'. apply some4_inj in E' as (_ & _ & _ & <-). exact Hok. }
  destruct (fork_isolates_writes process 0x800000000000 0x5207 0x6000 0xA000 s1 0xE000 process_forkable E Hl) as (s2 & H2 & Hc & _ & Hp & _).
  - by apply forked_fault.
  - rewrite F3. by apply (bool_decide_unpack _).
  - exists s2. split_and!; [exact E|exact H2|rewrite Hc, Hl; [reflexivity|vm_compute; discriminate]|rewrite Hp; reflexivity].
Defined.
