(* ===== verification/Timer.v ===== *)
(** * Timers

    [kernel/timers/timer.cpp] and [timer.hpp], the timer interrupt of
    [interrupt/handlers.cpp], and [sys_time].

    [std::priority_queue] is a bag with a [top]; which of several events with the
    same timeout is on top is left open by the standard, so the choice is an
    instance of the class [PriorityQueue] and the theorems hold for each.
    [std::unordered_set] is a finite set. *)

From S2P Require Import Prelude Message Task.

Open Scope Z_scope.

(** ** Definitions *)

Definition TIMER_FREQUENCY : Z := 100.
Definition SWITCH_TASK_MILLISEC : Z := 20.

Record TimerEvent := mkEvent {
  ev_id : Z;
  task_id : Z;
  timeout : Z;
  period : Z;
  periodical : Z;
  ev_switch_task : bool;
}.

Definition set_timeout (v : Z) (e : TimerEvent) : TimerEvent :=
  mkEvent (ev_id e) (task_id e) v (period e) (periodical e) (ev_switch_task e).

(** The element on top of a queue: one with the earliest timeout. *)
Class PriorityQueue := mkPQ {
  top_index : list TimerEvent -> nat;
  top_index_min : forall l, l <> [] ->
    exists e, l !! top_index l = Some e /\ forall e', e' ∈ l -> timeout e <= timeout e';
}.

Record KernelTimer := mkTimer {
  tick_ : Z;
  last_id_ : Z;
  ignore_events_ : gset Z;
  events_ : list TimerEvent;
}.

Definition new_timer : KernelTimer := mkTimer 0 1 ∅ [].

Definition set_tick (v : Z) (k : KernelTimer) : KernelTimer := mkTimer v (last_id_ k) (ignore_events_ k) (events_ k).
Definition set_last_id (v : Z) (k : KernelTimer) : KernelTimer := mkTimer (tick_ k) v (ignore_events_ k) (events_ k).
Definition set_ignore (v : gset Z) (k : KernelTimer) : KernelTimer := mkTimer (tick_ k) (last_id_ k) v (events_ k).
Definition set_events (v : list TimerEvent) (k : KernelTimer) : KernelTimer := mkTimer (tick_ k) (last_id_ k) (ignore_events_ k) v.
Definition push_event (e : TimerEvent) (k : KernelTimer) : KernelTimer := set_events (e :: events_ k) k.

Definition calculate_timeout_ticks (millisec : Z) (k : KernelTimer) : Z :=
  u64 (tick_ k + u64 (millisec * TIMER_FREQUENCY) / 1000).

(** The identifier and the timer. *)
Definition add_timer_event (millisec tid : Z) (k : KernelTimer) : Z * KernelTimer :=
  let e := mkEvent (last_id_ k) tid (calculate_timeout_ticks millisec k) (u32 millisec) 0 false in
  (ev_id e, push_event e (set_last_id (u64 (last_id_ k + 1)) k)).

Definition add_periodic_timer_event (millisec tid eid : Z) (k : KernelTimer) : Z * KernelTimer :=
  if negb (eid =? 0) && (last_id_ k <? eid) then (0, k)
  else
    let (eid, k) := if eid =? 0 then (last_id_ k, set_last_id (u64 (last_id_ k + 1)) k) else (eid, k) in
    let e := mkEvent eid tid (calculate_timeout_ticks millisec k) (u32 millisec) 1 false in
    (ev_id e, push_event e k).

Definition add_switch_task_event (millisec : Z) (k : KernelTimer) : Z * KernelTimer :=
  let e := mkEvent (last_id_ k) process_ids.KERNEL (calculate_timeout_ticks millisec k) 0 0 true in
  (ev_id e, push_event e (set_last_id (u64 (last_id_ k + 1)) k)).

Definition remove_timer_event (eid : Z) (k : KernelTimer) : Z * KernelTimer :=
  if (eid =? 0) || (last_id_ k <? eid) then (err ERR_INVALID_ARG, k)
  else (err OK, set_ignore ({[eid]} ∪ ignore_events_ k) k).

Section queue.
Context `{PriorityQueue}.

Definition top_event (l : list TimerEvent) : option TimerEvent := match l with [] => None | _ => l !! top_index l end.
Definition pop_event (l : list TimerEvent) : list TimerEvent := delete (top_index l) l.

(** The loop of [increment_tick] on [fuel] rounds; [need] is [need_switch_task]. *)
Fixpoint expire (fuel : nat) (need : bool) (k : KernelTimer) (s : Sys) : option (bool * KernelTimer * Sys) :=
  match top_event (events_ k) with
  | None => Some (need, k, s)
  | Some e =>
      if negb (timeout e <=? tick_ k) then Some (need, k, s)
      else
        match fuel with
        | O => fault
        | S fuel =>
            let k := set_events (pop_event (events_ k)) k in
            if decide (ev_id e ∈ ignore_events_ k) then expire fuel need (set_ignore (ignore_events_ k ∖ {[ev_id e]}) k) s
            else if ev_switch_task e then
              expire fuel true (push_event (set_timeout (calculate_timeout_ticks SWITCH_TASK_MILLISEC k) e) k) s
            else
              s ← notify (task_id e) N_TIMER s;
              let k := if periodical e =? 1 then push_event (set_timeout (calculate_timeout_ticks (period e) k) e) k else k in
              expire fuel need k s
        end
  end.

Definition increment_tick (fuel : nat) (k : KernelTimer) (s : Sys) : option (bool * KernelTimer * Sys) :=
  expire fuel false (set_tick (u64 (tick_ k + 1)) k) s.

(** The timer interrupt. *)
Definition switch_task_by_timer_interrupt (fuel : nat) (k : KernelTimer) (s : Sys) : option (KernelTimer * Sys) :=
  '(need_switch_task, k, s) ← increment_tick fuel k s;
  if (need_switch_task : bool) then s ← switch_task s; Some (k, s) else Some (k, s).
End queue.

(** The system call; the arguments are 64-bit words. *)
Definition sys_time (arg1 arg2 : Z) (k : KernelTimer) (s : Sys) : option (Z * KernelTimer) :=
  t ← the_task (CURRENT_TASK s) s;
  Some (err OK, if i32 arg2 =? 1 then snd (add_periodic_timer_event arg1 (id t) 0 k) else snd (add_timer_event arg1 (id t) k)).
