(* ===== verification/TimerSpec.v ===== *)
(** * What timers promise

    One tick of [Timer] against an abstract tick that delivers every event that is due,
    the invariant of the timers, and from it: a timer fires at its time, through every
    sequence of operations; a period below one tick keeps the kernel busy for ever. *)

From S2P Require Import Prelude Message Task Timer TaskProofs TaskSpec.

Open Scope Z_scope.

(** ** The abstract tick *)

(** The event a fired event leaves behind. *)
Definition rearm (k : KernelTimer) (e : TimerEvent) : option TimerEvent :=
  if ev_switch_task e then Some (set_timeout (calculate_timeout_ticks SWITCH_TASK_MILLISEC k) e)
  else if periodical e =? 1 then Some (set_timeout (calculate_timeout_ticks (period e) k) e)
  else None.

Definition due (t : Z) (l : list TimerEvent) : list TimerEvent := filter (fun e => timeout e <= t) l.
Definition pending (t : Z) (l : list TimerEvent) : list TimerEvent := filter (fun e => ~ timeout e <= t) l.
Definition live (ig : gset Z) (l : list TimerEvent) : list TimerEvent := filter (fun e => ev_id e ∉ ig) l.
Definition doorbells (l : list TimerEvent) : list Z := task_id <$> filter (fun e => ev_switch_task e = false) l.

(** [notify] for each of a list of tasks. *)
Fixpoint notify_all (l : list Z) (s : Sys) : option Sys :=
  match l with
  | [] => Some s
  | i :: l => s ← notify i N_TIMER s; notify_all l s
  end.

(** One tick of a timer at time [tick_ k]: the due events that are not removed
    fire, switch and periodic events are queued again, the others go. *)
Record ticked (k k' : KernelTimer) (need : bool) (s s' : Sys) : Prop := mkTicked {
  tk_tick : tick_ k' = tick_ k;
  tk_last : last_id_ k' = last_id_ k;
  tk_events : events_ k' ≡ₚ omap (rearm k) (live (ignore_events_ k) (due (tick_ k) (events_ k))) ++ pending (tick_ k) (events_ k);
  tk_ignore : ignore_events_ k' = ignore_events_ k ∖ list_to_set (ev_id <$> due (tick_ k) (events_ k));
  tk_switch : need = existsb ev_switch_task (live (ignore_events_ k) (due (tick_ k) (events_ k)));
  tk_notified : exists l, l ≡ₚ doorbells (live (ignore_events_ k) (due (tick_ k) (events_ k))) /\ notify_all l s = Some s';
}.

(** Events that do not fire again in the same tick. *)
Definition moves_on (k : KernelTimer) (e : TimerEvent) : Prop := forall e', rearm k e = Some e' -> tick_ k < timeout e'.

(** ** Notifications never fault *)

Lemma schedule_total i s : exists s', schedule_task i s = Some s' /\ lenz (tasks s') = lenz (tasks s).
Proof.
  unfold schedule_task. destruct ((i <? 0) || (lenz (tasks s) <=? i)) eqn:E; [by exists s|]. apply orb_false_iff in E as [E1 E2].
  apply Z.ltb_ge in E1. apply Z.leb_gt in E2. unfold task_at. destruct (atz_lt (tasks s) i ltac:(lia)) as [o Ho]. rewrite Ho. cbn [mbind option_bind].
  destruct o as [t|]; [|by exists s]. destruct (decide _); eexists; (split; [done|]); cbn [tasks set_run_queue put_task set_tasks]; apply lenz_setz.
Qed.

Lemma notify_total i n s : lenz (tasks s) = MAX_TASKS -> exists s', notify i n s = Some s' /\ lenz (tasks s') = MAX_TASKS.
Proof.
  intros Hl. unfold notify. destruct ((i <? 0) || (MAX_TASKS <=? i)) eqn:E; [by exists s|]. apply orb_false_iff in E as [E1 E2].
  apply Z.ltb_ge in E1. apply Z.leb_gt in E2. unfold task_at. destruct (atz_lt (tasks s) i ltac:(lia)) as [o Ho]. rewrite Ho. cbn [mbind option_bind].
  destruct o as [t|]; [|by exists s]. cbv zeta. set (s1 := put_task _ _ s).
  assert (lenz (tasks s1) = MAX_TASKS) as Hl1 by (cbn [tasks s1 put_task set_tasks]; by rewrite lenz_setz).
  destruct (negb _); [by exists s1|]. destruct (_ && _); [by exists s1|]. destruct (schedule_total i s1) as (s2 & E & H2). exists s2. by rewrite H2.
Qed.

(** ** One round *)

Section rounds.
Context `{PriorityQueue}.

Lemma top_spec l : match top_event l with
  | None => l = []
  | Some e => l ≡ₚ e :: pop_event l /\ forall e', e' ∈ l -> timeout e <= timeout e'
  end.
Proof.
  unfold top_event, pop_event. destruct l as [|e l]; [done|]. destruct (top_index_min (e :: l) ltac:(done)) as (x & Hx & Hmin). rewrite Hx.
  split; [|done]. by apply delete_Permutation.
Qed.

Lemma due_nil t l : (forall e, e ∈ l -> t < timeout e) -> due t l = [] /\ pending t l = l.
Proof.
  intros Hl. induction l as [|e l IH]; [done|]. destruct IH as [I1 I2]; [intros x Hx; apply Hl; by right|].
  pose proof (Hl e ltac:(by left)). unfold due, pending in *. rewrite !filter_cons.
  rewrite decide_False by lia. rewrite decide_True by lia. by rewrite I1, I2.
Qed.
End rounds.

#[export] Instance due_perm t : Proper ((≡ₚ) ==> (≡ₚ)) (due t).
Proof. intros l l' Hl. unfold due. by rewrite Hl. Qed.
#[export] Instance pending_perm t : Proper ((≡ₚ) ==> (≡ₚ)) (pending t).
Proof. intros l l' Hl. unfold pending. by rewrite Hl. Qed.
#[export] Instance live_perm ig : Proper ((≡ₚ) ==> (≡ₚ)) (live ig).
Proof. intros l l' Hl. unfold live. by rewrite Hl. Qed.
#[export] Instance doorbells_perm : Proper ((≡ₚ) ==> (≡ₚ)) doorbells.
Proof. intros l l' Hl. unfold doorbells. by rewrite Hl. Qed.
#[export] Instance rearm_perm k : Proper ((≡ₚ) ==> (≡ₚ)) (omap (rearm k)).
Proof. intros l l' Hl. by rewrite Hl. Qed.

Lemma existsb_perm {A} (f : A -> bool) l l' : l ≡ₚ l' -> existsb f l = existsb f l'.
Proof.
  intros Hl. induction Hl as [|x l l' _ IH|x y l|l l' l'' _ IH1 _ IH2]; cbn; [done|by rewrite IH| |by rewrite IH1].
  destruct (f x), (f y); done.
Qed.

(** ** Rounds compose *)

Lemma rearm_tick k k1 e : tick_ k1 = tick_ k -> rearm k1 e = rearm k e.
Proof. intros Ht. unfold rearm, calculate_timeout_ticks. by rewrite Ht. Qed.

Lemma omap_rearm_tick k k1 (l : list TimerEvent) : tick_ k1 = tick_ k -> omap (rearm k1) l = omap (rearm k) l.
Proof. intros Ht. induction l as [|e l IH]; [done|]. cbn. by rewrite (rearm_tick k k1), IH. Qed.

Lemma live_minus ig l x : x ∉ ev_id <$> l -> live (ig ∖ {[x]}) l = live ig l.
Proof.
  intros Hx. unfold live. induction l as [|e l IH]; [done|]. rewrite !filter_cons. cbn in Hx. apply not_elem_of_cons in Hx as [Hne Hx].
  rewrite IH by done. assert (ev_id e ∉ ig ∖ {[x]} <-> ev_id e ∉ ig) as Hiff by set_solver.
  destruct (decide (ev_id e ∉ ig)) as [Hd|Hd], (decide (ev_id e ∉ ig ∖ {[x]})) as [Hd'|Hd']; tauto || done.
Qed.

Lemma ids_due l t x : x ∉ ev_id <$> l -> x ∉ ev_id <$> due t l.
Proof.
  intros Hx Hin. apply Hx. apply list_elem_of_fmap in Hin as (e & -> & He). apply list_elem_of_fmap. exists e. split; [done|].
  by apply list_elem_of_filter in He as [_ He].
Qed.

Section compose.
Context (k k' : KernelTimer) (e : TimerEvent) (R : list TimerEvent) (s s1 s' : Sys).
Context (HL : events_ k ≡ₚ e :: R) (He : timeout e <= tick_ k) (Hnd : NoDup (ev_id <$> events_ k)).

Lemma due_top : due (tick_ k) (events_ k) ≡ₚ e :: due (tick_ k) R /\ pending (tick_ k) (events_ k) ≡ₚ pending (tick_ k) R /\ (ev_id e ∉ ev_id <$> R).
Proof.
  rewrite HL. split_and!.
  - unfold due. rewrite filter_cons, decide_True by done. done.
  - unfold pending. rewrite filter_cons, decide_False by tauto. done.
  - rewrite HL in Hnd. cbn in Hnd. by apply NoDup_cons in Hnd as [? _].
Qed.

(** A removed event is dropped. *)
Lemma ticked_skip need : ev_id e ∈ ignore_events_ k ->
  ticked (set_ignore (ignore_events_ k ∖ {[ev_id e]}) (set_events R k)) k' need s s' -> ticked k k' need s s'.
Proof.
  intros Hig [T1 T2 T3 T4 T5 (l & T6 & T7)]. destruct due_top as (D1 & D2 & D3). cbn [tick_ last_id_ events_ ignore_events_ set_ignore set_events] in *.
  pose proof (ids_due R (tick_ k) _ D3) as D4. rewrite live_minus in * by done.
  assert (live (ignore_events_ k) (due (tick_ k) (events_ k)) ≡ₚ live (ignore_events_ k) (due (tick_ k) R)) as HLv.
  { rewrite D1. unfold live at 1. rewrite filter_cons, decide_False by tauto. done. }
  split.
  - done.
  - done.
  - rewrite HLv, D2, T3. by rewrite (omap_rearm_tick k) by done.
  - rewrite T4. assert (ev_id <$> due (tick_ k) (events_ k) ≡ₚ ev_id e :: (ev_id <$> due (tick_ k) R)) as -> by (by rewrite D1). set_solver.
  - by rewrite T5, (existsb_perm _ _ _ HLv).
  - exists l. split; [|done]. by rewrite T6, HLv.
Qed.

(** A live event fires. *)
Lemma ticked_fire need : ev_id e ∉ ignore_events_ k -> moves_on k e ->
  (if ev_switch_task e then s1 = s else notify (task_id e) N_TIMER s = Some s1) ->
  ticked (set_events (option_list (rearm k e) ++ R) k) k' need s1 s' -> ticked k k' (ev_switch_task e || need) s s'.
Proof.
  intros Hig Hmv Hs [T1 T2 T3 T4 T5 (l & T6 & T7)]. destruct due_top as (D1 & D2 & D3). cbn [tick_ last_id_ events_ ignore_events_ set_events] in *.
  assert (due (tick_ k) (option_list (rearm k e) ++ R) = due (tick_ k) R /\
    pending (tick_ k) (option_list (rearm k e) ++ R) = option_list (rearm k e) ++ pending (tick_ k) R) as [E1 E2].
  { destruct (rearm k e) as [e'|] eqn:Hr; [|done]. pose proof (Hmv e' Hr). unfold due, pending.
    change (option_list (Some e') ++ R) with (e' :: R). rewrite !filter_cons. rewrite decide_False by lia. rewrite decide_True by lia. done. }
  rewrite E1, E2 in *.
  assert (live (ignore_events_ k) (due (tick_ k) (events_ k)) ≡ₚ e :: live (ignore_events_ k) (due (tick_ k) R)) as HLv.
  { rewrite D1. unfold live at 1. rewrite filter_cons, decide_True by done. done. }
  split.
  - done.
  - done.
  - rewrite HLv, D2, T3, (omap_rearm_tick k) by done. cbn. destruct (rearm k e); cbn [option_list app]; [by rewrite Permutation_middle|done].
  - rewrite T4. assert (ev_id <$> due (tick_ k) (events_ k) ≡ₚ ev_id e :: (ev_id <$> due (tick_ k) R)) as -> by (by rewrite D1). set_solver.
  - by rewrite T5, (existsb_perm _ _ _ HLv).
  - destruct (ev_switch_task e) eqn:Hsw.
    + exists l. rewrite Hs in T7. split; [|done]. rewrite T6, HLv. unfold doorbells at 2. rewrite filter_cons, decide_False by congruence. done.
    + exists (task_id e :: l). split; [|cbn; by rewrite Hs]. rewrite T6, HLv. unfold doorbells at 2. rewrite filter_cons, decide_True by done. done.
Qed.
End compose.

(** ** The loop *)

Section loop.
Context `{PriorityQueue}.

Lemma ticked_done k s : (forall e, e ∈ events_ k -> tick_ k < timeout e) -> ticked k k false s s.
Proof.
  intros Hd. destruct (due_nil (tick_ k) (events_ k) Hd) as [E1 E2].
  split; rewrite ?E1, ?E2; [done|done|done|set_solver|done|by exists []].
Qed.

(** The timer after a live event fired. *)
Lemma fired_timer k e R : (let k1 := set_events R k in
  if ev_switch_task e then push_event (set_timeout (calculate_timeout_ticks SWITCH_TASK_MILLISEC k1) e) k1
  else if periodical e =? 1 then push_event (set_timeout (calculate_timeout_ticks (period e) k1) e) k1 else k1) =
  set_events (option_list (rearm k e) ++ R) k.
Proof. unfold rearm, push_event. destruct (ev_switch_task e), (periodical e =? 1); done. Qed.

Lemma fired_ids k e R : NoDup (ev_id <$> e :: R) -> NoDup (ev_id <$> option_list (rearm k e) ++ R).
Proof.
  intros Hnd. unfold rearm. destruct (ev_switch_task e); [exact Hnd|]. destruct (periodical e =? 1); [exact Hnd|].
  by apply NoDup_cons in Hnd as [_ ?].
Qed.

Lemma fired_moves k e R : Forall (moves_on k) (e :: R) -> Forall (moves_on k) (option_list (rearm k e) ++ R).
Proof.
  intros [He HR]%Forall_cons. apply Forall_app. split; [|done]. destruct (rearm k e) as [e'|] eqn:Hr; [|done]. apply Forall_singleton.
  intros x Hx. apply (He x). unfold rearm in Hr, Hx |- *. destruct (ev_switch_task e) eqn:Hsw; [simplify_eq; cbn in Hx; by rewrite Hsw in Hx|].
  destruct (periodical e =? 1) eqn:Hp; [|done]. simplify_eq. cbn in Hx. by rewrite Hsw, Hp in Hx.
Qed.

Lemma expire_spec fuel : forall need k s, NoDup (ev_id <$> events_ k) -> Forall (moves_on k) (events_ k) ->
  lenz (tasks s) = MAX_TASKS -> (length (due (tick_ k) (events_ k)) <= fuel)%nat ->
  exists need' k' s', expire fuel need k s = Some (need || need', k', s') /\ ticked k k' need' s s' /\ lenz (tasks s') = MAX_TASKS.
Proof.
  induction fuel as [|fuel IH]; intros need k s Hnd Hmv Hl Hfuel; cbn [expire]; pose proof (top_spec (events_ k)) as Ht;
    destruct (top_event (events_ k)) as [e|].
  2,4: exists false, k, s; rewrite orb_false_r; split_and!; [done| |done]; apply ticked_done; rewrite Ht; set_solver.
  all: destruct Ht as [HL Hmin]; destruct (Z.leb_spec (timeout e) (tick_ k)) as [He|He]; cbn [negb].
  2,4: exists false, k, s; rewrite orb_false_r; split_and!; [done| |done]; apply ticked_done; intros x Hx; specialize (Hmin x Hx); lia.
  all: destruct (due_top k e (pop_event (events_ k)) HL He Hnd) as (D1 & _ & _); rewrite D1 in Hfuel; cbn [length] in Hfuel.
  1: lia.
  set (R := pop_event (events_ k)) in *. pose proof Hnd as Hnd'. rewrite HL in Hnd'. pose proof Hmv as Hmv'. rewrite HL in Hmv'.
  pose proof Hmv' as [Hme HmR]%Forall_cons. assert ((length (due (tick_ k) R) <= fuel)%nat) as HfR by lia.
  destruct (decide (ev_id e ∈ ignore_events_ (set_events R k))) as [Hig|Hig].
  - destruct (IH need (set_ignore (ignore_events_ k ∖ {[ev_id e]}) (set_events R k)) s) as (need' & k' & s' & E & T & Hl').
    + by apply NoDup_cons in Hnd' as [_ ?].
    + exact HmR.
    + exact Hl.
    + exact HfR.
    + exists need', k', s'. split_and!; [exact E| |exact Hl']. by apply (ticked_skip k k' e R s s').
  - assert (exists s1, (if ev_switch_task e then s1 = s else notify (task_id e) N_TIMER s = Some s1) /\ lenz (tasks s1) = MAX_TASKS) as (s1 & Hs1 & Hl1).
    { destruct (ev_switch_task e); [by exists s|]. by apply notify_total. }
    assert (length (due (tick_ k) (option_list (rearm k e) ++ R)) <= fuel)%nat as Hf1.
    { destruct (rearm k e) as [e'|] eqn:Hr; [|exact HfR]. change (option_list (Some e') ++ R) with (e' :: R). unfold due.
      rewrite filter_cons, decide_False; [exact HfR|]. specialize (Hme e' Hr). lia. }
    destruct (IH (ev_switch_task e || need) (set_events (option_list (rearm k e) ++ R) k) s1) as (need' & k' & s' & E & T & Hl').
    + by apply fired_ids.
    + exact (fired_moves k e R Hmv').
    + exact Hl1.
    + exact Hf1.
    + exists (ev_switch_task e || need'), k', s'. split_and!; [| |exact Hl'].
      * rewrite <- (fired_timer k e R) in E. cbv zeta in E. destruct (ev_switch_task e).
        -- subst s1. cbn [orb] in E |- *. rewrite E. by rewrite orb_true_r.
        -- rewrite Hs1. cbn [mbind option_bind orb] in E |- *. exact E.
      * by apply (ticked_fire k k' e R s s1 s').
Qed.
End loop.

(** * What timers promise

    A timer fires at the tick it was set for, whatever else happens in between,
    as long as periodic timers have a period of at least one tick; a shorter
    period keeps the timer interrupt busy forever. *)

(** ** Well-formed timers *)

Record timer_ok (k : KernelTimer) : Prop := mkTimerOk {
  to_tick : 0 <= tick_ k;
  to_last : 0 < last_id_ k;
  to_ids : NoDup (ev_id <$> events_ k);
  to_below : Forall (fun e => ev_id e < last_id_ k) (events_ k);
  to_period : Forall (fun e => periodical e = 1 -> 10 <= period e < 2 ^ 32) (events_ k);
}.

Lemma delay_pos p t : 10 <= p < 2 ^ 32 -> 0 <= t -> t + 2 ^ 32 < 2 ^ 64 -> t < u64 (t + u64 (p * TIMER_FREQUENCY) / 1000).
Proof.
  unfold wrap, TIMER_FREQUENCY. change (2 ^ 32) with 4294967296. change (2 ^ 64) with 18446744073709551616. intros Hp H0 Ht.
  rewrite (Z.mod_small (p * 100)) by lia. rewrite Z.mod_small by (Z.div_mod_to_equations; lia). Z.div_mod_to_equations. lia.
Qed.

Lemma ok_moves_on k : timer_ok k -> tick_ k + 2 ^ 32 < 2 ^ 64 -> Forall (moves_on k) (events_ k).
Proof.
  intros [H0 _ _ _ Hp] Ht. apply Forall_forall. intros e He e' Hr. rewrite Forall_forall in Hp. specialize (Hp e He).
  unfold rearm, calculate_timeout_ticks in Hr. destruct (ev_switch_task e).
  - injection Hr as <-. apply delay_pos; [unfold SWITCH_TASK_MILLISEC; lia|done|done].
  - destruct (Z.eqb_spec (periodical e) 1) as [Hp1|]; [|done]. injection Hr as <-. apply delay_pos; [by apply Hp|done|done].
Qed.

(** ** Operations *)

(** What can happen to the timers: the calls, the interrupt, and anything that
    changes the tasks. *)
Inductive TimerOp := OneShot (ms tid : Z) | Periodic (ms tid : Z) | Switch (ms : Z) | Remove (eid : Z) | Tick | Tasks (s : Sys).

Definition op_ok (o : TimerOp) : Prop :=
  match o with
  | Periodic ms _ => 10 <= u32 ms
  | Tasks s => lenz (tasks s) = MAX_TASKS
  | _ => True
  end.

#[export] Instance TimerOp_tick_dec (o : TimerOp) : Decision (o = Tick).
Proof. destruct o; (by left) || (by right). Defined.

Section traces.
Context `{PriorityQueue}.

(** As many rounds as there are events are enough for a tick. *)
Definition timer_op (o : TimerOp) (k : KernelTimer) (s : Sys) : option (KernelTimer * Sys) :=
  match o with
  | OneShot ms tid => Some (snd (add_timer_event ms tid k), s)
  | Periodic ms tid => Some (snd (add_periodic_timer_event ms tid 0 k), s)
  | Switch ms => Some (snd (add_switch_task_event ms k), s)
  | Remove eid => Some (snd (remove_timer_event eid k), s)
  | Tick => '(_, k, s) ← increment_tick (length (events_ k)) k s; Some (k, s)
  | Tasks s => Some (k, s)
  end.

Fixpoint run_ops (os : list TimerOp) (k : KernelTimer) (s : Sys) : option (KernelTimer * Sys) :=
  match os with
  | [] => Some (k, s)
  | o :: os => '(k, s) ← timer_op o k s; run_ops os k s
  end.

Definition ticks (os : list TimerOp) : Z := lenz (filter (fun o => o = Tick) os).
End traces.

(** ** A tick keeps timers well-formed *)

Lemma rearm_keeps k e e' : rearm k e = Some e' -> ev_id e' = ev_id e /\ period e' = period e /\ periodical e' = periodical e.
Proof. unfold rearm. destruct (ev_switch_task e), (periodical e =? 1); by intros [= <-]. Qed.

Lemma rearm_ids k (l : list TimerEvent) : (ev_id <$> omap (rearm k) l) `sublist_of` (ev_id <$> l).
Proof.
  induction l as [|e l IH]; [done|]. cbn. destruct (rearm k e) as [e'|] eqn:Hr; cbn.
  - destruct (rearm_keeps k e e' Hr) as (-> & _). by apply sublist_skip.
  - by apply sublist_cons.
Qed.

(** Each queued event comes from one that was queued. *)
Lemma ticked_from k k' need s s' e' : ticked k k' need s s' -> e' ∈ events_ k' ->
  exists e, e ∈ events_ k /\ ev_id e' = ev_id e /\ period e' = period e /\ periodical e' = periodical e.
Proof.
  intros HT Hin. rewrite (tk_events _ _ _ _ _ HT) in Hin. apply elem_of_app in Hin as [Hin|Hin].
  - apply list_elem_of_omap in Hin as (e & He & Hr). apply rearm_keeps in Hr. exists e. split; [|done].
    apply list_elem_of_filter in He as [_ He]. by apply list_elem_of_filter in He as [_ He].
  - apply list_elem_of_filter in Hin as [_ Hin]. by exists e'.
Qed.

Lemma ticked_ok k k' need s s' : timer_ok k -> ticked k k' need s s' -> timer_ok k'.
Proof.
  intros [H0 H1 Hnd Hb Hp] HT. rewrite Forall_forall in Hb, Hp. split.
  - by rewrite (tk_tick _ _ _ _ _ HT).
  - by rewrite (tk_last _ _ _ _ _ HT).
  - rewrite (tk_events _ _ _ _ _ HT). set (D := due (tick_ k) (events_ k)). set (P := pending (tick_ k) (events_ k)).
    apply (sublist_NoDup _ (ev_id <$> D ++ P)); [unfold D, P, due, pending; by rewrite filter_app_complement|].
    rewrite !fmap_app. apply sublist_app; [|done]. etransitivity; [apply rearm_ids|]. apply fmap_sublist. apply sublist_filter.
  - apply Forall_forall. intros e' He'. destruct (ticked_from _ _ _ _ _ _ HT He') as (e & He & -> & _). rewrite (tk_last _ _ _ _ _ HT). by apply Hb.
  - apply Forall_forall. intros e' He'. destruct (ticked_from _ _ _ _ _ _ HT He') as (e & He & _ & -> & ->). by apply Hp.
Qed.

Section ticks.
Context `{PriorityQueue}.

Lemma tick_spec fuel k s : timer_ok k -> tick_ k + 1 + 2 ^ 32 < 2 ^ 64 -> lenz (tasks s) = MAX_TASKS -> (length (events_ k) <= fuel)%nat ->
  exists need k' s', increment_tick fuel k s = Some (need, k', s') /\ ticked (set_tick (tick_ k + 1) k) k' need s s' /\
    timer_ok k' /\ lenz (tasks s') = MAX_TASKS.
Proof.
  intros Hok Ht Hl Hf. unfold increment_tick. assert (u64 (tick_ k + 1) = tick_ k + 1) as -> by (apply Z.mod_small; destruct Hok; lia).
  set (k1 := set_tick (tick_ k + 1) k). assert (timer_ok k1) as Hok1 by (destruct Hok; split; cbn; done || lia).
  destruct (expire_spec fuel false k1 s) as (need & k' & s' & E & HT & Hl').
  - by destruct Hok1.
  - apply ok_moves_on; [done|]. cbn. lia.
  - done.
  - etransitivity; [|exact Hf]. unfold due. apply length_filter.
  - exists need, k', s'. split_and!; [exact E|exact HT| |exact Hl']. by apply (ticked_ok k1 k' need s s').
Qed.

(** ** Operations keep timers well-formed *)

Lemma timer_ok_push k e : timer_ok k -> ev_id e = last_id_ k -> last_id_ k + 1 < 2 ^ 64 -> (periodical e = 1 -> 10 <= period e < 2 ^ 32) ->
  timer_ok (push_event e (set_last_id (u64 (last_id_ k + 1)) k)).
Proof.
  intros [H0 H1 Hnd Hb Hp] Hi Hlast Hper. assert (u64 (last_id_ k + 1) = last_id_ k + 1) as -> by (apply Z.mod_small; lia).
  rewrite Forall_forall in Hb. split; cbn.
  - done.
  - lia.
  - apply NoDup_cons. split; [|done]. intros Hin. apply list_elem_of_fmap in Hin as (x & Hx & Hin). specialize (Hb x Hin). lia.
  - apply Forall_cons. split; [lia|]. apply Forall_forall. intros x Hx. specialize (Hb x Hx). lia.
  - by apply Forall_cons.
Qed.

Lemma timer_ok_ignore k ig : timer_ok k -> timer_ok (set_ignore ig k).
Proof. by intros []. Qed.

(** An operation runs; the clock moves with [Tick] only. *)
Lemma timer_op_spec o k s : timer_ok k -> op_ok o -> tick_ k + 1 + 2 ^ 32 < 2 ^ 64 -> last_id_ k + 1 < 2 ^ 64 -> lenz (tasks s) = MAX_TASKS ->
  exists k' s', timer_op o k s = Some (k', s') /\ timer_ok k' /\ lenz (tasks s') = MAX_TASKS /\
    tick_ k' = tick_ k + (if decide (o = Tick) then 1 else 0) /\ last_id_ k' <= last_id_ k + 1.
Proof.
  intros Hok Ho Ht Hlast Hl.
  assert (u64 (last_id_ k + 1) = last_id_ k + 1) as Hu by (apply Z.mod_small; destruct Hok; lia).
  destruct o as [ms tid|ms tid|ms|eid| |s0]; cbn [timer_op].
  - do 2 eexists. split_and!; [done|by apply timer_ok_push|done|rewrite decide_False by done; cbn; lia|change (u64 (last_id_ k + 1) <= last_id_ k + 1); lia].
  - do 2 eexists. split_and!; [done| |done|rewrite decide_False by done; cbn; lia|change (u64 (last_id_ k + 1) <= last_id_ k + 1); lia]. apply timer_ok_push; [done|done|done|]. intros _. cbn [period]. split; [exact Ho|].
    unfold wrap. by apply Z.mod_pos_bound.
  - do 2 eexists. split_and!; [done|by apply timer_ok_push|done|rewrite decide_False by done; cbn; lia|change (u64 (last_id_ k + 1) <= last_id_ k + 1); lia].
  - do 2 eexists. split_and!; [done| |done| |]; unfold remove_timer_event; rewrite ?decide_False by done; destruct (_ || _); cbn; try done; try lia. by apply timer_ok_ignore.
  - destruct (tick_spec (length (events_ k)) k s Hok Ht Hl ltac:(lia)) as (need & k' & s' & E & HT & Hok' & Hl'). rewrite E. cbn [mbind option_bind].
    exists k', s'. split_and!; [done|done|done|rewrite decide_True by done; exact (tk_tick _ _ _ _ _ HT)|]. rewrite (tk_last _ _ _ _ _ HT). cbn. lia.
  - exists k, s0. split_and!; [done|done|exact Ho|rewrite decide_False by done; lia|lia].
Qed.
End ticks.

(** ** Doorbells *)

(** The timer bit of a task is set, if the task exists. *)
Definition rung (i : Z) (s : Sys) : Prop := forall t, the_task i s = Some t -> Z.testbit (pending_notifications t) (notify_index N_TIMER) = true.

Lemma schedule_pending i s s' j t' : schedule_task i s = Some s' -> the_task j s' = Some t' ->
  exists t, the_task j s = Some t /\ pending_notifications t' = pending_notifications t.
Proof.
  unfold schedule_task. destruct (_ || _) eqn:E; [intros [= <-]; by exists t'|]. apply orb_false_iff in E as [E1 E2]. apply Z.ltb_ge in E1. apply Z.leb_gt in E2.
  destruct (task_at i s) as [[t|]|] eqn:Ha; cbn [mbind option_bind]; [|intros [= <-]; by exists t'|done].
  intros Hs Ht. assert (the_task j (put_task i (set_state TASK_READY t) s) = Some t') as Hp by (destruct (decide _); by simplify_eq).
  rewrite the_task_put in Hp by lia. destruct (Z.eqb_spec j i) as [->|Hne]; [|by exists t'].
  exists t. unfold the_task. rewrite Ha. by simplify_eq.
Qed.

Lemma notify_pending i n s s' j t' : lenz (tasks s) = MAX_TASKS -> notify i n s = Some s' -> the_task j s' = Some t' ->
  exists t, the_task j s = Some t /\ pending_notifications t' = if j =? i then Z.lor (pending_notifications t) (notify_bit n) else pending_notifications t.
Proof.
  intros Hl. unfold notify. destruct (_ || _) eqn:E.
  { intros [= <-] Ht. exists t'. split; [done|]. destruct (Z.eqb_spec j i) as [->|]; [|done]. exfalso. unfold the_task, task_at in Ht.
    destruct (atz (tasks s) i) as [o|] eqn:Ha; [|done]. apply atz_Some_lt in Ha. rewrite Hl in Ha. apply orb_true_iff in E as [E|E]; lia. }
  apply orb_false_iff in E as [E1 E2]. apply Z.ltb_ge in E1. apply Z.leb_gt in E2.
  destruct (task_at i s) as [[t|]|] eqn:Ha; cbn [mbind option_bind]; [|intros [= <-] Ht|done].
  - set (t1 := set_pending _ t). cbv zeta. intros Hs Ht.
    assert (exists t2, the_task j (put_task i t1 s) = Some t2 /\ pending_notifications t' = pending_notifications t2) as (t2 & H2 & ->).
    { destruct (negb _); [simplify_eq; by exists t'|]. destruct (_ && _); [simplify_eq; by exists t'|]. by apply (schedule_pending i _ s'). }
    rewrite the_task_put in H2 by lia. destruct (Z.eqb_spec j i) as [->|]; [|by exists t2].
    simplify_eq. exists t. unfold the_task. by rewrite Ha.
  - exists t'. split; [done|]. destruct (Z.eqb_spec j i) as [->|]; [|done]. unfold the_task in Ht. by rewrite Ha in Ht.
Qed.

Lemma notify_rings i j s s' : lenz (tasks s) = MAX_TASKS -> notify j N_TIMER s = Some s' -> i = j \/ rung i s -> rung i s'.
Proof.
  intros Hl E Hi t' Ht'. destruct (notify_pending j N_TIMER s s' i t' Hl E Ht') as (t & Ht & ->).
  destruct (Z.eqb_spec i j) as [->|Hne].
  - rewrite Z.lor_spec. apply orb_true_iff. by right.
  - destruct Hi as [?|Hi]; [done|]. by apply Hi.
Qed.

Lemma notify_all_rings l : forall s s' i, lenz (tasks s) = MAX_TASKS -> notify_all l s = Some s' -> i ∈ l \/ rung i s -> rung i s'.
Proof.
  induction l as [|j l IH]; intros s s' i Hl Hr Hi; cbn in Hr.
  - simplify_eq. by destruct Hi as [Hi%not_elem_of_nil|Hi].
  - destruct (notify j N_TIMER s) as [s1|] eqn:E; [|done]. cbn in Hr.
    destruct (notify_total j N_TIMER s Hl) as (s1' & E' & Hl1). rewrite E in E'. simplify_eq.
    apply (IH s1'); [done|done|]. destruct Hi as [Hi|Hi]; [apply elem_of_cons in Hi as [->|Hi]|].
    + right. apply (notify_rings j j s); [done|done|by left].
    + by left.
    + right. apply (notify_rings i j s); [done|done|by right].
Qed.

(** ** Traces *)

Lemma NoDup_key {A B} (f : A -> B) l x y : NoDup (f <$> l) -> x ∈ l -> y ∈ l -> f x = f y -> x = y.
Proof.
  intros Hnd Hx Hy He. apply list_elem_of_lookup_1 in Hx as [i Hi]. apply list_elem_of_lookup_1 in Hy as [j Hj].
  assert (i = j) as -> by (eapply (NoDup_lookup _ i j (f x) Hnd); rewrite list_lookup_fmap; [by rewrite Hi|by rewrite Hj, He]). congruence.
Qed.

Section runs.
Context `{PriorityQueue}.

Lemma ticks_cons o os : ticks (o :: os) = (if decide (o = Tick) then 1 else 0) + ticks os.
Proof. unfold ticks. rewrite filter_cons. destruct (decide (o = Tick)); [rewrite lenz_cons; lia|done]. Qed.

Lemma ticks_bound os : 0 <= ticks os <= lenz os.
Proof. unfold ticks, lenz. pose proof (length_filter (fun o => o = Tick) os). lia. Qed.

(** Room for the identifiers and the clock of a trace. *)
Definition room (k : KernelTimer) (os : list TimerOp) : Prop :=
  tick_ k + lenz os + 1 + 2 ^ 32 < 2 ^ 64 /\ last_id_ k + lenz os + 1 < 2 ^ 64.

Lemma run_total os : forall k s, timer_ok k -> Forall op_ok os -> room k os -> lenz (tasks s) = MAX_TASKS ->
  exists k' s', run_ops os k s = Some (k', s') /\ timer_ok k' /\ lenz (tasks s') = MAX_TASKS /\
    tick_ k' = tick_ k + ticks os /\ last_id_ k' <= last_id_ k + lenz os.
Proof.
  induction os as [|o os IH]; intros k s Hok Ho [R1 R2] Hl.
  - exists k, s. split_and!; [done|done|done|unfold ticks, lenz; cbn; lia|unfold lenz; cbn; lia].
  - rewrite lenz_cons in R1, R2. pose proof (lenz_nonneg os). apply Forall_cons in Ho as [Ho Hos].
    destruct (timer_op_spec o k s Hok Ho ltac:(lia) ltac:(lia) Hl) as (k1 & s1 & E1 & Hok1 & Hl1 & Ht1 & Hi1).
    assert (0 <= (if decide (o = Tick) then 1 else 0) <= 1) as Hd by (destruct (decide _); lia).
    destruct (IH k1 s1 Hok1 Hos) as (k2 & s2 & E2 & Hok2 & Hl2 & Ht2 & Hi2); [split; lia|done|].
    exists k2, s2. cbn [run_ops]. rewrite E1. cbn [mbind option_bind]. rewrite E2, ticks_cons, lenz_cons. split_and!; [done|done|done|lia|lia].
Qed.

(** An event stays queued until its time comes. *)
Lemma op_keeps o k s k' s' e : timer_ok k -> op_ok o -> tick_ k + 1 + 2 ^ 32 < 2 ^ 64 -> lenz (tasks s) = MAX_TASKS ->
  timer_op o k s = Some (k', s') -> o <> Remove (ev_id e) -> (o = Tick -> tick_ k + 1 < timeout e) ->
  e ∈ events_ k -> ev_id e ∉ ignore_events_ k -> e ∈ events_ k' /\ ev_id e ∉ ignore_events_ k'.
Proof.
  intros Hok Ho Ht Hl E Hne Hlt He Hig. destruct o as [ms tid|ms tid|ms|eid| |s0]; cbn [timer_op] in E.
  - injection E as <- _. split; [by right|done].
  - injection E as <- _. split; [by right|done].
  - injection E as <- _. split; [by right|done].
  - injection E as <- _. unfold remove_timer_event. destruct (_ || _); [done|]. cbn. split; [done|]. set_solver.
  - destruct (tick_spec (length (events_ k)) k s Hok Ht Hl ltac:(lia)) as (need & k2 & s2 & E2 & HT & _). rewrite E2 in E. cbn in E. simplify_eq.
    specialize (Hlt eq_refl). rewrite (tk_events _ _ _ _ _ HT), (tk_ignore _ _ _ _ _ HT). split.
    + apply elem_of_app. right. apply list_elem_of_filter. split; [cbn; lia|done].
    + cbn [ignore_events_ set_tick]. set_solver.
  - by simplify_eq.
Qed.

Lemma run_keeps os : forall k s k' s' e, timer_ok k -> Forall op_ok os -> room k os -> lenz (tasks s) = MAX_TASKS ->
  run_ops os k s = Some (k', s') -> Remove (ev_id e) ∉ os -> (0 < ticks os -> tick_ k + ticks os < timeout e) ->
  e ∈ events_ k -> ev_id e ∉ ignore_events_ k -> e ∈ events_ k' /\ ev_id e ∉ ignore_events_ k'.
Proof.
  induction os as [|o os IH]; intros k s k' s' e Hok Ho [R1 R2] Hl E Hrm Hlt He Hig; [cbn in E; by simplify_eq|].
  rewrite lenz_cons in R1, R2. pose proof (lenz_nonneg os). apply Forall_cons in Ho as [Ho Hos]. rewrite ticks_cons in Hlt. pose proof (ticks_bound os).
  apply not_elem_of_cons in Hrm as [Hne Hrm].
  destruct (timer_op_spec o k s Hok Ho ltac:(lia) ltac:(lia) Hl) as (k1 & s1 & E1 & Hok1 & Hl1 & Ht1 & Hi1).
  assert (0 <= (if decide (o = Tick) then 1 else 0) <= 1) as Hd by (destruct (decide _); lia).
  destruct (op_keeps o k s k1 s1 e Hok Ho ltac:(lia) Hl E1 ltac:(done)) as [He1 Hig1]; [intros ->; rewrite decide_True in * by done; lia|done|done|].
  cbn [run_ops] in E. rewrite E1 in E. cbn [mbind option_bind] in E.
  apply (IH k1 s1 k' s' e Hok1 Hos ltac:(split; lia) Hl1 E Hrm ltac:(lia) He1 Hig1).
Qed.

(** ** The promises *)

(** The event of a one-shot timer. *)
Definition one_shot (k : KernelTimer) (ms tid : Z) : TimerEvent :=
  mkEvent (last_id_ k) tid (calculate_timeout_ticks ms k) (u32 ms) 0 false.

(** C19: (one-shot timers) A one-shot timer of [ms] milliseconds rings its task at the tick [ms / 10]
    after it was set, at the next tick if that is zero: not before, whatever other
    timers are set, removed or fire, and whatever the tasks do; and once only.  The timer
    itself is not removed, the other periodic timers, those set before and those set
    meanwhile, have a period of at least 10 ms (a shorter one makes the interrupt run
    for ever, [short_period_hangs_kernel]), and the tick count, the length of the timer and the
    identifiers do not reach 2^64.  Not removed means also that its identifier was not given to
    [remove_timer_event] before it was issued. *)
Theorem timer_fires_on_time k s ms tid os :
  timer_ok k -> lenz (tasks s) = MAX_TASKS -> last_id_ k ∉ ignore_events_ k ->
  0 <= ms -> ms * TIMER_FREQUENCY < 2 ^ 64 -> tick_ k + ms * TIMER_FREQUENCY / 1000 < 2 ^ 64 ->
  Forall op_ok os -> Remove (last_id_ k) ∉ os -> room k (Tick :: Tick :: os) -> ticks os = Z.max 1 (ms * TIMER_FREQUENCY / 1000) - 1 ->
  exists k1 s1 need k2 s2, run_ops os (snd (add_timer_event ms tid k)) s = Some (k1, s1) /\ (one_shot k ms tid ∈ events_ k1) /\
    increment_tick (length (events_ k1)) k1 s1 = Some (need, k2, s2) /\ tick_ k2 = tick_ k + Z.max 1 (ms * TIMER_FREQUENCY / 1000) /\
    rung tid s2 /\ (last_id_ k ∉ ev_id <$> events_ k2).
Proof.
  intros Hok Hl Hig Hms Hb1 Hb2 Hos Hrm [R1 R2] Hn. rewrite !lenz_cons in R1, R2. pose proof (lenz_nonneg os) as Hos0. pose proof (ticks_bound os) as Htb.
  set (e := one_shot k ms tid). set (k0 := snd (add_timer_event ms tid k)). set (d := ms * TIMER_FREQUENCY / 1000) in *.
  assert (0 <= d) as Hd by (apply Z.div_pos; [unfold TIMER_FREQUENCY; lia|lia]).
  assert (timer_ok k0) as Hok0 by (apply timer_ok_push; [done|done|lia|done]).
  assert (timeout e = tick_ k + d) as Hte.
  { cbn [timeout e one_shot]. unfold calculate_timeout_ticks. unfold wrap at 2. rewrite (Z.mod_small (ms * _)) by (unfold TIMER_FREQUENCY in *; lia).
    apply Z.mod_small. fold d. destruct Hok. lia. }
  assert (last_id_ k0 = last_id_ k + 1) as Hlast by (apply Z.mod_small; destruct Hok; lia).
  assert (room k0 os) as HR by (split; [change (tick_ k0) with (tick_ k); lia|rewrite Hlast; lia]).
  destruct (run_total os k0 s Hok0 Hos HR Hl) as (k1 & s1 & E1 & Hok1 & Hl1 & Ht1 & _). change (tick_ k0) with (tick_ k) in Ht1.
  destruct (run_keeps os k0 s k1 s1 e Hok0 Hos HR Hl E1 Hrm) as [He1 Hig1].
  { change (tick_ k0) with (tick_ k). lia. } { by left. } { done. }
  destruct (tick_spec (length (events_ k1)) k1 s1 Hok1 ltac:(lia) Hl1 ltac:(lia)) as (need & k2 & s2 & E2 & HT & Hok2 & Hl2).
  exists k1, s1, need, k2, s2. split_and!; [exact E1|exact He1|exact E2| | |].
  - rewrite (tk_tick _ _ _ _ _ HT). cbn. lia.
  - destruct (tk_notified _ _ _ _ _ HT) as (l & Hperm & Hall). apply (notify_all_rings l s1); [done|done|]. left. rewrite Hperm.
    apply list_elem_of_fmap. exists e. split; [done|]. apply list_elem_of_filter. split; [done|]. apply list_elem_of_filter. split; [done|].
    apply list_elem_of_filter. split; [cbn [tick_ set_tick]; rewrite Hte; lia|done].
  - rewrite (tk_events _ _ _ _ _ HT). intros Hin. apply list_elem_of_fmap in Hin as (x & Hx & Hin).
    assert (forall y, y ∈ events_ k1 -> ev_id y = last_id_ k -> y = e) as Huniq.
    { intros y Hy Hyi. by apply (NoDup_key ev_id (events_ k1)); [destruct Hok1| | |]. }
    apply elem_of_app in Hin as [Hin|Hin].
    + apply list_elem_of_omap in Hin as (y & Hy & Hr). apply list_elem_of_filter in Hy as [_ Hy]. apply list_elem_of_filter in Hy as [_ Hy].
      destruct (rearm_keeps _ _ _ Hr) as (Hyi & _). rewrite (Huniq y Hy ltac:(congruence)) in Hr. done.
    + apply list_elem_of_filter in Hin as [Hlate Hy]. rewrite (Huniq x Hy ltac:(done)) in Hlate. cbn [tick_ set_tick] in Hlate. lia.
Qed.
End runs.

(** ** Periods below a tick *)

(** A periodic event that is due again as soon as it fired. *)
Record spinning (k : KernelTimer) (e : TimerEvent) : Prop := mkSpinning {
  sp_queued : e ∈ events_ k;
  sp_live : ev_id e ∉ ignore_events_ k;
  sp_kind : ev_switch_task e = false /\ periodical e = 1;
  sp_due : timeout e <= tick_ k;
  sp_again : calculate_timeout_ticks (period e) k <= tick_ k;
}.

Section spin.
Context `{PriorityQueue}.

Lemma spins fuel : forall need k s e, spinning k e -> expire fuel need k s = None.
Proof.
  induction fuel as [|fuel IH]; intros need k s e [Hq Hlv [Hsw Hper] Hdue Hag]; cbn [expire]; pose proof (top_spec (events_ k)) as Ht;
    destruct (top_event (events_ k)) as [x|]; try (rewrite Ht in Hq; by apply not_elem_of_nil in Hq); destruct Ht as [HL Hmin];
    pose proof (Hmin e Hq); (destruct (Z.leb_spec (timeout x) (tick_ k)); [cbn [negb]|lia]); [done|].
  set (R := pop_event (events_ k)) in *. rewrite HL in Hq. apply elem_of_cons in Hq.
  destruct (decide (ev_id x ∈ ignore_events_ (set_events R k))) as [Hig|Hig].
  - destruct Hq as [->|Hq]; [done|]. apply (IH _ _ _ e). split; [done|cbn; set_solver|done|done|done].
  - destruct (ev_switch_task x) eqn:Hx.
    + destruct Hq as [->|Hq]; [congruence|]. apply (IH _ _ _ e). split; [by right|done|done|done|done].
    + destruct (notify (task_id x) N_TIMER s) as [s1|]; [cbn [mbind option_bind]|done]. destruct Hq as [->|Hq].
      * rewrite Hper. change (1 =? 1) with true. cbv iota.
        apply (IH _ _ _ (set_timeout (calculate_timeout_ticks (period x) (set_events R k)) x)). split; [by left|done|done|exact Hag|exact Hag].
      * destruct (periodical x =? 1); apply (IH _ _ _ e); (split; [|done|done|done|done]); [by right|done].
Qed.

(** The theorem: [sys_time] accepts a period below 10 milliseconds.  The next timer
    interrupt then never ends, for any number of rounds, whatever the queue and
    the tasks: the event is due again the moment it is queued again. *)
Theorem short_period_hangs_kernel k s t ms : the_task (CURRENT_TASK s) s = Some t -> 0 <= ms < 10 -> 0 <= tick_ k -> tick_ k + 1 < 2 ^ 64 ->
  last_id_ k ∉ ignore_events_ k ->
  exists k', sys_time ms 1 k s = Some (err OK, k') /\ forall fuel s', increment_tick fuel k' s' = None.
Proof.
  intros Ht Hms H0 H1 Hig. unfold sys_time. rewrite Ht. cbn [mbind option_bind]. change (i32 1 =? 1) with true. cbv iota.
  eexists. split; [reflexivity|]. intros fuel s'. unfold increment_tick. set (k' := snd _).
  assert (u32 ms = ms) as Hu by (apply Z.mod_small; lia).
  assert (forall v, 0 <= v < 2 ^ 64 -> u64 (v + u64 (ms * TIMER_FREQUENCY) / 1000) = v) as Hd.
  { intros v Hv. unfold TIMER_FREQUENCY. unfold wrap at 2. rewrite (Z.mod_small (ms * 100)) by lia. rewrite (Z.div_small (ms * 100)) by lia.
    rewrite Z.add_0_r. by apply Z.mod_small. }
  apply (spins fuel _ _ _ (mkEvent (last_id_ k) (id t) (calculate_timeout_ticks ms k) (u32 ms) 1 false)).
  assert (u64 (tick_ k' + 1) = tick_ k + 1) as -> by (apply Z.mod_small; change (tick_ k') with (tick_ k); lia).
  split; [by left|exact Hig|done| |]; unfold calculate_timeout_ticks; cbn [timeout period tick_ set_tick]; rewrite ?Hu, Hd by lia; lia.
Qed.
End spin.

(** ** At concrete timers *)

(** The first of the earliest events. *)
Fixpoint first_min (l : list TimerEvent) : nat :=
  match l with
  | [] => O
  | e :: l => match l !! first_min l with
              | Some x => if timeout e <=? timeout x then O else S (first_min l)
              | None => O
              end
  end.

Lemma first_min_spec l : l <> [] -> exists e, l !! first_min l = Some e /\ forall e', e' ∈ l -> timeout e <= timeout e'.
Proof.
  induction l as [|e l IH]; [done|]. intros _. cbn [first_min]. destruct l as [|e2 l].
  { exists e. split; [done|]. intros e' ->%list_elem_of_singleton. lia. }
  destruct IH as (x & Hx & Hmin); [done|]. rewrite Hx. destruct (Z.leb_spec (timeout e) (timeout x)).
  - exists e. split; [done|]. intros e' [->|He']%elem_of_cons; [lia|]. specialize (Hmin e' He'). lia.
  - exists x. split; [done|]. intros e' [->|He']%elem_of_cons; [lia|]. by apply Hmin.
Qed.

#[export] Instance first_min_queue : PriorityQueue := mkPQ first_min first_min_spec.

Lemma new_timer_ok : timer_ok new_timer.
Proof. split; [done|done|by apply NoDup_nil|by apply Forall_nil|by apply Forall_nil]. Qed.

Lemma timer_fires_on_time_witness : exists k1 s1 need k2 s2, run_ops [Tick] (snd (add_timer_event 20 3 new_timer)) boot_state = Some (k1, s1) /\
  increment_tick (length (events_ k1)) k1 s1 = Some (need, k2, s2) /\ rung 3 s2.
Proof.
  destruct (timer_fires_on_time new_timer boot_state 20 3 [Tick] new_timer_ok) as (k1 & s1 & need & k2 & s2 & E1 & _ & E2 & _ & Hr & _);
    [vm_compute; reflexivity|cbn; set_solver|lia|done|done|by apply Forall_singleton|by intros ?%list_elem_of_singleton|split; done|reflexivity|].
  exists k1, s1, need, k2, s2. exact (conj E1 (conj E2 Hr)).
Defined.

Lemma short_period_hangs_kernel_witness : exists k', sys_time 5 1 new_timer boot_state = Some (err OK, k') /\ forall fuel s', increment_tick fuel k' s' = None.
Proof.
  destruct (the_task (CURRENT_TASK boot_state) boot_state) as [t|] eqn:Ht; [|vm_compute in Ht; discriminate Ht].
  exact (short_period_hangs_kernel new_timer boot_state t 5 Ht ltac:(lia) ltac:(cbn; lia) ltac:(cbn; lia) ltac:(cbn; set_solver)).
Defined.
