(* ===== verification/Syscall.v ===== *)
(** * System calls and out-of-line buffers

    [kernel/syscall/handler.cpp] and the out-of-line part of [task/ipc.cpp].

    The state joins the tasks, the page tables, the bytes of memory and the
    allocated buffers.  [Message] objects in user memory are read and written as
    objects, with the address checks of [copy_from_user] and [copy_to_user]; all
    other user data is bytes.  A buffer is named by its address; handing an
    address that is not allocated to [free] is a fault.  A handler that blocks
    stops at the point where it gives up the processor and is resumed there. *)

From stdpp Require Import strings.
From S2P Require Import Prelude Pages Message MessageQueue UserMem Fd Task Paging.

Open Scope Z_scope.

(** ** State *)

Record Kern := mkKern {
  sys : Sys;
  vm : Vm;
  roots : list Z;
  mem : Mem;
  umsg : Z -> Message;
  heap : list Z;
  supply : list Z;
}.

Definition set_sys (s : Sys) (k : Kern) : Kern := mkKern s (vm k) (roots k) (mem k) (umsg k) (heap k) (supply k).
Definition set_vm (v : Vm) (k : Kern) : Kern := mkKern (sys k) v (roots k) (mem k) (umsg k) (heap k) (supply k).
Definition set_mem (m : Mem) (k : Kern) : Kern := mkKern (sys k) (vm k) (roots k) m (umsg k) (heap k) (supply k).
Definition set_umsg (u : Z -> Message) (k : Kern) : Kern := mkKern (sys k) (vm k) (roots k) (mem k) u (heap k) (supply k).
Definition set_heap (h : list Z) (k : Kern) : Kern := mkKern (sys k) (vm k) (roots k) (mem k) (umsg k) h (supply k).

Definition current (k : Kern) : option Task := the_task (CURRENT_TASK (sys k)) (sys k).

(** [CURRENT_TASK->is_initialized = true] *)
Definition mark_initialized (k : Kern) : option Kern :=
  t ← current k;
  let t := mkTask (id t) (parent_id t) (name t) true (just_forked t) (state t) (messages t) (pending_notifications t) (wait_reason t) (wait_notify_mask t)
    (next_correlation t) (call_correlation t) (reply_pending t) (reply_slot t) (exit_records t) (ool_regions t) (fd_table t) in
  Some (set_sys (put_task (CURRENT_TASK (sys k)) t (sys k)) k).

(** [t->get_page_table()] *)
Definition page_table_of (i : Z) (k : Kern) : option Z := atz (roots k) i.

(** ** Buffers *)

(** [free]: one occurrence leaves the heap. *)
Fixpoint remove_one (a : Z) (l : list Z) : option (list Z) :=
  match l with
  | [] => fault
  | x :: l => if x =? a then Some l else l ← remove_one a l; Some (x :: l)
  end.
Definition free_buffer (a : Z) (k : Kern) : option Kern := h ← remove_one a (heap k); Some (set_heap h k).

(** The destructor of a [unique_kbuf]. *)
Definition drop_buffer (a : Z) (k : Kern) : option Kern := if a =? 0 then Some k else free_buffer a k.

Fixpoint free_buffers (l : list Z) (k : Kern) : option Kern :=
  match l with
  | [] => Some k
  | a :: l => k ← free_buffer a k; free_buffers l k
  end.

(** The buffer, 0 for an empty [unique_kbuf]; its bytes are zero. *)
Definition zero_range (a n : Z) (m : Mem) : Mem := fun x => if (a <=? x) && (x <? a + n) then 0 else m x.
Definition make_ool_buffer (sz : Z) (k : Kern) : Z * Kern :=
  if sz =? 0 then (0, k)
  else
    match supply k with
    | [] => (0, k)
    | a :: rest =>
        if a =? 0 then (0, mkKern (sys k) (vm k) (roots k) (mem k) (umsg k) (heap k) rest)
        else (a, mkKern (sys k) (vm k) (roots k) (zero_range a sz (mem k)) (umsg k) (a :: heap k) rest)
    end.

(** [free_message_ool] *)
Definition discard_ool (m : Message) (k : Kern) : option (Message * Kern) :=
  let (a, m) := free_message_ool m in
  match a with
  | None => Some (m, k)
  | Some a => k ← free_buffer a k; Some (m, k)
  end.

(** [reply] on the whole state. *)
Definition reply_k (req resp : Message) (k : Kern) : option (Z * Kern) :=
  '(e, s) ← reply req resp (sys k); Some (e, set_sys s k).
Definition send_k (dst : Z) (m : Message) (k : Kern) : option (Z * Kern) :=
  '(e, s) ← send_message dst m (sys k); Some (e, set_sys s k).

(** The buffer is the callee's: it is freed on every return but the last. *)
Definition reply_with_ool (req resp : Message) (buf sz : Z) (k : Kern) : option (Z * Kern) :=
  if (correlation req =? 0) || (buf =? 0) || (sz =? 0) then
    '(e, k) ← reply_k req resp k;
    k ← drop_buffer buf k;
    Some (e, k)
  else
    '(e, k) ← reply_k req (set_ool (mkOol buf sz (reserved (ool resp))) resp) k;
    if IS_ERR e then k ← drop_buffer buf k; Some (e, k)
    else Some (err OK, k).

Definition copy_in_ool_from_user (m : Message) (k : Kern) : option (Z * Message * Kern) :=
  let o := ool m in
  if size o =? 0 then Some (err OK, set_ool (mkOol 0 (size o) (reserved o)) m, k)
  else if OOL_MAX_SIZE <? size o then Some (err ERR_OOL_LIMIT, m, k)
  else if negb (is_user_address (addr o) (size o)) then Some (err ERR_INVALID_ARG, m, k)
  else
    let (buf, k) := make_ool_buffer (size o) k in
    if buf =? 0 then Some (err ERR_NO_MEMORY, m, k)
    else
      '(n, bytes) ← copy_from_user buf (addr o) (size o) (mem k);
      let k := set_mem bytes k in
      if negb (n =? size o) then k ← drop_buffer buf k; Some (err ERR_INVALID_ARG, m, k)
      else Some (err OK, set_ool (mkOol buf (size o) (reserved o)) m, k).

(** The index of the first free region, or of the region at [ua]. *)
Fixpoint free_region (i : Z) (l : list OolRegion) : option Z :=
  match l with
  | [] => None
  | r :: l => if kaddr r =? 0 then Some i else free_region (i + 1) l
  end.
Fixpoint find_region (ua i : Z) (l : list OolRegion) : option (Z * OolRegion) :=
  match l with
  | [] => None
  | r :: l => if (kaddr r =? 0) || negb (uaddr r =? ua) then find_region ua (i + 1) l else Some (i, r)
  end.

(** Task [i] receives the payload of [m]; [0] stands for the indeterminate
    initial value of [uaddr], which is not read before it is assigned. *)
Definition deliver_ool_to_user (i : Z) (m : Message) (k : Kern) : option (Message * Kern) :=
  let o := ool m in
  if (size o =? 0) || (addr o =? 0) then Some (m, k)
  else if negb (Z.land (addr o) (PAGE_SIZE - 1) =? 0) then
    '(m, k) ← discard_ool m k; Some (set_result (err ERR_INVALID_ARG) m, k)
  else
    t ← the_task i (sys k);
    match free_region 0 (ool_regions t) with
    | None => '(m, k) ← discard_ool m k; Some (set_result (err ERR_OOL_LIMIT) m, k)
    | Some slot =>
        let pages := calc_required_pages (addr o) (size o) in
        table ← page_table_of i k;
        '(e, ua, v) ← map_frame_to_vaddr table (addr o) pages 0 (vm k);
        let k := set_vm v k in
        if IS_ERR e then '(m, k) ← discard_ool m k; Some (set_result (err ERR_NO_MEMORY) m, k)
        else
          let t := set_regions (setz (ool_regions t) slot (mkRegion (addr o) ua (u32 pages))) t in
          Some (set_ool (mkOol ua (size o) (reserved o)) m, set_sys (put_task i t (sys k)) k)
    end.

Definition release_ool_region (i ua : Z) (k : Kern) : option (Z * Kern) :=
  t ← the_task i (sys k);
  match find_region ua 0 (ool_regions t) with
  | None => Some (err ERR_INVALID_ARG, k)
  | Some (slot, r) =>
      table ← page_table_of i k;
      let (_, v) := unmap_frame table (uaddr r) (region_pages r) (vm k) in
      k ← free_buffer (kaddr r) (set_vm v k);
      Some (err OK, set_sys (put_task i (set_regions (setz (ool_regions t) slot no_region) t) (sys k)) k)
  end.

(** ** Messages in user memory *)

Definition IPC_RECV : Z := 0.
Definition IPC_SEND : Z := 1.
Definition IPC_CALL : Z := 2.
Definition IPC_REPLY : Z := 3.
Definition IPC_OOL_RELEASE : Z := 4.

(** Six 4-byte words (one of them padding), the descriptor and the union. *)
Definition MSG_INLINE_MAX : Z := 128.
Definition sizeof_Message : Z := 24 + 16 + MSG_INLINE_MAX.

(** [copy_from_user(&copy_m, m, sizeof(copy_m)) == sizeof(copy_m)] *)
Definition user_object (p n : Z) : bool := negb (p =? 0) && is_user_address p n.
Definition fetch_message (p : Z) (k : Kern) : option Message :=
  if user_object p sizeof_Message then Some (umsg k p) else None.

(** [copy_to_user(m, &copy, sizeof(copy)) == sizeof(copy)]; the error otherwise. *)
Definition put_message (p : Z) (m : Message) (k : Kern) : Z * Kern :=
  if user_object p sizeof_Message then (err OK, set_umsg (fun x => if x =? p then m else umsg k x) k)
  else (err ERR_INVALID_ARG, k).

(** ** Handlers *)

(** Where a blocked handler resumes. *)
Inductive Pending :=
| PReceive (m : Z)
| PCall (m : Z)
| PRead (buf count : Z)
| PWrite (kbuf : Z)
| PWait (status : Z).

Inductive Outcome := Done (r : Z) | Blocks (p : Pending).

(** [call] up to its wait: an error, or [None] when the caller has to wait. *)
Definition call_k (dst : Z) (m : Message) (k : Kern) : option (option Z * Kern) :=
  '(e, s) ← call_send dst m (sys k); Some (e, set_sys s k).

Definition ipc_send (dst m : Z) (k : Kern) : option (Z * Kern) :=
  match fetch_message m k with
  | None => Some (err ERR_INVALID_ARG, k)
  | Some c =>
      t ← current k;
      let c := if type c =? msg KERNEL_TASK_READY then set_sender (id t) c else c in
      let c := set_flags (Z.land (flags c) (wnot 32 MSG_FLAG_REPLY)) c in
      '(e, c, k) ← copy_in_ool_from_user c k;
      if IS_ERR e then Some (e, k)
      else
        '(e, k) ← send_k dst c k;
        if IS_ERR e then '(_, k) ← discard_ool c k; Some (e, k) else Some (e, k)
  end.

Definition ipc_call (dst m : Z) (k : Kern) : option (Outcome * Kern) :=
  match fetch_message m k with
  | None => Some (Done (err ERR_INVALID_ARG), k)
  | Some c =>
      '(e, c, k) ← copy_in_ool_from_user c k;
      if IS_ERR e then Some (Done e, k)
      else
        '(r, k) ← call_k dst c k;
        match r with
        | Some e => '(_, k) ← discard_ool c k; Some (Done e, k)
        | None => Some (Blocks (PCall m), k)
        end
  end.

Definition ipc_reply (dst m : Z) (k : Kern) : option (Z * Kern) :=
  match fetch_message m k with
  | None => Some (err ERR_INVALID_ARG, k)
  | Some c =>
      if correlation c =? 0 then Some (err OK, k)
      else
        t ← current k;
        let c := set_flags (Z.lor (flags c) MSG_FLAG_REPLY) (set_sender (id t) c) in
        '(e, c, k) ← copy_in_ool_from_user c k;
        if IS_ERR e then Some (e, k)
        else
          '(e, k) ← send_k dst c k;
          if IS_ERR e then '(_, k) ← discard_ool c k; Some (e, k) else Some (e, k)
  end.

(** One round of [receive_blocking], then the delivery. *)
Definition receive_round (m : Z) (k : Kern) : option (Outcome * Kern) :=
  '(r, s) ← receive_poll (sys k);
  let k := set_sys s k in
  match r with
  | None => Some (Blocks (PReceive m), k)
  | Some received =>
      '(received, k) ← deliver_ool_to_user (CURRENT_TASK (sys k)) received k;
      let (e, k) := put_message m received k in
      Some (Done e, k)
  end.

(** One round of the wait of [call], then the delivery. *)
Definition call_round (m : Z) (k : Kern) : option (Outcome * Kern) :=
  '(r, s) ← call_poll (sys k);
  let k := set_sys s k in
  match r with
  | None => Some (Blocks (PCall m), k)
  | Some c =>
      '(c, k) ← deliver_ool_to_user (CURRENT_TASK (sys k)) c k;
      let (e, k) := put_message m c k in
      Some (Done e, k)
  end.

Definition finish {A} (x : option (Z * A)) : option (Outcome * A) := '(e, a) ← x; Some (Done e, a).

Definition sys_ipc (arg1 arg3 arg4 : Z) (k : Kern) : option (Outcome * Kern) :=
  let dst := i32 arg1 in
  let fl := i32 arg4 in
  if fl =? IPC_RECV then receive_round arg3 k
  else if fl =? IPC_SEND then finish (ipc_send dst arg3 k)
  else if fl =? IPC_CALL then ipc_call dst arg3 k
  else if fl =? IPC_REPLY then finish (ipc_reply dst arg3 k)
  else if fl =? IPC_OOL_RELEASE then
    match fetch_message arg3 k with
    | None => Some (Done (err ERR_INVALID_ARG), k)
    | Some c => finish (release_ool_region (CURRENT_TASK (sys k)) (addr (ool c)) k)
    end
  else Some (Done (err ERR_INVALID_ARG), k).

(** *** Reading and writing *)

(** [m.data.fs.len]; the file service answers with the [fs] member. *)
Definition fs_len (m : Message) : option Z := match data m with DFs _ _ len _ _ => Some len | _ => fault end.

(** The file request of a handle. *)
Definition fs_request (ty : MsgType) (sender h len : Z) : Message := set_data (DFs (i32 h) 0 len 0 "") (new_message ty sender).

Definition sys_read (arg1 buf count : Z) (k : Kern) : option (Outcome * Kern) :=
  t ← current k;
  match get_process_fd (i32 arg1) (fd_table t) with
  | None => Some (Done (err ERR_INVALID_FD), k)
  | Some f =>
      if count =? 0 then Some (Done 0, k)
      else
        match route f with
        | ROUTE_CONSOLE => Some (Done 0, k)
        | ROUTE_FS =>
            '(r, k) ← call_k (dest f) (fs_request FS_READ (id t) (handle f) count) k;
            Some (match r with Some e => Done e | None => Blocks (PRead buf count) end, k)
        | ROUTE_NONE => Some (Done (err ERR_INVALID_FD), k)
        end
  end.

(** The reply of the file service: the payload is the handler's from here on. *)
Definition read_reply (buf count : Z) (req : Message) (k : Kern) : option (Z * Kern) :=
  let data := addr (ool req) in
  if IS_ERR (result req) then k ← drop_buffer data k; Some (result req, k)
  else
    len ← fs_len req;
    if (data =? 0) || (len =? 0) then k ← drop_buffer data k; Some (0, k)
    else
      let n := Z.min count len in
      '(copied, bytes) ← copy_to_user buf data n (mem k);
      k ← drop_buffer data (set_mem bytes k);
      Some (if negb (copied =? n) then err ERR_INVALID_ARG else n, k).

(** One round of the wait of [call], then the reply. *)
Definition read_round (buf count : Z) (k : Kern) : option (Outcome * Kern) :=
  '(r, s) ← call_poll (sys k);
  match r with
  | None => Some (Blocks (PRead buf count), set_sys s k)
  | Some req => finish (read_reply buf count req (set_sys s k))
  end.

(** [count] bytes of user memory, or zeroes where the copy is refused; then NUL. *)
Definition inline_text (buf count : Z) (m : Mem) : list Z :=
  let bytes := if user_object buf count then (fun i => load m (buf + i)) <$> seqZ 0 count else replicate (Z.to_nat count) 0 in
  bytes ++ replicate (Z.to_nat (MSG_INLINE_MAX - count)) 0.

(** Console output; the inline message is sent without a look at the result. *)
Definition write_console (dst sender buf count : Z) (k : Kern) : option (Z * Kern) :=
  let m := new_message NOTIFY_WRITE sender in
  if count <? MSG_INLINE_MAX then
    '(_, k) ← send_k dst (set_data (DWrite (inline_text buf count (mem k))) m) k;
    Some (count, k)
  else
    let (kbuf, k) := make_ool_buffer (count + 1) k in
    if kbuf =? 0 then Some (err ERR_NO_MEMORY, k)
    else
      '(_, bytes) ← copy_from_user kbuf buf count (mem k);
      let k := set_mem (store (kbuf + count) 0 bytes) k in
      '(e, k) ← send_k dst (set_ool (mkOol kbuf (u32 (count + 1)) 0) m) k;
      if IS_ERR e then k ← drop_buffer kbuf k; Some (e, k) else Some (count, k).

(** A file write up to its wait; [kbuf] waits for the outcome. *)
Definition write_file (dst sender h buf count : Z) (k : Kern) : option (Outcome * Kern) :=
  let (kbuf, k) := make_ool_buffer count k in
  if kbuf =? 0 then Some (Done (err ERR_NO_MEMORY), k)
  else
    '(n, bytes) ← copy_from_user kbuf buf count (mem k);
    let k := set_mem bytes k in
    if negb (n =? count) then k ← drop_buffer kbuf k; Some (Done (err ERR_INVALID_ARG), k)
    else
      '(r, k) ← call_k dst (set_ool (mkOol kbuf (u32 count) 0) (fs_request FS_WRITE sender h count)) k;
      match r with
      | Some e => k ← drop_buffer kbuf k; Some (Done e, k)
      | None => Some (Blocks (PWrite kbuf), k)
      end.

Definition write_round (kbuf : Z) (k : Kern) : option (Outcome * Kern) :=
  '(r, s) ← call_poll (sys k);
  let k := set_sys s k in
  match r with
  | None => Some (Blocks (PWrite kbuf), k)
  | Some req => if IS_ERR (result req) then Some (Done (result req), k) else len ← fs_len req; Some (Done len, k)
  end.

Definition sys_write (arg1 buf count : Z) (k : Kern) : option (Outcome * Kern) :=
  t ← current k;
  match get_process_fd (i32 arg1) (fd_table t) with
  | None => Some (Done (err ERR_INVALID_FD), k)
  | Some f =>
      if count =? 0 then Some (Done 0, k)
      else if OOL_MAX_SIZE <? count then Some (Done (err ERR_OOL_LIMIT), k)
      else
        match route f with
        | ROUTE_CONSOLE => finish (write_console (dest f) (id t) buf count k)
        | ROUTE_FS => write_file (dest f) (id t) (handle f) buf count k
        | ROUTE_NONE => Some (Done (err ERR_INVALID_FD), k)
        end
  end.

(** *** Processes *)

Definition sys_exit (arg1 : Z) (k : Kern) : option Kern :=
  '(freed, s) ← exit_task (i32 arg1) (sys k); free_buffers freed (set_sys s k).

(** The four bytes of an [int], little-endian. *)
Definition store_int (a v : Z) (m : Mem) : Mem :=
  let w := u32 v in store (a + 3) (w / 16777216 mod 256) (store (a + 2) (w / 65536 mod 256) (store (a + 1) (w / 256 mod 256) (store a (w mod 256) m))).

(** One round of [sys_wait]. *)
Definition wait_round (st : Z) (k : Kern) : option (Outcome * Kern) :=
  '(r, s) ← wait_child_poll (sys k);
  let k := set_sys s k in
  match r with
  | None => Some (Blocks (PWait st), k)
  | Some rec =>
      if user_object st 4 then Some (Done (pid rec), set_mem (store_int st (status rec) (mem k)) k)
      else Some (Done (-1), k)
  end.

Definition sys_getpid (k : Kern) : option Z := t ← current k; Some (id t).
Definition sys_getppid (k : Kern) : option Z := t ← current k; Some (parent_id t).

(** A blocked handler gets the processor again. *)
Definition resume (p : Pending) (k : Kern) : option (Outcome * Kern) :=
  match p with
  | PReceive m => receive_round m k
  | PCall m => call_round m k
  | PRead buf count => read_round buf count k
  | PWrite kbuf => write_round kbuf k
  | PWait st => wait_round st k
  end.
