(* ===== verification/SyscallProofs.v ===== *)
(** * Who owns the out-of-line buffers

    Every allocated buffer has one owner: a mapped region, a queued message, an
    unread reply, or the handler that is running. *)

From S2P Require Import Prelude Pages Message MessageQueue UserMem Fd Task TaskProofs TaskLife Paging Syscall.

Open Scope Z_scope.

(** ** The messages of a ring *)

#[export] Instance Message_inhabited : Inhabited Message := populate zero_message.

Definition contents (q : MessageQueue) : list Message :=
  match ring_ q with
  | None => []
  | Some r => (fun i => r !!! Z.to_nat ((head_ q + i) mod CAPACITY)) <$> seqZ 0 (count_ q)
  end.

Lemma holds_contents q : queue_ok q -> holds q (contents q).
Proof.
  intros [Hh Hc Hr]. unfold contents, holds. destruct (ring_ q) as [r|] eqn:E.
  - split; [unfold lenz; rewrite length_fmap, length_seqZ; lia|]. intros ring [= <-] i m Hm. apply atz_Some in Hm as [Hi Hm].
    rewrite list_lookup_fmap in Hm. apply fmap_Some in Hm as (j & Hj & ->). apply lookup_seqZ in Hj as [-> Hj].
    replace (0 + Z.of_nat (Z.to_nat i)) with i by lia. unfold CAPACITY in *.
    pose proof (Z.mod_pos_bound (head_ q + i) 64 ltac:(lia)). apply atz_Some. split; [lia|].
    apply list_lookup_lookup_total_lt. unfold lenz in Hr. lia.
  - split; [unfold lenz; simpl; lia|done].
Qed.

Lemma holds_unique q ms ms' : queue_ok q -> holds q ms -> holds q ms' -> ms = ms'.
Proof.
  intros [Hh Hc Hr] [L1 A1] [L2 A2]. destruct (ring_ q) as [r|] eqn:E.
  - apply list_eq_same_length with (length ms); [unfold lenz in *; lia|unfold lenz in *; lia|]. intros i x y Hi Hx Hy.
    assert (atz ms (Z.of_nat i) = Some x) as Hx' by (apply atz_Some; split; [lia|by rewrite Nat2Z.id]).
    assert (atz ms' (Z.of_nat i) = Some y) as Hy' by (apply atz_Some; split; [lia|by rewrite Nat2Z.id]).
    specialize (A1 r eq_refl _ _ Hx'). specialize (A2 r eq_refl _ _ Hy'). congruence.
  - rewrite Hr in *. destruct ms; [|rewrite lenz_cons in L1; pose proof (lenz_nonneg ms); lia].
    destruct ms'; [done|rewrite lenz_cons in L2; pose proof (lenz_nonneg ms'); lia].
Qed.

Lemma push_contents q m q' : queue_ok q -> push m q = (true, q') -> contents q' = contents q ++ [m].
Proof.
  intros Hq E. destruct (push_spec q _ m Hq (holds_contents q Hq)) as [(_ & _ & q2 & E2 & Hq2 & H2 & _)|[_ E2]]; rewrite E in E2; [|done].
  simplify_eq. apply (holds_unique q2); [done|by apply holds_contents|done].
Qed.

Lemma pop_contents q : queue_ok q -> exists r q', pop q = Some (r, q') /\ queue_ok q' /\ contents q = option_list r ++ contents q'.
Proof.
  intros Hq. pose proof (holds_contents q Hq) as Hh. destruct (contents q) as [|m ms] eqn:Ec.
  - exists None, q. by rewrite (pop_nil q Hq Hh).
  - destruct (pop_cons q m ms Hq Hh) as (q' & E & Hq' & Hh' & _). exists (Some m), q'. split_and!; [done|done|]. cbn. f_equal.
    apply (holds_unique q'); [done|done|by apply holds_contents].
Qed.

(** ** Owners *)

Definition task_msgs (t : Task) : list Message := contents (messages t) ++ (if reply_pending t then [reply_slot t] else []).
Definition regions_owned (l : list OolRegion) : list Z := kaddr <$> filter (fun r => kaddr r <> 0) l.
Definition owned_of (t : Task) : list Z := regions_owned (ool_regions t) ++ omap owned_buffer (task_msgs t).
Definition owners (s : Sys) : list Z := mjoin ((fun o => match o with Some t => owned_of t | None => [] end) <$> tasks s).

(** A message whose payload, if any, is not a user address. *)
Definition ool_ok (m : Message) : Prop := size (ool m) <> 0 -> addr (ool m) <> 0 -> is_user_address (addr (ool m)) (size (ool m)) = false.
Definition msgs_ok (s : Sys) : Prop := forall i t, the_task i s = Some t -> Forall ool_ok (task_msgs t).

Lemma owned_buffer_ok m : ool_ok m -> owned_buffer m = (if (size (ool m) =? 0) || (addr (ool m) =? 0) then None else Some (addr (ool m))).
Proof.
  intros Hm. unfold owned_buffer, free_message_ool. destruct (Z.eqb_spec (size (ool m)) 0); [done|]. destruct (Z.eqb_spec (addr (ool m)) 0); [done|].
  cbn [orb]. by rewrite Hm.
Qed.

Lemma owned_buffer_ool m m' : ool m = ool m' -> owned_buffer m = owned_buffer m'.
Proof. intros H. unfold owned_buffer, free_message_ool. rewrite H. destruct (_ || _); [done|]. by destruct (is_user_address _ _). Qed.

(** Changing one task. *)
Lemma owners_put i s t t' l l' : the_task i s = Some t -> l ++ owned_of t' ≡ₚ l' ++ owned_of t -> l ++ owners (put_task i t' s) ≡ₚ l' ++ owners s.
Proof.
  intros Ht Hp. unfold the_task, task_at in Ht. destruct (atz (tasks s) i) as [o|] eqn:Ha; [|done]. cbn in Ht. subst o. apply atz_Some in Ha as [Hi Ha].
  unfold owners, put_task. cbn [tasks set_tasks]. unfold setz. pose proof (lookup_lt_Some _ _ _ Ha) as Hlt.
  rewrite <- (take_drop_middle (tasks s) (Z.to_nat i) (Some t) Ha) at 2. rewrite (insert_take_drop _ _ _ Hlt).
  rewrite !fmap_app, !fmap_cons, !join_app. cbn [mjoin list_join]. set (A := mjoin _). set (B := mjoin _).
  rewrite (Permutation_app_swap_app A (owned_of t') B), (Permutation_app_swap_app A (owned_of t) B), !app_assoc. by rewrite Hp.
Qed.

Lemma owners_same i s t t' : the_task i s = Some t -> owned_of t' = owned_of t -> owners (put_task i t' s) ≡ₚ owners s.
Proof. intros Ht He. apply (owners_put i s t t' [] []); [done|]. by rewrite He. Qed.

Lemma msgs_put i s t' : 0 <= i < lenz (tasks s) -> msgs_ok s -> Forall ool_ok (task_msgs t') -> msgs_ok (put_task i t' s).
Proof.
  intros Hi Hs Ht' j t. rewrite the_task_put by done. destruct (Z.eqb_spec j i) as [->|Hne]; [by intros [= <-]|apply Hs].
Qed.

Lemma schedule_owners i s s' : schedule_task i s = Some s' -> owners s' ≡ₚ owners s /\ (msgs_ok s -> msgs_ok s') /\ CURRENT_TASK s' = CURRENT_TASK s.
Proof.
  unfold schedule_task. destruct (_ || _) eqn:E; [by intros [= <-]|]. apply orb_false_iff in E as [E1 E2]. apply Z.ltb_ge in E1. apply Z.leb_gt in E2.
  destruct (task_at i s) as [[t|]|] eqn:Ha; cbn [mbind option_bind]; [|by intros [= <-]|done].
  assert (the_task i s = Some t) as Ht by (unfold the_task; by rewrite Ha).
  intros Hs. assert (owners s' ≡ₚ owners (put_task i (set_state TASK_READY t) s) /\ (forall j, the_task j s' = the_task j (put_task i (set_state TASK_READY t) s)) /\
    CURRENT_TASK s' = CURRENT_TASK s) as (Ho & Hts & Hc) by (destruct (decide _); by simplify_eq).
  split_and!; [|intros Hm|done].
  - rewrite Ho. by apply (owners_same i s t).
  - intros j x Hx. rewrite Hts in Hx. revert j x Hx. apply (msgs_put i s); [lia|done|]. exact (Hm i t Ht).
Qed.

(** ** Sending and receiving move one buffer *)

Lemma omap_owned_snoc ms m : omap owned_buffer (ms ++ [m]) = omap owned_buffer ms ++ option_list (owned_buffer m).
Proof. rewrite omap_app. cbn. by destruct (owned_buffer m). Qed.

Lemma owned_put_reply t m : reply_pending t = false -> owned_of (set_reply m true t) = owned_of t ++ option_list (owned_buffer m).
Proof.
  intros Hr. unfold owned_of, task_msgs. cbn [ool_regions messages reply_pending reply_slot set_reply]. rewrite Hr, app_nil_r.
  by rewrite omap_owned_snoc, app_assoc.
Qed.

Lemma owned_put_message t m q : contents q = contents (messages t) ++ [m] ->
  owned_of (set_messages q t) ≡ₚ option_list (owned_buffer m) ++ owned_of t.
Proof.
  intros Hq. unfold owned_of, task_msgs. cbn [ool_regions messages reply_pending reply_slot set_messages]. rewrite Hq.
  rewrite omap_app, omap_owned_snoc, omap_app. rewrite <- !app_assoc, (Permutation_app_swap_app (omap _ _) (option_list _)).
  apply Permutation_app_swap_app.
Qed.

Lemma send_owners s pc dst m e s' : Inv s pc -> msgs_ok s -> ool_ok m -> send_message dst m s = Some (e, s') -> IS_ERR e = false ->
  owners s' ≡ₚ option_list (owned_buffer m) ++ owners s /\ msgs_ok s' /\ CURRENT_TASK s' = CURRENT_TASK s.
Proof.
  intros Hinv Hm Hom. unfold send_message. destruct (dst =? -1); [by intros [= <- <-]|].
  destruct (task_at dst s) as [[t|]|] eqn:Ha; cbn [mbind option_bind]; [|by intros [= <- <-]|done].
  assert (the_task dst s = Some t) as Ht by (unfold the_task; by rewrite Ha). pose proof (the_task_range _ _ _ Ht) as Hr.
  pose proof (Hm dst t Ht) as Hmt. pose proof (bs_tasks _ _ (iv_base _ _ Hinv) dst t Ht) as Hok.
  assert (forall t' s2 (b : bool), owned_of t' ≡ₚ option_list (owned_buffer m) ++ owned_of t -> Forall ool_ok (task_msgs t') ->
    (if b then schedule_task dst (put_task dst t' s) else Some (put_task dst t' s)) = Some s2 ->
    owners s2 ≡ₚ option_list (owned_buffer m) ++ owners s /\ msgs_ok s2 /\ CURRENT_TASK s2 = CURRENT_TASK s) as Hput.
  { intros t' s2 b Hown Hms E. pose proof (owners_put dst s t t' [] (option_list (owned_buffer m)) Ht Hown) as Ho.
    pose proof (msgs_put dst s t' Hr Hm Hms) as Hmp. destruct b; [|by simplify_eq].
    destruct (schedule_owners _ _ _ E) as (H1 & H2 & H3). split_and!; [by rewrite H1|by apply H2|by rewrite H3]. }
  destruct (is_reply m).
  - unfold deliver_reply. destruct (_ || _ || _) eqn:Ec; [by intros [= <- <-]|]. apply orb_false_iff in Ec as [_ Hrp]. intros E _.
    set (t' := set_reply m true t) in *.
    apply (Hput t' s' (if decide (state t = TASK_WAITING /\ wait_reason t = WAIT_REPLY) then true else false)).
    + unfold t'. rewrite (owned_put_reply t m Hrp). apply Permutation_app_comm.
    + unfold task_msgs in Hmt |- *. cbn. rewrite Hrp, app_nil_r in Hmt. apply Forall_app. split; [done|by apply Forall_singleton].
    + destruct (decide _); [|by simplify_eq]. destruct (schedule_task _ _); [|done]. cbn in E. by simplify_eq.
  - unfold deliver_message. destruct (push m (messages t)) as [[] q] eqn:Ep; [|by intros [= <- <-]]. intros E _.
    pose proof (push_contents _ _ _ (to_queue _ _ _ Hok) Ep) as Hcq. set (t' := set_messages q t) in *.
    apply (Hput t' s' (if decide (state t = TASK_WAITING /\ (wait_reason t = WAIT_RECEIVE \/ wait_reason t = WAIT_NONE)) then true else false)).
    + by apply owned_put_message.
    + unfold task_msgs in Hmt |- *. cbn. rewrite Hcq. apply Forall_app in Hmt as [H1 H2]. apply Forall_app. split; [|done].
      apply Forall_app. split; [done|by apply Forall_singleton].
    + destruct (decide _); [|by simplify_eq]. destruct (schedule_task _ _); [|done]. cbn in E. by simplify_eq.
Qed.

Lemma call_owners s pc dst m r s' : Inv s pc -> runs s pc -> msgs_ok s -> ool_ok m -> call_send dst m s = Some (r, s') ->
  owners s' ≡ₚ (match r with Some _ => [] | None => option_list (owned_buffer m) end) ++ owners s /\ msgs_ok s' /\
  CURRENT_TASK s' = CURRENT_TASK s /\ (forall e, r = Some e -> IS_ERR e = true).
Proof.
  intros Hinv [Hp Hni] Hm Hom. destruct (current_running s pc Hinv) as (t & Ht & Hst & Hok); [by rewrite Hp|].
  pose proof (the_task_range _ _ _ Ht) as Hr. rewrite Hp in Hok. unfold call_send. rewrite Ht. cbn [mbind option_bind].
  destruct (dst =? id t); [intros [= <- <-]; split_and!; try done; by intros e [= <-]|].
  assert (reply_pending t = false) as Hrp.
  { destruct (reply_pending t) eqn:E; [|done]. destruct (to_reply _ _ _ Hok E) as (_ & _ & Hc). apply (to_call _ _ _ Hok) in Hc. done. }
  destruct (next_corr_spec t) as (c & -> & Hc). set (t1 := set_call c false (set_next_correlation c t)). set (s1 := put_task (CURRENT_TASK s) t1 s).
  assert (owned_of t1 = owned_of t /\ task_msgs t1 = task_msgs t) as [Ho1 Hm1] by (unfold owned_of, task_msgs; cbn; by rewrite Hrp).
  assert (Inv s1 (upd pc (CURRENT_TASK s) (Poll InCall))) as Hinv1.
  { pose proof Hok as [K1 K2 K3 K4 K5 K6 K7 K8 K9]. apply (inv_current s pc t); try done; try by left. split; try done; simpl; by rewrite Hst. }
  assert (msgs_ok s1) as Hms1 by (apply msgs_put; [done|done|rewrite Hm1; by apply (Hm (CURRENT_TASK s))]).
  set (m1 := set_result _ _). assert (owned_buffer m1 = owned_buffer m) as Hob by (by apply owned_buffer_ool).
  destruct (send_message dst m1 s1) as [[e s2]|] eqn:E; [|done]. cbn [mbind option_bind]. destruct (IS_ERR e) eqn:Ee.
  - apply send_error in E as ->; [|done]. unfold s1. rewrite the_task_put_eq by done. cbn [mbind option_bind]. intros [= <- <-]. rewrite put_put.
    split_and!; [|apply msgs_put; [done|done|]|done|by intros e' [= <-]].
    + apply (owners_same (CURRENT_TASK s) s t); [done|]. unfold owned_of, task_msgs. cbn. by rewrite Hrp.
    + pose proof (Hm (CURRENT_TASK s) t Ht) as Hmt. unfold task_msgs in Hmt |- *. cbn. by rewrite Hrp in Hmt.
  - intros [= <- <-]. destruct (send_owners s1 _ dst m1 e s2 Hinv1 Hms1 Hom E Ee) as (H1 & H2 & H3). split_and!; [|done|done|done].
    rewrite H1, Hob. f_equiv. by apply (owners_same (CURRENT_TASK s) s t).
Qed.

Lemma try_receive_owned t r t' : queue_ok (messages t) -> 0 <= pending_notifications t < 32 -> Forall ool_ok (task_msgs t) ->
  try_receive_task t = Some (r, t') ->
  owned_of t ≡ₚ option_list (r ≫= owned_buffer) ++ owned_of t' /\ Forall ool_ok (task_msgs t') /\ (forall m, r = Some m -> ool_ok m).
Proof.
  intros Hq Hp Hms. unfold try_receive_task. destruct (pop_notification_spec t Hp) as [[H0 ->]|(m & p & -> & Hp' & Hb & Hool)]; cbn [mbind option_bind].
  - destruct (pop_contents (messages t) Hq) as (x & q & -> & Hq' & Hc). cbn [mbind option_bind]. intros [= <- <-].
    unfold task_msgs in Hms. rewrite Hc in Hms. apply Forall_app in Hms as [Hms H2]. apply Forall_app in Hms as [H1 H3]. split_and!.
    + unfold owned_of, task_msgs. cbn [ool_regions messages reply_pending reply_slot set_messages]. rewrite Hc.
      destruct x as [m|]; [|done]. cbn.
      destruct (owned_buffer m); [by rewrite <- Permutation_middle|done].
    + unfold task_msgs. cbn. by apply Forall_app.
    + intros m ->. exact (Forall_inv H1).
  - intros [= <- <-]. cbn [mbind option_bind]. rewrite (owned_none m Hool). split_and!; [done|done|]. intros x [= <-]. intros Hs. by rewrite Hool in Hs.
Qed.

(** What a poll takes out. *)
Record taken (s s' : Sys) (r : option Message) : Prop := mkTaken {
  tn_owners : owners s ≡ₚ option_list (r ≫= owned_buffer) ++ owners s';
  tn_msgs : msgs_ok s';
  tn_ok : forall m, r = Some m -> ool_ok m;
  tn_current : CURRENT_TASK s' = CURRENT_TASK s;
}.

Lemma taken_put s t t' r : the_task (CURRENT_TASK s) s = Some t -> msgs_ok s -> owned_of t ≡ₚ option_list (r ≫= owned_buffer) ++ owned_of t' ->
  Forall ool_ok (task_msgs t') -> (forall m, r = Some m -> ool_ok m) -> taken s (put_task (CURRENT_TASK s) t' s) r.
Proof.
  intros Ht Hm Ho Hms Hr. split; [|apply msgs_put; [by eapply the_task_range|done|done]|done|done].
  symmetry. apply (owners_put (CURRENT_TASK s) s t t' _ [] Ht). by rewrite Ho.
Qed.

Lemma receive_owners s pc r s' : Inv s pc -> pc (CURRENT_TASK s) = Poll InReceive -> msgs_ok s -> receive_poll s = Some (r, s') -> taken s s' r.
Proof.
  intros Hinv Hp Hm. destruct (current_running s pc Hinv) as (t & Ht & Hst & Hok); [by rewrite Hp|].
  unfold receive_poll. rewrite Ht. cbn [mbind option_bind]. destruct (try_receive_task t) as [[x t1]|] eqn:E; [|done]. cbn [mbind option_bind].
  destruct (try_receive_owned t x t1 (to_queue _ _ _ Hok) (to_pending _ _ _ Hok) (Hm _ _ Ht) E) as (H1 & H2 & H3).
  destruct x as [m|]; intros [= <- <-]; by apply (taken_put s t).
Qed.

Lemma call_poll_owners s pc r s' : Inv s pc -> pc (CURRENT_TASK s) = Poll InCall -> msgs_ok s -> call_poll s = Some (r, s') -> taken s s' r.
Proof.
  intros Hinv Hp Hm. destruct (current_running s pc Hinv) as (t & Ht & Hst & Hok); [by rewrite Hp|]. pose proof (Hm _ _ Ht) as Hmt.
  unfold call_poll. rewrite Ht. cbn [mbind option_bind]. destruct (reply_pending t) eqn:Er; intros [= <- <-]; (apply (taken_put s t); [done|done| | |]).
  - unfold owned_of, task_msgs. cbn [ool_regions messages reply_pending reply_slot set_wait_reason set_state set_call]. rewrite Er, app_nil_r.
    rewrite omap_owned_snoc, app_assoc. cbn. apply Permutation_app_comm.
  - unfold task_msgs in Hmt |- *. cbn. rewrite Er in Hmt. apply Forall_app in Hmt as [? _]. by rewrite app_nil_r.
  - intros m [= <-]. unfold task_msgs in Hmt. rewrite Er in Hmt. apply Forall_app in Hmt as [_ Hmt]. exact (Forall_inv Hmt).
  - done.
  - done.
  - done.
Qed.
