(* ===== verification/SyscallSpec.v ===== *)
(** * What the IPC system call promises

    No out-of-line buffer is leaked or freed twice, whatever a user program asks
    for; and what the call does not promise: the sender of a message is whatever
    the sending program writes. *)

From stdpp Require Import strings.
From S2P Require Import Prelude Pages Message MessageQueue UserMem Fd Task TaskProofs TaskLife Paging Syscall SyscallProofs TaskSpec.

Open Scope Z_scope.

(** ** The ledger *)

(** Addresses the allocator gives. *)
Definition kernel_buffer (a : Z) : Prop := 0 < a < user_start.

(** The allocated buffers are those with an owner and those the running handler
    holds, each once. *)
Record ledger (held : list Z) (k : Kern) : Prop := mkLedger {
  lg_heap : heap k ≡ₚ held ++ owners (sys k);
  lg_nodup : NoDup (heap k);
  lg_addr : Forall kernel_buffer (heap k);
  lg_msgs : msgs_ok (sys k);
}.

(** The next allocation fails or gives a buffer that is not allocated. *)
Definition alloc_ok (k : Kern) : Prop := forall a rest, supply k = a :: rest -> a = 0 \/ (kernel_buffer a /\ a ∉ heap k).

Lemma ledger_ext held k k' : heap k' = heap k -> sys k' = sys k -> ledger held k -> ledger held k'.
Proof. intros Hh Hs [H1 H2 H3 H4]. by split; rewrite ?Hh, ?Hs. Qed.

Lemma remove_one_spec a l : a ∈ l -> exists l', remove_one a l = Some l' /\ l ≡ₚ a :: l'.
Proof.
  induction l as [|x l IH]; [by intros ?%not_elem_of_nil|]. cbn. destruct (Z.eqb_spec x a) as [->|Hne]; [by exists l|].
  intros [->|Hin]%elem_of_cons; [done|]. destruct (IH Hin) as (l' & -> & Hl). exists (x :: l'). split; [done|]. by rewrite Hl, Permutation_swap.
Qed.

Lemma free_held a held k : ledger (a :: held) k -> exists h, free_buffer a k = Some (set_heap h k) /\ ledger held (set_heap h k).
Proof.
  intros [H1 H2 H3 H4]. destruct (remove_one_spec a (heap k)) as (h & E & Hh); [rewrite H1; by left|].
  exists h. unfold free_buffer. rewrite E. split; [done|]. rewrite Hh in H1, H2, H3. split; cbn [heap sys set_heap].
  - by apply Permutation_cons_inv in H1.
  - by apply NoDup_cons in H2 as [_ ?].
  - by apply Forall_cons in H3 as [_ ?].
  - done.
Qed.

Lemma make_held sz held k : ledger held k -> alloc_ok k ->
  let (a, k') := make_ool_buffer sz k in
  sys k' = sys k /\ vm k' = vm k /\ roots k' = roots k /\ umsg k' = umsg k /\
  if a =? 0 then ledger held k' else sz <> 0 /\ kernel_buffer a /\ ledger (a :: held) k'.
Proof.
  intros [H1 H2 H3 H4] Ha. unfold make_ool_buffer. destruct (Z.eqb_spec sz 0); [done|]. destruct (supply k) as [|a rest] eqn:Es; [done|].
  destruct (Z.eqb_spec a 0) as [->|Hne]; [done|]. destruct (Ha a rest Es) as [?|[Hk Hn]]; [done|]. split_and!; try done.
  destruct (Z.eqb_spec a 0); [done|]. split_and!; [done|done|]. split; cbn [heap sys].
  - by rewrite H1.
  - by apply NoDup_cons.
  - by apply Forall_cons.
  - done.
Qed.

(** ** Copying in *)

Lemma copy_bytes_total to from n m : exists m', copy_bytes to from n m = Some m'.
Proof.
  unfold copy_bytes. destruct (for_n_inv (fun _ _ => True) (Z.to_nat n) 0 (fun i m => Some (store (to + i) (load m (from + i)) m)) m) as (m' & E & _);
    [done|intros; by eexists|by exists m'].
Qed.

Lemma kernel_not_user a n : kernel_buffer a -> is_user_address a n = false.
Proof. intros [_ Ha]. unfold is_user_address. destruct (Z.leb_spec user_start a); [lia|done]. Qed.

Lemma owned_kernel m : kernel_buffer (addr (ool m)) -> size (ool m) <> 0 -> owned_buffer m = Some (addr (ool m)).
Proof.
  intros Hk Hs. rewrite owned_buffer_ok; [|intros _ _; by apply kernel_not_user]. destruct (Z.eqb_spec (size (ool m)) 0); [done|].
  destruct (Z.eqb_spec (addr (ool m)) 0) as [E|]; [|done]. destruct Hk as [? _]. lia.
Qed.

(** Only memory, the heap and the supply change. *)
Definition same_but_heap (k k' : Kern) : Prop := sys k' = sys k /\ vm k' = vm k /\ roots k' = roots k /\ umsg k' = umsg k.

Lemma copy_in_spec m k : ledger [] k -> alloc_ok k -> exists e m' k', copy_in_ool_from_user m k = Some (e, m', k') /\ same_but_heap k k' /\
  if IS_ERR e then ledger [] k'
  else ool_ok m' /\ ledger (option_list (owned_buffer m')) k' /\ exists o, m' = set_ool o m.
Proof.
  intros Hl Ha. unfold copy_in_ool_from_user. cbv zeta. destruct (Z.eqb_spec (size (ool m)) 0) as [H0|H0].
  { do 3 eexists. split; [done|]. split; [done|]. cbn. split_and!; [by intros []| |by eexists]. unfold owned_buffer, free_message_ool. cbn. by rewrite H0. }
  destruct (OOL_MAX_SIZE <? size (ool m)); [do 3 eexists; split_and!; try done|].
  destruct (is_user_address (addr (ool m)) (size (ool m))) eqn:Hu; cbn [negb]; [|do 3 eexists; split_and!; try done].
  pose proof (make_held (size (ool m)) [] k Hl Ha) as Hmk. destruct (make_ool_buffer (size (ool m)) k) as [buf k1]. destruct Hmk as (S1 & S2 & S3 & S4 & Hmk).
  destruct (Z.eqb_spec buf 0) as [->|Hb]; [do 3 eexists; split_and!; try done|]. destruct Hmk as (_ & Hk & Hl1).
  unfold copy_from_user. destruct (Z.eqb_spec buf 0); [done|]. cbn [orb].
  assert (addr (ool m) <> 0) as Hnz. { intros E. rewrite E in Hu. done. }
  destruct (Z.eqb_spec (addr (ool m)) 0); [done|]. rewrite Hu. cbn [negb].
  destruct (copy_bytes_total buf (addr (ool m)) (size (ool m)) (mem k1)) as (bytes & ->). cbn [mbind option_bind]. rewrite Z.eqb_refl. cbn [negb].
  do 3 eexists. split; [done|]. split; [done|]. cbn. split_and!; [|rewrite owned_kernel; [by apply (ledger_ext [buf] k1)|exact Hk|exact H0]|by eexists].
  intros _ _. by apply kernel_not_user.
Qed.

(** Dropping the payload of a message the handler holds. *)
Lemma discard_spec m held k : ledger (option_list (owned_buffer m) ++ held) k ->
  exists m' h, discard_ool m k = Some (m', set_heap h k) /\ ledger held (set_heap h k).
Proof.
  unfold discard_ool, owned_buffer. destruct (free_message_ool m) as [[a|] m'] eqn:E; cbn [fst option_list app]; intros Hl.
  - destruct (free_held a held k Hl) as (h & -> & Hl'). cbn [mbind option_bind]. by exists m', h.
  - exists m', (heap k). by destruct k.
Qed.

(** ** Regions *)

Lemma regions_put l : forall i slot r, free_region i l = Some slot -> kaddr r <> 0 -> 0 <= i ->
  i <= slot < i + lenz l /\ regions_owned (setz l (slot - i) r) ≡ₚ kaddr r :: regions_owned l.
Proof.
  induction l as [|x l IH]; intros i slot r Hf Hr Hi; [done|]. cbn [free_region] in Hf. rewrite lenz_cons. pose proof (lenz_nonneg l).
  destruct (Z.eqb_spec (kaddr x) 0) as [Hx|Hx].
  - injection Hf as <-. split; [lia|]. rewrite Z.sub_diag. change (setz (x :: l) 0 r) with (r :: l). unfold regions_owned.
    rewrite !filter_cons, decide_True, decide_False by tauto. done.
  - destruct (IH (i + 1) slot r Hf Hr ltac:(lia)) as [Hs Hp]. split; [lia|].
    assert (setz (x :: l) (slot - i) r = x :: setz l (slot - (i + 1)) r) as ->.
    { unfold setz. replace (Z.to_nat (slot - i)) with (S (Z.to_nat (slot - (i + 1)))) by lia. done. }
    unfold regions_owned in *. rewrite !filter_cons, !decide_True by done. cbn. rewrite Hp. apply Permutation_swap.
Qed.

Lemma regions_drop ua l : forall i slot r, find_region ua i l = Some (slot, r) -> 0 <= i ->
  i <= slot < i + lenz l /\ kaddr r <> 0 /\ regions_owned l ≡ₚ kaddr r :: regions_owned (setz l (slot - i) no_region).
Proof.
  induction l as [|x l IH]; intros i slot r Hf Hi; [done|]. cbn [find_region] in Hf. rewrite lenz_cons. pose proof (lenz_nonneg l).
  destruct ((kaddr x =? 0) || negb (uaddr x =? ua)) eqn:Ex.
  - destruct (IH (i + 1) slot r Hf ltac:(lia)) as (Hs & Hk & Hp). split_and!; [lia|lia|done|].
    assert (setz (x :: l) (slot - i) no_region = x :: setz l (slot - (i + 1)) no_region) as ->.
    { unfold setz. replace (Z.to_nat (slot - i)) with (S (Z.to_nat (slot - (i + 1)))) by lia. done. }
    unfold regions_owned in *. rewrite !filter_cons. destruct (decide (kaddr x <> 0)); [|done]. cbn. rewrite Hp. apply Permutation_swap.
  - injection Hf as <- <-. apply orb_false_iff in Ex as [Hx _]. apply Z.eqb_neq in Hx. split_and!; [lia|lia|done|].
    rewrite Z.sub_diag. change (setz (x :: l) 0 no_region) with (no_region :: l). unfold regions_owned.
    rewrite !filter_cons, decide_True by done. rewrite decide_False by (cbn; tauto). done.
Qed.

Lemma task_ok_regions i p t l : task_ok i p t -> task_ok i p (set_regions l t).
Proof. intros []. by split. Qed.

(** Replacing the regions of the running task. *)
Lemma inv_regions s pc i t l : Inv s pc -> the_task i s = Some t -> Inv (put_task i (set_regions l t) s) pc.
Proof.
  intros Hinv Ht. apply (inv_update s pc i t); [done|done|done|]. apply task_ok_regions. by apply (bs_tasks _ _ (iv_base _ _ Hinv)).
Qed.

Lemma map_frame_total table fr n a v : exists e ua v', map_frame_to_vaddr table fr n a v = Some (e, ua, v').
Proof.
  unfold map_frame_to_vaddr. destruct (descend v USER_SPACE_START_INDEX table) as [i4 t3]. destruct (descend v 0 t3) as [i3 t2].
  destruct (descend v 0 t2) as [i2 t1]. destruct (free_run _ _ _ _ _) as [i|]; [|by do 3 eexists]. unfold map_run.
  destruct (for_n_inv (fun _ _ => True) (Z.to_nat n) 0
    (fun j s => Some (put_entry t1 (i + j) (map_entry (fr + j * PAGE_SIZE) (entry s t1 (i + j))) s)) v) as (v' & -> & _); [done|intros; by eexists|].
  by do 3 eexists.
Qed.

(** ** Delivery and release *)

(** The state a handler leaves to the scheduler. *)
Record settled (pc : Z -> Pc) (k k' : Kern) : Prop := mkSettled {
  sd_ledger : ledger [] k';
  sd_inv : Inv (sys k') pc;
  sd_current : CURRENT_TASK (sys k') = CURRENT_TASK (sys k);
}.

Lemma settled_ext pc k k' k2 : heap k2 = heap k' -> sys k2 = sys k' -> settled pc k k' -> settled pc k k2.
Proof. intros Hh Hs [H1 H2 H3]. split; rewrite ?Hs; [by apply (ledger_ext [] k')|done|done]. Qed.

Lemma discard_settled pc m k k1 : Inv (sys k1) pc -> CURRENT_TASK (sys k1) = CURRENT_TASK (sys k) -> ledger (option_list (owned_buffer m)) k1 ->
  exists m' k', discard_ool m k1 = Some (m', k') /\ settled pc k k'.
Proof.
  intros Hi Hc Hl. destruct (discard_spec m [] k1) as (m' & h & E & Hl'); [by rewrite app_nil_r|]. exists m', (set_heap h k1). split; [done|]. by split.
Qed.

Lemma deliver_spec pc m k root : Inv (sys k) pc -> ool_ok m -> ledger (option_list (owned_buffer m)) k ->
  page_table_of (CURRENT_TASK (sys k)) k = Some root ->
  exists m' k', deliver_ool_to_user (CURRENT_TASK (sys k)) m k = Some (m', k') /\ settled pc k k'.
Proof.
  intros Hinv Hm Hl Hroot. pose proof (owned_buffer_ok m Hm) as Hob. unfold deliver_ool_to_user. cbv zeta.
  destruct ((size (ool m) =? 0) || (addr (ool m) =? 0)) eqn:Ez.
  { rewrite Hob in Hl. exists m, k. by split; [|split]. }
  assert (kernel_buffer (addr (ool m))) as Hk.
  { destruct Hl as [H1 _ H3 _]. rewrite Forall_forall in H3. apply H3. rewrite H1, Hob. by left. }
  destruct (negb (Z.land (addr (ool m)) (PAGE_SIZE - 1) =? 0)).
  { destruct (discard_settled pc m k k Hinv eq_refl Hl) as (m' & k' & -> & Hs). cbn [mbind option_bind]. by eexists _, k'. }
  destruct (iv_cur _ _ Hinv) as [t Ht]. rewrite Ht. cbn [mbind option_bind].
  destruct (free_region 0 (ool_regions t)) as [slot|] eqn:Ef.
  2:{ destruct (discard_settled pc m k k Hinv eq_refl Hl) as (m' & k' & -> & Hs). cbn [mbind option_bind]. by eexists _, k'. }
  rewrite Hroot. cbn [mbind option_bind].
  destruct (map_frame_total root (addr (ool m)) (calc_required_pages (addr (ool m)) (size (ool m))) 0 (vm k)) as (e & ua & v & ->). cbn [mbind option_bind].
  destruct (IS_ERR e).
  { destruct (discard_settled pc m k (set_vm v k) Hinv eq_refl) as (m' & k' & -> & Hs); [by apply (ledger_ext _ k)|]. cbn [mbind option_bind]. by eexists _, k'. }
  do 2 eexists. split; [reflexivity|]. rewrite Hob in Hl. destruct Hl as [H1 H2 H3 H4]. pose proof (the_task_range _ _ _ Ht) as Hr.
  set (r := mkRegion _ _ _). set (t' := set_regions _ t).
  destruct (regions_put (ool_regions t) 0 slot r Ef) as [_ Hrp]; [destruct Hk as [? _]; cbn; lia|lia|]. rewrite Z.sub_0_r in Hrp.
  split; [|by apply inv_regions|done]. split; cbn [heap sys set_sys set_vm].
  - rewrite H1. symmetry. apply (owners_put (CURRENT_TASK (sys k)) (sys k) t t' [] [addr (ool m)] Ht).
    unfold owned_of. cbn [ool_regions set_regions t']. by rewrite Hrp.
  - done.
  - done.
  - apply msgs_put; [done|done|]. exact (H4 _ _ Ht).
Qed.

Lemma release_spec pc ua k root : Inv (sys k) pc -> ledger [] k -> page_table_of (CURRENT_TASK (sys k)) k = Some root ->
  exists e k', release_ool_region (CURRENT_TASK (sys k)) ua k = Some (e, k') /\ settled pc k k'.
Proof.
  intros Hinv Hl Hroot. unfold release_ool_region. destruct (iv_cur _ _ Hinv) as [t Ht]. rewrite Ht. cbn [mbind option_bind].
  destruct (find_region ua 0 (ool_regions t)) as [[slot r]|] eqn:Ef; [|by do 2 eexists]. rewrite Hroot. cbn [mbind option_bind].
  destruct (unmap_frame _ _ _ _) as [e v]. destruct (regions_drop ua (ool_regions t) 0 slot r Ef ltac:(lia)) as (Hs & Hk & Hp). rewrite Z.sub_0_r in Hp.
  pose proof (the_task_range _ _ _ Ht) as Hr. set (t' := set_regions (setz (ool_regions t) slot no_region) t).
  pose proof (owners_put (CURRENT_TASK (sys k)) (sys k) t t' [kaddr r] [] Ht) as Ho. unfold owned_of in Ho. cbn [ool_regions set_regions t'] in Ho. rewrite Hp in Ho.
  specialize (Ho ltac:(done)). cbn [app] in Ho. destruct Hl as [H1 H2 H3 H4].
  destruct (remove_one_spec (kaddr r) (heap k)) as (h & Er & Hh); [rewrite H1; cbn [app]; rewrite <- Ho; by left|].
  unfold free_buffer. cbn [heap set_vm]. rewrite Er. cbn [mbind option_bind]. do 2 eexists. split; [reflexivity|]. split; [|by apply inv_regions|done].
  rewrite Hh in H1, H2, H3. split; cbn [heap sys set_sys set_heap set_vm].
  - cbn [app] in H1. rewrite <- Ho in H1. by apply Permutation_cons_inv in H1.
  - by apply NoDup_cons in H2 as [_ ?].
  - by apply Forall_cons in H3 as [_ ?].
  - apply msgs_put; [done|done|]. exact (H4 _ _ Ht).
Qed.

(** ** The requests *)

(** Sending the message the handler holds, or dropping it on an error. *)
Lemma send_or_discard pc dst c k k1 : Inv (sys k1) pc -> CURRENT_TASK (sys k1) = CURRENT_TASK (sys k) -> dst_ok dst -> ool_ok c ->
  ledger (option_list (owned_buffer c)) k1 ->
  exists e k', ('(e, k) ← send_k dst c k1; if IS_ERR e then '(_, k) ← discard_ool c k; Some (e, k) else Some (e, k)) = Some (e, k') /\ settled pc k k'.
Proof.
  intros Hinv Hc Hd Hm Hl. unfold send_k. destruct (send_spec (sys k1) pc dst c Hinv Hd) as (e & s' & E & Hinv'). rewrite E. cbn [mbind option_bind].
  destruct (IS_ERR e) eqn:Ee.
  - apply send_error in E as ->; [|done]. destruct (discard_settled pc c k (set_sys (sys k1) k1) Hinv Hc) as (m' & k' & -> & Hs); [by apply (ledger_ext _ k1)|].
    cbn [mbind option_bind]. by do 2 eexists.
  - destruct Hl as [H1 H2 H3 H4]. destruct (send_owners (sys k1) pc dst c e s' Hinv H4 Hm E Ee) as (Ho & Hms & Hcs). do 2 eexists. split; [done|].
    split; [|done|cbn; by rewrite Hcs]. split; [|done|done|done]. cbn [heap sys set_sys app]. by rewrite Ho.
Qed.

(** A destination outside the table is read all the same. *)
Lemma send_wild s pc dst m : Inv s pc -> ~ dst_ok dst -> send_message dst m s = None.
Proof.
  intros Hinv Hd. pose proof (bs_len _ _ (iv_base _ _ Hinv)) as Hlen. unfold dst_ok, MAX_TASKS in *. unfold send_message.
  destruct (Z.eqb_spec dst (-1)); [lia|]. unfold task_at. destruct (atz (tasks s) dst) eqn:E; [|done]. apply atz_Some_lt in E. lia.
Qed.

Lemma send_k_wild pc dst c k : Inv (sys k) pc -> ~ dst_ok dst -> send_k dst c k = None.
Proof. intros Hinv Hd. unfold send_k. by rewrite (send_wild (sys k) pc). Qed.

Lemma call_k_wild pc dst c k : Inv (sys k) pc -> ~ dst_ok dst -> call_k dst c k = None.
Proof.
  intros Hinv Hd. pose proof (iv_base _ _ Hinv) as Hb. destruct (iv_cur _ _ Hinv) as [t Ht]. pose proof (the_task_range _ _ _ Ht) as Hr.
  unfold call_k, call_send. rewrite Ht. cbn [mbind option_bind]. rewrite (to_id _ _ _ (bs_tasks _ _ Hb _ _ Ht)).
  destruct (Z.eqb_spec dst (CURRENT_TASK (sys k))) as [->|_]; [destruct Hd; unfold dst_ok; rewrite (bs_len _ _ Hb) in Hr; lia|].
  destruct (next_corr t) as [corr t1]. unfold send_message. pose proof (bs_len _ _ Hb) as Hlen. unfold dst_ok, MAX_TASKS in *.
  destruct (Z.eqb_spec dst (-1)); [lia|]. unfold task_at. match goal with |- context [atz ?l dst] => destruct (atz l dst) eqn:E; [|done] end.
  apply atz_Some_lt in E. rewrite lenz_put in E. lia.
Qed.

Lemma dst_dec dst : dst_ok dst \/ ~ dst_ok dst.
Proof. unfold dst_ok. lia. Qed.

Lemma ipc_send_spec pc dst m k : Inv (sys k) pc -> ledger [] k -> alloc_ok k ->
  (exists e k', ipc_send dst m k = Some (e, k') /\ settled pc k k') \/ (~ dst_ok dst /\ ipc_send dst m k = None).
Proof.
  intros Hinv Hl Ha. unfold ipc_send. destruct (fetch_message m k) as [c|]; [|left; by do 2 eexists].
  unfold current. destruct (iv_cur _ _ Hinv) as [t ->]. cbn [mbind option_bind]. set (c1 := set_flags _ _).
  destruct (copy_in_spec c1 k Hl Ha) as (e & c' & k1 & -> & (S1 & _) & Hr). cbn [mbind option_bind]. destruct (IS_ERR e).
  - left. exists e, k1. split; [done|]. by split; rewrite ?S1.
  - destruct Hr as (Hm & Hl1 & _). destruct (dst_dec dst) as [Hd|Hd]; [left|right].
    + apply send_or_discard; rewrite ?S1; done.
    + split; [done|]. by rewrite (send_k_wild pc) by (rewrite ?S1; done).
Qed.

Lemma ipc_reply_spec pc dst m k : Inv (sys k) pc -> ledger [] k -> alloc_ok k ->
  (exists e k', ipc_reply dst m k = Some (e, k') /\ settled pc k k') \/ (~ dst_ok dst /\ ipc_reply dst m k = None).
Proof.
  intros Hinv Hl Ha. unfold ipc_reply. destruct (fetch_message m k) as [c|]; [|left; by do 2 eexists]. destruct (correlation c =? 0); [left; by do 2 eexists|].
  unfold current. destruct (iv_cur _ _ Hinv) as [t ->]. cbn [mbind option_bind]. set (c1 := set_flags _ _).
  destruct (copy_in_spec c1 k Hl Ha) as (e & c' & k1 & -> & (S1 & _) & Hr). cbn [mbind option_bind]. destruct (IS_ERR e).
  - left. exists e, k1. split; [done|]. by split; rewrite ?S1.
  - destruct Hr as (Hm & Hl1 & _). destruct (dst_dec dst) as [Hd|Hd]; [left|right].
    + apply send_or_discard; rewrite ?S1; done.
    + split; [done|]. by rewrite (send_k_wild pc) by (rewrite ?S1; done).
Qed.

(** Where the caller is after a handler: running again, or in its loop. *)
Definition after (pc : Z -> Pc) (c : Z) (o : Outcome) (pc' : Z -> Pc) : Prop :=
  match o with
  | Done _ => pc' c = Run
  | Blocks (PReceive _) => pc' c = Park InReceive
  | Blocks (PCall _) => pc' c = Poll InCall \/ pc' c = Park InCall
  | Blocks _ => False
  end.

Lemma ipc_call_spec pc dst m k : Inv (sys k) pc -> runs (sys k) pc -> ledger [] k -> alloc_ok k ->
  (exists o k' pc', ipc_call dst m k = Some (o, k') /\ settled pc' k k' /\ after pc (CURRENT_TASK (sys k)) o pc') \/ (~ dst_ok dst /\ ipc_call dst m k = None).
Proof.
  intros Hinv Hrun Hl Ha. pose proof Hrun as [Hp _]. unfold ipc_call. destruct (fetch_message m k) as [c|]; [|left; by exists (Done (err ERR_INVALID_ARG)), k, pc].
  destruct (copy_in_spec c k Hl Ha) as (e & c' & k1 & -> & (S1 & _) & Hr). cbn [mbind option_bind]. destruct (IS_ERR e).
  { left. exists (Done e), k1, pc. split_and!; [done|by split; rewrite ?S1|done]. }
  destruct Hr as (Hm & [H1 H2 H3 H4] & _). destruct (dst_dec dst) as [Hd|Hd]; [left|right; split; [done|]; by rewrite (call_k_wild pc) by (rewrite ?S1; done)]. unfold call_k. rewrite S1 in *.
  destruct (call_send_spec (sys k) pc dst c' Hinv Hrun Hd) as (r & s' & E & Hinv'). rewrite E. cbn [mbind option_bind].
  destruct (call_owners (sys k) pc dst c' r s' Hinv Hrun H4 Hm E) as (Ho & Hms & Hcs & _). destruct r as [e'|].
  - destruct (discard_settled pc c' k (set_sys s' k1) Hinv' Hcs) as (m' & k' & -> & Hs).
    { split; cbn [heap sys set_sys]; [by rewrite H1, Ho|done|done|done]. }
    cbn [mbind option_bind]. by exists (Done e'), k', pc.
  - exists (Blocks (PCall m)), (set_sys s' k1), (upd pc (CURRENT_TASK (sys k)) (Poll InCall)). split_and!; [done| |left; apply upd_eq].
    split; [|done|done]. split; cbn [heap sys set_sys app]; [by rewrite H1, Ho|done|done|done].
Qed.

Lemma put_settled pc p m k k' : settled pc k k' -> exists e k2, put_message p m k' = (e, k2) /\ settled pc k k2.
Proof. intros Hs. unfold put_message. destruct (user_object _ _); do 2 eexists; (split; [done|]); [by apply (settled_ext pc k k')|done]. Qed.

(** A poll that took a message, then its delivery. *)
Lemma taken_deliver pc m k s' r root : taken (sys k) s' (Some r) -> ledger [] k -> Inv s' pc -> page_table_of (CURRENT_TASK (sys k)) k = Some root ->
  exists e k', ('(c, k) ← deliver_ool_to_user (CURRENT_TASK (sys (set_sys s' k))) r (set_sys s' k);
    let (e, k) := put_message m c k in Some (Done e, k)) = Some (Done e, k') /\ settled pc k k'.
Proof.
  intros [T1 T2 T3 T4] [H1 H2 H3 H4] Hinv Hroot. destruct (deliver_spec pc r (set_sys s' k) root) as (c & k1 & -> & Hs).
  - done.
  - by apply T3.
  - split; cbn [heap sys set_sys]; [by rewrite H1|done|done|done].
  - cbn [sys set_sys]. rewrite T4. exact Hroot.
  - cbn [mbind option_bind]. assert (settled pc k k1) as Hs' by (destruct Hs as [A B C]; split; [done|done|rewrite C; exact T4]).
    destruct (put_settled pc m c k k1 Hs') as (e & k2 & -> & Hs2). by exists e, k2.
Qed.

Lemma poll_nothing s' k : taken (sys k) s' None -> ledger [] k -> ledger [] (set_sys s' k).
Proof. intros [T1 T2 _ _] [H1 H2 H3 H4]. split; cbn [heap sys set_sys app]; [by rewrite H1|done|done|done]. Qed.

Lemma receive_round_spec pc m k root : Inv (sys k) pc -> pc (CURRENT_TASK (sys k)) = Poll InReceive -> ledger [] k ->
  page_table_of (CURRENT_TASK (sys k)) k = Some root ->
  exists o k' pc', receive_round m k = Some (o, k') /\ settled pc' k k' /\ after pc (CURRENT_TASK (sys k)) o pc'.
Proof.
  intros Hinv Hp Hl Hroot. unfold receive_round. destruct (receive_poll_spec (sys k) pc Hinv Hp) as (r & s' & E & Hinv'). rewrite E. cbn [mbind option_bind].
  pose proof (receive_owners (sys k) pc r s' Hinv Hp (lg_msgs _ _ Hl) E) as HT. destruct r as [r|].
  - destruct (taken_deliver _ m k s' r root HT Hl Hinv' Hroot) as (e & k' & -> & Hs). do 3 eexists. split_and!; [done|exact Hs|apply upd_eq].
  - do 3 eexists. split_and!; [done| |apply upd_eq]. split; [by apply poll_nothing|exact Hinv'|by destruct HT].
Qed.

Lemma call_round_spec pc m k root : Inv (sys k) pc -> pc (CURRENT_TASK (sys k)) = Poll InCall -> ledger [] k ->
  page_table_of (CURRENT_TASK (sys k)) k = Some root ->
  exists o k' pc', call_round m k = Some (o, k') /\ settled pc' k k' /\ after pc (CURRENT_TASK (sys k)) o pc'.
Proof.
  intros Hinv Hp Hl Hroot. unfold call_round. destruct (call_poll_spec (sys k) pc Hinv Hp) as (r & s' & E & Hinv'). rewrite E. cbn [mbind option_bind].
  pose proof (call_poll_owners (sys k) pc r s' Hinv Hp (lg_msgs _ _ Hl) E) as HT. destruct r as [r|].
  - destruct (taken_deliver _ m k s' r root HT Hl Hinv' Hroot) as (e & k' & -> & Hs). do 3 eexists. split_and!; [done|exact Hs|apply upd_eq].
  - do 3 eexists. split_and!; [done| |right; apply upd_eq]. split; [by apply poll_nothing|exact Hinv'|by destruct HT].
Qed.

(** ** The promises *)


(** The theorem: a blocked receive or call that gets the processor again keeps the
    ledger as well. *)
Theorem ipc_resume_keeps_ledger pc p m k root :
  Inv (sys k) pc -> ledger [] k -> page_table_of (CURRENT_TASK (sys k)) k = Some root ->
  (p = PReceive m /\ pc (CURRENT_TASK (sys k)) = Poll InReceive) \/ (p = PCall m /\ pc (CURRENT_TASK (sys k)) = Poll InCall) ->
  exists o k' pc', resume p k = Some (o, k') /\ settled pc' k k' /\ after pc (CURRENT_TASK (sys k)) o pc'.
Proof.
  intros Hinv Hl Hroot [[-> Hp]|[-> Hp]]; [by apply (receive_round_spec pc m k root)|by apply (call_round_spec pc m k root)].
Qed.

(** The theorem: [IPC_SEND] delivers the sender and the correlation the program wrote
    into its message: any program can speak in the name of any task. *)
Theorem ipc_send_forges_sender pc dst m k t c : Inv (sys k) pc -> the_task dst (sys k) = Some t ->
  fetch_message m k = Some c -> size (ool c) = 0 -> type c <> msg KERNEL_TASK_READY -> is_Some (ring_ (messages t)) -> count_ (messages t) < CAPACITY ->
  exists k' t' c', ipc_send dst m k = Some (err OK, k') /\ the_task dst (sys k') = Some t' /\
    last (contents (messages t')) = Some c' /\ type c' = type c /\ sender c' = sender c /\ correlation c' = correlation c.
Proof.
  intros Hinv Ht Hc Hs Hty Hring Hroom. unfold ipc_send. rewrite Hc. unfold current. destruct (iv_cur _ _ Hinv) as [me Hme]. rewrite Hme. cbn [mbind option_bind].
  destruct (Z.eqb_spec (type c) (msg KERNEL_TASK_READY)); [done|]. set (c1 := set_flags _ c).
  unfold copy_in_ool_from_user. change (ool c1) with (ool c). rewrite Hs. change (0 =? 0) with true. cbv iota zeta. cbn [mbind option_bind].
  change (IS_ERR (err OK)) with false. cbv iota. set (c2 := set_ool _ c1).
  pose proof (bs_tasks _ _ (iv_base _ _ Hinv) dst t Ht) as Hok. pose proof (to_queue _ _ _ Hok) as Hq.
  assert (exists q, push c2 (messages t) = (true, q)) as [q Hpush].
  { unfold push. destruct Hring as [ring Hring]. rewrite Hring. destruct (Z.leb_spec CAPACITY (count_ (messages t))); [lia|by eexists]. }
  pose proof (push_contents _ _ _ Hq Hpush) as Hcq. pose proof (the_task_range _ _ _ Ht) as Hr.
  unfold send_k, send_message. destruct (Z.eqb_spec dst (-1)) as [->|_]; [lia|]. rewrite (task_at_the_task _ _ _ Ht). cbn [mbind option_bind].
  assert (is_reply c2 = false) as -> by exact (is_reply_clear c). unfold deliver_message. rewrite Hpush.
  set (t1 := set_messages q t). set (s1 := put_task dst t1 (sys k)).
  assert (the_task dst s1 = Some t1) as Ht1 by (by apply the_task_put_eq).
  assert (exists s2 t2, (if decide (state t = TASK_WAITING /\ (wait_reason t = WAIT_RECEIVE \/ wait_reason t = WAIT_NONE))
    then s ← schedule_task dst s1; Some (err OK, s) else Some (err OK, s1)) = Some (err OK, s2) /\ the_task dst s2 = Some t2 /\ messages t2 = q) as (s2 & t2 & -> & Ht2 & Hm2).
  { destruct (decide _); [|by exists s1, t1]. rewrite (schedule_task_eq dst s1 t1 Ht1). cbn [mbind option_bind]. eexists _, (set_state TASK_READY t1).
    split; [reflexivity|]. split; [|done]. assert (0 <= dst < lenz (tasks s1)) as Hr1 by (unfold s1; by rewrite lenz_put).
    destruct (decide _); unfold the_task, task_at; cbn [tasks set_run_queue]; apply (the_task_put_eq dst _ s1 Hr1). }
  cbn [mbind option_bind]. change (IS_ERR (err OK)) with false. cbv iota. exists (set_sys s2 k), t2, c2. rewrite Hm2, Hcq, last_snoc. split_and!; done.
Qed.

(** The theorem: a payload that is copied in lies byte for byte in the new buffer. *)
Theorem ool_copied_in m k a rest : supply k = a :: rest -> kernel_buffer a -> a + size (ool m) <= user_start ->
  0 < size (ool m) <= OOL_MAX_SIZE -> user_start <= addr (ool m) -> addr (ool m) + size (ool m) < user_end ->
  exists k', copy_in_ool_from_user m k = Some (err OK, set_ool (mkOol a (size (ool m)) (reserved (ool m))) m, k') /\ heap k' = a :: heap k /\
    forall i, 0 <= i < size (ool m) -> mem k' (a + i) = mem k (addr (ool m) + i).
Proof.
  intros Hsup [Ha0 Ha] Hend [Hs0 Hs] Hu1 Hu2. unfold copy_in_ool_from_user. cbv zeta. unfold user_start, user_end in *.
  destruct (Z.eqb_spec (size (ool m)) 0); [lia|]. destruct (Z.ltb_spec OOL_MAX_SIZE (size (ool m))); [lia|].
  assert (is_user_address (addr (ool m)) (size (ool m)) = true) as Hu.
  { apply is_user_address_plain; [lia|lia|lia|]. unfold user_start, user_end. lia. }
  rewrite Hu. cbn [negb]. unfold make_ool_buffer. destruct (Z.eqb_spec (size (ool m)) 0); [lia|]. rewrite Hsup. destruct (Z.eqb_spec a 0); [lia|].
  destruct (Z.eqb_spec a 0); [lia|]. unfold copy_from_user. destruct (Z.eqb_spec a 0); [lia|]. destruct (Z.eqb_spec (addr (ool m)) 0); [lia|]. cbn [orb]. rewrite Hu. cbn [negb mem].
  destruct (copy_bytes_spec a (addr (ool m)) (size (ool m)) (zero_range a (size (ool m)) (mem k))) as (bytes & -> & Hb); [unfold plain; lia|unfold plain; lia|lia|].
  cbn [mbind option_bind]. rewrite Z.eqb_refl. cbn [negb]. eexists. split; [reflexivity|]. split; [done|]. intros i Hi. cbn [mem set_mem]. rewrite Hb.
  destruct (Z.leb_spec a (a + i)), (Z.ltb_spec (a + i) (a + size (ool m))); try lia. cbn [andb]. replace (a + i - a) with i by lia.
  unfold zero_range. destruct (Z.leb_spec a (addr (ool m) + i)), (Z.ltb_spec (addr (ool m) + i) (a + size (ool m))); try lia; done.
Qed.

(** * System calls at a concrete state

    The state after start-up, with one free buffer and a message of a user
    program at 0xffff800000001000. *)

Definition user_message : Z := 0xffff800000001000.

(** A message that claims to come from task 4, with a payload of 8 bytes. *)
Definition sample (payload : Z) : Message :=
  mkMessage (msg NOTIFY_WRITE) 4 9 0 0 (mkOol 0xffff800000002000 payload 0) (DInit 0).

Definition kernel_at (payload : Z) : Kern :=
  mkKern boot_state (mkVm ∅ 0x1000 [] [] []) (replicate 100 0x1000) (fun a => a mod 256) (fun _ => sample payload) [] [0x100000].

Lemma boot_msgs : msgs_ok boot_state.
Proof. intros i t (info & _ & _ & ->)%boot_task_at. by apply Forall_nil. Qed.

Lemma boot_owners : owners boot_state = [].
Proof. vm_compute. reflexivity. Qed.

Lemma boot_ledger payload : ledger [] (kernel_at payload).
Proof. split; cbn [heap sys kernel_at app]; [by rewrite boot_owners|by apply NoDup_nil|by apply Forall_nil|exact boot_msgs]. Qed.

Lemma boot_alloc payload : alloc_ok (kernel_at payload).
Proof.
  intros a rest E. assert (a = 0x100000) as -> by (unfold kernel_at in E; cbn [supply] in E; congruence).
  right. split; [split; [unfold user_start; lia|reflexivity]|by intros ?%not_elem_of_nil].
Qed.

Lemma boot_runs payload : runs (sys (kernel_at payload)) (fun _ => Run).
Proof. split; [reflexivity|discriminate]. Qed.


Lemma ipc_resume_keeps_ledger_witness : exists o k' pc', resume (PReceive user_message) (kernel_at 8) = Some (o, k') /\ ledger [] k' /\ Inv (sys k') pc'.
Proof.
  pose proof (begin_inv (sys (kernel_at 8)) (fun _ => Run) InReceive inv_boot (boot_runs 8) ltac:(discriminate)) as Hinv.
  destruct (ipc_resume_keeps_ledger _ (PReceive user_message) user_message (kernel_at 8) 0x1000 Hinv (boot_ledger 8)) as (o & k' & pc' & E & [H1 H2 _] & _);
    [reflexivity|left; split; reflexivity|]. exists o, k', pc'. exact (conj E (conj H1 H2)).
Defined.

Lemma ipc_send_forges_sender_witness : exists k' t' c', ipc_send 2 user_message (kernel_at 0) = Some (err OK, k') /\ the_task 2 (sys k') = Some t' /\
  last (contents (messages t')) = Some c' /\ sender c' = 4 /\ correlation c' = 9.
Proof.
  destruct (the_task 2 boot_state) as [t|] eqn:Ht; [|vm_compute in Ht; discriminate Ht].
  assert (is_Some (ring_ (messages t)) /\ count_ (messages t) < CAPACITY) as [Hr Hc].
  { apply boot_task_at in Ht as (info & _ & _ & ->). split; [by eexists|reflexivity]. }
  destruct (ipc_send_forges_sender (fun _ => Run) 2 user_message (kernel_at 0) t (sample 0) inv_boot Ht) as (k' & t' & c' & E & Et & El & _ & Hs & Hk);
    [reflexivity|reflexivity|discriminate|exact Hr|exact Hc|]. exists k', t', c'. split_and!; [exact E|exact Et|exact El|rewrite Hs; reflexivity|rewrite Hk; reflexivity].
Defined.

Lemma ool_copied_in_witness : exists k', copy_in_ool_from_user (sample 8) (kernel_at 8) = Some (err OK, set_ool (mkOol 0x100000 8 0) (sample 8), k') /\
  mem k' 0x100003 = 3.
Proof.
  destruct (ool_copied_in (sample 8) (kernel_at 8) 0x100000 []) as (k' & E & _ & Hm);
    [reflexivity|split; [unfold user_start; lia|reflexivity]|unfold user_start; cbn; lia|unfold OOL_MAX_SIZE; cbn; lia|unfold user_start; cbn; lia|unfold user_end; cbn; lia|].
  exists k'. split; [exact E|]. change 0x100003 with (0x100000 + 3). rewrite Hm by (cbn; lia). reflexivity.
Defined.
