(* ===== verification/Exec.v ===== *)
(** * Replacing the program of a process

    [sys_exec] of [kernel/syscall/handler.cpp] and [shell_service] of
    [kernel/services.cpp]: the file comes from the file service as an out-of-line
    buffer, the process gets a new address space, the old one is released, and
    the program is started in the new one. *)

From stdpp Require Import strings.
From S2P Require Import Prelude Pages Message MessageQueue UserMem Fd Task Paging Syscall Elf.

Open Scope Z_scope.

(** ** Strings *)

(** The bytes of a character array up to the terminator. *)
Fixpoint c_bytes (n : nat) (a : Z) (m : Mem) : list Z :=
  match n with
  | O => []
  | S n => if m a =? 0 then [] else m a :: c_bytes n (a + 1) m
  end.
Definition string_of (l : list Z) : string := String.string_of_list_ascii (Ascii.ascii_of_nat ∘ Z.to_nat <$> l).

Definition FS_NAME_LEN : Z := 64.
Definition COPY_ARGS_LEN : Z := 256.

(** [Message msg{ .type = FS_LOAD, .sender = s }] with a name. *)
Definition load_request (s : Z) (name : string) : Message := set_data (DFs 0 0 0 0 name) (new_message FS_LOAD s).

(** ** The system call *)

(** It returns, waits for the file with the arguments at hand, or leaves for user
    mode. *)
Inductive ExecOutcome := ExecDone (r : Z) | ExecBlocks (args : list Z) | Enters (e : UserEntry).

(** [kernel::task::release_ool_regions(CURRENT_TASK)] *)
Definition release_regions (k : Kern) : option Kern :=
  t ← current k;
  let (freed, t) := release_ool_regions t in
  free_buffers freed (set_sys (put_task (CURRENT_TASK (sys k)) t (sys k)) k).

Definition set_root (i table : Z) (k : Kern) : Kern := mkKern (sys k) (vm k) (setz (roots k) i table) (mem k) (umsg k) (heap k) (supply k).

(** [exec_elf], which owns the buffer. *)
Definition run_elf (elf_buf : Z) (name : list Z) (args : option (list Z)) (k : Kern) : option (option UserEntry * Kern) :=
  '(r, v) ← exec_elf elf_buf name args (vm k);
  k ← drop_buffer elf_buf (set_vm v k);
  Some (r, k).

(** From the file in memory to the end. *)
Definition exec_image (elf_buf : Z) (args : list Z) (k : Kern) : option (ExecOutcome * Kern) :=
  let old_page_table := cr3 (vm k) in
  '(new_page_table, v) ← config_new_page_table (vm k);
  let k := set_vm v k in
  if new_page_table =? 0 then k ← drop_buffer elf_buf k; Some (ExecDone (err ERR_NO_MEMORY), k)
  else
    let k := set_root (CURRENT_TASK (sys k)) new_page_table k in
    k ← release_regions k;
    v ← clean_page_tables old_page_table (vm k);
    '(r, k) ← run_elf elf_buf [] (Some args) (set_vm v k);
    Some (match r with Some e => Enters e | None => ExecDone (err OK) end, k).

(** One round of the wait for the file. *)
Definition exec_round (args : list Z) (k : Kern) : option (ExecOutcome * Kern) :=
  '(r, s) ← call_poll (sys k);
  let k := set_sys s k in
  match r with
  | None => Some (ExecBlocks args, k)
  | Some m =>
      let elf_buf := addr (ool m) in
      if IS_ERR (result m) || (size (ool m) =? 0) || (elf_buf =? 0) then k ← drop_buffer elf_buf k; Some (ExecDone (err ERR_NO_FILE), k)
      else exec_image elf_buf args k
  end.

Section exec.
(** Where [msg.data.fs.name] and [copy_args] are on the kernel stack. *)
Context (name_at copy_args : Z).

Definition sys_exec (path args : Z) (k : Kern) : option (ExecOutcome * Kern) :=
  t ← current k;
  let (r, m) := copy_string_from_user name_at path FS_NAME_LEN (zero_range name_at FS_NAME_LEN (mem k)) in
  if r <? 0 then Some (ExecDone (err ERR_INVALID_ARG), set_mem m k)
  else
    let m := zero_range copy_args COPY_ARGS_LEN m in
    let (r, m) := if args =? 0 then (0, m) else copy_string_from_user copy_args args COPY_ARGS_LEN m in
    let k := set_mem m k in
    if negb (args =? 0) && (r <? 0) then Some (ExecDone (err ERR_INVALID_ARG), k)
    else
      let request := load_request (id t) (string_of (c_bytes (Z.to_nat FS_NAME_LEN) name_at m)) in
      '(e, k) ← call_k process_ids.FS_FAT32 request k;
      match e with
      | Some e => Some (ExecDone e, k)
      | None => Some (ExecBlocks (c_bytes (Z.to_nat COPY_ARGS_LEN) copy_args m), k)
      end.
End exec.

(** ** The first program *)

(** [shell_service] stops in its loop of [hlt], waits, or leaves for user mode; a
    return of [exec_elf] ends the service. *)
Inductive ShellOutcome := Halted | ShellBlocks | ShellEnters (e : UserEntry) | ShellReturns.

Definition shell_name : list Z := [115; 104; 101; 108; 108].

Definition shell_start (k : Kern) : option (ShellOutcome * Kern) :=
  '(e, k) ← call_k process_ids.FS_FAT32 (load_request process_ids.SHELL "shell") k;
  Some (match e with Some _ => Halted | None => ShellBlocks end, k).

Definition shell_round (smoke : bool) (k : Kern) : option (ShellOutcome * Kern) :=
  '(r, s) ← call_poll (sys k);
  let k := set_sys s k in
  match r with
  | None => Some (ShellBlocks, k)
  | Some m =>
      let shell_elf := addr (ool m) in
      if IS_ERR (result m) || (size (ool m) =? 0) || (shell_elf =? 0) then Some (Halted, k)
      else
        k ← mark_initialized k;
        '(r, k) ← run_elf shell_elf shell_name (if smoke then Some [45; 115; 109; 111; 107; 101] else None) k;
        Some (match r with Some e => ShellEnters e | None => ShellReturns end, k)
  end.
