(* ===== verification/ExecSpec.v ===== *)
(** * What exec promises

    Switching to an empty address space and releasing the old one, while the file in
    memory survives both; the whole of [exec_round] on a well-formed executable, and on
    a file that is none. *)

From S2P Require Import Prelude Message Pages Paging PagingProofs PagingTree PagingFork PagingFault PagingMap Elf ElfProofs ElfSpec MessageQueue UserMem Fd Task.
From S2P Require Import TaskProofs TaskLife Syscall SyscallProofs SyscallSpec Exec.

Open Scope Z_scope.

(** ** Empty address spaces *)

Lemma part4_index a : 256 <= part 4 a -> 256 <= part 4 a < 512.
Proof. intros H. split; [done|]. change 4 with (Z.of_nat 4). rewrite part_mod. apply Z.mod_pos_bound. lia. Qed.

Section empty.
Context (s : Vm) (Hempty : forall i, 256 <= i < 512 -> entry s (cr3 s) i = 0).

Lemma empty_tables : tables 4 (ram s) (cr3 s) 256 = [cr3 s].
Proof.
  rewrite tables_eq. f_equal. apply mjoin_nil. intros i Hi. apply elem_indices in Hi; [|lia]. unfold subtables. cbv zeta. unfold entry in Hempty. by rewrite Hempty.
Qed.

Lemma empty_leaf a : 256 <= part 4 a -> leaf 4 (ram s) (cr3 s) a = None.
Proof. intros Ha. rewrite leaf_S. cbv zeta. unfold entry in Hempty. change (Z.of_nat 4) with 4. rewrite Hempty by (by apply part4_index). done. Qed.

Lemma empty_space : vm_ok s -> page_addr (cr3 s) -> NoDup (avail s) -> Forall page_addr (avail s) -> cr3 s ∉ avail s -> space s.
Proof.
  intros Hok [Hpos Hal] Hn Hp Hr. split.
  - split; rewrite ?empty_tables; [done|done|lia|apply NoDup_singleton|done| |split].
    + by intros x ->%list_elem_of_singleton.
    + intros E%list_elem_of_singleton. lia.
    + intros a e Ha He. change (Z.of_nat 4) with 4 in Ha. by rewrite empty_leaf in He.
  - intros i Hi. cbv zeta. unfold entry in Hempty. rewrite Hempty by done. by split.
  - intros a e Ha He. by rewrite empty_leaf in He.
  - intros a b ea eb Ha _ He. by rewrite empty_leaf in He.
Qed.
End empty.

(** ** The switch *)

(** [s'] is [s] after the switch to an empty address space at [r] and the release of
    the old one. *)
Record replaced (r : Z) (s s' : Vm) : Prop := mkReplaced {
  rp_space : space s';
  rp_root : cr3 s' = r;
  rp_supply : avail s = r :: avail s';
  rp_empty : forall i, 256 <= i < 512 -> entry s' r i = 0;
  rp_kernel : forall i, 0 <= i < 256 -> entry s' r i = entry s (cr3 s) i;
  rp_frames : only_frames (r :: tables 4 (ram s) (cr3 s) 256) (ram s) (ram s');
  rp_pages : vm_pages s' = foldl drop_at (vm_pages s) (leaves 4 (ram s) (cr3 s) 256);
  rp_freed : freed s' ≡ₚ released (vm_pages s) (leaves 4 (ram s) (cr3 s) 256) ++ tables 4 (ram s) (cr3 s) 256 ++ freed s;
}.

Lemma config_spec s r A : growable 4 (cr3 s) 256 s -> avail s = r :: A ->
  exists s', config_new_page_table s = Some (r, s') /\ vm_ok s' /\ cr3 s' = r /\ avail s' = A /\ freed s' = freed s /\ vm_pages s' = vm_pages s /\
    only_frames [r] (ram s) (ram s') /\ forall i, index_ok i -> entry s' r i = if i <? 256 then entry s (cr3 s) i else 0.
Proof.
  intros [Hok Hc _ _ [Hn Hp] Ha _] Hav. rewrite Hav in Hp, Ha. apply Forall_cons in Hp as [Hr _]. assert (cr3 s <> r) as Hne by (intros Er; apply (Ha (cr3 s)); [apply tables_self|rewrite Er; by left]).
  pose proof Hr as [? Hra]. destruct (new_page_ok s r A Hav Hr Hok) as (s1 & E1 & Hok1 & [Hc1 Hf1] & Hav1 & Hpg1 & Hfr1 & Hz1). unfold config_new_page_table. rewrite E1.
  destruct (Z.eqb_spec r 0) as [->|_]; [lia|]. destruct (copy_kernel_spec r s1) as (s2 & E2 & Hok2 & [Hc2 Hf2] & Hav2 & Hpg2 & Hfr2 & Hent); [done|done|by rewrite Hc1|congruence|].
  rewrite E2. cbn [mbind option_bind]. exists (set_cr3 r s2). split_and!; [done|done|done| | | | |]; cbn [avail freed vm_pages ram set_cr3].
  - congruence.
  - congruence.
  - congruence.
  - exact (only_frames_trans _ _ _ _ Hfr1 Hfr2).
  - intros i Hi. change (entry (set_cr3 r s2) r i) with (entry s2 r i). rewrite Hent by done. rewrite Hc1. destruct (i <? 256); [|by apply Hz1].
    apply (only_frames_entry [r]); [done|done|done|]. intros Hin. apply list_elem_of_singleton in Hin. exact (Hne Hin).
Qed.

Lemma replace_spec s r A : growable 4 (cr3 s) 256 s -> avail s = r :: A ->
  exists s1 s2, config_new_page_table s = Some (r, s1) /\ cr3 s1 = r /\ clean_page_tables (cr3 s) s1 = Some s2 /\ replaced r s s2.
Proof.
  intros Hg Hav. destruct (config_spec s r A Hg Hav) as (s1 & E1 & Hok1 & Hc1 & Hav1 & Hf1 & Hpg1 & Hfr1 & Hent1). destruct Hg as [Hok Hc _ Hnd [Hn Hp] Ha _]. rewrite Hav in Hn, Hp, Ha.
  apply Forall_cons in Hp as [Hr Hp]. pose proof Hr as [_ Hra]. apply NoDup_cons in Hn as [HrA Hn].
  assert (r ∉ tables 4 (ram s) (cr3 s) 256) as Hrt by (intros Hin; apply (Ha r Hin); by left).
  destruct (tables_ext 4 (ram s) (ram s1) (cr3 s) 256) as [HT HL]; [lia|done| |].
  { apply (only_frames_same [r]); [done|by apply tables_aligned|]. intros x Hx Hin. apply list_elem_of_singleton in Hin as ->. exact (Hrt Hx). }
  destruct (clean_tables_spec (cr3 s) s1) as (s2 & E2 & [Cok [Cc Cav] Cfr Cpg Cfd]); [done|done|by rewrite HT|]. rewrite HT, HL in *.
  exists s1, s2. split_and!; [done|done|done|].
  assert (forall i, index_ok i -> entry s2 r i = if i <? 256 then entry s (cr3 s) i else 0) as Hent. { intros i Hi. rewrite <- Hent1 by done. by eapply only_frames_entry. }
  assert (forall i, 256 <= i < 512 -> entry s2 r i = 0) as H0. { intros i Hi. rewrite Hent by (unfold index_ok; lia). by destruct (Z.ltb_spec i 256); [lia|]. }
  split.
  - apply empty_space; rewrite ?Cc, ?Cav, ?Hc1, ?Hav1; done.
  - congruence.
  - congruence.
  - done.
  - intros i Hi. rewrite Hent by (unfold index_ok; lia). by destruct (Z.ltb_spec i 256); [|lia].
  - apply (only_frames_trans _ _ (ram s1)); eapply only_frames_weaken; try eassumption; intros x Hx; [apply list_elem_of_singleton in Hx as ->; by left|by right].
  - by rewrite Cpg, Hpg1.
  - by rewrite Cfd, Hpg1, Hf1.
Qed.

(** ** The file *)

Lemma replaced_file r s s' buf len : growable 4 (cr3 s) 256 s -> replaced r s s' -> kernel_bytes s buf len -> same_file (ram s) (ram s') buf len /\ kernel_bytes s' buf len.
Proof.
  intros Hg [_ Hc Hav Hz _ Hfr _ _] Hk. assert (forall i, 256 <= i < 512 -> entry s' (cr3 s') i = 0) as Hz' by (by rewrite Hc).
  assert (forall x, foreign s x -> foreign s' x /\ frame (ram s') (x / PAGE_SIZE) = frame (ram s) (x / PAGE_SIZE)) as Hfor.
  { intros x (Hx1 & Hx2 & Hx3 & _). rewrite Hav in Hx3. apply not_elem_of_cons in Hx3 as [Hxr HxA]. split.
    - split; [done|]. rewrite empty_tables by done. rewrite Hc. split_and!; [by intros ->%list_elem_of_singleton|done|]. intros a e Ha He. rewrite <- Hc, empty_leaf in He by done. done.
    - apply Hfr; [done|]. by apply not_elem_of_cons. }
  split; intros i Hi; destruct (Hk i Hi) as [Hb Hf]; destruct (Hfor _ Hf) as [Hf' E]; [by apply ldb_frame|done].
Qed.

Section file.
Context (s s' : Vm) (buf len : Z) (Hx : executable s buf len) (Hsame : same_file (ram s) (ram s') buf len).

Lemma phnum_same : e_phnum (read_ehdr (ram s') buf) = e_phnum (read_ehdr (ram s) buf).
Proof. rewrite (ehdr_same (ram s) (ram s') buf len); [done|done|apply Hx]. Qed.

Lemma is_load_same i : 0 <= i < e_phnum (read_ehdr (ram s) buf) -> is_load (ram s') buf i <-> is_load (ram s) buf i.
Proof. intros Hi. unfold is_load. by rewrite (phdr_same s buf len Hx (ram s') i). Qed.

Lemma pages_same n : forall i, 0 <= i -> i + Z.of_nat n <= e_phnum (read_ehdr (ram s) buf) -> pages_from n i (ram s') buf = pages_from n i (ram s) buf.
Proof. induction n as [|n IH]; intros i Hi Hl; [done|]. cbn [pages_from]. rewrite IH by lia. by rewrite (phdr_same s buf len Hx (ram s') i) by (done || lia). Qed.

Lemma total_pages_same : pages_from (Z.to_nat (e_phnum (read_ehdr (ram s') buf))) 0 (ram s') buf = pages_from (Z.to_nat (e_phnum (read_ehdr (ram s) buf))) 0 (ram s) buf.
Proof. rewrite phnum_same. pose proof (phnum_range s buf). apply pages_same; lia. Qed.

Lemma executable_same : kernel_bytes s' buf len -> 4 * pages_from (Z.to_nat (e_phnum (read_ehdr (ram s) buf))) 0 (ram s) buf <= lenz (avail s') -> executable s' buf len.
Proof.
  intros Hk Hroom. pose proof phnum_same as Hn. assert (read_ehdr (ram s') buf = read_ehdr (ram s) buf) as He by (apply (ehdr_same _ _ buf len); [done|apply Hx]).
  split; rewrite ?He; try apply Hx; try done.
  - destruct (ex_some _ _ _ Hx) as (i & Hi & Hl). exists i. split; [done|]. by apply is_load_same.
  - intros i Hi Hl. pose proof (proj1 (is_load_same i Hi) Hl) as Hl'. rewrite (phdr_same s buf len Hx (ram s') i) by done. by apply Hx.
  - intros i j x Hi Hj Hne Hli Hlj. pose proof (proj1 (is_load_same i Hi) Hli). pose proof (proj1 (is_load_same j Hj) Hlj). rewrite !(phdr_same s buf len Hx (ram s')) by done. by apply (ex_disjoint _ _ _ Hx).
  - rewrite <- He. by rewrite total_pages_same.
Qed.

Lemma is_elf_same : is_elf (ram s') buf = is_elf (ram s) buf.
Proof. unfold is_elf. rewrite (ehdr_same (ram s) (ram s') buf len); [done|done|apply Hx]. Qed.

Lemma started_same ws t : started (ram s') buf ws t -> started (ram s) buf ws t.
Proof.
  intros [H1 H2 H3 H4 H5]. split; [done| |done|done|done]. intros j Hj Hl. destruct (H2 j) as [Hf Hz]; [by rewrite phnum_same|by apply is_load_same|].
  rewrite (phdr_same s buf len Hx (ram s') j) in Hf, Hz by done. split; [|done]. intros i Hi. rewrite Hf by done. f_equal.
  destruct (ex_segments _ _ _ Hx j Hj Hl) as (_ & Ho & He & _). rewrite <- !Z.add_assoc. apply Hsame. lia.
Qed.
End file.

(** * What replacing a program promises

    A process that executes a well-formed file becomes that program, with nothing
    of the old one left behind; a process that executes any other file loses its
    program all the same. *)

(** ** Buffers *)

Lemma free_all l : forall held k, ledger (l ++ held) k -> exists h, free_buffers l k = Some (set_heap h k) /\ ledger held (set_heap h k).
Proof.
  induction l as [|a l IH]; intros held k Hl; [exists (heap k); by destruct k|]. cbn [free_buffers]. destruct (free_held a (l ++ held) k Hl) as (h & -> & Hl1). cbn [mbind option_bind].
  destruct (IH held _ Hl1) as (h' & E & Hl2). exists h'. by split.
Qed.

Lemma regions_reset l : regions_owned ((fun r => if kaddr r =? 0 then r else no_region) <$> l) = [].
Proof.
  unfold regions_owned. induction l as [|r l IH]; [done|]. rewrite fmap_cons. rewrite filter_cons_False; [exact IH|].
  destruct (Z.eqb_spec (kaddr r) 0) as [Hr|_]; intros H; [by apply H|by apply H].
Qed.

(** The running task has no regions. *)
Definition no_regions (k : Kern) : Prop := exists t, current k = Some t /\ regions_owned (ool_regions t) = [].

Lemma release_regions_spec pc held k : Inv (sys k) pc -> ledger held k -> exists s h, let k' := set_heap h (set_sys s k) in
  release_regions k = Some k' /\ ledger held k' /\ Inv s pc /\ CURRENT_TASK s = CURRENT_TASK (sys k) /\ no_regions k'.
Proof.
  intros Hinv [H1 H2 H3 H4]. destruct (iv_cur _ _ Hinv) as [t Ht]. unfold release_regions, current. rewrite Ht. cbn [mbind option_bind release_ool_regions].
  pose proof (the_task_range _ _ _ Ht) as Hr. set (l := (fun r => if kaddr r =? 0 then r else no_region) <$> ool_regions t). set (t' := set_regions l t).
  destruct (free_all (regions_owned (ool_regions t)) held (set_sys (put_task (CURRENT_TASK (sys k)) t' (sys k)) k)) as (h & E & Hl).
  - split; cbn [heap sys set_sys]; [|done|done|].
    + rewrite H1. rewrite (Permutation_app_comm _ held), <- app_assoc. apply Permutation_app_head. apply Permutation_sym.
      apply (owners_put (CURRENT_TASK (sys k)) (sys k) t t' (regions_owned (ool_regions t)) []); [done|]. unfold owned_of. cbn [ool_regions set_regions t']. unfold l. by rewrite regions_reset.
    + apply msgs_put; [done|done|]. exact (H4 _ _ Ht).
  - exists (put_task (CURRENT_TASK (sys k)) t' (sys k)), h. split_and!; [exact E|exact Hl|by apply inv_regions|done|].
    exists t'. split; [by apply the_task_put_eq|]. cbn [ool_regions set_regions t']. apply regions_reset.
Qed.

(** ** The steps *)

(** The reply of the file service is taken. *)
Lemma exec_polled pc args k t m : Inv (sys k) pc -> pc (CURRENT_TASK (sys k)) = Poll InCall -> ledger [] k -> current k = Some t ->
  reply_pending t = true -> reply_slot t = m -> IS_ERR (result m) = false -> size (ool m) <> 0 -> addr (ool m) <> 0 ->
  exists s, exec_round args k = exec_image (addr (ool m)) args (set_sys s k) /\ ledger [addr (ool m)] (set_sys s k) /\
    Inv s (upd pc (CURRENT_TASK (sys k)) Run) /\ CURRENT_TASK s = CURRENT_TASK (sys k).
Proof.
  intros Hinv Hp Hl Ht Hrp Hm He Hsz Ha. destruct (call_poll_spec (sys k) pc Hinv Hp) as (r & s & E & Hinv').
  pose proof (call_poll_owners (sys k) pc r s Hinv Hp (lg_msgs _ _ Hl) E) as [T1 T2 T3 T4].
  assert (r = Some m) as ->. { unfold current in Ht. unfold call_poll in E. rewrite Ht in E. cbn [mbind option_bind] in E. rewrite Hrp, Hm in E. congruence. }
  exists s. unfold exec_round. rewrite E. cbn [mbind option_bind]. destruct (Z.eqb_spec (size (ool m)) 0); [done|]. destruct (Z.eqb_spec (addr (ool m)) 0); [done|]. rewrite He.
  split; [done|]. split; [|done]. destruct Hl as [H1 H2 H3 H4]. cbn [mbind option_bind] in T1. rewrite owned_buffer_ok in T1 by (by apply T3).
  destruct (Z.eqb_spec (size (ool m)) 0); [done|]. destruct (Z.eqb_spec (addr (ool m)) 0); [done|]. split; cbn [heap sys set_sys]; [by rewrite H1|done|done|done].
Qed.

(** The address space is replaced. *)
Lemma image_spec pc buf args k r A : Inv (sys k) pc -> ledger [buf] k -> 0 <= CURRENT_TASK (sys k) < lenz (roots k) ->
  growable 4 (cr3 (vm k)) 256 (vm k) -> avail (vm k) = r :: A ->
  exists k2, exec_image buf args k = ('(o, k') ← run_elf buf [] (Some args) k2; Some (match o with Some e => Enters e | None => ExecDone (err OK) end, k')) /\
    replaced r (vm k) (vm k2) /\ ledger [buf] k2 /\ Inv (sys k2) pc /\ CURRENT_TASK (sys k2) = CURRENT_TASK (sys k) /\
    page_table_of (CURRENT_TASK (sys k)) k2 = Some r /\ no_regions k2.
Proof.
  intros Hinv Hl Hcur Hg Hav. destruct (replace_spec (vm k) r A Hg Hav) as (v1 & v2 & E1 & Hc1 & E2 & Hrep). unfold exec_image. rewrite E1. cbn [mbind option_bind].
  assert (r <> 0) as Hr0. { destruct Hg as [_ _ _ _ [_ Hpg] _ _]. rewrite Hav in Hpg. apply Forall_cons in Hpg as [[? _] _]. lia. }
  destruct (Z.eqb_spec r 0); [done|]. cbn [sys set_vm]. set (k1 := set_root _ r (set_vm v1 k)).
  destruct (release_regions_spec pc [buf] k1) as (s & h & E3 & Hl3 & Hinv3 & Hc3 & Hnr); [exact Hinv|by apply (ledger_ext [buf] k)|]. rewrite E3. cbn [mbind option_bind].
  change (vm (set_heap h (set_sys s k1))) with v1. rewrite E2. cbn [mbind option_bind]. exists (set_vm v2 (set_heap h (set_sys s k1))). split; [done|]. split; [done|].
  split_and!; [by apply (ledger_ext [buf] (set_heap h (set_sys s k1)))|done|done| |exact Hnr].
  unfold page_table_of. cbn [roots set_vm set_heap set_sys k1 set_root]. by apply atz_setz_eq.
Qed.

(** ** The promises *)

(** The process is about to take the reply with a file in the buffer at [buf]. *)
Record file_arrived (pc : Z -> Pc) (k : Kern) (t : Task) (buf : Z) : Prop := mkFileArrived {
  fa_inv : Inv (sys k) pc;
  fa_pc : pc (CURRENT_TASK (sys k)) = Poll InCall;
  fa_ledger : ledger [] k;
  fa_task : current k = Some t;
  fa_reply : reply_pending t = true /\ IS_ERR (result (reply_slot t)) = false /\ size (ool (reply_slot t)) <> 0;
  fa_buf : addr (ool (reply_slot t)) = buf /\ buf <> 0;
  fa_root : 0 <= CURRENT_TASK (sys k) < lenz (roots k);
  fa_space : growable 4 (cr3 (vm k)) 256 (vm k);
}.

(** What is left of the old program, and that the kernel's half is kept. *)
Record image_replaced (pc : Z -> Pc) (k k' : Kern) : Prop := mkImageReplaced {
  ir_settled : settled (upd pc (CURRENT_TASK (sys k)) Run) k k';
  ir_root : page_table_of (CURRENT_TASK (sys k)) k' = Some (cr3 (vm k')) /\ cr3 (vm k') ∈ avail (vm k);
  ir_regions : no_regions k';
  ir_kernel : forall i, 0 <= i < 256 -> entry (vm k') (cr3 (vm k')) i = entry (vm k) (cr3 (vm k)) i;
  ir_freed : let old := leaves 4 (ram (vm k)) (cr3 (vm k)) 256 in
    freed (vm k') ≡ₚ released (vm_pages (vm k)) old ++ tables 4 (ram (vm k)) (cr3 (vm k)) 256 ++ freed (vm k);
}.

(** Both ends of [run_elf] release the file. *)
Lemma run_elf_spec pc buf name args k o v : exec_elf buf name args (vm k) = Some (o, v) -> buf <> 0 -> Inv (sys k) pc -> ledger [buf] k -> no_regions k ->
  exists k', run_elf buf name args k = Some (o, k') /\ vm k' = v /\ roots k' = roots k /\ sys k' = sys k /\ settled pc k k'.
Proof.
  intros E Hb Hinv Hl Hnr. unfold run_elf. rewrite E. cbn [mbind option_bind]. unfold drop_buffer. destruct (Z.eqb_spec buf 0); [done|].
  destruct (free_held buf [] (set_vm v k)) as (h & -> & Hl'); [by apply (ledger_ext [buf] k)|]. cbn [mbind option_bind]. eexists. split; [done|]. by split_and!.
Qed.

Lemma exec_arrived pc args k t buf r A : file_arrived pc k t buf -> avail (vm k) = r :: A ->
  exists k2, exec_round args k = ('(o, k') ← run_elf buf [] (Some args) k2; Some (match o with Some e => Enters e | None => ExecDone (err OK) end, k')) /\
    replaced r (vm k) (vm k2) /\ ledger [buf] k2 /\ Inv (sys k2) (upd pc (CURRENT_TASK (sys k)) Run) /\ CURRENT_TASK (sys k2) = CURRENT_TASK (sys k) /\
    page_table_of (CURRENT_TASK (sys k)) k2 = Some r /\ no_regions k2.
Proof.
  intros [Hinv Hpc Hl Ht (Hrp & He & Hsz) [Hb Hb0] Hroot Hg] Hav. subst buf.
  destruct (exec_polled pc args k t (reply_slot t) Hinv Hpc Hl Ht Hrp eq_refl He Hsz Hb0) as (s & E & Hl1 & Hinv1 & Hc1).
  destruct (image_spec (upd pc (CURRENT_TASK (sys k)) Run) (addr (ool (reply_slot t))) args (set_sys s k) r A) as (k2 & E2 & R & L & I & C & P & N); [done|done|by cbn [sys set_sys]; rewrite Hc1|done|done|].
  cbn [sys set_sys] in *. rewrite Hc1 in C, P. exists k2. by rewrite E.
Qed.

Lemma image_replaced_intro pc buf args k k2 o v r : replaced r (vm k) (vm k2) -> ledger [buf] k2 -> buf <> 0 -> Inv (sys k2) (upd pc (CURRENT_TASK (sys k)) Run) ->
  CURRENT_TASK (sys k2) = CURRENT_TASK (sys k) -> page_table_of (CURRENT_TASK (sys k)) k2 = Some r -> no_regions k2 ->
  exec_elf buf [] (Some args) (vm k2) = Some (o, v) -> evolves (vm k2) v ->
  exists k', run_elf buf [] (Some args) k2 = Some (o, k') /\ vm k' = v /\ image_replaced pc k k'.
Proof.
  intros [_ Hroot Hav _ Hker _ _ Hfr] Hl Hb Hinv Hc Hpt Hnr E [_ Er _ [Ef Ek]]. destruct (run_elf_spec _ buf [] (Some args) k2 o v E Hb Hinv Hl Hnr) as (k' & E' & Hv & Hrt & Hs & [S1 S2 S3]).
  exists k'. split; [done|]. split; [done|]. rewrite Hroot in *. split.
  - split; [done|done|congruence].
  - rewrite Hv, Er. split; [unfold page_table_of in *; by rewrite Hrt|]. rewrite Hav. by left.
  - destruct Hnr as (t & Ht & Hr). exists t. unfold current in *. by rewrite Hs.
  - intros i Hi. rewrite Hv, Er. by rewrite Ek, Hker.
  - cbv zeta. by rewrite Hv, Ef.
Qed.

(** C6: (exec) A process whose call for a well-formed file is answered becomes the program: with
    memory for it, the reply is turned into an entry to user mode at the file's entry
    point, in a new address space that holds the segments of the file, the words of the
    arguments, a stack and a heap, over the same kernel half.  Every table of the old
    address space and every page that only it mapped is freed; the file buffer and the
    out-of-line regions of the old program are freed, and no other buffer is. *)
Theorem exec_replaces_program pc args k t buf len : file_arrived pc k t buf -> let m := ram (vm k) in executable (vm k) buf len -> is_elf m buf = true ->
  (forall j x, 0 <= j < e_phnum (read_ehdr m buf) -> is_load m buf j -> in_segment (get_program_header m buf j) x -> x < ARGV_ADDR) ->
  1 + 4 * (pages_from (Z.to_nat (e_phnum (read_ehdr m buf))) 0 m buf + EXTRA_PAGES) <= lenz (avail (vm k)) ->
  fits ARG_V_LEN (PAGE_SIZE - ARG_V_LEN * 8) (arg_words [] (Some args)) ->
  exists k', exec_round args k = Some (Enters (mkEnter (lenz (arg_words [] (Some args))) ARGV_ADDR (e_entry (read_ehdr m buf)) (STACK_ADDR + STACK_SIZE - 8)), k') /\
    started m buf (arg_words [] (Some args)) (vm k') /\ image_replaced pc k k'.
Proof.
  intros Hfa m Hx Helf Hbelow Hroom Hfit. pose proof Hfa as [_ _ _ _ _ [_ Hb0] _ Hg]. assert (0 <= pages_from (Z.to_nat (e_phnum (read_ehdr m buf))) 0 m buf) as Hpos.
  { pose proof (phnum_range (vm k) buf). apply (pages_from_nonneg (vm k) buf len Hx); unfold m; lia. }
  assert (EXTRA_PAGES = 265) as Hex by reflexivity. destruct (avail (vm k)) as [|r A] eqn:Hav; [change (lenz []) with 0 in Hroom; lia|]. rewrite lenz_cons in Hroom.
  destruct (exec_arrived pc args k t buf r A Hfa Hav) as (k2 & E & R & L & I & C & P & N). pose proof (rp_supply _ _ _ R) as Hav2. assert (avail (vm k2) = A) as HA by congruence.
  destruct (replaced_file r (vm k) (vm k2) buf len Hg R (ex_file _ _ _ Hx)) as [Hsf Hkb].
  assert (executable (vm k2) buf len) as Hx2 by (apply (executable_same (vm k)); [done|done|done|rewrite HA; unfold m in Hroom; lia]).
  destruct (exec_elf_starts (vm k2) buf len [] (Some args)) as (v & Ev & Hev & Hst); [apply R|done|by rewrite (is_elf_same (vm k) (vm k2) buf len)| | |done|].
  - intros j x Hj Hl. rewrite (phnum_same (vm k) (vm k2) buf len) in Hj by done. rewrite (is_load_same (vm k) (vm k2) buf len) in Hl by done.
    rewrite (phdr_same (vm k) buf len Hx (ram (vm k2)) j) by done. by apply Hbelow.
  - rewrite (total_pages_same (vm k) (vm k2) buf len) by done. rewrite HA. unfold m in Hroom. lia.
  - destruct (image_replaced_intro pc buf args k k2 _ v r R L Hb0 I C P N Ev Hev) as (k' & Er & Hv & Hrep). exists k'. rewrite E, Er. cbn [mbind option_bind]. split; [|split; [|done]].
    + by rewrite (ehdr_same (ram (vm k)) (ram (vm k2)) buf len) by (done || apply Hx).
    + rewrite Hv. by apply (started_same (vm k) (vm k2) buf len).
Qed.

(** (exec, wrong files) The check of the magic number comes after the old program is gone: a process
    that executes a file that is not an ELF file is told that the call succeeded, and
    goes on with no user page mapped at all. *)
Theorem exec_not_elf_loses_program pc args k t buf : file_arrived pc k t buf -> kernel_bytes (vm k) buf 64 -> is_elf (ram (vm k)) buf = false -> avail (vm k) <> [] ->
  exists k', exec_round args k = Some (ExecDone (err OK), k') /\ image_replaced pc k k' /\ forall a, user a -> translate (vm k') a = None.
Proof.
  intros Hfa Hkb Hno Hav0. pose proof Hfa as [_ _ _ _ _ [_ Hb0] _ Hg]. destruct (avail (vm k)) as [|r A] eqn:Hav; [done|].
  destruct (exec_arrived pc args k t buf r A Hfa Hav) as (k2 & E & R & L & I & C & P & N). destruct (replaced_file r (vm k) (vm k2) buf 64 Hg R Hkb) as [Hsf _].
  assert (exec_elf buf [] (Some args) (vm k2) = Some (None, vm k2)) as Ev.
  { unfold exec_elf, is_elf in *. rewrite (ehdr_same (ram (vm k)) (ram (vm k2)) buf 64) by (done || lia). by rewrite Hno. }
  destruct (image_replaced_intro pc buf args k k2 _ _ r R L Hb0 I C P N Ev) as (k' & Er & Hv & Hrep); [apply evolves_refl, R|]. exists k'. rewrite E, Er. cbn [mbind option_bind].
  split; [done|]. split; [done|]. intros a Ha. rewrite Hv. destruct R as [Hs Hroot _ Hz _ _ _ _]. rewrite <- Hroot in Hz.
  destruct (paddr (vm k2) a) as [p|] eqn:Ep; [|unfold paddr in Ep; rewrite wrap_small in Ep by (unfold user, USER_BASE in Ha; lia); by destruct (translate (vm k2) a)].
  exfalso. destruct (vload_mapped (vm k2) a (ldb (ram (vm k2)) p) Hs Ha) as [e He]; [unfold vload; by rewrite Ep|]. rewrite empty_leaf in He; [done|done|by apply user_part].
Qed.
