(* ===== verification/Fork.v ===== *)
(** * Forking and the dispatch of system calls

    [copy_task] and [sys_fork] on the joined state, with the address spaces and the
    out-of-line regions, and [handle_syscall] of [kernel/syscall/handler.cpp] over
    everything a system call can reach. *)

From S2P Require Import Prelude Pages Message MessageQueue UserMem Graphics Fd Task Paging Timer Syscall Elf Exec.

Open Scope Z_scope.

(** ** Fork *)

(** The regions of the parent leave the child's table; errors are only logged. *)
Definition unmap_regions (table : Z) (l : list OolRegion) (v : Vm) : Vm :=
  foldl (fun v r => if kaddr r =? 0 then v else snd (unmap_frame table (uaddr r) (region_pages r) v)) v l.

(** [storage] and [stack_ok] say whether the allocations of the message ring and of
    the stack succeed. *)
Definition copy_task_k (storage stack_ok : bool) (k : Kern) : option (option Z * Kern) :=
  let parent := CURRENT_TASK (sys k) in
  p ← current k;
  match create_task (name p) true storage (sys k) with
  | (None, s) => Some (None, set_sys s k)
  | (Some child, s) =>
      c ← the_task child s;
      let s := put_task child (set_fd_table (copy_fd_table (fd_table p)) (set_forked (id p) true c)) s in
      let k := set_root child (cr3 (vm k)) (set_sys s k) in
      if negb stack_ok then Some (None, k)
      else
        snapshot ← page_table_of parent k;
        '(e, parent_table, child_table, v) ← copy_parent_page_table snapshot (vm k);
        let k := set_root parent parent_table (set_vm v k) in
        if IS_ERR e then Some (None, k)
        else
          let k := set_root child child_table k in
          Some (Some child, set_vm (unmap_regions child_table (ool_regions p) (vm k)) k)
  end.

Definition fork_k (storage stack_ok : bool) (k : Kern) : option (Z * Kern) :=
  let c := CURRENT_TASK (sys k) in
  t ← current k;
  if just_forked t then Some (0, set_sys (put_task c (set_forked (parent_id t) false t) (sys k)) k)
  else if negb (parent_id t =? -1) then Some (err ERR_FORK_FAILED, k)
  else
    '(child, k) ← copy_task_k storage stack_ok k;
    match child with
    | None => Some (err ERR_FORK_FAILED, k)
    | Some i => s ← schedule_task i (sys k); Some (i, set_sys s k)
    end.

(** ** Dispatch *)

Definition SYS_READ : Z := 0.
Definition SYS_WRITE : Z := 1.
Definition SYS_DRAW_TEXT : Z := 4.
Definition SYS_FILL_RECT : Z := 5.
Definition SYS_TIME : Z := 6.
Definition SYS_IPC : Z := 7.
Definition SYS_GETPID : Z := 39.
Definition SYS_GETPPID : Z := 40.
Definition SYS_FORK : Z := 57.
Definition SYS_EXEC : Z := 59.
Definition SYS_EXIT : Z := 60.
Definition SYS_WAIT : Z := 61.

(** The kernel, the timer and the screen. *)
Record Os := mkOs { kern : Kern; ktimer : KernelTimer; screen : Screen }.
Definition set_kern (k : Kern) (o : Os) : Os := mkOs k (ktimer o) (screen o).

(** The call returns a word, waits, starts a program, ends the process, or does not
    come back from the drawing loop within the fuel. *)
Inductive SysOutcome :=
| Returns (r : Z)
| Waits (p : Pending)
| WaitsForFile (args : list Z)
| StartsProgram (e : UserEntry)
| Exits
| Draws.

Definition outcome (x : Outcome) : SysOutcome := match x with Done r => Returns (u64 r) | Blocks p => Waits p end.
Definition exec_outcome (x : ExecOutcome) : SysOutcome :=
  match x with ExecDone r => Returns (u64 r) | ExecBlocks args => WaitsForFile args | Enters e => StartsProgram e end.

Section dispatch.
(** The glyphs, the rounds allowed to [write_string], the kernel stack objects of
    [sys_draw_text] and [sys_exec], and the outcome of the allocations of a fork. *)
Context (font_data : list Z) (fuel : nat) (text_buf name_at copy_args : Z) (storage stack_ok : bool).

Definition handle_syscall (arg1 arg2 arg3 arg4 arg5 syscall_number : Z) (o : Os) : option (SysOutcome * Os) :=
  let k := kern o in
  if syscall_number =? SYS_READ then '(r, k) ← sys_read arg1 arg2 arg3 k; Some (outcome r, set_kern k o)
  else if syscall_number =? SYS_WRITE then '(r, k) ← sys_write arg1 arg2 arg3 k; Some (outcome r, set_kern k o)
  else if syscall_number =? SYS_EXIT then k ← sys_exit arg1 k; Some (Exits, set_kern k o)
  else if syscall_number =? SYS_DRAW_TEXT then
    r ← sys_draw_text font_data fuel text_buf arg1 arg2 arg3 arg4 (mem k) (screen o);
    Some (match r with
          | Some (len, m, s) => (Returns (u64 len), mkOs (set_mem m k) (ktimer o) s)
          | None => (Draws, o)
          end)
  else if syscall_number =? SYS_FILL_RECT then
    '(e, s) ← sys_fill_rect arg1 arg2 arg3 arg4 arg5 (screen o); Some (Returns (u64 e), mkOs k (ktimer o) s)
  else if syscall_number =? SYS_TIME then
    '(e, t) ← sys_time arg1 arg2 (ktimer o) (sys k); Some (Returns (u64 e), mkOs k t (screen o))
  else if syscall_number =? SYS_IPC then '(r, k) ← sys_ipc arg1 arg3 arg4 k; Some (outcome r, set_kern k o)
  else if syscall_number =? SYS_FORK then '(r, k) ← fork_k storage stack_ok k; Some (Returns (u64 r), set_kern k o)
  else if syscall_number =? SYS_EXEC then '(r, k) ← sys_exec name_at copy_args arg1 arg2 k; Some (exec_outcome r, set_kern k o)
  else if syscall_number =? SYS_WAIT then '(r, k) ← wait_round arg1 k; Some (outcome r, set_kern k o)
  else if syscall_number =? SYS_GETPID then r ← sys_getpid k; Some (Returns (u64 r), o)
  else if syscall_number =? SYS_GETPPID then r ← sys_getppid k; Some (Returns (u64 r), o)
  else Some (Returns 0, o).
End dispatch.

(** ** The stubs of user programs *)

(** [libs/user/syscall.asm]: the number each stub loads. *)
Inductive Stub := U_read | U_write | U_draw_text | U_fill_rect | U_time | U_ipc | U_fork | U_exec | U_exit | U_wait | U_getpid | U_getppid.
Definition stub_number (s : Stub) : Z :=
  match s with
  | U_read => 0 | U_write => 1 | U_draw_text => 4 | U_fill_rect => 5 | U_time => 6 | U_ipc => 7
  | U_fork => 57 | U_exec => 59 | U_exit => 60 | U_wait => 61 | U_getpid => 39 | U_getppid => 110
  end.
