(* ===== verification/ForkSpec.v ===== *)
(** * What a fork promises

    Unmapping the out-of-line regions in the child, and the fork of [Fork] on the joined
    state of tasks, page tables and buffers. *)

From S2P Require Import Prelude Pages Message MessageQueue UserMem Fd Task TaskProofs TaskSpec TaskLife Paging PagingProofs PagingTree PagingFork PagingFault PagingMap.
From S2P Require Import Syscall SyscallProofs SyscallSpec Elf ElfProofs Exec Fork.

Open Scope Z_scope.

(** ** Unmapping *)

(** A change of one mapping keeps the tables. *)
Lemma tables_put_leaf level : forall m t a e v start, ram_ok m -> aligned t -> 0 <= start <= 512 -> start <= part (Z.of_nat (S level)) a ->
  NoDup (tables (S level) m t start) -> leaf (S level) m t a = Some e ->
  tables (S level) (st (last_table (S level) m t a + 8 * part 1 a) v m) t start = tables (S level) m t start.
Proof.
  induction level as [|below IH]; intros m t a e v start Hm Ha H0 Hs Hnd Hl; [done|]. pose proof (part_index (Z.of_nat (S (S below))) a ltac:(lia)) as Hi. pose proof Hi as Hi'. unfold index_ok in Hi'.
  rewrite leaf_S in Hl. cbv zeta in Hl. set (i := part (Z.of_nat (S (S below))) a) in *. destruct (present (ld m (t + 8 * i))) eqn:Hp; [|done]. cbn [negb] in Hl. set (next := get_next_level_table (ld m (t + 8 * i))) in *.
  assert (subtables (S below) m t i = tables (S below) m next 0) as Hsub by (unfold subtables; by rewrite Hp). destruct (subtables_tree below m t start i H0 Hnd ltac:(lia)) as [Hndi Htn]. rewrite Hsub in Hndi, Htn.
  destruct (last_table_leaf below m next a e 0 (next_aligned _) ltac:(lia) ltac:(apply part_index; lia) Hl) as (Hin & Hal & _).
  change (last_table (S (S below)) m t a) with (last_table (S below) m next a). set (T := last_table (S below) m next a) in *. set (m' := st (T + 8 * part 1 a) v m).
  assert (part 1 a = part 1 a /\ index_ok (part 1 a)) as [_ H1] by (split; [done|apply part_index; lia]).
  assert (forall j, index_ok j -> ld m' (t + 8 * j) = ld m (t + 8 * j)) as Ht.
  { intros j Hj. unfold m'. rewrite ld_st by done. destruct (Z.eqb_spec T t) as [He|]; [|done]. by destruct Htn; rewrite <- He. }
  rewrite !tables_eq. f_equal. apply mjoin_ext. intros j Hj. unfold subtables. cbv zeta. rewrite Ht by (unfold index_ok; lia). destruct (present (ld m (t + 8 * j))) eqn:Hpj; [|done].
  destruct (Z.eq_dec i j) as [<-|Hij]; [exact (IH m next a e v 0 Hm (next_aligned _) ltac:(lia) ltac:(apply part_index; lia) Hndi Hl)|].
  apply tables_ext; [lia|apply next_aligned|]. intros x Hx. assert (subtables (S below) m t j = tables (S below) m (get_next_level_table (ld m (t + 8 * j))) 0) as Hsj by (unfold subtables; by rewrite Hpj).
  rewrite <- Hsj in Hx. pose proof (subtables_disjoint below m t start i j ltac:(lia) Hnd ltac:(lia) ltac:(lia) Hij) as Hdis. unfold m'. rewrite st_entry, frame_insert by done.
  destruct (Z.eqb_spec (x / PAGE_SIZE) (T / PAGE_SIZE)) as [He|]; [|done]. exfalso.
  apply aligned_eq in He; [|pose proof (subtables_aligned (S below) m t j) as HF; rewrite Forall_forall in HF; by apply HF|done]. apply (Hdis x); [|done]. rewrite Hsub, He. exact Hin.
Qed.

Lemma same_page_vpn level a b : same_page level a b = (vpn level a =? vpn level b).
Proof.
  induction level as [|l IH]; [done|]. cbn [same_page]. rewrite IH. destruct (Z.eqb_spec (vpn (S l) a) (vpn (S l) b)) as [E|E].
  - apply vpn_parts in E as [-> ->]. by rewrite !Z.eqb_refl.
  - destruct (Z.eqb_spec (part (Z.of_nat (S l)) a) (part (Z.of_nat (S l)) b)) as [Ep|]; [|done]. destruct (Z.eqb_spec (vpn l a) (vpn l b)) as [Ev|]; [|done]. destruct E. cbn [vpn]. by rewrite Ep, Ev.
Qed.

(** [s'] is [s] without the mappings of the table [t] whose page numbers satisfy [P]. *)
Record unmapped (t : Z) (P : Z -> bool) (s s' : Vm) : Prop := mkUnmapped {
  um_ok : vm_ok s';
  um_rest : cr3 s' = cr3 s /\ vm_pages s' = vm_pages s /\ avail s' = avail s /\ freed s' = freed s;
  um_tables : tables 4 (ram s') t 256 = tables 4 (ram s) t 256;
  um_frames : only_frames (tables 4 (ram s) t 256) (ram s) (ram s');
  um_leaf : forall b, 256 <= part 4 b -> leaf 4 (ram s') t b = if P (vpn 4 b) then None else leaf 4 (ram s) t b;
}.

Lemma unmapped_refl t s : vm_ok s -> unmapped t (fun _ => false) s s.
Proof. intros H. by split. Qed.

Lemma unmapped_trans t P Q s1 s2 s3 : unmapped t P s1 s2 -> unmapped t Q s2 s3 -> unmapped t (fun v => P v || Q v) s1 s3.
Proof.
  intros [A1 (A2 & A3 & A4 & A5) A6 A7 A8] [B1 (B2 & B3 & B4 & B5) B6 B7 B8]. split; [done|split_and!; congruence|congruence| |].
  - rewrite A6 in B7. by eapply only_frames_trans.
  - intros b Hb. rewrite B8, A8 by done. by destruct (P (vpn 4 b)), (Q (vpn 4 b)).
Qed.

Lemma unmapped_ext t P Q s s' : (forall v, P v = Q v) -> unmapped t P s s' -> unmapped t Q s s'.
Proof. intros H [A1 A2 A3 A4 A5]. split; try done. intros b Hb. by rewrite A5, H. Qed.

Definition in_run (p n v : Z) : bool := (p <=? v) && (v <? p + n).

Lemma unmap_spec t n : forall a s, vm_ok s -> aligned t -> NoDup (tables 4 (ram s) t 256) -> ((0 < n)%nat -> user a) -> a + Z.of_nat n * PAGE_SIZE <= 2 ^ 64 ->
  (forall i, 0 <= i < Z.of_nat n -> is_Some (leaf 4 (ram s) t (a + i * PAGE_SIZE))) ->
  exists s', unmap_from n t a s = (err OK, s') /\ unmapped t (in_run (upage a) (Z.of_nat n)) s s'.
Proof.
  induction n as [|n IH]; intros a s Hok Ht Hnd Hu Hend Hm.
  { exists s. split; [done|]. apply (unmapped_ext t (fun _ => false)); [|by apply unmapped_refl]. intros v. unfold in_run. destruct (Z.leb_spec (upage a) v), (Z.ltb_spec v (upage a + Z.of_nat 0)); lia || done. }
  specialize (Hu ltac:(lia)). pose proof (user_part a Hu) as Hpa. destruct (user_vpn a Hu) as [Va _]. destruct (Hm 0 ltac:(lia)) as [e He]. rewrite Z.mul_0_l, Z.add_0_r in He.
  cbn [unmap_from]. unfold get_pte. change (Z.to_nat (4 - 1)) with 3%nat. rewrite (walk_last_table 3 (ram s) t a e He : walk 3 (ram s) t 4 a = _). set (pte := last_table 4 (ram s) t a + 8 * part 1 a).
  destruct (put_leaf_any 3 (ram s) t a e 0 256 Hok Ht ltac:(lia) Hpa Hnd He) as [P1 P2]. fold pte in P1, P2. pose proof (tables_put_leaf 3 (ram s) t a e 0 256 Hok Ht ltac:(lia) Hpa Hnd He) as HT. fold pte in HT.
  destruct (last_table_leaf 3 (ram s) t a e 256 Ht ltac:(lia) Hpa He) as (Hin & Hal & _). pose proof (part_index 1 a ltac:(lia)) as Hi1. set (s1 := set_ram (st pte 0 (ram s)) s).
  assert (unmapped t (fun v => v =? upage a) s s1) as U1.
  { split; cbn [ram cr3 vm_pages avail freed set_ram s1]; [|done|done| |].
    - apply (vm_ok_put (last_table 4 (ram s) t a) (part 1 a) 0 s); done.
    - apply (only_frames_put _ (last_table 4 (ram s) t a) (part 1 a) 0 s); done.
    - intros b Hb. destruct (Z.eqb_spec (vpn 4 b) (upage a)) as [E|E].
      + rewrite (leaf_vpn 4 _ t b a) by congruence. exact P1.
      + apply P2; [done|]. rewrite same_page_vpn. destruct (Z.eqb_spec (vpn 4 a) (vpn 4 b)); congruence. }
  destruct (IH (u64 (a + PAGE_SIZE)) s1) as (s' & E & U2).
  - apply U1.
  - done.
  - by rewrite (um_tables _ _ _ _ U1).
  - intros Hn. unfold user, USER_BASE, PAGE_SIZE in *. rewrite wrap_small by lia. lia.
  - unfold user, USER_BASE, PAGE_SIZE in *. destruct n as [|n]; [pose proof (wrap_range 64 (a + 4096) ltac:(lia)); lia|]. rewrite wrap_small by lia. lia.
  - intros i Hi. assert (a + PAGE_SIZE < 2 ^ 64) as Hlt by (unfold PAGE_SIZE in *; lia). rewrite wrap_small by (unfold user, USER_BASE, PAGE_SIZE in *; lia).
    assert (user (a + PAGE_SIZE + i * PAGE_SIZE)) as Hui by (unfold user, USER_BASE, PAGE_SIZE in *; lia). destruct (user_vpn _ Hui) as [Vi _].
    rewrite (um_leaf _ _ _ _ U1) by (by apply user_part). cbv beta. rewrite Vi. unfold upage in *. replace ((a + PAGE_SIZE + i * PAGE_SIZE) / PAGE_SIZE) with (a / PAGE_SIZE + (1 + i)) by (rewrite <- Z.div_add by done; f_equal; lia).
    destruct (Z.eqb_spec (a / PAGE_SIZE + (1 + i) - (2 ^ 52 - 2 ^ 36)) (a / PAGE_SIZE - (2 ^ 52 - 2 ^ 36))); [lia|]. replace (a + PAGE_SIZE + i * PAGE_SIZE) with (a + (i + 1) * PAGE_SIZE) by lia. apply Hm. lia.
  - exists s'. split; [done|]. eapply unmapped_ext; [|eapply unmapped_trans; [exact U1|exact U2]]. intros v. cbv beta. unfold in_run. destruct n as [|n]; [destruct (Z.eqb_spec v (upage a)); destruct (Z.leb_spec (upage a) v), (Z.ltb_spec v (upage a + Z.of_nat 1)), (Z.leb_spec (upage (u64 (a + PAGE_SIZE))) v), (Z.ltb_spec v (upage (u64 (a + PAGE_SIZE)) + Z.of_nat 0)); lia || done|].
    rewrite wrap_small by (unfold user, USER_BASE, PAGE_SIZE in *; lia). assert (upage (a + PAGE_SIZE) = upage a + 1) as -> by (unfold upage; replace (a + PAGE_SIZE) with (a + 1 * PAGE_SIZE) by lia; rewrite Z.div_add by done; lia).
    destruct (Z.eqb_spec v (upage a)), (Z.leb_spec (upage a) v), (Z.ltb_spec v (upage a + Z.of_nat (S (S n)))), (Z.leb_spec (upage a + 1) v), (Z.ltb_spec v (upage a + 1 + Z.of_nat (S n))); lia || done.
Qed.

(** ** Regions *)

Definition live (r : OolRegion) : bool := negb (kaddr r =? 0).
Definition in_region (r : OolRegion) (v : Z) : bool := in_run (upage (uaddr r)) (region_pages r) v.

(** Every region is mapped in [t], and no two share a page. *)
Definition region_mapped (m : Frames) (t : Z) (r : OolRegion) : Prop := live r = true -> user (uaddr r) /\ 0 <= region_pages r /\ uaddr r + region_pages r * PAGE_SIZE <= 2 ^ 64 /\
  forall i, 0 <= i < region_pages r -> is_Some (leaf 4 m t (uaddr r + i * PAGE_SIZE)).
Fixpoint regions_apart (l : list OolRegion) : Prop :=
  match l with
  | [] => True
  | r :: l => Forall (fun r' => live r = true -> live r' = true -> forall v, in_region r v = true -> in_region r' v = false) l /\ regions_apart l
  end.
Definition in_regions (l : list OolRegion) (v : Z) : bool := existsb (fun r => live r && in_region r v) l.

Lemma unmap_regions_spec t l : forall s, vm_ok s -> aligned t -> NoDup (tables 4 (ram s) t 256) -> Forall (region_mapped (ram s) t) l -> regions_apart l ->
  unmapped t (in_regions l) s (unmap_regions t l s).
Proof.
  induction l as [|r l IH]; intros s Hok Ht Hnd Hm Hap; [by apply unmapped_refl|]. apply Forall_cons in Hm as [Hr Hl]. destruct Hap as [Hd Hap]. unfold unmap_regions. cbn [foldl]. fold (unmap_regions t l).
  destruct (Z.eqb_spec (kaddr r) 0) as [H0|H0].
  - eapply unmapped_ext; [|by apply IH]. intros v. cbn [in_regions existsb]. assert (live r = false) as -> by (unfold live; by rewrite H0). done.
  - assert (live r = true) as Hlive by (unfold live; by destruct (Z.eqb_spec (kaddr r) 0)). destruct (Hr Hlive) as (Hu & Hp & He & Hpm).
    destruct (unmap_spec t (Z.to_nat (region_pages r)) (uaddr r) s Hok Ht Hnd (fun _ => Hu)) as (s1 & E & U1); [by rewrite Z2Nat.id|intros i Hi; apply Hpm; lia|]. unfold unmap_frame. rewrite E. cbn [snd].
    rewrite Z2Nat.id in U1 by done. eapply unmapped_ext; [|eapply unmapped_trans; [exact U1|apply IH; [apply U1|done|by rewrite (um_tables _ _ _ _ U1)| |done]]].
    + intros v. cbn [in_regions existsb]. by rewrite Hlive.
    + apply Forall_forall. intros r' Hr' Hlive'. rewrite Forall_forall in Hl, Hd. destruct (Hl r' Hr' Hlive') as (Hu' & Hp' & He' & Hpm'). split_and!; [done|done|done|]. intros i Hi.
      assert (user (uaddr r' + i * PAGE_SIZE)) as Hui by (unfold user, USER_BASE, PAGE_SIZE in *; lia). destruct (user_vpn _ Hui) as [Vi _].
      rewrite (um_leaf _ _ _ _ U1) by (by apply user_part). rewrite Vi. assert (in_region r' (upage (uaddr r' + i * PAGE_SIZE)) = true) as Hin.
      { unfold in_region, in_run, upage. rewrite Z.div_add by done. lia. }
      destruct (in_run (upage (uaddr r)) (region_pages r) (upage (uaddr r' + i * PAGE_SIZE))) eqn:Er; [|by apply Hpm']. rewrite (Hd r' Hr' Hlive Hlive' _ Er) in Hin. done.
Qed.

(** ** The fork *)

Lemma owners_new i s t : 0 <= i < lenz (tasks s) -> the_task i s = None -> owned_of t = [] -> owners (put_task i t s) ≡ₚ owners s.
Proof.
  intros Hi Hn Ho. unfold the_task, task_at in Hn. destruct (atz (tasks s) i) as [o|] eqn:Ha; [|by apply atz_lt in Hi as [x Hx]; rewrite Hx in Ha]. cbn in Hn. subst o. apply atz_Some in Ha as [_ Ha].
  unfold owners, put_task. cbn [tasks set_tasks]. unfold setz. pose proof (lookup_lt_Some _ _ _ Ha) as Hlt. rewrite <- (take_drop_middle (tasks s) (Z.to_nat i) None Ha) at 2. rewrite (insert_take_drop _ _ _ Hlt).
  rewrite !fmap_app, !fmap_cons, !join_app. cbn [mjoin list_join]. by rewrite Ho.
Qed.

(** A process that may fork, with memory for the child. *)
Record can_fork (pc : Z -> Pc) (k : Kern) (t : Task) : Prop := mkCanFork {
  cf_inv : Inv (sys k) pc;
  cf_ledger : ledger [] k;
  cf_task : current k = Some t;
  cf_first : just_forked t = false /\ parent_id t = -1;
  cf_slot : get_available_task_id (sys k) <> -1;
  cf_roots : lenz (roots k) = MAX_TASKS /\ page_table_of (CURRENT_TASK (sys k)) k = Some (cr3 (vm k));
  cf_memory : forkable (vm k);
  cf_regions : Forall (region_mapped (ram (vm k)) (cr3 (vm k))) (ool_regions t) /\ regions_apart (ool_regions t);
}.

(** The child [i] of [t]. *)
Record forked_child (k k' : Kern) (t : Task) (i : Z) (c : Task) (parent_table child_table : Z) : Prop := mkForkedChild {
  fc_task : the_task i (sys k') = Some c /\ id c = i /\ parent_id c = id t /\ just_forked c = true /\ fd_table c = copy_fd_table (fd_table t) /\ owned_of c = [] /\ state c = TASK_READY /\ i ∈ run_queue (sys k');
  fc_parent : current k' = Some t /\ CURRENT_TASK (sys k') = CURRENT_TASK (sys k) /\ i <> CURRENT_TASK (sys k);
  fc_roots : page_table_of (CURRENT_TASK (sys k)) k' = Some parent_table /\ page_table_of i k' = Some child_table /\ cr3 (vm k') = parent_table;
  fc_parent_space : forall a, 256 <= part 4 a -> leaf 4 (ram (vm k')) parent_table a = set_writable false <$> leaf 4 (ram (vm k)) (cr3 (vm k)) a;
  fc_child_space : forall a, 256 <= part 4 a -> leaf 4 (ram (vm k')) child_table a =
    if in_regions (ool_regions t) (vpn 4 a) then None else set_writable false <$> leaf 4 (ram (vm k)) (cr3 (vm k)) a;
  fc_ledger : ledger [] k' /\ heap k' = heap k;
}.

Lemma fork_tasks k t i c : lenz (tasks (sys k)) = MAX_TASKS -> 0 <= i < MAX_TASKS -> the_task i (sys k) = None -> owned_of c = [] -> task_msgs c = [] -> ledger [] k ->
  current k = Some t -> i <> CURRENT_TASK (sys k) ->
  exists s', schedule_task i (put_task i c (sys k)) = Some s' /\ the_task i s' = Some (set_state TASK_READY c) /\ i ∈ run_queue s' /\ the_task (CURRENT_TASK (sys k)) s' = Some t /\
    CURRENT_TASK s' = CURRENT_TASK (sys k) /\ owners s' ≡ₚ owners (sys k) /\ msgs_ok s'.
Proof.
  intros Hlen Hi Hnone Ho Hms [H1 H2 H3 H4] Ht Hne. assert (0 <= i < lenz (tasks (sys k))) as Hr by (by rewrite Hlen).
  destruct (schedule_task i (put_task i c (sys k))) as [s'|] eqn:E; [|rewrite (schedule_task_eq i (put_task i c (sys k)) c) in E by (by apply the_task_put_eq); done].
  destruct (schedule_owners i _ s' E) as (Ho' & Hm' & Hc'). exists s'. rewrite (schedule_task_eq i (put_task i c (sys k)) c) in E by (by apply the_task_put_eq). rewrite put_put in E. injection E as <-.
  split; [done|]. split_and!.
  - exact (the_task_put_eq i (set_state TASK_READY c) (sys k) Hr).
  - cbn [run_queue set_run_queue]. case_decide; [done|]. apply elem_of_app. right. by left.
  - etrans; [exact (the_task_put (CURRENT_TASK (sys k)) i (set_state TASK_READY c) (sys k) Hr)|]. destruct (Z.eqb_spec (CURRENT_TASK (sys k)) i) as [Heq|_]; [by symmetry in Heq|]. exact Ht.
  - done.
  - rewrite Ho'. by apply owners_new.
  - apply Hm'. apply msgs_put; [done|done|]. by rewrite Hms.
Qed.

(** The regions are mapped in the copy as well. *)
Lemma region_copied m m' t t' r : (forall a, 256 <= part 4 a -> leaf 4 m' t' a = set_writable false <$> leaf 4 m t a) -> region_mapped m t r -> region_mapped m' t' r.
Proof.
  intros Hc Hm Hl. destruct (Hm Hl) as (Hu & Hp & He & Hpm). split_and!; [done|done|done|]. intros i Hi. assert (user (uaddr r + i * PAGE_SIZE)) as Hui by (unfold user, USER_BASE, PAGE_SIZE in *; lia).
  rewrite Hc by (by apply user_part). destruct (Hpm i Hi) as [e ->]. by eexists.
Qed.

(** C7: (fork) A fork gives a child that is ready to run in the first free slot: it has the parent's
    descriptors, it will return 0, and it owns no buffer.  Parent and child see the old
    address space, read-only, so that the first write makes a copy; the pages of the
    parent's out-of-line regions are not in the child's.  Every allocated buffer keeps
    its owner, and the tasks are as the fork of the task table leaves them. *)
Theorem fork_creates_process pc k t : can_fork pc k t -> let i := get_available_task_id (sys k) in
  exists k' c parent_table child_table, fork_k true true k = Some (i, k') /\ forked_child k k' t i c parent_table child_table /\ sys_fork true true true (sys k) = Some (i, sys k').
Proof.
  intros [Hinv Hl Ht [Hjf Hpar] Hslot [Hrl Hroot] Hmem [Hreg Hap]] i. pose proof (bs_len _ _ (iv_base _ _ Hinv)) as Hlen. pose proof Ht as Ht0. unfold current in Ht0.
  destruct (available_id (sys k) (lenz_nonneg _)) as [|[Hr Hnone]]; [done|]. fold i in Hr, Hnone, Hslot. assert (i <> CURRENT_TASK (sys k)) as Hne by (intros Heq; rewrite Heq, Ht0 in Hnone; done).
  pose proof (the_task_range _ _ _ Ht0) as Hcr. rewrite Hlen in Hr, Hcr. unfold fork_k, sys_fork. rewrite Ht, Ht0. cbn [mbind option_bind]. rewrite Hjf, Hpar. change (negb (-1 =? -1)) with false. cbv iota.
  unfold copy_task_k, copy_task, create_task. rewrite Ht, Ht0. cbn [mbind option_bind]. fold i. destruct (Z.eqb_spec i (-1)); [done|].
  rewrite the_task_put_eq by (by rewrite Hlen). cbn [mbind option_bind negb]. rewrite put_put. set (c := set_fd_table _ _).
  unfold page_table_of at 1. cbn [roots set_root set_sys]. rewrite atz_setz_ne by lia. unfold page_table_of in Hroot. rewrite Hroot. cbn [mbind option_bind].
  change (vm (set_root i (cr3 (vm k)) (set_sys (put_task i c (sys k)) k))) with (vm k). destruct (fork_spec (vm k) Hmem) as (pt & ct & v & E & [Fp Fc Fa Fk Ff Frf Ffr Fcr (Fok & Fap & Fac & Fnp & Fnc)]).
  rewrite E. cbn [mbind option_bind]. change (IS_ERR (err OK)) with false. cbv iota. cbn [vm set_root set_vm mbind option_bind].
  destruct (fork_tasks k t i c Hlen Hr Hnone eq_refl eq_refl Hl Ht Hne) as (s' & Es & T1 & T2 & T3 & T4 & T5 & T6). cbn [sys set_root set_vm set_sys]. rewrite Es. cbn [mbind option_bind].
  pose proof (unmap_regions_spec ct (ool_regions t) v Fok Fac Fnc) as [U1 (U2 & _) U3 U4 U5]; [|done|].
  { eapply Forall_impl; [exact Hreg|]. intros r Hrm. by eapply region_copied. }
  eexists _, (set_state TASK_READY c), pt, ct. split; [done|]. split; [|done]. split.
  - by split_and!.
  - unfold current. cbn [sys set_sys]. by rewrite T4.
  - unfold page_table_of. cbn [roots set_vm set_root set_sys vm]. rewrite (atz_setz_ne _ i) by lia. rewrite !atz_setz_eq by (rewrite ?lenz_setz; unfold MAX_TASKS in *; lia). by rewrite U2.
  - intros a Ha. cbn [vm set_vm set_sys]. rewrite <- Fp by done. apply (leaf_ext 4 _ _ _ 256); [lia|done|done|]. apply (only_frames_same _ _ _ _ U4); [by apply tables_aligned|exact Fa].
  - intros a Ha. cbn [vm set_vm set_sys]. rewrite U5 by done. by rewrite Fc.
  - destruct Hl as [H1 H2 H3 H4]. split; [|done]. split; cbn [heap sys set_sys set_vm set_root]; [by rewrite T5|done|done|done].
Qed.
