(* ===== verification/ElfCheck.v ===== *)
(** * Fork, loading and exec at concrete states

    A kernel task with one mapped page that is an out-of-line region is forked, small
    executables are loaded into an empty address space, and a process replaces its
    program: the hypotheses of the theorems of [ForkSpec], [ElfSpec] and [ExecSpec]
    hold there. *)

From stdpp Require Import strings.
From S2P Require Import Prelude Pages Message MessageQueue UserMem Fd Task TaskProofs TaskSpec TaskLife Paging PagingProofs PagingTree PagingFork PagingFault PagingMap.
From S2P Require Import PagingCheck Syscall SyscallProofs SyscallSpec Elf ElfProofs Exec Fork ForkSpec ElfSpec ExecSpec.

Open Scope Z_scope.

Definition region : OolRegion := mkRegion 0x5000 0xffff800000000000 1.
Definition boot_kernel : Task := boot_task (mkInfo process_ids.KERNEL "main" true).
Definition forker : Task := set_regions (setz (ool_regions boot_kernel) 0 region) boot_kernel.
Definition forker_sys : Sys := put_task process_ids.KERNEL forker boot_state.
Definition forker_kern : Kern := mkKern forker_sys process (replicate 100 0x1000) (fun _ => 0) (fun _ => zero_message) [0x5000] [].

Lemma forker_regions : ool_regions forker = region :: tail (ool_regions boot_kernel) /\ Forall (fun r => live r = false) (tail (ool_regions boot_kernel)).
Proof. split; [reflexivity|]. apply Forall_forall. intros r Hr. vm_compute in Hr. repeat (apply elem_of_cons in Hr as [->|Hr]; [reflexivity|]). by apply not_elem_of_nil in Hr. Qed.

Lemma forker_can_fork : can_fork (fun _ => Run) forker_kern forker.
Proof.
  destruct forker_regions as [HR HT]. split.
  - apply (inv_regions boot_state (fun _ => Run) process_ids.KERNEL boot_kernel); [apply inv_boot|reflexivity].
  - split; cbn [heap sys forker_kern app].
    + apply Permutation_sym. rewrite <- (app_nil_r [0x5000]). rewrite <- boot_owners. apply (owners_put process_ids.KERNEL boot_state boot_kernel forker [] [0x5000]); [reflexivity|]. vm_compute. reflexivity.
    + apply NoDup_singleton.
    + apply Forall_singleton. split; [lia|reflexivity].
    + apply msgs_put; [split; [done|reflexivity]|apply boot_msgs|]. by apply Forall_nil.
  - reflexivity.
  - split; reflexivity.
  - vm_compute. discriminate.
  - split; reflexivity.
  - apply process_forkable.
  - rewrite HR. split.
    + apply Forall_cons. split; [|eapply Forall_impl; [exact HT|]; intros r Hr Hl; congruence]. intros _. split_and!; [split; [done|reflexivity]|done|vm_compute; intros H; discriminate H|].
      intros i Hi. assert (i = 0) as -> by (cbn in Hi; lia). vm_compute. by eexists.
    + split; [eapply Forall_impl; [exact HT|]; intros r Hr _ Hl; congruence|]. clear HR. induction HT as [|r l Hr Hl IH]; [done|]. split; [|exact IH]. eapply Forall_impl; [exact Hl|]. intros r' Hr' _ Hl'. congruence.
Qed.

Lemma fork_creates_process_witness : exists k' p c, fork_k true true forker_kern = Some (8, k') /\ leaf 4 (ram (vm k')) p 0xffff800000000000 = Some 0x5205 /\
  leaf 4 (ram (vm k')) c 0xffff800000000000 = None.
Proof.
  destruct (fork_creates_process (fun _ => Run) forker_kern forker forker_can_fork) as (k' & c & pt & ct & E & [_ _ _ Hp Hc _] & _). exists k', pt, ct.
  assert (get_available_task_id (sys forker_kern) = 8) as E8 by (vm_compute; reflexivity). rewrite E8 in E. split; [exact E|].
  assert (leaf 4 (ram (vm forker_kern)) (cr3 (vm forker_kern)) 0xffff800000000000 = Some 0x5207) as Hl by (vm_compute; reflexivity).
  rewrite Hp, Hc by (vm_compute; intros H; discriminate H). rewrite Hl. split; [reflexivity|]. destruct forker_regions as [-> _]. reflexivity.
Defined.

(** * Loading and executing programs at concrete states

    A file of one page with one segment, an empty address space, and a process
    that has asked for the file. *)

(** ** An empty address space *)

(** The pages from 1 MiB on. *)
Definition pages_upto (n : Z) : list Z := (fun i => 0x100000 + i * PAGE_SIZE) <$> seqZ 0 n.

Lemma pages_upto_ok n : n <= 2 ^ 30 -> NoDup (pages_upto n) /\ Forall page_addr (pages_upto n) /\ forall x, x < 0x100000 -> x ∉ pages_upto n.
Proof.
  intros Hn. split_and!.
  - apply NoDup_fmap_2; [|apply NoDup_seqZ]. intros i j H. unfold PAGE_SIZE in H. lia.
  - apply Forall_forall. intros x (i & -> & Hi)%list_elem_of_fmap. apply elem_of_seqZ in Hi. unfold page_addr, PAGE_SIZE. split; [lia|]. change 0x100000 with (256 * 4096). rewrite <- Z.mul_add_distr_r. by apply Z.mod_mul.
  - intros x Hx (i & -> & Hi)%list_elem_of_fmap. apply elem_of_seqZ in Hi. unfold PAGE_SIZE in Hx. lia.
Qed.

Lemma pages_upto_len n : 0 <= n -> lenz (pages_upto n) = n.
Proof. intros Hn. unfold lenz, pages_upto. rewrite length_fmap, length_seqZ. lia. Qed.

(** The file: a header, one program header and eight bytes of code. *)
Definition file_words : list Z :=
  [0x00010102464c457f; 0; 0x00000001003e0002; 0xffff800000000078; 64; 0; 0x0038004000000000; 1;
   0x0000000500000001; 0; 0xffff800000000000; 0; 128; 256; 4096; 0x90909090909090c3].
Definition file_frame : list Z := file_words ++ replicate 496 0.

(** The root of the address space is at 0x1000, the file at 0x5000. *)
Definition machine (pages : Z) (f : list Z) : Vm := mkVm (<[5 := f]> ∅) 0x1000 [] (pages_upto pages) [].

Lemma machine_empty n f i : 256 <= i < 512 -> entry (machine n f) (cr3 (machine n f)) i = 0.
Proof.
  intros Hi. unfold entry. cbn [ram cr3 machine]. rewrite ld_entry by (done || unfold index_ok; lia). rewrite frame_insert. change (0x1000 / PAGE_SIZE) with 1. change (1 =? 5) with false. cbv iota.
  unfold frame. rewrite lookup_empty. unfold default, zero_frame. rewrite lookup_total_replicate_2; [done|lia].
Qed.

Lemma machine_space n f : n <= 2 ^ 30 -> length f = 512%nat -> space (machine n f).
Proof.
  intros Hn Hf. destruct (pages_upto_ok n Hn) as (H1 & H2 & H3). apply empty_space; cbn [cr3 avail machine].
  - apply machine_empty.
  - apply ram_ok_insert; [|done]. intros pfn x Hx. by rewrite lookup_empty in Hx.
  - split; [lia|reflexivity].
  - done.
  - done.
  - apply H3. lia.
Qed.

Lemma machine_foreign n f : n <= 2 ^ 30 -> foreign (machine n f) 0x5000.
Proof.
  intros Hn. destruct (pages_upto_ok n Hn) as (_ & _ & H3). pose proof (machine_empty n f) as H0. split; [reflexivity|]. rewrite empty_tables by done. cbn [cr3 avail machine] in *. split_and!.
  - intros H. apply list_elem_of_singleton in H. lia.
  - apply H3. lia.
  - intros a e Ha He. change 0x1000 with (cr3 (machine n f)) in He. rewrite empty_leaf in He by done. done.
Qed.

Lemma machine_file n f : n <= 2 ^ 30 -> kernel_bytes (machine n f) 0x5000 128.
Proof.
  intros Hn i Hi. split; [lia|]. replace (page_of (0x5000 + i)) with 0x5000; [by apply machine_foreign|]. unfold page_of, PAGE_SIZE.
  assert ((20480 + i) / 4096 = 5) as ->; [|done]. symmetry. apply (Z.div_unique _ _ _ i); lia.
Qed.

(** ** Loading *)

Definition file_ram : Frames := <[5 := file_frame]> ∅.
Definition file_ehdr : elf64_ehdr_t := mkEhdr [0x7f; 0x45; 0x4c; 0x46; 2; 1; 1; 0; 0; 0; 0; 0; 0; 0; 0; 0] 2 0xffff800000000078 64 1.
Definition file_phdr : elf64_phdr_t := mkPhdr 1 0 0xffff800000000000 128 256.

Lemma read_file : read_ehdr file_ram 0x5000 = file_ehdr /\ get_program_header file_ram 0x5000 0 = file_phdr.
Proof. vm_compute. done. Qed.

Lemma file_executable n : 4 <= n <= 2 ^ 30 -> executable (machine n file_frame) 0x5000 128.
Proof.
  intros Hn. destruct read_file as [He Hp]. change (ram (machine n file_frame)) with file_ram in *.
  assert (forall i, 0 <= i < 1 -> i = 0) as H1 by (intros; lia).
  split; change (ram (machine n file_frame)) with file_ram; rewrite ?He; cbn [e_phoff e_phnum e_type file_ehdr].
  - apply machine_file. lia.
  - lia.
  - unfold sizeof_phdr. lia.
  - done.
  - exists 0. split; [lia|]. unfold is_load. by rewrite Hp.
  - intros i Hi _. rewrite (H1 i Hi), Hp. split; [split; [split|split|..]|split_and!]; vm_compute; solve [reflexivity|intros H; discriminate H].
  - intros i j x Hi Hj Hne. pose proof (H1 i Hi). pose proof (H1 j Hj). lia.
  - change (Z.to_nat 1) with 1%nat. cbn [pages_from]. rewrite Hp. cbn [avail machine]. rewrite pages_upto_len by lia. change (pages_of (p_memsz file_phdr)) with 1. change (p_type file_phdr =? PT_LOAD) with true. cbv iota. lia.
Qed.

Lemma setup_page_tables_maps_witness : exists s', setup_page_tables 0xffff800000003000 2 true (machine 8 file_frame) = Some (err OK, s').
Proof.
  destruct (setup_page_tables_maps (machine 8 file_frame) 0xffff800000003000 2 true) as (e & s' & j & A & L & E & _ & _ & Hok).
  - apply sp_tree, machine_space; [lia|reflexivity].
  - split; vm_compute; [intros H; discriminate H|reflexivity].
  - lia.
  - vm_compute. intros H. discriminate H.
  - rewrite Hok in E; [exists s'; exact E|]. cbn [avail machine]. rewrite pages_upto_len by lia. lia.
Defined.

Lemma load_elf_correct_witness : exists s', load_elf 0x5000 (machine 8 file_frame) = Some (err OK, s') /\ vload s' 0xffff800000000001 = Some 0x45 /\
  vload s' 0xffff8000000000ff = Some 0.
Proof.
  destruct read_file as [He Hp]. destruct (load_elf_correct (machine 8 file_frame) 0x5000 128) as (s' & E & _ & Hl & _).
  - apply machine_space; [lia|reflexivity].
  - apply file_executable. lia.
  - exists s'. split; [exact E|]. change (ram (machine 8 file_frame)) with file_ram in Hl. rewrite He in Hl. destruct (Hl 0) as [Hf Hz]; [cbn; lia|unfold is_load; by rewrite Hp|].
    rewrite Hp in Hf, Hz. change 0xffff800000000001 with (p_vaddr file_phdr + 1). change 0xffff8000000000ff with (p_vaddr file_phdr + 255).
    rewrite Hf, Hz by (cbn; lia). split; [vm_compute; reflexivity|reflexivity].
Defined.

Lemma machine_args : fits ARG_V_LEN (PAGE_SIZE - ARG_V_LEN * 8) (arg_words [] (Some [108; 115; 32; 47])).
Proof. split_and!; [vm_compute; intros H; discriminate H|vm_compute; intros H; discriminate H|]. repeat constructor; vm_compute; try reflexivity; intros H; discriminate H. Qed.

Lemma file_below n j x : 0 <= j < e_phnum (read_ehdr (ram (machine n file_frame)) 0x5000) -> is_load (ram (machine n file_frame)) 0x5000 j ->
  in_segment (get_program_header (ram (machine n file_frame)) 0x5000 j) x -> x < ARGV_ADDR.
Proof.
  destruct read_file as [He Hp]. change (ram (machine n file_frame)) with file_ram. rewrite He. cbn [e_phnum file_ehdr]. intros Hj _. assert (j = 0) as -> by lia. rewrite Hp.
  unfold in_segment, ARGV_ADDR. cbn [p_vaddr p_memsz file_phdr]. lia.
Qed.

Lemma file_pages n : pages_from (Z.to_nat (e_phnum (read_ehdr (ram (machine n file_frame)) 0x5000))) 0 (ram (machine n file_frame)) 0x5000 = 1.
Proof.
  destruct read_file as [He Hp]. change (ram (machine n file_frame)) with file_ram. rewrite He. cbn [e_phnum file_ehdr]. change (Z.to_nat 1) with 1%nat. cbn [pages_from]. by rewrite Hp.
Qed.

(** "ls /" *)
Lemma exec_elf_starts_witness : exists s', exec_elf 0x5000 [] (Some [108; 115; 32; 47]) (machine 1100 file_frame) =
  Some (Some (mkEnter 3 ARGV_ADDR 0xffff800000000078 0xffffffffffffeff8), s') /\ vload s' 0xffff800000000001 = Some 0x45.
Proof.
  destruct read_file as [He Hp]. destruct (exec_elf_starts (machine 1100 file_frame) 0x5000 128 [] (Some [108; 115; 32; 47])) as (s' & E & _ & [_ Hseg _ _ _]).
  - apply machine_space; [lia|reflexivity].
  - apply file_executable. lia.
  - vm_compute. reflexivity.
  - apply file_below.
  - rewrite file_pages. cbn [avail machine]. rewrite pages_upto_len by lia. vm_compute. intros H. discriminate H.
  - apply machine_args.
  - exists s'. change (ram (machine 1100 file_frame)) with file_ram in *. rewrite He in *. split; [exact E|]. destruct (Hseg 0) as [Hf _]; [cbn; lia|unfold is_load; by rewrite Hp|].
    rewrite Hp in Hf. change 0xffff800000000001 with (p_vaddr file_phdr + 1). rewrite Hf by (cbn; lia). vm_compute. reflexivity.
Defined.

(** A segment of 128 bytes that starts 64 bytes before the end of a page. *)
Lemma crossing_segment_faults_witness : load_segment 0x5000 (mkPhdr 1 0 0xffff800000000fc0 128 128) (machine 8 file_frame) = fault.
Proof.
  apply crossing_segment_faults; cbn [p_vaddr p_filesz p_memsz p_offset].
  - apply machine_space; [lia|reflexivity].
  - split; vm_compute; [intros H; discriminate H|reflexivity].
  - lia.
  - lia.
  - lia.
  - apply machine_file. lia.
  - cbn [avail machine]. rewrite pages_upto_len by lia. vm_compute. intros H. discriminate H.
  - vm_compute. reflexivity.
  - intros x Hx _. apply empty_leaf; [apply machine_empty|by apply user_part].
Defined.

(** ** Executing *)

(** The kernel task has asked for the file, and the answer is there. *)
Definition file_reply : Message := mkMessage (msg FS_LOAD) process_ids.FS_FAT32 1 MSG_FLAG_REPLY 0 (mkOol 0x5000 128 0) (DInit 0).
Definition kernel_task : Task := boot_task (mkInfo process_ids.KERNEL "main" true).
Definition asking : Task := set_reply file_reply true (set_call 1 false kernel_task).
Definition asked (f : list Z) : Kern :=
  mkKern (put_task process_ids.KERNEL asking boot_state) (machine 1100 f) (replicate 100 0x1000) (fun _ => 0) (fun _ => zero_message) [0x5000] [].
Definition asking_pc : Z -> Pc := upd (fun _ => Run) process_ids.KERNEL (Poll InCall).

Lemma kernel_is_current : the_task process_ids.KERNEL boot_state = Some kernel_task.
Proof. reflexivity. Qed.

Lemma asking_ok : task_ok process_ids.KERNEL (Poll InCall) asking.
Proof.
  destruct (bs_tasks _ _ (iv_base _ _ inv_boot) _ _ kernel_is_current) as [H1 H2 H3 H4 H5 _ _ _ _]. split; cbn [id messages pending_notifications exit_records state call_correlation reply_pending reply_slot asking set_reply set_call]; try assumption.
  - intros H. discriminate H.
  - intros H. discriminate H.
  - split; [reflexivity|discriminate].
  - intros _. split_and!; [reflexivity|reflexivity|discriminate].
Qed.

Lemma asked_inv f : Inv (sys (asked f)) asking_pc.
Proof. apply (inv_current boot_state (fun _ => Run) kernel_task asking (Poll InCall)); [apply inv_boot|reflexivity|reflexivity|discriminate|apply asking_ok|left; reflexivity]. Qed.

Lemma asked_ledger f : ledger [] (asked f).
Proof.
  split; cbn [heap sys asked app].
  - apply Permutation_sym. rewrite <- (app_nil_r [0x5000]). rewrite <- boot_owners. apply (owners_put process_ids.KERNEL boot_state kernel_task asking [] [0x5000]); [reflexivity|]. vm_compute. reflexivity.
  - apply NoDup_singleton.
  - apply Forall_singleton. split; [lia|reflexivity].
  - apply msgs_put; [split; [done|reflexivity]|apply boot_msgs|]. apply Forall_singleton. intros _ _. reflexivity.
Qed.

Lemma asked_arrived f : length f = 512%nat -> file_arrived asking_pc (asked f) asking 0x5000.
Proof.
  intros Hf. split.
  - apply asked_inv.
  - reflexivity.
  - apply asked_ledger.
  - reflexivity.
  - split_and!; [reflexivity|reflexivity|discriminate].
  - split; [reflexivity|lia].
  - split; [done|reflexivity].
  - apply sp_tree, machine_space; [lia|done].
Qed.

Lemma exec_replaces_program_witness : exists k', exec_round [108; 115; 32; 47] (asked file_frame) =
  Some (Enters (mkEnter 3 ARGV_ADDR 0xffff800000000078 0xffffffffffffeff8), k') /\ ledger [] k' /\ heap k' ≡ₚ owners (sys k').
Proof.
  destruct read_file as [He Hp].
  destruct (exec_replaces_program asking_pc [108; 115; 32; 47] (asked file_frame) asking 0x5000 128) as (k' & E & _ & [[Hl _ _] _ _ _ _]); cbn [vm asked].
  - apply asked_arrived. reflexivity.
  - apply file_executable. lia.
  - vm_compute. reflexivity.
  - apply file_below.
  - rewrite file_pages. cbn [avail machine]. rewrite pages_upto_len by lia. vm_compute. intros H. discriminate H.
  - apply machine_args.
  - exists k'. cbn [vm asked] in E. change (ram (machine 1100 file_frame)) with file_ram in E. rewrite He in E. split; [exact E|]. split; [exact Hl|]. apply (lg_heap _ _ Hl).
Defined.

(** A file of zeros. *)
Lemma exec_not_elf_loses_program_witness : exists k', exec_round [] (asked zero_frame) = Some (ExecDone (err OK), k') /\ translate (vm k') 0xffff800000000000 = None.
Proof.
  destruct (exec_not_elf_loses_program asking_pc [] (asked zero_frame) asking 0x5000) as (k' & E & _ & H); cbn [vm asked].
  - apply asked_arrived. reflexivity.
  - intros i Hi. apply (machine_file 1100 zero_frame); lia.
  - vm_compute. reflexivity.
  - cbn [avail machine]. discriminate.
  - exists k'. split; [exact E|]. apply H. split; [done|reflexivity].
Defined.
