(* ===== verification/Virtio.v ===== *)
(** * Virtqueues

    [hardware/virtio/virtio.hpp] and [virtio.cpp]: the descriptor table, the
    driver ring and the device ring of a queue, and the three operations on it.
    The areas in memory that the code reaches through pointers are lists; an
    access beyond an area, or a division by a zero queue size, is a fault.  The
    device writes the device ring; its index is read once per operation. *)

From S2P Require Import Prelude Message.

Open Scope Z_scope.

(** ** Data *)

Definition VIRTQ_DESC_F_NEXT : Z := 1.
Definition VIRTQ_DESC_F_WRITE : Z := 2.
Definition VIRTQ_AVAIL_F_NO_INTERRUPT : Z := 1.

Record VirtqDesc := mkDesc {
  vd_addr : Z;
  vd_len : Z;
  vd_flags : Z;
  vd_next : Z;
}.

Record VirtqDriver := mkDriver {
  drv_flags : Z;
  drv_index : Z;
  drv_ring : list Z;
}.

Record VirtqDeviceElem := mkElem {
  elem_id : Z;
  elem_len : Z;
}.

Record VirtqDevice := mkDevice {
  dev_flags : Z;
  dev_index : Z;
  dev_ring : list VirtqDeviceElem;
}.

Record VirtioVirtqueue := mkQueue {
  q_index : Z;
  num_desc : Z;
  num_free_desc : Z;
  top_free_idx : Z;
  last_driver_idx : Z;
  last_device_idx : Z;
  notify_off : Z;
  q_desc : list VirtqDesc;
  q_driver : VirtqDriver;
  q_device : VirtqDevice;
}.

Record VirtioEntry := mkEntry {
  en_index : Z;
  en_addr : Z;
  en_len : Z;
  en_write : bool;
}.

#[export] Instance VirtqDesc_eq_dec : EqDecision VirtqDesc.
Proof. solve_decision. Defined.
#[export] Instance VirtioEntry_eq_dec : EqDecision VirtioEntry.
Proof. solve_decision. Defined.

Definition calc_desc_area_size (n : Z) : Z := u64 (n * 16).
Definition calc_driver_ring_size (n : Z) : Z := u64 (n * 2 + 6).
Definition calc_device_ring_size (n : Z) : Z := u64 (n * 8 + 6).

(** Field updates. *)
Definition set_free_desc (n top : Z) (q : VirtioVirtqueue) : VirtioVirtqueue :=
  mkQueue (q_index q) (num_desc q) n top (last_driver_idx q) (last_device_idx q) (notify_off q) (q_desc q) (q_driver q) (q_device q).
Definition set_last_device (i : Z) (q : VirtioVirtqueue) : VirtioVirtqueue :=
  mkQueue (q_index q) (num_desc q) (num_free_desc q) (top_free_idx q) (last_driver_idx q) i (notify_off q) (q_desc q) (q_driver q) (q_device q).
Definition put_desc (i : Z) (d : VirtqDesc) (q : VirtioVirtqueue) : VirtioVirtqueue :=
  mkQueue (q_index q) (num_desc q) (num_free_desc q) (top_free_idx q) (last_driver_idx q) (last_device_idx q) (notify_off q) (setz (q_desc q) i d) (q_driver q) (q_device q).
Definition set_driver (r : VirtqDriver) (q : VirtioVirtqueue) : VirtioVirtqueue :=
  mkQueue (q_index q) (num_desc q) (num_free_desc q) (top_free_idx q) (last_driver_idx q) (last_device_idx q) (notify_off q) (q_desc q) r (q_device q).
Definition set_device (r : VirtqDevice) (q : VirtioVirtqueue) : VirtioVirtqueue :=
  mkQueue (q_index q) (num_desc q) (num_free_desc q) (top_free_idx q) (last_driver_idx q) (last_device_idx q) (notify_off q) (q_desc q) (q_driver q) r.
Definition set_next (n : Z) (d : VirtqDesc) : VirtqDesc := mkDesc (vd_addr d) (vd_len d) (vd_flags d) n.

Definition has_flag (fl : Z) (d : VirtqDesc) : bool := negb (Z.land (vd_flags d) fl =? 0).

(** [ring[i % num_desc]] *)
Definition ring_at {A} (l : list A) (i : Z) (q : VirtioVirtqueue) : option A :=
  if num_desc q =? 0 then fault else atz l (i mod num_desc q).

(** The element the driver looks at next. *)
Definition used_elem (q : VirtioVirtqueue) : option VirtqDeviceElem := ring_at (dev_ring (q_device q)) (last_device_idx q) q.

(** ** Initialisation *)

(** [queue] keeps the fields the code does not assign; [ds], [drv] and [dev] are
    the areas at the three addresses. *)
Definition init_virtqueue (queue : VirtioVirtqueue) (index n : Z) (ds : list VirtqDesc) (drv : VirtqDriver) (dev : VirtqDevice) (off : Z)
  : option (Z * VirtioVirtqueue) :=
  let queue := mkQueue index n n (top_free_idx queue) (last_driver_idx queue) (last_device_idx queue) off ds drv dev in
  queue ← for_n (Z.to_nat n) 0 (fun i q =>
    _ ← atz (q_desc q) i;
    Some (put_desc i (mkDesc 0 0 0 (u16 ((i + 1) mod n))) q)) queue;
  Some (err OK, queue).

(** A [VirtioVirtqueue] and its areas in zeroed memory. *)
Definition zero_queue : VirtioVirtqueue := mkQueue 0 0 0 0 0 0 0 [] (mkDriver 0 0 []) (mkDevice 0 0 []).
Definition zero_descs (n : Z) : list VirtqDesc := replicate (Z.to_nat n) (mkDesc 0 0 0 0).
Definition zero_driver (n : Z) : VirtqDriver := mkDriver 0 0 (replicate (Z.to_nat n) 0).
Definition zero_device (n : Z) : VirtqDevice := mkDevice 0 0 (replicate (Z.to_nat n) (mkElem 0 0)).

(** ** Adding a chain *)

(** The length of the chain from [next_idx]; a chain visits a descriptor at most
    once, so [num_desc] rounds are enough unless it is a cycle. *)
Fixpoint chain_length (fuel : nat) (next_idx num_freed : Z) (ds : list VirtqDesc) : option Z :=
  match fuel with
  | O => fault
  | S fuel =>
      d ← atz ds next_idx;
      if has_flag VIRTQ_DESC_F_NEXT d then chain_length fuel (vd_next d) (num_freed + 1) ds
      else Some (num_freed + 1)
  end.

(** The elements the device has added since the driver last looked. *)
Definition used_count (q : VirtioVirtqueue) : nat := Z.to_nat (u16 (dev_index (q_device q) - last_device_idx q)).

(** [while (last_device_idx != device->index)] *)
Fixpoint reclaim (n : nat) (q : VirtioVirtqueue) : option VirtioVirtqueue :=
  if last_device_idx q =? dev_index (q_device q) then Some q
  else
    match n with
    | O => fault
    | S n =>
        elem ← used_elem q;
        num_freed ← chain_length (Z.to_nat (num_desc q)) (i32 (elem_id elem)) 0 (q_desc q);
        reclaim n (set_last_device (u16 (last_device_idx q + 1)) (set_free_desc (u64 (num_free_desc q + num_freed)) (elem_id elem) q))
    end.

(** The loop over the entries: the entries with their descriptors. *)
Fixpoint fill_chain (entries : list VirtioEntry) (desc_idx : Z) (q : VirtioVirtqueue) : option (list VirtioEntry * VirtioVirtqueue) :=
  match entries with
  | [] => Some ([], q)
  | e :: rest =>
      d ← atz (q_desc q) desc_idx;
      let w := if en_write e then VIRTQ_DESC_F_WRITE else 0 in
      let d' := match rest with
                | [] => mkDesc (en_addr e) (en_len e) (Z.lor 0 w) 0
                | _ :: _ => mkDesc (en_addr e) (en_len e) (Z.lor VIRTQ_DESC_F_NEXT w) (vd_next d)
                end in
      let top := match rest with [] => vd_next d | _ :: _ => top_free_idx q end in
      let q := set_free_desc (u64 (num_free_desc q - 1)) top (put_desc desc_idx d' q) in
      '(es, q) ← fill_chain rest (vd_next d') q;
      Some (mkEntry (u32 desc_idx) (en_addr e) (en_len e) (en_write e) :: es, q)
  end.

(** The head goes to the driver ring. *)
Definition publish (head : Z) (q : VirtioVirtqueue) : option VirtioVirtqueue :=
  let r := q_driver q in
  if num_desc q =? 0 then fault
  else
    let slot := drv_index r mod num_desc q in
    _ ← atz (drv_ring r) slot;
    Some (set_driver (mkDriver (drv_flags r) (u16 (drv_index r + 1)) (setz (drv_ring r) slot (u16 head))) q).

(** The result, the chain with the indices filled in, and the queue. *)
Definition push_virtio_entry (q : VirtioVirtqueue) (entry_chain : list VirtioEntry) : option (Z * list VirtioEntry * VirtioVirtqueue) :=
  q ← (if num_free_desc q <? lenz entry_chain then reclaim (used_count q) q else Some q);
  if num_free_desc q <? lenz entry_chain then Some (err ERR_NO_MEMORY, entry_chain, q)
  else
    let head := i32 (top_free_idx q) in
    '(es, q) ← fill_chain entry_chain head q;
    q ← publish head q;
    Some (head, es, q).

(** ** Taking a chain back *)

(** [while (num_pop < num_entries)]: the entries, and the last descriptor seen,
    if any. *)
Fixpoint collect (n : nat) (desc_idx : Z) (ds : list VirtqDesc) : option (list VirtioEntry * option Z) :=
  match n with
  | O => Some ([], None)
  | S n =>
      d ← atz ds desc_idx;
      let e := mkEntry (u32 desc_idx) (vd_addr d) (vd_len d) (has_flag VIRTQ_DESC_F_WRITE d) in
      if has_flag VIRTQ_DESC_F_NEXT d then
        '(es, l) ← collect n (vd_next d) ds;
        Some (e :: es, match l with Some _ => l | None => Some desc_idx end)
      else Some ([e], Some desc_idx)
  end.

(** The number of entries, the entries and the queue. *)
Definition pop_virtio_entry (q : VirtioVirtqueue) (num_entries : Z) : option (Z * list VirtioEntry * VirtioVirtqueue) :=
  if last_device_idx q =? dev_index (q_device q) then Some (0, [], q)
  else
    elem ← used_elem q;
    '(es, l) ← collect (Z.to_nat num_entries) (i32 (elem_id elem)) (q_desc q);
    match l with
    | None => Some (0, es, q)
    | Some last =>
        d ← atz (q_desc q) last;
        let q := put_desc last (set_next (u16 (top_free_idx q)) d) q in
        let q := set_free_desc (u64 (num_free_desc q + lenz es)) (elem_id elem) q in
        Some (lenz es, es, set_last_device (u16 (last_device_idx q + 1)) q)
    end.

(** ** The device's side

    What the virtio standard has a device do with a queue: follow a published
    chain, and add the head of a chain it is done with to the device ring. *)

Fixpoint chain_from (fuel : nat) (i : Z) (ds : list VirtqDesc) : option (list VirtqDesc) :=
  match fuel with
  | O => None
  | S fuel =>
      d ← atz ds i;
      if has_flag VIRTQ_DESC_F_NEXT d then rest ← chain_from fuel (vd_next d) ds; Some (d :: rest)
      else Some [d]
  end.

Definition device_done (head len : Z) (q : VirtioVirtqueue) : VirtioVirtqueue :=
  let r := q_device q in
  set_device (mkDevice (dev_flags r) (u16 (dev_index r + 1)) (setz (dev_ring r) (dev_index r mod num_desc q) (mkElem head len))) q.
