(* ===== verification/VirtioSpec.v ===== *)
(** * Queues of single buffers

    The network queues hold chains of one descriptor.  The invariant below says
    which descriptors are free, which the device holds and which it has handed
    back, and that no descriptor is in two places; the lemmas say how the driver
    and the device move a descriptor round. *)

From S2P Require Import Prelude Message Virtio.

Open Scope Z_scope.

(** ** Ring positions *)

(** The free list is linked through [next]. *)
Fixpoint linked (ds : list VirtqDesc) (top : Z) (free : list Z) : Prop :=
  match free with
  | [] => True
  | i :: rest => top = i /\ exists d, atz ds i = Some d /\ linked ds (vd_next d) rest
  end.

(** A queue size the virtio standard allows: it divides the range of an index. *)
Definition queue_size_ok (n : Z) : Prop := 0 < n <= 32768 /\ 65536 mod n = 0.

Lemma mod_wrap16 n x : queue_size_ok n -> u16 x mod n = x mod n.
Proof.
  intros [Hn Hd]. apply Z.mod_divide in Hd as [k Hk]; [|lia]. unfold wrap. change (2 ^ 16) with 65536. rewrite Hk.
  rewrite (Z.mul_comm k n). rewrite Z.rem_mul_r by nia. rewrite Z.mul_comm, Z.mod_add by lia. by rewrite Z.mod_mod by lia.
Qed.

(** Distinct offsets below the size are distinct positions. *)
Lemma ring_slot_inj n a i j : 0 < n -> 0 <= i < n -> 0 <= j < n -> (a + i) mod n = (a + j) mod n -> i = j.
Proof.
  intros Hn Hi Hj H. pose proof (Z.div_mod (a + i) n ltac:(lia)) as H1. pose proof (Z.div_mod (a + j) n ltac:(lia)) as H2.
  rewrite H in H1. set (x := (a + i) / n) in *. set (y := (a + j) / n) in *. assert (i - j = n * (x - y)) by lia. assert (x = y) by nia. nia.
Qed.

(** The device ring holds [used] from the driver's position on. *)
Definition ring_holds (q : VirtioVirtqueue) (used : list Z) : Prop :=
  forall j i, used !! j = Some i ->
  exists e, atz (dev_ring (q_device q)) ((last_device_idx q + Z.of_nat j) mod num_desc q) = Some e /\ elem_id e = i.

(** ** The invariant *)

Record vq (q : VirtioVirtqueue) (free used flight : list Z) : Prop := mkVq {
  vq_size : queue_size_ok (num_desc q);
  vq_descs : lenz (q_desc q) = num_desc q;
  vq_avail : lenz (drv_ring (q_driver q)) = num_desc q;
  vq_ring : lenz (dev_ring (q_device q)) = num_desc q;
  vq_all : free ++ used ++ flight ≡ₚ seqZ 0 (num_desc q);
  vq_count : num_free_desc q = lenz free;
  vq_links : linked (q_desc q) (top_free_idx q) free;
  vq_single : forall i, i ∈ used ++ flight -> exists d, atz (q_desc q) i = Some d /\ has_flag VIRTQ_DESC_F_NEXT d = false;
  vq_last : 0 <= last_device_idx q < 65536;
  vq_index : dev_index (q_device q) = u16 (last_device_idx q + lenz used);
  vq_used : ring_holds q used;
}.

Section facts.
Context (q : VirtioVirtqueue) (free used flight : list Z).
Hypothesis (H : vq q free used flight).

Lemma vq_NoDup : NoDup (free ++ used ++ flight).
Proof. rewrite (vq_all _ _ _ _ H). apply NoDup_seqZ. Qed.

Lemma vq_range i : i ∈ free ++ used ++ flight -> 0 <= i < num_desc q.
Proof. rewrite (vq_all _ _ _ _ H), elem_of_seqZ. lia. Qed.

Lemma vq_lengths : lenz free + lenz used + lenz flight = num_desc q.
Proof.
  pose proof (lenz_Permutation _ _ (vq_all _ _ _ _ H)) as Hl. rewrite !lenz_app in Hl. unfold lenz in *. rewrite length_seqZ in Hl.
  destruct (vq_size _ _ _ _ H). lia.
Qed.

Lemma vq_pos : 0 < num_desc q <= 32768.
Proof. by destruct (vq_size _ _ _ _ H). Qed.

Lemma vq_used_lt : 0 <= lenz used <= num_desc q.
Proof. pose proof vq_lengths. pose proof (lenz_nonneg free). pose proof (lenz_nonneg used). pose proof (lenz_nonneg flight). lia. Qed.

(** [last_device_idx == device->index] exactly when the device has nothing new. *)
Lemma vq_nothing_new : (last_device_idx q =? dev_index (q_device q)) = match used with [] => true | _ => false end.
Proof.
  rewrite (vq_index _ _ _ _ H). pose proof (vq_last _ _ _ _ H) as Hl. pose proof vq_used_lt as Hu. pose proof vq_pos as Hp.
  destruct used as [|i u].
  - unfold lenz. simpl. rewrite Z.add_0_r, wrap_small by lia. apply Z.eqb_refl.
  - rewrite lenz_cons in *. pose proof (lenz_nonneg u). apply Z.eqb_neq. unfold wrap. change (2 ^ 16) with 65536. intros E.
    pose proof (Z.div_mod (last_device_idx q + (lenz u + 1)) 65536 ltac:(lia)). nia.
Qed.
End facts.

Lemma linked_insert ds i d free : 0 <= i -> i ∉ free -> forall top, linked ds top free -> linked (setz ds i d) top free.
Proof.
  intros Hi. induction free as [|j free IH]; [done|]. intros [Hne Hn]%not_elem_of_cons top [-> (d0 & Hd & Hl)].
  split; [done|]. exists d0. split; [by rewrite atz_setz_ne|]. by apply IH.
Qed.

Lemma i32_small x : 0 <= x < 2 ^ 31 -> i32 x = x.
Proof. intros H. unfold signed. rewrite wrap_small by lia. change (2 ^ (32 - 1)) with (2 ^ 31). destruct (Z.ltb_spec x (2 ^ 31)); lia. Qed.

Lemma flag_next_single w : has_flag VIRTQ_DESC_F_NEXT (mkDesc 0 0 (Z.lor 0 (if (w : bool) then VIRTQ_DESC_F_WRITE else 0)) 0) = false.
Proof. by destruct w. Qed.

Lemma flag_write a l w n : has_flag VIRTQ_DESC_F_WRITE (mkDesc a l (Z.lor 0 (if (w : bool) then VIRTQ_DESC_F_WRITE else 0)) n) = w.
Proof. by destruct w. Qed.

(** ** The operations *)

(** The descriptor of a single buffer. *)
Definition single_desc (e : VirtioEntry) : VirtqDesc :=
  mkDesc (en_addr e) (en_len e) (Z.lor 0 (if en_write e then VIRTQ_DESC_F_WRITE else 0)) 0.

Lemma single_desc_next e : has_flag VIRTQ_DESC_F_NEXT (single_desc e) = false.
Proof. unfold single_desc, has_flag. by destruct (en_write e). Qed.

(** What the device sees of a push. *)
Definition published (q q' : VirtioVirtqueue) (head : Z) : Prop :=
  drv_flags (q_driver q') = drv_flags (q_driver q) /\ drv_index (q_driver q') = u16 (drv_index (q_driver q) + 1) /\
  atz (drv_ring (q_driver q')) (drv_index (q_driver q) mod num_desc q) = Some head.

(** The queue after the push of [e] into descriptor [i] whose [next] was [n]. *)
Definition pushed (q : VirtioVirtqueue) (i n : Z) (e : VirtioEntry) : VirtioVirtqueue :=
  let r := q_driver q in
  set_driver (mkDriver (drv_flags r) (u16 (drv_index r + 1)) (setz (drv_ring r) (drv_index r mod num_desc q) (u16 i)))
    (set_free_desc (u64 (num_free_desc q - 1)) n (put_desc i (single_desc e) q)).

(** A push with a free descriptor. *)
Lemma push_single q i d e : 0 < num_desc q <= 32768 -> lenz (q_desc q) = num_desc q -> lenz (drv_ring (q_driver q)) = num_desc q ->
  0 < num_free_desc q -> top_free_idx q = i -> atz (q_desc q) i = Some d ->
  push_virtio_entry q [e] = Some (i, [mkEntry i (en_addr e) (en_len e) (en_write e)], pushed q i (vd_next d) e) /\ published q (pushed q i (vd_next d) e) i.
Proof.
  intros Hp Hds Hdr Hfree Htop Hd. pose proof (atz_Some_lt _ _ _ Hd) as Hi. destruct (atz_lt (drv_ring (q_driver q)) (drv_index (q_driver q) mod num_desc q)) as [x Hx].
  { rewrite Hdr. apply Z.mod_pos_bound. lia. }
  split.
  - unfold push_virtio_entry. change (lenz [e]) with 1. assert ((num_free_desc q <? 1) = false) as E by (apply Z.ltb_ge; lia). rewrite E. cbn [mbind option_bind].
    rewrite E, Htop, i32_small by lia. cbn [fill_chain]. rewrite Hd. cbn [mbind option_bind]. unfold publish. cbn [q_driver num_desc set_free_desc put_desc].
    destruct (Z.eqb_spec (num_desc q) 0); [lia|]. rewrite Hx. cbn [mbind option_bind]. by rewrite (wrap_small 32) by lia.
  - split; [done|]. split; [done|]. unfold pushed. cbn [q_driver drv_ring set_driver]. rewrite atz_setz_eq, wrap_small; [done|lia|]. by apply (atz_Some_lt _ _ x).
Qed.

Lemma vq_push q i free used flight e : vq q (i :: free) used flight ->
  exists q', push_virtio_entry q [e] = Some (i, [mkEntry i (en_addr e) (en_len e) (en_write e)], q') /\
    vq q' free used (flight ++ [i]) /\ published q q' i /\ q_desc q' = setz (q_desc q) i (single_desc e) /\
    q_device q' = q_device q /\ q_index q' = q_index q /\ notify_off q' = notify_off q.
Proof.
  intros H. pose proof (vq_pos _ _ _ _ H) as Hp. pose proof (vq_range _ _ _ _ H i ltac:(by left)) as Hi. pose proof (vq_lengths _ _ _ _ H) as Hlen.
  pose proof (vq_NoDup _ _ _ _ H) as Hnd. apply NoDup_cons in Hnd as [Hfresh Hnd].
  destruct (vq_links _ _ _ _ H) as (Htop & d & Hd & Hl). pose proof (vq_count _ _ _ _ H) as Hc. rewrite lenz_cons in *.
  pose proof (lenz_nonneg free). pose proof (lenz_nonneg used). pose proof (lenz_nonneg flight).
  destruct (push_single q i d e) as [E Hpub]; [done|apply H|apply H|lia|done|done|]. exists (pushed q i (vd_next d) e). split; [done|]. split; [|done].
  unfold pushed. split; cbn [num_desc q_desc q_driver q_device drv_ring num_free_desc top_free_idx last_device_idx set_driver set_free_desc put_desc];
    rewrite ?lenz_setz; try apply H.
  - rewrite <- (vq_all _ _ _ _ H), (app_assoc used), (app_assoc free). by rewrite <- Permutation_cons_append.
  - rewrite Hc, wrap_small; lia.
  - apply linked_insert; [lia| |done]. set_solver.
  - intros j Hj. destruct (decide (j = i)) as [->|Hne].
    + exists (single_desc e). split; [apply atz_setz_eq; rewrite (vq_descs _ _ _ _ H); lia|apply single_desc_next].
    + rewrite atz_setz_ne by lia. apply (vq_single _ _ _ _ H). set_solver.
Qed.

(** The device hands back any of the buffers it holds, in any order. *)
Lemma vq_device_done q free used a i b len : vq q free used (a ++ i :: b) ->
  vq (device_done i len q) free (used ++ [i]) (a ++ b).
Proof.
  intros H. pose proof (vq_pos _ _ _ _ H) as Hp. pose proof (vq_lengths _ _ _ _ H) as Hlen. rewrite lenz_app, lenz_cons in Hlen.
  pose proof (lenz_nonneg free). pose proof (lenz_nonneg used). pose proof (lenz_nonneg a). pose proof (lenz_nonneg b).
  assert (dev_index (q_device q) mod num_desc q = (last_device_idx q + lenz used) mod num_desc q) as Hslot.
  { rewrite (vq_index _ _ _ _ H). apply mod_wrap16, H. }
  split; cbn [num_desc q_desc q_driver q_device drv_ring dev_ring dev_index num_free_desc top_free_idx last_device_idx set_device device_done]; try apply H.
  - rewrite lenz_setz. apply H.
  - rewrite <- (vq_all _ _ _ _ H). rewrite <- app_assoc. simpl. by rewrite (Permutation_middle a b i).
  - intros j Hj. apply (vq_single _ _ _ _ H). set_solver.
  - rewrite (vq_index _ _ _ _ H), lenz_app. unfold wrap. rewrite Zplus_mod_idemp_l. f_equal. unfold lenz. simpl. lia.
  - intros j x Hj. cbn [q_device dev_ring last_device_idx num_desc set_device device_done]. rewrite Hslot. apply lookup_app_Some in Hj as [Hj|[Hle Hj]].
    + destruct (vq_used _ _ _ _ H j x Hj) as (e & He & Hid). exists e. split; [|done]. rewrite atz_setz_ne; [done|apply Z.mod_pos_bound; lia|].
      apply lookup_lt_Some in Hj. intros Heq. apply ring_slot_inj in Heq; unfold lenz in *; lia.
    + apply list_lookup_singleton_Some in Hj as [Hz <-]. exists (mkElem i len). split; [|done].
      replace (Z.of_nat j) with (lenz used) by (unfold lenz; lia). apply atz_setz_eq. rewrite (vq_ring _ _ _ _ H). apply Z.mod_pos_bound. lia.
Qed.

Lemma vq_pop_empty q free flight n : vq q free [] flight -> pop_virtio_entry q n = Some (0, [], q).
Proof. intros H. unfold pop_virtio_entry. by rewrite (vq_nothing_new _ _ _ _ H). Qed.

(** The head of the device's list comes back with what was pushed. *)
Lemma vq_pop q free i used flight : vq q free (i :: used) flight ->
  exists q' d, atz (q_desc q) i = Some d /\
    pop_virtio_entry q 1 = Some (1, [mkEntry i (vd_addr d) (vd_len d) (has_flag VIRTQ_DESC_F_WRITE d)], q') /\
    vq q' (i :: free) used flight /\ q_desc q' = setz (q_desc q) i (set_next (u16 (top_free_idx q)) d) /\
    q_driver q' = q_driver q /\ q_device q' = q_device q /\ q_index q' = q_index q /\ notify_off q' = notify_off q.
Proof.
  intros H. pose proof (vq_pos _ _ _ _ H) as Hp. pose proof (vq_range _ _ _ _ H i ltac:(set_solver)) as Hi. pose proof (vq_lengths _ _ _ _ H) as Hlen.
  rewrite lenz_cons in Hlen. pose proof (lenz_nonneg free). pose proof (lenz_nonneg used). pose proof (lenz_nonneg flight).
  pose proof (vq_NoDup _ _ _ _ H) as Hnd. simpl in Hnd. rewrite <- Permutation_middle in Hnd. apply NoDup_cons in Hnd as [Hfresh Hnd].
  destruct (vq_single _ _ _ _ H i ltac:(by left)) as (d & Hd & Hflag).
  destruct (vq_used _ _ _ _ H 0%nat i eq_refl) as (el & He & Hid). rewrite Z.add_0_r in He.
  unfold pop_virtio_entry. rewrite (vq_nothing_new _ _ _ _ H). unfold used_elem, ring_at. destruct (Z.eqb_spec (num_desc q) 0); [lia|].
  rewrite He. cbn [mbind option_bind]. rewrite Hid, i32_small by lia. change (Z.to_nat 1) with 1%nat. cbn [collect]. rewrite Hd. cbn [mbind option_bind].
  rewrite Hflag. cbn [mbind option_bind]. rewrite Hd. cbn [mbind option_bind]. rewrite (wrap_small 32) by lia. eexists _, d. split; [done|]. split; [done|]. split; [|done].
  split; cbn [num_desc q_desc q_driver q_device drv_ring dev_ring num_free_desc top_free_idx last_device_idx set_last_device set_free_desc put_desc]; try apply H.
  - rewrite lenz_setz. apply H.
  - rewrite <- (vq_all _ _ _ _ H). simpl. by rewrite Permutation_middle.
  - rewrite (vq_count _ _ _ _ H), wrap_small; rewrite lenz_cons; unfold lenz in *; simpl; lia.
  - split; [done|]. eexists. split; [apply atz_setz_eq; rewrite (vq_descs _ _ _ _ H); lia|]. cbn [vd_next set_next]. apply linked_insert; [lia|set_solver|].
    pose proof (vq_links _ _ _ _ H) as Hl. destruct free as [|j free]; [done|]. destruct Hl as [Htop Hl]. split; [|done].
    pose proof (vq_range _ _ _ _ H j ltac:(by left)). rewrite Htop, wrap_small; lia.
  - intros j Hj. rewrite atz_setz_ne; [|lia|set_solver]. apply (vq_single _ _ _ _ H). set_solver.
  - apply wrap_range. lia.
  - rewrite (vq_index _ _ _ _ H), lenz_cons. unfold wrap. rewrite Zplus_mod_idemp_l. f_equal. lia.
  - intros j x Hj. cbn [last_device_idx set_last_device num_desc q_device set_free_desc put_desc]. destruct (vq_used _ _ _ _ H (S j) x Hj) as (e & Hr & Hx).
    exists e. split; [|done]. rewrite <- Hr. f_equal. rewrite <- Zplus_mod_idemp_l, mod_wrap16 by apply H. rewrite Zplus_mod_idemp_l. f_equal. lia.
Qed.

(** ** A fresh queue *)

Lemma linked_seq ds n : forall m k, n = k + Z.of_nat m -> 0 <= k -> n <= 65536 ->
  (forall i, 0 <= i < n -> exists d, atz ds i = Some d /\ vd_next d = u16 ((i + 1) mod n)) -> linked ds k (seqZ k (Z.of_nat m)).
Proof.
  induction m as [|m IH]; intros k Hn Hk Hle Hds; [done|]. rewrite seqZ_cons by lia. split; [done|].
  destruct (Hds k) as (d & Hd & Hnext); [lia|]. exists d. split; [done|]. replace (Z.pred (Z.of_nat (S m))) with (Z.of_nat m) by lia.
  destruct m as [|m]; [done|]. rewrite Hnext, Z.mod_small, wrap_small by lia. replace (Z.succ k) with (k + 1) by lia. apply IH; [lia..|done].
Qed.

Definition fresh_queue (index n off : Z) (q : VirtioVirtqueue) : Prop :=
  init_virtqueue zero_queue index n (zero_descs n) (zero_driver n) (zero_device n) off = Some (err OK, q).

Lemma init_virtqueue_total index n off : 0 < n -> exists q, fresh_queue index n off q /\ lenz (q_desc q) = n /\
  (forall i, 0 <= i < n -> atz (q_desc q) i = Some (mkDesc 0 0 0 (u16 ((i + 1) mod n)))) /\
  q = mkQueue index n n 0 0 0 off (q_desc q) (zero_driver n) (zero_device n).
Proof.
  intros Hn. unfold fresh_queue, init_virtqueue. cbn [top_free_idx last_driver_idx last_device_idx zero_queue].
  set (q0 := mkQueue index n n 0 0 0 off (zero_descs n) (zero_driver n) (zero_device n)).
  destruct (for_n_inv (fun k q => lenz (q_desc q) = n /\ (forall i, 0 <= i < k -> atz (q_desc q) i = Some (mkDesc 0 0 0 (u16 ((i + 1) mod n)))) /\
    q = mkQueue index n n 0 0 0 off (q_desc q) (zero_driver n) (zero_device n)) (Z.to_nat n) 0
    (fun i q => _ ← atz (q_desc q) i; Some (put_desc i (mkDesc 0 0 0 (u16 ((i + 1) mod n))) q)) q0) as (q & E & Hq).
  - split_and!; [|intros; lia|done]. unfold q0, zero_descs, lenz. cbn [q_desc]. rewrite length_replicate. lia.
  - intros i q Hi (Hlen & Hds & Hq). destruct (atz_lt (q_desc q) i) as [d Hd]; [lia|]. rewrite Hd. eexists. split; [done|].
    cbn [q_desc put_desc]. split_and!; [by rewrite lenz_setz| |by rewrite Hq]. intros j Hj. destruct (decide (j = i)) as [->|Hne].
    + by apply atz_setz_eq; lia.
    + rewrite atz_setz_ne by lia. apply Hds. lia.
  - exists q. rewrite E. replace (0 + Z.of_nat (Z.to_nat n)) with n in Hq by lia. by destruct Hq as (? & ? & ?).
Qed.

Lemma vq_fresh index n off q : queue_size_ok n -> fresh_queue index n off q -> vq q (seqZ 0 n) [] [].
Proof.
  intros Hn Hq. pose proof Hn as [Hp _]. destruct (init_virtqueue_total index n off) as (q' & Hq' & Hlen & Hds & Heq); [lia|].
  unfold fresh_queue in *. rewrite Hq in Hq'. assert (q' = q) as -> by congruence. rewrite Heq.
  assert (forall A (x : A), lenz (replicate (Z.to_nat n) x) = n) as Hrep by (intros; unfold lenz; rewrite length_replicate; lia).
  split; cbn [num_desc q_desc q_driver q_device drv_ring dev_ring dev_index num_free_desc top_free_idx last_device_idx zero_driver zero_device]; try done; try apply Hrep.
  - by rewrite app_nil_r.
  - unfold lenz. rewrite length_seqZ. lia.
  - rewrite <- (Z2Nat.id n) at 1 by lia. apply (linked_seq _ n); [lia..|]. intros i Hi. rewrite Hds by done. eauto.
  - intros i Hi. by apply not_elem_of_nil in Hi.
Qed.

(** ** Reclaiming *)

Lemma chain_length_single ds i d n : (0 < n)%nat -> atz ds i = Some d -> has_flag VIRTQ_DESC_F_NEXT d = false -> chain_length n i 0 ds = Some 1.
Proof. intros Hn Hd Hf. destruct n as [|n]; [lia|]. cbn [chain_length]. rewrite Hd. cbn [mbind option_bind]. by rewrite Hf. Qed.

(** The reclaiming loop takes every element off the device ring, and leaves the
    last one on top of the free list. *)
Lemma reclaim_single used : forall q, queue_size_ok (num_desc q) -> lenz used <= num_desc q -> lenz (q_desc q) = num_desc q ->
  (forall i, i ∈ used -> exists d, atz (q_desc q) i = Some d /\ has_flag VIRTQ_DESC_F_NEXT d = false) ->
  0 <= last_device_idx q < 65536 -> dev_index (q_device q) = u16 (last_device_idx q + lenz used) -> ring_holds q used ->
  0 <= num_free_desc q -> num_free_desc q + lenz used < 2 ^ 64 ->
  reclaim (length used) q = Some (set_last_device (dev_index (q_device q)) (set_free_desc (num_free_desc q + lenz used) (default (top_free_idx q) (last used)) q)).
Proof.
  induction used as [|i used IH]; intros q Hn Hle Hds Hsingle Hl Hidx Hring Hf0 Hf; pose proof Hn as [Hp _].
  - cbn [reclaim length last default]. change (lenz (@nil Z)) with 0 in *. rewrite Hidx, Z.add_0_r, wrap_small, Z.eqb_refl, Z.add_0_r by lia. by destruct q.
  - rewrite lenz_cons in *. pose proof (lenz_nonneg used). cbn [length reclaim].
    destruct (Z.eqb_spec (last_device_idx q) (dev_index (q_device q))) as [E|_].
    { exfalso. rewrite Hidx in E. unfold wrap in E. change (2 ^ 16) with 65536 in E. pose proof (Z.div_mod (last_device_idx q + (lenz used + 1)) 65536 ltac:(lia)). nia. }
    destruct (Hring 0%nat i eq_refl) as (el & He & Hid). rewrite Z.add_0_r in He. unfold used_elem, ring_at. destruct (Z.eqb_spec (num_desc q) 0); [lia|].
    rewrite He. cbn [mbind option_bind]. destruct (Hsingle i) as (d & Hd & Hflag); [by left|]. pose proof (atz_Some_lt _ _ _ Hd) as Hi.
    rewrite Hid, i32_small by lia. rewrite (chain_length_single _ _ d) by (done || lia). cbn [mbind option_bind]. rewrite (wrap_small 64) by lia.
    rewrite IH; cbn [num_desc q_desc q_device last_device_idx num_free_desc top_free_idx set_last_device set_free_desc]; [|done|lia|done| |apply wrap_range; lia| | |lia|lia].
    + f_equal. unfold set_last_device, set_free_desc. f_equal; [cbn; lia|]. destruct used as [|j used]; [done|].
      change (last (i :: j :: used)) with (last (j :: used)). destruct (last (j :: used)) eqn:E; [done|]. by apply last_None in E.
    + intros j Hj. apply Hsingle. by right.
    + rewrite Hidx. unfold wrap. rewrite Zplus_mod_idemp_l. f_equal. lia.
    + intros j x Hj. cbn [last_device_idx set_last_device num_desc q_device set_free_desc]. destruct (Hring (S j) x Hj) as (e & Hr & Hx). exists e. split; [|done].
      rewrite <- Hr. f_equal. rewrite <- Zplus_mod_idemp_l, mod_wrap16 by done. rewrite Zplus_mod_idemp_l. f_equal. lia.
Qed.

Lemma used_count_vq q free used flight : vq q free used flight -> used_count q = length used.
Proof.
  intros H. unfold used_count. rewrite (vq_index _ _ _ _ H). pose proof (vq_last _ _ _ _ H). pose proof (vq_used_lt _ _ _ _ H). pose proof (vq_pos _ _ _ _ H).
  unfold wrap. change (2 ^ 16) with 65536. rewrite Zminus_mod_idemp_l. replace (last_device_idx q + lenz used - last_device_idx q) with (lenz used) by lia.
  rewrite Z.mod_small by lia. unfold lenz. lia.
Qed.

(** * What a virtqueue promises

    A queue of single buffers is an exchange of buffers between driver and
    device; the reclaiming path of [push_virtio_entry] breaks that. *)

(** ** The exchange *)

(** A buffer: its address, its length and whether the device may write it. *)
Definition Buffer : Set := Z * Z * bool.
Definition buffer_of (e : VirtioEntry) : Buffer := (en_addr e, en_len e, en_write e).
Definition desc_buffer (d : VirtqDesc) : Buffer := (vd_addr d, vd_len d, has_flag VIRTQ_DESC_F_WRITE d).

(** How many buffers fit, the buffers the device works on, and those it is done
    with, oldest first. *)
Record Exchange := mkExchange {
  room : Z;
  held : list Buffer;
  done_with : list Buffer;
}.

Definition carries (q : VirtioVirtqueue) (i : Z) (b : Buffer) : Prop := exists d, atz (q_desc q) i = Some d /\ desc_buffer d = b.

(** The queue is the exchange; [flight] are the descriptors of [held]. *)
Definition is_exchange (q : VirtioVirtqueue) (flight : list Z) (x : Exchange) : Prop :=
  exists free used, vq q free used flight /\ room x = lenz free /\ Forall2 (carries q) flight (held x) /\ Forall2 (carries q) used (done_with x).

Lemma carries_set q q' i d l bs : q_desc q' = setz (q_desc q) i d -> 0 <= i -> i ∉ l -> Forall2 (carries q) l bs -> Forall2 (carries q') l bs.
Proof.
  intros Hq Hi Hn H. induction H as [|j b l bs Hb H IH]; [done|]. apply not_elem_of_cons in Hn as [Hne Hn]. constructor; [|by apply IH].
  destruct Hb as (d' & Hd & Hb). exists d'. by rewrite Hq, atz_setz_ne.
Qed.

Lemma desc_single e : desc_buffer (single_desc e) = buffer_of e.
Proof. unfold desc_buffer, single_desc, buffer_of. cbn [vd_addr vd_len]. by rewrite flag_write. Qed.

Lemma desc_set_next n d : desc_buffer (set_next n d) = desc_buffer d.
Proof. done. Qed.

Lemma exchange_fresh index n off q : queue_size_ok n -> fresh_queue index n off q -> is_exchange q [] (mkExchange n [] []).
Proof.
  intros Hn Hq. exists (seqZ 0 n), []. split_and!; [by eapply vq_fresh| |done|done]. unfold lenz. rewrite length_seqZ. destruct Hn. simpl. lia.
Qed.

Lemma exchange_push q flight r h d e : is_exchange q flight (mkExchange r h d) -> 0 < r ->
  exists i q', push_virtio_entry q [e] = Some (i, [mkEntry i (en_addr e) (en_len e) (en_write e)], q') /\ published q q' i /\ (i ∉ flight) /\
    is_exchange q' (flight ++ [i]) (mkExchange (r - 1) (h ++ [buffer_of e]) d) /\ q_index q' = q_index q.
Proof.
  intros (free & used & H & Hr & Hh & Hd) Hpos. cbn [room held done_with] in *.
  destruct free as [|i free]; [unfold lenz in Hr; simpl in Hr; lia|]. destruct (vq_push _ _ _ _ _ e H) as (q' & E & H' & Hp & Hds & _ & Hix & _).
  pose proof (vq_range _ _ _ _ H i ltac:(by left)) as Hi. pose proof (vq_NoDup _ _ _ _ H) as Hnd. apply NoDup_cons in Hnd as [Hf _].
  exists i, q'. split_and!; [done|done|set_solver| |done]. exists free, used. cbn [room held done_with]. split_and!; [done|rewrite lenz_cons in Hr; lia| |].
  - apply Forall2_app; [eapply carries_set; [done|lia|set_solver|done]|]. constructor; [|done]. exists (single_desc e). rewrite Hds, desc_single.
    split; [|done]. apply atz_setz_eq. rewrite (vq_descs _ _ _ _ H). lia.
  - eapply carries_set; [done|lia|set_solver|done].
Qed.

(** A push into a full queue of which the device has returned nothing is refused. *)
Lemma exchange_full q flight h e : is_exchange q flight (mkExchange 0 h []) -> push_virtio_entry q [e] = Some (err ERR_NO_MEMORY, [e], q).
Proof.
  intros (free & used & H & Hr & _ & Hd). cbn [room done_with] in *. apply Forall2_nil_inv_r in Hd as ->. destruct free as [|i free]; [|rewrite lenz_cons in Hr; pose proof (lenz_nonneg free); lia].
  unfold push_virtio_entry. change (lenz [e]) with 1. rewrite (vq_count _ _ _ _ H), <- Hr. change (0 <? 1) with true. rewrite (used_count_vq _ _ _ _ H). cbn [length reclaim].
  rewrite (vq_nothing_new _ _ _ _ H). cbn [mbind option_bind]. by rewrite (vq_count _ _ _ _ H), <- Hr.
Qed.

(** One returned buffer is taken off the device ring by the push itself. *)
Lemma vq_reclaim_one q u flight : vq q [] [u] flight ->
  exists q1, reclaim (used_count q) q = Some q1 /\ vq q1 [u] [] flight /\ q_desc q1 = q_desc q /\ q_driver q1 = q_driver q /\ num_desc q1 = num_desc q.
Proof.
  intros H. pose proof (vq_pos _ _ _ _ H) as Hp. pose proof (vq_used_lt _ _ _ _ H) as Hu. pose proof (vq_count _ _ _ _ H) as Hc. change (lenz (@nil Z)) with 0 in Hc. change (lenz [u]) with 1 in Hu.
  pose proof (vq_all _ _ _ _ H) as Hall. destruct (vq_single _ _ _ _ H u ltac:(by left)) as (d & Hd & _). rewrite (used_count_vq _ _ _ _ H), reclaim_single; [|apply H|change (lenz [u]) with 1; lia|apply H| |apply H|apply H|apply H|lia|rewrite Hc; change (lenz [u]) with 1; lia].
  2:{ intros i Hi. apply (vq_single _ _ _ _ H). set_solver. }
  eexists. split; [done|]. split; [|done]. change (lenz [u]) with 1. cbn [last default]. split; cbn [num_desc q_desc q_driver q_device num_free_desc top_free_idx last_device_idx set_last_device set_free_desc]; try apply H.
  - rewrite Hc. done.
  - split; [done|]. by exists d.
  - intros i Hi. apply (vq_single _ _ _ _ H). by right.
  - rewrite (vq_index _ _ _ _ H). apply wrap_range. lia.
  - change (lenz []) with 0. rewrite Z.add_0_r, (vq_index _ _ _ _ H). unfold wrap. by rewrite Z.mod_mod by lia.
  - by intros j i Hj.
Qed.

Lemma exchange_full_one q flight h b e : is_exchange q flight (mkExchange 0 h [b]) ->
  exists i q', push_virtio_entry q [e] = Some (i, [mkEntry i (en_addr e) (en_len e) (en_write e)], q') /\ published q q' i /\ (i ∉ flight) /\
    is_exchange q' (flight ++ [i]) (mkExchange 0 (h ++ [buffer_of e]) []).
Proof.
  intros (free & used & H & Hr & Hh & Hd). cbn [room held done_with] in *. destruct free as [|i free]; [|rewrite lenz_cons in Hr; pose proof (lenz_nonneg free); lia].
  inversion Hd as [|u ? us ? _ Hn]; subst. inversion Hn; subst. destruct (vq_reclaim_one q u flight H) as (q1 & Hrec & H1 & Eds & Edr & Enum).
  assert (push_virtio_entry q [e] = push_virtio_entry q1 [e]) as ->.
  { unfold push_virtio_entry. change (lenz [e]) with 1. rewrite (vq_count _ _ _ _ H). change (lenz [] <? 1) with true. rewrite Hrec. cbn [mbind option_bind]. rewrite (vq_count _ _ _ _ H1). change (lenz [u] <? 1) with false. cbn [mbind option_bind]. by rewrite (vq_count _ _ _ _ H1). }
  destruct (exchange_push q1 flight 1 h [] e) as (i & q' & E & (P1 & P2 & P3) & Hni & Hx & _); [|lia|].
  - exists [u], []. cbn [room held done_with]. split_and!; [done|done| |done]. eapply Forall2_impl; [exact Hh|]. intros j x (d & Hj & Hb). exists d. by rewrite Eds.
  - exists i, q'. split_and!; [done| |done|done]. unfold published. by rewrite <- Edr, <- Enum.
Qed.

(** C23: (virtqueue) A queue of single buffers is an exchange: a fresh queue has room for all its
    descriptors; a push with room gives the buffer to the device in a descriptor that
    the device does not hold, and publishes it; a push without room is refused when the
    device has returned nothing, and takes the place of the returned buffer when it has
    returned one; the device may return what it holds in any order; a pop returns the
    buffer returned first, as it was pushed, and makes room again.  No step faults.
    (A push without room when two or more buffers are returned leaves the exchange:
    [reclaim_reuses_descriptor].) *)
Theorem virtqueue_is_exchange :
  (forall index n off q, queue_size_ok n -> fresh_queue index n off q -> is_exchange q [] (mkExchange n [] [])) /\
  (forall q flight r h d e, is_exchange q flight (mkExchange r h d) -> 0 < r ->
    exists i q', push_virtio_entry q [e] = Some (i, [mkEntry i (en_addr e) (en_len e) (en_write e)], q') /\ published q q' i /\ (i ∉ flight) /\
      is_exchange q' (flight ++ [i]) (mkExchange (r - 1) (h ++ [buffer_of e]) d)) /\
  (forall q flight h e, is_exchange q flight (mkExchange 0 h []) -> push_virtio_entry q [e] = Some (err ERR_NO_MEMORY, [e], q)) /\
  (forall q flight h b e, is_exchange q flight (mkExchange 0 h [b]) ->
    exists i q', push_virtio_entry q [e] = Some (i, [mkEntry i (en_addr e) (en_len e) (en_write e)], q') /\ published q q' i /\ (i ∉ flight) /\
      is_exchange q' (flight ++ [i]) (mkExchange 0 (h ++ [buffer_of e]) [])) /\
  (forall q flight r h d k i len, is_exchange q flight (mkExchange r h d) -> flight !! k = Some i ->
    exists b, h !! k = Some b /\ is_exchange (device_done i len q) (delete k flight) (mkExchange r (delete k h) (d ++ [b]))) /\
  (forall q flight r h b d, is_exchange q flight (mkExchange r h (b :: d)) ->
    exists e q', pop_virtio_entry q 1 = Some (1, [e], q') /\ buffer_of e = b /\ is_exchange q' flight (mkExchange (r + 1) h d)) /\
  (forall q flight r h, is_exchange q flight (mkExchange r h []) -> pop_virtio_entry q 1 = Some (0, [], q)).
Proof.
  split_and!.
  - exact exchange_fresh.
  - intros q flight r h d e Hx Hr. destruct (exchange_push q flight r h d e Hx Hr) as (i & q' & E & Hp & Hn & Hx' & _). by exists i, q'.
  - exact exchange_full.
  - exact exchange_full_one.
  - intros q flight r h d k i len (free & used & H & Hr & Hh & Hd) Hk. cbn [room held done_with] in *.
    destruct (Forall2_lookup_l _ _ _ _ _ Hh Hk) as (b & Hb & Hc). exists b. split; [done|]. exists free, (used ++ [i]). cbn [room held done_with].
    rewrite <- (take_drop_middle flight k i Hk) in H. rewrite delete_take_drop. split_and!; [by apply vq_device_done|done| |].
    + rewrite (delete_take_drop h). apply Forall2_app; [by apply Forall2_take|by apply Forall2_drop].
    + apply Forall2_app; [done|]. by constructor.
  - intros q flight r h b d (free & used & H & Hr & Hh & Hd). cbn [room held done_with] in *. inversion Hd as [|i b' used' d' Hc Hd']; subst.
    destruct (vq_pop _ _ _ _ _ H) as (q' & ds & Hi & E & H' & Hds & _). destruct Hc as (d0 & Hd0 & Hb). assert (d0 = ds) as -> by congruence.
    pose proof (vq_range _ _ _ _ H i ltac:(set_solver)) as Hrange. pose proof (vq_NoDup _ _ _ _ H) as Hnd.
    assert (i ∉ used' ++ flight) as Hf. { apply NoDup_app in Hnd as (_ & _ & Hnd). by apply NoDup_cons in Hnd as [? _]. }
    eexists _, q'. split_and!; [done|done|]. exists (i :: free), used'. cbn [room held done_with]. rewrite lenz_cons. split_and!; [done|lia| |].
    + eapply carries_set; [done|lia|set_solver|done].
    + eapply carries_set; [done|lia|set_solver|done].
  - intros q flight r h (free & used & H & Hr & Hh & Hd). cbn [room held done_with] in *. apply Forall2_nil_inv_r in Hd as ->. by eapply vq_pop_empty.
Qed.

(** ** The reclaiming path *)

(** Push three buffers in a row. *)
Definition push_three (q : VirtioVirtqueue) (e1 e2 e3 : VirtioEntry) : option (Z * Z * Z * VirtioVirtqueue) :=
  '(i, _, q) ← push_virtio_entry q [e1];
  '(j, _, q) ← push_virtio_entry q [e2];
  '(k, _, q) ← push_virtio_entry q [e3];
  Some (i, j, k, q).

(** Descriptors that were pushed have [next] cleared. *)
Definition no_next (q : VirtioVirtqueue) : Prop := forall i d, atz (q_desc q) i = Some d -> vd_next d = 0.

(** (virtqueue, reclaiming) When the queue is full and the device has returned three or more
    buffers, three pushes that all succeed put the second and the third buffer
    into descriptor 0, whoever owns it: the reclaiming loop forgets to link the
    chains it frees. *)
Theorem reclaim_reuses_descriptor q used flight l e1 e2 e3 : vq q [] used flight -> no_next q -> 3 <= lenz used -> last used = Some l ->
  exists q', push_three q e1 e2 e3 = Some (l, 0, 0, q') /\ carries q' 0 (buffer_of e3).
Proof.
  intros H Hz H3 Hlast. pose proof (vq_pos _ _ _ _ H) as Hp. pose proof (vq_used_lt _ _ _ _ H) as Hu. pose proof (vq_count _ _ _ _ H) as Hc.
  pose proof (vq_descs _ _ _ _ H) as Hds. pose proof (vq_avail _ _ _ _ H) as Hav. change (lenz (@nil Z)) with 0 in Hc.
  assert (l ∈ used) as Hl by (by apply last_Some_elem_of). destruct (vq_single _ _ _ _ H l) as (d & Hd & _); [set_solver|].
  set (q1 := set_last_device (dev_index (q_device q)) (set_free_desc (lenz used) l q)).
  assert (reclaim (used_count q) q = Some q1) as Hrec.
  { rewrite (used_count_vq _ _ _ _ H), reclaim_single; [by rewrite Hc, Hlast, Z.add_0_l|apply H|lia|apply H| |apply H|apply H|apply H|lia|lia].
    intros i Hi. apply (vq_single _ _ _ _ H). set_solver. }
  assert (forall q2 e i d2, 0 < num_free_desc q2 -> num_desc q2 = num_desc q -> lenz (q_desc q2) = num_desc q -> lenz (drv_ring (q_driver q2)) = num_desc q ->
    top_free_idx q2 = i -> atz (q_desc q2) i = Some d2 -> push_virtio_entry q2 [e] = Some (i, [mkEntry i (en_addr e) (en_len e) (en_write e)], pushed q2 i (vd_next d2) e)) as Hpush.
  { intros q2 e i d2 ? Hnum ???. by apply push_single; rewrite ?Hnum. }
  assert (push_virtio_entry q [e1] = push_virtio_entry q1 [e1]) as E1.
  { unfold push_virtio_entry. change (lenz [e1]) with 1. rewrite Hc. change (0 <? 1) with true. rewrite Hrec. cbn [mbind option_bind].
    assert ((num_free_desc q1 <? 1) = false) as E by (apply Z.ltb_ge; cbn; lia). rewrite E. cbn [mbind option_bind]. by rewrite E. }
  unfold push_three. rewrite E1. rewrite (Hpush q1 e1 l d) by (done || (cbn; lia)). cbn [mbind option_bind]. rewrite (Hz _ _ Hd).
  destruct (atz_lt (setz (q_desc q) l (single_desc e1)) 0) as [d2 Hd2]; [rewrite lenz_setz; lia|].
  assert (vd_next d2 = 0) as Hn2. { destruct (decide (l = 0)) as [->|]; [rewrite atz_setz_eq in Hd2 by lia; by injection Hd2 as <-|]. rewrite atz_setz_ne in Hd2; [by eapply Hz|by apply atz_Some_lt in Hd; lia|done]. }
  rewrite (Hpush _ e2 0 d2); cbn [num_free_desc num_desc q_desc q_driver drv_ring top_free_idx pushed set_driver set_free_desc put_desc q1 set_last_device];
    rewrite ?lenz_setz; try done; [|rewrite wrap_small; lia]. cbn [mbind option_bind]. rewrite Hn2.
  rewrite (Hpush _ e3 0 (single_desc e2)); cbn [num_free_desc num_desc q_desc q_driver drv_ring top_free_idx pushed set_driver set_free_desc put_desc q1 set_last_device];
    rewrite ?lenz_setz; try done; [|rewrite (wrap_small 64 (lenz used - 1)), wrap_small; lia|apply atz_setz_eq; rewrite lenz_setz; lia].
  cbn [mbind option_bind]. eexists. split; [done|]. exists (single_desc e3). split; [|apply desc_single]. unfold pushed, q1.
  cbn [q_desc set_driver set_free_desc put_desc set_last_device]. apply atz_setz_eq. rewrite !lenz_setz. lia.
Qed.
