(* ===== verification/Pci.v ===== *)
(** * PCI configuration space

    [hardware/pci.hpp] and [pci.cpp]: enumeration of the buses, base address
    registers, the capability list and message-signalled interrupts.  The code
    writes the address port before every access to the data port, so the pair is
    one access to the 32-bit register at a configuration address.  The registers
    are what the hardware answers: the configuration space and the memory-mapped
    tables are functions of the state, and the theorems hold for all of them. *)

From S2P Require Import Prelude.

Open Scope Z_scope.

(** ** State *)

Record ClassCode := mkClass { base : Z; sub : Z; interface : Z }.

Record Device := mkDevice {
  bus : Z;
  device : Z;
  function : Z;
  header_type : Z;
  class_code : ClassCode;
  vendor_id : Z;
  device_id : Z;
}.

Record Pci := mkPci {
  conf : Z -> Z;
  mmio : Z -> Z;
  devices : list Device;
}.

Definition set_conf (c : Z -> Z) (p : Pci) : Pci := mkPci c (mmio p) (devices p).
Definition set_mmio (m : Z -> Z) (p : Pci) : Pci := mkPci (conf p) m (devices p).
Definition set_devices (d : list Device) (p : Pci) : Pci := mkPci (conf p) (mmio p) d.

Definition MAX_DEVICES : Z := 32.

Definition match_class (c : ClassCode) (b s i : Z) : bool := (b =? base c) && (s =? sub c) && (i =? interface c).
Definition is_xhci (d : Device) : bool := match_class (class_code d) 0x0c 0x03 0x30.
Definition is_intel (d : Device) : bool := vendor_id d =? 0x8086.
Definition is_virtio (d : Device) : bool := vendor_id d =? 0x1af4.
Definition has_device_id (id : Z) (d : Device) : bool := device_id d =? u16 id.

(** ** Access *)

Definition calc_config_addr (bus device func offset : Z) : Z :=
  u32 (Z.lor (Z.lor (Z.lor (Z.lor (Z.shiftl 1 31) (Z.shiftl bus 16)) (Z.shiftl device 11)) (Z.shiftl func 8)) (Z.land offset 0xfc)).

Definition read_config (p : Pci) (bus device func offset : Z) : Z := conf p (calc_config_addr bus device func offset).

Definition read_header_type (p : Pci) (bus device func : Z) : Z := Z.land (Z.shiftr (read_config p bus device func 0x0c) 16) 0xff.
Definition read_vendor_id (p : Pci) (bus device func : Z) : Z := Z.land (read_config p bus device func 0x00) 0xffff.
Definition read_device_id (p : Pci) (bus device func : Z) : Z := u16 (Z.shiftr (read_config p bus device func 0x00) 16).
Definition read_class_code (p : Pci) (bus device func : Z) : ClassCode :=
  let reg := read_config p bus device func 0x08 in
  mkClass (Z.land (Z.shiftr reg 24) 0xff) (Z.land (Z.shiftr reg 16) 0xff) (Z.land (Z.shiftr reg 8) 0xff).

(** Register addresses are 8-bit: [cap_addr + 4] wraps. *)
Definition read_conf_reg (p : Pci) (d : Device) (reg_addr : Z) : Z := read_config p (bus d) (device d) (function d) (u8 reg_addr).
Definition write_conf_reg (d : Device) (reg_addr value : Z) (p : Pci) : Pci :=
  let a := calc_config_addr (bus d) (device d) (function d) (u8 reg_addr) in
  set_conf (fun x => if x =? a then u32 value else conf p x) p.

(** ** Enumeration *)

Definition is_single_function_device (header_type : Z) : bool := Z.land header_type 0x80 =? 0.

Definition read_function (bus dev func : Z) (p : Pci) : Pci :=
  if MAX_DEVICES <=? lenz (devices p) then p
  else
    let d := mkDevice bus dev func (read_header_type p bus dev func) (read_class_code p bus dev func)
               (read_vendor_id p bus dev func) (read_device_id p bus dev func) in
    set_devices (devices p ++ [d]) p.

Definition read_device (bus device : Z) (p : Pci) : option Pci :=
  if is_single_function_device (read_header_type p bus device 0) then Some (read_function bus device 0 p)
  else
    for_n 8 0 (fun func p =>
      if read_vendor_id p bus device func =? 0xffff then Some p
      else Some (read_function bus device func p)) p.

Definition read_bus (bus : Z) (p : Pci) : option Pci :=
  for_n 32 0 (fun device p =>
    if read_vendor_id p bus device 0 =? 0xffff then Some p
    else read_device bus device p) p.

Definition load_devices (p : Pci) : option Pci :=
  if is_single_function_device (read_header_type p 0 0 0) then read_bus 0 p
  else
    for_n 8 0 (fun func p =>
      if read_vendor_id p 0 0 func =? 0xffff then Some p else read_bus func p) p.

(** ** Base address registers *)

Definition read_base_address_register (p : Pci) (d : Device) (index : Z) : Z :=
  let base_addr_index := u32 (0x10 + index * 4) in
  let bar_low := read_config p (bus d) (device d) (function d) (u8 base_addr_index) in
  if Z.land bar_low 4 =? 0 then bar_low
  else
    let bar_high := read_config p (bus d) (device d) (function d) (u8 (base_addr_index + 4)) in
    Z.lor bar_low (u64 (Z.shiftl bar_high 32)).

(** [bar & ~0xfff] *)
Definition bar_base (bar : Z) : Z := Z.land bar (wnot 64 0xfff).

(** ** Capabilities *)

Definition CAP_MSI : Z := 0x05.
Definition CAP_MSIX : Z := 0x11.
Definition CAP_VIRTIO : Z := 0x09.

(** The fields of a capability header. *)
Definition cap_id (header : Z) : Z := Z.land header 0xff.
Definition next_ptr (header : Z) : Z := Z.land (Z.shiftr header 8) 0xff.

Definition get_capability_pointer (p : Pci) (d : Device) : Z := Z.land (read_conf_reg p d 0x34) 0xff.
Definition read_capability_header (p : Pci) (d : Device) (a : Z) : Z := read_conf_reg p d a.

(** Visit the list from [a]; [S] is what the visitor accumulates.  A list visits
    each of the 255 non-zero addresses at most once unless it is a cycle, which
    the code never leaves. *)
Fixpoint visit_capabilities {S} (fuel : nat) (p : Pci) (d : Device) (visit : Z -> Z -> S -> S) (a : Z) (s : S) : option S :=
  if a =? 0 then Some s
  else
    match fuel with
    | O => fault
    | Datatypes.S fuel =>
        let header := read_capability_header p d a in
        visit_capabilities fuel p d visit (next_ptr header) (visit header a s)
    end.
Definition CAPABILITY_FUEL : nat := 255.
Definition for_each_capability {S} (p : Pci) (d : Device) (visit : Z -> Z -> S -> S) (s : S) : option S :=
  visit_capabilities CAPABILITY_FUEL p d visit (get_capability_pointer p d) s.

(** ** Message-signalled interrupts *)

Inductive MsiDeliveryMode := FIXED | LOWPRI | SMI | NMI | INIT | EXTINT.
Definition delivery_mode (m : MsiDeliveryMode) : Z :=
  match m with FIXED => 0 | LOWPRI => 1 | SMI => 2 | NMI => 4 | INIT => 5 | EXTINT => 7 end.
Inductive MsiTriggerMode := EDGE | LEVEL.

Record MsiCapability := mkMsi {
  msi_header : Z;
  msg_addr : Z;
  msg_upper_addr : Z;
  msg_data : Z;
  mask_bits : Z;
  pending_bits : Z;
}.

(** Fields of the headers: [n] bits from bit [lo]. *)
Definition field (lo n x : Z) : Z := Z.land (Z.shiftr x lo) (2 ^ n - 1).
Definition set_field (lo n v x : Z) : Z := Z.lor (Z.land x (wnot 32 (Z.shiftl (2 ^ n - 1) lo))) (Z.shiftl (v mod 2 ^ n) lo).
Definition addr_64_capable (h : Z) : bool := negb (field 23 1 h =? 0).
Definition per_vector_mask_capable (h : Z) : bool := negb (field 24 1 h =? 0).

Definition msg_data_offset (header cap_addr : Z) : Z := u8 (if addr_64_capable header then cap_addr + 12 else cap_addr + 8).

Definition read_msi_capability (p : Pci) (d : Device) (cap_addr : Z) : MsiCapability :=
  let h := read_conf_reg p d cap_addr in
  let data_addr := msg_data_offset h cap_addr in
  mkMsi h (read_conf_reg p d (cap_addr + 4))
    (if addr_64_capable h then read_conf_reg p d (cap_addr + 8) else 0)
    (read_conf_reg p d data_addr)
    (if per_vector_mask_capable h then read_conf_reg p d (data_addr + 4) else 0)
    (if per_vector_mask_capable h then read_conf_reg p d (data_addr + 8) else 0).

Definition write_msi_capability (d : Device) (cap_addr : Z) (m : MsiCapability) (p : Pci) : Pci :=
  let h := msi_header m in
  let p := write_conf_reg d cap_addr h p in
  let p := write_conf_reg d (cap_addr + 4) (msg_addr m) p in
  let data_addr := msg_data_offset h cap_addr in
  let p := if addr_64_capable h then write_conf_reg d (cap_addr + 8) (msg_upper_addr m) p else p in
  let p := write_conf_reg d data_addr (msg_data m) p in
  if per_vector_mask_capable h then
    write_conf_reg d (data_addr + 8) (pending_bits m) (write_conf_reg d (data_addr + 4) (mask_bits m) p)
  else p.

Definition configure_msi_register (d : Device) (cap_addr addr data num_vector_exponent : Z) (p : Pci) : Pci :=
  let m := read_msi_capability p d cap_addr in
  let h := msi_header m in
  let multi_msg_capable := field 17 3 h in
  let h := set_field 20 3 (if multi_msg_capable <=? num_vector_exponent then multi_msg_capable else num_vector_exponent) h in
  let h := set_field 16 1 1 h in
  write_msi_capability d cap_addr (mkMsi h addr (msg_upper_addr m) data (mask_bits m) (pending_bits m)) p.

(** An MSI-X table entry is four 32-bit registers: address, upper address, data
    and control. *)
Definition table_entry (table i : Z) : Z := u64 (table + 16 * i).
Definition set_reg (a v : Z) (m : Z -> Z) : Z -> Z := fun x => if x =? a then u32 v else m x.

(** The loop over the table: the first entry whose address is zero. *)
Fixpoint fill_table (n : nat) (table i addr data : Z) (m : Z -> Z) : Z -> Z :=
  match n with
  | O => m
  | S n =>
      let e := table_entry table i in
      if negb (m e =? 0) then fill_table n table (i + 1) addr data m
      else set_reg (u64 (e + 12)) 0 (set_reg (u64 (e + 8)) data (set_reg (u64 (e + 4)) 0 (set_reg e addr m)))
  end.

(** [offset] is 29 bits wide, so the shift is done on [int]. *)
Definition msix_table (p : Pci) (d : Device) (table : Z) : Z :=
  u64 (bar_base (read_base_address_register p d (field 0 3 table)) + i32 (Z.shiftl (field 3 29 table) 3)).

Definition configure_msi_x_table_entry (d : Device) (header table addr data : Z) (p : Pci) : Pci :=
  set_mmio (fill_table (Z.to_nat (field 16 11 header + 1)) (msix_table p d table) 0 addr data (mmio p)) p.

Definition configure_msi_x_register (d : Device) (cap_addr addr data : Z) (p : Pci) : Pci :=
  let h := read_conf_reg p d cap_addr in
  let table := read_conf_reg p d (cap_addr + 4) in
  let h := set_field 30 1 0 (set_field 31 1 1 h) in
  configure_msi_x_table_entry d h table addr data (write_conf_reg d cap_addr h p).

(** The addresses of the MSI and the MSI-X capability, 0 for none. *)
Definition find_msi (header a : Z) (s : Z * Z) : Z * Z :=
  if cap_id header =? CAP_MSI then (a, s.2) else if cap_id header =? CAP_MSIX then (s.1, a) else s.

Definition configure_msi (d : Device) (addr data num_vector_exponent : Z) (p : Pci) : option Pci :=
  '(msi, msix) ← for_each_capability p d find_msi (0, 0);
  Some (if negb (msix =? 0) then configure_msi_x_register d msix addr data p
        else if negb (msi =? 0) then configure_msi_register d msi addr data num_vector_exponent p
        else p).

Definition configure_msi_fixed_destination (d : Device) (apic_id : Z) (trigger : MsiTriggerMode) (mode : MsiDeliveryMode) (vector num_vector_exponent : Z) (p : Pci)
  : option Pci :=
  let addr := Z.lor 0xfee00000 (Z.shiftl apic_id 12) in
  let data := Z.lor (Z.shiftl (delivery_mode mode) 8) vector in
  let data := match trigger with LEVEL => Z.lor data 0xc000 | EDGE => data end in
  configure_msi d addr data num_vector_exponent p.

Definition initialize (p : Pci) : option Pci := load_devices p.

(** * What the PCI code promises

    Configuration addresses name their register, enumeration finds the functions
    that answer, and interrupt vectors go to consecutive table entries. *)

(** ** Addresses *)

Lemma land_fc o : 0 <= o < 256 -> Z.land o 0xfc = o - o mod 4.
Proof.
  intros Ho. change 0xfc with (Z.shiftl (Z.ones 6) 2). apply Z.bits_inj'. intros k Hk. replace (o - o mod 4) with (Z.shiftl (Z.shiftr o 2) 2).
  2:{ rewrite Z.shiftl_mul_pow2, Z.shiftr_div_pow2 by lia. pose proof (Z.div_mod o 4 ltac:(lia)). change (2 ^ 2) with 4. lia. }
  rewrite Z.land_spec. destruct (Z.ltb_spec k 2); [rewrite !Z.shiftl_spec_low by done; apply andb_false_r|].
  rewrite !Z.shiftl_spec, Z.shiftr_spec by lia. replace (k - 2 + 2) with k by lia. destruct (Z.ltb_spec (k - 2) 6).
  - rewrite Z.ones_spec_low by lia. apply andb_true_r.
  - rewrite (testbit_above o 8 k) by lia. done.
Qed.

(** The address is the sum of its fields. *)
Lemma config_addr_sum b d f o : 0 <= b < 256 -> 0 <= d < 32 -> 0 <= f < 8 -> 0 <= o < 256 ->
  calc_config_addr b d f o = 2 ^ 31 + b * 65536 + d * 2048 + f * 256 + (o - o mod 4).
Proof.
  intros Hb Hd Hf Ho. unfold calc_config_addr. rewrite land_fc by done. pose proof (Z.mod_pos_bound o 4 ltac:(lia)).
  assert (0 <= o - o mod 4 < 256) by (pose proof (Z.mod_le o 4); lia).
  rewrite <- !Z.lor_assoc. rewrite (lor_shift_add f) by lia. rewrite (lor_shift_add d) by lia. rewrite (lor_shift_add b) by lia. rewrite (lor_shift_add 1) by lia.
  rewrite wrap_small; lia.
Qed.

(** (configuration address) Two registers have the same configuration address only when they are the
    same register: the address determines bus, device, function and dword, and
    has the enable bit set. *)
Theorem config_addr_injective b d f o b' d' f' o' :
  0 <= b < 256 -> 0 <= d < 32 -> 0 <= f < 8 -> 0 <= o < 256 -> 0 <= b' < 256 -> 0 <= d' < 32 -> 0 <= f' < 8 -> 0 <= o' < 256 ->
  2 ^ 31 <= calc_config_addr b d f o < 2 ^ 32 /\
  (calc_config_addr b d f o = calc_config_addr b' d' f' o' -> b = b' /\ d = d' /\ f = f' /\ o / 4 = o' / 4).
Proof.
  intros. rewrite !config_addr_sum by done. pose proof (Z.div_mod o 4 ltac:(lia)). pose proof (Z.div_mod o' 4 ltac:(lia)).
  pose proof (Z.mod_pos_bound o 4 ltac:(lia)). pose proof (Z.mod_pos_bound o' 4 ltac:(lia)). split; [lia|]. intros E. lia.
Qed.

(** ** Enumeration *)

(** The function at a place, as the configuration space describes it. *)
Definition describe (p : Pci) (b d f : Z) : Device :=
  mkDevice b d f (read_header_type p b d f) (read_class_code p b d f) (read_vendor_id p b d f) (read_device_id p b d f).

Definition answers (p : Pci) (b d f : Z) : bool := negb (read_vendor_id p b d f =? 0xffff).

Definition functions_of (p : Pci) (b d : Z) : list Z :=
  if negb (answers p b d 0) then []
  else if is_single_function_device (read_header_type p b d 0) then [0]
  else filter (fun f => answers p b d f = true) (seqZ 0 8).
Definition devices_on (p : Pci) (b : Z) : list Device := d ← seqZ 0 32; describe p b d <$> functions_of p b d.
Definition buses (p : Pci) : list Z :=
  if is_single_function_device (read_header_type p 0 0 0) then [0] else filter (fun f => answers p 0 0 f = true) (seqZ 0 8).

(** Entries that do not fit are dropped. *)
Definition add_devices (ds : list Device) (p : Pci) : Pci := set_devices (take 32 (devices p ++ ds)) p.
Definition fits (p : Pci) : Prop := lenz (devices p) <= 32.

Lemma add_fits ds p : fits (add_devices ds p).
Proof. unfold fits, lenz, add_devices. cbn [devices set_devices]. rewrite length_take. lia. Qed.

Lemma add_nil p : fits p -> add_devices [] p = p.
Proof. intros H. unfold add_devices. rewrite app_nil_r, take_ge by (unfold fits, lenz in H; lia). by destruct p. Qed.

Lemma add_add ds es p : add_devices es (add_devices ds p) = add_devices (ds ++ es) p.
Proof.
  unfold add_devices. cbn [devices set_devices]. unfold set_devices. cbn [conf mmio]. f_equal. rewrite app_assoc.
  destruct (decide (length (devices p ++ ds) <= 32)%nat); [by rewrite (take_ge (devices p ++ ds))|].
  rewrite (take_app_le (devices p ++ ds) es) by lia. rewrite take_app_le by (rewrite length_take; lia). by rewrite take_take.
Qed.

Lemma read_function_adds b d f p : fits p -> read_function b d f p = add_devices [describe p b d f] p.
Proof.
  intros H. unfold read_function, add_devices, MAX_DEVICES. unfold fits, lenz in *. destruct (Z.leb_spec 32 (Z.of_nat (length (devices p)))).
  - rewrite take_app_le by lia. rewrite take_ge by lia. by destruct p.
  - rewrite (take_ge (devices p ++ _)); [done|]. rewrite length_app. simpl. lia.
Qed.

(** A loop whose rounds each add devices that only depend on the registers. *)
Lemma for_n_adds (g : Pci -> Z -> list Device) body n : (forall ds p, g (add_devices ds p) = g p) ->
  (forall i p, fits p -> body i p = Some (add_devices (g p i) p)) ->
  forall a p, fits p -> for_n n a body p = Some (add_devices (i ← seqZ a (Z.of_nat n); g p i) p).
Proof.
  intros Hg Hb. induction n as [|n IH]; intros a p Hp; [by rewrite <- (add_nil p) at 1|]. cbn [for_n]. rewrite Hb by done. cbn [mbind option_bind].
  rewrite IH by apply add_fits. rewrite Hg, add_add. f_equal. rewrite (seqZ_cons a) by lia. replace (Z.pred (Z.of_nat (S n))) with (Z.of_nat n) by lia.
  replace (Z.succ a) with (a + 1) by lia. done.
Qed.

(** Visiting the places that pass a test is visiting the filtered list. *)
Lemma bind_filter {A B} (P : A -> bool) (g : A -> list B) l : (i ← l; if P i then g i else []) = (i ← filter (fun i => P i = true) l; g i).
Proof.
  induction l as [|x l IH]; [done|]. cbn [mbind list_bind]. rewrite filter_cons. destruct (P x) eqn:E.
  - rewrite decide_True by done. cbn [mbind list_bind]. by rewrite <- IH.
  - rewrite decide_False by done. by rewrite <- IH.
Qed.

Lemma read_device_adds b d p : fits p -> answers p b d 0 = true -> read_device b d p = Some (add_devices (describe p b d <$> functions_of p b d) p).
Proof.
  intros Hp Ha. unfold read_device, functions_of. rewrite Ha. cbn [negb]. destruct (is_single_function_device _); [by rewrite read_function_adds|].
  rewrite (for_n_adds (fun p f => if answers p b d f then [describe p b d f] else [])); [|done| |done].
  - rewrite (bind_filter (answers p b d) (fun f => [describe p b d f])). done.
  - intros f q Hq. unfold answers. destruct (read_vendor_id q b d f =? 0xffff); cbn [negb]; [by rewrite add_nil|by rewrite read_function_adds].
Qed.

Lemma read_bus_adds b p : fits p -> read_bus b p = Some (add_devices (devices_on p b) p).
Proof.
  intros Hp. unfold read_bus, devices_on. rewrite (for_n_adds (fun p d => describe p b d <$> functions_of p b d)); [done|done| |done].
  intros d q Hq. destruct (answers q b d 0) eqn:E.
  - pose proof E as E'. unfold answers in E'. apply negb_true_iff in E'. rewrite E'. by apply read_device_adds.
  - unfold functions_of. rewrite E. unfold answers in E. apply negb_false_iff in E. rewrite E. cbn [negb fmap list_fmap]. by rewrite add_nil.
Qed.

(** C29: (enumeration) Enumeration fills the device table with the functions that answer on the
    buses of the host bridge, in order of bus, device and function, and stops at 32
    entries; nothing else of the state changes. *)
Theorem load_devices_enumerates p : devices p = [] ->
  initialize p = Some (set_devices (take 32 (b ← buses p; devices_on p b)) p).
Proof.
  intros H0. assert (fits p) as Hp by (unfold fits, lenz; rewrite H0; simpl; lia).
  assert (forall ds, add_devices ds p = set_devices (take 32 ds) p) as Hadd by (intros; unfold add_devices; by rewrite H0).
  rewrite <- Hadd. unfold initialize, load_devices, buses. destruct (is_single_function_device _).
  - rewrite read_bus_adds by done. cbn [mbind list_bind]. by rewrite app_nil_r.
  - rewrite (for_n_adds (fun p f => if answers p 0 0 f then devices_on p f else [])); [|done| |done].
    + by rewrite (bind_filter (answers p 0 0) (devices_on p)).
    + intros f q Hq. unfold answers. destruct (read_vendor_id q 0 0 f =? 0xffff); cbn [negb]; [by rewrite add_nil|by apply read_bus_adds].
Qed.

(** ** The interrupt table *)

(** The registers of entry [i]. *)
Definition entry_is (m : Z -> Z) (table i addr data : Z) : Prop :=
  m (table + 16 * i) = addr /\ m (table + 16 * i + 4) = 0 /\ m (table + 16 * i + 8) = data /\ m (table + 16 * i + 12) = 0.

(** A table of [n] entries inside the address space. *)
Definition table_ok (table n : Z) : Prop := 0 <= table /\ table + 16 * n <= 2 ^ 64.

Lemma fill_table_spec table addr data n : forall i k m, table_ok table (i + Z.of_nat n) -> 0 <= i -> i <= k < i + Z.of_nat n ->
  (forall j, i <= j < k -> m (table + 16 * j) <> 0) -> m (table + 16 * k) = 0 -> 0 <= addr < 2 ^ 32 -> 0 <= data < 2 ^ 32 ->
  let m' := fill_table n table i addr data m in
  entry_is m' table k addr data /\ forall x, x < table + 16 * k \/ table + 16 * k + 12 < x -> m' x = m x.
Proof.
  induction n as [|n IH]; intros i k m Ht Hi Hk Hused Hz Ha Hd; [lia|]. cbn [fill_table]. unfold table_entry.
  destruct Ht as [Ht0 Ht1]. rewrite (wrap_small 64 (table + 16 * i)) by lia. destruct (decide (i = k)) as [->|Hne].
  - rewrite Hz. change (negb (0 =? 0)) with false. cbv zeta. rewrite !(wrap_small 64) by lia. unfold set_reg, entry_is. rewrite !(wrap_small 32) by lia.
    split; [split_and!|intros x Hx]; repeat match goal with |- context [?a =? ?b] => destruct (Z.eqb_spec a b); try lia end.
  - destruct (Z.eqb_spec (m (table + 16 * i)) 0) as [E|_]; [by destruct (Hused i); [lia|]|]. cbn [negb].
    apply IH; [split; lia|lia|lia|intros j Hj; apply Hused; lia|done..].
Qed.
