(* ===== verification/VirtioPci.v ===== *)
(** * The virtio PCI transport

    [hardware/virtio/pci.hpp], [pci.cpp], [device_descriptor.cpp] and
    [init_virtio_pci_device]: finding the capabilities of a device, negotiating
    features, setting up its queues and ringing its doorbell.  The registers of
    the common configuration are a record; what the device answers when one is
    read is given by a [VirtioHw], and the theorems hold for every device.
    Allocation takes addresses from a supply, 0 for a failure. *)

From S2P Require Import Prelude BitUtils Message Virtio Pci.

Open Scope Z_scope.

Definition VIRTIO_NET : Z := 0x1000.
Definition VIRTIO_BLK : Z := 0x1001.
Definition VIRTIO_STATUS_ACKNOWLEDGE : Z := 1.
Definition VIRTIO_STATUS_DRIVER : Z := 2.
Definition VIRTIO_STATUS_DRIVER_OK : Z := 4.
Definition VIRTIO_STATUS_FEATURES_OK : Z := 8.
Definition VIRTIO_F_VERSION_1 : Z := 32.
Definition VIRTIO_NET_F_MAC : Z := Z.shiftl 1 5.
Definition VIRTIO_PCI_CAP_COMMON_CFG : Z := 1.
Definition VIRTIO_PCI_CAP_NOTIFY_CFG : Z := 2.
Definition VIRTIO_PCI_CAP_DEVICE_CFG : Z := 4.
Definition NO_VECTOR : Z := 0xffff.

(** ** Data *)

Record VirtioPciCap := mkCap {
  first_dword : Z;
  second_dword : Z;
  cap_offset : Z;
  cap_length : Z;
  notify_off_multiplier : Z;
}.
Definition cfg_type (c : VirtioPciCap) : Z := Z.land (Z.shiftr (first_dword c) 24) 0xff.
Definition cap_bar (c : VirtioPciCap) : Z := Z.land (second_dword c) 0xff.

(** The registers of one queue. *)
Record QueueRegs := mkQregs {
  queue_desc : Z;
  queue_driver : Z;
  queue_device : Z;
  queue_msix_vector : Z;
  queue_enable : Z;
}.
Definition zero_qregs : QueueRegs := mkQregs 0 0 0 0 0.

Record VirtioPciCommonCfg := mkCommon {
  device_feature_select : Z;
  driver_feature_select : Z;
  driver_feature : Z -> Z;
  config_msix_vector : Z;
  device_status : Z;
  queue_select : Z;
  queue_regs : Z -> QueueRegs;
}.
(** What a write of 0 to the status leaves. *)
Definition reset_cfg : VirtioPciCommonCfg := mkCommon 0 0 (fun _ => 0) 0 0 0 (fun _ => zero_qregs).

(** What the device answers. *)
Record VirtioHw := mkHw {
  hw_features : Z;
  hw_features_ok : Z -> bool;
  hw_num_queues : Z;
  hw_queue_size : Z -> Z;
  hw_notify_off : Z -> Z;
  hw_vectors : Z;
}.

Record VirtioPciDevice := mkVdev {
  vdev : Device;
  caps : list VirtioPciCap;
  common_addr : Z;
  common_cfg : VirtioPciCommonCfg;
  notify_cfg : option VirtioPciCap;
  device_cfg : option VirtioPciCap;
  queues : list VirtioVirtqueue;
  notify_base : Z;
  features : Z;
}.

Definition set_caps (c : list VirtioPciCap) (v : VirtioPciDevice) : VirtioPciDevice :=
  mkVdev (vdev v) c (common_addr v) (common_cfg v) (notify_cfg v) (device_cfg v) (queues v) (notify_base v) (features v).
Definition set_common (a : Z) (c : VirtioPciCommonCfg) (v : VirtioPciDevice) : VirtioPciDevice :=
  mkVdev (vdev v) (caps v) a c (notify_cfg v) (device_cfg v) (queues v) (notify_base v) (features v).
Definition set_cfg (c : VirtioPciCommonCfg) (v : VirtioPciDevice) : VirtioPciDevice := set_common (common_addr v) c v.
Definition set_notify (c : option VirtioPciCap) (v : VirtioPciDevice) : VirtioPciDevice :=
  mkVdev (vdev v) (caps v) (common_addr v) (common_cfg v) c (device_cfg v) (queues v) (notify_base v) (features v).
Definition set_device_cfg (c : option VirtioPciCap) (v : VirtioPciDevice) : VirtioPciDevice :=
  mkVdev (vdev v) (caps v) (common_addr v) (common_cfg v) (notify_cfg v) c (queues v) (notify_base v) (features v).
Definition set_queues (q : list VirtioVirtqueue) (v : VirtioPciDevice) : VirtioPciDevice :=
  mkVdev (vdev v) (caps v) (common_addr v) (common_cfg v) (notify_cfg v) (device_cfg v) q (notify_base v) (features v).
Definition set_notify_base (b : Z) (v : VirtioPciDevice) : VirtioPciDevice :=
  mkVdev (vdev v) (caps v) (common_addr v) (common_cfg v) (notify_cfg v) (device_cfg v) (queues v) b (features v).
Definition set_features (f : Z) (v : VirtioPciDevice) : VirtioPciDevice :=
  mkVdev (vdev v) (caps v) (common_addr v) (common_cfg v) (notify_cfg v) (device_cfg v) (queues v) (notify_base v) f.

(** ** Registers *)

Section registers.
Context (hw : VirtioHw).

(** Reads the device answers. *)
Definition read_device_feature (c : VirtioPciCommonCfg) : Z :=
  if device_feature_select c <? 2 then u32 (Z.shiftr (hw_features hw) (device_feature_select c * 32)) else 0.
Definition read_queue_size (c : VirtioPciCommonCfg) : Z := hw_queue_size hw (queue_select c).
Definition read_queue_notify_off (c : VirtioPciCommonCfg) : Z := hw_notify_off hw (queue_select c).
Definition read_vector (v : Z) : Z := if v <? hw_vectors hw then v else NO_VECTOR.

(** Writes. *)
Definition set_device_feature_select (i : Z) (c : VirtioPciCommonCfg) : VirtioPciCommonCfg :=
  mkCommon (u32 i) (driver_feature_select c) (driver_feature c) (config_msix_vector c) (device_status c) (queue_select c) (queue_regs c).
Definition set_driver_feature (i v : Z) (c : VirtioPciCommonCfg) : VirtioPciCommonCfg :=
  mkCommon (device_feature_select c) (u32 i) (fun x => if x =? i then u32 v else driver_feature c x) (config_msix_vector c) (device_status c) (queue_select c) (queue_regs c).
(** The two words of the driver's features as one number. *)
Definition accepted_features (c : VirtioPciCommonCfg) : Z := Z.lor (driver_feature c 0) (Z.shiftl (driver_feature c 1) 32).
(** The device clears FEATURES_OK when it does not accept the features. *)
Definition set_device_status (s : Z) (c : VirtioPciCommonCfg) : VirtioPciCommonCfg :=
  let s := if hw_features_ok hw (accepted_features c) then s else Z.land s (wnot 8 VIRTIO_STATUS_FEATURES_OK) in
  mkCommon (device_feature_select c) (driver_feature_select c) (driver_feature c) (config_msix_vector c) (u8 s) (queue_select c) (queue_regs c).
Definition set_config_vector (v : Z) (c : VirtioPciCommonCfg) : VirtioPciCommonCfg :=
  mkCommon (device_feature_select c) (driver_feature_select c) (driver_feature c) (read_vector v) (device_status c) (queue_select c) (queue_regs c).
Definition set_queue_select (i : Z) (c : VirtioPciCommonCfg) : VirtioPciCommonCfg :=
  mkCommon (device_feature_select c) (driver_feature_select c) (driver_feature c) (config_msix_vector c) (device_status c) (u16 i) (queue_regs c).
Definition set_queue_regs (r : QueueRegs) (c : VirtioPciCommonCfg) : VirtioPciCommonCfg :=
  mkCommon (device_feature_select c) (driver_feature_select c) (driver_feature c) (config_msix_vector c) (device_status c) (queue_select c)
    (fun x => if x =? queue_select c then r else queue_regs c x).

(** ** Feature negotiation *)

(** The two words of the device's features. *)
Definition read_features (c : VirtioPciCommonCfg) : Z * VirtioPciCommonCfg :=
  let c0 := set_device_feature_select 0 c in
  let lo := read_device_feature c0 in
  let c1 := set_device_feature_select 1 c0 in
  let hi := read_device_feature c1 in
  (Z.lor (Z.lor 0 (u64 (Z.shiftl lo 0))) (u64 (Z.shiftl hi 32)), c1).

Definition negotiate_features (v : VirtioPciDevice) : Z * VirtioPciDevice :=
  let (device_features, c) := read_features (common_cfg v) in
  let driver_features := if negb (Z.land device_features (Z.shiftl 1 VIRTIO_F_VERSION_1) =? 0) then Z.lor 0 (Z.shiftl 1 VIRTIO_F_VERSION_1) else 0 in
  let id := device_id (vdev v) in
  if negb (id =? VIRTIO_NET) && negb (id =? VIRTIO_BLK) then (err ERR_INVALID_ARG, set_cfg c v)
  else
    let driver_features :=
      if id =? VIRTIO_NET then
        if negb (Z.land device_features VIRTIO_NET_F_MAC =? 0) then Z.lor driver_features VIRTIO_NET_F_MAC else driver_features
      else driver_features in
    let c := set_driver_feature 0 (Z.land (Z.shiftr driver_features 0) 0xffffffff) c in
    let c := set_driver_feature 1 (Z.land (Z.shiftr driver_features 32) 0xffffffff) c in
    let c := set_device_status (Z.lor (device_status c) VIRTIO_STATUS_FEATURES_OK) c in
    (err OK, set_cfg c (set_features driver_features v)).

(** ** Queues *)

(** Offsets of the driver ring and the device ring, and the size, of the memory of
    a queue. *)
Definition queue_layout (n : Z) : Z * Z * Z :=
  let driver_ring_offset := align_up (u32 (calc_desc_area_size n)) 2 in
  let device_ring_offset := align_up (u32 (driver_ring_offset + calc_driver_ring_size n)) 4 in
  (driver_ring_offset, device_ring_offset, u64 (device_ring_offset + calc_device_ring_size n)).

(** Take an address from the supply. *)
Definition take_addr (supply : list Z) : Z * list Z := match supply with [] => (0, []) | a :: s => (a, s) end.

(** One round of the loop over the queues. *)
Definition setup_queue (i n driver_off device_off : Z) (v : VirtioPciDevice) (supply : list Z) : option (Z * VirtioPciDevice * list Z) :=
  let v := set_cfg (set_queue_select i (common_cfg v)) v in
  let (a, supply) := take_addr supply in
  if a =? 0 then Some (err ERR_NO_MEMORY, v, supply)
  else
    let regs := mkQregs a (u64 (a + driver_off)) (u64 (a + device_off)) 0 0 in
    let v := set_cfg (set_queue_regs regs (common_cfg v)) v in
    let off := read_queue_notify_off (common_cfg v) in
    old ← atz (queues v) i;
    '(_, q) ← init_virtqueue old i n (zero_descs n) (zero_driver n) (zero_device n) off;
    let v := set_queues (setz (queues v) i q) v in
    let vector := read_vector (u16 (1 + i)) in
    let v := set_cfg (set_queue_regs (mkQregs a (u64 (a + driver_off)) (u64 (a + device_off)) vector 0) (common_cfg v)) v in
    if vector =? NO_VECTOR then Some (err ERR_NO_MEMORY, v, supply)
    else Some (err OK, set_cfg (set_queue_regs (mkQregs a (u64 (a + driver_off)) (u64 (a + device_off)) vector 1) (common_cfg v)) v, supply).

(** The rounds [i], [i + 1], ... until one fails. *)
Fixpoint setup_queues (k : nat) (i n driver_off device_off : Z) (v : VirtioPciDevice) (supply : list Z) : option (Z * VirtioPciDevice * list Z) :=
  match k with
  | O => Some (err OK, v, supply)
  | S k =>
      '(e, v, supply) ← setup_queue i n driver_off device_off v supply;
      if IS_ERR e then Some (e, v, supply) else setup_queues k (i + 1) n driver_off device_off v supply
  end.

Definition setup_virtqueue (v : VirtioPciDevice) (supply : list Z) : option (Z * VirtioPciDevice * list Z) :=
  let n := read_queue_size (common_cfg v) in
  let '(driver_off, device_off, total_size) := queue_layout n in
  let (a, supply) := take_addr supply in
  if a =? 0 then Some (err ERR_NO_MEMORY, v, supply)
  else
    let v := set_queues (replicate (Z.to_nat (hw_num_queues hw)) zero_queue) v in
    setup_queues (Z.to_nat (hw_num_queues hw)) 0 n driver_off device_off v supply.

(** ** Configuration *)

(** The address of the structure a capability describes. *)
Definition capability_addr (p : Pci) (d : Device) (c : VirtioPciCap) : Z :=
  u64 (bar_base (read_base_address_register p d (cap_bar c)) + cap_offset c).

Definition configure_pci_common_cfg (p : Pci) (cap : VirtioPciCap) (v : VirtioPciDevice) (supply : list Z) : option (Z * VirtioPciDevice * list Z) :=
  let v := set_common (capability_addr p (vdev v) cap) reset_cfg v in
  let c := set_device_status VIRTIO_STATUS_ACKNOWLEDGE (common_cfg v) in
  let c := set_device_status (Z.lor (device_status c) VIRTIO_STATUS_DRIVER) c in
  let (e, v) := negotiate_features (set_cfg c v) in
  if IS_ERR e then Some (e, v, supply)
  else
    let v := set_cfg (set_config_vector 0 (common_cfg v)) v in
    if config_msix_vector (common_cfg v) =? NO_VECTOR then Some (err ERR_NO_MEMORY, v, supply)
    else
      '(e, v, supply) ← setup_virtqueue v supply;
      if IS_ERR e then Some (e, v, supply)
      else
        let c := common_cfg v in
        Some (err OK, set_cfg (set_device_status (Z.lor (device_status c) VIRTIO_STATUS_DRIVER_OK) c) v, supply).

Definition configure_pci_notify_cfg (p : Pci) (v : VirtioPciDevice) : option (Z * VirtioPciDevice) :=
  cap ← notify_cfg v;
  Some (err OK, set_notify_base (capability_addr p (vdev v) cap) v).

(** The loop over the capabilities; the result of the common configuration is not
    looked at. *)
Fixpoint apply_capabilities (p : Pci) (l : list VirtioPciCap) (v : VirtioPciDevice) (supply : list Z) : option (VirtioPciDevice * list Z) :=
  match l with
  | [] => Some (set_caps [] v, supply)
  | cap :: l =>
      '(v, supply) ←
        (if cfg_type cap =? VIRTIO_PCI_CAP_COMMON_CFG then
           '(_, v, supply) ← configure_pci_common_cfg p cap v supply; Some (v, supply)
         else if cfg_type cap =? VIRTIO_PCI_CAP_NOTIFY_CFG then Some (set_notify (Some cap) v, supply)
         else if cfg_type cap =? VIRTIO_PCI_CAP_DEVICE_CFG then Some (set_device_cfg (Some cap) v, supply)
         else Some (v, supply));
      apply_capabilities p l v supply
  end.

Definition set_virtio_pci_capability (p : Pci) (v : VirtioPciDevice) (supply : list Z) : option (Z * VirtioPciDevice * list Z) :=
  '(v, supply) ← apply_capabilities p (caps v) v supply;
  '(e, v) ← configure_pci_notify_cfg p v;
  Some (e, v, supply).
End registers.

(** ** Finding the capabilities *)

(** The lambda of [find_virtio_pci_cap]: the capabilities so far and the supply;
    a failed allocation is written through, which is a fault. *)
Definition visit_virtio_cap (p : Pci) (d : Device) (header a : Z) (s : option (list VirtioPciCap * list Z)) : option (list VirtioPciCap * list Z) :=
  '(l, supply) ← s;
  if negb (cap_id header =? CAP_VIRTIO) then Some (l, supply)
  else
    let first := read_conf_reg p d a in
    let (obj, supply) := take_addr supply in
    if obj =? 0 then fault
    else
      let mult := if Z.land (Z.shiftr first 24) 0xff =? VIRTIO_PCI_CAP_NOTIFY_CFG then read_conf_reg p d (a + 16) else 0 in
      Some (l ++ [mkCap first (read_conf_reg p d (a + 4)) (read_conf_reg p d (a + 8)) (read_conf_reg p d (a + 12)) mult], supply).

Definition find_virtio_pci_cap (p : Pci) (v : VirtioPciDevice) (supply : list Z) : option (Z * VirtioPciDevice * list Z) :=
  s ← for_each_capability p (vdev v) (visit_virtio_cap p (vdev v)) (Some ([], supply));
  '(l, supply) ← s;
  Some (lenz l, set_caps l v, supply).

(** ** Interrupts of the known devices *)

Definition VECTOR_VIRTIO_BLK : Z := 0x42.
Definition VECTOR_VIRTQUEUE_BLK : Z := 0x43.
Definition VECTOR_VIRTIO_NET : Z := 0x44.
Definition VECTOR_VIRTQUEUE_NET_RX : Z := 0x45.
Definition VECTOR_VIRTQUEUE_NET_TX : Z := 0x46.

(** The vectors of the descriptor of a device type. *)
Definition find_virtio_device_descriptor (device_type : Z) : option (list Z) :=
  if u16 device_type =? VIRTIO_BLK then Some [VECTOR_VIRTIO_BLK; VECTOR_VIRTQUEUE_BLK]
  else if u16 device_type =? VIRTIO_NET then Some [VECTOR_VIRTIO_NET; VECTOR_VIRTQUEUE_NET_RX; VECTOR_VIRTQUEUE_NET_TX]
  else None.

(** The loop over the interrupts of the descriptor. *)
Fixpoint configure_interrupts (d : Device) (apic_id : Z) (vectors : list Z) (p : Pci) : option Pci :=
  match vectors with
  | [] => Some p
  | v :: l => p ← configure_msi_fixed_destination d apic_id EDGE FIXED v 0 p; configure_interrupts d apic_id l p
  end.

Definition LAPIC_ID_ADDR : Z := 0xfee00020.

Definition find_device (device_type : Z) (p : Pci) : option Device :=
  head (filter (fun d => (is_virtio d && has_device_id device_type d) = true) (devices p)).

Definition init_virtio_pci_device (hw : VirtioHw) (v : VirtioPciDevice) (device_type : Z) (p : Pci) (supply : list Z)
  : option (Z * VirtioPciDevice * Pci * list Z) :=
  match find_device device_type p with
  | None => Some (err ERR_NO_DEVICE, v, p, supply)
  | Some d =>
      match find_virtio_device_descriptor device_type with
      | None => Some (err ERR_INVALID_ARG, v, p, supply)
      | Some vectors =>
          let bsp_lapic_id := u8 (Z.shiftr (mmio p LAPIC_ID_ADDR) 24) in
          p ← configure_interrupts d bsp_lapic_id vectors p;
          let v := mkVdev d (caps v) (common_addr v) (common_cfg v) (notify_cfg v) (device_cfg v) (queues v) (notify_base v) (features v) in
          '(_, v, supply) ← find_virtio_pci_cap p v supply;
          '(e, v, supply) ← set_virtio_pci_capability hw p v supply;
          Some (e, v, p, supply)
      end
  end.

(** The doorbell: the address and the value written. *)
Definition notify_virtqueue (v : VirtioPciDevice) (queue_idx : Z) : option (Z * Z) :=
  q ← atz (queues v) queue_idx;
  cap ← notify_cfg v;
  Some (u64 (notify_base v + notify_off q * notify_off_multiplier cap), u16 queue_idx).
