(* ===== verification/VirtioPciSpec.v ===== *)
(** * What the virtio transport promises

    The layout of a queue, the features the driver takes, the registers after
    bring-up, and the interrupt of each queue. *)

From S2P Require Import Prelude BitUtils Message Virtio VirtioSpec Pci VirtioPci.

Open Scope Z_scope.

(** ** Layout *)

(** (queue layout) The three areas of a queue lie one behind the other inside the block that
    is allocated for them, each with the size the device uses for [n] descriptors and
    with the alignment the standard asks for. *)
Theorem queue_layout_fits n : queue_size_ok n ->
  let '(driver_off, device_off, total) := queue_layout n in
  driver_off = 16 * n /\ driver_off mod 2 = 0 /\ driver_off + (2 * n + 6) <= device_off < driver_off + (2 * n + 6) + 4 /\
  device_off mod 4 = 0 /\ total = device_off + (8 * n + 6) /\ total <= 26 * n + 15.
Proof.
  intros [Hn _]. unfold queue_layout, calc_desc_area_size, calc_driver_ring_size, calc_device_ring_size. rewrite !(wrap_small 64 (n * _)) by lia.
  assert (align_up (u32 (n * 16)) 2 = n * 16) as ->.
  { rewrite wrap_small by lia. rewrite (align_up_pow2 _ 1) by lia. replace (- (n * 16)) with (- n * 8 * 2 ^ 1) by lia. rewrite Z.mod_mul; lia. }
  rewrite (wrap_small 64 (n * 2 + 6)), (wrap_small 64 (n * 8 + 6)) by lia. set (x := n * 16 + (n * 2 + 6)).
  assert (align_up (u32 x) 4 = x + (- x) mod 4) as -> by (rewrite wrap_small by lia; by rewrite (align_up_pow2 _ 2) by lia).
  pose proof (Z.mod_pos_bound (- x) 4 ltac:(lia)) as Hm. assert ((x + (- x) mod 4) mod 4 = 0) as Ha. { rewrite Zplus_mod_idemp_r. by replace (x + - x) with 0 by lia. }
  rewrite wrap_small by lia. split_and!; [lia| |lia|lia|done|lia|lia]. replace (n * 16) with (n * 8 * 2) by lia. apply Z.mod_mul. lia.
Qed.

(** ** Features *)

Lemma features_words f : 0 <= f < 2 ^ 64 -> Z.lor (Z.lor 0 (u64 (Z.shiftl (u32 (Z.shiftr f 0)) 0))) (u64 (Z.shiftl (u32 (Z.shiftr f 32)) 32)) = f.
Proof.
  intros Hf. rewrite Z.shiftr_0_r, Z.shiftl_0_r, Z.lor_0_l. rewrite Z.shiftr_div_pow2, Z.shiftl_mul_pow2 by lia.
  pose proof (Z.mod_pos_bound f (2 ^ 32) ltac:(lia)). pose proof (Z.div_mod f (2 ^ 32) ltac:(lia)). assert (0 <= f / 2 ^ 32 < 2 ^ 32) by (split; [apply Z.div_pos; lia|apply Z.div_lt_upper_bound; lia]).
  pose proof (wrap_range 32 f ltac:(lia)). rewrite (wrap_small 32 (f / 2 ^ 32)), (wrap_small 64 (f / 2 ^ 32 * 2 ^ 32)), (wrap_small 64 (u32 f)) by lia.
  rewrite Z.lor_comm, <- Z.shiftl_mul_pow2 by lia. rewrite lor_shift_add by lia. unfold wrap. lia.
Qed.

Lemma read_features_all hw c : 0 <= hw_features hw < 2 ^ 64 -> fst (read_features hw c) = hw_features hw.
Proof. intros H. unfold read_features, read_device_feature. cbn [device_feature_select set_device_feature_select fst]. apply features_words. done. Qed.

(** What the driver takes of the features [f] for a device type. *)
Definition wanted (id f : Z) : Z :=
  Z.lor (if Z.testbit f 32 then 2 ^ 32 else 0) (if (id =? VIRTIO_NET) && Z.testbit f 5 then 2 ^ 5 else 0).

Lemma land_pow2_testbit f k : 0 <= k -> negb (Z.land f (2 ^ k) =? 0) = Z.testbit f k.
Proof.
  intros Hk. destruct (Z.testbit f k) eqn:E.
  - apply negb_true_iff, Z.eqb_neq. intros H0. assert (Z.testbit (Z.land f (2 ^ k)) k = true) by (rewrite Z.land_spec, E, Z.pow2_bits_true; done).
    rewrite H0, Z.bits_0 in *. done.
  - apply negb_false_iff, Z.eqb_eq, Z.bits_inj'. intros j Hj. rewrite Z.land_spec, Z.bits_0. destruct (decide (j = k)) as [->|Hne]; [by rewrite E|].
    rewrite Z.pow2_bits_false by lia. apply andb_false_r.
Qed.

Lemma wanted_range id f : 0 <= wanted id f < 2 ^ 33.
Proof. unfold wanted. destruct (Z.testbit f 32), ((id =? VIRTIO_NET) && Z.testbit f 5); by vm_compute. Qed.

Lemma wanted_offered id f k : 0 <= k -> Z.testbit (wanted id f) k = true -> Z.testbit f k = true.
Proof.
  intros Hk. unfold wanted. rewrite Z.lor_spec. intros [H|H]%orb_true_iff.
  - destruct (Z.testbit f 32) eqn:E; [|by rewrite Z.bits_0 in H]. destruct (decide (k = 32)) as [->|]; [done|]. by rewrite Z.pow2_bits_false in H by lia.
  - destruct (id =? VIRTIO_NET); [|by rewrite Z.bits_0 in H]. cbn [andb] in H. destruct (Z.testbit f 5) eqn:E; [|by rewrite Z.bits_0 in H].
    destruct (decide (k = 5)) as [->|]; [done|]. by rewrite Z.pow2_bits_false in H by lia.
Qed.

(** A known device type. *)
Definition known (id : Z) : Prop := id = VIRTIO_NET \/ id = VIRTIO_BLK.

Lemma accepted_words c f : 0 <= f < 2 ^ 64 ->
  accepted_features (set_driver_feature 1 (Z.land (Z.shiftr f 32) 0xffffffff) (set_driver_feature 0 (Z.land (Z.shiftr f 0) 0xffffffff) c)) = f.
Proof.
  intros Hf. unfold accepted_features. cbn [driver_feature set_driver_feature]. change (0 =? 1) with false. change (1 =? 1) with true. change (0 =? 0) with true. cbv iota.
  change 0xffffffff with (Z.ones 32). rewrite !Z.land_ones by lia. rewrite !(wrap_small 32) by (apply Z.mod_pos_bound; lia).
  rewrite <- (features_words f Hf) at 3. rewrite Z.lor_0_l, Z.shiftl_0_r. rewrite (wrap_small 64 (u32 _)) by (pose proof (wrap_range 32 (Z.shiftr f 0)); lia).
  f_equal. pose proof (wrap_range 32 (Z.shiftr f 32) ltac:(lia)). rewrite wrap_small; [done|]. rewrite Z.shiftl_mul_pow2 by lia. lia.
Qed.

Lemma driver_features_wanted id f : known id ->
  (let df := if negb (Z.land f (Z.shiftl 1 VIRTIO_F_VERSION_1) =? 0) then Z.lor 0 (Z.shiftl 1 VIRTIO_F_VERSION_1) else 0 in
   if id =? VIRTIO_NET then if negb (Z.land f VIRTIO_NET_F_MAC =? 0) then Z.lor df VIRTIO_NET_F_MAC else df else df) = wanted id f.
Proof.
  intros Hid. change (Z.shiftl 1 VIRTIO_F_VERSION_1) with (2 ^ 32). change VIRTIO_NET_F_MAC with (2 ^ 5). rewrite !land_pow2_testbit by done. unfold wanted.
  destruct (Z.testbit f 32), (id =? VIRTIO_NET), (Z.testbit f 5); done.
Qed.

(** The driver takes the features it wants, and tells the device. *)
Lemma negotiate_spec hw v : let f := hw_features hw in let w := wanted (device_id (vdev v)) f in
  0 <= f < 2 ^ 64 -> known (device_id (vdev v)) -> hw_features_ok hw w = true ->
  exists c, negotiate_features hw v = (err OK, set_cfg c (set_features w v)) /\ accepted_features c = w /\
    device_status c = u8 (Z.lor (device_status (common_cfg v)) VIRTIO_STATUS_FEATURES_OK) /\ queue_select c = queue_select (common_cfg v) /\
    queue_regs c = queue_regs (common_cfg v).
Proof.
  intros f w Hf Hid Hok. unfold negotiate_features. pose proof (read_features_all hw (common_cfg v) Hf) as Hr.
  destruct (read_features hw (common_cfg v)) as [df c] eqn:E. cbn [fst] in Hr. subst df. cbv zeta. fold f.
  assert (negb (device_id (vdev v) =? VIRTIO_NET) && negb (device_id (vdev v) =? VIRTIO_BLK) = false) as ->.
  { destruct Hid as [-> | ->]; done. }
  pose proof (driver_features_wanted (device_id (vdev v)) f Hid) as Hw. cbv zeta in Hw. rewrite Hw. fold w. pose proof (wanted_range (device_id (vdev v)) f).
  assert (device_status c = device_status (common_cfg v) /\ queue_select c = queue_select (common_cfg v) /\ queue_regs c = queue_regs (common_cfg v)) as (Hs & Hq & Hregs).
  { unfold read_features in E. by injection E as _ <-. }
  assert (0 <= w < 2 ^ 64) as Hrange by (unfold w; lia).
  eexists. split; [done|]. unfold set_device_status. rewrite accepted_words, Hok by done. split_and!; [by apply (accepted_words c)| |done|done].
  cbn [device_status set_driver_feature]. by rewrite Hs.
Qed.

(** ** Queues *)

(** Queue [i] is set up with the memory at [a]. *)
Definition queue_ready (hw : VirtioHw) (n driver_off device_off i a : Z) (v : VirtioPciDevice) : Prop :=
  (exists q, atz (queues v) i = Some q /\ fresh_queue i n (hw_notify_off hw i) q) /\
  queue_regs (common_cfg v) i = mkQregs a (u64 (a + driver_off)) (u64 (a + device_off)) (1 + i) 1.

(** What setting up queues leaves alone. *)
Definition same_device (v v' : VirtioPciDevice) : Prop :=
  (vdev v' = vdev v /\ notify_cfg v' = notify_cfg v /\ device_cfg v' = device_cfg v) /\ features v' = features v /\ lenz (queues v') = lenz (queues v) /\
  device_status (common_cfg v') = device_status (common_cfg v) /\ accepted_features (common_cfg v') = accepted_features (common_cfg v).

Lemma setup_queue_spec hw i n dr dv v a rest : 0 < n -> 0 <= i < 65534 -> i < lenz (queues v) -> 1 + i < hw_vectors hw -> a <> 0 ->
  atz (queues v) i = Some zero_queue ->
  exists v', setup_queue hw i n dr dv v (a :: rest) = Some (err OK, v', rest) /\ queue_ready hw n dr dv i a v' /\ same_device v v' /\
    forall j, j <> i -> atz (queues v') j = atz (queues v) j /\ queue_regs (common_cfg v') j = queue_regs (common_cfg v) j.
Proof.
  intros Hn Hi Hlen Hvec Ha Hq. unfold setup_queue. cbn [take_addr]. destruct (Z.eqb_spec a 0); [done|].
  cbn [queues set_cfg set_common]. rewrite Hq. cbn [mbind option_bind]. destruct (init_virtqueue_total i n (hw_notify_off hw i)) as (q & Hfresh & _); [done|].
  unfold read_queue_notify_off. cbn [common_cfg queue_select set_cfg set_common set_queue_regs set_queue_select]. rewrite (wrap_small 16 i) by lia.
  pose proof Hfresh as E. unfold fresh_queue in E. rewrite E. cbn [mbind option_bind]. unfold read_vector. rewrite (wrap_small 16 (1 + i)) by lia.
  assert ((1 + i <? hw_vectors hw) = true) as -> by (apply Z.ltb_lt; lia). destruct (Z.eqb_spec (1 + i) NO_VECTOR) as [E2|_]; [unfold NO_VECTOR in E2; lia|].
  eexists. split; [done|]. unfold queue_ready, same_device, accepted_features.
  cbn [vdev features queues common_cfg set_cfg set_common set_queues device_status driver_feature queue_regs set_queue_regs set_queue_select queue_select].
  rewrite !(wrap_small 16 i), Z.eqb_refl, lenz_setz by lia. split_and!; try done.
  - exists q. split; [apply atz_setz_eq; lia|done].
  - intros j Hj. rewrite atz_setz_ne by lia. destruct (Z.eqb_spec j i); [done|]. by destruct (Z.eqb_spec j i).
Qed.

Lemma same_device_trans v1 v2 v3 : same_device v1 v2 -> same_device v2 v3 -> same_device v1 v3.
Proof. unfold same_device. intros ((?&?&?)&?&?&?&?) ((?&?&?)&?&?&?&?). split_and!; congruence. Qed.

Lemma setup_queues_spec hw n dr dv k : 0 < n -> forall i v addrs rest, 0 <= i -> length addrs = k -> i + Z.of_nat k < 65535 -> i + Z.of_nat k <= lenz (queues v) ->
  i + Z.of_nat k < hw_vectors hw -> Forall (fun a => a <> 0) addrs -> (forall j, i <= j < i + Z.of_nat k -> atz (queues v) j = Some zero_queue) ->
  exists v', setup_queues hw k i n dr dv v (addrs ++ rest) = Some (err OK, v', rest) /\ same_device v v' /\
    (forall j a, addrs !! j = Some a -> queue_ready hw n dr dv (i + Z.of_nat j) a v') /\
    forall j, j < i -> atz (queues v') j = atz (queues v) j /\ queue_regs (common_cfg v') j = queue_regs (common_cfg v) j.
Proof.
  intros Hn. induction k as [|k IH]; intros i v addrs rest Hi Hk Hmax Hlen Hvec Hnz Hz.
  - destruct addrs; [|done]. exists v. by split_and!.
  - destruct addrs as [|a addrs]; [done|]. injection Hk as Hk. apply Forall_cons in Hnz as [Ha Hnz]. cbn [setup_queues app].
    destruct (setup_queue_spec hw i n dr dv v a (addrs ++ rest)) as (v1 & E & Hr & Hs & Ho); [done|lia|lia|lia|done|apply Hz; lia|].
    rewrite E. cbn [mbind option_bind]. change (IS_ERR (err OK)) with false. cbv iota. pose proof Hs as (_ & _ & Hl & _).
    destruct (IH (i + 1) v1 addrs rest) as (v2 & E2 & Hs2 & Hr2 & Ho2); [lia|done|lia|lia|lia|done|intros j Hj; rewrite (proj1 (Ho j ltac:(lia))); apply Hz; lia|].
    exists v2. split; [done|]. split; [by eapply same_device_trans|]. split.
    + intros [|j] x Hx; cbn in Hx.
      * assert (x = a) as -> by congruence. rewrite Z.add_0_r. destruct (Ho2 i ltac:(lia)) as [Hq Hg]. unfold queue_ready in *. by rewrite Hq, Hg.
      * replace (i + Z.of_nat (S j)) with (i + 1 + Z.of_nat j) by lia. by apply Hr2.
    + intros j Hj. destruct (Ho2 j ltac:(lia)) as [-> ->]. apply Ho. lia.
Qed.

Lemma bringup_spec hw p cap v b addrs rest :
  let f := hw_features hw in let w := wanted (device_id (vdev v)) f in let n := hw_queue_size hw 0 in
  let '(dr, dv, total) := queue_layout n in
  0 <= f < 2 ^ 64 -> known (device_id (vdev v)) -> hw_features_ok hw w = true -> 0 < n ->
  b <> 0 -> Forall (fun a => a <> 0) addrs -> lenz addrs = hw_num_queues hw -> lenz addrs < 65535 -> lenz addrs < hw_vectors hw ->
  exists v', configure_pci_common_cfg hw p cap v (b :: addrs ++ rest) = Some (err OK, v', rest) /\
    device_status (common_cfg v') = 15 /\ accepted_features (common_cfg v') = w /\ (forall k, 0 <= k -> Z.testbit w k = true -> Z.testbit f k = true) /\
    lenz (queues v') = lenz addrs /\ (forall i a, addrs !! i = Some a -> queue_ready hw n dr dv (Z.of_nat i) a v') /\
    vdev v' = vdev v /\ notify_cfg v' = notify_cfg v /\ device_cfg v' = device_cfg v.
Proof.
  intros f w n. destruct (queue_layout n) as [[dr dv] total] eqn:El. intros Hf Hid Hok Hn Hb Hnz Hlen Hmax Hvec. unfold configure_pci_common_cfg.
  set (v0 := set_common (capability_addr p (vdev v) cap) reset_cfg v). set (c1 := set_device_status hw VIRTIO_STATUS_ACKNOWLEDGE (common_cfg v0)). cbv zeta.
  set (c2 := set_device_status hw (Z.lor (device_status c1) VIRTIO_STATUS_DRIVER) c1).
  assert (device_status c2 = 3 /\ queue_select c2 = 0) as [Hs2 Hq2].
  { unfold c2, c1, set_device_status. cbn [device_status queue_select common_cfg set_common v0]. change (accepted_features reset_cfg) with 0.
    change (accepted_features _) with 0. destruct (hw_features_ok hw 0); done. }
  destruct (negotiate_spec hw (set_cfg c2 v0)) as (c & En & Hacc & Hst & Hsel & _); [done|done|done|].
  rewrite En. change (IS_ERR (err OK)) with false. cbv iota. set (v1 := set_cfg c (set_features _ _)).
  cbn [common_cfg config_msix_vector set_cfg set_common set_config_vector v1 set_features]. unfold read_vector.
  pose proof (lenz_nonneg addrs). assert ((0 <? hw_vectors hw) = true) as -> by (apply Z.ltb_lt; lia). change (0 =? NO_VECTOR) with false. cbv iota.
  unfold setup_virtqueue, read_queue_size. cbn [common_cfg queue_select set_cfg set_common set_config_vector]. rewrite Hsel. cbn [common_cfg set_cfg set_common]. rewrite Hq2.
  fold n. rewrite El. cbn [take_addr]. destruct (Z.eqb_spec b 0); [done|]. set (v2 := set_queues _ _).
  assert (length addrs = Z.to_nat (hw_num_queues hw)) as Hk by (unfold lenz in *; lia).
  destruct (setup_queues_spec hw n dr dv (Z.to_nat (hw_num_queues hw)) Hn 0 v2 addrs rest) as (v3 & E3 & ((Hd3 & Hn3 & Hc3) & Hf3 & Hl3 & Hs3 & Ha3) & Hr3 & _).
  { lia. } { done. } { unfold lenz in *. lia. }
  { unfold v2. cbn [queues set_queues]. unfold lenz. rewrite length_replicate. lia. }
  { unfold lenz in *. lia. } { done. }
  { intros j Hj. unfold v2. cbn [queues set_queues]. apply atz_Some. split; [lia|]. apply lookup_replicate_2. lia. }
  rewrite E3. cbn [mbind option_bind]. change (IS_ERR (err OK)) with false. cbv iota. eexists. split; [done|].
  change (accepted_features (common_cfg v2)) with (accepted_features c) in Ha3. change (device_status (common_cfg v2)) with (device_status c) in Hs3.
  change (vdev (set_cfg c2 v0)) with (vdev v) in Hacc. change (hw_features hw) with f in Hacc. fold w in Hacc.
  unfold set_device_status. cbn [common_cfg set_cfg set_common device_status accepted_features queues queue_regs]. rewrite Ha3, Hacc, Hok. split_and!.
  - rewrite Hs3, Hst. change (device_status (common_cfg (set_cfg c2 v0))) with (device_status c2). by rewrite Hs2.
  - change (accepted_features (common_cfg v3) = w). congruence.
  - intros k Hk0 Hb0. by apply (wanted_offered (device_id (vdev v))).
  - rewrite Hl3. unfold v2. cbn [queues set_queues]. unfold lenz. rewrite length_replicate. lia.
  - intros i a Hi. apply Hr3 in Hi. by rewrite Z.add_0_l in Hi.
  - by cbn [vdev].
  - by cbn [notify_cfg].
  - by cbn [device_cfg].
Qed.

(** (bring-up) With memory for its queues and a vector for each of them, a known device is
    brought up: the status says acknowledged, driver, features and driver ready;
    the features taken are offered by the device; and queue [i] is a fresh queue in
    its own block of memory, enabled, with vector [1 + i]. *)
Theorem virtio_bringup hw p cap v b addrs rest :
  let f := hw_features hw in let w := wanted (device_id (vdev v)) f in let n := hw_queue_size hw 0 in
  let '(dr, dv, total) := queue_layout n in
  0 <= f < 2 ^ 64 -> known (device_id (vdev v)) -> hw_features_ok hw w = true -> 0 < n ->
  b <> 0 -> Forall (fun a => a <> 0) addrs -> lenz addrs = hw_num_queues hw -> lenz addrs < 65535 -> lenz addrs < hw_vectors hw ->
  exists v', configure_pci_common_cfg hw p cap v (b :: addrs ++ rest) = Some (err OK, v', rest) /\
    device_status (common_cfg v') = 15 /\ accepted_features (common_cfg v') = w /\ (forall k, 0 <= k -> Z.testbit w k = true -> Z.testbit f k = true) /\
    lenz (queues v') = lenz addrs /\ forall i a, addrs !! i = Some a -> queue_ready hw n dr dv (Z.of_nat i) a v'.
Proof.
  intros f w n. pose proof (bringup_spec hw p cap v b addrs rest) as H. cbv zeta in H. fold f w n in H. destruct (queue_layout n) as [[dr dv] total].
  intros H1 H2 H3 H4 H5 H6 H7 H8 H9. destruct (H H1 H2 H3 H4 H5 H6 H7 H8 H9) as (v' & E & Hs & Hf & Ho & Hl & Hr & _). by exists v'.
Qed.

(** ** Interrupts *)

(** Setting bits 30 and 31 leaves the low half of a header alone. *)
Definition msix_enabled (h : Z) : Z := set_field 30 1 0 (set_field 31 1 1 h).

Lemma msix_enabled_bits h k : 0 <= k -> Z.testbit (msix_enabled h) k = if k =? 31 then true else if k =? 30 then false else Z.testbit h k && (k <? 32).
Proof.
  intros Hk. unfold msix_enabled, set_field. change (2 ^ 1 - 1) with 1. change (1 mod 2 ^ 1) with 1. change (0 mod 2 ^ 1) with 0. rewrite Z.shiftl_0_l, Z.lor_0_r.
  rewrite Z.land_spec, Z.lor_spec, Z.land_spec.
  change (wnot 32 (Z.shiftl 1 30)) with 0xbfffffff. change (wnot 32 (Z.shiftl 1 31)) with 0x7fffffff. change (Z.shiftl 1 31) with (2 ^ 31).
  rewrite Z.pow2_bits_eqb by lia. change 0x7fffffff with (Z.ones 31).
  assert (Z.testbit 0xbfffffff k = ((k <? 30) || (k =? 31))) as ->.
  { change 0xbfffffff with (Z.lor (Z.ones 30) (2 ^ 31)). rewrite Z.lor_spec, Z.testbit_ones_nonneg, Z.pow2_bits_eqb by lia. by rewrite (Z.eqb_sym 31). }
  rewrite Z.testbit_ones_nonneg by lia.
  destruct (Z.eqb_spec k 31) as [->|]; [by rewrite orb_true_r|]. destruct (Z.eqb_spec k 30) as [->|]; [by rewrite andb_false_r|].
  destruct (Z.eqb_spec 31 k); [lia|]. rewrite !orb_false_r. destruct (Z.ltb_spec k 30).
  - destruct (Z.ltb_spec k 31), (Z.ltb_spec k 32); try lia. by rewrite !andb_true_r.
  - rewrite andb_false_r. destruct (Z.ltb_spec k 32); [lia|]. by rewrite andb_false_r.
Qed.

Lemma msix_enabled_range h : 0 <= msix_enabled h < 2 ^ 32.
Proof.
  assert (msix_enabled h = msix_enabled h mod 2 ^ 32) as ->; [|apply Z.mod_pos_bound; lia]. apply Z.bits_inj'. intros k Hk.
  destruct (Z.ltb_spec k 32); [by rewrite Z.mod_pow2_bits_low|]. rewrite Z.mod_pow2_bits_high by lia. rewrite msix_enabled_bits by lia.
  destruct (Z.eqb_spec k 31), (Z.eqb_spec k 30), (Z.ltb_spec k 32); lia.
Qed.

(** Fields below bit 30 are not affected. *)
Lemma msix_enabled_field lo n h : 0 <= lo -> 0 <= n -> lo + n <= 30 -> field lo n (msix_enabled h) = field lo n h.
Proof.
  intros Hlo Hn Hle. unfold field. replace (2 ^ n - 1) with (Z.ones n) by (rewrite Z.ones_equiv; lia). apply Z.bits_inj'. intros k Hk.
  rewrite !Z.land_spec, !Z.shiftr_spec, Z.testbit_ones_nonneg by lia. destruct (Z.ltb_spec k n); [|by rewrite !andb_false_r].
  rewrite msix_enabled_bits by lia. destruct (Z.eqb_spec (k + lo) 31), (Z.eqb_spec (k + lo) 30), (Z.ltb_spec (k + lo) 32); try lia. by rewrite andb_true_r.
Qed.

(** Two configuration spaces whose registers have the same low halves have the same
    capability list. *)
Definition same_low (p p' : Pci) : Prop := forall a, field 0 16 (conf p' a) = field 0 16 (conf p a).

Lemma low_fields x y : field 0 16 x = field 0 16 y -> cap_id x = cap_id y /\ next_ptr x = next_ptr y.
Proof.
  intros H. assert (forall k, 0 <= k < 16 -> Z.testbit x k = Z.testbit y k) as Hb.
  { intros k Hk. assert (Z.testbit (field 0 16 x) k = Z.testbit (field 0 16 y) k) as E by (by rewrite H). unfold field in E.
    change (2 ^ 16 - 1) with (Z.ones 16) in E. rewrite !Z.land_spec, !Z.shiftr_0_r, Z.testbit_ones_nonneg in E by lia.
    destruct (Z.ltb_spec k 16); [|lia]. by rewrite !andb_true_r in E. }
  unfold cap_id, next_ptr. change 0xff with (Z.ones 8). split; apply Z.bits_inj'; intros k Hk; rewrite !Z.land_spec, ?Z.shiftr_spec, Z.testbit_ones_nonneg by lia;
    (destruct (Z.ltb_spec k 8); [|by rewrite !andb_false_r]); rewrite !andb_true_r; apply Hb; lia.
Qed.

Lemma find_msi_same p p' d : same_low p p' -> for_each_capability p' d find_msi (0, 0) = for_each_capability p d find_msi (0, 0).
Proof.
  intros H. unfold for_each_capability. assert (get_capability_pointer p' d = get_capability_pointer p d) as ->.
  { unfold get_capability_pointer, read_conf_reg, read_config. apply (low_fields _ _ (H _)). }
  generalize (get_capability_pointer p d) as a. generalize (0, 0) as s. generalize CAPABILITY_FUEL as n. induction n as [|n IH]; intros s a; cbn [visit_capabilities]; [done|].
  destruct (a =? 0); [done|]. unfold read_capability_header, read_conf_reg, read_config.
  destruct (low_fields _ _ (H (calc_config_addr (bus d) (device d) (function d) (u8 a)))) as [Hid Hnext]. rewrite Hnext, IH. f_equal.
  unfold find_msi. by rewrite Hid.
Qed.

(** The device has an MSI-X capability at [c], with [n] table entries from [table]. *)
Record msix_device (p : Pci) (d : Device) (c table n : Z) : Prop := mkMsixDevice {
  md_place : 0 <= bus d < 256 /\ 0 <= device d < 32 /\ 0 <= function d < 8;
  md_cap : 64 <= c < 248;
  md_found : exists m, for_each_capability p d find_msi (0, 0) = Some (m, c);
  md_size : n = field 16 11 (read_conf_reg p d c) + 1;
  md_table : table = msix_table p d (read_conf_reg p d (c + 4));
  md_fits : table_ok table n;
}.

(** Another register of the device is not the one at [c]. *)
Lemma other_register p d c o h : 0 <= bus d < 256 /\ 0 <= device d < 32 /\ 0 <= function d < 8 -> 64 <= c < 248 -> 0 <= o < 256 -> o / 4 <> c / 4 ->
  read_config (write_conf_reg d c h p) (bus d) (device d) (function d) o = read_config p (bus d) (device d) (function d) o.
Proof.
  intros (Hb & Hd & Hf) Hc Ho Hne. unfold read_config, write_conf_reg. cbn [conf set_conf]. rewrite (wrap_small 8) by lia.
  destruct (Z.eqb_spec (calc_config_addr (bus d) (device d) (function d) o) (calc_config_addr (bus d) (device d) (function d) c)) as [E|]; [|done].
  exfalso. rewrite !config_addr_sum in E by lia. pose proof (Z.div_mod o 4 ltac:(lia)). pose proof (Z.div_mod c 4 ltac:(lia)). lia.
Qed.

Lemma table_after p d c h t : 0 <= bus d < 256 /\ 0 <= device d < 32 /\ 0 <= function d < 8 -> 64 <= c < 248 -> msix_table (write_conf_reg d c h p) d t = msix_table p d t.
Proof.
  intros Hp Hc. unfold msix_table. do 2 f_equal. f_equal. unfold read_base_address_register.
  assert (0 <= field 0 3 t < 8) as Hi. { unfold field. change (2 ^ 3 - 1) with (Z.ones 3). rewrite Z.land_ones by lia. apply Z.mod_pos_bound. lia. }
  rewrite (wrap_small 32) by lia. rewrite !(wrap_small 8) by lia.
  assert (forall o, 0 <= o < 64 -> o / 4 <> c / 4) as Hne.
  { intros o Ho E. assert (o / 4 < 16) by (apply Z.div_lt_upper_bound; lia). assert (16 <= c / 4) by (apply Z.div_le_lower_bound; lia). lia. }
  by rewrite !(other_register p d c) by (done || lia || (apply Hne; lia)).
Qed.

(** What the interrupt setup does to the configuration space of the device: it enables
    the interrupts of the capability at [c], unmasked, and changes nothing else that is
    looked at. *)
Record msix_on (p p' : Pci) (d : Device) (c : Z) : Prop := mkMsixOn {
  mo_low : same_low p p';
  mo_other : forall o, 0 <= o < 256 -> o / 4 <> c / 4 -> read_config p' (bus d) (device d) (function d) o = read_config p (bus d) (device d) (function d) o;
  mo_enabled : Z.testbit (read_conf_reg p' d c) 31 = true /\ Z.testbit (read_conf_reg p' d c) 30 = false;
}.

(** One vector goes to the first entry that is not taken. *)
Lemma configure_msix_spec p d c table n apic vec k : msix_device p d c table n -> 0 <= apic < 256 -> 0 <= vec < 256 -> 0 <= k < n ->
  (forall j, 0 <= j < k -> mmio p (table + 16 * j) <> 0) -> mmio p (table + 16 * k) = 0 ->
  exists p', configure_msi_fixed_destination d apic EDGE FIXED vec 0 p = Some p' /\ msix_device p' d c table n /\ msix_on p p' d c /\
    entry_is (mmio p') table k (Z.lor 0xfee00000 (Z.shiftl apic 12)) vec /\ forall x, x < table + 16 * k \/ table + 16 * k + 12 < x -> mmio p' x = mmio p x.
Proof.
  intros [Hplace Hc (m & Hfound) Hsize Htable Hfits] Ha Hv Hk Hused Hz. unfold configure_msi_fixed_destination, configure_msi. cbn [delivery_mode].
  rewrite Z.shiftl_0_l, Z.lor_0_l, Hfound. cbn [mbind option_bind]. destruct (Z.eqb_spec c 0); [lia|]. cbn [negb]. eexists. split; [done|].
  unfold configure_msi_x_register. fold (msix_enabled (read_conf_reg p d c)). set (h := msix_enabled (read_conf_reg p d c)). set (p1 := write_conf_reg d c h p).
  assert (same_low p p1) as Hlow.
  { intros a. unfold p1, write_conf_reg. cbn [conf set_conf]. destruct (Z.eqb_spec a (calc_config_addr (bus d) (device d) (function d) (u8 c))) as [->|]; [|done].
    rewrite wrap_small by apply msix_enabled_range. unfold h. by rewrite msix_enabled_field by lia. }
  assert (read_conf_reg p1 d c = h) as Hh. { unfold read_conf_reg, read_config, p1, write_conf_reg. cbn [conf set_conf]. rewrite Z.eqb_refl. apply wrap_small, msix_enabled_range. }
  assert (read_conf_reg p1 d (c + 4) = read_conf_reg p d (c + 4)) as Ht.
  { unfold read_conf_reg. rewrite (wrap_small 8) by lia. unfold p1. apply other_register; [done|lia|lia|]. replace (c + 4) with (c + 1 * 4) by lia. rewrite Z.div_add by lia. lia. }
  unfold configure_msi_x_table_entry. assert (field 16 11 h + 1 = n) as -> by (unfold h; rewrite msix_enabled_field by lia; lia).
  assert (msix_table p1 d (read_conf_reg p d (c + 4)) = table) as -> by (unfold p1; by rewrite table_after). change (mmio p1) with (mmio p). cbn [mmio set_mmio].
  assert (0 <= Z.lor 0xfee00000 (Z.shiftl apic 12) < 2 ^ 32) as Haddr.
  { replace 0xfee00000 with (Z.shiftl 0xfee 20) by done. assert (Z.shiftl apic 12 = apic * 4096) as Es by (by rewrite Z.shiftl_mul_pow2 by lia).
    rewrite lor_shift_add; lia. }
  destruct (fill_table_spec table (Z.lor 0xfee00000 (Z.shiftl apic 12)) vec (Z.to_nat n) 0 k (mmio p)) as [He Ho]; [|lia|lia|done|done|done|lia|].
  { by replace (0 + Z.of_nat (Z.to_nat n)) with n by lia. }
  split; [|split; [|split; [exact He|exact Ho]]].
  2:{ split; [exact Hlow|intros o Hr Hne; by apply other_register|]. change (read_conf_reg (set_mmio _ p1) d c) with (read_conf_reg p1 d c). rewrite Hh. unfold h. by rewrite !msix_enabled_bits by lia. }
  split; try done.
  - exists m. rewrite <- Hfound. by apply find_msi_same.
  - change (read_conf_reg (set_mmio _ p1) d c) with (read_conf_reg p1 d c). rewrite Hh. unfold h. rewrite msix_enabled_field by lia. done.
  - change (read_conf_reg (set_mmio _ p1) d (c + 4)) with (read_conf_reg p1 d (c + 4)). rewrite Ht. change (msix_table (set_mmio _ p1) d) with (msix_table p1 d).
    unfold p1. by rewrite table_after.
Qed.

Lemma msix_on_trans p1 p2 p3 d c : msix_on p1 p2 d c -> msix_on p2 p3 d c -> msix_on p1 p3 d c.
Proof.
  intros [L1 O1 _] [L2 O2 E2]. split; [intros a; by rewrite L2, L1| |done]. intros o Ho Hne. by rewrite O2, O1.
Qed.

(** (interrupt vectors) The vectors of a descriptor go to consecutive entries of the interrupt table,
    addressed to the boot processor, and the interrupts of the device are enabled:
    since queue [i] is given vector number [1 + i], it raises entry [1 + i] of its
    device's list, and the configuration change interrupt raises entry 0. *)
Theorem vectors_in_order d c table n apic vectors : 0 <= apic < 256 -> Forall (fun v => 0 <= v < 256) vectors -> 0 < lenz vectors <= n ->
  forall p, msix_device p d c table n -> (forall j, 0 <= j < n -> mmio p (table + 16 * j) = 0) ->
  exists p', configure_interrupts d apic vectors p = Some p' /\ msix_on p p' d c /\
    forall i v, vectors !! i = Some v -> entry_is (mmio p') table (Z.of_nat i) (Z.lor 0xfee00000 (Z.shiftl apic 12)) v.
Proof.
  intros Ha Hv Hlen p Hp Hz. set (addr := Z.lor 0xfee00000 (Z.shiftl apic 12)).
  assert (addr <> 0) as Hnz. { unfold addr. intros E. apply Z.lor_eq_0_iff in E as [? _]. done. }
  assert (forall vs k q, 0 <= k -> k + lenz vs <= n -> Forall (fun v => 0 <= v < 256) vs -> msix_device q d c table n ->
    (forall j, 0 <= j < k -> mmio q (table + 16 * j) <> 0) -> (forall j, k <= j < n -> mmio q (table + 16 * j) = 0) ->
    exists q', configure_interrupts d apic vs q = Some q' /\ (forall x, x < table + 16 * k -> mmio q' x = mmio q x) /\ (vs = [] /\ q' = q \/ msix_on q q' d c) /\
      forall i v, vs !! i = Some v -> entry_is (mmio q') table (k + Z.of_nat i) addr v) as Hgen.
  { induction vs as [|v vs IH]; intros k q Hk Hkn Hvs Hq Hused Hfree; [exists q; split_and!; [done|done|by left|done]|]. rewrite lenz_cons in Hkn. pose proof (lenz_nonneg vs).
    apply Forall_cons in Hvs as [Hv1 Hvs]. cbn [configure_interrupts].
    destruct (configure_msix_spec q d c table n apic v k) as (q1 & E1 & Hq1 & Hon1 & He1 & Ho1); [done|done|done|lia|done|apply Hfree; lia|]. rewrite E1. cbn [mbind option_bind].
    destruct (IH (k + 1) q1) as (q2 & E2 & Hsame & Hon2 & Hent); [lia|lia|done|done| | |].
    - intros j Hj. destruct (decide (j = k)) as [->|]; [by rewrite (proj1 He1)|]. rewrite Ho1 by lia. apply Hused. lia.
    - intros j Hj. rewrite Ho1 by lia. apply Hfree. lia.
    - exists q2. split; [done|]. split; [intros x Hx; rewrite Hsame by lia; apply Ho1; lia|]. split; [right; destruct Hon2 as [[_ ->]|Hon2]; [done|by eapply msix_on_trans]|]. intros [|i] w Hw; cbn in Hw.
      + assert (w = v) as -> by congruence. rewrite Z.add_0_r. destruct He1 as (H1 & H2 & H3 & H4). unfold entry_is. rewrite !Hsame by lia. done.
      + replace (k + Z.of_nat (S i)) with (k + 1 + Z.of_nat i) by lia. by apply Hent. }
  destruct (Hgen vectors 0 p) as (p' & E & _ & Hon & Hent); [lia|lia|done|done|lia|done|]. exists p'. split; [done|].
  split; [destruct Hon as [[-> _]|]; [unfold lenz in Hlen; simpl in Hlen; lia|done]|]. intros i v Hi. apply Hent in Hi. by rewrite Z.add_0_l in Hi.
Qed.

(** ** The capability list *)

(** The list that starts at [a]. *)
Fixpoint caps_from (p : Pci) (d : Device) (a : Z) (l : list Z) : Prop :=
  match l with
  | [] => a = 0
  | c :: l => a = c /\ c <> 0 /\ caps_from p d (next_ptr (read_conf_reg p d c)) l
  end.

(** The capabilities of the device are at [l]. *)
Definition capabilities (p : Pci) (d : Device) (l : list Z) : Prop := caps_from p d (get_capability_pointer p d) l /\ (length l <= CAPABILITY_FUEL)%nat.

Lemma visit_list {S} p d (visit : Z -> Z -> S -> S) l : forall fuel a s, caps_from p d a l -> (length l <= fuel)%nat ->
  visit_capabilities fuel p d visit a s = Some (fold_left (fun s c => visit (read_conf_reg p d c) c s) l s).
Proof.
  induction l as [|c l IH]; intros fuel a s Hl Hf; cbn [caps_from] in Hl.
  - subst a. by destruct fuel.
  - destruct Hl as (-> & Hc & Hl). destruct fuel as [|fuel]; [cbn in Hf; lia|]. cbn [visit_capabilities fold_left]. destruct (Z.eqb_spec c 0); [done|]. apply IH; [done|cbn in Hf; lia].
Qed.

Lemma for_each_list {S} p d (visit : Z -> Z -> S -> S) l s : capabilities p d l ->
  for_each_capability p d visit s = Some (fold_left (fun s c => visit (read_conf_reg p d c) c s) l s).
Proof. intros [Hl Hf]. by apply visit_list. Qed.

Lemma capabilities_low p p' d l : same_low p p' -> capabilities p d l -> capabilities p' d l.
Proof.
  intros Hlow [Hl Hf]. split; [|done]. assert (forall a l, caps_from p d a l -> caps_from p' d a l) as Hgen.
  { intros a l0. revert a. induction l0 as [|c l0 IH]; intros a H; [done|]. destruct H as (-> & Hc & H). split_and!; [done|done|].
    unfold read_conf_reg, read_config in *. rewrite (proj2 (low_fields _ _ (Hlow _))). by apply IH. }
  unfold get_capability_pointer, read_conf_reg, read_config in *. destruct (low_fields _ _ (Hlow (calc_config_addr (bus d) (device d) (function d) (u8 0x34)))) as [Hid _]. unfold cap_id in Hid. rewrite Hid. by apply Hgen.
Qed.

(** With one interrupt capability of the second kind in the list, it is found. *)
Lemma find_msix_list p d l1 c l2 : capabilities p d (l1 ++ c :: l2) -> cap_id (read_conf_reg p d c) = CAP_MSIX ->
  Forall (fun a => cap_id (read_conf_reg p d a) <> CAP_MSIX) l2 -> exists m, for_each_capability p d find_msi (0, 0) = Some (m, c).
Proof.
  intros Hl Hc H2. rewrite (for_each_list _ _ _ _ _ Hl), fold_left_app. cbn [fold_left]. set (s := fold_left _ l1 _). assert (exists m, find_msi (read_conf_reg p d c) c s = (m, c)) as [m ->].
  { unfold find_msi. rewrite Hc. change (CAP_MSIX =? CAP_MSI) with false. rewrite Z.eqb_refl. by eexists. }
  clear Hl. revert m. induction H2 as [|a l2 Ha _ IH]; intros m; cbn [fold_left]; [by exists m|]. unfold find_msi at 2. destruct (_ =? CAP_MSI); [apply IH|].
  destruct (Z.eqb_spec (cap_id (read_conf_reg p d a)) CAP_MSIX); [done|apply IH].
Qed.

(** The structure a virtio capability at [a] describes. *)
Definition is_virtio_cap (p : Pci) (d : Device) (a : Z) : bool := cap_id (read_conf_reg p d a) =? CAP_VIRTIO.
Definition virtio_cap (p : Pci) (d : Device) (a : Z) : VirtioPciCap :=
  let first := read_conf_reg p d a in
  mkCap first (read_conf_reg p d (a + 4)) (read_conf_reg p d (a + 8)) (read_conf_reg p d (a + 12))
    (if Z.land (Z.shiftr first 24) 0xff =? VIRTIO_PCI_CAP_NOTIFY_CFG then read_conf_reg p d (a + 16) else 0).
Definition virtio_caps (p : Pci) (d : Device) (l : list Z) : list VirtioPciCap := virtio_cap p d <$> List.filter (is_virtio_cap p d) l.

Lemma visit_virtio_list p d l : forall acc objs rest, Forall (fun o => o <> 0) objs -> length objs = length (virtio_caps p d l) ->
  fold_left (fun s c => visit_virtio_cap p d (read_conf_reg p d c) c s) l (Some (acc, objs ++ rest)) = Some (acc ++ virtio_caps p d l, rest).
Proof.
  unfold virtio_caps. induction l as [|a l IH]; intros acc objs rest Hnz Hlen; cbn [fold_left List.filter fmap list_fmap] in *; [destruct objs; [by rewrite app_nil_r|done]|].
  unfold is_virtio_cap in *. unfold visit_virtio_cap at 2. cbn [mbind option_bind]. destruct (cap_id (read_conf_reg p d a) =? CAP_VIRTIO); cbn [negb].
  - cbn [fmap list_fmap length] in Hlen. destruct objs as [|o objs]; [done|]. apply Forall_cons in Hnz as [Ho Hnz]. cbn [app take_addr]. destruct (Z.eqb_spec o 0); [done|].
    cbv zeta. change (mkCap _ _ _ _ _) with (virtio_cap p d a). rewrite IH; [|done|cbn in Hlen; lia]. cbn [fmap list_fmap]. by rewrite <- app_assoc.
  - by apply IH.
Qed.

Lemma find_virtio_caps p v l objs rest : capabilities p (vdev v) l -> Forall (fun o => o <> 0) objs -> length objs = length (virtio_caps p (vdev v) l) ->
  find_virtio_pci_cap p v (objs ++ rest) = Some (lenz (virtio_caps p (vdev v) l), set_caps (virtio_caps p (vdev v) l) v, rest).
Proof. intros Hl Hnz Hlen. unfold find_virtio_pci_cap. rewrite (for_each_list _ _ _ _ _ Hl). cbn [mbind option_bind]. by rewrite visit_virtio_list. Qed.
