(* ===== verification/Segment.v ===== *)
(** * Segments and the task state

    [memory/segment.hpp] and [segment.cpp]: the global descriptor table, the
    selectors, and the stacks of the task state segment.  The state has the two
    tables and the registers the assembly routines load.  Stacks come from a
    supply of addresses, 0 for a failed allocation. *)

From S2P Require Import Prelude Pages BitUtils.

Open Scope Z_scope.

Definition TSS_AVAILABLE : Z := 9.
Definition READ_WRITE : Z := 2.
Definition EXECUTE_READ : Z := 10.

Definition KERNEL_CS : Z := Z.shiftl 1 3.
Definition KERNEL_SS : Z := Z.shiftl 2 3.
Definition KERNEL_DS : Z := 0.
Definition USER_CS : Z := Z.lor (Z.shiftl 4 3) 3.
Definition USER_SS : Z := Z.lor (Z.shiftl 3 3) 3.
Definition TSS : Z := Z.shiftl 5 3.

Definition IST_FOR_TIMER : Z := 1.
Definition IST_FOR_XHCI : Z := 2.
Definition IST_FOR_SWITCH_TASK : Z := 3.

(** The members of a [segment_descriptor]. *)
Definition set_limit_low := set_bits 0 16.
Definition set_base_low := set_bits 16 16.
Definition set_base_middle := set_bits 32 8.
Definition set_type := set_bits 40 4.
Definition set_system_segment_bit := set_bits 44 1.
Definition set_dpl := set_bits 45 2.
Definition set_present := set_bits 47 1.
Definition set_limit_high := set_bits 48 4.
Definition set_available := set_bits 52 1.
Definition set_long_mode := set_bits 53 1.
Definition set_default_operation_size := set_bits 54 1.
Definition set_granularity := set_bits 55 1.
Definition set_base_high := set_bits 56 8.

(** The argument is the old descriptor, which is cleared first. *)
Definition set_code_segment (desc type dpl : Z) : Z :=
  set_granularity 1 (set_default_operation_size 0 (set_long_mode 1 (set_available 0 (set_present 1 (set_dpl dpl (set_system_segment_bit 1 (set_type type 0))))))).

Definition set_data_segment (desc type dpl : Z) : Z := set_default_operation_size 1 (set_long_mode 0 (set_code_segment desc type dpl)).

Definition set_system_segment (desc type dpl base limit : Z) : Z :=
  let d := set_long_mode 0 (set_system_segment_bit 0 (set_code_segment desc type dpl)) in
  let d := set_limit_low (Z.land limit 0xffff) (set_limit_high (Z.land (Z.shiftr limit 16) 0xf) d) in
  set_base_high (Z.land (Z.shiftr base 24) 0xff) (set_base_middle (Z.land (Z.shiftr base 16) 0xff) (set_base_low (Z.land base 0xffff) d)).

(** ** State *)

Record Segments := mkSegments {
  gdt : list Z;
  tss : list Z;
  gdtr : Z * Z;
  ds : Z;
  cs : Z;
  ss : Z;
  tr : Z;
}.

Definition put_gdt (i d : Z) (s : Segments) : Segments := mkSegments (setz (gdt s) i d) (tss s) (gdtr s) (ds s) (cs s) (ss s) (tr s).
Definition put_tss (i v : Z) (s : Segments) : Segments := mkSegments (gdt s) (setz (tss s) i v) (gdtr s) (ds s) (cs s) (ss s) (tr s).
Definition zero_segments : Segments := mkSegments (replicate 7 0) (replicate 26 0) (0, 0) 0 0 0 0.

Definition setup_segments (gdt_addr : Z) (s : Segments) : Segments :=
  let at' i := default 0 (atz (gdt s) i) in
  let s := put_gdt 0 0 s in
  let s := put_gdt 1 (set_code_segment (at' 1) EXECUTE_READ 0) s in
  let s := put_gdt 2 (set_data_segment (at' 2) READ_WRITE 0) s in
  let s := put_gdt 3 (set_data_segment (at' 3) READ_WRITE 3) s in
  let s := put_gdt 4 (set_code_segment (at' 4) EXECUTE_READ 3) s in
  mkSegments (gdt s) (tss s) (7 * 8 - 1, gdt_addr) (ds s) (cs s) (ss s) (tr s).

Definition initialize_segmentation (gdt_addr : Z) (s : Segments) : Segments :=
  let s := setup_segments gdt_addr s in
  mkSegments (gdt s) (tss s) (gdtr s) KERNEL_DS KERNEL_CS KERNEL_SS (tr s).

Definition set_tss (index addr : Z) (s : Segments) : Segments :=
  put_tss (index + 1) (u32 (Z.shiftr addr 32)) (put_tss index (Z.land addr 0xffffffff) s).

Definition allocate_stack (size : Z) (supply : list Z) : Z * list Z :=
  match supply with
  | [] => (0, [])
  | a :: rest => (if a =? 0 then 0 else u64 (a + size), rest)
  end.

Definition initialize_tss (tss_addr : Z) (supply : list Z) (s : Segments) : Segments * list Z :=
  let stack_size := PAGE_SIZE * 8 in
  let (stack1, supply) := allocate_stack stack_size supply in
  let (stack2, supply) := allocate_stack stack_size supply in
  let (stack3, supply) := allocate_stack stack_size supply in
  if (stack1 =? 0) || (stack2 =? 0) then (s, supply)
  else
    let s := set_tss 1 stack1 s in
    let s := set_tss (7 + 2 * IST_FOR_TIMER) stack2 s in
    let s := set_tss (7 + 2 * IST_FOR_XHCI) stack3 s in
    let s := set_tss (7 + 2 * IST_FOR_SWITCH_TASK) stack3 s in
    let s := put_gdt (Z.shiftr TSS 3) (set_system_segment (default 0 (atz (gdt s) 5)) TSS_AVAILABLE 0 (Z.land tss_addr 0xffffffff) (26 * 4 - 1)) s in
    let s := put_gdt (Z.shiftr TSS 3 + 1) (Z.shiftr tss_addr 32) s in
    (mkSegments (gdt s) (tss s) (gdtr s) (ds s) (cs s) (ss s) TSS, supply).

(** ** What the processor reads *)

(** What the processor makes of a descriptor.  The type of an application segment has
    bit 3 for code, and otherwise data; bit 2 for conforming code or data that expands
    down, which the kernel does not use; bit 1 for code that may be read or data that may
    be written.  Code runs in 64-bit mode when the long bit is set and the operation size
    is not. *)
Inductive Kind := Code64 | Data | System (type : Z) | Unusable.
#[export] Instance Kind_eq_dec : EqDecision Kind.
Proof. solve_decision. Defined.

Definition kind_of (d : Z) : Kind :=
  let type := bits 40 4 d in
  if bits 44 1 d =? 0 then System type
  else if Z.testbit type 2 || negb (Z.testbit type 1) then Unusable
  else if negb (Z.testbit type 3) then Data
  else if (bits 53 1 d =? 1) && (bits 54 1 d =? 0) then Code64 else Unusable.

(** The descriptor a selector names: present, of the selector's privilege and inside the
    table. *)
Definition selects (s : Segments) (selector : Z) (k : Kind) : Prop :=
  exists d, atz (gdt s) (Z.shiftr selector 3) = Some d /\ bits 47 1 d = 1 /\ bits 45 2 d = Z.land selector 3 /\ kind_of d = k /\
    8 * Z.shiftr selector 3 + 7 <= (gdtr s).1.

(** The base of the system descriptor at [i], which takes two entries, and its
    limit. *)
Definition system_base (s : Segments) (i : Z) : option Z :=
  lo ← atz (gdt s) i; hi ← atz (gdt s) (i + 1);
  Some (bits 16 16 lo + bits 32 8 lo * 2 ^ 16 + bits 56 8 lo * 2 ^ 24 + bits 0 32 hi * 2 ^ 32).
Definition system_limit (s : Segments) (i : Z) : option Z :=
  lo ← atz (gdt s) i;
  let limit := bits 0 16 lo + bits 48 4 lo * 2 ^ 16 in
  Some (if bits 55 1 lo =? 1 then limit * 2 ^ 12 + (2 ^ 12 - 1) else limit).

(** The 64-bit field of the task state at double word [i]. *)
Definition tss_field (s : Segments) (i : Z) : option Z := lo ← atz (tss s) i; hi ← atz (tss s) (i + 1); Some (lo + hi * 2 ^ 32).

(** Whether the task state lets a user program use a port: the bit of the port in
    the map that starts at the offset in the last half word, as far as the limit
    reaches; two bytes are read.  [after] is the memory behind the task state. *)
Definition tss_byte (after : Z -> Z) (s : Segments) (o : Z) : Z :=
  match atz (tss s) (o / 4) with Some w => bits (8 * (o mod 4)) 8 w | None => after o end.
Definition port_open (after : Z -> Z) (s : Segments) (port : Z) : bool :=
  match system_limit s (Z.shiftr (tr s) 3), atz (tss s) 25 with
  | Some limit, Some w =>
      let o := bits 16 16 w + port / 8 in
      (o + 1 <=? limit) && (Z.land (Z.shiftr (tss_byte after s o + 256 * tss_byte after s (o + 1)) (port mod 8)) 1 =? 0)
  | _, _ => false
  end.

(** ** System call registers *)

(** [kernel/syscall/syscall.cpp]: the model-specific registers [initialize] writes;
    [entry] is the address of [syscall_entry]. *)
Definition EFER_SCE : Z := Z.shiftl 1 0.
Definition EFER_LME : Z := Z.shiftl 1 8.
Definition EFER_LMA : Z := Z.shiftl 1 10.
Definition SYSRET_SELECTOR_BASE : Z := KERNEL_SS.
Definition RPL_USER : Z := 3.

Record Msrs := mkMsrs { IA32_EFER : Z; IA32_LSTAR : Z; IA32_STAR : Z; IA32_FMASK : Z }.
Definition initialize_syscall (entry : Z) : Msrs :=
  mkMsrs (Z.lor (Z.lor EFER_SCE EFER_LME) EFER_LMA) entry (Z.lor (Z.shiftl KERNEL_CS 32) (Z.shiftl (Z.lor SYSRET_SELECTOR_BASE RPL_USER) 48)) 0.

(** What the processor loads into CS and SS, and the flags it clears on entry. *)
Definition syscall_selectors (r : Msrs) : Z * Z := (bits 32 16 (IA32_STAR r), bits 32 16 (IA32_STAR r) + 8).
Definition sysret_selectors (r : Msrs) : Z * Z := (Z.lor (bits 48 16 (IA32_STAR r) + 16) 3, Z.lor (bits 48 16 (IA32_STAR r) + 8) 3).
Definition entry_flags (r : Msrs) (rflags : Z) : Z := Z.ldiff rflags (IA32_FMASK r).

(** * What the segment tables say

    Every selector names a descriptor of its kind and privilege, the task state
    has the stacks of its interrupts, and it opens input and output ports to user
    programs. *)

(** The tables after boot. *)
Definition booted (gdt_addr tss_addr : Z) (supply : list Z) : Segments := fst (initialize_tss tss_addr supply (initialize_segmentation gdt_addr zero_segments)).

(** A 32-bit base from its three pieces. *)
Lemma base_pieces b : 0 <= b < 2 ^ 32 -> Z.land b 0xffff + Z.land (Z.shiftr b 16) 0xff * 2 ^ 16 + Z.land (Z.shiftr b 24) 0xff * 2 ^ 24 = b.
Proof.
  intros Hb. change 0xffff with (Z.ones 16). change 0xff with (Z.ones 8). rewrite !Z.land_ones, !Z.shiftr_div_pow2 by lia.
  pose proof (Z.div_mod b (2 ^ 16) ltac:(lia)). pose proof (Z.div_mod (b / 2 ^ 16) (2 ^ 8) ltac:(lia)).
  assert (b / 2 ^ 24 = b / 2 ^ 16 / 2 ^ 8) as E by (rewrite Z.div_div by lia; done).
  assert (0 <= b / 2 ^ 24 < 2 ^ 8) by (split; [apply Z.div_pos; lia|apply Z.div_lt_upper_bound; lia]).
  rewrite (Z.mod_small (b / 2 ^ 24)) by lia. lia.
Qed.

Lemma land_small x n : 0 <= n -> 0 <= Z.land x (Z.ones n) < 2 ^ n.
Proof. intros. rewrite Z.land_ones by done. apply Z.mod_pos_bound. lia. Qed.

Lemma split32 x : 0 <= x < 2 ^ 64 -> Z.land x 0xffffffff + u32 (Z.shiftr x 32) * 2 ^ 32 = x.
Proof.
  intros Hx. change 0xffffffff with (Z.ones 32). rewrite Z.land_ones by lia. rewrite Z.shiftr_div_pow2 by lia.
  rewrite wrap_small; [pose proof (Z.div_mod x (2 ^ 32) ltac:(lia)); lia|]. split; [apply Z.div_pos; lia|apply Z.div_lt_upper_bound; lia].
Qed.

(** The task state after boot, when all three stacks were allocated. *)
Lemma booted_tables gdt_addr tss_addr a1 a2 a3 rest : 0 < a1 < 2 ^ 64 - 32768 -> 0 < a2 < 2 ^ 64 - 32768 -> 0 <= a3 < 2 ^ 64 - 32768 ->
  let top a := if a =? 0 then 0 else a + 32768 in
  let lo a := Z.land (top a) 0xffffffff in let hi a := u32 (Z.shiftr (top a) 32) in
  booted gdt_addr tss_addr (a1 :: a2 :: a3 :: rest) =
    mkSegments
      [0; set_code_segment 0 EXECUTE_READ 0; set_data_segment 0 READ_WRITE 0; set_data_segment 0 READ_WRITE 3; set_code_segment 0 EXECUTE_READ 3;
       set_system_segment 0 TSS_AVAILABLE 0 (Z.land tss_addr 0xffffffff) 103; Z.shiftr tss_addr 32]
      ([0; lo a1; hi a1; 0; 0; 0; 0; 0; 0; lo a2; hi a2; lo a3; hi a3; lo a3; hi a3] ++ replicate 11 0)
      (55, gdt_addr) KERNEL_DS KERNEL_CS KERNEL_SS TSS.
Proof.
  intros H1 H2 H3 top lo hi. unfold booted, initialize_tss, allocate_stack. change (PAGE_SIZE * 8) with 32768.
  assert (forall a, 0 <= a < 2 ^ 64 - 32768 -> (if a =? 0 then 0 else u64 (a + 32768)) = top a) as Ht.
  { intros a Ha. unfold top. destruct (Z.eqb_spec a 0); [done|]. apply wrap_small. lia. }
  rewrite !Ht by lia. assert ((top a1 =? 0) = false) as -> by (apply Z.eqb_neq; unfold top; destruct (Z.eqb_spec a1 0); lia).
  assert ((top a2 =? 0) = false) as -> by (apply Z.eqb_neq; unfold top; destruct (Z.eqb_spec a2 0); lia). reflexivity.
Qed.

Lemma booted_limit tss_addr ts g d c st t :
  system_limit (mkSegments [0; set_code_segment 0 EXECUTE_READ 0; set_data_segment 0 READ_WRITE 0; set_data_segment 0 READ_WRITE 3; set_code_segment 0 EXECUTE_READ 3;
    set_system_segment 0 TSS_AVAILABLE 0 (Z.land tss_addr 0xffffffff) 103; Z.shiftr tss_addr 32] ts g d c st t) (Z.shiftr TSS 3) = Some (103 * 4096 + 4095).
Proof.
  unfold system_limit. cbn [gdt]. change (atz _ (Z.shiftr TSS 3)) with (Some (set_system_segment 0 TSS_AVAILABLE 0 (Z.land tss_addr 0xffffffff) 103)).
  cbn [mbind option_bind]. unfold set_system_segment, set_code_segment, set_base_high, set_base_middle, set_base_low, set_limit_low, set_limit_high,
    set_long_mode, set_system_segment_bit, set_granularity, set_default_operation_size, set_available, set_present, set_dpl, set_type.
  change (Z.land 103 0xffff) with 103. change (Z.land (Z.shiftr 103 16) 0xf) with 0. bits_simpl. done.
Qed.

(** Without one of the first two stacks the task register is not loaded. *)
Lemma booted_without gdt_addr tss_addr a1 a2 a3 rest : a1 = 0 \/ a2 = 0 -> tr (booted gdt_addr tss_addr (a1 :: a2 :: a3 :: rest)) = 0.
Proof.
  intros H. unfold booted, initialize_tss, allocate_stack.
  assert (forall (x y : Z), x = 0 \/ y = 0 -> (x =? 0) || (y =? 0) = true) as Hor by (intros x y [-> | ->]; [done|apply orb_true_r]).
  rewrite Hor; [done|]. destruct H as [-> | ->]; [by left|by right].
Qed.

(** The application segments do not depend on the stacks. *)
Lemma booted_segments gdt_addr tss_addr supply : let s := booted gdt_addr tss_addr supply in
  ds s = KERNEL_DS /\ cs s = KERNEL_CS /\ ss s = KERNEL_SS /\ gdtr s = (55, gdt_addr) /\
  take 5 (gdt s) = [0; set_code_segment 0 EXECUTE_READ 0; set_data_segment 0 READ_WRITE 0; set_data_segment 0 READ_WRITE 3; set_code_segment 0 EXECUTE_READ 3].
Proof.
  unfold booted, initialize_tss. destruct (allocate_stack _ supply) as [x1 r1], (allocate_stack _ r1) as [x2 r2], (allocate_stack _ r2) as [x3 r3].
  destruct ((x1 =? 0) || (x2 =? 0)); split_and!; reflexivity.
Qed.

Lemma selects_first5 s i d selector k : take 5 (gdt s) !! i = Some d -> Z.shiftr selector 3 = Z.of_nat i -> bits 47 1 d = 1 -> bits 45 2 d = Z.land selector 3 ->
  kind_of d = k -> (gdtr s).1 = 55 -> selects s selector k.
Proof.
  intros Hd Hi Hp Hpl Hk Hg. assert (i < 5)%nat as H5 by (apply lookup_lt_Some in Hd; rewrite length_take in Hd; lia). rewrite lookup_take_lt in Hd by done.
  exists d. rewrite Hi, Hg. split_and!; try done; [|cbn; lia]. apply atz_Some. split; [lia|]. by rewrite Nat2Z.id.
Qed.

(** C31: (segments) After boot, whatever the allocator gives for the stacks, the selectors of code
    and stack, the kernel's as loaded and the user's, name descriptors inside the
    table that are present, with the privilege of the selector, and of the right
    type: 64-bit code that may be read, or data that may be written.  The data segment
    register of the kernel holds the null selector.  With the first two stacks allocated,
    the task register names the task state at its address, whose fields hold the tops of
    the allocated blocks, the third of them zero when that allocation failed; without
    one of them the task register stays zero. *)
Theorem segments_well_formed gdt_addr tss_addr a1 a2 a3 rest :
  0 <= tss_addr < 2 ^ 64 -> 0 <= a1 < 2 ^ 64 - 32768 -> 0 <= a2 < 2 ^ 64 - 32768 -> 0 <= a3 < 2 ^ 64 - 32768 ->
  let s := booted gdt_addr tss_addr (a1 :: a2 :: a3 :: rest) in let top a := if a =? 0 then 0 else a + 32768 in
  selects s (cs s) Code64 /\ selects s (ss s) Data /\ selects s USER_CS Code64 /\ selects s USER_SS Data /\ ds s = 0 /\
  if (a1 =? 0) || (a2 =? 0) then tr s = 0
  else selects s (tr s) (System TSS_AVAILABLE) /\ system_base s (Z.shiftr (tr s) 3) = Some tss_addr /\ system_limit s (Z.shiftr (tr s) 3) = Some (103 * 4096 + 4095) /\
    tss_field s 1 = Some (top a1) /\ tss_field s (7 + 2 * IST_FOR_TIMER) = Some (top a2) /\
    tss_field s (7 + 2 * IST_FOR_XHCI) = Some (top a3) /\ tss_field s (7 + 2 * IST_FOR_SWITCH_TASK) = Some (top a3).
Proof.
  intros Ht H1 H2 H3 s top. destruct (booted_segments gdt_addr tss_addr (a1 :: a2 :: a3 :: rest)) as (Hds & Hcs & Hss & Hg & Hgdt). fold s in Hds, Hcs, Hss, Hg, Hgdt.
  split_and!; [eapply (selects_first5 s 1)|eapply (selects_first5 s 2)|eapply (selects_first5 s 4)|eapply (selects_first5 s 3)|by rewrite Hds|];
    try (by rewrite Hgdt); try (by rewrite ?Hcs, ?Hss); try (by rewrite Hg). clear Hds Hcs Hss Hg Hgdt. unfold s.
  destruct (Z.eqb_spec a1 0) as [->|N1]; [apply booted_without; by left|]. destruct (Z.eqb_spec a2 0) as [->|N2]; [apply booted_without; by right|].
  cbn [orb]. rewrite booted_tables by lia. assert (forall a, 0 <= a < 2 ^ 64 - 32768 -> Z.land (top a) 0xffffffff + u32 (Z.shiftr (top a) 32) * 2 ^ 32 = top a) as Hsplit.
  { intros a Ha. apply split32. unfold top. destruct (Z.eqb_spec a 0); lia. }
  cbn [tr]. split_and!.
  - eexists. split; [reflexivity|]. unfold set_system_segment, set_code_segment, kind_of, set_base_high, set_base_middle, set_base_low, set_limit_low, set_limit_high,
      set_long_mode, set_system_segment_bit, set_granularity, set_default_operation_size, set_available, set_present, set_dpl, set_type. bits_simpl. split_and!; done.
  - unfold system_base. cbn [gdt]. change (atz _ (Z.shiftr TSS 3)) with (Some (set_system_segment 0 TSS_AVAILABLE 0 (Z.land tss_addr 0xffffffff) 103)).
    change (atz _ (Z.shiftr TSS 3 + 1)) with (Some (Z.shiftr tss_addr 32)). cbn [mbind option_bind]. f_equal.
    set (b := Z.land tss_addr 0xffffffff). assert (0 <= b < 2 ^ 32) as Hb by (apply (land_small tss_addr 32); lia).
    pose proof (land_small b 16 ltac:(lia) : 0 <= Z.land b 0xffff < 2 ^ 16). pose proof (land_small (Z.shiftr b 16) 8 ltac:(lia) : 0 <= Z.land (Z.shiftr b 16) 0xff < 2 ^ 8).
    pose proof (land_small (Z.shiftr b 24) 8 ltac:(lia) : 0 <= Z.land (Z.shiftr b 24) 0xff < 2 ^ 8).
    unfold set_system_segment, set_base_high, set_base_middle, set_base_low, set_limit_low, set_limit_high. bits_simpl. rewrite base_pieces by done.
    rewrite <- (split32 tss_addr Ht) at 2. unfold b, bits. rewrite Z.shiftr_0_r, Z.land_ones by lia. done.
  - apply booted_limit.
  - exact (f_equal Some (Hsplit a1 H1)).
  - exact (f_equal Some (Hsplit a2 H2)).
  - exact (f_equal Some (Hsplit a3 H3)).
  - exact (f_equal Some (Hsplit a3 H3)).
Qed.

(** (ports) The task state opens ports to user programs: its map offset is never set, so
    the map is the task state itself, whose unused fields are zero.  The keyboard
    controller's ports, which also reset the machine, are open. *)
Theorem user_ports_open after gdt_addr tss_addr a1 a2 a3 rest port :
  0 < a1 < 2 ^ 64 - 32768 -> 0 < a2 < 2 ^ 64 - 32768 -> 0 < a3 < 2 ^ 64 - 32768 -> 0x60 <= port <= 0x67 ->
  port_open after (booted gdt_addr tss_addr (a1 :: a2 :: a3 :: rest)) port = true.
Proof.
  intros H1 H2 H3 Hp. rewrite booted_tables by lia. unfold port_open. cbn [tr]. rewrite booted_limit. cbn [tss].
  change (atz _ 25) with (Some 0). assert (port / 8 = 12) as -> by (symmetry; apply (Z.div_unique port 8 12 (port - 96)); lia).
  change (bits 16 16 0 + 12) with 12. change (12 + 1 <=? 103 * 4096 + 4095) with true. cbn [andb]. unfold tss_byte. change (12 / 4) with 3. change ((12 + 1) / 4) with 3.
  cbn [tss]. change (atz _ 3) with (Some 0). cbv beta iota. rewrite !bits_0. rewrite Z.shiftr_0_l. done.
Qed.

(** (system call entry) SYSCALL and SYSRET load selectors of the right descriptors, the kernel's and
    the user's; the flags of the program, the interrupt flag among them, are kept. *)
Theorem syscall_selectors_match entry gdt_addr tss_addr a1 a2 a3 rest rflags : 0 < a1 < 2 ^ 64 - 32768 -> 0 < a2 < 2 ^ 64 - 32768 -> 0 < a3 < 2 ^ 64 - 32768 ->
  let s := booted gdt_addr tss_addr (a1 :: a2 :: a3 :: rest) in let r := initialize_syscall entry in
  selects s (fst (syscall_selectors r)) Code64 /\ selects s (snd (syscall_selectors r)) Data /\ selects s (fst (sysret_selectors r)) Code64 /\ selects s (snd (sysret_selectors r)) Data /\
  sysret_selectors r = (USER_CS, USER_SS) /\ syscall_selectors r = (KERNEL_CS, KERNEL_SS) /\ Z.testbit (IA32_EFER r) 0 = true /\ entry_flags r rflags = rflags.
Proof.
  intros H1 H2 H3 s r. unfold s. rewrite booted_tables by lia. assert (syscall_selectors r = (KERNEL_CS, KERNEL_SS)) as -> by reflexivity. assert (sysret_selectors r = (USER_CS, USER_SS)) as -> by reflexivity.
  split_and!; try (eexists; split; [reflexivity|]; split_and!; done); [done|done|done|]. unfold entry_flags. apply Z.ldiff_0_r.
Qed.
