(* ===== verification/Interrupt.v ===== *)
(** * Interrupts

    [interrupt/idt.cpp], [routing.cpp], [handlers.cpp] and [fault.hpp]: the gates
    of the interrupt descriptor table, the routes from vectors to the doorbells of
    tasks, and the handlers behind the gates.  The addresses of the handlers are a
    parameter, and so is what the panic and the return to a user program's kernel
    stack do: they end the handler. *)

From stdpp Require Import strings.
From S2P Require Import Prelude Message Task TaskProofs TaskSpec Paging BitUtils Segment.

Open Scope Z_scope.

(** ** Vectors *)

Inductive Vector := LOCAL_APIC_TIMER | XHCI | VIRTIO_BLK | VIRTQUEUE_BLK | VIRTIO_NET | VIRTQUEUE_NET_RX | VIRTQUEUE_NET_TX | SWITCH_TASK.
Definition vector_number (v : Vector) : Z :=
  match v with
  | LOCAL_APIC_TIMER => 0x40 | XHCI => 0x41 | VIRTIO_BLK => 0x42 | VIRTQUEUE_BLK => 0x43 | VIRTIO_NET => 0x44
  | VIRTQUEUE_NET_RX => 0x45 | VIRTQUEUE_NET_TX => 0x46 | SWITCH_TASK => 0x47
  end.

Definition PAGE_FAULT : Z := 14.

(** The exceptions with a gate, and whether the processor pushes an error code. *)
Definition EXCEPTIONS : list (Z * bool) :=
  [(0, false); (1, false); (3, false); (4, false); (5, false); (6, false); (7, false); (8, true); (10, true); (11, true); (12, true);
   (13, true); (14, true); (15, false); (16, false); (17, true); (18, false); (19, false); (20, false)].

Inductive Handler :=
| on_timer_interrupt
| on_irq (v : Vector)
| interrupt_task_switch
| FaultHandler (code : Z) (has_error_code : bool).

(** ** Gates *)

Definition INTERRUPT_GATE : Z := 0xE.

Record IdtEntry := mkIdt {
  offset_low : Z;
  segment_selector : Z;
  attr : Z;
  offset_middle : Z;
  offset_high : Z;
}.
Definition zero_gate : IdtEntry := mkIdt 0 0 0 0 0.

(** [TypeAttr{ ist, type, dpl, present }] *)
Definition type_attr (ist type dpl present : Z) : Z := set_bits 15 1 present (set_bits 13 2 dpl (set_bits 8 4 type (set_bits 0 3 ist 0))).

Definition set_idt_entry (offset attr selector : Z) : IdtEntry :=
  mkIdt (Z.land offset 0xffff) (u16 selector) attr (Z.land (Z.shiftr offset 16) 0xffff) (u32 (Z.shiftr offset 32)).

Section idt.
Context (handler_addr : Handler -> Z).

Definition set_entry (irq : Z) (h : Handler) (ist : Z) (idt : list IdtEntry) : list IdtEntry :=
  setz idt irq (set_idt_entry (handler_addr h) (type_attr ist INTERRUPT_GATE 0 1) KERNEL_CS).

(** The gates in the order they are set. *)
Definition DEVICE_GATES : list (Z * Handler * Z) :=
  [(vector_number LOCAL_APIC_TIMER, on_timer_interrupt, IST_FOR_TIMER); (vector_number XHCI, on_irq XHCI, IST_FOR_XHCI);
   (vector_number VIRTIO_BLK, on_irq VIRTIO_BLK, 0); (vector_number VIRTQUEUE_BLK, on_irq VIRTQUEUE_BLK, 0); (vector_number VIRTIO_NET, on_irq VIRTIO_NET, 0);
   (vector_number VIRTQUEUE_NET_RX, on_irq VIRTQUEUE_NET_RX, 0); (vector_number VIRTQUEUE_NET_TX, on_irq VIRTQUEUE_NET_TX, 0);
   (vector_number SWITCH_TASK, interrupt_task_switch, IST_FOR_SWITCH_TASK)].
Definition GATES : list (Z * Handler * Z) := DEVICE_GATES ++ ((fun e => (e.1, FaultHandler e.1 e.2, 0)) <$> EXCEPTIONS).

(** The table, and the limit and base that are loaded. *)
Definition initialize_interrupt (idt_addr : Z) (idt : list IdtEntry) : list IdtEntry * (Z * Z) :=
  (foldl (fun t g => set_entry g.1.1 g.1.2 g.2 t) idt GATES, (256 * 16 - 1, idt_addr)).
End idt.

(** ** Routes *)

Definition NUM_VECTORS : Z := 256.

Record IrqRoute := mkRoute {
  route_dst : Z;
  route_type : NotifyType;
  registered : bool;
}.
Definition no_route : IrqRoute := mkRoute 0 N_XHCI false.

Record Irq := mkIrq {
  routes : list IrqRoute;
  unrouted_count : Z;
  eoi : Z;
}.
Definition new_irq : Irq := mkIrq (replicate 256 no_route) 0 0.

Definition register_irq_notification (vector dst : Z) (n : NotifyType) (q : Irq) : Z * Irq :=
  if NUM_VECTORS <=? vector then (err ERR_INVALID_ARG, q)
  else (err OK, mkIrq (setz (routes q) vector (mkRoute dst n true)) (unrouted_count q) (eoi q)).

Definition notify_irq (vector : Z) (q : Irq) (s : Sys) : option (Irq * Sys) :=
  let unrouted := mkIrq (routes q) (u64 (unrouted_count q + 1)) (eoi q) in
  if NUM_VECTORS <=? vector then Some (unrouted, s)
  else
    r ← atz (routes q) vector;
    if negb (registered r) then Some (unrouted, s)
    else s ← notify (route_dst r) (route_type r) s; Some (q, s).

Definition unrouted_irq_count (q : Irq) : Z := unrouted_count q.

(** ** Handlers *)

(** End-of-interrupt writes are counted. *)
Definition notify_end_of_interrupt (q : Irq) : Irq := mkIrq (routes q) (unrouted_count q) (eoi q + 1).

(** The configuration interrupts only log. *)
Definition on_interrupt (v : Vector) (q : Irq) (s : Sys) : option (Irq * Sys) :=
  match v with
  | VIRTIO_BLK | VIRTIO_NET => Some (notify_end_of_interrupt q, s)
  | _ => '(q, s) ← notify_irq (vector_number v) q s; Some (notify_end_of_interrupt q, s)
  end.

Definition switch_task_by_interrupt (q : Irq) (s : Sys) : option (Irq * Sys) :=
  s ← switch_task s; Some (notify_end_of_interrupt q, s).

(** ** Faults *)

Definition FAULT_NAMES : list string :=
  ["Divide Error"; "Debug"; "Non-Maskable Interrupt"; "Breakpoint"; "Overflow"; "Bound Range Exceeded"; "Invalid Opcode"; "Device Not Available";
   "Double Fault"; "Coprocessor Segment Overrun"; "Invalid TSS"; "Segment Not Present"; "Stack Segment Fault"; "General Protection"; "Page Fault"; "Reserved";
   "x87 FPU Error"; "Alignment Check"; "Machine Check"; "SIMD Floating-Point Exception"; "Virtualization Exception"]%string.
Definition FAULT_NAME_BUF_SIZE : nat := 30.

(** [strlcpy] into the buffer: the name, cut to leave room for the terminator. *)
Definition get_fault_name (code : Z) : string :=
  String.substring 0 (FAULT_NAME_BUF_SIZE - 1) (default "Unknown Exception"%string (atz FAULT_NAMES code)).

(** How a fault handler ends: it returns to the faulting code, ends the user
    program with a status, or stops the kernel. *)
Inductive FaultOutcome := Resume | ExitUser (status : Z) | Panic.

Definition from_user (cs : Z) : bool := Z.land cs 3 =? 3.
Definition kill_userland (cs : Z) : option FaultOutcome := if from_user cs then Some (ExitUser 128) else None.

Definition fault_handler (code : Z) (has_error_code : bool) (cs error_code fault_addr : Z) (v : Vm) : option (FaultOutcome * Vm) :=
  if negb has_error_code then Some (Panic, v)
  else
    '(handled, v) ←
      (if code =? PAGE_FAULT then '(e, v) ← handle_page_fault error_code fault_addr v; Some (negb (IS_ERR e), v) else Some (false, v));
    if (handled : bool) then Some (Resume, v) else Some (default Panic (kill_userland cs), v).

(** * What the interrupt layer promises

    The gates lead to their handlers, and a device's interrupt wakes the task that
    registered for it. *)

(** ** Gates *)

(** What the processor reads from a gate. *)
Definition gate_offset (g : IdtEntry) : Z := offset_low g + offset_middle g * 2 ^ 16 + offset_high g * 2 ^ 32.
Definition gate_present (g : IdtEntry) : bool := bits 15 1 (attr g) =? 1.
Definition leads_to (g : IdtEntry) (addr ist : Z) : Prop :=
  gate_present g = true /\ gate_offset g = addr /\ segment_selector g = KERNEL_CS /\ bits 8 4 (attr g) = INTERRUPT_GATE /\ bits 13 2 (attr g) = 0 /\ bits 0 3 (attr g) = ist.

Lemma gate_pieces a : 0 <= a < 2 ^ 64 -> Z.land a 0xffff + Z.land (Z.shiftr a 16) 0xffff * 2 ^ 16 + u32 (Z.shiftr a 32) * 2 ^ 32 = a.
Proof.
  intros Ha. change 0xffff with (Z.ones 16). rewrite !Z.land_ones, !Z.shiftr_div_pow2 by lia.
  pose proof (Z.div_mod a (2 ^ 16) ltac:(lia)). pose proof (Z.div_mod (a / 2 ^ 16) (2 ^ 16) ltac:(lia)).
  assert (a / 2 ^ 32 = a / 2 ^ 16 / 2 ^ 16) as E by (rewrite Z.div_div by lia; done).
  rewrite wrap_small; [lia|]. split; [apply Z.div_pos; lia|apply Z.div_lt_upper_bound; lia].
Qed.

Lemma set_entry_leads a ist : 0 <= a < 2 ^ 64 -> 0 <= ist < 8 -> leads_to (set_idt_entry a (type_attr ist INTERRUPT_GATE 0 1) KERNEL_CS) a ist.
Proof.
  intros Ha Hi. unfold leads_to, set_idt_entry, gate_offset, gate_present, type_attr, INTERRUPT_GATE. cbn [offset_low offset_middle offset_high attr segment_selector].
  rewrite gate_pieces by done. bits_simpl. done.
Qed.

(** Setting the gates of a list without repetitions. *)
Lemma gates_set handler_addr gs : forall t, NoDup ((fun g => g.1.1) <$> gs) -> Forall (fun g => 0 <= g.1.1 < lenz t) gs ->
  let t' := foldl (fun t g => set_entry handler_addr g.1.1 g.1.2 g.2 t) t gs in
  (forall g, g ∈ gs -> atz t' g.1.1 = Some (set_idt_entry (handler_addr g.1.2) (type_attr g.2 INTERRUPT_GATE 0 1) KERNEL_CS)) /\
  (forall i, i ∉ (fun g => g.1.1) <$> gs -> atz t' i = atz t i).
Proof.
  induction gs as [|g gs IH]; intros t Hnd Hr.
  - split; [intros g Hg; by apply not_elem_of_nil in Hg|done].
  - apply NoDup_cons in Hnd as [Hn Hnd]. apply Forall_cons in Hr as [Hg Hr]. cbn [foldl].
    destruct (IH (set_entry handler_addr g.1.1 g.1.2 g.2 t)) as [Hin Hout]; [done|unfold set_entry; by setoid_rewrite lenz_setz|]. split.
    + intros g' [->|Hg']%elem_of_cons; [|by apply Hin]. rewrite Hout by done. unfold set_entry. by apply atz_setz_eq.
    + intros i [Hne Hi]%not_elem_of_cons. rewrite Hout by done. unfold set_entry. apply atz_setz_ne; [lia|]. intros E. by apply Hne.
Qed.

(** (gates) After initialisation the gate of each vector in use is a present interrupt gate
    at kernel privilege that leads to its handler, with its own stack where it has
    one; every other gate is absent. *)
Theorem idt_gates handler_addr idt_addr : (forall h, 0 <= handler_addr h < 2 ^ 64) ->
  let t := fst (initialize_interrupt handler_addr idt_addr (replicate 256 zero_gate)) in
  (forall v h ist, (v, h, ist) ∈ GATES -> exists g, atz t v = Some g /\ leads_to g (handler_addr h) ist) /\
  (forall v, 0 <= v < 256 -> v ∉ (fun g => g.1.1) <$> GATES -> exists g, atz t v = Some g /\ gate_present g = false).
Proof.
  intros Ha t. assert (NoDup ((fun g => g.1.1) <$> GATES)) as Hnd by (apply (bool_decide_eq_true (NoDup ((fun g => g.1.1) <$> GATES))); by vm_compute).
  assert (Forall (fun g => 0 <= g.1.1 < lenz (replicate 256 zero_gate) /\ 0 <= g.2 < 8) GATES) as Hr.
  { unfold GATES. repeat (apply Forall_cons; split; [by vm_compute|]). by apply Forall_nil. }
  destruct (gates_set handler_addr GATES (replicate 256 zero_gate)) as [Hin Hout]; [done|by eapply Forall_impl; [exact Hr|intros ? [? _]]|].
  split.
  - intros v h ist Hg. rewrite Forall_forall in Hr. destruct (Hr _ Hg) as [_ Hist]. eexists. split; [exact (Hin _ Hg)|]. by apply set_entry_leads.
  - intros v Hv Hn. exists zero_gate. split; [|done]. unfold t, initialize_interrupt. cbn [fst]. rewrite (Hout v Hn). apply atz_Some. split; [lia|]. apply lookup_replicate_2. lia.
Qed.

(** ** Waking a driver *)

(** A notification sets its bit. *)
Lemma notify_sets_bit i n s s' t : the_task i s = Some t -> 0 <= i < MAX_TASKS -> notify i n s = Some s' ->
  exists t', the_task i s' = Some t' /\ pending_notifications t' = Z.lor (pending_notifications t) (notify_bit n).
Proof.
  intros Ht Hi. unfold notify. destruct (Z.ltb_spec i 0), (Z.leb_spec MAX_TASKS i); try lia. cbn [orb]. rewrite (task_at_the_task _ _ _ Ht). cbn [mbind option_bind].
  set (t1 := set_pending _ t). pose proof (the_task_range _ _ _ Ht) as Hr. pose proof (the_task_put_eq i t1 s Hr) as H1.
  destruct (negb _); [intros [= <-]; by exists t1|]. destruct (_ && _); [intros [= <-]; by exists t1|].
  rewrite (schedule_task_eq _ _ _ H1). intros [= <-]. exists (set_state TASK_READY t1). split; [|done].
  assert (0 <= i < lenz (tasks (put_task i t1 s))) as Hr2 by (cbn [tasks put_task set_tasks]; by rewrite lenz_setz).
  exact (the_task_put_eq i (set_state TASK_READY t1) (put_task i t1 s) Hr2).
Qed.

Lemma land_lor_bit p n m : 0 <= p -> Z.land m (notify_bit n) <> 0 -> negb (Z.land (Z.lor p (notify_bit n)) m =? 0) = true.
Proof.
  intros Hp Hm. apply negb_true_iff, Z.eqb_neq. rewrite Z.land_lor_distr_l. intros H0. apply Z.lor_eq_0_iff in H0 as [_ H0]. by rewrite Z.land_comm in H0.
Qed.

(** (routing) Once a task has registered a vector for one of its doorbells, an interrupt on
    that vector is acknowledged and sets the doorbell, and if the task is waiting for
    it - asleep, or between its check and going to sleep - it is running or ready to
    run afterwards. *)
Theorem interrupt_wakes_driver q q1 v dst n m s pc t : Inv s pc -> the_task dst s = Some t -> length (routes q) = 256%nat ->
  v ≠ VIRTIO_BLK -> v ≠ VIRTIO_NET -> register_irq_notification (vector_number v) dst n q = (err OK, q1) ->
  pc dst = Park (InNotify m) \/ pc dst = Poll (InNotify m) -> Z.land m (notify_bit n) <> 0 ->
  exists q' s' t', on_interrupt v q1 s = Some (q', s') /\ Inv s' pc /\ eoi q' = eoi q + 1 /\ the_task dst s' = Some t' /\
    Z.land (pending_notifications t') (notify_bit n) <> 0 /\
    ((state t' = TASK_RUNNING /\ dst = CURRENT_TASK s') \/ (state t' = TASK_READY /\ dst ∈ run_queue s')).
Proof.
  intros Hinv Ht Hlen Hv1 Hv2 Hreg Hpc Hm. assert (0 <= vector_number v < 256) as Hv by (by destruct v).
  unfold register_irq_notification, NUM_VECTORS in Hreg. destruct (Z.leb_spec 256 (vector_number v)); [lia|]. injection Hreg as <-.
  destruct (notify_spec s pc dst n Hinv) as (s' & En & Hinv'). pose proof (the_task_range _ _ _ Ht) as Hr. rewrite (bs_len _ _ (iv_base _ _ Hinv)) in Hr.
  destruct (notify_sets_bit dst n s s' t) as (t' & Ht' & Hp); [done|done|done|].
  pose proof (to_pending _ _ _ (bs_tasks _ _ (iv_base _ _ Hinv) dst t Ht)) as Hpend.
  assert (forall q0, routes q0 = setz (routes q) (vector_number v) (mkRoute dst n true) -> notify_irq (vector_number v) q0 s = Some (q0, s')) as Hirq.
  { intros q0 E. unfold notify_irq, NUM_VECTORS. destruct (Z.leb_spec 256 (vector_number v)); [lia|]. rewrite E, atz_setz_eq by (unfold lenz; lia).
    cbn [mbind option_bind registered negb route_dst route_type]. by rewrite En. }
  set (q0 := mkIrq (setz (routes q) (vector_number v) (mkRoute dst n true)) (unrouted_count q) (eoi q)). exists (notify_end_of_interrupt q0), s', t'.
  split_and!; [|done|done|done| |].
  - unfold on_interrupt. destruct v; try done; by rewrite (Hirq q0 eq_refl).
  - rewrite Hp, Z.land_lor_distr_l, Z.land_diag. intros H0. apply Z.lor_eq_0_iff in H0 as [_ H0]. by rewrite H0, Z.land_0_r in Hm.
  - apply (available_runs s' pc dst t' (InNotify m)); [done|done|done|]. cbn [available]. rewrite Hp. apply land_lor_bit; [lia|done].
Qed.
