(* ===== verification/VirtioBlk.v ===== *)
(** * The block driver

    [hardware/virtio/blk.hpp] and [blk.cpp]: requests to a virtio block device and
    the service that turns messages into requests.  A request stops where the code
    waits for the completion doorbell ([wait_notification], modelled with the
    tasks) and is finished after it.  Allocations come from the supply of the
    kernel state. *)

From S2P Require Import Prelude Message MessageQueue UserMem Fd Task Paging Syscall Virtio Pci VirtioPci.

Open Scope Z_scope.

Definition VIRTIO_BLK_T_IN : Z := 0.
Definition VIRTIO_BLK_T_OUT : Z := 1.
Definition VIRTIO_BLK_S_OK : Z := 0.
Definition VIRTIO_BLK_S_IOERR : Z := 1.
Definition VIRTIO_BLK_S_UNSUPP : Z := 2.

(** [VirtioBlkReq]: type, reserved, sector, status. *)
Definition sizeof_VirtioBlkReq : Z := 17.
Definition req_sector_addr (req : Z) : Z := req + 8.
Definition req_status_addr (req : Z) : Z := req + 16.

(** ** State *)

(** The doorbell writes are recorded. *)
Record Blk := mkBlk {
  blk_dev : VirtioPciDevice;
  bkern : Kern;
  bells : list (Z * Z);
}.
Definition set_bkern (k : Kern) (b : Blk) : Blk := mkBlk (blk_dev b) k (bells b).

(** Little-endian stores. *)
Definition store32 (a v : Z) (m : Mem) : Mem :=
  store (a + 3) (v / 2 ^ 24 mod 256) (store (a + 2) (v / 2 ^ 16 mod 256) (store (a + 1) (v / 2 ^ 8 mod 256) (store a (v mod 256) m))).
Definition store64 (a v : Z) (m : Mem) : Mem := store32 (a + 4) (v / 2 ^ 32) (store32 a (v mod 2 ^ 32) m).

(** ** Requests *)

Definition validate_length (len : Z) : Z := if len <? SECTOR_SIZE then err ERR_INVALID_ARG else err OK.

(** Header, data and status. *)
Definition blk_chain (req buffer len : Z) (device_writes : bool) : list VirtioEntry :=
  [mkEntry 0 req (4 * 2 + 8) false; mkEntry 0 buffer len device_writes; mkEntry 0 (req_status_addr req) 1 true].

(** Up to the wait: an error, or the request that is waited for.  The result of
    [push_virtio_entry] is not looked at. *)
Definition start_request (type : Z) (device_writes : bool) (buffer sector len : Z) (b : Blk) : option ((Z + Z) * Blk) :=
  let e := validate_length len in
  if IS_ERR e then Some (inl e, b)
  else
    let (req, k) := make_ool_buffer sizeof_VirtioBlkReq (bkern b) in
    if req =? 0 then Some (inl (err ERR_NO_MEMORY), set_bkern k b)
    else
      let k := set_mem (store64 (req_sector_addr req) sector (store32 req type (mem k))) k in
      q ← atz (queues (blk_dev b)) 0;
      '(_, _, q) ← push_virtio_entry q (blk_chain req buffer len device_writes);
      let v := set_queues (setz (queues (blk_dev b)) 0 q) (blk_dev b) in
      bell ← notify_virtqueue v 0;
      Some (inr req, mkBlk v k (bells b ++ [bell])).

Definition write_to_blk_device (buffer sector len : Z) (b : Blk) : option ((Z + Z) * Blk) := start_request VIRTIO_BLK_T_OUT false buffer sector len b.
Definition read_from_blk_device (buffer sector len : Z) (b : Blk) : option ((Z + Z) * Blk) := start_request VIRTIO_BLK_T_IN true buffer sector len b.

(** After the wait. *)
Definition finish_request (failure : ErrorCode) (req : Z) (b : Blk) : option (Z * Blk) :=
  let status := load (mem (bkern b)) (req_status_addr req) in
  k ← drop_buffer req (bkern b);
  Some (if negb (status =? VIRTIO_BLK_S_OK) then err failure else err OK, set_bkern k b).
Definition finish_write := finish_request ERR_FAILED_WRITE_TO_DEVICE.
Definition finish_read := finish_request ERR_FAILED_READ_FROM_DEVICE.

(** One round of the wait. *)
Definition wait_completion (b : Blk) : option (bool * Blk) :=
  '(r, s) ← wait_notification_poll (notify_bit N_VIRTIO_BLK) (sys (bkern b));
  Some (r, set_bkern (set_sys s (bkern b)) b).

(** ** The service *)

(** [m.data.blk]; a message of the service's types holds that member. *)
Definition blk_data (m : Message) : option (Z * Z) := match data m with DBlk s l => Some (s, l) | _ => fault end.

Definition make_blk_reply (m : Message) : option Message :=
  '(s, l) ← blk_data m;
  Some (mkMessage (type m) process_ids.VIRTIO_BLK 0 0 (err OK) no_ool (DBlk s l)).

(** Where a handler waits. *)
Inductive BlkWait :=
| WaitRead (m : Message) (buf len req : Z)
| WaitWrite (m : Message) (buf req : Z).

Definition reply_b (m r : Message) (b : Blk) : option Blk := '(_, k) ← reply_k m r (bkern b); Some (set_bkern k b).

(** The end of [handle_read_request], with the result of the device. *)
Definition end_read (m : Message) (buf len e : Z) (b : Blk) : option Blk :=
  r ← make_blk_reply m;
  if IS_ERR e then
    b ← reply_b m (set_result e r) b;
    k ← drop_buffer buf (bkern b);
    Some (set_bkern k b)
  else
    '(_, k) ← reply_with_ool m r buf (u32 len) (bkern b);
    Some (set_bkern k b).

Definition handle_read_request (m : Message) (b : Blk) : option (option BlkWait * Blk) :=
  r ← make_blk_reply m;
  '(s, l) ← blk_data m;
  let sector := i32 s in
  let len := i32 l in
  let (buf, k) := make_ool_buffer (u64 len) (bkern b) in
  let b := set_bkern k b in
  if buf =? 0 then b ← reply_b m (set_result (err ERR_NO_MEMORY) r) b; Some (None, b)
  else
    '(o, b) ← read_from_blk_device buf (u64 sector) (u32 len) b;
    match o with
    | inl e => b ← end_read m buf len e b; Some (None, b)
    | inr req => Some (Some (WaitRead m buf len req), b)
    end.

(** The end of [handle_write_request]: the reply, and the payload is freed. *)
Definition end_write (m : Message) (buf e : Z) (b : Blk) : option Blk :=
  r ← make_blk_reply m;
  b ← reply_b m (if IS_ERR e then set_result e r else r) b;
  k ← drop_buffer buf (bkern b);
  Some (set_bkern k b).

Definition handle_write_request (m : Message) (b : Blk) : option (option BlkWait * Blk) :=
  r ← make_blk_reply m;
  '(s, l) ← blk_data m;
  let buf := addr (ool m) in
  if (buf =? 0) || (size (ool m) =? 0) then
    b ← reply_b m (set_result (err ERR_INVALID_ARG) r) b;
    k ← drop_buffer buf (bkern b);
    Some (None, set_bkern k b)
  else
    let sector := i32 s in
    let len := i32 (if l <? SECTOR_SIZE then SECTOR_SIZE else l) in
    '(o, b) ← write_to_blk_device buf (u64 sector) (u32 len) b;
    match o with
    | inl e => b ← end_write m buf e b; Some (None, b)
    | inr req => Some (Some (WaitWrite m buf req), b)
    end.

(** The handler goes on when the doorbell has rung. *)
Definition resume_blk (w : BlkWait) (b : Blk) : option Blk :=
  match w with
  | WaitRead m buf len req => '(e, b) ← finish_read req b; end_read m buf len e b
  | WaitWrite m buf req => '(e, b) ← finish_write req b; end_write m buf e b
  end.
