(* ===== verification/VirtioBlkSpec.v ===== *)
(** * The block queue

    The block driver has one request of three descriptors at a time and never
    takes a chain back with [pop_virtio_entry]; it relies on the reclaiming path of
    [push_virtio_entry].  The invariant below explains why this works for ever:
    the descriptors are used in groups of three that are linked from the start,
    and reclaiming happens only when every group has been used. *)

From S2P Require Import Prelude Message MessageQueue UserMem Fd Task Paging Syscall SyscallSpec Net NetProofs NetSpec FatFiles Virtio VirtioSpec.
From S2P Require Import Pci VirtioPci VirtioBlk.

Open Scope Z_scope.

(** ** Groups *)

(** Group [k] is linked; [nx] is where its last descriptor leads. *)
Definition group (ds : list VirtqDesc) (k : Z) (d0 d1 d2 : VirtqDesc) : Prop :=
  atz ds (3 * k) = Some d0 /\ atz ds (3 * k + 1) = Some d1 /\ atz ds (3 * k + 2) = Some d2 /\ vd_next d0 = 3 * k + 1 /\ vd_next d1 = 3 * k + 2.

(** A group that has held a request, and one that has not. *)
Definition group_done (ds : list VirtqDesc) (k : Z) : Prop :=
  exists d0 d1 d2, group ds k d0 d1 d2 /\ vd_next d2 = 0 /\ has_flag VIRTQ_DESC_F_NEXT d0 = true /\ has_flag VIRTQ_DESC_F_NEXT d1 = true /\
    has_flag VIRTQ_DESC_F_NEXT d2 = false.
Definition group_new (n : Z) (ds : list VirtqDesc) (k : Z) : Prop := exists d0 d1 d2, group ds k d0 d1 d2 /\ vd_next d2 = (3 * k + 3) mod n.

(** Between requests: [pending] are the heads of the requests that were completed
    but not reclaimed. *)
Record blk_idle (q : VirtioVirtqueue) (pending : list Z) : Prop := mkIdle {
  bi_size : queue_size_ok (num_desc q);
  bi_three : 3 <= num_desc q;
  bi_descs : lenz (q_desc q) = num_desc q;
  bi_avail : lenz (drv_ring (q_driver q)) = num_desc q;
  bi_ring : lenz (dev_ring (q_device q)) = num_desc q;
  bi_last : 0 <= last_device_idx q < 65536;
  bi_index : dev_index (q_device q) = u16 (last_device_idx q + lenz pending);
  bi_used : ring_holds q pending;
  bi_pending : Forall (fun h => exists k, h = 3 * k /\ 0 <= k < num_desc q / 3 /\ group_done (q_desc q) k) pending;
  bi_count : 3 * lenz pending <= num_desc q;
  bi_free : num_free_desc q = num_desc q - 3 * lenz pending;
  bi_phase :
    (lenz pending <= num_desc q / 3 /\ top_free_idx q = (3 * lenz pending) mod num_desc q /\
     (forall k, 0 <= k < lenz pending -> group_done (q_desc q) k) /\ (forall k, lenz pending <= k < num_desc q / 3 -> group_new (num_desc q) (q_desc q) k)) \/
    ((forall k, 0 <= k < num_desc q / 3 -> group_done (q_desc q) k) /\ (3 <= num_free_desc q -> exists k, top_free_idx q = 3 * k /\ 0 <= k < num_desc q / 3));
}.

Lemma third_bounds n : 3 <= n -> 1 <= n / 3 /\ 3 * (n / 3) <= n < 3 * (n / 3) + 3.
Proof. intros. pose proof (Z.div_mod n 3 ltac:(lia)). pose proof (Z.mod_pos_bound n 3 ltac:(lia)). lia. Qed.

Lemma group_inj ds k d0 d1 d2 e0 e1 e2 : group ds k d0 d1 d2 -> group ds k e0 e1 e2 -> d0 = e0 /\ d1 = e1 /\ d2 = e2.
Proof. intros (?&?&?&_) (?&?&?&_). split_and!; congruence. Qed.

(** A group that is not written stays. *)
Definition write_group (ds : list VirtqDesc) (k : Z) (e0 e1 e2 : VirtqDesc) : list VirtqDesc := setz (setz (setz ds (3 * k) e0) (3 * k + 1) e1) (3 * k + 2) e2.

Lemma write_group_other ds k e0 e1 e2 j : 0 <= k -> j <> k -> forall i, 3 * j <= i <= 3 * j + 2 -> atz (write_group ds k e0 e1 e2) i = atz ds i.
Proof. intros Hk Hj i Hi. unfold write_group. by rewrite !atz_setz_ne by lia. Qed.

Lemma write_group_same ds k e0 e1 e2 : 0 <= k -> 3 * k + 2 < lenz ds ->
  atz (write_group ds k e0 e1 e2) (3 * k) = Some e0 /\ atz (write_group ds k e0 e1 e2) (3 * k + 1) = Some e1 /\ atz (write_group ds k e0 e1 e2) (3 * k + 2) = Some e2.
Proof.
  intros Hk Hl. unfold write_group. split_and!.
  - rewrite !atz_setz_ne by lia. apply atz_setz_eq. lia.
  - rewrite atz_setz_ne by lia. apply atz_setz_eq. rewrite lenz_setz. lia.
  - apply atz_setz_eq. rewrite !lenz_setz. lia.
Qed.

Lemma group_other ds k e0 e1 e2 j d0 d1 d2 : 0 <= k -> j <> k -> group ds j d0 d1 d2 -> group (write_group ds k e0 e1 e2) j d0 d1 d2.
Proof. intros Hk Hj (?&?&?&?&?). unfold group. rewrite !(write_group_other ds k e0 e1 e2 j) by lia. done. Qed.

Lemma done_other ds k e0 e1 e2 j : 0 <= k -> j <> k -> group_done ds j -> group_done (write_group ds k e0 e1 e2) j.
Proof. intros Hk Hj (d0 & d1 & d2 & Hg & ?). exists d0, d1, d2. split; [by apply group_other|done]. Qed.

Lemma new_other n ds k e0 e1 e2 j : 0 <= k -> j <> k -> group_new n ds j -> group_new n (write_group ds k e0 e1 e2) j.
Proof. intros Hk Hj (d0 & d1 & d2 & Hg & ?). exists d0, d1, d2. split; [by apply group_other|done]. Qed.

(** ** Reclaiming *)

Lemma chain_length_three ds k n : (3 <= n)%nat -> group_done ds k -> chain_length n (3 * k) 0 ds = Some 3.
Proof.
  intros Hn (d0 & d1 & d2 & (H0 & H1 & H2 & N0 & N1) & _ & F0 & F1 & F2). destruct n as [|[|[|n]]]; try lia. cbn [chain_length].
  rewrite H0. cbn [mbind option_bind]. rewrite F0, N0, H1. cbn [mbind option_bind]. rewrite F1, N1, H2. cbn [mbind option_bind]. by rewrite F2.
Qed.

Lemma reclaim_three pending : forall q, queue_size_ok (num_desc q) -> 3 <= num_desc q -> 3 * lenz pending <= num_desc q -> lenz (q_desc q) = num_desc q ->
  Forall (fun h => exists k, h = 3 * k /\ 0 <= k < num_desc q / 3 /\ group_done (q_desc q) k) pending ->
  0 <= last_device_idx q < 65536 -> dev_index (q_device q) = u16 (last_device_idx q + lenz pending) -> ring_holds q pending ->
  0 <= num_free_desc q -> num_free_desc q + 3 * lenz pending < 2 ^ 64 ->
  reclaim (length pending) q = Some (set_last_device (dev_index (q_device q)) (set_free_desc (num_free_desc q + 3 * lenz pending) (default (top_free_idx q) (last pending)) q)).
Proof.
  induction pending as [|h pending IH]; intros q Hn H3 Hle Hds Hp Hl Hidx Hring Hf0 Hf; pose proof Hn as [Hpos _].
  - cbn [reclaim length last default]. change (lenz (@nil Z)) with 0 in *. rewrite Hidx, Z.add_0_r, wrap_small, Z.eqb_refl, Z.mul_0_r, Z.add_0_r by lia. by destruct q.
  - rewrite lenz_cons in *. pose proof (lenz_nonneg pending). apply Forall_cons in Hp as [(k & -> & Hk & Hd) Hp]. cbn [length reclaim].
    destruct (Z.eqb_spec (last_device_idx q) (dev_index (q_device q))) as [E|_].
    { exfalso. rewrite Hidx in E. unfold wrap in E. change (2 ^ 16) with 65536 in E. pose proof (Z.div_mod (last_device_idx q + (lenz pending + 1)) 65536 ltac:(lia)). nia. }
    destruct (Hring 0%nat (3 * k) eq_refl) as (el & He & Hid). rewrite Z.add_0_r in He. unfold used_elem, ring_at. destruct (Z.eqb_spec (num_desc q) 0); [lia|].
    pose proof (third_bounds _ H3) as Hb. rewrite He. cbn [mbind option_bind]. rewrite Hid, i32_small by lia. rewrite chain_length_three by (done || lia). cbn [mbind option_bind].
    rewrite (wrap_small 64) by lia.
    rewrite IH; cbn [num_desc q_desc q_device last_device_idx num_free_desc top_free_idx set_last_device set_free_desc]; [|done|done|lia|done|done|apply wrap_range; lia| | |lia|lia].
    + f_equal. unfold set_last_device, set_free_desc. f_equal; [cbn; lia|]. destruct pending as [|j pending]; [done|].
      change (last (3 * k :: j :: pending)) with (last (j :: pending)). destruct (last (j :: pending)) eqn:E; [done|]. by apply last_None in E.
    + rewrite Hidx. unfold wrap. rewrite Zplus_mod_idemp_l. f_equal. lia.
    + intros j x Hj. cbn [last_device_idx set_last_device num_desc q_device set_free_desc]. destruct (Hring (S j) x Hj) as (e & Hr & Hx). exists e. split; [|done].
      rewrite <- Hr. f_equal. rewrite <- Zplus_mod_idemp_l, mod_wrap16 by done. rewrite Zplus_mod_idemp_l. f_equal. lia.
Qed.

(** The reclaimed queue is idle again, with nothing pending. *)
Lemma idle_reclaim q pending : blk_idle q pending -> num_free_desc q < 3 ->
  exists q1, reclaim (used_count q) q = Some q1 /\ blk_idle q1 [] /\ num_desc q1 = num_desc q /\ 3 <= num_free_desc q1 /\
    q_desc q1 = q_desc q /\ q_driver q1 = q_driver q /\ q_device q1 = q_device q.
Proof.
  intros H Hfew. pose proof (third_bounds _ (bi_three _ _ H)) as Hb. pose proof (bi_free _ _ H) as Hf. pose proof (bi_size _ _ H) as [Hpos Hdiv].
  pose proof (lenz_nonneg pending). pose proof (bi_last _ _ H) as Hlast. pose proof (bi_count _ _ H) as Hcount.
  assert (used_count q = length pending) as ->.
  { unfold used_count. rewrite (bi_index _ _ H). unfold wrap. change (2 ^ 16) with 65536. rewrite Zminus_mod_idemp_l.
    replace (last_device_idx q + lenz pending - last_device_idx q) with (lenz pending) by lia. rewrite Z.mod_small by lia. unfold lenz. lia. }
  rewrite reclaim_three; [|apply H|apply H|lia|apply H|apply H|apply H|apply H|apply H|lia|lia].
  assert (forall k, 0 <= k < num_desc q / 3 -> group_done (q_desc q) k) as Hall.
  { destruct (bi_phase _ _ H) as [(Hle & _ & Hd & _)|[Hd _]]; [|done]. intros k Hk. apply Hd. lia. }
  destruct (last pending) as [h|] eqn:El; [|apply last_None in El; subst pending; unfold lenz in *; simpl in *; pose proof (bi_three _ _ H); lia].
  pose proof (bi_pending _ _ H) as Hp. rewrite Forall_forall in Hp. destruct (Hp h) as (k & -> & Hk & _); [by apply last_Some_elem_of|].
  eexists. split; [done|]. cbn [default]. split_and!; try done; [|cbn [num_free_desc set_last_device set_free_desc]; pose proof (bi_three _ _ H); lia].
  split; cbn [num_desc q_desc q_driver q_device last_device_idx num_free_desc top_free_idx set_last_device set_free_desc]; try apply H.
  - rewrite (bi_index _ _ H). apply wrap_range. lia.
  - change (lenz (@nil Z)) with 0. rewrite Z.add_0_r, (bi_index _ _ H). by rewrite wrap_wrap.
  - intros j x Hj. by rewrite lookup_nil in Hj.
  - done.
  - change (lenz (@nil Z)) with 0. pose proof (bi_three _ _ H). lia.
  - change (lenz (@nil Z)) with 0. lia.
  - right. split; [done|]. intros _. by exists k.
Qed.

(** ** Publishing a request *)

Definition chain_desc (e : VirtioEntry) (next : option Z) : VirtqDesc :=
  let w := if en_write e then VIRTQ_DESC_F_WRITE else 0 in
  match next with
  | Some n => mkDesc (en_addr e) (en_len e) (Z.lor VIRTQ_DESC_F_NEXT w) n
  | None => mkDesc (en_addr e) (en_len e) (Z.lor 0 w) 0
  end.

Lemma chain_desc_flag e n : has_flag VIRTQ_DESC_F_NEXT (chain_desc e n) = match n with Some _ => true | None => false end.
Proof. unfold chain_desc, has_flag. by destruct n, (en_write e). Qed.

(** The three descriptors of a request in group [k]. *)
Definition request_descs (k : Z) (e0 e1 e2 : VirtioEntry) : list VirtqDesc :=
  [chain_desc e0 (Some (3 * k + 1)); chain_desc e1 (Some (3 * k + 2)); chain_desc e2 None].

Definition after_push (q : VirtioVirtqueue) (k nx : Z) (e0 e1 e2 : VirtioEntry) : VirtioVirtqueue :=
  let r := q_driver q in
  mkQueue (q_index q) (num_desc q) (num_free_desc q - 3) nx (last_driver_idx q) (last_device_idx q) (notify_off q)
    (write_group (q_desc q) k (chain_desc e0 (Some (3 * k + 1))) (chain_desc e1 (Some (3 * k + 2))) (chain_desc e2 None))
    (mkDriver (drv_flags r) (u16 (drv_index r + 1)) (setz (drv_ring r) (drv_index r mod num_desc q) (3 * k))) (q_device q).

Lemma push_group q k d0 d1 d2 e0 e1 e2 : 0 < num_desc q <= 32768 -> lenz (q_desc q) = num_desc q -> lenz (drv_ring (q_driver q)) = num_desc q ->
  3 <= num_free_desc q <= 32768 -> top_free_idx q = 3 * k -> 0 <= k -> group (q_desc q) k d0 d1 d2 ->
  exists es, push_virtio_entry q [e0; e1; e2] = Some (3 * k, es, after_push q k (vd_next d2) e0 e1 e2).
Proof.
  intros Hp Hds Hdr Hf Htop Hk (H0 & H1 & H2 & N0 & N1). pose proof (atz_Some_lt _ _ _ H2) as Hi.
  destruct (atz_lt (drv_ring (q_driver q)) (drv_index (q_driver q) mod num_desc q)) as [x Hx]. { rewrite Hdr. apply Z.mod_pos_bound. lia. }
  unfold push_virtio_entry. change (lenz [e0; e1; e2]) with 3. assert ((num_free_desc q <? 3) = false) as E by (apply Z.ltb_ge; lia). rewrite E. cbn [mbind option_bind].
  rewrite E, Htop, i32_small by lia. cbn [fill_chain]. rewrite H0. cbn [mbind option_bind]. cbn [vd_next q_desc set_free_desc put_desc num_free_desc top_free_idx].
  rewrite N0, atz_setz_ne, H1 by lia. cbn [mbind option_bind vd_next]. rewrite N1, !atz_setz_ne, H2 by lia. cbn [mbind option_bind].
  unfold publish. cbn [q_driver num_desc set_free_desc put_desc]. destruct (Z.eqb_spec (num_desc q) 0); [lia|]. rewrite Hx. cbn [mbind option_bind].
  eexists. unfold after_push, set_driver, set_free_desc, put_desc, write_group, chain_desc.
  cbn [q_index num_desc num_free_desc top_free_idx last_driver_idx last_device_idx notify_off q_desc q_driver q_device].
  rewrite (wrap_small 64 (num_free_desc q - 1)), (wrap_small 64 (num_free_desc q - 1 - 1)), (wrap_small 64 (num_free_desc q - 1 - 1 - 1)), (wrap_small 16 (3 * k)) by lia.
  replace (num_free_desc q - 1 - 1 - 1) with (num_free_desc q - 3) by lia. done.
Qed.

Lemma after_push_chain q k nx e0 e1 e2 : 0 <= k -> 3 * k + 2 < lenz (q_desc q) ->
  chain_from 3 (3 * k) (q_desc (after_push q k nx e0 e1 e2)) = Some (request_descs k e0 e1 e2) /\ group_done (q_desc (after_push q k nx e0 e1 e2)) k.
Proof.
  intros Hk Hl. destruct (write_group_same (q_desc q) k (chain_desc e0 (Some (3 * k + 1))) (chain_desc e1 (Some (3 * k + 2))) (chain_desc e2 None) Hk Hl) as (W0 & W1 & W2).
  cbn [q_desc after_push]. split.
  - cbn [chain_from]. rewrite W0. cbn [mbind option_bind]. rewrite chain_desc_flag. change (vd_next (chain_desc e0 (Some (3 * k + 1)))) with (3 * k + 1).
    rewrite W1. cbn [mbind option_bind]. rewrite chain_desc_flag. change (vd_next (chain_desc e1 (Some (3 * k + 2)))) with (3 * k + 2). rewrite W2. cbn [mbind option_bind]. by rewrite chain_desc_flag.
  - eexists _, _, _. split; [by split_and!|]. by rewrite !chain_desc_flag.
Qed.

(** An idle queue with room takes a request, and is idle again once the device is
    done with it. *)
Lemma idle_push_room q pending e0 e1 e2 : blk_idle q pending -> 3 <= num_free_desc q ->
  exists k es nx, 0 <= k < num_desc q / 3 /\ push_virtio_entry q [e0; e1; e2] = Some (3 * k, es, after_push q k nx e0 e1 e2) /\
    forall len, blk_idle (device_done (3 * k) len (after_push q k nx e0 e1 e2)) (pending ++ [3 * k]).
Proof.
  intros H Hroom. pose proof (third_bounds _ (bi_three _ _ H)) as Hb. pose proof (bi_free _ _ H) as Hf. pose proof (bi_size _ _ H) as [Hpos Hdiv].
  pose proof (lenz_nonneg pending). pose proof (bi_descs _ _ H) as Hds. pose proof (bi_last _ _ H) as Hlast.
  assert (exists k nx d0 d1 d2, top_free_idx q = 3 * k /\ 0 <= k < num_desc q / 3 /\ group (q_desc q) k d0 d1 d2 /\ vd_next d2 = nx /\
    (((forall j, 0 <= j < lenz pending -> group_done (q_desc q) j) /\ (forall j, lenz pending <= j < num_desc q / 3 -> group_new (num_desc q) (q_desc q) j) /\
      k = lenz pending /\ nx = (3 * (lenz pending + 1)) mod num_desc q) \/ ((forall j, 0 <= j < num_desc q / 3 -> group_done (q_desc q) j) /\ nx = 0)))
    as (k & nx & d0 & d1 & d2 & Htop & Hk & Hg & Hnx & Hphase).
  { destruct (bi_phase _ _ H) as [(Hle & Htop & Hd & Hn)|[Hd Htop]].
    - assert (lenz pending < num_desc q / 3) by lia. destruct (Hn (lenz pending)) as (d0 & d1 & d2 & Hg & Hnx); [lia|].
      exists (lenz pending), ((3 * lenz pending + 3) mod num_desc q), d0, d1, d2. rewrite Z.mod_small in Htop by lia. split_and!; try done; try lia. left. split_and!; try done. f_equal. lia.
    - destruct (Htop Hroom) as (k & Htop' & Hk). destruct (Hd k Hk) as (d0 & d1 & d2 & Hg & Hnx & _). exists k, 0, d0, d1, d2. split_and!; try done; try lia. by right. }
  destruct (push_group q k d0 d1 d2 e0 e1 e2) as [es E]; [lia|done|apply H|lia|done|lia|done|]. exists k, es, nx. split; [done|]. rewrite E, Hnx. split; [done|]. intros len.
  destruct (after_push_chain q k nx e0 e1 e2) as [_ Hdone]; [lia|lia|]. set (q' := after_push q k nx e0 e1 e2) in *.
  assert (forall j, 0 <= j < num_desc q / 3 -> group_done (q_desc q) j -> group_done (q_desc q') j) as Hkeep.
  { intros j Hj Hd. destruct (decide (j = k)) as [->|Hne]; [done|]. apply done_other; [lia|done|done]. }
  assert (dev_index (q_device q) mod num_desc q = (last_device_idx q + lenz pending) mod num_desc q) as Hslot.
  { rewrite (bi_index _ _ H). apply mod_wrap16, H. }
  split; cbn [num_desc q_desc q_driver q_device drv_ring dev_ring dev_index num_free_desc top_free_idx last_device_idx set_device device_done q' after_push];
    rewrite ?lenz_app, ?lenz_setz; change (lenz [3 * k]) with 1; try apply H; try lia.
  - unfold write_group. by rewrite !lenz_setz.
  - rewrite (bi_index _ _ H). unfold wrap. rewrite Zplus_mod_idemp_l. f_equal. lia.
  - intros j x Hj. cbn [q_device dev_ring last_device_idx num_desc set_device device_done after_push q']. rewrite Hslot. apply lookup_app_Some in Hj as [Hj|[Hle Hj]].
    + destruct (bi_used _ _ H j x Hj) as (e & He & Hid). exists e. split; [|done]. rewrite atz_setz_ne; [done|apply Z.mod_pos_bound; lia|].
      apply lookup_lt_Some in Hj. intros Heq. apply ring_slot_inj in Heq; unfold lenz in *; lia.
    + apply list_lookup_singleton_Some in Hj as [Hz <-]. exists (mkElem (3 * k) len). split; [|done].
      replace (Z.of_nat j) with (lenz pending) by (unfold lenz; lia). apply atz_setz_eq. rewrite (bi_ring _ _ H). apply Z.mod_pos_bound. lia.
  - apply Forall_app. split.
    + eapply Forall_impl; [apply (bi_pending _ _ H)|]. intros h (j & -> & Hj & Hd). exists j. split_and!; try lia. by apply Hkeep.
    + apply Forall_singleton. by exists k.
  - destruct Hphase as [(Hd & Hn & Hkp & Hnx')|[Hd Hnx']].
    + left. split_and!; [lia|done| |].
      * intros j Hj. destruct (decide (j = k)) as [->|]; [done|]. apply Hkeep; [lia|]. apply Hd. lia.
      * intros j Hj. apply new_other; [lia|lia|]. apply Hn. lia.
    + right. split; [intros j Hj; by apply Hkeep, Hd|]. intros _. exists 0. lia.
Qed.

(** Every request finds three linked descriptors, however many came before. *)
Lemma idle_push q pending e0 e1 e2 : blk_idle q pending ->
  exists k es q', push_virtio_entry q [e0; e1; e2] = Some (3 * k, es, q') /\ num_desc q' = num_desc q /\ published q q' (3 * k) /\
    chain_from 3 (3 * k) (q_desc q') = Some (request_descs k e0 e1 e2) /\ forall len, exists pending', blk_idle (device_done (3 * k) len q') pending'.
Proof.
  intros H. assert (forall q1 pending1, blk_idle q1 pending1 -> 3 <= num_free_desc q1 ->
    exists k es q', push_virtio_entry q1 [e0; e1; e2] = Some (3 * k, es, q') /\ num_desc q' = num_desc q1 /\ published q1 q' (3 * k) /\
      chain_from 3 (3 * k) (q_desc q') = Some (request_descs k e0 e1 e2) /\ forall len, exists pending', blk_idle (device_done (3 * k) len q') pending') as Hroom.
  { intros q1 p1 H1 Hf. destruct (idle_push_room q1 p1 e0 e1 e2 H1 Hf) as (k & es & nx & Hk & E & Hidle). exists k, es, (after_push q1 k nx e0 e1 e2).
    pose proof (third_bounds _ (bi_three _ _ H1)) as Hb. pose proof (bi_descs _ _ H1) as Hds. pose proof (bi_size _ _ H1) as [Hpos _].
    split_and!; [done|done| |apply after_push_chain; lia|intros len; eexists; apply Hidle]. split; [done|]. split; [done|]. cbn [q_driver drv_ring after_push].
    apply atz_setz_eq. rewrite (bi_avail _ _ H1). apply Z.mod_pos_bound. lia. }
  destruct (Z.ltb_spec (num_free_desc q) 3) as [Hfew|Hmany]; [|by apply (Hroom q pending)].
  destruct (idle_reclaim q pending H Hfew) as (q1 & Hrec & H1 & Hn1 & Hf1 & Hd1 & Hr1 & Hv1). destruct (Hroom q1 [] H1 Hf1) as (k & es & q' & E & Hn & Hpub & Hchain & Hidle).
  exists k, es, q'. assert (push_virtio_entry q [e0; e1; e2] = push_virtio_entry q1 [e0; e1; e2]) as ->.
  { unfold push_virtio_entry. change (lenz [e0; e1; e2]) with 3. assert ((num_free_desc q <? 3) = true) as -> by (apply Z.ltb_lt; lia). rewrite Hrec. cbn [mbind option_bind].
    assert ((num_free_desc q1 <? 3) = false) as E1 by (apply Z.ltb_ge; lia). rewrite E1. cbn [mbind option_bind]. by rewrite E1. }
  split_and!; try done; [congruence|]. unfold published in *. rewrite Hr1, Hn1 in Hpub. done.
Qed.

(** A fresh queue is idle. *)
Lemma idle_fresh index n off q : queue_size_ok n -> 3 <= n -> fresh_queue index n off q -> blk_idle q [].
Proof.
  intros Hn H3 Hq. pose proof (vq_fresh index n off q Hn Hq) as H. pose proof Hn as [Hp _]. destruct (init_virtqueue_total index n off) as (q' & Hq' & Hlen & Hds & Heq); [lia|].
  unfold fresh_queue in *. rewrite Hq in Hq'. assert (q' = q) as -> by congruence. assert (num_desc q = n) as Hnd by (by rewrite Heq). pose proof (third_bounds n H3) as Hb.
  split; rewrite ?Hnd; try done; change (lenz (@nil Z)) with 0; try lia.
  - rewrite <- Hnd. apply H.
  - rewrite <- Hnd. apply H.
  - apply H.
  - rewrite Heq. done.
  - rewrite Heq. cbn [num_free_desc]. lia.
  - left. split_and!; [lia|rewrite Heq; by rewrite Z.mul_0_r, Z.mod_0_l by lia|intros; lia|]. intros k Hk.
    eexists _, _, _. split; [split_and!; [by apply Hds; lia..| |]|]; cbn [vd_next].
    + rewrite Z.mod_small, wrap_small; lia.
    + rewrite Z.mod_small, wrap_small; lia.
    + pose proof (Z.mod_pos_bound (3 * k + 2 + 1) n ltac:(lia)). rewrite wrap_small by lia. f_equal. lia.
Qed.

(** * What the block driver promises

    Together with a device that follows the virtio standard, a read request fills
    its buffer with the sectors of the disk and a write request puts its buffer on
    the disk: what the file system assumes of block reads and writes. *)

(** ** A device that follows the standard *)

Definition load64 (m : Mem) (a : Z) : Z := load32 m a + 2 ^ 32 * load32 m (a + 4).

(** The bytes [l] at [a]. *)
Definition put_bytes (a : Z) (l : list Z) (m : Mem) : Mem := fun x => if (a <=? x) && (x <? a + lenz l) then l !!! Z.to_nat (x - a) else m x.

(** The device reads [d], or writes it. *)
Definition readable (d : VirtqDesc) : Prop := has_flag VIRTQ_DESC_F_WRITE d = false.
Definition writable (d : VirtqDesc) : Prop := has_flag VIRTQ_DESC_F_WRITE d = true.

(** The request in the header of a chain: type and sector. *)
Definition header_is (m : Mem) (hd : VirtqDesc) (type sector : Z) : Prop :=
  readable hd /\ vd_len hd = 16 /\ load32 m (vd_addr hd) = type /\ load64 m (vd_addr hd + 8) = sector.

(** A request that the standard knows: to read with a data buffer that the device may
    write, or to write with one that it may read. *)
Definition understood (m : Mem) (hd dt : VirtqDesc) : Prop :=
  exists sector, (header_is m hd VIRTIO_BLK_T_IN sector /\ writable dt) \/ (header_is m hd VIRTIO_BLK_T_OUT sector /\ readable dt).

(** The device serves a chain of header, data and status: memory and disk change.  A
    [healthy] device fails only requests that it does not understand. *)
Inductive served (healthy : bool) (m : Mem) (d : Disk) : list VirtqDesc -> Mem -> Disk -> Prop :=
| served_in hd dt st sector :
    header_is m hd VIRTIO_BLK_T_IN sector -> writable dt -> writable st -> vd_len st = 1 ->
    served healthy m d [hd; dt; st] (put_bytes (vd_addr st) [VIRTIO_BLK_S_OK] (put_bytes (vd_addr dt) (disk_bytes d sector (vd_len dt)) m)) d
| served_out hd dt st sector :
    header_is m hd VIRTIO_BLK_T_OUT sector -> readable dt -> writable st -> vd_len st = 1 ->
    served healthy m d [hd; dt; st] (put_bytes (vd_addr st) [VIRTIO_BLK_S_OK] m) (disk_put sector (load_bytes m (vd_addr dt) (vd_len dt)) d)
| served_error hd dt st status m' d' :
    (healthy = true -> ~ understood m hd dt) -> writable st -> vd_len st = 1 -> status <> VIRTIO_BLK_S_OK ->
    served healthy m d [hd; dt; st] (put_bytes (vd_addr st) [status] m') d'.

(** ** Memory *)

Lemma load_in m a : 0 <= a < 2 ^ 64 -> load m a = m a.
Proof. intros. unfold load. by rewrite wrap_small. Qed.

Lemma store_ne m a v x : 0 <= a < 2 ^ 64 -> 0 <= x < 2 ^ 64 -> x <> a -> load (store a v m) x = load m x.
Proof. intros. rewrite !load_in by done. by apply store_same. Qed.

Lemma store_at m a v : 0 <= a < 2 ^ 64 -> load (store a v m) a = v.
Proof. intros. rewrite load_in by done. by apply store_eq. Qed.

Lemma bytes_of_word v : 0 <= v < 2 ^ 32 -> v mod 256 + 256 * (v / 2 ^ 8 mod 256) + 65536 * (v / 2 ^ 16 mod 256 + 256 * (v / 2 ^ 24 mod 256)) = v.
Proof.
  intros Hv. assert (v / 2 ^ 16 = v / 2 ^ 8 / 2 ^ 8) as E1 by (by rewrite Z.div_div by lia). assert (v / 2 ^ 24 = v / 2 ^ 16 / 2 ^ 8) as E2 by (by rewrite Z.div_div by lia).
  pose proof (Z.div_mod v 256 ltac:(lia)). pose proof (Z.div_mod (v / 2 ^ 8) 256 ltac:(lia)). pose proof (Z.div_mod (v / 2 ^ 16) 256 ltac:(lia)).
  assert (0 <= v / 2 ^ 24 < 256) by (split; [apply Z.div_pos; lia|apply Z.div_lt_upper_bound; lia]). rewrite (Z.mod_small (v / 2 ^ 24)) by lia.
  change (2 ^ 8) with 256 in *. lia.
Qed.

Lemma load32_store32 m a v : 0 <= a -> a + 4 <= 2 ^ 64 -> 0 <= v < 2 ^ 32 -> load32 (store32 a v m) a = v.
Proof.
  intros Ha Hb Hv. unfold load32, load16, store32. replace (a + 2 + 1) with (a + 3) by lia.
  rewrite store_at by lia. rewrite !(store_ne _ (a + 3)) by lia. rewrite store_at by lia. rewrite !(store_ne _ (a + 2)) by lia. rewrite store_at by lia.
  rewrite !(store_ne _ (a + 1)) by lia. rewrite store_at by lia. by apply bytes_of_word.
Qed.

Lemma load_store32_ne m a v x : 0 <= a -> a + 4 <= 2 ^ 64 -> 0 <= x < 2 ^ 64 -> x < a \/ a + 4 <= x -> load (store32 a v m) x = load m x.
Proof. intros. unfold store32. by rewrite !store_ne by lia. Qed.

Lemma load32_store32_ne m a v b : 0 <= a -> a + 4 <= 2 ^ 64 -> 0 <= b -> b + 4 <= 2 ^ 64 -> b + 4 <= a \/ a + 4 <= b -> load32 (store32 a v m) b = load32 m b.
Proof. intros. unfold load32, load16. by rewrite !load_store32_ne by lia. Qed.

Lemma load64_store64 m a v : 0 <= a -> a + 8 <= 2 ^ 64 -> 0 <= v < 2 ^ 64 -> load64 (store64 a v m) a = v.
Proof.
  intros Ha Hb Hv. unfold load64, store64. assert (0 <= v / 2 ^ 32 < 2 ^ 32) by (split; [apply Z.div_pos; lia|apply Z.div_lt_upper_bound; lia]).
  rewrite load32_store32 by lia. rewrite load32_store32_ne by lia. rewrite load32_store32; [|lia|lia|apply Z.mod_pos_bound; lia]. pose proof (Z.div_mod v (2 ^ 32) ltac:(lia)). lia.
Qed.

Lemma load32_store64_ne m a v b : 0 <= a -> a + 8 <= 2 ^ 64 -> 0 <= b -> b + 4 <= 2 ^ 64 -> b + 4 <= a \/ a + 8 <= b -> load32 (store64 a v m) b = load32 m b.
Proof. intros. unfold store64. by rewrite !load32_store32_ne by lia. Qed.

Lemma load_store64_ne m a v x : 0 <= a -> a + 8 <= 2 ^ 64 -> 0 <= x < 2 ^ 64 -> x < a \/ a + 8 <= x -> load (store64 a v m) x = load m x.
Proof. intros. unfold store64. by rewrite !load_store32_ne by lia. Qed.

Lemma put_bytes_out a l m x : x < a \/ a + lenz l <= x -> put_bytes a l m x = m x.
Proof. intros H. unfold put_bytes. destruct (Z.leb_spec a x), (Z.ltb_spec x (a + lenz l)); try lia; done. Qed.

Lemma put_bytes_at a l m i v : l !! i = Some v -> put_bytes a l m (a + Z.of_nat i) = v.
Proof.
  intros H. pose proof (lookup_lt_Some _ _ _ H). unfold put_bytes. destruct (Z.leb_spec a (a + Z.of_nat i)), (Z.ltb_spec (a + Z.of_nat i) (a + lenz l)); unfold lenz in *; try lia.
  cbn [andb]. replace (Z.to_nat (a + Z.of_nat i - a)) with i by lia. by apply list_lookup_total_correct.
Qed.

(** Bytes that were put are loaded. *)
Lemma load_bytes_put a l m : 0 <= a -> a + lenz l <= 2 ^ 64 -> load_bytes (put_bytes a l m) a (lenz l) = l.
Proof.
  intros Ha Hb. unfold load_bytes. apply list_eq. intros i. rewrite list_lookup_fmap. destruct (l !! i) as [v|] eqn:E.
  - pose proof (lookup_lt_Some _ _ _ E). rewrite lookup_seqZ_lt by (unfold lenz; lia). cbn [fmap option_fmap option_map]. f_equal. rewrite Z.add_0_l. unfold lenz in Hb.
    rewrite load_in by lia. by apply put_bytes_at.
  - apply lookup_ge_None in E. rewrite lookup_seqZ_ge by (unfold lenz; lia). done.
Qed.

Lemma load_bytes_ext m m' a n : (forall x, a <= x < a + n -> load m' x = load m x) -> load_bytes m' a n = load_bytes m a n.
Proof. intros H. unfold load_bytes. apply list_fmap_ext. intros i x Hi. apply lookup_seqZ in Hi as [-> Hi]. apply H. lia. Qed.

Lemma lenz_disk_bytes d s n : 0 <= n -> lenz (disk_bytes d s n) = n.
Proof. intros. unfold disk_bytes, lenz. rewrite length_fmap, length_seqZ. lia. Qed.

(** ** A request *)

(** The driver can take a request. *)
Definition blk_ready (b : Blk) : Prop := exists q pending cap, atz (queues (blk_dev b)) 0 = Some q /\ blk_idle q pending /\ notify_cfg (blk_dev b) = Some cap.

(** The device serves the chain published last and reports it. *)
Definition blk_device_step (healthy : bool) (b : Blk) (d : Disk) (b' : Blk) (d' : Disk) : Prop :=
  exists q head chain m' used, atz (queues (blk_dev b)) 0 = Some q /\
    atz (drv_ring (q_driver q)) ((drv_index (q_driver q) - 1) mod num_desc q) = Some head /\ chain_from 3 head (q_desc q) = Some chain /\
    served healthy (mem (bkern b)) d chain m' d' /\
    b' = mkBlk (set_queues (setz (queues (blk_dev b)) 0 (device_done head used q)) (blk_dev b)) (set_mem m' (bkern b)) (bells b).

(** The supply has a block at [req] for the request, apart from the buffer. *)
Definition request_block (b : Blk) (req buffer len : Z) : Prop :=
  (exists rest, supply (bkern b) = req :: rest) /\ 0 < req /\ req + 17 <= 2 ^ 64 /\ 0 <= buffer /\ buffer + len <= 2 ^ 64 /\ (buffer + len <= req \/ req + 17 <= buffer).

(** Between [b0] and [b] the driver has published one request: the newest element of the
    driver ring heads a chain of the header at [req], the data buffer and the status
    byte behind the header, and the doorbell of the queue was rung. *)
Definition asks (b0 b : Blk) (type sector : Z) (w : bool) (req buffer len : Z) : Prop :=
  exists q0 q head hd dt st bell, atz (queues (blk_dev b0)) 0 = Some q0 /\ atz (queues (blk_dev b)) 0 = Some q /\
    drv_index (q_driver q) = u16 (drv_index (q_driver q0) + 1) /\ atz (drv_ring (q_driver q)) ((drv_index (q_driver q) - 1) mod num_desc q) = Some head /\
    chain_from 3 head (q_desc q) = Some [hd; dt; st] /\
    vd_addr hd = req /\ header_is (mem (bkern b)) hd type sector /\ desc_buffer dt = (buffer, len, w) /\ desc_buffer st = (req + 16, 1, true) /\
    notify_virtqueue (blk_dev b) 0 = Some bell /\ bells b = bells b0 ++ [bell].

Lemma chain_desc_buffer e n : desc_buffer (chain_desc e n) = buffer_of e.
Proof. destruct e as [i a l w], n, w; done. Qed.

Lemma last_published n x : queue_size_ok n -> (u16 (x + 1) - 1) mod n = x mod n.
Proof. intros H. rewrite <- Zminus_mod_idemp_l, (mod_wrap16 n) by done. rewrite Zminus_mod_idemp_l. f_equal. lia. Qed.

Lemma start_spec type w buffer sector len b req : blk_ready b -> request_block b req buffer len -> 512 <= len -> 0 <= sector < 2 ^ 64 -> 0 <= type < 2 ^ 32 ->
  exists b1 q k cap, start_request type w buffer sector len b = Some (inr req, b1) /\ atz (queues (blk_dev b1)) 0 = Some q /\ notify_cfg (blk_dev b1) = Some cap /\
    heap (bkern b1) = req :: heap (bkern b) /\
    atz (drv_ring (q_driver q)) ((drv_index (q_driver q) - 1) mod num_desc q) = Some (3 * k) /\
    chain_from 3 (3 * k) (q_desc q) = Some (request_descs k (mkEntry 0 req 16 false) (mkEntry 0 buffer len w) (mkEntry 0 (req + 16) 1 true)) /\
    (forall used, exists pending, blk_idle (device_done (3 * k) used q) pending) /\
    header_is (mem (bkern b1)) (chain_desc (mkEntry 0 req 16 false) (Some (3 * k + 1))) type sector /\
    (forall x, 0 <= x < 2 ^ 64 -> x < req \/ req + 17 <= x -> load (mem (bkern b1)) x = load (mem (bkern b)) x) /\
    asks b b1 type sector w req buffer len.
Proof.
  intros (q & pending & cap & Hq & Hidle & Hcap) ((rest & Hs) & Hreq & Hend & Hb0 & Hb1 & Hd) Hlen Hsec Hty.
  unfold start_request, validate_length, SECTOR_SIZE. destruct (Z.ltb_spec len 512); [lia|]. change (IS_ERR (err OK)) with false. cbv iota.
  unfold make_ool_buffer. change (sizeof_VirtioBlkReq =? 0) with false. cbv iota. rewrite Hs. destruct (Z.eqb_spec req 0); [lia|]. destruct (Z.eqb_spec req 0); [lia|].
  rewrite Hq. cbn [mbind option_bind]. unfold blk_chain, req_status_addr, req_sector_addr. change (4 * 2 + 8) with 16.
  destruct (idle_push q pending (mkEntry 0 req 16 false) (mkEntry 0 buffer len w) (mkEntry 0 (req + 16) 1 true) Hidle) as (k & es & q' & E & Hn & (_ & Hp1 & Hp2) & Hc & Hi).
  rewrite E. cbn [mbind option_bind]. pose proof (atz_Some_lt _ _ _ Hq) as Hr. unfold notify_virtqueue. cbn [queues set_queues notify_cfg]. rewrite atz_setz_eq, Hcap by done. cbn [mbind option_bind].
  eexists _, q', k, cap. split; [done|]. cbn [blk_dev bkern queues set_queues notify_cfg heap mem set_mem].
  assert (atz (drv_ring (q_driver q')) ((drv_index (q_driver q') - 1) mod num_desc q') = Some (3 * k)) as Hhead by (rewrite Hn, Hp1, last_published by apply Hidle; done).
  match goal with |- context [mkBlk _ (set_mem ?m _) _] => assert (header_is m (chain_desc (mkEntry 0 req 16 false) (Some (3 * k + 1))) type sector) as Hhdr end.
  { split_and!; [done|done| |]; cbn [vd_addr chain_desc en_addr].
    - rewrite load32_store64_ne by lia. by apply load32_store32; lia.
    - by apply load64_store64; lia. }
  split_and!; [by apply atz_setz_eq|done|done|done|done|done|done| |].
  2:{ exists q, q', (3 * k). do 4 eexists. cbn [blk_dev bkern bells queues set_queues mem set_mem]. split_and!; [done|by apply atz_setz_eq|done|done|exact Hc|done|exact Hhdr|apply chain_desc_buffer|apply chain_desc_buffer| |reflexivity].
      unfold notify_virtqueue. cbn [queues set_queues notify_cfg]. rewrite atz_setz_eq, Hcap by done. done. }
  - intros x Hx Ho. rewrite load_store64_ne by lia. rewrite load_store32_ne by lia. rewrite !load_in by lia. unfold zero_range, sizeof_VirtioBlkReq.
    destruct (Z.leb_spec req x), (Z.ltb_spec x (req + 17)); try lia; done.
Qed.

Lemma finish_spec failure req b s h : load (mem (bkern b)) (req + 16) = s -> heap (bkern b) = req :: h -> req <> 0 ->
  finish_request failure req b = Some (if negb (s =? VIRTIO_BLK_S_OK) then err failure else err OK, set_bkern (set_heap h (bkern b)) b).
Proof.
  intros Hs Hh Hr. unfold finish_request, drop_buffer, free_buffer, req_status_addr. rewrite Hs, Hh. destruct (Z.eqb_spec req 0); [done|]. cbn [remove_one].
  rewrite Z.eqb_refl. cbn [mbind option_bind]. done.
Qed.

Lemma load_status m a s : 0 <= a < 2 ^ 64 -> load (put_bytes a [s] m) a = s.
Proof. intros Ha. rewrite load_in by done. pose proof (put_bytes_at a [s] m 0 s eq_refl) as H. by rewrite Z.add_0_r in H. Qed.

Lemma header_type m hd t s t' s' : header_is m hd t s -> header_is m hd t' s' -> t = t' /\ s = s'.
Proof. intros (_ & _ & <- & <-) (_ & _ & <- & <-). done. Qed.

(** C24: (block read) Whatever requests came before, a read publishes one request and rings the
    doorbell: the newest chain is a header of type IN with the sector, which the device
    reads, the buffer with its length, which the device writes, and the status byte.
    Once the device has served it, the driver frees the request and can take the next
    one.  A healthy device serves it; and whenever the driver reports success, the
    buffer holds the sectors of the disk. *)
Theorem blk_read_correct b req buffer sector len d healthy : blk_ready b -> request_block b req buffer len -> 512 <= len < 2 ^ 32 -> 0 <= sector < 2 ^ 64 ->
  exists b1, read_from_blk_device buffer sector len b = Some (inr req, b1) /\ asks b b1 VIRTIO_BLK_T_IN sector true req buffer len /\
    forall b2 d', blk_device_step healthy b1 d b2 d' -> exists r b3, finish_read req b2 = Some (r, b3) /\ blk_ready b3 /\ heap (bkern b3) = heap (bkern b) /\
      ((r = err OK /\ load_bytes (mem (bkern b3)) buffer len = disk_bytes d sector len /\ d' = d) \/ (r = err ERR_FAILED_READ_FROM_DEVICE /\ healthy = false)).
Proof.
  intros Hready Hblock Hlen Hsec. destruct (start_spec VIRTIO_BLK_T_IN true buffer sector len b req) as (b1 & q & k & cap & E & Hq & Hcap & Hheap & Hhead & Hchain & Hidle & Hhdr & Hmem & Hasks); [done|done|lia|done|done|].
  destruct Hblock as (_ & Hreq & Hend & Hb0 & Hb1 & Hdis). exists b1. split; [done|]. split; [done|]. intros b2 d' (q0 & head & chain & m' & used & Hq0 & Hh0 & Hc0 & Hserved & ->).
  assert (q0 = q) as -> by congruence. assert (head = 3 * k) as -> by congruence. rewrite Hchain in Hc0. injection Hc0 as <-. pose proof (atz_Some_lt _ _ _ Hq) as Hr.
  destruct (Hidle used) as [pending Hidle'].
  assert (forall h, blk_ready (set_bkern h (mkBlk (set_queues (setz (queues (blk_dev b1)) 0 (device_done (3 * k) used q)) (blk_dev b1)) (set_mem m' (bkern b1)) (bells b1)))) as Hready3.
  { intros h. exists (device_done (3 * k) used q), pending, cap. split_and!; [by apply atz_setz_eq|done|done]. }
  inversion Hserved as [hd dt st sec Hhd Hw Hst Hl1|hd dt st sec Hhd Hw Hst Hl1|hd dt st status m0 d0 Hund Hst Hl1 Hstat]; subst.
  - unfold finish_read. rewrite (finish_spec _ req _ VIRTIO_BLK_S_OK (heap (bkern b))); [|by apply load_status; lia|done|lia]. eexists _, _. split; [done|].
    split; [apply Hready3|]. split; [done|]. left. split_and!; [done| |done]. cbn [bkern mem set_mem set_bkern set_heap vd_addr vd_len chain_desc en_addr en_len].
    destruct (header_type _ _ _ _ _ _ Hhdr Hhd) as [_ <-]. pose proof (lenz_disk_bytes d' sector len ltac:(lia)) as Hld.
    rewrite (load_bytes_ext (put_bytes buffer (disk_bytes d' sector len) (mem (bkern b1)))).
    + rewrite <- Hld at 2. by apply load_bytes_put; lia.
    + intros x Hx. rewrite !load_in by lia. apply put_bytes_out. change (lenz [VIRTIO_BLK_S_OK]) with 1. lia.
  - exfalso. by destruct (header_type _ _ _ _ _ _ Hhdr Hhd) as [? _].
  - unfold finish_read. rewrite (finish_spec _ req _ status (heap (bkern b))); [|by apply load_status; lia|done|lia]. eexists _, _. split; [done|].
    split; [apply Hready3|]. split; [done|]. right. split; [by destruct (Z.eqb_spec status VIRTIO_BLK_S_OK)|]. destruct healthy; [|done]. destruct Hund; [done|]. exists sector. by left.
Qed.

Lemma blk_write_spec b req buffer sector len d healthy : blk_ready b -> request_block b req buffer len -> 512 <= len < 2 ^ 32 -> 0 <= sector < 2 ^ 64 ->
  exists b1, write_to_blk_device buffer sector len b = Some (inr req, b1) /\ asks b b1 VIRTIO_BLK_T_OUT sector false req buffer len /\
    forall b2 d', blk_device_step healthy b1 d b2 d' -> exists r b3, finish_write req b2 = Some (r, b3) /\ blk_ready b3 /\ heap (bkern b3) = heap (bkern b) /\
      ((r = err OK /\ d' = disk_put sector (load_bytes (mem (bkern b)) buffer len) d) \/ (r = err ERR_FAILED_WRITE_TO_DEVICE /\ healthy = false)).
Proof.
  intros Hready Hblock Hlen Hsec. destruct (start_spec VIRTIO_BLK_T_OUT false buffer sector len b req) as (b1 & q & k & cap & E & Hq & Hcap & Hheap & Hhead & Hchain & Hidle & Hhdr & Hmem & Hasks); [done|done|lia|done|done|].
  destruct Hblock as (_ & Hreq & Hend & Hb0 & Hb1 & Hdis). exists b1. split; [done|]. split; [done|]. intros b2 d' (q0 & head & chain & m' & used & Hq0 & Hh0 & Hc0 & Hserved & ->).
  assert (q0 = q) as -> by congruence. assert (head = 3 * k) as -> by congruence. rewrite Hchain in Hc0. injection Hc0 as <-. pose proof (atz_Some_lt _ _ _ Hq) as Hr.
  destruct (Hidle used) as [pending Hidle'].
  assert (forall h, blk_ready (set_bkern h (mkBlk (set_queues (setz (queues (blk_dev b1)) 0 (device_done (3 * k) used q)) (blk_dev b1)) (set_mem m' (bkern b1)) (bells b1)))) as Hready3.
  { intros h. exists (device_done (3 * k) used q), pending, cap. split_and!; [by apply atz_setz_eq|done|done]. }
  inversion Hserved as [hd dt st sec Hhd Hw Hst Hl1|hd dt st sec Hhd Hw Hst Hl1|hd dt st status m0 d0 Hund Hst Hl1 Hstat]; subst.
  - exfalso. by destruct (header_type _ _ _ _ _ _ Hhdr Hhd) as [? _].
  - unfold finish_write. rewrite (finish_spec _ req _ VIRTIO_BLK_S_OK (heap (bkern b))); [|by apply load_status; lia|done|lia]. eexists _, _. split; [done|].
    split; [apply Hready3|]. split; [done|]. left. split; [done|]. cbn [vd_addr vd_len chain_desc en_addr en_len].
    destruct (header_type _ _ _ _ _ _ Hhdr Hhd) as [_ <-]. f_equal. apply load_bytes_ext. intros x Hx. apply Hmem; lia.
  - unfold finish_write. rewrite (finish_spec _ req _ status (heap (bkern b))); [|by apply load_status; lia|done|lia]. eexists _, _. split; [done|].
    split; [apply Hready3|]. split; [done|]. right. split; [by destruct (Z.eqb_spec status VIRTIO_BLK_S_OK)|]. destruct healthy; [|done]. destruct Hund; [done|]. exists sector. by right.
Qed.

(** (block write) A write request publishes one request of type OUT, whose buffer the device
    reads; the buffer, as it was when the request was made, is on the disk when the
    device reports success, as a healthy one does; the queue takes the next request. *)
Theorem blk_write_correct b req buffer sector len d healthy : blk_ready b -> request_block b req buffer len -> 512 <= len < 2 ^ 32 -> 0 <= sector < 2 ^ 64 ->
  exists b1, write_to_blk_device buffer sector len b = Some (inr req, b1) /\ asks b b1 VIRTIO_BLK_T_OUT sector false req buffer len /\
    forall b2 d', blk_device_step healthy b1 d b2 d' -> exists r b3, finish_write req b2 = Some (r, b3) /\ blk_ready b3 /\ heap (bkern b3) = heap (bkern b) /\
      ((r = err OK /\ d' = disk_put sector (load_bytes (mem (bkern b)) buffer len) d) \/ (r = err ERR_FAILED_WRITE_TO_DEVICE /\ healthy = false)).
Proof. apply blk_write_spec. Qed.

(** ** Short payloads *)

(** (block write) The service does not compare the length of a write with the size of its
    payload: a write of [l] bytes with a shorter payload puts the kernel memory behind
    the payload on the disk. *)
Theorem blk_write_discloses_memory b m s l req d healthy : blk_ready b -> data m = DBlk s l -> 0 < size (ool m) < l -> 512 <= l < 2 ^ 31 -> 0 <= s < 2 ^ 31 ->
  0 < addr (ool m) -> request_block b req (addr (ool m)) l ->
  exists b1, handle_write_request m b = Some (Some (WaitWrite m (addr (ool m)) req), b1) /\
    forall b2 d' b3, blk_device_step healthy b1 d b2 d' -> finish_write req b2 = Some (err OK, b3) ->
      drop (Z.to_nat (size (ool m))) (disk_bytes d' s l) = load_bytes (mem (bkern b)) (addr (ool m) + size (ool m)) (l - size (ool m)).
Proof.
  intros Hready Hm Hsize Hl Hs Ha Hblock. destruct (blk_write_spec b req (addr (ool m)) s l d healthy) as (b1 & E & _ & Hdev); [done|done|lia|lia|]. exists b1. split.
  - unfold handle_write_request, make_blk_reply, blk_data. rewrite Hm. cbn [mbind option_bind]. destruct (Z.eqb_spec (addr (ool m)) 0); [lia|].
    destruct (Z.eqb_spec (size (ool m)) 0); [lia|]. cbn [orb]. destruct (Z.ltb_spec l SECTOR_SIZE) as [Hc|_]; [unfold SECTOR_SIZE in Hc; lia|].
    rewrite (i32_small s), (i32_small l) by lia. rewrite (wrap_small 64 s), (wrap_small 32 l) by lia. by rewrite E.
  - intros b2 d' b3 Hstep Hfin. destruct (Hdev b2 d' Hstep) as (r & b4 & Hf & _ & _ & [[_ ->]|[Hr _]]).
    + assert (lenz (load_bytes (mem (bkern b)) (addr (ool m)) l) = l) as Hlen by (unfold load_bytes, lenz; rewrite length_fmap, length_seqZ; lia).
      rewrite <- Hlen at 2. rewrite disk_bytes_put. by apply drop_load_bytes; lia.
    + rewrite Hf in Hfin. rewrite Hr in Hfin. done.
Qed.
