(* ===== verification/VirtioNet.v ===== *)
(** * The network driver

    [hardware/virtio/net.hpp] and [net.cpp]: receive buffers that circulate
    between driver and device, frames that go up to the network service, and
    frames that come down from it.  The device adds to its rings only between the
    handlers of the service. *)

From S2P Require Import Prelude Message MessageQueue UserMem Fd Task Paging Syscall Net Virtio Pci VirtioPci Pages TaskProofs TaskLife SyscallProofs.
From S2P Require Import SyscallSpec VirtioSpec.

Open Scope Z_scope.

Definition NUM_RX_BUFFERS : Z := 32.
Definition MAX_PACKET_SIZE : Z := 1514.
Definition NET_HDR_GSO_NONE : Z := 0.

(** [VirtioNetHdr] is 12 bytes, [VirtioNetReq] adds the packet. *)
Definition sizeof_VirtioNetHdr : Z := 12.
Definition sizeof_VirtioNetReq : Z := sizeof_VirtioNetHdr + MAX_PACKET_SIZE.
Definition packet_data (req : Z) : Z := req + sizeof_VirtioNetHdr.

(** ** State *)

Definition RX : Z := 0.
Definition TX : Z := 1.

Record NetDrv := mkNet {
  net_dev : VirtioPciDevice;
  nkern : Kern;
  mac_addr : list Z;
  nbells : list (Z * Z);
}.
Definition set_nkern (k : Kern) (n : NetDrv) : NetDrv := mkNet (net_dev n) k (mac_addr n) (nbells n).
Definition queue_at (i : Z) (n : NetDrv) : option VirtioVirtqueue := atz (queues (net_dev n)) i.
Definition put_queue (i : Z) (q : VirtioVirtqueue) (n : NetDrv) : NetDrv :=
  mkNet (set_queues (setz (queues (net_dev n)) i q) (net_dev n)) (nkern n) (mac_addr n) (nbells n).

(** Hand a single buffer to the device; the result of the push is not looked at. *)
Definition push_single_entry (i : Z) (e : VirtioEntry) (n : NetDrv) : option NetDrv :=
  q ← queue_at i n;
  '(_, _, q) ← push_virtio_entry q [e];
  Some (put_queue i q n).

(** [notify_virtqueue] on the queue with its own index. *)
Definition ring_bell (i : Z) (n : NetDrv) : option NetDrv :=
  q ← queue_at i n;
  bell ← notify_virtqueue (net_dev n) (q_index q);
  Some (mkNet (net_dev n) (nkern n) (mac_addr n) (nbells n ++ [bell])).

(** ** Receiving *)

(** The loop of [setup_rx_buffers]. *)
Fixpoint setup_rx_loop (k : nat) (n : NetDrv) : option (Z * NetDrv) :=
  match k with
  | O => Some (err OK, n)
  | S k =>
      let (buf, kn) := make_ool_buffer sizeof_VirtioNetReq (nkern n) in
      let n := set_nkern kn n in
      if buf =? 0 then Some (err ERR_NO_MEMORY, n)
      else
        n ← push_single_entry RX (mkEntry 0 buf sizeof_VirtioNetReq true) n;
        setup_rx_loop k n
  end.

Definition setup_rx_buffers (n : NetDrv) : option (Z * NetDrv) :=
  '(e, n) ← setup_rx_loop (Z.to_nat NUM_RX_BUFFERS) n;
  if IS_ERR e then Some (e, n) else n ← ring_bell RX n; Some (err OK, n).

(** The configuration structure is device memory, read as bytes. *)
Definition read_mac_address (p : Pci) (n : NetDrv) : option NetDrv :=
  cap ← device_cfg (net_dev n);
  let net_cfg := capability_addr p (vdev (net_dev n)) cap in
  Some (mkNet (net_dev n) (nkern n) (load_bytes (mmio p) net_cfg 6) (nbells n)).

(** [driver->flags] of the receive queue. *)
Definition set_rx_flags (f : Z -> Z) (n : NetDrv) : option NetDrv :=
  q ← queue_at RX n;
  let r := q_driver q in
  Some (put_queue RX (set_driver (mkDriver (f (drv_flags r)) (drv_index r) (drv_ring r)) q) n).
Definition disable_rx_interrupt : NetDrv -> option NetDrv := set_rx_flags (fun x => Z.lor x VIRTQ_AVAIL_F_NO_INTERRUPT).
Definition enable_rx_interrupt : NetDrv -> option NetDrv := set_rx_flags (fun x => Z.land x (wnot 16 VIRTQ_AVAIL_F_NO_INTERRUPT)).

(** The message that carries a received frame. *)
Definition rx_message (sender buf len : Z) : Message := mkMessage (msg NET_RX) sender 0 0 0 (mkOol buf (u32 len) 0) (DInit 0).

(** Copy a frame out of its receive buffer and send it up. *)
Definition forward_packet (req len : Z) (k : Kern) : option Kern :=
  let packet_len := u64 (len - sizeof_VirtioNetHdr) in
  let (buf, k) := make_ool_buffer packet_len k in
  if buf =? 0 then Some k
  else
    m ← copy_bytes buf (packet_data req) packet_len (mem k);
    let k := set_mem m k in
    t ← current k;
    '(e, k) ← send_k process_ids.NET (rx_message (id t) buf packet_len) k;
    if IS_ERR e then drop_buffer buf k else Some k.

(** One round of the receive loop: [None] inside when the ring is empty. *)
Definition rx_round (n : NetDrv) : option (option NetDrv) :=
  q ← queue_at RX n;
  '(popped, es, q) ← pop_virtio_entry q 1;
  if popped <=? 0 then Some None
  else
    e ← head es;
    let n := put_queue RX q n in
    k ← (if en_len e <? sizeof_VirtioNetHdr then Some (nkern n) else forward_packet (en_addr e) (en_len e) (nkern n));
    n ← push_single_entry RX e (set_nkern k n);
    n ← ring_bell RX n;
    Some (Some n).

Fixpoint rx_loop (fuel : nat) (n : NetDrv) : option NetDrv :=
  match fuel with
  | O => fault
  | S fuel => r ← rx_round n; match r with None => Some n | Some n => rx_loop fuel n end
  end.

(** Each round takes one element off the ring. *)
Definition ring_fuel (i : Z) (n : NetDrv) : nat := match queue_at i n with Some q => S (used_count q) | None => 1 end.

Definition handle_rx_interrupt (n : NetDrv) : option NetDrv :=
  n ← disable_rx_interrupt n;
  n ← rx_loop (ring_fuel RX n) n;
  enable_rx_interrupt n.

(** ** Transmitting *)

Fixpoint tx_loop (fuel : nat) (n : NetDrv) : option NetDrv :=
  match fuel with
  | O => fault
  | S fuel =>
      q ← queue_at TX n;
      '(popped, es, q) ← pop_virtio_entry q 1;
      if popped <=? 0 then Some n
      else
        e ← head es;
        k ← drop_buffer (en_addr e) (nkern n);
        tx_loop fuel (set_nkern k (put_queue TX q n))
  end.
Definition handle_tx_interrupt (n : NetDrv) : option NetDrv := tx_loop (ring_fuel TX n) n.

(** The header of a request is all zero, as the buffer already is. *)
Definition handle_transmit_request (m : Message) (n : NetDrv) : option NetDrv :=
  let frame := addr (ool m) in
  let sz := size (ool m) in
  if (frame =? 0) || (sz =? 0) || (MAX_PACKET_SIZE <? sz) then k ← drop_buffer frame (nkern n); Some (set_nkern k n)
  else
    let (tx_buf, k) := make_ool_buffer sizeof_VirtioNetReq (nkern n) in
    if tx_buf =? 0 then k ← drop_buffer frame k; Some (set_nkern k n)
    else
      b ← copy_bytes (packet_data tx_buf) frame sz (mem k);
      n ← push_single_entry TX (mkEntry 0 tx_buf (sizeof_VirtioNetHdr + sz) false) (set_nkern (set_mem b k) n);
      n ← ring_bell TX n;
      k ← drop_buffer frame (nkern n);
      Some (set_nkern k n).

(** [transmit_packet]: a broadcast frame of an experimental type, padded to the
    minimum length. *)
Definition transmit_packet (data data_len : Z) (n : NetDrv) : option (Z * NetDrv) :=
  let frame_size := let f := u64 (14 + data_len) in if f <? 60 then 60 else f in
  let total_size := u64 (sizeof_VirtioNetHdr + frame_size) in
  let (tx_buf, k) := make_ool_buffer total_size (nkern n) in
  let n := set_nkern k n in
  if tx_buf =? 0 then Some (err ERR_NO_MEMORY, n)
  else
    let frame := packet_data tx_buf in
    let header := replicate 6 0xFF ++ mac_addr n ++ [0x99; 0x99] in
    let m := foldl (fun m ib => store (frame + Z.of_nat ib.1) ib.2 m) (mem k) (imap pair header) in
    m ← copy_bytes (frame + 14) data data_len m;
    n ← push_single_entry TX (mkEntry 0 tx_buf (u32 total_size) false) (set_nkern (set_mem m k) n);
    n ← ring_bell TX n;
    Some (err OK, n).

(** * What the network driver promises

    A receive interrupt passes every frame on or drops it, gives every receive
    buffer back to the device, and keeps the ledger of buffers. *)

(** ** Frames *)

(** Whatever the allocator still has to give is new. *)
Definition supply_ok (k : Kern) : Prop := NoDup (filter (fun a => a <> 0) (supply k)) /\ forall a, a ∈ supply k -> a <> 0 -> kernel_buffer a /\ a ∉ heap k.

Lemma supply_alloc k : supply_ok k -> SyscallSpec.alloc_ok k.
Proof. intros [_ H] a rest E. destruct (decide (a = 0)) as [->|Hne]; [by left|]. right. apply H; [rewrite E; by left|done]. Qed.

(** What a handler keeps: the tasks, the ledger of the buffers [held] by the driver
    and the freshness of the supply. *)
Record kern_ok (pc : Z -> Pc) (held : list Z) (k : Kern) : Prop := mkKernOk {
  ko_inv : Inv (sys k) pc;
  ko_ledger : ledger held k;
  ko_supply : supply_ok k;
}.

Lemma make_ok pc sz held k : kern_ok pc held k ->
  let (a, k') := make_ool_buffer sz k in sys k' = sys k /\ if a =? 0 then kern_ok pc held k' else sz <> 0 /\ kernel_buffer a /\ kern_ok pc (a :: held) k'.
Proof.
  intros [Hi Hl Hs]. pose proof (make_held sz held k Hl (supply_alloc k Hs)) as Hm. unfold make_ool_buffer in *. destruct (sz =? 0); [by destruct Hm as (? & _ & _ & _ & ?)|].
  destruct (supply k) as [|a rest] eqn:E; [by destruct Hm as (? & _ & _ & _ & ?)|]. destruct Hs as [Hnd Hnew]. rewrite E in Hnd, Hnew. rewrite filter_cons in Hnd.
  destruct (Z.eqb_spec a 0) as [->|Hne].
  - destruct Hm as (Hsys & _ & _ & _ & Hm). rewrite decide_False in Hnd by (intros H; by apply H). split; [done|]. change (0 =? 0) with true in Hm |- *. split; [done|done|].
    split; cbn [supply heap]; [done|]. intros b Hb Hb0. apply Hnew; [by right|done].
  - destruct Hm as (Hsys & _ & _ & _ & Hm). destruct (Z.eqb_spec a 0); [done|]. destruct Hm as (H1 & H2 & H3). rewrite decide_True in Hnd by done. apply NoDup_cons in Hnd as [Hn Hnd].
    split; [done|]. split_and!; [done|done|]. split; [done|done|]. split; cbn [supply heap]; [done|]. intros b Hb Hb0. destruct (Hnew b ltac:(by right) Hb0) as [Hk Hf]. split; [done|].
    intros [->|?]%elem_of_cons; [|done]. apply Hn. by apply list_elem_of_filter.
Qed.

Lemma drop_ok pc a held k : a <> 0 -> kern_ok pc (a :: held) k -> exists k', drop_buffer a k = Some k' /\ kern_ok pc held k' /\ sys k' = sys k.
Proof.
  intros Ha [Hi Hl [Hnd Hnew]]. destruct (free_held a held k Hl) as (h & E & Hl'). unfold drop_buffer. destruct (Z.eqb_spec a 0); [done|]. exists (set_heap h k). split; [done|].
  split; [|done]. split; [done|done|]. split; [done|]. intros b Hb Hb0. destruct (Hnew b Hb Hb0) as [Hk Hf]. split; [done|]. intros Hin. apply Hf.
  destruct Hl as [H1 _ _ _]. destruct Hl' as [H1' _ _ _]. rewrite H1. rewrite H1' in Hin. by right.
Qed.

Lemma set_mem_ok pc m held k : kern_ok pc held k -> kern_ok pc held (set_mem m k).
Proof. intros [Hi Hl Hs]. split; [done|by apply (ledger_ext held k)|done]. Qed.

(** A frame is forwarded or dropped; either way its copy has an owner or is freed. *)
Lemma forward_ok pc held req len k : 12 <= len < 2 ^ 32 -> kern_ok pc held k -> exists k', forward_packet req len k = Some k' /\ kern_ok pc held k'.
Proof.
  intros Hlen H. unfold forward_packet. assert (u64 (len - sizeof_VirtioNetHdr) = len - 12) as -> by (unfold sizeof_VirtioNetHdr; rewrite wrap_small; lia). set (n := len - 12). pose proof (make_ok pc n held k H) as Hm. destruct (make_ool_buffer n k) as [buf k1]. destruct Hm as [Hsys Hm].
  destruct (Z.eqb_spec buf 0) as [->|Hne]; [by exists k1|]. destruct Hm as (Hn & Hkb & Hk1).
  destruct (copy_bytes_total buf (packet_data req) n (mem k1)) as [m ->]. cbn [mbind option_bind]. apply (set_mem_ok pc m) in Hk1. set (k2 := set_mem m k1) in *.
  destruct (iv_cur _ _ (ko_inv _ _ _ Hk1)) as [t Ht]. unfold current. rewrite Ht. cbn [mbind option_bind].
  set (ms := rx_message (id t) buf n). unfold send_k. destruct (send_spec (sys k2) pc process_ids.NET ms (ko_inv _ _ _ Hk1)) as (e & s' & E & Hinv'); [done|].
  rewrite E. cbn [mbind option_bind]. assert (ool_ok ms) as Hoo by (intros _ _; by apply kernel_not_user). destruct (IS_ERR e) eqn:Ee.
  - apply send_error in E as ->; [|done]. destruct (drop_ok pc buf held (set_sys (sys k2) k2) Hne) as (k' & E' & Hk' & _); [by destruct k2|]. by exists k'.
  - eexists. split; [done|]. destruct Hk1 as [Hi [H1 H2 H3 H4] Hs]. destruct (send_owners (sys k2) pc process_ids.NET ms e s' Hi H4 Hoo E Ee) as (Ho & Hms & Hcs).
    split; [done| |done]. split; [|done|done|done]. cbn [heap sys set_sys]. rewrite Ho, H1. rewrite (owned_kernel ms); [|done|].
    + cbn [addr ool ms rx_message option_list app]. by rewrite Permutation_middle.
    + cbn [size ool ms rx_message]. rewrite wrap_small; unfold n; lia.
Qed.

(** ** The receive ring *)

(** The driver can use its queue [i], which is [q]. *)
Definition has_queue (i : Z) (n : NetDrv) (q : VirtioVirtqueue) : Prop := queue_at i n = Some q /\ q_index q = i /\ is_Some (notify_cfg (net_dev n)).

(** Buffers have 32-bit lengths. *)
Definition lengths_ok (q : VirtioVirtqueue) (l : list Z) : Prop := forall i d, i ∈ l -> atz (q_desc q) i = Some d -> 0 <= vd_len d < 2 ^ 32.

Lemma put_has i n q q' : has_queue i n q -> q_index q' = i -> has_queue i (put_queue i q' n) q'.
Proof.
  intros (Hq & Hi & Hc) Hi'. split_and!; [|done|done]. unfold queue_at, put_queue. cbn [net_dev queues set_queues]. apply atz_setz_eq. unfold queue_at in Hq. by apply (atz_Some_lt _ _ q).
Qed.

Lemma bell_has i n q : has_queue i n q -> exists n', ring_bell i n = Some n' /\ net_dev n' = net_dev n /\ nkern n' = nkern n.
Proof.
  intros (Hq & Hi & cap & Hc). unfold ring_bell. rewrite Hq. cbn [mbind option_bind]. unfold notify_virtqueue. rewrite Hi. unfold queue_at in Hq. rewrite Hq, Hc.
  cbn [mbind option_bind]. by eexists.
Qed.

(** One round: the oldest frame goes up, and its buffer goes back. *)
Lemma rx_round_ok pc kept n q free i used flight : has_queue RX n q -> vq q free (i :: used) flight -> lengths_ok q (i :: used) -> kern_ok pc kept (nkern n) ->
  exists n' q', rx_round n = Some (Some n') /\ has_queue RX n' q' /\ vq q' free used (flight ++ [i]) /\ kern_ok pc kept (nkern n') /\
    (forall j b, carries q j b -> carries q' j b) /\ lengths_ok q' used /\ drv_flags (q_driver q') = drv_flags (q_driver q).
Proof.
  intros Hhas H Hlen Hk. pose proof Hhas as (Hq & Hix & Hcap). unfold rx_round. rewrite Hq. cbn [mbind option_bind].
  destruct (vq_pop _ _ _ _ _ H) as (q1 & d & Hd & E1 & H1 & Hds1 & Hdr1 & Hdv1 & Hix1 & _). rewrite E1. cbn [mbind option_bind]. change (1 <=? 0) with false. cbn [head].
  cbn [mbind option_bind en_len en_addr]. pose proof (vq_range _ _ _ _ H i ltac:(set_solver)) as Hi. pose proof (vq_descs _ _ _ _ H) as Hld.
  set (n1 := put_queue RX q1 n). assert (has_queue RX n1 q1) as Hhas1 by (apply (put_has _ _ q); congruence).
  destruct (Hlen i d ltac:(by left) Hd) as [Hl0 Hl1].
  assert (exists k, (if vd_len d <? sizeof_VirtioNetHdr then Some (nkern n1) else forward_packet (vd_addr d) (vd_len d) (nkern n1)) = Some k /\ kern_ok pc kept k) as (k & Ek & Hk').
  { destruct (Z.ltb_spec (vd_len d) sizeof_VirtioNetHdr) as [?|Hge]; [by eexists|]. unfold sizeof_VirtioNetHdr in Hge. apply forward_ok; [lia|done]. }
  rewrite Ek. cbn [mbind option_bind]. set (e := mkEntry i (vd_addr d) (vd_len d) (has_flag VIRTQ_DESC_F_WRITE d)).
  destruct (vq_push _ _ _ _ _ e H1) as (q2 & E2 & H2 & (Hfl & _) & Hds2 & Hdv2 & Hix2 & _). unfold push_single_entry. change (queue_at RX (set_nkern k n1)) with (queue_at RX n1).
  destruct Hhas1 as (Hq1 & Hi1 & Hc1). rewrite Hq1. cbn [mbind option_bind]. rewrite E2. cbn [mbind option_bind].
  set (n2 := put_queue RX q2 (set_nkern k n1)). assert (has_queue RX n2 q2) as Hhas2 by (apply (put_has _ _ q1); [by split_and!|congruence]).
  destruct (bell_has RX n2 q2 Hhas2) as (n3 & E3 & Hdev3 & Hk3). rewrite E3. cbn [mbind option_bind]. exists n3, q2.
  assert (forall j x, atz (q_desc q) j = Some x -> exists y, atz (q_desc q2) j = Some y /\ desc_buffer y = desc_buffer x) as Hkeep.
  { intros j x Hx. rewrite Hds2. destruct (decide (j = i)) as [->|Hne].
    - exists (single_desc e). split; [apply atz_setz_eq; rewrite (vq_descs _ _ _ _ H1); pose proof (vq_range _ _ _ _ H1 i ltac:(by left)); lia|].
      assert (x = d) as -> by congruence. rewrite desc_single. done.
    - exists x. rewrite atz_setz_ne, Hds1, atz_setz_ne by lia. done. }
  split_and!; [done| |done|by rewrite Hk3| | |].
  - destruct Hhas2 as (Hq2 & Hi2 & Hc2). unfold has_queue, queue_at in *. rewrite Hdev3. done.
  - intros j b (x & Hx & <-). destruct (Hkeep j x Hx) as (y & Hy & Hb). by exists y.
  - intros j y Hj Hy. assert (exists x, atz (q_desc q) j = Some x) as [x Hx].
    { apply atz_lt. rewrite Hld. apply (vq_range _ _ _ _ H). set_solver. }
    destruct (Hkeep j x Hx) as (y' & Hy' & Hb). assert (y' = y) as -> by congruence. unfold desc_buffer in Hb. injection Hb as _ Hb _. rewrite Hb. apply (Hlen j x); [by right|done].
  - by rewrite Hfl, Hdr1.
Qed.

Lemma rx_loop_ok pc kept used : forall n q free flight, has_queue RX n q -> vq q free used flight -> lengths_ok q used -> kern_ok pc kept (nkern n) ->
  exists n' q', rx_loop (S (length used)) n = Some n' /\ has_queue RX n' q' /\ vq q' free [] (flight ++ used) /\ kern_ok pc kept (nkern n') /\
    (forall j b, carries q j b -> carries q' j b) /\ drv_flags (q_driver q') = drv_flags (q_driver q).
Proof.
  induction used as [|i used IH]; intros n q free flight Hhas H Hlen Hk.
  - exists n, q. cbn [length rx_loop]. unfold rx_round. destruct Hhas as (Hq & Hi & Hc). rewrite Hq. cbn [mbind option_bind]. rewrite (vq_pop_empty _ _ _ _ H). rewrite app_nil_r.
    by split_and!.
  - destruct (rx_round_ok pc kept n q free i used flight Hhas H Hlen Hk) as (n1 & q1 & E1 & Hhas1 & H1 & Hk1 & Hc1 & Hl1 & Hf1).
    destruct (IH n1 q1 free (flight ++ [i]) Hhas1 H1 Hl1 Hk1) as (n2 & q2 & E2 & Hhas2 & H2 & Hk2 & Hc2 & Hf2). exists n2, q2.
    split; [cbn [length]; change (rx_loop (S (S (length used))) n) with (r ← rx_round n; match r with None => Some n | Some n => rx_loop (S (length used)) n end); by rewrite E1|].
    rewrite <- app_assoc in H2. split_and!; try done; [|congruence]. intros j b Hb. by apply Hc2, Hc1.
Qed.

Lemma set_flags_vq f q free used flight : vq q free used flight -> vq (set_driver (mkDriver (f (drv_flags (q_driver q))) (drv_index (q_driver q)) (drv_ring (q_driver q))) q) free used flight.
Proof. intros H. split; apply H. Qed.

Lemma set_rx_flags_ok f n q : has_queue RX n q ->
  exists n', set_rx_flags f n = Some n' /\ nkern n' = nkern n /\
    has_queue RX n' (set_driver (mkDriver (f (drv_flags (q_driver q))) (drv_index (q_driver q)) (drv_ring (q_driver q))) q).
Proof.
  intros Hhas. pose proof Hhas as (Hq & Hi & Hc). unfold set_rx_flags. rewrite Hq. cbn [mbind option_bind]. eexists. split; [done|]. split; [done|]. by apply (put_has _ _ q).
Qed.

(** C30: (receiving) The receive interrupt takes every completed buffer off the ring, sends its
    frame to the network service or drops it, and hands every buffer back to the
    device as it was: the device then holds all of them and the ring is empty.  No
    copy of a frame is leaked, freed twice or left without an owner, no step faults,
    and interrupts of the queue are enabled again. *)
Theorem rx_interrupt_recycles pc kept n q flight r h d : has_queue RX n q -> is_exchange q flight (mkExchange r h d) ->
  (forall a l w, (a, l, w) ∈ d -> 0 <= l < 2 ^ 32) -> kern_ok pc kept (nkern n) ->
  exists n' q' flight', handle_rx_interrupt n = Some n' /\ has_queue RX n' q' /\ is_exchange q' flight' (mkExchange r (h ++ d) []) /\
    kern_ok pc kept (nkern n') /\ Z.land (drv_flags (q_driver q')) VIRTQ_AVAIL_F_NO_INTERRUPT = 0.
Proof.
  intros Hhas (free & used & H & Hr & Hh & Hd) Hlens Hk. cbn [room held done_with] in *. unfold handle_rx_interrupt, disable_rx_interrupt, enable_rx_interrupt.
  destruct (set_rx_flags_ok (fun x => Z.lor x VIRTQ_AVAIL_F_NO_INTERRUPT) n q Hhas) as (n1 & E1 & Hk1 & Hhas1). rewrite E1. cbn [mbind option_bind].
  set (q1 := set_driver _ q) in Hhas1. assert (vq q1 free used flight) as H1 by (by apply (set_flags_vq (fun x => Z.lor x VIRTQ_AVAIL_F_NO_INTERRUPT))).
  assert (ring_fuel RX n1 = S (length used)) as ->. { unfold ring_fuel. rewrite (proj1 Hhas1). f_equal. by apply (used_count_vq _ _ _ _ H1). }
  assert (lengths_ok q1 used) as Hlen.
  { intros i x Hi Hx. apply list_elem_of_lookup in Hi as [j Hj]. destruct (Forall2_lookup_l _ _ _ _ _ Hd Hj) as ([[a l] w] & Hb & (y & Hy & Hyb)).
    assert (y = x) as -> by (cbn in Hx; congruence). unfold desc_buffer in Hyb. injection Hyb as _ <- _. apply (Hlens a _ w). by apply list_elem_of_lookup_2 in Hb. }
  destruct (rx_loop_ok pc kept used n1 q1 free flight Hhas1 H1 Hlen) as (n2 & q2 & E2 & Hhas2 & H2 & Hk2 & Hc2 & Hf2); [by rewrite Hk1|]. rewrite E2. cbn [mbind option_bind].
  destruct (set_rx_flags_ok (fun x => Z.land x (wnot 16 VIRTQ_AVAIL_F_NO_INTERRUPT)) n2 q2 Hhas2) as (n3 & E3 & Hk3 & Hhas3). eexists n3, _, (flight ++ used).
  split; [exact E3|]. split; [exact Hhas3|]. split; [|split; [by rewrite Hk3|]].
  - exists free, []. cbn [room held done_with]. split_and!; [by apply (set_flags_vq (fun x => Z.land x (wnot 16 VIRTQ_AVAIL_F_NO_INTERRUPT)))|done| |done].
    assert (forall l bs, Forall2 (carries q) l bs -> Forall2 (carries q2) l bs) as Hmono.
    { intros l bs Hf. eapply Forall2_impl; [exact Hf|]. intros j b Hb. by apply Hc2. }
    apply Forall2_app; by apply Hmono.
  - cbn [q_driver drv_flags set_driver]. rewrite <- Z.land_assoc. change (Z.land (wnot 16 VIRTQ_AVAIL_F_NO_INTERRUPT) VIRTQ_AVAIL_F_NO_INTERRUPT) with 0. apply Z.land_0_r.
Qed.
