(* ===== verification/Drivers.v ===== *)
(** * Start of the drivers

    [init_blk_device] and [virtio_blk_service] ([hardware/virtio/blk.cpp]),
    [init_virtio_net_device] and [virtio_net_service] ([net.cpp]), up to their
    message loops: the transport, the interrupt routes, the network address of the
    machine and the receive buffers. *)

From S2P Require Import Prelude Message MessageQueue UserMem Fd Task Paging Syscall Net Virtio Pci VirtioPci Interrupt VirtioBlk VirtioNet BitUtils.
From S2P Require Import VirtioSpec VirtioPciSpec VirtioBlkSpec.

Open Scope Z_scope.

(** A [VirtioPciDevice] of zeros. *)
Definition null_device : Device := Pci.mkDevice 0 0 0 0 (mkClass 0 0 0) 0 0.
Definition new_vdev : VirtioPciDevice := mkVdev null_device [] 0 reset_cfg None None [] 0 0.

Definition set_supply (l : list Z) (k : Kern) : Kern := mkKern (sys k) (vm k) (roots k) (mem k) (umsg k) (heap k) l.

(** A driver's device, allocated and brought up. *)
Definition init_device (hw : VirtioHw) (device_type : Z) (p : Pci) (k : Kern) : option (Z * option VirtioPciDevice * Pci * Kern) :=
  let (buffer, l) := take_addr (supply k) in
  if buffer =? 0 then Some (err ERR_NO_MEMORY, None, p, set_supply l k)
  else
    '(e, v, p, l) ← init_virtio_pci_device hw new_vdev device_type p l;
    Some (e, Some v, p, set_supply l k).

(** ** The block driver *)

(** [blk_dev] is set when the allocation succeeds, whatever follows. *)
Definition init_blk_device (hw : VirtioHw) (p : Pci) (q : Irq) (b : Blk) : option (Z * Pci * Irq * Blk) :=
  '(e, o, p, k) ← init_device hw VirtioPci.VIRTIO_BLK p (bkern b);
  let b := mkBlk (default (blk_dev b) o) k (bells b) in
  if IS_ERR e then Some (e, p, q, b)
  else
    t ← current k;
    let (e, q) := register_irq_notification (vector_number VIRTQUEUE_BLK) (id t) N_VIRTIO_BLK q in
    if IS_ERR e then Some (e, p, q, b)
    else k ← mark_initialized k; Some (err OK, p, q, set_bkern k b).

(** Up to the message loop; the result of the initialisation is not looked at. *)
Definition virtio_blk_service (hw : VirtioHw) (p : Pci) (q : Irq) (b : Blk) : option (Pci * Irq * Blk) :=
  '(_, p, q, b) ← init_blk_device hw p q b;
  k ← mark_initialized (bkern b);
  Some (p, q, set_bkern k b).

(** ** The network driver *)

Definition init_virtio_net_device (hw : VirtioHw) (p : Pci) (n : NetDrv) : option (Z * Pci * NetDrv) :=
  '(e, o, p, k) ← init_device hw VirtioPci.VIRTIO_NET p (nkern n);
  let n := mkNet (default (net_dev n) o) k (mac_addr n) (nbells n) in
  if IS_ERR e then Some (e, p, n) else k ← mark_initialized k; Some (err OK, p, set_nkern k n).

(** Up to the message loop; no result is looked at. *)
Definition virtio_net_service (hw : VirtioHw) (p : Pci) (q : Irq) (h : Host) (n : NetDrv) : option (Pci * Irq * Host * NetDrv) :=
  t ← current (nkern n);
  '(_, p, n) ← init_virtio_net_device hw p n;
  let (_, q) := register_irq_notification (vector_number VIRTQUEUE_NET_RX) (id t) N_VIRTIO_NET_RX q in
  let (_, q) := register_irq_notification (vector_number VIRTQUEUE_NET_TX) (id t) N_VIRTIO_NET_TX q in
  n ← read_mac_address p n;
  let h := set_host_mac (mac_addr n) h in
  '(_, n) ← setup_rx_buffers n;
  Some (p, q, h, n).

(** * The drivers after their start

    Bringing a device up ends with the state the theorems about the drivers start
    from: the block queue takes requests, the receive queue holds its buffers, and
    the interrupts of the queues lead to the doorbells of the drivers. *)

(** ** Capabilities *)

Definition not_common (c : VirtioPciCap) : Prop := cfg_type c <> VIRTIO_PCI_CAP_COMMON_CFG.

(** What the other capabilities do to the device. *)
Definition absorb_one (c : VirtioPciCap) (v : VirtioPciDevice) : VirtioPciDevice :=
  if cfg_type c =? VIRTIO_PCI_CAP_NOTIFY_CFG then set_notify (Some c) v
  else if cfg_type c =? VIRTIO_PCI_CAP_DEVICE_CFG then set_device_cfg (Some c) v else v.
Fixpoint absorb (l : list VirtioPciCap) (v : VirtioPciDevice) : VirtioPciDevice :=
  match l with [] => v | c :: l => absorb l (absorb_one c v) end.

Lemma apply_absorb hw p l2 : forall l1 v s, Forall not_common l1 -> apply_capabilities hw p (l1 ++ l2) v s = apply_capabilities hw p l2 (absorb l1 v) s.
Proof.
  induction l1 as [|c l1 IH]; intros v s H; [done|]. apply Forall_cons in H as [Hc H]. cbn [app apply_capabilities absorb]. rewrite <- IH by done. unfold absorb_one.
  destruct (Z.eqb_spec (cfg_type c) VIRTIO_PCI_CAP_COMMON_CFG); [done|]. by destruct (cfg_type c =? VIRTIO_PCI_CAP_NOTIFY_CFG), (cfg_type c =? VIRTIO_PCI_CAP_DEVICE_CFG).
Qed.

Lemma absorb_keeps l : forall v, vdev (absorb l v) = vdev v /\ queues (absorb l v) = queues v /\ common_cfg (absorb l v) = common_cfg v.
Proof.
  induction l as [|c l IH]; intros v; [done|]. cbn [absorb]. destruct (IH (absorb_one c v)) as (-> & -> & ->). unfold absorb_one.
  by destruct (cfg_type c =? VIRTIO_PCI_CAP_NOTIFY_CFG), (cfg_type c =? VIRTIO_PCI_CAP_DEVICE_CFG).
Qed.

Lemma absorb_mono l : forall v, (is_Some (notify_cfg v) \/ Exists (fun c => cfg_type c = VIRTIO_PCI_CAP_NOTIFY_CFG) l -> is_Some (notify_cfg (absorb l v))) /\
  (is_Some (device_cfg v) \/ Exists (fun c => cfg_type c = VIRTIO_PCI_CAP_DEVICE_CFG) l -> is_Some (device_cfg (absorb l v))).
Proof.
  induction l as [|c l IH]; intros v; [split; by intros [?|H%Exists_nil]|]. cbn [absorb]. rewrite !Exists_cons. destruct (IH (absorb_one c v)) as [H1 H2]. unfold absorb_one in *.
  destruct (Z.eqb_spec (cfg_type c) VIRTIO_PCI_CAP_NOTIFY_CFG) as [E|E], (Z.eqb_spec (cfg_type c) VIRTIO_PCI_CAP_DEVICE_CFG) as [E'|E'];
    (split; [intros H; apply H1|intros H; apply H2]); cbn [notify_cfg device_cfg set_notify set_device_cfg]; try (by left); try (by rewrite E in E'); naive_solver.
Qed.

(** The structures that the driver keeps are of their kind. *)
Definition kinds (v : VirtioPciDevice) : Prop :=
  (forall c, notify_cfg v = Some c -> cfg_type c = VIRTIO_PCI_CAP_NOTIFY_CFG) /\ (forall c, device_cfg v = Some c -> cfg_type c = VIRTIO_PCI_CAP_DEVICE_CFG).

Lemma absorb_kinds l : forall v, kinds v -> kinds (absorb l v).
Proof.
  induction l as [|c l IH]; intros v H; [done|]. cbn [absorb]. apply IH. destruct H as [Hn Hd]. unfold absorb_one.
  destruct (Z.eqb_spec (cfg_type c) VIRTIO_PCI_CAP_NOTIFY_CFG) as [E|_]; [split; [by intros x [= <-]|exact Hd]|].
  destruct (Z.eqb_spec (cfg_type c) VIRTIO_PCI_CAP_DEVICE_CFG) as [E|_]; [split; [exact Hn|by intros x [= <-]]|done].
Qed.

(** ** Devices that can be brought up *)

(** The device of the driver, before its capabilities are read. *)
Definition at_device (d : Device) : VirtioPciDevice := mkVdev d [] 0 reset_cfg None None [] 0 0.

(** The vectors of a device: one for the configuration and one for each queue. *)
Definition vectors_of (dtype : Z) : list Z :=
  if dtype =? VirtioPci.VIRTIO_BLK then [vector_number VIRTIO_BLK; vector_number VIRTQUEUE_BLK]
  else [vector_number VIRTIO_NET; vector_number VIRTQUEUE_NET_RX; vector_number VIRTQUEUE_NET_TX].

(** The machine, as its configuration space describes it.  The function [d] is the first
    virtio function of the type.  Its capabilities are at [l1 ++ msix :: l2], that at
    [msix] the only one for MSI-X, with an empty table at [table]; the virtio
    capabilities do not overlap it, and describe one common structure and some for
    doorbells and for the device.  The device follows the standard, and the allocator
    has memory for the driver, its capabilities and queues at [addrs], leaving [rest]. *)
Record bringable (hw : VirtioHw) (dtype : Z) (p : Pci) (k : Kern) (d : Device) (msix table : Z) (addrs rest : list Z) : Prop := mkBringable {
  br_known : known dtype;
  br_features : 0 <= hw_features hw < 2 ^ 64;
  br_accepts : hw_features_ok hw (wanted dtype (hw_features hw)) = true;
  br_queue : queue_size_ok (hw_queue_size hw 0);
  br_queues : lenz addrs = hw_num_queues hw /\ lenz addrs < 65535 /\ lenz addrs < hw_vectors hw;
  br_addrs : Forall (fun a => a <> 0) addrs;
  br_device : exists ds1 ds2, devices p = ds1 ++ d :: ds2 /\ Forall (fun x => vendor_id x <> 0x1af4 \/ device_id x <> dtype) ds1 /\ vendor_id d = 0x1af4 /\ device_id d = dtype;
  br_place : 0 <= bus d < 256 /\ 0 <= device d < 32 /\ 0 <= function d < 8;
  br_msix : 64 <= msix < 248 /\ cap_id (read_conf_reg p d msix) = CAP_MSIX /\ field 16 11 (read_conf_reg p d msix) + 1 = hw_vectors hw;
  br_table : table = msix_table p d (read_conf_reg p d (msix + 4)) /\ table_ok table (hw_vectors hw) /\ lenz (vectors_of dtype) <= hw_vectors hw /\
    forall j, 0 <= j < hw_vectors hw -> mmio p (table + 16 * j) = 0;
  br_caps : exists l1 l2 buffer objs b c1 cap c2, capabilities p d (l1 ++ msix :: l2) /\
    Forall (fun a => cap_id (read_conf_reg p d a) <> CAP_MSIX /\ (is_virtio_cap p d a = true -> 0 <= a < 240 /\ forall j, 0 <= j <= 4 -> (a + 4 * j) / 4 <> msix / 4)) (l1 ++ l2) /\
    virtio_caps p d (l1 ++ msix :: l2) = c1 ++ cap :: c2 /\ cfg_type cap = VIRTIO_PCI_CAP_COMMON_CFG /\ Forall not_common (c1 ++ c2) /\
    Exists (fun c => cfg_type c = VIRTIO_PCI_CAP_NOTIFY_CFG) (c1 ++ c2) /\ Exists (fun c => cfg_type c = VIRTIO_PCI_CAP_DEVICE_CFG) (c1 ++ c2) /\
    supply k = buffer :: objs ++ b :: addrs ++ rest /\ buffer <> 0 /\ b <> 0 /\ Forall (fun o => o <> 0) objs /\ length objs = length (c1 ++ cap :: c2);
}.

(** The device is in operation: its status says so, it accepted the features, and every
    queue is empty and enabled, with its rings at the memory that the registers name and
    vector [1 + i]; the doorbells are where the capability says. *)
Record in_operation (hw : VirtioHw) (p : Pci) (d : Device) (addrs : list Z) (v : VirtioPciDevice) : Prop := mkInOperation {
  io_vdev : vdev v = d;
  io_status : device_status (common_cfg v) = 15;
  io_features : accepted_features (common_cfg v) = wanted (device_id d) (hw_features hw);
  io_queues : let '(driver_off, device_off, _) := queue_layout (hw_queue_size hw 0) in
    forall i a, addrs !! i = Some a -> queue_ready hw (hw_queue_size hw 0) driver_off device_off (Z.of_nat i) a v;
  io_notify : exists c, notify_cfg v = Some c /\ cfg_type c = VIRTIO_PCI_CAP_NOTIFY_CFG /\ notify_base v = capability_addr p d c;
  io_device : exists c, device_cfg v = Some c /\ cfg_type c = VIRTIO_PCI_CAP_DEVICE_CFG;
}.

Lemma find_device_first dtype p d ds1 ds2 : known dtype -> devices p = ds1 ++ d :: ds2 -> Forall (fun x => vendor_id x <> 0x1af4 \/ device_id x <> dtype) ds1 ->
  vendor_id d = 0x1af4 -> device_id d = dtype -> find_device dtype p = Some d.
Proof.
  intros Hk Hd H1 Hv Hid. unfold find_device. rewrite Hd, filter_app. assert (u16 dtype = dtype) as Hu by (by destruct Hk as [-> | ->]).
  assert (filter (fun d => (is_virtio d && has_device_id dtype d) = true) ds1 = []) as ->.
  { clear Hd. induction H1 as [|x ds1 Hx _ IH]; [done|]. rewrite filter_cons_False; [done|]. unfold is_virtio, has_device_id. rewrite Hu.
    destruct (Z.eqb_spec (vendor_id x) 0x1af4), (Z.eqb_spec (device_id x) dtype); naive_solver. }
  rewrite filter_cons_True; [done|]. unfold is_virtio, has_device_id. by rewrite Hv, Hid, Hu, !Z.eqb_refl.
Qed.

Lemma descriptor_vectors dtype : known dtype -> find_virtio_device_descriptor dtype = Some (vectors_of dtype).
Proof. by intros [-> | ->]. Qed.

(** Enabling the interrupts leaves the virtio capabilities as they are. *)
Lemma virtio_caps_on p p' d msix l : msix_on p p' d msix ->
  Forall (fun a => is_virtio_cap p d a = true -> 0 <= a < 240 /\ forall j, 0 <= j <= 4 -> (a + 4 * j) / 4 <> msix / 4) l -> virtio_caps p' d l = virtio_caps p d l.
Proof.
  intros [Hlow Hother _] H. unfold virtio_caps. induction H as [|a l Ha _ IH]; [done|]. cbn [List.filter].
  assert (is_virtio_cap p' d a = is_virtio_cap p d a) as ->. { unfold is_virtio_cap, read_conf_reg, read_config. by rewrite (proj1 (low_fields _ _ (Hlow _))). }
  destruct (is_virtio_cap p d a) eqn:E; [|exact IH]. destruct (Ha eq_refl) as [Hr Hne]. cbn [fmap list_fmap]. rewrite IH. f_equal. unfold virtio_cap.
  assert (forall j, 0 <= j <= 4 -> read_conf_reg p' d (a + 4 * j) = read_conf_reg p d (a + 4 * j)) as Hj.
  { intros j Hj. unfold read_conf_reg. rewrite (wrap_small 8) by lia. apply Hother; [lia|by apply Hne]. }
  pose proof (Hj 0 ltac:(lia)) as E0. rewrite Z.mul_0_r, Z.add_0_r in E0. rewrite E0, (Hj 1 ltac:(lia) : read_conf_reg p' d (a + 4) = _), (Hj 2 ltac:(lia) : read_conf_reg p' d (a + 8) = _), (Hj 3 ltac:(lia) : read_conf_reg p' d (a + 12) = _), (Hj 4 ltac:(lia) : read_conf_reg p' d (a + 16) = _). done.
Qed.

(** The common structure, then the others. *)
Lemma apply_capabilities_ok hw p d l1 cap l2 b addrs rest : known (device_id d) -> 0 <= hw_features hw < 2 ^ 64 -> hw_features_ok hw (wanted (device_id d) (hw_features hw)) = true ->
  queue_size_ok (hw_queue_size hw 0) -> lenz addrs = hw_num_queues hw -> lenz addrs < 65535 -> lenz addrs < hw_vectors hw -> Forall (fun a => a <> 0) addrs -> b <> 0 ->
  cfg_type cap = VIRTIO_PCI_CAP_COMMON_CFG -> Forall not_common (l1 ++ l2) ->
  Exists (fun c => cfg_type c = VIRTIO_PCI_CAP_NOTIFY_CFG) (l1 ++ l2) -> Exists (fun c => cfg_type c = VIRTIO_PCI_CAP_DEVICE_CFG) (l1 ++ l2) ->
  exists v, set_virtio_pci_capability hw p (set_caps (l1 ++ cap :: l2) (at_device d)) (b :: addrs ++ rest) = Some (err OK, v, rest) /\ in_operation hw p d addrs v.
Proof.
  intros Hk Hf Hok Hq Hl Hmax Hvec Hnz Hb Hcap Hno Hn Hdc. apply Forall_app in Hno as [H1 H2]. apply Exists_app in Hn, Hdc. unfold set_virtio_pci_capability. cbn [caps set_caps].
  rewrite apply_absorb by done. set (v1 := absorb l1 _). cbn [apply_capabilities]. rewrite Hcap, Z.eqb_refl.
  destruct (absorb_keeps l1 (set_caps (l1 ++ cap :: l2) (at_device d))) as (Hv1 & _). fold v1 in Hv1. cbn [vdev set_caps at_device] in Hv1.
  assert (kinds v1) as Hkinds by (apply absorb_kinds; by split).
  pose proof (bringup_spec hw p cap v1 b addrs rest) as H. cbv zeta in H. rewrite Hv1 in H. destruct (queue_layout (hw_queue_size hw 0)) as [[dr dv] total] eqn:El.
  destruct H as (v2 & E & Hst & Hacc & _ & _ & Hr & Hvd & Hnc & Hdv); [done|done|done|destruct Hq; lia|done|done|done|done|done|].
  rewrite E. cbn [mbind option_bind]. rewrite <- (app_nil_r l2), apply_absorb by done. cbn [apply_capabilities mbind option_bind].
  destruct (absorb_keeps l2 v2) as (Hv3 & Hq3 & Hc3). destruct (absorb_mono l1 (set_caps (l1 ++ cap :: l2) (at_device d))) as [Hn1 Hd1]. destruct (absorb_mono l2 v2) as [Hn3 Hd3].
  fold v1 in Hn1, Hd1. assert (kinds (absorb l2 v2)) as [Hkn Hkd]. { apply absorb_kinds. unfold kinds. rewrite Hnc, Hdv. exact Hkinds. }
  assert (is_Some (notify_cfg (absorb l2 v2))) as [nc Enc]. { apply Hn3. destruct Hn; [left; rewrite Hnc; apply Hn1; by right|by right]. }
  assert (is_Some (device_cfg (absorb l2 v2))) as [dc Edc]. { apply Hd3. destruct Hdc; [left; rewrite Hdv; apply Hd1; by right|by right]. }
  unfold configure_pci_notify_cfg. cbn [notify_cfg set_caps]. rewrite Enc. cbn [mbind option_bind]. eexists. split; [done|].
  split; cbn [vdev common_cfg queues notify_cfg device_cfg notify_base set_notify_base set_caps]; rewrite ?El.
  - by rewrite Hv3, Hvd.
  - by rewrite Hc3.
  - by rewrite Hc3.
  - intros i a Hi. apply (Hr i a) in Hi. unfold queue_ready in *. cbn [queues common_cfg set_notify_base set_caps]. by rewrite Hq3, Hc3.
  - exists nc. split_and!; [done|by apply Hkn|]. by rewrite Hv3, Hvd.
  - exists dc. split; [done|by apply Hkd].
Qed.

(** What the interrupt table holds: entry [i] raises the vector at the boot processor. *)
Definition boot_apic (p : Pci) : Z := u8 (Z.shiftr (mmio p LAPIC_ID_ADDR) 24).
Definition raises (p p' : Pci) (table i v : Z) : Prop := entry_is (mmio p') table i (Z.lor 0xfee00000 (Z.shiftl (boot_apic p) 12)) v.

Lemma init_device_ok hw dtype p k d msix table addrs rest : bringable hw dtype p k d msix table addrs rest ->
  exists p' v, init_device hw dtype p k = Some (err OK, Some v, p', set_supply rest k) /\ in_operation hw p' d addrs v /\ msix_on p p' d msix /\
    forall i n, vectors_of dtype !! i = Some n -> raises p p' table (Z.of_nat i) n.
Proof.
  intros [Hk Hf Hok Hq (Hl & Hmax & Hvec) Hnz (ds1 & ds2 & Hds & Hds1 & Hven & Hid) Hplace (Hmr & Hmid & Hmn) (-> & Htok & Htn & Htz)
    (l1 & l2 & buffer & objs & b & c1 & cap & c2 & Hcaps & Hapart & Hvc & Hcap & Hno & Hn & Hdc & Hs & Hb & Hb' & Hobj & Hlen)].
  unfold init_device. rewrite Hs. cbn [take_addr]. destruct (Z.eqb_spec buffer 0); [done|]. unfold init_virtio_pci_device.
  rewrite (find_device_first dtype p d ds1 ds2), (descriptor_vectors dtype) by done. fold (boot_apic p).
  destruct (vectors_in_order d msix (msix_table p d (read_conf_reg p d (msix + 4))) (hw_vectors hw) (boot_apic p) (vectors_of dtype)) with (p := p) as (p' & Ec & Hon & Hent).
  { apply wrap_range. lia. } { unfold vectors_of. destruct (_ =? _); repeat (apply Forall_cons; split; [cbn; lia|]); by apply Forall_nil. } { split; [|done]. unfold vectors_of. by destruct (_ =? _). }
  { split; try done. apply (find_msix_list p d l1 msix l2 Hcaps Hmid). apply Forall_app in Hapart as [_ H2]. eapply Forall_impl; [exact H2|]. by intros a [? _]. } { done. }
  rewrite Ec. cbn [mbind option_bind]. change (mkVdev d _ _ _ _ _ _ _ _) with (at_device d). set (l := l1 ++ msix :: l2) in *.
  assert (virtio_caps p' d l = c1 ++ cap :: c2) as Hvc'.
  { rewrite <- Hvc. apply (virtio_caps_on p p' d msix); [done|]. apply Forall_app in Hapart as [Ha1 Ha2]. unfold l. apply Forall_app. split; [eapply Forall_impl; [exact Ha1|]; by intros a [_ ?]|].
    apply Forall_cons. split; [|eapply Forall_impl; [exact Ha2|]; by intros a [_ ?]]. unfold is_virtio_cap. rewrite Hmid. done. }
  pose proof (find_virtio_caps p' (at_device d) l objs (b :: addrs ++ rest)) as Ef. cbn [vdev at_device] in Ef. rewrite Hvc' in Ef. rewrite Ef; [|by apply (capabilities_low p), Hcaps; apply Hon|done|done].
  cbn [mbind option_bind]. destruct (apply_capabilities_ok hw p' d c1 cap c2 b addrs rest) as (v & E & Hop); [by rewrite Hid|done|by rewrite Hid|done..|]. rewrite E. cbn [mbind option_bind].
  exists p', v. split_and!; [done|done|done|]. intros i vec Hi. by apply Hent.
Qed.

(** ** The services *)

Lemma mark_initialized_ok k t : current k = Some t -> exists k' t', mark_initialized k = Some k' /\ current k' = Some t' /\ is_initialized t' = true /\ id t' = id t /\
  supply k' = supply k /\ mem k' = mem k /\ heap k' = heap k.
Proof.
  intros Ht. unfold mark_initialized. rewrite Ht. cbn [mbind option_bind]. eexists _, _. split; [done|]. split; [unfold current, the_task, task_at in *;
  cbn [sys set_sys put_task set_tasks CURRENT_TASK tasks]; destruct (atz (tasks (sys k)) (CURRENT_TASK (sys k))) as [o|] eqn:E; [|done]; apply atz_Some_lt in E; by rewrite atz_setz_eq by lia|split_and!; reflexivity].
Qed.

Lemma register_ok v dst n q : length (routes q) = 256%nat -> exists q', register_irq_notification (vector_number v) dst n q = (err OK, q') /\
  routes q' = setz (routes q) (vector_number v) (mkRoute dst n true) /\ atz (routes q') (vector_number v) = Some (mkRoute dst n true).
Proof.
  intros Hl. unfold register_irq_notification, NUM_VECTORS. assert (0 <= vector_number v < 256) as Hv by (by destruct v). destruct (Z.leb_spec 256 (vector_number v)); [lia|].
  eexists. split; [done|]. split; [done|]. cbn [routes]. apply atz_setz_eq. unfold lenz. lia.
Qed.

(** C25: (driver start) On a machine whose configuration space shows a block device with an empty
    interrupt table, and with memory for its queues, the block service ends its start
    with the device in operation and its first queue enabled, empty and ready for
    requests; with MSI-X enabled and unmasked, and entry 1 of the table, which is the
    vector of that queue, raising the vector of the block queue at the boot processor;
    with that vector routed to its own doorbell, and itself marked as initialised. *)
Theorem blk_driver_starts hw p q b d msix table a addrs rest t : bringable hw VirtioPci.VIRTIO_BLK p (bkern b) d msix table (a :: addrs) rest -> 3 <= hw_queue_size hw 0 ->
  current (bkern b) = Some t -> length (routes q) = 256%nat ->
  exists p' q' b', virtio_blk_service hw p q b = Some (p', q', b') /\ blk_ready b' /\ in_operation hw p' d (a :: addrs) (blk_dev b') /\
    queue_msix_vector (queue_regs (common_cfg (blk_dev b')) 0) = 1 /\ msix_on p p' d msix /\ raises p p' table 1 (vector_number VIRTQUEUE_BLK) /\
    atz (routes q') (vector_number VIRTQUEUE_BLK) = Some (mkRoute (id t) N_VIRTIO_BLK true) /\
    (exists t', current (bkern b') = Some t' /\ is_initialized t' = true) /\ supply (bkern b') = rest.
Proof.
  intros Hb H3 Ht Hr. destruct (init_device_ok _ _ _ _ _ _ _ _ _ Hb) as (p' & v & E & Hop & Hon & Hent). unfold virtio_blk_service, init_blk_device. rewrite E. cbn [mbind option_bind]. change (IS_ERR (err OK)) with false. cbv iota.
  change (current (set_supply rest (bkern b))) with (current (bkern b)). rewrite Ht. cbn [mbind option_bind].
  destruct (register_ok VIRTQUEUE_BLK (id t) N_VIRTIO_BLK q Hr) as (q' & Eq & _ & Hq'). rewrite Eq. change (IS_ERR (err OK)) with false. cbv iota.
  destruct (mark_initialized_ok (set_supply rest (bkern b)) t Ht) as (k1 & t1 & E1 & Ht1 & Hi1 & _ & Hs1 & _). rewrite E1. cbn [mbind option_bind bkern set_bkern].
  destruct (mark_initialized_ok k1 t1 Ht1) as (k2 & t2 & E2 & Ht2 & Hi2 & _ & Hs2 & _). rewrite E2. cbn [mbind option_bind].
  pose proof Hop as [_ _ _ Hqs (cap & Hcap & _) _]. destruct (queue_layout (hw_queue_size hw 0)) as [[dr dv] total]. destruct (Hqs 0%nat a eq_refl) as ((q0 & Hq0 & Hf) & Hregs).
  eexists _, _, _. split; [done|]. cbn [default blk_dev bkern set_bkern]. split_and!; [|exact Hop|change (Datatypes.id v) with v; by rewrite (Hregs : queue_regs (common_cfg v) 0 = _)|done|by apply (Hent 1%nat)|done|by exists t2|by rewrite Hs2, Hs1].
  exists q0, [], cap. split_and!; [done| |done]. apply (idle_fresh _ _ _ _ (br_queue _ _ _ _ _ _ _ _ _ Hb) H3 Hf).
Qed.

(** Every buffer of the supply goes to the receive queue. *)
Lemma setup_rx_loop_ok bufs : forall n q flight r h rest, has_queue RX n q -> is_exchange q flight (mkExchange r h []) -> lenz bufs <= r -> Forall (fun a => a <> 0) bufs ->
  supply (nkern n) = bufs ++ rest ->
  exists n' q' flight', setup_rx_loop (length bufs) n = Some (err OK, n') /\ has_queue RX n' q' /\
    is_exchange q' flight' (mkExchange (r - lenz bufs) (h ++ ((fun a => (a, sizeof_VirtioNetReq, true)) <$> bufs)) []) /\
    queue_at TX n' = queue_at TX n /\ supply (nkern n') = rest /\
    device_cfg (net_dev n') = device_cfg (net_dev n) /\ vdev (net_dev n') = vdev (net_dev n).
Proof.
  induction bufs as [|a bufs IH]; intros n q flight r h rest Hq Hx Hr Hnz Hs.
  - exists n, q, flight. cbn [length setup_rx_loop fmap list_fmap]. rewrite app_nil_r. change (lenz (@nil Z)) with 0. by rewrite Z.sub_0_r.
  - apply Forall_cons in Hnz as [Ha Hnz]. rewrite lenz_cons in *. pose proof (lenz_nonneg bufs). cbn [length setup_rx_loop]. unfold make_ool_buffer. rewrite Hs.
    change (sizeof_VirtioNetReq =? 0) with false. cbv iota. cbn [app]. destruct (Z.eqb_spec a 0); [done|]. cbv zeta. set (k := mkKern _ _ _ _ _ _ _).
    destruct (Z.eqb_spec a 0); [done|]. unfold push_single_entry. destruct Hq as (Hq0 & Hix & Hc). change (queue_at RX (set_nkern k n)) with (queue_at RX n). rewrite Hq0. cbn [mbind option_bind].
    destruct (exchange_push q flight r h [] (mkEntry 0 a sizeof_VirtioNetReq true) Hx ltac:(lia)) as (i & q1 & E & _ & _ & Hx1 & Hix1). rewrite E. cbn [mbind option_bind].
    set (nx := put_queue RX q1 (set_nkern k n)). assert (has_queue RX nx q1) as Hq1. { apply (put_has RX (set_nkern k n) q q1); [by split_and!|congruence]. }
    destruct (IH nx q1 _ _ _ rest Hq1 Hx1) as (n' & q' & fl & E' & Hq' & Hx' & Htx & Hs' & Hd' & Hv'); [lia|done|done|].
    exists n', q', fl. rewrite E'. split_and!; [done|done| | |done|by rewrite Hd'|by rewrite Hv'].
    + cbn [fmap list_fmap]. replace (r - (lenz bufs + 1)) with (r - 1 - lenz bufs) by lia. rewrite <- app_assoc in Hx'. exact Hx'.
    + rewrite Htx. unfold queue_at, nx, put_queue. cbn [net_dev set_nkern queues set_queues]. apply atz_setz_ne; unfold RX, TX; lia.
Qed.

(** (driver start) On a machine with a network device the network service ends its start with 32
    receive buffers at the device and an empty transmit queue, both interrupts routed
    to its doorbells and the address of the card known to the protocols. *)
Theorem net_driver_starts hw p q h n d msix table a1 a2 bufs rest t : bringable hw VirtioPci.VIRTIO_NET p (nkern n) d msix table [a1; a2] (bufs ++ rest) ->
  NUM_RX_BUFFERS <= hw_queue_size hw 0 -> lenz bufs = NUM_RX_BUFFERS -> Forall (fun a => a <> 0) bufs -> current (nkern n) = Some t -> length (routes q) = 256%nat ->
  exists p1 q' h' n' rx tx flight cap, virtio_net_service hw p q h n = Some (p1, q', h', n') /\
    has_queue RX n' rx /\ is_exchange rx flight (mkExchange (hw_queue_size hw 0 - NUM_RX_BUFFERS) ((fun a => (a, sizeof_VirtioNetReq, true)) <$> bufs) []) /\
    queue_at TX n' = Some tx /\ is_exchange tx [] (mkExchange (hw_queue_size hw 0) [] []) /\
    atz (routes q') (vector_number VIRTQUEUE_NET_RX) = Some (mkRoute (id t) N_VIRTIO_NET_RX true) /\
    atz (routes q') (vector_number VIRTQUEUE_NET_TX) = Some (mkRoute (id t) N_VIRTIO_NET_TX true) /\
    raises p p1 table 1 (vector_number VIRTQUEUE_NET_RX) /\ raises p p1 table 2 (vector_number VIRTQUEUE_NET_TX) /\
    device_cfg (net_dev n') = Some cap /\ host_mac h' = load_bytes (mmio p1) (capability_addr p1 (vdev (net_dev n')) cap) 6.
Proof.
  intros Hb Hsz Hlb Hnz Ht Hr. pose proof (br_queue _ _ _ _ _ _ _ _ _ Hb) as Hqs. destruct (init_device_ok _ _ _ _ _ _ _ _ _ Hb) as (p1 & v & E & [_ _ _ Hq (nc & Hn & _) (cap & Hcap & _)] & _ & Hent).
  destruct (queue_layout (hw_queue_size hw 0)) as [[dr dv] total].
  unfold virtio_net_service, init_virtio_net_device. rewrite Ht. cbn [mbind option_bind]. rewrite E. cbn [mbind option_bind]. change (IS_ERR (err OK)) with false. cbv iota.
  destruct (mark_initialized_ok (set_supply (bufs ++ rest) (nkern n)) t Ht) as (k1 & t1 & E1 & _ & _ & _ & Hs1 & _). rewrite E1. cbn [mbind option_bind].
  destruct (register_ok VIRTQUEUE_NET_RX (id t) N_VIRTIO_NET_RX q Hr) as (q1 & Eq1 & Hr1 & Hrx). rewrite Eq1.
  destruct (register_ok VIRTQUEUE_NET_TX (id t) N_VIRTIO_NET_TX q1) as (q2 & Eq2 & Hr2 & Htx); [by rewrite Hr1; unfold setz; rewrite length_insert|]. rewrite Eq2.
  unfold read_mac_address. change (net_dev (set_nkern k1 _)) with v. rewrite Hcap. cbn [mbind option_bind]. set (nd := mkNet _ _ _ _).
  destruct (Hq 0%nat a1 eq_refl) as ((rx & Erx & Hfx) & _). destruct (Hq 1%nat a2 eq_refl) as ((tx & Etx & Hft) & _).
  assert (has_queue RX nd rx) as Hhas. { split_and!; [exact Erx| |by exists nc]. destruct (init_virtqueue_total 0 (hw_queue_size hw 0) (hw_notify_off hw 0)) as (q0 & Hf0 & _ & _ & Heq); [destruct Hqs; lia|].
    change (Z.of_nat 0) with 0 in Hfx. unfold fresh_queue in *. assert (q0 = rx) as -> by congruence. by rewrite Heq. }
  destruct (setup_rx_loop_ok bufs nd rx [] _ [] rest Hhas (exchange_fresh _ _ _ _ Hqs Hfx)) as (n' & q' & fl & El & Hhas' & Hx' & Htx' & Hs' & Hdc & Hvd); [lia|done|exact Hs1|].
  unfold setup_rx_buffers. assert (Z.to_nat NUM_RX_BUFFERS = length bufs) as -> by (unfold lenz in Hlb; lia). rewrite El. cbn [mbind option_bind]. change (IS_ERR (err OK)) with false. cbv iota.
  destruct (bell_has RX n' q' Hhas') as (n2 & E2 & Hd2 & _). rewrite E2. cbn [mbind option_bind].
  exists p1, q2, (set_host_mac (mac_addr nd) h), n2, q', tx, fl, cap. split_and!; [done| |by rewrite Hlb in Hx'| | | |done|by apply (Hent 1%nat)|by apply (Hent 2%nat)| |].
  - unfold has_queue, queue_at in *. by rewrite Hd2.
  - unfold queue_at in *. rewrite Hd2, Htx'. exact Etx.
  - by apply (exchange_fresh _ _ _ _ Hqs Hft).
  - rewrite Hr2, atz_setz_ne by done. exact Hrx.
  - by rewrite Hd2, Hdc.
  - by rewrite Hd2, Hvd.
Qed.
