(* ===== verification/DeviceCheck.v ===== *)
(** * Devices at concrete states

    A queue of four descriptors, a block device and a network device on it, a PCI
    function with an interrupt table, and the tasks after start-up. *)

From stdpp Require Import strings.
From S2P Require Import Prelude Pages Message MessageQueue UserMem Fd Task TaskProofs TaskSpec TaskLife Paging Syscall SyscallProofs SyscallSpec Net NetProofs.
From S2P Require Import NetSpec FatFiles Virtio VirtioSpec Pci VirtioPci VirtioPciSpec BitUtils Segment Interrupt VirtioBlk VirtioBlkSpec VirtioNet Drivers.

Open Scope Z_scope.

(** ** Queues *)

Lemma four_ok : queue_size_ok 4.
Proof. split; [lia|reflexivity]. Qed.

Definition fresh4 : VirtioVirtqueue :=
  mkQueue 0 4 4 0 0 0 0 [mkDesc 0 0 0 1; mkDesc 0 0 0 2; mkDesc 0 0 0 3; mkDesc 0 0 0 0] (zero_driver 4) (zero_device 4).
Lemma fresh4_fresh : fresh_queue 0 4 0 fresh4.
Proof. reflexivity. Qed.

Definition some_entry (a : Z) : VirtioEntry := mkEntry 0 a 1526 true.

Lemma virtqueue_is_exchange_witness : exists i q', push_virtio_entry fresh4 [some_entry 0x5000] = Some (i, [mkEntry i 0x5000 1526 true], q') /\
  is_exchange q' [i] (mkExchange 3 [(0x5000, 1526, true)] []).
Proof.
  destruct virtqueue_is_exchange as (Hinit & Hpush & _). destruct (Hpush fresh4 [] 4 [] [] (some_entry 0x5000) (Hinit 0 4 0 fresh4 four_ok fresh4_fresh) ltac:(lia)) as (i & q' & E & _ & _ & H).
  exists i, q'. exact (conj E H).
Defined.

(** All four descriptors in use, three of them returned. *)
Definition full4 : VirtioVirtqueue :=
  let d a := mkDesc a 100 0 0 in
  mkQueue 0 4 0 0 0 0 0 [d 0x1000; d 0x2000; d 0x3000; d 0x4000] (mkDriver 0 4 [0; 1; 2; 3]) (Virtio.mkDevice 0 3 [mkElem 0 0; mkElem 1 0; mkElem 2 0; mkElem 0 0]).

Lemma full4_vq : vq full4 [] [0; 1; 2] [3].
Proof.
  split; try reflexivity.
  - exact four_ok.
  - intros i Hi. repeat (apply elem_of_cons in Hi as [->|Hi]; [by eexists|]). by apply not_elem_of_nil in Hi.
  - cbn. lia.
  - intros [|[|[|j]]] i Hi; cbn in Hi; [injection Hi as <-; by eexists..|discriminate].
Qed.

Lemma reclaim_reuses_descriptor_witness : exists q', push_three full4 (some_entry 0x5000) (some_entry 0x6000) (some_entry 0x7000) = Some (2, 0, 0, q') /\
  carries q' 0 (0x7000, 1526, true).
Proof.
  apply (reclaim_reuses_descriptor full4 [0; 1; 2] [3] 2 (some_entry 0x5000) (some_entry 0x6000) (some_entry 0x7000) full4_vq); [|vm_compute; discriminate|reflexivity].
  intros i d Hd. apply atz_Some in Hd as [_ Hd]. destruct (Z.to_nat i) as [|[|[|[|j]]]]; cbn in Hd; try (injection Hd as <-; reflexivity). discriminate.
Defined.

(** ** The transport *)

Lemma size256_ok : queue_size_ok 256.
Proof. split; [lia|reflexivity]. Qed.

Lemma queue_layout_fits_witness : let '(driver_off, device_off, total) := queue_layout 256 in total = device_off + (8 * 256 + 6).
Proof. pose proof (queue_layout_fits 256 size256_ok) as H. destruct (queue_layout 256) as [[a b] c]. exact (proj1 (proj2 (proj2 (proj2 (proj2 H))))). Defined.

(** A network function with a virtio capability list. *)
Definition nic : Device := Pci.mkDevice 0 3 0 0 (mkClass 2 0 0) 0x1af4 VirtioPci.VIRTIO_NET.
Definition nic_hw : VirtioHw := mkHw (2 ^ 32 + 2 ^ 5 + 1) (fun _ => true) 2 (fun _ => 4) (fun i => i) 3.
Definition zero_vdev : VirtioPciDevice := mkVdev nic [] 0 reset_cfg None None [] 0 0.
Definition no_pci : Pci := mkPci (fun _ => 0xffffffff) (fun _ => 0) [].

Lemma virtio_bringup_witness : exists v', configure_pci_common_cfg nic_hw no_pci (mkCap 0 0 0 0 0) zero_vdev [0x1000; 0x2000; 0x3000] = Some (err OK, v', []) /\
  device_status (common_cfg v') = 15.
Proof.
  pose proof (virtio_bringup nic_hw no_pci (mkCap 0 0 0 0 0) zero_vdev 0x1000 [0x2000; 0x3000] []) as H. cbv zeta in H.
  change (hw_queue_size nic_hw 0) with 4 in H. destruct (queue_layout 4) as [[dr dv] total]. destruct H as (v' & E & Hs & _).
  { cbn. lia. } { by left. } { reflexivity. } { lia. } { lia. } { repeat (apply Forall_cons; split; [lia|]). by apply Forall_nil. } { reflexivity. } { reflexivity. } { reflexivity. }
  exists v'. exact (conj E Hs).
Defined.

(** ** PCI *)

Lemma config_addr_injective_witness : calc_config_addr 0 3 0 0x10 <> calc_config_addr 0 4 0 0x10.
Proof. intros E. destruct (config_addr_injective 0 3 0 0x10 0 4 0 0x10) as [_ H]; [lia..|]. destruct (H E) as (_ & Hd & _). discriminate Hd. Defined.

(** A bus with a bridge at 0 and a block device at 3. *)
Definition bus_conf : Z -> Z := fun a =>
  if a =? calc_config_addr 0 0 0 0 then 0x12378086
  else if a =? calc_config_addr 0 3 0 0 then 0x10011af4
  else if (a =? calc_config_addr 0 0 0 0x0c) || (a =? calc_config_addr 0 3 0 0x0c) then 0
  else 0xffffffff.
Definition bus_pci : Pci := mkPci bus_conf (fun _ => 0) [].

Lemma load_devices_enumerates_witness : exists ds, initialize bus_pci = Some (set_devices ds bus_pci) /\
  ((fun d => (bus d, device d, function d, vendor_id d, device_id d)) <$> ds) = [(0, 0, 0, 0x8086, 0x1237); (0, 3, 0, 0x1af4, 0x1001)].
Proof. exists (take 32 (b ← buses bus_pci; devices_on bus_pci b)). split; [apply (load_devices_enumerates bus_pci); reflexivity|vm_compute; reflexivity]. Defined.

(** The interrupt table is at 0xfe000000, the capability at 0x40, with 3 entries. *)
Definition nic_conf : Z -> Z := fun a =>
  if a =? calc_config_addr 0 3 0 0x34 then 0x40
  else if a =? calc_config_addr 0 3 0 0x40 then 0x00020011
  else if a =? calc_config_addr 0 3 0 0x10 then 0xfe000000
  else 0.
Definition nic_pci : Pci := mkPci nic_conf (fun _ => 0) [nic].

Lemma nic_msix : msix_device nic_pci nic 0x40 0xfe000000 3.
Proof. split; [cbn; lia|lia|exists 0; vm_compute; reflexivity|vm_compute; reflexivity|vm_compute; reflexivity|split; lia]. Qed.

Lemma vectors_in_order_witness : exists p', configure_interrupts nic 0 [0x44; 0x45; 0x46] nic_pci = Some p' /\ entry_is (mmio p') 0xfe000000 1 0xfee00000 0x45.
Proof.
  destruct (vectors_in_order nic 0x40 0xfe000000 3 0 [0x44; 0x45; 0x46]) with (p := nic_pci) as (p' & E & _ & H);
    [lia|repeat (apply Forall_cons; split; [lia|]); by apply Forall_nil|split; [reflexivity|vm_compute; congruence]|exact nic_msix|reflexivity|].
  exists p'. exact (conj E (H 1%nat 0x45 eq_refl)).
Defined.

(** ** Segments and interrupts *)

Lemma segments_well_formed_witness : (let s := booted 0x2000 0x123456789a [0x100000; 0x200000; 0x300000] in
  selects s USER_CS Code64 /\ system_base s (Z.shiftr (tr s) 3) = Some 0x123456789a /\ tss_field s 1 = Some 0x108000) /\
  tr (booted 0x2000 0x123456789a [0x100000; 0; 0]) = 0.
Proof.
  destruct (segments_well_formed 0x2000 0x123456789a 0x100000 0x200000 0x300000 []) as (_ & _ & Hu & _ & _ & H); [lia..|].
  destruct (segments_well_formed 0x2000 0x123456789a 0x100000 0 0 []) as (_ & _ & _ & _ & _ & H'); [lia..|].
  cbn [Z.eqb orb] in H. destruct H as (_ & Hb & _ & Hs & _). exact (conj (conj Hu (conj Hb Hs)) H').
Defined.

Lemma user_ports_open_witness : port_open (fun _ => 0) (booted 0x2000 0x3000 [0x100000; 0x200000; 0x300000]) 0x64 = true.
Proof. apply (user_ports_open (fun _ => 0) 0x2000 0x3000 0x100000 0x200000 0x300000 [] 0x64); lia. Defined.

Lemma idt_gates_witness : exists g, atz (fst (initialize_interrupt (fun _ => 0x100000) 0x4000 (replicate 256 zero_gate))) 0x40 = Some g /\ leads_to g 0x100000 1.
Proof. destruct (idt_gates (fun _ => 0x100000) 0x4000) as [H _]; [intros; lia|]. apply (H 0x40 on_timer_interrupt 1). by left. Defined.

(** The kernel task waits for the block doorbell when the interrupt arrives. *)
Definition waiting_pc : Z -> Pc := upd (fun _ => Run) process_ids.KERNEL (Poll (InNotify 2)).

Lemma interrupt_wakes_driver_witness : exists q' s' t',
  on_interrupt VIRTQUEUE_BLK (snd (register_irq_notification 0x43 process_ids.KERNEL N_VIRTIO_BLK new_irq)) boot_state = Some (q', s') /\
  the_task process_ids.KERNEL s' = Some t' /\ Z.land (pending_notifications t') 2 <> 0.
Proof.
  destruct (the_task process_ids.KERNEL boot_state) as [t|] eqn:Et; [|vm_compute in Et; discriminate Et].
  destruct (interrupt_wakes_driver new_irq (snd (register_irq_notification 0x43 process_ids.KERNEL N_VIRTIO_BLK new_irq)) VIRTQUEUE_BLK process_ids.KERNEL N_VIRTIO_BLK 2
    boot_state waiting_pc t) as (q' & s' & t' & E & _ & _ & Ht & Hp & _).
  - apply (begin_inv boot_state (fun _ => Run) (InNotify 2) inv_boot); [split; [reflexivity|discriminate]|discriminate].
  - exact Et.
  - reflexivity.
  - discriminate.
  - discriminate.
  - reflexivity.
  - right. reflexivity.
  - vm_compute. discriminate.
  - exists q', s', t'. exact (conj E (conj Ht Hp)).
Defined.

(** ** The block device *)

Definition disk_kern : Kern := kernel_at 8.
Definition blk_vdev : VirtioPciDevice := mkVdev nic [] 0 reset_cfg (Some (mkCap 0 0 0 0 4)) None [fresh4] 0 0.
Definition blk4 : Blk := mkBlk blk_vdev disk_kern [].

Lemma blk4_ready : blk_ready blk4.
Proof. exists fresh4, [], (mkCap 0 0 0 0 4). split_and!; [reflexivity|apply (idle_fresh 0 4 0 fresh4 four_ok); [lia|exact fresh4_fresh]|reflexivity]. Qed.

Lemma blk4_block len : 0 <= len <= 4096 -> request_block blk4 0x100000 0x5000 len.
Proof. intros H. split_and!; [by exists []|lia..]. Qed.

(** What a device does with the request that was published. *)
Lemma asks_served b0 b sector req buffer len d : asks b0 b VIRTIO_BLK_T_IN sector true req buffer len -> exists b2, blk_device_step true b d b2 d.
Proof.
  intros (q0 & q & head & hd & dt & st & bell & _ & Hq & _ & Hhead & Hchain & _ & Hhdr & Hdt & Hst & _). injection Hdt as _ _ Hw. injection Hst as _ Hl Hws.
  eexists. exists q, head, [hd; dt; st]. eexists. exists 0. split_and!; [exact Hq|exact Hhead|exact Hchain|by apply (served_in true _ _ hd dt st sector)|reflexivity].
Qed.

(** Two sectors from a disk of ones. *)
Lemma blk_read_correct_witness : exists b1 b2 b3, read_from_blk_device 0x5000 7 1024 blk4 = Some (inr 0x100000, b1) /\ blk_device_step true b1 (fun _ => 1) b2 (fun _ => 1) /\
  finish_read 0x100000 b2 = Some (err OK, b3) /\ load_bytes (mem (bkern b3)) 0x5000 1024 = disk_bytes (fun _ => 1) 7 1024.
Proof.
  destruct (blk_read_correct blk4 0x100000 0x5000 7 1024 (fun _ => 1) true blk4_ready) as (b1 & E & Hasks & Hdev); [apply blk4_block; lia|lia|lia|].
  destruct (asks_served blk4 b1 7 0x100000 0x5000 1024 (fun _ => 1) Hasks) as (b2 & Hstep).
  destruct (Hdev b2 (fun _ => 1) Hstep) as (r & b3 & Hf & _ & _ & [(-> & Hl & _)|(_ & Hh)]); [|discriminate Hh].
  exists b1, b2, b3. exact (conj E (conj Hstep (conj Hf Hl))).
Defined.

Lemma blk_write_correct_witness : exists b1, write_to_blk_device 0x5000 7 1024 blk4 = Some (inr 0x100000, b1).
Proof.
  destruct (blk_write_correct blk4 0x100000 0x5000 7 1024 (fun _ => 0) true blk4_ready) as (b1 & E & _); [apply blk4_block; lia|lia|lia|]. by exists b1.
Defined.

(** A write of 4096 bytes with a payload of 8. *)
Definition short_write : Message := mkMessage (msg BLK_WRITE) 4 9 0 0 (mkOol 0x5000 8 0) (DBlk 7 4096).
Lemma blk_write_discloses_memory_witness : exists b1, handle_write_request short_write blk4 = Some (Some (WaitWrite short_write 0x5000 0x100000), b1).
Proof.
  destruct (blk_write_discloses_memory blk4 short_write 7 4096 0x100000 (fun _ => 0) true blk4_ready) as (b1 & E & _); [reflexivity|cbn; lia|lia|lia|cbn; lia|apply blk4_block; lia|]. by exists b1.
Defined.

(** ** The network device *)

(** One receive buffer is with the device, one has come back. *)
Definition rx4 : VirtioVirtqueue :=
  mkQueue 0 4 2 2 0 0 0 [mkDesc 0x5000 1526 2 0; mkDesc 0x6000 1526 2 0; mkDesc 0 0 0 3; mkDesc 0 0 0 0] (mkDriver 0 2 [0; 1; 0; 0])
    (Virtio.mkDevice 0 1 [mkElem 0 100; mkElem 0 0; mkElem 0 0; mkElem 0 0]).

Lemma rx4_exchange : is_exchange rx4 [1] (mkExchange 2 [(0x6000, 1526, true)] [(0x5000, 1526, true)]).
Proof.
  exists [2; 3], [0]. split; [|split_and!; [reflexivity|repeat constructor; by eexists..]]. split; try reflexivity.
  - exact four_ok.
  - cbn [app num_desc rx4]. change (seqZ 0 4) with [0; 1; 2; 3]. apply (Permutation_app_comm [2; 3] [0; 1]).
  - split; [reflexivity|]. eexists. split; [reflexivity|]. split; [reflexivity|]. by eexists.
  - intros i Hi. repeat (apply elem_of_cons in Hi as [->|Hi]; [by eexists|]). by apply not_elem_of_nil in Hi.
  - cbn. lia.
  - intros [|j] i Hi; cbn in Hi; [injection Hi as <-; by eexists|discriminate].
Qed.

Definition net4 : NetDrv := mkNet (mkVdev nic [] 0 reset_cfg (Some (mkCap 0 0 0 0 4)) None [rx4; fresh4] 0 0) disk_kern [] [].

Lemma net4_kern : kern_ok (fun _ => Run) [] (nkern net4).
Proof.
  split; [exact inv_boot|exact (boot_ledger 8)|]. split; [apply NoDup_singleton|]. intros a Ha _. apply list_elem_of_singleton in Ha as ->.
  split; [split; [lia|reflexivity]|by intros ?%not_elem_of_nil].
Qed.

Lemma rx_interrupt_recycles_witness : exists n' q' flight', handle_rx_interrupt net4 = Some n' /\ has_queue RX n' q' /\
  is_exchange q' flight' (mkExchange 2 [(0x6000, 1526, true); (0x5000, 1526, true)] []).
Proof.
  destruct (rx_interrupt_recycles (fun _ => Run) [] net4 rx4 [1] 2 [(0x6000, 1526, true)] [(0x5000, 1526, true)]) as (n' & q' & fl & E & Hq & Hx & _).
  - split_and!; [reflexivity|reflexivity|by eexists].
  - exact rx4_exchange.
  - intros a l w Hin. apply list_elem_of_singleton in Hin. injection Hin as -> -> ->. lia.
  - exact net4_kern.
  - exists n', q', fl. exact (conj E (conj Hq Hx)).
Defined.

(** ** The start of the drivers *)

(** A function with an interrupt table at 0xfe000000 and three virtio structures. *)
Definition card_conf : Z -> Z := fun a =>
  if a =? calc_config_addr 0 3 0 0x34 then 0x40
  else if a =? calc_config_addr 0 3 0 0x40 then 0x00025011
  else if a =? calc_config_addr 0 3 0 0x10 then 0xfe000000
  else if a =? calc_config_addr 0 3 0 0x50 then 0x01106009
  else if a =? calc_config_addr 0 3 0 0x60 then 0x02147409
  else if a =? calc_config_addr 0 3 0 0x70 then 4
  else if a =? calc_config_addr 0 3 0 0x74 then 0x04100009
  else 0.
Definition card (dtype : Z) : Device := Pci.mkDevice 0 3 0 0 (mkClass 0 0 0) 0x1af4 dtype.
Definition card_pci (dtype : Z) : Pci := mkPci card_conf (fun _ => 0) [card dtype].
Definition card_hw (queues : Z) : VirtioHw := mkHw (2 ^ 32 + 2 ^ 5 + 1) (fun _ => true) queues (fun _ => 64) (fun i => i) 3.
Definition with_supply (l : list Z) : Kern := set_supply l (kernel_at 8).
Definition cap_common : VirtioPciCap := mkCap 0x01106009 0 0 0 0.
Definition cap_notify : VirtioPciCap := mkCap 0x02147409 0 0 0 4.
Definition cap_device : VirtioPciCap := mkCap 0x04100009 0 0 0 0.

Lemma card_bringable dtype addrs rest : known dtype -> lenz addrs < 3 -> Forall (fun a => a <> 0) addrs ->
  bringable (card_hw (lenz addrs)) dtype (card_pci dtype) (with_supply (0x1000 :: 0x2000 :: 0x3000 :: 0x4000 :: 0x5000 :: addrs ++ rest)) (card dtype) 0x40 0xfe000000 addrs rest.
Proof.
  intros Hk Hl Hnz. split.
  - done.
  - cbn. lia.
  - done.
  - split; [cbn; lia|done].
  - split_and!; cbn; lia.
  - done.
  - exists [], []. split_and!; [done|by apply Forall_nil|done|done].
  - cbn. lia.
  - split_and!; [lia|lia|vm_compute; reflexivity|vm_compute; reflexivity].
  - split_and!; [vm_compute; reflexivity|split; cbn; lia|destruct Hk as [-> | ->]; vm_compute; congruence|done].
  - exists [], [0x50; 0x60; 0x74], 0x1000, [0x2000; 0x3000; 0x4000], 0x5000, [], cap_common, [cap_notify; cap_device]. split_and!.
    + split; [vm_compute; split_and!; congruence|apply leb_complete; vm_compute; reflexivity].
    + cbn [app]. repeat (apply Forall_cons; split; [split; [vm_compute; congruence|intros _; split; [lia|intros j Hj; assert (j = 0 \/ j = 1 \/ j = 2 \/ j = 3 \/ j = 4) as Hc by lia; intuition (subst; discriminate)]]|]).
      by apply Forall_nil.
    + vm_compute. reflexivity.
    + done.
    + repeat (apply Forall_cons; split; [done|]). by apply Forall_nil.
    + by left.
    + by right; left.
    + done.
    + done.
    + done.
    + repeat (apply Forall_cons; split; [done|]). by apply Forall_nil.
    + done.
Qed.

Lemma kernel_current l : exists t, current (with_supply l) = Some t.
Proof. destruct (current (with_supply l)) as [t|] eqn:E; [by exists t|]. vm_compute in E. discriminate E. Qed.

Lemma blk_driver_starts_witness : exists p' q' b', virtio_blk_service (card_hw 1) (card_pci VirtioPci.VIRTIO_BLK) new_irq
  (mkBlk new_vdev (with_supply [0x1000; 0x2000; 0x3000; 0x4000; 0x5000; 0x6000]) []) = Some (p', q', b') /\ blk_ready b' /\
  in_operation (card_hw 1) p' (card VirtioPci.VIRTIO_BLK) [0x6000] (blk_dev b') /\ raises (card_pci VirtioPci.VIRTIO_BLK) p' 0xfe000000 1 (vector_number VIRTQUEUE_BLK).
Proof.
  destruct (kernel_current [0x1000; 0x2000; 0x3000; 0x4000; 0x5000; 0x6000]) as [t Ht].
  destruct (blk_driver_starts (card_hw 1) (card_pci VirtioPci.VIRTIO_BLK) new_irq (mkBlk new_vdev (with_supply [0x1000; 0x2000; 0x3000; 0x4000; 0x5000; 0x6000]) [])
    (card VirtioPci.VIRTIO_BLK) 0x40 0xfe000000 0x6000 [] [] t) as (p' & q' & b' & E & Hb & Hop & _ & _ & Hr & _).
  - apply (card_bringable VirtioPci.VIRTIO_BLK [0x6000] []); [by right|done|by apply Forall_singleton].
  - cbn. lia.
  - exact Ht.
  - reflexivity.
  - exists p', q', b'. exact (conj E (conj Hb (conj Hop Hr))).
Defined.

Definition rx_bufs : list Z := (fun i => 0x100000 + 4096 * i) <$> seqZ 0 32.
Lemma net_driver_starts_witness : exists p' q' h' n' rx, virtio_net_service (card_hw 2) (card_pci VirtioPci.VIRTIO_NET) new_irq (mkHost [] [] [])
  (mkNet new_vdev (with_supply ([0x1000; 0x2000; 0x3000; 0x4000; 0x5000; 0x6000; 0x7000] ++ rx_bufs)) [] []) = Some (p', q', h', n') /\ has_queue RX n' rx.
Proof.
  destruct (kernel_current ([0x1000; 0x2000; 0x3000; 0x4000; 0x5000; 0x6000; 0x7000] ++ rx_bufs)) as [t Ht].
  destruct (net_driver_starts (card_hw 2) (card_pci VirtioPci.VIRTIO_NET) new_irq (mkHost [] [] [])
    (mkNet new_vdev (with_supply ([0x1000; 0x2000; 0x3000; 0x4000; 0x5000; 0x6000; 0x7000] ++ rx_bufs)) [] []) (card VirtioPci.VIRTIO_NET) 0x40 0xfe000000 0x6000 0x7000 rx_bufs [] t)
    as (p' & q' & h' & n' & rx & _ & _ & _ & E & Hq & _).
  - apply (card_bringable VirtioPci.VIRTIO_NET [0x6000; 0x7000] (rx_bufs ++ [])); [by left|done|repeat (apply Forall_cons; split; [lia|]); by apply Forall_nil].
  - vm_compute. discriminate.
  - reflexivity.
  - unfold rx_bufs. apply Forall_fmap, Forall_forall. intros x Hx. apply elem_of_seqZ in Hx. cbn. lia.
  - exact Ht.
  - reflexivity.
  - exists p', q', h', n', rx. exact (conj E Hq).
Defined.
