(* ===== verification/Trb.v ===== *)
(** * Transfer request blocks

    [hardware/usb/xhci/trb.hpp] and [trb.cpp]: the 16-byte blocks that the driver
    and the xHC exchange through rings, as the four 32-bit words of the [data]
    member; every named bit-field is a reading of one of them, every constructor
    and setter an assignment to it.  [SetupStageData] of [setup_stage_data.hpp] is
    the request a control transfer carries. *)

From S2P Require Import Prelude BitUtils.

Open Scope Z_scope.

(** ** Setup data of a control transfer *)

Record SetupStageData := mkSetup {
  request_type : Z;
  request : Z;
  value : Z;
  index : Z;
  setup_length : Z;
}.

#[export] Instance SetupStageData_eq_dec : EqDecision SetupStageData.
Proof. solve_decision. Defined.

(** The byte [request_type] from its recipient, type and direction. *)
Definition request_type_bits (recipient type direction : Z) : Z := set_bits 7 1 direction (set_bits 5 2 type (set_bits 0 5 recipient 0)).

Module request_kind.
Definition DEVICE : Z := 0.
Definition INTERFACE : Z := 1.
Definition STANDARD : Z := 0.
Definition CLASS : Z := 1.
Definition OUT : Z := 0.
Definition IN : Z := 1.
End request_kind.

Definition GET_DESCRIPTOR : Z := 6.
Definition SET_CONFIGURATION : Z := 9.
Definition SET_PROTOCOL : Z := 11.

(** [operator==] *)
Definition setup_eqb (l r : SetupStageData) : bool :=
  (request_type l =? request_type r) && (request l =? request r) && (value l =? value r) && (index l =? index r) && (setup_length l =? setup_length r).

(** A setup packet at the widths of its fields. *)
Definition setup_ok (s : SetupStageData) : Prop :=
  0 <= request_type s < 2 ^ 8 /\ 0 <= request s < 2 ^ 8 /\ 0 <= value s < 2 ^ 16 /\ 0 <= index s < 2 ^ 16 /\ 0 <= setup_length s < 2 ^ 16.

(** ** The blocks *)

Record Trb := mkTrb { d0 : Z; d1 : Z; d2 : Z; d3 : Z }.

#[export] Instance Trb_eq_dec : EqDecision Trb.
Proof. solve_decision. Defined.

Definition zero_trb : Trb := mkTrb 0 0 0 0.

Definition set_d0 (f : Z -> Z) (t : Trb) : Trb := mkTrb (f (d0 t)) (d1 t) (d2 t) (d3 t).
Definition set_d1 (f : Z -> Z) (t : Trb) : Trb := mkTrb (d0 t) (f (d1 t)) (d2 t) (d3 t).
Definition set_d2 (f : Z -> Z) (t : Trb) : Trb := mkTrb (d0 t) (d1 t) (f (d2 t)) (d3 t).
Definition set_d3 (f : Z -> Z) (t : Trb) : Trb := mkTrb (d0 t) (d1 t) (d2 t) (f (d3 t)).

(** Fields all blocks share. *)
Definition cycle_bit (t : Trb) : Z := bits 0 1 (d3 t).
Definition trb_type (t : Trb) : Z := bits 10 6 (d3 t).
Definition with_type (ty : Z) (t : Trb) : Trb := set_d3 (set_bits 10 6 ty) t.

(** A 64-bit pointer in the first two words, and the 60-bit one above four zero
    bits. *)
Definition pointer64 (t : Trb) : Z := d0 t + d1 t * 2 ^ 32.
Definition set_pointer64 (p : Z) (t : Trb) : Trb := set_d1 (fun _ => u32 (Z.shiftr p 32)) (set_d0 (fun _ => u32 p) t).
Definition pointer60 (t : Trb) : Z := Z.shiftl (Z.shiftr (pointer64 t) 4) 4.
Definition set_pointer60 (p : Z) (t : Trb) : Trb :=
  set_d1 (fun _ => u32 (Z.shiftr p 32)) (set_d0 (fun x => set_bits 4 28 (Z.shiftr p 4) x) t).

Definition NORMAL : Z := 1.
Definition SETUP_STAGE : Z := 2.
Definition DATA_STAGE : Z := 3.
Definition STATUS_STAGE : Z := 4.
Definition LINK : Z := 6.
Definition ENABLE_SLOT_COMMAND : Z := 9.
Definition ADDRESS_DEVICE_COMMAND : Z := 11.
Definition CONFIGURE_ENDPOINT_COMMAND : Z := 12.
Definition TRANSFER_EVENT : Z := 32.
Definition COMMAND_COMPLETION_EVENT : Z := 33.
Definition PORT_STATUS_CHANGE_EVENT : Z := 34.

Definition NO_DATA_STAGE : Z := 0.
Definition OUT_DATA_STAGE : Z := 2.
Definition IN_DATA_STAGE : Z := 3.

Definition COMPLETION_CODE_SUCCESS : Z := 1.
Definition COMPLETION_CODE_SHORT_PACKET : Z := 13.

(** [normal_trb], [data_stage_trb]: a transfer of a buffer. *)
Definition normal_trb : Trb := with_type NORMAL zero_trb.
Definition trb_transfer_length (t : Trb) : Z := bits 0 17 (d2 t).
Definition set_transfer_length (n : Z) (t : Trb) : Trb := set_d2 (set_bits 0 17 n) t.
Definition set_td_size (n : Z) (t : Trb) : Trb := set_d2 (set_bits 17 5 n) t.
Definition set_interrupt_on_short_packet (t : Trb) : Trb := set_d3 (set_bits 2 1 1) t.
Definition interrupt_on_completion (t : Trb) : Z := bits 5 1 (d3 t).
Definition set_interrupt_on_completion (t : Trb) : Trb := set_d3 (set_bits 5 1 1) t.
Definition data_stage_trb : Trb := with_type DATA_STAGE zero_trb.
Definition set_direction (d : Z) (t : Trb) : Trb := set_d3 (set_bits 16 1 d) t.
Definition direction (t : Trb) : Z := bits 16 1 (d3 t).
Definition status_stage_trb : Trb := with_type STATUS_STAGE zero_trb.

(** [setup_stage_trb] *)
Definition setup_stage_trb : Trb := set_transfer_length 8 (set_d3 (set_bits 6 1 1) (with_type SETUP_STAGE zero_trb)).
Definition transfer_type (t : Trb) : Z := bits 16 2 (d3 t).

Definition make_setup_stage_trb (s : SetupStageData) (tt : Z) : Trb :=
  let t := set_d0 (set_bits 0 8 (request_type s)) setup_stage_trb in
  let t := set_d0 (set_bits 8 8 (request s)) t in
  let t := set_d0 (set_bits 16 16 (value s)) t in
  let t := set_d1 (set_bits 0 16 (index s)) t in
  let t := set_d1 (set_bits 16 16 (setup_length s)) t in
  set_d3 (set_bits 16 2 tt) t.

Definition make_data_stage_trb (buf len : Z) (dir_in : bool) : Trb :=
  let t := set_pointer64 buf data_stage_trb in
  let t := set_transfer_length len t in
  set_direction (Z.b2z dir_in) (set_td_size 0 t).

(** The setup packet in the first two words of a setup stage block. *)
Definition trb_setup (t : Trb) : SetupStageData :=
  mkSetup (bits 0 8 (d0 t)) (bits 8 8 (d0 t)) (bits 16 16 (d0 t)) (bits 0 16 (d1 t)) (bits 16 16 (d1 t)).

(** [link_trb], with [toggle_cycle]. *)
Definition link_trb (p : Z) : Trb := set_pointer60 p (with_type LINK zero_trb).
Definition toggle_cycle (t : Trb) : Z := bits 1 1 (d3 t).
Definition set_toggle_cycle (t : Trb) : Trb := set_d3 (set_bits 1 1 1) t.

(** Commands. *)
Definition enable_slot_command_trb : Trb := with_type ENABLE_SLOT_COMMAND zero_trb.
Definition trb_slot_id (t : Trb) : Z := bits 24 8 (d3 t).
Definition address_device_command_trb (ctx slot_id : Z) : Trb :=
  set_pointer60 ctx (set_d3 (set_bits 24 8 slot_id) (with_type ADDRESS_DEVICE_COMMAND zero_trb)).
Definition configure_endpoint_command_trb (ctx slot_id : Z) : Trb :=
  set_pointer60 ctx (set_d3 (set_bits 24 8 slot_id) (with_type CONFIGURE_ENDPOINT_COMMAND zero_trb)).

(** Events. *)
Definition completion_code (t : Trb) : Z := bits 24 8 (d2 t).
Definition residual_length (t : Trb) : Z := bits 0 24 (d2 t).
Definition endpoint_id (t : Trb) : Z := bits 16 5 (d3 t).
Definition port_id (t : Trb) : Z := bits 24 8 (d0 t).

(** ** Lemmas *)

(** Words that fit their width. *)
Definition trb_ok (t : Trb) : Prop := 0 <= d0 t < 2 ^ 32 /\ 0 <= d1 t < 2 ^ 32 /\ 0 <= d2 t < 2 ^ 32 /\ 0 <= d3 t < 2 ^ 32.

Lemma pointer64_set p t : 0 <= p < 2 ^ 64 -> pointer64 (set_pointer64 p t) = p.
Proof.
  intros Hp. unfold pointer64. cbn [d0 d1 set_pointer64 set_d0 set_d1]. rewrite Z.shiftr_div_pow2 by lia. unfold wrap.
  rewrite (Z.mod_small (p / 2 ^ 32)) by (split; [apply Z.div_pos; lia|apply Z.div_lt_upper_bound; lia]). pose proof (Z.div_mod p (2 ^ 32)). lia.
Qed.

(** The setup packet survives the block. *)
Lemma trb_setup_make s tt : setup_ok s -> trb_setup (make_setup_stage_trb s tt) = s.
Proof.
  intros (H1 & H2 & H3 & H4 & H5). destruct s as [a b c d e]. cbn [request_type request value index setup_length] in *. unfold trb_setup, make_setup_stage_trb.
  cbn [d0 d1 set_d0 set_d1 set_d3 setup_stage_trb set_transfer_length set_d2 with_type zero_trb request_type request value index setup_length]. f_equal; bits_simpl; done.
Qed.

Lemma setup_eqb_spec l r : reflect (l = r) (setup_eqb l r).
Proof.
  apply iff_reflect. unfold setup_eqb. rewrite !andb_true_iff, !Z.eqb_eq. destruct l, r; cbn [request_type request value index setup_length]. split; [|intros ((((-> & ->) & ->) & ->) & ->); done].
  intros [= -> -> -> -> ->]. done.
Qed.

(** Pointers at multiples of 16 survive the 60-bit field. *)
Lemma pointer60_set p t : 0 <= p < 2 ^ 64 -> p mod 16 = 0 -> d0 t = 0 -> pointer60 (set_pointer60 p t) = p.
Proof.
  intros Hp Ha Ht. unfold pointer60, pointer64. cbn [d0 d1 set_pointer60 set_d0 set_d1]. rewrite Ht.
  assert (set_bits 4 28 (Z.shiftr p 4) 0 = p mod 2 ^ 32) as ->.
  { apply Z.bits_inj'. intros k Hk. rewrite testbit_set_bits by lia. destruct (Z.leb_spec 4 k), (Z.ltb_spec k (4 + 28)); cbn [andb].
    - rewrite Z.shiftr_spec, Z.mod_pow2_bits_low by lia. f_equal. lia.
    - by rewrite Z.bits_0, Z.mod_pow2_bits_high by lia.
    - rewrite Z.mod_pow2_bits_low by lia. rewrite Z.bits_0. change 16 with (2 ^ 4) in Ha. rewrite <- (Z.mod_pow2_bits_low p 4) by lia. by rewrite Ha, Z.bits_0.
    - rewrite Z.bits_0, Z.mod_pow2_bits_high by lia. done. }
  rewrite (Z.shiftr_div_pow2 p) by lia. unfold wrap. rewrite (Z.mod_small (p / 2 ^ 32)) by (split; [apply Z.div_pos; lia|apply Z.div_lt_upper_bound; lia]).
  replace (p mod 2 ^ 32 + p / 2 ^ 32 * 2 ^ 32) with p by (pose proof (Z.div_mod p (2 ^ 32)); lia).
  rewrite Z.shiftr_div_pow2, Z.shiftl_mul_pow2 by lia. pose proof (Z.div_mod p 16). change (2 ^ 4) with 16. lia.
Qed.
