(* ===== verification/TrbRing.v ===== *)
(** * Command, transfer and event rings

    [hardware/usb/xhci/ring.hpp] and [ring.cpp].  [Ring] is the ring the driver
    writes and the xHC reads: the last slot holds a link block, the cycle bit of a
    block says in which lap it was written.  [EventRing] is the ring the xHC writes
    and the driver reads.  Blocks live in a memory keyed by their address, shared by
    all rings; an access outside it is a fault.

    The theorems put the other side of each ring beside the driver: the xHC reads a
    ring by its dequeue pointer and consumer cycle state and follows link blocks
    (xHCI 1.2, 4.9.2), and it writes events by its producer cycle state (4.9.4).
    [trb_ring_refines_fifo] and [event_ring_refines_fifo] show that in every
    interleaving both sides see one queue. *)

From S2P Require Import Prelude BitUtils Trb.

Open Scope Z_scope.

(** Blocks by address. *)
Abbreviation Mem := (gmap Z Trb).

Definition store_trb (p : Z) (t : Trb) (m : Mem) : option Mem :=
  match m !! p with Some _ => Some (<[p := t]> m) | None => None end.

(** Address of element [i] of an array of blocks. *)
Definition elem (b i : Z) : Z := b + 16 * i.

(** A zeroed allocation of [n] blocks. *)
Fixpoint zero_blocks (n : nat) (p : Z) (m : Mem) : Mem :=
  match n with
  | O => m
  | S n' => zero_blocks n' (p + 16) (<[p := zero_trb]> m)
  end.

(** ** Command and transfer rings *)

Record Ring := mkRing {
  buffer_ : Z;
  buffer_size_ : Z;
  cycle_bit_ : bool;
  write_index_ : Z;
  read_index_ : Z;
}.

Definition new_ring : Ring := mkRing 0 0 false 0 0.

(** [initialize]; [addr] is what the allocation of the buffer returns. *)
Definition ring_initialize (buf_size addr : Z) (r : Ring) (m : Mem) : Ring * Mem :=
  if addr =? 0 then (mkRing (buffer_ r) buf_size true 0 0, m)
  else (mkRing addr buf_size true 0 0, zero_blocks (Z.to_nat buf_size) addr m).

Definition with_cycle (c : bool) (t : Trb) : Trb := set_d3 (fun x => Z.lor (Z.land x 0xfffffffe) (Z.b2z c)) t.

Definition copy_to_last (data : Trb) (r : Ring) (m : Mem) : option Mem :=
  store_trb (elem (buffer_ r) (write_index_ r)) (with_cycle (cycle_bit_ r) data) m.

Definition set_write (c : bool) (i : Z) (r : Ring) : Ring := mkRing (buffer_ r) (buffer_size_ r) c i (read_index_ r).

(** [push]: the address of the block, 0 when the ring is full or not initialised. *)
Definition push (data : Trb) (r : Ring) (m : Mem) : option (Z * Ring * Mem) :=
  if (buffer_ r =? 0) || (buffer_size_ r <? 2) then Some (0, r, m)
  else
    let next_write_index := u64 (write_index_ r + 1) in
    let next_write_index := if next_write_index =? buffer_size_ r - 1 then 0 else next_write_index in
    if next_write_index =? read_index_ r then Some (0, r, m)
    else
      let trb_ptr := elem (buffer_ r) (write_index_ r) in
      m ← copy_to_last data r m;
      let r := set_write (cycle_bit_ r) (u64 (write_index_ r + 1)) r in
      if write_index_ r =? buffer_size_ r - 1 then
        m ← copy_to_last (set_toggle_cycle (link_trb (buffer_ r))) r m;
        Some (trb_ptr, set_write (negb (cycle_bit_ r)) 0 r, m)
      else Some (trb_ptr, r, m).

Definition on_consumed (consumed_trb : Z) (r : Ring) : Ring :=
  if (buffer_ r =? 0) || (consumed_trb <? buffer_ r) || (elem (buffer_ r) (buffer_size_ r) <=? consumed_trb) then r
  else
    let next_read_index := (consumed_trb - buffer_ r) / 16 + 1 in
    let next_read_index := if buffer_size_ r - 1 <=? next_read_index then 0 else next_read_index in
    mkRing (buffer_ r) (buffer_size_ r) (cycle_bit_ r) (write_index_ r) next_read_index.

(** ** Event ring

    [erdp] is the dequeue pointer register of the interrupter; bits 0 to 3 are not
    part of the pointer. *)

Record EventRing := mkEventRing {
  ev_buffer : Z;
  ev_buffer_size : Z;
  ev_cycle : bool;
  segment_base : Z;
  segment_size : Z;
}.

Definition erdp_pointer (erdp : Z) : Z := Z.shiftl (Z.shiftr erdp 4) 4.
Definition erdp_set_pointer (p erdp : Z) : Z := set_bits 4 60 (Z.shiftr p 4) erdp.

Definition has_front (e : EventRing) (erdp : Z) (m : Mem) : option bool :=
  t ← m !! erdp_pointer erdp; Some (cycle_bit t =? Z.b2z (ev_cycle e)).

(** [pop]: the ring and the value written to the register. *)
Definition pop (e : EventRing) (erdp : Z) : EventRing * Z :=
  let p := erdp_pointer erdp + 16 in
  let segment_end := elem (segment_base e) (segment_size e) in
  if p =? segment_end
  then (mkEventRing (ev_buffer e) (ev_buffer_size e) (negb (ev_cycle e)) (segment_base e) (segment_size e), erdp_set_pointer (segment_base e) erdp)
  else (e, erdp_set_pointer p erdp).

(** ** Cycle bits *)

Lemma testbit_fffffffe k : 0 <= k -> Z.testbit 0xfffffffe k = (1 <=? k) && (k <? 32).
Proof.
  intros Hk. change 0xfffffffe with (Z.shiftl (Z.ones 31) 1). destruct (Z.leb_spec 1 k).
  - rewrite Z.shiftl_spec, Z.testbit_ones_nonneg by lia. destruct (Z.ltb_spec (k - 1) 31), (Z.ltb_spec k 32); lia || done.
  - rewrite Z.shiftl_spec_low by lia. done.
Qed.

Lemma testbit_b2z c k : 0 <= k -> Z.testbit (Z.b2z c) k = (k =? 0) && c.
Proof. intros Hk. destruct (Z.eqb_spec k 0) as [->|]; [apply Z.b2z_bit0|]. rewrite <- (Z.mod_small (Z.b2z c) (2 ^ 1)) by (destruct c; cbn; lia). by rewrite Z.mod_pow2_bits_high by lia. Qed.

Lemma cycle_bit_with c t : cycle_bit (with_cycle c t) = Z.b2z c.
Proof.
  apply Z.bits_inj'. intros k Hk. unfold cycle_bit, with_cycle. cbn [d3 set_d3]. rewrite testbit_bits, Z.lor_spec, Z.land_spec, testbit_fffffffe, !testbit_b2z by lia.
  rewrite Z.add_0_r. destruct (Z.ltb_spec k 1); [replace k with 0 by lia; cbn; by rewrite andb_false_r|]. destruct (Z.eqb_spec k 0); [lia|done].
Qed.

Lemma bits_with_cycle c t lo n : 1 <= lo -> 0 <= n -> lo + n <= 32 -> bits lo n (d3 (with_cycle c t)) = bits lo n (d3 t).
Proof.
  intros Hlo Hn Hw. apply Z.bits_inj'. intros k Hk. cbn [with_cycle d3 set_d3]. rewrite !testbit_bits, Z.lor_spec, Z.land_spec, testbit_fffffffe, testbit_b2z by lia.
  destruct (Z.ltb_spec k n); [|done]. destruct (Z.leb_spec 1 (k + lo)), (Z.ltb_spec (k + lo) 32), (Z.eqb_spec (k + lo) 0); try lia. cbn [andb]. by rewrite andb_true_r, orb_false_r.
Qed.

(** A block without its cycle bit: what the two sides exchange. *)
Definition payload (t : Trb) : Trb := with_cycle false t.

Lemma payload_with c t : payload (with_cycle c t) = payload t.
Proof.
  unfold payload, with_cycle, set_d3. cbn [d0 d1 d2 d3]. f_equal. apply Z.bits_inj'. intros k Hk.
  rewrite !Z.lor_spec, !Z.land_spec, !Z.lor_spec, !Z.land_spec, !testbit_fffffffe, !testbit_b2z by lia. destruct (Z.leb_spec 1 k), (Z.ltb_spec k 32), (Z.eqb_spec k 0); try lia; by destruct (Z.testbit (d3 t) k).
Qed.

(** ** Lemmas on the memory *)

Lemma elem_inj b i j : elem b i = elem b j -> i = j.
Proof. unfold elem. lia. Qed.

Lemma zero_blocks_out n p m q : (forall i, 0 <= i < Z.of_nat n -> q <> elem p i) -> zero_blocks n p m !! q = m !! q.
Proof.
  revert p m. induction n as [|n IH]; intros p m H; cbn [zero_blocks]; [done|]. rewrite IH.
  - apply lookup_insert_ne. intros ->. apply (H 0); unfold elem; lia.
  - intros i Hi ->. apply (H (i + 1)); unfold elem; lia.
Qed.

Lemma zero_blocks_in n p m i : 0 <= i < Z.of_nat n -> zero_blocks n p m !! elem p i = Some zero_trb.
Proof.
  revert p m i. induction n as [|n IH]; intros p m i Hi; [lia|]. cbn [zero_blocks]. destruct (Z.eq_dec i 0) as [->|].
  - rewrite zero_blocks_out by (unfold elem; lia). replace (elem p 0) with p by (unfold elem; lia). apply lookup_insert_eq.
  - replace (elem p i) with (elem (p + 16) (i - 1)) by (unfold elem; lia). apply IH. lia.
Qed.

Lemma store_trb_Some p t m x : m !! p = Some x -> store_trb p t m = Some (<[p := t]> m).
Proof. unfold store_trb. by intros ->. Qed.

(** ** The driver's ring and the xHC as one queue *)

(** The consumer: the address of the next block and the cycle it expects. *)
Record XhcRing := mkXhcRing { dequeue : Z; consumer_cycle : bool }.

Definition xhc_follow (h : XhcRing) (m : Mem) : XhcRing :=
  match m !! dequeue h with
  | Some t => if (cycle_bit t =? Z.b2z (consumer_cycle h)) && (trb_type t =? LINK)
              then mkXhcRing (pointer60 t) (xorb (consumer_cycle h) (toggle_cycle t =? 1)) else h
  | None => h
  end.

(** The next block, when the ring holds one. *)
Definition xhc_fetch (h : XhcRing) (m : Mem) : option (Z * Trb * XhcRing) :=
  let h := xhc_follow h m in
  t ← m !! dequeue h;
  if (cycle_bit t =? Z.b2z (consumer_cycle h)) && negb (trb_type t =? LINK)
  then Some (dequeue h, t, mkXhcRing (dequeue h + 16) (consumer_cycle h)) else None.

(** Both sides, with the history of the ring: the blocks pushed, the blocks taken
    with their addresses, and how many of these were acknowledged to the driver. *)
Record Link := mkLink {
  lk_ring : Ring;
  lk_mem : Mem;
  lk_xhc : XhcRing;
  pushed : list Trb;
  taken : list (Z * Trb);
  acked : Z;
}.

Inductive link_step : Link -> Link -> Prop :=
  | link_push t p r' m' r m h ps ts a : trb_type t <> LINK -> push t r m = Some (p, r', m') ->
      link_step (mkLink r m h ps ts a) (mkLink r' m' h (if p =? 0 then ps else ps ++ [t]) ts a)
  | link_take p t h' r m h ps ts a : xhc_fetch h m = Some (p, t, h') ->
      link_step (mkLink r m h ps ts a) (mkLink r m h' ps (ts ++ [(p, t)]) a)
  | link_ack j p t r m h ps ts a : a <= j -> atz ts j = Some (p, t) ->
      link_step (mkLink r m h ps ts a) (mkLink (on_consumed p r) m h ps ts (j + 1))
  | link_other m' r m h ps ts a : (forall i, 0 <= i < buffer_size_ r -> m' !! elem (buffer_ r) i = m !! elem (buffer_ r) i) ->
      link_step (mkLink r m h ps ts a) (mkLink r m' h ps ts a).

(** A ring as it is handed to the xHC. *)
Definition fresh_link (b N : Z) (m : Mem) : Link :=
  let '(r, m) := ring_initialize N b new_ring m in mkLink r m (mkXhcRing b true) [] [] 0.

Section Fifo.
Context (b n : Z) (Hb : 0 < b) (Ha : b mod 16 = 0) (Hn : 1 <= n) (Hend : elem b (n + 1) <= 2 ^ 64).

Local Abbreviation link_block := (set_toggle_cycle (link_trb b)).

Record link_ok (l : Link) : Prop := mkLinkOk {
  lk_shape : buffer_ (lk_ring l) = b /\ buffer_size_ (lk_ring l) = n + 1;
  lk_write : write_index_ (lk_ring l) = lenz (pushed l) mod n /\ cycle_bit_ (lk_ring l) = Z.even (lenz (pushed l) / n);
  lk_read : read_index_ (lk_ring l) = acked l mod n;
  lk_order : 0 <= acked l <= lenz (taken l) /\ lenz (taken l) <= lenz (pushed l) <= acked l + (n - 1);
  lk_types : Forall (fun t => trb_type t <> LINK) (pushed l);
  lk_slots : forall j t, lenz (pushed l) - n <= j -> atz (pushed l) j = Some t ->
    lk_mem l !! elem b (j mod n) = Some (with_cycle (Z.even (j / n)) t);
  lk_fresh : forall i, lenz (pushed l) <= i < n -> lk_mem l !! elem b i = Some zero_trb;
  lk_end : lk_mem l !! elem b n =
    Some (if lenz (pushed l) <? n then zero_trb else with_cycle (Z.even (lenz (pushed l) / n - 1)) link_block);
  lk_pos : let h := lenz (taken l) in
    lk_xhc l = mkXhcRing (elem b (h mod n)) (Z.even (h / n)) \/
    0 < h /\ h mod n = 0 /\ lk_xhc l = mkXhcRing (elem b n) (Z.even (h / n - 1));
  lk_same : forall j p t, atz (taken l) j = Some (p, t) ->
    p = elem b (j mod n) /\ payload t = payload (default zero_trb (atz (pushed l) j));
}.

(** *** Arithmetic of laps *)

Lemma lap_next k : 0 <= k -> (k + 1) mod n = (if k mod n + 1 =? n then 0 else k mod n + 1) /\
  (k + 1) / n = (if k mod n + 1 =? n then k / n + 1 else k / n).
Proof.
  intros Hk. pose proof (Z.div_mod k n ltac:(lia)) as E. pose proof (Z.mod_pos_bound k n ltac:(lia)).
  destruct (Z.eqb_spec (k mod n + 1) n); split; symmetry;
    [apply (Z.mod_unique_pos _ _ (k / n + 1))|apply (Z.div_unique_pos _ _ _ 0)|apply (Z.mod_unique_pos _ _ (k / n))|apply (Z.div_unique_pos _ _ _ (k mod n + 1))]; lia.
Qed.

Lemma lap_back k : n <= k -> (k - n) mod n = k mod n /\ (k - n) / n = k / n - 1.
Proof. intros Hk. replace (k - n) with (k + (-1) * n) by lia. rewrite Z.mod_add, Z.div_add by lia. lia. Qed.

(** Positions of two counters less than a lap apart are equal only if the counters
    are. *)
Lemma lap_distinct j k : j <= k < j + n -> j mod n = k mod n -> j = k.
Proof.
  intros Hjk E. pose proof (Z.div_mod j n ltac:(lia)). pose proof (Z.div_mod k n ltac:(lia)).
  assert (k - j = n * (k / n - j / n)) as Ed by lia. assert (k / n - j / n = 0); [|lia]. nia.
Qed.

Lemma lap_small k : 0 <= k < n -> k mod n = k /\ k / n = 0.
Proof. intros. by rewrite Z.mod_small, Z.div_small by lia. Qed.

Lemma even_pred k : Z.even (k - 1) = negb (Z.even k).
Proof. rewrite Z.even_sub. by destruct (Z.even k). Qed.

Lemma even_succ' k : Z.even (k + 1) = negb (Z.even k).
Proof. rewrite Z.even_add. by destruct (Z.even k). Qed.

(** *** The link block *)

Lemma link_block_fields c : trb_type (with_cycle c link_block) = LINK /\ pointer60 (with_cycle c link_block) = b /\ toggle_cycle (with_cycle c link_block) = 1.
Proof.
  unfold trb_type, toggle_cycle. rewrite !bits_with_cycle by lia. split_and!.
  - cbn [set_toggle_cycle link_trb set_pointer60 with_type set_d3 set_d1 set_d0 d3 zero_trb]. by bits_simpl.
  - change (pointer60 (set_pointer60 b (with_type LINK zero_trb)) = b). apply pointer60_set; [unfold elem in Hend; lia|done|done].
  - cbn [set_toggle_cycle link_trb set_pointer60 with_type set_d3 set_d1 set_d0 d3 zero_trb]. by bits_simpl.
Qed.

Lemma fresh_link_ok m : link_ok (fresh_link b (n + 1) m).
Proof.
  unfold fresh_link, ring_initialize. destruct (Z.eqb_spec b 0); [lia|]. split; cbn [lk_ring lk_mem lk_xhc pushed taken acked buffer_ buffer_size_ write_index_ read_index_ cycle_bit_]; change (lenz []) with 0.
  - done.
  - by rewrite Z.mod_0_l, Z.div_0_l by lia.
  - by rewrite Z.mod_0_l by lia.
  - lia.
  - constructor.
  - intros j t _ Hj. by apply atz_Some in Hj as [_ ?].
  - intros i Hi. apply zero_blocks_in. lia.
  - destruct (Z.ltb_spec 0 n); [|lia]. apply zero_blocks_in. lia.
  - left. rewrite Z.mod_0_l, Z.div_0_l by lia. f_equal. unfold elem. lia.
  - intros j p t Hj. by apply atz_Some in Hj as [_ ?].
Qed.

Lemma pushed_type l j t : link_ok l -> atz (pushed l) j = Some t -> trb_type t <> LINK.
Proof. intros Hok [_ Ht]%atz_Some. pose proof (lk_types l Hok) as H. rewrite Forall_lookup in H. exact (H _ _ Ht). Qed.

(** Where the xHC looks, behind the link block. *)
Lemma follow_spec l : link_ok l -> let h := lenz (taken l) in
  xhc_follow (lk_xhc l) (lk_mem l) = mkXhcRing (elem b (h mod n)) (Z.even (h / n)).
Proof.
  intros Hok h. unfold xhc_follow. destruct (lk_order l Hok) as [[Ha0 Hah] [Hhw Hwa]]. fold h in Hah, Hhw. pose proof (lk_pos l Hok) as Hpos. cbv zeta in Hpos. fold h in Hpos.
  destruct Hpos as [->|(Hh & Hz & ->)]; cbn [dequeue consumer_cycle].
  - assert (h mod n < n /\ 0 <= h mod n) as [Hm Hm0] by (pose proof (Z.mod_pos_bound h n); lia). destruct (lk_mem l !! elem b (h mod n)) as [t|] eqn:E; [|done].
    assert (trb_type t <> LINK) as Ht; [|by destruct (Z.eqb_spec (trb_type t) LINK); [|rewrite andb_false_r]].
    destruct (Z.ltb_spec (h mod n) (lenz (pushed l))) as [Hlt|Hge].
    2:{ rewrite (lk_fresh l Hok) in E by lia. by injection E as <-. }
    set (w := lenz (pushed l)) in *. set (j := if h <? w then h else h - n).
    assert (w - n <= j /\ 0 <= j < w /\ j mod n = h mod n) as (Hj1 & Hj2 & Hj3).
    { unfold j. destruct (Z.ltb_spec h w); [lia|]. destruct (Z.ltb_spec h n); [rewrite (Z.mod_small h) in Hlt by lia; lia|]. pose proof (lap_back h). lia. }
    destruct (atz_lt (pushed l) j) as [x Hx]; [lia|]. pose proof (lk_slots l Hok j x Hj1 Hx) as Em. rewrite Hj3, E in Em. injection Em as ->.
    unfold trb_type. rewrite bits_with_cycle by lia. exact (pushed_type l j x Hok Hx).
  - assert (n <= h) as Hnh by (destruct (Z.lt_ge_cases h n); [rewrite Z.mod_small in Hz by lia; lia|done]). rewrite (lk_end l Hok). destruct (Z.ltb_spec (lenz (pushed l)) n); [lia|].
    assert (lenz (pushed l) / n = h / n) as ->.
    { symmetry. apply (Z.div_unique_pos _ _ _ (lenz (pushed l) - h)); [lia|]. pose proof (Z.div_mod h n ltac:(lia)). lia. }
    destruct (link_block_fields (Z.even (h / n - 1))) as (-> & -> & ->). rewrite cycle_bit_with, !Z.eqb_refl. cbn [andb].
    rewrite Hz, even_pred. f_equal; [unfold elem; lia|by destruct (Z.even (h / n))].
Qed.

(** The xHC finds the next block exactly when there is one. *)
Lemma fetch_spec l : link_ok l -> let h := lenz (taken l) in
  (h < lenz (pushed l) -> exists t, atz (pushed l) h = Some t /\
    xhc_fetch (lk_xhc l) (lk_mem l) = Some (elem b (h mod n), with_cycle (Z.even (h / n)) t, mkXhcRing (elem b (h mod n) + 16) (Z.even (h / n)))) /\
  (lenz (pushed l) <= h -> xhc_fetch (lk_xhc l) (lk_mem l) = None).
Proof.
  intros Hok h. pose proof (follow_spec l Hok) as Hf. cbv zeta in Hf. fold h in Hf. unfold xhc_fetch. rewrite Hf. cbn [dequeue consumer_cycle].
  destruct (lk_order l Hok) as [[Ha0 Hah] [Hhw Hwa]]. fold h in Hah, Hhw. set (w := lenz (pushed l)) in *. split.
  - intros Hlt. destruct (atz_lt (pushed l) h) as [t Ht]; [unfold h, w in *; lia|]. exists t. split; [done|]. rewrite (lk_slots l Hok h t ltac:(fold w; lia) Ht). cbn [mbind option_bind].
    rewrite cycle_bit_with, Z.eqb_refl. unfold trb_type. rewrite bits_with_cycle by lia. destruct (Z.eqb_spec (bits 10 6 (d3 t)) LINK) as [E|]; [|done].
    by destruct (pushed_type l h t Hok Ht).
  - intros Hge. assert (h = w) as -> by lia. destruct (Z.ltb_spec w n).
    + destruct (lap_small w) as [-> ->]; [lia|]. rewrite (lk_fresh l Hok) by (fold w; lia). done.
    + destruct (lap_back w) as [E1 E2]; [lia|]. destruct (atz_lt (pushed l) (w - n)) as [t Ht]; [fold w; lia|]. rewrite <- E1. rewrite (lk_slots l Hok (w - n) t ltac:(fold w; lia) Ht). cbn [mbind option_bind].
      rewrite cycle_bit_with, E2, even_pred. by destruct (Z.even (w / n)).
Qed.

(** *** A push *)

Definition pushed_mem (w : Z) (t : Trb) (m : Mem) : Mem :=
  let m := <[elem b (w mod n) := with_cycle (Z.even (w / n)) t]> m in
  if w mod n + 1 =? n then <[elem b n := with_cycle (Z.even (w / n)) link_block]> m else m.

Lemma slot_mapped l i : link_ok l -> 0 <= i <= n -> is_Some (lk_mem l !! elem b i).
Proof.
  intros Hok Hi. destruct (Z.eq_dec i n) as [->|Hne]; [rewrite (lk_end l Hok); eauto|]. destruct (Z.leb_spec (lenz (pushed l)) i); [rewrite (lk_fresh l Hok) by lia; eauto|].
  set (w := lenz (pushed l)) in *. set (j := i + n * ((w - 1 - i) / n)).
  pose proof (Z.div_mod (w - 1 - i) n ltac:(lia)). pose proof (Z.mod_pos_bound (w - 1 - i) n ltac:(lia)). assert (0 <= (w - 1 - i) / n) by (apply Z.div_pos; lia).
  destruct (atz_lt (pushed l) j) as [t Ht]; [unfold j; fold w; nia|]. pose proof (lk_slots l Hok j t ltac:(unfold j; fold w; lia) Ht) as E.
  replace (j mod n) with i in E; [rewrite E; eauto|]. unfold j. rewrite Z.mul_comm, Z.mod_add by lia. rewrite Z.mod_small by lia. done.
Qed.

Lemma push_result l t : link_ok l -> let w := lenz (pushed l) in w < acked l + (n - 1) ->
  push t (lk_ring l) (lk_mem l) =
    Some (elem b (w mod n), mkRing b (n + 1) (Z.even ((w + 1) / n)) ((w + 1) mod n) (acked l mod n), pushed_mem w t (lk_mem l)).
Proof.
  intros Hok w Hroom. destruct (lk_order l Hok) as [[Ha0 Hah] [Hhw Hwa]]. fold w in Hhw, Hwa. unfold push, copy_to_last.
  destruct (lk_ring l) as [b' N c wi ri] eqn:Er. pose proof (lk_shape l Hok) as [E1 E2]. pose proof (lk_write l Hok) as [E3 E4]. pose proof (lk_read l Hok) as E5.
  rewrite Er in E1, E2, E3, E4, E5. cbn [buffer_ buffer_size_ write_index_ read_index_ cycle_bit_] in *. subst b' N wi ri c. fold w.
  destruct (Z.eqb_spec b 0); [lia|]. destruct (Z.ltb_spec (n + 1) 2); [lia|]. cbn [orb].
  pose proof (Z.mod_pos_bound w n ltac:(lia)) as Hm. unfold elem in Hend. rewrite !wrap_small by lia. replace (n + 1 - 1) with n by lia.
  destruct (lap_next w) as [Em Ed]; [pose proof (lenz_nonneg (pushed l)); lia|]. rewrite <- Em.
  destruct (Z.eqb_spec ((w + 1) mod n) (acked l mod n)) as [E|_].
  { symmetry in E. assert (acked l = w + 1); [|lia]. apply lap_distinct; [lia|done]. }
  destruct (slot_mapped l (w mod n) Hok) as [x Hx]; [lia|]. rewrite (store_trb_Some _ _ _ x) by done. cbn [mbind option_bind set_write write_index_ cycle_bit_ buffer_ buffer_size_ read_index_].
  replace (n + 1 - 1) with n by lia. unfold pushed_mem. rewrite Em, Ed. destruct (Z.eqb_spec (w mod n + 1) n) as [El|Hne]; [|done].
  destruct (slot_mapped l n Hok) as [y Hy]; [lia|]. rewrite El. rewrite (store_trb_Some _ _ _ y) by (rewrite lookup_insert_ne by (intros [=]%elem_inj; lia); done).
  cbn [mbind option_bind]. by rewrite even_succ'.
Qed.

Lemma push_full l t : link_ok l -> lenz (pushed l) = acked l + (n - 1) -> push t (lk_ring l) (lk_mem l) = Some (0, lk_ring l, lk_mem l).
Proof.
  intros Hok Hfull. destruct (lk_order l Hok) as [[Ha0 Hah] [Hhw Hwa]]. set (w := lenz (pushed l)) in *. unfold push. pose proof (lk_shape l Hok) as [-> ->]. pose proof (lk_write l Hok) as [-> _]. pose proof (lk_read l Hok) as ->. fold w.
  destruct (Z.eqb_spec b 0); [lia|]. destruct (Z.ltb_spec (n + 1) 2); [lia|]. cbn [orb].
  pose proof (Z.mod_pos_bound w n ltac:(lia)) as Hm. unfold elem in Hend. rewrite wrap_small by lia. replace (n + 1 - 1) with n by lia.
  destruct (lap_next w) as [Em _]; [lia|]. rewrite <- Em. replace (w + 1) with (acked l + 1 * n) by lia. rewrite Z.mod_add by lia. by rewrite Z.eqb_refl.
Qed.

Lemma pushed_mem_slot w t m i : 0 <= i < n -> pushed_mem w t m !! elem b i = if i =? w mod n then Some (with_cycle (Z.even (w / n)) t) else m !! elem b i.
Proof.
  intros Hi. unfold pushed_mem. pose proof (Z.mod_pos_bound w n ltac:(lia)). assert (<[elem b (w mod n) := with_cycle (Z.even (w / n)) t]> m !! elem b i = if i =? w mod n then Some (with_cycle (Z.even (w / n)) t) else m !! elem b i) as E.
  { destruct (Z.eqb_spec i (w mod n)) as [->|]; [apply lookup_insert_eq|]. apply lookup_insert_ne. intros ?%elem_inj. lia. }
  destruct (Z.eqb_spec (w mod n + 1) n); [|done]. rewrite lookup_insert_ne; [done|]. intros ?%elem_inj. lia.
Qed.

Lemma pushed_mem_end w t m : pushed_mem w t m !! elem b n = if w mod n + 1 =? n then Some (with_cycle (Z.even (w / n)) link_block) else m !! elem b n.
Proof.
  unfold pushed_mem. pose proof (Z.mod_pos_bound w n ltac:(lia)). destruct (Z.eqb_spec (w mod n + 1) n); [apply lookup_insert_eq|]. apply lookup_insert_ne. intros ?%elem_inj. lia.
Qed.

Lemma push_keeps_ok l t : link_ok l -> trb_type t <> LINK -> let w := lenz (pushed l) in w < acked l + (n - 1) ->
  link_ok (mkLink (mkRing b (n + 1) (Z.even ((w + 1) / n)) ((w + 1) mod n) (acked l mod n)) (pushed_mem w t (lk_mem l)) (lk_xhc l) (pushed l ++ [t]) (taken l) (acked l)).
Proof.
  intros Hok Ht w Hroom. destruct (lk_order l Hok) as [[Ha0 Hah] [Hhw Hwa]]. fold w in Hhw, Hwa. destruct (lap_next w) as [Em Ed]; [lia|]. pose proof (Z.mod_pos_bound w n ltac:(lia)) as Hm.
  assert (lenz (pushed l ++ [t]) = w + 1) as Ew by (rewrite lenz_app; done).
  split; cbn [lk_ring lk_mem lk_xhc pushed taken acked buffer_ buffer_size_ write_index_ read_index_ cycle_bit_]; rewrite ?Ew; try done.
  - lia.
  - apply Forall_app. split; [apply (lk_types l Hok)|by repeat constructor].
  - intros j x Hj Hx. rewrite pushed_mem_slot by (apply Z.mod_pos_bound; lia). pose proof (atz_Some_lt _ _ _ Hx) as Hjw. rewrite Ew in Hjw. destruct (Z.eqb_spec (j mod n) (w mod n)) as [E|Hne].
    + apply lap_distinct in E; [|lia]. subst j. apply atz_Some in Hx as [_ Hx]. rewrite lookup_app_r in Hx by (unfold w, lenz; lia).
      replace (Z.to_nat w - length (pushed l))%nat with 0%nat in Hx by (unfold w, lenz; lia). by injection Hx as <-.
    + apply (lk_slots l Hok); [fold w; lia|]. assert (j <> w) by (intros ->; done). apply atz_Some in Hx as [? Hx]. apply atz_Some. split; [done|]. rewrite lookup_app_l in Hx; [done|]. unfold w, lenz in *. lia.
  - intros i Hi. rewrite pushed_mem_slot by lia. rewrite (Z.mod_small w) by lia. destruct (Z.eqb_spec i w); [lia|]. apply (lk_fresh l Hok). fold w. lia.
  - rewrite pushed_mem_end, (lk_end l Hok). fold w. rewrite Ed. destruct (Z.eqb_spec (w mod n + 1) n) as [E|Hne].
    + destruct (Z.ltb_spec (w + 1) n) as [Hlt|]; [rewrite Z.mod_small in E by lia; lia|]. do 3 f_equal. lia.
    + destruct (Z.ltb_spec w n), (Z.ltb_spec (w + 1) n); try done; [|lia]. rewrite Z.mod_small in Hne; lia.
  - pose proof (lk_pos l Hok) as Hpos. exact Hpos.
  - intros j p x Hx. destruct (lk_same l Hok j p x Hx) as [E1 E2]. split; [done|]. rewrite E2. f_equal. pose proof (atz_Some_lt _ _ _ Hx). unfold atz. destruct (Z.leb_spec 0 j); [|lia].
    by rewrite lookup_app_l by (unfold w, lenz in *; lia).
Qed.

(** *** The other steps *)

Lemma take_keeps_ok l p t h' : link_ok l -> xhc_fetch (lk_xhc l) (lk_mem l) = Some (p, t, h') ->
  link_ok (mkLink (lk_ring l) (lk_mem l) h' (pushed l) (taken l ++ [(p, t)]) (acked l)).
Proof.
  intros Hok Hf. set (h := lenz (taken l)) in *. destruct (fetch_spec l Hok) as [Hsome Hnone]. fold h in Hsome, Hnone. destruct (lk_order l Hok) as [[Ha0 Hah] [Hhw Hwa]]. fold h in Hah, Hhw.
  destruct (Z.lt_ge_cases h (lenz (pushed l))) as [Hlt|Hge]; [|rewrite Hnone in Hf by lia; done]. destruct (Hsome Hlt) as (t0 & Ht0 & E). rewrite E in Hf. injection Hf as <- <- <-.
  destruct (lap_next h) as [Em Ed]; [lia|]. assert (lenz (taken l ++ [(elem b (h mod n), with_cycle (Z.even (h / n)) t0)]) = h + 1) as Eh by (rewrite lenz_app; done).
  destruct Hok. split; cbn [lk_ring lk_mem lk_xhc pushed taken acked] in *; rewrite ?Eh; try done; [lia| |].
  - rewrite Em, Ed. destruct (Z.eqb_spec (h mod n + 1) n) as [E'|]; [right|left].
    + split_and!; [lia|done|]. f_equal; [unfold elem; lia|]. f_equal. lia.
    + f_equal. unfold elem. lia.
  - intros j p x Hx. apply atz_Some in Hx as [Hj Hx]. destruct (Z.eq_dec j h) as [->|Hne].
    + rewrite lookup_app_r in Hx by (unfold h, lenz; lia). replace (Z.to_nat h - length (taken l))%nat with 0%nat in Hx by (unfold h, lenz; lia). injection Hx as <- <-. split; [done|]. by rewrite payload_with, Ht0.
    + apply lk_same0. apply atz_Some. split; [done|]. apply lookup_app_Some in Hx as [Hx|[Hge Hx]]; [done|]. apply lookup_lt_Some in Hx as Hl. cbn in Hl. unfold h, lenz in *. lia.
Qed.

Lemma ack_keeps_ok l j p t : link_ok l -> acked l <= j -> atz (taken l) j = Some (p, t) ->
  link_ok (mkLink (on_consumed p (lk_ring l)) (lk_mem l) (lk_xhc l) (pushed l) (taken l) (j + 1)).
Proof.
  intros Hok Hj Ht. destruct (lk_order l Hok) as [[Ha0 Hah] [Hhw Hwa]]. pose proof (atz_Some_lt _ _ _ Ht) as Hlt. destruct (lk_same l Hok j p t Ht) as [-> _]. pose proof (Z.mod_pos_bound j n ltac:(lia)) as Hm.
  assert (on_consumed (elem b (j mod n)) (lk_ring l) = mkRing b (n + 1) (cycle_bit_ (lk_ring l)) (write_index_ (lk_ring l)) ((j + 1) mod n)) as ->.
  { unfold on_consumed. destruct (lk_shape l Hok) as [-> ->]. destruct (Z.eqb_spec b 0); [lia|]. destruct (Z.ltb_spec (elem b (j mod n)) b); [unfold elem in *; lia|].
    destruct (Z.leb_spec (elem b (n + 1)) (elem b (j mod n))); [unfold elem in *; lia|]. cbn [orb]. f_equal. destruct (lap_next j) as [-> _]; [lia|].
    replace ((elem b (j mod n) - b) / 16) with (j mod n) by (unfold elem; replace (b + 16 * (j mod n) - b) with (j mod n * 16) by lia; by rewrite Z.div_mul).
    replace (n + 1 - 1) with n by lia. destruct (Z.leb_spec n (j mod n + 1)), (Z.eqb_spec (j mod n + 1) n); lia. }
  destruct Hok. split; cbn [lk_ring lk_mem lk_xhc pushed taken acked buffer_ buffer_size_ write_index_ read_index_ cycle_bit_] in *; try done. lia.
Qed.

Lemma other_keeps_ok l m' : link_ok l -> (forall i, 0 <= i < n + 1 -> m' !! elem b i = lk_mem l !! elem b i) ->
  link_ok (mkLink (lk_ring l) m' (lk_xhc l) (pushed l) (taken l) (acked l)).
Proof.
  intros Hok Hm. destruct Hok. split; cbn [lk_ring lk_mem lk_xhc pushed taken acked] in *; try done.
  - intros j t Hj Ht. rewrite Hm by (pose proof (Z.mod_pos_bound j n); lia). by apply lk_slots0.
  - intros i Hi. pose proof (lenz_nonneg (pushed l)). rewrite Hm by lia. by apply lk_fresh0.
  - by rewrite Hm by lia.
Qed.

Lemma step_keeps_ok l l' : link_ok l -> link_step l l' -> link_ok l'.
Proof.
  intros Hok Hs. destruct Hs as [t p r' m' r m h ps ts a Ht E|p t h' r m h ps ts a E|j p t r m h ps ts a Hj E|m' r m h ps ts a E].
  - destruct (lk_order _ Hok) as [_ [_ Hwa]]. cbn [pushed acked] in Hwa. destruct (Z.eq_dec (lenz ps) (a + (n - 1))) as [Hf|Hne].
    + pose proof (push_full _ t Hok Hf) as E'. cbn [lk_ring lk_mem] in E'. rewrite E in E'. injection E' as -> -> ->. done.
    + pose proof (push_result _ t Hok ltac:(cbn; lia)) as E'. cbn [lk_ring lk_mem pushed acked] in E'. rewrite E in E'. injection E' as -> -> ->.
      destruct (Z.eqb_spec (elem b (lenz ps mod n)) 0) as [E0|]; [unfold elem in E0; pose proof (Z.mod_pos_bound (lenz ps) n); lia|]. apply (push_keeps_ok _ t Hok Ht). cbn. lia.
  - exact (take_keeps_ok _ p t h' Hok E).
  - exact (ack_keeps_ok _ j p t Hok Hj E).
  - apply (other_keeps_ok _ m' Hok). intros i Hi. destruct (lk_shape _ Hok) as [E1 E2]. cbn [lk_ring lk_mem] in *. rewrite <- E1. apply E. lia.
Qed.
End Fifo.

(** C12: The driver and the xHC see one queue.  In every state the two reach from an
    initialised ring by pushes, reads of the xHC, acknowledgements of blocks it took
    and changes of other memory: what the xHC took is what was pushed, in order and
    without loss; it finds a block exactly when one is left, and that block is the
    oldest; a push returns, is refused exactly when [N - 2] blocks are not
    acknowledged, and never more than these are outstanding. *)
Theorem trb_ring_refines_fifo b N m l : 0 < b -> b mod 16 = 0 -> 2 <= N -> elem b N <= 2 ^ 64 -> rtc link_step (fresh_link b N m) l ->
  map (fun x => payload x.2) (taken l) = take (length (taken l)) (map payload (pushed l)) /\
  (xhc_fetch (lk_xhc l) (lk_mem l) = None <-> length (taken l) = length (pushed l)) /\
  (forall p t h', xhc_fetch (lk_xhc l) (lk_mem l) = Some (p, t, h') -> exists t0, pushed l !! length (taken l) = Some t0 /\ payload t = payload t0) /\
  (forall t, exists p r' m', push t (lk_ring l) (lk_mem l) = Some (p, r', m') /\ (p = 0 <-> lenz (pushed l) - acked l = N - 2)) /\
  lenz (pushed l) - acked l <= N - 2.
Proof.
  intros Hb Ha HN Hend Hr. set (n := N - 1). assert (N = n + 1) as EN by (unfold n; lia). rewrite EN in *. assert (1 <= n) as Hn by lia. clearbody n.
  assert (link_ok b n l) as Hok.
  { assert (link_ok b n (fresh_link b (n + 1) m)) as H0 by (by apply fresh_link_ok). remember (fresh_link b (n + 1) m) as l0 eqn:E0. clear E0. induction Hr as [|x y z Hs _ IH]; [done|]. by apply IH, (step_keeps_ok b n Hb Ha Hn Hend x). }
  destruct (lk_order b n l Hok) as [[Ha0 Hah] [Hhw Hwa]]. destruct (fetch_spec b n Hb Ha Hn Hend l Hok) as [Hsome Hnone]. split_and!.
  - apply list_eq. intros i. rewrite list_lookup_fmap. destruct (taken l !! i) as [[p t]|] eqn:E; cbn [fmap option_fmap option_map].
    + pose proof (lookup_lt_Some _ _ _ E). rewrite lookup_take_lt by done. rewrite list_lookup_fmap. cbn [snd]. destruct (lk_same b n l Hok (Z.of_nat i) p t) as [_ ->]; [apply atz_Some; rewrite Nat2Z.id; split; [lia|done]|].
      unfold atz. destruct (Z.leb_spec 0 (Z.of_nat i)); [|lia]. rewrite Nat2Z.id. destruct (lookup_lt_is_Some_2 (pushed l) i) as [x ->]; [unfold lenz in *; lia|]. done.
    + rewrite lookup_take_ge; [done|]. by apply lookup_ge_None.
  - split; [|intros E; apply Hnone; unfold lenz; lia]. intros E. destruct (Z.lt_ge_cases (lenz (taken l)) (lenz (pushed l))) as [Hlt|]; [|unfold lenz in *; lia]. destruct (Hsome Hlt) as (? & _ & E'). by rewrite E in E'.
  - intros p t h' E. destruct (Z.lt_ge_cases (lenz (taken l)) (lenz (pushed l))) as [Hlt|]; [|by rewrite Hnone in E by lia]. destruct (Hsome Hlt) as (t0 & Ht0 & E'). rewrite E in E'. injection E' as -> -> ->.
    exists t0. split; [|apply payload_with]. apply atz_Some in Ht0 as [_ Ht0]. unfold lenz in Ht0. by rewrite Nat2Z.id in Ht0.
  - intros t. destruct (Z.eq_dec (lenz (pushed l)) (acked l + (n - 1))) as [Hf|Hne].
    + rewrite (push_full b n) by done. eexists _, _, _. split; [done|]. split; lia.
    + rewrite (push_result b n) by (done || lia). eexists _, _, _. split; [done|]. pose proof (Z.mod_pos_bound (lenz (pushed l)) n). unfold elem. split; lia.
  - lia.
Qed.

(** A run with its witness: a ring of four blocks takes one push, which the xHC reads. *)
Definition sample_link : Link :=
  let l := fresh_link 4096 4 ∅ in
  match push normal_trb (lk_ring l) (lk_mem l) with
  | Some (p, r', m') => match xhc_fetch (lk_xhc l) m' with
      | Some (q, t, h') => mkLink r' m' h' [normal_trb] [(q, t)] 0
      | None => l end
  | None => l
  end.

Lemma trb_ring_refines_fifo_witness : length (taken sample_link) = 1%nat /\ map (fun x => payload x.2) (taken sample_link) = [payload normal_trb].
Proof.
  split; [reflexivity|]. assert (rtc link_step (fresh_link 4096 4 ∅) sample_link) as Hr.
  { eapply rtc_l; [apply (link_push normal_trb 4096 (mkRing 4096 4 true 1 0)); [by vm_compute|reflexivity]|]. eapply rtc_l; [eapply link_take; reflexivity|]. apply rtc_refl. }
  destruct (trb_ring_refines_fifo 4096 4 ∅ sample_link) as (H & _); [lia|reflexivity|lia|vm_compute; intros E; discriminate E|exact Hr|]. rewrite H. reflexivity.
Defined.

(** ** The event ring as a queue *)

(** The producer: the slot it writes next and its cycle. *)
Record XhcEvents := mkXhcEvents { enqueue : Z; producer_cycle : bool }.

Record Events := mkEvents {
  es_ring : EventRing;
  es_erdp : Z;
  es_mem : Mem;
  es_xhc : XhcEvents;
  posted : list Trb;
  handled : list Trb;
}.

(** The xHC keeps one slot free: it stops when the slot behind the one it writes
    is where the dequeue pointer register points. *)
Definition xhc_post (b N : Z) (t : Trb) (x : XhcEvents) (erdp : Z) (m : Mem) : option (XhcEvents * Mem) :=
  let next := if enqueue x + 1 =? N then 0 else enqueue x + 1 in
  if erdp_pointer erdp =? elem b next then None
  else Some (mkXhcEvents next (if enqueue x + 1 =? N then negb (producer_cycle x) else producer_cycle x),
             <[elem b (enqueue x) := with_cycle (producer_cycle x) t]> m).

Inductive event_step (b N : Z) : Events -> Events -> Prop :=
  | event_post t e d m x ps hs x' m' : xhc_post b N t x d m = Some (x', m') ->
      event_step b N (mkEvents e d m x ps hs) (mkEvents e d m' x' (ps ++ [t]) hs)
  | event_handle t e d m x ps hs e' v d' : has_front e d m = Some true -> m !! erdp_pointer d = Some t -> pop e d = (e', v) ->
      erdp_pointer d' = erdp_pointer v -> 0 <= d' < 2 ^ 64 ->
      event_step b N (mkEvents e d m x ps hs) (mkEvents e' d' m x ps (hs ++ [t]))
  | event_other m' d' e d m x ps hs : (forall i, 0 <= i < N -> m' !! elem b i = m !! elem b i) -> erdp_pointer d' = erdp_pointer d -> 0 <= d' < 2 ^ 64 ->
      event_step b N (mkEvents e d m x ps hs) (mkEvents e d' m' x ps hs).

(** The ring as [initialize] leaves it. *)
Definition fresh_events (b N d : Z) (m : Mem) : Events :=
  mkEvents (mkEventRing b N true b N) d (zero_blocks (Z.to_nat N) b m) (mkXhcEvents 0 true) [] [].

Lemma erdp_pointer_set p d : 0 <= p < 2 ^ 64 -> p mod 16 = 0 -> 0 <= d < 2 ^ 64 -> erdp_pointer (erdp_set_pointer p d) = p /\ 0 <= erdp_set_pointer p d < 2 ^ 64.
Proof.
  intros Hp Ha Hd. split; [|apply set_bits_range; lia]. unfold erdp_pointer, erdp_set_pointer. apply Z.bits_inj'. intros k Hk. destruct (Z.ltb_spec k 4).
  - rewrite Z.shiftl_spec_low by lia. change 16 with (2 ^ 4) in Ha. rewrite <- (Z.mod_pow2_bits_low p 4) by lia. by rewrite Ha, Z.bits_0.
  - rewrite Z.shiftl_spec, Z.shiftr_spec, testbit_set_bits by lia. replace (k - 4 + 4) with k by lia. destruct (Z.leb_spec 4 k), (Z.ltb_spec k (4 + 60)); try lia; cbn [andb].
    + rewrite Z.shiftr_spec by lia. f_equal. lia.
    + rewrite (testbit_above d 64), (testbit_above p 64) by lia. done.
Qed.

Section EventFifo.
Context (b n : Z) (Hb : 0 < b) (Ha : b mod 16 = 0) (Hn : 2 <= n) (Hend : elem b n < 2 ^ 64).

Record events_ok (s : Events) : Prop := mkEventsOk {
  ev_shape : es_ring s = mkEventRing b n (Z.even (lenz (handled s) / n)) b n;
  ev_erdp : erdp_pointer (es_erdp s) = elem b (lenz (handled s) mod n) /\ 0 <= es_erdp s < 2 ^ 64;
  ev_xhc : es_xhc s = mkXhcEvents (lenz (posted s) mod n) (Z.even (lenz (posted s) / n));
  ev_order : lenz (handled s) <= lenz (posted s) <= lenz (handled s) + (n - 1);
  ev_slots : forall j t, lenz (posted s) - n <= j -> atz (posted s) j = Some t -> es_mem s !! elem b (j mod n) = Some (with_cycle (Z.even (j / n)) t);
  ev_fresh : forall i, lenz (posted s) <= i < n -> es_mem s !! elem b i = Some zero_trb;
  ev_same : map payload (handled s) = take (length (handled s)) (map payload (posted s));
}.

Lemma elem_aligned i : elem b i mod 16 = 0.
Proof. unfold elem. replace (b + 16 * i) with (b + i * 16) by lia. rewrite Z.mod_add by lia. done. Qed.

Lemma fresh_events_ok m d : erdp_pointer d = b -> 0 <= d < 2 ^ 64 -> events_ok (fresh_events b n d m).
Proof.
  intros Hd Hr. split; cbn [fresh_events es_ring es_erdp es_mem es_xhc posted handled]; change (lenz []) with 0; rewrite ?Z.mod_0_l, ?Z.div_0_l by lia; try done.
  - split; [rewrite Hd; unfold elem; lia|done].
  - lia.
  - intros j t _ Hj. by apply atz_Some in Hj as [_ ?].
  - intros i Hi. apply zero_blocks_in. lia.
Qed.

(** The driver sees an event exactly when one is left, and that event is the oldest. *)
Lemma front_spec s : events_ok s -> let h := lenz (handled s) in
  (h < lenz (posted s) -> exists t, atz (posted s) h = Some t /\ es_mem s !! erdp_pointer (es_erdp s) = Some (with_cycle (Z.even (h / n)) t)) /\
  has_front (es_ring s) (es_erdp s) (es_mem s) = Some (h <? lenz (posted s)).
Proof.
  intros Hok h. destruct (ev_order s Hok) as [Hhw Hwa]. fold h in Hhw, Hwa. set (w := lenz (posted s)) in *. destruct (ev_erdp s Hok) as [Ed _]. fold h in Ed. rewrite (ev_shape s Hok). unfold has_front. cbn [ev_cycle]. rewrite Ed. fold h.
  assert (0 <= h) as Hh by apply lenz_nonneg. destruct (Z.ltb_spec h w) as [Hlt|Hge].
  - destruct (atz_lt (posted s) h) as [t Ht]; [done|]. pose proof (ev_slots s Hok h t ltac:(fold w; lia) Ht) as E. rewrite E. cbn [mbind option_bind]. rewrite cycle_bit_with, Z.eqb_refl. split; [|done]. intros _. by exists t.
  - split; [lia|]. assert (h = w) as -> by lia. destruct (Z.ltb_spec w n).
    + destruct (lap_small n w) as [-> ->]; [lia|]. rewrite (ev_fresh s Hok) by (fold w; lia). done.
    + destruct (lap_back n ltac:(lia) w) as [E1 E2]; [lia|]. destruct (atz_lt (posted s) (w - n)) as [t Ht]; [fold w; lia|]. rewrite <- E1. rewrite (ev_slots s Hok (w - n) t ltac:(fold w; lia) Ht). cbn [mbind option_bind].
      rewrite cycle_bit_with, E2, even_pred. by destruct (Z.even (w / n)).
Qed.

Lemma post_keeps_ok s t x' m' : events_ok s -> xhc_post b n t (es_xhc s) (es_erdp s) (es_mem s) = Some (x', m') ->
  events_ok (mkEvents (es_ring s) (es_erdp s) m' x' (posted s ++ [t]) (handled s)).
Proof.
  intros Hok E. destruct (ev_order s Hok) as [Hhw Hwa]. set (w := lenz (posted s)) in *. set (h := lenz (handled s)) in *. destruct (ev_erdp s Hok) as [Ed _]. fold h in Ed.
  rewrite (ev_xhc s Hok) in E. fold w in E. unfold xhc_post in E. cbn [enqueue producer_cycle] in E. rewrite Ed in E. assert (0 <= h) as Hh by apply lenz_nonneg. destruct (lap_next n ltac:(lia) w) as [Em Edv]; [lia|]. rewrite <- Em in E.
  destruct (Z.eqb_spec (elem b (h mod n)) (elem b ((w + 1) mod n))) as [|Hne]; [done|]. assert (w <> h + (n - 1)).
  { intros E'. apply Hne. f_equal. replace (w + 1) with (h + 1 * n) by lia. by rewrite Z.mod_add by lia. }
  injection E as <- <-. pose proof (Z.mod_pos_bound w n ltac:(lia)). assert (lenz (posted s ++ [t]) = w + 1) as Ew by (rewrite lenz_app; done). pose proof (ev_same s Hok) as Hs.
  destruct Hok. split; cbn [es_ring es_erdp es_mem es_xhc posted handled] in *; rewrite ?Ew; try done.
  - f_equal. rewrite Edv. destruct (Z.eqb_spec (w mod n + 1) n); [by rewrite even_succ'|done].
  - lia.
  - intros j x Hj Hx. pose proof (atz_Some_lt _ _ _ Hx) as Hjw. rewrite Ew in Hjw. destruct (Z.eq_dec j w) as [->|Hjne].
    + rewrite lookup_insert_eq. apply atz_Some in Hx as [_ Hx]. rewrite lookup_app_r in Hx by (unfold w, lenz; lia). replace (Z.to_nat w - length (posted s))%nat with 0%nat in Hx by (unfold w, lenz; lia). by injection Hx as <-.
    + rewrite lookup_insert_ne by (intros E%elem_inj; apply Hjne; symmetry in E; by apply (lap_distinct n ltac:(lia)) in E; [|lia]). apply ev_slots0; [fold w; lia|]. apply atz_Some in Hx as [? Hx]. apply atz_Some. split; [done|]. rewrite lookup_app_l in Hx; [done|]. unfold w, lenz in *. lia.
  - intros i Hi. rewrite (Z.mod_small w) by lia. rewrite lookup_insert_ne by (intros E%elem_inj; lia). apply ev_fresh0. fold w. lia.
  - rewrite Hs, map_app. rewrite take_app_le; [done|]. rewrite length_map. unfold h, w, lenz in *. lia.
Qed.

Lemma handle_keeps_ok s t e' v d' : events_ok s -> has_front (es_ring s) (es_erdp s) (es_mem s) = Some true -> es_mem s !! erdp_pointer (es_erdp s) = Some t ->
  pop (es_ring s) (es_erdp s) = (e', v) -> erdp_pointer d' = erdp_pointer v -> 0 <= d' < 2 ^ 64 ->
  events_ok (mkEvents e' d' (es_mem s) (es_xhc s) (posted s) (handled s ++ [t])).
Proof.
  intros Hok Hf Ht Hp Hd' Hr. destruct (front_spec s Hok) as [Hfront Hhas]. set (h := lenz (handled s)) in *. rewrite Hhas in Hf. injection Hf as Hlt%Z.ltb_lt. destruct (Hfront Hlt) as (t0 & Ht0 & E0). rewrite Ht in E0. injection E0 as ->.
  destruct (ev_erdp s Hok) as [Ed Edr]. fold h in Ed. assert (0 <= h) as Hh by apply lenz_nonneg. destruct (lap_next n ltac:(lia) h Hh) as [Em Edv]. pose proof (Z.mod_pos_bound h n ltac:(lia)) as Hm.
  rewrite (ev_shape s Hok) in Hp. unfold pop in Hp. cbn [segment_base segment_size ev_buffer ev_buffer_size ev_cycle] in Hp. fold h in Hp. rewrite Ed in Hp.
  assert (lenz (handled s ++ [with_cycle (Z.even (h / n)) t0]) = h + 1) as Eh by (rewrite lenz_app; done).
  assert (e' = mkEventRing b n (Z.even ((h + 1) / n)) b n /\ erdp_pointer v = elem b ((h + 1) mod n)) as [-> Ev].
  { rewrite Em, Edv. destruct (Z.eqb_spec (elem b (h mod n) + 16) (elem b n)) as [E|E], (Z.eqb_spec (h mod n + 1) n) as [E'|E']; try (unfold elem in E; lia); injection Hp as <- <-.
    - rewrite even_succ'. split; [done|]. destruct (erdp_pointer_set b (es_erdp s)) as [-> _]; [unfold elem in *; lia|done|done|]. unfold elem. lia.
    - split; [done|]. replace (elem b (h mod n) + 16) with (elem b (h mod n + 1)) by (unfold elem; lia). apply erdp_pointer_set; [unfold elem in *; lia|apply elem_aligned|done]. }
  pose proof (ev_order s Hok). pose proof (ev_same s Hok) as Hs. destruct Hok. split; cbn [es_ring es_erdp es_mem es_xhc posted handled] in *; rewrite ?Eh; try done.
  - split; [congruence|done].
  - lia.
  - rewrite map_app, Hs, length_app. cbn [map length]. rewrite payload_with. rewrite Nat.add_1_r. symmetry. apply take_S_r. rewrite list_lookup_fmap. apply atz_Some in Ht0 as [_ Ht0]. unfold h, lenz in Ht0. rewrite Nat2Z.id in Ht0. by rewrite Ht0.
Qed.

Lemma event_step_ok s s' : events_ok s -> event_step b n s s' -> events_ok s'.
Proof.
  intros Hok Hs. destruct Hs as [t e d m x ps hs x' m' E|t e d m x ps hs e' v d' Hf Ht Hp Hd Hr|m' d' e d m x ps hs Hm Hd Hr].
  - exact (post_keeps_ok _ t x' m' Hok E).
  - exact (handle_keeps_ok _ t e' v d' Hok Hf Ht Hp Hd Hr).
  - destruct Hok. split; cbn [es_ring es_erdp es_mem es_xhc posted handled] in *; try done.
    + rewrite Hd. split; [apply ev_erdp0|done].
    + intros j t Hj Ht. rewrite Hm by (apply Z.mod_pos_bound; lia). by apply ev_slots0.
    + intros i Hi. rewrite Hm by (pose proof (lenz_nonneg ps); lia). by apply ev_fresh0.
Qed.
End EventFifo.

(** C28: The driver handles every event once, in the order in which the xHC posted them.
    In every state reached from an initialised event ring by events of the xHC,
    handling of the front and changes of other memory and of the low bits of the
    dequeue register: the handled events are the first posted ones, [has_front]
    answers without a fault whether one is left, the front is then the oldest, and
    the xHC can post until [N - 1] events wait. *)
Theorem event_ring_refines_fifo b N d m s : 0 < b -> b mod 16 = 0 -> 2 <= N -> elem b N < 2 ^ 64 -> erdp_pointer d = b -> 0 <= d < 2 ^ 64 ->
  rtc (event_step b N) (fresh_events b N d m) s ->
  map payload (handled s) = take (length (handled s)) (map payload (posted s)) /\
  has_front (es_ring s) (es_erdp s) (es_mem s) = Some (bool_decide (length (handled s) < length (posted s))%nat) /\
  ((length (handled s) < length (posted s))%nat -> exists t t0, es_mem s !! erdp_pointer (es_erdp s) = Some t /\ posted s !! length (handled s) = Some t0 /\ payload t = payload t0) /\
  (forall t, xhc_post b N t (es_xhc s) (es_erdp s) (es_mem s) = None <-> lenz (posted s) - lenz (handled s) = N - 1).
Proof.
  intros Hb Ha HN Hend Hd Hr Hrun. assert (events_ok b N s) as Hok.
  { assert (events_ok b N (fresh_events b N d m)) as H0 by (by apply fresh_events_ok). remember (fresh_events b N d m) as s0 eqn:E0. clear E0. induction Hrun as [|x y z Hs _ IH]; [done|]. by apply IH, (event_step_ok b N Hb Ha HN Hend x). }
  destruct (front_spec b N HN s Hok) as [Hfront Hhas]. destruct (ev_order b N s Hok) as [Hhw Hwa]. split_and!.
  - apply (ev_same b N s Hok).
  - rewrite Hhas. f_equal. case_bool_decide; unfold lenz; [apply Z.ltb_lt|apply Z.ltb_ge]; lia.
  - intros Hlt. destruct Hfront as (t0 & Ht0 & E); [unfold lenz; lia|]. rewrite E. eexists _, t0. split; [done|]. split; [|apply payload_with]. apply atz_Some in Ht0 as [_ Ht0]. unfold lenz in Ht0. by rewrite Nat2Z.id in Ht0.
  - intros t. rewrite (ev_xhc b N s Hok). unfold xhc_post. cbn [enqueue producer_cycle]. destruct (ev_erdp b N s Hok) as [-> _]. set (w := lenz (posted s)) in *. set (h := lenz (handled s)) in *. assert (0 <= h) by apply lenz_nonneg.
    destruct (lap_next N ltac:(lia) w) as [<- _]; [lia|]. destruct (Z.eqb_spec (elem b (h mod N)) (elem b ((w + 1) mod N))) as [E%elem_inj|E]; split; try done.
    + intros _. destruct (Z.eq_dec (w - h) (N - 1)); [done|]. apply (lap_distinct N ltac:(lia)) in E; lia.
    + intros E'. destruct E. f_equal. replace (w + 1) with (h + 1 * N) by lia. by rewrite Z.mod_add by lia.
Qed.

Definition sample_events : Events :=
  let s := fresh_events 4096 2 4096 ∅ in
  match xhc_post 4096 2 normal_trb (es_xhc s) 4096 (es_mem s) with
  | Some (x', m') => mkEvents (mkEventRing 4096 2 true 4096 2) 4112 m' x' [normal_trb] [with_cycle true normal_trb]
  | None => s
  end.

Lemma event_ring_refines_fifo_witness : length (handled sample_events) = 1%nat /\ map payload (handled sample_events) = [payload normal_trb].
Proof.
  split; [reflexivity|]. assert (rtc (event_step 4096 2) (fresh_events 4096 2 4096 ∅) sample_events) as Hr.
  { eapply rtc_l; [apply (event_post 4096 2 normal_trb); reflexivity|]. eapply rtc_l; [apply (event_handle 4096 2 (with_cycle true normal_trb) _ _ _ _ _ _ (mkEventRing 4096 2 true 4096 2) 4112 4112); [reflexivity..|lia]|]. apply rtc_refl. }
  destruct (event_ring_refines_fifo 4096 2 4096 ∅ sample_events) as (H & _); [lia|reflexivity|lia|reflexivity|reflexivity|lia|exact Hr|]. rewrite H. reflexivity.
Defined.
