(* ===== verification/UsbDevice.v ===== *)
(** * USB devices and the keyboard driver

    [hardware/usb/device.cpp], [descriptor.hpp], [endpoint.cpp], [array_map.hpp],
    [class_driver/] and [xhci/device.cpp].  [Dev] joins the two [Device] classes with
    the drivers it created.  Device and driver call each other: a completed transfer
    goes up to the driver, which starts the next one.  Control transfers and
    interrupt transfers become blocks on the transfer ring of an endpoint and a write
    to the doorbell; the answers arrive as transfer events.

    The xHC's registers are an instance of [Mmio]: every definition and theorem is
    for any hardware behind it.  Buffers that the xHC fills are part of the state.
    Allocations take addresses from a supply, 0 for a failure.  A pointer that is
    followed and is null, uninitialised or outside the buffers of the device is a
    fault. *)

From S2P Require Import Prelude BitUtils Trb TrbRing.

Open Scope Z_scope.

(** ** Registers of the host controller *)

Inductive Reg :=
  | CAPLENGTH | HCSPARAMS1 | HCSPARAMS2 | HCCPARAMS1 | EXTCAP (addr : Z)
  | USBCMD | USBSTS | CRCR | DCBAAP | CONFIG | PORTSC (port : Z)
  | IMAN | ERSTSZ | ERSTBA | ERDP | DOORBELL (i : Z).

Class Mmio (D : Type) := {
  reg_read : Reg -> D -> Z * D;
  reg_write : Reg -> Z -> D -> D;
}.

(** ** [ArrayMap] *)

Section ArrayMap.
Context {K V : Type} (eqb : K -> K -> bool).

Definition ArrayMap := list (option K * V).

Fixpoint am_get (k : K) (l : ArrayMap) : option V :=
  match l with
  | [] => None
  | (Some k', v) :: l' => if eqb k' k then Some v else am_get k l'
  | (None, _) :: l' => am_get k l'
  end.

Fixpoint am_put (k : K) (v : V) (l : ArrayMap) : ArrayMap :=
  match l with
  | [] => []
  | (None, _) :: l' => (Some k, v) :: l'
  | x :: l' => x :: am_put k v l'
  end.

Fixpoint am_remove (k : K) (l : ArrayMap) : ArrayMap :=
  match l with
  | [] => []
  | (Some k', v) :: l' => if eqb k' k then (None, v) :: l' else (Some k', v) :: am_remove k l'
  | x :: l' => x :: am_remove k l'
  end.
End ArrayMap.
Arguments ArrayMap : clear implicits.

(** ** Endpoints

    An [EndpointId] is its address: the number above the direction bit. *)

Definition endpoint_address (num : Z) (dir_in : bool) : Z := Z.lor (Z.shiftl num 1) (Z.b2z dir_in).
Definition number (ep : Z) : Z := Z.shiftr ep 1.
Definition is_in (ep : Z) : bool := negb (Z.land ep 1 =? 0).
Definition DEFAULT_CONTROL_PIPE_ID : Z := endpoint_address 0 true.

Inductive EndpointType := CONTROL | ISOCHRONOUS | BULK | INTERRUPT.
Definition endpoint_type (v : Z) : EndpointType :=
  if v =? 0 then CONTROL else if v =? 1 then ISOCHRONOUS else if v =? 2 then BULK else INTERRUPT.

Record EndpointConfig := mkEndpointConfig {
  ep_id : Z;
  ep_type : EndpointType;
  max_packet_size : Z;
  interval : Z;
}.

(** ** The keyboard driver: [KeyboardDriver] over [HidDriver] *)

Record Driver := mkDriver {
  interface_index_ : Z;
  in_packet_size_ : Z;
  ep_interrupt_in_ : Z;
  ep_interrupt_out_ : Z;
  initialized_stage_ : Z;
  hid_buffer : list Z;
  prev_buffer_ : list Z;
  hid_buffer_addr : Z;
  num_observers_ : Z;
}.

Definition HID_BUFFER_SIZE : Z := 1024.
(** Offset of [buffer_] in the object. *)
Definition HID_BUFFER_OFFSET : Z := 36.

Definition new_keyboard (addr interface : Z) : Driver :=
  mkDriver interface 8 0 0 0 (replicate (Z.to_nat HID_BUFFER_SIZE) 0) (replicate (Z.to_nat HID_BUFFER_SIZE) 0) (addr + HID_BUFFER_OFFSET) 0.

Definition subscribe (k : Driver) : Driver :=
  if num_observers_ k <? 4
  then mkDriver (interface_index_ k) (in_packet_size_ k) (ep_interrupt_in_ k) (ep_interrupt_out_ k) (initialized_stage_ k) (hid_buffer k) (prev_buffer_ k) (hid_buffer_addr k) (num_observers_ k + 1)
  else k.

Definition set_hid_stage (n : Z) (k : Driver) : Driver :=
  mkDriver (interface_index_ k) (in_packet_size_ k) (ep_interrupt_in_ k) (ep_interrupt_out_ k) n (hid_buffer k) (prev_buffer_ k) (hid_buffer_addr k) (num_observers_ k).
Definition set_prev_buffer (b : list Z) (k : Driver) : Driver :=
  mkDriver (interface_index_ k) (in_packet_size_ k) (ep_interrupt_in_ k) (ep_interrupt_out_ k) (initialized_stage_ k) (hid_buffer k) b (hid_buffer_addr k) (num_observers_ k).
Definition set_hid_buffer (b : list Z) (k : Driver) : Driver :=
  mkDriver (interface_index_ k) (in_packet_size_ k) (ep_interrupt_in_ k) (ep_interrupt_out_ k) (initialized_stage_ k) b (prev_buffer_ k) (hid_buffer_addr k) (num_observers_ k).

(** [HidDriver::set_endpoint] *)
Definition set_endpoint (c : EndpointConfig) (k : Driver) : Driver :=
  match ep_type c with
  | INTERRUPT =>
      if is_in (ep_id c)
      then mkDriver (interface_index_ k) (in_packet_size_ k) (ep_id c) (ep_interrupt_out_ k) (initialized_stage_ k) (hid_buffer k) (prev_buffer_ k) (hid_buffer_addr k) (num_observers_ k)
      else mkDriver (interface_index_ k) (in_packet_size_ k) (ep_interrupt_in_ k) (ep_id c) (initialized_stage_ k) (hid_buffer k) (prev_buffer_ k) (hid_buffer_addr k) (num_observers_ k)
  | _ => k
  end.

(** A call of an observer: modifier byte, key and whether it went down. *)
Record Key := mkKey { modifier : Z; keycode : Z; press : bool }.

(** The key codes of a report, bytes 2 to 7. *)
Definition report_codes (b : list Z) : option (list Z) := mapM (atz b) [2; 3; 4; 5; 6; 7].

Definition code_set (codes : list Z) (key : Z) : bool := bool_decide (key ∈ codes).

(** [notify_key_push] *)
Definition notify_key_push (k : Driver) (m key : Z) (p : bool) : list Key := replicate (Z.to_nat (num_observers_ k)) (mkKey m key p).

(** [on_data_received]: one notification per changed key, in the order of the keys. *)
Definition on_data_received (k : Driver) : option (list Key) :=
  prev ← report_codes (prev_buffer_ k);
  current ← report_codes (hid_buffer k);
  m ← atz (hid_buffer k) 0;
  let changed key := xorb (code_set prev key) (code_set current key) in
  let pressed key := changed key && code_set current key in
  Some (flat_map (fun key => if changed key then notify_key_push k m key (pressed key) else []) (seqZ 1 255)).

(** ** Devices *)

Inductive SlotState := INVALID | BLANK | SLOT_ASSIGNING | SLOT_ASSIGNED.

(** A [Ring] pointer; [RingWild] is one that was never written. *)
Inductive RingPtr := RingNull | RingWild | RingAt (r : Ring).

(** Contexts as arrays of eight 32-bit words. *)
Abbreviation Ctx := (list Z) (only parsing).

Record InputContext := mkInput {
  add_context_flags : Z;
  in_slot : Ctx;
  in_endpoints : list Ctx;
}.

Record Dev := mkDev {
  slot_id_ : Z;
  dev_addr : Z;
  state_ : SlotState;
  is_initialized_ : bool;
  initialize_stage_ : Z;
  num_configurations_ : Z;
  config_index_ : Z;
  EndpointConfigs_ : list EndpointConfig;
  num_EndpointConfigs_ : Z;
  ClassDrivers_ : list (option Z);
  drivers : list Driver;
  event_waiters_ : ArrayMap SetupStageData Z;
  dev_buffer : list Z;
  transfer_rings_ : list RingPtr;
  setup_stages_ : ArrayMap Z Z;
  ctx_slot : Ctx;
  input_ctx_ : InputContext;
}.

(** Offsets of [buffer_], [ctx_] and [input_ctx_] in the object. *)
Definition BUFFER_OFFSET : Z := 136.
Definition CTX_OFFSET : Z := 768.
Definition INPUT_CTX_OFFSET : Z := 1792.
Definition dev_buffer_addr (d : Dev) : Z := dev_addr d + BUFFER_OFFSET.
Definition context (d : Dev) : Z := dev_addr d + CTX_OFFSET.
Definition input_context (d : Dev) : Z := dev_addr d + INPUT_CTX_OFFSET.

(** The constructor, in memory that holds [junk]: the members without an initialiser
    keep it. *)
Definition new_device (slot addr junk : Z) : Dev :=
  mkDev slot addr INVALID false 0 junk junk (replicate 16 (mkEndpointConfig 0 CONTROL junk junk)) junk (replicate 16 None) []
    (replicate 4 (None, 0)) (replicate 256 0) (replicate 31 RingWild) (replicate 16 (None, 0)) (replicate 8 junk)
    (mkInput junk (replicate 8 junk) (replicate 31 (replicate 8 junk))).

Definition set_init (b : bool) (n : Z) (d : Dev) : Dev :=
  mkDev (slot_id_ d) (dev_addr d) (state_ d) b n (num_configurations_ d) (config_index_ d) (EndpointConfigs_ d) (num_EndpointConfigs_ d) (ClassDrivers_ d) (drivers d)
    (event_waiters_ d) (dev_buffer d) (transfer_rings_ d) (setup_stages_ d) (ctx_slot d) (input_ctx_ d).
Definition set_configurations (n i : Z) (d : Dev) : Dev :=
  mkDev (slot_id_ d) (dev_addr d) (state_ d) (is_initialized_ d) (initialize_stage_ d) n i (EndpointConfigs_ d) (num_EndpointConfigs_ d) (ClassDrivers_ d) (drivers d)
    (event_waiters_ d) (dev_buffer d) (transfer_rings_ d) (setup_stages_ d) (ctx_slot d) (input_ctx_ d).
Definition set_configs (l : list EndpointConfig) (n : Z) (d : Dev) : Dev :=
  mkDev (slot_id_ d) (dev_addr d) (state_ d) (is_initialized_ d) (initialize_stage_ d) (num_configurations_ d) (config_index_ d) l n (ClassDrivers_ d) (drivers d)
    (event_waiters_ d) (dev_buffer d) (transfer_rings_ d) (setup_stages_ d) (ctx_slot d) (input_ctx_ d).
Definition set_drivers (c : list (option Z)) (l : list Driver) (d : Dev) : Dev :=
  mkDev (slot_id_ d) (dev_addr d) (state_ d) (is_initialized_ d) (initialize_stage_ d) (num_configurations_ d) (config_index_ d) (EndpointConfigs_ d) (num_EndpointConfigs_ d) c l
    (event_waiters_ d) (dev_buffer d) (transfer_rings_ d) (setup_stages_ d) (ctx_slot d) (input_ctx_ d).
Definition set_waiters (w : ArrayMap SetupStageData Z) (d : Dev) : Dev :=
  mkDev (slot_id_ d) (dev_addr d) (state_ d) (is_initialized_ d) (initialize_stage_ d) (num_configurations_ d) (config_index_ d) (EndpointConfigs_ d) (num_EndpointConfigs_ d) (ClassDrivers_ d) (drivers d)
    w (dev_buffer d) (transfer_rings_ d) (setup_stages_ d) (ctx_slot d) (input_ctx_ d).
Definition set_dev_buffer (b : list Z) (d : Dev) : Dev :=
  mkDev (slot_id_ d) (dev_addr d) (state_ d) (is_initialized_ d) (initialize_stage_ d) (num_configurations_ d) (config_index_ d) (EndpointConfigs_ d) (num_EndpointConfigs_ d) (ClassDrivers_ d) (drivers d)
    (event_waiters_ d) b (transfer_rings_ d) (setup_stages_ d) (ctx_slot d) (input_ctx_ d).
Definition set_rings (r : list RingPtr) (d : Dev) : Dev :=
  mkDev (slot_id_ d) (dev_addr d) (state_ d) (is_initialized_ d) (initialize_stage_ d) (num_configurations_ d) (config_index_ d) (EndpointConfigs_ d) (num_EndpointConfigs_ d) (ClassDrivers_ d) (drivers d)
    (event_waiters_ d) (dev_buffer d) r (setup_stages_ d) (ctx_slot d) (input_ctx_ d).
Definition set_stages (s : ArrayMap Z Z) (d : Dev) : Dev :=
  mkDev (slot_id_ d) (dev_addr d) (state_ d) (is_initialized_ d) (initialize_stage_ d) (num_configurations_ d) (config_index_ d) (EndpointConfigs_ d) (num_EndpointConfigs_ d) (ClassDrivers_ d) (drivers d)
    (event_waiters_ d) (dev_buffer d) (transfer_rings_ d) s (ctx_slot d) (input_ctx_ d).
Definition set_ctx_slot (c : Ctx) (d : Dev) : Dev :=
  mkDev (slot_id_ d) (dev_addr d) (state_ d) (is_initialized_ d) (initialize_stage_ d) (num_configurations_ d) (config_index_ d) (EndpointConfigs_ d) (num_EndpointConfigs_ d) (ClassDrivers_ d) (drivers d)
    (event_waiters_ d) (dev_buffer d) (transfer_rings_ d) (setup_stages_ d) c (input_ctx_ d).
Definition set_input (i : InputContext) (d : Dev) : Dev :=
  mkDev (slot_id_ d) (dev_addr d) (state_ d) (is_initialized_ d) (initialize_stage_ d) (num_configurations_ d) (config_index_ d) (EndpointConfigs_ d) (num_EndpointConfigs_ d) (ClassDrivers_ d) (drivers d)
    (event_waiters_ d) (dev_buffer d) (transfer_rings_ d) (setup_stages_ d) (ctx_slot d) i.

(** What device and driver share with the rest: the blocks, the hardware, the supply
    of allocations, the calls of the observer and whether it is installed. *)
Record Io (D : Type) := mkIo {
  io_mem : Mem;
  io_hw : D;
  io_supply : list Z;
  io_keys : list Key;
  io_observer : bool;
}.
Arguments mkIo {D}. Arguments io_mem {D}. Arguments io_hw {D}. Arguments io_supply {D}. Arguments io_keys {D}. Arguments io_observer {D}.

Definition alloc_addr {D} (io : Io D) : Z * Io D :=
  match io_supply io with
  | [] => (0, io)
  | a :: r => (a, mkIo (io_mem io) (io_hw io) r (io_keys io) (io_observer io))
  end.
Definition set_io_mem {D} (m : Mem) (io : Io D) : Io D := mkIo m (io_hw io) (io_supply io) (io_keys io) (io_observer io).
Definition set_io_hw {D} (h : D) (io : Io D) : Io D := mkIo (io_mem io) h (io_supply io) (io_keys io) (io_observer io).
Definition add_keys {D} (k : list Key) (io : Io D) : Io D := mkIo (io_mem io) (io_hw io) (io_supply io) (io_keys io ++ k) (io_observer io).

Section Device.
Context {D : Type} `{Mmio D}.

(** [DoorbellRegister::ring] *)
Definition ring_doorbell (i target : Z) (io : Io D) : Io D :=
  set_io_hw (reg_write (DOORBELL i) (set_bits 16 16 0 (set_bits 0 8 target 0)) (io_hw io)) io.

(** [alloc_transfer_ring]: [malloc] of the ring, then its buffer; without the second
    the [buffer_] of the ring is what the memory held. *)
Definition alloc_transfer_ring (dci buf_size : Z) (d : Dev) (io : Io D) : option (RingPtr * Dev * Io D) :=
  let i := dci - 1 in
  let '(p, io) := alloc_addr io in
  let '(ptr, io) :=
    if p =? 0 then (RingNull, io)
    else let '(a, io) := alloc_addr io in
         if a =? 0 then (RingWild, io)
         else let '(r, m) := ring_initialize buf_size a new_ring (io_mem io) in (RingAt r, set_io_mem m io) in
  _ ← atz (transfer_rings_ d) i;
  Some (ptr, set_rings (setz (transfer_rings_ d) i ptr) d, io).

(** A push on the ring of an endpoint. *)
Definition dev_push (dci : Z) (r : Ring) (t : Trb) (d : Dev) (io : Io D) : option (Z * Ring * Dev * Io D) :=
  '(p, r, m) ← push t r (io_mem io);
  Some (p, r, set_rings (setz (transfer_rings_ d) (dci - 1) (RingAt r)) d, set_io_mem m io).

Definition trb_cast (ty p : Z) (m : Mem) : option Z := t ← m !! p; Some (if trb_type t =? ty then p else 0).

(** [usb::Device::control_in] and [control_out] *)
Definition await_completion (s : SetupStageData) (driver : option Z) (d : Dev) : Dev :=
  match driver with Some k => set_waiters (am_put s k (event_waiters_ d)) d | None => d end.

(** The two shapes of a control transfer.  [buf] 0 is [nullptr]. *)
Definition control_transfer (dir_in : bool) (ep : Z) (s : SetupStageData) (buf len : Z) (d : Dev) (io : Io D) : option (Dev * Io D) :=
  if (number ep <? 0) || (15 <? number ep) then Some (d, io)
  else
    let dci := ep in
    ptr ← atz (transfer_rings_ d) (dci - 1);
    match ptr with
    | RingWild => None
    | RingNull => Some (d, io)
    | RingAt r =>
        let status_trb := if dir_in then status_stage_trb else set_direction 1 status_stage_trb in
        if buf =? 0 then
          '(setup_p, r, d, io) ← dev_push dci r (make_setup_stage_trb s NO_DATA_STAGE) d io;
          if setup_p =? 0 then Some (d, io)
          else
            setup_pos ← trb_cast SETUP_STAGE setup_p (io_mem io);
            '(status_p, r, d, io) ← dev_push dci r (set_interrupt_on_completion (set_direction 1 status_trb)) d io;
            if status_p =? 0 then Some (d, io)
            else Some (set_stages (am_put status_p setup_pos (setup_stages_ d)) d, ring_doorbell (slot_id_ d) dci io)
        else
          '(setup_p, r, d, io) ← dev_push dci r (make_setup_stage_trb s (if dir_in then IN_DATA_STAGE else OUT_DATA_STAGE)) d io;
          if setup_p =? 0 then Some (d, io)
          else
            setup_pos ← trb_cast SETUP_STAGE setup_p (io_mem io);
            '(data_p, r, d, io) ← dev_push dci r (set_interrupt_on_completion (make_data_stage_trb buf len dir_in)) d io;
            if data_p =? 0 then Some (d, io)
            else
              '(status_p, r, d, io) ← dev_push dci r status_trb d io;
              if status_p =? 0 then Some (d, io)
              else Some (set_stages (am_put data_p setup_pos (setup_stages_ d)) d, ring_doorbell (slot_id_ d) dci io)
    end.

Definition control_in (ep : Z) (s : SetupStageData) (buf len : Z) (driver : option Z) (d : Dev) (io : Io D) : option (Dev * Io D) :=
  control_transfer true ep s buf len (await_completion s driver d) io.

Definition control_out (ep : Z) (s : SetupStageData) (buf len : Z) (driver : option Z) (d : Dev) (io : Io D) : option (Dev * Io D) :=
  control_transfer false ep s buf len (await_completion s driver d) io.

Definition interrupt_in (ep buf len : Z) (d : Dev) (io : Io D) : option (Dev * Io D) :=
  let dci := ep in
  ptr ← atz (transfer_rings_ d) (dci - 1);
  match ptr with
  | RingWild => None
  | RingNull => Some (d, io)
  | RingAt r =>
      let t := set_interrupt_on_completion (set_interrupt_on_short_packet (set_transfer_length len (set_pointer64 buf normal_trb))) in
      '(p, r, d, io) ← dev_push dci r t d io;
      if p =? 0 then Some (d, io) else Some (d, ring_doorbell (slot_id_ d) dci io)
  end.

(** [get_descriptor] and [set_configuration] *)
Definition get_descriptor (ep desc_type desc_index buf len : Z) (d : Dev) (io : Io D) : option (Dev * Io D) :=
  control_in ep (mkSetup (request_type_bits request_kind.DEVICE request_kind.STANDARD request_kind.IN) GET_DESCRIPTOR (Z.lor (Z.shiftl desc_type 8) desc_index) 0 (u16 len)) buf len None d io.

Definition set_configuration (ep config_value : Z) (d : Dev) (io : Io D) : option (Dev * Io D) :=
  control_out ep (mkSetup (request_type_bits request_kind.DEVICE request_kind.STANDARD request_kind.OUT) SET_CONFIGURATION config_value 0 0) 0 0 None d io.

(** ** Calls of the driver *)

Definition put_driver (i : Z) (k : Driver) (d : Dev) : Dev := set_drivers (ClassDrivers_ d) (setz (drivers d) i k) d.

Definition next_report (i : Z) (d : Dev) (io : Io D) : option (Dev * Io D) :=
  k ← atz (drivers d) i;
  interrupt_in (ep_interrupt_in_ k) (hid_buffer_addr k) (in_packet_size_ k) d io.

(** [HidDriver::on_endpoints_configured] *)
Definition hid_endpoints_configured (i : Z) (d : Dev) (io : Io D) : option (Dev * Io D) :=
  k ← atz (drivers d) i;
  control_out DEFAULT_CONTROL_PIPE_ID
    (mkSetup (request_type_bits request_kind.INTERFACE request_kind.CLASS request_kind.OUT) SET_PROTOCOL 0 (u16 (interface_index_ k)) 0) 0 0 (Some i) (put_driver i (set_hid_stage 1 k) d) io.

(** [HidDriver::on_control_completed] *)
Definition hid_control_completed (i : Z) (d : Dev) (io : Io D) : option (Dev * Io D) :=
  k ← atz (drivers d) i;
  if initialized_stage_ k =? 1 then next_report i (put_driver i (set_hid_stage 2 k) d) io else Some (d, io).

(** [std::copy_n(buffer_.begin(), len, prev_buffer_.begin())] *)
Definition copy_report (len : Z) (k : Driver) : option Driver :=
  if len <=? HID_BUFFER_SIZE
  then let n := Z.to_nat len in Some (set_prev_buffer (take n (hid_buffer k) ++ drop n (prev_buffer_ k)) k)
  else None.

(** [HidDriver::on_interrupt_completed] *)
Definition hid_interrupt_completed (i ep len : Z) (d : Dev) (io : Io D) : option (Dev * Io D) :=
  if is_in ep then
    k ← atz (drivers d) i;
    keys ← on_data_received k;
    k ← copy_report len k;
    next_report i (put_driver i k d) (add_keys keys io)
  else Some (d, io).

(** ** Descriptors

    A pointer into the buffer the descriptors were read to. *)

Definition byte_at (d : Dev) (p : Z) : option Z := atz (dev_buffer d) (p - dev_buffer_addr d).

Definition DEVICE_DESCRIPTOR : Z := 1.
Definition CONFIGURATION_DESCRIPTOR : Z := 2.
Definition INTERFACE_DESCRIPTOR : Z := 4.
Definition ENDPOINT_DESCRIPTOR : Z := 5.

(** [descriptor_dynamic_cast]: whether the descriptor has the type. *)
Definition descriptor_is (ty : Z) (d : Dev) (p : Z) : option bool := b ← byte_at d (p + 1); Some (b =? ty).

(** [ConfigurationDescriptorIterator::next]: the position, and whether it is still
    inside the buffer. *)
Definition desc_next (buf len : Z) (d : Dev) (p : Z) : option (Z * bool) :=
  n ← byte_at d p;
  let p := p + n in Some (p, p <? buf + len).

(** [next<T>]: the position of the next descriptor of the type, or past the end. *)
Fixpoint desc_next_of (fuel : nat) (ty buf len : Z) (d : Dev) (p : Z) : option (Z * bool) :=
  match fuel with
  | O => None
  | S fuel =>
      '(p, inside) ← desc_next buf len d p;
      if inside : bool then
        found ← descriptor_is ty d p;
        if found : bool then Some (p, true) else desc_next_of fuel ty buf len d p
      else Some (p, false)
  end.

(** [make_endpoint_config] *)
Definition make_endpoint_config (d : Dev) (p : Z) : option EndpointConfig :=
  a ← byte_at d (p + 2); t ← byte_at d (p + 3); lo ← byte_at d (p + 4); hi ← byte_at d (p + 5); iv ← byte_at d (p + 6);
  Some (mkEndpointConfig (endpoint_address (bits 0 4 a) (bits 7 1 a =? 1)) (endpoint_type (bits 0 2 t)) (lo + 256 * hi) iv).

Definition KEYBOARD_INTERFACE_PROTOCOL : Z := 1.

(** [new_class_driver]: a keyboard for a boot interface of that protocol. *)
Definition new_class_driver (p : Z) (d : Dev) (io : Io D) : option (option Z * Dev * Io D) :=
  cls ← byte_at d (p + 5); sub ← byte_at d (p + 6); proto ← byte_at d (p + 7); ifn ← byte_at d (p + 2);
  if negb ((cls =? 3) && (sub =? 1)) then Some (None, d, io)
  else if proto =? KEYBOARD_INTERFACE_PROTOCOL then
    let '(a, io) := alloc_addr io in
    if a =? 0 then None
    else
      let k := new_keyboard a ifn in
      let k := if io_observer io then subscribe k else k in
      Some (Some (lenz (drivers d)), set_drivers (ClassDrivers_ d) (drivers d ++ [k]) d, io)
  else Some (None, d, io).

(** The endpoints of the chosen interface. *)
Fixpoint read_endpoints (fuel : nat) (num_endpoints driver buf len : Z) (p : Z) (d : Dev) : option (Z * Dev) :=
  match fuel with
  | O => None
  | S fuel =>
      if num_EndpointConfigs_ d <? num_endpoints then
        '(p, inside) ← desc_next buf len d p;
        if inside : bool then
          is_ep ← descriptor_is ENDPOINT_DESCRIPTOR d p;
          if is_ep : bool then
            conf ← make_endpoint_config d p;
            _ ← atz (EndpointConfigs_ d) (num_EndpointConfigs_ d);
            _ ← atz (ClassDrivers_ d) (number (ep_id conf));
            let d := set_configs (setz (EndpointConfigs_ d) (num_EndpointConfigs_ d) conf) (num_EndpointConfigs_ d + 1) d in
            read_endpoints fuel num_endpoints driver buf len p (set_drivers (setz (ClassDrivers_ d) (number (ep_id conf)) (Some driver)) (drivers d) d)
          else read_endpoints fuel num_endpoints driver buf len p d
        else None
      else Some (p, d)
  end.

(** The loop over the interfaces, up to the first with a driver. *)
Fixpoint find_interface (fuel : nat) (buf len p : Z) (d : Dev) (io : Io D) : option (option Z * Dev * Io D) :=
  match fuel with
  | O => None
  | S fuel' =>
      '(p, inside) ← desc_next_of fuel INTERFACE_DESCRIPTOR buf len d p;
      if inside : bool then
        '(driver, d, io) ← new_class_driver p d io;
        match driver with
        | None => find_interface fuel' buf len p d io
        | Some k =>
            n ← byte_at d (p + 4);
            '(_, d) ← read_endpoints fuel n k buf len p (set_configs (EndpointConfigs_ d) 0 d);
            Some (Some k, d, io)
        end
      else Some (None, d, io)
  end.

(** ** Initialisation of a device *)

Definition start_initialize (d : Dev) (io : Io D) : option (Dev * Io D) :=
  get_descriptor DEFAULT_CONTROL_PIPE_ID DEVICE_DESCRIPTOR 0 (dev_buffer_addr d) 256 (set_init false 1 d) io.

Definition initialize_stage1 (buf : Z) (d : Dev) (io : Io D) : option (Dev * Io D) :=
  n ← byte_at d (buf + 17);
  let d := set_init (is_initialized_ d) 2 (set_configurations n 0 d) in
  get_descriptor DEFAULT_CONTROL_PIPE_ID CONFIGURATION_DESCRIPTOR (config_index_ d) (dev_buffer_addr d) 256 d io.

Definition initialize_stage2 (fuel : nat) (buf len : Z) (d : Dev) (io : Io D) : option (Dev * Io D) :=
  '(driver, d, io) ← find_interface fuel buf len buf d io;
  match driver with
  | None => Some (d, io)
  | Some _ =>
      v ← byte_at d (buf + 5);
      set_configuration DEFAULT_CONTROL_PIPE_ID v (set_init (is_initialized_ d) 3 d) io
  end.

Definition initialize_stage3 (d : Dev) : option Dev :=
  d ← for_n (Z.to_nat (num_EndpointConfigs_ d)) 0 (fun i d =>
        c ← atz (EndpointConfigs_ d) i;
        o ← atz (ClassDrivers_ d) (number (ep_id c));
        j ← o;
        k ← atz (drivers d) j;
        Some (put_driver j (set_endpoint c k) d)) d;
  Some (set_init true 4 d).

(** [usb::Device::on_control_completed]: the cases of the [switch] run into each
    other. *)
Definition stage3_case (s : SetupStageData) (d : Dev) (io : Io D) : option (Dev * Io D) :=
  if request s =? SET_CONFIGURATION then d ← initialize_stage3 d; Some (d, io) else Some (d, io).

Definition stage2_case (fuel : nat) (s : SetupStageData) (buf len : Z) (d : Dev) (io : Io D) : option (Dev * Io D) :=
  if request s =? GET_DESCRIPTOR then
    c ← descriptor_is CONFIGURATION_DESCRIPTOR d buf;
    if c : bool then initialize_stage2 fuel buf len d io else stage3_case s d io
  else stage3_case s d io.

Definition stage1_case (fuel : nat) (s : SetupStageData) (buf len : Z) (d : Dev) (io : Io D) : option (Dev * Io D) :=
  if request s =? GET_DESCRIPTOR then
    c ← descriptor_is DEVICE_DESCRIPTOR d buf;
    if c : bool then initialize_stage1 buf d io else stage2_case fuel s buf len d io
  else stage2_case fuel s buf len d io.

Definition on_control_completed (fuel : nat) (s : SetupStageData) (buf len : Z) (d : Dev) (io : Io D) : option (Dev * Io D) :=
  if is_initialized_ d then
    match am_get setup_eqb s (event_waiters_ d) with
    | Some i => hid_control_completed i d io
    | None => Some (d, io)
    end
  else if initialize_stage_ d =? 1 then stage1_case fuel s buf len d io
  else if initialize_stage_ d =? 2 then stage2_case fuel s buf len d io
  else if initialize_stage_ d =? 3 then stage3_case s d io
  else Some (d, io).

Definition on_interrupt_completed (ep len : Z) (d : Dev) (io : Io D) : option (Dev * Io D) :=
  o ← atz (ClassDrivers_ d) (number ep);
  match o with
  | Some i => hid_interrupt_completed i ep len d io
  | None => Some (d, io)
  end.

(** [usb::Device::on_endpoints_configured]: every entry of [ClassDrivers_]. *)
Fixpoint endpoints_configured (l : list (option Z)) (d : Dev) (io : Io D) : option (Dev * Io D) :=
  match l with
  | [] => Some (d, io)
  | None :: l => endpoints_configured l d io
  | Some i :: l => '(d, io) ← hid_endpoints_configured i d io; endpoints_configured l d io
  end.
Definition on_endpoints_configured (d : Dev) (io : Io D) : option (Dev * Io D) := endpoints_configured (ClassDrivers_ d) d io.

(** ** Transfer events *)

(** The consumer position of the ring of the endpoint. *)
Definition acknowledge (ep p : Z) (d : Dev) : option Dev :=
  if (1 <=? ep) && (ep <=? 31) then
    ptr ← atz (transfer_rings_ d) (ep - 1);
    match ptr with
    | RingWild => None
    | RingNull => Some d
    | RingAt r => Some (set_rings (setz (transfer_rings_ d) (ep - 1) (RingAt (on_consumed p r))) d)
    end
  else Some d.

Definition on_transfer_event_received (fuel : nat) (e : Trb) (d : Dev) (io : Io D) : option (Dev * Io D) :=
  let residual := residual_length e in
  let ep := endpoint_id e in
  let issued := pointer64 e in
  d ← acknowledge ep issued d;
  if negb ((completion_code e =? COMPLETION_CODE_SUCCESS) || (completion_code e =? COMPLETION_CODE_SHORT_PACKET)) then Some (d, io)
  else
    t ← io_mem io !! issued;
    if trb_type t =? NORMAL then on_interrupt_completed ep (i32 (u32 (trb_transfer_length t - residual))) d io
    else
      match am_get Z.eqb issued (setup_stages_ d) with
      | None => Some (d, io)
      | Some setup_p =>
          let d := set_stages (am_remove Z.eqb issued (setup_stages_ d)) d in
          st ← io_mem io !! setup_p;
          let w := trb_setup st in
          let s := mkSetup (request_type w) (request w) (value w) (index w) 0 in
          if trb_type t =? DATA_STAGE then on_control_completed fuel s (pointer64 t) (i32 (u32 (trb_transfer_length t - residual))) d io
          else if trb_type t =? STATUS_STAGE then on_control_completed fuel s 0 0 d io
          else Some (d, io)
      end.
End Device.
