(* ===== verification/Xhci.v ===== *)
(** * The xHCI host controller driver

    [hardware/usb/xhci/xhci.cpp], [port.cpp], [device_manager.cpp], [context.cpp] and
    [registers.cpp]: bringing up the controller, the ports and the devices behind
    them, and the handlers of its events.  A port goes from [DISCONNECTED] to
    [CONFIGURED] through commands whose completions arrive as events; only one port
    at a time may be between its reset and the assignment of an address, the others
    wait.  The registers are an [Mmio] instance, so every statement is for any
    hardware; between events it may also change the blocks, the contexts and the
    buffers it owns. *)

From S2P Require Import Prelude BitUtils Trb TrbRing UsbDevice.

Open Scope Z_scope.

(** ** Contexts *)

Definition ctx_bits (i : nat) (lo n : Z) (c : Ctx) : Z := bits lo n (nth i c 0).
Definition ctx_set (i : nat) (lo n v : Z) (c : Ctx) : Ctx := alter (set_bits lo n v) i c.

Definition ctx_speed (c : Ctx) : Z := ctx_bits 0 20 4 c.
Definition root_hub_port_num (c : Ctx) : Z := ctx_bits 1 16 8 c.

Definition initialize_slot_context (port_id port_speed : Z) (c : Ctx) : Ctx :=
  ctx_set 0 20 4 port_speed (ctx_set 0 27 5 1 (ctx_set 1 16 8 port_id (ctx_set 0 0 20 0 c))).

Definition transfer_ring_buffer (c : Ctx) : Z := Z.shiftl (ctx_bits 2 4 28 c + Z.shiftl (nth 3 c 0) 28) 4.
Definition set_transfer_ring_buffer (p : Z) (c : Ctx) : Ctx := ctx_set 3 0 32 (Z.shiftr p 32) (ctx_set 2 4 28 (Z.shiftr p 4) c).

Definition initialize_endpoint0_context (ring max_packet : Z) (c : Ctx) : Ctx :=
  let c := ctx_set 1 3 3 4 c in
  let c := ctx_set 1 16 16 max_packet c in
  let c := ctx_set 1 8 8 0 c in
  let c := set_transfer_ring_buffer ring c in
  let c := ctx_set 2 0 1 1 c in
  let c := ctx_set 0 16 8 0 c in
  let c := ctx_set 0 10 5 0 c in
  let c := ctx_set 0 8 2 0 c in
  ctx_set 1 1 2 3 c.

(** [memset] of the control context. *)
Definition clear_control (i : InputContext) : InputContext := mkInput 0 (in_slot i) (in_endpoints i).
Definition enable_slot_context (f : Ctx -> Ctx) (i : InputContext) : InputContext :=
  mkInput (Z.lor (add_context_flags i) 1) (f (in_slot i)) (in_endpoints i).
(** [enable_endpoint_context] and what is written through the pointer it returns. *)
Definition enable_endpoint_context (dci : Z) (f : Ctx -> Ctx) (i : InputContext) : option InputContext :=
  c ← atz (in_endpoints i) (dci - 1);
  Some (mkInput (u32 (Z.lor (add_context_flags i) (Z.shiftl 1 dci))) (in_slot i) (setz (in_endpoints i) (dci - 1) (f c))).

(** ** State *)

Inductive PortState :=
  | DISCONNECTED | WAITING_ADDRESSED | RESETTING_PORT | ENABLEING_SLOT | ADDRESSING_DEVICE
  | INITIALIZING_DEVICE | CONFIGURING_ENDPOINTS | CONFIGURED.

#[export] Instance PortState_eq_dec : EqDecision PortState.
Proof. solve_decision. Defined.

(** [port_connection_states] is indexed by a byte, [event_ring_] is [None] until it is
    set up. *)
Record Hc (D : Type) := mkHc {
  hc_io : Io D;
  command_ring_ : Ring;
  event_ring_ : option EventRing;
  devices_ : list (option Dev);
  contexts_ : list Z;
  contexts_addr : Z;
  max_ports_ : Z;
  port_states : Z -> PortState;
  addressing_port : Z;
}.
Arguments mkHc {D}. Arguments hc_io {D}. Arguments command_ring_ {D}. Arguments event_ring_ {D}. Arguments devices_ {D}. Arguments contexts_ {D}.
Arguments contexts_addr {D}. Arguments max_ports_ {D}. Arguments port_states {D}. Arguments addressing_port {D}.

Section Controller.
Context {D : Type} `{Mmio D}.

Definition set_hc_io (io : Io D) (x : Hc D) : Hc D := mkHc io (command_ring_ x) (event_ring_ x) (devices_ x) (contexts_ x) (contexts_addr x) (max_ports_ x) (port_states x) (addressing_port x).
Definition set_command_ring (r : Ring) (x : Hc D) : Hc D := mkHc (hc_io x) r (event_ring_ x) (devices_ x) (contexts_ x) (contexts_addr x) (max_ports_ x) (port_states x) (addressing_port x).
Definition set_event_ring (e : option EventRing) (x : Hc D) : Hc D := mkHc (hc_io x) (command_ring_ x) e (devices_ x) (contexts_ x) (contexts_addr x) (max_ports_ x) (port_states x) (addressing_port x).
Definition set_hc_devices (l : list (option Dev)) (x : Hc D) : Hc D := mkHc (hc_io x) (command_ring_ x) (event_ring_ x) l (contexts_ x) (contexts_addr x) (max_ports_ x) (port_states x) (addressing_port x).
Definition set_contexts (l : list Z) (a : Z) (x : Hc D) : Hc D := mkHc (hc_io x) (command_ring_ x) (event_ring_ x) (devices_ x) l a (max_ports_ x) (port_states x) (addressing_port x).
Definition set_port_state (p : Z) (s : PortState) (x : Hc D) : Hc D :=
  mkHc (hc_io x) (command_ring_ x) (event_ring_ x) (devices_ x) (contexts_ x) (contexts_addr x) (max_ports_ x) (fun q => if q =? p then s else port_states x q) (addressing_port x).
Definition set_addressing (p : Z) (x : Hc D) : Hc D := mkHc (hc_io x) (command_ring_ x) (event_ring_ x) (devices_ x) (contexts_ x) (contexts_addr x) (max_ports_ x) (port_states x) p.

Definition hc_read (r : Reg) (x : Hc D) : Z * Hc D :=
  let '(v, h) := reg_read r (io_hw (hc_io x)) in (v, set_hc_io (set_io_hw h (hc_io x)) x).
Definition hc_write (r : Reg) (v : Z) (x : Hc D) : Hc D := set_hc_io (set_io_hw (reg_write r v (io_hw (hc_io x))) (hc_io x)) x.

(** [wait_with_timeout] and the loop of [Port::reset]: poll a register until a test
    of it holds. *)
Definition SPIN_TIMEOUT_ITERATIONS : Z := 1000000.

Fixpoint spin (n : nat) (r : Reg) (test : Z -> bool) (x : Hc D) : bool * Hc D :=
  match n with
  | O => (false, x)
  | S n => let '(v, x) := hc_read r x in if test v then (true, x) else spin n r test x
  end.
Definition wait_with_timeout (r : Reg) (test : Z -> bool) (x : Hc D) : bool * Hc D := spin (Z.to_nat SPIN_TIMEOUT_ITERATIONS) r test x.

(** ** Ports *)

Definition current_connect_status (v : Z) : bool := negb (bits 0 1 v =? 0).
Definition port_enabled_disabled (v : Z) : bool := negb (bits 1 1 v =? 0).
Definition port_reset (v : Z) : bool := negb (bits 4 1 v =? 0).
Definition port_speed (v : Z) : Z := bits 10 4 v.
Definition port_reset_change (v : Z) : bool := negb (bits 21 1 v =? 0).

Definition PORTSC_RESET_PRESERVE_MASK : Z := 0x0e00c3e0.
Definition PORTSC_CLEAR_CHANGE_BIT_PRESERVE_MASK : Z := 0x0e01c3e0.
Definition PORTSC_PORT_RESET_BIT : Z := Z.shiftl 1 4.
Definition PORTSC_CONNECT_STATUS_CHANGE_BIT : Z := Z.shiftl 1 17.
Definition PORTSC_PORT_RESET_CHANGE_BIT : Z := Z.shiftl 1 21.
Definition PORTSC_RESET_SET_BITS : Z := Z.lor PORTSC_PORT_RESET_BIT PORTSC_CONNECT_STATUS_CHANGE_BIT.

(** The words written for a reset and to clear a change bit. *)
Definition reset_word (v : Z) : Z := Z.lor (Z.land v PORTSC_RESET_PRESERVE_MASK) PORTSC_RESET_SET_BITS.
Definition clear_change_word (change_bit v : Z) : Z := Z.lor (Z.land v PORTSC_CLEAR_CHANGE_BIT_PRESERVE_MASK) change_bit.

(** [Port::reset] *)
Definition port_do_reset (p : Z) (x : Hc D) : bool * Hc D :=
  let '(v, x) := hc_read (PORTSC p) x in
  let x := hc_write (PORTSC p) (reset_word v) x in
  wait_with_timeout (PORTSC p) (fun v => negb (port_reset v)) x.

Definition clear_port_reset_changed (p : Z) (x : Hc D) : Hc D :=
  let '(v, x) := hc_read (PORTSC p) x in
  hc_write (PORTSC p) (clear_change_word PORTSC_PORT_RESET_CHANGE_BIT v) x.

Definition reset_port (p : Z) (x : Hc D) : Hc D :=
  let '(v, x) := hc_read (PORTSC p) x in
  if negb (current_connect_status v) then x
  else if negb (addressing_port x =? 0) then set_port_state p WAITING_ADDRESSED x
  else
    match port_states x p with
    | DISCONNECTED | WAITING_ADDRESSED =>
        let x := set_port_state p RESETTING_PORT (set_addressing p x) in
        let '(done, x) := port_do_reset p x in
        if done : bool then x else set_addressing 0 (set_port_state p DISCONNECTED x)
    | _ => x
    end.

Definition configure_port (p : Z) (x : Hc D) : Hc D :=
  match port_states x p with DISCONNECTED => reset_port p x | _ => x end.

Definition is_waiting (x : Hc D) (p : Z) : bool := match port_states x p with WAITING_ADDRESSED => true | _ => false end.

Definition proceed_to_next_waiting_port (x : Hc D) : Hc D :=
  let x := set_addressing 0 x in
  match List.find (is_waiting x) (seqZ 0 256) with
  | Some i => reset_port i x
  | None => x
  end.

Definition abort_port_initialization (p : Z) (x : Hc D) : Hc D :=
  let x := set_port_state p DISCONNECTED x in
  if addressing_port x =? p then proceed_to_next_waiting_port x else x.

(** ** Commands *)

Definition push_command (t : Trb) (x : Hc D) : option (Z * Hc D) :=
  '(p, r, m) ← push t (command_ring_ x) (io_mem (hc_io x));
  Some (p, set_command_ring r (set_hc_io (set_io_mem m (hc_io x)) x)).

Definition ring_command (x : Hc D) : Hc D := set_hc_io (ring_doorbell 0 0 (hc_io x)) x.

(** A command for a port: given up when the ring is full. *)
Definition issue_command (t : Trb) (p : Z) (x : Hc D) : option (Hc D) :=
  '(a, x) ← push_command t x;
  if a =? 0 then Some (abort_port_initialization p x) else Some (ring_command x).

Definition enable_slot (p : Z) (x : Hc D) : option (Hc D) :=
  let '(v1, x) := hc_read (PORTSC p) x in
  let '(v2, x) := hc_read (PORTSC p) x in
  if port_enabled_disabled v1 && port_reset_change v2 then
    let x := set_port_state p ENABLEING_SLOT (clear_port_reset_changed p x) in
    issue_command enable_slot_command_trb p x
  else Some x.

(** ** Devices *)

Definition MAX_SLOTS : Z := 8.

Definition find_by_slot_id (slot : Z) (x : Hc D) : option (option Dev) :=
  if MAX_SLOTS <? slot then Some None else atz (devices_ x) slot.

(** [find_by_port], [find_by_state]: the first device that matches. *)
Definition find_by_port (port : Z) (x : Hc D) : option Dev :=
  List.find (fun d => root_hub_port_num (ctx_slot d) =? port) (omap id (devices_ x)).
Definition slot_state_eqb (a b : SlotState) : bool :=
  match a, b with INVALID, INVALID | BLANK, BLANK | SLOT_ASSIGNING, SLOT_ASSIGNING | SLOT_ASSIGNED, SLOT_ASSIGNED => true | _, _ => false end.
Definition find_by_state (s : SlotState) (x : Hc D) : option Dev := List.find (fun d => slot_state_eqb (state_ d) s) (omap id (devices_ x)).

Definition put_dev (slot : Z) (d : Dev) (x : Hc D) : Hc D := set_hc_devices (setz (devices_ x) slot (Some d)) x.

(** What the memory of a new object held. *)
Context (junk : Z).

Definition allocate_device (slot : Z) (x : Hc D) : option (Hc D) :=
  if MAX_SLOTS <? slot then Some x
  else
    o ← atz (devices_ x) slot;
    match o with
    | Some _ => Some x
    | None =>
        let '(a, io) := alloc_addr (hc_io x) in
        let x := set_hc_io io x in
        if a =? 0 then Some x else Some (put_dev slot (new_device slot a junk) x)
    end.

Definition load_dcbaa (slot : Z) (d : Dev) (x : Hc D) : Hc D := set_contexts (setz (contexts_ x) slot (context d)) (contexts_addr x) x.

Definition remove (slot : Z) (x : Hc D) : Hc D := set_hc_devices (setz (devices_ x) slot None) (set_contexts (setz (contexts_ x) slot 0) (contexts_addr x) x).

(** A call on the device in a slot. *)
Definition with_dev (slot : Z) (d : Dev) (f : Dev -> Io D -> option (Dev * Io D)) (x : Hc D) : option (Dev * Hc D) :=
  '(d, io) ← f d (hc_io x); Some (d, put_dev slot d (set_hc_io io x)).

Definition initialize_device (port slot : Z) (x : Hc D) : option (Hc D) :=
  o ← find_by_slot_id slot x;
  match o with
  | None => Some x
  | Some d => '(_, x) ← with_dev slot d start_initialize (set_port_state port INITIALIZING_DEVICE x); Some x
  end.

Definition complete_configuration (port slot : Z) (x : Hc D) : option (Hc D) :=
  o ← find_by_slot_id slot x;
  match o with
  | None => Some x
  | Some d => '(_, x) ← with_dev slot d on_endpoints_configured x; Some (set_port_state port CONFIGURED x)
  end.

Definition LOW_SPEED : Z := 2.
Definition FULL_SPEED : Z := 1.
Definition HIGH_SPEED : Z := 3.
Definition SUPER_SPEED : Z := 4.
Definition SUPER_SPEED_PLUS : Z := 5.

Definition determine_max_packet_size_for_control_pipe (speed : Z) : Z :=
  if speed =? SUPER_SPEED then 512 else if speed =? HIGH_SPEED then 64 else 8.

(** [->buffer()] on the pointer to a ring. *)
Definition ring_buffer (p : RingPtr) : option Z := match p with RingAt r => Some (buffer_ r) | _ => None end.

Definition EP0_DCI : Z := 1.
Definition TRANSFER_RING_SIZE : Z := 32.

Definition address_device (port slot : Z) (x : Hc D) : option (Hc D) :=
  x ← allocate_device slot x;
  o ← find_by_slot_id slot x;
  match o with
  | None => Some x
  | Some d =>
      let '(v, x) := hc_read (PORTSC port) x in
      let i := enable_slot_context (initialize_slot_context port (port_speed v)) (clear_control (input_ctx_ d)) in
      '(ptr, d, io) ← alloc_transfer_ring EP0_DCI TRANSFER_RING_SIZE d (hc_io x);
      b ← ring_buffer ptr;
      i ← enable_endpoint_context EP0_DCI (initialize_endpoint0_context b (determine_max_packet_size_for_control_pipe (ctx_speed (in_slot i)))) i;
      let d := set_input i d in
      let x := load_dcbaa slot d (put_dev slot d (set_hc_io io x)) in
      let x := set_port_state port ADDRESSING_DEVICE x in
      issue_command (address_device_command_trb (input_context d) slot) port x
  end.

(** [most_significant_bit] is the [bsr] instruction, undefined on 0. *)
Definition most_significant_bit (v : Z) : option Z := if v =? 0 then None else Some (Z.log2 v).

Definition convert_interval (speed : Z) (ty : EndpointType) (iv : Z) : option Z :=
  if (speed =? FULL_SPEED) || (speed =? LOW_SPEED) then
    match ty with ISOCHRONOUS => Some (iv + 2) | _ => b ← most_significant_bit (u32 iv); Some (b + 3) end
  else Some (iv - 1).

Definition endpoint_context_type (c : EndpointConfig) : Z :=
  match ep_type c with
  | CONTROL => 4
  | ISOCHRONOUS => if is_in (ep_id c) then 5 else 1
  | BULK => if is_in (ep_id c) then 6 else 2
  | INTERRUPT => if is_in (ep_id c) then 7 else 3
  end.

(** One endpoint of [configure_endpoints]. *)
Definition endpoint_context_words (c : EndpointConfig) (iv ring : Z) (w : Ctx) : Ctx :=
  let w := ctx_set 1 3 3 (endpoint_context_type c) w in
  let w := ctx_set 1 16 16 (max_packet_size c) w in
  let w := ctx_set 0 16 8 iv w in
  let w := ctx_set 4 0 16 1 w in
  let w := set_transfer_ring_buffer ring w in
  let w := ctx_set 2 0 1 1 w in
  let w := ctx_set 0 10 5 0 w in
  let w := ctx_set 0 8 2 0 w in
  ctx_set 1 1 2 3 w.

Definition configure_endpoint (speed : Z) (c : EndpointConfig) (s : Dev * Io D) : option (Dev * Io D) :=
  let '(d, io) := s in
  iv ← convert_interval speed (ep_type c) (interval c);
  '(ptr, d, io) ← alloc_transfer_ring (ep_id c) TRANSFER_RING_SIZE d io;
  b ← ring_buffer ptr;
  i ← enable_endpoint_context (ep_id c) (endpoint_context_words c iv b) (input_ctx_ d);
  Some (set_input i d, io).

Definition configure_endpoints (slot : Z) (d : Dev) (x : Hc D) : option (Hc D) :=
  let i := clear_control (input_ctx_ d) in
  let i := enable_slot_context (fun _ => ctx_set 0 27 5 31 (ctx_slot d)) i in
  let d := set_input i d in
  let port := root_hub_port_num (ctx_slot d) in
  let '(v, x) := hc_read (PORTSC port) x in
  let speed := port_speed v in
  if (speed =? 0) || (SUPER_SPEED_PLUS <? speed) then Some (put_dev slot d x)
  else
    '(d, io) ← for_n (Z.to_nat (num_EndpointConfigs_ d)) 0 (fun i s => c ← atz (EndpointConfigs_ (s.1)) i; configure_endpoint speed c s) (d, hc_io x);
    let x := set_port_state port CONFIGURING_ENDPOINTS (put_dev slot d (set_hc_io io x)) in
    issue_command (configure_endpoint_command_trb (input_context d) (slot_id_ d)) port x.

(** ** Events *)

Definition on_port_status_change (e : Trb) (x : Hc D) : option (Hc D) :=
  let p := port_id e in
  match port_states x p with
  | DISCONNECTED => Some (reset_port p x)
  | RESETTING_PORT => enable_slot p x
  | _ => Some x
  end.

(** Rounds for the loops over descriptors. *)
Context (fuel : nat).

Definition on_transfer_event (e : Trb) (x : Hc D) : option (Hc D) :=
  let slot := trb_slot_id e in
  o ← find_by_slot_id slot x;
  match o with
  | None => Some x
  | Some d =>
      '(d, x) ← with_dev slot d (on_transfer_event_received fuel e) x;
      let port := root_hub_port_num (ctx_slot d) in
      match port_states x port with
      | INITIALIZING_DEVICE => if is_initialized_ d then configure_endpoints slot d x else Some x
      | _ => Some x
      end
  end.

Definition enable_slot_completed (slot code : Z) (x : Hc D) : option (Hc D) :=
  match port_states x (addressing_port x) with
  | ENABLEING_SLOT =>
      if negb (code =? COMPLETION_CODE_SUCCESS) then Some (abort_port_initialization (addressing_port x) x)
      else address_device (addressing_port x) slot x
  | _ => Some x
  end.

Definition address_device_completed (slot code : Z) (x : Hc D) : option (Hc D) :=
  o ← find_by_slot_id slot x;
  match o with
  | None => Some x
  | Some d =>
      let port := root_hub_port_num (ctx_slot d) in
      if negb (port =? addressing_port x) then Some x
      else
        match port_states x port with
        | ADDRESSING_DEVICE =>
            if negb (code =? COMPLETION_CODE_SUCCESS) then Some (abort_port_initialization port x)
            else initialize_device port slot (proceed_to_next_waiting_port x)
        | _ => Some x
        end
  end.

Definition configure_endpoint_completed (slot code : Z) (x : Hc D) : option (Hc D) :=
  o ← find_by_slot_id slot x;
  match o with
  | None => Some x
  | Some d =>
      let port := root_hub_port_num (ctx_slot d) in
      match port_states x port with
      | CONFIGURING_ENDPOINTS =>
          if negb (code =? COMPLETION_CODE_SUCCESS) then Some (abort_port_initialization port x)
          else complete_configuration port slot x
      | _ => Some x
      end
  end.

Definition on_command_completion (e : Trb) (x : Hc D) : option (Hc D) :=
  issuer ← io_mem (hc_io x) !! pointer60 e;
  let slot := trb_slot_id e in
  let code := completion_code e in
  let x := set_command_ring (on_consumed (pointer60 e) (command_ring_ x)) x in
  if trb_type issuer =? ENABLE_SLOT_COMMAND then enable_slot_completed slot code x
  else if trb_type issuer =? ADDRESS_DEVICE_COMMAND then address_device_completed slot code x
  else if trb_type issuer =? CONFIGURE_ENDPOINT_COMMAND then configure_endpoint_completed slot code x
  else Some x.

Definition handle_event (e : Trb) (x : Hc D) : option (Hc D) :=
  if trb_type e =? TRANSFER_EVENT then on_transfer_event e x
  else if trb_type e =? PORT_STATUS_CHANGE_EVENT then on_port_status_change e x
  else if trb_type e =? COMMAND_COMPLETION_EVENT then on_command_completion e x
  else Some x.

(** [has_front], [front] and [pop] of the event ring read the dequeue pointer register. *)
Definition ring_has_front (x : Hc D) : option (bool * Hc D) :=
  e ← event_ring_ x;
  let '(erdp, x) := hc_read ERDP x in
  b ← has_front e erdp (io_mem (hc_io x));
  Some (b, x).

Definition ring_pop (x : Hc D) : option (Hc D) :=
  e ← event_ring_ x;
  let '(erdp, x) := hc_read ERDP x in
  let p := erdp_pointer erdp + 16 in
  let at_end := p =? elem (segment_base e) (segment_size e) in
  let e := if at_end then mkEventRing (ev_buffer e) (ev_buffer_size e) (negb (ev_cycle e)) (segment_base e) (segment_size e) else e in
  let p := if at_end then segment_base e else p in
  let '(erdp, x) := hc_read ERDP x in
  Some (set_event_ring (Some e) (hc_write ERDP (erdp_set_pointer p erdp) x)).

Definition process_event (x : Hc D) : option (Hc D) :=
  '(b, x) ← ring_has_front x;
  if negb b then Some x
  else
    let '(erdp, x) := hc_read ERDP x in
    e ← io_mem (hc_io x) !! erdp_pointer erdp;
    x ← handle_event e x;
    ring_pop x.

(** [process_events]: until the ring is empty, at most [rounds] events. *)
Fixpoint process_events (rounds : nat) (x : Hc D) : option (Hc D) :=
  match rounds with
  | O => None
  | S rounds =>
      '(b, x) ← ring_has_front x;
      if b : bool then x ← process_event x; process_events rounds x else Some x
  end.

(** ** Bring-up *)

Definition EVENT_RING_SIZE : Z := 32.
Definition COMMAND_RING_SIZE : Z := 32.

(** The pointer fields of the registers. *)
Definition crcr_set_pointer (p v : Z) : Z := set_bits 6 58 (Z.shiftr p 6) v.
Definition dcbaap_set_pointer (p v : Z) : Z := set_bits 6 26 (Z.shiftr p 6) v.
Definition erstba_set_pointer (p v : Z) : Z := set_bits 6 58 (Z.shiftr p 6) v.

(** [ExtendedRegisterList]: the list of capabilities, 4-byte steps from the base. *)
Definition add_or_null (p d : Z) : Z := if d =? 0 then 0 else p + 4 * d.

Fixpoint find_capability (n : nat) (a : Z) (x : Hc D) : option (Z * Hc D) :=
  match n with
  | O => None
  | S n =>
      if a =? 0 then Some (0, x)
      else
        let '(v, x) := hc_read (EXTCAP a) x in
        if bits 0 8 v =? 1 then Some (a, x)
        else let '(v, x) := hc_read (EXTCAP a) x in find_capability n (add_or_null a (bits 8 8 v)) x
  end.

Definition hc_os_owned_semaphore (v : Z) : Z := bits 24 1 v.

Definition request_hc_ownership (mmio_base hccp : Z) (x : Hc D) : option (bool * Hc D) :=
  '(a, x) ← find_capability fuel (add_or_null mmio_base (bits 16 16 hccp)) x;
  if a =? 0 then Some (true, x)
  else
    let '(v, x) := hc_read (EXTCAP a) x in
    if negb (hc_os_owned_semaphore v =? 0) then Some (true, x)
    else
      let x := hc_write (EXTCAP a) (set_bits 24 1 1 v) x in
      Some (wait_with_timeout (EXTCAP a) (fun v => negb (hc_os_owned_semaphore v =? 0)) x).

(** [DeviceManager::initialize] *)
Definition manager_initialize (x : Hc D) : Hc D :=
  let '(devs, io) := alloc_addr (hc_io x) in
  let x := set_hc_io io x in
  if devs =? 0 then x
  else
    let '(ctxs, io) := alloc_addr (hc_io x) in
    let x := set_hc_io io x in
    if ctxs =? 0 then x
    else set_contexts (replicate (Z.to_nat (MAX_SLOTS + 1)) 0) ctxs (set_hc_devices (replicate (Z.to_nat (MAX_SLOTS + 1)) None) x).

(** The scratchpad buffers: the count goes through a byte. *)
Definition scratchpad_count (hcs_params2 : Z) : Z := u8 (Z.lor (bits 27 5 hcs_params2) (Z.shiftl (bits 21 5 hcs_params2) 5)).

Fixpoint alloc_scratchpads (n : nat) (x : Hc D) : bool * Hc D :=
  match n with
  | O => (true, x)
  | S n => let '(a, io) := alloc_addr (hc_io x) in
           let x := set_hc_io io x in if a =? 0 then (false, x) else alloc_scratchpads n x
  end.

(** Element 0 of the context array is the array of scratchpad buffers. *)
Definition setup_scratchpads (hcs_params2 : Z) (x : Hc D) : option (bool * Hc D) :=
  let n := scratchpad_count hcs_params2 in
  if 0 <? n then
    let '(arr, io) := alloc_addr (hc_io x) in
    let x := set_hc_io io x in
    if arr =? 0 then Some (false, x)
    else
      let '(ok, x) := alloc_scratchpads (Z.to_nat n) x in
      if negb ok then Some (false, x)
      else _ ← atz (contexts_ x) 0; Some (true, set_contexts (setz (contexts_ x) 0 arr) (contexts_addr x) x)
  else Some (true, x).

(** [register_command_ring] *)
Definition register_command_ring (x : Hc D) : Hc D :=
  let '(v, x) := hc_read CRCR x in
  let v := set_bits 2 1 0 (set_bits 1 1 0 (set_bits 0 1 1 v)) in
  hc_write CRCR (crcr_set_pointer (buffer_ (command_ring_ x)) v) x.

(** [EventRing::initialize] *)
Definition event_ring_initialize (x : Hc D) : Hc D :=
  let '(b, io) := alloc_addr (hc_io x) in
  let x := set_hc_io io x in
  if b =? 0 then set_event_ring None x
  else
    let x := set_hc_io (set_io_mem (zero_blocks (Z.to_nat EVENT_RING_SIZE) b (io_mem (hc_io x))) (hc_io x)) x in
    let '(t, io) := alloc_addr (hc_io x) in
    let x := set_hc_io io x in
    if t =? 0 then set_event_ring None x
    else
      let x := set_event_ring (Some (mkEventRing b EVENT_RING_SIZE true b (u16 EVENT_RING_SIZE))) x in
      let '(v, x) := hc_read ERSTSZ x in
      let x := hc_write ERSTSZ (set_bits 0 16 1 v) x in
      let '(v, x) := hc_read ERDP x in
      let x := hc_write ERDP (erdp_set_pointer b v) x in
      let '(v, x) := hc_read ERSTBA x in
      hc_write ERSTBA (erstba_set_pointer t v) x.

(** Stop and reset: false when the hardware does not answer in time. *)
Definition stop_controller (x : Hc D) : bool * Hc D :=
  let '(cmd, x) := hc_read USBCMD x in
  let cmd := set_bits 10 1 0 (set_bits 3 1 0 (set_bits 2 1 0 cmd)) in
  let '(sts, x) := hc_read USBSTS x in
  let cmd := if bits 0 1 sts =? 0 then set_bits 0 1 0 cmd else cmd in
  wait_with_timeout USBSTS (fun v => negb (bits 0 1 v =? 0)) (hc_write USBCMD cmd x).

Definition reset_controller (x : Hc D) : bool * Hc D :=
  let '(cmd, x) := hc_read USBCMD x in
  let '(ok, x) := wait_with_timeout USBCMD (fun v => bits 1 1 v =? 0) (hc_write USBCMD (set_bits 1 1 1 cmd) x) in
  if negb ok then (false, x) else wait_with_timeout USBSTS (fun v => bits 11 1 v =? 0) x.

(** The rest of [Controller::initialize], on a controller that is reset. *)
Definition setup_controller (x : Hc D) : option (bool * Hc D) :=
  let '(cfg, x) := hc_read CONFIG x in
  let x := hc_write CONFIG (set_bits 0 8 MAX_SLOTS cfg) x in
  let '(p2, x) := hc_read HCSPARAMS2 x in
  '(ok, x) ← setup_scratchpads p2 x;
  if negb ok then Some (false, x)
  else
    let x := hc_write DCBAAP (dcbaap_set_pointer (contexts_addr x) 0) x in
    let '(b, io) := alloc_addr (hc_io x) in
    let '(r, m) := ring_initialize COMMAND_RING_SIZE b (command_ring_ x) (io_mem io) in
    let x := register_command_ring (set_command_ring r (set_hc_io (set_io_mem m io) x)) in
    let x := event_ring_initialize x in
    let '(iman, x) := hc_read IMAN x in
    let x := hc_write IMAN (set_bits 1 1 1 (set_bits 0 1 1 iman)) x in
    let '(cmd, x) := hc_read USBCMD x in
    Some (true, hc_write USBCMD (set_bits 2 1 1 cmd) x).

Definition controller_initialize (mmio_base : Z) (x : Hc D) : option (bool * Hc D) :=
  let x := manager_initialize x in
  let '(hccp, x) := hc_read HCCPARAMS1 x in
  '(ok, x) ← request_hc_ownership mmio_base hccp x;
  if negb ok then Some (false, x)
  else
    let '(ok, x) := stop_controller x in
    if negb ok then Some (false, x)
    else
      let '(ok, x) := reset_controller x in
      if negb ok then Some (false, x) else setup_controller x.

(** [Controller::run] *)
Definition controller_run (x : Hc D) : bool * Hc D :=
  let '(cmd, x) := hc_read USBCMD x in
  wait_with_timeout USBSTS (fun v => bits 0 1 v =? 0) (hc_write USBCMD (set_bits 0 1 1 cmd) x).

(** The constructor, and the ports at the end of [initialize]. *)
Definition new_controller (h : D) (supply : list Z) : Hc D :=
  let '(_, h) := reg_read CAPLENGTH h in
  let '(v, h) := reg_read HCSPARAMS1 h in
  mkHc (mkIo ∅ h supply [] false) new_ring None [] [] 0 (bits 24 8 v) (fun _ => DISCONNECTED) 0.

Definition configure_connected (p : Z) (x : Hc D) : Hc D :=
  let '(v, x) := hc_read (PORTSC p) x in
  if negb (current_connect_status v) then x else configure_port p x.

Definition configure_ports (x : Hc D) : option (Hc D) :=
  for_n (Z.to_nat (max_ports_ x - 1)) 1 (fun i x => Some (configure_connected i x)) x.

(** [xhci::initialize] from the base address on: [None] inside is a controller given
    up. *)
Definition start_controller (mmio_base : Z) (h : D) (supply : list Z) : option (option (Hc D)) :=
  '(ok, x) ← controller_initialize mmio_base (new_controller h supply);
  if negb ok then Some None
  else
    let '(ok, x) := controller_run x in
    if negb ok then Some None else x ← configure_ports x; Some (Some x).
End Controller.
