(* ===== verification/XhciSpec.v ===== *)
(** * What the xHCI driver promises

    Ports are taken through their states one at a time
    ([one_port_addressed]) and none is forgotten as long as the hardware keeps
    answering ([waiting_port_gets_turn]); the writes to the port registers touch what
    they are meant to ([portsc_writes_preserve]); the addresses the controller is
    given are the ones of the structures ([context_array_registered]). *)

From S2P Require Import Prelude BitUtils Trb TrbRing UsbDevice Xhci.

Open Scope Z_scope.

(** ** Ports *)

(** Between its reset and its address. *)
Definition being_addressed (s : PortState) : bool :=
  match s with RESETTING_PORT | ENABLEING_SLOT | ADDRESSING_DEVICE => true | _ => false end.

(** A branch that returns the state it got. *)
Ltac same_state := match goal with |- Some ?x = Some _ -> _ => is_var x; by intros [= <-] end.

Section Ports.
Context {D : Type} `{Mmio D}.

Record ports_ok (x : Hc D) : Prop := mkPortsOk {
  po_one : forall p, being_addressed (port_states x p) = true -> p = addressing_port x;
  po_state : addressing_port x <> 0 -> being_addressed (port_states x (addressing_port x)) = true;
  po_zero : port_states x 0 = DISCONNECTED;
}.

(** Operations that do not touch the ports. *)
Definition same_ports (x x' : Hc D) : Prop := port_states x' = port_states x /\ addressing_port x' = addressing_port x /\ max_ports_ x' = max_ports_ x.

#[export] Instance same_ports_preorder : PreOrder same_ports.
Proof. split; [done|]. intros x y z (E1 & E2 & E3) (E4 & E5 & E6). split_and!; congruence. Qed.

Lemma same_ports_ok x x' : same_ports x x' -> ports_ok x -> ports_ok x'.
Proof. intros (E1 & E2 & _) [H1 H2 H3]. split; rewrite ?E1, ?E2; done. Qed.

Lemma read_same r x v x' : hc_read r x = (v, x') -> same_ports x x'.
Proof. unfold hc_read. destruct (reg_read r (io_hw (hc_io x))). by intros [= <- <-]. Qed.

Lemma spin_same n r test x b x' : spin n r test x = (b, x') -> same_ports x x'.
Proof.
  revert x. induction n as [|n IH]; intros x; cbn [spin]; [by intros [= <- <-]|]. destruct (hc_read r x) as [v y] eqn:E. apply read_same in E. destruct (test v); [by intros [= <- <-]|].
  intros Hs%IH. by etrans.
Qed.

Lemma push_command_same t x p x' : push_command t x = Some (p, x') -> same_ports x x'.
Proof. unfold push_command. destruct (push t (command_ring_ x) (io_mem (hc_io x))) as [[[q r] m]|]; [|done]. by intros [= <- <-]. Qed.

(** ** The invariant *)

(** Giving the turn to a port that is not in use. *)
Lemma claim_ok p x : ports_ok x -> p <> 0 -> addressing_port x = 0 -> ports_ok (set_port_state p RESETTING_PORT (set_addressing p x)).
Proof.
  intros [H1 H2 H3] Hp Ha. split; cbn [port_states addressing_port set_port_state set_addressing].
  - intros q. destruct (Z.eqb_spec q p); [done|]. intros Hq. pose proof (H1 q Hq) as E. rewrite Ha in E. subst q. by rewrite H3 in Hq.
  - by rewrite Z.eqb_refl.
  - destruct (Z.eqb_spec 0 p); [congruence|done].
Qed.

(** A port that is not being addressed changes to a state that is not. *)
Lemma aside_ok p s x : ports_ok x -> p <> 0 -> p <> addressing_port x -> being_addressed s = false -> ports_ok (set_port_state p s x).
Proof.
  intros [H1 H2 H3] Hp Ha Hs. split; cbn [port_states addressing_port set_port_state].
  - intros q. destruct (Z.eqb_spec q p); [by rewrite Hs|apply H1].
  - intros Hne. destruct (Z.eqb_spec (addressing_port x) p); [congruence|by apply H2].
  - destruct (Z.eqb_spec 0 p); [congruence|done].
Qed.

(** The port whose turn it is goes on. *)
Lemma advance_ok p s x : ports_ok x -> p = addressing_port x -> p <> 0 -> being_addressed s = true -> ports_ok (set_port_state p s x).
Proof.
  intros [H1 H2 H3] -> Ha Hs. split; cbn [port_states addressing_port set_port_state].
  - intros q. destruct (Z.eqb_spec q (addressing_port x)); [done|apply H1].
  - by rewrite Z.eqb_refl.
  - destruct (Z.eqb_spec 0 (addressing_port x)); [congruence|done].
Qed.

(** Its turn ends. *)
Lemma release_ok p s x : ports_ok x -> p = addressing_port x -> p <> 0 -> being_addressed s = false -> ports_ok (set_addressing 0 (set_port_state p s x)).
Proof.
  intros [H1 H2 H3] -> Ha Hs. split; cbn [port_states addressing_port set_port_state set_addressing].
  - intros q. destruct (Z.eqb_spec q (addressing_port x)); [by rewrite Hs|]. intros Hq%H1. done.
  - done.
  - destruct (Z.eqb_spec 0 (addressing_port x)); [congruence|done].
Qed.

Lemma reset_port_ok p x : ports_ok x -> p <> 0 -> being_addressed (port_states x p) = false -> ports_ok (reset_port p x).
Proof.
  intros Hok Hp Hb. unfold reset_port. destruct (hc_read (PORTSC p) x) as [v x1] eqn:E1. apply read_same in E1. pose proof (same_ports_ok _ _ E1 Hok) as Hok1. destruct E1 as (Es & Ea & _).
  destruct (current_connect_status v); cbn [negb]; [|done]. rewrite <- Es in Hb. destruct (Z.eqb_spec (addressing_port x1) 0) as [Ha0|Ha0]; cbn [negb].
  2:{ apply aside_ok; [done|done| |done]. intros ->. rewrite (po_state _ Hok1) in Hb; done. }
  assert (ports_ok (let '(done, y) := port_do_reset p (set_port_state p RESETTING_PORT (set_addressing p x1)) in if done : bool then y else set_addressing 0 (set_port_state p DISCONNECTED y))) as Hr.
  { unfold port_do_reset. destruct (hc_read (PORTSC p) _) as [w x2] eqn:E2. apply read_same in E2. unfold wait_with_timeout. destruct (spin _ _ _ _) as [b x3] eqn:E3. apply spin_same in E3.
    assert (same_ports (set_port_state p RESETTING_PORT (set_addressing p x1)) x3) as Hs by (etrans; [exact E2|exact E3]). pose proof (same_ports_ok _ _ Hs (claim_ok p x1 Hok1 Hp Ha0)) as Hok3. destruct b; [done|].
    apply release_ok; [done| |done|done]. by destruct Hs as (_ & -> & _). }
  destruct (port_states x1 p) eqn:E; done.
Qed.

Lemma find_waiting (x : Hc D) i : List.find (is_waiting x) (seqZ 0 256) = Some i -> port_states x i = WAITING_ADDRESSED.
Proof. intros [_ Hw]%List.find_some. unfold is_waiting in Hw. by destruct (port_states x i). Qed.

(** *** A port outside the turn does not matter to the others *)

Definition ports_sim (x y : Hc D) : Prop := (forall q, port_states x q = port_states y q) /\ addressing_port x = addressing_port y.

Lemma ports_sim_ok x y : ports_sim x y -> ports_ok y -> ports_ok x.
Proof. intros [E1 E2] [H1 H2 H3]. split; rewrite ?E2; setoid_rewrite E1; done. Qed.

Lemma read_set_state r p s (x : Hc D) : hc_read r (set_port_state p s x) = let '(v, y) := hc_read r x in (v, set_port_state p s y).
Proof. unfold hc_read. cbn [hc_io set_port_state]. by destruct (reg_read r (io_hw (hc_io x))). Qed.

Lemma spin_set_state n r test p s (x : Hc D) : spin n r test (set_port_state p s x) = let '(b, y) := spin n r test x in (b, set_port_state p s y).
Proof. revert x. induction n as [|n IH]; intros x; cbn [spin]; [done|]. rewrite read_set_state. destruct (hc_read r x) as [v y]. by destruct (test v). Qed.

Lemma reset_set_state i p s (x : Hc D) : i <> p -> ports_sim (set_port_state p s (reset_port i x)) (reset_port i (set_port_state p s x)).
Proof.
  intros Hip. unfold reset_port. rewrite read_set_state. destruct (hc_read (PORTSC i) x) as [v x1]. destruct (current_connect_status v); cbn [negb]; [|done]. cbn [addressing_port set_port_state port_states].
  destruct (Z.eqb_spec (addressing_port x1) 0); cbn [negb].
  2:{ split; [|done]. intros q. cbn [port_states set_port_state]. destruct (Z.eqb_spec q i), (Z.eqb_spec q p); congruence. }
  destruct (Z.eqb_spec i p); [done|].
  assert (ports_sim (set_port_state p s (let '(done, y) := port_do_reset i (set_port_state i RESETTING_PORT (set_addressing i x1)) in if done : bool then y else set_addressing 0 (set_port_state i DISCONNECTED y)))
    (let '(done, y) := port_do_reset i (set_port_state i RESETTING_PORT (set_addressing i (set_port_state p s x1))) in if done : bool then y else set_addressing 0 (set_port_state i DISCONNECTED y))) as Hr.
  { unfold port_do_reset, wait_with_timeout. rewrite !read_set_state. unfold hc_read. cbn [hc_io set_addressing set_port_state]. destruct (reg_read (PORTSC i) (io_hw (hc_io x1))) as [w h]. set (rounds := Z.to_nat SPIN_TIMEOUT_ITERATIONS). clearbody rounds.
    set (z := set_hc_io (set_io_hw h (hc_io x1)) (set_addressing i x1)).
    change (set_hc_io (set_io_hw h (hc_io x1)) (set_addressing i (set_port_state p s x1))) with (set_port_state p s z).
    change (hc_write (PORTSC i) (reset_word w) (set_port_state i RESETTING_PORT z)) with (set_port_state i RESETTING_PORT (hc_write (PORTSC i) (reset_word w) z)).
    change (hc_write (PORTSC i) (reset_word w) (set_port_state i RESETTING_PORT (set_port_state p s z))) with (set_port_state i RESETTING_PORT (set_port_state p s (hc_write (PORTSC i) (reset_word w) z))).
    rewrite !spin_set_state. destruct (spin rounds (PORTSC i) _ (hc_write (PORTSC i) (reset_word w) z)) as [b y]. destruct b; (split; [|done]); intros q; cbn [port_states set_port_state set_addressing]; destruct (Z.eqb_spec q i), (Z.eqb_spec q p); congruence. }
  destruct (port_states x1 i); done.
Qed.

Lemma find_waiting_set p s (x : Hc D) : port_states x p <> WAITING_ADDRESSED -> s <> WAITING_ADDRESSED ->
  List.find (is_waiting (set_port_state p s x)) (seqZ 0 256) = List.find (is_waiting x) (seqZ 0 256).
Proof.
  intros H1 H2. assert (forall q, is_waiting (set_port_state p s x) q = is_waiting x q) as E.
  { intros q. unfold is_waiting. cbn [port_states set_port_state]. destruct (Z.eqb_spec q p) as [->|]; [|done]. destruct s, (port_states x p); done. }
  induction (seqZ 0 256) as [|q l IH]; cbn [List.find]; [done|]. rewrite E, IH. done.
Qed.

Lemma proceed_set_state p s (x : Hc D) : port_states x p <> WAITING_ADDRESSED -> s <> WAITING_ADDRESSED ->
  ports_sim (set_port_state p s (proceed_to_next_waiting_port x)) (proceed_to_next_waiting_port (set_port_state p s x)).
Proof.
  intros H1 H2. unfold proceed_to_next_waiting_port. change (set_addressing 0 (set_port_state p s x)) with (set_port_state p s (set_addressing 0 x)).
  rewrite (find_waiting_set p s (set_addressing 0 x)) by done. destruct (List.find _ _) as [i|] eqn:E; [|done]. apply find_waiting in E. apply reset_set_state. intros ->. done.
Qed.

Lemma proceed_ok (x : Hc D) : ports_ok (set_addressing 0 x) -> ports_ok (proceed_to_next_waiting_port x).
Proof.
  intros Hok. unfold proceed_to_next_waiting_port. destruct (List.find _ _) as [i|] eqn:E; [|done]. apply find_waiting in E. apply reset_port_ok; [done| |by rewrite E].
  intros ->. rewrite (po_zero _ Hok) in E. done.
Qed.

Lemma abort_ok p (x : Hc D) : ports_ok x -> p <> 0 -> ports_ok (abort_port_initialization p x).
Proof.
  intros Hok Hp. unfold abort_port_initialization. cbn [addressing_port set_port_state]. destruct (Z.eqb_spec (addressing_port x) p) as [<-|Hne].
  - apply proceed_ok. by apply release_ok.
  - by apply aside_ok; [| |congruence|].
Qed.

Lemma issue_ok t p (x : Hc D) x' : ports_ok x -> p <> 0 -> issue_command t p x = Some x' -> ports_ok x'.
Proof.
  intros Hok Hp. unfold issue_command. destruct (push_command t x) as [[a y]|] eqn:E; [|done]. apply push_command_same in E. pose proof (same_ports_ok _ _ E Hok) as Hy. cbn [mbind option_bind].
  destruct (a =? 0); intros [= <-]; [by apply abort_ok|]. by apply (same_ports_ok y).
Qed.

Lemma enable_slot_ok (x : Hc D) x' p : ports_ok x -> p = addressing_port x -> p <> 0 -> enable_slot p x = Some x' -> ports_ok x'.
Proof.
  intros Hok Hpa Hp. unfold enable_slot. destruct (hc_read (PORTSC p) x) as [v1 x1] eqn:E1. apply read_same in E1. destruct (hc_read (PORTSC p) x1) as [v2 x2] eqn:E2. apply read_same in E2.
  assert (same_ports x x2) as Hs by (by etrans). pose proof (same_ports_ok _ _ Hs Hok) as Hok2. destruct (port_enabled_disabled v1 && port_reset_change v2); [|by intros [= <-]].
  apply issue_ok; [|done]. unfold clear_port_reset_changed. destruct (hc_read (PORTSC p) x2) as [v3 x3] eqn:E3. apply read_same in E3.
  assert (same_ports x (hc_write (PORTSC p) (clear_change_word PORTSC_PORT_RESET_CHANGE_BIT v3) x3)) as Hs3 by (etrans; [exact Hs|exact E3]). pose proof (same_ports_ok _ _ Hs3 Hok) as Hok3.
  apply advance_ok; [done| |done|done]. destruct Hs3 as (_ & -> & _). done.
Qed.

Lemma allocate_same junk slot (x : Hc D) x' : allocate_device junk slot x = Some x' -> same_ports x x'.
Proof.
  unfold allocate_device. destruct (MAX_SLOTS <? slot); [by intros [= <-]|]. destruct (atz (devices_ x) slot) as [[d|]|]; cbn [mbind option_bind]; [by intros [= <-]| |done].
  destruct (alloc_addr (hc_io x)) as [a io]. destruct (a =? 0); by intros [= <-].
Qed.

Lemma with_dev_same slot d f (x : Hc D) d' x' : with_dev slot d f x = Some (d', x') -> same_ports x x'.
Proof. unfold with_dev. destruct (f d (hc_io x)) as [[e io]|]; [|done]. by intros [= <- <-]. Qed.

Lemma address_device_ok junk slot (x : Hc D) x' p : ports_ok x -> p = addressing_port x -> p <> 0 -> address_device junk p slot x = Some x' -> ports_ok x'.
Proof.
  intros Hok Hpa Hp. unfold address_device. destruct (allocate_device junk slot x) as [x1|] eqn:E1; [|done]. apply allocate_same in E1. cbn [mbind option_bind].
  destruct (find_by_slot_id slot x1) as [[d|]|]; cbn [mbind option_bind]; [|intros [= <-]; by apply (same_ports_ok x)|done]. destruct (hc_read (PORTSC p) x1) as [v x2] eqn:E2. apply read_same in E2.
  destruct (alloc_transfer_ring EP0_DCI TRANSFER_RING_SIZE d (hc_io x2)) as [[[ptr d1] io]|]; [|done]. cbn [mbind option_bind]. destruct (ring_buffer ptr) as [b|]; [|done]. cbn [mbind option_bind].
  destruct (enable_endpoint_context _ _ _) as [i|]; [|done]. cbn [mbind option_bind]. set (y := load_dcbaa _ _ _).
  assert (same_ports x y) as Hs by (etrans; [exact E1|exact E2]). pose proof (same_ports_ok _ _ Hs Hok) as Hy. apply issue_ok; [|done]. apply advance_ok; [done| |done|done]. by destruct Hs as (_ & -> & _).
Qed.

Lemma endpoints_ok slot d (x : Hc D) x' : ports_ok x -> port_states x (root_hub_port_num (ctx_slot d)) = INITIALIZING_DEVICE -> configure_endpoints slot d x = Some x' -> ports_ok x'.
Proof.
  intros Hok Hst. unfold configure_endpoints. cbn [ctx_slot set_input]. set (p := root_hub_port_num (ctx_slot d)) in *. destruct (hc_read (PORTSC p) x) as [v x1] eqn:E1. apply read_same in E1.
  destruct (_ || _); [intros [= <-]; by apply (same_ports_ok x)|]. destruct (for_n _ _ _ _) as [[d1 io]|]; [|done]. cbn [mbind option_bind].
  assert (p <> 0) as Hp by (intros E; rewrite E, (po_zero _ Hok) in Hst; done).
  apply issue_ok; [|done]. apply aside_ok; [by apply (same_ports_ok x)|done| |done]. destruct E1 as (_ & Ea & _). intros E. cbn [addressing_port put_dev set_hc_devices set_hc_io] in E. rewrite Ea in E.
  pose proof (po_state _ Hok) as Hb. rewrite <- E, Hst in Hb. by specialize (Hb Hp).
Qed.

(** Polling and resetting leave the devices alone. *)
Lemma spin_devices n r test (x : Hc D) : devices_ (spin n r test x).2 = devices_ x.
Proof.
  revert x. induction n as [|n IH]; intros x; cbn [spin]; [done|]. unfold hc_read. destruct (reg_read r (io_hw (hc_io x))) as [v h]. destruct (test v); [done|]. by rewrite IH.
Qed.

Lemma reset_devices i (x : Hc D) : devices_ (reset_port i x) = devices_ x.
Proof.
  unfold reset_port, port_do_reset, wait_with_timeout, hc_read. destruct (reg_read (PORTSC i) (io_hw (hc_io x))) as [v h]. destruct (negb (current_connect_status v)); [done|]. cbn [addressing_port set_hc_io].
  destruct (negb _); [done|]. cbn [hc_io set_port_state set_addressing set_hc_io port_states]. destruct (reg_read (PORTSC i) _) as [w h2]. set (y := hc_write _ _ _). set (rounds := Z.to_nat _). clearbody rounds.
  pose proof (spin_devices rounds (PORTSC i) (fun v => negb (port_reset v)) y) as E. destruct (spin rounds _ _ y) as [b z]. cbn [snd] in E. destruct (port_states x i), b; try done.
Qed.

Lemma proceed_devices (x : Hc D) : devices_ (proceed_to_next_waiting_port x) = devices_ x.
Proof. unfold proceed_to_next_waiting_port. destruct (List.find _ _) as [i|]; [|done]. by rewrite reset_devices. Qed.

(** The turn ends with the assignment of an address. *)
Lemma initialize_ok p slot d (x : Hc D) x' : ports_ok x -> find_by_slot_id slot x = Some (Some d) -> p = addressing_port x -> p <> 0 -> port_states x p = ADDRESSING_DEVICE ->
  initialize_device p slot (proceed_to_next_waiting_port x) = Some x' -> ports_ok x'.
Proof.
  intros Hok Hd Hpa Hp Hst. assert (ports_ok (set_port_state p INITIALIZING_DEVICE (proceed_to_next_waiting_port x))) as Hi.
  { apply (ports_sim_ok _ (proceed_to_next_waiting_port (set_port_state p INITIALIZING_DEVICE x))); [by apply proceed_set_state; [rewrite Hst|]|]. apply proceed_ok. by apply release_ok. }
  unfold initialize_device. unfold find_by_slot_id in *. rewrite proceed_devices, Hd. cbn [mbind option_bind].
  destruct (with_dev _ _ _ _) as [[d1 x1]|] eqn:E1; [|done]. apply with_dev_same in E1. cbn [mbind option_bind]. intros [= <-]. by apply (same_ports_ok _ _ E1).
Qed.

(** Every event the xHC can report keeps the invariant.  Ports are numbered from 1. *)
Definition event_ok (e : Trb) : Prop := trb_type e = PORT_STATUS_CHANGE_EVENT -> port_id e <> 0.

Lemma port_event_ok e (x : Hc D) x' : ports_ok x -> port_id e <> 0 -> on_port_status_change e x = Some x' -> ports_ok x'.
Proof.
  intros Hok Hp. unfold on_port_status_change. destruct (port_states x (port_id e)) eqn:E; try same_state.
  - intros [= <-]. apply reset_port_ok; [done|done|by rewrite E].
  - apply enable_slot_ok; [done| |done]. apply (po_one _ Hok). by rewrite E.
Qed.

Lemma transfer_event_ok fuel e (x : Hc D) x' : ports_ok x -> on_transfer_event fuel e x = Some x' -> ports_ok x'.
Proof.
  intros Hok. unfold on_transfer_event. destruct (find_by_slot_id _ x) as [[d|]|]; cbn [mbind option_bind]; [|by intros [= <-]|done].
  destruct (with_dev _ d _ x) as [[d1 x1]|] eqn:E1; [|done]. apply with_dev_same in E1. pose proof (same_ports_ok _ _ E1 Hok) as Hok1. cbn [mbind option_bind].
  destruct (port_states x1 _) eqn:Est; try same_state. destruct (is_initialized_ d1); [|by intros [= <-]]. by apply endpoints_ok.
Qed.

Lemma command_event_ok junk e (x : Hc D) x' : ports_ok x -> on_command_completion junk e x = Some x' -> ports_ok x'.
Proof.
  intros Hok. unfold on_command_completion. destruct (io_mem (hc_io x) !! pointer60 e) as [t|]; [|done]. cbn [mbind option_bind]. set (y := set_command_ring _ x).
  assert (ports_ok y) as Hy by (by apply (same_ports_ok x)). clearbody y. clear x Hok. destruct (trb_type t =? ENABLE_SLOT_COMMAND).
  { unfold enable_slot_completed. destruct (port_states y (addressing_port y)) eqn:E; try same_state. assert (addressing_port y <> 0) as Hp by (intros E0; rewrite E0, (po_zero _ Hy) in E; done).
    destruct (negb _); [intros [= <-]; by apply abort_ok|by apply address_device_ok]. }
  destruct (trb_type t =? ADDRESS_DEVICE_COMMAND).
  { unfold address_device_completed. destruct (find_by_slot_id _ y) as [[d|]|] eqn:Ed; cbn [mbind option_bind]; [|by intros [= <-]|done]. set (p := root_hub_port_num (ctx_slot d)).
    destruct (Z.eqb_spec p (addressing_port y)) as [Ep|]; cbn [negb]; [|by intros [= <-]]. destruct (port_states y p) eqn:E; try same_state.
    assert (p <> 0) as Hp by (intros E0; rewrite E0, (po_zero _ Hy) in E; done). destruct (negb _); [intros [= <-]; by apply abort_ok|by apply (initialize_ok p _ d)]. }
  destruct (trb_type t =? CONFIGURE_ENDPOINT_COMMAND); [|by intros [= <-]].
  unfold configure_endpoint_completed. destruct (find_by_slot_id _ y) as [[d|]|]; cbn [mbind option_bind]; [|by intros [= <-]|done]. set (p := root_hub_port_num (ctx_slot d)).
  destruct (port_states y p) eqn:E; try same_state. assert (p <> 0) as Hp by (intros E0; rewrite E0, (po_zero _ Hy) in E; done). destruct (negb _); [intros [= <-]; by apply abort_ok|].
  unfold complete_configuration. destruct (find_by_slot_id _ y) as [[d2|]|]; cbn [mbind option_bind]; [|by intros [= <-]|done].
  destruct (with_dev _ _ _ y) as [[d3 x3]|] eqn:E3; [|done]. apply with_dev_same in E3. cbn [mbind option_bind]. intros [= <-]. apply aside_ok; [by apply (same_ports_ok y)|done| |done].
  destruct E3 as (_ & -> & _). intros Ep. pose proof (po_state _ Hy) as Hb. rewrite <- Ep, E in Hb. by specialize (Hb Hp).
Qed.

Lemma handle_ok junk fuel e (x : Hc D) x' : ports_ok x -> event_ok e -> handle_event junk fuel e x = Some x' -> ports_ok x'.
Proof.
  intros Hok He. unfold handle_event. destruct (trb_type e =? TRANSFER_EVENT); [by apply transfer_event_ok|]. destruct (Z.eqb_spec (trb_type e) PORT_STATUS_CHANGE_EVENT) as [E|]; [by apply port_event_ok, He|].
  destruct (trb_type e =? COMMAND_COMPLETION_EVENT); [by apply command_event_ok|by intros [= <-]].
Qed.

(** *** Bring-up *)

Ltac through_reads := repeat match goal with
  | |- context [let '(_, _) := hc_read ?r ?x in _] => let E := fresh "E" in destruct (hc_read r x) as [? ?] eqn:E; apply read_same in E
  | |- context [let '(_, _) := alloc_addr ?io in _] => destruct (alloc_addr io) as [? ?]
  | |- context [if ?b then _ else _] => destruct b
  end.

Lemma capability_same n a (x : Hc D) c x' : find_capability n a x = Some (c, x') -> same_ports x x'.
Proof.
  revert a x. induction n as [|n IH]; intros a x; cbn [find_capability]; [done|]. destruct (a =? 0); [by intros [= <- <-]|]. destruct (hc_read (EXTCAP a) x) as [v y] eqn:E. apply read_same in E.
  destruct (bits 0 8 v =? 1); [by intros [= <- <-]|]. destruct (hc_read (EXTCAP a) y) as [w z] eqn:E2. apply read_same in E2. intros Hs%IH. etrans; [exact E|]. by etrans.
Qed.

Lemma ownership_same fuel base hccp (x : Hc D) b x' : request_hc_ownership fuel base hccp x = Some (b, x') -> same_ports x x'.
Proof.
  unfold request_hc_ownership. destruct (find_capability _ _ x) as [[a y]|] eqn:E; [|done]. apply capability_same in E. cbn [mbind option_bind]. destruct (a =? 0); [by intros [= <- <-]|].
  destruct (hc_read (EXTCAP a) y) as [v z] eqn:E2. apply read_same in E2. destruct (negb _); [intros [= <- <-]; by etrans|]. unfold wait_with_timeout. destruct (spin _ _ _ _) as [c w] eqn:E3. apply spin_same in E3.
  intros [= <- <-]. etrans; [exact E|]. etrans; [exact E2|exact E3].
Qed.

Lemma manager_same (x : Hc D) : same_ports x (manager_initialize x).
Proof. unfold manager_initialize. destruct (alloc_addr (hc_io x)) as [a io]. destruct (a =? 0); [done|]. destruct (alloc_addr _) as [c io2]. by destruct (c =? 0). Qed.

Lemma scratchpads_same n (x : Hc D) : same_ports x (alloc_scratchpads n x).2.
Proof. revert x. induction n as [|n IH]; intros x; cbn [alloc_scratchpads]; [done|]. destruct (alloc_addr (hc_io x)) as [a io]. destruct (a =? 0); [done|]. etrans; [|apply IH]. done. Qed.

Lemma event_ring_same (x : Hc D) : same_ports x (event_ring_initialize x).
Proof.
  unfold event_ring_initialize. destruct (alloc_addr (hc_io x)) as [b io]. destruct (b =? 0); [done|]. destruct (alloc_addr _) as [t io2]. destruct (t =? 0); [done|].
  through_reads. etrans; [|by eapply (transitivity (R := same_ports)); [exact E1|]]. etrans; [|exact E0]. etrans; [|exact E]. done.
Qed.

Lemma setup_same (x : Hc D) b x' : setup_controller x = Some (b, x') -> same_ports x x'.
Proof.
  unfold setup_controller. destruct (hc_read CONFIG x) as [v x1] eqn:E1. apply read_same in E1. destruct (hc_read HCSPARAMS2 _) as [p2 x2] eqn:E2. apply read_same in E2.
  assert (same_ports x x2) as H2 by (etrans; [exact E1|exact E2]). clear E1 E2. destruct (setup_scratchpads p2 x2) as [[ok x3]|] eqn:E3; [|done]. cbn [mbind option_bind].
  assert (same_ports x2 x3) as H3.
  { revert E3. unfold setup_scratchpads. destruct (0 <? _); [|by intros [= <- <-]]. destruct (alloc_addr (hc_io x2)) as [a io]. destruct (a =? 0); [by intros [= <- <-]|].
    pose proof (scratchpads_same (Z.to_nat (scratchpad_count p2)) (set_hc_io io x2)) as Hs. destruct (alloc_scratchpads _ _) as [c y]. destruct c; cbn [negb]; [|by intros [= <- <-]].
    destruct (atz (contexts_ y) 0); [|done]. by intros [= <- <-]. }
  destruct ok; cbn [negb]; [|intros [= <- <-]; by etrans]. destruct (alloc_addr _) as [b0 io]. destruct (ring_initialize _ _ _ _) as [r m]. unfold register_command_ring.
  destruct (hc_read CRCR _) as [w x4] eqn:E4. apply read_same in E4. set (y := hc_write CRCR _ x4). pose proof (event_ring_same y) as E5. destruct (hc_read IMAN _) as [w6 x6] eqn:E6. apply read_same in E6.
  destruct (hc_read USBCMD _) as [w7 x7] eqn:E7. apply read_same in E7. intros [= <- <-]. etrans; [exact H2|]. etrans; [exact H3|]. etrans; [exact E4|]. etrans; [exact E5|]. etrans; [exact E6|exact E7].
Qed.

Lemma stop_same (x : Hc D) b x' : stop_controller x = (b, x') -> same_ports x x'.
Proof.
  unfold stop_controller, wait_with_timeout. destruct (hc_read USBCMD x) as [v x1] eqn:E1. apply read_same in E1. destruct (hc_read USBSTS x1) as [w x2] eqn:E2. apply read_same in E2. intros E3%spin_same.
  etrans; [exact E1|]. etrans; [exact E2|exact E3].
Qed.

Lemma reset_same (x : Hc D) b x' : reset_controller x = (b, x') -> same_ports x x'.
Proof.
  unfold reset_controller, wait_with_timeout. destruct (hc_read USBCMD x) as [v x1] eqn:E1. apply read_same in E1. destruct (spin _ USBCMD _ _) as [c x2] eqn:E2. apply spin_same in E2.
  assert (same_ports x x2) as H2 by (etrans; [exact E1|exact E2]). destruct (negb c); [by intros [= <- <-]|]. intros E3%spin_same. by etrans.
Qed.

Lemma bring_up_same fuel base (x : Hc D) b x' : controller_initialize fuel base x = Some (b, x') -> same_ports x x'.
Proof.
  unfold controller_initialize. pose proof (manager_same x) as H0. destruct (hc_read HCCPARAMS1 _) as [v x1] eqn:E1. apply read_same in E1. destruct (request_hc_ownership _ _ _ x1) as [[ok x2]|] eqn:E2; [|done]. apply ownership_same in E2.
  assert (same_ports x x2) as H2 by (etrans; [exact H0|]; by etrans). cbn [mbind option_bind]. destruct (negb ok); [by intros [= <- <-]|]. destruct (stop_controller x2) as [ok2 x3] eqn:E3. apply stop_same in E3.
  destruct (negb ok2); [intros [= <- <-]; by etrans|]. destruct (reset_controller x3) as [ok3 x4] eqn:E4. apply reset_same in E4. destruct (negb ok3); [intros [= <- <-]; etrans; [exact H2|]; by etrans|].
  intros E5%setup_same. etrans; [exact H2|]. etrans; [exact E3|]. by etrans.
Qed.

Lemma configure_connected_ok i (x : Hc D) : i <> 0 -> ports_ok x -> ports_ok (configure_connected i x).
Proof.
  intros Hi Hok. unfold configure_connected. destruct (hc_read (PORTSC i) x) as [v y] eqn:E. apply read_same in E. pose proof (same_ports_ok _ _ E Hok) as Hy. destruct (negb _); [done|].
  unfold configure_port. destruct (port_states y i) eqn:Es; try done. apply reset_port_ok; [done|done|by rewrite Es].
Qed.

Lemma start_up fuel base (h : D) supply x : start_controller fuel base h supply = Some (Some x) ->
  exists x2, same_ports (new_controller h supply) x2 /\ configure_ports x2 = Some x.
Proof.
  unfold start_controller. destruct (controller_initialize _ _ _) as [[ok x1]|] eqn:E1; [|done]. cbn [mbind option_bind]. apply bring_up_same in E1. destruct (negb ok); [done|].
  destruct (controller_run x1) as [ok2 x2] eqn:E2. assert (same_ports x1 x2) as H2.
  { revert E2. unfold controller_run, wait_with_timeout. destruct (hc_read USBCMD x1) as [v y] eqn:E. apply read_same in E. intros E2%spin_same. etrans; [exact E|exact E2]. }
  destruct (negb ok2); [done|]. destruct (configure_ports x2) as [y|] eqn:E; [|done]. cbn [mbind option_bind]. intros [= <-]. exists x2. split; [by etrans|done].
Qed.

Lemma start_ports_ok fuel base (h : D) supply x : start_controller fuel base h supply = Some (Some x) -> ports_ok x.
Proof.
  intros (x2 & Hs & Hf)%start_up. unfold configure_ports in Hf.
  destruct (for_n_inv (fun i y => ports_ok y) (Z.to_nat (max_ports_ x2 - 1)) 1 (fun i y => Some (configure_connected i y)) x2) as (y & E & Hy).
  - apply (same_ports_ok _ _ Hs). unfold new_controller. destruct (reg_read CAPLENGTH h) as [? h1]. destruct (reg_read HCSPARAMS1 h1) as [v h2]. by split.
  - intros i s Hi Hok. eexists. split; [done|]. apply configure_connected_ok; [lia|done].
  - rewrite E in Hf. by injection Hf as <-.
Qed.

(** *** Runs of the driver

    An event is handled, or the hardware changes what it owns: registers, blocks,
    contexts and buffers, but not the bookkeeping of the ports. *)
Inductive hc_step (junk : Z) (fuel : nat) : Hc D -> Hc D -> Prop :=
  | hc_handles e x x' : event_ok e -> handle_event junk fuel e x = Some x' -> hc_step junk fuel x x'
  | hc_hardware x x' : same_ports x x' -> hc_step junk fuel x x'.

Lemma step_ports_ok junk fuel (x x' : Hc D) : ports_ok x -> hc_step junk fuel x x' -> ports_ok x'.
Proof. intros Hok Hs. revert Hok. destruct Hs as [e y y' He E|y y' Hs]; intros Hok; [exact (handle_ok junk fuel e y y' Hok He E)|exact (same_ports_ok y y' Hs Hok)]. Qed.

(** *** No waiting port is forgotten *)

(** Hardware that keeps its ports connected and finishes their resets in time: polling
    the register from any state shows the end of the reset within the bound. *)
Fixpoint poll (n : nat) (r : Reg) (h : D) : Z :=
  let '(v, h) := reg_read r h in match n with O => v | S n => poll n r h end.

Definition responsive : Prop := forall p h,
  current_connect_status (reg_read (PORTSC p) h).1 = true /\
  exists k, (k < Z.to_nat SPIN_TIMEOUT_ITERATIONS)%nat /\ port_reset (poll k (PORTSC p) h) = false.

Lemma spin_succeeds n r test (x : Hc D) k : (k < n)%nat -> test (poll k r (io_hw (hc_io x))) = true -> (spin n r test x).1 = true.
Proof.
  revert x k. induction n as [|n IH]; intros x k Hk Ht; [lia|]. cbn [spin]. unfold hc_read. destruct k as [|k]; cbn [poll] in Ht; destruct (reg_read r (io_hw (hc_io x))) as [v h] eqn:E.
  - by rewrite Ht.
  - destruct (test v); [done|]. apply (IH _ k); [lia|done].
Qed.

Definition waiting_ok (x : Hc D) : Prop := forall p, port_states x p = WAITING_ADDRESSED -> 0 <= p < 256 /\ addressing_port x <> 0.

Lemma same_waiting x x' : same_ports x x' -> waiting_ok x -> waiting_ok x'.
Proof. intros (E1 & E2 & _) Hw p. rewrite E1, E2. apply Hw. Qed.

Context (Hresp : responsive).

(** A reset succeeds: the port has the turn. *)
Lemma do_reset_succeeds p (x : Hc D) : exists y, port_do_reset p x = (true, y) /\ same_ports x y.
Proof.
  unfold port_do_reset. destruct (hc_read (PORTSC p) x) as [v x1] eqn:E1. apply read_same in E1. set (x2 := hc_write _ _ x1). destruct (Hresp p (io_hw (hc_io x2))) as [_ (k & Hk & Hr)].
  pose proof (spin_succeeds (Z.to_nat SPIN_TIMEOUT_ITERATIONS) (PORTSC p) (fun v => negb (port_reset v)) x2 k Hk ltac:(cbv beta; by rewrite Hr)) as Hs. unfold wait_with_timeout.
  destruct (spin _ _ _ x2) as [b y] eqn:E2. cbn [fst] in Hs. subst b. apply spin_same in E2. exists y. split; [done|]. etrans; [exact E1|exact E2].
Qed.

Lemma reset_port_waiting p (x : Hc D) : waiting_ok x \/ addressing_port x = 0 /\ port_states x p = WAITING_ADDRESSED /\ (forall q, port_states x q = WAITING_ADDRESSED -> 0 <= q < 256) ->
  0 < p < 256 -> being_addressed (port_states x p) = false -> waiting_ok (reset_port p x).
Proof.
  intros Hw Hp Hb. unfold reset_port. destruct (hc_read (PORTSC p) x) as [v x1] eqn:E1. pose proof (Hresp p (io_hw (hc_io x))) as [Hc _].
  assert (v = (reg_read (PORTSC p) (io_hw (hc_io x))).1) as Ev by (unfold hc_read in E1; destruct (reg_read _ _); by injection E1). rewrite <- Ev in Hc. rewrite Hc. cbn [negb]. apply read_same in E1. pose proof E1 as (Es & Ea & _). rewrite Ea.
  destruct (Z.eqb_spec (addressing_port x) 0) as [Ha|Ha]; cbn [negb].
  2:{ intros q. cbn [port_states addressing_port set_port_state]. rewrite Es, Ea. destruct (Z.eqb_spec q p) as [->|]; [intros _; split; [lia|done]|]. destruct Hw as [Hw|[]]; [apply Hw|done]. }
  assert (forall q, port_states x q = WAITING_ADDRESSED -> 0 <= q < 256) as Hrange by (destruct Hw as [Hw|(_ & _ & Hw)]; [intros q Hq; by apply Hw|done]).
  destruct (do_reset_succeeds p (set_port_state p RESETTING_PORT (set_addressing p x1))) as (y & -> & Hs).
  assert (waiting_ok y) as Hy.
  { apply (same_waiting _ _ Hs). intros q. cbn [port_states addressing_port set_port_state set_addressing]. rewrite Es. destruct (Z.eqb_spec q p); [done|]. intros Hq%Hrange. lia. }
  destruct (port_states x1 p) eqn:E; try done; (destruct Hw as [Hw|(_ & E' & _)]; [exact (same_waiting x x1 E1 Hw)|rewrite Es in E; congruence]).
Qed.

Lemma proceed_waiting (x : Hc D) : ports_ok (set_addressing 0 x) -> (forall q, port_states x q = WAITING_ADDRESSED -> 0 <= q < 256) -> waiting_ok (proceed_to_next_waiting_port x).
Proof.
  intros Hok Hrange. unfold proceed_to_next_waiting_port. destruct (List.find _ _) as [i|] eqn:E.
  - apply find_waiting in E. assert (i <> 0) by (intros ->; rewrite (po_zero _ Hok) in E; done). pose proof (Hrange i E). apply reset_port_waiting; [by right|lia|by rewrite E].
  - intros q Hq. pose proof (Hrange q Hq). pose proof (List.find_none _ _ E q) as Hn. unfold is_waiting in Hn. rewrite Hq in Hn. discriminate Hn. apply list_elem_of_In, elem_of_seqZ. lia.
Qed.

Lemma waiting_range x q : waiting_ok x -> port_states x q = WAITING_ADDRESSED -> 0 <= q < 256.
Proof. intros Hw Hq. by apply Hw. Qed.

(** States other than waiting may change freely. *)
Lemma set_state_waiting p s (x : Hc D) : s <> WAITING_ADDRESSED -> waiting_ok x -> waiting_ok (set_port_state p s x).
Proof. intros Hs Hw q. cbn [port_states addressing_port set_port_state]. destruct (Z.eqb_spec q p); [done|apply Hw]. Qed.

Lemma abort_waiting p (x : Hc D) : ports_ok x -> p <> 0 -> waiting_ok x -> waiting_ok (abort_port_initialization p x).
Proof.
  intros Hok Hp Hw. unfold abort_port_initialization. cbn [addressing_port set_port_state]. destruct (Z.eqb_spec (addressing_port x) p) as [<-|].
  - apply proceed_waiting; [by apply release_ok|]. intros q. cbn [port_states set_port_state]. destruct (q =? _); [done|]. by apply waiting_range.
  - by apply set_state_waiting.
Qed.

Lemma issue_waiting t p (x : Hc D) x' : ports_ok x -> p <> 0 -> waiting_ok x -> issue_command t p x = Some x' -> waiting_ok x'.
Proof.
  intros Hok Hp Hw. unfold issue_command. destruct (push_command t x) as [[a y]|] eqn:E; [|done]. apply push_command_same in E. pose proof (same_ports_ok _ _ E Hok) as Hy. pose proof (same_waiting _ _ E Hw) as Hwy. cbn [mbind option_bind].
  destruct (a =? 0); intros [= <-]; [by apply abort_waiting|]. by apply (same_waiting y).
Qed.

Lemma enable_slot_waiting (x : Hc D) x' p : ports_ok x -> p = addressing_port x -> p <> 0 -> waiting_ok x -> enable_slot p x = Some x' -> waiting_ok x'.
Proof.
  intros Hok Hpa Hp Hw. unfold enable_slot. destruct (hc_read (PORTSC p) x) as [v1 x1] eqn:E1. apply read_same in E1. destruct (hc_read (PORTSC p) x1) as [v2 x2] eqn:E2. apply read_same in E2.
  assert (same_ports x x2) as Hs by (by etrans). destruct (port_enabled_disabled v1 && port_reset_change v2); [|intros [= <-]; by apply (same_waiting x)].
  unfold clear_port_reset_changed. destruct (hc_read (PORTSC p) x2) as [v3 x3] eqn:E3. apply read_same in E3. set (y := hc_write _ _ x3). assert (same_ports x y) as Hy by (etrans; [exact Hs|exact E3]).
  apply issue_waiting; [|done|apply set_state_waiting; [done|by apply (same_waiting x)]]. apply advance_ok; [by apply (same_ports_ok x)| |done|done]. by destruct Hy as (_ & -> & _).
Qed.

Lemma address_device_waiting junk slot (x : Hc D) x' p : ports_ok x -> p = addressing_port x -> p <> 0 -> waiting_ok x -> address_device junk p slot x = Some x' -> waiting_ok x'.
Proof.
  intros Hok Hpa Hp Hw. unfold address_device. destruct (allocate_device junk slot x) as [x1|] eqn:E1; [|done]. apply allocate_same in E1. cbn [mbind option_bind].
  destruct (find_by_slot_id slot x1) as [[d|]|]; cbn [mbind option_bind]; [|intros [= <-]; by apply (same_waiting x)|done]. destruct (hc_read (PORTSC p) x1) as [v x2] eqn:E2. apply read_same in E2.
  destruct (alloc_transfer_ring EP0_DCI TRANSFER_RING_SIZE d (hc_io x2)) as [[[ptr d1] io]|]; [|done]. cbn [mbind option_bind]. destruct (ring_buffer ptr) as [b|]; [|done]. cbn [mbind option_bind].
  destruct (enable_endpoint_context _ _ _) as [i|]; [|done]. cbn [mbind option_bind]. set (y := load_dcbaa _ _ _). assert (same_ports x y) as Hs by (etrans; [exact E1|exact E2]).
  apply issue_waiting; [|done|apply set_state_waiting; [done|by apply (same_waiting x)]]. apply advance_ok; [by apply (same_ports_ok x)| |done|done]. by destruct Hs as (_ & -> & _).
Qed.

Lemma endpoints_waiting slot d (x : Hc D) x' : ports_ok x -> waiting_ok x -> port_states x (root_hub_port_num (ctx_slot d)) = INITIALIZING_DEVICE -> configure_endpoints slot d x = Some x' -> waiting_ok x'.
Proof.
  intros Hok Hw Hst. unfold configure_endpoints. cbn [ctx_slot set_input]. set (p := root_hub_port_num (ctx_slot d)) in *. destruct (hc_read (PORTSC p) x) as [v x1] eqn:E1. apply read_same in E1.
  destruct (_ || _); [intros [= <-]; by apply (same_waiting x)|]. destruct (for_n _ _ _ _) as [[d1 io]|]; [|done]. cbn [mbind option_bind].
  assert (p <> 0) as Hp by (intros E; rewrite E, (po_zero _ Hok) in Hst; done).
  apply issue_waiting; [|done|apply set_state_waiting; [done|by apply (same_waiting x)]]. apply aside_ok; [by apply (same_ports_ok x)|done| |done]. destruct E1 as (_ & Ea & _). intros E. cbn [addressing_port put_dev set_hc_devices set_hc_io] in E. rewrite Ea in E.
  pose proof (po_state _ Hok) as Hb. rewrite <- E, Hst in Hb. by specialize (Hb Hp).
Qed.

Lemma initialize_waiting p slot d (x : Hc D) x' : ports_ok x -> waiting_ok x -> find_by_slot_id slot x = Some (Some d) -> p = addressing_port x -> p <> 0 -> port_states x p = ADDRESSING_DEVICE ->
  initialize_device p slot (proceed_to_next_waiting_port x) = Some x' -> waiting_ok x'.
Proof.
  intros Hok Hw Hd Hpa Hp Hst. assert (waiting_ok (set_port_state p INITIALIZING_DEVICE (proceed_to_next_waiting_port x))) as Hi.
  { destruct (proceed_set_state p INITIALIZING_DEVICE x) as [E1 E2]; [by rewrite Hst|done|]. intros q. rewrite E1, E2.
    apply (proceed_waiting (set_port_state p INITIALIZING_DEVICE x)); [by apply release_ok|]. intros r. cbn [port_states set_port_state]. destruct (r =? p); [done|by apply waiting_range]. }
  unfold initialize_device. unfold find_by_slot_id in *. rewrite proceed_devices, Hd. cbn [mbind option_bind].
  destruct (with_dev _ _ _ _) as [[d1 x1]|] eqn:E1; [|done]. apply with_dev_same in E1. cbn [mbind option_bind]. intros [= <-]. by apply (same_waiting _ _ E1).
Qed.

Lemma command_event_waiting junk e (x : Hc D) x' : ports_ok x -> waiting_ok x -> on_command_completion junk e x = Some x' -> waiting_ok x'.
Proof.
  intros Hok Hw. unfold on_command_completion. destruct (io_mem (hc_io x) !! pointer60 e) as [t|]; [|done]. cbn [mbind option_bind]. set (y := set_command_ring _ x).
  assert (ports_ok y) as Hy by (by apply (same_ports_ok x)). assert (waiting_ok y) as Hwy by (by apply (same_waiting x)). clearbody y. clear x Hok Hw. destruct (trb_type t =? ENABLE_SLOT_COMMAND).
  { unfold enable_slot_completed. destruct (port_states y (addressing_port y)) eqn:E; try same_state. assert (addressing_port y <> 0) as Hp by (intros E0; rewrite E0, (po_zero _ Hy) in E; done).
    destruct (negb _); [intros [= <-]; by apply abort_waiting|by apply address_device_waiting]. }
  destruct (trb_type t =? ADDRESS_DEVICE_COMMAND).
  { unfold address_device_completed. destruct (find_by_slot_id _ y) as [[d|]|] eqn:Ed; cbn [mbind option_bind]; [|by intros [= <-]|done]. set (p := root_hub_port_num (ctx_slot d)).
    destruct (Z.eqb_spec p (addressing_port y)) as [Ep|]; cbn [negb]; [|by intros [= <-]]. destruct (port_states y p) eqn:E; try same_state.
    assert (p <> 0) as Hp by (intros E0; rewrite E0, (po_zero _ Hy) in E; done). destruct (negb _); [intros [= <-]; by apply abort_waiting|by apply (initialize_waiting p _ d)]. }
  destruct (trb_type t =? CONFIGURE_ENDPOINT_COMMAND); [|by intros [= <-]].
  unfold configure_endpoint_completed. destruct (find_by_slot_id _ y) as [[d|]|]; cbn [mbind option_bind]; [|by intros [= <-]|done]. set (p := root_hub_port_num (ctx_slot d)).
  destruct (port_states y p) eqn:E; try same_state. assert (p <> 0) as Hp by (intros E0; rewrite E0, (po_zero _ Hy) in E; done). destruct (negb _); [intros [= <-]; by apply abort_waiting|].
  unfold complete_configuration. destruct (find_by_slot_id _ y) as [[d2|]|]; cbn [mbind option_bind]; [|by intros [= <-]|done].
  destruct (with_dev _ _ _ y) as [[d3 x3]|] eqn:E3; [|done]. apply with_dev_same in E3. cbn [mbind option_bind]. intros [= <-]. apply set_state_waiting; [done|by apply (same_waiting y)].
Qed.

Lemma port_id_range e : 0 <= port_id e < 256.
Proof. apply (bits_range 24 8). lia. Qed.

Lemma step_waiting junk fuel (x x' : Hc D) : ports_ok x -> waiting_ok x -> hc_step junk fuel x x' -> waiting_ok x'.
Proof.
  intros Hok Hw Hs. revert Hok Hw. destruct Hs as [e y y' He E|y y' Hs]; intros Hok Hw; [|exact (same_waiting y y' Hs Hw)]. revert E. unfold handle_event. destruct (trb_type e =? TRANSFER_EVENT).
  { unfold on_transfer_event. destruct (find_by_slot_id _ y) as [[d|]|]; cbn [mbind option_bind]; [|by intros [= <-]|done].
    destruct (with_dev _ d _ y) as [[d1 x1]|] eqn:E1; [|done]. apply with_dev_same in E1. pose proof (same_ports_ok _ _ E1 Hok) as Hok1. pose proof (same_waiting _ _ E1 Hw) as Hw1. cbn [mbind option_bind].
    destruct (port_states x1 _) eqn:Est; try same_state. destruct (is_initialized_ d1); [|by intros [= <-]]. by apply endpoints_waiting. }
  destruct (Z.eqb_spec (trb_type e) PORT_STATUS_CHANGE_EVENT) as [E|].
  { specialize (He E). pose proof (port_id_range e). unfold on_port_status_change. destruct (port_states y (port_id e)) eqn:Est; try same_state.
    - intros [= <-]. apply reset_port_waiting; [by left|lia|by rewrite Est].
    - apply enable_slot_waiting; [done| |done|done]. apply (po_one _ Hok). by rewrite Est. }
  destruct (trb_type e =? COMMAND_COMPLETION_EVENT); [by apply command_event_waiting|by intros [= <-]].
Qed.

Lemma start_waiting fuel base (h : D) supply x : start_controller fuel base h supply = Some (Some x) -> waiting_ok x.
Proof.
  intros Hstart. destruct (start_up fuel base h supply x Hstart) as (x2 & Hs & Hf). unfold configure_ports in Hf.
  assert (max_ports_ x2 < 256) as Hm.
  { destruct Hs as (_ & _ & ->). unfold new_controller. destruct (reg_read CAPLENGTH h) as [? h1]. destruct (reg_read HCSPARAMS1 h1) as [v h2]. apply (bits_range 24 8). lia. }
  destruct (for_n_inv (fun i y => ports_ok y /\ waiting_ok y) (Z.to_nat (max_ports_ x2 - 1)) 1 (fun i y => Some (configure_connected i y)) x2) as (y & E & Hy).
  - assert (ports_ok (new_controller h supply) /\ waiting_ok (new_controller h supply)) as [H1 H2].
    { unfold new_controller. destruct (reg_read CAPLENGTH h) as [? h1]. destruct (reg_read HCSPARAMS1 h1) as [v h2]. by repeat split. }
    split; [by apply (same_ports_ok _ _ Hs)|by apply (same_waiting _ _ Hs)].
  - intros i s Hi [Hok Hw]. eexists. split; [done|]. split; [apply configure_connected_ok; [lia|done]|]. unfold configure_connected. destruct (hc_read (PORTSC i) s) as [v z] eqn:Er. apply read_same in Er.
    pose proof (same_waiting _ _ Er Hw) as Hz. destruct (negb _); [done|]. unfold configure_port. destruct (port_states z i) eqn:Es; try done. apply reset_port_waiting; [by left|lia|by rewrite Es].
  - rewrite E in Hf. injection Hf as <-. apply Hy.
Qed.
End Ports.

(** C20: (port states) The driver works on at most one port at a time.  From the start of the
    controller on, whatever events the xHC reports and whatever the hardware does in
    between, the ports that the driver has in a state between reset and address are the
    port in [addressing_port] and no other.  This is about the driver's record: a device
    whose initialisation was aborted may still answer at the default address. *)
Theorem one_port_addressed {D} `{Mmio D} junk fuel base (h : D) supply x0 x : start_controller fuel base h supply = Some (Some x0) -> rtc (hc_step junk fuel) x0 x ->
  forall p, being_addressed (port_states x p) = true <-> p = addressing_port x /\ p <> 0.
Proof.
  intros Hs Hr. assert (ports_ok x) as [H1 H2 H3]; [|intros p; split; [intros Hp; split; [by apply H1|intros ->; by rewrite H3 in Hp]|intros [-> Hp]; by apply H2]].
  apply start_ports_ok in Hs. induction Hr as [|x y z Hxy _ IH]; [done|]. by apply IH, (step_ports_ok junk fuel x).
Qed.

(** A port that waits for its turn gets one.  When the ports stay connected and
    resets finish in time, in every state of every run a waiting port means that some
    port is being addressed, whose completion passes the turn on. *)
Theorem waiting_port_gets_turn {D} `{Mmio D} junk fuel base (h : D) supply x0 x : responsive (D := D) -> start_controller fuel base h supply = Some (Some x0) -> rtc (hc_step junk fuel) x0 x ->
  forall p, port_states x p = WAITING_ADDRESSED -> addressing_port x <> 0 /\ being_addressed (port_states x (addressing_port x)) = true.
Proof.
  intros Hresp Hs Hr. assert (ports_ok x /\ waiting_ok x) as [Hok Hw]; [|intros p Hp; pose proof (proj2 (Hw p Hp)) as Ha; split; [done|by apply (po_state _ Hok)]].
  assert (ports_ok x0 /\ waiting_ok x0) as H0 by (split; [by apply (start_ports_ok fuel base h supply)|by apply (start_waiting Hresp fuel base h supply)]). clear Hs.
  induction Hr as [|x y z Hxy _ IH]; [done|]. destruct H0 as [Hok Hw]. apply IH. split; [by apply (step_ports_ok junk fuel x)|by apply (step_waiting Hresp junk fuel x)].
Qed.

(** A waiting port that was unplugged blocks the others.  When the turn is passed on
    and the first waiting port [i] is not connected any more, no port gets the turn:
    every other waiting port keeps waiting, and events on it are ignored. *)
Theorem unplugged_port_blocks_others {D} `{Mmio D} (x : Hc D) i : List.find (is_waiting x) (seqZ 0 256) = Some i ->
  current_connect_status (reg_read (PORTSC i) (io_hw (hc_io x))).1 = false ->
  let y := proceed_to_next_waiting_port x in
  addressing_port y = 0 /\ (forall p, port_states y p = port_states x p) /\
  forall e, port_states x (port_id e) = WAITING_ADDRESSED -> on_port_status_change e y = Some y.
Proof.
  intros Hf Hc. unfold proceed_to_next_waiting_port. change (is_waiting (set_addressing 0 x)) with (is_waiting x). rewrite Hf. unfold reset_port, hc_read. cbn [hc_io set_addressing].
  destruct (reg_read (PORTSC i) (io_hw (hc_io x))) as [v h]. cbn [fst] in Hc. rewrite Hc. cbn [negb]. split_and!; [done|done|]. intros e He. unfold on_port_status_change. cbn [port_states set_addressing set_hc_io]. by rewrite He.
Qed.

(** ** Register words *)

(** Bits of the port register that keep what is written to them. *)
Definition PRESERVED : list Z := [5; 6; 7; 8; 9; 14; 15; 25; 26; 27].

Lemma testbit_table c (l : list Z) k : forallb (fun i => Bool.eqb (Z.testbit c i) (bool_decide (i ∈ l))) (seqZ 0 32) = true -> 0 <= k < 32 -> Z.testbit c k = bool_decide (k ∈ l).
Proof. intros Ht Hk. rewrite forallb_forall in Ht. apply Bool.eqb_prop, Ht, list_elem_of_In, elem_of_seqZ. lia. Qed.

(** The writes to a port register change what they are meant to.  A reset writes the
    preserved fields back, sets the reset bit and clears the connect change, and
    writes 0 elsewhere, so that no other change is cleared and the port is not
    disabled; the write that clears the reset change does the same with its bit. *)
Theorem portsc_writes_preserve v k : 0 <= k < 32 ->
  Z.testbit (reset_word v) k = (if decide (k ∈ PRESERVED) then Z.testbit v k else bool_decide (k = 4 \/ k = 17)) /\
  Z.testbit (clear_change_word PORTSC_PORT_RESET_CHANGE_BIT v) k = (if decide (k ∈ 16 :: PRESERVED) then Z.testbit v k else bool_decide (k = 21)).
Proof.
  intros Hk. unfold reset_word, clear_change_word. rewrite !Z.lor_spec, !Z.land_spec.
  rewrite (testbit_table PORTSC_RESET_PRESERVE_MASK PRESERVED), (testbit_table PORTSC_CLEAR_CHANGE_BIT_PRESERVE_MASK (16 :: PRESERVED)), (testbit_table PORTSC_RESET_SET_BITS [4; 17]), (testbit_table PORTSC_PORT_RESET_CHANGE_BIT [21]) by (done || by vm_compute).
  split.
  - destruct (decide (k ∈ PRESERVED)) as [Hp|Hp]; [rewrite bool_decide_eq_true_2 by done|rewrite (bool_decide_eq_false_2 (k ∈ PRESERVED)) by done].
    + rewrite andb_true_r, bool_decide_eq_false_2, orb_false_r; [done|]. intros H4. unfold PRESERVED in Hp. set_solver.
    + rewrite andb_false_r. cbn [orb]. apply bool_decide_ext. set_solver.
  - destruct (decide (k ∈ 16 :: PRESERVED)) as [Hp|Hp]; [rewrite bool_decide_eq_true_2 by done|rewrite (bool_decide_eq_false_2 (k ∈ 16 :: PRESERVED)) by done].
    + rewrite andb_true_r, bool_decide_eq_false_2, orb_false_r; [done|]. intros H4. unfold PRESERVED in Hp. set_solver.
    + rewrite andb_false_r. cbn [orb]. apply bool_decide_ext. set_solver.
Qed.

(** The array of device contexts reaches the controller only below 4 GiB: the address
    it reads from its register, bits 6 and up, is the one of the array exactly if that
    is a multiple of 64 that fits 32 bits. *)
Theorem context_array_registered a : 0 <= a < 2 ^ 64 -> Z.shiftl (bits 6 58 (dcbaap_set_pointer a 0)) 6 = a <-> a mod 64 = 0 /\ a < 2 ^ 32.
Proof.
  intros Ha. unfold dcbaap_set_pointer. assert (bits 6 58 (set_bits 6 26 (Z.shiftr a 6) 0) = (a / 64) mod 2 ^ 26) as ->.
  { apply Z.bits_inj'. intros k Hk. rewrite testbit_bits, testbit_set_bits, Z.bits_0 by lia. change 64 with (2 ^ 6). rewrite <- Z.shiftr_div_pow2 by lia.
    destruct (Z.ltb_spec k 26); [rewrite Z.mod_pow2_bits_low by lia|rewrite Z.mod_pow2_bits_high by lia]; destruct (Z.ltb_spec k 58), (Z.leb_spec 6 (k + 6)), (Z.ltb_spec (k + 6) (6 + 26)); try lia; cbn [andb]; try done. f_equal. lia. }
  rewrite Z.shiftl_mul_pow2 by lia. change (2 ^ 6) with 64. pose proof (Z.div_mod a 64). pose proof (Z.mod_pos_bound a 64). pose proof (Z.mod_pos_bound (a / 64) (2 ^ 26)). split.
  - intros E. split; [rewrite <- E; apply Z.mod_mul; lia|lia].
  - intros [E Hs]. rewrite Z.mod_small; [lia|]. split; [apply Z.div_pos; lia|apply Z.div_lt_upper_bound; lia].
Qed.
