(* ===== verification/UsbSpec.v ===== *)
(** * What the USB stack promises

    Keyboard reports become key events that say what changed
    ([keyboard_reports_keys], through the transfer ring and the transfer events), and
    the descriptors of a device are read as a list of records
    ([interface_selected]).  At the end a simple xHC with one keyboard, as QEMU
    presents it, is driven from plug to key press, and the theorems of [XhciSpec] and of
    this file are applied to its states. *)

From S2P Require Import Prelude BitUtils Trb TrbRing UsbDevice Xhci XhciSpec.

Open Scope Z_scope.

(** ** Key events

    [plays S ks S']: the events [ks] are what happens when the keys [S] are down
    before and [S'] after; a key only goes down when it is up, and up when it is
    down. *)
Inductive plays : gset Z -> list Key -> gset Z -> Prop :=
  | plays_nil S : plays S [] S
  | plays_press S m key ks S' : key ∉ S -> plays ({[key]} ∪ S) ks S' -> plays S (mkKey m key true :: ks) S'
  | plays_release S m key ks S' : key ∈ S -> plays (S ∖ {[key]}) ks S' -> plays S (mkKey m key false :: ks) S'.

(** The keys a report says are down: its non-zero codes. *)
Definition down (codes : list Z) : gset Z := list_to_set (filter (fun c => c <> 0) codes).

Lemma elem_of_down codes c : c ∈ down codes <-> c <> 0 /\ c ∈ codes.
Proof. unfold down. by rewrite elem_of_list_to_set, list_elem_of_filter. Qed.

Definition key_event (m : Z) (prev current : list Z) (key : Z) : list Key :=
  if xorb (code_set prev key) (code_set current key) then [mkKey m key (xorb (code_set prev key) (code_set current key) && code_set current key)] else [].

(** The events for a list of distinct keys play the changes of these. *)
Lemma key_events_play m prev current L : NoDup L -> forall S, (forall key, key ∈ L -> key ∈ S <-> key ∈ prev) ->
  exists S', plays S (flat_map (key_event m prev current) L) S' /\ forall key, key ∈ S' <-> (if decide (key ∈ L) then key ∈ current else key ∈ S).
Proof.
  induction L as [|key L IH]; intros Hnd S HS; cbn [flat_map].
  { exists S. split; [constructor|]. intros c. destruct (decide (c ∈ [])) as [Hc|]; [|done]. by apply not_elem_of_nil in Hc. }
  apply NoDup_cons in Hnd as [Hk Hnd]. unfold key_event at 1, code_set. pose proof (HS key ltac:(set_solver)) as Hkey.
  assert (forall S1 : gset Z, (forall c, c <> key -> c ∈ S1 <-> c ∈ S) -> forall c, c ∈ L -> c ∈ S1 <-> c ∈ prev) as Hrest.
  { intros S1 H1 c Hc. rewrite H1 by (intros ->; done). apply HS. set_solver. }
  destruct (decide (key ∈ prev)) as [Hp|Hp], (decide (key ∈ current)) as [Hc|Hc].
  - rewrite !bool_decide_eq_true_2 by done. cbn [xorb app]. destruct (IH Hnd S) as (S' & HS' & Hm); [by apply Hrest|]. exists S'. split; [done|]. intros c. rewrite Hm.
    destruct (decide (c ∈ L)), (decide (c ∈ key :: L)) as [E|E]; set_solver.
  - rewrite (bool_decide_eq_true_2 (key ∈ prev)), (bool_decide_eq_false_2 (key ∈ current)) by done. cbn [xorb app andb negb]. destruct (IH Hnd (S ∖ {[key]})) as (S' & HS' & Hm); [apply Hrest; set_solver|].
    exists S'. split; [constructor; [by apply Hkey|done]|]. intros c. rewrite Hm. destruct (decide (c ∈ L)), (decide (c ∈ key :: L)) as [E|E]; set_solver.
  - rewrite (bool_decide_eq_false_2 (key ∈ prev)), (bool_decide_eq_true_2 (key ∈ current)) by done. cbn [xorb app andb negb]. destruct (IH Hnd ({[key]} ∪ S)) as (S' & HS' & Hm); [apply Hrest; set_solver|].
    exists S'. split; [constructor; [by rewrite Hkey|done]|]. intros c. rewrite Hm. destruct (decide (c ∈ L)), (decide (c ∈ key :: L)) as [E|E]; set_solver.
  - rewrite !bool_decide_eq_false_2 by done. cbn [xorb app]. destruct (IH Hnd S) as (S' & HS' & Hm); [by apply Hrest|]. exists S'. split; [done|]. intros c. rewrite Hm.
    destruct (decide (c ∈ L)), (decide (c ∈ key :: L)) as [E|E]; set_solver.
Qed.

(** A report of bytes. *)
Definition bytes (l : list Z) : Prop := Forall (fun b => 0 <= b < 256) l.

Lemma report_codes_some b : (8 <= length b)%nat -> bytes b -> exists codes, report_codes b = Some codes /\ bytes codes.
Proof.
  intros Hl Hb. unfold report_codes. assert (forall i, 0 <= i < 8 -> exists x, atz b i = Some x /\ 0 <= x < 256) as Hat.
  { intros i Hi. destruct (atz_lt b i) as [x Hx]; [unfold lenz; lia|]. exists x. split; [done|]. apply atz_Some in Hx as [_ Hx]. by apply (proj1 (Forall_lookup _ _) Hb _ _ Hx). }
  destruct (Hat 2) as (a2 & E2 & H2); [lia|]. destruct (Hat 3) as (a3 & E3 & H3); [lia|]. destruct (Hat 4) as (a4 & E4 & H4); [lia|]. destruct (Hat 5) as (a5 & E5 & H5); [lia|]. destruct (Hat 6) as (a6 & E6 & H6); [lia|]. destruct (Hat 7) as (a7 & E7 & H7); [lia|].
  exists [a2; a3; a4; a5; a6; a7]. split; [|repeat apply Forall_cons_2; [done..|apply Forall_nil_2]]. cbn [mapM]. by rewrite E2, E3, E4, E5, E6, E7.
Qed.

(** What the driver tells its one observer. *)
Lemma data_received_plays k : num_observers_ k = 1 -> (8 <= length (hid_buffer k))%nat -> (8 <= length (prev_buffer_ k))%nat -> bytes (hid_buffer k) -> bytes (prev_buffer_ k) ->
  exists ks prev current, on_data_received k = Some ks /\ report_codes (prev_buffer_ k) = Some prev /\ report_codes (hid_buffer k) = Some current /\ plays (down prev) ks (down current).
Proof.
  intros Ho Hl Hl' Hb Hb'. destruct (report_codes_some _ Hl' Hb') as (prev & Ep & Bp). destruct (report_codes_some _ Hl Hb) as (current & Ec & Bc). unfold on_data_received. rewrite Ep, Ec. cbn [mbind option_bind].
  destruct (atz_lt (hid_buffer k) 0) as [m Em]; [unfold lenz; lia|]. rewrite Em. cbn [mbind option_bind]. exists (flat_map (key_event m prev current) (seqZ 1 255)), prev, current.
  destruct (key_events_play m prev current (seqZ 1 255)) with (S := down prev) as (S' & Hpl & HS').
  - apply NoDup_seqZ.
  - intros key Hk. apply elem_of_seqZ in Hk. rewrite elem_of_down. split; [by intros [_ ?]|intros ?; split; [lia|done]].
  - split_and!; [|done|done|].
    + f_equal. apply flat_map_ext. intros key. unfold key_event, notify_key_push. rewrite Ho. done.
    + replace (down current) with S'; [done|]. apply set_eq. intros c. rewrite HS'. destruct (decide (c ∈ seqZ 1 255)) as [Hc|Hc]; rewrite elem_of_seqZ in Hc; rewrite !elem_of_down.
      * split; [intros ?; split; [lia|done]|by intros [_ ?]].
      * assert (forall l, bytes l -> c ∈ l -> c = 0) as Hz by (intros l Hl0 Hin; pose proof (proj1 (Forall_forall _ _) Hl0 c Hin); cbn in *; lia). split; intros [Hne Hin]; [by destruct Hne; apply (Hz prev)|by destruct Hne; apply (Hz current)].
Qed.

(** ** A keyboard in operation *)

(** The block that asks for the next report, and the event that says it arrived. *)
Definition report_trb (addr len : Z) : Trb :=
  set_interrupt_on_completion (set_interrupt_on_short_packet (set_transfer_length len (set_pointer64 addr normal_trb))).
Definition report_event (p ep residual code : Z) : Trb :=
  set_pointer64 p (mkTrb 0 0 (set_bits 24 8 code (set_bits 0 24 residual 0)) (set_bits 16 5 ep (set_bits 10 6 TRANSFER_EVENT 0))).

Lemma report_event_fields p ep residual code : 0 <= p < 2 ^ 64 -> 0 <= ep < 32 -> 0 <= residual < 2 ^ 24 -> 0 <= code < 256 ->
  pointer64 (report_event p ep residual code) = p /\ endpoint_id (report_event p ep residual code) = ep /\
  residual_length (report_event p ep residual code) = residual /\ completion_code (report_event p ep residual code) = code.
Proof.
  intros Hp He Hr Hc. split; [by apply pointer64_set|]. unfold endpoint_id, residual_length, completion_code. cbn [report_event set_pointer64 set_d0 set_d1 d2 d3]. split_and!; bits_simpl; done.
Qed.

Lemma report_trb_fields c addr len : 0 <= addr < 2 ^ 64 -> 0 <= len < 2 ^ 17 -> let t := with_cycle c (report_trb addr len) in
  trb_type t = NORMAL /\ pointer64 t = addr /\ trb_transfer_length t = len.
Proof.
  intros Ha Hl t. unfold t, trb_type. rewrite bits_with_cycle by lia. split_and!.
  - cbn [report_trb set_interrupt_on_completion set_interrupt_on_short_packet set_transfer_length set_pointer64 normal_trb with_type zero_trb set_d0 set_d1 set_d2 set_d3 d3]. by bits_simpl.
  - apply (pointer64_set addr (set_interrupt_on_completion (set_interrupt_on_short_packet (set_transfer_length len normal_trb)))). done.
  - unfold trb_transfer_length. cbn [with_cycle report_trb set_interrupt_on_completion set_interrupt_on_short_packet set_transfer_length set_pointer64 normal_trb with_type zero_trb set_d0 set_d1 set_d2 set_d3 d2]. bits_simpl. done.
Qed.

Lemma report_trb_type addr len : trb_type (report_trb addr len) <> LINK.
Proof.
  unfold trb_type. cbn [report_trb set_interrupt_on_completion set_interrupt_on_short_packet set_transfer_length set_pointer64 normal_trb with_type zero_trb set_d0 set_d1 set_d2 set_d3 d3]. by bits_simpl.
Qed.

Section Session.
Context {D : Type} `{Mmio D} (fuel : nat) (i ep b n : Z).

(** The bytes a transfer writes to the start of a buffer. *)
Definition dma (r buf : list Z) : list Z := r ++ drop (length r) buf.

(** One round of the xHC and the driver: the xHC takes the next block of the ring, the
    keyboard's report [r] goes to the buffer it names, and the driver handles the
    event. *)
Definition report_round (r : list Z) (s : Dev * Io D * XhcRing) : option (Dev * Io D * XhcRing) :=
  let '(d, io, h) := s in
  '(p, t, h) ← xhc_fetch h (io_mem io);
  k ← atz (drivers d) i;
  if pointer64 t =? hid_buffer_addr k then
    let d := put_driver i (set_hid_buffer (dma r (hid_buffer k)) k) d in
    let residual := trb_transfer_length t - lenz r in
    let code := if residual =? 0 then COMPLETION_CODE_SUCCESS else COMPLETION_CODE_SHORT_PACKET in
    '(d, io) ← on_transfer_event_received fuel (report_event p ep residual code) d io;
    Some (d, io, h)
  else None.

Fixpoint report_rounds (rs : list (list Z)) (s : Dev * Io D * XhcRing) : option (Dev * Io D * XhcRing) :=
  match rs with
  | [] => Some s
  | r :: rs => s ← report_round r s; report_rounds rs s
  end.

(** The driver with one report requested. *)
Record in_operation (d : Dev) (io : Io D) (h : XhcRing) (k : Driver) : Prop := mkInOperation {
  iop_driver : atz (drivers d) i = Some k;
  iop_class : atz (ClassDrivers_ d) (number ep) = Some (Some i);
  iop_ep : 1 <= ep <= 31 /\ is_in ep = true /\ ep_interrupt_in_ k = ep;
  iop_size : in_packet_size_ k = 8 /\ num_observers_ k = 1;
  iop_buffer : length (hid_buffer k) = 1024%nat /\ bytes (hid_buffer k) /\ prev_buffer_ k = hid_buffer k /\ 0 <= hid_buffer_addr k < 2 ^ 64;
  iop_ring : exists l, link_ok b n l /\ lk_mem l = io_mem io /\ lk_xhc l = h /\ atz (transfer_rings_ d) (ep - 1) = Some (RingAt (lk_ring l)) /\
    lenz (pushed l) = lenz (taken l) + 1 /\ acked l = lenz (taken l) /\ atz (pushed l) (lenz (taken l)) = Some (report_trb (hid_buffer_addr k) 8);
}.

Context (Hb : 0 < b) (Ha : b mod 16 = 0) (Hn : 2 <= n) (Hend : elem b (n + 1) <= 2 ^ 64).

Lemma dma_spec r k : (length r <= 8)%nat -> bytes r -> length (hid_buffer k) = 1024%nat -> bytes (hid_buffer k) ->
  length (dma r (hid_buffer k)) = 1024%nat /\ bytes (dma r (hid_buffer k)).
Proof. intros Hr Hbr Hl Hbb. unfold dma. rewrite length_app, length_drop. split; [lia|]. apply Forall_app. split; [done|]. by apply Forall_drop. Qed.

(** After the round the previous report is the one that arrived. *)
Lemma copy_report_dma r k : (length r <= 8)%nat -> prev_buffer_ k = hid_buffer k ->
  copy_report (lenz r) (set_hid_buffer (dma r (hid_buffer k)) k) = Some (set_prev_buffer (dma r (hid_buffer k)) (set_hid_buffer (dma r (hid_buffer k)) k)).
Proof.
  intros Hr Hp. unfold copy_report, HID_BUFFER_SIZE. destruct (Z.leb_spec (lenz r) 1024); [|unfold lenz in *; lia]. cbn [hid_buffer set_hid_buffer prev_buffer_]. rewrite Hp. do 2 f_equal.
  unfold lenz, dma. rewrite Nat2Z.id. by rewrite take_app_length.
Qed.

(** The next request goes to the ring. *)
Lemma next_report_ok d io l k : atz (drivers d) i = Some k -> ep_interrupt_in_ k = ep -> in_packet_size_ k = 8 -> 1 <= ep -> atz (transfer_rings_ d) (ep - 1) = Some (RingAt (lk_ring l)) ->
  link_ok b n l -> lk_mem l = io_mem io -> lenz (pushed l) = acked l -> lenz (pushed l) = lenz (taken l) ->
  exists d' io' l', next_report i d io = Some (d', io') /\ io_keys io' = io_keys io /\ drivers d' = drivers d /\ ClassDrivers_ d' = ClassDrivers_ d /\
    atz (transfer_rings_ d') (ep - 1) = Some (RingAt (lk_ring l')) /\ link_ok b n l' /\ lk_mem l' = io_mem io' /\ lk_xhc l' = lk_xhc l /\ taken l' = taken l /\ acked l' = acked l /\
    pushed l' = pushed l ++ [report_trb (hid_buffer_addr k) 8].
Proof.
  intros Hk Hep Hsz He Hring Hok Hm Hwa Hwt. unfold next_report. rewrite Hk. cbn [mbind option_bind]. unfold interrupt_in. rewrite Hep, Hsz, Hring. cbn [mbind option_bind]. unfold dev_push.
  change (set_interrupt_on_completion _) with (report_trb (hid_buffer_addr k) 8). rewrite <- Hm. rewrite (push_result b n Hb ltac:(lia) Hend l) by (done || lia). cbn [mbind option_bind].
  pose proof (Z.mod_pos_bound (lenz (pushed l)) n ltac:(lia)). destruct (Z.eqb_spec (elem b (lenz (pushed l) mod n)) 0) as [E|_]; [unfold elem in E; lia|].
  eexists _, _, (mkLink _ _ (lk_xhc l) (pushed l ++ [report_trb (hid_buffer_addr k) 8]) (taken l) (acked l)). split; [reflexivity|]. cbn [io_keys set_io_mem set_io_hw ring_doorbell drivers ClassDrivers_ set_rings transfer_rings_ lk_ring lk_mem lk_xhc pushed taken acked io_mem].
  split_and!; try done; [|apply (push_keeps_ok b n ltac:(lia) l); [done|apply report_trb_type|lia]]. apply atz_setz_eq. apply atz_Some_lt in Hring. lia.
Qed.

Lemma driver_put k d : 0 <= i < lenz (drivers d) -> atz (drivers (put_driver i k d)) i = Some k.
Proof. intros Hi. by apply atz_setz_eq. Qed.

(** One report: the events play the changes, and the next report is requested. *)
Lemma report_round_ok r d io h k : in_operation d io h k -> (length r <= 8)%nat -> bytes r ->
  exists d' io' h' k' ks prev current, report_round r (d, io, h) = Some (d', io', h') /\ in_operation d' io' h' k' /\ hid_buffer k' = dma r (hid_buffer k) /\
    io_keys io' = io_keys io ++ ks /\ report_codes (hid_buffer k) = Some prev /\ report_codes (hid_buffer k') = Some current /\ plays (down prev) ks (down current).
Proof.
  intros [Hk Hcl (Hep & Hin & Hepk) [Hsz Hob] (Hlen & Hby & Hprev & Haddr) (l & Hok & Hm & Hh & Hring & Hw & Hac & Hlast)] Hr Hbr.
  destruct (fetch_spec b n Hb Ha ltac:(lia) Hend l Hok) as [Hf _]. destruct Hf as (t & Ht & Ef); [lia|]. rewrite Hlast in Ht. injection Ht as <-.
  set (c := Z.even (lenz (taken l) / n)) in *. set (p := elem b (lenz (taken l) mod n)) in *. destruct (report_trb_fields c (hid_buffer_addr k) 8) as (Fty & Fp & Fl); [done|lia|].
  unfold report_round. rewrite <- Hh, <- Hm, Ef. cbn [mbind option_bind]. rewrite Hk. cbn [mbind option_bind]. rewrite Fp, Z.eqb_refl, Fl. set (k1 := set_hid_buffer (dma r (hid_buffer k)) k). set (d1 := put_driver i k1 d).
  set (res := 8 - lenz r). set (code := if res =? 0 then _ else _). assert (0 <= p < 2 ^ 64) as Hp by (unfold p; pose proof (Z.mod_pos_bound (lenz (taken l)) n ltac:(lia)); unfold elem in *; lia).
  assert (0 <= code < 256) as Hcode by (unfold code; by destruct (res =? 0)). assert (0 <= res < 2 ^ 24) as Hres by (unfold res, lenz; lia). destruct (report_event_fields p ep res code Hp ltac:(lia) Hres Hcode) as (Ep & Ee & Er & Ec).
  unfold on_transfer_event_received, acknowledge. rewrite Ep, Ee, Er, Ec. destruct (Z.leb_spec 1 ep), (Z.leb_spec ep 31); try lia. cbn [andb]. change (transfer_rings_ d1) with (transfer_rings_ d). rewrite Hring. cbn [mbind option_bind].
  pose proof (take_keeps_ok b n Hb Ha ltac:(lia) Hend l _ _ _ Hok Ef) as Hok1. set (l1 := mkLink _ _ _ _ _ _) in Hok1. assert (lenz (taken l1) = lenz (taken l) + 1) as Et by (unfold l1; cbn [taken]; by rewrite lenz_app).
  assert (atz (taken l1) (lenz (taken l)) = Some (p, with_cycle c (report_trb (hid_buffer_addr k) 8))) as Hat.
  { apply atz_Some. split; [apply lenz_nonneg|]. unfold l1, lenz. cbn [taken]. rewrite Nat2Z.id. by apply list_lookup_middle. }
  pose proof (ack_keeps_ok b n Hb ltac:(lia) l1 (lenz (taken l)) p _ Hok1 ltac:(unfold l1; cbn [acked]; lia) Hat) as Hok2. set (l2 := mkLink _ _ _ _ _ _) in Hok2.
  replace (negb ((code =? COMPLETION_CODE_SUCCESS) || (code =? COMPLETION_CODE_SHORT_PACKET))) with false by (unfold code; by destruct (res =? 0)).
  assert (lk_mem l !! p = Some (with_cycle c (report_trb (hid_buffer_addr k) 8))) as Hmp by (apply (lk_slots b n l Hok); [lia|done]). rewrite <- Hm, Hmp. cbn [mbind option_bind]. rewrite Fty, Fl. change (NORMAL =? NORMAL) with true. cbv iota.
  replace (i32 (u32 (8 - res))) with (lenz r) by (unfold res; rewrite wrap_small, signed_small; unfold lenz; lia).
  set (d2 := set_rings _ d1). unfold on_interrupt_completed. change (ClassDrivers_ d2) with (ClassDrivers_ d). rewrite Hcl. cbn [mbind option_bind]. unfold hid_interrupt_completed. rewrite Hin.
  assert (atz (drivers d2) i = Some k1) as Hk1 by (apply driver_put; by apply atz_Some_lt in Hk). rewrite Hk1. cbn [mbind option_bind]. destruct (dma_spec r k Hr Hbr Hlen Hby) as [Hlen1 Hby1].
  destruct (data_received_plays k1) as (ks & prev & current & Eks & Epv & Ecu & Hpl); [done|cbn; lia|cbn; rewrite Hprev; lia|done|cbn; by rewrite Hprev|]. rewrite Eks. cbn [mbind option_bind].
  unfold k1 at 1. rewrite copy_report_dma by done. cbn [mbind option_bind]. set (k2 := set_prev_buffer _ _).
  destruct (next_report_ok (put_driver i k2 d2) (add_keys ks io) l2 k2) as (d' & io' & l' & E & Hio & Hdr & Hcd & Hr' & Hok' & Hm' & Hx' & Ht' & Ha' & Hp').
  { apply driver_put. by apply atz_Some_lt in Hk1. }
  { done. } { done. } { lia. }
  { change (transfer_rings_ (put_driver i k2 d2)) with (setz (transfer_rings_ d) (ep - 1) (RingAt (lk_ring l2))). apply atz_setz_eq. by apply atz_Some_lt in Hring. }
  { done. } { exact Hm. } { unfold l2, l1. cbn [pushed acked]. lia. } { unfold l2, l1. cbn [pushed taken]. rewrite lenz_app. exact Hw. }
  rewrite E. cbn [mbind option_bind]. eexists d', io', _, k2, ks, prev, current. split; [reflexivity|]. split_and!; [|done|by rewrite Hio|by rewrite <- Hprev|done|done].
  split; [by rewrite Hdr; apply driver_put; apply atz_Some_lt in Hk1|by rewrite Hcd|done|done|done|].
  exists l'. rewrite Ht', Ha', Hp'. unfold l2, l1. cbn [taken acked pushed]. rewrite !lenz_app. split_and!; try done; [rewrite Hw; change (lenz [_]) with 1; lia|].
  apply atz_Some. split; [unfold lenz; lia|]. rewrite lookup_app_r by (unfold lenz in *; cbn [length] in *; lia).
  replace (Z.to_nat _ - length (pushed l))%nat with 0%nat by (unfold lenz in *; cbn [length] in *; lia). done.
Qed.
End Session.

Lemma plays_trans S ks S' ks' S'' : plays S ks S' -> plays S' ks' S'' -> plays S (ks ++ ks') S''.
Proof. induction 1; intros; cbn [app]; [done| |]; constructor; auto. Qed.

(** C11: The key events say what the keyboard reported.  A keyboard in operation handles
    every sequence of reports of up to eight bytes: each round returns, the next
    report is requested, and the calls of the observer play the changes from the keys
    that were down before to those of the last report, each key going down only when
    it is up and up only when it is down. *)
Theorem keyboard_reports_keys {D} `{Mmio D} fuel i ep b n d (io : Io D) h k rs : 0 < b -> b mod 16 = 0 -> 2 <= n -> elem b (n + 1) <= 2 ^ 64 ->
  in_operation i ep b n d io h k -> Forall (fun r => (length r <= 8)%nat /\ bytes r) rs ->
  exists d' io' h' k' ks prev current, report_rounds fuel i ep rs (d, io, h) = Some (d', io', h') /\ in_operation i ep b n d' io' h' k' /\
    hid_buffer k' = fold_left (fun buf r => dma r buf) rs (hid_buffer k) /\ io_keys io' = io_keys io ++ ks /\
    report_codes (hid_buffer k) = Some prev /\ report_codes (hid_buffer k') = Some current /\ plays (down prev) ks (down current).
Proof.
  intros Hb Ha Hn Hend Hop Hrs. revert d io h k Hop. induction Hrs as [|r rs [Hr Hbr] _ IH]; intros d io h k Hop; cbn [report_rounds fold_left].
  - destruct (iop_buffer _ _ _ _ _ _ _ _ Hop) as (Hl & Hby & _). destruct (report_codes_some (hid_buffer k)) as (codes & E & _); [lia|done|]. exists d, io, h, k, [], codes, codes. rewrite app_nil_r. split_and!; try done. constructor.
  - destruct (report_round_ok fuel i ep b n Hb Ha Hn Hend r d io h k Hop Hr Hbr) as (d1 & io1 & h1 & k1 & ks1 & prev & cur & -> & Hop1 & Ek & Ei & Ep & Ec & Hpl). cbn [mbind option_bind].
    destruct (IH d1 io1 h1 k1 Hop1) as (d2 & io2 & h2 & k2 & ks2 & prev2 & cur2 & -> & Hop2 & Ek2 & Ei2 & Ep2 & Ec2 & Hpl2). rewrite Ec in Ep2. injection Ep2 as <-.
    exists d2, io2, h2, k2, (ks1 ++ ks2), prev, cur2. rewrite <- Ek, Ei2, Ei, app_assoc. split_and!; try done. by apply (plays_trans _ _ (down cur)).
Qed.

(** ** Descriptors *)

(** The configuration of a device as a list of descriptors. *)
Definition desc_ok (t : list Z) : Prop := (2 <= length t)%nat /\ t !! 0%nat = Some (lenz t) /\ (t !! 1%nat = Some INTERFACE_DESCRIPTOR -> (9 <= length t)%nat) /\ (t !! 1%nat = Some ENDPOINT_DESCRIPTOR -> (7 <= length t)%nat).
Definition has_type (ty : Z) (t : list Z) : bool := bool_decide (t !! 1%nat = Some ty).
Definition field (t : list Z) (i : nat) : Z := default 0 (t !! i).

(** A reference for the choice of the driver: the first boot keyboard interface, and
    the endpoint descriptors that follow it. *)
Definition keyboard_interface (t : list Z) : bool := has_type INTERFACE_DESCRIPTOR t && (field t 5 =? 3) && (field t 6 =? 1) && (field t 7 =? KEYBOARD_INTERFACE_PROTOCOL).
Definition endpoint_config (t : list Z) : EndpointConfig :=
  mkEndpointConfig (endpoint_address (bits 0 4 (field t 2)) (bits 7 1 (field t 2) =? 1)) (endpoint_type (bits 0 2 (field t 3))) (field t 4 + 256 * field t 5) (field t 6).

Fixpoint find_keyboard (ds : list (list Z)) : option (list Z * list (list Z)) :=
  match ds with
  | [] => None
  | t :: ds => if keyboard_interface t then Some (t, ds) else find_keyboard ds
  end.
Definition endpoints (ds : list (list Z)) : list EndpointConfig := map endpoint_config (List.filter (has_type ENDPOINT_DESCRIPTOR) ds).

Section Descriptors.
Context {D : Type} `{Mmio D}.

Lemma byte_in (d : Dev) pre t post i x : dev_buffer d = pre ++ t ++ post -> t !! i = Some x -> byte_at d (dev_buffer_addr d + lenz pre + Z.of_nat i) = Some x.
Proof.
  intros Hd Hx. unfold byte_at. apply atz_Some. unfold lenz. split; [lia|]. replace (Z.to_nat _) with (length pre + i)%nat by lia. rewrite Hd, lookup_app_r by lia. replace (length pre + i - length pre)%nat with i by lia. by apply lookup_app_l_Some.
Qed.

(** The buffer around a descriptor. *)
Definition around (d : Dev) (pre : list (list Z)) (t : list Z) (post : list (list Z)) : Prop :=
  exists rest, dev_buffer d = concat pre ++ t ++ (concat post ++ rest).

Definition pos (d : Dev) (pre : list (list Z)) : Z := dev_buffer_addr d + lenz (concat pre).

Lemma around_next d pre t t' post : around d pre t (t' :: post) -> around d (pre ++ [t]) t' post.
Proof. intros [rest E]. exists rest. rewrite E. cbn [concat]. rewrite concat_app. cbn [concat]. by rewrite app_nil_r, <- !app_assoc. Qed.

Lemma pos_next d pre t : pos d (pre ++ [t]) = pos d pre + lenz t.
Proof. unfold pos. rewrite concat_app. cbn [concat]. rewrite app_nil_r, lenz_app. lia. Qed.

Lemma byte_around d pre t post i x : around d pre t post -> t !! i = Some x -> byte_at d (pos d pre + Z.of_nat i) = Some x.
Proof. intros [rest E]. by apply (byte_in d (concat pre) t (concat post ++ rest)). Qed.

Lemma desc_next_spec d pre t post len : around d pre t post -> desc_ok t -> Forall desc_ok post -> len = lenz (concat (pre ++ t :: post)) ->
  desc_next (dev_buffer_addr d) len d (pos d pre) = Some (pos d (pre ++ [t]), negb (bool_decide (post = []))).
Proof.
  intros Har (Hl & H0 & _) Hpost ->. unfold desc_next. pose proof (byte_around d pre t post 0 _ Har H0) as E. rewrite Z.add_0_r in E. rewrite E. cbn [mbind option_bind]. rewrite <- pos_next. do 2 f_equal.
  unfold pos. rewrite !concat_app. cbn [concat]. rewrite app_nil_r, !lenz_app. destruct post as [|t' post]; cbn [concat bool_decide].
  - rewrite bool_decide_eq_true_2 by done. cbn [negb]. apply Z.ltb_ge. change (lenz []) with 0. lia.
  - rewrite bool_decide_eq_false_2 by done. cbn [negb]. apply Z.ltb_lt. rewrite lenz_app. pose proof (lenz_nonneg (concat post)). apply Forall_cons in Hpost as [(Hl' & _) _]. unfold lenz in *. lia.
Qed.

Lemma descriptor_is_spec d pre t post ty : around d pre t post -> desc_ok t -> descriptor_is ty d (pos d pre) = Some (has_type ty t).
Proof.
  intros Har (Hl & _). destruct (lookup_lt_is_Some_2 t 1) as [x Hx]; [lia|]. unfold descriptor_is, has_type. pose proof (byte_around d pre t post 1 x Har Hx) as E. change (Z.of_nat 1) with 1 in E. rewrite E, Hx. cbn [mbind option_bind]. f_equal.
  case_bool_decide as Hd; [injection Hd as ->; apply Z.eqb_refl|]. apply Z.eqb_neq. congruence.
Qed.

Lemma next_of_found ty d skipped : forall pre t t' post fuel len, around d pre t (skipped ++ t' :: post) -> desc_ok t -> Forall desc_ok (skipped ++ t' :: post) ->
  len = lenz (concat (pre ++ t :: skipped ++ t' :: post)) -> Forall (fun x => has_type ty x = false) skipped -> has_type ty t' = true -> (length skipped < fuel)%nat ->
  desc_next_of fuel ty (dev_buffer_addr d) len d (pos d pre) = Some (pos d (pre ++ t :: skipped), true).
Proof.
  induction skipped as [|s skipped IH]; intros pre t t' post fuel len Har Ht Hall Hlen Hsk Hty Hf; (destruct fuel as [|fuel]; [cbn in Hf; lia|]); cbn [desc_next_of]; rewrite (desc_next_spec d pre t _ len Har Ht Hall Hlen); cbn [mbind option_bind].
  - rewrite bool_decide_eq_false_2 by done. cbn [negb]. apply Forall_cons in Hall as [Ht' _]. rewrite (descriptor_is_spec d (pre ++ [t]) t' post ty (around_next _ _ _ _ _ Har) Ht'). cbn [mbind option_bind]. by rewrite Hty.
  - rewrite bool_decide_eq_false_2 by done. cbn [negb]. apply Forall_cons in Hall as [Hs Hall]. apply Forall_cons in Hsk as [Hns Hsk]. rewrite (descriptor_is_spec d (pre ++ [t]) s _ ty (around_next _ _ _ _ _ Har) Hs). cbn [mbind option_bind]. rewrite Hns.
    rewrite (IH (pre ++ [t]) s t' post fuel len); [by rewrite <- app_assoc|by apply around_next|done|done|by rewrite <- app_assoc|done|done|cbn in Hf; lia].
Qed.

Lemma next_of_none ty d post : forall pre t fuel len, around d pre t post -> desc_ok t -> Forall desc_ok post -> len = lenz (concat (pre ++ t :: post)) ->
  Forall (fun x => has_type ty x = false) post -> (length post < fuel)%nat -> desc_next_of fuel ty (dev_buffer_addr d) len d (pos d pre) = Some (pos d (pre ++ t :: post), false).
Proof.
  induction post as [|s post IH]; intros pre t fuel len Har Ht Hall Hlen Hno Hf; (destruct fuel as [|fuel]; [cbn in Hf; lia|]); cbn [desc_next_of]; rewrite (desc_next_spec d pre t _ len Har Ht Hall Hlen); cbn [mbind option_bind].
  - by rewrite bool_decide_eq_true_2.
  - rewrite bool_decide_eq_false_2 by done. cbn [negb]. apply Forall_cons in Hall as [Hs Hall]. apply Forall_cons in Hno as [Hns Hno]. rewrite (descriptor_is_spec d (pre ++ [t]) s _ ty (around_next _ _ _ _ _ Har) Hs). cbn [mbind option_bind]. rewrite Hns.
    rewrite (IH (pre ++ [t]) s fuel len); [by rewrite <- app_assoc|by apply around_next|done|done|by rewrite <- app_assoc|done|cbn in Hf; lia].
Qed.

(** The first descriptor of a type, if there is one. *)
Lemma first_of_type ty (ds : list (list Z)) : Forall (fun x => has_type ty x = false) ds \/
  exists skipped t post, ds = skipped ++ t :: post /\ Forall (fun x => has_type ty x = false) skipped /\ has_type ty t = true.
Proof.
  induction ds as [|t ds IH]; [by left|]. destruct (has_type ty t) eqn:E; [right; by exists [], t, ds|]. destruct IH as [IH|(sk & t' & post & -> & Hs & Ht)]; [left; by constructor|].
  right. exists (t :: sk), t', post. split_and!; [done|by constructor|done].
Qed.

Lemma find_keyboard_skip sk ds : Forall (fun x => has_type INTERFACE_DESCRIPTOR x = false) sk -> find_keyboard (sk ++ ds) = find_keyboard ds.
Proof. induction 1 as [|t sk Ht _ IH]; cbn [find_keyboard app]; [done|]. unfold keyboard_interface. by rewrite Ht. Qed.

(** The fields of an interface descriptor are inside. *)
Lemma interface_fields d pre t post i z : around d pre t post -> desc_ok t -> has_type INTERFACE_DESCRIPTOR t = true -> (i < 9)%nat -> z = Z.of_nat i -> byte_at d (pos d pre + z) = Some (field t i).
Proof.
  intros Har (_ & _ & H9 & _) Hty Hi ->. apply bool_decide_eq_true in Hty. specialize (H9 Hty). destruct (lookup_lt_is_Some_2 t i) as [x Hx]; [lia|]. rewrite (byte_around d pre t post i x Har Hx). unfold field. by rewrite Hx.
Qed.

Lemma new_class_driver_none d pre t post (io : Io D) : around d pre t post -> desc_ok t -> has_type INTERFACE_DESCRIPTOR t = true -> keyboard_interface t = false ->
  new_class_driver (pos d pre) d io = Some (None, d, io).
Proof.
  intros Har Ht Hty Hk. unfold new_class_driver. pose proof (fun i z => interface_fields d pre t post i z Har Ht Hty) as Hf.
  rewrite (Hf 5%nat 5), (Hf 6%nat 6), (Hf 7%nat 7), (Hf 2%nat 2) by lia. cbn [mbind option_bind]. unfold keyboard_interface in Hk. rewrite Hty in Hk. cbn [andb] in Hk.
  destruct (field t 5 =? 3), (field t 6 =? 1); cbn [andb negb] in *; try done. by rewrite Hk.
Qed.

Definition the_keyboard (a ifn : Z) (observer : bool) : Driver := if observer then subscribe (new_keyboard a ifn) else new_keyboard a ifn.
Definition take_supply (io : Io D) : Io D := mkIo (io_mem io) (io_hw io) (tail (io_supply io)) (io_keys io) (io_observer io).

Lemma new_class_driver_keyboard d pre t post (io : Io D) a r : around d pre t post -> desc_ok t -> keyboard_interface t = true -> io_supply io = a :: r -> a <> 0 ->
  new_class_driver (pos d pre) d io = Some (Some (lenz (drivers d)), set_drivers (ClassDrivers_ d) (drivers d ++ [the_keyboard a (field t 2) (io_observer io)]) d, take_supply io).
Proof.
  intros Har Ht Hk Hs Ha. unfold new_class_driver. unfold keyboard_interface in Hk. apply andb_true_iff in Hk as [Hk Hp]. apply andb_true_iff in Hk as [Hk Hsub]. apply andb_true_iff in Hk as [Hty Hc].
  pose proof (fun i z => interface_fields d pre t post i z Har Ht Hty) as Hf. rewrite (Hf 5%nat 5), (Hf 6%nat 6), (Hf 7%nat 7), (Hf 2%nat 2) by lia. cbn [mbind option_bind]. rewrite Hc, Hsub, Hp. cbn [andb negb].
  unfold alloc_addr, take_supply. rewrite Hs. cbn [tail]. destruct (Z.eqb_spec a 0); [done|]. cbn [io_observer]. unfold the_keyboard. by destruct (io_observer io).
Qed.

(** One endpoint entered in the tables. *)
Definition add_endpoint (k : Z) (d : Dev) (c : EndpointConfig) : Dev :=
  set_drivers (setz (ClassDrivers_ d) (number (ep_id c)) (Some k)) (drivers d) (set_configs (setz (EndpointConfigs_ d) (num_EndpointConfigs_ d) c) (num_EndpointConfigs_ d + 1) d).

Lemma endpoint_number x b : 0 <= x -> number (endpoint_address x b) = x.
Proof.
  intros Hx. unfold number, endpoint_address. rewrite Z.shiftr_lor, Z.shiftr_shiftl_l by lia. change (1 - 1) with 0. rewrite Z.shiftl_0_r. assert (Z.shiftr (Z.b2z b) 1 = 0) as -> by (by destruct b). apply Z.lor_0_r.
Qed.

Lemma endpoint_config_spec d pre t post : around d pre t post -> desc_ok t -> has_type ENDPOINT_DESCRIPTOR t = true -> make_endpoint_config d (pos d pre) = Some (endpoint_config t).
Proof.
  intros Har (_ & _ & _ & H7) Hty. apply bool_decide_eq_true in Hty. specialize (H7 Hty). assert (forall i z, (i < 7)%nat -> z = Z.of_nat i -> byte_at d (pos d pre + z) = Some (field t i)) as Hf.
  { intros i z Hi ->. destruct (lookup_lt_is_Some_2 t i) as [x Hx]; [lia|]. rewrite (byte_around d pre t post i x Har Hx). unfold field. by rewrite Hx. }
  unfold make_endpoint_config. rewrite (Hf 2%nat 2), (Hf 3%nat 3), (Hf 4%nat 4), (Hf 5%nat 5), (Hf 6%nat 6) by lia. done.
Qed.

Lemma read_endpoints_spec k n post : forall pre t d fuel len, around d pre t post -> desc_ok t -> Forall desc_ok post -> len = lenz (concat (pre ++ t :: post)) ->
  length (EndpointConfigs_ d) = 16%nat -> length (ClassDrivers_ d) = 16%nat -> 0 <= num_EndpointConfigs_ d <= n -> n <= 16 -> n - num_EndpointConfigs_ d <= lenz (endpoints post) -> (length post < fuel)%nat ->
  exists p, read_endpoints fuel n k (dev_buffer_addr d) len (pos d pre) d = Some (p, fold_left (add_endpoint k) (take (Z.to_nat (n - num_EndpointConfigs_ d)) (endpoints post)) d).
Proof.
  induction post as [|t' post IH]; intros pre t d fuel len Har Ht Hall Hlen Hec Hcd Hnum Hn Hends Hf; (destruct fuel as [|fuel]; [cbn in Hf; lia|]); cbn [read_endpoints].
  - change (lenz (endpoints [])) with 0 in Hends. destruct (Z.ltb_spec (num_EndpointConfigs_ d) n); [lia|]. eexists. change (endpoints []) with (@nil EndpointConfig). by rewrite take_nil.
  - destruct (Z.ltb_spec (num_EndpointConfigs_ d) n).
    2:{ eexists. replace (Z.to_nat _) with 0%nat by lia. done. }
    rewrite (desc_next_spec d pre t _ len Har Ht Hall Hlen). cbn [mbind option_bind]. rewrite bool_decide_eq_false_2 by done. cbn [negb]. apply Forall_cons in Hall as [Ht' Hall]. apply around_next in Har as Har'.
    rewrite (descriptor_is_spec d (pre ++ [t]) t' post ENDPOINT_DESCRIPTOR Har' Ht'). cbn [mbind option_bind]. unfold endpoints in *. cbn [List.filter] in *. destruct (has_type ENDPOINT_DESCRIPTOR t') eqn:Hty; cbn [map] in *.
    + rewrite (endpoint_config_spec d (pre ++ [t]) t' post Har' Ht' Hty). cbn [mbind option_bind]. set (c := endpoint_config t') in *. assert (0 <= number (ep_id c) < 16) as Hnb.
      { unfold c, endpoint_config. cbn [ep_id]. rewrite endpoint_number by (apply (bits_range 0 4); lia). apply (bits_range 0 4). lia. }
      destruct (atz_lt (EndpointConfigs_ d) (num_EndpointConfigs_ d)) as [x ->]; [unfold lenz; lia|]. cbn [mbind option_bind]. destruct (atz_lt (ClassDrivers_ d) (number (ep_id c))) as [y ->]; [unfold lenz; lia|]. cbn [mbind option_bind].
      change (set_drivers _ _ _) with (add_endpoint k d c). rewrite lenz_cons in Hends.
      destruct (IH (pre ++ [t]) t' (add_endpoint k d c) fuel len) as (p & E).
      { exact Har'. } { done. } { done. } { by rewrite <- app_assoc. } { unfold add_endpoint, setz. cbn. by rewrite length_insert. } { unfold add_endpoint, setz. cbn. by rewrite length_insert. } { cbn. lia. } { done. } { cbn. lia. } { cbn in Hf. lia. }
      exists p. change (pos (add_endpoint k d c) (pre ++ [t])) with (pos d (pre ++ [t])) in E. change (dev_buffer_addr (add_endpoint k d c)) with (dev_buffer_addr d) in E. rewrite E. cbn [num_EndpointConfigs_ add_endpoint set_drivers set_configs].
      replace (Z.to_nat (n - num_EndpointConfigs_ d)) with (S (Z.to_nat (n - (num_EndpointConfigs_ d + 1)))) by lia. done.
    + destruct (IH (pre ++ [t]) t' d fuel len) as (p & E); [done|done|done|by rewrite <- app_assoc|done|done|lia|done|done|cbn in Hf; lia|]. exists p. by rewrite E.
Qed.

(** When the descriptors end before the announced number of endpoints, the loop follows
    a null pointer; when more than 16 are announced and present, it writes behind the
    table. *)
Lemma read_endpoints_fault k n post : forall pre t d fuel len, around d pre t post -> desc_ok t -> Forall desc_ok post -> len = lenz (concat (pre ++ t :: post)) ->
  length (EndpointConfigs_ d) = 16%nat -> 0 <= num_EndpointConfigs_ d <= 16 -> lenz (endpoints post) < n - num_EndpointConfigs_ d \/ 16 < n -> read_endpoints fuel n k (dev_buffer_addr d) len (pos d pre) d = None.
Proof.
  induction post as [|t' post IH]; intros pre t d fuel len Har Ht Hall Hlen Hec Hnum Hends; (destruct fuel as [|fuel]; [done|]); cbn [read_endpoints].
  - change (lenz (endpoints [])) with 0 in Hends. destruct (Z.ltb_spec (num_EndpointConfigs_ d) n); [|lia]. rewrite (desc_next_spec d pre t _ len Har Ht Hall Hlen). cbn [mbind option_bind]. by rewrite bool_decide_eq_true_2.
  - pose proof (lenz_nonneg (endpoints (t' :: post))). destruct (Z.ltb_spec (num_EndpointConfigs_ d) n); [|lia]. rewrite (desc_next_spec d pre t _ len Har Ht Hall Hlen). cbn [mbind option_bind]. rewrite bool_decide_eq_false_2 by done. cbn [negb].
    apply Forall_cons in Hall as [Ht' Hall]. apply around_next in Har as Har'. rewrite (descriptor_is_spec d (pre ++ [t]) t' post ENDPOINT_DESCRIPTOR Har' Ht'). cbn [mbind option_bind].
    unfold endpoints in *. cbn [List.filter] in *. destruct (has_type ENDPOINT_DESCRIPTOR t') eqn:Hty; cbn [map] in *.
    + rewrite (endpoint_config_spec d (pre ++ [t]) t' post Har' Ht' Hty). cbn [mbind option_bind]. set (c := endpoint_config t') in *. rewrite lenz_cons in Hends.
      destruct (atz (EndpointConfigs_ d) _) eqn:Ea; [|done]. apply atz_Some_lt in Ea. unfold lenz in Ea. cbn [mbind option_bind]. destruct (atz (ClassDrivers_ d) _); [|done]. cbn [mbind option_bind]. change (set_drivers _ _ _) with (add_endpoint k d c).
      apply (IH (pre ++ [t]) t' (add_endpoint k d c)); [done|done|done|by rewrite <- app_assoc|unfold add_endpoint, setz; cbn; by rewrite length_insert|cbn; lia|cbn; lia].
    + apply (IH (pre ++ [t]) t' d); [done|done|done|by rewrite <- app_assoc|done|done|done].
Qed.

(** The loop over the interfaces. *)
Lemma find_interface_none (io : Io D) fuel : forall pre t post d len, around d pre t post -> desc_ok t -> Forall desc_ok post -> len = lenz (concat (pre ++ t :: post)) ->
  find_keyboard post = None -> (length post < fuel)%nat -> find_interface fuel (dev_buffer_addr d) len (pos d pre) d io = Some (None, d, io).
Proof.
  induction fuel as [|fuel IH]; intros pre t post d len Har Ht Hall Hlen Hk Hf; [lia|]. cbn [find_interface]. destruct (first_of_type INTERFACE_DESCRIPTOR post) as [Hno|(sk & t' & post' & -> & Hsk & Hty)].
  - rewrite (next_of_none INTERFACE_DESCRIPTOR d post pre t (S fuel) len) by done. done.
  - rewrite length_app in Hf. cbn [length] in Hf. rewrite (next_of_found INTERFACE_DESCRIPTOR d sk pre t t' post' (S fuel) len); [|done..|lia]. cbn [mbind option_bind].
    rewrite find_keyboard_skip in Hk by done. cbn [find_keyboard] in Hk. destruct (keyboard_interface t') eqn:Hki; [done|]. assert (around d (pre ++ t :: sk) t' post') as Har'.
    { destruct Har as [rest E]. exists rest. rewrite E, !concat_app. cbn [concat]. by rewrite <- !app_assoc. }
    apply Forall_app in Hall as [_ Hall]. apply Forall_cons in Hall as [Ht' Hall]. rewrite (new_class_driver_none d (pre ++ t :: sk) t' post' io Har' Ht' Hty Hki). cbn [mbind option_bind].
    apply (IH _ t' post'); [done|done|done|by rewrite <- app_assoc|done|lia].
Qed.

Lemma find_interface_reaches (io : Io D) fuel : forall pre t post d len kt post2, around d pre t post -> desc_ok t -> Forall desc_ok post -> len = lenz (concat (pre ++ t :: post)) ->
  find_keyboard post = Some (kt, post2) -> (length post < fuel)%nat ->
  exists pre' fuel', around d pre' kt post2 /\ desc_ok kt /\ Forall desc_ok post2 /\ keyboard_interface kt = true /\ len = lenz (concat (pre' ++ kt :: post2)) /\ (length post2 < fuel')%nat /\
    find_interface fuel (dev_buffer_addr d) len (pos d pre) d io =
      '(driver, d1, io) ← new_class_driver (pos d pre') d io;
      match driver with
      | None => find_interface (pred fuel') (dev_buffer_addr d) len (pos d pre') d1 io
      | Some k => n ← byte_at d1 (pos d pre' + 4);
          '(_, d1) ← read_endpoints fuel' n k (dev_buffer_addr d) len (pos d pre') (set_configs (EndpointConfigs_ d1) 0 d1); Some (Some k, d1, io)
      end.
Proof.
  induction fuel as [|fuel IH]; intros pre t post d len kt post2 Har Ht Hall Hlen Hk Hf; [lia|]. destruct (first_of_type INTERFACE_DESCRIPTOR post) as [Hno|(sk & t' & post' & -> & Hsk & Hty)].
  { pose proof (find_keyboard_skip post [] Hno) as E. rewrite app_nil_r, Hk in E. done. }
  rewrite length_app in Hf. cbn [length] in Hf. rewrite find_keyboard_skip in Hk by done. cbn [find_keyboard] in Hk. assert (around d (pre ++ t :: sk) t' post') as Har'.
  { destruct Har as [rest E]. exists rest. rewrite E, !concat_app. cbn [concat]. by rewrite <- !app_assoc. }
  pose proof Hall as Hall'. apply Forall_app in Hall as [_ Hall]. apply Forall_cons in Hall as [Ht' Hall]. assert (len = lenz (concat ((pre ++ t :: sk) ++ t' :: post'))) as Hlen' by (by rewrite <- app_assoc).
  cbn [find_interface]. rewrite (next_of_found INTERFACE_DESCRIPTOR d sk pre t t' post' (S fuel) len); [|done..|lia]. cbn [mbind option_bind]. destruct (keyboard_interface t') eqn:Hki.
  - injection Hk as <- <-. exists (pre ++ t :: sk), (S fuel). split_and!; try done. lia.
  - rewrite (new_class_driver_none d (pre ++ t :: sk) t' post' io Har' Ht' Hty Hki). cbn [mbind option_bind]. apply (IH (pre ++ t :: sk) t' post'); try done. lia.
Qed.

Definition chosen (kt : list Z) (a : Z) (observer : bool) (d : Dev) : Dev :=
  set_configs (EndpointConfigs_ d) 0 (set_drivers (ClassDrivers_ d) (drivers d ++ [the_keyboard a (field kt 2) observer]) d).

Lemma find_interface_keyboard fuel pre t post d len kt post2 (io : Io D) a r : around d pre t post -> desc_ok t -> Forall desc_ok post -> len = lenz (concat (pre ++ t :: post)) ->
  find_keyboard post = Some (kt, post2) -> (length post < fuel)%nat -> io_supply io = a :: r -> a <> 0 -> length (EndpointConfigs_ d) = 16%nat -> length (ClassDrivers_ d) = 16%nat ->
  (0 <= field kt 4 <= 16 -> field kt 4 <= lenz (endpoints post2) ->
    find_interface fuel (dev_buffer_addr d) len (pos d pre) d io =
      Some (Some (lenz (drivers d)), fold_left (add_endpoint (lenz (drivers d))) (take (Z.to_nat (field kt 4)) (endpoints post2)) (chosen kt a (io_observer io) d), take_supply io)) /\
  (lenz (endpoints post2) < field kt 4 \/ 16 < field kt 4 -> find_interface fuel (dev_buffer_addr d) len (pos d pre) d io = None).
Proof.
  intros Har Ht Hall Hlen Hk Hf Hs Ha Hec Hcd. destruct (find_interface_reaches io fuel pre t post d len kt post2 Har Ht Hall Hlen Hk Hf) as (pre' & fuel' & Har' & Hkt & Hpost2 & Hki & Hlen' & Hf' & ->).
  rewrite (new_class_driver_keyboard d pre' kt post2 io a r) by done. cbn [mbind option_bind]. set (d1 := set_drivers (ClassDrivers_ d) _ d).
  assert (has_type INTERFACE_DESCRIPTOR kt = true) as Hty by (unfold keyboard_interface in Hki; by destruct (has_type INTERFACE_DESCRIPTOR kt)).
  change (byte_at d1 (pos d pre' + 4)) with (byte_at d (pos d pre' + 4)). rewrite (interface_fields d pre' kt post2 4 4 Har' Hkt Hty) by lia. cbn [mbind option_bind].
  set (d2 := set_configs (EndpointConfigs_ d1) 0 d1). change (dev_buffer_addr d) with (dev_buffer_addr d2). change (pos d pre') with (pos d2 pre'). split.
  - intros Hn Hends. destruct (read_endpoints_spec (lenz (drivers d)) (field kt 4) post2 pre' kt d2 fuel' len) as (p & E); [done..|cbn; lia|lia|cbn; lia|done|]. rewrite E. cbn [mbind option_bind]. change (num_EndpointConfigs_ d2) with 0. by rewrite Z.sub_0_r.
  - intros Hends. rewrite (read_endpoints_fault (lenz (drivers d)) (field kt 4) post2 pre' kt d2 fuel' len) by (done || (cbn; lia)). done.
Qed.

(** [n] calls of [next], each of which must return a descriptor. *)
Fixpoint nexts (n : nat) (buf len : Z) (d : Dev) (p : Z) : option Z :=
  match n with
  | O => Some p
  | S n => '(p, inside) ← desc_next buf len d p; if inside : bool then nexts n buf len d p else None
  end.

Section ZeroLength.
Context (all : list (list Z)) (t : Z) (rest : list Z) (len : Z) (d : Dev).
Hypothesis (Hd : dev_buffer d = concat all ++ 0 :: t :: rest) (Hall : Forall desc_ok all) (Hlen : lenz (concat all) < len).

Lemma zero_next : desc_next (dev_buffer_addr d) len d (pos d all) = Some (pos d all, true).
Proof.
  unfold desc_next. pose proof (byte_in d (concat all) [0; t] rest 0 0 Hd eq_refl) as E. change (Z.of_nat 0) with 0 in E. rewrite Z.add_0_r in E. fold (pos d all) in E. rewrite E.
  cbn [mbind option_bind]. rewrite Z.add_0_r. destruct (Z.ltb_spec (pos d all) (dev_buffer_addr d + len)); [done|unfold pos in *; lia].
Qed.

Lemma zero_type : t <> INTERFACE_DESCRIPTOR -> descriptor_is INTERFACE_DESCRIPTOR d (pos d all) = Some false.
Proof.
  intros Ht. unfold descriptor_is. pose proof (byte_in d (concat all) [0; t] rest 1 t Hd eq_refl) as E. change (Z.of_nat 1) with 1 in E. fold (pos d all) in E. rewrite E.
  cbn [mbind option_bind]. by destruct (Z.eqb_spec t INTERFACE_DESCRIPTOR).
Qed.

Lemma prefix_around pre x post : all = pre ++ x :: post -> around d pre x post.
Proof. intros E. exists (0 :: t :: rest). rewrite Hd, E, concat_app. cbn [concat]. by rewrite <- !app_assoc. Qed.

Lemma prefix_next pre x post : all = pre ++ x :: post -> desc_next (dev_buffer_addr d) len d (pos d pre) = Some (pos d (pre ++ [x]), true).
Proof.
  intros E. unfold desc_next. assert (desc_ok x) as (_ & H0 & _) by (rewrite E in Hall; apply Forall_app in Hall as [_ Hx]; by apply Forall_cons in Hx as [? _]).
  pose proof (byte_around d pre x post 0 _ (prefix_around _ _ _ E) H0) as Eb. change (Z.of_nat 0) with 0 in Eb. rewrite Z.add_0_r in Eb. rewrite Eb. cbn [mbind option_bind]. rewrite <- pos_next. do 2 f_equal.
  apply Z.ltb_lt. unfold pos. rewrite E, !concat_app in Hlen. cbn [concat] in Hlen. rewrite concat_app. cbn [concat]. rewrite !lenz_app in *. change (lenz []) with 0. pose proof (lenz_nonneg (concat post)). lia.
Qed.

Lemma nexts_stay n : nexts n (dev_buffer_addr d) len d (pos d all) = Some (pos d all).
Proof. induction n as [|n IH]; [done|]. cbn [nexts]. rewrite zero_next. cbn [mbind option_bind]. exact IH. Qed.

Lemma nexts_walk post : forall pre n, all = pre ++ post -> nexts (length post + n) (dev_buffer_addr d) len d (pos d pre) = nexts n (dev_buffer_addr d) len d (pos d all).
Proof.
  induction post as [|x post IH]; intros pre n E; [by rewrite E, app_nil_r|]. cbn [length Nat.add nexts]. rewrite (prefix_next pre x post E). cbn [mbind option_bind]. apply IH. by rewrite <- app_assoc.
Qed.

(** A search that does not find an interface before it stands still. *)
Lemma next_of_stuck fuel : t <> INTERFACE_DESCRIPTOR -> forall pre post, all = pre ++ post ->
  desc_next_of fuel INTERFACE_DESCRIPTOR (dev_buffer_addr d) len d (pos d pre) = None \/
  exists sk x post', post = sk ++ x :: post' /\ sk <> [] /\ has_type INTERFACE_DESCRIPTOR x = true /\
    desc_next_of fuel INTERFACE_DESCRIPTOR (dev_buffer_addr d) len d (pos d pre) = Some (pos d (pre ++ sk), true).
Proof.
  intros Ht. induction fuel as [|fuel IH]; intros pre post E; [by left|]. cbn [desc_next_of]. destruct post as [|x post].
  - rewrite app_nil_r in E. subst pre. rewrite zero_next. cbn [mbind option_bind]. rewrite zero_type by done. cbn [mbind option_bind].
    destruct (IH all [] ltac:(by rewrite app_nil_r)) as [->|(sk & y & post' & Ho & _)]; [by left|]. by destruct sk.
  - rewrite (prefix_next pre x post E). cbn [mbind option_bind]. assert (all = (pre ++ [x]) ++ post) as E' by (by rewrite <- app_assoc). destruct post as [|y post].
    + rewrite app_nil_r in E'. rewrite <- E'. rewrite zero_type by done. cbn [mbind option_bind]. destruct (IH all [] ltac:(by rewrite app_nil_r)) as [->|(sk & z & post' & Ho & _)]; [by left|]. by destruct sk.
    + assert (desc_ok y) as Hy by (rewrite E' in Hall; apply Forall_app in Hall as [_ Hy]; by apply Forall_cons in Hy as [? _]).
      rewrite (descriptor_is_spec d (pre ++ [x]) y post INTERFACE_DESCRIPTOR (prefix_around _ _ _ E') Hy). cbn [mbind option_bind]. destruct (has_type INTERFACE_DESCRIPTOR y) eqn:Hty.
      * right. by exists [x], y, post.
      * destruct (IH (pre ++ [x]) (y :: post) E') as [->|(sk & z & post' & Ho & Hsk & Hz & ->)]; [by left|right]. exists (x :: sk), z, post'. rewrite Ho, <- app_assoc. done.
Qed.
End ZeroLength.

Section ZeroSearch.
Context (conf : list Z) (ds : list (list Z)) (t : Z) (rest : list Z) (len : Z) (d : Dev).
Hypothesis (Hd : dev_buffer d = concat (conf :: ds) ++ 0 :: t :: rest) (Hall : Forall desc_ok (conf :: ds)) (Hlen : lenz (concat (conf :: ds)) < len) (Ht : t <> INTERFACE_DESCRIPTOR).
Hypothesis (Hno : Forall (fun x => keyboard_interface x = false) ds).

Lemma find_interface_stuck (io : Io D) fuel : forall pre post, conf :: ds = pre ++ post -> find_interface fuel (dev_buffer_addr d) len (pos d pre) d io = None.
Proof.
  induction fuel as [|fuel IH]; intros pre post E; [done|]. cbn [find_interface].
  destruct (next_of_stuck (conf :: ds) t rest len d Hd Hall Hlen (S fuel) Ht pre post E) as [->|(sk & x & post' & -> & Hsk & Hx & ->)]; [done|]. cbn [mbind option_bind].
  assert (conf :: ds = (pre ++ sk) ++ x :: post') as E' by (by rewrite <- app_assoc).
  assert (keyboard_interface x = false) as Hkx.
  { assert (x ∈ ds) as Hin; [|by eapply Forall_forall in Hno]. destruct pre as [|? pre]; [destruct sk as [|? sk]; [done|]|]; injection E' as _ ->; set_solver. }
  assert (desc_ok x) as Hxok by (rewrite E' in Hall; apply Forall_app in Hall as [_ Hy]; by apply Forall_cons in Hy as [? _]).
  rewrite (new_class_driver_none d (pre ++ sk) x post' io (prefix_around _ _ _ _ Hd _ _ _ E') Hxok Hx Hkx). cbn [mbind option_bind]. by apply (IH (pre ++ sk) (x :: post')).
Qed.
End ZeroSearch.
End Descriptors.

(** C21: The descriptors of a device are read like a list of records.  For a buffer that
    holds the configuration descriptor [conf] and the descriptors [ds], all well formed,
    with memory for a driver and one round more than there are descriptors: without a boot keyboard interface the device is
    left alone; with one that announces at most 16 endpoints and is followed by as many
    endpoint descriptors, the driver is a keyboard for it, these descriptors fill the
    tables, and the configuration is selected; when it announces more than follow, the
    driver follows a null pointer, and when it announces more than 16, it writes behind
    the table of the endpoints. *)
Theorem interface_selected {D} `{Mmio D} fuel conf ds rest d (io : Io D) a r : dev_buffer d = concat (conf :: ds) ++ rest -> Forall desc_ok (conf :: ds) -> (6 <= length conf)%nat -> (length ds < fuel)%nat ->
  io_supply io = a :: r -> a <> 0 -> length (EndpointConfigs_ d) = 16%nat -> length (ClassDrivers_ d) = 16%nat ->
  let stage2 := initialize_stage2 fuel (dev_buffer_addr d) (lenz (concat (conf :: ds))) d io in
  match find_keyboard ds with
  | None => stage2 = Some (d, io)
  | Some (kt, post) =>
      (0 <= field kt 4 <= 16 -> field kt 4 <= lenz (endpoints post) ->
        stage2 = set_configuration DEFAULT_CONTROL_PIPE_ID (field conf 5)
          (set_init (is_initialized_ d) 3 (fold_left (add_endpoint (lenz (drivers d))) (take (Z.to_nat (field kt 4)) (endpoints post)) (chosen kt a (io_observer io) d))) (take_supply io)) /\
      (lenz (endpoints post) < field kt 4 \/ 16 < field kt 4 -> stage2 = None)
  end.
Proof.
  intros Hd Hall Hconf Hf Hs Ha Hec Hcd. cbv zeta. apply Forall_cons in Hall as [Hc Hall]. assert (around d [] conf ds) as Har by (exists rest; rewrite Hd; cbn [concat app]; by rewrite <- app_assoc).
  unfold initialize_stage2. assert (pos d [] = dev_buffer_addr d) as Ep by (unfold pos; cbn [concat]; change (lenz []) with 0; lia). destruct (find_keyboard ds) as [[kt post]|] eqn:Hk.
  - destruct (find_interface_keyboard fuel [] conf ds d (lenz (concat (conf :: ds))) kt post io a r) as [Hok Hbad]; [done..|]. rewrite Ep in Hok, Hbad. split; [intros Hn Hends|intros Hends; by rewrite (Hbad Hends)]. rewrite (Hok Hn Hends). cbn [mbind option_bind].
    set (dd := fold_left _ _ _). assert (dev_buffer dd = dev_buffer d /\ dev_addr dd = dev_addr d /\ is_initialized_ dd = is_initialized_ d) as (E1 & E2 & E3).
    { unfold dd. clear. set (d0 := chosen kt a (io_observer io) d). assert (dev_buffer d0 = dev_buffer d /\ dev_addr d0 = dev_addr d /\ is_initialized_ d0 = is_initialized_ d) as H0 by done. clearbody d0.
      revert d0 H0. generalize (take (Z.to_nat (field kt 4)) (endpoints post)). intros cs. induction cs as [|c cs IH]; intros d0 H0; [done|]. cbn [fold_left]. apply IH. exact H0. }
    assert (byte_at dd (dev_buffer_addr d + 5) = Some (field conf 5)) as ->; [|cbn [mbind option_bind]; by rewrite E3].
    destruct (lookup_lt_is_Some_2 conf 5) as [x Hx]; [lia|]. unfold byte_at, dev_buffer_addr. rewrite E1, E2. pose proof (byte_around d [] conf ds 5 x Har Hx) as E. unfold pos, byte_at, dev_buffer_addr in E. cbn [concat] in E. change (lenz []) with 0 in E.
    change (Z.of_nat 5) with 5 in E. rewrite Z.add_0_r in E. rewrite E. unfold field. by rewrite Hx.
  - pose proof (find_interface_none io fuel [] conf ds d _ Har Hc Hall eq_refl Hk Hf) as E. rewrite Ep in E. cbn [app] in E. by rewrite E.
Qed.

(** C40: A descriptor of length 0 stops the kernel.  The configuration starts with
    well-formed descriptors, none of them a boot keyboard interface, and the next one
    has length 0 and is no interface.  Then from some call of [next] on the iterator
    returns the same descriptor for ever, without a fault, and it is not the interface
    that is looked for: the search ends after no number of rounds. *)
Theorem zero_length_descriptor_hangs {D} `{Mmio D} conf ds t rest d len (io : Io D) : dev_buffer d = concat (conf :: ds) ++ 0 :: t :: rest -> Forall desc_ok (conf :: ds) ->
  find_keyboard ds = None -> t <> INTERFACE_DESCRIPTOR -> lenz (concat (conf :: ds)) < len ->
  let buf := dev_buffer_addr d in let p := buf + lenz (concat (conf :: ds)) in
  (forall n, (length (conf :: ds) <= n)%nat -> nexts n buf len d buf = Some p) /\ descriptor_is INTERFACE_DESCRIPTOR d p = Some false /\
  forall fuel, initialize_stage2 fuel buf len d io = None.
Proof.
  intros Hd Hall Hk Ht Hlen buf p. assert (Forall (fun x => keyboard_interface x = false) ds) as Hno.
  { clear -Hk. induction ds as [|x ds IH]; [done|]. cbn [find_keyboard] in Hk. destruct (keyboard_interface x) eqn:E; [done|]. constructor; [done|by apply IH]. }
  assert (pos d [] = buf) as Ep by (unfold pos, buf; cbn [concat]; change (lenz []) with 0; lia). unfold buf in *. split_and!.
  - intros n Hn. pose proof (nexts_walk (conf :: ds) t rest len d Hd Hall Hlen (conf :: ds) [] (n - length (conf :: ds)) eq_refl) as E. rewrite Ep in E.
    replace (length (conf :: ds) + (n - length (conf :: ds)))%nat with n in E by lia. rewrite E. by apply (nexts_stay (conf :: ds) t rest).
  - by apply (zero_type (conf :: ds) t rest).
  - intros fuel. unfold initialize_stage2. pose proof (find_interface_stuck conf ds t rest len d Hd Hall Hlen Ht Hno io fuel [] (conf :: ds) eq_refl) as E. rewrite Ep in E. by rewrite E.
Qed.

(** ** A keyboard from plug to key press

    The registers answer what was written to them, the events are posted in the event
    ring, the descriptors and reports are written to the buffers that the blocks on the
    rings name. *)


#[export] Instance Reg_eq_dec : EqDecision Reg.
Proof. solve_decision. Defined.

(** The registers: a controller that halts and runs at once, with full-speed devices at
    its ports. *)
Definition SampleHw := list (Reg * Z).

Fixpoint sample_get (r : Reg) (h : SampleHw) : Z :=
  match h with [] => 0 | (r', v) :: h => if decide (r = r') then v else sample_get r h end.

#[export] Instance sample_mmio : Mmio SampleHw := {
  reg_read r h := (match r with
    | USBCMD => set_bits 1 1 0 (sample_get USBCMD h)
    | USBSTS => if bits 0 1 (sample_get USBCMD h) =? 0 then 1 else 0
    | PORTSC p => 0x200603
    | HCSPARAMS1 => Z.shiftl 3 24
    | _ => sample_get r h
    end, h);
  reg_write r v h := (r, v) :: h;
}.

(** Addresses of the allocations, in the order in which they are made. *)
Definition sample_supply : list Z := [0x10000; 0x11000; 0x12000; 0x13000; 0x14000; 0x20000; 0x15000; 0x16000; 0x30000; 0x17000; 0x18000].

Definition sample_fuel : nat := 64.

Definition with_hc (o : option (option (Hc SampleHw))) : Hc SampleHw := default (new_controller [] []) (default None o).
Definition the_hc (o : option (Hc SampleHw)) : Hc SampleHw := default (new_controller [] []) o.

Definition sample_start : Hc SampleHw := with_hc (start_controller sample_fuel 0x1000 [] sample_supply).

(** The xHC posts an event in slot [j] of the event ring. *)
Definition post (j : Z) (e : Trb) (x : Hc SampleHw) : Hc SampleHw := set_hc_io (set_io_mem (<[elem 0x13000 j := with_cycle true e]> (io_mem (hc_io x))) (hc_io x)) x.

Definition port_event : Trb := with_type PORT_STATUS_CHANGE_EVENT (set_d0 (set_bits 24 8 1) zero_trb).
Definition command_event (i : Z) : Trb :=
  set_pointer60 (elem 0x12000 i) (mkTrb 0 0 (set_bits 24 8 COMPLETION_CODE_SUCCESS 0) (set_bits 24 8 1 (set_bits 10 6 COMMAND_COMPLETION_EVENT 0))).
Definition transfer_event (p ep residual : Z) : Trb := set_d3 (set_bits 24 8 1) (report_event p ep residual COMPLETION_CODE_SUCCESS).

Definition on_dev (f : Dev -> Dev) (x : Hc SampleHw) : Hc SampleHw := set_hc_devices (alter (option_map f) 1%nat (devices_ x)) x.

Definition run_events (j : Z) (e : Trb) (x : Hc SampleHw) : Hc SampleHw := the_hc (process_events 7 sample_fuel 2 (post j e x)).

(** The descriptors: device, and configuration with interface, HID and endpoint. *)
Definition device_descriptor : list Z := [18; 1; 0; 2; 0; 0; 0; 8; 39; 6; 1; 0; 0; 0; 1; 4; 11; 1].
Definition config_descriptors : list (list Z) :=
  [[9; 2; 34; 0; 1; 1; 8; 160; 50]; [9; 4; 0; 0; 1; 3; 1; 1; 0]; [9; 33; 17; 1; 0; 1; 34; 63; 0]; [7; 5; 129; 3; 8; 0; 10]].

Definition ep0_block (i : Z) : Z := elem 0x16000 i.

Definition sample_observed (x : Hc SampleHw) : Hc SampleHw :=
  set_hc_io (mkIo (io_mem (hc_io x)) (io_hw (hc_io x)) (io_supply (hc_io x)) (io_keys (hc_io x)) true) x.

Definition sample_addressed : Hc SampleHw := run_events 1 (command_event 0) (run_events 0 port_event (sample_observed sample_start)).
Definition sample_descriptor : Hc SampleHw :=
  run_events 3 (transfer_event (ep0_block 1) 1 238) (on_dev (fun d => set_dev_buffer (dma device_descriptor (dev_buffer d)) d)
    (run_events 2 (command_event 1) (on_dev (fun d => set_ctx_slot (ctx_set 1 16 8 1 (ctx_slot d)) d) sample_addressed))).
Definition sample_configured : Hc SampleHw :=
  run_events 6 (command_event 2) (run_events 5 (transfer_event (ep0_block 7) 1 0)
    (run_events 4 (transfer_event (ep0_block 4) 1 222) (on_dev (fun d => set_dev_buffer (dma (concat config_descriptors) (dev_buffer d)) d) sample_descriptor))).
Definition sample_pressed : Hc SampleHw :=
  run_events 8 (transfer_event (elem 0x18000 0) 3 0) (on_dev (fun d => put_driver 0 (set_hid_buffer (dma [0; 0; 4; 0; 0; 0; 0; 0] (hid_buffer (default (new_keyboard 0 0) (atz (drivers d) 0)))) (default (new_keyboard 0 0) (atz (drivers d) 0))) d)
    (run_events 7 (transfer_event (ep0_block 9) 1 0) sample_configured)).

(** From the start of the controller to a key press: the port is configured, the other
    port has its turn, and the observer was told that the key with code 4 went down. *)
Example keyboard_comes_up :
  port_states sample_pressed 1 = CONFIGURED /\ port_states sample_pressed 2 = RESETTING_PORT /\ addressing_port sample_pressed = 2 /\
  io_keys (hc_io sample_pressed) = [mkKey 0 4 true].
Proof. by vm_compute. Qed.

(** ** Instances of the theorems *)

Definition started (o : option (option (Hc SampleHw))) : bool := match o with Some (Some _) => true | _ => false end.

Lemma with_hc_started o : started o = true -> o = Some (Some (with_hc o)).
Proof. by destruct o as [[x|]|]. Qed.

Lemma the_hc_some (o : option (Hc SampleHw)) : match o with Some _ => true | None => false end = true -> o = Some (the_hc o).
Proof. by destruct o. Qed.

Lemma sample_started : start_controller sample_fuel 0x1000 [] sample_supply = Some (Some sample_start).
Proof. apply with_hc_started. vm_cast_no_check (eq_refl true). Qed.

Definition sample_next : Hc SampleHw := the_hc (handle_event 7 sample_fuel port_event sample_start).

Lemma sample_step : rtc (hc_step 7 sample_fuel) sample_start sample_next.
Proof.
  apply rtc_once, (hc_handles 7 sample_fuel port_event); [by vm_compute|]. apply the_hc_some. vm_cast_no_check (eq_refl true).
Qed.

Lemma one_port_addressed_witness : being_addressed (port_states sample_next 1) = true /\ addressing_port sample_next = 1.
Proof.
  assert (being_addressed (port_states sample_next 1) = true) as Hb by (by vm_compute). split; [done|].
  exact (eq_sym (proj1 (proj1 (one_port_addressed 7 sample_fuel 0x1000 [] sample_supply sample_start sample_next sample_started sample_step 1) Hb))).
Defined.

Lemma sample_responsive : responsive (D := SampleHw).
Proof. intros p h. split; [done|]. exists 0%nat. split; [unfold SPIN_TIMEOUT_ITERATIONS; lia|done]. Qed.

Lemma waiting_port_gets_turn_witness : port_states sample_next 2 = WAITING_ADDRESSED /\ addressing_port sample_next <> 0.
Proof.
  assert (port_states sample_next 2 = WAITING_ADDRESSED) as Hw by (by vm_compute). split; [done|].
  exact (proj1 (waiting_port_gets_turn 7 sample_fuel 0x1000 [] sample_supply sample_start sample_next sample_responsive sample_started sample_step 2 Hw)).
Defined.

(** Hardware that answers 0. *)
#[export] Instance silent_mmio : Mmio unit := { reg_read _ h := (0, h); reg_write _ _ h := h }.

Definition both_waiting : Hc unit := set_port_state 2 WAITING_ADDRESSED (set_port_state 1 WAITING_ADDRESSED (new_controller tt [])).

Lemma unplugged_port_blocks_others_witness : port_states (proceed_to_next_waiting_port both_waiting) 2 = WAITING_ADDRESSED /\ addressing_port (proceed_to_next_waiting_port both_waiting) = 0.
Proof.
  destruct (unplugged_port_blocks_others both_waiting 1) as (Ha & Hs & _); [by vm_compute|by vm_compute|]. split; [rewrite Hs; by vm_compute|exact Ha].
Defined.

Lemma portsc_writes_preserve_witness : Z.testbit (reset_word 0x200603) 9 = true.
Proof. destruct (portsc_writes_preserve 0x200603 9) as [E _]; [lia|]. rewrite E. by vm_compute. Defined.

Lemma context_array_registered_witness : Z.shiftl (bits 6 58 (dcbaap_set_pointer 0x11000 0)) 6 = 0x11000.
Proof. apply (context_array_registered 0x11000); [lia|]. split; [reflexivity|lia]. Defined.

(** *** A keyboard with one report requested *)

Definition sample_keyboard : Driver := set_endpoint (mkEndpointConfig 3 INTERRUPT 8 10) (subscribe (new_keyboard 0x30000 0)).
Definition idle_link : Link := fresh_link 0x18000 32 ∅.
Definition idle_keyboard : Dev :=
  let d := new_device 1 0x20000 0 in
  set_rings (<[2%nat := RingAt (lk_ring idle_link)]> (transfer_rings_ d)) (set_drivers (<[1%nat := Some 0]> (ClassDrivers_ d)) [sample_keyboard] d).
Definition idle_io : Io unit := mkIo (lk_mem idle_link) tt [] [] true.

Lemma keyboard_in_operation : exists d (io : Io unit) h, in_operation 0 3 0x18000 31 d io h sample_keyboard.
Proof.
  destruct (next_report_ok 0 3 0x18000 31 ltac:(lia) ltac:(lia) ltac:(vm_compute; discriminate) idle_keyboard idle_io idle_link sample_keyboard) as (d & io & l & _ & _ & Hd & Hc & Hr & Hok & Hm & Hx & Ht & Hak & Hp);
    [reflexivity|reflexivity|reflexivity|lia|reflexivity|apply (fresh_link_ok 0x18000 31); (done || lia)|reflexivity|reflexivity|reflexivity|].
  exists d, io, (lk_xhc l). split; [by rewrite Hd|by rewrite Hc|split; [lia|by split]|by split| |].
  - split_and!; [reflexivity|by apply Forall_replicate|reflexivity|by vm_compute|by vm_compute].
  - exists l. split_and!; try done; [by rewrite Hp, Ht|by rewrite Hak, Ht|by rewrite Hp, Ht].
Qed.

Lemma keyboard_reports_keys_witness : exists d (io : Io unit) h d' io' h', report_rounds 1 0 3 [[0; 0; 4; 0; 0; 0; 0; 0]; [0; 0; 4; 5; 0; 0; 0; 0]] (d, io, h) = Some (d', io', h').
Proof.
  destruct keyboard_in_operation as (d & io & h & Hop). exists d, io, h.
  destruct (keyboard_reports_keys 1 0 3 0x18000 31 d io h sample_keyboard [[0; 0; 4; 0; 0; 0; 0; 0]; [0; 0; 4; 5; 0; 0; 0; 0]]) as (d' & io' & h' & _ & _ & _ & _ & E & _);
    [lia|reflexivity|lia|by vm_compute|exact Hop| |by exists d', io', h'].
  repeat constructor; lia.
Defined.

(** *** Descriptors *)

Definition with_descriptors (l : list Z) : Dev := set_dev_buffer l (new_device 1 0x20000 0).
Definition fresh_io : Io unit := mkIo ∅ tt [0x30000] [] true.

(** All descriptors, and no transfer ring allocated. *)
Definition with_rings : Dev := set_rings (replicate 31 RingNull) (with_descriptors (concat config_descriptors)).

(** Literal descriptors are well-formed. *)
Ltac solve_descs :=
  repeat (apply Forall_cons_2 || apply Forall_nil_2);
  (split_and!; [cbn; lia|reflexivity|(intros _; cbn; lia) || (by intros [=])|(intros _; cbn; lia) || (by intros [=])]).

(** The endpoint descriptor is missing, and it is there. *)
Lemma interface_selected_witness :
  initialize_stage2 4 (dev_buffer_addr (with_descriptors (concat (take 2 config_descriptors)))) 18 (with_descriptors (concat (take 2 config_descriptors))) fresh_io = None /\
  (fun x => num_EndpointConfigs_ (fst x)) <$> initialize_stage2 5 (dev_buffer_addr with_rings) 34 with_rings fresh_io = Some 1.
Proof.
  split.
  - pose proof (interface_selected 4 [9; 2; 34; 0; 1; 1; 8; 160; 50] [[9; 4; 0; 0; 1; 3; 1; 1; 0]] [] (with_descriptors (concat (take 2 config_descriptors))) fresh_io 0x30000 []) as E.
    destruct E as [_ E]; [reflexivity| |cbn; lia|cbn; lia|reflexivity|lia|reflexivity|reflexivity|apply E; left; by vm_compute]. solve_descs.
  - pose proof (interface_selected 5 [9; 2; 34; 0; 1; 1; 8; 160; 50] [[9; 4; 0; 0; 1; 3; 1; 1; 0]; [9; 33; 17; 1; 0; 1; 34; 63; 0]; [7; 5; 129; 3; 8; 0; 10]] [] with_rings fresh_io 0x30000 []) as E.
    destruct E as [E _]; [reflexivity| |cbn; lia|cbn; lia|reflexivity|lia|reflexivity|reflexivity|]. { solve_descs. }
    specialize (E ltac:(vm_compute; split; discriminate) ltac:(vm_compute; discriminate)). refine (eq_trans (f_equal (fmap (fun x => num_EndpointConfigs_ (fst x))) E) _). by vm_compute.
Defined.

Lemma zero_length_descriptor_hangs_witness :
  initialize_stage2 100 (dev_buffer_addr (with_descriptors ([9; 2; 34; 0; 1; 1; 8; 160; 50] ++ [9; 4; 0; 0; 1; 8; 6; 80; 0] ++ [0; 33]))) 34 (with_descriptors ([9; 2; 34; 0; 1; 1; 8; 160; 50] ++ [9; 4; 0; 0; 1; 8; 6; 80; 0] ++ [0; 33])) fresh_io = None.
Proof.
  apply (zero_length_descriptor_hangs [9; 2; 34; 0; 1; 1; 8; 160; 50] [[9; 4; 0; 0; 1; 8; 6; 80; 0]] 33 []); [reflexivity| |reflexivity|by intros [=]|by vm_compute].
  solve_descs.
Defined.
