(* ===== verification/Acpi.v ===== *)
(** * ACPI tables, the power-management timer and the local APIC

    [kernel/timers/acpi.cpp] finds the FADT through the tables of the firmware and
    waits with the power-management timer it names; [kernel/timers/local_apic.cpp]
    measures the APIC timer against it and starts the periodic interrupt.  The tables
    are bytes in memory; the timer and the APIC are hardware behind [ClockHw]. *)

From S2P Require Import Prelude Timer Interrupt.

Open Scope Z_scope.

(** ** Bytes *)

(** Memory as the firmware left it: the byte at an address, if it can be read. *)
Definition Bytes := Z -> option Z.

(** A little-endian field of [n] bytes at [p]. *)
Fixpoint load (n : nat) (p : Z) (m : Bytes) : option Z :=
  match n with
  | O => Some 0
  | S n => b ← m p; v ← load n (p + 1) m; Some (b + 256 * v)
  end.

(** [strncmp(p, s, length s) == 0] for an expected text without a zero byte: the
    comparison stops at the first byte that differs. *)
Fixpoint text_at (p : Z) (s : list Z) (m : Bytes) : option bool :=
  match s with
  | [] => Some true
  | c :: s => b ← m p; if b =? c then text_at (p + 1) s m else Some false
  end.

(** The loop of both [is_valid] functions: the sum of [n] bytes, at 8 bits. *)
Definition sum_bytes (n : Z) (p : Z) (m : Bytes) : option Z :=
  for_n (Z.to_nat n) 0 (fun i sum => b ← m (p + i); Some (u8 (sum + b))) 0.

(** ** Tables *)

(** Offsets of the packed structures. *)
Definition RSDP_REVISION : Z := 15.
Definition RSDP_LENGTH : Z := 20.
Definition RSDP_XSDT : Z := 24.
Definition SDT_LENGTH : Z := 4.
Definition SDT_HEADER_SIZE : Z := 36.
Definition FADT_PM_TMR_BLK : Z := 76.
Definition FADT_FLAGS : Z := 112.

Definition RSD_PTR : list Z := [0x52; 0x53; 0x44; 0x20; 0x50; 0x54; 0x52; 0x20].
Definition FACP : list Z := [0x46; 0x41; 0x43; 0x50].

(** [RootSystemDescriptionPointer::is_valid] *)
Definition rsdp_is_valid (p : Z) (m : Bytes) : option bool :=
  same ← text_at p RSD_PTR m;
  if negb same then Some false
  else
    revision ← load 1 (p + RSDP_REVISION) m;
    if negb (revision =? 2) then Some false
    else
      length ← load 4 (p + RSDP_LENGTH) m;
      sum ← sum_bytes length p m;
      Some (sum =? 0).

(** [SdtHeader::is_valid] *)
Definition sdt_is_valid (expected : list Z) (p : Z) (m : Bytes) : option bool :=
  same ← text_at p expected m;
  if negb same then Some false
  else
    length ← load 4 (p + SDT_LENGTH) m;
    sum ← sum_bytes length p m;
    Some (sum =? 0).

(** [ExtendedSystemDescriptionTable::count]: the subtraction is done at 64 bits. *)
Definition xsdt_count (xsdt : Z) (m : Bytes) : option Z :=
  length ← load 4 (xsdt + SDT_LENGTH) m;
  Some (u64 (length - SDT_HEADER_SIZE) / 8).

(** [ExtendedSystemDescriptionTable::operator[]]: the address of the table. *)
Definition xsdt_entry (xsdt i : Z) (m : Bytes) : option Z :=
  load 8 (xsdt + SDT_HEADER_SIZE + 8 * i) m.

(** The loop of [initialize]; the counter is an [int]. *)
Fixpoint find_fadt (fuel : nat) (xsdt i : Z) (m : Bytes) : option Z :=
  count ← xsdt_count xsdt m;
  if i <? count then
    match fuel with
    | O => None
    | S fuel =>
        entry ← xsdt_entry xsdt i m;
        ok ← sdt_is_valid FACP entry m;
        if (ok : bool) then Some entry
        else if i =? 2 ^ 31 - 1 then None else find_fadt fuel xsdt (i + 1) m
    end
  else Some 0.

(** [acpi::initialize]: the new value of the pointer [fadt], which is null before. *)
Definition acpi_initialize (fuel : nat) (rsdp : Z) (m : Bytes) : option Z :=
  ok ← rsdp_is_valid rsdp m;
  if negb ok then Some 0
  else xsdt ← load 8 (rsdp + RSDP_XSDT) m; find_fadt fuel xsdt 0 m.

(** ** Timers *)

Inductive ApicReg := LVT_TIMER | INITIAL_COUNT | CURRENT_COUNT | DIVIDE_CONFIG.

(** The hardware: ports and the registers of the local APIC. *)
Class ClockHw (D : Type) := {
  in_port : Z -> D -> Z * D;
  apic_read : ApicReg -> D -> Z * D;
  apic_write : ApicReg -> Z -> D -> D;
}.

Definition PM_TIMER_32BIT_FLAG_BIT : Z := 8.
Definition PM_TIMER_COUNTER_MASK_24BIT : Z := 0x00ffffff.
Definition PM_TIMER_FREQUENCY : Z := 3579545.

Definition is_pm_timer_32bit (flags : Z) : bool := negb (Z.land (Z.shiftr flags PM_TIMER_32BIT_FLAG_BIT) 1 =? 0).

Section Clock.
Context {D : Type} `{ClockHw D} (fadt : Z) (m : Bytes).

(** [fadt->field]: a null pointer is a fault. *)
Definition fadt_field (offset : Z) : option Z := if fadt =? 0 then None else load 4 (fadt + offset) m.

(** [read_from_io_port(fadt->pm_tmr_blk)]; the port has 16 bits. *)
Definition read_pm_timer (h : D) : option (Z * D) := port ← fadt_field FADT_PM_TMR_BLK; Some (in_port (u16 port) h).

(** The two polling loops. *)
Fixpoint poll_while (fuel : nat) (p : Z -> bool) (h : D) : option D :=
  match fuel with
  | O => None
  | S fuel => '(v, h) ← read_pm_timer h; if p v then poll_while fuel p h else Some h
  end.

Definition wait_by_pm_timer (fuel : nat) (millisec : Z) (h : D) : option D :=
  '(initial_count, h) ← read_pm_timer h;
  let end_count := u32 (initial_count + u64 (PM_TIMER_FREQUENCY * millisec) / 1000) in
  flags ← fadt_field FADT_FLAGS;
  let end_count := if negb (is_pm_timer_32bit flags) then Z.land end_count PM_TIMER_COUNTER_MASK_24BIT else end_count in
  h ← (if end_count <? initial_count then poll_while fuel (fun v => initial_count <=? v) h else Some h);
  poll_while fuel (fun v => v <? end_count) h.

Definition get_pm_timer_count (h : D) : option (Z * D) :=
  '(count, h) ← read_pm_timer h;
  flags ← fadt_field FADT_FLAGS;
  Some (if is_pm_timer_32bit flags then count else Z.land count PM_TIMER_COUNTER_MASK_24BIT, h).

(** [local_apic::initialize] *)
Definition DIVIDE_BY_1 : Z := 11.
Definition COUNT_MAX : Z := 0xffffffff.

Definition apic_initialize (fuel : nat) (h : D) : option D :=
  let h := apic_write DIVIDE_CONFIG DIVIDE_BY_1 h in
  let h := apic_write LVT_TIMER (Z.shiftl 1 16) h in
  let h := apic_write INITIAL_COUNT COUNT_MAX h in
  h ← wait_by_pm_timer fuel 100 h;
  let '(current_count, h) := apic_read CURRENT_COUNT h in
  let elapsed := u32 (COUNT_MAX - current_count) in
  let h := apic_write INITIAL_COUNT 0 h in
  let freq := u32 (elapsed * 10) in
  let h := apic_write DIVIDE_CONFIG DIVIDE_BY_1 h in
  let h := apic_write LVT_TIMER (Z.lor (Z.shiftl 2 16) (vector_number LOCAL_APIC_TIMER)) h in
  Some (apic_write INITIAL_COUNT (freq / TIMER_FREQUENCY) h).
End Clock.

(** ** Waiting *)

Lemma land_ones_mod x : Z.land x PM_TIMER_COUNTER_MASK_24BIT = x mod 2 ^ 24.
Proof. change PM_TIMER_COUNTER_MASK_24BIT with (Z.ones 24). by apply Z.land_ones. Qed.

Definition pm_width (flags : Z) : Z := if is_pm_timer_32bit flags then 32 else 24.

Lemma pm_width_pow flags : 2 ^ 24 <= 2 ^ pm_width flags <= 2 ^ 32.
Proof. unfold pm_width. destruct (is_pm_timer_32bit flags); lia. Qed.

(** The end of the wait, at the width of the timer. *)
Lemma end_count_spec flags x : (if negb (is_pm_timer_32bit flags) then Z.land (u32 x) PM_TIMER_COUNTER_MASK_24BIT else u32 x) = x mod 2 ^ pm_width flags.
Proof.
  unfold pm_width, wrap. destruct (is_pm_timer_32bit flags); cbn [negb]; [done|]. rewrite land_ones_mod.
  apply Z.mod_mod_divide. by exists 256.
Qed.

Definition pm_ticks (millisec : Z) : Z := PM_TIMER_FREQUENCY * millisec / 1000.

Section Wait.
Context {D : Type} `{ClockHw D} (fadt : Z) (m : Bytes) (clock : D -> Z) (port flags g : Z).
Context (Hport : fadt_field fadt m FADT_PM_TMR_BLK = Some port) (Hflags : fadt_field fadt m FADT_FLAGS = Some flags).

(** The timer counts without end and wraps at its width; two reads are at least one and
    at most [g] counts apart. *)
Context (Hread : forall h v h', in_port (u16 port) h = (v, h') -> v = clock h' mod 2 ^ pm_width flags /\ clock h < clock h' <= clock h + g).

Lemma read_pm_timer_spec h : exists h', read_pm_timer fadt m h = Some (clock h' mod 2 ^ pm_width flags, h') /\ clock h < clock h' <= clock h + g.
Proof.
  unfold read_pm_timer. rewrite Hport. cbn [mbind option_bind]. destruct (in_port (u16 port) h) as [v h'] eqn:E. destruct (Hread h v h' E) as [-> Hc]. by exists h'.
Qed.

(** Polling stops at the first read after [T]. *)
Lemma poll_while_spec T p fuel : forall h, (forall t, clock h < t < T -> p (t mod 2 ^ pm_width flags) = true) ->
  (forall t, T <= t < Z.max T (clock h + 1) + g -> p (t mod 2 ^ pm_width flags) = false) -> T - clock h < Z.of_nat fuel -> (0 < fuel)%nat ->
  exists h', poll_while fadt m fuel p h = Some h' /\ T <= clock h' < Z.max T (clock h + 1) + g.
Proof.
  induction fuel as [|fuel IH]; intros h Ht Hf Hfuel Hpos; [lia|]. cbn [poll_while]. destruct (read_pm_timer_spec h) as (h' & -> & Hc). cbn [mbind option_bind].
  destruct (Z.lt_ge_cases (clock h') T) as [Hlt|Hge].
  - rewrite Ht by lia. destruct (IH h') as (h2 & -> & H2); [intros; apply Ht; lia|intros; apply Hf; lia|lia|lia|]. exists h2. split; [done|lia].
  - rewrite Hf by lia. exists h'. split; [done|lia].
Qed.
End Wait.

Lemma mod_window t k n : 0 < n -> k * n <= t < (k + 1) * n -> t mod n = t - k * n.
Proof. intros Hn Ht. symmetry. apply (Z.mod_unique t n k); lia. Qed.

(** Away from the turn of the counter: its end is neither within a read below the turn
    nor, when the counter turns on the way, its start within a read above it. *)
Definition off_turn (flags g v n : Z) : Prop := if v + n <? 2 ^ pm_width flags then v + n + g < 2 ^ pm_width flags else g <= v.

Lemma pm_wait_timely {D} `{ClockHw D} fadt m (clock : D -> Z) port flags g h v h1 millisec fuel :
  fadt_field fadt m FADT_PM_TMR_BLK = Some port -> fadt_field fadt m FADT_FLAGS = Some flags ->
  (forall h v h', in_port (u16 port) h = (v, h') -> v = clock h' mod 2 ^ pm_width flags /\ clock h < clock h' <= clock h + g) ->
  0 <= millisec -> PM_TIMER_FREQUENCY * millisec < 2 ^ 64 -> pm_ticks millisec + g <= 2 ^ pm_width flags -> 2 * g <= 2 ^ pm_width flags ->
  in_port (u16 port) h = (v, h1) -> off_turn flags g v (pm_ticks millisec) -> pm_ticks millisec + 1 < Z.of_nat fuel ->
  exists h', wait_by_pm_timer fadt m fuel millisec h = Some h' /\ pm_ticks millisec <= clock h' - clock h1 <= pm_ticks millisec + 2 * g.
Proof.
  intros Hport Hflags Hread Hms Hfit HN Hg E Hmiss Hfuel. unfold off_turn in Hmiss. set (N := pm_ticks millisec) in *. assert (0 <= N) by (unfold N, pm_ticks, PM_TIMER_FREQUENCY; apply Z.div_pos; lia).
  destruct (Hread h v h1 E) as [Ev Hc1]. set (W := 2 ^ pm_width flags) in *. assert (0 < W) by (pose proof (pm_width_pow flags); unfold W; lia).
  pose proof (Z.div_mod (clock h1) W ltac:(lia)) as Hdiv. rewrite <- Ev in Hdiv. set (k := clock h1 / W) in *. assert (0 <= v < W) as Hv by (rewrite Ev; apply Z.mod_pos_bound; lia).
  unfold wait_by_pm_timer. unfold read_pm_timer at 1. rewrite Hport. cbn [mbind option_bind]. rewrite E. cbn [mbind option_bind]. rewrite Hflags. cbn [mbind option_bind].
  rewrite end_count_spec. fold W. assert (u64 (PM_TIMER_FREQUENCY * millisec) / 1000 = N) as -> by (unfold N, pm_ticks; rewrite wrap_small; [done|unfold PM_TIMER_FREQUENCY in *; lia]).
  pose proof (poll_while_spec fadt m clock port flags g Hport Hread) as Hpoll. fold W in Hpoll. destruct (Z.ltb_spec (v + N) W) as [Hin|Hout].
  - rewrite (Z.mod_small (v + N) W) by lia. destruct (Z.ltb_spec (v + N) v); [lia|]. cbn [mbind option_bind].
    destruct (Hpoll (clock h1 + N) (fun x => x <? v + N) fuel h1) as (h' & -> & Hh); [| |lia|lia|exists h'; split; [done|lia]].
    + intros t Ht. rewrite (mod_window t k) by lia. apply Z.ltb_lt. lia.
    + intros t Ht. rewrite (mod_window t k) by lia. apply Z.ltb_ge. lia.
  - rewrite (mod_window (v + N) 1) by lia. destruct (Z.ltb_spec (v + N - 1 * W) v); [|lia].
    destruct (Hpoll ((k + 1) * W) (fun x => v <=? x) fuel h1) as (h2 & -> & Hh2); [| |lia|lia|cbn [mbind option_bind]].
    + intros t Ht. rewrite (mod_window t k) by lia. apply Z.leb_le. lia.
    + intros t Ht. rewrite (mod_window t (k + 1)) by lia. apply Z.leb_gt. lia.
    + destruct (Hpoll (clock h1 + N) (fun x => x <? v + N - 1 * W) fuel h2) as (h' & -> & Hh); [| |lia|lia|exists h'; split; [done|lia]].
      * intros t Ht. rewrite (mod_window t (k + 1)) by lia. apply Z.ltb_lt. lia.
      * intros t Ht. rewrite (mod_window t (k + 1)) by lia. apply Z.ltb_ge. lia.
Qed.

(** Polling does not stop before a read that the condition lets through. *)
Lemma poll_while_after {D} `{ClockHw D} fadt m (clock : D -> Z) port flags g T p : fadt_field fadt m FADT_PM_TMR_BLK = Some port ->
  (forall h v h', in_port (u16 port) h = (v, h') -> v = clock h' mod 2 ^ pm_width flags /\ clock h < clock h' <= clock h + g) ->
  forall fuel h h', (forall t, clock h < t < T -> p (t mod 2 ^ pm_width flags) = true) -> poll_while fadt m fuel p h = Some h' -> T <= clock h' /\ clock h < clock h'.
Proof.
  intros Hport Hread fuel. induction fuel as [|fuel IH]; intros h h' Ht E; [done|]. cbn [poll_while] in E.
  destruct (read_pm_timer_spec fadt m clock port flags g Hport Hread h) as (h2 & E2 & Hc). rewrite E2 in E. cbn [mbind option_bind] in E. destruct (p _) eqn:Ep.
  - destruct (IH h2 h') as [H1 H2]; [intros t Ht2; apply Ht; lia|done|]. lia.
  - injection E as <-. split; [|lia]. destruct (Z.lt_ge_cases (clock h2) T) as [Hlt|]; [|done]. rewrite Ht in Ep by lia. done.
Qed.

Lemma pm_wait_long_enough {D} `{ClockHw D} fadt m (clock : D -> Z) port flags g h v h1 millisec fuel h' :
  fadt_field fadt m FADT_PM_TMR_BLK = Some port -> fadt_field fadt m FADT_FLAGS = Some flags ->
  (forall h v h', in_port (u16 port) h = (v, h') -> v = clock h' mod 2 ^ pm_width flags /\ clock h < clock h' <= clock h + g) ->
  0 <= millisec -> PM_TIMER_FREQUENCY * millisec < 2 ^ 64 -> pm_ticks millisec < 2 ^ pm_width flags ->
  in_port (u16 port) h = (v, h1) -> wait_by_pm_timer fadt m fuel millisec h = Some h' -> pm_ticks millisec <= clock h' - clock h1.
Proof.
  intros Hport Hflags Hread Hms Hfit HN E Hw. set (N := pm_ticks millisec) in *. assert (0 <= N) by (unfold N, pm_ticks, PM_TIMER_FREQUENCY; apply Z.div_pos; lia).
  destruct (Hread h v h1 E) as [Ev _]. set (W := 2 ^ pm_width flags) in *. pose proof (Z.div_mod (clock h1) W ltac:(lia)) as Hdiv. rewrite <- Ev in Hdiv. set (k := clock h1 / W) in *.
  assert (0 <= v < W) as Hv by (rewrite Ev; apply Z.mod_pos_bound; lia).
  unfold wait_by_pm_timer in Hw. unfold read_pm_timer in Hw at 1. rewrite Hport in Hw. cbn [mbind option_bind] in Hw. rewrite E in Hw. cbn [mbind option_bind] in Hw. rewrite Hflags in Hw. cbn [mbind option_bind] in Hw.
  rewrite end_count_spec in Hw. fold W in Hw. assert (u64 (PM_TIMER_FREQUENCY * millisec) / 1000 = N) as EN by (unfold N, pm_ticks; rewrite wrap_small; [done|unfold PM_TIMER_FREQUENCY in *; lia]). rewrite EN in Hw.
  pose proof (fun T p => poll_while_after fadt m clock port flags g T p Hport Hread fuel) as Hpoll. fold W in Hpoll. destruct (Z.lt_ge_cases (v + N) W) as [Hin|Hout].
  - rewrite (Z.mod_small (v + N) W) in Hw by lia. destruct (Z.ltb_spec (v + N) v); [lia|]. cbn [mbind option_bind] in Hw.
    destruct (Hpoll (clock h1 + N) (fun x => x <? v + N) h1 h') as [HT _]; [|exact Hw|lia]. intros t Ht. rewrite (mod_window t k) by lia. apply Z.ltb_lt. lia.
  - rewrite (mod_window (v + N) 1) in Hw by lia. destruct (Z.ltb_spec (v + N - 1 * W) v); [|lia]. destruct (poll_while fadt m fuel (fun x => v <=? x) h1) as [h2|] eqn:E1; [|done]. cbn [mbind option_bind] in Hw.
    destruct (Hpoll ((k + 1) * W) (fun x => v <=? x) h1 h2) as [HT2 _]; [|exact E1|]. { intros t Ht. rewrite (mod_window t k) by lia. apply Z.leb_le. lia. }
    destruct (Hpoll (clock h1 + N) (fun x => x <? v + N - 1 * W) h2 h') as [HT _]; [|exact Hw|lia]. intros t Ht. rewrite (mod_window t (k + 1)) by lia. apply Z.ltb_lt. lia.
Qed.

(** C32: (waiting) A timer of the announced width counts without end, and two reads of it are at
    most [g] counts apart; the wait and a read fit the counter.  However long it takes,
    the function does not return before the counts that [millisec] milliseconds take.  It
    does return, at most two reads later than that, unless the wait ends within a read
    below the turn of the counter, or the counter turns on the way and the wait started
    within a read above the turn: then the polling can miss its end. *)
Theorem pm_wait_correct {D} `{ClockHw D} fadt m (clock : D -> Z) port flags g h v h1 millisec fuel :
  fadt_field fadt m FADT_PM_TMR_BLK = Some port -> fadt_field fadt m FADT_FLAGS = Some flags ->
  (forall h v h', in_port (u16 port) h = (v, h') -> v = clock h' mod 2 ^ pm_width flags /\ clock h < clock h' <= clock h + g) ->
  0 <= millisec -> PM_TIMER_FREQUENCY * millisec < 2 ^ 64 -> pm_ticks millisec + g <= 2 ^ pm_width flags -> 2 * g <= 2 ^ pm_width flags ->
  in_port (u16 port) h = (v, h1) ->
  (forall h', wait_by_pm_timer fadt m fuel millisec h = Some h' -> pm_ticks millisec <= clock h' - clock h1) /\
  (off_turn flags g v (pm_ticks millisec) -> pm_ticks millisec + 1 < Z.of_nat fuel ->
   exists h', wait_by_pm_timer fadt m fuel millisec h = Some h' /\ clock h' - clock h1 <= pm_ticks millisec + 2 * g).
Proof.
  intros Hport Hflags Hread Hms Hfit HN Hg E. pose proof (Hread h v h1 E) as [_ Hc]. split.
  - intros h' Hw. apply (pm_wait_long_enough fadt m clock port flags g h v h1 millisec fuel h'); try done. lia.
  - intros Hoff Hfuel. destruct (pm_wait_timely fadt m clock port flags g h v h1 millisec fuel) as (h' & Hw & Ht); try done. exists h'. split; [done|lia].
Qed.

(** ** The period of the timer interrupt

    A board: a power-management timer of width [w] at [port], read [step t] counts after
    time [t], and an APIC timer that has counted [a t] at that time. *)
Record Board := mkBoard { b_time : Z; b_initial : Z; b_start : Z; b_lvt : Z; b_divide : Z }.

Section Board.
Context (w port : Z) (step a : Z -> Z).

Definition board_count (b : Board) : Z := Z.max 0 (b_initial b - (a (b_time b) - a (b_start b))).

#[local] Instance board_hw : ClockHw Board := {
  in_port p b :=
    let t := b_time b + step (b_time b) in
    (if p =? port then t mod 2 ^ w else 2 ^ 32 - 1, mkBoard t (b_initial b) (b_start b) (b_lvt b) (b_divide b));
  apic_read r b := (match r with LVT_TIMER => b_lvt b | INITIAL_COUNT => b_initial b | CURRENT_COUNT => board_count b | DIVIDE_CONFIG => b_divide b end, b);
  apic_write r v b :=
    match r with
    | LVT_TIMER => mkBoard (b_time b) (b_initial b) (b_start b) v (b_divide b)
    | INITIAL_COUNT => mkBoard (b_time b) v (b_time b) (b_lvt b) (b_divide b)
    | CURRENT_COUNT => b
    | DIVIDE_CONFIG => mkBoard (b_time b) (b_initial b) (b_start b) (b_lvt b) v
    end;
}.

Context (fadt : Z) (m : Bytes).

(** The port reads of a wait leave the APIC alone. *)
Definition same_apic (b b' : Board) : Prop := b_initial b' = b_initial b /\ b_start b' = b_start b /\ b_lvt b' = b_lvt b /\ b_divide b' = b_divide b.

Lemma read_same_apic b v b' : read_pm_timer fadt m b = Some (v, b') -> same_apic b b'.
Proof. unfold read_pm_timer. destruct (fadt_field _ _ _); [|done]. by intros [= <- <-]. Qed.

Lemma poll_same_apic fuel p : forall b b', poll_while fadt m fuel p b = Some b' -> same_apic b b'.
Proof.
  induction fuel as [|fuel IH]; intros b b' E; [done|]. cbn [poll_while] in E. destruct (read_pm_timer fadt m b) as [[v b1]|] eqn:E1; [|done]. cbn [mbind option_bind] in E.
  apply read_same_apic in E1. destruct (p v); [apply IH in E|injection E as ->]; unfold same_apic in *; intuition congruence.
Qed.

Lemma wait_same_apic fuel ms b b' : wait_by_pm_timer fadt m fuel ms b = Some b' -> same_apic b b'.
Proof.
  unfold wait_by_pm_timer. destruct (read_pm_timer fadt m b) as [[v b1]|] eqn:E1; [|done]. cbn [mbind option_bind]. destruct (fadt_field _ _ FADT_FLAGS) as [flags|]; [|done]. cbn [mbind option_bind].
  apply read_same_apic in E1. set (e := if negb _ then _ else _). destruct (if e <? v then _ else _) as [b2|] eqn:E2; [|done]. cbn [mbind option_bind]. intros E3%poll_same_apic.
  assert (same_apic b1 b2) by (destruct (e <? v); [by apply poll_same_apic in E2|by injection E2 as ->]). unfold same_apic in *. intuition congruence.
Qed.
End Board.

(** C33: (timer period) On a board whose power-management timer is read at least every [g] counts, whose
    APIC timer counts less than 2^32 / 10 in the measured time, and whose timer is not so
    close to its turn that the wait for 100 ms can miss its end, the start-up of the local
    APIC leaves its timer in periodic mode at its vector, undivided, with a period of a
    tenth of what it counts in [e] counts of the power-management timer, which are those
    of 100 ms up to the delay of three reads. *)
Theorem apic_timer_calibrated w port step a fadt m flags g b fuel :
  fadt_field fadt m FADT_PM_TMR_BLK = Some port -> 0 <= port < 2 ^ 16 -> fadt_field fadt m FADT_FLAGS = Some flags -> w = pm_width flags ->
  (forall t, 1 <= step t <= g) -> (forall t t', t <= t' -> a t <= a t') -> 4 * g <= 2 ^ 24 ->
  (forall e, 0 <= e <= 357954 + 3 * g -> 10 * (a (b_time b + e) - a (b_time b)) < 2 ^ 32) ->
  let v := (b_time b + step (b_time b)) mod 2 ^ w in
  off_turn flags g v 357954 -> 357955 < Z.of_nat fuel ->
  exists b' e, @apic_initialize Board (board_hw w port step a) fadt m fuel b = Some b' /\ 357954 <= e <= 357954 + 3 * g /\
    b_initial b' = (a (b_time b + e) - a (b_time b)) / 10 /\ b_lvt b' = 0x20040 /\ b_divide b' = DIVIDE_BY_1.
Proof.
  intros Hport Hp Hflags -> Hstep Hmono Hg Hfit v Hmiss Hfuel. unfold apic_initialize. cbn [apic_write board_hw].
  cbn [b_time b_initial b_start b_lvt b_divide]. set (b0 := mkBoard (b_time b) COUNT_MAX _ _ _). pose proof (pm_width_pow flags) as Hw.
  destruct (@pm_wait_timely Board (board_hw (pm_width flags) port step a) fadt m b_time port flags g b0 v (mkBoard (b_time b + step (b_time b)) COUNT_MAX (b_time b) (Z.shiftl 1 16) DIVIDE_BY_1) 100 fuel) as (b1 & E & H1);
    [done|done| |lia|done|change (pm_ticks 100) with 357954; lia|lia| |done|change (pm_ticks 100) with 357954; lia|].
  - intros h x h'. cbn [in_port board_hw]. rewrite (wrap_small 16) by done. rewrite Z.eqb_refl. intros [= <- <-]. cbn [b_time]. specialize (Hstep (b_time h)). split; [done|lia].
  - cbn [in_port board_hw]. rewrite (wrap_small 16) by done. by rewrite Z.eqb_refl.
  - pose proof (wait_same_apic _ _ _ _ _ _ _ _ _ _ E) as (Ei & Es & El & Ed). change (pm_ticks 100) with 357954 in H1. cbn [b_time] in H1. rewrite E. cbn [mbind option_bind apic_read board_hw].
    specialize (Hstep (b_time b)). exists (mkBoard (b_time b1) ((a (b_time b1) - a (b_time b)) / 10) (b_time b1) 0x20040 DIVIDE_BY_1), (b_time b1 - b_time b). cbn [b_time b_initial b_lvt b_divide].
    replace (b_time b + (b_time b1 - b_time b)) with (b_time b1) by lia. split_and!; try (done || lia). f_equal. f_equal. unfold board_count. rewrite Ei, Es. cbn [b0 b_initial b_start].
    pose proof (Hmono (b_time b) (b_time b1) ltac:(lia)). specialize (Hfit (b_time b1 - b_time b) ltac:(lia)). replace (b_time b + (b_time b1 - b_time b)) with (b_time b1) in Hfit by lia.
    unfold COUNT_MAX, TIMER_FREQUENCY. rewrite Z.max_r by lia. rewrite !wrap_small by (rewrite ?wrap_small; lia). rewrite Z.sub_sub_distr, Z.sub_diag, Z.add_0_l. by rewrite (Z.mul_comm _ 10), (Z.div_mul_cancel_l _ 10 10).
Qed.

(** ** The tables of the firmware *)

Definition le_value (bs : list Z) : Z := foldr (fun b v => b + 256 * v) 0 bs.
Definition sum (bs : list Z) : Z := foldr Z.add 0 bs.

Definition holds (m : Bytes) (p : Z) (bs : list Z) : Prop := forall i x, bs !! i = Some x -> m (p + Z.of_nat i) = Some x.

(** A table with the length its header states. *)
Definition table_at (m : Bytes) (t : Z * list Z) : Prop := holds m t.1 t.2 /\ (36 <= length t.2)%nat /\ le_value (take 4 (drop 4 t.2)) = lenz t.2.

Definition is_facp (bs : list Z) : bool := bool_decide (take 4 bs = FACP) && (sum bs mod 256 =? 0).

(** The pointer structure [rs], the extended table [xs], and the tables it lists. *)
Record firmware (m : Bytes) (rsdp : Z) (rs : list Z) (xsdt : Z) (xs : list Z) (tables : list (Z * list Z)) : Prop := mkFirmware {
  fw_rsdp : holds m rsdp rs /\ (36 <= length rs)%nat /\ take 8 rs = RSD_PTR /\ rs !! 15%nat = Some 2 /\ le_value (take 4 (drop 20 rs)) = lenz rs /\ sum rs mod 256 = 0;
  fw_address : le_value (take 8 (drop 24 rs)) = xsdt;
  fw_xsdt : table_at m (xsdt, xs) /\ lenz xs = SDT_HEADER_SIZE + 8 * lenz tables /\ lenz xs < 2 ^ 32;
  fw_entries : forall i t, tables !! i = Some t -> le_value (take 8 (drop (36 + 8 * i) xs)) = t.1;
  fw_tables : Forall (table_at m) tables;
}.

Section Tables.
Context (m : Bytes).

Lemma holds_cons p b bs : holds m p (b :: bs) -> m p = Some b /\ holds m (p + 1) bs.
Proof. intros Hb. split; [pose proof (Hb 0%nat b eq_refl) as E; by rewrite Z.add_0_r in E|]. intros i x Hi. replace (p + 1 + Z.of_nat i) with (p + Z.of_nat (S i)) by lia. by apply Hb. Qed.

Lemma holds_drop n p bs : holds m p bs -> holds m (p + Z.of_nat n) (drop n bs).
Proof. intros Hb i x Hi. rewrite lookup_drop in Hi. replace (p + Z.of_nat n + Z.of_nat i) with (p + Z.of_nat (n + i)) by lia. by apply Hb. Qed.

Lemma load_holds n : forall p bs, holds m p bs -> (n <= length bs)%nat -> load n p m = Some (le_value (take n bs)).
Proof.
  induction n as [|n IH]; intros p bs Hb Hn; [by destruct bs|]. destruct bs as [|b bs]; [cbn in Hn; lia|]. apply holds_cons in Hb as [Eb Hb]. cbn [load]. rewrite Eb. cbn [mbind option_bind].
  rewrite (IH (p + 1) bs Hb) by (cbn in Hn; lia). done.
Qed.

Lemma load_field n o p bs : holds m p bs -> (o + n <= length bs)%nat -> load n (p + Z.of_nat o) m = Some (le_value (take n (drop o bs))).
Proof. intros Hb Hn. apply load_holds; [by apply holds_drop|]. rewrite length_drop. lia. Qed.

Lemma text_at_holds s : forall p bs, holds m p bs -> (length s <= length bs)%nat -> text_at p s m = Some (bool_decide (take (length s) bs = s)).
Proof.
  induction s as [|c s IH]; intros p bs Hb Hn; [cbn; by rewrite take_0|]. destruct bs as [|b bs]; [cbn in Hn; lia|]. apply holds_cons in Hb as [Eb Hb]. cbn [text_at length take]. rewrite Eb. cbn [mbind option_bind].
  destruct (Z.eqb_spec b c) as [->|Hne].
  - rewrite (IH (p + 1) bs Hb) by (cbn in Hn; lia). f_equal. apply bool_decide_ext. split; [by intros ->|by intros [=]].
  - rewrite bool_decide_eq_false_2; [done|]. by intros [=].
Qed.

Lemma sum_loop n : forall i p bs acc, holds m (p + i) bs -> length bs = n ->
  for_n n i (fun i s => b ← m (p + i); Some (u8 (s + b))) (u8 acc) = Some (u8 (acc + sum bs)).
Proof.
  induction n as [|n IH]; intros i p bs acc Hb Hn; [destruct bs; [|done]; cbn; by rewrite Z.add_0_r|]. destruct bs as [|b bs]; [done|]. injection Hn as Hn. apply holds_cons in Hb as [Eb Hb]. cbn [for_n].
  rewrite Eb. cbn [mbind option_bind]. unfold wrap at 2. unfold wrap at 2. rewrite Z.add_mod_idemp_l by lia. change ((acc + b) mod 2 ^ 8) with (u8 (acc + b)). rewrite (IH (i + 1) p bs (acc + b)) by (by rewrite ?Z.add_assoc). cbn [sum foldr]. f_equal. f_equal. unfold sum. lia.
Qed.

Lemma sum_bytes_holds p bs : holds m p bs -> sum_bytes (lenz bs) p m = Some (sum bs mod 256).
Proof. intros Hb. unfold sum_bytes, lenz. rewrite Nat2Z.id. change 0 with (u8 0) at 2. rewrite (sum_loop (length bs) 0 p bs 0); [done| |done]. by rewrite Z.add_0_r. Qed.

Lemma sdt_is_valid_spec t : table_at m t -> sdt_is_valid FACP t.1 m = Some (is_facp t.2).
Proof.
  intros (Hb & Hn & Hl). unfold sdt_is_valid. rewrite (text_at_holds FACP t.1 t.2) by (done || (cbn; lia)). cbn [mbind option_bind]. unfold is_facp. change (length FACP) with 4%nat.
  destruct (bool_decide (take 4 t.2 = FACP)); cbn [negb andb]; [|done]. change SDT_LENGTH with (Z.of_nat 4). rewrite (load_field 4 4 t.1 t.2) by (done || lia). cbn [mbind option_bind]. rewrite Hl. by rewrite sum_bytes_holds.
Qed.

Definition first_facp (tables : list (Z * list Z)) : Z := match List.find (fun t => is_facp t.2) tables with Some t => t.1 | None => 0 end.

Lemma find_fadt_spec rsdp rs xsdt xs tables : firmware m rsdp rs xsdt xs tables -> forall rest i fuel, drop i tables = rest -> (length rest <= fuel)%nat ->
  find_fadt fuel xsdt (Z.of_nat i) m = Some (first_facp rest).
Proof.
  intros Hfw. destruct (fw_xsdt _ _ _ _ _ _ Hfw) as ((Hb & Hn & Hl) & Hlen & Hsmall). cbn [fst snd] in *. assert (xsdt_count xsdt m = Some (lenz tables)) as Hcount.
  { unfold xsdt_count. change SDT_LENGTH with (Z.of_nat 4). rewrite (load_field 4 4 xsdt xs) by (done || lia). cbn [mbind option_bind]. rewrite Hl, Hlen. pose proof (lenz_nonneg tables). rewrite wrap_small; [|unfold SDT_HEADER_SIZE in *; lia].
    f_equal. rewrite Z.add_simpl_l. rewrite Z.mul_comm. by apply Z.div_mul. }
  induction rest as [|t rest IH]; intros i fuel Hd Hf.
  - assert (length tables <= i)%nat by (apply (f_equal length) in Hd; rewrite length_drop in Hd; cbn in Hd; lia). destruct fuel; cbn [find_fadt]; rewrite Hcount; cbn [mbind option_bind]; (destruct (Z.ltb_spec (Z.of_nat i) (lenz tables)); [unfold lenz in *; lia|done]).
  - assert (tables !! i = Some t) as Ht by (rewrite <- (Nat.add_0_r i), <- lookup_drop, Hd; done). pose proof (lookup_lt_Some _ _ _ Ht). destruct fuel as [|fuel]; [cbn in Hf; lia|]. cbn [find_fadt]. rewrite Hcount. cbn [mbind option_bind].
    destruct (Z.ltb_spec (Z.of_nat i) (lenz tables)); [|unfold lenz in *; lia]. unfold xsdt_entry. replace (xsdt + SDT_HEADER_SIZE + 8 * Z.of_nat i) with (xsdt + Z.of_nat (36 + 8 * i)) by (unfold SDT_HEADER_SIZE; lia).
    rewrite (load_field 8 _ xsdt xs) by (done || (unfold lenz, SDT_HEADER_SIZE in *; lia)). cbn [mbind option_bind]. rewrite (fw_entries _ _ _ _ _ _ Hfw i t Ht).
    rewrite sdt_is_valid_spec by (apply (proj1 (Forall_forall _ _) (fw_tables _ _ _ _ _ _ Hfw)); by apply list_elem_of_lookup_2 in Ht). cbn [mbind option_bind].
    unfold first_facp. cbn [List.find]. destruct (is_facp t.2); [done|]. destruct (Z.eqb_spec (Z.of_nat i) (2 ^ 31 - 1)); [unfold lenz, SDT_HEADER_SIZE in *; lia|].
    replace (Z.of_nat i + 1) with (Z.of_nat (S i)) by lia. apply IH; [|cbn in Hf; lia]. by rewrite (drop_S tables t i Ht) in Hd; injection Hd.
Qed.
End Tables.

(** The FADT is the first sound one.  For firmware whose pointer structure is sound,
    the search ends with the address of the first table that has the signature FACP and
    whose bytes add up to 0 modulo 256, and with a null pointer when there is none. *)
Theorem fadt_found m rsdp rs xsdt xs tables fuel : firmware m rsdp rs xsdt xs tables -> (length tables <= fuel)%nat ->
  acpi_initialize fuel rsdp m = Some (first_facp tables).
Proof.
  intros Hfw Hf. destruct (fw_rsdp _ _ _ _ _ _ Hfw) as (Hb & Hn & Hsig & Hrev & Hl & Hsum). unfold acpi_initialize, rsdp_is_valid. rewrite (text_at_holds m RSD_PTR rsdp rs) by (done || (cbn; lia)).
  change (length RSD_PTR) with 8%nat. rewrite bool_decide_eq_true_2 by done. cbn [mbind option_bind negb]. change RSDP_REVISION with (Z.of_nat 15). rewrite (load_field m 1 15 rsdp rs) by (done || lia). cbn [mbind option_bind].
  rewrite (drop_S rs 2 15 Hrev). cbn [take le_value foldr]. rewrite take_0. cbn [foldr]. change (2 + 256 * 0 =? 2) with true. cbn [negb]. change RSDP_LENGTH with (Z.of_nat 20). rewrite (load_field m 4 20 rsdp rs) by (done || lia). cbn [mbind option_bind].
  rewrite Hl, (sum_bytes_holds m rsdp rs Hb), Hsum. cbn [mbind option_bind Z.eqb negb]. change RSDP_XSDT with (Z.of_nat 24). rewrite (load_field m 8 24 rsdp rs) by (done || lia). cbn [mbind option_bind].
  rewrite (fw_address _ _ _ _ _ _ Hfw). by apply (find_fadt_spec m rsdp rs xsdt xs tables Hfw tables 0).
Qed.

(** ** A sample board *)

Definition checked (at_ : nat) (bs : list Z) : list Z := <[at_ := u8 (- sum bs)]> bs.
Definition sample_rsdp : list Z := checked 8 (RSD_PTR ++ [0; 0; 0; 0; 0; 0; 0; 2; 0; 0; 0; 0; 36; 0; 0; 0; 0; 2; 0; 0; 0; 0; 0; 0; 0; 0; 0; 0]).
Definition sample_header (sig : list Z) (len : Z) : list Z := sig ++ [len; 0; 0; 0] ++ replicate 28 0.
Definition sample_xsdt : list Z := checked 9 (sample_header [0x58; 0x53; 0x44; 0x54] 52 ++ [0; 3; 0; 0; 0; 0; 0; 0; 0; 4; 0; 0; 0; 0; 0; 0]).
Definition sample_madt : list Z := sample_header [0x41; 0x50; 0x49; 0x43] 36.
Definition sample_fadt : list Z := checked 9 (sample_header FACP 116 ++ replicate 40 0 ++ [8; 6; 0; 0] ++ replicate 36 0).

Definition sample_tables : list (Z * list Z) := [(0x300, sample_madt); (0x400, sample_fadt)].

Definition sample_bytes : Bytes := fun p =>
  if p <? 0x200 then atz sample_rsdp (p - 0x100) else if p <? 0x300 then atz sample_xsdt (p - 0x200) else if p <? 0x400 then atz sample_madt (p - 0x300) else atz sample_fadt (p - 0x400).

Lemma holds_check m p bs : forallb (fun i => bool_decide (m (p + Z.of_nat i) = bs !! i)) (seq 0 (length bs)) = true -> holds m p bs.
Proof.
  intros Hb i x Hi. rewrite forallb_forall in Hb. pose proof (lookup_lt_Some _ _ _ Hi). specialize (Hb i ltac:(apply in_seq; lia)). apply bool_decide_eq_true in Hb. by rewrite Hb.
Qed.

Lemma sample_firmware : firmware sample_bytes 0x100 sample_rsdp 0x200 sample_xsdt sample_tables.
Proof.
  assert (holds sample_bytes 0x100 sample_rsdp /\ holds sample_bytes 0x200 sample_xsdt /\ holds sample_bytes 0x300 sample_madt /\ holds sample_bytes 0x400 sample_fadt) as (H1 & H2 & H3 & H4)
    by (split_and!; apply holds_check; by vm_compute).
  split; [split_and!; (done || (vm_compute; lia))|done|split; [repeat split; (done || (cbn; lia))|done]| |].
  - intros [|[|i]] t Ht; cbn in Ht; [by injection Ht as <-..|done].
  - repeat constructor; (done || (cbn; lia)).
Qed.

Lemma fadt_found_witness : acpi_initialize 2 0x100 sample_bytes = Some 0x400.
Proof. rewrite (fadt_found sample_bytes 0x100 sample_rsdp 0x200 sample_xsdt sample_tables 2); [reflexivity|exact sample_firmware|cbn; lia]. Defined.

(** A timer that is read every third count, and an APIC timer at 28 times its rate. *)
Definition sample_step (t : Z) : Z := 3.
Definition sample_apic (t : Z) : Z := 28 * t.
Definition sample_board : Board := mkBoard 1000 0 0 0 0.

Lemma pm_wait_correct_witness : exists b', @wait_by_pm_timer Board (board_hw 24 0x608 sample_step sample_apic) 0x400 sample_bytes (Z.to_nat 400000) 100 sample_board = Some b' /\ 357954 <= b_time b' - 1003 <= 357960.
Proof.
  destruct (@pm_wait_correct Board (board_hw 24 0x608 sample_step sample_apic) 0x400 sample_bytes b_time 0x608 0 3 sample_board 1003 (mkBoard 1003 0 0 0 0) 100 (Z.to_nat 400000)) as [Hlong Hret];
    [reflexivity|reflexivity| |lia|done|by vm_compute|by vm_compute|reflexivity|].
  - intros h v h' E. injection E as <- <-. cbn [b_time]. unfold sample_step. split; [done|lia].
  - destruct Hret as (b' & E & Hb); [by vm_compute|rewrite Z2Nat.id by lia; by vm_compute|]. exists b'. exact (conj E (conj (Hlong b' E) Hb)).
Defined.

(** Near the turn the wait may not end: a timer that is read every fourth count never
    shows the last count before the turn, at which a wait of 100 ms would end. *)
Theorem end_near_turn_hangs fuel :
  @wait_by_pm_timer Board (board_hw 24 0x608 (fun _ => 4) sample_apic) 0x400 sample_bytes fuel 100 (mkBoard (2 ^ 24 - 1 - 357954 - 4) 0 0 0 0) = None.
Proof.
  unfold wait_by_pm_timer. unfold read_pm_timer at 1. change (fadt_field 0x400 sample_bytes FADT_PM_TMR_BLK) with (Some 0x608). cbn [mbind option_bind in_port board_hw].
  change (fadt_field 0x400 sample_bytes FADT_FLAGS) with (Some 0). change (u16 0x608 =? 0x608) with true. cbn [mbind option_bind b_time b_initial b_start b_lvt b_divide].
  set (v := (2 ^ 24 - 1 - 357954 - 4 + 4) mod 2 ^ 24). set (e := if negb _ then _ else _). assert (e = 2 ^ 24 - 1) as -> by (by vm_compute). change (2 ^ 24 - 1 <? v) with false. cbn [mbind option_bind].
  set (t := 2 ^ 24 - 1 - 357954 - 4 + 4). assert (t mod 4 = 1) as Ht by done. clearbody t. revert t Ht. clear v. induction fuel as [|fuel IH]; intros t Ht; [done|]. cbn [poll_while]. unfold read_pm_timer.
  change (fadt_field 0x400 sample_bytes FADT_PM_TMR_BLK) with (Some 0x608). cbn [mbind option_bind in_port board_hw b_time b_initial b_start b_lvt b_divide]. change (u16 0x608 =? 0x608) with true. cbv iota.
  assert ((t + 4) mod 4 = 1) as Ht4 by (rewrite <- Ht; exact (Z_mod_plus_full t 1 4)). destruct (Z.ltb_spec ((t + 4) mod 2 ^ 24) (2 ^ 24 - 1)) as [_|Hge]; [by apply IH|exfalso].
  pose proof (Z.mod_pos_bound (t + 4) (2 ^ 24) ltac:(lia)). pose proof (Z.div_mod (t + 4) (2 ^ 24) ltac:(lia)). pose proof (Z.div_mod (t + 4) 4 ltac:(lia)). lia.
Qed.

Lemma apic_timer_calibrated_witness : exists b' e, @apic_initialize Board (board_hw 24 0x608 sample_step sample_apic) 0x400 sample_bytes (Z.to_nat 400000) sample_board = Some b' /\ 357954 <= e <= 357963 /\
    b_initial b' = (sample_apic (1000 + e) - sample_apic 1000) / 10 /\ b_lvt b' = 0x20040 /\ b_divide b' = DIVIDE_BY_1.
Proof.
  apply (apic_timer_calibrated 24 0x608 sample_step sample_apic 0x400 sample_bytes 0 3 sample_board (Z.to_nat 400000));
    [reflexivity|lia|reflexivity|reflexivity|done| |lia| |by vm_compute|rewrite Z2Nat.id by lia; lia].
  - intros t t' Ht. unfold sample_apic. lia.
  - intros e He. unfold sample_apic. cbn [b_time sample_board]. lia.
Defined.
