(* ===== verification/Console.v ===== *)
(** * The console: keyboard focus, keymap, terminal and shell

    [kernel/hardware/keyboard.cpp] sends the key events of the USB driver to the task
    that has the focus, and [kernel/task/builtin.cpp] answers requests to the kernel
    task.  The shell ([userland/shell/], [libs/user/keymap.cpp]) turns the events into
    characters, edits its input line on the terminal, and runs the commands.  Its
    system calls are the operations of [ShellOs]. *)

From S2P Require Import Prelude UserMem Paging Syscall Pci Message MessageQueue Task TaskProofs TaskSpec Pages UsbDevice.

Open Scope Z_scope.

(** ** Key events in the kernel *)

(** The observer of [initialize_keyboard]: a key event is a message to the focus task,
    and is dropped when there is none. *)
Definition key_message (k : Key) : Message :=
  set_data (DKeyInput (keycode k) (modifier k) (if press k then 1 else 0)) (new_message NOTIFY_KEY_INPUT process_ids.XHCI).

Definition observe_key (focus_task : Z) (k : Key) (s : Sys) : option Sys :=
  if focus_task =? process_ids.INVALID then Some s
  else '(_, s) ← send_message focus_task (key_message k) s; Some s.

(** [handle_set_focus] *)
Definition handle_set_focus (m : Message) (focus_task : Z) : Z := sender m.

(** ** The kernel task *)

Definition handle_task_ready (m : Message) (s : Sys) : option Sys :=
  '(_, s) ← send_message (sender m) (set_data (DInit (sender m)) (new_message KERNEL_TASK_READY process_ids.KERNEL)) s; Some s.

(** The sizes are stored in [unsigned int] fields. *)
Definition handle_memory_usage (pages : list Page) (m : Message) (s : Sys) : option Sys :=
  let '(total, used) := get_memory_usage pages in
  let resp := set_result (err OK) (set_data (DMemoryUsage (u32 total) (u32 used)) (new_message KERNEL_MEMORY_USAGE process_ids.KERNEL)) in
  '(_, s) ← reply m resp s; Some s.

(** [%02x:%02x.%d] of three bytes, with its terminator; the number of a function has one
    digit. *)
Definition hex_digit (x : Z) : Z := if x <? 10 then 48 + x else 87 + x.
Definition bus_address (d : Device) : list Z :=
  [hex_digit (bus d / 16); hex_digit (bus d mod 16); 58; hex_digit (device d / 16); hex_digit (device d mod 16); 46; 48 + function d; 0].

(** A [PciDeviceInfo]: two 16-bit numbers and the text. *)
Definition pci_device_info (d : Device) : list Z :=
  [vendor_id d mod 256; vendor_id d / 256; device_id d mod 256; device_id d / 256] ++ bus_address d.

(** The loop that fills the array: the bytes of a list at an address. *)
Fixpoint store_bytes (a : Z) (l : list Z) (m : UserMem.Mem) : UserMem.Mem :=
  match l with
  | [] => m
  | b :: l => store_bytes (a + 1) l (store a b m)
  end.

Definition SIZEOF_PCI_DEVICE_INFO : Z := 12.

Definition handle_pci (devs : list Device) (m : Message) (k : Kern) : option Kern :=
  let resp := new_message KERNEL_PCI_LIST process_ids.KERNEL in
  let count := lenz devs in
  if count =? 0 then '(_, k) ← reply_k m (set_result (err OK) resp) k; Some k
  else
    let (buf, k) := make_ool_buffer (count * SIZEOF_PCI_DEVICE_INFO) k in
    if buf =? 0 then '(_, k) ← reply_k m (set_result (err ERR_NO_MEMORY) resp) k; Some k
    else
      let k := set_mem (store_bytes buf (flat_map pci_device_info devs) (mem k)) k in
      '(_, k) ← reply_with_ool m (set_result (err OK) resp) buf (count * SIZEOF_PCI_DEVICE_INFO) k; Some k.

(** ** Keymap *)

Definition KEYCODE_MAP : list Z :=
  [0; 0; 0; 0; 97; 98; 99; 100; 101; 102; 103; 104; 105; 106; 107; 108;
   109; 110; 111; 112; 113; 114; 115; 116; 117; 118; 119; 120; 121; 122; 49; 50;
   51; 52; 53; 54; 55; 56; 57; 48; 10; 8; 8; 9; 32; 45; 61; 91;
   93; 92; 35; 59; 39; 96; 44; 46; 47; 0; 0; 0; 0; 0; 0; 0] ++ replicate 20 0 ++
  [47; 42; 45; 43; 10; 49; 50; 51; 52; 53; 54; 55; 56; 57; 48; 46; 92; 0; 0; 61] ++ replicate 33 0 ++ [92] ++ replicate 118 0.

Definition KEYCODE_MAP_SHIFTED : list Z :=
  [0; 0; 0; 0; 65; 66; 67; 68; 69; 70; 71; 72; 73; 74; 75; 76;
   77; 78; 79; 80; 81; 82; 83; 84; 85; 86; 87; 88; 89; 90; 33; 64;
   35; 36; 37; 94; 38; 42; 40; 41; 10; 8; 8; 9; 32; 95; 43; 123;
   125; 124; 126; 58; 34; 126; 60; 62; 63; 0; 0; 0; 0; 0; 0; 0] ++ replicate 20 0 ++
  [47; 42; 45; 43; 10; 49; 50; 51; 52; 53; 54; 55; 56; 57; 48; 46; 92; 0; 0; 61] ++ replicate 33 0 ++ [124] ++ replicate 118 0.

Definition KEY_MOD_LSHIFT : Z := 2.
Definition KEY_MOD_RSHIFT : Z := 32.

Definition keycode_to_ascii (keycode modifier : Z) : option Z :=
  let shift := negb (Z.land modifier (Z.lor KEY_MOD_LSHIFT KEY_MOD_RSHIFT) =? 0) in
  if shift then atz KEYCODE_MAP_SHIFTED keycode else atz KEYCODE_MAP keycode.

(** ** System calls of the shell *)

Inductive Draw :=
| DrawText (text : list Z) (x y color : Z)
| FillRect (x y width height color : Z).

(** [os_fork] is [sys_fork] as the process that returns from it sees it, [os_exec]
    returns a value only when it fails, [os_pwd] is the name in the reply of the file
    system, or nothing on an error, [os_text] the C string at an address. *)
Class ShellOs (W : Type) := {
  os_draw : Draw -> W -> W;
  os_fork : W -> Z * W;
  os_wait : W -> Z * W;
  os_exec : list Z -> list Z -> W -> option Z * W;
  os_create : list Z -> W -> Z * W;
  os_open : list Z -> W -> Z * W;
  os_dup2 : Z -> Z -> W -> W;
  os_close : Z -> W -> W;
  os_send_done : W -> W;
  os_pwd : W -> option (list Z) * W;
  os_timer : Z -> W -> W;
  os_release : Z -> W -> W;
  os_text : Z -> W -> option (list Z);
  os_claim_focus : W -> W;
  os_smoke_report : Z -> W -> W;
}.

(** ** Terminal *)

Definition TERMINAL_WIDTH : Z := 98.
Definition TERMINAL_HEIGHT : Z := 30.
Definition LINE_SPACING : Z := 3.
Definition START_X : Z := 7.
Definition START_Y : Z := 7.
Definition FONT_WIDTH : Z := 8.
Definition FONT_HEIGHT : Z := 16.
Definition SCREEN_WIDTH : Z := 800.
Definition SCREEN_HEIGHT : Z := 600.
Definition COLOR_WHITE : Z := 0xffffff.
Definition COLOR_GREEN : Z := 0x00ff00.
Definition COLOR_CYAN : Z := 0x00ffff.
Definition COLOR_BLACK : Z := 0.

Record Terminal := mkTerminal {
  buffer : list (list Z);
  color_buffer : list (list Z);
  current_dir : list Z;
  cursor_x : Z;
  cursor_y : Z;
  input : list Z;
  input_index : Z;
  prompt_len : Z;
  cursor_visible : bool;
  enable_input : bool;
}.

Definition set_cells (b c : list (list Z)) (t : Terminal) : Terminal :=
  mkTerminal b c (current_dir t) (cursor_x t) (cursor_y t) (input t) (input_index t) (prompt_len t) (cursor_visible t) (enable_input t).
Definition set_cursor (x y : Z) (t : Terminal) : Terminal :=
  mkTerminal (buffer t) (color_buffer t) (current_dir t) x y (input t) (input_index t) (prompt_len t) (cursor_visible t) (enable_input t).
Definition set_line (l : list Z) (i : Z) (t : Terminal) : Terminal :=
  mkTerminal (buffer t) (color_buffer t) (current_dir t) (cursor_x t) (cursor_y t) l i (prompt_len t) (cursor_visible t) (enable_input t).
Definition set_prompt_len (n : Z) (t : Terminal) : Terminal :=
  mkTerminal (buffer t) (color_buffer t) (current_dir t) (cursor_x t) (cursor_y t) (input t) (input_index t) n (cursor_visible t) (enable_input t).
Definition set_dir (d : list Z) (t : Terminal) : Terminal :=
  mkTerminal (buffer t) (color_buffer t) d (cursor_x t) (cursor_y t) (input t) (input_index t) (prompt_len t) (cursor_visible t) (enable_input t).
Definition set_visible (b : bool) (t : Terminal) : Terminal :=
  mkTerminal (buffer t) (color_buffer t) (current_dir t) (cursor_x t) (cursor_y t) (input t) (input_index t) (prompt_len t) b (enable_input t).
Definition set_enable (b : bool) (t : Terminal) : Terminal :=
  mkTerminal (buffer t) (color_buffer t) (current_dir t) (cursor_x t) (cursor_y t) (input t) (input_index t) (prompt_len t) (cursor_visible t) b.

(** [root@uchos] *)
Definition user_name : list Z := [114; 111; 111; 116; 64; 117; 99; 104; 111; 115].

(** [Terminal::Terminal]; the cells are zero, the other fields are as the memory was. *)
Definition new_terminal (line : list Z) (index prompt : Z) (visible : bool) : Terminal :=
  mkTerminal (replicate 30 (replicate 98 0)) (replicate 30 (replicate 98 0)) (replicate 12 0) 0 0 line index prompt visible true.

Definition adjusted_x (x : Z) : Z := x * FONT_WIDTH + START_X.
Definition adjusted_y (y : Z) : Z := y * FONT_HEIGHT + START_Y + y * LINE_SPACING.

(** The C string that starts at position [i] of an array: up to a zero byte, which must
    come before the end. *)
Fixpoint until_zero (l : list Z) : option (list Z) :=
  match l with
  | [] => None
  | c :: l => if c =? 0 then Some [] else s ← until_zero l; Some (c :: s)
  end.

Definition c_string (l : list Z) (i : Z) : option (list Z) := if 0 <=? i then until_zero (drop (Z.to_nat i) l) else None.

(** An element of an array changes; out of range is a fault. *)
Definition put_at {A} (i : Z) (v : A) (l : list A) : option (list A) := if (0 <=? i) && (i <? lenz l) then Some (setz l i v) else None.

Definition put_cell (y x v : Z) (b : list (list Z)) : option (list (list Z)) :=
  row ← atz b y; row ← put_at x v row; put_at y row b.

(** [memcpy(&l[i], s, length s)] *)
Definition copy_at (i : Z) (s : list Z) (l : list Z) : option (list Z) :=
  if (0 <=? i) && (i + lenz s <=? lenz l) then Some (take (Z.to_nat i) l ++ s ++ drop (Z.to_nat i + length s) l) else None.

Section Terminal.
Context {W : Type} `{ShellOs W}.

Definition print_text (x y : Z) (text : list Z) (color : Z) (w : W) : W := os_draw (DrawText text x y color) w.
Definition delete_char (x y : Z) (w : W) : W := os_draw (FillRect x y FONT_WIDTH FONT_HEIGHT COLOR_BLACK) w.
Definition clear_screen (w : W) : W := os_draw (FillRect 0 0 SCREEN_WIDTH SCREEN_HEIGHT COLOR_BLACK) w.

Definition delete_cursor (t : Terminal) (w : W) : W := delete_char (adjusted_x (cursor_x t)) (adjusted_y (cursor_y t)) w.

Definition blink_cursor (t : Terminal) (w : W) : Terminal * W :=
  if negb (enable_input t) then (set_visible false t, w)
  else
    let w := if cursor_visible t then print_text (adjusted_x (cursor_x t)) (adjusted_y (cursor_y t)) [95] COLOR_WHITE w else delete_cursor t w in
    (set_visible (negb (cursor_visible t)) t, w).

(** The loops of [scroll]: each cell is drawn as the string that starts there, which
    runs on over the following cells. *)
Definition redraw_cell (t : Terminal) (y x : Z) (w : W) : option W :=
  text ← c_string (concat (buffer t)) (y * TERMINAL_WIDTH + x);
  row ← atz (color_buffer t) y;
  color ← atz row x;
  Some (print_text (adjusted_x x) (adjusted_y y) text color w).

Definition redraw (t : Terminal) (w : W) : option W :=
  for_n (Z.to_nat (TERMINAL_HEIGHT - 1)) 0 (fun y w => for_n (Z.to_nat TERMINAL_WIDTH) 0 (fun x w => redraw_cell t y x w) w) w.

(** The [memset] of the colours counts bytes: a quarter of the last row, rounded up to
    a half cell ([98 = 24 * 4 + 2]: two bytes of cell 24). *)
Definition clear_colors (row : list Z) : list Z := replicate 24 0 ++ [Z.land (default 0 (row !! 24%nat)) 0xffff0000] ++ drop 25 row.

Definition scroll (t : Terminal) (w : W) : option (Terminal * W) :=
  let w := clear_screen w in
  last ← atz (color_buffer t) (TERMINAL_HEIGHT - 1);
  let b := drop 1 (buffer t) ++ [replicate 98 0] in
  let c := drop 1 (color_buffer t) ++ [clear_colors last] in
  let t := set_cells b c t in
  w ← redraw t w;
  Some (set_cursor 0 (TERMINAL_HEIGHT - 1) t, w).

Definition new_line (t : Terminal) (w : W) : option (Terminal * W) :=
  if cursor_y t =? TERMINAL_HEIGHT - 1 then scroll t w else Some (set_cursor 0 (cursor_y t + 1) t, w).

(** [Terminal::print(char, uint32_t)] *)
Definition print_char (s color : Z) (t : Terminal) (w : W) : option (Terminal * W) :=
  let w := delete_cursor t w in
  if s =? 10 then new_line t w
  else
    let w := print_text (adjusted_x (cursor_x t)) (adjusted_y (cursor_y t)) [s] color w in
    b ← put_cell (cursor_y t) (cursor_x t) s (buffer t);
    c ← put_cell (cursor_y t) (cursor_x t) color (color_buffer t);
    let t := set_cells b c t in
    Some (if cursor_x t + 1 =? TERMINAL_WIDTH then set_cursor 0 (cursor_y t + 1) t else set_cursor (cursor_x t + 1) (cursor_y t) t, w).

(** [Terminal::print(const char*, uint32_t)] on the characters of the string. *)
Fixpoint print (s : list Z) (color : Z) (t : Terminal) (w : W) : option (Terminal * W) :=
  match s with
  | [] => Some (t, w)
  | c :: s => '(t, w) ← print_char c color t w; print s color t w
  end.

(** The step [print(s); memcpy(&input[input_index], s, strlen(s)); input_index += strlen(s)]
    of the prompt. *)
Definition prompt_part (s : list Z) (color : Z) (t : Terminal) (w : W) : option (Terminal * W) :=
  '(t, w) ← print s color t w;
  l ← copy_at (input_index t) s (input t);
  Some (set_line l (input_index t + lenz s) t, w).

Definition print_user (t : Terminal) (w : W) : option (Terminal * W) :=
  if negb (enable_input t) then Some (t, w)
  else
    '(t, w) ← prompt_part user_name COLOR_GREEN (set_line (input t) 0 t) w;
    '(t, w) ← prompt_part [58] COLOR_WHITE t w;
    dir ← c_string (current_dir t) 0;
    '(t, w) ← prompt_part (match dir with [] => [47] | _ => dir end) COLOR_CYAN t w;
    '(t, w) ← prompt_part [36; 32] COLOR_WHITE t w;
    Some (set_prompt_len (input_index t) t, w).

Definition lower (c : Z) : Z := if (65 <=? c) && (c <=? 90) then c + 32 else c.

(** [register_current_dir] on the characters of the name. *)
Definition register_current_dir (name : list Z) (t : Terminal) : Terminal :=
  if 12 <? lenz name then t
  else
    let d := take 11 name in
    set_dir (map lower d ++ replicate (12 - length d) 0) t.

(** ** Shell *)

(** [strchr]: the text before the first [c] and the text behind it. *)
Fixpoint split_at (c : Z) (s : list Z) : option (list Z * list Z) :=
  match s with
  | [] => None
  | x :: s => if x =? c then Some ([], s) else '(a, b) ← split_at c s; Some (x :: a, b)
  end.

Fixpoint skip_spaces (s : list Z) : list Z :=
  match s with
  | c :: s' => if c =? 32 then skip_spaces s' else s
  | [] => []
  end.

(** The loops that overwrite the spaces at the end of a string. *)
Definition trim_end (s : list Z) : list Z := reverse (skip_spaces (reverse s)).

(** The first part of [process_input]: the command, its arguments, and the file of a
    redirection. *)
Definition parse_line (s : list Z) : list Z * list Z * option (list Z) :=
  let '(command, redirect_file) :=
    match split_at 62 s with
    | Some (a, b) => (trim_end a, Some (trim_end (skip_spaces b)))
    | None => (s, None)
    end in
  match split_at 32 command with
  | Some (name, args) => (name, args, redirect_file)
  | None => (command, [], redirect_file)
  end.

(** [%d]: the digits of a number of at most ten digits. *)
Fixpoint digits (n : nat) (x : Z) : list Z :=
  match n with
  | O => []
  | S n => if x <? 10 then [48 + x] else digits n (x / 10) ++ [48 + x mod 10]
  end.
Definition decimal (x : Z) : list Z := if x <? 0 then 45 :: digits 10 (- x) else digits 10 x.

(** The texts of [term.printf]. *)
Definition fork_failed (name : list Z) (pid : Z) : list Z := name ++ [32; 58; 32; 102; 111; 114; 107; 32; 102; 97; 105; 108; 101; 100; 32; 40] ++ decimal pid ++ [41; 10].
Definition not_found (name : list Z) : list Z := name ++ [32; 58; 32; 99; 111; 109; 109; 97; 110; 100; 32; 110; 111; 116; 32; 102; 111; 117; 110; 100; 10].

(** [Terminal::printf] formats into an array of 512 bytes. *)
Definition printf (s : list Z) (t : Terminal) (w : W) : option (Terminal * W) :=
  if lenz s <? 512 then print s COLOR_WHITE t w else None.

(** What a process does after [fork]: the parent goes on with the terminal, the child has
    become the command, or has ended with a status. *)
Inductive Outcome := Parent (result : Z) (t : Terminal) | Running | Exited (status : Z).

Definition STDOUT_FILENO : Z := 1.

Definition run_child (name args : list Z) (redirect_file : option (list Z)) (w : W) : Outcome * W :=
  let w :=
    match redirect_file with
    | Some (c :: f) =>
        let '(fd, w) := os_create (c :: f) w in
        let '(fd, w) := if IS_ERR fd then os_open (c :: f) w else (fd, w) in
        if negb (IS_ERR fd) then os_close fd (os_dup2 fd STDOUT_FILENO w) else w
    | _ => w
    end in
  match os_exec name args w with
  | (Some status, w) => (Exited status, w)
  | (None, w) => (Running, w)
  end.

(** [Shell::process_input] on the characters of the line. *)
Definition process_input (s : list Z) (t : Terminal) (w : W) : option (Outcome * W) :=
  match s with
  | [] => Some (Parent (err OK) (set_enable true t), w)
  | _ =>
      let '(name, args, redirect_file) := parse_line s in
      let '(pid, w) := os_fork w in
      if pid =? 0 then Some (run_child name args redirect_file w)
      else
        '(result, t, w) ← (
          if IS_ERR pid then '(t, w) ← printf (fork_failed name pid) t w; Some (pid, t, w)
          else
            let '(child_status, w) := os_wait w in
            if negb (child_status =? 0) then '(t, w) ← printf (not_found name) t w; Some (child_status, t, w)
            else Some (err OK, t, w));
        Some (Parent result (set_enable false t), os_send_done w)
  end.

(** [Terminal::input_char]; only the parent returns to the terminal. *)
Definition input_char (c : Z) (t : Terminal) (w : W) : option (Outcome * W) :=
  if negb (enable_input t) then Some (Parent (err OK) t, w)
  else
    let w := delete_cursor t w in
    l ← put_at (input_index t) 0 (input t);
    let t := set_line l (input_index t) t in
    if c =? 10 then
      '(t, w) ← new_line (set_line l 0 t) w;
      s ← c_string (input t) (prompt_len t);
      '(o, w) ← process_input s t w;
      match o with
      | Parent r t => '(t, w) ← print_user (set_line (replicate 98 0) (input_index t) t) w; Some (Parent r t, w)
      | _ => Some (o, w)
      end
    else if c =? 8 then
      if prompt_len t <? input_index t then
        l ← put_at (input_index t - 1) 0 (input t);
        let w := delete_char (adjusted_x (cursor_x t - 1)) (adjusted_y (cursor_y t)) w in
        b ← put_cell (cursor_y t) (cursor_x t - 1) 0 (buffer t);
        Some (Parent (err OK) (set_cursor (cursor_x t - 1) (cursor_y t) (set_cells b (color_buffer t) (set_line l (input_index t - 1) t))), w)
      else Some (Parent (err OK) t, w)
    else
      l ← put_at (input_index t) c (input t);
      '(t, w) ← print_char c COLOR_WHITE (set_line l (input_index t + 1) t) w;
      Some (Parent (err OK) t, w).

(** The cases of the loop in [main].  A message is read under the name of the union
    that its type says; one whose payload was written under another name is outside
    the model. *)
Definition on_key (kc md pressed : Z) (t : Terminal) (w : W) : option (Outcome * W) :=
  if pressed =? 0 then Some (Parent (err OK) t, w)
  else
    c ← keycode_to_ascii kc md;
    if negb (c =? 0) then input_char c t w else Some (Parent (err OK) t, w).

Definition on_write (o : OolDesc) (buf : list Z) (t : Terminal) (w : W) : option (Terminal * W) :=
  if negb (size o =? 0) then
    text ← os_text (addr o) w;
    '(t, w) ← print text COLOR_WHITE t w;
    '(t, w) ← print [10] COLOR_WHITE t w;
    Some (t, os_release (addr o) w)
  else text ← c_string buf 0; printf (text ++ [10]) t w.

Definition on_command_done (t : Terminal) (w : W) : option (Terminal * W) :=
  let '(reply, w) := os_pwd w in
  dir ← (match reply with Some name => c_string (take 12 name ++ [0]) 0 | None => Some [] end);
  let t := match dir with [] => t | _ => register_current_dir dir t end in
  print_user (set_enable true t) w.

Definition handle_message (m : Message) (t : Terminal) (w : W) : option (Outcome * W) :=
  if type m =? msg NOTIFY_KEY_INPUT then
    match data m with DKeyInput kc md pressed => on_key kc md pressed t w | _ => None end
  else if type m =? msg NOTIFY_WRITE then
    '(t, w) ← (match data m with DWrite buf => on_write (ool m) buf t w | _ => if negb (size (ool m) =? 0) then on_write (ool m) [] t w else None end);
    Some (Parent (err OK) t, w)
  else if type m =? msg NOTIFY_TIMER_TIMEOUT then let '(t, w) := blink_cursor t w in Some (Parent (err OK) t, w)
  else if type m =? msg KERNEL_TASK_READY then Some (Parent (err OK) t, os_timer 500 w)
  else if type m =? msg SHELL_COMMAND_DONE then '(t, w) ← on_command_done t w; Some (Parent (err OK) t, w)
  else Some (Parent (err OK) t, w).

(** [run_smoke_test]: the command [echo smoke]. *)
Definition run_smoke_test (t : Terminal) (w : W) : option (Outcome * W) :=
  '(o, w) ← process_input [101; 99; 104; 111; 32; 115; 109; 111; 107; 101] t w;
  match o with
  | Parent status t => Some (Parent (err OK) t, os_smoke_report status w)
  | _ => Some (o, w)
  end.

(** [main] up to its loop; [smoke] says that the first argument is [-smoke]. *)
Definition shell_begin (smoke : bool) (line : list Z) (index prompt : Z) (visible : bool) (w : W) : option (Outcome * W) :=
  '(t, w) ← print_user (new_terminal line index prompt visible) w;
  let w := os_claim_focus w in
  if smoke then run_smoke_test t w else Some (Parent (err OK) t, w).

(** The loop over the messages a shell receives, while it is the parent. *)
Fixpoint handle_messages (ms : list Message) (t : Terminal) (w : W) : option (Outcome * W) :=
  match ms with
  | [] => Some (Parent (err OK) t, w)
  | m :: ms =>
      '(o, w) ← handle_message m t w;
      match o with Parent _ t => handle_messages ms t w | _ => Some (o, w) end
  end.
End Terminal.

(** ** The screen as one array of cells *)

(** A grid of the size of the terminal. *)
Definition grid (b : list (list Z)) : Prop := length b = 30%nat /\ Forall (fun row => length row = 98%nat) b.

Lemma concat_grid_length b n : Forall (fun row : list Z => length row = n) b -> length (concat b) = (length b * n)%nat.
Proof. induction 1 as [|row b Hr _ IH]; cbn [concat length]; [done|]. rewrite length_app, IH, Hr. lia. Qed.

(** A cell of the grid is a cell of the array. *)
Lemma concat_insert n (b : list (list Z)) y row x v : Forall (fun row : list Z => length row = n) b -> b !! y = Some row -> (x < n)%nat ->
  concat (<[y := <[x := v]> row]> b) = <[(y * n + x)%nat := v]> (concat b).
Proof.
  intros Hall. revert y. induction Hall as [|r b Hr Hall IH]; intros y Hy Hx; [done|]. destruct y as [|y].
  - injection Hy as ->. change (<[0%nat := <[x := v]> row]> (row :: b)) with (<[x := v]> row :: b). cbn [concat Nat.mul Nat.add]. by rewrite insert_app_l by lia.
  - change (<[S y := <[x := v]> row]> (r :: b)) with (r :: <[y := <[x := v]> row]> b). cbn [concat Nat.mul]. rewrite (IH y Hy Hx). rewrite <- Nat.add_assoc. replace (n + (y * n + x))%nat with (length r + (y * n + x))%nat by lia. by rewrite insert_app_r.
Qed.

Lemma put_cell_spec b y x v : grid b -> 0 <= y < 30 -> 0 <= x < 98 ->
  exists row, b !! Z.to_nat y = Some row /\ length row = 98%nat /\ put_cell y x v b = Some (<[Z.to_nat y := <[Z.to_nat x := v]> row]> b) /\ grid (<[Z.to_nat y := <[Z.to_nat x := v]> row]> b).
Proof.
  intros [Hl Hall] Hy Hx. destruct (lookup_lt_is_Some_2 b (Z.to_nat y)) as [row Hrow]; [lia|]. pose proof (proj1 (Forall_lookup _ _) Hall _ _ Hrow) as Hr. cbn in Hr. exists row. split_and!; try done.
  - unfold put_cell, atz. destruct (Z.leb_spec 0 y); [|lia]. rewrite Hrow. cbn [mbind option_bind]. unfold put_at, lenz. rewrite Hr, Hl. destruct (Z.leb_spec 0 x), (Z.ltb_spec x (Z.of_nat 98)); try lia. cbn [andb mbind option_bind].
    destruct (Z.leb_spec 0 y), (Z.ltb_spec y (Z.of_nat 30)); try lia. done.
  - split; [by rewrite length_insert|]. apply Forall_insert; [done|]. by rewrite length_insert.
Qed.

Lemma put_cell_out b y x v : grid b -> 30 <= y -> put_cell y x v b = None.
Proof. intros [Hl _] Hy. unfold put_cell, atz. destruct (Z.leb_spec 0 y); [|lia]. by rewrite lookup_ge_None_2 by lia. Qed.

(** Where the cursor is in the array. *)
Definition cell (t : Terminal) : Z := cursor_y t * TERMINAL_WIDTH + cursor_x t.

Record screen_ok (t : Terminal) : Prop := mkScreenOk {
  so_buffer : grid (buffer t);
  so_color : grid (color_buffer t);
  so_x : 0 <= cursor_x t < TERMINAL_WIDTH;
  so_y : 0 <= cursor_y t;
}.

Section Screen.
Context {W : Type} `{ShellOs W}.

Lemma print_char_spec s color t w : screen_ok t -> s <> 10 ->
  if cell t <? 2940 then
    exists t' w', print_char s color t w = Some (t', w') /\ screen_ok t' /\ cell t' = cell t + 1 /\
      concat (buffer t') = <[Z.to_nat (cell t) := s]> (concat (buffer t)) /\ input t' = input t /\ input_index t' = input_index t /\ prompt_len t' = prompt_len t /\ enable_input t' = enable_input t /\ current_dir t' = current_dir t
  else print_char s color t w = None.
Proof.
  intros [Hb Hc Hx Hy] Hs. unfold print_char. destruct (Z.eqb_spec s 10); [done|]. unfold cell, TERMINAL_WIDTH in *. destruct (Z.ltb_spec (cursor_y t * 98 + cursor_x t) 2940).
  - destruct (put_cell_spec (buffer t) (cursor_y t) (cursor_x t) s) as (row & Hrow & Hrl & -> & Hg); [done|lia|lia|]. destruct (put_cell_spec (color_buffer t) (cursor_y t) (cursor_x t) color) as (row' & _ & _ & -> & Hg'); [done|lia|lia|]. cbn [mbind option_bind].
    eexists _, _. split; [reflexivity|]. assert (concat (<[Z.to_nat (cursor_y t) := <[Z.to_nat (cursor_x t) := s]> row]> (buffer t)) = <[Z.to_nat (cursor_y t * 98 + cursor_x t) := s]> (concat (buffer t))) as E.
    { rewrite (concat_insert 98) by (apply Hb || done || lia). f_equal. lia. }
    cbn [set_cells cursor_x cursor_y]. destruct (Z.eqb_spec (cursor_x t + 1) 98); cbn [set_cursor cursor_x cursor_y buffer color_buffer input input_index prompt_len enable_input current_dir]; split_and!; try done; try lia; split; cbn; unfold TERMINAL_WIDTH; done || lia.
  - rewrite (put_cell_out (buffer t)) by (done || lia). done.
Qed.
End Screen.

Lemma write_cells (l : list Z) p c s : (p < length l)%nat -> take p l ++ (c :: s) ++ drop (p + S (length s)) l = take (S p) (<[p := c]> l) ++ s ++ drop (S p + length s) (<[p := c]> l).
Proof.
  intros Hp. rewrite drop_insert_lt by lia. rewrite (take_S_r _ p c) by (by apply list_lookup_insert_eq). rewrite take_insert_ge by lia. rewrite <- app_assoc. cbn [app]. by rewrite Nat.add_succ_comm.
Qed.

Lemma print_spec {W} `{ShellOs W} color s t w : screen_ok t -> Forall (fun c => c <> 10) s -> cell t <= 2940 ->
  if cell t + lenz s <=? 2940 then
    exists t' w', print s color t w = Some (t', w') /\ screen_ok t' /\ cell t' = cell t + lenz s /\
      concat (buffer t') = take (Z.to_nat (cell t)) (concat (buffer t)) ++ s ++ drop (Z.to_nat (cell t) + length s) (concat (buffer t)) /\
      input t' = input t /\ input_index t' = input_index t /\ prompt_len t' = prompt_len t /\ enable_input t' = enable_input t /\ current_dir t' = current_dir t
  else print s color t w = None.
Proof.
  intros Hok Hs. revert t w Hok. induction Hs as [|c s Hc _ IH]; intros t w Hok Hp; cbn [print].
  - change (lenz []) with 0. rewrite Z.add_0_r. destruct (Z.leb_spec (cell t) 2940); [|lia]. exists t, w. cbn [app length]. rewrite Nat.add_0_r, take_drop. split_and!; done || lia.
  - pose proof (print_char_spec c color t w Hok Hc) as Hstep. rewrite lenz_cons. destruct (Z.ltb_spec (cell t) 2940) as [Hlt|Hge].
    + destruct Hstep as (t1 & w1 & -> & Hok1 & Hc1 & Hb1 & Hi1 & Hx1 & Hp1 & He1 & Hd1). cbn [mbind option_bind]. specialize (IH t1 w1 Hok1 ltac:(lia)). rewrite Hc1, Hb1 in IH. replace (cell t + 1 + lenz s) with (cell t + (lenz s + 1)) in IH by lia.
      destruct (Z.leb_spec (cell t + (lenz s + 1)) 2940); [|exact IH]. destruct IH as (t' & w' & -> & Hok' & Hc' & Hb' & Hi' & Hx' & Hp' & He' & Hd'). exists t', w'. split_and!; try (done || congruence).
      assert (0 <= cell t) by (destruct Hok; unfold cell, TERMINAL_WIDTH in *; lia). rewrite Hb'. replace (Z.to_nat (cell t + 1)) with (S (Z.to_nat (cell t))) by lia. cbn [length]. symmetry. apply write_cells.
      destruct (so_buffer t Hok) as [Hl Hall]. rewrite (concat_grid_length _ 98 Hall), Hl. lia.
    + rewrite Hstep. pose proof (lenz_nonneg s). destruct (Z.leb_spec (cell t + (lenz s + 1)) 2940); [lia|done].
Qed.

(** Printing fills the cells from the cursor on.  A text without a new line goes to the
    consecutive cells of the screen, over the ends of the rows, and leaves the others
    alone.  It does so exactly when it ends before the last cell of the screen is
    passed; a longer one writes outside the array. *)
Theorem print_fills_cells {W} `{ShellOs W} color s t w : screen_ok t -> Forall (fun c => c <> 10) s -> cell t <= 2940 ->
  if cell t + lenz s <=? 2940 then
    exists t' w', print s color t w = Some (t', w') /\ screen_ok t' /\ cell t' = cell t + lenz s /\
      concat (buffer t') = take (Z.to_nat (cell t)) (concat (buffer t)) ++ s ++ drop (Z.to_nat (cell t) + length s) (concat (buffer t))
  else print s color t w = None.
Proof.
  intros Hok Hs Hc. pose proof (print_spec color s t w Hok Hs Hc) as Hp. destruct (cell t + lenz s <=? 2940); [|done]. destruct Hp as (t' & w' & E & H1 & H2 & H3 & _). by exists t', w'.
Qed.

(** ** New lines *)

Lemma until_zero_some l r : exists s, until_zero (l ++ 0 :: r) = Some s.
Proof. induction l as [|c l [s IH]]; cbn [app until_zero]; [by exists []|]. destruct (c =? 0); [by exists []|]. rewrite IH. by exists (c :: s). Qed.

Lemma until_zero_exact s r : Forall (fun c => c <> 0) s -> until_zero (s ++ 0 :: r) = Some s.
Proof. induction 1 as [|c s Hc _ IH]; cbn [app until_zero]; [done|]. destruct (Z.eqb_spec c 0); [done|]. by rewrite IH. Qed.

Section Lines.
Context {W : Type} `{ShellOs W}.

Lemma redraw_ok t w : grid (buffer t) -> grid (color_buffer t) -> (exists b, buffer t = b ++ [replicate 98 0]) -> exists w', redraw t w = Some w'.
Proof.
  intros [Hl Hall] [Hcl Hcall] [b Eb]. unfold redraw.
  destruct (for_n_inv (fun _ (_ : W) => True) (Z.to_nat (TERMINAL_HEIGHT - 1)) 0 (fun y w => for_n (Z.to_nat TERMINAL_WIDTH) 0 (fun x w => redraw_cell t y x w) w) w) as (w' & -> & _); [done| |by exists w'].
  intros y w1 Hy _. destruct (for_n_inv (fun _ (_ : W) => True) (Z.to_nat TERMINAL_WIDTH) 0 (fun x w => redraw_cell t y x w) w1) as (w2 & -> & _); [done| |by exists w2].
  intros x w2 Hx _. change (Z.of_nat (Z.to_nat (TERMINAL_HEIGHT - 1))) with 29 in Hy. change (Z.of_nat (Z.to_nat TERMINAL_WIDTH)) with 98 in Hx. unfold redraw_cell, c_string, TERMINAL_WIDTH. destruct (Z.leb_spec 0 (y * 98 + x)); [|lia].
  rewrite Eb, concat_app. cbn [concat]. rewrite app_nil_r. assert (length (concat b) = 2842%nat) as Hlb.
  { rewrite Eb in Hall. apply Forall_app in Hall as [Hall _]. rewrite (concat_grid_length _ 98 Hall). rewrite Eb, length_app in Hl. cbn in Hl. lia. }
  rewrite drop_app_le by lia. destruct (until_zero_some (drop (Z.to_nat (y * 98 + x)) (concat b)) (replicate 97 0)) as [s E]. change (replicate 98 0) with (0 :: replicate 97 0). rewrite E. cbn [mbind option_bind].
  destruct (atz_lt (color_buffer t) y) as [row Hrow]; [unfold lenz; lia|]. rewrite Hrow. cbn [mbind option_bind]. apply atz_Some in Hrow as [_ Hrow]. pose proof (proj1 (Forall_lookup _ _) Hcall _ _ Hrow) as Hr. cbn in Hr.
  destruct (atz_lt row x) as [col ->]; [unfold lenz; lia|]. cbn [mbind option_bind]. eauto.
Qed.

Lemma clear_colors_length row : length row = 98%nat -> length (clear_colors row) = 98%nat.
Proof. intros Hr. unfold clear_colors. rewrite !length_app, length_drop. cbn. lia. Qed.

(** A new line moves the cursor to the start of the next row, or all rows up. *)
Lemma new_line_ok t w : screen_ok t -> cursor_y t < 30 ->
  exists t' w', new_line t w = Some (t', w') /\ screen_ok t' /\ cursor_x t' = 0 /\ cursor_y t' = Z.min 29 (cursor_y t + 1) /\
    buffer t' = (if cursor_y t =? 29 then drop 1 (buffer t) ++ [replicate 98 0] else buffer t) /\ input t' = input t /\ input_index t' = input_index t /\ prompt_len t' = prompt_len t /\ enable_input t' = enable_input t /\ current_dir t' = current_dir t.
Proof.
  intros [[Hl Hall] [Hcl Hcall] Hx Hy] Hlt. unfold new_line. change (TERMINAL_HEIGHT - 1) with 29. destruct (Z.eqb_spec (cursor_y t) 29) as [E|Hne].
  - unfold scroll. change (TERMINAL_HEIGHT - 1) with 29. destruct (atz_lt (color_buffer t) 29) as [last Hlast]; [unfold lenz; lia|]. rewrite Hlast. cbn [mbind option_bind]. apply atz_Some in Hlast as [_ Hlast].
    pose proof (proj1 (Forall_lookup _ _) Hcall _ _ Hlast) as Hll. cbn in Hll. set (t1 := set_cells _ _ t). assert (grid (buffer t1) /\ grid (color_buffer t1)) as [Hg1 Hg2].
    { split; (split; [cbn [t1 set_cells buffer color_buffer]; rewrite length_app, length_drop; cbn; lia|]); cbn [t1 set_cells buffer color_buffer]; (apply Forall_app; split; [by apply Forall_drop|]); repeat constructor. by apply clear_colors_length. }
    destruct (redraw_ok t1 (clear_screen w) Hg1 Hg2) as [w' ->]; [by eexists|]. cbn [mbind option_bind]. exists (set_cursor 0 29 t1), w'. split; [done|]. split; [split; cbn; unfold TERMINAL_WIDTH; done || lia|]. split; [done|]. split; [cbn [set_cursor cursor_y]; lia|done].
  - exists (set_cursor 0 (cursor_y t + 1) t), w. split; [done|]. split; [split; cbn; unfold TERMINAL_WIDTH; done || lia|]. split; [done|]. split; [cbn [set_cursor cursor_y]; lia|done].
Qed.
End Lines.

(** ** Editing a line *)

(** A reference: the line as the characters are typed. *)
Definition edit (line : list Z) (c : Z) : list Z := if c =? 8 then removelast line else line ++ [c].

(** The terminal at the prompt with [line] typed. *)
Record at_prompt (prompt line : list Z) (t : Terminal) : Prop := mkAtPrompt {
  ap_screen : screen_ok t /\ cursor_y t < 30;
  ap_enable : enable_input t = true;
  ap_index : input_index t = lenz (prompt ++ line) /\ prompt_len t = lenz prompt /\ cursor_x t = lenz (prompt ++ line);
  ap_input : length (input t) = 98%nat /\ take (length (prompt ++ line)) (input t) = prompt ++ line;
  ap_cells : take (length (prompt ++ line)) (drop (Z.to_nat (cursor_y t * 98)) (concat (buffer t))) = prompt ++ line;
  ap_text : Forall (fun c => c <> 0) line;
}.

Lemma take_write (l s : list Z) c : take (length s) l = s -> (length s < length l)%nat -> take (S (length s)) (<[length s := c]> l) = s ++ [c].
Proof. intros E Hl. rewrite (take_S_r _ _ c) by (by apply list_lookup_insert_eq). by rewrite take_insert_ge, E by lia. Qed.

Lemma take_shorter (l s s' : list Z) : take (length (s ++ s')) l = s ++ s' -> take (length s) l = s.
Proof. intros E. rewrite length_app in E. apply (f_equal (take (length s))) in E. rewrite take_take, take_app_length in E. by rewrite Nat.min_l in E by lia. Qed.

Lemma put_at_spec {A} i v (l : list A) : 0 <= i < lenz l -> put_at i v l = Some (<[Z.to_nat i := v]> l).
Proof. intros Hi. unfold put_at. destruct (Z.leb_spec 0 i), (Z.ltb_spec i (lenz l)); try lia. done. Qed.

Lemma set_line_ok l i t : screen_ok t -> screen_ok (set_line l i t).
Proof. intros [? ? ? ?]. by split. Qed.

Section Session.
Context {W : Type} `{ShellOs W} (prompt : list Z).

(** The zero behind the line that each key writes. *)
Lemma terminate_line line t : at_prompt prompt line t -> lenz (prompt ++ line) < 98 ->
  put_at (input_index t) 0 (input t) = Some (<[length (prompt ++ line) := 0]> (input t)) /\ at_prompt prompt line (set_line (<[length (prompt ++ line) := 0]> (input t)) (input_index t) t).
Proof.
  intros [[Hok Hy] He (Hi & Hp & Hx) [Hl Ht] Hc Hz] Hlt. rewrite Hi. split.
  - rewrite put_at_spec by (unfold lenz in *; lia). do 2 f_equal. unfold lenz. lia.
  - split; cbn [set_line input input_index prompt_len cursor_x cursor_y buffer enable_input]; try done; [split; [by apply set_line_ok|done]|]. split; [by rewrite length_insert|]. by rewrite take_insert_ge by lia.
Qed.

Lemma type_char line t w c : at_prompt prompt line t -> lenz (prompt ++ edit line c) < 98 -> c <> 0 -> c <> 10 -> c <> 8 ->
  exists t' w', input_char c t w = Some (Parent (err OK) t', w') /\ at_prompt prompt (edit line c) t' /\ cursor_y t' = cursor_y t.
Proof.
  intros Hap Hlt Hc0 Hc10 Hc8. unfold edit in *. destruct (Z.eqb_spec c 8); [done|]. rewrite app_assoc, lenz_app in Hlt. change (lenz [c]) with 1 in Hlt. destruct (terminate_line line t Hap) as [E Hap1]; [lia|].
  unfold input_char. rewrite (ap_enable _ _ _ Hap). cbn [negb]. rewrite E. cbn [mbind option_bind]. clear E. set (w1 := delete_cursor t w). clearbody w1. set (t1 := set_line _ _ t) in *. change (cursor_y t) with (cursor_y t1).  destruct (Z.eqb_spec c 10), (Z.eqb_spec c 8); try done. clearbody t1. clear t Hap. destruct Hap1 as [[Hok Hy] He (Hi & Hp & Hx) [Hl Ht] Hc Hz].
  rewrite put_at_spec by (unfold lenz in *; lia). cbn [mbind option_bind]. set (t2 := set_line _ _ t1).
  pose proof (print_char_spec c COLOR_WHITE t2 w1) as Hpr. assert (screen_ok t2) as Hok2 by (by apply set_line_ok). specialize (Hpr Hok2 Hc10). assert (cell t2 = cursor_y t1 * 98 + lenz (prompt ++ line)) as Ecell by (unfold cell, TERMINAL_WIDTH; cbn [t2 set_line cursor_x cursor_y]; lia).
  pose proof (so_y _ Hok). pose proof (lenz_nonneg (prompt ++ line)). destruct (Z.ltb_spec (cell t2) 2940); [|lia]. destruct Hpr as (t' & w' & E' & Hok' & Hcell & Hb & Hin & Hix & Hpl & Hen & _).
  exists t', w'. rewrite E'. split; [done|].
  assert (cursor_y t' = cursor_y t1 /\ cursor_x t' = lenz (prompt ++ line) + 1) as [Ey Ex] by (pose proof (so_x _ Hok'); unfold cell, TERMINAL_WIDTH in *; lia). split; [|done].
  assert (Z.to_nat (lenz (prompt ++ line)) = length (prompt ++ line)) as En by (unfold lenz; lia). assert (length (prompt ++ line ++ [c]) = S (length (prompt ++ line))) as Es by (rewrite app_assoc, length_app; cbn; lia).
  split; try done.
  - by rewrite Ey.
  - by rewrite Hen.
  - rewrite Hix, Hpl, Ex, !lenz_app in *. change (lenz [c]) with 1. cbn [t2 set_line input_index prompt_len]. split_and!; lia.
  - rewrite Hin, Es. cbn [t2 set_line input]. rewrite Hi, En, length_insert. split; [done|]. rewrite app_assoc. apply take_write; [done|unfold lenz in *; lia].
  - rewrite Es, Hb, Ey, Ecell. cbn [t2 set_line buffer]. rewrite drop_insert_ge by lia. replace (Z.to_nat _ - Z.to_nat _)%nat with (length (prompt ++ line)) by (unfold lenz in *; lia). rewrite app_assoc. apply take_write; [done|].
    destruct (so_buffer _ Hok) as [Hgl Hga]. rewrite length_drop, (concat_grid_length _ 98 Hga), Hgl. unfold lenz in *. lia.
  - apply Forall_app. split; [done|]. by constructor.
Qed.

Lemma type_backspace line t w : at_prompt prompt line t -> lenz (prompt ++ line) < 98 ->
  exists t' w', input_char 8 t w = Some (Parent (err OK) t', w') /\ at_prompt prompt (edit line 8) t' /\ cursor_y t' = cursor_y t.
Proof.
  intros Hap Hlt. change (edit line 8) with (removelast line). destruct (terminate_line line t Hap Hlt) as [E Hap1].
  unfold input_char. rewrite (ap_enable _ _ _ Hap). cbn [negb]. rewrite E. cbn [mbind option_bind Z.eqb Pos.eqb]. clear E. set (w1 := delete_cursor t w). clearbody w1. set (t1 := set_line _ _ t) in *. change (cursor_y t) with (cursor_y t1). clearbody t1. clear t Hap.
  destruct (ap_index _ _ _ Hap1) as (Hi & Hp & Hx). rewrite Hi, Hp, lenz_app. destruct (Z.ltb_spec (lenz prompt) (lenz prompt + lenz line)) as [Hne|He].
  2:{ assert (line = []) as -> by (destruct line; [done|]; rewrite lenz_cons in He; pose proof (lenz_nonneg line); lia). by exists t1, w1. }
  destruct (exists_last (l := line)) as (line' & x & ->); [intros ->; change (lenz []) with 0 in Hne; lia|]. rewrite removelast_last. rewrite !lenz_app in *. change (lenz [x]) with 1 in *. pose proof (lenz_nonneg prompt). pose proof (lenz_nonneg line').
  destruct Hap1 as [[Hok Hy] He _ [Hl Ht] Hc Hz]. rewrite put_at_spec by (unfold lenz in *; lia). cbn [mbind option_bind]. rewrite Hx. replace (lenz prompt + (lenz line' + 1) - 1) with (lenz prompt + lenz line') by lia.
  pose proof (so_y _ Hok). destruct (put_cell_spec (buffer t1) (cursor_y t1) (lenz prompt + lenz line') 0) as (row & Hrow & Hrl & -> & Hg); [apply Hok|lia|lia|]. cbn [mbind option_bind].
  eexists _, _. split; [reflexivity|]. split; [|done]. apply Forall_app in Hz as [Hz _]. rewrite !app_assoc in Ht, Hc. split; cbn [set_cursor set_cells set_line buffer color_buffer cursor_x cursor_y input input_index prompt_len enable_input]; try done.
  - split; [|done]. destruct Hok. split; cbn; unfold TERMINAL_WIDTH in *; done || lia.
  - rewrite lenz_app. split_and!; done || lia.
  - rewrite length_insert. split; [done|]. apply take_shorter in Ht. rewrite take_insert_ge by (rewrite length_app; unfold lenz; lia). done.
  - rewrite (concat_insert 98) by (apply Hok || done || lia). apply take_shorter in Hc. rewrite drop_insert_ge by lia. rewrite take_insert_ge by (rewrite length_app; unfold lenz; lia). done.
Qed.

(** The line is what the enter key hands to the shell. *)
Lemma type_enter line t w : at_prompt prompt line t -> lenz (prompt ++ line) < 98 ->
  exists t1 w1, input_char 10 t w = ('(o, w) ← process_input line t1 w1;
      match o with
      | Parent r t => '(t, w) ← print_user (set_line (replicate 98 0) (input_index t) t) w; Some (Parent r t, w)
      | _ => Some (o, w)
      end) /\ screen_ok t1 /\ cursor_x t1 = 0 /\ cursor_y t1 = Z.min 29 (cursor_y t + 1) /\
    buffer t1 = (if cursor_y t =? 29 then drop 1 (buffer t) ++ [replicate 98 0] else buffer t).
Proof.
  intros Hap Hlt. destruct (terminate_line line t Hap Hlt) as [E Hap1]. unfold input_char. rewrite (ap_enable _ _ _ Hap). cbn [negb]. rewrite E. cbn [mbind option_bind Z.eqb Pos.eqb]. set (w1 := delete_cursor t w). set (t1 := set_line _ 0 _).
  destruct Hap1 as [[Hok Hy] He (Hi & Hp & Hx) [Hl Ht] Hc Hz]. destruct (new_line_ok t1 w1) as (t2 & w2 & -> & Hok2 & Hx2 & Hy2 & Hb2 & Hin2 & Hix2 & Hpl2 & _); [by apply set_line_ok|done|]. cbn [mbind option_bind].
  exists t2, w2. split; [|done]. rewrite Hin2, Hpl2. cbn [t1 set_line input prompt_len] in *. rewrite Hp. unfold c_string. destruct (Z.leb_spec 0 (lenz prompt)); [|unfold lenz in *; lia].
  assert (drop (Z.to_nat (lenz prompt)) (<[length (prompt ++ line) := 0]> (input t)) = line ++ 0 :: drop (S (length (prompt ++ line))) (input t)) as ->.
  { rewrite length_insert in Hl. rewrite insert_take_drop by (unfold lenz in Hlt; lia). rewrite take_insert_ge in Ht by lia. rewrite Ht. unfold lenz. rewrite Nat2Z.id, <- app_assoc. by rewrite drop_app_length. }
  rewrite until_zero_exact by done. done.
Qed.
End Session.

(** ** The prompt *)

(** The text [s] at the start of the row of the cursor and of the input. *)
Record shown (s : list Z) (t : Terminal) : Prop := mkShown {
  sh_screen : screen_ok t /\ cursor_y t < 30;
  sh_index : input_index t = lenz s /\ cursor_x t = lenz s;
  sh_input : length (input t) = 98%nat /\ take (length s) (input t) = s;
  sh_cells : take (length s) (drop (Z.to_nat (cursor_y t * 98)) (concat (buffer t))) = s;
}.

Lemma take_prefix (l s s' : list Z) : take (length s) l = s -> take (length (s ++ s')) (take (length s) l ++ s' ++ drop (length s + length s') l) = s ++ s'.
Proof. intros ->. rewrite app_assoc. by rewrite take_app_length. Qed.

Section Prompt.
Context {W : Type} `{ShellOs W}.

Lemma prompt_part_ok s s' color t (w : W) : shown s t -> lenz (s ++ s') < 98 -> Forall (fun c => c <> 10) s' ->
  exists t' w', prompt_part s' color t w = Some (t', w') /\ shown (s ++ s') t' /\ cursor_y t' = cursor_y t /\ enable_input t' = enable_input t /\ current_dir t' = current_dir t.
Proof.
  intros [[Hok Hy] [Hi Hx] [Hl Ht] Hc] Hlt Hs'. pose proof (so_y _ Hok). pose proof (lenz_nonneg s). pose proof (lenz_nonneg s'). rewrite lenz_app in Hlt.
  assert (cell t = cursor_y t * 98 + lenz s) as Ecell by (unfold cell, TERMINAL_WIDTH; lia). pose proof (print_spec color s' t w Hok Hs' ltac:(lia)) as Hp. destruct (Z.leb_spec (cell t + lenz s') 2940); [|lia].
  destruct Hp as (t1 & w1 & E & Hok1 & Hc1 & Hb1 & Hi1 & Hx1 & Hp1 & He1 & Hd1). unfold prompt_part. rewrite E. cbn [mbind option_bind]. rewrite Hx1, Hi1, Hi.
  unfold copy_at. destruct (Z.leb_spec 0 (lenz s)), (Z.leb_spec (lenz s + lenz s') (lenz (input t))); try (unfold lenz in *; lia). cbn [andb mbind option_bind]. eexists _, w1. split; [reflexivity|].
  assert (cursor_y t1 = cursor_y t /\ cursor_x t1 = lenz s + lenz s') as [Ey Ex] by (pose proof (so_x _ Hok1); unfold cell, TERMINAL_WIDTH in *; lia). split; [|done].
  split; cbn [set_line input input_index cursor_x cursor_y buffer]; rewrite ?Ey.
  - split; [by apply set_line_ok|done].
  - by rewrite lenz_app.
  - unfold lenz. rewrite Nat2Z.id. split; [|by apply take_prefix]. rewrite !length_app, length_take, length_drop, Hl. unfold lenz in *. lia.
  - rewrite Hb1, Ecell. assert (Z.to_nat (cursor_y t * 98 + lenz s) = Z.to_nat (cursor_y t * 98) + length s)%nat as -> by (unfold lenz; lia). set (base := Z.to_nat (cursor_y t * 98)) in *.
    rewrite drop_app_le by (destruct (so_buffer _ Hok) as [Hgl Hga]; rewrite length_take, (concat_grid_length _ 98 Hga), Hgl; unfold base; lia). rewrite <- Nat.add_assoc, <- drop_drop. rewrite <- (take_drop_commute _ (length s) base). by apply take_prefix.
Qed.

(** The text of the prompt. *)
Definition prompt_text (dir : list Z) : list Z := user_name ++ [58] ++ (match dir with [] => [47] | _ => dir end) ++ [36; 32].

(** At the start of a row the prompt is shown, and the line behind it is empty. *)
Lemma print_user_ok t (w : W) dir : screen_ok t -> cursor_y t < 30 -> cursor_x t = 0 -> enable_input t = true -> length (input t) = 98%nat ->
  c_string (current_dir t) 0 = Some dir -> (length dir <= 11)%nat -> Forall (fun c => c <> 10) dir ->
  exists t' w', print_user t w = Some (t', w') /\ at_prompt (prompt_text dir) [] t' /\ cursor_y t' = cursor_y t.
Proof.
  intros Hok Hy Hx He Hl Hd Hlen Hdir. unfold print_user. rewrite He. cbn [negb]. set (d := match dir with [] => [47] | _ => dir end). assert ((length d <= 11)%nat /\ Forall (fun c => c <> 10) d) as [Hdl Hdn] by (unfold d; destruct dir; [split; [cbn; lia|by repeat constructor]|done]).
  assert (shown [] (set_line (input t) 0 t)) as H0 by (split; [split; [by apply set_line_ok|done]|done|done|done]).
  destruct (prompt_part_ok [] user_name COLOR_GREEN _ w H0) as (t1 & w1 & -> & H1 & Hy1 & He1 & Hd1); [done|by repeat constructor|]. cbn [mbind option_bind].
  destruct (prompt_part_ok _ [58] COLOR_WHITE t1 w1 H1) as (t2 & w2 & -> & H2 & Hy2 & He2 & Hd2); [done|by repeat constructor|]. cbn [mbind option_bind].
  assert (current_dir t2 = current_dir t) as -> by (by rewrite Hd2, Hd1). rewrite Hd. cbn [mbind option_bind]. fold d.
  destruct (prompt_part_ok _ d COLOR_CYAN t2 w2 H2) as (t3 & w3 & -> & H3 & Hy3 & He3 & Hd3); [rewrite lenz_app; change (lenz _) with 11 at 1; unfold lenz; lia|done|]. cbn [mbind option_bind].
  destruct (prompt_part_ok _ [36; 32] COLOR_WHITE t3 w3 H3) as (t4 & w4 & -> & [Hok4 [Hi4 Hx4] Hin4 Hc4] & Hy4 & He4 & Hd4); [rewrite !lenz_app; unfold lenz; cbn; lia|by repeat constructor|]. cbn [mbind option_bind].
  eexists _, w4. split; [reflexivity|]. split; [|cbn; rewrite Hy4, Hy3, Hy2, Hy1; done]. cbn [app] in *. rewrite <- !app_assoc in *. unfold prompt_text. fold d. set (p := user_name ++ _) in *.
  split; cbn [set_prompt_len enable_input input_index prompt_len cursor_x input cursor_y buffer]; rewrite ?app_nil_r; try done.
  - destruct Hok4 as [[? ? ? ?] ?]. by split.
  - rewrite He4, He3, He2, He1. done.
Qed.
End Prompt.

(** ** From keys to commands *)

Lemma keycode_to_ascii_total kc md : 0 <= kc < 256 -> exists c, keycode_to_ascii kc md = Some c.
Proof. intros Hk. unfold keycode_to_ascii. destruct (negb _); apply atz_lt; exact Hk. Qed.

(** The keymap types every printable character and the two control characters that the
    terminal handles: with or without shift, some key gives it; and no key code makes
    the conversion read outside its tables. *)
Theorem keymap_complete c : 32 <= c < 127 \/ c = 8 \/ c = 10 ->
  exists kc md, 0 <= kc < 256 /\ (md = 0 \/ md = KEY_MOD_LSHIFT) /\ keycode_to_ascii kc md = Some c /\ forall kc md, 0 <= kc < 256 -> keycode_to_ascii kc md <> None.
Proof.
  intros Hc. set (key := fun c => List.find (fun p => bool_decide (keycode_to_ascii p.1 p.2 = Some c)) (list_prod (map Z.of_nat (seq 0 256)) [0; KEY_MOD_LSHIFT])).
  assert (forallb (fun c => match key (Z.of_nat c) with Some _ => true | None => false end) (8%nat :: 10%nat :: seq 32 95) = true) as Hall by (by vm_compute). rewrite forallb_forall in Hall.
  assert (In (Z.to_nat c) (8%nat :: 10%nat :: seq 32 95)) as Hin0 by (destruct Hc as [Hc|[->| ->]]; [right; right; apply in_seq; lia|by left|right; by left]).
  specialize (Hall (Z.to_nat c) Hin0). rewrite Z2Nat.id in Hall by lia. destruct (key c) as [[kc md]|] eqn:E; [|discriminate Hall].
  apply find_some in E as [Hin Hb]. apply bool_decide_eq_true in Hb. cbn [fst snd] in Hb. apply in_prod_iff in Hin as [Hk Hm]. apply in_map_iff in Hk as (n & <- & Hn). apply in_seq in Hn.
  exists (Z.of_nat n), md. split_and!; [lia|lia|destruct Hm as [<-|[<-|[]]]; auto|done|]. intros k m Hr E'. destruct (keycode_to_ascii_total k m Hr) as [x Ex]. by rewrite Ex in E'.
Qed.

(** The characters of a key event: those of the presses that the keymap knows. *)
Definition typed (k : Key) : list Z :=
  if press k then match keycode_to_ascii (keycode k) (modifier k) with Some c => if c =? 0 then [] else [c] | None => [] end else [].

Section Typing.
Context {W : Type} `{ShellOs W} (prompt : list Z).

Lemma handle_key k t (w : W) : handle_message (key_message k) t w = on_key (keycode k) (modifier k) (if press k then 1 else 0) t w.
Proof. done. Qed.

Lemma type_key k line t (w : W) : 0 <= keycode k < 256 -> at_prompt prompt line t -> Forall (fun c => c <> 10) (typed k) -> lenz (prompt ++ line) < 98 -> lenz (prompt ++ fold_left edit (typed k) line) < 98 ->
  exists t' w', handle_message (key_message k) t w = Some (Parent (err OK) t', w') /\ at_prompt prompt (fold_left edit (typed k) line) t' /\ cursor_y t' = cursor_y t.
Proof.
  intros Hk Hap Hn H0 H1. rewrite handle_key. unfold on_key, typed in *. destruct (press k); [|by exists t, w]. change (1 =? 0) with false. destruct (keycode_to_ascii_total (keycode k) (modifier k) Hk) as [c E]. rewrite E in Hn, H1 |- *. cbn [mbind option_bind].
  destruct (Z.eqb_spec c 0) as [Hc|Hc]; cbn [negb]; [by exists t, w|]. cbn [fold_left] in *. apply Forall_cons in Hn as [Hn _]. destruct (Z.eq_dec c 8) as [->|H8]; [by apply type_backspace|by apply type_char].
Qed.

Lemma type_keys ks : forall line t (w : W), Forall (fun k => 0 <= keycode k < 256) ks -> at_prompt prompt line t -> Forall (fun c => c <> 10) (flat_map typed ks) ->
  (forall n, lenz (prompt ++ fold_left edit (take n (flat_map typed ks)) line) < 98) ->
  exists t' w', handle_messages (map key_message ks) t w = Some (Parent (err OK) t', w') /\ at_prompt prompt (fold_left edit (flat_map typed ks) line) t' /\ cursor_y t' = cursor_y t.
Proof.
  induction ks as [|k ks IH]; intros line t w Hk Hap Hn Hfit; [by exists t, w|]. cbn [flat_map map handle_messages] in *. apply Forall_cons in Hk as [Hk0 Hk]. apply Forall_app in Hn as [Hn0 Hn].
  destruct (type_key k line t w Hk0 Hap Hn0) as (t1 & w1 & -> & Hap1 & Hy1); [exact (Hfit 0%nat)|specialize (Hfit (length (typed k))); by rewrite take_app_length in Hfit|]. cbn [mbind option_bind].
  destruct (IH (fold_left edit (typed k) line) t1 w1 Hk Hap1 Hn) as (t2 & w2 & E & Hap2 & Hy2).
  { intros n. specialize (Hfit (length (typed k) + n)%nat). by rewrite take_app_add, fold_left_app in Hfit. }
  exists t2, w2. rewrite fold_left_app. split_and!; [done|done|congruence].
Qed.
End Typing.

(** C26: Keys become a command line.  At the start of a row the prompt is shown.  Then the
    messages of any key events without an enter key keep the input and the row of the
    screen equal to the prompt and the edited line, as long as this is shorter than the
    row; the enter key moves to a new row and hands exactly this line to the shell. *)
Theorem typed_line_runs {W} `{ShellOs W} t0 (w0 : W) dir ks enter : screen_ok t0 -> cursor_y t0 < 30 -> cursor_x t0 = 0 -> enable_input t0 = true -> length (input t0) = 98%nat ->
  c_string (current_dir t0) 0 = Some dir -> (length dir <= 11)%nat -> Forall (fun c => c <> 10) dir ->
  Forall (fun k => 0 <= keycode k < 256) ks -> Forall (fun c => c <> 10) (flat_map typed ks) -> (forall n, lenz (prompt_text dir ++ fold_left edit (take n (flat_map typed ks)) []) < 98) ->
  press enter = true -> keycode_to_ascii (keycode enter) (modifier enter) = Some 10 ->
  let line := fold_left edit (flat_map typed ks) [] in
  exists t w t1 w1 t2 w2, print_user t0 w0 = Some (t, w) /\ handle_messages (map key_message ks) t w = Some (Parent (err OK) t1, w1) /\ at_prompt (prompt_text dir) line t1 /\ cursor_y t1 = cursor_y t0 /\
    handle_message (key_message enter) t1 w1 = ('(o, w) ← process_input line t2 w2;
      match o with
      | Parent r t => '(t, w) ← print_user (set_line (replicate 98 0) (input_index t) t) w; Some (Parent r t, w)
      | _ => Some (o, w)
      end) /\ screen_ok t2 /\ cursor_x t2 = 0 /\ cursor_y t2 = Z.min 29 (cursor_y t0 + 1).
Proof.
  intros Hok0 Hy0 Hx0 He0 Hl0 Hd0 Hdl Hdn Hk Hn Hfit Hpress Henter line. destruct (print_user_ok t0 w0 dir) as (t & w & E0 & Hap & Ey); [done..|].
  destruct (type_keys (prompt_text dir) ks [] t w Hk Hap Hn Hfit) as (t1 & w1 & E & Hap1 & Hy1). fold line in Hap1.
  destruct (type_enter (prompt_text dir) line t1 w1 Hap1) as (t2 & w2 & E2 & Hok2 & Hx2 & Hy2 & _); [specialize (Hfit (length (flat_map typed ks))); by rewrite take_ge in Hfit by lia|].
  exists t, w, t1, w1, t2, w2. rewrite Hy1, Ey in Hy2. split_and!; try done; [congruence|]. rewrite handle_key, Hpress. unfold on_key. change (1 =? 0) with false. cbn match. rewrite Henter. cbn [mbind option_bind]. change (negb (10 =? 0)) with true. cbn match. exact E2.
Qed.

(** A line of the width of the terminal breaks it: the character that fills the input
    is accepted, and with the next key, whichever it is, the terminal writes behind the
    array. *)
Theorem long_line_overflows {W} `{ShellOs W} prompt line t (w : W) c : at_prompt prompt line t -> lenz (prompt ++ line) = 97 -> c <> 8 -> c <> 10 ->
  exists t' w', input_char c t w = Some (Parent (err OK) t', w') /\ forall c' w2, input_char c' t' w2 = None.
Proof.
  intros Hap Hlen H8 H10. destruct (terminate_line prompt line t Hap) as [E Hap1]; [lia|]. unfold input_char at 1. rewrite (ap_enable _ _ _ Hap). cbn [negb]. rewrite E. cbn [mbind option_bind].
  destruct (Z.eqb_spec c 10), (Z.eqb_spec c 8); try done. set (w1 := delete_cursor t w). clearbody w1. set (t1 := set_line _ _ t) in *. clearbody t1. destruct Hap1 as [[Hok Hy] He (Hi & Hp & Hx) [Hl Ht] Hc Hz].
  rewrite put_at_spec by (unfold lenz in *; lia). cbn [mbind option_bind]. set (t2 := set_line _ _ t1). pose proof (print_char_spec c COLOR_WHITE t2 w1 (set_line_ok _ _ _ Hok) H10) as Hpr. pose proof (so_y _ Hok).
  assert (cell t2 < 2940) as Hlt by (unfold cell, TERMINAL_WIDTH; cbn [t2 set_line cursor_x cursor_y]; lia). apply Z.ltb_lt in Hlt. rewrite Hlt in Hpr. destruct Hpr as (t' & w' & -> & _ & _ & _ & Hin & Hix & _ & Hen & _).
  exists t', w'. split; [done|]. intros c' w2. unfold input_char. rewrite Hen. cbn [t2 set_line enable_input]. rewrite He. cbn [negb]. unfold put_at. rewrite Hix, Hin. cbn [t2 set_line input_index input]. rewrite Hi, Hlen. unfold lenz. by rewrite length_insert, Hl.
Qed.

(** ** Delivery of key events *)

Fixpoint observe_keys (focus_task : Z) (ks : list Key) (s : Sys) : option Sys :=
  match ks with
  | [] => Some s
  | k :: ks => s ← observe_key focus_task k s; observe_keys focus_task ks s
  end.

(** The queue of a task with room. *)
Definition queued (p : Z) (s : Sys) (ms : list Message) : Prop :=
  exists t, the_task p s = Some t /\ queue_ok (messages t) /\ holds (messages t) ms /\ is_Some (ring_ (messages t)).

Lemma observe_key_ok p k s ms : queued p s ms -> lenz ms < CAPACITY ->
  exists s', observe_key p k s = Some s' /\ queued p s' (ms ++ [key_message k]) /\ forall j, j <> p -> the_task j s' = the_task j s.
Proof.
  intros (t & Ht & Hq & Hms & Hring) Hroom. pose proof (the_task_range _ _ _ Ht) as Hr. unfold observe_key, process_ids.INVALID. destruct (Z.eqb_spec p (-1)); [lia|]. unfold send_message. destruct (Z.eqb_spec p (-1)); [lia|].
  rewrite (task_at_the_task _ _ _ Ht). cbn [mbind option_bind]. change (is_reply (key_message k)) with false. cbn match. unfold deliver_message.
  destruct (push_spec (messages t) ms (key_message k) Hq Hms) as [(_ & _ & q & -> & Hq' & Hms' & Hring')|[[Hno|Hno] _]]; [|destruct Hring; congruence|lia].
  destruct (decide _) as [Hw|Hw].
  - destruct (schedule_task p (put_task p (set_messages q t) s)) as [s'|] eqn:E.
    + cbn [mbind option_bind]. destruct (put_schedule_frame _ _ _ _ Hr E) as [Hd Ho]. exists s'. split; [done|]. split; [|done]. by eexists.
    + exfalso. rewrite (schedule_task_eq p _ (set_messages q t)) in E; [done|by apply the_task_put_eq].
  - cbn [mbind option_bind]. eexists. split; [reflexivity|]. split; [eexists; split; [by apply the_task_put_eq|done]|]. intros j Hj. rewrite the_task_put by done. by destruct (Z.eqb_spec j p).
Qed.

(** Key events reach the task with the focus, in order, and no other: after a task that
    exists has claimed the focus, the events are appended to its queue as messages from
    the USB task, as long as there is room. *)
Theorem keys_reach_focus claim ks s ms old : queued (sender claim) s ms -> lenz ms + lenz ks <= CAPACITY ->
  exists s', observe_keys (handle_set_focus claim old) ks s = Some s' /\ queued (sender claim) s' (ms ++ map key_message ks) /\
    forall j, j <> sender claim -> the_task j s' = the_task j s.
Proof.
  unfold handle_set_focus. revert s ms. induction ks as [|k ks IH]; intros s ms Hq Hroom; cbn [observe_keys map]; [rewrite app_nil_r; by exists s|]. rewrite lenz_cons in Hroom. pose proof (lenz_nonneg ks).
  destruct (observe_key_ok (sender claim) k s ms Hq) as (s1 & -> & Hq1 & Ho1); [lia|]. cbn [mbind option_bind]. destruct (IH s1 (ms ++ [key_message k]) Hq1) as (s2 & -> & Hq2 & Ho2); [rewrite lenz_app; change (lenz [_]) with 1; lia|].
  exists s2. rewrite <- app_assoc in Hq2. split_and!; [done|done|]. intros j Hj. by rewrite Ho2, Ho1.
Qed.

(** ** Command lines *)

Lemma split_at_first c a b : Forall (fun x => x <> c) a -> split_at c (a ++ c :: b) = Some (a, b).
Proof. induction 1 as [|x a Hx _ IH]; cbn [app split_at]; [by rewrite Z.eqb_refl|]. destruct (Z.eqb_spec x c); [done|]. by rewrite IH. Qed.

Lemma split_at_none c a : Forall (fun x => x <> c) a -> split_at c a = None.
Proof. induction 1 as [|x a Hx _ IH]; cbn [split_at]; [done|]. destruct (Z.eqb_spec x c); [done|]. by rewrite IH. Qed.

Lemma skip_spaces_pad n s : head s <> Some 32 -> skip_spaces (replicate n 32 ++ s) = s.
Proof. intros Hs. induction n as [|n IH]; [|exact IH]. destruct s as [|c s]; [done|]. cbn. destruct (Z.eqb_spec c 32) as [->|]; [by destruct Hs|done]. Qed.

Lemma trim_end_pad n s : last s <> Some 32 -> trim_end (s ++ replicate n 32) = s.
Proof. intros Hs. unfold trim_end. rewrite reverse_app, reverse_replicate, skip_spaces_pad; [apply reverse_involutive|]. by rewrite head_reverse. Qed.

(** A command line with its redirection, as a user writes it. *)
Definition render (name args : list Z) (redirect : option (nat * nat * list Z * nat)) : list Z :=
  name ++ match args with [] => [] | _ => 32 :: args end ++
  match redirect with Some (n1, n2, file, n3) => replicate n1 32 ++ 62 :: replicate n2 32 ++ file ++ replicate n3 32 | None => [] end.

(** The shell reads the command line that was written: the name up to the first space,
    the arguments behind it, and the file behind the redirection sign, without the
    spaces around the sign and at the end. *)
Theorem command_line_roundtrip name args redirect :
  Forall (fun c => c <> 32 /\ c <> 62) name -> Forall (fun c => c <> 62) args ->
  (forall n1 n2 file n3, redirect = Some (n1, n2, file, n3) -> name <> [] /\ last args <> Some 32 /\ head file <> Some 32 /\ last file <> Some 32) ->
  parse_line (render name args redirect) = (name, args, option_map (fun r => r.1.2) redirect).
Proof.
  intros Hname Hargs Hred. set (command := name ++ match args with [] => [] | _ => 32 :: args end).
  assert (Forall (fun c => c <> 32) name) as H32 by (eapply Forall_impl; [exact Hname|naive_solver]). assert (Forall (fun c => c <> 62) command) as H62.
  { apply Forall_app. split; [eapply Forall_impl; [exact Hname|naive_solver]|]. destruct args; [done|]. by constructor. }
  assert (match split_at 32 command with Some (a, b) => (a, b) | None => (command, []) end = (name, args)) as Hsplit.
  { unfold command. destruct args as [|a args]; [rewrite app_nil_r; by rewrite split_at_none|by rewrite split_at_first]. }
  unfold parse_line, render. rewrite app_assoc. fold command. destruct redirect as [[[[n1 n2] file] n3]|].
  - destruct (Hred _ _ _ _ eq_refl) as (Hne & Ha & Hf1 & Hf2). assert (Forall (fun c => c <> 62) (command ++ replicate n1 32)) as Hc by (apply Forall_app; split; [done|by apply Forall_replicate]).
    rewrite app_assoc, (split_at_first 62 _ _ Hc). assert (last command <> Some 32) as Hlast.
    { unfold command. destruct args as [|a args]; [rewrite app_nil_r; intros [l' ->]%last_Some; apply Forall_app in H32 as [_ H32]; by apply Forall_cons in H32 as [? _]|]. rewrite last_app. change (last (32 :: a :: args)) with (last (a :: args)). by destruct (last (a :: args)) eqn:E; [|apply last_None in E]. }
    rewrite (trim_end_pad n1 command Hlast). assert (trim_end (skip_spaces (replicate n2 32 ++ file ++ replicate n3 32)) = file) as ->.
    { destruct file as [|c file]; [cbn [app]|rewrite skip_spaces_pad by done; by apply trim_end_pad]. replace (replicate n2 32 ++ replicate n3 32) with (replicate (n2 + n3) 32 ++ []) by (by rewrite app_nil_r, replicate_add). by rewrite skip_spaces_pad. }
    cbn [option_map fst snd]. by destruct (split_at 32 command) as [[a b]|]; injection Hsplit as -> ->.
  - rewrite app_nil_r, (split_at_none 62 command H62). by destruct (split_at 32 command) as [[a b]|]; injection Hsplit as -> ->.
Qed.

(** ** A sample session *)

(** A system that remembers the commands, whose children end well. *)
#[export] Instance sample_os : ShellOs (list (list Z)) := {
  os_draw _ w := w;
  os_fork w := (9, w);
  os_wait w := (0, w);
  os_exec name _ w := (None, w ++ [name]);
  os_create _ w := (3, w);
  os_open _ w := (3, w);
  os_dup2 _ _ w := w;
  os_close _ w := w;
  os_send_done w := w ++ [[]];
  os_pwd w := (None, w);
  os_timer _ w := w;
  os_release _ w := w;
  os_text _ _ := Some [];
  os_claim_focus w := w;
  os_smoke_report _ w := w;
}.

Definition sample_terminal : Terminal := new_terminal (replicate 98 0) 0 0 false.

Lemma sample_terminal_ok : screen_ok sample_terminal.
Proof. split; [split; [done|by repeat constructor]|split; [done|by repeat constructor]|done|done]. Qed.

Lemma print_fills_cells_witness : exists t' w', print [104; 105] COLOR_WHITE sample_terminal [] = Some (t', w') /\ cell t' = 2.
Proof.
  destruct (print_fills_cells COLOR_WHITE [104; 105] sample_terminal []) as (t' & w' & E & _ & Ec & _); [exact sample_terminal_ok|by repeat constructor|done|]. exists t', w'. by split.
Defined.

Definition key (kc : Z) : Key := mkKey 0 kc true.

(** [l], [x], backspace, [s] and the enter key. *)
Lemma typed_line_runs_witness : exists t1 w1, at_prompt (prompt_text []) [108; 115] t1 /\ exists t2 w2 f, handle_message (key_message (key 40)) t1 w1 = process_input [108; 115] t2 w2 ≫= f.
Proof.
  destruct (typed_line_runs sample_terminal [] [] [key 15; mkKey 0 15 false; key 27; key 42; key 22] (key 40)) as (t & w & t1 & w1 & t2 & w2 & _ & _ & Hap & _ & E & _);
    [exact sample_terminal_ok|done|done|done|done|done|cbn; lia|constructor|by repeat constructor|by repeat constructor| |done|done|].
  - intros [|[|[|[|n]]]]; try (by vm_compute). change (flat_map typed _) with [108; 120; 8; 115]. rewrite take_ge by (cbn; lia). by vm_compute.
  - exists t1, w1. split; [exact Hap|]. exists t2, w2. eexists. exact E.
Defined.

Lemma keymap_complete_witness : exists kc md, keycode_to_ascii kc md = Some 65.
Proof. destruct (keymap_complete 65) as (kc & md & _ & _ & E & _); [lia|]. by exists kc, md. Defined.

Lemma command_line_roundtrip_witness : parse_line (render [108; 115] [97] (Some (1%nat, 1%nat, [102], 2%nat))) = ([108; 115], [97], Some [102]).
Proof. apply (command_line_roundtrip [108; 115] [97] (Some (1%nat, 1%nat, [102], 2%nat))); [by repeat constructor|by repeat constructor|]. by intros n1 n2 file n3 [= <- <- <- <-]. Defined.

Lemma edit_repeat n : forall line, fold_left edit (replicate n 97) line = line ++ replicate n 97.
Proof. induction n as [|n IH]; intros line; cbn [replicate fold_left]; [by rewrite app_nil_r|]. rewrite IH. change (edit line 97) with (line ++ [97]). by rewrite <- app_assoc. Qed.

Lemma full_line : exists t, at_prompt (prompt_text []) (replicate 83 97) t.
Proof.
  destruct (print_user_ok sample_terminal [] []) as (t & w & E & Hap & _); [exact sample_terminal_ok|done|done|done|done|done|cbn; lia|constructor|].
  assert (flat_map typed (replicate 83 (key 4)) = replicate 83 97) as Ek by done. destruct (type_keys (prompt_text []) (replicate 83 (key 4)) [] t []) as (t1 & w1 & E1 & Hap1 & _);
    [apply Forall_replicate; cbn; lia|exact Hap|rewrite Ek; apply Forall_replicate; lia| |].
  - intros n. rewrite Ek, take_replicate, edit_repeat, lenz_app. unfold lenz. rewrite length_app, length_replicate. change (length (prompt_text [])) with 14%nat. cbn [length]. lia.
  - exists t1. by rewrite Ek, edit_repeat in Hap1.
Qed.

Lemma long_line_overflows_witness : exists t w, input_char 97 t w = None.
Proof.
  destruct full_line as (t & Hap). destruct (long_line_overflows (prompt_text []) (replicate 83 97) t [] 97 Hap) as (t' & w' & _ & E); [done|done|done|]. exists t', w'. apply E.
Defined.

Lemma keys_reach_focus_witness : exists s', observe_keys (handle_set_focus (new_message INPUT_SET_FOCUS process_ids.KERNEL) process_ids.INVALID) [key 4; key 5] boot_state = Some s' /\ queued process_ids.KERNEL s' [key_message (key 4); key_message (key 5)].
Proof.
  destruct (keys_reach_focus (new_message INPUT_SET_FOCUS process_ids.KERNEL) [key 4; key 5] boot_state [] process_ids.INVALID) as (s' & E & Hq & _); [|done|by exists s'].
  eexists. split; [reflexivity|]. destruct (holds_nil true). by split_and!.
Defined.
