(* ===== verification/HeapDebug.v ===== *)
(** * Heap debugging

    [kernel/memory/heap_debug.cpp]: the hooks of the slab allocator in the builds with
    [KERNEL_HEAP_DEBUG_ENABLED], and the operations of [slab.cpp] as these builds have
    them.  The hooks fill the rest of an object behind the requested bytes (the
    redzone), fill freed objects (the poison), and count what they find changed. *)

From S2P Require Import Prelude Slab.

Open Scope Z_scope.

Definition REDZONE_SIZE : Z := 16.
Definition REDZONE_BYTE : Z := 0xF9.
Definition POISON_WORD : Z := 0xDEADBEEF.

Definition poison_byte (i : Z) : Z := u8 (Z.shiftr POISON_WORD (8 * Z.land i 3)).

Record AllocInfo := mkInfo { ai_raw : Z; ai_user_size : Z; ai_object_size : Z; ai_caller : Z }.

Record Stats := mkStats { double_free : Z; use_after_free : Z; redzone : Z }.

(** The tables and counters; [logged] counts the calls of [LOG_ERROR]. *)
Record Debug := mkDebug {
  live_allocs : gmap Z AllocInfo;
  poisoned_objs : gmap Z Z;
  g_stats : Stats;
  g_expected_violations : Z;
  logged : Z;
}.

Definition initialize (d : Debug) : Debug := mkDebug ∅ ∅ (mkStats 0 0 0) 0 (logged d).

Definition redzone_reserve : Z := REDZONE_SIZE.

(** ** Memory *)

Definition Memory := Z -> Z.

Definition store (a v : Z) (m : Memory) : Memory := fun x => if x =? a then v else m x.

(** The loops: byte [i] of the area at [p]. *)
Fixpoint fill (n : nat) (i p : Z) (f : Z -> Z) (m : Memory) : Memory :=
  match n with
  | O => m
  | S n => fill n (i + 1) p f (store (p + i) (f i) m)
  end.

Fixpoint intact (n : nat) (i p : Z) (f : Z -> Z) (m : Memory) : bool :=
  match n with
  | O => true
  | S n => if negb (m (p + i) =? f i) then false else intact n (i + 1) p f m
  end.

Definition poison_fill (p n : Z) (m : Memory) : Memory := fill (Z.to_nat n) 0 p poison_byte m.
Definition poison_intact (p n : Z) (m : Memory) : bool := intact (Z.to_nat n) 0 p poison_byte m.
Definition redzone_fill (p n : Z) (m : Memory) : Memory := fill (Z.to_nat n) 0 p (fun _ => REDZONE_BYTE) m.
Definition redzone_intact (p n : Z) (m : Memory) : bool := intact (Z.to_nat n) 0 p (fun _ => REDZONE_BYTE) m.

(** ** Hooks *)

(** A violation is counted, and logged unless one is expected. *)
Definition report (f : Stats -> Stats) (d : Debug) : Debug :=
  mkDebug (live_allocs d) (poisoned_objs d) (f (g_stats d)) (g_expected_violations d) (if g_expected_violations d =? 0 then logged d + 1 else logged d).

Definition count_double_free (s : Stats) : Stats := mkStats (double_free s + 1) (use_after_free s) (redzone s).
Definition count_use_after_free (s : Stats) : Stats := mkStats (double_free s) (use_after_free s + 1) (redzone s).
Definition count_redzone (s : Stats) : Stats := mkStats (double_free s) (use_after_free s) (redzone s + 1).

Definition set_tables (l : gmap Z AllocInfo) (p : gmap Z Z) (d : Debug) : Debug := mkDebug l p (g_stats d) (g_expected_violations d) (logged d).

Definition check_poison (raw : Z) (d : Debug) (m : Memory) : Debug :=
  match poisoned_objs d !! raw with
  | None => d
  | Some n =>
      let d := if negb (poison_intact raw n m) then report count_use_after_free d else d in
      set_tables (live_allocs d) (delete raw (poisoned_objs d)) d
  end.

Definition on_alloc (raw user_size object_size caller : Z) (d : Debug) (m : Memory) : Z * Debug * Memory :=
  let d := check_poison raw d m in
  let tail := u64 (raw + user_size) in
  let m := redzone_fill tail (u64 (raw + object_size - tail)) m in
  (raw, set_tables (<[raw := mkInfo raw user_size object_size caller]> (live_allocs d)) (poisoned_objs d) d, m).

Definition raw_from_user (user : Z) (d : Debug) : Z := match live_allocs d !! user with None => 0 | Some i => ai_raw i end.

Definition on_free (user caller : Z) (d : Debug) (m : Memory) : Z * Debug * Memory :=
  match live_allocs d !! user with
  | None => (0, report count_double_free d, m)
  | Some info =>
      let base := ai_raw info in
      let tail := u64 (base + ai_user_size info) in
      let d := if negb (redzone_intact tail (u64 (base + ai_object_size info - tail)) m) then report count_redzone d else d in
      let m := poison_fill base (ai_object_size info) m in
      (base, set_tables (delete user (live_allocs d)) (<[base := ai_object_size info]> (poisoned_objs d)) d, m)
  end.

Definition live_bytes (d : Debug) : Z := u64 (map_fold (fun _ i total => total + ai_user_size i) 0 (live_allocs d)).
Definition live_count (d : Debug) : Z := Z.of_nat (size (live_allocs d)).

(** [ExpectedViolation] and its destructor. *)
Definition expect_violation (d : Debug) : Debug := mkDebug (live_allocs d) (poisoned_objs d) (g_stats d) (g_expected_violations d + 1) (logged d).
Definition unexpect_violation (d : Debug) : Debug := mkDebug (live_allocs d) (poisoned_objs d) (g_stats d) (g_expected_violations d - 1) (logged d).

(** ** The allocator of the debugging build *)

(** [kernel::memory::alloc]: the request is enlarged by the redzone, and the address is
    that of the object. *)
Definition debug_alloc (sz flags align caller : Z) (h : Heap) (d : Debug) (m : Memory) : option (Z * Heap * Debug * Memory) :=
  if alloc_refuses sz align then Some (0, h, d, m)
  else
    let class := size_class (sz + redzone_reserve) align in
    if MAX_ALLOC_SIZE <? class then Some (0, h, d, m)
    else
      let (c, h) := cache_for class h in
      '(raw, h) ← cache_alloc c h;
      if raw =? 0 then Some (0, h, d, m)
      else
        cache ← cache_chain h !! c;
        let '(p, d, m) := on_alloc raw sz (object_size_ cache) caller d m in
        let m := if negb (Z.land flags ALLOC_ZEROED =? 0) then fill (Z.to_nat sz) 0 p (fun _ => 0) m else m in
        Some (p, h, d, m).

(** [kernel::memory::free] *)
Definition debug_free (addr caller : Z) (h : Heap) (d : Debug) (m : Memory) : option (Heap * Debug * Memory) :=
  if addr =? 0 then Some (h, d, m)
  else
    let '(raw, d, m) := on_free addr caller d m in
    if raw =? 0 then Some (h, d, m) else h ← free_raw raw h; Some (h, d, m).

(** [is_slab_object_in_use]; the map of aligned addresses is not consulted. *)
Definition debug_in_use (addr : Z) (h : Heap) (d : Debug) : option bool :=
  if addr =? 0 then Some false
  else
    let raw := raw_from_user addr d in
    is_slab_object_in_use (if raw =? 0 then addr else raw) (set_aligned ∅ h).

(** ** Lemmas *)

Lemma fill_spec n : forall i p f m a, fill n i p f m a = if (p + i <=? a) && (a <? p + i + Z.of_nat n) then f (a - p) else m a.
Proof.
  induction n as [|n IH]; intros i p f m a; cbn [fill].
  - by destruct (Z.leb_spec (p + i) a), (Z.ltb_spec a (p + i + Z.of_nat 0)); try lia.
  - rewrite IH. unfold store. destruct (Z.leb_spec (p + (i + 1)) a), (Z.ltb_spec a (p + (i + 1) + Z.of_nat n)), (Z.leb_spec (p + i) a), (Z.ltb_spec a (p + i + Z.of_nat (S n))), (Z.eqb_spec a (p + i)); cbn [andb]; try lia; try done; subst; f_equal; lia.
Qed.

Lemma intact_spec n : forall i p f m, intact n i p f m = true <-> forall a, p + i <= a < p + i + Z.of_nat n -> m a = f (a - p).
Proof.
  induction n as [|n IH]; intros i p f m; cbn [intact]; [split; [intros _ a; lia|done]|]. destruct (Z.eqb_spec (m (p + i)) (f i)) as [E|E]; cbn [negb].
  - rewrite IH. split; intros Hall a Ha; [|apply Hall; lia]. destruct (Z.eq_dec a (p + i)) as [->|]; [rewrite E; f_equal; lia|apply Hall; lia].
  - split; [done|]. intros Hall. destruct E. rewrite Hall by lia. f_equal. lia.
Qed.

(** An area in memory as a loop left it, and as a loop finds it. *)
Definition area (p n : Z) (f : Z -> Z) (m : Memory) : Prop := forall a, p <= a < p + n -> m a = f (a - p).

Lemma fill_area n p f m a : 0 <= n -> fill (Z.to_nat n) 0 p f m a = if (p <=? a) && (a <? p + n) then f (a - p) else m a.
Proof. intros Hn. rewrite fill_spec, Z2Nat.id, !Z.add_0_r by lia. done. Qed.

Lemma intact_area n p f m : 0 <= n -> intact (Z.to_nat n) 0 p f m = true <-> area p n f m.
Proof. intros Hn. rewrite intact_spec, Z2Nat.id, !Z.add_0_r by lia. done. Qed.

(** The redzone of an object that fits the address space. *)
Lemma tail_size raw us os : 0 <= raw -> 0 <= us <= os -> raw + os < 2 ^ 64 -> u64 (raw + us) = raw + us /\ u64 (raw + os - u64 (raw + us)) = os - us.
Proof. intros Hr Hu Hf. rewrite (wrap_small 64 (raw + us)) by lia. split; [done|]. rewrite wrap_small by lia. lia. Qed.

(** ** Programs

    The hooks see allocations, frees and the memory, which the program writes. *)
Inductive Op :=
| OAlloc (raw user_size object_size caller : Z)
| OFree (p caller : Z)
| OWrite (a v : Z).

Definition run_op (o : Op) (s : Debug * Memory) : Debug * Memory :=
  let (d, m) := s in
  match o with
  | OAlloc raw us os c => let '(_, d, m) := on_alloc raw us os c d m in (d, m)
  | OFree p c => let '(_, d, m) := on_free p c d m in (d, m)
  | OWrite a v => (d, store a v m)
  end.

(** The objects that are in use or were: the areas the tables know. *)
Definition object (d : Debug) (p n : Z) : Prop := (exists i, live_allocs d !! p = Some i /\ ai_object_size i = n) \/ poisoned_objs d !! p = Some n.

Definition apart (p n q k : Z) : Prop := p + n <= q \/ q + k <= p.

(** A correct program: the slab allocator hands out objects that are not in use and do
    not overlap, always the same objects; frees are of live objects; writes are to the
    bytes that were asked for. *)
Definition correct_op (o : Op) (s : Debug * Memory) : Prop :=
  match o with
  | OAlloc raw us os _ => 0 < raw /\ 0 <= us <= os /\ raw + os < 2 ^ 64 /\ live_allocs s.1 !! raw = None /\ forall q n, object s.1 q n -> if decide (q = raw) then n = os else apart raw os q n
  | OFree p _ => is_Some (live_allocs s.1 !! p)
  | OWrite a _ => exists p i, live_allocs s.1 !! p = Some i /\ p <= a < p + ai_user_size i
  end.

Inductive correct_run : list Op -> Debug * Memory -> Debug * Memory -> Prop :=
| cr_nil s : correct_run [] s s
| cr_cons o os s s' : correct_op o s -> correct_run os (run_op o s) s' -> correct_run (o :: os) s s'.

(** What the hooks keep of a correct program. *)
Record debug_ok (s : Debug * Memory) : Prop := mkDebugOk {
  do_live : forall p i, live_allocs s.1 !! p = Some i -> ai_raw i = p /\ 0 < p /\ 0 <= ai_user_size i <= ai_object_size i /\ p + ai_object_size i < 2 ^ 64 /\
    area (p + ai_user_size i) (ai_object_size i - ai_user_size i) (fun _ => REDZONE_BYTE) s.2;
  do_poisoned : forall p n, poisoned_objs s.1 !! p = Some n -> 0 <= n /\ live_allocs s.1 !! p = None /\ area p n poison_byte s.2;
  do_apart : forall p n q k, object s.1 p n -> object s.1 q k -> p <> q -> apart p n q k;
}.

Lemma area_frame p n f m m' : (forall a, p <= a < p + n -> m' a = m a) -> area p n f m -> area p n f m'.
Proof. intros He Ha a Hr. rewrite He by done. by apply Ha. Qed.

Lemma write_keeps_ok a v s : debug_ok s -> correct_op (OWrite a v) s -> debug_ok (run_op (OWrite a v) s).
Proof.
  destruct s as [d m]. intros Hok (q & j & Hq & Ha). pose proof (do_live _ Hok q j Hq) as (_ & _ & Hju & _ & _). split; cbn [run_op fst snd]; [| |exact (do_apart _ Hok)].
  - intros p i Hp. destruct (do_live _ Hok p i Hp) as (H1 & H2 & H3 & H4 & H5). split_and!; try done; [lia|lia|]. refine (area_frame _ _ _ _ _ _ H5). intros x Hx. unfold store. destruct (Z.eqb_spec x a) as [->|]; [|done]. exfalso.
    destruct (Z.eq_dec p q) as [->|Hne]; [cbn [fst] in *; rewrite Hq in Hp; injection Hp as ->; lia|]. destruct (do_apart _ Hok p (ai_object_size i) q (ai_object_size j)); [left; eauto|left; eauto|done|lia|lia].
  - intros p n Hp. destruct (do_poisoned _ Hok p n Hp) as (H1 & H2 & H3). split_and!; try done. refine (area_frame _ _ _ _ _ _ H3). intros x Hx. unfold store. destruct (Z.eqb_spec x a) as [->|]; [|done]. exfalso.
    destruct (Z.eq_dec p q) as [->|Hne]; [cbn [fst] in *; congruence|]. destruct (do_apart _ Hok p n q (ai_object_size j)); [by right|left; eauto|done|lia|lia].
Qed.

Lemma check_poison_ok raw d m : debug_ok (d, m) -> check_poison raw d m = set_tables (live_allocs d) (delete raw (poisoned_objs d)) d.
Proof.
  intros Hok. unfold check_poison. destruct (poisoned_objs d !! raw) as [n|] eqn:E.
  - destruct (do_poisoned _ Hok raw n E) as (Hn & _ & Ha). unfold poison_intact. rewrite (proj2 (intact_area n raw poison_byte m Hn) Ha). done.
  - rewrite delete_id by done. by destruct d.
Qed.

(** An allocation of a correct program finds the poison intact. *)
Lemma alloc_keeps_ok raw us os c s : debug_ok s -> correct_op (OAlloc raw us os c) s -> debug_ok (run_op (OAlloc raw us os c) s) /\ g_stats (run_op (OAlloc raw us os c) s).1 = g_stats s.1 /\ logged (run_op (OAlloc raw us os c) s).1 = logged s.1.
Proof.
  destruct s as [d m]. intros Hok (Hr & Hu & Hf & Hnew & Hobj). cbn [fst] in *. unfold run_op, on_alloc. rewrite check_poison_ok by done. destruct (tail_size raw us os) as [Et En]; [lia|lia|done|]. rewrite En, Et.
  split; [|done]. unfold redzone_fill. set (m' := fill _ _ _ _ _). assert (forall a, m' a = if (raw + us <=? a) && (a <? raw + os) then REDZONE_BYTE else m a) as Hm.
  { intros a. unfold m'. rewrite fill_area by lia. by replace (raw + us + (os - us)) with (raw + os) by lia. }
  assert (forall p n, 0 <= n -> apart raw os p n -> forall a, p <= a < p + n -> m' a = m a) as Hframe.
  { intros p n Hn Hap a Ha. rewrite Hm. destruct (Z.leb_spec (raw + us) a), (Z.ltb_spec a (raw + os)); cbn [andb]; try done. destruct Hap; lia. }
  assert (forall p n, object (set_tables (<[raw := mkInfo raw us os c]> (live_allocs d)) (delete raw (poisoned_objs d)) d) p n -> (p = raw /\ n = os) \/ (p <> raw /\ object d p n)) as Hobj'.
  { intros p n [(i & Hi & <-)|Hp]; cbn [set_tables live_allocs poisoned_objs] in *.
    - apply lookup_insert_Some in Hi as [[<- <-]|[Hne Hi]]; [by left|]. right. split; [done|]. left. eauto.
    - apply lookup_delete_Some in Hp as [Hne Hp]. right. split; [done|]. by right. }
  split; cbn [fst snd set_tables live_allocs poisoned_objs].
  - intros p i [[<- <-]|[Hne Hi]]%lookup_insert_Some.
    + cbn [ai_raw ai_user_size ai_object_size]. split_and!; try done; [lia|lia|]. intros a Ha. rewrite Hm. destruct (Z.leb_spec (raw + us) a), (Z.ltb_spec a (raw + os)); cbn [andb]; (lia || done).
    + destruct (do_live _ Hok p i Hi) as (H1 & H2 & H3 & H4 & H5). split_and!; try done; [lia|lia|]. refine (area_frame _ _ _ _ _ _ H5). intros a Ha. specialize (Hobj p (ai_object_size i) ltac:(left; eauto)). destruct (decide (p = raw)); [congruence|].
      apply (Hframe p (ai_object_size i)); [lia|done|lia].
  - intros p n [Hne Hp]%lookup_delete_Some. destruct (do_poisoned _ Hok p n Hp) as (H1 & H2 & H3). split_and!; [done|by rewrite lookup_insert_ne|]. refine (area_frame _ _ _ _ _ _ H3). intros a Ha. specialize (Hobj p n ltac:(by right)). destruct (decide (p = raw)); [congruence|]. by apply (Hframe p n).
  - intros p n q k [[-> ->]|[Hp Hpo]]%Hobj' [[-> ->]|[Hq Hqo]]%Hobj' Hne; [done| | |by apply (do_apart _ Hok)].
    + specialize (Hobj q k Hqo). by destruct (decide (q = raw)).
    + specialize (Hobj p n Hpo). destruct (decide (p = raw)); [done|]. unfold apart in *. lia.
Qed.

(** A free of a correct program finds the redzone intact. *)
Lemma free_keeps_ok p c s : debug_ok s -> correct_op (OFree p c) s -> debug_ok (run_op (OFree p c) s) /\ g_stats (run_op (OFree p c) s).1 = g_stats s.1 /\ logged (run_op (OFree p c) s).1 = logged s.1.
Proof.
  destruct s as [d m]. intros Hok [i Hi]. cbn [fst] in *. destruct (do_live _ Hok p i Hi) as (Er & Hp & Hu & Hf & Hz). unfold run_op, on_free. rewrite Hi. rewrite Er. destruct (tail_size p (ai_user_size i) (ai_object_size i)) as [Et En]; [lia|lia|done|]. rewrite En, Et.
  unfold redzone_intact. apply intact_area in Hz; [|lia]. cbn [snd] in Hz. rewrite Hz. cbn [negb]. split; [|done]. unfold poison_fill. set (n0 := ai_object_size i) in *. set (m' := fill _ _ _ _ _).
  assert (forall a, m' a = if (p <=? a) && (a <? p + n0) then poison_byte (a - p) else m a) as Hm by (intros a; unfold m'; by rewrite fill_area by lia).
  assert (forall q n, apart p n0 q n -> forall a, q <= a < q + n -> m' a = m a) as Hframe.
  { intros q n Hap a Ha. rewrite Hm. destruct (Z.leb_spec p a), (Z.ltb_spec a (p + n0)); cbn [andb]; try done. destruct Hap; lia. }
  assert (object d p n0) as Hobj by (left; eauto). assert (forall q n, object (set_tables (delete p (live_allocs d)) (<[p := n0]> (poisoned_objs d)) d) q n -> object d q n) as Hobj'.
  { intros q n [(j & Hj & <-)|Hq]; cbn [set_tables live_allocs poisoned_objs] in *; [apply lookup_delete_Some in Hj as [_ Hj]; left; eauto|]. apply lookup_insert_Some in Hq as [[<- <-]|[_ Hq]]; [done|by right]. }
  split; cbn [fst snd set_tables live_allocs poisoned_objs].
  - intros q j [Hne Hj]%lookup_delete_Some. destruct (do_live _ Hok q j Hj) as (H1 & H2 & H3 & H4 & H5). split_and!; try done; [lia|lia|]. refine (area_frame _ _ _ _ _ _ H5). intros a Ha. apply (Hframe q (ai_object_size j)); [|lia]. apply (do_apart _ Hok); [done|left; eauto|congruence].
  - intros q n [[<- <-]|[Hne Hq]]%lookup_insert_Some.
    + split_and!; [lia|apply lookup_delete_eq|]. intros a Ha. rewrite Hm. destruct (Z.leb_spec p a), (Z.ltb_spec a (p + n0)); cbn [andb]; (lia || done).
    + destruct (do_poisoned _ Hok q n Hq) as (H1 & H2 & H3). split_and!; [done|by rewrite lookup_delete_ne by congruence|]. refine (area_frame _ _ _ _ _ _ H3). apply Hframe. apply (do_apart _ Hok); [done|by right|congruence].
  - intros q n r k Hq Hr Hne. apply (do_apart _ Hok); auto.
Qed.

Lemma op_keeps_ok o s : debug_ok s -> correct_op o s -> debug_ok (run_op o s) /\ g_stats (run_op o s).1 = g_stats s.1 /\ logged (run_op o s).1 = logged s.1.
Proof. intros Hok. destruct o; [by apply alloc_keeps_ok|by apply free_keeps_ok|]. intros Hc. split; [by apply write_keeps_ok|by destruct s]. Qed.

Lemma fresh_ok d m : debug_ok (initialize d, m).
Proof. split; cbn [fst initialize live_allocs poisoned_objs]; [intros p i Hp|intros p n Hp|intros p n q k [(i & Hi & _)|Hp]]; by rewrite ?lookup_empty in *. Qed.

Lemma run_keeps_ok os s s' : correct_run os s s' -> debug_ok s -> debug_ok s' /\ g_stats s'.1 = g_stats s.1 /\ logged s'.1 = logged s.1.
Proof. induction 1 as [|o os s s' Hc _ IH]; [done|]. intros Hok. destruct (op_keeps_ok o s Hok Hc) as (H1 & H2 & H3). destruct (IH H1) as (H4 & H5 & H6). split_and!; congruence || done. Qed.

Lemma intact_dec n p f m : 0 <= n -> (intact (Z.to_nat n) 0 p f m = false <-> exists a, p <= a < p + n /\ m a <> f (a - p)).
Proof.
  intros Hn. destruct (intact _ _ _ _ _) eqn:E; split; try done.
  - intros (a & Ha & Hne). apply intact_area in E; [|done]. by destruct Hne; apply E.
  - intros _. assert (forall k i, intact k i p f m = false -> exists a, p + i <= a < p + i + Z.of_nat k /\ m a <> f (a - p)) as Hex.
    { induction k as [|k IH]; intros i; cbn [intact]; [done|]. destruct (Z.eqb_spec (m (p + i)) (f i)) as [_|Hne]; cbn [negb]; [intros (a & Ha & H)%IH; exists a; split; [lia|done]|]. intros _. exists (p + i). split; [lia|]. by replace (p + i - p) with i by lia. }
    destruct (Hex _ _ E) as (a & Ha & Hne). exists a. split; [lia|done].
Qed.

(** C34: A correct program raises no alarm: whatever it allocates, writes and frees, all
    counters stay at 0 and nothing is logged. *)
Theorem silent_on_correct_programs ops d m s : correct_run ops (initialize d, m) s -> g_stats s.1 = mkStats 0 0 0 /\ logged s.1 = logged d.
Proof. intros Hrun. destruct (run_keeps_ok _ _ _ Hrun (fresh_ok d m)) as (_ & H1 & H2). done. Qed.

(** C27: Violations are counted exactly.  After any correct program, with the memory as
    anything may have left it: a free of an address that is not live is counted, refused,
    and changes nothing else; the free of a live object counts an overflow if and only if
    some byte behind the requested ones differs from the redzone; the next allocation of
    a freed object counts a use after free if and only if some byte of it differs from
    the poison. *)
Theorem violations_reported ops d m0 d1 m1 m c : correct_run ops (initialize d, m0) (d1, m1) ->
  (forall p, live_allocs d1 !! p = None -> on_free p c d1 m = (0, report count_double_free d1, m) /\ double_free (g_stats (report count_double_free d1)) = 1) /\
  (forall p i, live_allocs d1 !! p = Some i -> let '(r, d2, _) := on_free p c d1 m in r = p /\ live_allocs d2 !! p = None /\
     redzone (g_stats d2) = if decide (redzone_intact (p + ai_user_size i) (ai_object_size i - ai_user_size i) m = false) then 1 else 0) /\
  (forall p i, live_allocs d1 !! p = Some i -> redzone_intact (p + ai_user_size i) (ai_object_size i - ai_user_size i) m = false <-> exists a, p + ai_user_size i <= a < p + ai_object_size i /\ m a <> REDZONE_BYTE) /\
  (forall p n us, poisoned_objs d1 !! p = Some n -> use_after_free (g_stats (on_alloc p us n c d1 m).1.2) = if decide (poison_intact p n m = false) then 1 else 0) /\
  (forall p n, poisoned_objs d1 !! p = Some n -> poison_intact p n m = false <-> exists a, p <= a < p + n /\ m a <> poison_byte (a - p)).
Proof.
  intros Hrun. destruct (run_keeps_ok _ _ _ Hrun (fresh_ok d m0)) as (Hok & Hs & _). cbn [fst] in Hs. change (g_stats (initialize d)) with (mkStats 0 0 0) in Hs. split_and!.
  - intros p Hp. unfold on_free. rewrite Hp. split; [done|]. cbn [report g_stats]. by rewrite Hs.
  - intros p i Hi. destruct (do_live _ Hok p i Hi) as (Er & Hp & Hu & Hf & _). unfold on_free. rewrite Hi, Er. destruct (tail_size p (ai_user_size i) (ai_object_size i)) as [Et En]; [lia|lia|done|]. rewrite En, Et. split; [done|].
    cbn [set_tables live_allocs g_stats]. split; [apply lookup_delete_eq|]. destruct (redzone_intact _ _ _); cbn [negb report g_stats count_redzone]; rewrite Hs; done.
  - intros p i Hi. destruct (do_live _ Hok p i Hi) as (_ & _ & Hu & _). unfold redzone_intact. rewrite intact_dec by lia. by replace (p + ai_user_size i + (ai_object_size i - ai_user_size i)) with (p + ai_object_size i) by lia.
  - intros p n us Hp. unfold on_alloc, check_poison. rewrite Hp. cbn [fst snd]. destruct (poison_intact p n m); cbn [negb set_tables report g_stats count_use_after_free]; rewrite Hs; done.
  - intros p n Hp. destruct (do_poisoned _ Hok p n Hp) as (Hn & _). by apply intact_dec.
Qed.

(** ** A sample program *)

Definition sample_debug : Debug := mkDebug ∅ ∅ (mkStats 0 0 0) 0 0.
Definition sample_memory : Memory := fun _ => 0.
Definition sample_ops : list Op := [OAlloc 0x1000 8 32 0; OWrite 0x1007 1; OFree 0x1000 0; OAlloc 0x1000 16 32 0].
Definition sample_result : Debug * Memory := fold_left (fun s o => run_op o s) sample_ops (initialize sample_debug, sample_memory).

Lemma sample_run : correct_run sample_ops (initialize sample_debug, sample_memory) sample_result.
Proof.
  constructor; [split_and!; try done; intros q n [(i & Hi & _)|Hp]; by rewrite ?lookup_empty in *|]. constructor; [exists 0x1000; eexists; split; [reflexivity|cbn; lia]|]. constructor; [eexists; reflexivity|]. constructor; [|constructor].
  set (s3 := run_op (OFree _ _) _). assert (live_allocs s3.1 = ∅ /\ poisoned_objs s3.1 = {[ 0x1000 := 32 ]}) as [El Ep] by (by vm_compute). clearbody s3. unfold correct_op. rewrite El. split_and!; try done.
  intros q n [(i & Hi & _)|Hp]; [by rewrite El, lookup_empty in Hi|]. rewrite Ep in Hp. apply lookup_singleton_Some in Hp as [<- <-]. done.
Qed.

Lemma silent_on_correct_programs_witness : g_stats sample_result.1 = mkStats 0 0 0.
Proof. apply (silent_on_correct_programs sample_ops sample_debug sample_memory sample_result sample_run). Defined.

Lemma violations_reported_witness : (on_free 0x2000 0 sample_result.1 sample_memory).1.1 = 0.
Proof.
  destruct (violations_reported sample_ops sample_debug sample_memory sample_result.1 sample_result.2 sample_memory 0 sample_run) as [Hd _]. destruct (Hd 0x2000) as [-> _]; [by vm_compute|reflexivity].
Defined.
